(* ===== verification/_CoqProject ===== *)
-Q . S2P
Prelude.v
MavChecksum.v
MavSha256.v
MavTypes.v
MavMessageTable.v
MavSigning.v
MavFinalize.v
MavParser.v
MavFraming.v
MavRoundtrip.v
MavFields.v
MavMessageLayout.v
MavMessages1.v
MavMessages2.v
MavMessages3.v
MavMessageTheorems.v
MavInfo.v
Zephyr.v
Cpp.v
CppDouble.v
CppParse.v
HardwareMotor.v
HardwareConfig.v
HardwareMotorSafety.v
HardwareDriver.v
HardwareTheorems.v
KvsChannel.v
VideoConfig.v
VideoRuntime.v
VideoRuntimeSafety.v
VideoRunSafety.v
VideoTheorems.v
VideoControlSafety.v
KvsText.v
KvsSessions.v
KvsMavlink.v
KvsSignal.v
KvsPeer.v
CapturePipeline.v
CaptureSetup.v
AwsJson.v
AgentController.v
AgentReconcile.v
AgentReconcileSafety.v
AgentShadow.v
AgentCloud.v
AgentRepair.v
AgentSample.v
AgentQueue.v
AgentSession.v
AgentSessionSafety.v
AgentSessionTheorems.v
AgentManual.v
AgentAws.v
AgentMicrovm.v
AgentMicrovmSafety.v
AgentMicrovmStatus.v
AgentServer.v
AgentServerSafety.v
AgentServerTheorems.v
AgentAttach.v
AgentArguments.v
AgentCredentials.v
AgentTransport.v
AgentTransportSafety.v
AgentHandler.v
AgentHandlerSafety.v
AgentAttachSafety.v
RedconBle.v
RedconSafety.v
RedconFunctions.v
WeatherBme280.v
OpenThread.v
ThreadDevice.v
ThreadSafety.v
ThreadFunctions.v
ThreadInstances.v
PowerSi.v
PowerSiSafety.v
PowerSiFunctions.v
