(* ===== verification/Prelude.v ===== *)
(** * txing: devices, board programs and cloud agent

    ** The program

    A txing device sleeps on a low-power link and is woken by a REDCON command;
    a robot (tbot) then streams telemetry and video and is driven by an operator,
    at a board or through an agent in the cloud. The C and C++ code of the
    repository has four parts.

    - The MAVLink library, [devices/common/board/mavlink/include/mavlink/v2.0].
      [checksum.h] and [mavlink_sha256.h] are its two hashes;
      [mavlink_helpers.h] builds, signs, sends and parses frames over the types
      of [mavlink_types.h]; the message table comes from [common/common.h]; 234
      generated headers ([mavlink_msg_*.h]) pack, send and decode one message
      each with the accessors of [protocol.h].
    - The firmware. [devices/common/mcu/xiao_nrf54l15/src/redcon.c] is the BLE
      firmware of the unit, power and weather devices: an application
      ([devices/unit], [power], [weather]: [mcu/src/main.c]) gives it two
      outputs and, if it has a sensor, hooks; a GATT write sets the REDCON level
      and submits a work item that switches outputs and notifies.
      [devices/common/mcu/xiao_nrf54lm20a/src/thread_device.c] is the Thread
      firmware of power-nrf and tbot: CoAP requests set the level, SRP callbacks
      and three delayed work items move the radio between receiver-on and
      sleepy operation and recover lost attachments.
      [devices/power-si/mcu/src/main.c] is the Thread firmware of power-si, with
      its own transition, fallback and bounded-retry work items and several
      Kconfig variants.
    - The board programs. [devices/common/board/hardware_worker] drives the
      tracks of a robot: a gRPC service over a motor controller with a watchdog
      ([motor.cpp]), over PWM channels in sysfs and GPIO direction pins.
      [devices/common/board/kvs_master] streams video and MAVLink over WebRTC:
      [runtime.cpp] moves frames of the camera into a session and keeps a second
      session for MAVLink in a thread of its own; a session
      ([kvs_session_real.cpp]) serves up to ten viewers.
    - The cloud agent, [agent]. A controller observes the shadow of a device
      ([activation.cpp]), reserves and tracks one MicroVM run per activation
      ([controller.cpp]), keeps that record in a shadow document
      ([controller_shadow.cpp]), and reconciles it with the MicroVM service in
      bounded passes ([reconcile.cpp], [cloud.cpp]); its Lambda handler
      ([controller_handler.cpp]) runs those passes on the AWS clients
      ([aws.cpp]), samples the runtimes ([runtime_sample.cpp]) and cleans up. In
      the MicroVM, an application ([microvm.cpp]) takes the one run it is given,
      lets one client attach while the assignment is verified, and reports its
      status; its session ([core.cpp]) keeps the connections to the device and
      the control lease of its board and forwards an operator's frames;
      [manual.cpp] is an operator that serves a local ground station over UDP.
      The MicroVM serves its hooks and one attached client over libwebsockets
      ([microvm_server.cpp]); [attach.cpp] is that client, with the same local
      operator; [kvs.cpp] and [peer.cpp] are the transport that the session uses,
      [credentials.cpp] lends the SDK its credentials.

    ** Conventions

    A w-bit integer is a [Z]; reductions ([u8], [u16], [u32], [s16], [s32], ...)
    stand where the code narrows or wraps. A buffer is a [list Z] of bytes;
    [store] is a checked write that fails outside the buffer, [memcpy_at] and
    [memset0] are writes whose bounds are shown by length lemmas.

    The firmware models are state monads ([Zephyr.M]) over the static variables
    of the file and a trace, newest event first, of what the program did to
    the outside: pins, regulators, work items, locks, messages, references.
    What a driver, the kernel or OpenThread answers is a function of the trace
    so far, a field of a platform record that every definition takes; nothing
    is assumed about it unless a theorem says so in a hypothesis. Kconfig and
    devicetree values are fields of a configuration record. Levels such as
    [pin_level] or [pending] are read back from the trace. Callbacks and work
    items run one after another, each to its end: the step relations
    ([redcon_step], [thread_step], [si_step]) allow every order of them, of
    failing calls and of expiring timers.

    The C++ models use the monad [Cpp.X]: state, trace and exceptions
    ([throw], [try_catch]). Abstract base classes of the code are type classes
    whose methods answer from the trace and may throw ([ReconcileBackend],
    [DrainBackend], [MotorDriver], [SessionEnv], [Board], [AwsJson]); what a
    client needs of an implementation is a class of laws ([DriverContract]) that
    the implementations instantiate. How far other threads interleave differs from
    component to component. [AgentSession.others] inserts any steps of theirs before
    every access to a shared member, and a call of theirs that reads a shared member
    and later writes one is two steps. In [AgentManual] the callbacks of the session
    run, each as a whole, before every critical section ([callbacks]) and before every
    call outside one ([unlocked]), so also between a check and the call that rests on
    it. [KvsChannel.MavlinkDiagnostics] is a step relation with one step per atomic
    access; [KvsSessions.step], [KvsSignal.step] and [CapturePipeline.step] have one
    per critical section or call. The handlers of [KvsPeer] are programs of such
    atoms ([prog]), and [pool_step] runs any number of them in any interleaving; a
    part under [peer_connection_lock] may be several atoms there, which allows more
    interleavings than the lock. [AgentMicrovmSafety.mv_run] runs the critical
    sections of the MicroVM application in any order. The handler runs a
    reconciliation pass, which was proved for any backend, on the AWS clients:
    the backend answers by replaying the history of the pass on the clients
    ([AgentHandler.replay]); the attached client serves the operator's actions in
    the same way ([AgentAttach.replay]). [AgentServerSafety.srv_run] is any order
    of callbacks that libwebsockets documents. Steady-clock times are nanoseconds.
    Doubles are binary64 in the Standard Library's [SpecFloat]; what
    [std::llround] returns outside its range is a parameter
    ([LlroundOutside]).

    ** Files

    - [Prelude]: machine integers, byte lists, shared tactics and lemmas.
    - [MavChecksum]: [checksum.h]; equal to the bitwise CRC-16/MCRF4XX, and the
      burst errors it detects.
    - [MavSha256]: [mavlink_sha256.h]; refines FIPS 180-4, also when a message
      arrives in pieces and with a dirty context.
    - [MavTypes], [MavMessageTable]: the structures, their well-formedness, the
      message table and its bisection.
    - [MavSigning]: [mavlink_sign_packet] and [mavlink_signature_check]; a fresh
      signed packet is accepted, an accepted one never again.
    - [MavFinalize]: trimming, finalising, serialising, channels; lengths, and
      the agreement of the buffered with the streaming sender.
    - [MavParser]: the receiving state machine; memory safety, isolation of the
      channels, return to idle.
    - [MavFraming]: what a reported frame says about the bytes received.
    - [MavRoundtrip]: what one channel sends another receives.
    - [MavFields]: the accessors of [protocol.h] and the functions that every
      message header repeats, as functions of the header's parts.
      [MavMessages1], [MavMessages2], [MavMessages3]: the parts of the 234
      headers, [MSG_<NAME>] and [GET_<NAME>]. [MavMessageLayout]: what makes a
      header consistent, and what follows. [MavMessageTheorems]: the headers
      agree with the table, and messages survive from arguments to arguments.
      [MavInfo]: [mavlink_get_info.h].
    - [Zephyr]: errno values, work items, the event trace and the monad with its
      weakest precondition and invariant rules.
    - [Cpp]: the monad of the C++ models, its weakest precondition [xwp], its
      invariant rules [xkeeps] and the tactics that apply them; [CppDouble]:
      binary64 operations with the rounding bounds the motor code needs.
    - [HardwareMotor]: the motor controller, its arithmetic and the
      service; [HardwareMotorSafety] the contract
      of a driver and the invariants of the service over it;
      [HardwareDriver]: the sysfs and the no-op driver, which meet the
      contract; [HardwareTheorems]: the worker as a whole.
      [HardwareConfig]: its command line and environment.
    - [CppParse]: [std::stol], [std::stoull], [std::stod], [std::getline] and the
      searches in strings that the configuration parsers use.
    - [KvsChannel]: three headers of the video master. [VideoConfig]: its command
      line, credentials and marker lines. [VideoRuntime]: [runtime.cpp];
      [VideoRuntimeSafety] has a logic of triples for it and what the events of a
      run must respect, [VideoRunSafety] the proof for [Run], [VideoTheorems] the
      theorems, [VideoControlSafety] the control loop and the camera probe.
      [KvsText], [KvsSessions], [KvsMavlink], [KvsSignal], [KvsPeer]: of
      [kvs_session_real.cpp], the text functions, the table of viewers, the
      MAVLink channel of a session, the signalling client under all
      interleavings of its users, and the peer connections with their handlers
      as threads.
      [CapturePipeline]: the threads of [video_capturer_libcamera.cpp] and the
      requests, buffers and frames between them; [CaptureSetup]: how it sets up
      and shuts down the camera and the encoder.
    - [AwsJson]: the JSON library as a class, and the law that what was
      written is read back, with an instance. [AgentController]: activations and
      runs. [AgentReconcile]: one pass; [AgentReconcileSafety] what it may do,
      and that it launches. [AgentShadow]: the record as a
      document. [AgentCloud]: launch requests and paging. [AgentRepair]: orphans
      and drains. [AgentSample]: status documents and their diagnostics.
    - [AgentAws]: the AWS clients over the services (class [AwsEnv])
      and which exceptions they throw. [AgentHandler]: the Lambda
      handler; [AgentHandlerSafety] what an invocation may do,
      and one on concrete services.
    - [AgentMicrovm]: the MicroVM application; [AgentMicrovmSafety] its
      refinement of an abstract gate and what it may do, [AgentMicrovmStatus]
      what its status says to the controller. [AgentServer]: the server in front
      of it; [AgentServerSafety] the order of the library's callbacks and what the
      server lets through, [AgentServerTheorems] that requests and messages arrive
      whole. [AgentAttach]: the attached client and the search for its MicroVM;
      [AgentAttachSafety] what it writes. [AgentArguments]: the command lines of
      the agent.
    - [AgentQueue], [AgentSession]: the queues and the session;
      [AgentSessionSafety] its invariant under interference,
      [AgentSessionTheorems] the theorems. [AgentManual]: the local operator.
      [AgentTransport]: the transport over the KVS SDK; [AgentTransportSafety] its
      use of the SDK. [AgentCredentials]: the credentials it lends.
    - [RedconBle]: [redcon.c] and [txing_redcon.h], all functions.
      [RedconSafety] has the contract of an application (class [RedconApp]), the
      step relation and the invariants over reachable states; the unit and
      power applications are instances of the class. [RedconFunctions] has the
      single operations: commands, factory record, battery, connection
      parameters.
    - [WeatherBme280]: the weather application: bus sequence, wait loop,
      compensation arithmetic, payload; it meets the application contract.
    - [OpenThread]: codes, structures and calls both Thread firmwares share.
    - [ThreadDevice]: [thread_device.c]; [ThreadSafety] has the step relation
      and the invariants, [ThreadFunctions] the single operations,
      [ThreadInstances] a provisioned tbot and its runs.
    - [PowerSi]: [power-si/mcu/src/main.c]; [PowerSiSafety] and
      [PowerSiFunctions] likewise.

    ** What the theorems show

    - MAVLink (C1, C6, C8, C9, C12, C24, C32, C35): sending and receiving
      are inverse in both protocol versions, signed or not; a frame is reported
      only if the bytes received are its image with a matching checksum and,
      where signing is on, an accepted signature; no input makes the parser
      leave its buffers or stay away from the idle state; replays are refused;
      the hashes are the standard ones. Every message of the dialect, sent in MAVLink 2
      to an idle receiver that trusts the sender, is packed, sent, received and
      decoded to the arguments it started from, its header
      agrees with the table and with the checksum seed of its definition, and
      further theorems say that the lookups find exactly the messages there are.
    - MicroVM, session and operators (C2, C5, C13, C21-C23, C28, C29, C31, C38): the application lets frames,
      control requests and outgoing messages through only under an attachment and an
      assignment, which is fresh where verification is required, and a status that the controller accepts
      tells the truth; frames go out only under the
      grant they were accepted under, in every interleaving; the lease is held
      exactly while a grant is in force and is given up in time; a session
      without a verified device stops; the local operator keeps to its
      authority and takes exactly the well-formed datagrams. The server stays
      within its buffers, takes hooks only on their port, and has one attached
      socket, through which whole messages pass; an attached client writes only
      what its operator forwarded; the transport uses the objects of the SDK while
      they exist and gives them back. Further theorems: the application behind the
      server keeps its rules and is detached at the end; after a release a client
      writes no frame; it attaches only to the MicroVM of the current assignment;
      the lent credentials live until the next refresh; both command lines take
      the same options; and a run in which a failure of the transport is lost.
    - Controller (C3, C7, C25, C26, C33, C36, C37, C39): an activation needs an observed edge and
      ends in time, a run keeps its life cycle, the record is well formed and
      survives the round trip through its document; a pass writes, launches and
      terminates only when it may, stops a run that cannot be verified, and
      launches when it should and the services answer; the drain stops everything it can see. The
      handler carries this over to the calls of the services: what is launched
      and terminated is justified by what the services answered. Further theorems:
      a controller that is not enabled launches nothing, and diagnostics pass on
      no text of a peer.
    - Hardware worker (C4, C14, C34): recorded motion is under the
      watchdog, a stop reaches both channels unless the driver failed, speeds
      and duty cycles keep their ranges; a theorem shows what a fault of the left side
      leaves running. Further theorems: errors are final, and every configuration
      that the command line accepts meets what the controller relies on.
    - Video master (C10, C15-C20, C30): the effects of a run keep their
      order in every execution, finished or not, and only one failure can crash it;
      the control loop owns at most one session, reports it ready only once it
      started and tries to withdraw that before it goes on; viewer sessions are
      bounded in the table, counted, and each in one place; frames reach the daemon only through
      the peer that is open and with the epoch it gave, and a session that was
      shut stays silent; peer connections and the signalling client are used only
      while they exist, each connection has one owner, a camera request is always in
      one place, and whatever was acquired for the camera is given back, unless a
      thread does not end and [Stop] waits for it. Further theorems: an access unit
      reaches every viewer; the credentials file is read back, the
      sampled counters are consistent, presentation times never go back, what the
      command line accepts, a probe succeeds only on a key frame; what goes
      wrong when a session cannot be created after a refresh; and four runs that
      show races of the camera pipeline and of the signalling client, and one that
      shows what it needs of [freeSignalingClient].
    - BLE devices (C27): outputs follow the level, where the pins can be
      driven. Further theorems: connection references balance; those of [RedconFunctions] and
      [WeatherBme280] give the command, factory-record, battery, weather and
      connection-parameter code on every branch.
    - Thread devices (C11): outputs and receiver follow the level. Further
      theorems: flags match the pending work, requests are answered once,
      factory records are accepted exactly when well formed, outputs change all
      or nothing, REDCON 4 sleeps, the retries back off, locks and messages
      balance.
    - power-si (C40): the same for its variants; its retries end after three.

    ** Fuel and bounds

    The definitions are total. Loops that are not structural have fuel:
    [update_loop] gets the length of the data, one byte at least being used per
    round; [bisect] gets the size of the table; [bme280_wait_loop] gets
    [wait_fuel], the timeout divided by the sleep of a round plus two, which
    [bme280_wait_terminates] shows to be enough for a clock that does not go
    back; [decimal_digits] gets ten digits, the most a 32-bit value has;
    [frames_loop] gets the length of the datagram; [page_loop] the 1000 pages
    of the code, and so do [things_loop] and the pages of a drain ([fetch_page],
    equal to [page_loop] by [drain_inventory_pages]); [run_loop] of
    [AgentTransport] takes the number of rounds, and its theorem holds for every
    number; [hex_loop] the eight digits of a status; [bisect_down] gets the size
    of its table; the loops of [VideoRuntime] take one fuel, and the theorems hold
    for every fuel: running out ends the run as [StillRunning], a prefix of an
    execution that goes on; [wait_polls] as many turns as the clock allows ([fs_polls]).
    [process_responses] takes the fuel of its caller, since other threads can
    feed it for ever: running out is an exception, so that safety holds for
    every prefix of the loop, and [tick_returns] shows that 65 is enough when
    they are quiet. Theorems about sessions hold up to 2^64 events, where the
    64-bit generation of a grant could repeat. The SHA-256 refinement holds
    below the 2^29 bytes that [mavlink_sha256.h] documents. The channel array
    has the 16 entries of a Linux build.

    ** Not modelled

    Preemption inside a firmware callback (the mutexes and atomics of the code
    are modelled as the plain accesses they protect); logging; the
    PSA key diagnostics and the log-only functions of power-si; the GATT
    attribute table and advertising data; the bit fields of [mavlink_helpers.h]
    and [mavlink_conversions.h], which nothing calls; big-endian machines;
    [MAVLINK_CHECK_MESSAGE_LENGTH], which no build defines; of the hardware
    worker the protocol buffers and main loop; of the video
    master the gRPC clients and the stubs of builds without the SDK; of the agent [device_run], which wires the session
    to the SDKs, the poller thread, the loop of [main], the validator of a token
    (a flag of the environment), TLS, and the counters of the transport. Of
    libwebsockets, the KVS SDK and the AWS clients only what their calls return
    and in which order they call back is part of a model. The programs of the rig,
    the witness, the office and the web are not C or C++.

    ** Plan

    Left: [device_run] and the loop of [main], which compose the session with the
    MicroVM application and with the local operator; resynchronisation of
    [mavlink_parse_char] after a bad frame. *)
From Stdlib Require Export ZArith Lia Bool.
From stdpp Require Export base tactics option list numbers.

#[global] Open Scope Z_scope.

(** ** Machine integers

    A C integer of width [w] is a [Z] kept in range by an explicit
    reduction: [u8], [u16], [u32], [u64] wrap modulo [2^w]; [s8], [s16], [s32]
    reduce to the two's complement range. *)

Definition wrapu (w x : Z) : Z := x mod 2 ^ w.
Definition wraps (w x : Z) : Z := (x + 2 ^ (w - 1)) mod 2 ^ w - 2 ^ (w - 1).

Abbreviation u8 := (wrapu 8).
Abbreviation u16 := (wrapu 16).
Abbreviation u32 := (wrapu 32).
Abbreviation u64 := (wrapu 64).
Abbreviation s8 := (wraps 8).
Abbreviation s16 := (wraps 16).
Abbreviation s32 := (wraps 32).
Abbreviation s64 := (wraps 64).

Definition in_u (w x : Z) : Prop := 0 ≤ x < 2 ^ w.
Definition in_s (w x : Z) : Prop := - 2 ^ (w - 1) ≤ x < 2 ^ (w - 1).
Abbreviation byte_ok := (in_u 8).
Abbreviation bytes_ok := (Forall (in_u 8)).

#[global] Instance in_u_dec w x : Decision (in_u w x).
Proof. unfold in_u. apply _. Defined.
#[global] Instance in_s_dec w x : Decision (in_s w x).
Proof. unfold in_s. apply _. Defined.

Lemma wrapu_in_u w x : 0 ≤ w → in_u w (wrapu w x).
Proof. intros. apply Z.mod_pos_bound, Z.pow_pos_nonneg; lia. Qed.

Lemma wrapu_id w x : in_u w x → wrapu w x = x.
Proof. intros [??]. by apply Z.mod_small. Qed.

Lemma wraps_in_s w x : 0 < w → in_s w (wraps w x).
Proof.
  intros. unfold wraps, in_s.
  pose proof (Z.mod_pos_bound (x + 2 ^ (w - 1)) (2 ^ w) ltac:(apply Z.pow_pos_nonneg; lia)).
  replace (2 ^ w) with (2 * 2 ^ (w - 1)) in *; [lia|].
  rewrite <- Z.pow_succ_r by lia. f_equal. lia.
Qed.

Lemma wraps_id w x : 0 < w → in_s w x → wraps w x = x.
Proof.
  intros Hw [??]. unfold wraps. rewrite Z.mod_small; [lia|].
  replace (2 ^ w) with (2 * 2 ^ (w - 1)); [lia|].
  rewrite <- Z.pow_succ_r by lia. f_equal. lia.
Qed.

(** Reducing the signed reading of [x] modulo [2^w] gives back the unsigned
    one: the bit pattern is what is transmitted. *)
Lemma wrapu_wraps w x : 0 < w → wrapu w (wraps w x) = wrapu w x.
Proof.
  intros. unfold wrapu, wraps.
  rewrite Zminus_mod_idemp_l. f_equal. lia.
Qed.

Lemma wraps_wrapu w x : 0 < w → wraps w (wrapu w x) = wraps w x.
Proof. intros. unfold wrapu, wraps. by rewrite Zplus_mod_idemp_l. Qed.

Create HintDb cword.
#[export] Hint Extern 1 (_ ≤ _) => lia : cword.
#[export] Hint Extern 1 (_ < _) => lia : cword.
#[export] Hint Resolve wrapu_in_u wraps_in_s : cword.

(** Closes a decidable goal by evaluating its decision. *)
Ltac decide_now := refine (bool_decide_unpack _ _); vm_compute; exact I.

(** ** Bits *)

Lemma testbit_above w x i : in_u w x → 0 ≤ w ≤ i → Z.testbit x i = false.
Proof.
  intros [??] ?. rewrite <- (Z.mod_small x (2 ^ w)) by done.
  apply Z.mod_pow2_bits_high. lia.
Qed.

Lemma in_u_bits w x :
  0 ≤ w → 0 ≤ x → (∀ i, w ≤ i → Z.testbit x i = false) → in_u w x.
Proof.
  intros ?? Hb. split; [done|]. by apply Z.bounded_iff_bits_nonneg.
Qed.

Lemma in_u_lxor w x y : 0 ≤ w → in_u w x → in_u w y → in_u w (Z.lxor x y).
Proof.
  intros Hw Hx Hy. apply in_u_bits; [done|apply Z.lxor_nonneg; unfold in_u in *; lia|].
  intros i Hi. rewrite Z.lxor_spec, !(testbit_above w) by (done || lia). done.
Qed.

Lemma in_u_lor w x y : 0 ≤ w → in_u w x → in_u w y → in_u w (Z.lor x y).
Proof.
  intros Hw Hx Hy. apply in_u_bits; [done|apply Z.lor_nonneg; unfold in_u in *; lia|].
  intros i Hi. rewrite Z.lor_spec, !(testbit_above w) by (done || lia). done.
Qed.

Lemma in_u_land w x y : 0 ≤ w → in_u w x → 0 ≤ y → in_u w (Z.land x y).
Proof.
  intros Hw Hx Hy. apply in_u_bits; [done|apply Z.land_nonneg; unfold in_u in *; lia|].
  intros i Hi. rewrite Z.land_spec, !(testbit_above w) by (done || lia). done.
Qed.

Lemma in_u_shiftr w x n : 0 ≤ w → 0 ≤ n → in_u w x → in_u w (Z.shiftr x n).
Proof.
  intros Hw Hn Hx. apply in_u_bits; [done|apply Z.shiftr_nonneg; unfold in_u in *; lia|].
  intros i Hi. rewrite Z.shiftr_spec, !(testbit_above w) by (done || lia). done.
Qed.

Lemma in_u_shiftr_sub w x n : 0 ≤ n ≤ w → in_u w x → in_u (w - n) (Z.shiftr x n).
Proof.
  intros Hn Hx. apply in_u_bits; [lia|apply Z.shiftr_nonneg; unfold in_u in *; lia|].
  intros i Hi. rewrite Z.shiftr_spec, !(testbit_above w) by (done || lia). done.
Qed.

Lemma in_u_mono w w' x : 0 ≤ w ≤ w' → in_u w x → in_u w' x.
Proof.
  intros ? [??]. split; [done|]. pose proof (Z.pow_le_mono_r 2 w w'). lia.
Qed.

#[export] Hint Resolve in_u_lxor in_u_lor in_u_land in_u_shiftr : cword.

(** [wrapu] keeps the low [w] bits. *)
Lemma wrapu_spec w x i : 0 ≤ w → Z.testbit (wrapu w x) i = (i <? w) && Z.testbit x i.
Proof.
  intros. unfold wrapu. destruct (Z.ltb_spec i w).
  - destruct (decide (0 ≤ i)); [by rewrite Z.mod_pow2_bits_low|].
    by rewrite !Z.testbit_neg_r by lia.
  - by rewrite Z.mod_pow2_bits_high by lia.
Qed.

Lemma wrapu_land w x : 0 ≤ w → wrapu w x = Z.land x (Z.ones w).
Proof. intros. unfold wrapu. by rewrite Z.land_ones. Qed.

Lemma wrapu_lxor w x y : 0 ≤ w → wrapu w (Z.lxor x y) = Z.lxor (wrapu w x) (wrapu w y).
Proof.
  intros. apply Z.bits_inj'; intros i Hi.
  rewrite wrapu_spec, !Z.lxor_spec, !wrapu_spec by done.
  by destruct (i <? w), (Z.testbit x i), (Z.testbit y i).
Qed.

(** A flag that was set is set. *)
Lemma land_lor_mask x m : Z.land (Z.lor x m) m = m.
Proof.
  apply Z.bits_inj'; intros i Hi. rewrite Z.land_spec, Z.lor_spec.
  by destruct (Z.testbit x i), (Z.testbit m i).
Qed.

(** Equality of two words by their bits, cases on the bit position. *)
Ltac word_bits :=
  apply Z.bits_inj'; let i := fresh "i" in intros i ?;
  repeat first
    [ rewrite Z.lxor_spec | rewrite Z.lor_spec | rewrite Z.land_spec
    | rewrite wrapu_spec by lia
    | rewrite Z.shiftr_spec by lia | rewrite Z.shiftl_spec by lia ].

(** ** Folds over byte sequences *)

Lemma foldl_cons {A B} (f : A → B → A) a b (l : list B) :
  foldl f a (b :: l) = foldl f (f a b) l.
Proof. done. Qed.

(** ** Byte order

    [le_bytes n x] is the memory image of the [n]-byte integer [x] on a
    little-endian machine; [be_bytes] is the network order. *)

Fixpoint le_bytes (n : nat) (x : Z) : list Z :=
  match n with
  | O => []
  | S n => x mod 256 :: le_bytes n (x / 256)
  end.

Fixpoint le_val (bs : list Z) : Z :=
  match bs with
  | [] => 0
  | b :: bs => b + 256 * le_val bs
  end.

Definition be_bytes (n : nat) (x : Z) : list Z := reverse (le_bytes n x).

Lemma length_le_bytes n x : length (le_bytes n x) = n.
Proof. revert x. induction n; simpl; auto. Qed.

Lemma le_bytes_ok n x : bytes_ok (le_bytes n x).
Proof.
  revert x. induction n; intros; simpl; constructor; [|done].
  apply Z.mod_pos_bound. lia.
Qed.

Lemma le_val_bytes n x : le_val (le_bytes n x) = x mod 2 ^ (8 * Z.of_nat n).
Proof.
  revert x. induction n as [|n IH]; intros x; simpl le_val; simpl le_bytes.
  - by rewrite Z.mod_1_r.
  - simpl. rewrite IH. replace (8 * Z.of_nat (S n)) with (8 + 8 * Z.of_nat n) by lia.
    rewrite Z.pow_add_r by lia. change (2 ^ 8) with 256.
    rewrite Z.rem_mul_r; [done|lia|apply Z.pow_pos_nonneg; lia].
Qed.

Lemma le_val_bytes_small n x : in_u (8 * Z.of_nat n) x → le_val (le_bytes n x) = x.
Proof. intros [??]. rewrite le_val_bytes. by apply Z.mod_small. Qed.

Lemma le_bytes_val bs : bytes_ok bs → le_bytes (length bs) (le_val bs) = bs.
Proof.
  induction 1 as [|b bs Hb _ IH]; simpl; [done|]. change (2 ^ 8) with 256 in *.
  unfold in_u in Hb. rewrite (Z.mul_comm 256), Z.mod_add, Z.div_add, Z.mod_small by lia.
  by rewrite Z.div_small, Z.add_0_l, IH by lia.
Qed.

Lemma le_val_in_u bs : bytes_ok bs → in_u (8 * Z.of_nat (length bs)) (le_val bs).
Proof.
  induction 1 as [|b bs Hb _ IH]; simpl length; [by vm_compute|].
  replace (8 * Z.of_nat (S (length bs))) with (8 + 8 * Z.of_nat (length bs)) by lia.
  unfold in_u in *. simpl le_val. rewrite Z.pow_add_r by lia. change (2 ^ 8) with 256 in *. lia.
Qed.

#[export] Hint Resolve le_bytes_ok : cword.

(** ** Memory

    [memcpy_at buf off bs] is the buffer after [memcpy(buf + off, bs, |bs|)] for
    a copy that stays inside the buffer; [store] is the checked form, [None] for a
    copy that would leave it (undefined behaviour in C). *)

Definition memcpy_at (buf : list Z) (off : nat) (bs : list Z) : list Z :=
  take off buf ++ bs ++ drop (off + length bs) buf.

Definition store (buf : list Z) (off : nat) (bs : list Z) : option (list Z) :=
  if bool_decide (off + length bs ≤ length buf)%nat then Some (memcpy_at buf off bs) else None.

Definition memset0 (buf : list Z) (off n : nat) : list Z :=
  memcpy_at buf off (replicate n 0).

Lemma length_memcpy_at buf off bs :
  (off + length bs ≤ length buf)%nat → length (memcpy_at buf off bs) = length buf.
Proof. intros. unfold memcpy_at. rewrite !length_app, length_take, length_drop. lia. Qed.

Lemma memcpy_at_ok buf off bs : bytes_ok buf → bytes_ok bs → bytes_ok (memcpy_at buf off bs).
Proof. intros. unfold memcpy_at. rewrite !Forall_app. auto using Forall_take, Forall_drop. Qed.

Lemma take_memcpy_at buf off bs n :
  (off + length bs ≤ length buf)%nat → (n ≤ off)%nat →
  take n (memcpy_at buf off bs) = take n buf.
Proof.
  intros. unfold memcpy_at. rewrite take_app_le by (rewrite length_take; lia).
  by rewrite take_take, Nat.min_l.
Qed.

Lemma take_memcpy_at_end buf off bs :
  (off + length bs ≤ length buf)%nat →
  take (off + length bs) (memcpy_at buf off bs) = take off buf ++ bs.
Proof.
  intros. unfold memcpy_at. rewrite app_assoc.
  rewrite take_app_length'; [done|]. rewrite length_app, length_take. lia.
Qed.

Lemma drop_memcpy_at buf off bs n :
  (off + length bs ≤ length buf)%nat → (off + length bs ≤ n)%nat →
  drop n (memcpy_at buf off bs) = drop n buf.
Proof.
  intros. unfold memcpy_at. rewrite app_assoc, drop_app_ge, drop_drop.
  - f_equal. rewrite length_app, length_take. lia.
  - rewrite length_app, length_take. lia.
Qed.

Lemma memcpy_at_all buf bs : length bs = length buf → memcpy_at buf 0 bs = bs.
Proof.
  intros. unfold memcpy_at. rewrite take_0, drop_ge by lia. by rewrite app_nil_r.
Qed.

Lemma memcpy_at_app buf off a b :
  (off + length a + length b ≤ length buf)%nat →
  memcpy_at (memcpy_at buf off a) (off + length a) b = memcpy_at buf off (a ++ b).
Proof.
  intros. unfold memcpy_at at 1. rewrite take_memcpy_at_end by lia.
  rewrite drop_memcpy_at by lia. unfold memcpy_at. rewrite <- !app_assoc, length_app.
  do 3 f_equal. f_equal. lia.
Qed.

Lemma memcpy_at_app' buf off off' a b :
  off' = (off + length a)%nat → (off' + length b ≤ length buf)%nat →
  memcpy_at (memcpy_at buf off a) off' b = memcpy_at buf off (a ++ b).
Proof. intros -> ?. by apply memcpy_at_app. Qed.

Lemma memcpy_at_to_end buf off bs :
  (off + length bs = length buf)%nat → memcpy_at buf off bs = take off buf ++ bs.
Proof. intros. unfold memcpy_at. rewrite drop_ge by lia. by rewrite app_nil_r. Qed.

Lemma store_in_bounds buf off bs :
  (off + length bs ≤ length buf)%nat → store buf off bs = Some (memcpy_at buf off bs).
Proof. intros. unfold store. by rewrite bool_decide_true. Qed.

(** ** Assembling a word from its bytes *)

Lemma lor_shiftl_add x c k : 0 ≤ k → in_u k x → Z.lor x (Z.shiftl c k) = x + c * 2 ^ k.
Proof.
  intros Hk Hx. rewrite <- Z.shiftl_mul_pow2 by done. symmetry. rewrite <- Z.lxor_lor, <- Z.add_nocarry_lxor; [done|..].
  all: apply Z.bits_inj'; intros i Hi; rewrite Z.land_spec, Z.bits_0, Z.shiftl_spec by done.
  all: destruct (Z.ltb_spec i k); [rewrite (Z.testbit_neg_r c) by lia; apply andb_false_r|].
  all: by rewrite (testbit_above k x i) by (done || lia).
Qed.

Lemma land_255 x : Z.land x 0xff = x mod 256.
Proof. apply (Z.land_ones x 8). lia. Qed.

Lemma shiftr_8 x : Z.shiftr x 8 = x / 256.
Proof. apply (Z.shiftr_div_pow2 x 8). lia. Qed.

Lemma shiftr_16 x : Z.shiftr x 16 = x / 256 / 256.
Proof. rewrite Z.shiftr_div_pow2 by lia. rewrite Z.div_div by lia. done. Qed.
