(* ===== verification/MavChecksum.v ===== *)
(** * CRC-16/MCRF4XX of the MAVLink C library

    Model of [mavlink/v2.0/checksum.h]: the byte-at-a-time accumulator
    [crc_accumulate], its loop [crc_accumulate_buffer] and [crc_calculate].
    The reference is the bitwise definition of the same polynomial
    (reflected 0x1021): shift right, xor 0x8408 when the bit falling out is set.
    The file shows the two agree, that the checksum stays in 16 bits, and that
    the checksum distinguishes frames that differ in a burst of two bytes. *)
From S2P Require Import Prelude.

(** ** The code *)

Definition X25_INIT_CRC : Z := 0xffff.
Definition X25_VALIDATE_CRC : Z := 0xf0b8.

(** [tmp = data ^ (uint8_t)( *crcAccum & 0xff); tmp ^= (tmp<<4);
    *crcAccum = ( *crcAccum>>8) ^ (tmp<<8) ^ (tmp<<3) ^ (tmp>>4)].
    The shifts are done at [int] width and cut by the assignments to [uint8_t]
    and [uint16_t]. *)
Definition crc_accumulate (data crcAccum : Z) : Z :=
  let tmp := u8 (Z.lxor data (u8 (Z.land crcAccum 0xff))) in
  let tmp := u8 (Z.lxor tmp (Z.shiftl tmp 4)) in
  u16 (Z.lxor (Z.lxor (Z.lxor (Z.shiftr crcAccum 8) (Z.shiftl tmp 8))
                      (Z.shiftl tmp 3))
              (Z.shiftr tmp 4)).

Definition crc_init : Z := X25_INIT_CRC.

(** The [while (length--)] loop consumes the buffer one byte at a time. *)
Definition crc_accumulate_buffer (crcAccum : Z) (pBuffer : list Z) : Z :=
  foldl (λ crc b, crc_accumulate b crc) crcAccum pBuffer.

Definition crc_calculate (pBuffer : list Z) : Z :=
  crc_accumulate_buffer crc_init pBuffer.

(** ** The reference: one bit at a time *)

Definition crc_bit (crc : Z) : Z :=
  Z.lxor (Z.shiftr crc 1) (if Z.testbit crc 0 then 0x8408 else 0).

Fixpoint crc_bits (n : nat) (crc : Z) : Z :=
  match n with O => crc | S n => crc_bits n (crc_bit crc) end.

Definition crc_byte_spec (data crc : Z) : Z := crc_bits 8 (Z.lxor crc data).

Definition crc_spec (bs : list Z) (crc : Z) : Z :=
  foldl (λ c b, crc_byte_spec b c) crc bs.

(** [crc_bit] mentions its argument twice: never unfold the iteration. *)
#[global] Strategy 1000 [crc_bits crc_bit].
#[global] Arguments crc_byte_spec : simpl never.
#[global] Arguments crc_accumulate : simpl never.

Lemma crc_accumulate_buffer_cons crc b bs :
  crc_accumulate_buffer crc (b :: bs) = crc_accumulate_buffer (crc_accumulate b crc) bs.
Proof. apply (foldl_cons (λ crc b, crc_accumulate b crc)). Qed.

Lemma crc_spec_cons crc b bs : crc_spec (b :: bs) crc = crc_spec bs (crc_byte_spec b crc).
Proof. apply (foldl_cons (λ c b, crc_byte_spec b c)). Qed.

Lemma crc_accumulate_buffer_app crc a b :
  crc_accumulate_buffer crc (a ++ b) =
  crc_accumulate_buffer (crc_accumulate_buffer crc a) b.
Proof. apply foldl_app. Qed.

(** ** Facts on the bit step *)

Lemma crc_bit_lxor a b : crc_bit (Z.lxor a b) = Z.lxor (crc_bit a) (crc_bit b).
Proof.
  unfold crc_bit. rewrite Z.shiftr_lxor, Z.lxor_spec.
  destruct (Z.testbit a 0), (Z.testbit b 0); simpl xorb; cbv iota;
    apply Z.bits_inj'; intros i ?; rewrite !Z.lxor_spec, ?Z.bits_0;
    generalize (Z.testbit (Z.shiftr a 1) i), (Z.testbit (Z.shiftr b 1) i),
      (Z.testbit 0x8408 i); by intros [] [] [].
Qed.

Lemma crc_bits_lxor n a b :
  crc_bits n (Z.lxor a b) = Z.lxor (crc_bits n a) (crc_bits n b).
Proof. revert a b. induction n as [|n IH]; intros a b; simpl; [done|]. by rewrite crc_bit_lxor, IH. Qed.

(** A word whose low bits are clear is only shifted. *)
Lemma crc_bits_shiftl n a :
  crc_bits n (Z.shiftl a (Z.of_nat n)) = a.
Proof.
  revert a. induction n as [|n IH]; intros a; [apply Z.shiftl_0_r|].
  simpl. unfold crc_bit.
  rewrite Z.shiftl_spec, Z.testbit_neg_r by lia.
  rewrite Z.shiftr_shiftl_l, Z.lxor_0_r by lia.
  replace (Z.of_nat (S n) - 1) with (Z.of_nat n) by lia. apply IH.
Qed.

Lemma crc_bits_shiftl8 a : crc_bits 8 (Z.shiftl a 8) = a.
Proof. apply (crc_bits_shiftl 8). Qed.

Lemma crc_bit_in_u16 crc : in_u 16 crc → in_u 16 (crc_bit crc).
Proof.
  intros. unfold crc_bit. apply in_u_lxor; [lia|by apply in_u_shiftr|].
  destruct (Z.testbit crc 0); by vm_compute.
Qed.

Lemma crc_bits_in_u16 n crc : in_u 16 crc → in_u 16 (crc_bits n crc).
Proof. revert crc. induction n; simpl; auto using crc_bit_in_u16. Qed.

(** The step loses no information on 16-bit words: bit 15 of the result is the
    bit that fell out. *)
Lemma crc_bit_inj a b : in_u 16 a → in_u 16 b → crc_bit a = crc_bit b → a = b.
Proof.
  intros Ha Hb E.
  assert (Hout : ∀ c, in_u 16 c → Z.testbit (crc_bit c) 15 = Z.testbit c 0).
  { intros c Hc. unfold crc_bit. rewrite Z.lxor_spec, Z.shiftr_spec by lia.
    rewrite (testbit_above 16 c (15 + 1)) by (done || lia). by destruct (Z.testbit c 0). }
  assert (E0 : Z.testbit a 0 = Z.testbit b 0) by (rewrite <- !Hout, E by done; done).
  assert (Es : Z.shiftr a 1 = Z.shiftr b 1).
  { unfold crc_bit in E. rewrite E0 in E.
    set (k := if Z.testbit b 0 then 0x8408 else 0) in *.
    apply (f_equal (λ x, Z.lxor x k)) in E.
    by rewrite !Z.lxor_assoc, !Z.lxor_nilpotent, !Z.lxor_0_r in E. }
  apply Z.bits_inj'; intros i Hi. destruct (decide (i = 0)) as [->|]; [done|].
  replace i with ((i - 1) + 1) by lia. rewrite <- !Z.shiftr_spec by lia. by rewrite Es.
Qed.

Lemma crc_bits_inj n a b :
  in_u 16 a → in_u 16 b → crc_bits n a = crc_bits n b → a = b.
Proof.
  revert a b. induction n as [|n IH]; intros a b Ha Hb; [done|].
  simpl. intros E. apply crc_bit_inj; [done..|].
  apply IH; [by apply crc_bit_in_u16..|done].
Qed.

(** ** The checksum is the bitwise one *)

Definition crc_tmp (t : Z) : Z :=
  let tmp := u8 (Z.lxor t (Z.shiftl t 4)) in
  Z.lxor (Z.lxor (Z.shiftl tmp 8) (Z.shiftl tmp 3)) (Z.shiftr tmp 4).

Definition crc_tmp_agrees (t : Z) : bool :=
  u16 (crc_tmp t) =? crc_bits 8 t.

Lemma crc_tmp_table :
  forallb crc_tmp_agrees (Z.of_nat <$> seq 0 256) = true.
Proof. vm_compute. reflexivity. Qed.

Lemma crc_tmp_spec t : in_u 8 t → u16 (crc_tmp t) = crc_bits 8 t.
Proof.
  intros Ht. pose proof crc_tmp_table as H.
  rewrite forallb_forall in H. apply Z.eqb_eq, H.
  apply list_elem_of_In, list_elem_of_fmap. exists (Z.to_nat t).
  unfold in_u in Ht. split; [lia|]. apply elem_of_seq. lia.
Qed.

Lemma low_high_byte crc : 
  crc = Z.lxor (Z.shiftl (Z.shiftr crc 8) 8) (u8 crc).
Proof.
  apply Z.bits_inj'; intros i Hi.
  rewrite Z.lxor_spec, Z.shiftl_spec, wrapu_spec by lia.
  destruct (Z.ltb_spec i 8).
  - rewrite (Z.testbit_neg_r _ (i - 8)) by lia. by destruct (Z.testbit crc i).
  - rewrite Z.shiftr_spec by lia. replace (i - 8 + 8) with i by lia.
    by destruct (Z.testbit crc i).
Qed.

Lemma crc_accumulate_spec data crc :
  in_u 8 data → in_u 16 crc → crc_accumulate data crc = crc_byte_spec data crc.
Proof.
  intros Hd Hc. unfold crc_byte_spec.
  rewrite (low_high_byte crc) at 2. rewrite Z.lxor_assoc, crc_bits_lxor.
  rewrite crc_bits_shiftl8.
  assert (Ht : in_u 8 (Z.lxor (u8 crc) data)) by auto with cword.
  rewrite <- (crc_tmp_spec _ Ht).
  unfold crc_accumulate, crc_tmp.
  change (Z.land crc 0xff) with (Z.land crc (Z.ones 8)).
  rewrite <- wrapu_land by lia. rewrite (wrapu_id 8 (u8 crc)) by auto with cword.
  rewrite (Z.lxor_comm data), (wrapu_id 8 (Z.lxor (u8 crc) data)) by done.
  rewrite !Z.lxor_assoc, wrapu_lxor by lia. f_equal.
  apply wrapu_id. by apply in_u_shiftr.
Qed.

Lemma crc_byte_spec_in_u16 data crc :
  in_u 8 data → in_u 16 crc → in_u 16 (crc_byte_spec data crc).
Proof.
  intros Hd Hc. unfold crc_byte_spec.
  assert (in_u 16 (Z.lxor crc data)) as H.
  { apply in_u_lxor; [lia|done|]. eapply in_u_mono; [|done]. lia. }
  by apply crc_bits_in_u16.
Qed.

Lemma crc_accumulate_in_u16 data crc : in_u 16 (crc_accumulate data crc).
Proof. apply wrapu_in_u. lia. Qed.

Lemma crc_init_in_u16 : in_u 16 crc_init.
Proof. by vm_compute. Qed.
#[export] Hint Resolve crc_accumulate_in_u16 crc_init_in_u16 : cword.

Lemma crc_accumulate_buffer_in_u16 crc bs :
  in_u 16 crc → in_u 16 (crc_accumulate_buffer crc bs).
Proof.
  revert crc. induction bs; intros; [done|].
  rewrite crc_accumulate_buffer_cons. auto with cword.
Qed.
#[export] Hint Resolve crc_accumulate_buffer_in_u16 : cword.

(** The byte-wise shift-and-xor of crc_accumulate is the bitwise CRC-16/MCRF4XX
    (polynomial 0x1021, reflected). *)
Theorem crc_accumulate_buffer_spec bs crc :
  bytes_ok bs → in_u 16 crc → crc_accumulate_buffer crc bs = crc_spec bs crc.
Proof.
  intros Hbs. revert crc. induction Hbs as [|b bs Hb _ IH]; intros crc Hc; [done|].
  rewrite crc_accumulate_buffer_cons, crc_spec_cons, crc_accumulate_spec by done.
  by apply IH, crc_byte_spec_in_u16.
Qed.

(** ** Error detection *)

Lemma crc_accumulate_inj data crc crc' :
  in_u 8 data → in_u 16 crc → in_u 16 crc' →
  crc_accumulate data crc = crc_accumulate data crc' → crc = crc'.
Proof.
  intros Hd Hc Hc'. rewrite !crc_accumulate_spec by done. intros E.
  assert (Hd' : in_u 16 data) by (eapply in_u_mono; [|done]; lia).
  unfold crc_byte_spec in E. apply crc_bits_inj in E; [|auto with cword..].
  apply (f_equal (λ x, Z.lxor x data)) in E.
  by rewrite !Z.lxor_assoc, !Z.lxor_nilpotent, !Z.lxor_0_r in E.
Qed.

Lemma crc_accumulate_buffer_inj bs crc crc' :
  bytes_ok bs → in_u 16 crc → in_u 16 crc' →
  crc_accumulate_buffer crc bs = crc_accumulate_buffer crc' bs → crc = crc'.
Proof.
  intros Hbs. revert crc crc'. induction Hbs as [|b bs Hb _ IH]; intros crc crc' Hc Hc' E; [done|].
  rewrite !crc_accumulate_buffer_cons in E. apply IH in E; [|auto with cword..].
  by apply crc_accumulate_inj in E.
Qed.

(** Two bytes are absorbed as one 16-bit word. *)
Lemma crc_two_bytes a b crc :
  in_u 8 a → in_u 8 b → in_u 16 crc →
  crc_accumulate b (crc_accumulate a crc) =
  crc_bits 8 (crc_bits 8 (Z.lxor crc (Z.lxor a (Z.shiftl b 8)))).
Proof.
  intros Ha Hb Hc. rewrite !crc_accumulate_spec by auto with cword.
  unfold crc_byte_spec. rewrite <- Z.lxor_assoc.
  rewrite (crc_bits_lxor 8 (Z.lxor crc a) (Z.shiftl b 8)).
  by rewrite crc_bits_shiftl8.
Qed.

Lemma two_bytes_inj a b a' b' :
  in_u 8 a → in_u 8 b → in_u 8 a' → in_u 8 b' →
  Z.lxor a (Z.shiftl b 8) = Z.lxor a' (Z.shiftl b' 8) → a = a' ∧ b = b'.
Proof.
  intros Ha Hb Ha' Hb' E.
  assert (H : ∀ x y, in_u 8 x → in_u 8 y → Z.lxor x (Z.shiftl y 8) = x + 256 * y).
  { intros x y Hx Hy. rewrite <- Z.add_nocarry_lxor.
    - rewrite Z.shiftl_mul_pow2 by lia. lia.
    - apply Z.bits_inj'; intros i Hi. rewrite Z.land_spec, Z.shiftl_spec, Z.bits_0 by lia.
      destruct (decide (i < 8)); [rewrite (Z.testbit_neg_r _ (i - 8)) by lia; apply andb_false_r|].
      by rewrite (testbit_above 8 x) by (done || lia). }
  rewrite !H in E by done. unfold in_u in *. lia.
Qed.

(** Two messages that differ in two adjacent bytes have different checksums. *)
Theorem crc_detects_two_byte_burst pre post a b a' b' :
  bytes_ok pre → bytes_ok post → bytes_ok [a; b; a'; b'] → [a; b] ≠ [a'; b'] →
  crc_calculate (pre ++ [a; b] ++ post) ≠ crc_calculate (pre ++ [a'; b'] ++ post).
Proof.
  intros Hpre Hpost Hab Hne E. apply Hne.
  enough (a = a' ∧ b = b') as [-> ->] by done. inversion_clear Hab as [|?? Ha H]. inversion_clear H as [|?? Hb H'].
  inversion_clear H' as [|?? Ha' H]. inversion_clear H as [|?? Hb' _].
  unfold crc_calculate in E. rewrite !crc_accumulate_buffer_app in E.
  apply crc_accumulate_buffer_inj in E; [|auto with cword..].
  rewrite !crc_accumulate_buffer_cons in E.
  unfold crc_accumulate_buffer at 1 3 in E. simpl foldl in E.
  rewrite !crc_two_bytes in E by auto with cword.
  assert (Hw : ∀ x y, in_u 8 x → in_u 8 y → in_u 16 (Z.lxor x (Z.shiftl y 8))).
  { intros x y Hx Hy. apply in_u_lxor; [lia|eapply in_u_mono; [|done]; lia|].
    unfold in_u in *. rewrite Z.shiftl_mul_pow2 by lia. lia. }
  apply crc_bits_inj in E; [|auto 10 using crc_bits_in_u16 with cword..].
  apply crc_bits_inj in E; [|auto 10 with cword..].
  apply two_bytes_inj; [done..|].
  set (c := crc_accumulate_buffer crc_init pre) in *.
  apply (f_equal (Z.lxor c)) in E.
  by rewrite <- !(Z.lxor_assoc c c), !Z.lxor_nilpotent, !Z.lxor_0_l in E.
Qed.

(** The standard check value of CRC-16/MCRF4XX, over "123456789". *)
Example crc_check_value :
  crc_calculate [49; 50; 51; 52; 53; 54; 55; 56; 57] = 0x6f91.
Proof. vm_compute. reflexivity. Qed.

Lemma crc_accumulate_buffer_spec_witness :
  crc_accumulate_buffer 0xffff [49; 50; 51] = crc_spec [49; 50; 51] 0xffff.
Proof. apply (crc_accumulate_buffer_spec [49; 50; 51] 0xffff); decide_now. Defined.

(** "1" "23" "4" against "1" "32" "4". *)
Lemma crc_detects_two_byte_burst_witness :
  crc_calculate ([49] ++ [50; 51] ++ [52]) ≠ crc_calculate ([49] ++ [51; 50] ++ [52]).
Proof.
  apply (crc_detects_two_byte_burst [49] [52] 50 51 51 50); decide_now.
Defined.
