(* ===== verification/MavSha256.v ===== *)
(** * SHA-256 of the MAVLink C library

    Model of [mavlink/v2.0/mavlink_sha256.h]: the context with its 64-byte save
    area reused as a 16-word ring buffer for the message schedule, [init],
    [calc], [update] and [final_48]. The reference is FIPS 180-4: the message is
    padded, cut in 64-byte blocks, each block expanded to 64 schedule words.
    The file shows that the code's digest is the first six bytes of the FIPS
    digest of the concatenation of everything hashed, however it was cut in
    [update] calls, below the 2^29 byte limit the source warns of. *)
From S2P Require Import Prelude.

(** ** Word operations (the macros) *)

Definition Ch (x y z : Z) : Z := Z.lxor (Z.land x y) (Z.land (u32 (Z.lnot x)) z).
Definition Maj (x y z : Z) : Z := Z.lxor (Z.lxor (Z.land x y) (Z.land x z)) (Z.land y z).
Definition ROTR (x n : Z) : Z := Z.lor (Z.shiftr x n) (u32 (Z.shiftl x (32 - n))).
Definition Sigma0 (x : Z) : Z := Z.lxor (Z.lxor (ROTR x 2) (ROTR x 13)) (ROTR x 22).
Definition Sigma1 (x : Z) : Z := Z.lxor (Z.lxor (ROTR x 6) (ROTR x 11)) (ROTR x 25).
Definition sigma0 (x : Z) : Z := Z.lxor (Z.lxor (ROTR x 7) (ROTR x 18)) (Z.shiftr x 3).
Definition sigma1 (x : Z) : Z := Z.lxor (Z.lxor (ROTR x 17) (ROTR x 19)) (Z.shiftr x 10).

Definition mavlink_sha256_constant_256 : list Z :=
  concat [
    [0x428a2f98; 0x71374491; 0xb5c0fbcf; 0xe9b5dba5];
    [0x3956c25b; 0x59f111f1; 0x923f82a4; 0xab1c5ed5];
    [0xd807aa98; 0x12835b01; 0x243185be; 0x550c7dc3];
    [0x72be5d74; 0x80deb1fe; 0x9bdc06a7; 0xc19bf174];
    [0xe49b69c1; 0xefbe4786; 0x0fc19dc6; 0x240ca1cc];
    [0x2de92c6f; 0x4a7484aa; 0x5cb0a9dc; 0x76f988da];
    [0x983e5152; 0xa831c66d; 0xb00327c8; 0xbf597fc7];
    [0xc6e00bf3; 0xd5a79147; 0x06ca6351; 0x14292967];
    [0x27b70a85; 0x2e1b2138; 0x4d2c6dfc; 0x53380d13];
    [0x650a7354; 0x766a0abb; 0x81c2c92e; 0x92722c85];
    [0xa2bfe8a1; 0xa81a664b; 0xc24b8b70; 0xc76c51a3];
    [0xd192e819; 0xd6990624; 0xf40e3585; 0x106aa070];
    [0x19a4c116; 0x1e376c08; 0x2748774c; 0x34b0bcb5];
    [0x391c0cb3; 0x4ed8aa4a; 0x5b9cca4f; 0x682e6ff3];
    [0x748f82ee; 0x78a5636f; 0x84c87814; 0x8cc70208];
    [0x90befffa; 0xa4506ceb; 0xbef9a3f7; 0xc67178f2] ].

(** ** The context and its operations *)

(** [save_bytes] is the byte view of the union [u]. *)
Record mavlink_sha256_ctx := mk_ctx {
  save_bytes : list Z;
  counter : list Z;
  sz : Z
}.

Definition sha256_iv : list Z :=
  [ 0x6a09e667; 0xbb67ae85; 0x3c6ef372; 0xa54ff53a;
    0x510e527f; 0x9b05688c; 0x1f83d9ab; 0x5be0cd19 ].

(** The save area is left as it was (the C code does not touch it). *)
Definition mavlink_sha256_init (m : mavlink_sha256_ctx) : mavlink_sha256_ctx :=
  mk_ctx (save_bytes m) sha256_iv 0.

(** [w |= b<<24; w |= b<<16; w |= b<<8; w |= b<<0]. *)
Definition pack_word (b0 b1 b2 b3 : Z) : Z :=
  Z.lor (Z.lor (Z.lor (u32 (Z.shiftl b0 24)) (u32 (Z.shiftl b1 16)))
               (u32 (Z.shiftl b2 8))) (u32 (Z.shiftl b3 0)).

Fixpoint pack_words (bs : list Z) : list Z :=
  match bs with
  | b0 :: b1 :: b2 :: b3 :: rest => pack_word b0 b1 b2 b3 :: pack_words rest
  | _ => []
  end.

Record regs := mk_regs { AA : Z; BB : Z; CC : Z; DD : Z; EE : Z; FF : Z; GG : Z; HH : Z }.

(** The register rotation at the end of one iteration. *)
Definition round_regs (r : regs) (k data : Z) : regs :=
  let T1 := u32 (HH r + Sigma1 (EE r) + Ch (EE r) (FF r) (GG r) + k + data) in
  let T2 := u32 (Sigma0 (AA r) + Maj (AA r) (BB r) (CC r)) in
  mk_regs (u32 (T1 + T2)) (AA r) (BB r) (CC r) (u32 (DD r + T1)) (EE r) (FF r) (GG r).

(** One iteration of the 64-round loop over the ring [s]. *)
Definition calc_round (st : list Z * regs) (i : nat) : list Z * regs :=
  let '(s, r) := st in
  let '(data, s) :=
    if bool_decide (i < 16)%nat then (s !!! i, s)
    else
      let data := u32 (sigma1 (s !!! Nat.land (i - 2) 15) + s !!! Nat.land (i - 7) 15 +
                       sigma0 (s !!! Nat.land (i - 15) 15) + s !!! Nat.land (i - 16) 15) in
      (data, <[Nat.land i 15 := data]> s) in
  (s, round_regs r (mavlink_sha256_constant_256 !!! i) data).

Definition regs_of (c : list Z) : regs :=
  mk_regs (c !!! 0%nat) (c !!! 1%nat) (c !!! 2%nat) (c !!! 3%nat)
          (c !!! 4%nat) (c !!! 5%nat) (c !!! 6%nat) (c !!! 7%nat).

Definition add_regs (c : list Z) (r : regs) : list Z :=
  [ u32 (c !!! 0%nat + AA r); u32 (c !!! 1%nat + BB r);
    u32 (c !!! 2%nat + CC r); u32 (c !!! 3%nat + DD r);
    u32 (c !!! 4%nat + EE r); u32 (c !!! 5%nat + FF r);
    u32 (c !!! 6%nat + GG r); u32 (c !!! 7%nat + HH r) ].

(** The ring is the word view of the union: when the loop ends the save area
    holds the last 16 schedule words in the machine's byte order. *)
Definition mavlink_sha256_calc (m : mavlink_sha256_ctx) : mavlink_sha256_ctx :=
  let s := pack_words (save_bytes m) in
  let '(s, r) := foldl calc_round (s, regs_of (counter m)) (seq 0 64) in
  mk_ctx (concat (le_bytes 4 <$> s)) (add_regs (counter m) r) (sz m).

(** The [while(len > 0)] loop; every iteration consumes at least one byte, so
    [length p] iterations are enough. *)
Fixpoint update_loop (fuel : nat) (m : mavlink_sha256_ctx) (offset : nat) (p : list Z)
    : mavlink_sha256_ctx :=
  match fuel, p with
  | O, _ | _, [] => m
  | S fuel, _ =>
      let l := (64 - offset)%nat in
      let l := if bool_decide (length p < l)%nat then length p else l in
      let m := mk_ctx (memcpy_at (save_bytes m) offset (take l p)) (counter m) (sz m) in
      let offset := (offset + l)%nat in
      if bool_decide (offset = 64%nat)
      then update_loop fuel (mavlink_sha256_calc m) 0 (drop l p)
      else update_loop fuel m offset (drop l p)
  end.

Definition mavlink_sha256_update (m : mavlink_sha256_ctx) (v : list Z) : mavlink_sha256_ctx :=
  let offset := Z.to_nat (sz m mod 64) in
  let m := mk_ctx (save_bytes m) (counter m) (u32 (sz m + Z.of_nat (length v))) in
  update_loop (length v) m offset v.

(** Bytes 24, 16, 8, 0 of a word, as in [(x >> 24) & 0xFF], ... *)
Definition word_bytes (x : Z) : list Z :=
  [ Z.land (Z.shiftr x 24) 0xff; Z.land (Z.shiftr x 16) 0xff;
    Z.land (Z.shiftr x 8) 0xff; Z.land (Z.shiftr x 0) 0xff ].

Definition mavlink_sha256_final_48 (m : mavlink_sha256_ctx) : list Z :=
  let offset := Z.to_nat (sz m mod 64) in
  let bit_length := u32 (sz m * 8) in
  let m := mk_ctx (memcpy_at (save_bytes m) offset [0x80]) (counter m) (sz m) in
  let offset := S offset in
  let '(m, offset) :=
    if bool_decide (56 < offset)%nat
    then (mavlink_sha256_calc (mk_ctx (memset0 (save_bytes m) offset (64 - offset))
                                      (counter m) (sz m)), 0%nat)
    else (m, offset) in
  let m := mk_ctx (memset0 (save_bytes m) offset (60 - offset)) (counter m) (sz m) in
  let m := mk_ctx (memcpy_at (save_bytes m) 60 (word_bytes bit_length)) (counter m) (sz m) in
  let m := mavlink_sha256_calc m in
  word_bytes (counter m !!! 0%nat) ++ take 2 (word_bytes (counter m !!! 1%nat)).

(** ** FIPS 180-4 *)

Definition sched_next (w : list Z) : list Z :=
  let t := length w in
  w ++ [u32 (sigma1 (w !!! (t - 2)%nat) + w !!! (t - 7)%nat +
             sigma0 (w !!! (t - 15)%nat) + w !!! (t - 16)%nat)].

Definition schedule (words : list Z) : list Z := Nat.iter 48 sched_next words.

Definition compress (H : list Z) (block : list Z) : list Z :=
  let W := schedule (pack_words block) in
  add_regs H (foldl (λ r t, round_regs r (mavlink_sha256_constant_256 !!! t) (W !!! t))
                    (regs_of H) (seq 0 64)).

(** [k] zero bytes, [k] the least with [length m + 1 + k = 56] modulo 64. *)
Definition sha256_pad (m : list Z) : list Z :=
  let n := Z.of_nat (length m) in
  m ++ [0x80] ++ replicate (Z.to_nat ((55 - n) mod 64)) 0 ++ be_bytes 8 (8 * n).

Fixpoint sha256_blocks (n : nat) (H bs : list Z) : list Z :=
  match n with
  | O => H
  | S n => sha256_blocks n (compress H (take 64 bs)) (drop 64 bs)
  end.

Definition sha256_spec (m : list Z) : list Z :=
  let p := sha256_pad m in
  concat (be_bytes 4 <$> sha256_blocks (length p / 64) sha256_iv p).

(** ** The ring buffer computes the schedule *)

#[global] Strategy 1000 [Nat.iter foldl sched_next round_regs calc_round].
#[global] Arguments calc_round : simpl never.
#[global] Arguments round_regs : simpl never.

Lemma length_pack_words n bs : length bs = (4 * n)%nat → length (pack_words bs) = n.
Proof.
  revert bs. induction n as [|n IH]; intros bs Hbs.
  - by destruct bs.
  - destruct bs as [|b0 [|b1 [|b2 [|b3 bs]]]]; simpl in *; try lia.
    rewrite IH; lia.
Qed.

Lemma length_sched_next w : length (sched_next w) = S (length w).
Proof. unfold sched_next. rewrite length_app. simpl. lia. Qed.

Lemma length_sched_iter n w : length (Nat.iter n sched_next w) = (n + length w)%nat.
Proof. induction n as [|n IH]; [done|]. by rewrite Nat.iter_succ, length_sched_next, IH. Qed.

Lemma sched_iter_prefix n k w :
  ∃ l, Nat.iter (k + n) sched_next w = Nat.iter n sched_next w ++ l.
Proof.
  induction k as [|k [l IH]]; [exists []; by rewrite app_nil_r|].
  rewrite Nat.add_succ_l, Nat.iter_succ, IH. unfold sched_next.
  eexists. rewrite <- app_assoc. done.
Qed.

Lemma sched_iter_lookup n m w j :
  (n ≤ m)%nat → (j < n + length w)%nat →
  Nat.iter m sched_next w !!! j = Nat.iter n sched_next w !!! j.
Proof.
  intros Hnm Hj. destruct (sched_iter_prefix n (m - n) w) as [l E].
  replace (m - n + n)%nat with m in E by lia. rewrite E.
  rewrite lookup_total_app_l; [done|]. by rewrite length_sched_iter.
Qed.

(** The FIPS recurrence, for the words beyond the block. *)
Lemma sched_iter_rec N w t :
  length w = 16%nat → (16 ≤ t < 16 + N)%nat →
  Nat.iter N sched_next w !!! t =
  u32 (sigma1 (Nat.iter N sched_next w !!! (t - 2)%nat) +
       Nat.iter N sched_next w !!! (t - 7)%nat +
       sigma0 (Nat.iter N sched_next w !!! (t - 15)%nat) +
       Nat.iter N sched_next w !!! (t - 16)%nat).
Proof.
  intros Hw Ht.
  rewrite (sched_iter_lookup (S (t - 16)) N w t) by lia.
  rewrite (sched_iter_lookup (t - 16) N w (t - 2)), (sched_iter_lookup (t - 16) N w (t - 7)),
    (sched_iter_lookup (t - 16) N w (t - 15)), (sched_iter_lookup (t - 16) N w (t - 16)) by lia.
  rewrite Nat.iter_succ.
  assert (HW : length (Nat.iter (t - 16) sched_next w) = t) by (rewrite length_sched_iter; lia).
  revert HW. generalize (Nat.iter (t - 16) sched_next w). intros W HW.
  unfold sched_next. rewrite HW.
  rewrite lookup_total_app_r, HW, Nat.sub_diag by lia. done.
Qed.

Lemma schedule_rec w t :
  length w = 16%nat → (16 ≤ t < 64)%nat →
  schedule w !!! t = u32 (sigma1 (schedule w !!! (t - 2)%nat) + schedule w !!! (t - 7)%nat +
                          sigma0 (schedule w !!! (t - 15)%nat) + schedule w !!! (t - 16)%nat).
Proof. intros Hw Ht. unfold schedule. apply (sched_iter_rec 48 w t Hw). lia. Qed.

Lemma schedule_block w t : length w = 16%nat → (t < 16)%nat → schedule w !!! t = w !!! t.
Proof. intros Hw Ht. unfold schedule. apply (sched_iter_lookup 0 48); lia. Qed.

Lemma land_15 i : Nat.land i 15 = (i mod 16)%nat.
Proof. apply (Nat.land_ones i 4). Qed.

Definition spec_rounds (W : list Z) (r : regs) (n : nat) : regs :=
  foldl (λ r t, round_regs r (mavlink_sha256_constant_256 !!! t) (W !!! t)) r (seq 0 n).

Definition ring_holds (W s : list Z) (n : nat) : Prop :=
  length s = 16%nat ∧
  ∀ j, (n - 16 ≤ j < n `max` 16)%nat → s !!! (j mod 16)%nat = W !!! j.

Lemma spec_rounds_S W r n :
  spec_rounds W r (S n) =
  round_regs (spec_rounds W r n) (mavlink_sha256_constant_256 !!! n) (W !!! n).
Proof. unfold spec_rounds. by rewrite seq_S, foldl_snoc. Qed.

Lemma calc_round_ring w s r n :
  length w = 16%nat → (n < 64)%nat → ring_holds (schedule w) s n →
  ∃ s', calc_round (s, r) n =
        (s', round_regs r (mavlink_sha256_constant_256 !!! n) (schedule w !!! n)) ∧
        ring_holds (schedule w) s' (S n).
Proof.
  intros Hw Hn [Hs Hring]. unfold calc_round. case_bool_decide as Hlt.
  - exists s. split.
    + f_equal. f_equal. rewrite <- (Hring n) by lia. by rewrite Nat.mod_small by lia.
    + split; [done|]. intros j Hj. apply Hring. lia.
  - rewrite !land_15. rewrite !Hring by lia.
    rewrite <- (schedule_rec w n) by lia. eexists. split; [reflexivity|].
    split; [by rewrite length_insert|]. intros j Hj.
    assert (n mod 16 < 16)%nat by (apply Nat.mod_upper_bound; lia).
    destruct (decide (j = n)) as [->|].
    + apply list_lookup_total_insert_eq. lia.
    + rewrite list_lookup_total_insert_ne; [apply Hring; lia|].
      intros E. pose proof (Nat.div_mod_eq j 16). pose proof (Nat.div_mod_eq n 16). lia.
Qed.

Lemma calc_rounds_ring w r n :
  length w = 16%nat → (n ≤ 64)%nat →
  ∃ s, foldl calc_round (w, r) (seq 0 n) = (s, spec_rounds (schedule w) r n) ∧
       ring_holds (schedule w) s n.
Proof.
  intros Hw. induction n as [|n IH]; intros Hn.
  - exists w. split; [done|]. split; [done|]. intros j Hj.
    rewrite schedule_block, Nat.mod_small by lia. done.
  - destruct IH as (s & E & Hs); [lia|].
    rewrite seq_S, foldl_snoc, E, spec_rounds_S. simpl Nat.add.
    by apply calc_round_ring.
Qed.

Lemma length_concat_le4 (s : list Z) : length (concat (le_bytes 4 <$> s)) = (4 * length s)%nat.
Proof.
  induction s as [|x s IH]; [done|].
  rewrite fmap_cons. cbn [concat]. rewrite length_app, IH, length_le_bytes. simpl length. lia.
Qed.

Lemma calc_correct m :
  length (save_bytes m) = 64%nat →
  length (save_bytes (mavlink_sha256_calc m)) = 64%nat ∧
  counter (mavlink_sha256_calc m) = compress (counter m) (save_bytes m) ∧
  sz (mavlink_sha256_calc m) = sz m.
Proof.
  intros Hl. unfold mavlink_sha256_calc.
  destruct (calc_rounds_ring (pack_words (save_bytes m)) (regs_of (counter m)) 64)
    as (s & E & Hs & _); [by apply length_pack_words|lia|].
  rewrite E. cbn [save_bytes counter sz]. rewrite length_concat_le4, Hs.
  unfold compress, spec_rounds. auto.
Qed.

(** ** Streaming: the save area holds the bytes of the current block *)

#[global] Strategy 1000 [compress].
#[global] Arguments compress : simpl never.
#[global] Arguments mavlink_sha256_calc : simpl never.

Definition absorb1 (st : list Z * list Z) (b : Z) : list Z * list Z :=
  let pend := st.2 ++ [b] in
  if bool_decide (length pend = 64%nat) then (compress st.1 pend, []) else (st.1, pend).

Definition absorb (st : list Z * list Z) (bs : list Z) : list Z * list Z :=
  foldl absorb1 st bs.

Lemma absorb_app st a b : absorb st (a ++ b) = absorb (absorb st a) b.
Proof. apply foldl_app. Qed.

Lemma absorb_short H pend p :
  (length pend + length p < 64)%nat → absorb (H, pend) p = (H, pend ++ p).
Proof.
  induction p as [|b p IH] using rev_ind; intros Hl.
  - by rewrite app_nil_r.
  - rewrite length_app in Hl; simpl in Hl.
    rewrite absorb_app, IH by lia. unfold absorb. simpl. unfold absorb1; simpl.
    rewrite bool_decide_false by (rewrite !length_app; simpl; lia).
    by rewrite app_assoc.
Qed.

Lemma absorb_full H pend p :
  (length pend < 64)%nat → (length pend + length p = 64)%nat →
  absorb (H, pend) p = (compress H (pend ++ p), []).
Proof.
  intros Hp Hl. destruct (exists_last (l := p)) as (p' & b & ->).
  { intros ->. simpl in Hl. lia. }
  rewrite length_app in Hl; simpl in Hl.
  rewrite absorb_app, absorb_short by lia. unfold absorb; simpl. unfold absorb1; simpl.
  rewrite bool_decide_true by (rewrite !length_app; simpl; lia). by rewrite app_assoc.
Qed.

Lemma absorb1_pending st b :
  (length st.2 < 64)%nat →
  (length (absorb1 st b).2 < 64)%nat ∧ length (absorb1 st b).2 = (S (length st.2) mod 64)%nat.
Proof.
  intros. unfold absorb1. rewrite length_app. simpl length. case_bool_decide; cbn [snd].
  - replace (S (length st.2)) with 64%nat by lia. simpl length. split; [lia|reflexivity].
  - rewrite length_app; simpl length. rewrite Nat.mod_small by lia. lia.
Qed.

Lemma absorb_pending st p :
  (length st.2 < 64)%nat →
  (length (absorb st p).2 < 64)%nat ∧
  length (absorb st p).2 = ((length st.2 + length p) mod 64)%nat.
Proof.
  intros Hs. induction p as [|b p IH] using rev_ind.
  - change (absorb st []) with st. cbn [length].
    rewrite Nat.add_0_r, Nat.mod_small by exact Hs. auto.
  - rewrite absorb_app. destruct IH as [IH1 IH2]. change (absorb (absorb st p) [b])
      with (absorb1 (absorb st p) b). destruct (absorb1_pending (absorb st p) b IH1) as [H1 H2].
    split; [done|]. rewrite H2, IH2, length_app. simpl length.
    replace (length st.2 + (length p + 1))%nat with (S (length st.2 + length p)) by lia.
    apply (Nat.Div0.add_mod_idemp_r 1).
Qed.

Lemma sha256_blocks_absorb n H bs :
  length bs = (64 * n)%nat → absorb (H, []) bs = (sha256_blocks n H bs, []).
Proof.
  revert H bs. induction n as [|n IH]; intros H bs Hl.
  - by destruct bs.
  - rewrite <- (take_drop 64 bs) at 1. rewrite absorb_app, absorb_full.
    + simpl app. apply IH. rewrite length_drop. lia.
    + simpl. lia.
    + simpl. rewrite length_take. lia.
Qed.

Definition holds (m : mavlink_sha256_ctx) (st : list Z * list Z) : Prop :=
  length (save_bytes m) = 64%nat ∧ counter m = st.1 ∧ (length st.2 < 64)%nat ∧
  take (length st.2) (save_bytes m) = st.2.

Lemma update_loop_correct fuel m st p :
  (length p ≤ fuel)%nat → holds m st →
  holds (update_loop fuel m (length st.2) p) (absorb st p) ∧
  sz (update_loop fuel m (length st.2) p) = sz m.
Proof.
  revert m st p. induction fuel as [|fuel IH]; intros m [H pend] p Hf Hm.
  { destruct p; simpl in Hf; [done|lia]. }
  destruct p as [|b p]; [done|]. set (q := b :: p) in *.
  assert (Hq : (0 < length q)%nat) by (simpl; lia).
  destruct Hm as (Hs & Hc & Hp & Ht). simpl in Hc, Hp, Ht.
  cbn [update_loop]. fold q. unfold q at 1. cbn iota beta. fold q. cbn [snd].
  set (l := if bool_decide (length q < 64 - length pend)%nat then length q
            else (64 - length pend)%nat).
  assert (Hl : (0 < l ≤ length q)%nat ∧ (length pend + l ≤ 64)%nat ∧
               (length pend + l < 64 → l = length q)%nat).
  { unfold l. case_bool_decide; lia. }
  assert (Htl : length (take l q) = l) by (rewrite length_take; lia).
  set (m1 := mk_ctx (memcpy_at _ _ _) (counter m) (sz m)).
  assert (Hs1 : length (save_bytes m1) = 64%nat).
  { unfold m1; simpl. rewrite length_memcpy_at; lia. }
  assert (Ht1 : take (length pend + l) (save_bytes m1) = pend ++ take l q).
  { unfold m1; cbn [save_bytes]. rewrite <- Htl at 1. rewrite take_memcpy_at_end by lia. by rewrite Ht. }
  replace (absorb (H, pend) q) with (absorb (absorb (H, pend) (take l q)) (drop l q))
    by (by rewrite <- absorb_app, take_drop).
  case_bool_decide as H64.
  - rewrite absorb_full by (rewrite ?Htl; lia).
    destruct (calc_correct m1 Hs1) as (Ha & Hb & Hd).
    change (sz m) with (sz m1). rewrite <- Hd. apply (IH (mavlink_sha256_calc m1) (_, [])).
    + rewrite length_drop. lia.
    + split_and!; [done|..]; cbn [fst snd].
      * rewrite Hb, <- Ht1, H64, firstn_all2 by lia. by rewrite <- Hc.
      * simpl; lia.
      * by rewrite take_0.
  - destruct Hl as (Hl1 & Hl2 & Hl3). rewrite (absorb_short H pend) by (rewrite ?Htl; lia).
    replace (length pend + l)%nat with (length (pend ++ take l q)) by (rewrite length_app; lia).
    change (sz m) with (sz m1). apply (IH m1 (H, pend ++ take l q)).
    + rewrite length_drop. lia.
    + split_and!; cbn [fst snd]; [done|done|rewrite length_app; lia|].
      by rewrite length_app, Htl.
Qed.

(** The size field counts the bytes absorbed, modulo 2^32. *)
Definition tracks (m : mavlink_sha256_ctx) (msg : list Z) : Prop :=
  holds m (absorb (sha256_iv, []) msg) ∧ sz m = u32 (Z.of_nat (length msg)).

Lemma tracks_offset m msg :
  tracks m msg → Z.to_nat (sz m mod 64) = length (absorb (sha256_iv, []) msg).2.
Proof.
  intros [_ ->]. destruct (absorb_pending (sha256_iv, []) msg) as [_ ->]; [simpl; lia|].
  simpl Nat.add. unfold wrapu. rewrite Z.mod_mod_divide by (exists (2 ^ 26); reflexivity).
  rewrite <- (Nat2Z.inj_mod _ 64). lia.
Qed.

Lemma tracks_init m : length (save_bytes m) = 64%nat → tracks (mavlink_sha256_init m) [].
Proof. intros. split; [|done]. split_and!; [done|done|simpl; lia|by rewrite take_0]. Qed.

Lemma tracks_update m msg v :
  tracks m msg → tracks (mavlink_sha256_update m v) (msg ++ v).
Proof.
  intros Ht. pose proof (tracks_offset m msg Ht) as Ho. destruct Ht as [Hh Hz].
  unfold mavlink_sha256_update. rewrite Ho.
  set (m1 := mk_ctx _ _ _).
  destruct (update_loop_correct (length v) m1 (absorb (sha256_iv, []) msg) v) as [H1 H2];
    [done|done|].
  split; [by rewrite absorb_app|]. rewrite H2. unfold m1; cbn [sz].
  rewrite Hz, length_app, Nat2Z.inj_add. unfold wrapu. by rewrite Zplus_mod_idemp_l.
Qed.

(** ** Finalisation *)

Lemma land_ff x : Z.land x 0xff = x mod 256.
Proof. apply (Z.land_ones x 8). lia. Qed.

Lemma word_bytes_be x : word_bytes x = be_bytes 4 x.
Proof.
  unfold word_bytes, be_bytes. rewrite !land_ff, !Z.shiftr_div_pow2 by lia.
  change (2 ^ 0) with 1. change (2 ^ 8) with 256. change (2 ^ 16) with (256 * 256).
  change (2 ^ 24) with (256 * 256 * 256). rewrite Z.div_1_r, <- !Z.div_div by lia.
  reflexivity.
Qed.

Lemma be_bytes_8_small x :
  0 ≤ x < 2 ^ 32 → be_bytes 8 x = replicate 4 0 ++ be_bytes 4 x.
Proof.
  intros Hx. unfold be_bytes. cbn [le_bytes].
  assert (E : x / 256 / 256 / 256 / 256 = 0)
    by (rewrite !Z.div_div by lia; apply Z.div_small; lia).
  rewrite E. reflexivity.
Qed.

Lemma length_be_bytes n x : length (be_bytes n x) = n.
Proof. unfold be_bytes. by rewrite length_reverse, length_le_bytes. Qed.

(** The digest of a state that has been compressed at least once. *)
Lemma take_6_digest H blk :
  take 6 (concat (be_bytes 4 <$> compress H blk)) =
  word_bytes (compress H blk !!! 0%nat) ++ take 2 (word_bytes (compress H blk !!! 1%nat)).
Proof. rewrite !word_bytes_be. unfold compress, add_regs. generalize (foldl
    (λ r t, round_regs r (mavlink_sha256_constant_256 !!! t)
      (schedule (pack_words blk) !!! t)) (regs_of H) (seq 0 64)). reflexivity. Qed.

Lemma pad_length msg : ∃ n, length (sha256_pad msg) = (64 * S n)%nat.
Proof.
  unfold sha256_pad. rewrite !length_app, length_replicate, length_be_bytes. simpl length.
  set (n := length msg). exists ((n + 8) / 64)%nat.
  pose proof (Nat.div_mod_eq (n + 8) 64). pose proof (Nat.mod_upper_bound (n + 8) 64).
  enough (Z.to_nat ((55 - Z.of_nat n) mod 64) = 63 - (n + 8) mod 64)%nat by lia.
  replace (55 - Z.of_nat n) with ((63 - Z.of_nat ((n + 8) mod 64)) + (- Z.of_nat ((n + 8) / 64)) * 64) by lia.
  rewrite Z.mod_add, Z.mod_small by lia. lia.
Qed.

Lemma spec_of_absorb msg Hb :
  absorb (sha256_iv, []) (sha256_pad msg) = (Hb, []) →
  sha256_spec msg = concat (be_bytes 4 <$> Hb).
Proof.
  intros E. unfold sha256_spec. destruct (pad_length msg) as [n Hn].
  rewrite (sha256_blocks_absorb (S n)) in E by done. injection E as <-.
  rewrite Hn. replace (64 * S n / 64)%nat with (S n); [done|].
  rewrite (Nat.mul_comm 64), Nat.div_mul; lia.
Qed.

(** The zero bytes of the padding, from the fill level of the last block. *)
Lemma pad_zeros (msg : list Z) off :
  off = (length msg mod 64)%nat →
  Z.to_nat ((55 - Z.of_nat (length msg)) mod 64) =
  (if bool_decide (56 < S off) then 119 - off else 55 - off)%nat.
Proof.
  intros ->. set (n := length msg). pose proof (Nat.div_mod_eq n 64) as E.
  pose proof (Nat.mod_upper_bound n 64 ltac:(lia)) as B.
  set (q := (n / 64)%nat) in *. set (r := (n mod 64)%nat) in *.
  replace (55 - Z.of_nat n) with ((55 - Z.of_nat r) + (- Z.of_nat q) * 64) by lia.
  rewrite Z.mod_add by lia. case_bool_decide.
  - replace (55 - Z.of_nat r) with ((119 - Z.of_nat r) + (-1) * 64) by lia.
    rewrite Z.mod_add, Z.mod_small by lia. lia.
  - rewrite Z.mod_small by lia. lia.
Qed.

Lemma final_block buf off wb :
  length buf = 64%nat → (S off ≤ 60)%nat → length wb = 4%nat →
  memcpy_at (memset0 (memcpy_at buf off [0x80]) (S off) (60 - S off)) 60 wb =
  take off buf ++ [0x80] ++ replicate (59 - off) 0 ++ wb.
Proof.
  intros Hb Ho Hw. unfold memset0. replace (60 - S off)%nat with (59 - off)%nat by lia.
  rewrite (memcpy_at_app' buf off (S off) [0x80]) by (rewrite ?length_replicate; simpl length; lia).
  rewrite memcpy_at_app' by (rewrite ?length_app, ?length_replicate; simpl length; lia).
  rewrite memcpy_at_to_end by (rewrite !length_app, length_replicate; simpl length; lia).
  by rewrite <- !app_assoc.
Qed.

Lemma final_block0 buf wb :
  length buf = 64%nat → length wb = 4%nat →
  memcpy_at (memset0 buf 0 60) 60 wb = replicate 60 0 ++ wb.
Proof.
  intros Hb Hw. unfold memset0.
  rewrite memcpy_at_app' by (rewrite ?length_replicate; lia).
  rewrite memcpy_at_to_end by (rewrite length_app, length_replicate; lia). by rewrite take_0.
Qed.

Lemma final_full buf off :
  length buf = 64%nat → (S off ≤ 64)%nat →
  memset0 (memcpy_at buf off [0x80]) (S off) (64 - S off) =
  take off buf ++ [0x80] ++ replicate (63 - off) 0.
Proof.
  intros Hb Ho. unfold memset0. replace (64 - S off)%nat with (63 - off)%nat by lia.
  rewrite memcpy_at_app' by (rewrite ?length_replicate; simpl length; lia).
  by rewrite memcpy_at_to_end by (rewrite !length_app, length_replicate; simpl length; lia).
Qed.

Lemma calc_mk bs c z :
  length bs = 64%nat →
  ∃ bs', length bs' = 64%nat ∧ mavlink_sha256_calc (mk_ctx bs c z) = mk_ctx bs' (compress c bs) z.
Proof.
  intros Hl. destruct (calc_correct (mk_ctx bs c z) Hl) as (H1 & H2 & H3).
  destruct (mavlink_sha256_calc (mk_ctx bs c z)) as [bs' c' z'].
  exists bs'. simpl in *. by subst.
Qed.

(** The padding bytes after the message, as [final_48] writes them. *)
Definition pad_tail (off : nat) (wb : list Z) : list Z :=
  [0x80] ++ replicate (if bool_decide (56 < S off)%nat then 119 - off else 55 - off) 0
         ++ replicate 4 0 ++ wb.

Lemma pad_tail_spec msg :
  Z.of_nat (length msg) < 2 ^ 29 →
  sha256_pad msg = msg ++ pad_tail (length msg mod 64) (word_bytes (8 * Z.of_nat (length msg))).
Proof.
  intros. unfold sha256_pad, pad_tail. rewrite (pad_zeros msg _ eq_refl), be_bytes_8_small by lia.
  by rewrite word_bytes_be.
Qed.

(** [final_48] on a context whose save area holds [pend]: the last block is
    compressed, after an extra one when the length field does not fit. *)
Definition last_block (H pend wb : list Z) : list Z * list Z :=
  let off := length pend in
  if bool_decide (56 < S off)%nat
  then (compress H (pend ++ [0x80] ++ replicate (63 - off) 0), replicate 60 0 ++ wb)
  else (H, pend ++ [0x80] ++ replicate (59 - off) 0 ++ wb).

Lemma absorb_pad_tail H pend wb :
  (length pend < 64)%nat → length wb = 4%nat →
  absorb (H, pend) (pad_tail (length pend) wb) =
  (compress (last_block H pend wb).1 (last_block H pend wb).2, []).
Proof.
  intros Hp Hw. unfold pad_tail, last_block. case_bool_decide; cbn [fst snd].
  - replace (119 - length pend)%nat with ((63 - length pend) + 56)%nat by lia.
    rewrite replicate_add, <- app_assoc, (app_assoc [0x80]), absorb_app.
    rewrite absorb_full; [|rewrite ?length_app, ?length_replicate; simpl length; lia..].
    rewrite absorb_full; [|rewrite ?length_app, ?length_replicate; simpl length; lia..].
    by rewrite app_nil_l, (app_assoc (replicate 56 0)), <- replicate_add.
  - rewrite absorb_full; [|rewrite ?length_app, ?length_replicate; simpl length; lia..].
    rewrite (app_assoc (replicate _ 0)), <- replicate_add.
    replace (55 - length pend + 4)%nat with (59 - length pend)%nat by lia. reflexivity.
Qed.

Lemma final_48_last m H pend wb :
  holds m (H, pend) → Z.to_nat (sz m mod 64) = length pend → word_bytes (u32 (sz m * 8)) = wb →
  let c := compress (last_block H pend wb).1 (last_block H pend wb).2 in
  mavlink_sha256_final_48 m = word_bytes (c !!! 0%nat) ++ take 2 (word_bytes (c !!! 1%nat)).
Proof.
  intros (Hs & Hc & Hp & Htk) Ho Hwb c. cbn [fst snd] in *.
  assert (Hw : length wb = 4%nat) by (by subst wb).
  unfold c. clear c. unfold mavlink_sha256_final_48, last_block.
  generalize calc_mk. generalize mavlink_sha256_calc, compress. intros calc comp Hcalc.
  rewrite Ho, Hwb. case_bool_decide; cbn [save_bytes counter sz fst snd].
  - rewrite final_full, Htk, Hc by lia.
    destruct (Hcalc (pend ++ [128] ++ replicate (63 - length pend) 0) H (sz m))
      as (b1 & Hb1 & ->); [rewrite !length_app, length_replicate; simpl length; lia|].
    cbn [save_bytes counter sz]. rewrite Nat.sub_0_r, final_block0 by done.
    destruct (Hcalc (replicate 60 0 ++ wb)
                (comp H (pend ++ [128] ++ replicate (63 - length pend) 0)) (sz m))
      as (b2 & _ & ->); [rewrite length_app, length_replicate; lia|]. done.
  - rewrite final_block, Htk, Hc by lia.
    destruct (Hcalc (pend ++ [128] ++ replicate (59 - length pend) 0 ++ wb) H (sz m))
      as (b1 & _ & ->); [rewrite !length_app, length_replicate; simpl length; lia|]. done.
Qed.

Lemma final_48_correct m msg :
  tracks m msg → Z.of_nat (length msg) < 2 ^ 29 →
  mavlink_sha256_final_48 m = take 6 (sha256_spec msg).
Proof.
  intros Ht Hlen. pose proof (tracks_offset m msg Ht) as Ho. destruct Ht as [Hh Hz].
  destruct (absorb_pending (sha256_iv, []) msg) as [Hp Hoff]; [simpl; lia|]. simpl Nat.add in Hoff.
  destruct (absorb (sha256_iv, []) msg) as [H pend] eqn:E. cbn [snd] in *.
  set (wb := word_bytes (8 * Z.of_nat (length msg))).
  rewrite (final_48_last m H pend wb), <- take_6_digest; [|done|done|].
  - f_equal. symmetry. apply spec_of_absorb.
    rewrite pad_tail_spec, absorb_app, E, <- Hoff by done. by apply absorb_pad_tail.
  - unfold wb. f_equal. rewrite Hz. unfold wrapu.
    rewrite (Z.mod_small (Z.of_nat _)), Z.mod_small by lia. lia.
Qed.

Lemma tracks_updates m msg chunks :
  tracks m msg → tracks (foldl mavlink_sha256_update m chunks) (msg ++ concat chunks).
Proof.
  revert m msg. induction chunks as [|v chunks IH]; intros m msg Ht.
  - by rewrite app_nil_r.
  - rewrite foldl_cons. cbn [concat]. rewrite app_assoc. by apply IH, tracks_update.
Qed.

(** C12: The incremental hash (init, any number of update calls of any lengths,
    final_48) computes the first six bytes of the FIPS 180-4 SHA-256 digest of the
    concatenation, for messages below the 512 MB the code documents, whatever the
    context held before. *)
Theorem sha256_refines_fips m chunks :
  length (save_bytes m) = 64%nat → Z.of_nat (length (concat chunks)) < 2 ^ 29 →
  mavlink_sha256_final_48 (foldl mavlink_sha256_update (mavlink_sha256_init m) chunks) =
  take 6 (sha256_spec (concat chunks)).
Proof.
  intros Hm Hlen. apply final_48_correct; [|done].
  apply (tracks_updates _ []). by apply tracks_init.
Qed.

(** The digest of "abc", cut in two calls. *)
Lemma sha256_refines_fips_witness :
  mavlink_sha256_final_48 (foldl mavlink_sha256_update
    (mavlink_sha256_init (mk_ctx (replicate 64 0xaa) [] 0)) [[97]; [98; 99]]) =
  [0xba; 0x78; 0x16; 0xbf; 0x8f; 0x01].
Proof.
  rewrite sha256_refines_fips; [vm_compute; reflexivity|reflexivity|simpl; lia].
Defined.
