(* ===== verification/MavTypes.v ===== *)
(** * Data types of the MAVLink C library

    Model of [mavlink/v2.0/mavlink_types.h] and of the table
    [MAVLINK_MESSAGE_CRCS] of [common/common.h]: the constants, the message, the
    per-channel status with its signing state, and the message table. A
    structure is a record with one field per member (prefixed by its structure),
    an integer member is a [Z] in its width, an array a list of its length. *)
From S2P Require Import Prelude.

(** ** Constants *)

Definition MAVLINK_STX : Z := 253.
Definition MAVLINK_STX_MAVLINK1 : Z := 0xfe.
Definition MAVLINK_MAX_PAYLOAD_LEN : Z := 255.
Definition MAVLINK_CORE_HEADER_LEN : Z := 9.
Definition MAVLINK_CORE_HEADER_MAVLINK1_LEN : Z := 5.
Definition MAVLINK_NUM_HEADER_BYTES : Z := MAVLINK_CORE_HEADER_LEN + 1.
Definition MAVLINK_NUM_CHECKSUM_BYTES : Z := 2.
Definition MAVLINK_NUM_NON_PAYLOAD_BYTES : Z :=
  MAVLINK_NUM_HEADER_BYTES + MAVLINK_NUM_CHECKSUM_BYTES.
Definition MAVLINK_SIGNATURE_BLOCK_LEN : Z := 13.
Definition MAVLINK_MAX_PACKET_LEN : Z :=
  MAVLINK_MAX_PAYLOAD_LEN + MAVLINK_NUM_NON_PAYLOAD_BYTES + MAVLINK_SIGNATURE_BLOCK_LEN.
(** [uint64_t payload64[(255+2+7)/8]], seen as bytes. *)
Definition payload_capacity : nat := 264.
Definition MAVLINK_STATUS_FLAG_IN_MAVLINK1 : Z := 1.
Definition MAVLINK_STATUS_FLAG_OUT_MAVLINK1 : Z := 2.
Definition MAVLINK_SIGNING_FLAG_SIGN_OUTGOING : Z := 1.
Definition MAVLINK_IFLAG_SIGNED : Z := 0x01.
Definition MAVLINK_IFLAG_MASK : Z := 0x01.
Definition MAVLINK_MAX_SIGNING_STREAMS : Z := 16.
Definition MAVLINK_SIGNING_TIMESTAMP_LIMIT : Z := 60.
Definition MAVLINK_COMM_NUM_BUFFERS : nat := 16.
Definition MAVLINK_COMM_0 : nat := 0.

(** ** Enumerations *)

Inductive mavlink_parse_state_t :=
  | PARSE_STATE_UNINIT
  | PARSE_STATE_IDLE
  | PARSE_STATE_GOT_STX
  | PARSE_STATE_GOT_LENGTH
  | PARSE_STATE_GOT_INCOMPAT_FLAGS
  | PARSE_STATE_GOT_COMPAT_FLAGS
  | PARSE_STATE_GOT_SEQ
  | PARSE_STATE_GOT_SYSID
  | PARSE_STATE_GOT_COMPID
  | PARSE_STATE_GOT_MSGID1
  | PARSE_STATE_GOT_MSGID2
  | PARSE_STATE_GOT_MSGID3
  | PARSE_STATE_GOT_PAYLOAD
  | PARSE_STATE_GOT_CRC1
  | PARSE_STATE_GOT_BAD_CRC1
  | PARSE_STATE_SIGNATURE_WAIT
  | PARSE_STATE_SIGNATURE_WAIT_BAD_CRC.

Inductive mavlink_framing_t :=
  | FRAMING_INCOMPLETE
  | FRAMING_OK
  | FRAMING_BAD_CRC
  | FRAMING_BAD_SIGNATURE.

Inductive mavlink_signing_status_t :=
  | SIGNING_STATUS_NONE
  | SIGNING_STATUS_OK
  | SIGNING_STATUS_BAD_SIGNATURE
  | SIGNING_STATUS_NO_STREAMS
  | SIGNING_STATUS_TOO_MANY_STREAMS
  | SIGNING_STATUS_OLD_TIMESTAMP
  | SIGNING_STATUS_REPLAY.

#[global] Instance mavlink_parse_state_t_eq_dec : EqDecision mavlink_parse_state_t.
Proof. solve_decision. Defined.
#[global] Instance mavlink_framing_t_eq_dec : EqDecision mavlink_framing_t.
Proof. solve_decision. Defined.
#[global] Instance mavlink_signing_status_t_eq_dec : EqDecision mavlink_signing_status_t.
Proof. solve_decision. Defined.

(** ** Structures *)

(** [__mavlink_message]; [m_payload] is [payload64] as bytes. *)
Record mavlink_message_t := mk_msg {
  m_checksum : Z;
  m_magic : Z;
  m_len : Z;
  m_incompat_flags : Z;
  m_compat_flags : Z;
  m_seq : Z;
  m_sysid : Z;
  m_compid : Z;
  m_msgid : Z;
  m_payload : list Z;
  m_ck : list Z;
  m_signature : list Z
}.

Definition set_m_checksum (v : Z) (x : mavlink_message_t) : mavlink_message_t :=
  mk_msg v (m_magic x) (m_len x) (m_incompat_flags x) (m_compat_flags x) (m_seq x) (m_sysid x) (m_compid x) (m_msgid x) (m_payload x) (m_ck x) (m_signature x).
Definition set_m_magic (v : Z) (x : mavlink_message_t) : mavlink_message_t :=
  mk_msg (m_checksum x) v (m_len x) (m_incompat_flags x) (m_compat_flags x) (m_seq x) (m_sysid x) (m_compid x) (m_msgid x) (m_payload x) (m_ck x) (m_signature x).
Definition set_m_len (v : Z) (x : mavlink_message_t) : mavlink_message_t :=
  mk_msg (m_checksum x) (m_magic x) v (m_incompat_flags x) (m_compat_flags x) (m_seq x) (m_sysid x) (m_compid x) (m_msgid x) (m_payload x) (m_ck x) (m_signature x).
Definition set_m_incompat_flags (v : Z) (x : mavlink_message_t) : mavlink_message_t :=
  mk_msg (m_checksum x) (m_magic x) (m_len x) v (m_compat_flags x) (m_seq x) (m_sysid x) (m_compid x) (m_msgid x) (m_payload x) (m_ck x) (m_signature x).
Definition set_m_compat_flags (v : Z) (x : mavlink_message_t) : mavlink_message_t :=
  mk_msg (m_checksum x) (m_magic x) (m_len x) (m_incompat_flags x) v (m_seq x) (m_sysid x) (m_compid x) (m_msgid x) (m_payload x) (m_ck x) (m_signature x).
Definition set_m_seq (v : Z) (x : mavlink_message_t) : mavlink_message_t :=
  mk_msg (m_checksum x) (m_magic x) (m_len x) (m_incompat_flags x) (m_compat_flags x) v (m_sysid x) (m_compid x) (m_msgid x) (m_payload x) (m_ck x) (m_signature x).
Definition set_m_sysid (v : Z) (x : mavlink_message_t) : mavlink_message_t :=
  mk_msg (m_checksum x) (m_magic x) (m_len x) (m_incompat_flags x) (m_compat_flags x) (m_seq x) v (m_compid x) (m_msgid x) (m_payload x) (m_ck x) (m_signature x).
Definition set_m_compid (v : Z) (x : mavlink_message_t) : mavlink_message_t :=
  mk_msg (m_checksum x) (m_magic x) (m_len x) (m_incompat_flags x) (m_compat_flags x) (m_seq x) (m_sysid x) v (m_msgid x) (m_payload x) (m_ck x) (m_signature x).
Definition set_m_msgid (v : Z) (x : mavlink_message_t) : mavlink_message_t :=
  mk_msg (m_checksum x) (m_magic x) (m_len x) (m_incompat_flags x) (m_compat_flags x) (m_seq x) (m_sysid x) (m_compid x) v (m_payload x) (m_ck x) (m_signature x).
Definition set_m_payload (v : list Z) (x : mavlink_message_t) : mavlink_message_t :=
  mk_msg (m_checksum x) (m_magic x) (m_len x) (m_incompat_flags x) (m_compat_flags x) (m_seq x) (m_sysid x) (m_compid x) (m_msgid x) v (m_ck x) (m_signature x).
Definition set_m_ck (v : list Z) (x : mavlink_message_t) : mavlink_message_t :=
  mk_msg (m_checksum x) (m_magic x) (m_len x) (m_incompat_flags x) (m_compat_flags x) (m_seq x) (m_sysid x) (m_compid x) (m_msgid x) (m_payload x) v (m_signature x).
Definition set_m_signature (v : list Z) (x : mavlink_message_t) : mavlink_message_t :=
  mk_msg (m_checksum x) (m_magic x) (m_len x) (m_incompat_flags x) (m_compat_flags x) (m_seq x) (m_sysid x) (m_compid x) (m_msgid x) (m_payload x) (m_ck x) v.

(** [__mavlink_signing]; [sg_accept_unsigned_callback] says whether the pointer
    is set, the function itself is a parameter of the parser. *)
Record mavlink_signing_t := mk_signing {
  sg_flags : Z;
  sg_link_id : Z;
  sg_timestamp : Z;
  sg_secret_key : list Z;
  sg_accept_unsigned_callback : bool;
  sg_last_status : mavlink_signing_status_t
}.

Definition set_sg_flags (v : Z) (x : mavlink_signing_t) : mavlink_signing_t :=
  mk_signing v (sg_link_id x) (sg_timestamp x) (sg_secret_key x) (sg_accept_unsigned_callback x) (sg_last_status x).
Definition set_sg_link_id (v : Z) (x : mavlink_signing_t) : mavlink_signing_t :=
  mk_signing (sg_flags x) v (sg_timestamp x) (sg_secret_key x) (sg_accept_unsigned_callback x) (sg_last_status x).
Definition set_sg_timestamp (v : Z) (x : mavlink_signing_t) : mavlink_signing_t :=
  mk_signing (sg_flags x) (sg_link_id x) v (sg_secret_key x) (sg_accept_unsigned_callback x) (sg_last_status x).
Definition set_sg_secret_key (v : list Z) (x : mavlink_signing_t) : mavlink_signing_t :=
  mk_signing (sg_flags x) (sg_link_id x) (sg_timestamp x) v (sg_accept_unsigned_callback x) (sg_last_status x).
Definition set_sg_accept_unsigned_callback (v : bool) (x : mavlink_signing_t) : mavlink_signing_t :=
  mk_signing (sg_flags x) (sg_link_id x) (sg_timestamp x) (sg_secret_key x) v (sg_last_status x).
Definition set_sg_last_status (v : mavlink_signing_status_t) (x : mavlink_signing_t) : mavlink_signing_t :=
  mk_signing (sg_flags x) (sg_link_id x) (sg_timestamp x) (sg_secret_key x) (sg_accept_unsigned_callback x) v.

(** [__mavlink_signing_stream]. *)
Record mavlink_signing_stream := mk_stream {
  ss_link_id : Z;
  ss_sysid : Z;
  ss_compid : Z;
  ss_timestamp_bytes : list Z
}.

(** [__mavlink_signing_streams]: [str_num] is [num_signing_streams]. *)
Record mavlink_signing_streams_t := mk_streams {
  str_num : Z;
  str_stream : list mavlink_signing_stream
}.

(** [__mavlink_status]; a null [signing] or [signing_streams] pointer is [None],
    otherwise the structure pointed to. *)
Record mavlink_status_t := mk_status {
  st_msg_received : mavlink_framing_t;
  st_buffer_overrun : Z;
  st_parse_error : Z;
  st_parse_state : mavlink_parse_state_t;
  st_packet_idx : Z;
  st_current_rx_seq : Z;
  st_current_tx_seq : Z;
  st_packet_rx_success_count : Z;
  st_packet_rx_drop_count : Z;
  st_flags : Z;
  st_signature_wait : Z;
  st_signing : option mavlink_signing_t;
  st_signing_streams : option mavlink_signing_streams_t
}.

Definition set_st_msg_received (v : mavlink_framing_t) (x : mavlink_status_t) : mavlink_status_t :=
  mk_status v (st_buffer_overrun x) (st_parse_error x) (st_parse_state x) (st_packet_idx x) (st_current_rx_seq x) (st_current_tx_seq x) (st_packet_rx_success_count x) (st_packet_rx_drop_count x) (st_flags x) (st_signature_wait x) (st_signing x) (st_signing_streams x).
Definition set_st_buffer_overrun (v : Z) (x : mavlink_status_t) : mavlink_status_t :=
  mk_status (st_msg_received x) v (st_parse_error x) (st_parse_state x) (st_packet_idx x) (st_current_rx_seq x) (st_current_tx_seq x) (st_packet_rx_success_count x) (st_packet_rx_drop_count x) (st_flags x) (st_signature_wait x) (st_signing x) (st_signing_streams x).
Definition set_st_parse_error (v : Z) (x : mavlink_status_t) : mavlink_status_t :=
  mk_status (st_msg_received x) (st_buffer_overrun x) v (st_parse_state x) (st_packet_idx x) (st_current_rx_seq x) (st_current_tx_seq x) (st_packet_rx_success_count x) (st_packet_rx_drop_count x) (st_flags x) (st_signature_wait x) (st_signing x) (st_signing_streams x).
Definition set_st_parse_state (v : mavlink_parse_state_t) (x : mavlink_status_t) : mavlink_status_t :=
  mk_status (st_msg_received x) (st_buffer_overrun x) (st_parse_error x) v (st_packet_idx x) (st_current_rx_seq x) (st_current_tx_seq x) (st_packet_rx_success_count x) (st_packet_rx_drop_count x) (st_flags x) (st_signature_wait x) (st_signing x) (st_signing_streams x).
Definition set_st_packet_idx (v : Z) (x : mavlink_status_t) : mavlink_status_t :=
  mk_status (st_msg_received x) (st_buffer_overrun x) (st_parse_error x) (st_parse_state x) v (st_current_rx_seq x) (st_current_tx_seq x) (st_packet_rx_success_count x) (st_packet_rx_drop_count x) (st_flags x) (st_signature_wait x) (st_signing x) (st_signing_streams x).
Definition set_st_current_rx_seq (v : Z) (x : mavlink_status_t) : mavlink_status_t :=
  mk_status (st_msg_received x) (st_buffer_overrun x) (st_parse_error x) (st_parse_state x) (st_packet_idx x) v (st_current_tx_seq x) (st_packet_rx_success_count x) (st_packet_rx_drop_count x) (st_flags x) (st_signature_wait x) (st_signing x) (st_signing_streams x).
Definition set_st_current_tx_seq (v : Z) (x : mavlink_status_t) : mavlink_status_t :=
  mk_status (st_msg_received x) (st_buffer_overrun x) (st_parse_error x) (st_parse_state x) (st_packet_idx x) (st_current_rx_seq x) v (st_packet_rx_success_count x) (st_packet_rx_drop_count x) (st_flags x) (st_signature_wait x) (st_signing x) (st_signing_streams x).
Definition set_st_packet_rx_success_count (v : Z) (x : mavlink_status_t) : mavlink_status_t :=
  mk_status (st_msg_received x) (st_buffer_overrun x) (st_parse_error x) (st_parse_state x) (st_packet_idx x) (st_current_rx_seq x) (st_current_tx_seq x) v (st_packet_rx_drop_count x) (st_flags x) (st_signature_wait x) (st_signing x) (st_signing_streams x).
Definition set_st_packet_rx_drop_count (v : Z) (x : mavlink_status_t) : mavlink_status_t :=
  mk_status (st_msg_received x) (st_buffer_overrun x) (st_parse_error x) (st_parse_state x) (st_packet_idx x) (st_current_rx_seq x) (st_current_tx_seq x) (st_packet_rx_success_count x) v (st_flags x) (st_signature_wait x) (st_signing x) (st_signing_streams x).
Definition set_st_flags (v : Z) (x : mavlink_status_t) : mavlink_status_t :=
  mk_status (st_msg_received x) (st_buffer_overrun x) (st_parse_error x) (st_parse_state x) (st_packet_idx x) (st_current_rx_seq x) (st_current_tx_seq x) (st_packet_rx_success_count x) (st_packet_rx_drop_count x) v (st_signature_wait x) (st_signing x) (st_signing_streams x).
Definition set_st_signature_wait (v : Z) (x : mavlink_status_t) : mavlink_status_t :=
  mk_status (st_msg_received x) (st_buffer_overrun x) (st_parse_error x) (st_parse_state x) (st_packet_idx x) (st_current_rx_seq x) (st_current_tx_seq x) (st_packet_rx_success_count x) (st_packet_rx_drop_count x) (st_flags x) v (st_signing x) (st_signing_streams x).
Definition set_st_signing (v : option mavlink_signing_t) (x : mavlink_status_t) : mavlink_status_t :=
  mk_status (st_msg_received x) (st_buffer_overrun x) (st_parse_error x) (st_parse_state x) (st_packet_idx x) (st_current_rx_seq x) (st_current_tx_seq x) (st_packet_rx_success_count x) (st_packet_rx_drop_count x) (st_flags x) (st_signature_wait x) v (st_signing_streams x).
Definition set_st_signing_streams (v : option mavlink_signing_streams_t) (x : mavlink_status_t) : mavlink_status_t :=
  mk_status (st_msg_received x) (st_buffer_overrun x) (st_parse_error x) (st_parse_state x) (st_packet_idx x) (st_current_rx_seq x) (st_current_tx_seq x) (st_packet_rx_success_count x) (st_packet_rx_drop_count x) (st_flags x) (st_signature_wait x) (st_signing x) v.

(** [__mavlink_msg_entry]. *)
Record mavlink_msg_entry_t := mk_entry {
  e_msgid : Z;
  e_crc_extra : Z;
  e_min_msg_len : Z;
  e_max_msg_len : Z;
  e_flags : Z;
  e_target_system_ofs : Z;
  e_target_component_ofs : Z
}.

(** ** Well-formed structures: every member in its width, every array of its size *)

Definition msg_ok (m : mavlink_message_t) : Prop :=
  in_u 16 (m_checksum m) ∧ in_u 8 (m_magic m) ∧ in_u 8 (m_len m) ∧
  in_u 8 (m_incompat_flags m) ∧ in_u 8 (m_compat_flags m) ∧ in_u 8 (m_seq m) ∧
  in_u 8 (m_sysid m) ∧ in_u 8 (m_compid m) ∧ in_u 24 (m_msgid m) ∧
  length (m_payload m) = payload_capacity ∧ bytes_ok (m_payload m) ∧
  length (m_ck m) = 2%nat ∧ bytes_ok (m_ck m) ∧
  length (m_signature m) = 13%nat ∧ bytes_ok (m_signature m).

Definition signing_ok (s : mavlink_signing_t) : Prop :=
  in_u 8 (sg_flags s) ∧ in_u 8 (sg_link_id s) ∧ in_u 64 (sg_timestamp s) ∧
  length (sg_secret_key s) = 32%nat ∧ bytes_ok (sg_secret_key s).

Definition stream_ok (s : mavlink_signing_stream) : Prop :=
  in_u 8 (ss_link_id s) ∧ in_u 8 (ss_sysid s) ∧ in_u 8 (ss_compid s) ∧
  length (ss_timestamp_bytes s) = 6%nat ∧ bytes_ok (ss_timestamp_bytes s).

Definition streams_ok (s : mavlink_signing_streams_t) : Prop :=
  0 ≤ str_num s ≤ MAVLINK_MAX_SIGNING_STREAMS ∧
  length (str_stream s) = Z.to_nat MAVLINK_MAX_SIGNING_STREAMS ∧
  Forall stream_ok (str_stream s).

#[global] Instance msg_ok_dec m : Decision (msg_ok m).
Proof. unfold msg_ok. apply _. Defined.
#[global] Instance signing_ok_dec s : Decision (signing_ok s).
Proof. unfold signing_ok. apply _. Defined.
#[global] Instance stream_ok_dec s : Decision (stream_ok s).
Proof. unfold stream_ok. apply _. Defined.
#[global] Instance streams_ok_dec s : Decision (streams_ok s).
Proof. unfold streams_ok. apply _. Defined.

(** Objects with static storage start zeroed. *)
Definition zero_msg : mavlink_message_t :=
  mk_msg 0 0 0 0 0 0 0 0 0 (replicate payload_capacity 0) [0; 0] (replicate 13 0).
Definition zero_status : mavlink_status_t :=
  mk_status FRAMING_INCOMPLETE 0 0 PARSE_STATE_UNINIT 0 0 0 0 0 0 0 None None.
Definition zero_streams : mavlink_signing_streams_t :=
  mk_streams 0 (replicate (Z.to_nat MAVLINK_MAX_SIGNING_STREAMS) (mk_stream 0 0 0 (replicate 6 0))).

(** ** The message table *)

Definition MAVLINK_MESSAGE_CRCS : list mavlink_msg_entry_t :=
  [ mk_entry 0 50 9 9 0 0 0; mk_entry 1 124 31 43 0 0 0; mk_entry 2 137 12 12 0 0 0;
    mk_entry 4 237 14 14 3 12 13; mk_entry 5 217 28 28 1 0 0; mk_entry 6 104 3 3 0 0 0;
    mk_entry 7 119 32 32 0 0 0; mk_entry 8 117 36 36 0 0 0; mk_entry 11 89 6 6 1 4 0;
    mk_entry 20 214 20 20 3 2 3; mk_entry 21 159 2 2 3 0 1; mk_entry 22 220 25 25 0 0 0;
    mk_entry 23 168 23 23 3 4 5; mk_entry 24 24 30 52 0 0 0; mk_entry 25 23 101 101 0 0 0;
    mk_entry 26 170 22 24 0 0 0; mk_entry 27 144 26 29 0 0 0; mk_entry 28 67 16 16 0 0 0;
    mk_entry 29 115 14 16 0 0 0; mk_entry 30 39 28 28 0 0 0; mk_entry 31 246 32 48 0 0 0;
    mk_entry 32 185 28 28 0 0 0; mk_entry 33 104 28 28 0 0 0; mk_entry 34 237 22 22 0 0 0;
    mk_entry 35 244 22 22 0 0 0; mk_entry 36 222 21 37 0 0 0; mk_entry 37 212 6 7 3 4 5;
    mk_entry 38 9 6 7 3 4 5; mk_entry 39 254 37 38 3 32 33; mk_entry 40 230 4 5 3 2 3;
    mk_entry 41 28 4 4 3 2 3; mk_entry 42 28 2 18 0 0 0; mk_entry 43 132 2 3 3 0 1;
    mk_entry 44 221 4 9 3 2 3; mk_entry 45 232 2 3 3 0 1; mk_entry 46 11 2 2 0 0 0;
    mk_entry 47 153 3 8 3 0 1; mk_entry 48 41 13 21 1 12 0; mk_entry 49 39 12 20 0 0 0;
    mk_entry 50 78 37 37 3 18 19; mk_entry 51 196 4 5 3 2 3; mk_entry 54 15 27 27 3 24 25;
    mk_entry 55 3 25 25 0 0 0; mk_entry 61 167 72 72 0 0 0; mk_entry 62 183 26 26 0 0 0;
    mk_entry 63 119 181 181 0 0 0; mk_entry 64 191 225 225 0 0 0; mk_entry 65 118 42 42 0 0 0;
    mk_entry 66 148 6 6 3 2 3; mk_entry 67 21 4 4 0 0 0; mk_entry 69 243 11 30 1 10 0;
    mk_entry 70 124 18 38 3 16 17; mk_entry 73 38 37 38 3 32 33; mk_entry 74 20 20 20 0 0 0;
    mk_entry 75 158 35 35 3 30 31; mk_entry 76 152 33 33 3 30 31; mk_entry 77 143 3 10 3 8 9;
    mk_entry 80 14 4 4 3 2 3; mk_entry 81 106 22 22 0 0 0; mk_entry 82 49 39 51 3 36 37;
    mk_entry 83 22 37 37 0 0 0; mk_entry 84 143 53 53 3 50 51; mk_entry 85 140 51 51 0 0 0;
    mk_entry 86 5 53 53 3 50 51; mk_entry 87 150 51 51 0 0 0; mk_entry 89 231 28 28 0 0 0;
    mk_entry 90 183 56 56 0 0 0; mk_entry 91 63 42 42 0 0 0; mk_entry 92 54 33 33 0 0 0;
    mk_entry 93 47 81 81 0 0 0; mk_entry 100 175 26 34 0 0 0; mk_entry 101 102 32 117 0 0 0;
    mk_entry 102 158 32 117 0 0 0; mk_entry 103 208 20 57 0 0 0; mk_entry 104 56 32 116 0 0 0;
    mk_entry 105 93 62 63 0 0 0; mk_entry 106 138 44 44 0 0 0; mk_entry 107 108 64 65 0 0 0;
    mk_entry 108 32 84 92 0 0 0; mk_entry 109 185 9 9 0 0 0; mk_entry 110 84 254 254 3 1 2;
    mk_entry 111 34 16 18 3 16 17; mk_entry 112 174 12 12 0 0 0; mk_entry 113 124 36 39 0 0 0;
    mk_entry 114 237 44 44 0 0 0; mk_entry 115 4 64 64 0 0 0; mk_entry 116 76 22 24 0 0 0;
    mk_entry 117 128 6 6 3 4 5; mk_entry 118 56 14 14 0 0 0; mk_entry 119 116 12 12 3 10 11;
    mk_entry 120 134 97 97 0 0 0; mk_entry 121 237 2 2 3 0 1; mk_entry 122 203 2 2 3 0 1;
    mk_entry 123 250 113 113 3 0 1; mk_entry 124 87 35 57 0 0 0; mk_entry 125 203 6 6 0 0 0;
    mk_entry 126 220 79 81 3 79 80; mk_entry 127 25 35 35 0 0 0; mk_entry 128 226 35 35 0 0 0;
    mk_entry 129 46 22 24 0 0 0; mk_entry 130 29 13 13 0 0 0; mk_entry 131 223 255 255 0 0 0;
    mk_entry 132 85 14 39 0 0 0; mk_entry 133 6 18 18 0 0 0; mk_entry 134 229 43 43 0 0 0;
    mk_entry 135 203 8 8 0 0 0; mk_entry 136 1 22 22 0 0 0; mk_entry 137 195 14 16 0 0 0;
    mk_entry 138 109 36 120 0 0 0; mk_entry 139 168 43 43 3 41 42; mk_entry 140 181 41 41 0 0 0;
    mk_entry 141 47 32 32 0 0 0; mk_entry 142 72 243 243 0 0 0; mk_entry 143 131 14 16 0 0 0;
    mk_entry 144 127 93 93 0 0 0; mk_entry 146 103 100 100 0 0 0; mk_entry 147 154 36 54 0 0 0;
    mk_entry 148 178 60 78 0 0 0; mk_entry 149 200 30 60 0 0 0; mk_entry 162 189 8 9 0 0 0;
    mk_entry 192 36 44 54 0 0 0; mk_entry 225 208 65 73 0 0 0; mk_entry 230 163 42 42 0 0 0;
    mk_entry 231 105 40 40 0 0 0; mk_entry 232 151 63 65 0 0 0; mk_entry 233 35 182 182 0 0 0;
    mk_entry 234 150 40 40 0 0 0; mk_entry 235 179 42 42 0 0 0; mk_entry 241 90 32 32 0 0 0;
    mk_entry 242 104 52 60 0 0 0; mk_entry 243 85 53 61 1 52 0; mk_entry 244 95 6 6 0 0 0;
    mk_entry 245 130 2 2 0 0 0; mk_entry 246 184 38 38 0 0 0; mk_entry 247 81 19 19 0 0 0;
    mk_entry 248 8 254 254 3 3 4; mk_entry 249 204 36 36 0 0 0; mk_entry 250 49 30 30 0 0 0;
    mk_entry 251 170 18 18 0 0 0; mk_entry 252 44 18 18 0 0 0; mk_entry 253 83 51 54 0 0 0;
    mk_entry 254 46 9 9 0 0 0; mk_entry 256 71 42 42 3 8 9; mk_entry 257 131 9 9 0 0 0;
    mk_entry 258 187 32 232 3 0 1; mk_entry 259 92 235 237 0 0 0; mk_entry 260 146 5 14 0 0 0;
    mk_entry 261 179 27 61 0 0 0; mk_entry 262 12 18 23 0 0 0; mk_entry 263 133 255 255 0 0 0;
    mk_entry 264 49 28 32 0 0 0; mk_entry 265 26 16 20 0 0 0; mk_entry 266 193 255 255 3 2 3;
    mk_entry 267 35 255 255 3 2 3; mk_entry 268 14 4 4 3 2 3; mk_entry 269 109 213 215 0 0 0;
    mk_entry 270 59 19 20 0 0 0; mk_entry 271 22 52 53 0 0 0; mk_entry 275 126 31 32 0 0 0;
    mk_entry 276 18 49 50 0 0 0; mk_entry 277 62 30 30 0 0 0; mk_entry 280 70 33 33 0 0 0;
    mk_entry 281 48 13 13 0 0 0; mk_entry 282 123 35 35 3 32 33; mk_entry 283 74 144 149 0 0 0;
    mk_entry 284 99 32 32 3 30 31; mk_entry 285 137 40 49 3 38 39;
    mk_entry 286 210 53 57 3 50 51; mk_entry 287 1 23 23 3 20 21; mk_entry 288 20 23 23 3 20 21;
    mk_entry 290 251 46 46 0 0 0; mk_entry 291 10 57 57 0 0 0; mk_entry 295 234 12 12 0 0 0;
    mk_entry 296 158 41 41 3 36 37; mk_entry 299 19 96 98 0 0 0; mk_entry 300 217 22 22 0 0 0;
    mk_entry 301 243 58 58 0 0 0; mk_entry 310 28 17 17 0 0 0; mk_entry 311 95 116 116 0 0 0;
    mk_entry 320 243 20 20 3 2 3; mk_entry 321 88 2 2 3 0 1; mk_entry 322 243 149 149 0 0 0;
    mk_entry 323 78 147 147 3 0 1; mk_entry 324 132 146 146 0 0 0; mk_entry 330 23 158 167 0 0 0;
    mk_entry 331 91 230 233 0 0 0; mk_entry 332 236 239 239 0 0 0;
    mk_entry 333 231 109 109 0 0 0; mk_entry 334 72 10 53 0 0 0; mk_entry 335 225 24 24 0 0 0;
    mk_entry 336 245 84 84 0 0 0; mk_entry 339 199 5 5 0 0 0; mk_entry 340 99 70 70 0 0 0;
    mk_entry 345 209 21 21 3 2 3; mk_entry 350 232 20 252 0 0 0; mk_entry 360 11 25 25 0 0 0;
    mk_entry 361 93 33 33 0 0 0; mk_entry 370 75 87 109 0 0 0; mk_entry 371 10 26 26 0 0 0;
    mk_entry 372 26 140 140 0 0 0; mk_entry 373 117 42 42 0 0 0; mk_entry 375 251 140 140 0 0 0;
    mk_entry 376 199 8 8 0 0 0; mk_entry 380 232 20 20 0 0 0; mk_entry 385 147 133 133 3 2 3;
    mk_entry 386 132 16 16 3 4 5; mk_entry 387 4 72 72 3 4 5; mk_entry 388 8 37 37 3 32 33;
    mk_entry 390 156 238 240 0 0 0; mk_entry 395 0 212 212 0 0 0; mk_entry 396 50 160 160 0 0 0;
    mk_entry 397 182 108 108 0 0 0; mk_entry 400 110 254 254 3 4 5; mk_entry 401 183 6 6 3 4 5;
    mk_entry 410 160 53 53 0 0 0; mk_entry 411 106 3 3 0 0 0; mk_entry 412 33 6 6 3 4 5;
    mk_entry 413 77 7 7 3 4 5; mk_entry 435 134 46 46 0 0 0; mk_entry 436 193 9 9 0 0 0;
    mk_entry 437 30 1 1 0 0 0; mk_entry 440 66 35 35 0 0 0; mk_entry 9000 113 137 137 0 0 0;
    mk_entry 9005 117 34 34 0 0 0; mk_entry 12900 114 44 44 3 0 1;
    mk_entry 12901 254 59 59 3 30 31; mk_entry 12902 140 53 53 3 4 5;
    mk_entry 12903 249 46 46 3 0 1; mk_entry 12904 77 54 54 3 28 29;
    mk_entry 12905 49 43 43 3 0 1; mk_entry 12915 94 249 249 3 0 1;
    mk_entry 12918 139 51 51 0 0 0; mk_entry 12919 7 18 18 3 16 17; mk_entry 12920 20 5 5 0 0 0 ].
