(* ===== verification/MavMessageTable.v ===== *)
(** * Lookup in the message table

    Model of [mavlink_get_msg_entry] and its users in [mavlink_helpers.h]: the
    bisection over the sorted table [MAVLINK_MESSAGE_CRCS]. The loop is shown to
    terminate within the table's length, to stay inside the table, and to find
    the entry of a message id exactly when the table has one. *)
From S2P Require Import Prelude MavTypes.
From Stdlib Require Import Sorted.

(** ** The code *)

#[global] Instance mavlink_msg_entry_inhabited : Inhabited mavlink_msg_entry_t :=
  populate (mk_entry 0 0 0 0 0 0 0).

(** [while (low < high)]: [None] when the fuel is spent, which
    [bisect_correct] excludes. *)
Fixpoint bisect (tbl : list mavlink_msg_entry_t) (id : Z) (fuel low high : nat) : option nat :=
  if bool_decide (low < high)%nat then
    match fuel with
    | O => None
    | S fuel =>
        let mid := ((low + 1 + high) / 2)%nat in
        if id <? e_msgid (tbl !!! mid) then bisect tbl id fuel low (mid - 1)
        else if e_msgid (tbl !!! mid) <? id then bisect tbl id fuel mid high
        else Some mid
    end
  else Some low.

Definition get_msg_entry_in (tbl : list mavlink_msg_entry_t) (id : Z) : option mavlink_msg_entry_t :=
  match bisect tbl id (length tbl) 0 (length tbl - 1) with
  | None => None
  | Some low => if e_msgid (tbl !!! low) =? id then Some (tbl !!! low) else None
  end.

Definition mavlink_get_msg_entry (msgid : Z) : option mavlink_msg_entry_t :=
  get_msg_entry_in MAVLINK_MESSAGE_CRCS msgid.

Definition mavlink_get_crc_extra (msg : mavlink_message_t) : Z :=
  match mavlink_get_msg_entry (m_msgid msg) with Some e => e_crc_extra e | None => 0 end.

Definition mavlink_min_message_length (msg : mavlink_message_t) : Z :=
  match mavlink_get_msg_entry (m_msgid msg) with Some e => e_min_msg_len e | None => 0 end.

Definition mavlink_max_message_length (msg : mavlink_message_t) : Z :=
  match mavlink_get_msg_entry (m_msgid msg) with Some e => e_max_msg_len e | None => 0 end.

(** ** The bisection is right on every sorted table *)

Definition sorted_table (tbl : list mavlink_msg_entry_t) : Prop :=
  ∀ i j, (i < j < length tbl)%nat → e_msgid (tbl !!! i) < e_msgid (tbl !!! j).

Lemma sorted_table_inj tbl i j :
  sorted_table tbl → (i < length tbl)%nat → (j < length tbl)%nat →
  e_msgid (tbl !!! i) = e_msgid (tbl !!! j) → i = j.
Proof.
  intros Hs Hi Hj E. destruct (decide (i < j)%nat) as [Hlt|].
  - pose proof (Hs i j ltac:(lia)). lia.
  - destruct (decide (j < i)%nat); [pose proof (Hs j i ltac:(lia))|]; lia.
Qed.

Lemma mid_bounds low high : (low < high)%nat → (low < (low + 1 + high) / 2 ≤ high)%nat.
Proof.
  intros. pose proof (Nat.div_mod_eq (low + 1 + high) 2).
  pose proof (Nat.mod_upper_bound (low + 1 + high) 2). lia.
Qed.

(** The interval shrinks at every iteration and never leaves the table; an id
    of the table stays inside it. *)
Lemma bisect_correct tbl id fuel low high :
  sorted_table tbl → (low ≤ high < length tbl)%nat → (high - low ≤ fuel)%nat →
  ∃ r, bisect tbl id fuel low high = Some r ∧ (low ≤ r ≤ high)%nat ∧
    ∀ k, (low ≤ k ≤ high)%nat → e_msgid (tbl !!! k) = id → r = k.
Proof.
  intros Hs. revert low high. induction fuel as [|fuel IH]; intros low high Hb Hf; cbn [bisect].
  - rewrite bool_decide_false by lia. exists low. split; [done|split; [lia|]]. intros k Hk _. lia.
  - case_bool_decide as Hlt.
    2:{ exists low. split; [done|split; [lia|]]. intros k Hk _. lia. }
    pose proof (mid_bounds low high Hlt) as Hm. set (mid := ((low + 1 + high) / 2)%nat) in *.
    destruct (Z.ltb_spec id (e_msgid (tbl !!! mid))) as [Hl|Hl];
      [|destruct (Z.ltb_spec (e_msgid (tbl !!! mid)) id) as [Hg|Hg]].
    + destruct (IH low (mid - 1)%nat) as (r & E & Hr & Hk); [lia..|].
      exists r. split; [done|split; [lia|]]. intros k Hk' Ek. apply Hk; [|done].
      destruct (decide (k < mid)%nat); [lia|].
      destruct (decide (k = mid)) as [->|]; [lia|]. pose proof (Hs mid k ltac:(lia)). lia.
    + destruct (IH mid high) as (r & E & Hr & Hk); [lia..|].
      exists r. split; [done|split; [lia|]]. intros k Hk' Ek. apply Hk; [|done].
      destruct (decide (mid ≤ k)%nat); [lia|]. pose proof (Hs k mid ltac:(lia)). lia.
    + exists mid. split; [done|split; [lia|]]. intros k Hk Ek.
      apply (sorted_table_inj tbl); [done|lia..].
Qed.

Lemma get_msg_entry_in_spec tbl id e :
  sorted_table tbl → tbl ≠ [] →
  get_msg_entry_in tbl id = Some e ↔ (e ∈ tbl ∧ e_msgid e = id).
Proof.
  intros Hs Hne. assert (0 < length tbl)%nat by (destruct tbl; simpl; [done|lia]).
  destruct (bisect_correct tbl id (length tbl) 0 (length tbl - 1)) as (r & E & Hr & Hk); [done|lia..|].
  unfold get_msg_entry_in. rewrite E. split.
  - destruct (Z.eqb_spec (e_msgid (tbl !!! r)) id) as [<-|]; [|done]. intros [= <-].
    split; [|done]. apply list_elem_of_lookup_total_2. lia.
  - intros [He Eid]. apply list_elem_of_lookup_total_1 in He as (k & Hlt & <-).
    rewrite (Hk k); [|lia|done]. by rewrite Eid, Z.eqb_refl.
Qed.

(** The table of the common dialect is sorted. *)
Definition adjacent_sorted (tbl : list mavlink_msg_entry_t) : bool :=
  forallb (λ p, e_msgid p.1 <? e_msgid p.2) (zip tbl (tail tbl)).

Lemma adjacent_sorted_table tbl : adjacent_sorted tbl = true → sorted_table tbl.
Proof.
  intros H. assert (Hadj : ∀ i, (S i < length tbl)%nat →
    e_msgid (tbl !!! i) < e_msgid (tbl !!! S i)).
  { intros i Hi. unfold adjacent_sorted in H. rewrite forallb_forall in H.
    apply Z.ltb_lt, (H (tbl !!! i, tbl !!! S i)), list_elem_of_In.
    apply list_elem_of_lookup. exists i. apply lookup_zip_with_Some.
    exists (tbl !!! i), (tbl !!! S i). split_and!; [done|..].
    - apply list_lookup_lookup_total_lt. lia.
    - rewrite lookup_tail. by apply list_lookup_lookup_total_lt. }
  intros i j [Hij Hj]. induction Hij as [|j Hij IH]; [by apply Hadj|].
  transitivity (e_msgid (tbl !!! j)); [apply IH; lia|by apply Hadj].
Qed.

Lemma MAVLINK_MESSAGE_CRCS_sorted : sorted_table MAVLINK_MESSAGE_CRCS.
Proof. apply adjacent_sorted_table. vm_compute. reflexivity. Qed.

(** The bisection of mavlink_get_msg_entry finds exactly the entries of
    MAVLINK_MESSAGE_CRCS, by message id. *)
Theorem mavlink_get_msg_entry_spec msgid e :
  mavlink_get_msg_entry msgid = Some e ↔ (e ∈ MAVLINK_MESSAGE_CRCS ∧ e_msgid e = msgid).
Proof.
  apply get_msg_entry_in_spec; [apply MAVLINK_MESSAGE_CRCS_sorted|done].
Qed.

(** The lengths of the table are those of the C type, and a message fits its
    payload buffer. *)
Definition entry_lengths_ok (e : mavlink_msg_entry_t) : bool :=
  (0 <=? e_min_msg_len e) && (e_min_msg_len e <=? e_max_msg_len e) &&
  (e_max_msg_len e <=? MAVLINK_MAX_PAYLOAD_LEN) && (0 <=? e_crc_extra e) &&
  (e_crc_extra e <=? 255) && (0 <=? e_msgid e) && (e_msgid e <? 2 ^ 24).

Lemma get_msg_entry_lengths msgid e :
  mavlink_get_msg_entry msgid = Some e →
  0 ≤ e_min_msg_len e ≤ e_max_msg_len e ∧ e_max_msg_len e ≤ 255 ∧ in_u 8 (e_crc_extra e).
Proof.
  unfold mavlink_get_msg_entry. rewrite get_msg_entry_in_spec; [|apply MAVLINK_MESSAGE_CRCS_sorted|done]. intros [He _].
  assert (H : forallb entry_lengths_ok MAVLINK_MESSAGE_CRCS = true) by (vm_compute; reflexivity).
  rewrite forallb_forall in H. apply list_elem_of_In in He. specialize (H e He).
  unfold entry_lengths_ok, MAVLINK_MAX_PAYLOAD_LEN in H. unfold in_u.
  repeat rewrite andb_true_iff in H. lia.
Qed.
