(* ===== verification/MavSigning.v ===== *)
(** * Packet signing

    Model of [mavlink_sign_packet] and [mavlink_signature_check] of
    [mavlink_helpers.h]: the signature block of an outgoing packet, and the check
    of an incoming one with its per-stream timestamps. Shown: the check accepts
    what the signer produced (same key, fresh timestamp); the table of streams
    stays well formed and only grows; an accepted packet is never accepted again,
    whatever was checked in between. *)
From S2P Require Import Prelude MavSha256 MavTypes.

(** ** The code *)

(** A hash context on the stack. Its content is indeterminate in C; [calc] only
    reads bytes written since [init] ([sha256_refines_fips] holds for any). *)
Definition stack_ctx : mavlink_sha256_ctx := mk_ctx (replicate 64 0) (replicate 8 0) 0.

(** [init], one [update] per chunk, [final_48]. *)
Definition sha256_48 (chunks : list (list Z)) : list Z :=
  mavlink_sha256_final_48 (foldl mavlink_sha256_update (mavlink_sha256_init stack_ctx) chunks).

(** [signing->flags & MAVLINK_SIGNING_FLAG_SIGN_OUTGOING], with the null test. *)
Definition signs_outgoing (signing : option mavlink_signing_t) : bool :=
  match signing with
  | None => false
  | Some s => negb (Z.land (sg_flags s) MAVLINK_SIGNING_FLAG_SIGN_OUTGOING =? 0)
  end.

(** Returns the signature length, the signature block and the signing state
    with its timestamp advanced. *)
Definition mavlink_sign_packet (signing : option mavlink_signing_t) (signature : list Z)
    (header packet crc : list Z) : Z * list Z * option mavlink_signing_t :=
  match signing with
  | Some s =>
      if signs_outgoing signing then
        let sig7 := sg_link_id s :: take 6 (le_bytes 8 (sg_timestamp s)) in
        let s' := set_sg_timestamp (u64 (sg_timestamp s + 1)) s in
        let digest := sha256_48 [sg_secret_key s; header; packet; crc; sig7] in
        (MAVLINK_SIGNATURE_BLOCK_LEN, sig7 ++ digest, Some s')
      else (0, signature, signing)
  | None => (0, signature, signing)
  end.

(** The ten bytes of the packed structure that start at [magic]; [msgid] is a
    24-bit field, low byte first. *)
Definition header_bytes (m : mavlink_message_t) : list Z :=
  [ m_magic m; m_len m; m_incompat_flags m; m_compat_flags m; m_seq m;
    m_sysid m; m_compid m ] ++ le_bytes 3 (m_msgid m).

Definition stream_matches (m : mavlink_message_t) (link_id : Z) (s : mavlink_signing_stream) : bool :=
  (m_sysid m =? ss_sysid s) && (m_compid m =? ss_compid s) && (link_id =? ss_link_id s).

(** The [for (i=0; i<num_signing_streams; i++)] search: the first matching
    index, or the number of streams in use. *)
Fixpoint find_stream (m : mavlink_message_t) (link_id : Z) (streams : list mavlink_signing_stream)
    (i n : nat) : nat :=
  match n, streams with
  | S n, s :: rest => if stream_matches m link_id s then i else find_stream m link_id rest (S i) n
  | _, _ => i
  end.

#[global] Instance mavlink_signing_stream_inhabited : Inhabited mavlink_signing_stream :=
  populate (mk_stream 0 0 0 []).

Definition tstamp_of (psig : list Z) : Z := le_val (take 6 (drop 1 psig)).

Definition signed_digest (key : list Z) (m : mavlink_message_t) : list Z :=
  sha256_48 [key; header_bytes m; take (Z.to_nat (m_len m)) (m_payload m); m_ck m;
             take 7 (m_signature m)].

Definition fail_check (status : mavlink_signing_status_t) (s : mavlink_signing_t)
    (streams : option mavlink_signing_streams_t)
    : bool * option mavlink_signing_t * option mavlink_signing_streams_t :=
  (false, Some (set_sg_last_status status s), streams).

(** The end of the function, stream [i] found or added. *)
Definition accept_check (s : mavlink_signing_t) (psig : list Z) (num : Z)
    (tbl : list mavlink_signing_stream) (i : nat)
    : bool * option mavlink_signing_t * option mavlink_signing_streams_t :=
  let e := tbl !!! i in
  let tbl := <[i := mk_stream (ss_link_id e) (ss_sysid e) (ss_compid e) (take 6 (drop 1 psig))]> tbl in
  let s := if sg_timestamp s <? tstamp_of psig then set_sg_timestamp (tstamp_of psig) s else s in
  (true, Some (set_sg_last_status SIGNING_STATUS_OK s), Some (mk_streams num tbl)).

Definition mavlink_signature_check (signing : option mavlink_signing_t)
    (signing_streams : option mavlink_signing_streams_t) (msg : mavlink_message_t)
    : bool * option mavlink_signing_t * option mavlink_signing_streams_t :=
  match signing with
  | None => (true, signing, signing_streams)
  | Some s =>
      let psig := m_signature msg in
      if negb (bool_decide (signed_digest (sg_secret_key s) msg = take 6 (drop 7 psig)))
      then fail_check SIGNING_STATUS_BAD_SIGNATURE s signing_streams
      else
        let link_id := psig !!! 0%nat in
        match signing_streams with
        | None => fail_check SIGNING_STATUS_NO_STREAMS s signing_streams
        | Some st =>
            let i := find_stream msg link_id (str_stream st) 0 (Z.to_nat (str_num st)) in
            if bool_decide (Z.of_nat i = str_num st) then
              if MAVLINK_MAX_SIGNING_STREAMS <=? str_num st
              then fail_check SIGNING_STATUS_TOO_MANY_STREAMS s signing_streams
              else if u64 (tstamp_of psig + MAVLINK_SIGNING_TIMESTAMP_LIMIT * 100000) <? sg_timestamp s
              then fail_check SIGNING_STATUS_OLD_TIMESTAMP s signing_streams
              else
                let old := str_stream st !!! i in
                let tbl := <[i := mk_stream link_id (m_sysid msg) (m_compid msg)
                                            (ss_timestamp_bytes old)]> (str_stream st) in
                accept_check s psig (u16 (str_num st + 1)) tbl i
            else if tstamp_of psig <=? le_val (ss_timestamp_bytes (str_stream st !!! i))
            then fail_check SIGNING_STATUS_REPLAY s signing_streams
            else accept_check s psig (str_num st) (str_stream st) i
        end
  end.

(** ** The search *)

Lemma find_stream_range m l tbl i n :
  (n ≤ length tbl)%nat → (i ≤ find_stream m l tbl i n ≤ i + n)%nat.
Proof.
  revert tbl i. induction n as [|n IH]; intros tbl i Hn; destruct tbl as [|s tbl]; simpl in *; try lia.
  destruct (stream_matches m l s); [lia|]. specialize (IH tbl (S i)). lia.
Qed.

Lemma find_stream_found m l tbl i n k :
  (n ≤ length tbl)%nat → find_stream m l tbl i n = (i + k)%nat → (k < n)%nat →
  stream_matches m l (tbl !!! k) = true.
Proof.
  revert tbl i k. induction n as [|n IH]; intros tbl i k Hn E Hk; [lia|].
  destruct tbl as [|s tbl]; simpl in *; [lia|].
  destruct (stream_matches m l s) eqn:Em.
  - assert (k = 0%nat) as -> by lia. done.
  - pose proof (find_stream_range m l tbl (S i) n). destruct k as [|k]; [lia|].
    apply (IH tbl (S i)); lia.
Qed.

(** The search only reads the identities of the first [n] streams. *)
Definition same_ids (n : nat) (a b : list mavlink_signing_stream) : Prop :=
  ∀ k, (k < n)%nat →
    ss_link_id (a !!! k) = ss_link_id (b !!! k) ∧ ss_sysid (a !!! k) = ss_sysid (b !!! k) ∧
    ss_compid (a !!! k) = ss_compid (b !!! k).

Lemma find_stream_same m l a b i n n' :
  same_ids n a b → (n ≤ n')%nat → (n ≤ length a)%nat → (n' ≤ length b)%nat →
  (find_stream m l a i n < i + n)%nat → find_stream m l b i n' = find_stream m l a i n.
Proof.
  revert a b i n'. induction n as [|n IH]; intros a b i n' Hs Hn Ha Hb Hf.
  { destruct a; simpl in Hf; lia. }
  destruct a as [|s a]; [simpl in Ha; lia|]. destruct n' as [|n']; [lia|].
  destruct b as [|t b]; [simpl in Hb; lia|].
  destruct (Hs 0%nat ltac:(lia)) as (E1 & E2 & E3). simpl in E1, E2, E3. simpl in *.
  replace (stream_matches m l t) with (stream_matches m l s)
    by (unfold stream_matches; congruence).
  destruct (stream_matches m l s); [done|]. apply IH; try lia.
  intros k Hk. apply (Hs (S k)). lia.
Qed.

(** ** The stream table only grows, its timestamps only increase *)

Definition stream_ts (s : mavlink_signing_stream) : Z := le_val (ss_timestamp_bytes s).

Definition grows (a b : mavlink_signing_streams_t) : Prop :=
  str_num a ≤ str_num b ∧
  same_ids (Z.to_nat (str_num a)) (str_stream a) (str_stream b) ∧
  ∀ k, (k < Z.to_nat (str_num a))%nat →
    stream_ts (str_stream a !!! k) ≤ stream_ts (str_stream b !!! k).

#[global] Instance grows_preorder : PreOrder grows.
Proof.
  split.
  - intros a. split_and!; [lia|done|done].
  - intros a b c (H1 & H2 & H3) (H4 & H5 & H6). split; [lia|]. split.
    + intros k Hk. destruct (H2 k Hk) as (E1 & E2 & E3).
      destruct (H5 k ltac:(lia)) as (E4 & E5 & E6). split_and!; congruence.
    + intros k Hk. transitivity (stream_ts (str_stream b !!! k)); [by apply H3|apply H6; lia].
Qed.

Lemma tstamp_bytes_ok psig :
  length psig = 13%nat → bytes_ok psig →
  length (take 6 (drop 1 psig)) = 6%nat ∧ bytes_ok (take 6 (drop 1 psig)).
Proof.
  intros Hl Hb. rewrite length_take, length_drop. split; [lia|]. by apply Forall_take, Forall_drop.
Qed.

(** What a check that reaches its end leaves: the table of streams well formed,
    grown, with stream [i] carrying the packet's timestamp. *)
Record accepted (st : mavlink_signing_streams_t) (msg : mavlink_message_t)
    (st' : mavlink_signing_streams_t) : Prop := {
  acc_ok : streams_ok st';
  acc_grows : grows st st';
  acc_found : let i := find_stream msg (m_signature msg !!! 0%nat) (str_stream st') 0
                         (Z.to_nat (str_num st')) in
              (i < Z.to_nat (str_num st'))%nat ∧
              stream_ts (str_stream st' !!! i) = tstamp_of (m_signature msg)
}.

Lemma find_stream_here m l tbl i n k :
  (n ≤ length tbl)%nat → (k < n)%nat →
  (∀ j, (j < k)%nat → stream_matches m l (tbl !!! j) = false) →
  stream_matches m l (tbl !!! k) = true → find_stream m l tbl i n = (i + k)%nat.
Proof.
  revert tbl i k. induction n as [|n IH]; intros tbl i k Hn Hk Hb Hm; [lia|].
  destruct tbl as [|s tbl]; simpl in *; [lia|]. destruct k as [|k].
  - simpl in Hm. rewrite Hm. lia.
  - pose proof (Hb 0%nat ltac:(lia)) as H0. simpl in H0. rewrite H0.
    rewrite (IH tbl (S i) k); [lia|lia|lia|..]; [|done]. intros j Hj. apply (Hb (S j)). lia.
Qed.

Lemma find_stream_before m l tbl i n j :
  (n ≤ length tbl)%nat → (i + j < find_stream m l tbl i n)%nat →
  stream_matches m l (tbl !!! j) = false.
Proof.
  revert tbl i j. induction n as [|n IH]; intros tbl i j Hn Hj; destruct tbl as [|s tbl]; simpl in *; try lia.
  destruct (stream_matches m l s) eqn:E; [lia|]. destruct j as [|j]; [done|].
  apply (IH tbl (S i)); lia.
Qed.

(** Setting the timestamp of a stream in use. *)
Lemma accept_existing st msg i :
  streams_ok st → length (m_signature msg) = 13%nat → bytes_ok (m_signature msg) →
  i = find_stream msg (m_signature msg !!! 0%nat) (str_stream st) 0 (Z.to_nat (str_num st)) →
  (i < Z.to_nat (str_num st))%nat →
  stream_ts (str_stream st !!! i) < tstamp_of (m_signature msg) →
  let e := str_stream st !!! i in
  accepted st msg (mk_streams (str_num st)
    (<[i := mk_stream (ss_link_id e) (ss_sysid e) (ss_compid e) (take 6 (drop 1 (m_signature msg)))]>
       (str_stream st))).
Proof.
  intros (Hn & Hl & Hf) Hsl Hsb Ei Hi Hts e. unfold MAVLINK_MAX_SIGNING_STREAMS in *.
  assert (Hids : same_ids (Z.to_nat (str_num st)) (str_stream st)
    (<[i := mk_stream (ss_link_id e) (ss_sysid e) (ss_compid e) (take 6 (drop 1 (m_signature msg)))]>
       (str_stream st))).
  { intros k Hk. destruct (decide (k = i)) as [->|].
    - rewrite list_lookup_total_insert_eq by lia. done.
    - by rewrite list_lookup_total_insert_ne by done. }
  split.
  - unfold streams_ok, MAVLINK_MAX_SIGNING_STREAMS.
    split_and!; simpl; [lia|lia|by rewrite length_insert|].
    apply Forall_insert; [done|].
    assert (He : stream_ok e).
    { unfold e. apply (Forall_lookup_total_1 stream_ok); [done|lia]. }
    destruct He as (? & ? & ? & ? & ?). destruct (tstamp_bytes_ok (m_signature msg)); [done..|].
    split_and!; done.
  - split; [done|]. split; [done|]. simpl. intros k Hk. destruct (decide (k = i)) as [->|].
    + rewrite list_lookup_total_insert_eq by lia. unfold stream_ts in *; simpl. unfold tstamp_of in Hts. lia.
    + by rewrite list_lookup_total_insert_ne by done.
  - simpl. erewrite find_stream_same; [|exact Hids|lia|lia|rewrite length_insert; lia|simpl; lia].
    rewrite <- Ei. split; [done|]. rewrite list_lookup_total_insert_eq by lia. done.
Qed.

(** Adding a stream. *)
Lemma accept_new st msg i e :
  streams_ok st → msg_ok msg →
  Z.of_nat i = str_num st → str_num st < MAVLINK_MAX_SIGNING_STREAMS →
  i = find_stream msg (m_signature msg !!! 0%nat) (str_stream st) 0 (Z.to_nat (str_num st)) →
  e = mk_stream (m_signature msg !!! 0%nat) (m_sysid msg) (m_compid msg)
                (take 6 (drop 1 (m_signature msg))) →
  accepted st msg (mk_streams (str_num st + 1) (<[i := e]> (str_stream st))).
Proof.
  intros (Hn & Hl & Hf) Hmsg Hi Hlt Ei ->. unfold MAVLINK_MAX_SIGNING_STREAMS in *.
  destruct Hmsg as (_ & _ & _ & _ & _ & _ & Hsys & Hcomp & _ & _ & _ & _ & _ & Hsl & Hsb).
  assert (Hother : ∀ k, (k < Z.to_nat (str_num st))%nat → k ≠ i) by lia.
  split.
  - unfold streams_ok, MAVLINK_MAX_SIGNING_STREAMS.
    split_and!; simpl; [lia|lia|by rewrite length_insert|].
    apply Forall_insert; [done|]. destruct (tstamp_bytes_ok (m_signature msg)); [done..|].
    split_and!; simpl; try done; apply (Forall_lookup_total_1 (in_u 8) (m_signature msg)); [done|lia].
  - split; [simpl; lia|]. split; intros k Hk; simpl;
      by rewrite list_lookup_total_insert_ne by (intros ->; by apply (Hother k)).
  - simpl. rewrite (find_stream_here _ _ _ 0 _ i).
    + simpl. split; [lia|]. by rewrite list_lookup_total_insert_eq by lia.
    + rewrite length_insert. lia.
    + lia.
    + intros j Hj. rewrite list_lookup_total_insert_ne by lia.
      apply (find_stream_before msg _ (str_stream st) 0 (Z.to_nat (str_num st))); lia.
    + rewrite list_lookup_total_insert_eq by lia. unfold stream_matches; simpl.
      by rewrite !Z.eqb_refl.
Qed.

Lemma check_cases s st msg :
  streams_ok st → msg_ok msg →
  let '(r, sg', st') := mavlink_signature_check (Some s) (Some st) msg in
  ∃ s', sg' = Some s' ∧ sg_secret_key s' = sg_secret_key s ∧
    ((r = false ∧ st' = Some st) ∨ (r = true ∧ ∃ st1, st' = Some st1 ∧ accepted st msg st1)).
Proof.
  intros Hst Hmsg. unfold mavlink_signature_check, fail_check, accept_check.
  set (i := find_stream _ _ _ _ _).
  assert (Hr : (i ≤ Z.to_nat (str_num st))%nat).
  { apply (find_stream_range msg _ (str_stream st) 0). destruct Hst as (? & ? & _).
    unfold MAVLINK_MAX_SIGNING_STREAMS in *. lia. }
  destruct (negb _); [eexists; split_and!; eauto|].
  case_bool_decide as Hi.
  - destruct (Z.leb_spec MAVLINK_MAX_SIGNING_STREAMS (str_num st)); [eexists; split_and!; eauto|].
    destruct (_ <? _); [eexists; split_and!; eauto|].
    eexists. split; [reflexivity|]. split; [by destruct (_ <? _)|]. right. split; [done|].
    eexists. split; [reflexivity|]. destruct Hst as (Hn & Hl & Hf) eqn:E. clear E.
    unfold MAVLINK_MAX_SIGNING_STREAMS in *.
    rewrite wrapu_id by (unfold in_u; lia). rewrite list_lookup_total_insert_eq by lia.
    rewrite list_insert_insert_eq. apply accept_new; [done|done|done|done|done|done].
  - destruct (Z.leb_spec (tstamp_of (m_signature msg)) (stream_ts (str_stream st !!! i))) as [Hle|Hgt];
      unfold stream_ts in *.
    + rewrite (proj2 (Z.leb_le _ _) Hle). eexists; split_and!; eauto.
    + rewrite (proj2 (Z.leb_gt _ _) Hgt). eexists. split; [reflexivity|].
      split; [by destruct (_ <? _)|]. right. split; [done|]. eexists. split; [reflexivity|].
      destruct Hmsg as (_ & _ & _ & _ & _ & _ & _ & _ & _ & _ & _ & _ & _ & Hsl & Hsb).
      apply (accept_existing st msg i); try done. destruct Hst as (? & _). lia.
Qed.

Lemma tstamp_in_u64 psig :
  length psig = 13%nat → bytes_ok psig → in_u 64 (tstamp_of psig).
Proof.
  intros Hl Hb. destruct (tstamp_bytes_ok psig Hl Hb) as [El Hb'].
  unfold tstamp_of. pose proof (le_val_in_u _ Hb') as H. rewrite El in H.
  eapply in_u_mono; [|done]. lia.
Qed.

(** The check keeps the signing state and the table well formed, and only fails
    when there is a signing state. *)
Lemma signature_check_ok signing streams msg :
  msg_ok msg → (∀ g, signing = Some g → signing_ok g) →
  (∀ t, streams = Some t → streams_ok t) →
  let '(r, sg', st') := mavlink_signature_check signing streams msg in
  (∀ g, sg' = Some g → signing_ok g) ∧ (∀ t, st' = Some t → streams_ok t) ∧
  (sg' = None → r = true).
Proof.
  intros Hm Hg Ht. destruct signing as [s|]; [|done]. specialize (Hg s eq_refl).
  assert (Hset : ∀ x, signing_ok (set_sg_last_status x s)) by done.
  destruct streams as [st|].
  - pose proof (check_cases s st msg (Ht st eq_refl) Hm) as H.
    destruct (mavlink_signature_check (Some s) (Some st) msg) as [[r sg'] st'] eqn:E.
    destruct H as (s' & -> & _ & Hcases). split_and!.
    + intros g [= <-]. revert E. unfold mavlink_signature_check, fail_check, accept_check.
      destruct Hm as (_ & _ & _ & _ & _ & _ & _ & _ & _ & _ & _ & _ & _ & Hsl & Hsb).
      pose proof (tstamp_in_u64 _ Hsl Hsb). destruct Hg as (? & ? & ? & ? & ?).
      repeat case_match; intros E; simplify_eq; done.
    + intros t Et. destruct Hcases as [[_ ->]|(_ & st1 & -> & Hacc)]; simplify_eq; [by apply Ht|].
      apply Hacc.
    + done.
  - unfold mavlink_signature_check, fail_check. repeat case_match; simplify_eq;
      split_and!; try done; intros g [= <-]; apply Hset.
Qed.

(** ** No replay *)

(** The signing state after a sequence of checks on one channel. *)
Definition run_checks (sg : option mavlink_signing_t) (st : option mavlink_signing_streams_t)
    (msgs : list mavlink_message_t) : option mavlink_signing_t * option mavlink_signing_streams_t :=
  foldl (λ p m, let '(_, sg, st) := mavlink_signature_check p.1 p.2 m in (sg, st)) (sg, st) msgs.

Lemma run_checks_grows s st msgs :
  streams_ok st → Forall msg_ok msgs →
  ∃ s' st', run_checks (Some s) (Some st) msgs = (Some s', Some st') ∧
            streams_ok st' ∧ grows st st'.
Proof.
  intros Hst Hm. revert s st Hst. induction Hm as [|m msgs Hm _ IH]; intros s st Hst.
  - exists s, st. split_and!; [done|done|reflexivity].
  - unfold run_checks. rewrite foldl_cons. cbn [fst snd].
    pose proof (check_cases s st m Hst Hm) as H.
    destruct (mavlink_signature_check _ _ _) as [[r sg'] st'].
    destruct H as (s1 & -> & _ & [[_ ->]|(_ & st1 & -> & Hacc)]).
    + by apply IH.
    + destruct (IH s1 st1) as (s2 & st2 & E & Ho & Hg); [apply Hacc|].
      exists s2, st2. split; [done|]. split; [done|]. transitivity st1; [apply Hacc|done].
Qed.

(** A packet whose timestamp is not newer than its stream's is refused. *)
Lemma check_stale s st msg :
  let i := find_stream msg (m_signature msg !!! 0%nat) (str_stream st) 0 (Z.to_nat (str_num st)) in
  (i < Z.to_nat (str_num st))%nat →
  tstamp_of (m_signature msg) ≤ stream_ts (str_stream st !!! i) →
  (mavlink_signature_check (Some s) (Some st) msg).1.1 = false.
Proof.
  intros i Hi Hts. unfold mavlink_signature_check. destruct (negb _); [done|]. fold i.
  rewrite bool_decide_false by lia. unfold stream_ts in Hts.
  by rewrite (proj2 (Z.leb_le _ _) Hts).
Qed.

(** C24: A signed packet that was accepted once is never accepted again on the same
    signing streams, whatever packets are checked in between. *)
Theorem signature_check_no_replay s st msg msgs :
  streams_ok st → msg_ok msg → Forall msg_ok msgs →
  (mavlink_signature_check (Some s) (Some st) msg).1.1 = true →
  let '(_, sg1, st1) := mavlink_signature_check (Some s) (Some st) msg in
  let '(sg2, st2) := run_checks sg1 st1 msgs in
  (mavlink_signature_check sg2 st2 msg).1.1 = false.
Proof.
  intros Hst Hm Hms Hr. pose proof (check_cases s st msg Hst Hm) as H.
  destruct (mavlink_signature_check (Some s) (Some st) msg) as [[r sg1] st1]. simpl in Hr. subst r.
  destruct H as (s1 & -> & _ & [[? _]|(_ & st1' & -> & Hacc)]); [done|].
  destruct (run_checks_grows s1 st1' msgs) as (s2 & st2 & -> & Ho2 & Hn & Hids & Hts);
    [apply Hacc|done|].
  destruct (acc_ok _ _ _ Hacc) as (Hn1 & Hl1 & _). destruct Ho2 as (Hn2 & Hl2 & _).
  destruct (acc_found _ _ _ Hacc) as [Hi Ets]. unfold MAVLINK_MAX_SIGNING_STREAMS in *.
  apply check_stale; erewrite find_stream_same; try exact Hids; try (simpl; lia).
  rewrite <- Ets. by apply Hts.
Qed.

(** ** What is signed is accepted *)

Lemma length_word_bytes x : length (word_bytes x) = 4%nat.
Proof. done. Qed.

Lemma length_sha256_48 chunks : length (sha256_48 chunks) = 6%nat.
Proof. unfold sha256_48, mavlink_sha256_final_48. by destruct (bool_decide _). Qed.

(** The receiver's state lets a new timestamp in: a free slot and a timestamp
    within the limit for a new stream, a newer timestamp for a known one. *)
Definition fresh (s : mavlink_signing_t) (st : mavlink_signing_streams_t) (msg : mavlink_message_t)
    (link_id ts : Z) : Prop :=
  let i := find_stream msg link_id (str_stream st) 0 (Z.to_nat (str_num st)) in
  if bool_decide (Z.of_nat i = str_num st)
  then str_num st < MAVLINK_MAX_SIGNING_STREAMS ∧
       sg_timestamp s ≤ ts + MAVLINK_SIGNING_TIMESTAMP_LIMIT * 100000
  else stream_ts (str_stream st !!! i) < ts.

Lemma sig_block_fields link ts digest :
  in_u 48 ts →
  let sig := (link :: take 6 (le_bytes 8 ts)) ++ digest in
  take 7 sig = link :: take 6 (le_bytes 8 ts) ∧ drop 7 sig = digest ∧
  tstamp_of sig = ts ∧ sig !!! 0%nat = link.
Proof.
  intros Hts sig.
  assert (E : take 6 (le_bytes 8 ts) = le_bytes 6 ts) by reflexivity.
  unfold sig. rewrite E. clear sig E. split_and!; [done|done| |done].
  unfold tstamp_of. change (le_val (le_bytes 6 ts) = ts). by apply le_val_bytes_small.
Qed.

Lemma signed_packet_accepted s sig0 r st msg :
  signs_outgoing (Some s) = true → in_u 48 (sg_timestamp s) →
  sg_secret_key r = sg_secret_key s →
  fresh r st msg (sg_link_id s) (sg_timestamp s) →
  m_signature msg =
    (mavlink_sign_packet (Some s) sig0 (header_bytes msg)
       (take (Z.to_nat (m_len msg)) (m_payload msg)) (m_ck msg)).1.2 →
  (mavlink_signature_check (Some r) (Some st) msg).1.1 = true.
Proof.
  intros Hs Hts Hk Hf Hsig. unfold mavlink_sign_packet in Hsig. rewrite Hs in Hsig. cbn [fst snd] in Hsig.
  set (digest := sha256_48 _) in Hsig.
  destruct (sig_block_fields (sg_link_id s) (sg_timestamp s) digest Hts) as (E7 & Ed & Ets & E0).
  rewrite <- Hsig in E7, Ed, Ets, E0.
  unfold mavlink_signature_check, signed_digest. rewrite E7, Ed, Ets, E0, Hk. fold digest.
  rewrite bool_decide_true.
  2:{ symmetry. rewrite firstn_all2; [done|]. unfold digest. by rewrite length_sha256_48. }
  simpl negb. cbv iota. unfold fresh in Hf.
  set (i := find_stream _ _ _ _ _) in *. case_bool_decide.
  - destruct Hf as [Hn Ht]. unfold MAVLINK_MAX_SIGNING_STREAMS in *.
    rewrite (proj2 (Z.leb_gt _ _)) by lia.
    rewrite wrapu_id by (unfold in_u in *; unfold MAVLINK_SIGNING_TIMESTAMP_LIMIT; lia).
    by rewrite (proj2 (Z.ltb_ge _ _)) by lia.
  - unfold stream_ts in Hf. by rewrite (proj2 (Z.leb_gt _ _)) by lia.
Qed.

(** A packet signed by mavlink_sign_packet is accepted by mavlink_signature_check
    of a receiver with the same key for which the timestamp is fresh. *)
Theorem sign_then_check s sig0 r st msg :
  signs_outgoing (Some s) = true → in_u 48 (sg_timestamp s) →
  sg_secret_key r = sg_secret_key s →
  fresh r st msg (sg_link_id s) (sg_timestamp s) →
  m_signature msg =
    (mavlink_sign_packet (Some s) sig0 (header_bytes msg)
       (take (Z.to_nat (m_len msg)) (m_payload msg)) (m_ck msg)).1.2 →
  (mavlink_signature_check (Some r) (Some st) msg).1.1 = true.
Proof. apply signed_packet_accepted. Qed.

(** A key, a signer and a signed heartbeat. *)
Definition sample_signing : mavlink_signing_t :=
  mk_signing MAVLINK_SIGNING_FLAG_SIGN_OUTGOING 5 1000 (replicate 32 7) false SIGNING_STATUS_NONE.
Definition sample_unsigned : mavlink_message_t :=
  mk_msg 0x2503 MAVLINK_STX 9 MAVLINK_IFLAG_SIGNED 0 3 255 190 0
    ([0; 0; 0; 0; 10; 3; 0; 4; 3] ++ replicate 255 0) [0x03; 0x25] (replicate 13 0).
Definition sample_signed : mavlink_message_t :=
  set_m_signature (mavlink_sign_packet (Some sample_signing) (replicate 13 0) (header_bytes sample_unsigned)
    (take 9 (m_payload sample_unsigned)) (m_ck sample_unsigned)).1.2 sample_unsigned.

Lemma sign_then_check_witness :
  (mavlink_signature_check (Some sample_signing) (Some zero_streams) sample_signed).1.1 = true.
Proof.
  apply (sign_then_check sample_signing (replicate 13 0) sample_signing zero_streams sample_signed).
  1, 3, 5: vm_compute; reflexivity.
  - decide_now.
  - vm_compute. split; [reflexivity|discriminate].
Defined.

Lemma signature_check_no_replay_witness :
  let '(_, sg1, st1) := mavlink_signature_check (Some sample_signing) (Some zero_streams) sample_signed in
  let '(sg2, st2) := run_checks sg1 st1 [sample_unsigned] in
  (mavlink_signature_check sg2 st2 sample_signed).1.1 = false.
Proof.
  apply (signature_check_no_replay sample_signing zero_streams sample_signed [sample_unsigned]).
  1-3: decide_now.
  vm_compute; reflexivity.
Defined.
