(* ===== verification/MavFinalize.v ===== *)
(** * Building and serialising a frame

    Model of the sending half of [mavlink_helpers.h] and of
    [mavlink_msg_get_send_buffer_length] of [protocol.h]: payload trimming,
    [mavlink_finalize_message_buffer] and its channel wrappers,
    [mavlink_msg_to_send_buffer], and the streaming variants
    [_mav_finalize_message_chan_send] and [_mavlink_resend_uart].
    Shown: trimming removes exactly the trailing zeros (one byte is kept); the
    announced length is the length of the bytes written and fits the largest
    packet; the streaming and the buffered encoders put the same bytes on the
    wire. *)
From S2P Require Import Prelude MavChecksum MavSha256 MavTypes MavSigning.

(** ** The code *)

(** [while (length > 1 && payload[length-1] == 0) length--]. *)
Fixpoint mav_trim_payload (payload : list Z) (length : nat) : nat :=
  match length with
  | S n => if (1 <? Z.of_nat length) && (payload !!! n =? 0)
           then mav_trim_payload payload n else length
  | O => O
  end.

Definition msgid_bytes (msgid : Z) : list Z :=
  [ Z.land msgid 0xff; Z.land (Z.shiftr msgid 8) 0xff; Z.land (Z.shiftr msgid 16) 0xff ].

(** The header as a byte array: MAVLink 1 has six bytes, MAVLink 2 ten. *)
Definition header1 (len seq sysid compid msgid : Z) : list Z :=
  [ MAVLINK_STX_MAVLINK1; len; seq; sysid; compid; Z.land msgid 0xff ].

Definition header2 (magic len incompat compat seq sysid compid msgid : Z) : list Z :=
  [ magic; len; incompat; compat; seq; sysid; compid ] ++ msgid_bytes msgid.

(** Checksum of header (without magic), payload and the message's extra byte. *)
Definition frame_checksum (header payload : list Z) (crc_extra : Z) : Z :=
  crc_accumulate crc_extra (crc_accumulate_buffer (crc_calculate (drop 1 header)) payload).

Definition checksum_bytes (checksum : Z) : list Z :=
  [ u8 (Z.land checksum 0xff); u8 (Z.shiftr checksum 8) ].

Definition out_mavlink1 (status : mavlink_status_t) : bool :=
  negb (Z.land (st_flags status) MAVLINK_STATUS_FLAG_OUT_MAVLINK1 =? 0).

Definition mavlink_finalize_message_buffer (msg : mavlink_message_t) (system_id component_id : Z)
    (status : mavlink_status_t) (min_length length crc_extra : Z)
    : Z * mavlink_message_t * mavlink_status_t :=
  let mavlink1 := out_mavlink1 status in
  let signing := negb mavlink1 && signs_outgoing (st_signing status) in
  let signature_len := if signing then MAVLINK_SIGNATURE_BLOCK_LEN else 0 in
  let header_len := if mavlink1 then MAVLINK_CORE_HEADER_MAVLINK1_LEN + 1
                    else MAVLINK_CORE_HEADER_LEN + 1 in
  let magic := if mavlink1 then MAVLINK_STX_MAVLINK1 else MAVLINK_STX in
  let len := if mavlink1 then min_length
             else Z.of_nat (mav_trim_payload (m_payload msg) (Z.to_nat length)) in
  let incompat := if signing then MAVLINK_IFLAG_SIGNED else 0 in
  let seq := st_current_tx_seq status in
  let status := set_st_current_tx_seq (u8 (st_current_tx_seq status + 1)) status in
  let buf := if mavlink1 then header1 len seq system_id component_id (m_msgid msg)
             else header2 magic len incompat 0 seq system_id component_id (m_msgid msg) in
  let body := take (Z.to_nat len) (m_payload msg) in
  let checksum := frame_checksum buf body crc_extra in
  let ck := checksum_bytes checksum in
  let payload := memcpy_at (m_payload msg) (Z.to_nat len) ck in
  let '(_, signature, sg) :=
    if signing then mavlink_sign_packet (st_signing status) (m_signature msg) buf body ck
    else (0, m_signature msg, st_signing status) in
  let msg := mk_msg checksum magic len incompat 0 seq system_id component_id (m_msgid msg)
                    payload (m_ck msg) signature in
  (u16 (len + header_len + 2 + signature_len), msg, set_st_signing sg status).

(** The static per-channel arrays. *)
Record channels := mk_channels {
  chan_status : list mavlink_status_t;
  chan_buffer : list mavlink_message_t
}.

(** [&m_mavlink_status[chan]]: outside the array the behaviour is undefined. *)
Definition mavlink_get_channel_status (ch : channels) (chan : nat) : option mavlink_status_t :=
  chan_status ch !! chan.
Definition mavlink_get_channel_buffer (ch : channels) (chan : nat) : option mavlink_message_t :=
  chan_buffer ch !! chan.

Definition put_channel_status (ch : channels) (chan : nat) (s : mavlink_status_t) : channels :=
  mk_channels (<[chan := s]> (chan_status ch)) (chan_buffer ch).
Definition put_channel_buffer (ch : channels) (chan : nat) (m : mavlink_message_t) : channels :=
  mk_channels (chan_status ch) (<[chan := m]> (chan_buffer ch)).

Definition mavlink_reset_channel_status (ch : channels) (chan : nat) : option channels :=
  status ← mavlink_get_channel_status ch chan;
  Some (put_channel_status ch chan (set_st_parse_state PARSE_STATE_IDLE status)).

Definition mavlink_finalize_message_chan (ch : channels) (msg : mavlink_message_t)
    (system_id component_id : Z) (chan : nat) (min_length length crc_extra : Z)
    : option (Z * mavlink_message_t * channels) :=
  status ← mavlink_get_channel_status ch chan;
  let '(n, msg, status) :=
    mavlink_finalize_message_buffer msg system_id component_id status min_length length crc_extra in
  Some (n, msg, put_channel_status ch chan status).

Definition mavlink_finalize_message (ch : channels) (msg : mavlink_message_t)
    (system_id component_id min_length length crc_extra : Z)
    : option (Z * mavlink_message_t * channels) :=
  mavlink_finalize_message_chan ch msg system_id component_id MAVLINK_COMM_0
    min_length length crc_extra.

(** [mavlink_set_proto_version] / [mavlink_get_proto_version]. *)
Definition mavlink_set_proto_version (ch : channels) (chan : nat) (version : Z) : option channels :=
  status ← mavlink_get_channel_status ch chan;
  let flags := if 1 <? version
               then Z.land (st_flags status) (u8 (Z.lnot MAVLINK_STATUS_FLAG_OUT_MAVLINK1))
               else Z.lor (st_flags status) MAVLINK_STATUS_FLAG_OUT_MAVLINK1 in
  Some (put_channel_status ch chan (set_st_flags flags status)).

Definition mavlink_get_proto_version (ch : channels) (chan : nat) : option Z :=
  status ← mavlink_get_channel_status ch chan;
  Some (if 0 <? Z.land (st_flags status) MAVLINK_STATUS_FLAG_OUT_MAVLINK1 then 1 else 2).

(** The bytes written to [buf], and the length returned. *)
Definition mavlink_msg_to_send_buffer (msg : mavlink_message_t) : list Z * Z :=
  let ck := checksum_bytes (m_checksum msg) in
  if m_magic msg =? MAVLINK_STX_MAVLINK1 then
    (header1 (m_len msg) (m_seq msg) (m_sysid msg) (m_compid msg) (m_msgid msg)
       ++ take (Z.to_nat (m_len msg)) (m_payload msg) ++ ck,
     u16 (MAVLINK_CORE_HEADER_MAVLINK1_LEN + 1 + 2 + m_len msg))
  else
    let length := mav_trim_payload (m_payload msg) (Z.to_nat (m_len msg)) in
    let signature_len :=
      if Z.land (m_incompat_flags msg) MAVLINK_IFLAG_SIGNED =? 0 then 0
      else MAVLINK_SIGNATURE_BLOCK_LEN in
    (header2 (m_magic msg) (Z.of_nat length) (m_incompat_flags msg) (m_compat_flags msg)
             (m_seq msg) (m_sysid msg) (m_compid msg) (m_msgid msg)
       ++ take length (m_payload msg) ++ ck ++ take (Z.to_nat signature_len) (m_signature msg),
     u16 (MAVLINK_CORE_HEADER_LEN + 1 + 2 + Z.of_nat length + signature_len)).

Definition mavlink_msg_get_send_buffer_length (msg : mavlink_message_t) : Z :=
  if m_magic msg =? MAVLINK_STX_MAVLINK1
  then u16 (m_len msg + MAVLINK_CORE_HEADER_MAVLINK1_LEN + 1 + 2)
  else
    let signature_len :=
      if Z.land (m_incompat_flags msg) MAVLINK_IFLAG_SIGNED =? 0 then 0
      else MAVLINK_SIGNATURE_BLOCK_LEN in
    u16 (m_len msg + MAVLINK_NUM_NON_PAYLOAD_BYTES + signature_len).

(** The streaming encoder: the bytes handed to [_mavlink_send_uart], in order.
    [mavlink_system] is the global [sysid, compid] pair. *)
Definition mav_finalize_message_chan_send (mavlink_system : Z * Z) (status : mavlink_status_t)
    (msgid : Z) (packet : list Z) (min_length length crc_extra : Z)
    : list Z * mavlink_status_t :=
  let mavlink1 := out_mavlink1 status in
  let signing := negb mavlink1 && signs_outgoing (st_signing status) in
  let '(sysid, compid) := mavlink_system in
  if mavlink1 && (255 <? msgid)
  then ([], set_st_parse_error (u8 (st_parse_error status + 1)) status)
  else
    let length := if mavlink1 then Z.to_nat min_length
                  else mav_trim_payload packet (Z.to_nat length) in
    let buf :=
      if mavlink1 then header1 (Z.of_nat length) (st_current_tx_seq status) sysid compid msgid
      else header2 MAVLINK_STX (Z.of_nat length) (if signing then MAVLINK_IFLAG_SIGNED else 0) 0
                   (st_current_tx_seq status) sysid compid msgid in
    let status := set_st_current_tx_seq (u8 (st_current_tx_seq status + 1)) status in
    let body := take length packet in
    let checksum := frame_checksum buf body crc_extra in
    let ck := checksum_bytes checksum in
    let '(signature_len, signature, sg) :=
      if signing then mavlink_sign_packet (st_signing status) [] buf body ck
      else (0, [], st_signing status) in
    (buf ++ body ++ ck ++ (if signature_len =? 0 then [] else take (Z.to_nat signature_len) signature),
     set_st_signing sg status).

Definition mavlink_resend_uart (msg : mavlink_message_t) : list Z :=
  let ck := checksum_bytes (m_checksum msg) in
  let '(buf, signature_len) :=
    if m_magic msg =? MAVLINK_STX_MAVLINK1
    then (header1 (m_len msg) (m_seq msg) (m_sysid msg) (m_compid msg) (m_msgid msg), 0)
    else (header2 (m_magic msg) (m_len msg) (m_incompat_flags msg) (m_compat_flags msg)
                  (m_seq msg) (m_sysid msg) (m_compid msg) (m_msgid msg),
          if Z.land (m_incompat_flags msg) MAVLINK_IFLAG_SIGNED =? 0 then 0
          else MAVLINK_SIGNATURE_BLOCK_LEN) in
  buf ++ take (Z.to_nat (m_len msg)) (m_payload msg) ++ ck ++
  (if signature_len =? 0 then [] else take (Z.to_nat signature_len) (m_signature msg)).

(** ** Trimming *)

Lemma trim_le p n : (mav_trim_payload p n ≤ n)%nat.
Proof.
  induction n as [|n IH]; [done|]. cbn [mav_trim_payload]. destruct (_ && _); lia.
Qed.

Lemma trim_pos p n : (1 ≤ n)%nat → (1 ≤ mav_trim_payload p n)%nat.
Proof.
  induction n as [|n IH]; [done|]. intros _. cbn [mav_trim_payload].
  destruct (Z.ltb_spec 1 (Z.of_nat (S n))); simpl; [|lia].
  destruct (_ =? 0); [apply IH; lia|lia].
Qed.

(** What is cut off is zero. *)
Lemma trim_zero p n k : (mav_trim_payload p n ≤ k < n)%nat → p !!! k = 0.
Proof.
  induction n as [|n IH]; [lia|]. cbn [mav_trim_payload].
  destruct (Z.ltb_spec 1 (Z.of_nat (S n))); simpl; [|lia].
  destruct (Z.eqb_spec (p !!! n) 0); [|lia].
  intros ?. destruct (decide (k = n)) as [->|]; [done|]. apply IH. lia.
Qed.

(** The last byte kept is not zero, unless it is the only one. *)
Lemma trim_last p n :
  (1 < mav_trim_payload p n)%nat → p !!! (mav_trim_payload p n - 1)%nat ≠ 0.
Proof.
  induction n as [|n IH]; [simpl; lia|]. cbn [mav_trim_payload].
  destruct (Z.ltb_spec 1 (Z.of_nat (S n))); simpl; [|lia].
  destruct (Z.eqb_spec (p !!! n) 0); [done|]. intros _. by replace (S n - 1)%nat with n by lia.
Qed.

(** The result only depends on the bytes in front of the length. *)
Lemma trim_ext p q n :
  (∀ k, (k < n)%nat → p !!! k = q !!! k) → mav_trim_payload p n = mav_trim_payload q n.
Proof.
  induction n as [|n IH]; intros H; [done|]. cbn [mav_trim_payload].
  rewrite (H n) by lia. rewrite IH; [done|]. intros. apply H. lia.
Qed.

Lemma trim_idem p n :
  mav_trim_payload p (mav_trim_payload p n) = mav_trim_payload p n.
Proof.
  pose proof (trim_last p n) as H. destruct (mav_trim_payload p n) as [|m] eqn:E; [done|].
  cbn [mav_trim_payload]. destruct (Z.ltb_spec 1 (Z.of_nat (S m))); [|done].
  replace (S m - 1)%nat with m in H by lia. simpl.
  destruct (Z.eqb_spec (p !!! m) 0); [|done]. exfalso. by apply H; [lia|].
Qed.

(** ** What finalising leaves in the message *)

(** Bytes of the message that are in front of the checksum stay. *)
Lemma take_memcpy_payload p n n' ck :
  (n' ≤ n)%nat → (n + length ck ≤ length p)%nat → take n' (memcpy_at p n ck) = take n' p.
Proof. intros. by apply take_memcpy_at. Qed.

Lemma trim_memcpy p n ck :
  (n + length ck ≤ length p)%nat →
  mav_trim_payload (memcpy_at p n ck) n = mav_trim_payload p n.
Proof.
  intros. apply trim_ext. intros k Hk. rewrite !list_lookup_total_alt.
  rewrite <- (lookup_take_lt (memcpy_at p n ck) n k), <- (lookup_take_lt p n k) by lia.
  by rewrite take_memcpy_at by lia.
Qed.

Lemma checksum_bytes_length c : length (checksum_bytes c) = 2%nat.
Proof. done. Qed.

(** The lengths a sender passes: the C types, and the message table's order. *)
Definition lengths_ok (min_length length : Z) : Prop := 0 ≤ min_length ≤ length ∧ length ≤ 255.

(** The payload length finalising settles on. *)
Definition wire_len (status : mavlink_status_t) (msg : mavlink_message_t) (min_length length : Z) : Z :=
  if out_mavlink1 status then min_length
  else Z.of_nat (mav_trim_payload (m_payload msg) (Z.to_nat length)).

Lemma wire_len_range status msg min_length length :
  lengths_ok min_length length → 0 ≤ wire_len status msg min_length length ≤ length.
Proof.
  intros [??]. unfold wire_len. destruct (out_mavlink1 status); [lia|].
  pose proof (trim_le (m_payload msg) (Z.to_nat length)). lia.
Qed.

(** The fields of the finalised message, one by one. *)
Lemma finalize_fields msg sysid compid status min_length length crc_extra :
  let '(n, msg', status') :=
    mavlink_finalize_message_buffer msg sysid compid status min_length length crc_extra in
  let mavlink1 := out_mavlink1 status in
  let signing := negb mavlink1 && signs_outgoing (st_signing status) in
  let len := wire_len status msg min_length length in
  m_magic msg' = (if mavlink1 then MAVLINK_STX_MAVLINK1 else MAVLINK_STX) ∧
  m_len msg' = len ∧ m_incompat_flags msg' = (if signing then MAVLINK_IFLAG_SIGNED else 0) ∧
  m_compat_flags msg' = 0 ∧ m_seq msg' = st_current_tx_seq status ∧
  m_sysid msg' = sysid ∧ m_compid msg' = compid ∧ m_msgid msg' = m_msgid msg ∧
  m_payload msg' = memcpy_at (m_payload msg) (Z.to_nat len) (checksum_bytes (m_checksum msg')) ∧
  n = u16 (len + (if mavlink1 then 6 else 10) + 2 + (if signing then 13 else 0)).
Proof.
  unfold mavlink_finalize_message_buffer, wire_len. cbv zeta.
  set (signing := negb _ && _).
  destruct (if signing then _ else _) as [[sl sg] sgn].
  split_and!; try done; destruct (out_mavlink1 status); done.
Qed.

(** ** Lengths *)

Lemma length_take_payload msg n :
  length (m_payload msg) = payload_capacity → (n ≤ 264)%nat → length (take n (m_payload msg)) = n.
Proof. intros E Hn. rewrite length_take, E. unfold payload_capacity. lia. Qed.

(** The signature block of a finalised message that is signed has 13 bytes. *)
Lemma sign_packet_length signing sig h p c :
  signs_outgoing signing = true → length (mavlink_sign_packet signing sig h p c).1.2 = 13%nat.
Proof.
  intros Hs. destruct signing as [s|]; [|done]. unfold mavlink_sign_packet. rewrite Hs. cbn [fst snd].
  rewrite length_app, length_sha256_48. cbn [length]. by rewrite length_take, length_le_bytes.
Qed.

Lemma finalize_signature_length msg sysid compid status min_length length crc_extra :
  negb (out_mavlink1 status) && signs_outgoing (st_signing status) = true →
  List.length (m_signature
    (mavlink_finalize_message_buffer msg sysid compid status min_length length crc_extra).1.2) = 13%nat.
Proof.
  intros Hs. unfold mavlink_finalize_message_buffer. cbv zeta.
  change (st_signing (set_st_current_tx_seq ?a status)) with (st_signing status). rewrite Hs.
  pose proof (sign_packet_length (st_signing status) (m_signature msg)) as H.
  apply andb_true_iff in Hs as [_ Hs].
  match goal with |- context [mavlink_sign_packet ?a ?b ?c ?d ?e] =>
    specialize (H c d e Hs); destruct (mavlink_sign_packet a b c d e) as [[sl sg] sgn] end.
  exact H.
Qed.

(** The length finalising returns, the length mavlink_msg_get_send_buffer_length
    computes and the number of bytes mavlink_msg_to_send_buffer writes agree and are at most
    MAVLINK_MAX_PACKET_LEN. *)
Theorem finalize_then_send_length msg sysid compid status min_length length crc_extra :
  List.length (m_payload msg) = payload_capacity → lengths_ok min_length length →
  let '(n, msg', _) :=
    mavlink_finalize_message_buffer msg sysid compid status min_length length crc_extra in
  let '(bytes, n') := mavlink_msg_to_send_buffer msg' in
  Z.of_nat (List.length bytes) = n ∧ n' = n ∧ mavlink_msg_get_send_buffer_length msg' = n ∧
  n ≤ MAVLINK_MAX_PACKET_LEN.
Proof.
  intros Hcap Hl. pose proof (finalize_fields msg sysid compid status min_length length crc_extra) as H.
  pose proof (finalize_signature_length msg sysid compid status min_length length crc_extra) as Hsig.
  destruct (mavlink_finalize_message_buffer _ _ _ _ _ _ _) as [[n msg'] st'].
  destruct H as (Emag & Elen & Einc & _ & _ & _ & _ & _ & Epay & ->). simpl in Hsig.
  pose proof (wire_len_range status msg _ _ Hl) as Hw.
  set (len := wire_len status msg min_length length) in *.
  assert (Hcap' : List.length (m_payload msg') = payload_capacity).
  { rewrite Epay, length_memcpy_at; [done|]. rewrite Hcap, checksum_bytes_length.
    unfold payload_capacity, lengths_ok in *. lia. }
  unfold mavlink_msg_to_send_buffer, mavlink_msg_get_send_buffer_length, MAVLINK_MAX_PACKET_LEN,
    MAVLINK_NUM_NON_PAYLOAD_BYTES, MAVLINK_NUM_HEADER_BYTES, MAVLINK_NUM_CHECKSUM_BYTES,
    MAVLINK_CORE_HEADER_LEN, MAVLINK_CORE_HEADER_MAVLINK1_LEN, MAVLINK_SIGNATURE_BLOCK_LEN,
    MAVLINK_MAX_PAYLOAD_LEN.
  unfold lengths_ok in Hl. rewrite Emag, Einc, Elen. clear Emag Einc Elen.
  destruct (out_mavlink1 status) eqn:Em.
  - cbv zeta. rewrite Z.eqb_refl, !length_app, length_take_payload by (done || lia).
    cbn [negb andb List.length header1 checksum_bytes].
    rewrite !(wrapu_id 16) by (unfold in_u; lia). split_and!; lia.
  - assert (Et : mav_trim_payload (m_payload msg') (Z.to_nat len) = Z.to_nat len).
    { rewrite Epay, trim_memcpy.
      - unfold len, wire_len. rewrite Em, Nat2Z.id. apply trim_idem.
      - rewrite Hcap, checksum_bytes_length. unfold payload_capacity. lia. }
    change (MAVLINK_STX =? MAVLINK_STX_MAVLINK1) with false. cbv beta iota zeta.
    rewrite Et, !length_app, length_take_payload, length_take by (done || lia).
    destruct (signs_outgoing (st_signing status)); simpl in *; [rewrite Hsig by done|];
      rewrite !(wrapu_id 16) by (unfold in_u; lia); split_and!; lia.
Qed.

(** Serialising a finalised message writes the header and the payload the
    checksum was computed over. *)
Lemma take_take_le {A} (l : list A) n m : (n ≤ m)%nat → take n (take m l) = take n l.
Proof. intros. rewrite take_take. f_equal. lia. Qed.

Lemma trim_take p n : mav_trim_payload (take n p) n = mav_trim_payload p n.
Proof.
  apply trim_ext. intros k Hk. rewrite !list_lookup_total_alt, lookup_take_lt by lia. done.
Qed.

(** The signature block does not depend on what the caller's buffer held. *)
Lemma sign_packet_old_signature signing sig sig' h p c :
  signs_outgoing signing = true →
  mavlink_sign_packet signing sig h p c = mavlink_sign_packet signing sig' h p c.
Proof. intros Hs. destruct signing; [|done]. unfold mavlink_sign_packet. by rewrite Hs. Qed.

Lemma sign_packet_result signing sig h p c :
  signs_outgoing signing = true → (mavlink_sign_packet signing sig h p c).1.1 = 13.
Proof. intros Hs. destruct signing; [|done]. unfold mavlink_sign_packet. by rewrite Hs. Qed.

(** The one-pass _mav_finalize_message_chan_send emits the same bytes and leaves
    the same channel status as finalising the message and serialising it with
    mavlink_msg_to_send_buffer. *)
Theorem chan_send_is_finalize_then_send msg sysid compid status min_length length crc_extra :
  List.length (m_payload msg) = payload_capacity → lengths_ok min_length length →
  out_mavlink1 status && (255 <? m_msgid msg) = false →
  let '(_, msg', status1) :=
    mavlink_finalize_message_buffer msg sysid compid status min_length length crc_extra in
  mav_finalize_message_chan_send (sysid, compid) status (m_msgid msg)
    (take (Z.to_nat length) (m_payload msg)) min_length length crc_extra =
  ((mavlink_msg_to_send_buffer msg').1, status1).
Proof.
  intros Hcap Hl Hid. pose proof (trim_le (m_payload msg) (Z.to_nat length)) as Ht.
  unfold lengths_ok, payload_capacity in *.
  unfold mav_finalize_message_chan_send, mavlink_finalize_message_buffer. rewrite Hid. cbv zeta.
  change (st_signing (set_st_current_tx_seq ?a status)) with (st_signing status).
  destruct (out_mavlink1 status) eqn:Em; cbn [negb andb].
  - unfold mavlink_msg_to_send_buffer; cbn [m_checksum m_magic m_len m_seq m_sysid m_compid m_msgid m_payload].
    rewrite Z.eqb_refl. rewrite take_take_le, Z2Nat.id by lia. cbn [fst snd].
    by rewrite take_memcpy_at by (rewrite ?checksum_bytes_length; lia).
  - rewrite trim_take, take_take_le, Nat2Z.id by lia. set (len := mav_trim_payload _ _).
    assert (Etr : ∀ ck, List.length ck = 2%nat →
      mav_trim_payload (memcpy_at (m_payload msg) len ck) len = len).
    { intros ck E. rewrite trim_memcpy by (rewrite E; lia). apply trim_idem. }
    assert (Etk : ∀ ck, List.length ck = 2%nat →
      take len (memcpy_at (m_payload msg) len ck) = take len (m_payload msg)).
    { intros ck E. by rewrite take_memcpy_at by (rewrite ?E; lia). }
    destruct (signs_outgoing (st_signing status)) eqn:Es; unfold mavlink_msg_to_send_buffer.
    + rewrite (sign_packet_old_signature _ [] (m_signature msg)) by done.
      match goal with |- context [mavlink_sign_packet ?a ?b ?c ?d ?e] =>
        pose proof (sign_packet_result a b c d e Es) as Er;
        destruct (mavlink_sign_packet a b c d e) as [[sl sg] sgn] end.
      cbn [fst snd] in Er. subst sl.
      cbn [m_checksum m_magic m_len m_incompat_flags m_compat_flags m_seq m_sysid m_compid m_msgid m_payload m_signature].
      cbn -[mav_trim_payload checksum_bytes header2 memcpy_at].
      rewrite !Nat2Z.id, Etr, Etk by done. done.
    + cbn -[mav_trim_payload checksum_bytes header2 memcpy_at].
      rewrite !Nat2Z.id, Etr, Etk by done. done.
Qed.

(** ** Protocol version *)

(** The version set on a channel is the version read back, and no other channel changes. *)
Theorem proto_version_roundtrip ch chan version ch' :
  mavlink_set_proto_version ch chan version = Some ch' →
  mavlink_get_proto_version ch' chan = Some (if 1 <? version then 2 else 1) ∧
  ∀ other, other ≠ chan → mavlink_get_proto_version ch' other = mavlink_get_proto_version ch other.
Proof.
  unfold mavlink_set_proto_version, mavlink_get_proto_version, mavlink_get_channel_status.
  destruct (chan_status ch !! chan) as [s|] eqn:E; [|done]. simpl. intros [= <-]. simpl. split.
  - rewrite list_lookup_insert_eq by eauto using lookup_lt_Some. simpl. f_equal.
    destruct (1 <? version).
    + by rewrite <- Z.land_assoc, Z.land_0_r.
    + by rewrite land_lor_mask.
  - intros other Ho. by rewrite list_lookup_insert_ne by done.
Qed.

(** ** Instances: a heartbeat on a zeroed channel *)

Definition sample_heartbeat : mavlink_message_t :=
  set_m_payload ([0; 0; 0; 0; 10; 3; 0; 4; 3] ++ replicate 255 0) zero_msg.
Definition zero_channels : channels :=
  mk_channels (replicate MAVLINK_COMM_NUM_BUFFERS zero_status) (replicate MAVLINK_COMM_NUM_BUFFERS zero_msg).

Lemma lengths_ok_9 : lengths_ok 9 9.
Proof. unfold lengths_ok. lia. Qed.

Lemma finalize_then_send_length_witness :
  let '(n, msg', _) := mavlink_finalize_message_buffer sample_heartbeat 255 190 zero_status 9 9 50 in
  let '(bytes, n') := mavlink_msg_to_send_buffer msg' in
  Z.of_nat (List.length bytes) = n ∧ n' = n ∧ mavlink_msg_get_send_buffer_length msg' = n ∧
  n ≤ MAVLINK_MAX_PACKET_LEN.
Proof.
  apply (finalize_then_send_length sample_heartbeat 255 190 zero_status 9 9 50); [reflexivity|apply lengths_ok_9].
Defined.

Lemma chan_send_is_finalize_then_send_witness :
  let '(_, msg', status1) := mavlink_finalize_message_buffer sample_heartbeat 255 190 zero_status 9 9 50 in
  mav_finalize_message_chan_send (255, 190) zero_status 0 (take 9 (m_payload sample_heartbeat)) 9 9 50 =
  ((mavlink_msg_to_send_buffer msg').1, status1).
Proof.
  apply (chan_send_is_finalize_then_send sample_heartbeat 255 190 zero_status 9 9 50);
    [reflexivity|apply lengths_ok_9|reflexivity].
Defined.

Lemma proto_version_roundtrip_witness :
  ∃ ch', mavlink_set_proto_version zero_channels 2 1 = Some ch' ∧ mavlink_get_proto_version ch' 2 = Some 1.
Proof.
  eexists. split; [reflexivity|]. apply (proto_version_roundtrip zero_channels 2 1). reflexivity.
Defined.
