(* ===== verification/MavParser.v ===== *)
(** * The byte-wise frame parser

    Model of the receiving half of [mavlink_helpers.h]:
    [mavlink_frame_char_buffer] (one definition per group of [case] labels, in
    the order of the [switch]), [mavlink_frame_char] and [mavlink_parse_char].
    A result of [None] is undefined behaviour of the C code: a store outside an
    array or a dereference of a null pointer. A null [r_message] or
    [r_mavlink_status] is [None]; they point to objects of the caller, distinct
    from the channel's buffers. *)
From S2P Require Import Prelude MavChecksum MavSha256 MavTypes MavMessageTable MavSigning MavFinalize.

Definition mavlink_start_checksum (msg : mavlink_message_t) : mavlink_message_t :=
  set_m_checksum crc_init msg.

Definition mavlink_update_checksum (msg : mavlink_message_t) (c : Z) : mavlink_message_t :=
  set_m_checksum (crc_accumulate c (m_checksum msg)) msg.

Definition mav_parse_error (status : mavlink_status_t) : mavlink_status_t :=
  set_st_parse_error (u8 (st_parse_error status + 1)) status.

Definition in_mavlink1 (status : mavlink_status_t) : bool :=
  negb (Z.land (st_flags status) MAVLINK_STATUS_FLAG_IN_MAVLINK1 =? 0).

(** ** The cases of the switch *)

(** [UNINIT], [IDLE]. *)
Definition parse_idle (rxmsg : mavlink_message_t) (status : mavlink_status_t) (c : Z)
    : mavlink_message_t * mavlink_status_t :=
  if c =? MAVLINK_STX then
    (mavlink_start_checksum (set_m_magic c (set_m_len 0 rxmsg)),
     set_st_flags (Z.land (st_flags status) (u8 (Z.lnot MAVLINK_STATUS_FLAG_IN_MAVLINK1)))
       (set_st_parse_state PARSE_STATE_GOT_STX status))
  else if c =? MAVLINK_STX_MAVLINK1 then
    (mavlink_start_checksum (set_m_magic c (set_m_len 0 rxmsg)),
     set_st_flags (Z.lor (st_flags status) MAVLINK_STATUS_FLAG_IN_MAVLINK1)
       (set_st_parse_state PARSE_STATE_GOT_STX status))
  else (rxmsg, status).

Definition parse_got_stx (rxmsg : mavlink_message_t) (status : mavlink_status_t) (c : Z)
    : mavlink_message_t * mavlink_status_t :=
  if negb (bool_decide (st_msg_received status = FRAMING_INCOMPLETE)) then
    (rxmsg,
     set_st_parse_state PARSE_STATE_IDLE (set_st_msg_received FRAMING_INCOMPLETE
       (mav_parse_error (set_st_buffer_overrun (u8 (st_buffer_overrun status + 1)) status))))
  else
    let rxmsg := mavlink_update_checksum (set_m_len c rxmsg) c in
    let status := set_st_packet_idx 0 status in
    if in_mavlink1 status
    then (set_m_compat_flags 0 (set_m_incompat_flags 0 rxmsg),
          set_st_parse_state PARSE_STATE_GOT_COMPAT_FLAGS status)
    else (rxmsg, set_st_parse_state PARSE_STATE_GOT_LENGTH status).

Definition parse_got_length (rxmsg : mavlink_message_t) (status : mavlink_status_t) (c : Z)
    : mavlink_message_t * mavlink_status_t :=
  let rxmsg := set_m_incompat_flags c rxmsg in
  if negb (Z.land (m_incompat_flags rxmsg) (Z.lnot MAVLINK_IFLAG_MASK) =? 0) then
    (rxmsg, set_st_parse_state PARSE_STATE_IDLE
              (set_st_msg_received FRAMING_INCOMPLETE (mav_parse_error status)))
  else
    (mavlink_update_checksum rxmsg c, set_st_parse_state PARSE_STATE_GOT_INCOMPAT_FLAGS status).

(** [GOT_INCOMPAT_FLAGS], [GOT_COMPAT_FLAGS], [GOT_SEQ], [GOT_SYSID]: a header
    byte is stored and added to the checksum. *)
Definition parse_header_byte (set : Z → mavlink_message_t → mavlink_message_t)
    (next : mavlink_parse_state_t) (rxmsg : mavlink_message_t) (status : mavlink_status_t) (c : Z)
    : mavlink_message_t * mavlink_status_t :=
  (mavlink_update_checksum (set c rxmsg) c, set_st_parse_state next status).

Definition after_msgid (rxmsg : mavlink_message_t) : mavlink_parse_state_t :=
  if 0 <? m_len rxmsg then PARSE_STATE_GOT_MSGID3 else PARSE_STATE_GOT_PAYLOAD.

Definition parse_got_compid (rxmsg : mavlink_message_t) (status : mavlink_status_t) (c : Z)
    : mavlink_message_t * mavlink_status_t :=
  let rxmsg := mavlink_update_checksum (set_m_msgid c rxmsg) c in
  (rxmsg, set_st_parse_state
            (if in_mavlink1 status then after_msgid rxmsg else PARSE_STATE_GOT_MSGID1) status).

Definition parse_got_msgid1 (rxmsg : mavlink_message_t) (status : mavlink_status_t) (c : Z)
    : mavlink_message_t * mavlink_status_t :=
  (mavlink_update_checksum (set_m_msgid (wrapu 24 (Z.lor (m_msgid rxmsg) (Z.shiftl c 8))) rxmsg) c,
   set_st_parse_state PARSE_STATE_GOT_MSGID2 status).

Definition parse_got_msgid2 (rxmsg : mavlink_message_t) (status : mavlink_status_t) (c : Z)
    : mavlink_message_t * mavlink_status_t :=
  let rxmsg :=
    mavlink_update_checksum (set_m_msgid (wrapu 24 (Z.lor (m_msgid rxmsg) (Z.shiftl c 16))) rxmsg) c in
  (rxmsg, set_st_parse_state (after_msgid rxmsg) status).

(** [GOT_MSGID3]: a payload byte. *)
Definition parse_payload (rxmsg : mavlink_message_t) (status : mavlink_status_t) (c : Z)
    : option (mavlink_message_t * mavlink_status_t) :=
  payload ← store (m_payload rxmsg) (Z.to_nat (st_packet_idx status)) [c];
  let status := set_st_packet_idx (u8 (st_packet_idx status + 1)) status in
  let rxmsg := mavlink_update_checksum (set_m_payload payload rxmsg) c in
  Some (rxmsg,
        if st_packet_idx status =? m_len rxmsg
        then set_st_parse_state PARSE_STATE_GOT_PAYLOAD status else status).

(** The zero fill of a payload shorter than the message. *)
Definition zero_fill (payload : list Z) (packet_idx max_msg_len : Z) : option (list Z) :=
  let fill_len := if max_msg_len <? MAVLINK_MAX_PAYLOAD_LEN then max_msg_len
                  else MAVLINK_MAX_PAYLOAD_LEN in
  if packet_idx <? fill_len
  then store payload (Z.to_nat packet_idx) (replicate (Z.to_nat (fill_len - packet_idx)) 0)
  else Some payload.

(** [GOT_PAYLOAD]: the first checksum byte. *)
Definition parse_got_payload (rxmsg : mavlink_message_t) (status : mavlink_status_t) (c : Z)
    : option (mavlink_message_t * mavlink_status_t) :=
  match mavlink_get_msg_entry (m_msgid rxmsg) with
  | None => Some (set_m_ck (<[0%nat := c]> (m_ck rxmsg)) rxmsg,
                  set_st_parse_state PARSE_STATE_GOT_BAD_CRC1 status)
  | Some e =>
      let rxmsg := mavlink_update_checksum rxmsg (e_crc_extra e) in
      let status := set_st_parse_state
        (if negb (c =? Z.land (m_checksum rxmsg) 0xff) then PARSE_STATE_GOT_BAD_CRC1
         else PARSE_STATE_GOT_CRC1) status in
      payload ← zero_fill (m_payload rxmsg) (st_packet_idx status) (e_max_msg_len e);
      Some (set_m_payload payload (set_m_ck (<[0%nat := c]> (m_ck rxmsg)) rxmsg), status)
  end.

Section Parser.

(** The application's callback, called when [accept_unsigned_callback] is set. *)
Variable accept_unsigned : mavlink_status_t → Z → bool.

(** [GOT_CRC1], [GOT_BAD_CRC1]: the second checksum byte. The flag says whether
    the message was copied to [r_message]. *)
Definition parse_got_crc1 (rxmsg : mavlink_message_t) (status : mavlink_status_t) (c : Z)
    : mavlink_message_t * mavlink_status_t * bool :=
  let status := set_st_msg_received
    (if bool_decide (st_parse_state status = PARSE_STATE_GOT_BAD_CRC1)
        || negb (c =? Z.shiftr (m_checksum rxmsg) 8)
     then FRAMING_BAD_CRC else FRAMING_OK) status in
  let rxmsg := set_m_ck (<[1%nat := c]> (m_ck rxmsg)) rxmsg in
  if negb (Z.land (m_incompat_flags rxmsg) MAVLINK_IFLAG_SIGNED =? 0) then
    let status :=
      if bool_decide (st_msg_received status = FRAMING_BAD_CRC)
      then set_st_parse_state PARSE_STATE_SIGNATURE_WAIT_BAD_CRC status
      else set_st_msg_received FRAMING_INCOMPLETE
             (set_st_parse_state PARSE_STATE_SIGNATURE_WAIT status) in
    (rxmsg, set_st_signature_wait MAVLINK_SIGNATURE_BLOCK_LEN status, false)
  else
    let refused :=
      match st_signing status with
      | None => false
      | Some s => negb (sg_accept_unsigned_callback s)
                  || negb (accept_unsigned status (m_msgid rxmsg))
      end in
    let status :=
      if refused && negb (bool_decide (st_msg_received status = FRAMING_BAD_CRC))
      then set_st_msg_received FRAMING_BAD_SIGNATURE status else status in
    (rxmsg, set_st_parse_state PARSE_STATE_IDLE status, true).

(** [!sig_ok && status->signing->accept_unsigned_callback && ...(...)]: the
    pointer [status->signing] is followed when [sig_ok] is false. *)
Definition override_signature (status : mavlink_status_t) (msgid : Z) (sig_ok : bool) : option bool :=
  if sig_ok then Some true
  else s ← st_signing status;
       Some (sg_accept_unsigned_callback s && accept_unsigned status msgid).

(** [SIGNATURE_WAIT], [SIGNATURE_WAIT_BAD_CRC]. *)
Definition parse_signature (rxmsg : mavlink_message_t) (status : mavlink_status_t) (c : Z)
    : option (mavlink_message_t * mavlink_status_t * bool) :=
  if MAVLINK_SIGNATURE_BLOCK_LEN - st_signature_wait status <? 0 then None else
  signature ← store (m_signature rxmsg)
                (Z.to_nat (MAVLINK_SIGNATURE_BLOCK_LEN - st_signature_wait status)) [c];
  let rxmsg := set_m_signature signature rxmsg in
  let status := set_st_signature_wait (u8 (st_signature_wait status - 1)) status in
  if st_signature_wait status =? 0 then
    let '(sig_ok, signing, streams) :=
      mavlink_signature_check (st_signing status) (st_signing_streams status) rxmsg in
    let status := set_st_signing_streams streams (set_st_signing signing status) in
    sig_ok ← override_signature status (m_msgid rxmsg) sig_ok;
    let received :=
      if bool_decide (st_parse_state status = PARSE_STATE_SIGNATURE_WAIT_BAD_CRC)
      then FRAMING_BAD_CRC
      else if (sig_ok : bool) then FRAMING_OK else FRAMING_BAD_SIGNATURE in
    Some (rxmsg, set_st_parse_state PARSE_STATE_IDLE (set_st_msg_received received status), true)
  else Some (rxmsg, status, false).

Definition parse_switch (rxmsg : mavlink_message_t) (status : mavlink_status_t) (c : Z)
    : option (mavlink_message_t * mavlink_status_t * bool) :=
  let keep p := Some (p.1, p.2, false) in
  match st_parse_state status with
  | PARSE_STATE_UNINIT | PARSE_STATE_IDLE => keep (parse_idle rxmsg status c)
  | PARSE_STATE_GOT_STX => keep (parse_got_stx rxmsg status c)
  | PARSE_STATE_GOT_LENGTH => keep (parse_got_length rxmsg status c)
  | PARSE_STATE_GOT_INCOMPAT_FLAGS =>
      keep (parse_header_byte set_m_compat_flags PARSE_STATE_GOT_COMPAT_FLAGS rxmsg status c)
  | PARSE_STATE_GOT_COMPAT_FLAGS =>
      keep (parse_header_byte set_m_seq PARSE_STATE_GOT_SEQ rxmsg status c)
  | PARSE_STATE_GOT_SEQ =>
      keep (parse_header_byte set_m_sysid PARSE_STATE_GOT_SYSID rxmsg status c)
  | PARSE_STATE_GOT_SYSID =>
      keep (parse_header_byte set_m_compid PARSE_STATE_GOT_COMPID rxmsg status c)
  | PARSE_STATE_GOT_COMPID => keep (parse_got_compid rxmsg status c)
  | PARSE_STATE_GOT_MSGID1 => keep (parse_got_msgid1 rxmsg status c)
  | PARSE_STATE_GOT_MSGID2 => keep (parse_got_msgid2 rxmsg status c)
  | PARSE_STATE_GOT_MSGID3 => p ← parse_payload rxmsg status c; keep p
  | PARSE_STATE_GOT_PAYLOAD => p ← parse_got_payload rxmsg status c; keep p
  | PARSE_STATE_GOT_CRC1 | PARSE_STATE_GOT_BAD_CRC1 => Some (parse_got_crc1 rxmsg status c)
  | PARSE_STATE_SIGNATURE_WAIT | PARSE_STATE_SIGNATURE_WAIT_BAD_CRC =>
      parse_signature rxmsg status c
  end.

(** "If a message has been successfully decoded, check index". *)
Definition count_received (rxmsg : mavlink_message_t) (status : mavlink_status_t) : mavlink_status_t :=
  if bool_decide (st_msg_received status = FRAMING_OK) then
    let status := set_st_current_rx_seq (m_seq rxmsg) status in
    let status := if st_packet_rx_success_count status =? 0
                  then set_st_packet_rx_drop_count 0 status else status in
    set_st_packet_rx_success_count (u16 (st_packet_rx_success_count status + 1)) status
  else status.

Definition report_status (status r : mavlink_status_t) : mavlink_status_t :=
  mk_status (st_msg_received r) (st_buffer_overrun r) (st_parse_error r) (st_parse_state status)
    (st_packet_idx status) (u8 (st_current_rx_seq status + 1)) (st_current_tx_seq r)
    (st_packet_rx_success_count status) (st_parse_error status) (st_flags status)
    (st_signature_wait r) (st_signing r) (st_signing_streams r).

Definition report_message (rxmsg : mavlink_message_t) (status : mavlink_status_t) (copied : bool)
    (r : mavlink_message_t) : mavlink_message_t :=
  let r := set_m_len (m_len rxmsg) (if copied then rxmsg else r) in
  if bool_decide (st_msg_received status = FRAMING_BAD_CRC)
  then set_m_checksum (u16 (Z.lor (m_ck rxmsg !!! 0%nat) (Z.shiftl (m_ck rxmsg !!! 1%nat) 8))) r
  else r.

Record parse_result := mk_result {
  pr_rxmsg : mavlink_message_t;
  pr_status : mavlink_status_t;
  pr_r_message : option mavlink_message_t;
  pr_r_status : option mavlink_status_t;
  pr_return : mavlink_framing_t
}.

Definition mavlink_frame_char_buffer (rxmsg : mavlink_message_t) (status : mavlink_status_t) (c : Z)
    (r_message : option mavlink_message_t) (r_mavlink_status : option mavlink_status_t)
    : option parse_result :=
  let status := set_st_msg_received FRAMING_INCOMPLETE status in
  '(rxmsg, status, copied) ← parse_switch rxmsg status c;
  let status := count_received rxmsg status in
  Some (mk_result rxmsg (set_st_parse_error 0 status)
          (report_message rxmsg status copied <$> r_message)
          (report_status status <$> r_mavlink_status)
          (st_msg_received status)).

(** ** Channels *)

Definition mavlink_frame_char (ch : channels) (chan : nat) (c : Z)
    (r_message : option mavlink_message_t) (r_mavlink_status : option mavlink_status_t)
    : option (mavlink_framing_t * channels * option mavlink_message_t * option mavlink_status_t) :=
  rxmsg ← mavlink_get_channel_buffer ch chan;
  status ← mavlink_get_channel_status ch chan;
  r ← mavlink_frame_char_buffer rxmsg status c r_message r_mavlink_status;
  Some (pr_return r, put_channel_buffer (put_channel_status ch chan (pr_status r)) chan (pr_rxmsg r),
        pr_r_message r, pr_r_status r).

(** What [mavlink_parse_char] does to the channel after a bad frame. *)
Definition parse_failure (rxmsg : mavlink_message_t) (status : mavlink_status_t) (c : Z)
    : mavlink_message_t * mavlink_status_t :=
  let status := set_st_parse_state PARSE_STATE_IDLE
                  (set_st_msg_received FRAMING_INCOMPLETE (mav_parse_error status)) in
  if c =? MAVLINK_STX
  then (mavlink_start_checksum (set_m_len 0 rxmsg), set_st_parse_state PARSE_STATE_GOT_STX status)
  else (rxmsg, status).

Definition mavlink_parse_char (ch : channels) (chan : nat) (c : Z)
    (r_message : option mavlink_message_t) (r_mavlink_status : option mavlink_status_t)
    : option (bool * channels * option mavlink_message_t * option mavlink_status_t) :=
  '(msg_received, ch, r_message, r_mavlink_status) ←
     mavlink_frame_char ch chan c r_message r_mavlink_status;
  match msg_received with
  | FRAMING_BAD_CRC | FRAMING_BAD_SIGNATURE =>
      rxmsg ← mavlink_get_channel_buffer ch chan;
      status ← mavlink_get_channel_status ch chan;
      let '(rxmsg, status) := parse_failure rxmsg status c in
      Some (false, put_channel_buffer (put_channel_status ch chan status) chan rxmsg,
            r_message, r_mavlink_status)
  | FRAMING_OK => Some (true, ch, r_message, r_mavlink_status)
  | FRAMING_INCOMPLETE => Some (false, ch, r_message, r_mavlink_status)
  end.

(** ** Runs over a byte sequence *)

Definition frame_step (p : parse_result) (c : Z) : option parse_result :=
  mavlink_frame_char_buffer (pr_rxmsg p) (pr_status p) c (pr_r_message p) (pr_r_status p).

Fixpoint frame_run (p : parse_result) (cs : list Z) : option parse_result :=
  match cs with
  | [] => Some p
  | c :: cs => p ← frame_step p c; frame_run p cs
  end.

Lemma frame_run_app p cs ds :
  frame_run p (cs ++ ds) = p ← frame_run p cs; frame_run p ds.
Proof.
  revert p. induction cs as [|c cs IH]; intros p; [done|]. simpl.
  destruct (frame_step p c); simpl; [apply IH|done].
Qed.

(** ** The invariant of the parser *)

Definition status_ok (s : mavlink_status_t) : Prop :=
  in_u 8 (st_buffer_overrun s) ∧ in_u 8 (st_parse_error s) ∧ in_u 8 (st_packet_idx s) ∧
  in_u 8 (st_current_rx_seq s) ∧ in_u 8 (st_current_tx_seq s) ∧
  in_u 16 (st_packet_rx_success_count s) ∧ in_u 16 (st_packet_rx_drop_count s) ∧
  in_u 8 (st_flags s) ∧ in_u 8 (st_signature_wait s) ∧
  (∀ g, st_signing s = Some g → signing_ok g) ∧
  (∀ t, st_signing_streams s = Some t → streams_ok t).

(** What the states promise about the indices: no payload byte was stored before
    the header is complete, there is room for the next payload or signature byte. *)
Definition index_ok (rxmsg : mavlink_message_t) (s : mavlink_status_t) : Prop :=
  match st_parse_state s with
  | PARSE_STATE_GOT_LENGTH | PARSE_STATE_GOT_INCOMPAT_FLAGS | PARSE_STATE_GOT_COMPAT_FLAGS
  | PARSE_STATE_GOT_SEQ | PARSE_STATE_GOT_SYSID | PARSE_STATE_GOT_COMPID
  | PARSE_STATE_GOT_MSGID1 | PARSE_STATE_GOT_MSGID2 => st_packet_idx s = 0
  | PARSE_STATE_GOT_MSGID3 => st_packet_idx s < m_len rxmsg
  | PARSE_STATE_GOT_PAYLOAD | PARSE_STATE_GOT_CRC1 | PARSE_STATE_GOT_BAD_CRC1 =>
      st_packet_idx s = m_len rxmsg
  | PARSE_STATE_SIGNATURE_WAIT | PARSE_STATE_SIGNATURE_WAIT_BAD_CRC =>
      st_packet_idx s = m_len rxmsg ∧ 1 ≤ st_signature_wait s ≤ 13
  | _ => True
  end.

Definition parser_ok (rxmsg : mavlink_message_t) (s : mavlink_status_t) : Prop :=
  msg_ok rxmsg ∧ status_ok s ∧ index_ok rxmsg s.

(** The most bytes the frame in progress can still take. *)
Definition bytes_left (rxmsg : mavlink_message_t) (s : mavlink_status_t) : Z :=
  let tail := MAVLINK_NUM_CHECKSUM_BYTES + MAVLINK_SIGNATURE_BLOCK_LEN in
  match st_parse_state s with
  | PARSE_STATE_UNINIT | PARSE_STATE_IDLE => 0
  | PARSE_STATE_GOT_STX => MAVLINK_MAX_PACKET_LEN - 1
  | PARSE_STATE_GOT_LENGTH => 8 + m_len rxmsg + tail
  | PARSE_STATE_GOT_INCOMPAT_FLAGS => 7 + m_len rxmsg + tail
  | PARSE_STATE_GOT_COMPAT_FLAGS => 6 + m_len rxmsg + tail
  | PARSE_STATE_GOT_SEQ => 5 + m_len rxmsg + tail
  | PARSE_STATE_GOT_SYSID => 4 + m_len rxmsg + tail
  | PARSE_STATE_GOT_COMPID => 3 + m_len rxmsg + tail
  | PARSE_STATE_GOT_MSGID1 => 2 + m_len rxmsg + tail
  | PARSE_STATE_GOT_MSGID2 => 1 + m_len rxmsg + tail
  | PARSE_STATE_GOT_MSGID3 => m_len rxmsg - st_packet_idx s + tail
  | PARSE_STATE_GOT_PAYLOAD => tail
  | PARSE_STATE_GOT_CRC1 | PARSE_STATE_GOT_BAD_CRC1 => 1 + MAVLINK_SIGNATURE_BLOCK_LEN
  | PARSE_STATE_SIGNATURE_WAIT | PARSE_STATE_SIGNATURE_WAIT_BAD_CRC => st_signature_wait s
  end.

(** The record fields of a well-formed message or status after an update. *)
Ltac fields :=
  unfold msg_ok, status_ok in *; destruct_and?;
  repeat match goal with H : ∀ g, _ = Some g → _ |- _ => progress cbn in H end;
  cbn -[Z.add Z.sub Z.mul wrapu crc_accumulate crc_init Z.of_nat] in *;
  split_and!; try done; auto with cword.

Lemma update_checksum_ok m c : msg_ok m → msg_ok (mavlink_update_checksum m c).
Proof. intros. fields. Qed.

Lemma start_checksum_ok m : msg_ok m → msg_ok (mavlink_start_checksum m).
Proof. intros. fields. Qed.

Lemma set_flag_ok flags m : in_u 8 flags → in_u 8 m → in_u 8 (Z.lor flags m).
Proof. auto with cword. Qed.

Lemma clear_flag_ok flags m : in_u 8 flags → in_u 8 (Z.land flags (u8 (Z.lnot m))).
Proof. intros. apply in_u_land; [lia|done|]. apply wrapu_in_u. lia. Qed.

#[local] Hint Resolve update_checksum_ok start_checksum_ok set_flag_ok clear_flag_ok : cword.

(** One byte: the behaviour is defined, the invariant is kept, and a frame in
    progress gets strictly closer to its end. *)
Definition steps_well (left : Z) (r : option (mavlink_message_t * mavlink_status_t * bool)) : Prop :=
  ∃ m' s' b, r = Some (m', s', b) ∧ parser_ok m' s' ∧ (left = 0 ∨ bytes_left m' s' < left).

(** [bytes_left] in the symbolic states. *)
Ltac left_lia :=
  unfold bytes_left, MAVLINK_MAX_PACKET_LEN, MAVLINK_MAX_PAYLOAD_LEN, MAVLINK_NUM_NON_PAYLOAD_BYTES,
    MAVLINK_NUM_HEADER_BYTES, MAVLINK_CORE_HEADER_LEN, MAVLINK_NUM_CHECKSUM_BYTES,
    MAVLINK_SIGNATURE_BLOCK_LEN, in_u in *;
  cbn -[Z.add Z.sub Z.mul wrapu Z.pow] in *; lia.

Lemma parse_idle_ok m s c :
  msg_ok m → status_ok s → byte_ok c →
  st_parse_state s = PARSE_STATE_IDLE ∨ st_parse_state s = PARSE_STATE_UNINIT →
  let p := parse_idle m s c in parser_ok p.1 p.2.
Proof.
  intros Hm Hs Hc Hst. unfold parse_idle, parser_ok.
  destruct (c =? MAVLINK_STX); [|destruct (c =? MAVLINK_STX_MAVLINK1)].
  - split_and!; [fields|fields|done].
  - split_and!; [fields|fields|done].
  - split_and!; [done|done|]. unfold index_ok; cbn [fst snd]. by destruct Hst as [-> | ->].
Qed.

Lemma parse_got_stx_ok m s c :
  msg_ok m → status_ok s → byte_ok c → st_msg_received s = FRAMING_INCOMPLETE →
  let p := parse_got_stx m s c in
  parser_ok p.1 p.2 ∧ bytes_left p.1 p.2 < MAVLINK_MAX_PACKET_LEN - 1.
Proof.
  intros Hm Hs Hc Hr. unfold parse_got_stx. rewrite bool_decide_true by done.
  cbn [negb]. cbv zeta. destruct (in_mavlink1 _); unfold parser_ok;
    (split_and!; [fields|fields|done|left_lia]).
Qed.

Lemma parse_got_length_ok m s c :
  msg_ok m → status_ok s → byte_ok c → st_packet_idx s = 0 →
  let p := parse_got_length m s c in
  parser_ok p.1 p.2 ∧ bytes_left p.1 p.2 < 8 + m_len m + 15.
Proof.
  intros Hm Hs Hc Hr. unfold parse_got_length, parser_ok.
  assert (0 ≤ m_len m) by (destruct Hm as (_ & _ & [? _] & _); done).
  cbv zeta. destruct (negb _); (split_and!; [fields|fields|done|left_lia]).
Qed.

(** The setters of the single header bytes keep messages well formed. *)
Lemma parse_header_byte_ok set next m s c :
  (∀ c m, byte_ok c → msg_ok m → msg_ok (set c m) ∧ m_len (set c m) = m_len m) →
  (next = PARSE_STATE_GOT_COMPAT_FLAGS ∨ next = PARSE_STATE_GOT_SEQ ∨
   next = PARSE_STATE_GOT_SYSID ∨ next = PARSE_STATE_GOT_COMPID) →
  msg_ok m → status_ok s → byte_ok c → st_packet_idx s = 0 →
  let p := parse_header_byte set next m s c in
  parser_ok p.1 p.2 ∧ m_len p.1 = m_len m ∧ st_parse_state p.2 = next.
Proof.
  intros Hset Hnext Hm Hs Hc Hr. destruct (Hset c m Hc Hm) as [Hm' El].
  unfold parse_header_byte, parser_ok; cbn [fst snd]. split_and!; [auto with cword|fields| |done|done].
  by destruct Hnext as [-> | [-> | [-> | ->]]].
Qed.

Lemma index_after_msgid m s :
  in_u 8 (m_len m) → st_packet_idx s = 0 → index_ok m (set_st_parse_state (after_msgid m) s).
Proof.
  intros [? _] E. unfold index_ok, after_msgid. destruct (Z.ltb_spec 0 (m_len m)); cbn; lia.
Qed.

Lemma bytes_left_after_msgid m s :
  in_u 8 (m_len m) → st_packet_idx s = 0 →
  bytes_left m (set_st_parse_state (after_msgid m) s) ≤ m_len m + 15.
Proof. intros. unfold after_msgid. destruct (0 <? m_len m); left_lia. Qed.

Lemma parse_got_compid_ok m s c :
  msg_ok m → status_ok s → byte_ok c → st_packet_idx s = 0 →
  let p := parse_got_compid m s c in
  parser_ok p.1 p.2 ∧ bytes_left p.1 p.2 < 3 + m_len m + 15.
Proof.
  intros Hm Hs Hc Hr. unfold parse_got_compid, parser_ok. cbv zeta. cbn [fst snd].
  assert (Hl : in_u 8 (m_len m)) by (by destruct Hm as (_ & _ & ? & _)).
  split_and!.
  - apply update_checksum_ok. fields. eapply in_u_mono; [|done]; lia.
  - fields.
  - destruct (in_mavlink1 s); [by apply index_after_msgid|done].
  - destruct (in_mavlink1 s); [|left_lia].
    eapply Z.le_lt_trans; [by apply bytes_left_after_msgid|]. simpl. lia.
Qed.

Lemma parse_got_msgid1_ok m s c :
  msg_ok m → status_ok s → byte_ok c → st_packet_idx s = 0 →
  let p := parse_got_msgid1 m s c in
  parser_ok p.1 p.2 ∧ bytes_left p.1 p.2 < 2 + m_len m + 15.
Proof.
  intros Hm Hs Hc Hr. unfold parse_got_msgid1, parser_ok. cbn [fst snd].
  split_and!; [apply update_checksum_ok; fields|fields|done|left_lia].
Qed.

Lemma parse_got_msgid2_ok m s c :
  msg_ok m → status_ok s → byte_ok c → st_packet_idx s = 0 →
  let p := parse_got_msgid2 m s c in
  parser_ok p.1 p.2 ∧ bytes_left p.1 p.2 < 1 + m_len m + 15.
Proof.
  intros Hm Hs Hc Hr. unfold parse_got_msgid2, parser_ok. cbv zeta. cbn [fst snd].
  assert (Hl : in_u 8 (m_len m)) by (by destruct Hm as (_ & _ & ? & _)).
  split_and!; [apply update_checksum_ok; fields|fields|by apply index_after_msgid|].
  eapply Z.le_lt_trans; [by apply bytes_left_after_msgid|]. simpl. lia.
Qed.

Lemma parse_payload_ok m s c :
  msg_ok m → status_ok s → byte_ok c → st_parse_state s = PARSE_STATE_GOT_MSGID3 →
  st_packet_idx s < m_len m →
  ∃ m' s', parse_payload m s c = Some (m', s') ∧ parser_ok m' s' ∧
    bytes_left m' s' < m_len m - st_packet_idx s + 15.
Proof.
  intros Hm Hs Hc Hst Hi.
  assert (Hl : in_u 8 (m_len m)) by (by destruct Hm as (_ & _ & ? & _)).
  assert (Hp : in_u 8 (st_packet_idx s)) by (by destruct Hs as (_ & _ & ? & _)).
  assert (Hcap : length (m_payload m) = payload_capacity) by (by destruct Hm as (?&?&?&?&?&?&?&?&?&?&?)).
  unfold parse_payload, in_u, payload_capacity in *.
  rewrite store_in_bounds by (simpl; lia). cbn [mbind option_bind]. cbv zeta.
  eexists _, _. split; [reflexivity|]. cbn [set_m_payload m_len mavlink_update_checksum set_m_checksum set_st_packet_idx st_packet_idx].
  rewrite (wrapu_id 8) by (unfold in_u; lia). unfold parser_ok. split_and!.
  - apply update_checksum_ok. fields; [rewrite length_memcpy_at; simpl; unfold payload_capacity; lia|].
    apply memcpy_at_ok; [done|by constructor].
  - destruct (_ =? _); fields; unfold in_u; lia.
  - unfold index_ok. destruct (Z.eqb_spec (st_packet_idx s + 1) (m_len m)); cbn [set_st_parse_state st_parse_state set_st_packet_idx st_packet_idx]; [done|rewrite Hst; cbn; lia].
  - destruct (Z.eqb_spec (st_packet_idx s + 1) (m_len m)); [left_lia|].
    unfold bytes_left. cbn [st_parse_state set_st_packet_idx]. rewrite Hst. left_lia.
Qed.

Lemma zero_fill_ok p i n :
  length p = payload_capacity → bytes_ok p → in_u 8 i →
  ∃ p', zero_fill p i n = Some p' ∧ length p' = payload_capacity ∧ bytes_ok p' ∧
        take (Z.to_nat i) p' = take (Z.to_nat i) p.
Proof.
  intros Hl Hb Hi. unfold zero_fill, MAVLINK_MAX_PAYLOAD_LEN, in_u, payload_capacity in *.
  set (k := if n <? 255 then n else 255).
  assert (k ≤ 255) by (unfold k; destruct (Z.ltb_spec n 255); lia).
  destruct (Z.ltb_spec i k); [|by eexists].
  rewrite store_in_bounds by (rewrite length_replicate; lia). eexists. split; [reflexivity|].
  rewrite length_memcpy_at, take_memcpy_at by (rewrite ?length_replicate; lia). split_and!; [done| |done].
  apply memcpy_at_ok; [done|]. by apply Forall_replicate.
Qed.

Lemma parse_got_payload_ok m s c :
  msg_ok m → status_ok s → byte_ok c → st_packet_idx s = m_len m →
  ∃ m' s', parse_got_payload m s c = Some (m', s') ∧ parser_ok m' s' ∧ bytes_left m' s' = 14.
Proof.
  intros Hm Hs Hc Hi. unfold parse_got_payload.
  destruct (mavlink_get_msg_entry (m_msgid m)) as [e|] eqn:Ee.
  - cbv zeta. destruct (zero_fill_ok (m_payload m) (st_packet_idx s) (e_max_msg_len e)) as (p & Ep & Hpl & Hpb & _).
    { by destruct Hm as (?&?&?&?&?&?&?&?&?&?&?). }
    { by destruct Hm as (?&?&?&?&?&?&?&?&?&?&?&?). }
    { by destruct Hs as (_ & _ & ? & _). }
    cbn [m_payload mavlink_update_checksum set_m_checksum set_st_parse_state st_packet_idx]. rewrite Ep.
    cbn [mbind option_bind]. eexists _, _. split; [reflexivity|]. unfold parser_ok. split_and!.
    + fields; rewrite ?length_insert; auto. by apply Forall_insert.
    + fields.
    + destruct (negb _); done.
    + destruct (negb _); done.
  - eexists _, _. split; [reflexivity|]. unfold parser_ok. split_and!; [|fields|done|done].
    fields; rewrite ?length_insert; auto. by apply Forall_insert.
Qed.

Lemma parse_got_crc1_ok m s c :
  msg_ok m → status_ok s → byte_ok c → st_packet_idx s = m_len m →
  let '(m', s', _) := parse_got_crc1 m s c in parser_ok m' s' ∧ bytes_left m' s' < 14.
Proof.
  intros Hm Hs Hc Hi. unfold parse_got_crc1. cbv zeta.
  set (rcv := if _ || _ then _ else _). clearbody rcv.
  assert (Hm' : msg_ok (set_m_ck (<[1%nat := c]> (m_ck m)) m)).
  { fields; rewrite ?length_insert; auto. by apply Forall_insert. }
  destruct (negb _); cbv beta iota.
  - unfold parser_ok. split_and!; [done| | |]; case_bool_decide; try fields; try (vm_compute; done); left_lia.
  - unfold parser_ok. split_and!; [done|destruct (_ && _); fields|done|left_lia].
Qed.

Lemma parse_signature_ok m s c :
  msg_ok m → status_ok s → byte_ok c → index_ok m s →
  st_parse_state s = PARSE_STATE_SIGNATURE_WAIT ∨
  st_parse_state s = PARSE_STATE_SIGNATURE_WAIT_BAD_CRC →
  ∃ m' s' b, parse_signature m s c = Some (m', s', b) ∧ parser_ok m' s' ∧
             bytes_left m' s' < st_signature_wait s.
Proof.
  intros Hm Hs Hc Hi Hst.
  assert (Hw : st_packet_idx s = m_len m ∧ 1 ≤ st_signature_wait s ≤ 13).
  { unfold index_ok in Hi. by destruct Hst as [E|E]; rewrite E in Hi. }
  assert (Hsig : length (m_signature m) = 13%nat ∧ bytes_ok (m_signature m)).
  { by destruct Hm as (?&?&?&?&?&?&?&?&?&?&?&?&?&?&?). }
  destruct Hw as [Hidx Hw], Hsig as [Hsl Hsb].
  unfold parse_signature, MAVLINK_SIGNATURE_BLOCK_LEN.
  rewrite (proj2 (Z.ltb_ge _ _)) by lia. rewrite store_in_bounds by (simpl; lia).
  cbn [mbind option_bind]. cbv zeta. set (sig := memcpy_at _ _ _).
  assert (Hm' : msg_ok (set_m_signature sig m)).
  { fields; [unfold sig; rewrite length_memcpy_at; simpl; lia|]. apply memcpy_at_ok; [done|by constructor]. }
  cbn [set_st_signature_wait st_signature_wait st_signing st_signing_streams].
  rewrite (wrapu_id 8) by (unfold in_u; lia).
  destruct (Z.eqb_spec (st_signature_wait s - 1) 0).
  - pose proof (signature_check_ok (st_signing s) (st_signing_streams s) (set_m_signature sig m) Hm') as Hchk.
    destruct (mavlink_signature_check _ _ _) as [[ok sg] str] eqn:Ec. cbn [fst snd].
    destruct Hchk as (Hsg & Hstr & Hnull); [by apply Hs|by apply Hs|].
    assert (Hov : ∃ b, override_signature
      (set_st_signing_streams str (set_st_signing sg (set_st_signature_wait (st_signature_wait s - 1) s)))
      (m_msgid (set_m_signature sig m)) ok = Some b).
    { unfold override_signature. destruct ok; [by eexists|]. cbn. destruct sg; [by eexists|by specialize (Hnull eq_refl)]. }
    destruct Hov as [b Eb]. rewrite Eb. cbn [mbind option_bind]. eexists _, _, _. split; [reflexivity|].
    unfold parser_ok. split_and!; [done| |done|left_lia]. fields. unfold in_u. lia.
  - eexists _, _, _. split; [reflexivity|]. unfold parser_ok. split_and!; [done| | |].
    + fields. unfold in_u. lia.
    + unfold index_ok. cbn. destruct Hst as [E|E]; rewrite E; lia.
    + unfold bytes_left. cbn. destruct Hst as [E|E]; rewrite E; lia.
Qed.

Lemma steps_well_keep left (p : mavlink_message_t * mavlink_status_t) :
  parser_ok p.1 p.2 → left = 0 ∨ bytes_left p.1 p.2 < left →
  steps_well left (Some (p.1, p.2, false)).
Proof. intros. by eexists _, _, _. Qed.

Lemma steps_well_header_byte set next m s c left :
  (∀ c m, byte_ok c → msg_ok m → msg_ok (set c m) ∧ m_len (set c m) = m_len m) →
  (next = PARSE_STATE_GOT_COMPAT_FLAGS ∧ left = 7 ∨ next = PARSE_STATE_GOT_SEQ ∧ left = 6 ∨
   next = PARSE_STATE_GOT_SYSID ∧ left = 5 ∨ next = PARSE_STATE_GOT_COMPID ∧ left = 4) →
  msg_ok m → status_ok s → byte_ok c → st_packet_idx s = 0 →
  let p := parse_header_byte set next m s c in
  steps_well (left + m_len m + 15) (Some (p.1, p.2, false)).
Proof.
  intros Hset Hn Hm Hs Hc Hi p.
  destruct (parse_header_byte_ok set next m s c) as (Hok & El & Es); [done|tauto|done..|].
  apply steps_well_keep; [done|right]. fold p in El, Es |- *. unfold bytes_left. rewrite El, Es.
  destruct Hn as [[-> ->]|[[-> ->]|[[-> ->]|[-> ->]]]]; left_lia.
Qed.

Lemma parse_switch_ok m s c :
  parser_ok m s → byte_ok c → st_msg_received s = FRAMING_INCOMPLETE →
  steps_well (bytes_left m s) (parse_switch m s c).
Proof.
  intros (Hm & Hs & Hi) Hc Hr. unfold parse_switch, bytes_left.
  pose proof Hi as Hi'. unfold index_ok in Hi'. destruct (st_parse_state s) eqn:Est.
  - apply steps_well_keep; [apply parse_idle_ok; auto|by left].
  - apply steps_well_keep; [apply parse_idle_ok; auto|by left].
  - destruct (parse_got_stx_ok m s c); [done..|]. apply steps_well_keep; [done|by right].
  - destruct (parse_got_length_ok m s c); [done..|]. apply steps_well_keep; [done|by right].
  - apply steps_well_header_byte; [|auto|done..]. intros. split; [fields|done].
  - apply steps_well_header_byte; [|auto|done..]. intros. split; [fields|done].
  - apply steps_well_header_byte; [|auto|done..]. intros. split; [fields|done].
  - apply steps_well_header_byte; [|auto|done..]. intros. split; [fields|done].
  - destruct (parse_got_compid_ok m s c); [done..|]. apply steps_well_keep; [done|by right].
  - destruct (parse_got_msgid1_ok m s c); [done..|]. apply steps_well_keep; [done|by right].
  - destruct (parse_got_msgid2_ok m s c); [done..|]. apply steps_well_keep; [done|by right].
  - destruct (parse_payload_ok m s c) as (m' & s' & -> & ? & ?); [done..|].
    apply (steps_well_keep _ (m', s')); [done|by right].
  - destruct (parse_got_payload_ok m s c) as (m' & s' & -> & ? & E); [done..|].
    apply (steps_well_keep _ (m', s')); [done|right]. cbn [fst snd]. by rewrite E.
  - pose proof (parse_got_crc1_ok m s c Hm Hs Hc Hi') as H.
    destruct (parse_got_crc1 m s c) as [[m' s'] b]. destruct H. eexists _, _, _. eauto.
  - pose proof (parse_got_crc1_ok m s c Hm Hs Hc Hi') as H.
    destruct (parse_got_crc1 m s c) as [[m' s'] b]. destruct H. eexists _, _, _. eauto.
  - destruct (parse_signature_ok m s c) as (m' & s' & b & -> & ? & ?); [auto..|]. eexists _, _, _. eauto.
  - destruct (parse_signature_ok m s c) as (m' & s' & b & -> & ? & ?); [auto..|]. eexists _, _, _. eauto.
Qed.

(** The tail of the function only touches counters. *)
Lemma count_received_ok m s :
  parser_ok m s → let s' := set_st_parse_error 0 (count_received m s) in
  parser_ok m s' ∧ bytes_left m s' = bytes_left m s ∧
  st_parse_state s' = st_parse_state s ∧ st_msg_received s' = st_msg_received s.
Proof.
  intros (Hm & Hs & Hi). unfold count_received, parser_ok. cbv zeta.
  destruct (bool_decide _); [destruct (_ =? 0)%Z|]; (split_and!; try done; fields).
Qed.

Definition result_ok (p : parse_result) : Prop := parser_ok (pr_rxmsg p) (pr_status p).
Definition result_left (p : parse_result) : Z := bytes_left (pr_rxmsg p) (pr_status p).

Lemma frame_step_ok p c :
  result_ok p → byte_ok c →
  ∃ p', frame_step p c = Some p' ∧ result_ok p' ∧
        (result_left p = 0 ∨ result_left p' < result_left p).
Proof.
  intros Hp Hc. unfold frame_step, mavlink_frame_char_buffer.
  assert (Hp' : parser_ok (pr_rxmsg p) (set_st_msg_received FRAMING_INCOMPLETE (pr_status p))) by apply Hp.
  destruct (parse_switch_ok _ _ c Hp' Hc eq_refl) as (m' & s' & b & E & Hok & Hl).
  cbv zeta. rewrite E. cbn [mbind option_bind]. eexists. split; [reflexivity|].
  destruct (count_received_ok m' s' Hok) as (Hok' & El & _). unfold result_ok, result_left.
  cbn [pr_rxmsg pr_status]. rewrite El. done.
Qed.

Lemma bytes_left_nonneg m s : parser_ok m s → 0 ≤ bytes_left m s ≤ MAVLINK_MAX_PACKET_LEN - 1.
Proof.
  intros (Hm & Hs & Hi). unfold index_ok, bytes_left in *.
  assert (Hl : in_u 8 (m_len m)) by (by destruct Hm as (_ & _ & ? & _)).
  assert (Hx : in_u 8 (st_packet_idx s)) by (by destruct Hs as (_ & _ & ? & _)).
  destruct (st_parse_state s); left_lia.
Qed.

Lemma frame_run_ok p cs :
  result_ok p → bytes_ok cs → ∃ p', frame_run p cs = Some p' ∧ result_ok p'.
Proof.
  intros Hp Hcs. revert p Hp. induction Hcs as [|c cs Hc _ IH]; intros p Hp; [by exists p|].
  destruct (frame_step_ok p c Hp Hc) as (p1 & E & Hp1 & _). simpl. rewrite E. by apply IH.
Qed.

(** C9: The byte-by-byte parser never writes outside the payload, checksum or signature
    buffers: from a well-formed state every byte sequence is parsed without leaving the
    buffers (the checked stores never fail), and the state stays well formed. *)
Theorem frame_run_memory_safe p cs :
  parser_ok (pr_rxmsg p) (pr_status p) → bytes_ok cs →
  ∃ p', frame_run p cs = Some p' ∧ parser_ok (pr_rxmsg p') (pr_status p').
Proof. apply frame_run_ok. Qed.

Lemma bytes_left_idle m s :
  parser_ok m s → bytes_left m s ≤ 0 →
  st_parse_state s = PARSE_STATE_IDLE ∨ st_parse_state s = PARSE_STATE_UNINIT.
Proof.
  intros (Hm & Hs & Hi) Hle. unfold index_ok, bytes_left in *.
  assert (Hl : in_u 8 (m_len m)) by (by destruct Hm as (_ & _ & ? & _)).
  destruct (st_parse_state s); auto; exfalso; left_lia.
Qed.

Lemma frame_run_idle p cs :
  result_ok p → bytes_ok cs → result_left p ≤ Z.of_nat (length cs) →
  ∃ n p', (Z.of_nat n ≤ result_left p) ∧ frame_run p (take n cs) = Some p' ∧ result_left p' ≤ 0.
Proof.
  intros Hp Hcs. revert p Hp. induction Hcs as [|c cs Hc _ IH]; intros p Hp Hl.
  - exists 0%nat, p. pose proof (bytes_left_nonneg _ _ Hp). simpl in Hl. unfold result_left in *. split_and!; [lia|done|lia].
  - destruct (decide (result_left p ≤ 0)) as [Hz|Hz].
    + exists 0%nat, p. pose proof (bytes_left_nonneg _ _ Hp). unfold result_left in *. split_and!; [lia|done|lia].
    + destruct (frame_step_ok p c Hp Hc) as (p1 & E & Hp1 & Hd).
      destruct (IH p1 Hp1) as (n & p2 & Hn & Er & Hz2); [simpl in Hl; lia|].
      exists (S n), p2. split_and!; [lia| |done]. simpl. by rewrite E.
Qed.

(** The parser cannot get stuck: from every well-formed state, within
    MAVLINK_MAX_PACKET_LEN - 1 bytes of any content it is back in the idle state. *)
Theorem frame_run_returns_to_idle p cs :
  parser_ok (pr_rxmsg p) (pr_status p) → bytes_ok cs →
  MAVLINK_MAX_PACKET_LEN - 1 ≤ Z.of_nat (length cs) →
  ∃ n p', Z.of_nat n ≤ MAVLINK_MAX_PACKET_LEN - 1 ∧ frame_run p (take n cs) = Some p' ∧
    (st_parse_state (pr_status p') = PARSE_STATE_IDLE ∨
     st_parse_state (pr_status p') = PARSE_STATE_UNINIT).
Proof.
  intros Hp Hcs Hl. pose proof (bytes_left_nonneg _ _ Hp) as Hb.
  destruct (frame_run_idle p cs) as (n & p' & Hn & E & Hz); [done|done|unfold result_left; lia|].
  exists n, p'. split_and!; [unfold result_left in *; lia|done|].
  destruct (frame_run_ok p (take n cs)) as (p2 & E2 & Hp2); [done|by apply Forall_take|].
  rewrite E in E2. simplify_eq. by eapply bytes_left_idle.
Qed.
(** ** Channels *)

Definition channels_ok (ch : channels) : Prop :=
  length (chan_status ch) = MAVLINK_COMM_NUM_BUFFERS ∧
  length (chan_buffer ch) = MAVLINK_COMM_NUM_BUFFERS ∧
  ∀ k m s, chan_buffer ch !! k = Some m → chan_status ch !! k = Some s → parser_ok m s.

Lemma put_channel_ok ch chan m s :
  channels_ok ch → parser_ok m s →
  channels_ok (put_channel_buffer (put_channel_status ch chan s) chan m).
Proof.
  intros (Hs & Hb & Hok) Hms. split_and!; cbn; rewrite ?length_insert; [done|done|].
  intros k m' s' Em Es. cbn [put_channel_buffer put_channel_status chan_status chan_buffer] in Em, Es.
  destruct (decide (k = chan)) as [->|Hne].
  - pose proof (lookup_lt_Some _ _ _ Em) as Hm. pose proof (lookup_lt_Some _ _ _ Es) as Hst.
    rewrite length_insert in Hm. rewrite length_insert in Hst.
    rewrite list_lookup_insert_eq in Em by exact Hm. rewrite list_lookup_insert_eq in Es by exact Hst.
    by simplify_eq.
  - rewrite list_lookup_insert_ne in Em by done. rewrite list_lookup_insert_ne in Es by done. by eapply Hok.
Qed.

(** A channel other than [chan] is as it was. *)
Definition only_channel (chan : nat) (ch ch' : channels) : Prop :=
  ∀ other, other ≠ chan →
    mavlink_get_channel_status ch' other = mavlink_get_channel_status ch other ∧
    mavlink_get_channel_buffer ch' other = mavlink_get_channel_buffer ch other.

Lemma only_channel_put chan ch m s :
  only_channel chan ch (put_channel_buffer (put_channel_status ch chan s) chan m).
Proof.
  intros other Ho. unfold mavlink_get_channel_status, mavlink_get_channel_buffer. cbn.
  by rewrite !list_lookup_insert_ne by done.
Qed.

#[local] Instance only_channel_preorder chan : PreOrder (only_channel chan).
Proof.
  split; [by intros ch other _|]. intros a b c H1 H2 other Ho.
  destruct (H1 other Ho), (H2 other Ho). split; congruence.
Qed.

Lemma frame_char_ok ch chan c r rs :
  channels_ok ch → (chan < MAVLINK_COMM_NUM_BUFFERS)%nat → byte_ok c →
  ∃ ret ch' r' rs', mavlink_frame_char ch chan c r rs = Some (ret, ch', r', rs') ∧
    channels_ok ch' ∧ only_channel chan ch ch'.
Proof.
  intros Hch Hlt Hc. pose proof Hch as (Hs & Hb & Hok). unfold mavlink_frame_char.
  unfold mavlink_get_channel_buffer at 1, mavlink_get_channel_status at 1.
  destruct (lookup_lt_is_Some_2 (chan_buffer ch) chan) as [m Em]; [lia|].
  destruct (lookup_lt_is_Some_2 (chan_status ch) chan) as [s Es]; [lia|].
  rewrite Em, Es. cbn [mbind option_bind].
  destruct (frame_step_ok (mk_result m s r rs FRAMING_INCOMPLETE) c) as (p & E & Hp & _); [by eapply Hok|done|].
  unfold frame_step in E. cbn [pr_rxmsg pr_status pr_r_message pr_r_status] in E. rewrite E.
  cbn [mbind option_bind]. eexists _, _, _, _. split; [reflexivity|].
  split; [by apply put_channel_ok|apply only_channel_put].
Qed.

Lemma parse_failure_ok m s c :
  parser_ok m s → parser_ok (parse_failure m s c).1 (parse_failure m s c).2.
Proof.
  intros (Hm & Hs & Hi). unfold parse_failure, parser_ok.
  destruct (c =? MAVLINK_STX); (split_and!; [fields|fields|done]).
Qed.

(** mavlink_parse_char on a valid channel is total and memory safe, keeps every
    channel well formed and touches no other channel. *)
Theorem parse_char_safe_and_isolated ch chan c r rs :
  channels_ok ch → (chan < MAVLINK_COMM_NUM_BUFFERS)%nat → byte_ok c →
  ∃ ret ch' r' rs', mavlink_parse_char ch chan c r rs = Some (ret, ch', r', rs') ∧
    channels_ok ch' ∧ only_channel chan ch ch'.
Proof.
  intros Hch Hlt Hc. unfold mavlink_parse_char.
  destruct (frame_char_ok ch chan c r rs Hch Hlt Hc) as (ret & ch' & r' & rs' & E & Hch' & Hiso).
  rewrite E. cbn [mbind option_bind].
  assert (Hbad : ∃ ret ch'' r'' rs'',
    (rxmsg ← mavlink_get_channel_buffer ch' chan; status ← mavlink_get_channel_status ch' chan;
     let '(rxmsg, status) := parse_failure rxmsg status c in
     Some (false, put_channel_buffer (put_channel_status ch' chan status) chan rxmsg, r', rs')) =
    Some (ret, ch'', r'', rs'') ∧ channels_ok ch'' ∧ only_channel chan ch ch'').
  { pose proof Hch' as (Hs & Hb & Hok). unfold mavlink_get_channel_buffer at 1, mavlink_get_channel_status at 1.
    destruct (lookup_lt_is_Some_2 (chan_buffer ch') chan) as [m Em]; [lia|].
    destruct (lookup_lt_is_Some_2 (chan_status ch') chan) as [s Es]; [lia|].
    rewrite Em, Es. cbn [mbind option_bind].
    pose proof (parse_failure_ok m s c (Hok chan m s Em Es)) as Hpf. destruct (parse_failure m s c) as [m' s'].
    eexists _, _, _, _. split; [reflexivity|]. split; [by apply put_channel_ok|].
    transitivity ch'; [done|apply only_channel_put]. }
  destruct ret; [by eexists _, _, _, _|by eexists _, _, _, _|exact Hbad|exact Hbad].
Qed.
End Parser.

(** ** Instances *)

Definition no_callback (s : mavlink_status_t) (msgid : Z) : bool := false.

Definition start_parse : parse_result :=
  mk_result zero_msg zero_status (Some zero_msg) (Some zero_status) FRAMING_INCOMPLETE.

(** A heartbeat as it is on the wire. *)
Definition heartbeat_frame : list Z :=
  [0xfd; 0x09; 0x00; 0x00; 0x00; 0xff; 0xbe; 0x00; 0x00; 0x00; 0x00; 0x00; 0x00; 0x00; 0x0a; 0x03; 0x00; 0x04; 0x03;
   0x25; 0x3e].

Lemma zero_parser_ok : parser_ok zero_msg zero_status.
Proof. split_and!; [decide_now|unfold status_ok; split_and!; (decide_now || done)|exact I]. Qed.

Lemma frame_run_memory_safe_witness :
  ∃ p', frame_run no_callback start_parse heartbeat_frame = Some p' ∧ parser_ok (pr_rxmsg p') (pr_status p').
Proof. apply (frame_run_memory_safe no_callback start_parse heartbeat_frame); [apply zero_parser_ok|decide_now]. Defined.

Lemma frame_run_returns_to_idle_witness :
  ∃ n p', Z.of_nat n ≤ MAVLINK_MAX_PACKET_LEN - 1 ∧
    frame_run no_callback start_parse (take n (replicate 279 0xfd)) = Some p' ∧
    (st_parse_state (pr_status p') = PARSE_STATE_IDLE ∨ st_parse_state (pr_status p') = PARSE_STATE_UNINIT).
Proof.
  apply (frame_run_returns_to_idle no_callback start_parse (replicate 279 0xfd));
    [apply zero_parser_ok|decide_now|rewrite length_replicate; vm_compute; discriminate].
Defined.

Lemma zero_channels_ok : channels_ok zero_channels.
Proof.
  split_and!; [done|done|]. intros k m s [-> _]%lookup_replicate [-> _]%lookup_replicate. apply zero_parser_ok.
Qed.

Lemma parse_char_safe_and_isolated_witness :
  ∃ ret ch' r' rs', mavlink_parse_char no_callback zero_channels 3 0xfd None None = Some (ret, ch', r', rs') ∧
    channels_ok ch' ∧ only_channel 3 zero_channels ch'.
Proof.
  apply (parse_char_safe_and_isolated no_callback zero_channels 3 0xfd None None);
    [apply zero_channels_ok|vm_compute; lia|decide_now].
Defined.
