(* ===== verification/MavFraming.v ===== *)
(** * Which frames the parser accepts

    The contract of the parser of [MavParser] against the encoder of
    [MavFinalize]. Soundness: a frame reported as good is, byte for byte, a
    serialised message with a known id and a matching checksum, and with signing
    configured its signature was checked. Completeness: the bytes of every
    finalised message are accepted, from any idle state, and give the message
    back. *)
From S2P Require Import Prelude MavChecksum MavSha256 MavTypes MavMessageTable MavSigning.
From S2P Require Import MavFinalize MavParser.

(** ** The bytes of the frame in progress *)

Definition wire_header (m : mavlink_message_t) : list Z :=
  if m_magic m =? MAVLINK_STX_MAVLINK1
  then header1 (m_len m) (m_seq m) (m_sysid m) (m_compid m) (m_msgid m)
  else header2 (m_magic m) (m_len m) (m_incompat_flags m) (m_compat_flags m)
               (m_seq m) (m_sysid m) (m_compid m) (m_msgid m).

Definition wire_payload (m : mavlink_message_t) : list Z :=
  take (Z.to_nat (m_len m)) (m_payload m).

Definition is_idle (s : mavlink_parse_state_t) : bool :=
  match s with PARSE_STATE_IDLE | PARSE_STATE_UNINIT => true | _ => false end.

(** What was received since the start marker, read off the parser's state. *)
Definition consumed (m : mavlink_message_t) (s : mavlink_status_t) : list Z :=
  let start := if in_mavlink1 s then [m_magic m; m_len m]
               else [m_magic m; m_len m; m_incompat_flags m; m_compat_flags m] in
  match st_parse_state s with
  | PARSE_STATE_UNINIT | PARSE_STATE_IDLE => []
  | PARSE_STATE_GOT_STX => [m_magic m]
  | PARSE_STATE_GOT_LENGTH => [m_magic m; m_len m]
  | PARSE_STATE_GOT_INCOMPAT_FLAGS => [m_magic m; m_len m; m_incompat_flags m]
  | PARSE_STATE_GOT_COMPAT_FLAGS => start
  | PARSE_STATE_GOT_SEQ => start ++ [m_seq m]
  | PARSE_STATE_GOT_SYSID => start ++ [m_seq m; m_sysid m]
  | PARSE_STATE_GOT_COMPID => start ++ [m_seq m; m_sysid m; m_compid m]
  | PARSE_STATE_GOT_MSGID1 => start ++ [m_seq m; m_sysid m; m_compid m; m_msgid m]
  | PARSE_STATE_GOT_MSGID2 =>
      start ++ [m_seq m; m_sysid m; m_compid m; Z.land (m_msgid m) 0xff;
                Z.land (Z.shiftr (m_msgid m) 8) 0xff]
  | PARSE_STATE_GOT_MSGID3 => wire_header m ++ take (Z.to_nat (st_packet_idx s)) (m_payload m)
  | PARSE_STATE_GOT_PAYLOAD => wire_header m ++ wire_payload m
  | PARSE_STATE_GOT_CRC1 | PARSE_STATE_GOT_BAD_CRC1 =>
      wire_header m ++ wire_payload m ++ take 1 (m_ck m)
  | PARSE_STATE_SIGNATURE_WAIT | PARSE_STATE_SIGNATURE_WAIT_BAD_CRC =>
      wire_header m ++ wire_payload m ++ m_ck m ++
      take (Z.to_nat (13 - st_signature_wait s)) (m_signature m)
  end.

(** The checksum the message should carry, its id being known, and the bytes its
    decoder may read beyond the received payload. *)
Definition checksum_matches (m : mavlink_message_t) : Prop :=
  ∃ e, mavlink_get_msg_entry (m_msgid m) = Some e ∧
       m_checksum m = frame_checksum (wire_header m) (wire_payload m) (e_crc_extra e) ∧
       ∀ k, m_len m ≤ Z.of_nat k < e_max_msg_len e → m_payload m !!! k = 0.

Definition version_agrees (m : mavlink_message_t) (s : mavlink_status_t) : Prop :=
  if in_mavlink1 s
  then m_magic m = MAVLINK_STX_MAVLINK1
  else m_magic m = MAVLINK_STX.

(** MAVLink 1 has neither flags nor message ids beyond one byte. *)
Definition version1_fields (m : mavlink_message_t) (s : mavlink_status_t) : Prop :=
  in_mavlink1 s = true → m_incompat_flags m = 0 ∧ m_compat_flags m = 0.

Definition framed (m : mavlink_message_t) (s : mavlink_status_t) : Prop :=
  let header_crc := m_checksum m = crc_calculate (drop 1 (consumed m s)) in
  is_idle (st_parse_state s) = false → version_agrees m s ∧
  match st_parse_state s with
  | PARSE_STATE_UNINIT | PARSE_STATE_IDLE => True
  | PARSE_STATE_GOT_STX => header_crc
  | PARSE_STATE_GOT_LENGTH | PARSE_STATE_GOT_INCOMPAT_FLAGS =>
      in_mavlink1 s = false ∧ header_crc
  | PARSE_STATE_GOT_COMPAT_FLAGS | PARSE_STATE_GOT_SEQ
  | PARSE_STATE_GOT_SYSID | PARSE_STATE_GOT_COMPID => version1_fields m s ∧ header_crc
  | PARSE_STATE_GOT_MSGID1 => in_mavlink1 s = false ∧ in_u 8 (m_msgid m) ∧ header_crc
  | PARSE_STATE_GOT_MSGID2 => in_mavlink1 s = false ∧ in_u 16 (m_msgid m) ∧ header_crc
  | PARSE_STATE_GOT_MSGID3 | PARSE_STATE_GOT_PAYLOAD => version1_fields m s ∧ header_crc
  | PARSE_STATE_GOT_CRC1 =>
      version1_fields m s ∧ checksum_matches m ∧ m_ck m !!! 0%nat = Z.land (m_checksum m) 0xff
  | PARSE_STATE_GOT_BAD_CRC1 => version1_fields m s
  | PARSE_STATE_SIGNATURE_WAIT =>
      m_magic m = MAVLINK_STX ∧ Z.land (m_incompat_flags m) MAVLINK_IFLAG_SIGNED ≠ 0 ∧
      checksum_matches m ∧ m_ck m = checksum_bytes (m_checksum m)
  | PARSE_STATE_SIGNATURE_WAIT_BAD_CRC => m_magic m = MAVLINK_STX
  end.

(** ** Bytes of the header *)

Lemma crc_calculate_snoc l c :
  l ≠ [] → crc_accumulate c (crc_calculate (drop 1 l)) = crc_calculate (drop 1 (l ++ [c])).
Proof.
  intros Hl. destruct l as [|x l]; [done|].
  change (drop 1 (x :: l)) with l. change (drop 1 ((x :: l) ++ [c])) with (l ++ [c]).
  unfold crc_calculate. by rewrite crc_accumulate_buffer_app.
Qed.

Lemma msgid_two x c :
  in_u 8 x → byte_ok c →
  let y := wrapu 24 (Z.lor x (Z.shiftl c 8)) in
  Z.land y 0xff = x ∧ Z.land (Z.shiftr y 8) 0xff = c ∧ in_u 16 y.
Proof.
  intros Hx Hc. cbv zeta. rewrite lor_shiftl_add by (done || lia).
  unfold in_u in *. change (2 ^ 8) with 256 in *. change (2 ^ 16) with 65536.
  rewrite wrapu_id by (unfold in_u; lia). rewrite !land_255, shiftr_8.
  rewrite (Z.mul_comm c). split_and!; [..|lia].
  all: Z.to_euclidean_division_equations; lia.
Qed.

Lemma msgid_three x c :
  in_u 16 x → byte_ok c →
  msgid_bytes (wrapu 24 (Z.lor x (Z.shiftl c 16))) =
  [Z.land x 0xff; Z.land (Z.shiftr x 8) 0xff; c].
Proof.
  intros Hx Hc. rewrite lor_shiftl_add by (done || lia).
  unfold in_u in *. change (2 ^ 8) with 256 in *. change (2 ^ 16) with 65536 in *.
  rewrite wrapu_id by (unfold in_u; lia). unfold msgid_bytes.
  rewrite !land_255, !shiftr_8, shiftr_16.
  f_equal; [|f_equal; [|f_equal]].
  all: Z.to_euclidean_division_equations; lia.
Qed.

Lemma msgid_one c : byte_ok c → Z.land c 0xff = c.
Proof. intros [??]. rewrite land_255. by apply Z.mod_small. Qed.

(** ** One byte *)

(** The contract of a step from [(m, s)] on [c]: the invariant is kept; the frame
    in progress grows by [c] or ends; a good frame is a serialised message with
    its checksum, and was copied out. *)
Definition extends (m : mavlink_message_t) (s : mavlink_status_t) (c : Z)
    (m' : mavlink_message_t) (s' : mavlink_status_t) (copied : bool) : Prop :=
  framed m' s' ∧
  (is_idle (st_parse_state s') = true ∨ consumed m' s' = consumed m s ++ [c]) ∧
  (st_msg_received s' = FRAMING_OK →
     checksum_matches m' ∧ consumed m s ++ [c] = mavlink_resend_uart m' ∧ copied = true).

(** A step that only stores a header byte. *)
Lemma extends_header m s c m' s' :
  st_msg_received s' = FRAMING_INCOMPLETE → consumed m s ≠ [] →
  consumed m' s' = consumed m s ++ [c] →
  (m_checksum m' = crc_calculate (drop 1 (consumed m' s')) → framed m' s') →
  m_checksum m = crc_calculate (drop 1 (consumed m s)) →
  m_checksum m' = crc_accumulate c (m_checksum m) →
  extends m s c m' s' false.
Proof.
  intros Hr Hne Ec Hf Em Em'. split_and!; [|by right|by rewrite Hr].
  apply Hf. rewrite Em', Em, Ec. by apply crc_calculate_snoc.
Qed.

Lemma idle_extends m s c m' s' :
  is_idle (st_parse_state s') = true → st_msg_received s' = FRAMING_INCOMPLETE →
  extends m s c m' s' false.
Proof.
  intros Hi Hr. split_and!; [unfold framed; congruence|by left|by rewrite Hr].
Qed.

Lemma in_mavlink1_clear s : in_mavlink1 (set_st_flags (Z.land (st_flags s) (u8 (Z.lnot MAVLINK_STATUS_FLAG_IN_MAVLINK1))) s) = false.
Proof.
  unfold in_mavlink1; cbn [set_st_flags st_flags]. by rewrite <- Z.land_assoc, Z.land_0_r.
Qed.

Lemma in_mavlink1_mark s : in_mavlink1 (set_st_flags (Z.lor (st_flags s) MAVLINK_STATUS_FLAG_IN_MAVLINK1) s) = true.
Proof. unfold in_mavlink1; cbn [set_st_flags st_flags]. by rewrite land_lor_mask. Qed.

(** The result of the step is not a good frame. *)
Ltac not_ok := let H := fresh in intros H; cbn in H; congruence.

Lemma parse_idle_extends m s c :
  is_idle (st_parse_state s) = true → st_msg_received s = FRAMING_INCOMPLETE →
  extends m s c (parse_idle m s c).1 (parse_idle m s c).2 false.
Proof.
  intros Hi Hr. assert (Ec : consumed m s = []) by (unfold consumed; by destruct (st_parse_state s)).
  unfold parse_idle. destruct (Z.eqb_spec c MAVLINK_STX) as [->|]; [|destruct (Z.eqb_spec c MAVLINK_STX_MAVLINK1) as [->|]].
  - split_and!; cbn [fst snd]; [|by right; rewrite Ec|not_ok].
    intros _. split; [|done]. unfold version_agrees.
    change (in_mavlink1 _) with (in_mavlink1 (set_st_flags (Z.land (st_flags s) (u8 (Z.lnot MAVLINK_STATUS_FLAG_IN_MAVLINK1))) s)).
    by rewrite in_mavlink1_clear.
  - split_and!; cbn [fst snd]; [|by right; rewrite Ec|not_ok].
    intros _. split; [|done]. unfold version_agrees.
    change (in_mavlink1 _) with (in_mavlink1 (set_st_flags (Z.lor (st_flags s) MAVLINK_STATUS_FLAG_IN_MAVLINK1) s)).
    by rewrite in_mavlink1_mark.
  - by apply idle_extends.
Qed.

(** The state of the step is symbolic: read its fields, and the version flag
    from the status before it. *)
Ltac read_fields s :=
  unfold framed, version_agrees, version1_fields, mavlink_update_checksum in *; unfold consumed in *;
  repeat match goal with
  | |- context [in_mavlink1 ?x] =>
      lazymatch x with s => fail | _ => change (in_mavlink1 x) with (in_mavlink1 s) end
  end;
  cbn [m_checksum m_magic m_len m_incompat_flags m_compat_flags m_seq m_sysid m_compid m_msgid
       m_payload m_ck m_signature set_m_checksum set_m_magic set_m_len set_m_incompat_flags
       set_m_compat_flags set_m_seq set_m_sysid set_m_compid set_m_msgid set_m_payload set_m_ck
       set_m_signature st_parse_state st_packet_idx st_msg_received st_signature_wait
       set_st_parse_state set_st_packet_idx set_st_msg_received set_st_signature_wait] in *.

(** A framed state, its invariant read off for the state it is in. *)
Ltac framed_at Hf Hs :=
  unfold framed in Hf; rewrite Hs in Hf; destruct (Hf eq_refl) as [Hv Hc]; clear Hf.

Lemma parse_got_stx_extends m s c :
  framed m s → st_parse_state s = PARSE_STATE_GOT_STX → st_msg_received s = FRAMING_INCOMPLETE →
  extends m s c (parse_got_stx m s c).1 (parse_got_stx m s c).2 false.
Proof.
  intros Hf Hs Hr. framed_at Hf Hs.
  unfold parse_got_stx. rewrite bool_decide_true by done. cbn [negb].
  change (in_mavlink1 (set_st_packet_idx 0 s)) with (in_mavlink1 s).
  destruct (in_mavlink1 s) eqn:E1; cbn [fst snd];
    (apply extends_header; [done|unfold consumed; by rewrite Hs| | |done|done]).
  all: read_fields s; rewrite ?Hs, ?E1 in *; try done; intros; by split_and!.
Qed.

Lemma parse_got_length_extends m s c :
  framed m s → st_parse_state s = PARSE_STATE_GOT_LENGTH → st_msg_received s = FRAMING_INCOMPLETE →
  extends m s c (parse_got_length m s c).1 (parse_got_length m s c).2 false.
Proof.
  intros Hf Hs Hr. framed_at Hf Hs. destruct Hc as [E1 Hc].
  unfold parse_got_length. cbv zeta. destruct (negb _); cbn [fst snd]; [by apply idle_extends|].
  apply extends_header; [done|unfold consumed; by rewrite Hs| | |done|done].
  all: read_fields s; rewrite ?Hs, ?E1 in *; try done; intros; by split_and!.
Qed.

Lemma parse_got_incompat_extends m s c :
  framed m s → st_parse_state s = PARSE_STATE_GOT_INCOMPAT_FLAGS →
  st_msg_received s = FRAMING_INCOMPLETE →
  let p := parse_header_byte set_m_compat_flags PARSE_STATE_GOT_COMPAT_FLAGS m s c in
  extends m s c p.1 p.2 false.
Proof.
  intros Hf Hs Hr. framed_at Hf Hs. destruct Hc as [E1 Hc].
  cbv zeta. apply extends_header; [done|unfold consumed; by rewrite Hs| | |done|done].
  all: unfold parse_header_byte; read_fields s; rewrite ?Hs, ?E1 in *; try done; intros; by split_and!.
Qed.

(** Sequence number, system and component id. *)
Lemma parse_ids_extends set from next m s c :
  (set, from, next) ∈ [ (set_m_seq, PARSE_STATE_GOT_COMPAT_FLAGS, PARSE_STATE_GOT_SEQ);
                        (set_m_sysid, PARSE_STATE_GOT_SEQ, PARSE_STATE_GOT_SYSID);
                        (set_m_compid, PARSE_STATE_GOT_SYSID, PARSE_STATE_GOT_COMPID) ] →
  framed m s → st_parse_state s = from → st_msg_received s = FRAMING_INCOMPLETE →
  let p := parse_header_byte set next m s c in extends m s c p.1 p.2 false.
Proof.
  intros Hin. repeat (apply elem_of_cons in Hin as [Hin|Hin]);
    [simplify_eq..|by apply elem_of_nil in Hin].
  all: intros Hf Hs Hr; framed_at Hf Hs; destruct Hc as [Hf Hc]; cbv zeta; apply extends_header;
    [done|unfold consumed; rewrite Hs; by destruct (in_mavlink1 s)| | |done|done].
  all: unfold parse_header_byte; read_fields s; rewrite ?Hs; try done;
    destruct (in_mavlink1 s); try done; intros; split_and!; try done; by apply Hf.
Qed.

Lemma consumed_after_msgid m s :
  in_u 8 (m_len m) → st_packet_idx s = 0 →
  consumed m (set_st_parse_state (after_msgid m) s) = wire_header m.
Proof.
  intros Hl E. unfold consumed, after_msgid, wire_payload, in_u in *.
  destruct (Z.ltb_spec 0 (m_len m)); cbn [set_st_parse_state st_parse_state st_packet_idx].
  - by rewrite E, app_nil_r.
  - replace (m_len m) with 0 by lia. by rewrite app_nil_r.
Qed.

Lemma framed_after_msgid m s :
  in_u 8 (m_len m) → st_packet_idx s = 0 → version_agrees m s → version1_fields m s →
  m_checksum m = crc_calculate (drop 1 (wire_header m)) →
  framed m (set_st_parse_state (after_msgid m) s).
Proof.
  intros Hl E Hv H1 Hc. unfold framed. rewrite consumed_after_msgid by done.
  cbn [set_st_parse_state st_parse_state]. unfold after_msgid. destruct (0 <? m_len m); done.
Qed.

Lemma parse_got_compid_extends m s c :
  framed m s → st_parse_state s = PARSE_STATE_GOT_COMPID → st_msg_received s = FRAMING_INCOMPLETE →
  st_packet_idx s = 0 → in_u 8 (m_len m) → byte_ok c →
  extends m s c (parse_got_compid m s c).1 (parse_got_compid m s c).2 false.
Proof.
  intros Hf Hs Hr Hi Hl Hb. framed_at Hf Hs. destruct Hc as [H1 Hc].
  assert (Hne : consumed m s ≠ []) by (unfold consumed; rewrite Hs; by destruct (in_mavlink1 s)).
  unfold parse_got_compid. cbv zeta. cbn [fst snd]. destruct (in_mavlink1 s) eqn:E1.
  - assert (Ec : wire_header (mavlink_update_checksum (set_m_msgid c m) c) = consumed m s ++ [c]).
    { unfold wire_header. unfold version_agrees in Hv. read_fields s. rewrite E1 in Hv. rewrite Hv, Hs, E1.
      rewrite Z.eqb_refl. unfold header1. by rewrite msgid_one. }
    apply extends_header; rewrite ?consumed_after_msgid by done; try done.
    intros. apply framed_after_msgid; try done.
  - apply extends_header; try done; read_fields s; rewrite ?Hs, ?E1 in *; try done; intros; by split_and!.
Qed.

Lemma parse_got_msgid1_extends m s c :
  framed m s → st_parse_state s = PARSE_STATE_GOT_MSGID1 → st_msg_received s = FRAMING_INCOMPLETE →
  byte_ok c → extends m s c (parse_got_msgid1 m s c).1 (parse_got_msgid1 m s c).2 false.
Proof.
  intros Hf Hs Hr Hb. framed_at Hf Hs. destruct Hc as (E1 & Hid & Hc).
  destruct (msgid_two (m_msgid m) c Hid Hb) as (E0 & E8 & H16).
  assert (Hne : consumed m s ≠ []) by (unfold consumed; rewrite Hs; by destruct (in_mavlink1 s)).
  apply extends_header; unfold parse_got_msgid1; cbn [fst snd]; try done.
  read_fields s. by rewrite Hs, E1, E0, E8.
Qed.

Lemma parse_got_msgid2_extends m s c :
  framed m s → st_parse_state s = PARSE_STATE_GOT_MSGID2 → st_msg_received s = FRAMING_INCOMPLETE →
  st_packet_idx s = 0 → in_u 8 (m_len m) → byte_ok c →
  extends m s c (parse_got_msgid2 m s c).1 (parse_got_msgid2 m s c).2 false.
Proof.
  intros Hf Hs Hr Hi Hl Hb. framed_at Hf Hs. destruct Hc as (E1 & Hid & Hc).
  assert (Hne : consumed m s ≠ []) by (unfold consumed; rewrite Hs; by destruct (in_mavlink1 s)).
  unfold parse_got_msgid2. cbv zeta. cbn [fst snd]. set (id := wrapu 24 _).
  assert (Ec : wire_header (mavlink_update_checksum (set_m_msgid id m) c) = consumed m s ++ [c]).
  { unfold wire_header, header2, version_agrees in *. read_fields s. rewrite E1 in Hv. rewrite Hv, Hs, E1.
    change (MAVLINK_STX =? MAVLINK_STX_MAVLINK1) with false. cbv iota. unfold id.
    by rewrite msgid_three. }
  apply extends_header; rewrite ?consumed_after_msgid by done; try done.
  intros. apply framed_after_msgid; try done. unfold version1_fields.
  change (in_mavlink1 s = true → m_incompat_flags m = 0 ∧ m_compat_flags m = 0). by rewrite E1.
Qed.

(** ** Payload *)

Lemma take_store_next (p : list Z) i c :
  (i < length p)%nat → take (S i) (memcpy_at p i [c]) = take i p ++ [c].
Proof.
  intros. replace (S i) with (i + length [c])%nat by (simpl; lia).
  apply take_memcpy_at_end. simpl. lia.
Qed.

Lemma wire_header_payload p m c :
  wire_header (mavlink_update_checksum (set_m_payload p m) c) = wire_header m.
Proof. done. Qed.

Lemma wire_header_not_nil m : wire_header m ≠ [].
Proof. unfold wire_header. by destruct (_ =? _). Qed.

Lemma parse_payload_extends m s c m' s' :
  framed m s → parser_ok m s → st_parse_state s = PARSE_STATE_GOT_MSGID3 →
  st_msg_received s = FRAMING_INCOMPLETE → parse_payload m s c = Some (m', s') →
  extends m s c m' s' false.
Proof.
  intros Hf (Hm & Hst & Hi) Hs Hr. framed_at Hf Hs. destruct Hc as [H1 Hc].
  unfold index_ok in Hi. rewrite Hs in Hi.
  assert (Hl : in_u 8 (m_len m)) by (by destruct Hm as (_ & _ & ? & _)).
  assert (Hp : in_u 8 (st_packet_idx s)) by (by destruct Hst as (_ & _ & ? & _)).
  assert (Hcap : length (m_payload m) = payload_capacity) by (by destruct Hm as (?&?&?&?&?&?&?&?&?&?&?)).
  unfold parse_payload, in_u, payload_capacity in *.
  rewrite store_in_bounds by (simpl; lia). cbn [mbind option_bind]. cbv zeta.
  cbn [set_st_packet_idx st_packet_idx m_len mavlink_update_checksum set_m_payload set_m_checksum].
  rewrite (wrapu_id 8) by (unfold in_u; lia). intros [= <- <-].
  set (p := memcpy_at _ _ _).
  assert (Et : take (Z.to_nat (st_packet_idx s + 1)) p = take (Z.to_nat (st_packet_idx s)) (m_payload m) ++ [c]).
  { rewrite Z2Nat.inj_add, Nat.add_1_r by lia. unfold p. apply take_store_next. lia. }
  assert (Hne : consumed m s ≠ []).
  { unfold consumed. rewrite Hs. pose proof (wire_header_not_nil m). by destruct (wire_header m). }
  assert (Ec : consumed m s ++ [c] = wire_header m ++ take (Z.to_nat (st_packet_idx s + 1)) p).
  { rewrite Et, app_assoc. f_equal. unfold consumed. by rewrite Hs. }
  destruct (Z.eqb_spec (st_packet_idx s + 1) (m_len m)) as [E|]; (apply extends_header; try done).
  - rewrite Ec, E. done.
  - rewrite Ec. unfold consumed. cbn [set_st_packet_idx st_parse_state]. by rewrite Hs.
  - unfold framed. cbn [set_st_packet_idx st_parse_state]. by rewrite Hs.
Qed.

(** ** Checksum *)

Lemma frame_checksum_consumed h p e :
  h ≠ [] → crc_accumulate e (crc_calculate (drop 1 (h ++ p))) = frame_checksum h p e.
Proof.
  intros Hh. destruct h as [|x h]; [done|]. change (drop 1 ((x :: h) ++ p)) with (h ++ p).
  unfold frame_checksum, crc_calculate. by rewrite crc_accumulate_buffer_app.
Qed.

Lemma zero_fill_zero p i n p' k :
  length p = payload_capacity → 0 ≤ i → n ≤ 255 → zero_fill p i n = Some p' →
  i ≤ Z.of_nat k < n → p' !!! k = 0.
Proof.
  intros Hl Hi Hn E Hk. revert E. unfold zero_fill, MAVLINK_MAX_PAYLOAD_LEN, payload_capacity in *.
  replace (if n <? 255 then n else 255) with n by (destruct (Z.ltb_spec n 255); lia).
  rewrite (proj2 (Z.ltb_lt _ _)) by lia.
  rewrite store_in_bounds by (rewrite length_replicate; lia). intros [= <-]. unfold memcpy_at.
  rewrite list_lookup_total_alt, lookup_app_r, lookup_app_l, lookup_replicate_2;
    rewrite ?length_take, ?length_replicate; done || lia.
Qed.

Lemma take_insert_0 (l : list Z) c : l ≠ [] → take 1 (<[0%nat := c]> l) = [c].
Proof. by destruct l. Qed.

Lemma parse_got_payload_extends m s c m' s' :
  framed m s → parser_ok m s → st_parse_state s = PARSE_STATE_GOT_PAYLOAD →
  st_msg_received s = FRAMING_INCOMPLETE → parse_got_payload m s c = Some (m', s') →
  extends m s c m' s' false.
Proof.
  intros Hf (Hm & Hst & Hi) Hs Hr. framed_at Hf Hs. destruct Hc as [H1 Hc].
  unfold index_ok in Hi. rewrite Hs in Hi.
  destruct Hm as (_ & _ & Hl & _ & _ & _ & _ & _ & _ & Hpl & Hpb & Hck & _).
  assert (Hckn : m_ck m ≠ []) by (by destruct (m_ck m)).
  assert (Ec : consumed m s = wire_header m ++ wire_payload m) by (unfold consumed; by rewrite Hs).
  unfold parse_got_payload. destruct (mavlink_get_msg_entry (m_msgid m)) as [e|] eqn:Ee.
  - cbv zeta.
    cbn [m_payload mavlink_update_checksum set_m_checksum set_st_parse_state st_packet_idx].
    destruct (zero_fill _ _ _) as [p|] eqn:Ep; [|done]. cbn [mbind option_bind]. intros [= <- <-].
    destruct (zero_fill_ok (m_payload m) (st_packet_idx s) (e_max_msg_len e)) as (p1 & Ep1 & _ & _ & Etk);
      [done|done|by rewrite Hi|]. assert (p1 = p) as -> by congruence. clear Ep1. rewrite Hi in Etk.
    destruct (get_msg_entry_lengths _ _ Ee) as (_ & H255 & _).
    set (cks := crc_accumulate (e_crc_extra e) (m_checksum m)).
    match goal with |- extends _ _ _ ?x _ _ => set (m' := x) end.
    assert (Ew : wire_header m' = wire_header m) by done.
    assert (Ewp : wire_payload m' = wire_payload m) by exact Etk.
    assert (Hmatch : checksum_matches m').
    { exists e. split_and!; [done| |].
      - rewrite Ew, Ewp. change (m_checksum m') with cks. unfold cks. rewrite Hc, Ec.
        apply frame_checksum_consumed, wire_header_not_nil.
      - intros k Hk. apply (zero_fill_zero (m_payload m) (st_packet_idx s) (e_max_msg_len e)); try done.
        + rewrite Hi. apply Hl.
        + by rewrite Hi. }
    destruct (Z.eqb_spec c (Z.land cks 0xff)) as [Eck|]; cbn [negb].
    + split_and!; [intros _; cbn [set_st_parse_state st_parse_state]|right|not_ok].
      * split_and!; [done|done|done|]. change (m_ck m') with (<[0%nat := c]> (m_ck m)).
        rewrite list_lookup_total_insert_eq by lia. exact Eck.
      * rewrite Ec. unfold consumed. cbn [set_st_parse_state st_parse_state]. rewrite Ew, Ewp.
        change (m_ck m') with (<[0%nat := c]> (m_ck m)). by rewrite take_insert_0, app_assoc.
    + split_and!; [intros _; cbn [set_st_parse_state st_parse_state]; by split_and!|right|not_ok].
      rewrite Ec. unfold consumed. cbn [set_st_parse_state st_parse_state]. rewrite Ew, Ewp.
      change (m_ck m') with (<[0%nat := c]> (m_ck m)). by rewrite take_insert_0, app_assoc.
  - intros [= <- <-]. split_and!; [intros _; cbn [set_st_parse_state st_parse_state]; by split_and!|right|not_ok].
    rewrite Ec. change (wire_header m ++ wire_payload m ++ take 1 (<[0%nat := c]> (m_ck m)) =
      (wire_header m ++ wire_payload m) ++ [c]). by rewrite take_insert_0, app_assoc.
Qed.

(** ** The end of the frame *)

Lemma resend_uart_wire m :
  mavlink_resend_uart m = wire_header m ++ wire_payload m ++ checksum_bytes (m_checksum m) ++
    (if (m_magic m =? MAVLINK_STX_MAVLINK1) || (Z.land (m_incompat_flags m) MAVLINK_IFLAG_SIGNED =? 0)
     then [] else take 13 (m_signature m)).
Proof.
  unfold mavlink_resend_uart, wire_header. destruct (_ =? MAVLINK_STX_MAVLINK1); [done|].
  by destruct (Z.land _ _ =? 0).
Qed.

Lemma checksum_bytes_two cks :
  in_u 16 cks → checksum_bytes cks = [Z.land cks 0xff; Z.shiftr cks 8].
Proof.
  intros H. unfold checksum_bytes. rewrite (wrapu_id 8 (Z.land _ _)), (wrapu_id 8 (Z.shiftr _ _)); [done|..].
  - apply (in_u_shiftr_sub 16 _ 8); [lia|done].
  - rewrite land_255. apply Z.mod_pos_bound. lia.
Qed.

Lemma two_bytes (l : list Z) c : length l = 2%nat → <[1%nat := c]> l = [l !!! 0%nat; c].
Proof. destruct l as [|a [|b [|]]]; done. Qed.

Lemma take_one (l : list Z) : length l = 2%nat → take 1 l = [l !!! 0%nat].
Proof. destruct l as [|a [|b [|]]]; done. Qed.

Section Endings.

Variable accept_unsigned : mavlink_status_t → Z → bool.

Lemma parse_got_crc1_extends m s c :
  framed m s → parser_ok m s → st_msg_received s = FRAMING_INCOMPLETE →
  st_parse_state s = PARSE_STATE_GOT_CRC1 ∨ st_parse_state s = PARSE_STATE_GOT_BAD_CRC1 →
  let '(m', s', b) := parse_got_crc1 accept_unsigned m s c in extends m s c m' s' b.
Proof.
  intros Hf (Hm & Hst & Hi) Hr Hs. 
  destruct Hm as (Hcks & _ & Hl & _ & _ & _ & _ & _ & _ & Hpl & Hpb & Hck & _).
  assert (Ec : consumed m s = wire_header m ++ wire_payload m ++ [m_ck m !!! 0%nat]).
  { unfold consumed. rewrite take_one by done. by destruct Hs as [-> | ->]. }
  assert (Hv : version_agrees m s ∧ version1_fields m s ∧
    (st_parse_state s = PARSE_STATE_GOT_CRC1 → checksum_matches m ∧ m_ck m !!! 0%nat = Z.land (m_checksum m) 0xff)).
  { unfold framed in Hf. destruct Hs as [E|E]; rewrite E in Hf |- *; destruct (Hf eq_refl) as [? Hc].
    - destruct Hc as (? & ? & ?). done.
    - done. }
  clear Hf. destruct Hv as (Hv & H1 & Hgood).
  unfold parse_got_crc1. cbv zeta.
  set (m' := set_m_ck _ m).
  assert (Ew : wire_header m' = wire_header m) by done.
  assert (Ewp : wire_payload m' = wire_payload m) by done.
  assert (Eck : m_ck m' = [m_ck m !!! 0%nat; c]) by (by apply two_bytes).
  (* whether the second byte completes a good checksum *)
  set (bad := bool_decide _ || _).
  assert (Hok : bad = false → checksum_matches m' ∧ m_ck m' = checksum_bytes (m_checksum m')).
  { unfold bad. intros [Hb1 Hb2]%orb_false_iff. apply bool_decide_eq_false in Hb1.
    destruct Hs as [Hs|Hs]; [|done]. destruct (Hgood Hs) as [Hmm H0]. split; [exact Hmm|].
    apply negb_false_iff, Z.eqb_eq in Hb2.
    rewrite Eck, H0, Hb2, checksum_bytes_two; done. }
  destruct (Z.eqb_spec (Z.land (m_incompat_flags m') MAVLINK_IFLAG_SIGNED) 0) as [Eu|Esig]; cbn [negb].
  - split_and!; [done|by left|]. intros Hrcv.
    assert (bad = false) as Eb.
    { destruct bad; [|done]. exfalso. cbn [set_st_parse_state st_msg_received] in Hrcv.
      rewrite bool_decide_true, andb_false_r in Hrcv by done. done. }
    destruct (Hok Eb) as [Hmm Ebytes]. split_and!; [done| |done].
    rewrite resend_uart_wire, Ew, Ewp, <- Ebytes, Eck, Eu, Ec, orb_true_r, app_nil_r, <- !app_assoc. done.
  - assert (Emag : m_magic m' = MAVLINK_STX ∧ in_mavlink1 s = false).
    { unfold version_agrees in Hv. destruct (in_mavlink1 s) eqn:E1; [|done].
      destruct (H1 E1) as [E0 _]. by change (m_incompat_flags m') with (m_incompat_flags m) in Esig; rewrite E0 in Esig. }
    destruct Emag as [Emag E1].
    assert (Egrow : ∀ x, x = PARSE_STATE_SIGNATURE_WAIT ∨ x = PARSE_STATE_SIGNATURE_WAIT_BAD_CRC →
      ∀ r, consumed m' (set_st_signature_wait MAVLINK_SIGNATURE_BLOCK_LEN
             (set_st_parse_state x (set_st_msg_received r s))) = consumed m s ++ [c]).
    { intros x Hx r. rewrite Ec. unfold consumed. 
      cbn [set_st_signature_wait set_st_parse_state st_parse_state st_signature_wait].
      rewrite Ew, Ewp, Eck. change (take (Z.to_nat (13 - MAVLINK_SIGNATURE_BLOCK_LEN)) (m_signature m')) with ([] : list Z).
      rewrite app_nil_r, <- !app_assoc. by destruct Hx as [-> | ->]. }
    destruct bad.
    + rewrite bool_decide_true by done. split_and!; [|right; by apply Egrow; auto|not_ok].
      intros _. split; [|done]. unfold version_agrees.
      change (if in_mavlink1 s then m_magic m' = MAVLINK_STX_MAVLINK1 else m_magic m' = MAVLINK_STX). by rewrite E1.
    + rewrite bool_decide_false by done. destruct (Hok eq_refl) as [Hmm Ebytes].
      split_and!; [|right|not_ok].
      * intros _. split; [|by split_and!]. unfold version_agrees.
        change (if in_mavlink1 s then m_magic m' = MAVLINK_STX_MAVLINK1 else m_magic m' = MAVLINK_STX). by rewrite E1.
      * apply (Egrow PARSE_STATE_SIGNATURE_WAIT); auto.
Qed.

Lemma parse_signature_extends m s c m' s' b :
  framed m s → parser_ok m s → st_msg_received s = FRAMING_INCOMPLETE →
  st_parse_state s = PARSE_STATE_SIGNATURE_WAIT ∨
  st_parse_state s = PARSE_STATE_SIGNATURE_WAIT_BAD_CRC →
  parse_signature accept_unsigned m s c = Some (m', s', b) → extends m s c m' s' b.
Proof.
  intros Hf (Hm & Hst & Hi) Hr Hs.
  destruct Hm as (_ & _ & _ & _ & _ & _ & _ & _ & _ & _ & _ & _ & _ & Hsl & _).
  assert (Hw : 1 ≤ st_signature_wait s ≤ 13).
  { unfold index_ok in Hi. destruct Hs as [E|E]; rewrite E in Hi; lia. }
  unfold parse_signature, MAVLINK_SIGNATURE_BLOCK_LEN.
  rewrite (proj2 (Z.ltb_ge _ _)) by lia. rewrite store_in_bounds by (simpl; lia).
  cbn [mbind option_bind]. cbv zeta. set (sig := memcpy_at _ _ _).
  cbn [set_st_signature_wait st_signature_wait].
  rewrite (wrapu_id 8) by (unfold in_u; lia).
  assert (Etk : take (Z.to_nat (13 - (st_signature_wait s - 1))) sig =
                take (Z.to_nat (13 - st_signature_wait s)) (m_signature m) ++ [c]).
  { replace (Z.to_nat (13 - (st_signature_wait s - 1))) with (S (Z.to_nat (13 - st_signature_wait s))) by lia.
    apply take_store_next. lia. }
  set (m1 := set_m_signature sig m).
  assert (Ec : consumed m s ++ [c] = wire_header m1 ++ wire_payload m1 ++ m_ck m1 ++
                 take (Z.to_nat (13 - (st_signature_wait s - 1))) (m_signature m1)).
  { change (m_signature m1) with sig. rewrite Etk. unfold consumed.
    destruct Hs as [-> | ->]; by rewrite <- !app_assoc. }
  destruct (Z.eqb_spec (st_signature_wait s - 1) 0) as [E0|En].
  - destruct (mavlink_signature_check _ _ _) as [[ok sg] str].
    destruct (override_signature _ _ _ _) as [ok'|]; [|done]. cbn [mbind option_bind].
    intros [= <- <- <-]. split_and!; [done|by left|].
    cbn [set_st_parse_state set_st_msg_received st_msg_received set_st_signing_streams set_st_signing
         set_st_signature_wait st_parse_state]. case_bool_decide as Hbad; [done|].
    destruct Hs as [Hs|Hs]; [|done]. framed_at Hf Hs. destruct Hc as (Emag & Esig & Hmm & Eck).
    intros _. split_and!; [done| |done]. rewrite Ec, E0, resend_uart_wire.
    change (m_magic m1) with (m_magic m). change (m_incompat_flags m1) with (m_incompat_flags m).
    rewrite Emag, (proj2 (Z.eqb_neq _ _) Esig). by change (m_ck m1) with (m_ck m); rewrite Eck.
  - intros [= <- <- <-]. split_and!; [|right|not_ok].
    + unfold framed. cbn [set_st_signature_wait st_parse_state].
      destruct Hs as [E|E]; framed_at Hf E; rewrite E; done.
    + rewrite Ec. unfold consumed. cbn [set_st_signature_wait st_parse_state st_signature_wait]. by destruct Hs as [-> | ->].
Qed.

Lemma parse_switch_extends m s c m' s' b :
  framed m s → parser_ok m s → byte_ok c → st_msg_received s = FRAMING_INCOMPLETE →
  parse_switch accept_unsigned m s c = Some (m', s', b) → extends m s c m' s' b.
Proof.
  intros Hf Hok Hb Hr. pose proof Hok as (Hm & _ & Hi). unfold index_ok in Hi.
  assert (Hl : in_u 8 (m_len m)) by (by destruct Hm as (_ & _ & ? & _)).
  unfold parse_switch. destruct (st_parse_state s) eqn:Es.
  3: intros [= <- <- <-]; by apply parse_got_stx_extends.
  3: intros [= <- <- <-]; by apply parse_got_length_extends.
  3: intros [= <- <- <-]; by apply parse_got_incompat_extends.
  3-5: intros [= <- <- <-]; eapply parse_ids_extends; try done; repeat constructor.
  3: intros [= <- <- <-]; by apply parse_got_compid_extends.
  3: intros [= <- <- <-]; by apply parse_got_msgid1_extends.
  3: intros [= <- <- <-]; by apply parse_got_msgid2_extends.
  3: destruct (parse_payload m s c) as [[? ?]|] eqn:E; [|done]; intros [= <- <- <-]; by apply parse_payload_extends.
  3: destruct (parse_got_payload m s c) as [[? ?]|] eqn:E; [|done]; intros [= <- <- <-]; by apply parse_got_payload_extends.
  5-6: by apply parse_signature_extends; auto.
  3-4: pose proof (parse_got_crc1_extends m s c Hf Hok Hr) as H;
    destruct (parse_got_crc1 accept_unsigned m s c) as [[? ?] ?]; intros [= <- <- <-]; apply H; auto.
  1-2: intros [= <- <- <-]; apply parse_idle_extends; by rewrite ?Es.
Qed.

(** The copy in the caller's message. *)
Definition delivered (p : parse_result) : Prop :=
  ∀ r, pr_r_message p = Some r → r = pr_rxmsg p.

Definition result_consumed (p : parse_result) : list Z := consumed (pr_rxmsg p) (pr_status p).

Lemma frame_step_extends p c p' :
  result_ok p → framed (pr_rxmsg p) (pr_status p) → byte_ok c → frame_step accept_unsigned p c = Some p' →
  framed (pr_rxmsg p') (pr_status p') ∧
  (result_consumed p' = [] ∨ result_consumed p' = result_consumed p ++ [c]) ∧
  (pr_return p' = FRAMING_OK →
     checksum_matches (pr_rxmsg p') ∧
     result_consumed p ++ [c] = mavlink_resend_uart (pr_rxmsg p') ∧ delivered p').
Proof.
  intros Hok Hf Hc. unfold frame_step, mavlink_frame_char_buffer. cbv zeta.
  set (s0 := set_st_msg_received FRAMING_INCOMPLETE (pr_status p)).
  destruct (parse_switch accept_unsigned (pr_rxmsg p) s0 c) as [[[m' s'] b]|] eqn:E; [|done].
  cbn [mbind option_bind]. intros [= <-].
  destruct (parse_switch_extends (pr_rxmsg p) s0 c m' s' b) as (Hf' & Hgrow & Hgood);
    [exact Hf|exact Hok|done|done|done|].
  unfold result_consumed. cbn [pr_rxmsg pr_status pr_return].
  assert (Eq : ∀ m, consumed m (set_st_parse_error 0 (count_received m' s')) = consumed m s').
  { intros m. unfold count_received. by repeat case_match. }
  assert (Ef : framed m' (set_st_parse_error 0 (count_received m' s')) ↔ framed m' s').
  { unfold count_received. by repeat case_match. }
  assert (Er : st_msg_received (count_received m' s') = st_msg_received s').
  { unfold count_received. by repeat case_match. }
  rewrite Eq, Er. split_and!; [by apply Ef| |].
  - destruct Hgrow as [Hidle|Hg]; [left|by right]. unfold consumed, is_idle in *. by destruct (st_parse_state s').
  - intros Hr. destruct (Hgood Hr) as (Hm & Hw & ->). split_and!; [done|exact Hw|].
    intros r. cbn [pr_r_message pr_rxmsg]. destruct (pr_r_message p); [|done]. intros [= <-].
    unfold report_message. rewrite Er, bool_decide_false by (by rewrite Hr). by destruct m'.
Qed.

Lemma frame_run_extends p cs :
  result_ok p → framed (pr_rxmsg p) (pr_status p) → result_consumed p = [] → bytes_ok cs →
  ∀ p', frame_run accept_unsigned p cs = Some p' →
  framed (pr_rxmsg p') (pr_status p') ∧ result_ok p' ∧ ∃ pre, cs = pre ++ result_consumed p'.
Proof.
  intros Hok Hf Hnil. induction cs as [|c cs IH] using rev_ind; intros Hcs p' Hrun.
  - simpl in Hrun. simplify_eq. split_and!; [done|done|]. exists []. by rewrite Hnil.
  - apply Forall_app in Hcs as [Hcs Hc]. apply Forall_cons_1 in Hc as [Hc _].
    rewrite frame_run_app in Hrun. destruct (frame_run accept_unsigned p cs) as [p1|] eqn:E1; [|done].
    cbn in Hrun. destruct (frame_step accept_unsigned p1 c) as [p2|] eqn:E2; [|done]. cbn in Hrun. simplify_eq.
    destruct (IH Hcs p1 eq_refl) as (Hf1 & Hok1 & pre & Epre).
    destruct (frame_step_extends p1 c p' Hok1 Hf1 Hc E2) as (Hf2 & Hgrow & _).
    destruct (frame_step_ok accept_unsigned p1 c Hok1 Hc) as (p2' & E2' & Hok2 & _).
    rewrite E2 in E2'. injection E2' as <-. split_and!; [done|done|]. destruct Hgrow as [->| ->].
    + exists (cs ++ [c]). by rewrite app_nil_r.
    + exists pre. by rewrite app_assoc, <- Epre.
Qed.

(** C8: Whenever the parser, started idle and fed any byte sequence, reports
    MAVLINK_FRAMING_OK, the bytes it was fed end in the exact wire image of the message
    it reports, whose checksum matches the message table, and the message was copied
    out. *)
Theorem frame_run_sound p cs c p' :
  parser_ok (pr_rxmsg p) (pr_status p) → is_idle (st_parse_state (pr_status p)) = true →
  bytes_ok (cs ++ [c]) →
  frame_run accept_unsigned p (cs ++ [c]) = Some p' → pr_return p' = FRAMING_OK →
  ∃ noise, cs ++ [c] = noise ++ mavlink_resend_uart (pr_rxmsg p') ∧
    checksum_matches (pr_rxmsg p') ∧ delivered p'.
Proof.
  intros Hok Hidle [Hcs Hc]%Forall_app Hrun Hret. apply Forall_cons_1 in Hc as [Hc _].
  rewrite frame_run_app in Hrun. destruct (frame_run accept_unsigned p cs) as [p1|] eqn:E1; [|done].
  cbn in Hrun. destruct (frame_step accept_unsigned p1 c) as [p2|] eqn:E2; [|done]. cbn in Hrun. simplify_eq.
  destruct (frame_run_extends p cs) with (p' := p1) as (Hf1 & Hok1 & pre & Epre); try done.
  { unfold framed. by rewrite Hidle. }
  { unfold result_consumed, consumed, is_idle in *. by destruct (st_parse_state (pr_status p)). }
  destruct (frame_step_extends p1 c p' Hok1 Hf1 Hc E2) as (_ & _ & Hgood).
  destruct (Hgood Hret) as (Hm & Hw & Hd). exists pre. split_and!; [|done|done].
  rewrite Epre, <- app_assoc. f_equal. done.
Qed.

(** ** Authentication *)

Lemma signature_check_callback g st msg :
  ∃ g', (mavlink_signature_check (Some g) st msg).1.2 = Some g' ∧
        sg_accept_unsigned_callback g' = sg_accept_unsigned_callback g.
Proof.
  unfold mavlink_signature_check, fail_check, accept_check. repeat case_match; by eexists.
Qed.

Lemma parse_payload_received m s c p :
  parse_payload m s c = Some p → st_msg_received p.2 = st_msg_received s.
Proof.
  unfold parse_payload. destruct (store _ _ _); [|done]. cbn [mbind option_bind]. intros [= <-].
  by destruct (_ =? _).
Qed.

Lemma parse_got_payload_received m s c p :
  parse_got_payload m s c = Some p → st_msg_received p.2 = st_msg_received s.
Proof.
  unfold parse_got_payload. destruct (mavlink_get_msg_entry _); [|by intros [= <-]].
  destruct (zero_fill _ _ _); [|done]. by intros [= <-].
Qed.

Lemma parse_switch_authenticated m s c g m' s' b :
  st_msg_received s = FRAMING_INCOMPLETE →
  st_signing s = Some g → sg_accept_unsigned_callback g = false →
  parse_switch accept_unsigned m s c = Some (m', s', b) → st_msg_received s' = FRAMING_OK →
  (mavlink_signature_check (Some g) (st_signing_streams s) m').1.1 = true.
Proof.
  intros Hr Hg Hcb. unfold parse_switch.
  assert (Hinc : ∀ p : mavlink_message_t * mavlink_status_t, st_msg_received p.2 = FRAMING_INCOMPLETE →
    Some (p.1, p.2, false) = Some (m', s', b) → st_msg_received s' ≠ FRAMING_OK) by (intros p E [= _ <- _]; by rewrite E).
  assert (Hcrc : Some (parse_got_crc1 accept_unsigned m s c) = Some (m', s', b) → st_msg_received s' ≠ FRAMING_OK).
  { unfold parse_got_crc1. cbn [st_signing set_st_msg_received]. rewrite Hg, Hcb. cbn [negb orb andb].
    destruct (bool_decide (st_parse_state s = _) || _), (negb _);
      intros [= <- <- <-]; cbn; congruence. }
  assert (Hsig : parse_signature accept_unsigned m s c = Some (m', s', b) → st_msg_received s' = FRAMING_OK →
    (mavlink_signature_check (Some g) (st_signing_streams s) m').1.1 = true).
  { unfold parse_signature. destruct (_ <? 0); [done|]. destruct (store _ _ _) as [sig|]; [|done].
    cbn [mbind option_bind]. cbv zeta. destruct (_ =? 0); [|intros [= <- <- <-] H; cbn in H; congruence].
    cbn [set_st_signature_wait st_signing st_signing_streams]. rewrite Hg.
    destruct (signature_check_callback g (st_signing_streams s) (set_m_signature sig m)) as (g' & Eg & Ecb).
    destruct (mavlink_signature_check (Some g) _ _) as [[ok sg] str] eqn:Ec. cbn [fst snd] in Eg. subst sg.
    destruct ok; cbn [override_signature].
    - intros [= <- <- <-] _. by rewrite Ec.
    - cbn [set_st_signing_streams set_st_signing st_signing mbind option_bind]. rewrite Ecb, Hcb. cbn [andb].
      intros [= <- <- <-] H. cbn in H. by case_bool_decide. }
  destruct (st_parse_state s) eqn:Es; intros E HOK; try (by apply Hsig).
  all: exfalso; try (by apply Hcrc).
  all: try (destruct (parse_payload m s c) as [p|] eqn:Ep; [apply parse_payload_received in Ep|done]).
  all: try (destruct (parse_got_payload m s c) as [p|] eqn:Ep; [apply parse_got_payload_received in Ep|done]).
  all: revert HOK; eapply Hinc; [|exact E].
  all: clear Hsig Hcrc Hinc E; unfold parse_idle, parse_got_stx, parse_got_length.
  all: repeat case_match; cbn; congruence.
Qed.

(** C35: On a channel with signing and no accept-unsigned callback, a byte that makes
    the parser report MAVLINK_FRAMING_OK completes a message whose signature the
    channel's check accepts. *)
Theorem frame_ok_is_authenticated p c p' g :
  st_signing (pr_status p) = Some g → sg_accept_unsigned_callback g = false →
  frame_step accept_unsigned p c = Some p' → pr_return p' = FRAMING_OK →
  (mavlink_signature_check (Some g) (st_signing_streams (pr_status p)) (pr_rxmsg p')).1.1 = true.
Proof.
  intros Hg Hcb. unfold frame_step, mavlink_frame_char_buffer. cbv zeta.
  set (s0 := set_st_msg_received FRAMING_INCOMPLETE (pr_status p)).
  destruct (parse_switch accept_unsigned (pr_rxmsg p) s0 c) as [[[m' s'] b]|] eqn:E; [|done].
  cbn [mbind option_bind]. intros [= <-]. cbn [pr_return pr_rxmsg]. intros Hr.
  eapply (parse_switch_authenticated _ s0); [done|exact Hg|done|exact E|].
  rewrite <- Hr. unfold count_received. by repeat case_match.
Qed.
End Endings.

(** ** Instances: a heartbeat, and a signed one *)

Definition received : parse_result := default start_parse (frame_run no_callback start_parse heartbeat_frame).

Lemma frame_run_sound_witness :
  ∃ noise, take 20 heartbeat_frame ++ [0x3e] = noise ++ mavlink_resend_uart (pr_rxmsg received) ∧
    checksum_matches (pr_rxmsg received) ∧ delivered received.
Proof.
  apply (frame_run_sound no_callback start_parse (take 20 heartbeat_frame) 0x3e received);
    [apply zero_parser_ok|reflexivity|decide_now|vm_compute; reflexivity|vm_compute; reflexivity].
Defined.

Definition signing_status : mavlink_status_t :=
  set_st_signing (Some sample_signing) (set_st_signing_streams (Some zero_streams) zero_status).
Definition signed_frame_bytes : list Z :=
  (mav_finalize_message_chan_send (255, 190) signing_status 0 (take 9 (m_payload sample_heartbeat)) 9 9 50).1.
Definition signed_start : parse_result :=
  mk_result zero_msg signing_status (Some zero_msg) (Some zero_status) FRAMING_INCOMPLETE.
Definition almost_received : parse_result :=
  default signed_start (frame_run no_callback signed_start (take 33 signed_frame_bytes)).
Definition signed_received : parse_result :=
  default signed_start (frame_step no_callback almost_received (signed_frame_bytes !!! 33%nat)).

Lemma frame_ok_is_authenticated_witness :
  (mavlink_signature_check (Some sample_signing) (Some zero_streams) (pr_rxmsg signed_received)).1.1 = true.
Proof.
  pose proof (frame_ok_is_authenticated no_callback almost_received (signed_frame_bytes !!! 33%nat) signed_received
    sample_signing) as H.
  replace (Some zero_streams) with (st_signing_streams (pr_status almost_received)) by (vm_compute; reflexivity).
  apply H; vm_compute; reflexivity.
Defined.
