(* ===== verification/MavRoundtrip.v ===== *)
(** * From the sender's message to the receiver's

    Completeness of the parser of [MavParser]: the bytes of a message with a
    matching checksum drive an idle parser through the header, the payload, the
    checksum and the signature, and the frame is reported as good. Composed with
    the encoder of [MavFinalize] this gives the end-to-end round trip. *)
From S2P Require Import Prelude MavChecksum MavSha256 MavTypes MavMessageTable MavSigning.
From S2P Require Import MavFinalize MavParser MavFraming.

(** The checksum of a symbolic header is compared byte by byte. *)
#[local] Strategy 1000 [crc_accumulate].

Section Roundtrip.

Variable accept_unsigned : mavlink_status_t → Z → bool.

(** ** Runs between known parser states *)

Definition at_state (p : parse_result) (m : mavlink_message_t) (s : mavlink_status_t) : Prop :=
  pr_rxmsg p = m ∧ pr_status p = s.

Definition runs (m : mavlink_message_t) (s : mavlink_status_t) (cs : list Z)
    (m' : mavlink_message_t) (s' : mavlink_status_t) : Prop :=
  ∀ p, at_state p m s → ∃ p', frame_run accept_unsigned p cs = Some p' ∧ at_state p' m' s'.

Lemma runs_app m s cs m1 s1 ds m2 s2 :
  runs m s cs m1 s1 → runs m1 s1 ds m2 s2 → runs m s (cs ++ ds) m2 s2.
Proof.
  intros H1 H2 p Hp. destruct (H1 p Hp) as (p1 & E1 & Hp1). destruct (H2 p1 Hp1) as (p2 & E2 & Hp2).
  exists p2. rewrite frame_run_app, E1. done.
Qed.

(** A byte that does not complete a frame. *)
Lemma runs_step m s c m' s' b :
  parse_switch accept_unsigned m (set_st_msg_received FRAMING_INCOMPLETE s) c = Some (m', s', b) →
  st_msg_received s' = FRAMING_INCOMPLETE →
  runs m s [c] m' (set_st_parse_error 0 s').
Proof.
  intros E Hr p [<- <-]. cbn [frame_run]. unfold frame_step, mavlink_frame_char_buffer. cbv zeta.
  rewrite E. cbn [mbind option_bind]. eexists. split; [reflexivity|].
  split; [done|]. cbn [pr_status]. unfold count_received. by rewrite Hr.
Qed.

Lemma runs_one m s c m' s' b t :
  parse_switch accept_unsigned m (set_st_msg_received FRAMING_INCOMPLETE s) c = Some (m', s', b) →
  st_msg_received s' = FRAMING_INCOMPLETE → set_st_parse_error 0 s' = t → runs m s [c] m' t.
Proof. intros E Hr <-. by eapply runs_step. Qed.

Lemma runs_cons m s c m1 s1 cs m' s' :
  runs m s [c] m1 s1 → runs m1 s1 cs m' s' → runs m s (c :: cs) m' s'.
Proof. apply (runs_app _ _ [c]). Qed.

Lemma runs_nil m s : runs m s [] m s.
Proof. intros p Hp. by exists p. Qed.

(** The receiver's status in the middle of a frame: what the parser writes, the
    rest as it was when the frame began. *)
Definition receiving (s : mavlink_status_t) (state : mavlink_parse_state_t) (idx flags wait : Z)
    : mavlink_status_t :=
  mk_status FRAMING_INCOMPLETE (st_buffer_overrun s) 0 state idx (st_current_rx_seq s)
    (st_current_tx_seq s) (st_packet_rx_success_count s) (st_packet_rx_drop_count s) flags wait
    (st_signing s) (st_signing_streams s).

Definition clear_in1 (flags : Z) : Z := Z.land flags (u8 (Z.lnot MAVLINK_STATUS_FLAG_IN_MAVLINK1)).
Definition mark_in1 (flags : Z) : Z := Z.lor flags MAVLINK_STATUS_FLAG_IN_MAVLINK1.

Lemma msgid_assemble msgid :
  in_u 24 msgid →
  wrapu 24 (Z.lor (wrapu 24 (Z.lor (Z.land msgid 0xff) (Z.shiftl (Z.land (Z.shiftr msgid 8) 0xff) 8)))
                  (Z.shiftl (Z.land (Z.shiftr msgid 16) 0xff) 16)) = msgid.
Proof.
  intros Hid. assert (E : msgid = Z.land msgid 0xff + Z.land (Z.shiftr msgid 8) 0xff * 256
                                + Z.land (Z.shiftr msgid 16) 0xff * 65536).
  { rewrite !land_255, shiftr_8, shiftr_16. unfold in_u in *. Z.to_euclidean_division_equations; lia. }
  assert (H0 : in_u 8 (Z.land msgid 0xff)) by (rewrite land_255; apply Z.mod_pos_bound; lia).
  assert (H1 : in_u 8 (Z.land (Z.shiftr msgid 8) 0xff)) by (rewrite land_255; apply Z.mod_pos_bound; lia).
  assert (H2 : in_u 8 (Z.land (Z.shiftr msgid 16) 0xff)) by (rewrite land_255; apply Z.mod_pos_bound; lia).
  destruct (msgid_two _ _ H0 H1) as (_ & _ & H16).
  rewrite (lor_shiftl_add (wrapu 24 _)) by (done || lia).
  rewrite (lor_shiftl_add (Z.land msgid 0xff)) by (done || lia).
  rewrite (wrapu_id 24 (_ + _ * 2 ^ 8)) by (unfold in_u in *; lia).
  rewrite wrapu_id by (unfold in_u in *; lia). change (2 ^ 8) with 256. change (2 ^ 16) with 65536. lia.
Qed.

(** ** The header *)

Lemma switch_idle m s c :
  is_idle (st_parse_state s) = true →
  parse_switch accept_unsigned m s c = Some ((parse_idle m s c).1, (parse_idle m s c).2, false).
Proof. unfold is_idle, parse_switch. by destruct (st_parse_state s). Qed.


(** The first byte. *)
Lemma runs_start rx s magic flags :
  is_idle (st_parse_state s) = true →
  magic = MAVLINK_STX ∧ flags = clear_in1 (st_flags s) ∨
  magic = MAVLINK_STX_MAVLINK1 ∧ flags = mark_in1 (st_flags s) →
  runs rx s [magic] (mavlink_start_checksum (set_m_magic magic (set_m_len 0 rx)))
    (receiving s PARSE_STATE_GOT_STX (st_packet_idx s) flags (st_signature_wait s)).
Proof.
  intros Hidle Hm.
  assert (E : parse_idle rx (set_st_msg_received FRAMING_INCOMPLETE s) magic =
    (mavlink_start_checksum (set_m_magic magic (set_m_len 0 rx)),
     set_st_flags flags (set_st_parse_state PARSE_STATE_GOT_STX (set_st_msg_received FRAMING_INCOMPLETE s)))).
  { by destruct Hm as [[-> ->]|[-> ->]]. }
  pose proof (runs_step rx s magic _ _ _ (switch_idle rx (set_st_msg_received FRAMING_INCOMPLETE s) magic Hidle)) as H. rewrite E in H.
  by apply H.
Qed.

(** The following bytes: one lemma per state, the version flag given. *)
Definition flag1 (flags : Z) : bool := negb (Z.land flags MAVLINK_STATUS_FLAG_IN_MAVLINK1 =? 0).

Lemma runs_len m s i f w c :
  runs m (receiving s PARSE_STATE_GOT_STX i f w) [c]
    (if flag1 f
     then set_m_compat_flags 0 (set_m_incompat_flags 0 (mavlink_update_checksum (set_m_len c m) c))
     else mavlink_update_checksum (set_m_len c m) c)
    (receiving s (if flag1 f then PARSE_STATE_GOT_COMPAT_FLAGS else PARSE_STATE_GOT_LENGTH) 0 f w).
Proof.
  destruct (flag1 f) eqn:E; eapply runs_one.
  1,4: unfold parse_switch, parse_got_stx;
    cbn [receiving set_st_msg_received st_parse_state st_msg_received set_st_packet_idx];
    rewrite bool_decide_true by done; cbn [negb];
    change (in_mavlink1 _) with (flag1 f); rewrite E; reflexivity.
  all: reflexivity.
Qed.

Lemma runs_incompat m s i f w c :
  Z.land c (Z.lnot MAVLINK_IFLAG_MASK) = 0 →
  runs m (receiving s PARSE_STATE_GOT_LENGTH i f w) [c]
    (mavlink_update_checksum (set_m_incompat_flags c m) c)
    (receiving s PARSE_STATE_GOT_INCOMPAT_FLAGS i f w).
Proof.
  intros E. eapply runs_one.
  - unfold parse_switch, parse_got_length.
    cbn [receiving set_st_msg_received st_parse_state m_incompat_flags set_m_incompat_flags].
    rewrite E. reflexivity.
  - reflexivity.
  - reflexivity.
Qed.

Lemma runs_compat m s i f w c :
  runs m (receiving s PARSE_STATE_GOT_INCOMPAT_FLAGS i f w) [c]
    (mavlink_update_checksum (set_m_compat_flags c m) c)
    (receiving s PARSE_STATE_GOT_COMPAT_FLAGS i f w).
Proof. by eapply runs_one. Qed.

Lemma runs_seq m s i f w c :
  runs m (receiving s PARSE_STATE_GOT_COMPAT_FLAGS i f w) [c]
    (mavlink_update_checksum (set_m_seq c m) c) (receiving s PARSE_STATE_GOT_SEQ i f w).
Proof. by eapply runs_one. Qed.

Lemma runs_sysid m s i f w c :
  runs m (receiving s PARSE_STATE_GOT_SEQ i f w) [c]
    (mavlink_update_checksum (set_m_sysid c m) c) (receiving s PARSE_STATE_GOT_SYSID i f w).
Proof. by eapply runs_one. Qed.

Lemma runs_compid m s i f w c :
  runs m (receiving s PARSE_STATE_GOT_SYSID i f w) [c]
    (mavlink_update_checksum (set_m_compid c m) c) (receiving s PARSE_STATE_GOT_COMPID i f w).
Proof. by eapply runs_one. Qed.

Lemma runs_msgid0 m s i f w c :
  runs m (receiving s PARSE_STATE_GOT_COMPID i f w) [c]
    (mavlink_update_checksum (set_m_msgid c m) c)
    (receiving s (if flag1 f then after_msgid m else PARSE_STATE_GOT_MSGID1) i f w).
Proof. by eapply runs_one. Qed.

Lemma runs_msgid1 m s i f w c :
  runs m (receiving s PARSE_STATE_GOT_MSGID1 i f w) [c]
    (mavlink_update_checksum (set_m_msgid (wrapu 24 (Z.lor (m_msgid m) (Z.shiftl c 8))) m) c)
    (receiving s PARSE_STATE_GOT_MSGID2 i f w).
Proof. by eapply runs_one. Qed.

Lemma runs_msgid2 m s i f w c :
  runs m (receiving s PARSE_STATE_GOT_MSGID2 i f w) [c]
    (mavlink_update_checksum (set_m_msgid (wrapu 24 (Z.lor (m_msgid m) (Z.shiftl c 16))) m) c)
    (receiving s (after_msgid m) i f w).
Proof. by eapply runs_one. Qed.

Lemma runs_header2_bytes rx s len incompat compat seq sysid compid b0 b1 b2 :
  is_idle (st_parse_state s) = true → Z.land incompat (Z.lnot MAVLINK_IFLAG_MASK) = 0 →
  let body := [len; incompat; compat; seq; sysid; compid; b0; b1; b2] in
  let msgid := wrapu 24 (Z.lor (wrapu 24 (Z.lor b0 (Z.shiftl b1 8))) (Z.shiftl b2 16)) in
  let m := mk_msg (crc_calculate body) MAVLINK_STX len incompat compat seq sysid compid msgid
                  (m_payload rx) (m_ck rx) (m_signature rx) in
  runs rx s (MAVLINK_STX :: body) m
    (receiving s (after_msgid m) 0 (clear_in1 (st_flags s)) (st_signature_wait s)).
Proof.
  intros Hidle Hinc body msgid m. set (f := clear_in1 (st_flags s)).
  assert (E1 : flag1 f = false) by (unfold f, flag1, clear_in1; by rewrite <- Z.land_assoc, Z.land_0_r).
  eapply runs_cons; [apply (runs_start rx s MAVLINK_STX f); auto|].
  eapply runs_cons; [apply runs_len|]. rewrite E1.
  eapply runs_cons; [by apply runs_incompat|].
  eapply runs_cons; [apply runs_compat|].
  eapply runs_cons; [apply runs_seq|].
  eapply runs_cons; [apply runs_sysid|].
  eapply runs_cons; [apply runs_compid|].
  eapply runs_cons; [apply runs_msgid0|]. rewrite E1.
  eapply runs_cons; [apply runs_msgid1|].
  exact (runs_msgid2 _ s 0 f (st_signature_wait s) b2).
Qed.

Lemma runs_header2 rx s len incompat compat seq sysid compid msgid :
  is_idle (st_parse_state s) = true → in_u 24 msgid →
  Z.land incompat (Z.lnot MAVLINK_IFLAG_MASK) = 0 →
  let h := header2 MAVLINK_STX len incompat compat seq sysid compid msgid in
  let m := mk_msg (crc_calculate (drop 1 h)) MAVLINK_STX len incompat compat seq sysid compid msgid
                  (m_payload rx) (m_ck rx) (m_signature rx) in
  runs rx s h m (receiving s (after_msgid m) 0 (clear_in1 (st_flags s)) (st_signature_wait s)).
Proof.
  intros Hidle Hid Hinc.
  pose proof (runs_header2_bytes rx s len incompat compat seq sysid compid (Z.land msgid 0xff)
    (Z.land (Z.shiftr msgid 8) 0xff) (Z.land (Z.shiftr msgid 16) 0xff) Hidle Hinc) as H.
  cbv zeta in H |- *. rewrite (msgid_assemble msgid Hid) in H. exact H.
Qed.

Lemma runs_header1 rx s len seq sysid compid msgid :
  is_idle (st_parse_state s) = true → in_u 8 msgid →
  let h := header1 len seq sysid compid msgid in
  let m := mk_msg (crc_calculate (drop 1 h)) MAVLINK_STX_MAVLINK1 len 0 0 seq sysid compid msgid
                  (m_payload rx) (m_ck rx) (m_signature rx) in
  runs rx s h m (receiving s (after_msgid m) 0 (mark_in1 (st_flags s)) (st_signature_wait s)).
Proof.
  intros Hidle Hid. unfold header1. rewrite (msgid_one msgid Hid). set (f := mark_in1 (st_flags s)).
  assert (E1 : flag1 f = true) by (unfold f, flag1, mark_in1; by rewrite land_lor_mask).
  cbv zeta. eapply runs_cons; [apply (runs_start rx s MAVLINK_STX_MAVLINK1 f); auto|].
  eapply runs_cons; [apply runs_len|]. rewrite E1.
  eapply runs_cons; [apply runs_seq|].
  eapply runs_cons; [apply runs_sysid|].
  eapply runs_cons; [apply runs_compid|].
  pose proof (λ m, runs_msgid0 m s 0 f (st_signature_wait s) msgid) as H0. rewrite E1 in H0.
  exact (H0 _).
Qed.

(** ** Payload and checksum *)

Lemma runs_payload_byte m s i f w c :
  length (m_payload m) = payload_capacity → 0 ≤ i < m_len m → in_u 8 (m_len m) →
  runs m (receiving s PARSE_STATE_GOT_MSGID3 i f w) [c]
    (set_m_checksum (crc_accumulate c (m_checksum m))
       (set_m_payload (memcpy_at (m_payload m) (Z.to_nat i) [c]) m))
    (receiving s (if i + 1 =? m_len m then PARSE_STATE_GOT_PAYLOAD else PARSE_STATE_GOT_MSGID3)
       (i + 1) f w).
Proof.
  intros Hcap Hi Hl. unfold in_u, payload_capacity in *. eapply runs_one.
  - unfold parse_switch, parse_payload. cbn [receiving set_st_msg_received st_parse_state st_packet_idx].
    rewrite store_in_bounds by (simpl; lia). cbn [mbind option_bind set_st_packet_idx st_packet_idx].
    rewrite (wrapu_id 8) by (unfold in_u; lia). reflexivity.
  - cbn [fst snd m_len mavlink_update_checksum set_m_checksum set_m_payload]. by destruct (i + 1 =? m_len m).
  - cbn [fst snd m_len mavlink_update_checksum set_m_checksum set_m_payload]. by destruct (i + 1 =? m_len m).
Qed.

Lemma runs_payload cs m s i f w :
  length (m_payload m) = payload_capacity → 0 ≤ i → in_u 8 (m_len m) →
  i + Z.of_nat (length cs) = m_len m → cs ≠ [] →
  runs m (receiving s PARSE_STATE_GOT_MSGID3 i f w) cs
    (set_m_checksum (crc_accumulate_buffer (m_checksum m) cs)
       (set_m_payload (memcpy_at (m_payload m) (Z.to_nat i) cs) m))
    (receiving s PARSE_STATE_GOT_PAYLOAD (m_len m) f w).
Proof.
  revert m i. induction cs as [|c cs IH]; intros m i Hcap Hi Hl Hlen Hne; [done|].
  pose proof (runs_payload_byte m s i f w c Hcap) as H1. simpl length in Hlen.
  specialize (H1 ltac:(lia) Hl). unfold payload_capacity, in_u in *.
  eapply runs_cons; [exact H1|]. clear H1.
  destruct cs as [|c' cs].
  - rewrite (proj2 (Z.eqb_eq _ _)) by (simpl in Hlen; lia).
    replace (i + 1) with (m_len m) by (simpl in Hlen; lia). apply runs_nil.
  - rewrite (proj2 (Z.eqb_neq _ _)) by (simpl in Hlen; lia).
    set (m1 := set_m_checksum _ _).
    assert (Hcap1 : length (m_payload m1) = 264%nat) by (cbn; rewrite length_memcpy_at; simpl; lia).
    pose proof (IH m1 (i + 1) Hcap1 ltac:(lia) Hl) as H.
    specialize (H ltac:(change (m_len m1) with (m_len m); lia) ltac:(done)).
    rewrite crc_accumulate_buffer_cons.
    change (m_len m1) with (m_len m) in H. change (m_checksum m1) with (crc_accumulate c (m_checksum m)) in H.
    change (m_payload m1) with (memcpy_at (m_payload m) (Z.to_nat i) [c]) in H.
    rewrite (memcpy_at_app' _ _ _ [c]) in H by (simpl; simpl in Hlen; lia). exact H.
Qed.

(** The whole payload, the empty one included. *)
Lemma runs_body m s f w cs :
  length (m_payload m) = payload_capacity → in_u 8 (m_len m) → Z.of_nat (length cs) = m_len m →
  runs m (receiving s (after_msgid m) 0 f w) cs
    (set_m_checksum (crc_accumulate_buffer (m_checksum m) cs)
       (set_m_payload (memcpy_at (m_payload m) 0 cs) m))
    (receiving s PARSE_STATE_GOT_PAYLOAD (m_len m) f w).
Proof.
  intros Hcap Hl Hlen. unfold after_msgid. destruct (Z.ltb_spec 0 (m_len m)).
  - apply (runs_payload cs m s 0); try done. by intros ->; simpl in *; lia.
  - destruct cs; [|simpl in Hlen; lia]. unfold in_u in Hl. replace (m_len m) with 0 by lia.
    destruct m. apply runs_nil.
Qed.

(** The first checksum byte of a known message: the payload is zero-filled. *)
Lemma runs_ck0 m s f w c e :
  length (m_payload m) = payload_capacity → bytes_ok (m_payload m) → in_u 8 (m_len m) →
  mavlink_get_msg_entry (m_msgid m) = Some e →
  c = Z.land (crc_accumulate (e_crc_extra e) (m_checksum m)) 0xff →
  ∃ payload, zero_fill (m_payload m) (m_len m) (e_max_msg_len e) = Some payload ∧
    take (Z.to_nat (m_len m)) payload = take (Z.to_nat (m_len m)) (m_payload m) ∧
    length payload = payload_capacity ∧
  runs m (receiving s PARSE_STATE_GOT_PAYLOAD (m_len m) f w) [c]
    (set_m_payload payload (set_m_ck (<[0%nat := c]> (m_ck m))
       (set_m_checksum (crc_accumulate (e_crc_extra e) (m_checksum m)) m)))
    (receiving s PARSE_STATE_GOT_CRC1 (m_len m) f w).
Proof.
  intros Hcap Hb Hl Ee Ec.
  destruct (zero_fill_ok (m_payload m) (m_len m) (e_max_msg_len e)) as (p & Ep & Hpl & _ & Etk); [done..|].
  exists p. split_and!; [done|done|done|]. eapply runs_one.
  - unfold parse_switch, parse_got_payload. cbn [receiving set_st_msg_received st_parse_state].
    rewrite Ee. cbv zeta. cbn [m_checksum mavlink_update_checksum set_m_checksum m_payload
      set_st_parse_state st_packet_idx receiving set_st_msg_received].
    rewrite Ep. cbn [mbind option_bind]. rewrite (proj2 (Z.eqb_eq _ _) Ec). reflexivity.
  - reflexivity.
  - reflexivity.
Qed.

(** ** The end of the frame *)

(** The byte that completes a good frame. *)
Lemma run_final m s c m' s' b :
  parse_switch accept_unsigned m (set_st_msg_received FRAMING_INCOMPLETE s) c = Some (m', s', b) →
  st_msg_received s' = FRAMING_OK →
  ∀ p, at_state p m s → ∃ p', frame_run accept_unsigned p [c] = Some p' ∧
    pr_rxmsg p' = m' ∧ pr_return p' = FRAMING_OK.
Proof.
  intros E Hr p [<- <-]. cbn [frame_run]. unfold frame_step, mavlink_frame_char_buffer. cbv zeta.
  rewrite E. cbn [mbind option_bind]. eexists. split; [reflexivity|]. split; [done|].
  cbn [pr_return]. unfold count_received. rewrite Hr. by destruct (_ =? 0).
Qed.

Definition signed_frame (m : mavlink_message_t) : bool :=
  negb (Z.land (m_incompat_flags m) MAVLINK_IFLAG_SIGNED =? 0).

(** The second checksum byte of an unsigned frame, no signing configured. *)
Lemma run_ck1_unsigned m s i f w c :
  signed_frame m = false → st_signing s = None → c = Z.shiftr (m_checksum m) 8 →
  ∀ p, at_state p m (receiving s PARSE_STATE_GOT_CRC1 i f w) →
  ∃ p', frame_run accept_unsigned p [c] = Some p' ∧
    pr_rxmsg p' = set_m_ck (<[1%nat := c]> (m_ck m)) m ∧ pr_return p' = FRAMING_OK.
Proof.
  intros Hs Hn Ec. eapply run_final.
  - unfold parse_switch, parse_got_crc1. cbn [receiving set_st_msg_received st_parse_state st_signing].
    rewrite (proj2 (Z.eqb_eq _ _) Ec), bool_decide_false by done.
    change (negb (Z.land (m_incompat_flags _) _ =? 0)) with (signed_frame m). rewrite Hs, Hn. reflexivity.
  - reflexivity.
Qed.

(** The second checksum byte of a signed frame. *)
Lemma runs_ck1_signed m s i f w c :
  signed_frame m = true → c = Z.shiftr (m_checksum m) 8 →
  runs m (receiving s PARSE_STATE_GOT_CRC1 i f w) [c]
    (set_m_ck (<[1%nat := c]> (m_ck m)) m)
    (receiving s PARSE_STATE_SIGNATURE_WAIT i f MAVLINK_SIGNATURE_BLOCK_LEN).
Proof.
  intros Hs Ec. eapply runs_one.
  - unfold parse_switch, parse_got_crc1. cbn [receiving set_st_msg_received st_parse_state st_signing].
    rewrite (proj2 (Z.eqb_eq _ _) Ec), bool_decide_false by done.
    change (negb (Z.land (m_incompat_flags _) _ =? 0)) with (signed_frame m). rewrite Hs.
    cbn [negb orb st_msg_received]. rewrite bool_decide_false by done. reflexivity.
  - reflexivity.
  - reflexivity.
Qed.

(** Twelve signature bytes are stored, the thirteenth has the signature checked. *)
Lemma runs_signature cs m s i f w :
  length (m_signature m) = 13%nat → 1 ≤ w - Z.of_nat (length cs) → w ≤ 13 →
  runs m (receiving s PARSE_STATE_SIGNATURE_WAIT i f w) cs
    (set_m_signature (memcpy_at (m_signature m) (Z.to_nat (13 - w)) cs) m)
    (receiving s PARSE_STATE_SIGNATURE_WAIT i f (w - Z.of_nat (length cs))).
Proof.
  revert m w. induction cs as [|c cs IH]; intros m w Hsl Hw H13.
  - simpl. rewrite Z.sub_0_r. unfold memcpy_at. simpl. rewrite Nat.add_0_r, take_drop. destruct m. apply runs_nil.
  - simpl length in Hw. eapply runs_cons.
    + eapply runs_one.
      * unfold parse_switch, parse_signature, MAVLINK_SIGNATURE_BLOCK_LEN.
        cbn [receiving set_st_msg_received st_parse_state st_signature_wait set_st_signature_wait].
        rewrite (proj2 (Z.ltb_ge _ _)) by lia. rewrite store_in_bounds by (simpl; lia).
        cbn [mbind option_bind]. rewrite (wrapu_id 8) by (unfold in_u; lia).
        rewrite (proj2 (Z.eqb_neq _ _)) by lia. reflexivity.
      * reflexivity.
      * reflexivity.
    + set (m1 := set_m_signature _ m).
      assert (Hsl1 : length (m_signature m1) = 13%nat) by (cbn; rewrite length_memcpy_at; simpl; lia).
      pose proof (IH m1 (w - 1) Hsl1 ltac:(lia) ltac:(lia)) as H.
      change (m_signature m1) with (memcpy_at (m_signature m) (Z.to_nat (13 - w)) [c]) in H.
      rewrite (memcpy_at_app' _ _ _ [c]) in H by (simpl; lia).
      simpl length. replace (w - Z.of_nat (S (length cs))) with (w - 1 - Z.of_nat (length cs)) by lia. exact H.
Qed.

Lemma run_signature_end m s i f c :
  length (m_signature m) = 13%nat →
  let m' := set_m_signature (memcpy_at (m_signature m) 12 [c]) m in
  (mavlink_signature_check (st_signing s) (st_signing_streams s) m').1.1 = true →
  ∀ p, at_state p m (receiving s PARSE_STATE_SIGNATURE_WAIT i f 1) →
  ∃ p', frame_run accept_unsigned p [c] = Some p' ∧ pr_rxmsg p' = m' ∧ pr_return p' = FRAMING_OK.
Proof.
  intros Hsl m' Hchk. unfold m' in *.
  destruct (mavlink_signature_check _ _ _) as [[ok sg] str] eqn:Ec. cbn in Hchk. subst ok.
  eapply run_final.
  - unfold parse_switch, parse_signature, MAVLINK_SIGNATURE_BLOCK_LEN.
    cbn [receiving set_st_msg_received st_parse_state st_signature_wait set_st_signature_wait st_signing st_signing_streams].
    rewrite store_in_bounds by (simpl; lia). change (Z.to_nat (13 - 1)) with 12%nat.
    cbn [Z.sub Z.ltb]. cbn [mbind option_bind]. rewrite Ec. reflexivity.
  - reflexivity.
Qed.
(** ** Completeness *)

(** A message ready for the wire. *)
Record wire_message (m : mavlink_message_t) (e : mavlink_msg_entry_t) : Prop := {
  wm_len : in_u 8 (m_len m);
  wm_version :
    m_magic m = MAVLINK_STX ∧ in_u 24 (m_msgid m) ∧
      Z.land (m_incompat_flags m) (Z.lnot MAVLINK_IFLAG_MASK) = 0 ∨
    m_magic m = MAVLINK_STX_MAVLINK1 ∧ in_u 8 (m_msgid m) ∧
      m_incompat_flags m = 0 ∧ m_compat_flags m = 0;
  wm_payload : length (m_payload m) = payload_capacity;
  wm_bytes : bytes_ok (m_payload m);
  wm_signature : length (m_signature m) = 13%nat;
  wm_entry : mavlink_get_msg_entry (m_msgid m) = Some e;
  wm_checksum : m_checksum m = frame_checksum (wire_header m) (wire_payload m) (e_crc_extra e)
}.

(** The receiver's policy: an unsigned frame needs a channel without signing, a
    signed one a signature that checks. *)
Definition accepts (s : mavlink_status_t) (m : mavlink_message_t) : Prop :=
  if signed_frame m
  then (mavlink_signature_check (st_signing s) (st_signing_streams s)
          (set_m_ck (checksum_bytes (m_checksum m)) m)).1.1 = true
  else st_signing s = None.

(** What the receiver sees of the message [m] with table entry [e]. *)
Definition same_message (rx m : mavlink_message_t) (e : mavlink_msg_entry_t) : Prop :=
  m_magic rx = m_magic m ∧ m_len rx = m_len m ∧ m_incompat_flags rx = m_incompat_flags m ∧
  m_compat_flags rx = m_compat_flags m ∧ m_seq rx = m_seq m ∧ m_sysid rx = m_sysid m ∧
  m_compid rx = m_compid m ∧ m_msgid rx = m_msgid m ∧ m_checksum rx = m_checksum m ∧
  wire_payload rx = wire_payload m ∧ length (m_payload rx) = payload_capacity ∧
  ∀ k, m_len m ≤ Z.of_nat k < e_max_msg_len e → m_payload rx !!! k = 0.

(** The check reads the header, the payload, the checksum and the signature. *)
Lemma signature_check_ext sg st m m' :
  header_bytes m = header_bytes m' → wire_payload m = wire_payload m' → m_ck m = m_ck m' →
  m_signature m = m_signature m' → m_sysid m = m_sysid m' → m_compid m = m_compid m' →
  mavlink_signature_check sg st m = mavlink_signature_check sg st m'.
Proof.
  intros Eh Ep Ec Es Ey Eo.
  assert (Ed : ∀ k, signed_digest k m = signed_digest k m').
  { intros k. unfold signed_digest, wire_payload in *. by rewrite Eh, Ep, Ec, Es. }
  assert (Em : ∀ l x, stream_matches m l x = stream_matches m' l x).
  { intros l x. unfold stream_matches. by rewrite Ey, Eo. }
  assert (Ef : ∀ l t i n, find_stream m l t i n = find_stream m' l t i n).
  { intros l t i n. revert t i. induction n as [|n IH]; intros [|x t] i; simpl; try done. by rewrite Em, IH. }
  unfold mavlink_signature_check. destruct sg; [|done]. rewrite Ed, Es.
  destruct st; [|done]. by rewrite Ef, Ey, Eo.
Qed.

(** The parser after the first checksum byte. *)
Lemma runs_to_ck0 rx s m e :
  is_idle (st_parse_state s) = true → length (m_payload rx) = payload_capacity →
  bytes_ok (m_payload rx) → length (m_ck rx) = 2%nat → wire_message m e →
  ∃ rx' f, same_message rx' m e ∧ m_ck rx' !!! 0%nat = Z.land (m_checksum m) 0xff ∧
    length (m_ck rx') = 2%nat ∧ m_signature rx' = m_signature rx ∧
    runs rx s (wire_header m ++ wire_payload m ++ [Z.land (m_checksum m) 0xff])
      rx' (receiving s PARSE_STATE_GOT_CRC1 (m_len m) f (st_signature_wait s)).
Proof.
  intros Hidle Hcap Hb Hck [Hl Hver Hpl Hpb Hsl He Hcs].
  set (m1 := mk_msg (crc_calculate (drop 1 (wire_header m))) (m_magic m) (m_len m) (m_incompat_flags m)
    (m_compat_flags m) (m_seq m) (m_sysid m) (m_compid m) (m_msgid m) (m_payload rx) (m_ck rx) (m_signature rx)).
  assert (Hhdr : ∃ f, runs rx s (wire_header m) m1 (receiving s (after_msgid m1) 0 f (st_signature_wait s))).
  { unfold m1, wire_header. destruct Hver as [(Em & Hid & Hi)|(Em & Hid & Ei & Eco)]; rewrite Em.
    - eexists. by apply runs_header2.
    - rewrite Ei, Eco. eexists. by apply runs_header1. }
  destruct Hhdr as [f Hhdr].
  assert (Hlen : Z.of_nat (length (wire_payload m)) = m_len m).
  { unfold wire_payload. rewrite length_take, Hpl. unfold payload_capacity, in_u in *. lia. }
  pose proof (runs_body m1 s f (st_signature_wait s) (wire_payload m) Hcap Hl Hlen) as Hbody.
  set (m2 := set_m_checksum _ _) in Hbody.
  assert (Hcap2 : length (m_payload m2) = payload_capacity).
  { change (length (memcpy_at (m_payload rx) 0 (wire_payload m)) = payload_capacity).
    rewrite length_memcpy_at; [done|]. rewrite Hcap. unfold in_u, payload_capacity in *. lia. }
  assert (Hb2 : bytes_ok (m_payload m2)) by (apply memcpy_at_ok; [done|by apply Forall_take]).
  destruct (runs_ck0 m2 s f (st_signature_wait s) (Z.land (m_checksum m) 0xff) e) as
    (pl & Ezf & Etk & Hpl' & Hck0); [done|done|done|done| |].
  { rewrite Hcs. done. }
  set (m3 := set_m_payload _ _) in Hck0. exists m3, f. split_and!.
  - split_and!; try done.
    + change (m_len m2) with (m_len m) in Etk.
      change (take (Z.to_nat (m_len m)) pl = wire_payload m). rewrite Etk.
      change (m_payload m2) with (memcpy_at (m_payload rx) 0 (wire_payload m)).
      replace (Z.to_nat (m_len m)) with (0 + length (wire_payload m))%nat by (unfold in_u in *; lia).
      rewrite take_memcpy_at_end; [done|]. rewrite Hcap. unfold in_u, payload_capacity in *. lia.
    + intros k Hk. destruct (get_msg_entry_lengths _ _ He) as (_ & H255 & _).
      by apply (zero_fill_zero (m_payload m2) (m_len m) (e_max_msg_len e)); unfold in_u in *; try lia.
  - change (m_ck m3) with (<[0%nat := Z.land (m_checksum m) 0xff]> (m_ck rx)).
    by rewrite list_lookup_total_insert_eq by lia.
  - cbn. by rewrite length_insert.
  - done.
  - eapply runs_app; [exact Hhdr|]. eapply runs_app; [exact Hbody|]. exact Hck0.
Qed.
(** Storing the signature in one go. *)
Lemma split_last (l : list Z) n : length l = S n → l = take n l ++ [l !!! n].
Proof.
  intros H. rewrite <- (take_drop n l) at 1. f_equal.
  destruct (drop n l) as [|x [|]] eqn:E; apply (f_equal length) in E as El; rewrite length_drop in El; simpl in El; try lia.
  f_equal. rewrite list_lookup_total_alt, <- (take_drop n l), E, lookup_app_r by (rewrite length_take; lia).
  by rewrite length_take, Nat.min_l, Nat.sub_diag by lia.
Qed.

Lemma run_signature_block m s i f sig :
  length (m_signature m) = 13%nat → length sig = 13%nat →
  let m' := set_m_signature sig m in
  (mavlink_signature_check (st_signing s) (st_signing_streams s) m').1.1 = true →
  ∀ p, at_state p m (receiving s PARSE_STATE_SIGNATURE_WAIT i f MAVLINK_SIGNATURE_BLOCK_LEN) →
  ∃ p', frame_run accept_unsigned p sig = Some p' ∧ pr_rxmsg p' = m' ∧ pr_return p' = FRAMING_OK.
Proof.
  intros Hm Hsig m' Hchk p Hp. rewrite (split_last sig 12) by done. rewrite frame_run_app.
  destruct (runs_signature (take 12 sig) m s i f 13) with (p := p) as (p1 & E1 & Hp1);
    [done|rewrite length_take, Hsig; simpl; lia|lia|exact Hp|].
  rewrite E1. cbn [mbind option_bind].
  replace (13 - Z.of_nat (length (take 12 sig))) with 1 in Hp1 by (rewrite length_take, Hsig; simpl; lia).
  set (m1 := set_m_signature _ m) in Hp1.
  assert (Hl : length (take 12 sig) = 12%nat) by (rewrite length_take, Hsig; done).
  assert (Em : memcpy_at (m_signature m1) 12 [sig !!! 12%nat] = sig).
  { change (m_signature m1) with (memcpy_at (m_signature m) 0 (take 12 sig)).
    rewrite (memcpy_at_app' _ _ 12) by (rewrite ?Hl; simpl; lia).
    rewrite <- split_last by done. apply memcpy_at_all. lia. }
  destruct (run_signature_end m1 s i f (sig !!! 12%nat)) with (p := p1) as (p2 & E2 & Erx & Eret).
  - change (m_signature m1) with (memcpy_at (m_signature m) 0 (take 12 sig)).
    rewrite length_memcpy_at; lia.
  - rewrite Em. exact Hchk.
  - exact Hp1.
  - exists p2. rewrite E2, Erx, Em. done.
Qed.

Lemma complete_run p m e :
  result_ok p → is_idle (st_parse_state (pr_status p)) = true → wire_message m e →
  accepts (pr_status p) m →
  ∃ p', frame_run accept_unsigned p (mavlink_resend_uart m) = Some p' ∧
    pr_return p' = FRAMING_OK ∧ same_message (pr_rxmsg p') m e.
Proof.
  intros (Hrx & _ & _) Hidle Hm Hacc.
  destruct Hrx as (_ & _ & _ & _ & _ & _ & _ & _ & _ & Hcap & Hb & Hck & _ & Hsl & _).
  destruct (runs_to_ck0 (pr_rxmsg p) (pr_status p) m e) as (rx1 & f & Hsame & H0 & Hck1 & Esig & Hrun); [done..|].
  assert (Hcs : in_u 16 (m_checksum m)) by (rewrite (wm_checksum m e Hm); apply crc_accumulate_in_u16).
  assert (Ecs : m_checksum rx1 = m_checksum m) by apply Hsame.
  assert (Einc : m_incompat_flags rx1 = m_incompat_flags m) by apply Hsame.
  assert (Esf : signed_frame rx1 = signed_frame m) by (unfold signed_frame; by rewrite Einc).
  destruct (Hrun p ltac:(done)) as (p1 & E1 & Hp1).
  assert (Ebytes : mavlink_resend_uart m =
    (wire_header m ++ wire_payload m ++ [Z.land (m_checksum m) 0xff]) ++ [Z.shiftr (m_checksum m) 8] ++
    (if (m_magic m =? MAVLINK_STX_MAVLINK1) || (Z.land (m_incompat_flags m) MAVLINK_IFLAG_SIGNED =? 0)
     then [] else take 13 (m_signature m))).
  { rewrite resend_uart_wire, checksum_bytes_two by done. by rewrite <- !app_assoc. }
  rewrite Ebytes. clear Ebytes.
  rewrite frame_run_app, E1. cbn [mbind option_bind]. rewrite frame_run_app. clear E1 Hrun.
  set (rx2 := set_m_ck (<[1%nat := Z.shiftr (m_checksum m) 8]> (m_ck rx1)) rx1).
  assert (Eck2 : m_ck rx2 = checksum_bytes (m_checksum m)).
  { cbn. rewrite two_bytes, H0, checksum_bytes_two by done. done. }
  destruct (signed_frame m) eqn:Es; unfold accepts in Hacc; rewrite Es in Hacc.
  - destruct (runs_ck1_signed rx1 (pr_status p) (m_len m) f (st_signature_wait (pr_status p)) (Z.shiftr (m_checksum m) 8)
      ltac:(by rewrite Esf) ltac:(by rewrite Ecs) p1 Hp1) as (p2 & E2 & Hp2).
    fold rx2 in Hp2. rewrite E2. cbn [mbind option_bind].
    assert (Ev : (m_magic m =? MAVLINK_STX_MAVLINK1) || (Z.land (m_incompat_flags m) MAVLINK_IFLAG_SIGNED =? 0) = false).
    { unfold signed_frame in Es. apply negb_true_iff in Es. rewrite Es, orb_false_r. apply Z.eqb_neq.
      destruct (wm_version m e Hm) as [(Em & _)|(_ & _ & Ei & _)]; [by rewrite Em|by rewrite Ei in Es]. }
    rewrite Ev. pose proof (wm_signature m e Hm) as Hms. rewrite firstn_all2 by lia.
    destruct (run_signature_block rx2 (pr_status p) (m_len m) f (m_signature m)) with (p := p2) as (p3 & E3 & Erx & Eret).
    + cbn. by rewrite Esig.
    + done.
    + rewrite <- Hacc. do 2 f_equal. apply signature_check_ext; try done; try apply Hsame.
      unfold header_bytes. destruct Hsame as (A1 & A2 & A3 & A4 & A5 & A6 & A7 & A8 & _). cbn.
      by rewrite A1, A2, A3, A4, A5, A6, A7, A8.
    + exact Hp2.
    + exists p3. split_and!; [done|done|]. rewrite Erx. exact Hsame.
  - destruct (run_ck1_unsigned rx1 (pr_status p) (m_len m) f (st_signature_wait (pr_status p)) (Z.shiftr (m_checksum m) 8)
      ltac:(by rewrite Esf) Hacc ltac:(by rewrite Ecs) p1 Hp1) as (p2 & E2 & Erx & Eret).
    rewrite E2. cbn [mbind option_bind]. unfold signed_frame in Es. apply negb_false_iff in Es.
    rewrite Es, orb_true_r. exists p2. split_and!; [done|done|]. rewrite Erx. exact Hsame.
Qed.
(** ** The finalised message is ready for the wire *)

Lemma finalize_checksum msg sysid compid tx min_length length crc_extra :
  List.length (m_payload msg) = payload_capacity → lengths_ok min_length length →
  let msg' := (mavlink_finalize_message_buffer msg sysid compid tx min_length length crc_extra).1.2 in
  m_checksum msg' = frame_checksum (wire_header msg') (wire_payload msg') crc_extra.
Proof.
  intros Hcap Hl. pose proof (wire_len_range tx msg _ _ Hl) as Hw. unfold lengths_ok in Hl.
  unfold mavlink_finalize_message_buffer. cbv zeta.
  change (if out_mavlink1 tx then min_length else _) with (wire_len tx msg min_length length).
  set (len := wire_len tx msg min_length length) in *. set (signing := negb _ && _).
  destruct (if signing then mavlink_sign_packet _ _ _ _ _ else _) as [[sl sg] sgn].
  unfold wire_payload, wire_header.
  cbn [fst snd m_checksum m_len m_payload m_magic m_incompat_flags m_compat_flags m_seq m_sysid m_compid m_msgid].
  rewrite take_memcpy_at by (rewrite ?Hcap; unfold payload_capacity; simpl; lia).
  by destruct (out_mavlink1 tx).
Qed.

Lemma finalize_bytes_ok msg sysid compid tx min_length length crc_extra :
  bytes_ok (m_payload msg) →
  bytes_ok (m_payload (mavlink_finalize_message_buffer msg sysid compid tx min_length length crc_extra).1.2).
Proof.
  intros Hb. unfold mavlink_finalize_message_buffer. cbv zeta. set (signing := negb _ && _).
  destruct (if signing then mavlink_sign_packet _ _ _ _ _ else _) as [[sl sg] sgn].
  apply memcpy_at_ok; [done|]. repeat constructor; apply wrapu_in_u; lia.
Qed.

Lemma finalize_unsigned msg sysid compid tx min_length length crc_extra :
  negb (out_mavlink1 tx) && signs_outgoing (st_signing tx) = false →
  m_signature (mavlink_finalize_message_buffer msg sysid compid tx min_length length crc_extra).1.2 =
  m_signature msg.
Proof.
  intros E. unfold mavlink_finalize_message_buffer. cbv zeta.
  change (st_signing (set_st_current_tx_seq ?a tx)) with (st_signing tx). by rewrite E.
Qed.

Lemma finalize_wire_message msg sysid compid tx min_length length e :
  msg_ok msg → lengths_ok min_length length →
  mavlink_get_msg_entry (m_msgid msg) = Some e → (out_mavlink1 tx = true → m_msgid msg ≤ 255) →
  wire_message
    (mavlink_finalize_message_buffer msg sysid compid tx min_length length (e_crc_extra e)).1.2 e.
Proof.
  intros Hm Hl He H1. pose proof (wire_len_range tx msg _ _ Hl) as Hw.
  destruct Hm as (_ & _ & _ & _ & _ & _ & _ & _ & Hid & Hcap & Hb & _ & _ & Hsl & _).
  pose proof (finalize_fields msg sysid compid tx min_length length (e_crc_extra e)) as Hf.
  pose proof (finalize_checksum msg sysid compid tx min_length length (e_crc_extra e) Hcap Hl) as Hcs.
  pose proof (finalize_bytes_ok msg sysid compid tx min_length length (e_crc_extra e) Hb) as Hb'.
  pose proof (finalize_signature_length msg sysid compid tx min_length length (e_crc_extra e)) as Hsig.
  pose proof (finalize_unsigned msg sysid compid tx min_length length (e_crc_extra e)) as Huns.
  destruct (mavlink_finalize_message_buffer _ _ _ _ _ _ _) as [[n msg'] tx']. cbn [fst snd] in *.
  destruct Hf as (Emag & Elen & Einc & Ecom & _ & _ & _ & Eid & Epay & _). unfold lengths_ok in Hl.
  split; try done.
  - rewrite Elen. unfold in_u. lia.
  - rewrite Emag, Einc, Ecom, Eid. destruct (out_mavlink1 tx).
    + right. specialize (H1 eq_refl). unfold in_u in *. split_and!; try done; lia.
    + left. split_and!; [done|done|]. by destruct (signs_outgoing _).
  - rewrite Epay, length_memcpy_at; [done|]. rewrite Hcap, checksum_bytes_length. unfold payload_capacity. lia.
  - destruct (negb (out_mavlink1 tx) && signs_outgoing (st_signing tx)); [by apply Hsig|by rewrite Huns].
  - by rewrite Eid.
Qed.

Lemma finalize_send_bytes msg sysid compid tx min_length length crc_extra :
  List.length (m_payload msg) = payload_capacity → lengths_ok min_length length →
  let msg' := (mavlink_finalize_message_buffer msg sysid compid tx min_length length crc_extra).1.2 in
  (mavlink_msg_to_send_buffer msg').1 = mavlink_resend_uart msg'.
Proof.
  intros Hcap Hl. pose proof (wire_len_range tx msg _ _ Hl) as Hw.
  pose proof (finalize_fields msg sysid compid tx min_length length crc_extra) as Hf.
  destruct (mavlink_finalize_message_buffer _ _ _ _ _ _ _) as [[n msg'] tx']. cbn [fst snd] in *.
  destruct Hf as (Emag & Elen & _ & _ & _ & _ & _ & _ & Epay & _). unfold lengths_ok in Hl.
  unfold mavlink_msg_to_send_buffer, mavlink_resend_uart. rewrite Emag.
  destruct (out_mavlink1 tx) eqn:E1; [rewrite Z.eqb_refl; cbn [fst Z.eqb]; by rewrite app_nil_r|].
  change (MAVLINK_STX =? MAVLINK_STX_MAVLINK1) with false. cbv beta iota zeta.
  assert (Et : mav_trim_payload (m_payload msg') (Z.to_nat (m_len msg')) = Z.to_nat (m_len msg')).
  { rewrite Epay, Elen, trim_memcpy.
    - unfold wire_len. rewrite E1, Nat2Z.id. apply trim_idem.
    - rewrite Hcap, checksum_bytes_length. unfold payload_capacity. lia. }
  rewrite Et, Z2Nat.id by lia. by destruct (Z.land _ _ =? 0).
Qed.
(** ** The end-to-end round trip *)

Lemma le_bytes_msgid x : in_u 24 x → le_bytes 3 x = msgid_bytes x.
Proof.
  intros _. unfold msgid_bytes. rewrite !land_255, shiftr_8, shiftr_16. done.
Qed.

(** Whether the receiver's channel takes what the sender's channel sends. *)
Definition trusts (tx rx : mavlink_status_t) (msg : mavlink_message_t) : Prop :=
  if negb (out_mavlink1 tx) && signs_outgoing (st_signing tx)
  then st_signing rx = None ∨
       ∃ s r st, st_signing tx = Some s ∧ st_signing rx = Some r ∧ st_signing_streams rx = Some st ∧
         sg_secret_key r = sg_secret_key s ∧ in_u 48 (sg_timestamp s) ∧
         fresh r st msg (sg_link_id s) (sg_timestamp s)
  else st_signing rx = None.

Lemma fresh_ext r st m m' l t :
  m_sysid m = m_sysid m' → m_compid m = m_compid m' → fresh r st m l t → fresh r st m' l t.
Proof.
  intros Ey Eo. assert (Ef : ∀ x i n, find_stream m l x i n = find_stream m' l x i n).
  { intros x i n. revert x i. induction n as [|n IH]; intros [|y x] i; simpl; try done.
    unfold stream_matches at 1. rewrite Ey, Eo. fold (stream_matches m' l y). by rewrite IH. }
  unfold fresh. by rewrite Ef.
Qed.

(** The signature block finalising writes. *)
Lemma finalize_signature_field msg sysid compid tx min_length length crc_extra :
  negb (out_mavlink1 tx) && signs_outgoing (st_signing tx) = true →
  let len := wire_len tx msg min_length length in
  let buf := header2 MAVLINK_STX len MAVLINK_IFLAG_SIGNED 0 (st_current_tx_seq tx) sysid compid (m_msgid msg) in
  let body := take (Z.to_nat len) (m_payload msg) in
  m_signature (mavlink_finalize_message_buffer msg sysid compid tx min_length length crc_extra).1.2 =
  (mavlink_sign_packet (st_signing tx) (m_signature msg) buf body
     (checksum_bytes (frame_checksum buf body crc_extra))).1.2.
Proof.
  intros Hs. unfold mavlink_finalize_message_buffer, wire_len. cbv zeta.
  change (st_signing (set_st_current_tx_seq ?a tx)) with (st_signing tx). rewrite Hs.
  apply andb_true_iff in Hs as [E1 _]. apply negb_true_iff in E1. rewrite E1. cbv iota.
  match goal with |- context [mavlink_sign_packet ?a ?b ?c ?d ?e] =>
    generalize (mavlink_sign_packet a b c d e) end.
  by intros [[sl sg] sgn].
Qed.

(** The same block, as the receiver recomputes it. *)
Lemma finalize_signature msg sysid compid tx min_length length crc_extra s :
  List.length (m_payload msg) = payload_capacity → lengths_ok min_length length → in_u 24 (m_msgid msg) →
  negb (out_mavlink1 tx) && signs_outgoing (st_signing tx) = true → st_signing tx = Some s →
  let msg' := (mavlink_finalize_message_buffer msg sysid compid tx min_length length crc_extra).1.2 in
  m_signature msg' =
    (mavlink_sign_packet (Some s) (m_signature msg) (header_bytes msg') (wire_payload msg')
       (checksum_bytes (m_checksum msg'))).1.2.
Proof.
  intros Hcap Hl Hid Hs Es. pose proof (wire_len_range tx msg _ _ Hl) as Hw.
  pose proof (finalize_signature_field msg sysid compid tx min_length length crc_extra Hs) as Hsig.
  pose proof (finalize_fields msg sysid compid tx min_length length crc_extra) as Hf.
  pose proof (finalize_checksum msg sysid compid tx min_length length crc_extra Hcap Hl) as Hcs.
  destruct (mavlink_finalize_message_buffer _ _ _ _ _ _ _) as [[n msg'] tx']. cbn [fst snd] in *.
  destruct Hf as (Emag & Elen & Einc & Ecom & Eseq & Esys & Ecomp & Eid & Epay & _). unfold lengths_ok in Hl.
  rewrite Hs in Einc. apply andb_true_iff in Hs as [E1 _]. apply negb_true_iff in E1. rewrite E1 in Emag.
  assert (Ewp : wire_payload msg' = take (Z.to_nat (wire_len tx msg min_length length)) (m_payload msg)).
  { unfold wire_payload. rewrite Epay, Elen, take_memcpy_at; [done| |done].
    rewrite Hcap, checksum_bytes_length. unfold payload_capacity. lia. }
  assert (Eh : header_bytes msg' = header2 MAVLINK_STX (wire_len tx msg min_length length) MAVLINK_IFLAG_SIGNED 0
                  (st_current_tx_seq tx) sysid compid (m_msgid msg)).
  { unfold header_bytes, header2. rewrite le_bytes_msgid by (by rewrite Eid). congruence. }
  assert (Ewh : wire_header msg' = header_bytes msg').
  { unfold wire_header, header_bytes, header2. rewrite Emag, le_bytes_msgid by (by rewrite Eid). done. }
  rewrite Hsig, Hcs, Ewh, Ewp, Eh, Es. reflexivity.
Qed.

(** The payload the receiver decodes: the sent bytes, the trimmed zeros put back. *)
Lemma payload_restored rx m p e n :
  same_message rx m e → wire_payload m = take (Z.to_nat (m_len m)) p →
  m_len m ≤ n ≤ e_max_msg_len e →
  (∀ k, m_len m ≤ Z.of_nat k < n → p !!! k = 0) → length p = payload_capacity →
  ∀ k, Z.of_nat k < n → m_payload rx !!! k = p !!! k.
Proof.
  intros (_ & El & _ & _ & _ & _ & _ & _ & _ & Ep & _ & Hz) Ewp Hn Hzero Hcap k Hk.
  destruct (decide (Z.of_nat k < m_len m)).
  - unfold wire_payload in Ep, Ewp. rewrite El, Ewp in Ep.
    rewrite !list_lookup_total_alt. f_equal.
    rewrite <- (lookup_take_lt (m_payload rx) (Z.to_nat (m_len m)) k), Ep by lia. by rewrite lookup_take_lt by lia.
  - rewrite Hz, Hzero by lia. done.
Qed.
Lemma finalize_accepted msg sysid compid tx rx min_length length crc_extra :
  List.length (m_payload msg) = payload_capacity → lengths_ok min_length length → in_u 24 (m_msgid msg) →
  trusts tx rx (set_m_sysid sysid (set_m_compid compid msg)) →
  accepts rx (mavlink_finalize_message_buffer msg sysid compid tx min_length length crc_extra).1.2.
Proof.
  intros Hcap Hl Hid Htr.
  pose proof (finalize_signature msg sysid compid tx min_length length crc_extra) as Hsig.
  pose proof (finalize_fields msg sysid compid tx min_length length crc_extra) as Hf.
  destruct (mavlink_finalize_message_buffer _ _ _ _ _ _ _) as [[n msg'] tx']. cbn [fst snd] in *.
  destruct Hf as (_ & _ & Einc & _ & _ & Esys & Ecomp & _).
  unfold accepts, trusts, signed_frame in *. rewrite Einc.
  destruct (negb (out_mavlink1 tx) && signs_outgoing (st_signing tx)) eqn:Es; [|done].
  change (negb (Z.land MAVLINK_IFLAG_SIGNED MAVLINK_IFLAG_SIGNED =? 0)) with true. cbv iota.
  destruct Htr as [->|(s & r & st & Es' & Er & Est & Hk & Hts & Hfr)]; [done|].
  rewrite Er, Est. eapply (signed_packet_accepted s (m_signature msg)); [|done|done| |].
  - apply andb_true_iff in Es as [_ Es]. by rewrite <- Es'.
  - eapply fresh_ext; [| |exact Hfr]; done.
  - exact (Hsig s Hcap Hl Hid eq_refl Es').
Qed.

(** The received message, with its length and the size of its buffer. *)
Lemma roundtrip_frame msg sysid compid tx min_length length e p :
  msg_ok msg → lengths_ok min_length length → length ≤ e_max_msg_len e →
  mavlink_get_msg_entry (m_msgid msg) = Some e → (out_mavlink1 tx = true → m_msgid msg ≤ 255) →
  parser_ok (pr_rxmsg p) (pr_status p) → is_idle (st_parse_state (pr_status p)) = true →
  trusts tx (pr_status p) (set_m_sysid sysid (set_m_compid compid msg)) →
  let '(_, msg', _) :=
    mavlink_finalize_message_buffer msg sysid compid tx min_length length (e_crc_extra e) in
  ∃ p', frame_run accept_unsigned p (mavlink_msg_to_send_buffer msg').1 = Some p' ∧
    pr_return p' = FRAMING_OK ∧
    m_len (pr_rxmsg p') = wire_len tx msg min_length length ∧ List.length (m_payload (pr_rxmsg p')) = payload_capacity ∧
    m_msgid (pr_rxmsg p') = m_msgid msg ∧ m_sysid (pr_rxmsg p') = sysid ∧
    m_compid (pr_rxmsg p') = compid ∧ m_seq (pr_rxmsg p') = st_current_tx_seq tx ∧
    ∀ k, Z.of_nat k < (if out_mavlink1 tx then min_length else length) →
      m_payload (pr_rxmsg p') !!! k = m_payload msg !!! k.
Proof.
  intros Hm Hl Hmax He H1 Hp Hidle Htr.
  assert (Hcap : List.length (m_payload msg) = payload_capacity) by (by destruct Hm as (?&?&?&?&?&?&?&?&?&?&?)).
  assert (Hid : in_u 24 (m_msgid msg)) by (by destruct Hm as (?&?&?&?&?&?&?&?&?&?)).
  pose proof (wire_len_range tx msg _ _ Hl) as Hw.
  pose proof (finalize_wire_message msg sysid compid tx min_length length e Hm Hl He H1) as Hwm.
  pose proof (finalize_send_bytes msg sysid compid tx min_length length (e_crc_extra e) Hcap Hl) as Hsend.
  pose proof (finalize_accepted msg sysid compid tx (pr_status p) min_length length (e_crc_extra e) Hcap Hl Hid Htr) as Hacc.
  pose proof (finalize_fields msg sysid compid tx min_length length (e_crc_extra e)) as Hf.
  destruct (mavlink_finalize_message_buffer _ _ _ _ _ _ _) as [[n msg'] tx']. cbn [fst snd] in *.
  destruct Hf as (_ & Elen & _ & _ & Eseq & Esys & Ecomp & Eid & Epay & _).
  rewrite Hsend. destruct (complete_run p msg' e Hp Hidle Hwm Hacc) as (p' & Erun & Eret & Hsame).
  exists p'. pose proof Hsame as (_ & Slen & _ & _ & Sseq & Ssys & Scomp & Sid & _ & _ & Scap & _).
  split_and!; [done|done|congruence|done|congruence|congruence|congruence|congruence|].
  unfold lengths_ok in Hl. eapply (payload_restored _ msg' _ e); [done| | | |done].
  - unfold wire_payload. rewrite Epay, Elen, take_memcpy_at; [done| |done].
    rewrite Hcap, checksum_bytes_length. unfold payload_capacity. lia.
  - rewrite Elen. unfold wire_len in *. destruct (out_mavlink1 tx); lia.
  - rewrite Elen. unfold wire_len. intros k Hk. destruct (out_mavlink1 tx); [lia|].
    apply (trim_zero _ (Z.to_nat length)). lia.
Qed.

(** C6: A message that is finalised on one channel and sent byte by byte is received by
    the parser of another channel: the last byte reports MAVLINK_FRAMING_OK and the
    received message has the sender's id, system, component, sequence number and
    payload, in MAVLink 1 and 2, trimmed or not, unsigned or signed with a key the
    receiver trusts. *)
Theorem send_receive_roundtrip msg sysid compid tx min_length length e p :
  msg_ok msg → lengths_ok min_length length → length ≤ e_max_msg_len e →
  mavlink_get_msg_entry (m_msgid msg) = Some e → (out_mavlink1 tx = true → m_msgid msg ≤ 255) →
  parser_ok (pr_rxmsg p) (pr_status p) → is_idle (st_parse_state (pr_status p)) = true →
  trusts tx (pr_status p) (set_m_sysid sysid (set_m_compid compid msg)) →
  let '(_, msg', _) :=
    mavlink_finalize_message_buffer msg sysid compid tx min_length length (e_crc_extra e) in
  ∃ p', frame_run accept_unsigned p (mavlink_msg_to_send_buffer msg').1 = Some p' ∧
    pr_return p' = FRAMING_OK ∧
    m_msgid (pr_rxmsg p') = m_msgid msg ∧ m_sysid (pr_rxmsg p') = sysid ∧
    m_compid (pr_rxmsg p') = compid ∧ m_seq (pr_rxmsg p') = st_current_tx_seq tx ∧
    ∀ k, Z.of_nat k < (if out_mavlink1 tx then min_length else length) →
      m_payload (pr_rxmsg p') !!! k = m_payload msg !!! k.
Proof.
  intros Hm Hl Hmax He H1 Hp Hidle Htr.
  pose proof (roundtrip_frame msg sysid compid tx min_length length e p Hm Hl Hmax He H1 Hp Hidle Htr) as H.
  destruct (mavlink_finalize_message_buffer _ _ _ _ _ _ _) as [[n msg'] tx'].
  destruct H as (p' & ? & ? & _ & _ & ?). by exists p'.
Qed.
End Roundtrip.

(** ** Instance: a heartbeat between two zeroed channels *)

Lemma send_receive_roundtrip_witness :
  let '(_, msg', _) := mavlink_finalize_message_buffer sample_heartbeat 255 190 zero_status 9 9 50 in
  ∃ p', frame_run no_callback start_parse (mavlink_msg_to_send_buffer msg').1 = Some p' ∧
    pr_return p' = FRAMING_OK ∧
    m_msgid (pr_rxmsg p') = 0 ∧ m_sysid (pr_rxmsg p') = 255 ∧ m_compid (pr_rxmsg p') = 190 ∧
    m_seq (pr_rxmsg p') = 0 ∧
    ∀ k, Z.of_nat k < 9 → m_payload (pr_rxmsg p') !!! k = m_payload sample_heartbeat !!! k.
Proof.
  apply (send_receive_roundtrip no_callback sample_heartbeat 255 190 zero_status 9 9 (mk_entry 0 50 9 9 0 0 0) start_parse).
  - decide_now.
  - apply lengths_ok_9.
  - vm_compute. discriminate.
  - vm_compute. reflexivity.
  - discriminate.
  - apply zero_parser_ok.
  - reflexivity.
  - reflexivity.
Defined.
