(* ===== verification/MavFields.v ===== *)
(** * Message fields

    The field helpers of [protocol.h] and the shape of a generated message header
    [mavlink_msg_*.h]. A header declares a structure, the description
    [MAVLINK_MESSAGE_INFO_*], packing functions with two bodies (writes into a byte
    buffer, or assignments to the structure, which is copied), getters and a decoder
    with two bodies. [mav_message] holds these parts as the header lists them, and
    the functions below are the bodies, for a little-endian machine.

    A value of a field is an integer; a [float] or [double] is its bit pattern and a
    [char] its byte. Fields and arguments are lists of values: a scalar is a list of
    one. A null array argument is [None]. *)
From stdpp Require Import strings.
From S2P Require Import Prelude MavTypes MavChecksum MavMessageTable MavFinalize.

#[local] Open Scope Z_scope.

(** ** Types and descriptions ([mavlink_types.h]) *)

Inductive mavlink_message_type_t :=
  | MAVLINK_TYPE_CHAR | MAVLINK_TYPE_UINT8_T | MAVLINK_TYPE_INT8_T | MAVLINK_TYPE_UINT16_T | MAVLINK_TYPE_INT16_T
  | MAVLINK_TYPE_UINT32_T | MAVLINK_TYPE_INT32_T | MAVLINK_TYPE_UINT64_T | MAVLINK_TYPE_INT64_T
  | MAVLINK_TYPE_FLOAT | MAVLINK_TYPE_DOUBLE.

(** The C types they stand for. *)
Abbreviation char_t := MAVLINK_TYPE_CHAR.
Abbreviation uint8_t := MAVLINK_TYPE_UINT8_T.
Abbreviation int8_t := MAVLINK_TYPE_INT8_T.
Abbreviation uint16_t := MAVLINK_TYPE_UINT16_T.
Abbreviation int16_t := MAVLINK_TYPE_INT16_T.
Abbreviation uint32_t := MAVLINK_TYPE_UINT32_T.
Abbreviation int32_t := MAVLINK_TYPE_INT32_T.
Abbreviation uint64_t := MAVLINK_TYPE_UINT64_T.
Abbreviation int64_t := MAVLINK_TYPE_INT64_T.
Abbreviation float_t := MAVLINK_TYPE_FLOAT.
Abbreviation double_t := MAVLINK_TYPE_DOUBLE.

#[global] Instance mavlink_message_type_eq_dec : EqDecision mavlink_message_type_t.
Proof. solve_decision. Defined.

Record mavlink_field_info_t := mk_field {
  fi_name : string; fi_type : mavlink_message_type_t; fi_array_length : nat; fi_wire_offset : nat }.

(** [sizeof] and signedness of a type. *)
Definition type_size (t : mavlink_message_type_t) : nat :=
  match t with
  | MAVLINK_TYPE_CHAR | MAVLINK_TYPE_UINT8_T | MAVLINK_TYPE_INT8_T => 1
  | MAVLINK_TYPE_UINT16_T | MAVLINK_TYPE_INT16_T => 2
  | MAVLINK_TYPE_UINT32_T | MAVLINK_TYPE_INT32_T | MAVLINK_TYPE_FLOAT => 4
  | MAVLINK_TYPE_UINT64_T | MAVLINK_TYPE_INT64_T | MAVLINK_TYPE_DOUBLE => 8
  end.

Definition type_signed (t : mavlink_message_type_t) : bool :=
  match t with
  | MAVLINK_TYPE_INT8_T | MAVLINK_TYPE_INT16_T | MAVLINK_TYPE_INT32_T | MAVLINK_TYPE_INT64_T => true
  | _ => false
  end.

(** The bytes of a value in memory, and the value of such bytes. *)
Definition value_bytes (t : mavlink_message_type_t) (v : Z) : list Z := le_bytes (type_size t) v.
Definition bytes_value (t : mavlink_message_type_t) (bs : list Z) : Z :=
  let v := le_val bs in if type_signed t then wraps (8 * Z.of_nat (type_size t)) v else v.

Definition array_bytes (t : mavlink_message_type_t) (vs : list Z) : list Z := concat (map (value_bytes t) vs).
Fixpoint bytes_array (t : mavlink_message_type_t) (n : nat) (bs : list Z) : list Z :=
  match n with
  | O => []
  | S n => bytes_value t (take (type_size t) bs) :: bytes_array t n (drop (type_size t) bs)
  end.

(** ** The field helpers ([protocol.h]) *)

(** [_mav_put_<type>(buf, wire_offset, b)]; [None] outside the buffer. *)
Definition mav_put (t : mavlink_message_type_t) (buf : list Z) (wire_offset : nat) (b : Z) : option (list Z) :=
  store buf wire_offset (value_bytes t b).

(** [mav_array_memcpy(dest, src, n)] into a buffer; [None] also for a source that is
    shorter than [n]. *)
Definition mav_array_memcpy (buf : list Z) (dest : nat) (src : option (list Z)) (n : nat) : option (list Z) :=
  match src with
  | None => store buf dest (replicate n 0)
  | Some bs => if bool_decide (length bs < n)%nat then None else store buf dest (take n bs)
  end.

(** [_mav_put_<type>_array(buf, wire_offset, b, array_length)]. *)
Definition mav_put_array (t : mavlink_message_type_t) (buf : list Z) (wire_offset : nat) (b : option (list Z))
    (array_length : nat) : option (list Z) :=
  mav_array_memcpy buf wire_offset (array_bytes t <$> b) (array_length * type_size t).

(** [_MAV_RETURN_<type>(msg, wire_offset)]. *)
Definition MAV_RETURN (t : mavlink_message_type_t) (payload : list Z) (wire_offset : nat) : option Z :=
  if bool_decide (wire_offset + type_size t ≤ length payload)%nat
  then Some (bytes_value t (take (type_size t) (drop wire_offset payload))) else None.

(** [_MAV_RETURN_<type>_array(msg, value, array_length, wire_offset)]. *)
Definition MAV_RETURN_array (t : mavlink_message_type_t) (payload : list Z) (array_length wire_offset : nat) : option (list Z) :=
  if bool_decide (wire_offset + array_length * type_size t ≤ length payload)%nat
  then Some (bytes_array t array_length (drop wire_offset payload)) else None.

(** ** A message header *)

Record struct_member := mk_member { sm_type : mavlink_message_type_t; sm_name : string; sm_len : nat }.

(** The statements of the packing functions. *)
Inductive put_stmt :=
  | put (t : mavlink_message_type_t) (wire_offset : nat) (arg : string)
  | put_const (t : mavlink_message_type_t) (wire_offset : nat) (value : Z)
  | put_array (t : mavlink_message_type_t) (wire_offset : nat) (arg : string) (array_length : nat).

Inductive assign_stmt :=
  | assign (member arg : string)
  | assign_const (member : string) (value : Z)
  | copy_array (member arg : string) (t : mavlink_message_type_t) (array_length : nat).

(** [msg_packed]: the structure is declared with [MAVPACKED]. *)
Record mav_message := mk_message {
  msg_id : Z; msg_name : string; msg_min_len : nat; msg_len : nat; msg_crc : Z; msg_packed : bool;
  msg_members : list struct_member; msg_fields : list mavlink_field_info_t;
  msg_puts : list put_stmt; msg_assigns : list assign_stmt }.

(** A getter: the field, its type, its array length or zero, its wire offset. *)
Record getter := mk_getter { get_name : string; get_type : mavlink_message_type_t; get_len : nat; get_offset : nat }.

Abbreviation mav_args := (string → option (list Z)).

(** A scalar argument. *)
Definition scalar_arg (args : mav_args) (name : string) : option Z :=
  match args name with Some [v] => Some v | _ => None end.

(** ** Packing, with a byte buffer *)

Definition run_put (args : mav_args) (buf : list Z) (p : put_stmt) : option (list Z) :=
  match p with
  | put t off arg => v ← scalar_arg args arg; mav_put t buf off v
  | put_const t off v => mav_put t buf off v
  | put_array t off arg n => mav_put_array t buf off (args arg) n
  end.

Fixpoint run_puts (args : mav_args) (buf : list Z) (ps : list put_stmt) : option (list Z) :=
  match ps with
  | [] => Some buf
  | p :: ps => buf ← run_put args buf p; run_puts args buf ps
  end.

(** ** The structure *)

Definition member_size (m : struct_member) : nat := Nat.max 1 (sm_len m) * type_size (sm_type m).

(** The offset of a member after [off] bytes: packed, or aligned to its type. *)
Definition align (packed : bool) (t : mavlink_message_type_t) (off : nat) : nat :=
  if packed then off else (off + (type_size t - 1)) / type_size t * type_size t.

Fixpoint struct_layout (packed : bool) (off : nat) (ms : list struct_member) : list (struct_member * nat) :=
  match ms with
  | [] => []
  | m :: ms => let o := align packed (sm_type m) off in (m, o) :: struct_layout packed (o + member_size m) ms
  end.

(** [sizeof] the structure. *)
Definition struct_alignment (packed : bool) (ms : list struct_member) : nat :=
  if packed then 1 else foldr Nat.max 1%nat (map (λ m, type_size (sm_type m)) ms).
Definition struct_size (packed : bool) (ms : list struct_member) : nat :=
  let a := struct_alignment packed ms in
  let e := foldr Nat.max 0%nat (map (λ mo, (mo.2 + member_size mo.1)%nat) (struct_layout packed 0 ms)) in
  ((e + (a - 1)) / a * a)%nat.

Definition member_at (m : mav_message) (name : string) : option (struct_member * nat) :=
  list_find (λ mo, sm_name mo.1 = name) (struct_layout (msg_packed m) 0 (msg_members m)) ≫= λ r, Some r.2.

(** ** Packing, with the structure *)

Definition run_assign (m : mav_message) (args : mav_args) (packet : list Z) (a : assign_stmt) : option (list Z) :=
  match a with
  | assign member arg =>
      mo ← member_at m member; v ← scalar_arg args arg; mav_put (sm_type mo.1) packet mo.2 v
  | assign_const member v =>
      mo ← member_at m member; mav_put (sm_type mo.1) packet mo.2 v
  | copy_array member arg t n =>
      mo ← member_at m member; mav_array_memcpy packet mo.2 (array_bytes (sm_type mo.1) <$> args arg) (n * type_size t)
  end.

Fixpoint run_assigns (m : mav_message) (args : mav_args) (packet : list Z) (l : list assign_stmt) : option (list Z) :=
  match l with
  | [] => Some packet
  | a :: l => packet ← run_assign m args packet a; run_assigns m args packet l
  end.

(** The payload that a packing function copies into the message: [MAVLINK_ALIGNED_FIELDS]
    chooses the body. [stack] is what the local variable held before. *)
Definition pack_payload (aligned : bool) (m : mav_message) (args : mav_args) (stack : list Z) : option (list Z) :=
  if aligned then packet ← run_assigns m args stack (msg_assigns m); Some (take (msg_len m) packet)
  else run_puts args stack (msg_puts m).

Definition stack_size (aligned : bool) (m : mav_message) : nat :=
  if aligned then struct_size (msg_packed m) (msg_members m) else msg_len m.

(** [mavlink_msg_*_pack_status], [_pack_chan] and [_pack]. *)
Definition fill_message (aligned : bool) (m : mav_message) (args : mav_args) (stack : list Z) (msg : mavlink_message_t)
    : option mavlink_message_t :=
  buf ← pack_payload aligned m args stack;
  payload ← store (m_payload msg) 0 buf;
  Some (set_m_msgid (msg_id m) (set_m_payload payload msg)).

Definition msg_pack_status (aligned : bool) (m : mav_message) (args : mav_args) (stack : list Z)
    (system_id component_id : Z) (status : mavlink_status_t) (msg : mavlink_message_t)
    : option (Z * mavlink_message_t * mavlink_status_t) :=
  msg ← fill_message aligned m args stack msg;
  Some (mavlink_finalize_message_buffer msg system_id component_id status
          (Z.of_nat (msg_min_len m)) (Z.of_nat (msg_len m)) (msg_crc m)).

Definition msg_pack_chan (aligned : bool) (m : mav_message) (args : mav_args) (stack : list Z)
    (system_id component_id : Z) (chan : nat) (ch : channels) (msg : mavlink_message_t)
    : option (Z * mavlink_message_t * channels) :=
  msg ← fill_message aligned m args stack msg;
  mavlink_finalize_message_chan ch msg system_id component_id chan
    (Z.of_nat (msg_min_len m)) (Z.of_nat (msg_len m)) (msg_crc m).

Definition msg_pack (aligned : bool) (m : mav_message) (args : mav_args) (stack : list Z)
    (system_id component_id : Z) (ch : channels) (msg : mavlink_message_t)
    : option (Z * mavlink_message_t * channels) :=
  msg ← fill_message aligned m args stack msg;
  mavlink_finalize_message ch msg system_id component_id
    (Z.of_nat (msg_min_len m)) (Z.of_nat (msg_len m)) (msg_crc m).

(** *** Encoding a structure

    A structure is the list of its members with their values; [mavlink_msg_*_encode],
    [_encode_chan] and [_encode_status] pass the members to the packing function. *)
Definition struct_args (packet : list (string * list Z)) : mav_args :=
  λ name, list_find (λ f, f.1 = name) packet ≫= λ r, Some r.2.2.

Definition msg_encode_status (aligned : bool) (m : mav_message) (packet : list (string * list Z)) (stack : list Z)
    (system_id component_id : Z) (status : mavlink_status_t) (msg : mavlink_message_t) :=
  msg_pack_status aligned m (struct_args packet) stack system_id component_id status msg.
Definition msg_encode_chan (aligned : bool) (m : mav_message) (packet : list (string * list Z)) (stack : list Z)
    (system_id component_id : Z) (chan : nat) (ch : channels) (msg : mavlink_message_t) :=
  msg_pack_chan aligned m (struct_args packet) stack system_id component_id chan ch msg.
Definition msg_encode (aligned : bool) (m : mav_message) (packet : list (string * list Z)) (stack : list Z)
    (system_id component_id : Z) (ch : channels) (msg : mavlink_message_t) :=
  msg_pack aligned m (struct_args packet) stack system_id component_id ch msg.

(** *** Sending

    [mavlink_msg_*_send] fills a buffer or a structure and streams it;
    [mavlink_msg_*_send_buf] does it in the memory of [msgbuf], here [stack]. *)
Definition send_packet (aligned : bool) (m : mav_message) (args : mav_args) (stack : list Z) : option (list Z) :=
  if aligned then run_assigns m args stack (msg_assigns m) else run_puts args stack (msg_puts m).

Definition stream_packet (m : mav_message) (mavlink_system : Z * Z) (status : mavlink_status_t) (packet : list Z)
    : list Z * mavlink_status_t :=
  mav_finalize_message_chan_send mavlink_system status (msg_id m) packet
    (Z.of_nat (msg_min_len m)) (Z.of_nat (msg_len m)) (msg_crc m).

Definition msg_send (aligned : bool) (m : mav_message) (args : mav_args) (stack : list Z)
    (mavlink_system : Z * Z) (status : mavlink_status_t) : option (list Z * mavlink_status_t) :=
  packet ← send_packet aligned m args stack;
  Some (stream_packet m mavlink_system status packet).

(** [mavlink_msg_*_send_struct]: with aligned fields the memory of the structure is
    sent as it is. *)
Definition msg_send_struct (aligned : bool) (m : mav_message) (packet : list (string * list Z)) (memory stack : list Z)
    (mavlink_system : Z * Z) (status : mavlink_status_t) : option (list Z * mavlink_status_t) :=
  if aligned then Some (stream_packet m mavlink_system status memory)
  else msg_send false m (struct_args packet) stack mavlink_system status.

(** ** Unpacking *)

Definition run_getter (g : getter) (payload : list Z) : option (list Z) :=
  match get_len g with
  | O => v ← MAV_RETURN (get_type g) payload (get_offset g); Some [v]
  | n => MAV_RETURN_array (get_type g) payload n (get_offset g)
  end.

(** A member of the structure in memory. *)
Definition read_member (packet : list Z) (mo : struct_member * nat) : option (list Z) :=
  run_getter (mk_getter (sm_name mo.1) (sm_type mo.1) (sm_len mo.1) mo.2) packet.

(** [mavlink_msg_*_decode]: the members in the order of the structure. *)
Definition decode_getters (m : mav_message) (gets : list getter) (msg : mavlink_message_t) : option (list (string * list Z)) :=
  mapM (λ sm, g ← list_find (λ g, get_name g = sm_name sm) gets;
              v ← run_getter g.2 (m_payload msg); Some (sm_name sm, v)) (msg_members m).

Definition decode_struct (m : mav_message) (stack : list Z) (msg : mavlink_message_t) : option (list (string * list Z)) :=
  let len := if m_len msg <? Z.of_nat (msg_len m) then Z.to_nat (m_len msg) else msg_len m in
  packet ← store stack 0 (replicate (msg_len m) 0);
  packet ← (if bool_decide (len ≤ length (m_payload msg))%nat then store packet 0 (take len (m_payload msg)) else None);
  mapM (λ mo, v ← read_member packet mo; Some (sm_name mo.1, v)) (struct_layout (msg_packed m) 0 (msg_members m)).

Definition msg_decode (aligned : bool) (m : mav_message) (gets : list getter) (stack : list Z) (msg : mavlink_message_t)
    : option (list (string * list Z)) :=
  if aligned then decode_struct m stack msg else decode_getters m gets msg.

(** [structure_offset] of a field description: [offsetof] the member it names. *)
Definition structure_offset (m : mav_message) (f : mavlink_field_info_t) : option nat := snd <$> member_at m (fi_name f).
