(* ===== verification/MavMessageLayout.v ===== *)
(** * The layout of the messages

    What makes a message header consistent ([wf_message]), and what follows from it
    for every such header: both bodies of its packing functions write the same wire
    image, whatever the stack held, and both bodies of its decoder read back what was
    packed. *)
From stdpp Require Import strings.
From S2P Require Import Prelude MavTypes MavChecksum MavMessageTable MavFinalize MavFields.

#[local] Open Scope Z_scope.

(** ** The check *)

Abbreviation placed := (struct_member * nat)%type.

Definition message_layout (m : mav_message) : list placed := struct_layout (msg_packed m) 0 (msg_members m).

(** The members follow each other without a gap. *)
Fixpoint contiguous (off : nat) (l : list placed) : option nat :=
  match l with
  | [] => Some off
  | mo :: l => if Nat.eqb mo.2 off then contiguous (off + member_size mo.1) l else None
  end.

(** A member that the packing functions set to a constant. *)
Definition const_of (m : mav_message) (name : string) : option Z :=
  foldr (λ a r, match a with assign_const n v => if String.eqb n name then Some v else r | _ => r end) None (msg_assigns m).

Definition put_matches (m : mav_message) (mo : placed) (p : put_stmt) : bool :=
  let sm := mo.1 in
  match p with
  | put t off arg => bool_decide (t = sm_type sm) && Nat.eqb off mo.2 && Nat.eqb (sm_len sm) 0 && String.eqb arg (sm_name sm)
                     && bool_decide (const_of m (sm_name sm) = None)
  | put_const t off v => bool_decide (t = sm_type sm) && Nat.eqb off mo.2 && Nat.eqb (sm_len sm) 0
                         && bool_decide (const_of m (sm_name sm) = Some v)
  | put_array t off arg n => bool_decide (t = sm_type sm) && Nat.eqb off mo.2 && negb (Nat.eqb n 0) && Nat.eqb (sm_len sm) n
                             && String.eqb arg (sm_name sm) && bool_decide (const_of m (sm_name sm) = None)
  end.

(** The bytes that a statement writes: where, and how many. *)
Definition put_range (p : put_stmt) : nat * nat :=
  match p with
  | put t off _ | put_const t off _ => (off, type_size t)
  | put_array t off _ n => (off, n * type_size t)%nat
  end.

Definition disjoint (a b : nat * nat) : bool := Nat.leb (a.1 + a.2) b.1 || Nat.leb (b.1 + b.2) a.1.
Fixpoint all_disjoint (l : list (nat * nat)) : bool :=
  match l with
  | [] => true
  | a :: l => forallb (disjoint a) l && all_disjoint l
  end.

Definition check_puts (m : mav_message) (ps : list put_stmt) : bool :=
  forallb (λ p, existsb (λ mo, put_matches m mo p) (message_layout m)) ps
  && forallb (λ mo, existsb (put_matches m mo) ps) (message_layout m)
  && all_disjoint (map put_range ps).

(** An assignment to the structure writes its memory. *)
Definition assign_put (m : mav_message) (a : assign_stmt) : option put_stmt :=
  match a with
  | assign member arg => mo ← member_at m member; Some (put (sm_type mo.1) mo.2 arg)
  | assign_const member v => mo ← member_at m member; Some (put_const (sm_type mo.1) mo.2 v)
  | copy_array member arg t n =>
      mo ← member_at m member; if bool_decide (t = sm_type mo.1) then Some (put_array t mo.2 arg n) else None
  end.

Definition check_getters (m : mav_message) (gets : list getter) : bool :=
  forallb (λ mo, match list_find (λ g, get_name g = sm_name mo.1) gets with
                 | Some (_, g) => bool_decide (get_type g = sm_type mo.1) && Nat.eqb (get_len g) (sm_len mo.1) && Nat.eqb (get_offset g) mo.2
                 | None => false
                 end) (message_layout m).

Definition check_fields (m : mav_message) : bool :=
  forallb (λ f, match member_at m (fi_name f) with
                | Some mo => bool_decide (fi_type f = sm_type mo.1) && Nat.eqb (fi_array_length f) (sm_len mo.1)
                             && Nat.eqb (fi_wire_offset f) mo.2
                | None => false
                end) (msg_fields m)
  && Nat.eqb (length (msg_fields m)) (length (msg_members m)).

Definition wf_message (m : mav_message) (gets : list getter) : bool :=
  bool_decide (NoDup (map sm_name (msg_members m)))
  && bool_decide (contiguous 0 (message_layout m) = Some (msg_len m))
  && Nat.leb (msg_min_len m) (msg_len m) && Nat.leb (msg_len m) 255
  && Nat.leb (msg_len m) (struct_size (msg_packed m) (msg_members m))
  && check_puts m (msg_puts m)
  && match mapM (assign_put m) (msg_assigns m) with Some ps => check_puts m ps | None => false end
  && check_getters m gets && check_fields m
  && (0 <=? msg_id m) && (msg_id m <? 2 ^ 24).

(** ** Stores at disjoint places *)

Definition slice (off n : nat) (buf : list Z) : list Z := take n (drop off buf).

Fixpoint run_stores (buf : list Z) (ws : list (nat * list Z)) : option (list Z) :=
  match ws with
  | [] => Some buf
  | w :: ws => buf ← store buf w.1 w.2; run_stores buf ws
  end.

Definition range_of (w : nat * list Z) : nat * nat := (w.1, length w.2).

Lemma slice_memcpy_same buf off bs : (off + length bs ≤ length buf)%nat → slice off (length bs) (memcpy_at buf off bs) = bs.
Proof.
  intros H. unfold slice, memcpy_at. rewrite drop_app_length' by (rewrite length_take; lia). apply take_app_length.
Qed.

Lemma slice_memcpy_disjoint buf off bs o n :
  (off + length bs ≤ length buf)%nat → disjoint (o, n) (off, length bs) = true →
  slice o n (memcpy_at buf off bs) = slice o n buf.
Proof.
  intros H Hd. unfold disjoint in Hd. cbn in Hd. apply orb_true_iff in Hd as [Hd%Nat.leb_le|Hd%Nat.leb_le]; unfold slice.
  - rewrite !take_drop_commute, take_memcpy_at by lia. done.
  - by rewrite drop_memcpy_at by lia.
Qed.

Lemma run_stores_spec ws buf :
  Forall (λ w, (w.1 + length w.2 ≤ length buf)%nat) ws → all_disjoint (map range_of ws) = true →
  ∃ buf', run_stores buf ws = Some buf' ∧ length buf' = length buf ∧ Forall (λ w, slice w.1 (length w.2) buf' = w.2) ws ∧
    ∀ o n, forallb (disjoint (o, n)) (map range_of ws) = true → slice o n buf' = slice o n buf.
Proof.
  revert buf. induction ws as [|w ws IH]; intros buf Hr Hd; [by exists buf|].
  apply Forall_cons_1 in Hr as [Hw Hr]. cbn [map all_disjoint] in Hd. apply andb_true_iff in Hd as [Hd1 Hd].
  cbn [run_stores]. unfold store. rewrite bool_decide_true by done. cbn [mbind option_bind].
  assert (Hlen : length (memcpy_at buf w.1 w.2) = length buf) by by apply length_memcpy_at.
  destruct (IH (memcpy_at buf w.1 w.2)) as (buf'&E&El&Hs&Hk); [by rewrite Hlen|done|].
  exists buf'. split; [done|]. split; [by rewrite El|]. split.
  - constructor; [|done]. rewrite Hk by done. by apply slice_memcpy_same.
  - intros o n Hf. cbn [map forallb] in Hf. apply andb_true_iff in Hf as [Hf1 Hf]. rewrite Hk by done. by apply slice_memcpy_disjoint.
Qed.

(** ** What is sent *)

(** The values of a member in a packed message. *)
Definition sent (m : mav_message) (args : mav_args) (sm : struct_member) : list Z :=
  match const_of m (sm_name sm) with
  | Some v => [v]
  | None =>
      match sm_len sm with
      | O => default [] (args (sm_name sm))
      | n => match args (sm_name sm) with None => replicate n 0 | Some vs => take n vs end
      end
  end.

(** The arguments that a C caller can pass: a value for a scalar, null or an array
    of at least the declared length. *)
Definition arg_ok (m : mav_message) (args : mav_args) (sm : struct_member) : Prop :=
  const_of m (sm_name sm) = None →
  match sm_len sm with
  | O => ∃ v, args (sm_name sm) = Some [v]
  | n => ∀ vs, args (sm_name sm) = Some vs → (n ≤ length vs)%nat
  end.
Definition args_ok (m : mav_message) (args : mav_args) : Prop := Forall (arg_ok m args) (msg_members m).

Definition member_bytes (m : mav_message) (args : mav_args) (sm : struct_member) : list Z :=
  array_bytes (sm_type sm) (sent m args sm).

(** The wire image of a message. *)
Definition wire (m : mav_message) (args : mav_args) : list Z := concat (map (member_bytes m args) (msg_members m)).

Lemma length_value_bytes t v : length (value_bytes t v) = type_size t.
Proof. apply length_le_bytes. Qed.

Lemma length_array_bytes t vs : length (array_bytes t vs) = (length vs * type_size t)%nat.
Proof.
  unfold array_bytes. induction vs as [|v vs IH]; [done|]. cbn [map concat length]. rewrite length_app, length_value_bytes, IH. lia.
Qed.

Lemma array_bytes_take t n vs : take (n * type_size t) (array_bytes t vs) = array_bytes t (take n vs).
Proof.
  revert vs. induction n as [|n IH]; intros [|v vs]; try done; [unfold array_bytes; cbn; by rewrite ?take_nil|].
  unfold array_bytes in *. cbn [take map concat]. rewrite take_app_ge by (rewrite length_value_bytes; lia).
  f_equal. rewrite length_value_bytes. rewrite <- IH. f_equal. lia.
Qed.

Lemma array_bytes_zero t n : array_bytes t (replicate n 0) = replicate (n * type_size t) 0.
Proof.
  unfold array_bytes. induction n as [|n IH]; [done|]. cbn [replicate map concat]. rewrite IH.
  replace (value_bytes t 0) with (replicate (type_size t) 0) by by destruct t. rewrite <- replicate_add. f_equal.
Qed.

Lemma length_sent m args sm : arg_ok m args sm → (const_of m (sm_name sm) ≠ None → sm_len sm = 0%nat) →
  length (sent m args sm) = Nat.max 1 (sm_len sm).
Proof.
  unfold arg_ok, sent. intros Ha Hc. destruct (const_of _ _) as [v|]; [by rewrite Hc|].
  destruct (sm_len sm) as [|n]; [by destruct (Ha eq_refl) as [v ->]|]. destruct (args _) as [vs|]; [|by rewrite length_replicate].
  specialize (Ha eq_refl vs eq_refl). rewrite length_take. lia.
Qed.

(** The bytes of a statement. *)
Definition put_bytes (args : mav_args) (p : put_stmt) : list Z :=
  match p with
  | put t _ arg => array_bytes t (default [] (args arg))
  | put_const t _ v => array_bytes t [v]
  | put_array t _ arg n => array_bytes t (match args arg with None => replicate n 0 | Some vs => take n vs end)
  end.

Lemma put_matches_bytes m args mo p : put_matches m mo p = true → put_bytes args p = member_bytes m args mo.1.
Proof.
  destruct mo as [sm o]. unfold put_matches, member_bytes, sent, put_bytes. cbn [fst snd]. intros Hm. destruct p as [t off arg|t off v|t off arg n];
    rewrite ?andb_true_iff in Hm; destruct_and?; rewrite ?bool_decide_eq_true, ?Nat.eqb_eq, ?String.eqb_eq, ?negb_true_iff in *; subst;
    match goal with H : const_of _ _ = _ |- _ => rewrite H end; [by match goal with H : sm_len _ = _ |- _ => rewrite H end|done|].
  by destruct (sm_len sm).
Qed.

(** A statement that matches a member writes the member's bytes. *)
Lemma run_put_matches m args mo p buf : put_matches m mo p = true → arg_ok m args mo.1 →
  run_put args buf p = store buf mo.2 (member_bytes m args mo.1) ∧
  put_range p = (mo.2, length (member_bytes m args mo.1)) ∧ length (member_bytes m args mo.1) = member_size mo.1.
Proof.
  destruct mo as [sm o]. unfold put_matches, member_bytes, sent, arg_ok, member_size. cbn [fst snd]. intros Hm Ha. destruct p as [t off arg|t off v|t off arg n];
    rewrite ?andb_true_iff in Hm; destruct_and?; rewrite ?bool_decide_eq_true, ?Nat.eqb_eq, ?String.eqb_eq, ?negb_true_iff in *; subst.
  - match goal with H : const_of _ _ = None, L : sm_len sm = 0%nat |- _ => rewrite H, L in *; specialize (Ha eq_refl) end.
    destruct Ha as [v Ea]. cbn [run_put put_range]. unfold scalar_arg. rewrite Ea. cbn. unfold mav_put, array_bytes. cbn.
    by rewrite app_nil_r, length_value_bytes, Nat.add_0_r.
  - match goal with H : const_of _ _ = Some _, L : sm_len sm = 0%nat |- _ => rewrite H, L end. cbn. unfold mav_put, array_bytes. cbn.
    by rewrite app_nil_r, length_value_bytes, Nat.add_0_r.
  - match goal with H : const_of _ _ = None, L : Nat.eqb (sm_len sm) 0 = false |- _ => rewrite H in *; apply Nat.eqb_neq in L; specialize (Ha eq_refl) end.
    destruct (sm_len sm) as [|n] eqn:El; [done|]. cbn [run_put put_range]. unfold mav_put_array, mav_array_memcpy.
    destruct (args (sm_name sm)) as [vs|]; cbn [fmap option_fmap option_map].
    + specialize (Ha vs eq_refl). rewrite length_array_bytes, bool_decide_false by nia. rewrite array_bytes_take.
      rewrite length_array_bytes, length_take, Nat.min_l by lia. done.
    + rewrite array_bytes_zero, length_replicate. done.
Qed.

(** ** Packing *)

Lemma layout_members packed off ms : map fst (struct_layout packed off ms) = ms.
Proof. revert off. induction ms as [|m ms IH]; intros off; cbn; [done|]. by rewrite IH. Qed.

Lemma layout_member m mo : mo ∈ message_layout m → mo.1 ∈ msg_members m.
Proof. intros H. rewrite <- (layout_members (msg_packed m) 0 (msg_members m)). by apply (list_elem_of_fmap_2 fst). Qed.

Lemma existsb_elem {A} (f : A → bool) l : existsb f l = true ↔ ∃ x, x ∈ l ∧ f x = true.
Proof. rewrite existsb_exists. by setoid_rewrite list_elem_of_In. Qed.

Lemma forallb_elem {A} (f : A → bool) l : forallb f l = true ↔ ∀ x, x ∈ l → f x = true.
Proof. rewrite forallb_forall. by setoid_rewrite list_elem_of_In. Qed.

Lemma contiguous_bound off l e mo : contiguous off l = Some e → mo ∈ l → (off ≤ mo.2 ∧ mo.2 + member_size mo.1 ≤ e)%nat.
Proof.
  revert off. induction l as [|x l IH]; intros off; [by intros _ ?%not_elem_of_nil|]. cbn [contiguous].
  destruct (Nat.eqb x.2 off) eqn:E; [|done]. apply Nat.eqb_eq in E. intros Hc.
  assert (He : ∀ o l', contiguous o l' = Some e → (o ≤ e)%nat).
  { intros o l'. revert o. induction l' as [|y l' IH']; intros o; cbn; [intros [= ->]; lia|].
    destruct (Nat.eqb y.2 o); [|done]. intros ?%IH'. lia. }
  intros [->|Hin]%elem_of_cons; [split; [lia|]; apply He in Hc; lia|]. apply IH in Hc as [??]; [split; lia|done].
Qed.

Lemma slice_split off a b buf : slice off (a + b) buf = slice off a buf ++ slice (off + a) b buf.
Proof. unfold slice. rewrite <- (take_drop a (take (a + b) (drop off buf))). rewrite take_take, Nat.min_l by lia. f_equal.
  rewrite skipn_firstn_comm, drop_drop. f_equal. lia. Qed.

(** A buffer is its members one after the other. *)
Lemma contiguous_concat (f : struct_member → list Z) l off e buf :
  contiguous off l = Some e → (∀ mo, mo ∈ l → slice mo.2 (member_size mo.1) buf = f mo.1) →
  slice off (e - off) buf = concat (map f (map fst l)).
Proof.
  revert off. induction l as [|mo l IH]; intros off; cbn [contiguous map concat].
  { intros [= ->] _. by rewrite Nat.sub_diag. }
  destruct (Nat.eqb mo.2 off) eqn:E; [|done]. apply Nat.eqb_eq in E as <-. intros Hc Hs.
  assert ((mo.2 + member_size mo.1 ≤ e)%nat).
  { destruct l as [|y l]; [cbn in Hc; injection Hc as <-; lia|]. destruct (contiguous_bound _ _ _ y Hc ltac:(left)). lia. }
  replace (e - mo.2)%nat with (member_size mo.1 + (e - (mo.2 + member_size mo.1)))%nat by lia. rewrite slice_split. f_equal.
  - apply Hs. left.
  - apply IH; [done|]. intros mo' Hin. apply Hs. by right.
Qed.

Lemma Forall_elem {A} (P : A → Prop) l x : Forall P l → x ∈ l → P x.
Proof. intros H Hx. by eapply (proj1 (List.Forall_forall P l)), list_elem_of_In. Qed.

(** Where and what a matched statement writes. *)
Lemma put_write m args mo p : args_ok m args → contiguous 0 (message_layout m) = Some (msg_len m) →
  mo ∈ message_layout m → put_matches m mo p = true →
  (∀ buf, run_put args buf p = store buf mo.2 (put_bytes args p)) ∧ put_range p = (mo.2, length (put_bytes args p)) ∧
  length (put_bytes args p) = member_size mo.1 ∧ (mo.2 + length (put_bytes args p) ≤ msg_len m)%nat.
Proof.
  intros Ha Hc Hin Hm. pose proof (Forall_elem _ _ _ Ha (layout_member _ _ Hin)) as Hok.
  rewrite (put_matches_bytes m args mo p Hm). destruct (run_put_matches m args mo p [] Hm Hok) as (_ & E & El).
  split; [intros buf; by apply run_put_matches|]. split; [done|]. split; [done|]. rewrite El. by apply (contiguous_bound _ _ _ _ Hc).
Qed.

Lemma run_puts_stores args ps buf :
  (∀ p buf, p ∈ ps → run_put args buf p = store buf (put_range p).1 (put_bytes args p)) →
  run_puts args buf ps = run_stores buf (map (λ p, ((put_range p).1, put_bytes args p)) ps).
Proof.
  revert buf. induction ps as [|p ps IH]; intros buf H; [done|]. cbn [run_puts run_stores map]. rewrite H by left. cbn [fst snd].
  destruct (store buf _ _) as [buf'|]; [|done]. cbn. apply IH. intros. apply H. by right.
Qed.

Lemma run_puts_wire m args ps stack :
  check_puts m ps = true → contiguous 0 (message_layout m) = Some (msg_len m) → args_ok m args → (msg_len m ≤ length stack)%nat →
  ∃ buf, run_puts args stack ps = Some buf ∧ length buf = length stack ∧ take (msg_len m) buf = wire m args.
Proof.
  unfold check_puts. rewrite !andb_true_iff, !forallb_elem. intros [[Hp Hm] Hd] Hc Ha Hlen.
  setoid_rewrite existsb_elem in Hp. setoid_rewrite existsb_elem in Hm.
  assert (Hw : ∀ p, p ∈ ps → (∀ buf, run_put args buf p = store buf (put_range p).1 (put_bytes args p)) ∧
    put_range p = ((put_range p).1, length (put_bytes args p)) ∧ ((put_range p).1 + length (put_bytes args p) ≤ msg_len m)%nat).
  { intros p Hin. destruct (Hp p Hin) as (mo & Hmo & Hmat). destruct (put_write m args mo p Ha Hc Hmo Hmat) as (Hr & -> & _ & Hb). done. }
  rewrite run_puts_stores by (intros; by apply Hw).
  destruct (run_stores_spec (map (λ p, ((put_range p).1, put_bytes args p)) ps) stack) as (buf&E&El&Hs&_).
  - apply List.Forall_forall. intros w (p & <- & Hin)%in_map_iff. apply list_elem_of_In in Hin. cbn. pose proof (Hw p Hin). lia.
  - rewrite map_map. rewrite <- Hd. f_equal. apply map_ext_in. intros p Hin%list_elem_of_In. unfold range_of. cbn. by destruct (Hw p Hin) as (_ & <- & _).
  - exists buf. split; [done|]. split; [done|].
    pose proof (contiguous_concat (member_bytes m args) (message_layout m) 0 (msg_len m) buf Hc) as H.
    unfold message_layout in H at 2. rewrite layout_members, Nat.sub_0_r in H. unfold slice in H. rewrite drop_0 in H. apply H.
    intros mo Hmo. destruct (Hm mo Hmo) as (p & Hin & Hmat). destruct (put_write m args mo p Ha Hc Hmo Hmat) as (_ & Er & Esz & _).
    pose proof (Forall_elem _ _ _ Hs (list_elem_of_fmap_2 (λ p, ((put_range p).1, put_bytes args p)) ps p Hin)) as Hsl.
    cbn in Hsl. rewrite Er in Hsl. cbn in Hsl. rewrite Esz in Hsl. rewrite <- (put_matches_bytes m args mo p Hmat). exact Hsl.
Qed.

Lemma run_assigns_puts m args l ps packet :
  mapM (assign_put m) l = Some ps → run_assigns m args packet l = run_puts args packet ps.
Proof.
  revert ps packet. induction l as [|a l IH]; intros ps packet; [by intros [= <-]|]. cbn [mapM].
  destruct (assign_put m a) as [p|] eqn:Ep; [|done]. cbn. destruct (mapM (assign_put m) l) as [ps'|] eqn:El; [|done]. cbn. intros [= <-].
  cbn [run_assigns run_puts].
  assert (run_assign m args packet a = run_put args packet p) as ->.
  { destruct a as [x y|x y|x y t n]; cbn in *; destruct (member_at m x) as [mo|]; try done; cbn in *; simplify_eq; try done.
    case_bool_decide; simplify_eq. done. }
  destruct (run_put args packet p); [|done]. cbn. by apply IH.
Qed.

(** The parts of the check. *)
Lemma wf_message_spec m gets : wf_message m gets = true →
  contiguous 0 (message_layout m) = Some (msg_len m) ∧ (msg_min_len m ≤ msg_len m ≤ 255)%nat ∧
  (msg_len m ≤ struct_size (msg_packed m) (msg_members m))%nat ∧ check_puts m (msg_puts m) = true ∧
  (∃ ps, mapM (assign_put m) (msg_assigns m) = Some ps ∧ check_puts m ps = true) ∧ check_getters m gets = true ∧
  0 ≤ msg_id m < 2 ^ 24.
Proof.
  unfold wf_message. rewrite !andb_true_iff, !Nat.leb_le, !bool_decide_eq_true, Z.leb_le, Z.ltb_lt.
  intros ((((((((((_&?)&?)&?)&?)&?)&Ha)&?)&_)&?)&?). split_and!; try done.
  destruct (mapM (assign_put m) (msg_assigns m)) as [ps|]; [|done]. by exists ps.
Qed.

(** Both bodies of a packing function write the wire image of the arguments, whatever
    was on the stack. *)
Lemma pack_payload_wire aligned m gets args stack : wf_message m gets = true → args_ok m args →
  length stack = stack_size aligned m →
  pack_payload aligned m args stack = Some (wire m args) ∧ length (wire m args) = msg_len m.
Proof.
  intros (Hc & Hmin & Hsz & Hp & (ps & Eps & Hps) & _ & _)%wf_message_spec Ha Hs. unfold pack_payload, stack_size in *.
  assert (Hlen : ∀ buf, (msg_len m ≤ length buf)%nat → take (msg_len m) buf = wire m args → length (wire m args) = msg_len m)
    by (intros buf ? <-; rewrite length_take; lia).
  destruct aligned.
  - rewrite (run_assigns_puts m args _ ps stack Eps). destruct (run_puts_wire m args ps stack Hps Hc Ha) as (buf & -> & El & Ew); [lia|].
    cbn. rewrite Ew. split; [done|]. apply (Hlen buf); [lia|done].
  - destruct (run_puts_wire m args (msg_puts m) stack Hp Hc Ha) as (buf & -> & El & Ew); [lia|].
    rewrite <- Ew at 1. rewrite take_ge by lia. split; [done|]. apply (Hlen buf); [lia|done].
Qed.

(** So does the buffer or the structure that a sending function streams. *)
Lemma send_packet_wire aligned m gets args stack : wf_message m gets = true → args_ok m args →
  length stack = stack_size aligned m →
  ∃ packet, send_packet aligned m args stack = Some packet ∧ take (msg_len m) packet = wire m args.
Proof.
  intros Hwf Ha Hs. destruct (pack_payload_wire aligned m gets args stack Hwf Ha Hs) as [Hp Hl].
  unfold pack_payload, send_packet in *. destruct aligned.
  - destruct (run_assigns m args stack (msg_assigns m)) as [packet|]; [|done]. injection Hp as <-. by exists packet.
  - exists (wire m args). split; [done|]. rewrite take_ge; [done|lia].
Qed.

(** ** Decoding *)

Definition value_ok (t : mavlink_message_type_t) (v : Z) : Prop :=
  let w := 8 * Z.of_nat (type_size t) in if type_signed t then in_s w v else in_u w v.

Definition values_ok (m : mav_message) (args : mav_args) : Prop :=
  Forall (λ sm, Forall (value_ok (sm_type sm)) (sent m args sm)) (msg_members m).

Lemma bytes_value_bytes t v : value_ok t v → bytes_value t (value_bytes t v) = v.
Proof.
  unfold value_ok, bytes_value, value_bytes. rewrite le_val_bytes. destruct (type_signed t).
  - intros [H1 H2]. unfold wraps. rewrite Zplus_mod_idemp_l. rewrite Z.mod_small; [lia|].
    assert (2 ^ (8 * Z.of_nat (type_size t)) = 2 * 2 ^ (8 * Z.of_nat (type_size t) - 1)).
    { rewrite <- Z.pow_succ_r by (destruct t; cbn; lia). f_equal. lia. } lia.
  - intros [H1 H2]. by rewrite Z.mod_small.
Qed.

Lemma bytes_array_bytes t vs rest : Forall (value_ok t) vs → bytes_array t (length vs) (array_bytes t vs ++ rest) = vs.
Proof.
  induction 1 as [|v vs Hv _ IH]; [done|]. unfold array_bytes in *. cbn [length bytes_array map concat]. rewrite <- app_assoc.
  rewrite take_app_length', drop_app_length' by (symmetry; apply length_value_bytes). by rewrite bytes_value_bytes, IH.
Qed.

Lemma contiguous_slices (f : struct_member → list Z) l off e buf :
  contiguous off l = Some e → slice off (e - off) buf = concat (map f (map fst l)) → (e ≤ length buf)%nat →
  (∀ mo, mo ∈ l → length (f mo.1) = member_size mo.1) →
  ∀ mo, mo ∈ l → slice mo.2 (member_size mo.1) buf = f mo.1.
Proof.
  revert off. induction l as [|x l IH]; intros off; cbn [contiguous map concat]; [by intros ???? ? ?%not_elem_of_nil|].
  destruct (Nat.eqb x.2 off) eqn:E; [|done]. apply Nat.eqb_eq in E as <-. intros Hc Hs He Hlen.
  assert ((x.2 + member_size x.1 ≤ e)%nat).
  { destruct l as [|y l]; [cbn in Hc; injection Hc as <-; lia|]. destruct (contiguous_bound _ _ _ y Hc ltac:(left)). lia. }
  replace (e - x.2)%nat with (member_size x.1 + (e - (x.2 + member_size x.1)))%nat in Hs by lia. rewrite slice_split in Hs.
  apply app_inj_1 in Hs as [Hs1 Hs2].
  - intros mo [->|Hin]%elem_of_cons; [done|]. apply (IH _ Hc Hs2 He); [|done]. intros mo' Hin'. apply Hlen. by right.
  - rewrite Hlen by left. unfold slice. rewrite length_take, length_drop. lia.
Qed.

(** A buffer that starts with the wire image holds every member. *)
Lemma wire_member m gets args buf mo : wf_message m gets = true → args_ok m args →
  (msg_len m ≤ length buf)%nat → take (msg_len m) buf = wire m args → mo ∈ message_layout m →
  (mo.2 + member_size mo.1 ≤ msg_len m)%nat ∧ slice mo.2 (member_size mo.1) buf = member_bytes m args mo.1.
Proof.
  intros Hwf Ha Hl Hw Hin. apply wf_message_spec in Hwf as (Hc & _ & _ & Hp & _). split; [by apply (contiguous_bound _ _ _ _ Hc)|].
  apply (contiguous_slices (member_bytes m args) (message_layout m) 0 (msg_len m)); [done| |done| |done].
  - rewrite Nat.sub_0_r. unfold message_layout. rewrite layout_members. unfold slice. by rewrite drop_0.
  - intros mo' Hin'. unfold check_puts in Hp. rewrite !andb_true_iff, !forallb_elem in Hp. destruct Hp as [[_ Hp] _].
    destruct (proj1 (existsb_elem _ _) (Hp mo' Hin')) as (p & _ & Hm).
    rewrite <- (put_matches_bytes m args mo' p Hm). by apply (put_write m args mo' p).
Qed.

Lemma read_slice g payload vs : Forall (value_ok (get_type g)) vs → length vs = Nat.max 1 (get_len g) →
  (get_offset g + length vs * type_size (get_type g) ≤ length payload)%nat →
  slice (get_offset g) (length vs * type_size (get_type g)) payload = array_bytes (get_type g) vs →
  run_getter g payload = Some vs.
Proof.
  destruct g as [name t n off]. cbn [get_len get_type get_offset]. intros Hv Hlen Hb Hs. unfold run_getter, MAV_RETURN, MAV_RETURN_array.
  cbn [get_len get_type get_offset].
  unfold slice in Hs. destruct n as [|n].
  - destruct vs as [|v [|? ?]]; try done. cbn in *. rewrite !Nat.add_0_r in *. rewrite bool_decide_true by lia. cbn. rewrite Hs. unfold array_bytes. cbn.
    rewrite app_nil_r, bytes_value_bytes; [done|]. by apply Forall_cons_1 in Hv as [? _].
  - replace (S n) with (length vs) by lia. rewrite bool_decide_true by lia. f_equal.
    rewrite <- (take_drop (length vs * type_size t) (drop off payload)), Hs. by apply bytes_array_bytes.
Qed.

Lemma read_wire_member m gets args buf mo : wf_message m gets = true → args_ok m args → values_ok m args →
  (msg_len m ≤ length buf)%nat → take (msg_len m) buf = wire m args → mo ∈ message_layout m →
  read_member buf mo = Some (sent m args mo.1).
Proof.
  intros Hwf Ha Hv Hl Hw Hin. destruct (wire_member m gets args buf mo Hwf Ha Hl Hw Hin) as [Hb Hs].
  pose proof (layout_member _ _ Hin) as Hm. unfold member_bytes in Hs.
  assert (Hls : length (sent m args mo.1) = Nat.max 1 (sm_len mo.1)).
  { apply wf_message_spec in Hwf as (Hc & _ & _ & Hp & _). unfold check_puts in Hp. rewrite !andb_true_iff, !forallb_elem in Hp.
    destruct Hp as [[_ Hp] _]. destruct (proj1 (existsb_elem _ _) (Hp mo Hin)) as (p & _ & Hmat).
    apply length_sent; [by apply (Forall_elem _ _ _ Ha)|]. intros Hn. destruct p; cbn in Hmat; rewrite ?andb_true_iff in Hmat; destruct_and?;
      rewrite ?bool_decide_eq_true, ?Nat.eqb_eq in *; done. }
  unfold read_member. apply read_slice; cbn; [by apply (Forall_elem _ _ _ Hv)|done| |]; rewrite Hls; unfold member_size in *; [lia|done].
Qed.

Lemma mapM_all {A B} (f : A → option B) (g : A → B) l : (∀ x, x ∈ l → f x = Some (g x)) → mapM f l = Some (map g l).
Proof.
  induction l as [|x l IH]; intros H; [done|]. cbn. rewrite H by left. cbn. rewrite IH; [done|]. intros. apply H. by right.
Qed.

(** What a decoder returns for the arguments of a packing function. *)
Definition decoded (m : mav_message) (args : mav_args) : list (string * list Z) :=
  map (λ sm, (sm_name sm, sent m args sm)) (msg_members m).

Lemma decode_members m gets args buf : wf_message m gets = true → args_ok m args → values_ok m args →
  (msg_len m ≤ length buf)%nat → take (msg_len m) buf = wire m args →
  mapM (λ mo : placed, v ← read_member buf mo; Some (sm_name mo.1, v)) (message_layout m) = Some (decoded m args).
Proof.
  intros. rewrite (mapM_all _ (λ mo : placed, (sm_name mo.1, sent m args mo.1))).
  - f_equal. unfold decoded, message_layout. rewrite <- (layout_members (msg_packed m) 0 (msg_members m)) at 2. by rewrite map_map.
  - intros mo Hin. by rewrite (read_wire_member m gets args buf mo).
Qed.

Lemma zeros_replicate (l : list Z) : (∀ k, (k < length l)%nat → l !!! k = 0) → l = replicate (length l) 0.
Proof.
  induction l as [|x l IH]; intros H; [done|]. cbn. f_equal; [apply (H 0%nat); cbn; lia|].
  apply IH. intros k Hk. apply (H (S k)). cbn. lia.
Qed.

(** [memset] and [memcpy] of a payload whose end is missing. *)
Lemma memset_memcpy stack payload n len :
  (n ≤ length stack)%nat → (n ≤ length payload)%nat → (len ≤ n)%nat → (∀ k, (len ≤ k < n)%nat → payload !!! k = 0) →
  take n (memcpy_at (memcpy_at stack 0 (replicate n 0)) 0 (take len payload)) = take n payload.
Proof.
  intros Hs Hp Hl Hz. unfold memcpy_at. rewrite !take_0, !app_nil_l, !Nat.add_0_l, length_take, length_replicate, Nat.min_l by lia.
  rewrite take_app_ge by (rewrite length_take; lia). rewrite length_take, Nat.min_l by lia.
  rewrite drop_app_le by (rewrite length_replicate; lia). rewrite drop_replicate.
  rewrite take_app_le by (rewrite length_replicate; lia). rewrite take_replicate, Nat.min_id.
  rewrite <- (take_drop len (take n payload)), take_take, Nat.min_l by lia. f_equal.
  rewrite (zeros_replicate (drop len (take n payload))); [f_equal; rewrite length_drop, length_take; lia|].
  intros k Hk. rewrite length_drop, length_take in Hk. rewrite lookup_total_drop. rewrite <- (Hz (len + k)%nat) by lia.
  rewrite !list_lookup_total_alt, lookup_take_lt by lia. done.
Qed.

(** The message of which both bodies of the decoder make the arguments: its payload
    starts with the wire image, and what the sender cut off is zero. *)
Lemma msg_decode_wire aligned m gets args stack msg : wf_message m gets = true → args_ok m args → values_ok m args →
  (msg_len m ≤ length (m_payload msg))%nat → take (msg_len m) (m_payload msg) = wire m args →
  (∀ k, m_len msg ≤ Z.of_nat k < Z.of_nat (msg_len m) → m_payload msg !!! k = 0) → 0 ≤ m_len msg →
  length stack = struct_size (msg_packed m) (msg_members m) →
  msg_decode aligned m gets stack msg = Some (decoded m args).
Proof.
  intros Hwf Ha Hv Hl Hw Hz Hlen Hs. pose proof (wf_message_spec _ _ Hwf) as (Hc & _ & Hsz & _ & _ & Hg & _). unfold msg_decode. destruct aligned.
  - unfold decode_struct, store.
    rewrite (bool_decide_true (0 + length (replicate (msg_len m) 0%Z) ≤ length stack)%nat) by (rewrite length_replicate; lia). cbn [mbind option_bind].
    set (len := if m_len msg <? _ then _ else _).
    assert (Hlen' : (len ≤ msg_len m)%nat) by (unfold len; destruct (Z.ltb_spec (m_len msg) (Z.of_nat (msg_len m))); lia).
    assert (Hm0 : length (memcpy_at stack 0 (replicate (msg_len m) 0)) = length stack) by (apply length_memcpy_at; rewrite length_replicate; lia).
    rewrite bool_decide_true by lia. rewrite bool_decide_true by (rewrite length_take; lia). cbn [mbind option_bind].
    apply decode_members with gets; try done.
    + rewrite length_memcpy_at; [lia|]. rewrite length_take. lia.
    + rewrite memset_memcpy; [done|lia|lia|done|]. intros k Hk. apply Hz. unfold len in Hk.
      destruct (Z.ltb_spec (m_len msg) (Z.of_nat (msg_len m))); lia.
  - unfold decode_getters, decoded. apply mapM_all. intros sm Hsm.
    rewrite <- (layout_members (msg_packed m) 0 (msg_members m)) in Hsm. apply list_elem_of_fmap_1 in Hsm as (mo & -> & Hin).
    unfold check_getters in Hg. rewrite forallb_elem in Hg. specialize (Hg mo Hin).
    destruct (list_find _ gets) as [[i g]|] eqn:Ef; [|done]. cbn. rewrite !andb_true_iff, bool_decide_eq_true, !Nat.eqb_eq in Hg.
    destruct Hg as [[Et El] Eo]. pose proof (read_wire_member m gets args (m_payload msg) mo Hwf Ha Hv Hl Hw Hin) as Hr.
    unfold read_member in Hr. destruct g as [gn gt gl go]. cbn in *. subst.
    unfold run_getter in *. cbn in *. by rewrite Hr.
Qed.
