(* ===== verification/MavMessages1.v ===== *)
(** * Message headers, part 1

    The headers of the messages 0 to 109 of the dialect [common]: for each, the
    structure, the description, the bodies of its packing functions ([MSG_*]) and its
    getters ([GET_*]), as [MavFields] reads them. *)
From stdpp Require Import strings.
From S2P Require Import Prelude MavFields.

#[local] Open Scope Z_scope.

Definition MSG_HEARTBEAT : mav_message :=
  mk_message 0 "HEARTBEAT" 9 9 50 false
    [mk_member uint32_t "custom_mode" 0; mk_member uint8_t "type" 0; mk_member uint8_t "autopilot" 0;
     mk_member uint8_t "base_mode" 0; mk_member uint8_t "system_status" 0; mk_member uint8_t "mavlink_version" 0]
    [mk_field "type" MAVLINK_TYPE_UINT8_T 0 4; mk_field "autopilot" MAVLINK_TYPE_UINT8_T 0 5;
     mk_field "base_mode" MAVLINK_TYPE_UINT8_T 0 6; mk_field "custom_mode" MAVLINK_TYPE_UINT32_T 0 0;
     mk_field "system_status" MAVLINK_TYPE_UINT8_T 0 7; mk_field "mavlink_version" MAVLINK_TYPE_UINT8_T 0 8]
    [put uint32_t 0 "custom_mode"; put uint8_t 4 "type"; put uint8_t 5 "autopilot"; put uint8_t 6 "base_mode";
     put uint8_t 7 "system_status"; put_const uint8_t 8 3]
    [assign "custom_mode" "custom_mode"; assign "type" "type"; assign "autopilot" "autopilot";
     assign "base_mode" "base_mode"; assign "system_status" "system_status"; assign_const "mavlink_version" 3].
Definition GET_HEARTBEAT : list getter :=
    [mk_getter "type" uint8_t 0 4; mk_getter "autopilot" uint8_t 0 5; mk_getter "base_mode" uint8_t 0 6;
     mk_getter "custom_mode" uint32_t 0 0; mk_getter "system_status" uint8_t 0 7;
     mk_getter "mavlink_version" uint8_t 0 8].

Definition MSG_SYS_STATUS : mav_message :=
  mk_message 1 "SYS_STATUS" 31 43 124 true
    [mk_member uint32_t "onboard_control_sensors_present" 0; mk_member uint32_t "onboard_control_sensors_enabled" 0;
     mk_member uint32_t "onboard_control_sensors_health" 0; mk_member uint16_t "load" 0;
     mk_member uint16_t "voltage_battery" 0; mk_member int16_t "current_battery" 0;
     mk_member uint16_t "drop_rate_comm" 0; mk_member uint16_t "errors_comm" 0; mk_member uint16_t "errors_count1" 0;
     mk_member uint16_t "errors_count2" 0; mk_member uint16_t "errors_count3" 0; mk_member uint16_t "errors_count4" 0;
     mk_member int8_t "battery_remaining" 0; mk_member uint32_t "onboard_control_sensors_present_extended" 0;
     mk_member uint32_t "onboard_control_sensors_enabled_extended" 0;
     mk_member uint32_t "onboard_control_sensors_health_extended" 0]
    [mk_field "onboard_control_sensors_present" MAVLINK_TYPE_UINT32_T 0 0;
     mk_field "onboard_control_sensors_enabled" MAVLINK_TYPE_UINT32_T 0 4;
     mk_field "onboard_control_sensors_health" MAVLINK_TYPE_UINT32_T 0 8; mk_field "load" MAVLINK_TYPE_UINT16_T 0 12;
     mk_field "voltage_battery" MAVLINK_TYPE_UINT16_T 0 14; mk_field "current_battery" MAVLINK_TYPE_INT16_T 0 16;
     mk_field "battery_remaining" MAVLINK_TYPE_INT8_T 0 30; mk_field "drop_rate_comm" MAVLINK_TYPE_UINT16_T 0 18;
     mk_field "errors_comm" MAVLINK_TYPE_UINT16_T 0 20; mk_field "errors_count1" MAVLINK_TYPE_UINT16_T 0 22;
     mk_field "errors_count2" MAVLINK_TYPE_UINT16_T 0 24; mk_field "errors_count3" MAVLINK_TYPE_UINT16_T 0 26;
     mk_field "errors_count4" MAVLINK_TYPE_UINT16_T 0 28;
     mk_field "onboard_control_sensors_present_extended" MAVLINK_TYPE_UINT32_T 0 31;
     mk_field "onboard_control_sensors_enabled_extended" MAVLINK_TYPE_UINT32_T 0 35;
     mk_field "onboard_control_sensors_health_extended" MAVLINK_TYPE_UINT32_T 0 39]
    [put uint32_t 0 "onboard_control_sensors_present"; put uint32_t 4 "onboard_control_sensors_enabled";
     put uint32_t 8 "onboard_control_sensors_health"; put uint16_t 12 "load"; put uint16_t 14 "voltage_battery";
     put int16_t 16 "current_battery"; put uint16_t 18 "drop_rate_comm"; put uint16_t 20 "errors_comm";
     put uint16_t 22 "errors_count1"; put uint16_t 24 "errors_count2"; put uint16_t 26 "errors_count3";
     put uint16_t 28 "errors_count4"; put int8_t 30 "battery_remaining";
     put uint32_t 31 "onboard_control_sensors_present_extended";
     put uint32_t 35 "onboard_control_sensors_enabled_extended";
     put uint32_t 39 "onboard_control_sensors_health_extended"]
    [assign "onboard_control_sensors_present" "onboard_control_sensors_present";
     assign "onboard_control_sensors_enabled" "onboard_control_sensors_enabled";
     assign "onboard_control_sensors_health" "onboard_control_sensors_health"; assign "load" "load";
     assign "voltage_battery" "voltage_battery"; assign "current_battery" "current_battery";
     assign "drop_rate_comm" "drop_rate_comm"; assign "errors_comm" "errors_comm";
     assign "errors_count1" "errors_count1"; assign "errors_count2" "errors_count2";
     assign "errors_count3" "errors_count3"; assign "errors_count4" "errors_count4";
     assign "battery_remaining" "battery_remaining";
     assign "onboard_control_sensors_present_extended" "onboard_control_sensors_present_extended";
     assign "onboard_control_sensors_enabled_extended" "onboard_control_sensors_enabled_extended";
     assign "onboard_control_sensors_health_extended" "onboard_control_sensors_health_extended"].
Definition GET_SYS_STATUS : list getter :=
    [mk_getter "onboard_control_sensors_present" uint32_t 0 0;
     mk_getter "onboard_control_sensors_enabled" uint32_t 0 4;
     mk_getter "onboard_control_sensors_health" uint32_t 0 8; mk_getter "load" uint16_t 0 12;
     mk_getter "voltage_battery" uint16_t 0 14; mk_getter "current_battery" int16_t 0 16;
     mk_getter "battery_remaining" int8_t 0 30; mk_getter "drop_rate_comm" uint16_t 0 18;
     mk_getter "errors_comm" uint16_t 0 20; mk_getter "errors_count1" uint16_t 0 22;
     mk_getter "errors_count2" uint16_t 0 24; mk_getter "errors_count3" uint16_t 0 26;
     mk_getter "errors_count4" uint16_t 0 28; mk_getter "onboard_control_sensors_present_extended" uint32_t 0 31;
     mk_getter "onboard_control_sensors_enabled_extended" uint32_t 0 35;
     mk_getter "onboard_control_sensors_health_extended" uint32_t 0 39].

Definition MSG_SYSTEM_TIME : mav_message :=
  mk_message 2 "SYSTEM_TIME" 12 12 137 false
    [mk_member uint64_t "time_unix_usec" 0; mk_member uint32_t "time_boot_ms" 0]
    [mk_field "time_unix_usec" MAVLINK_TYPE_UINT64_T 0 0; mk_field "time_boot_ms" MAVLINK_TYPE_UINT32_T 0 8]
    [put uint64_t 0 "time_unix_usec"; put uint32_t 8 "time_boot_ms"]
    [assign "time_unix_usec" "time_unix_usec"; assign "time_boot_ms" "time_boot_ms"].
Definition GET_SYSTEM_TIME : list getter :=
    [mk_getter "time_unix_usec" uint64_t 0 0; mk_getter "time_boot_ms" uint32_t 0 8].

Definition MSG_PING : mav_message :=
  mk_message 4 "PING" 14 14 237 false
    [mk_member uint64_t "time_usec" 0; mk_member uint32_t "seq" 0; mk_member uint8_t "target_system" 0;
     mk_member uint8_t "target_component" 0]
    [mk_field "time_usec" MAVLINK_TYPE_UINT64_T 0 0; mk_field "seq" MAVLINK_TYPE_UINT32_T 0 8;
     mk_field "target_system" MAVLINK_TYPE_UINT8_T 0 12; mk_field "target_component" MAVLINK_TYPE_UINT8_T 0 13]
    [put uint64_t 0 "time_usec"; put uint32_t 8 "seq"; put uint8_t 12 "target_system";
     put uint8_t 13 "target_component"]
    [assign "time_usec" "time_usec"; assign "seq" "seq"; assign "target_system" "target_system";
     assign "target_component" "target_component"].
Definition GET_PING : list getter :=
    [mk_getter "time_usec" uint64_t 0 0; mk_getter "seq" uint32_t 0 8; mk_getter "target_system" uint8_t 0 12;
     mk_getter "target_component" uint8_t 0 13].

Definition MSG_CHANGE_OPERATOR_CONTROL : mav_message :=
  mk_message 5 "CHANGE_OPERATOR_CONTROL" 28 28 217 false
    [mk_member uint8_t "target_system" 0; mk_member uint8_t "control_request" 0; mk_member uint8_t "version" 0;
     mk_member char_t "passkey" 25]
    [mk_field "target_system" MAVLINK_TYPE_UINT8_T 0 0; mk_field "control_request" MAVLINK_TYPE_UINT8_T 0 1;
     mk_field "version" MAVLINK_TYPE_UINT8_T 0 2; mk_field "passkey" MAVLINK_TYPE_CHAR 25 3]
    [put uint8_t 0 "target_system"; put uint8_t 1 "control_request"; put uint8_t 2 "version";
     put_array char_t 3 "passkey" 25]
    [assign "target_system" "target_system"; assign "control_request" "control_request"; assign "version" "version";
     copy_array "passkey" "passkey" char_t 25].
Definition GET_CHANGE_OPERATOR_CONTROL : list getter :=
    [mk_getter "target_system" uint8_t 0 0; mk_getter "control_request" uint8_t 0 1; mk_getter "version" uint8_t 0 2;
     mk_getter "passkey" char_t 25 3].

Definition MSG_CHANGE_OPERATOR_CONTROL_ACK : mav_message :=
  mk_message 6 "CHANGE_OPERATOR_CONTROL_ACK" 3 3 104 false
    [mk_member uint8_t "gcs_system_id" 0; mk_member uint8_t "control_request" 0; mk_member uint8_t "ack" 0]
    [mk_field "gcs_system_id" MAVLINK_TYPE_UINT8_T 0 0; mk_field "control_request" MAVLINK_TYPE_UINT8_T 0 1;
     mk_field "ack" MAVLINK_TYPE_UINT8_T 0 2]
    [put uint8_t 0 "gcs_system_id"; put uint8_t 1 "control_request"; put uint8_t 2 "ack"]
    [assign "gcs_system_id" "gcs_system_id"; assign "control_request" "control_request"; assign "ack" "ack"].
Definition GET_CHANGE_OPERATOR_CONTROL_ACK : list getter :=
    [mk_getter "gcs_system_id" uint8_t 0 0; mk_getter "control_request" uint8_t 0 1; mk_getter "ack" uint8_t 0 2].

Definition MSG_AUTH_KEY : mav_message :=
  mk_message 7 "AUTH_KEY" 32 32 119 false
    [mk_member char_t "key" 32]
    [mk_field "key" MAVLINK_TYPE_CHAR 32 0]
    [put_array char_t 0 "key" 32]
    [copy_array "key" "key" char_t 32].
Definition GET_AUTH_KEY : list getter :=
    [mk_getter "key" char_t 32 0].

Definition MSG_LINK_NODE_STATUS : mav_message :=
  mk_message 8 "LINK_NODE_STATUS" 36 36 117 false
    [mk_member uint64_t "timestamp" 0; mk_member uint32_t "tx_rate" 0; mk_member uint32_t "rx_rate" 0;
     mk_member uint32_t "messages_sent" 0; mk_member uint32_t "messages_received" 0;
     mk_member uint32_t "messages_lost" 0; mk_member uint16_t "rx_parse_err" 0; mk_member uint16_t "tx_overflows" 0;
     mk_member uint16_t "rx_overflows" 0; mk_member uint8_t "tx_buf" 0; mk_member uint8_t "rx_buf" 0]
    [mk_field "timestamp" MAVLINK_TYPE_UINT64_T 0 0; mk_field "tx_buf" MAVLINK_TYPE_UINT8_T 0 34;
     mk_field "rx_buf" MAVLINK_TYPE_UINT8_T 0 35; mk_field "tx_rate" MAVLINK_TYPE_UINT32_T 0 8;
     mk_field "rx_rate" MAVLINK_TYPE_UINT32_T 0 12; mk_field "rx_parse_err" MAVLINK_TYPE_UINT16_T 0 28;
     mk_field "tx_overflows" MAVLINK_TYPE_UINT16_T 0 30; mk_field "rx_overflows" MAVLINK_TYPE_UINT16_T 0 32;
     mk_field "messages_sent" MAVLINK_TYPE_UINT32_T 0 16; mk_field "messages_received" MAVLINK_TYPE_UINT32_T 0 20;
     mk_field "messages_lost" MAVLINK_TYPE_UINT32_T 0 24]
    [put uint64_t 0 "timestamp"; put uint32_t 8 "tx_rate"; put uint32_t 12 "rx_rate"; put uint32_t 16 "messages_sent";
     put uint32_t 20 "messages_received"; put uint32_t 24 "messages_lost"; put uint16_t 28 "rx_parse_err";
     put uint16_t 30 "tx_overflows"; put uint16_t 32 "rx_overflows"; put uint8_t 34 "tx_buf"; put uint8_t 35 "rx_buf"]
    [assign "timestamp" "timestamp"; assign "tx_rate" "tx_rate"; assign "rx_rate" "rx_rate";
     assign "messages_sent" "messages_sent"; assign "messages_received" "messages_received";
     assign "messages_lost" "messages_lost"; assign "rx_parse_err" "rx_parse_err";
     assign "tx_overflows" "tx_overflows"; assign "rx_overflows" "rx_overflows"; assign "tx_buf" "tx_buf";
     assign "rx_buf" "rx_buf"].
Definition GET_LINK_NODE_STATUS : list getter :=
    [mk_getter "timestamp" uint64_t 0 0; mk_getter "tx_buf" uint8_t 0 34; mk_getter "rx_buf" uint8_t 0 35;
     mk_getter "tx_rate" uint32_t 0 8; mk_getter "rx_rate" uint32_t 0 12; mk_getter "rx_parse_err" uint16_t 0 28;
     mk_getter "tx_overflows" uint16_t 0 30; mk_getter "rx_overflows" uint16_t 0 32;
     mk_getter "messages_sent" uint32_t 0 16; mk_getter "messages_received" uint32_t 0 20;
     mk_getter "messages_lost" uint32_t 0 24].

Definition MSG_SET_MODE : mav_message :=
  mk_message 11 "SET_MODE" 6 6 89 false
    [mk_member uint32_t "custom_mode" 0; mk_member uint8_t "target_system" 0; mk_member uint8_t "base_mode" 0]
    [mk_field "target_system" MAVLINK_TYPE_UINT8_T 0 4; mk_field "base_mode" MAVLINK_TYPE_UINT8_T 0 5;
     mk_field "custom_mode" MAVLINK_TYPE_UINT32_T 0 0]
    [put uint32_t 0 "custom_mode"; put uint8_t 4 "target_system"; put uint8_t 5 "base_mode"]
    [assign "custom_mode" "custom_mode"; assign "target_system" "target_system"; assign "base_mode" "base_mode"].
Definition GET_SET_MODE : list getter :=
    [mk_getter "target_system" uint8_t 0 4; mk_getter "base_mode" uint8_t 0 5; mk_getter "custom_mode" uint32_t 0 0].

Definition MSG_PARAM_REQUEST_READ : mav_message :=
  mk_message 20 "PARAM_REQUEST_READ" 20 20 214 false
    [mk_member int16_t "param_index" 0; mk_member uint8_t "target_system" 0; mk_member uint8_t "target_component" 0;
     mk_member char_t "param_id" 16]
    [mk_field "target_system" MAVLINK_TYPE_UINT8_T 0 2; mk_field "target_component" MAVLINK_TYPE_UINT8_T 0 3;
     mk_field "param_id" MAVLINK_TYPE_CHAR 16 4; mk_field "param_index" MAVLINK_TYPE_INT16_T 0 0]
    [put int16_t 0 "param_index"; put uint8_t 2 "target_system"; put uint8_t 3 "target_component";
     put_array char_t 4 "param_id" 16]
    [assign "param_index" "param_index"; assign "target_system" "target_system";
     assign "target_component" "target_component"; copy_array "param_id" "param_id" char_t 16].
Definition GET_PARAM_REQUEST_READ : list getter :=
    [mk_getter "target_system" uint8_t 0 2; mk_getter "target_component" uint8_t 0 3;
     mk_getter "param_id" char_t 16 4; mk_getter "param_index" int16_t 0 0].

Definition MSG_PARAM_REQUEST_LIST : mav_message :=
  mk_message 21 "PARAM_REQUEST_LIST" 2 2 159 false
    [mk_member uint8_t "target_system" 0; mk_member uint8_t "target_component" 0]
    [mk_field "target_system" MAVLINK_TYPE_UINT8_T 0 0; mk_field "target_component" MAVLINK_TYPE_UINT8_T 0 1]
    [put uint8_t 0 "target_system"; put uint8_t 1 "target_component"]
    [assign "target_system" "target_system"; assign "target_component" "target_component"].
Definition GET_PARAM_REQUEST_LIST : list getter :=
    [mk_getter "target_system" uint8_t 0 0; mk_getter "target_component" uint8_t 0 1].

Definition MSG_PARAM_VALUE : mav_message :=
  mk_message 22 "PARAM_VALUE" 25 25 220 false
    [mk_member float_t "param_value" 0; mk_member uint16_t "param_count" 0; mk_member uint16_t "param_index" 0;
     mk_member char_t "param_id" 16; mk_member uint8_t "param_type" 0]
    [mk_field "param_id" MAVLINK_TYPE_CHAR 16 8; mk_field "param_value" MAVLINK_TYPE_FLOAT 0 0;
     mk_field "param_type" MAVLINK_TYPE_UINT8_T 0 24; mk_field "param_count" MAVLINK_TYPE_UINT16_T 0 4;
     mk_field "param_index" MAVLINK_TYPE_UINT16_T 0 6]
    [put float_t 0 "param_value"; put uint16_t 4 "param_count"; put uint16_t 6 "param_index";
     put uint8_t 24 "param_type"; put_array char_t 8 "param_id" 16]
    [assign "param_value" "param_value"; assign "param_count" "param_count"; assign "param_index" "param_index";
     assign "param_type" "param_type"; copy_array "param_id" "param_id" char_t 16].
Definition GET_PARAM_VALUE : list getter :=
    [mk_getter "param_id" char_t 16 8; mk_getter "param_value" float_t 0 0; mk_getter "param_type" uint8_t 0 24;
     mk_getter "param_count" uint16_t 0 4; mk_getter "param_index" uint16_t 0 6].

Definition MSG_PARAM_SET : mav_message :=
  mk_message 23 "PARAM_SET" 23 23 168 false
    [mk_member float_t "param_value" 0; mk_member uint8_t "target_system" 0; mk_member uint8_t "target_component" 0;
     mk_member char_t "param_id" 16; mk_member uint8_t "param_type" 0]
    [mk_field "target_system" MAVLINK_TYPE_UINT8_T 0 4; mk_field "target_component" MAVLINK_TYPE_UINT8_T 0 5;
     mk_field "param_id" MAVLINK_TYPE_CHAR 16 6; mk_field "param_value" MAVLINK_TYPE_FLOAT 0 0;
     mk_field "param_type" MAVLINK_TYPE_UINT8_T 0 22]
    [put float_t 0 "param_value"; put uint8_t 4 "target_system"; put uint8_t 5 "target_component";
     put uint8_t 22 "param_type"; put_array char_t 6 "param_id" 16]
    [assign "param_value" "param_value"; assign "target_system" "target_system";
     assign "target_component" "target_component"; assign "param_type" "param_type";
     copy_array "param_id" "param_id" char_t 16].
Definition GET_PARAM_SET : list getter :=
    [mk_getter "target_system" uint8_t 0 4; mk_getter "target_component" uint8_t 0 5;
     mk_getter "param_id" char_t 16 6; mk_getter "param_value" float_t 0 0; mk_getter "param_type" uint8_t 0 22].

Definition MSG_GPS_RAW_INT : mav_message :=
  mk_message 24 "GPS_RAW_INT" 30 52 24 true
    [mk_member uint64_t "time_usec" 0; mk_member int32_t "lat" 0; mk_member int32_t "lon" 0;
     mk_member int32_t "alt" 0; mk_member uint16_t "eph" 0; mk_member uint16_t "epv" 0; mk_member uint16_t "vel" 0;
     mk_member uint16_t "cog" 0; mk_member uint8_t "fix_type" 0; mk_member uint8_t "satellites_visible" 0;
     mk_member int32_t "alt_ellipsoid" 0; mk_member uint32_t "h_acc" 0; mk_member uint32_t "v_acc" 0;
     mk_member uint32_t "vel_acc" 0; mk_member uint32_t "hdg_acc" 0; mk_member uint16_t "yaw" 0]
    [mk_field "time_usec" MAVLINK_TYPE_UINT64_T 0 0; mk_field "fix_type" MAVLINK_TYPE_UINT8_T 0 28;
     mk_field "lat" MAVLINK_TYPE_INT32_T 0 8; mk_field "lon" MAVLINK_TYPE_INT32_T 0 12;
     mk_field "alt" MAVLINK_TYPE_INT32_T 0 16; mk_field "eph" MAVLINK_TYPE_UINT16_T 0 20;
     mk_field "epv" MAVLINK_TYPE_UINT16_T 0 22; mk_field "vel" MAVLINK_TYPE_UINT16_T 0 24;
     mk_field "cog" MAVLINK_TYPE_UINT16_T 0 26; mk_field "satellites_visible" MAVLINK_TYPE_UINT8_T 0 29;
     mk_field "alt_ellipsoid" MAVLINK_TYPE_INT32_T 0 30; mk_field "h_acc" MAVLINK_TYPE_UINT32_T 0 34;
     mk_field "v_acc" MAVLINK_TYPE_UINT32_T 0 38; mk_field "vel_acc" MAVLINK_TYPE_UINT32_T 0 42;
     mk_field "hdg_acc" MAVLINK_TYPE_UINT32_T 0 46; mk_field "yaw" MAVLINK_TYPE_UINT16_T 0 50]
    [put uint64_t 0 "time_usec"; put int32_t 8 "lat"; put int32_t 12 "lon"; put int32_t 16 "alt";
     put uint16_t 20 "eph"; put uint16_t 22 "epv"; put uint16_t 24 "vel"; put uint16_t 26 "cog";
     put uint8_t 28 "fix_type"; put uint8_t 29 "satellites_visible"; put int32_t 30 "alt_ellipsoid";
     put uint32_t 34 "h_acc"; put uint32_t 38 "v_acc"; put uint32_t 42 "vel_acc"; put uint32_t 46 "hdg_acc";
     put uint16_t 50 "yaw"]
    [assign "time_usec" "time_usec"; assign "lat" "lat"; assign "lon" "lon"; assign "alt" "alt"; assign "eph" "eph";
     assign "epv" "epv"; assign "vel" "vel"; assign "cog" "cog"; assign "fix_type" "fix_type";
     assign "satellites_visible" "satellites_visible"; assign "alt_ellipsoid" "alt_ellipsoid"; assign "h_acc" "h_acc";
     assign "v_acc" "v_acc"; assign "vel_acc" "vel_acc"; assign "hdg_acc" "hdg_acc"; assign "yaw" "yaw"].
Definition GET_GPS_RAW_INT : list getter :=
    [mk_getter "time_usec" uint64_t 0 0; mk_getter "fix_type" uint8_t 0 28; mk_getter "lat" int32_t 0 8;
     mk_getter "lon" int32_t 0 12; mk_getter "alt" int32_t 0 16; mk_getter "eph" uint16_t 0 20;
     mk_getter "epv" uint16_t 0 22; mk_getter "vel" uint16_t 0 24; mk_getter "cog" uint16_t 0 26;
     mk_getter "satellites_visible" uint8_t 0 29; mk_getter "alt_ellipsoid" int32_t 0 30;
     mk_getter "h_acc" uint32_t 0 34; mk_getter "v_acc" uint32_t 0 38; mk_getter "vel_acc" uint32_t 0 42;
     mk_getter "hdg_acc" uint32_t 0 46; mk_getter "yaw" uint16_t 0 50].

Definition MSG_GPS_STATUS : mav_message :=
  mk_message 25 "GPS_STATUS" 101 101 23 false
    [mk_member uint8_t "satellites_visible" 0; mk_member uint8_t "satellite_prn" 20;
     mk_member uint8_t "satellite_used" 20; mk_member uint8_t "satellite_elevation" 20;
     mk_member uint8_t "satellite_azimuth" 20; mk_member uint8_t "satellite_snr" 20]
    [mk_field "satellites_visible" MAVLINK_TYPE_UINT8_T 0 0; mk_field "satellite_prn" MAVLINK_TYPE_UINT8_T 20 1;
     mk_field "satellite_used" MAVLINK_TYPE_UINT8_T 20 21; mk_field "satellite_elevation" MAVLINK_TYPE_UINT8_T 20 41;
     mk_field "satellite_azimuth" MAVLINK_TYPE_UINT8_T 20 61; mk_field "satellite_snr" MAVLINK_TYPE_UINT8_T 20 81]
    [put uint8_t 0 "satellites_visible"; put_array uint8_t 1 "satellite_prn" 20;
     put_array uint8_t 21 "satellite_used" 20; put_array uint8_t 41 "satellite_elevation" 20;
     put_array uint8_t 61 "satellite_azimuth" 20; put_array uint8_t 81 "satellite_snr" 20]
    [assign "satellites_visible" "satellites_visible"; copy_array "satellite_prn" "satellite_prn" uint8_t 20;
     copy_array "satellite_used" "satellite_used" uint8_t 20;
     copy_array "satellite_elevation" "satellite_elevation" uint8_t 20;
     copy_array "satellite_azimuth" "satellite_azimuth" uint8_t 20;
     copy_array "satellite_snr" "satellite_snr" uint8_t 20].
Definition GET_GPS_STATUS : list getter :=
    [mk_getter "satellites_visible" uint8_t 0 0; mk_getter "satellite_prn" uint8_t 20 1;
     mk_getter "satellite_used" uint8_t 20 21; mk_getter "satellite_elevation" uint8_t 20 41;
     mk_getter "satellite_azimuth" uint8_t 20 61; mk_getter "satellite_snr" uint8_t 20 81].

Definition MSG_SCALED_IMU : mav_message :=
  mk_message 26 "SCALED_IMU" 22 24 170 false
    [mk_member uint32_t "time_boot_ms" 0; mk_member int16_t "xacc" 0; mk_member int16_t "yacc" 0;
     mk_member int16_t "zacc" 0; mk_member int16_t "xgyro" 0; mk_member int16_t "ygyro" 0;
     mk_member int16_t "zgyro" 0; mk_member int16_t "xmag" 0; mk_member int16_t "ymag" 0; mk_member int16_t "zmag" 0;
     mk_member int16_t "temperature" 0]
    [mk_field "time_boot_ms" MAVLINK_TYPE_UINT32_T 0 0; mk_field "xacc" MAVLINK_TYPE_INT16_T 0 4;
     mk_field "yacc" MAVLINK_TYPE_INT16_T 0 6; mk_field "zacc" MAVLINK_TYPE_INT16_T 0 8;
     mk_field "xgyro" MAVLINK_TYPE_INT16_T 0 10; mk_field "ygyro" MAVLINK_TYPE_INT16_T 0 12;
     mk_field "zgyro" MAVLINK_TYPE_INT16_T 0 14; mk_field "xmag" MAVLINK_TYPE_INT16_T 0 16;
     mk_field "ymag" MAVLINK_TYPE_INT16_T 0 18; mk_field "zmag" MAVLINK_TYPE_INT16_T 0 20;
     mk_field "temperature" MAVLINK_TYPE_INT16_T 0 22]
    [put uint32_t 0 "time_boot_ms"; put int16_t 4 "xacc"; put int16_t 6 "yacc"; put int16_t 8 "zacc";
     put int16_t 10 "xgyro"; put int16_t 12 "ygyro"; put int16_t 14 "zgyro"; put int16_t 16 "xmag";
     put int16_t 18 "ymag"; put int16_t 20 "zmag"; put int16_t 22 "temperature"]
    [assign "time_boot_ms" "time_boot_ms"; assign "xacc" "xacc"; assign "yacc" "yacc"; assign "zacc" "zacc";
     assign "xgyro" "xgyro"; assign "ygyro" "ygyro"; assign "zgyro" "zgyro"; assign "xmag" "xmag";
     assign "ymag" "ymag"; assign "zmag" "zmag"; assign "temperature" "temperature"].
Definition GET_SCALED_IMU : list getter :=
    [mk_getter "time_boot_ms" uint32_t 0 0; mk_getter "xacc" int16_t 0 4; mk_getter "yacc" int16_t 0 6;
     mk_getter "zacc" int16_t 0 8; mk_getter "xgyro" int16_t 0 10; mk_getter "ygyro" int16_t 0 12;
     mk_getter "zgyro" int16_t 0 14; mk_getter "xmag" int16_t 0 16; mk_getter "ymag" int16_t 0 18;
     mk_getter "zmag" int16_t 0 20; mk_getter "temperature" int16_t 0 22].

Definition MSG_RAW_IMU : mav_message :=
  mk_message 27 "RAW_IMU" 26 29 144 true
    [mk_member uint64_t "time_usec" 0; mk_member int16_t "xacc" 0; mk_member int16_t "yacc" 0;
     mk_member int16_t "zacc" 0; mk_member int16_t "xgyro" 0; mk_member int16_t "ygyro" 0;
     mk_member int16_t "zgyro" 0; mk_member int16_t "xmag" 0; mk_member int16_t "ymag" 0; mk_member int16_t "zmag" 0;
     mk_member uint8_t "id" 0; mk_member int16_t "temperature" 0]
    [mk_field "time_usec" MAVLINK_TYPE_UINT64_T 0 0; mk_field "xacc" MAVLINK_TYPE_INT16_T 0 8;
     mk_field "yacc" MAVLINK_TYPE_INT16_T 0 10; mk_field "zacc" MAVLINK_TYPE_INT16_T 0 12;
     mk_field "xgyro" MAVLINK_TYPE_INT16_T 0 14; mk_field "ygyro" MAVLINK_TYPE_INT16_T 0 16;
     mk_field "zgyro" MAVLINK_TYPE_INT16_T 0 18; mk_field "xmag" MAVLINK_TYPE_INT16_T 0 20;
     mk_field "ymag" MAVLINK_TYPE_INT16_T 0 22; mk_field "zmag" MAVLINK_TYPE_INT16_T 0 24;
     mk_field "id" MAVLINK_TYPE_UINT8_T 0 26; mk_field "temperature" MAVLINK_TYPE_INT16_T 0 27]
    [put uint64_t 0 "time_usec"; put int16_t 8 "xacc"; put int16_t 10 "yacc"; put int16_t 12 "zacc";
     put int16_t 14 "xgyro"; put int16_t 16 "ygyro"; put int16_t 18 "zgyro"; put int16_t 20 "xmag";
     put int16_t 22 "ymag"; put int16_t 24 "zmag"; put uint8_t 26 "id"; put int16_t 27 "temperature"]
    [assign "time_usec" "time_usec"; assign "xacc" "xacc"; assign "yacc" "yacc"; assign "zacc" "zacc";
     assign "xgyro" "xgyro"; assign "ygyro" "ygyro"; assign "zgyro" "zgyro"; assign "xmag" "xmag";
     assign "ymag" "ymag"; assign "zmag" "zmag"; assign "id" "id"; assign "temperature" "temperature"].
Definition GET_RAW_IMU : list getter :=
    [mk_getter "time_usec" uint64_t 0 0; mk_getter "xacc" int16_t 0 8; mk_getter "yacc" int16_t 0 10;
     mk_getter "zacc" int16_t 0 12; mk_getter "xgyro" int16_t 0 14; mk_getter "ygyro" int16_t 0 16;
     mk_getter "zgyro" int16_t 0 18; mk_getter "xmag" int16_t 0 20; mk_getter "ymag" int16_t 0 22;
     mk_getter "zmag" int16_t 0 24; mk_getter "id" uint8_t 0 26; mk_getter "temperature" int16_t 0 27].

Definition MSG_RAW_PRESSURE : mav_message :=
  mk_message 28 "RAW_PRESSURE" 16 16 67 false
    [mk_member uint64_t "time_usec" 0; mk_member int16_t "press_abs" 0; mk_member int16_t "press_diff1" 0;
     mk_member int16_t "press_diff2" 0; mk_member int16_t "temperature" 0]
    [mk_field "time_usec" MAVLINK_TYPE_UINT64_T 0 0; mk_field "press_abs" MAVLINK_TYPE_INT16_T 0 8;
     mk_field "press_diff1" MAVLINK_TYPE_INT16_T 0 10; mk_field "press_diff2" MAVLINK_TYPE_INT16_T 0 12;
     mk_field "temperature" MAVLINK_TYPE_INT16_T 0 14]
    [put uint64_t 0 "time_usec"; put int16_t 8 "press_abs"; put int16_t 10 "press_diff1";
     put int16_t 12 "press_diff2"; put int16_t 14 "temperature"]
    [assign "time_usec" "time_usec"; assign "press_abs" "press_abs"; assign "press_diff1" "press_diff1";
     assign "press_diff2" "press_diff2"; assign "temperature" "temperature"].
Definition GET_RAW_PRESSURE : list getter :=
    [mk_getter "time_usec" uint64_t 0 0; mk_getter "press_abs" int16_t 0 8; mk_getter "press_diff1" int16_t 0 10;
     mk_getter "press_diff2" int16_t 0 12; mk_getter "temperature" int16_t 0 14].

Definition MSG_SCALED_PRESSURE : mav_message :=
  mk_message 29 "SCALED_PRESSURE" 14 16 115 false
    [mk_member uint32_t "time_boot_ms" 0; mk_member float_t "press_abs" 0; mk_member float_t "press_diff" 0;
     mk_member int16_t "temperature" 0; mk_member int16_t "temperature_press_diff" 0]
    [mk_field "time_boot_ms" MAVLINK_TYPE_UINT32_T 0 0; mk_field "press_abs" MAVLINK_TYPE_FLOAT 0 4;
     mk_field "press_diff" MAVLINK_TYPE_FLOAT 0 8; mk_field "temperature" MAVLINK_TYPE_INT16_T 0 12;
     mk_field "temperature_press_diff" MAVLINK_TYPE_INT16_T 0 14]
    [put uint32_t 0 "time_boot_ms"; put float_t 4 "press_abs"; put float_t 8 "press_diff";
     put int16_t 12 "temperature"; put int16_t 14 "temperature_press_diff"]
    [assign "time_boot_ms" "time_boot_ms"; assign "press_abs" "press_abs"; assign "press_diff" "press_diff";
     assign "temperature" "temperature"; assign "temperature_press_diff" "temperature_press_diff"].
Definition GET_SCALED_PRESSURE : list getter :=
    [mk_getter "time_boot_ms" uint32_t 0 0; mk_getter "press_abs" float_t 0 4; mk_getter "press_diff" float_t 0 8;
     mk_getter "temperature" int16_t 0 12; mk_getter "temperature_press_diff" int16_t 0 14].

Definition MSG_ATTITUDE : mav_message :=
  mk_message 30 "ATTITUDE" 28 28 39 false
    [mk_member uint32_t "time_boot_ms" 0; mk_member float_t "roll" 0; mk_member float_t "pitch" 0;
     mk_member float_t "yaw" 0; mk_member float_t "rollspeed" 0; mk_member float_t "pitchspeed" 0;
     mk_member float_t "yawspeed" 0]
    [mk_field "time_boot_ms" MAVLINK_TYPE_UINT32_T 0 0; mk_field "roll" MAVLINK_TYPE_FLOAT 0 4;
     mk_field "pitch" MAVLINK_TYPE_FLOAT 0 8; mk_field "yaw" MAVLINK_TYPE_FLOAT 0 12;
     mk_field "rollspeed" MAVLINK_TYPE_FLOAT 0 16; mk_field "pitchspeed" MAVLINK_TYPE_FLOAT 0 20;
     mk_field "yawspeed" MAVLINK_TYPE_FLOAT 0 24]
    [put uint32_t 0 "time_boot_ms"; put float_t 4 "roll"; put float_t 8 "pitch"; put float_t 12 "yaw";
     put float_t 16 "rollspeed"; put float_t 20 "pitchspeed"; put float_t 24 "yawspeed"]
    [assign "time_boot_ms" "time_boot_ms"; assign "roll" "roll"; assign "pitch" "pitch"; assign "yaw" "yaw";
     assign "rollspeed" "rollspeed"; assign "pitchspeed" "pitchspeed"; assign "yawspeed" "yawspeed"].
Definition GET_ATTITUDE : list getter :=
    [mk_getter "time_boot_ms" uint32_t 0 0; mk_getter "roll" float_t 0 4; mk_getter "pitch" float_t 0 8;
     mk_getter "yaw" float_t 0 12; mk_getter "rollspeed" float_t 0 16; mk_getter "pitchspeed" float_t 0 20;
     mk_getter "yawspeed" float_t 0 24].

Definition MSG_ATTITUDE_QUATERNION : mav_message :=
  mk_message 31 "ATTITUDE_QUATERNION" 32 48 246 false
    [mk_member uint32_t "time_boot_ms" 0; mk_member float_t "q1" 0; mk_member float_t "q2" 0;
     mk_member float_t "q3" 0; mk_member float_t "q4" 0; mk_member float_t "rollspeed" 0;
     mk_member float_t "pitchspeed" 0; mk_member float_t "yawspeed" 0; mk_member float_t "repr_offset_q" 4]
    [mk_field "time_boot_ms" MAVLINK_TYPE_UINT32_T 0 0; mk_field "q1" MAVLINK_TYPE_FLOAT 0 4;
     mk_field "q2" MAVLINK_TYPE_FLOAT 0 8; mk_field "q3" MAVLINK_TYPE_FLOAT 0 12;
     mk_field "q4" MAVLINK_TYPE_FLOAT 0 16; mk_field "rollspeed" MAVLINK_TYPE_FLOAT 0 20;
     mk_field "pitchspeed" MAVLINK_TYPE_FLOAT 0 24; mk_field "yawspeed" MAVLINK_TYPE_FLOAT 0 28;
     mk_field "repr_offset_q" MAVLINK_TYPE_FLOAT 4 32]
    [put uint32_t 0 "time_boot_ms"; put float_t 4 "q1"; put float_t 8 "q2"; put float_t 12 "q3"; put float_t 16 "q4";
     put float_t 20 "rollspeed"; put float_t 24 "pitchspeed"; put float_t 28 "yawspeed";
     put_array float_t 32 "repr_offset_q" 4]
    [assign "time_boot_ms" "time_boot_ms"; assign "q1" "q1"; assign "q2" "q2"; assign "q3" "q3"; assign "q4" "q4";
     assign "rollspeed" "rollspeed"; assign "pitchspeed" "pitchspeed"; assign "yawspeed" "yawspeed";
     copy_array "repr_offset_q" "repr_offset_q" float_t 4].
Definition GET_ATTITUDE_QUATERNION : list getter :=
    [mk_getter "time_boot_ms" uint32_t 0 0; mk_getter "q1" float_t 0 4; mk_getter "q2" float_t 0 8;
     mk_getter "q3" float_t 0 12; mk_getter "q4" float_t 0 16; mk_getter "rollspeed" float_t 0 20;
     mk_getter "pitchspeed" float_t 0 24; mk_getter "yawspeed" float_t 0 28; mk_getter "repr_offset_q" float_t 4 32].

Definition MSG_LOCAL_POSITION_NED : mav_message :=
  mk_message 32 "LOCAL_POSITION_NED" 28 28 185 false
    [mk_member uint32_t "time_boot_ms" 0; mk_member float_t "x" 0; mk_member float_t "y" 0; mk_member float_t "z" 0;
     mk_member float_t "vx" 0; mk_member float_t "vy" 0; mk_member float_t "vz" 0]
    [mk_field "time_boot_ms" MAVLINK_TYPE_UINT32_T 0 0; mk_field "x" MAVLINK_TYPE_FLOAT 0 4;
     mk_field "y" MAVLINK_TYPE_FLOAT 0 8; mk_field "z" MAVLINK_TYPE_FLOAT 0 12; mk_field "vx" MAVLINK_TYPE_FLOAT 0 16;
     mk_field "vy" MAVLINK_TYPE_FLOAT 0 20; mk_field "vz" MAVLINK_TYPE_FLOAT 0 24]
    [put uint32_t 0 "time_boot_ms"; put float_t 4 "x"; put float_t 8 "y"; put float_t 12 "z"; put float_t 16 "vx";
     put float_t 20 "vy"; put float_t 24 "vz"]
    [assign "time_boot_ms" "time_boot_ms"; assign "x" "x"; assign "y" "y"; assign "z" "z"; assign "vx" "vx";
     assign "vy" "vy"; assign "vz" "vz"].
Definition GET_LOCAL_POSITION_NED : list getter :=
    [mk_getter "time_boot_ms" uint32_t 0 0; mk_getter "x" float_t 0 4; mk_getter "y" float_t 0 8;
     mk_getter "z" float_t 0 12; mk_getter "vx" float_t 0 16; mk_getter "vy" float_t 0 20;
     mk_getter "vz" float_t 0 24].

Definition MSG_GLOBAL_POSITION_INT : mav_message :=
  mk_message 33 "GLOBAL_POSITION_INT" 28 28 104 false
    [mk_member uint32_t "time_boot_ms" 0; mk_member int32_t "lat" 0; mk_member int32_t "lon" 0;
     mk_member int32_t "alt" 0; mk_member int32_t "relative_alt" 0; mk_member int16_t "vx" 0;
     mk_member int16_t "vy" 0; mk_member int16_t "vz" 0; mk_member uint16_t "hdg" 0]
    [mk_field "time_boot_ms" MAVLINK_TYPE_UINT32_T 0 0; mk_field "lat" MAVLINK_TYPE_INT32_T 0 4;
     mk_field "lon" MAVLINK_TYPE_INT32_T 0 8; mk_field "alt" MAVLINK_TYPE_INT32_T 0 12;
     mk_field "relative_alt" MAVLINK_TYPE_INT32_T 0 16; mk_field "vx" MAVLINK_TYPE_INT16_T 0 20;
     mk_field "vy" MAVLINK_TYPE_INT16_T 0 22; mk_field "vz" MAVLINK_TYPE_INT16_T 0 24;
     mk_field "hdg" MAVLINK_TYPE_UINT16_T 0 26]
    [put uint32_t 0 "time_boot_ms"; put int32_t 4 "lat"; put int32_t 8 "lon"; put int32_t 12 "alt";
     put int32_t 16 "relative_alt"; put int16_t 20 "vx"; put int16_t 22 "vy"; put int16_t 24 "vz";
     put uint16_t 26 "hdg"]
    [assign "time_boot_ms" "time_boot_ms"; assign "lat" "lat"; assign "lon" "lon"; assign "alt" "alt";
     assign "relative_alt" "relative_alt"; assign "vx" "vx"; assign "vy" "vy"; assign "vz" "vz"; assign "hdg" "hdg"].
Definition GET_GLOBAL_POSITION_INT : list getter :=
    [mk_getter "time_boot_ms" uint32_t 0 0; mk_getter "lat" int32_t 0 4; mk_getter "lon" int32_t 0 8;
     mk_getter "alt" int32_t 0 12; mk_getter "relative_alt" int32_t 0 16; mk_getter "vx" int16_t 0 20;
     mk_getter "vy" int16_t 0 22; mk_getter "vz" int16_t 0 24; mk_getter "hdg" uint16_t 0 26].

Definition MSG_RC_CHANNELS_SCALED : mav_message :=
  mk_message 34 "RC_CHANNELS_SCALED" 22 22 237 false
    [mk_member uint32_t "time_boot_ms" 0; mk_member int16_t "chan1_scaled" 0; mk_member int16_t "chan2_scaled" 0;
     mk_member int16_t "chan3_scaled" 0; mk_member int16_t "chan4_scaled" 0; mk_member int16_t "chan5_scaled" 0;
     mk_member int16_t "chan6_scaled" 0; mk_member int16_t "chan7_scaled" 0; mk_member int16_t "chan8_scaled" 0;
     mk_member uint8_t "port" 0; mk_member uint8_t "rssi" 0]
    [mk_field "time_boot_ms" MAVLINK_TYPE_UINT32_T 0 0; mk_field "port" MAVLINK_TYPE_UINT8_T 0 20;
     mk_field "chan1_scaled" MAVLINK_TYPE_INT16_T 0 4; mk_field "chan2_scaled" MAVLINK_TYPE_INT16_T 0 6;
     mk_field "chan3_scaled" MAVLINK_TYPE_INT16_T 0 8; mk_field "chan4_scaled" MAVLINK_TYPE_INT16_T 0 10;
     mk_field "chan5_scaled" MAVLINK_TYPE_INT16_T 0 12; mk_field "chan6_scaled" MAVLINK_TYPE_INT16_T 0 14;
     mk_field "chan7_scaled" MAVLINK_TYPE_INT16_T 0 16; mk_field "chan8_scaled" MAVLINK_TYPE_INT16_T 0 18;
     mk_field "rssi" MAVLINK_TYPE_UINT8_T 0 21]
    [put uint32_t 0 "time_boot_ms"; put int16_t 4 "chan1_scaled"; put int16_t 6 "chan2_scaled";
     put int16_t 8 "chan3_scaled"; put int16_t 10 "chan4_scaled"; put int16_t 12 "chan5_scaled";
     put int16_t 14 "chan6_scaled"; put int16_t 16 "chan7_scaled"; put int16_t 18 "chan8_scaled";
     put uint8_t 20 "port"; put uint8_t 21 "rssi"]
    [assign "time_boot_ms" "time_boot_ms"; assign "chan1_scaled" "chan1_scaled"; assign "chan2_scaled" "chan2_scaled";
     assign "chan3_scaled" "chan3_scaled"; assign "chan4_scaled" "chan4_scaled"; assign "chan5_scaled" "chan5_scaled";
     assign "chan6_scaled" "chan6_scaled"; assign "chan7_scaled" "chan7_scaled"; assign "chan8_scaled" "chan8_scaled";
     assign "port" "port"; assign "rssi" "rssi"].
Definition GET_RC_CHANNELS_SCALED : list getter :=
    [mk_getter "time_boot_ms" uint32_t 0 0; mk_getter "port" uint8_t 0 20; mk_getter "chan1_scaled" int16_t 0 4;
     mk_getter "chan2_scaled" int16_t 0 6; mk_getter "chan3_scaled" int16_t 0 8;
     mk_getter "chan4_scaled" int16_t 0 10; mk_getter "chan5_scaled" int16_t 0 12;
     mk_getter "chan6_scaled" int16_t 0 14; mk_getter "chan7_scaled" int16_t 0 16;
     mk_getter "chan8_scaled" int16_t 0 18; mk_getter "rssi" uint8_t 0 21].

Definition MSG_RC_CHANNELS_RAW : mav_message :=
  mk_message 35 "RC_CHANNELS_RAW" 22 22 244 false
    [mk_member uint32_t "time_boot_ms" 0; mk_member uint16_t "chan1_raw" 0; mk_member uint16_t "chan2_raw" 0;
     mk_member uint16_t "chan3_raw" 0; mk_member uint16_t "chan4_raw" 0; mk_member uint16_t "chan5_raw" 0;
     mk_member uint16_t "chan6_raw" 0; mk_member uint16_t "chan7_raw" 0; mk_member uint16_t "chan8_raw" 0;
     mk_member uint8_t "port" 0; mk_member uint8_t "rssi" 0]
    [mk_field "time_boot_ms" MAVLINK_TYPE_UINT32_T 0 0; mk_field "port" MAVLINK_TYPE_UINT8_T 0 20;
     mk_field "chan1_raw" MAVLINK_TYPE_UINT16_T 0 4; mk_field "chan2_raw" MAVLINK_TYPE_UINT16_T 0 6;
     mk_field "chan3_raw" MAVLINK_TYPE_UINT16_T 0 8; mk_field "chan4_raw" MAVLINK_TYPE_UINT16_T 0 10;
     mk_field "chan5_raw" MAVLINK_TYPE_UINT16_T 0 12; mk_field "chan6_raw" MAVLINK_TYPE_UINT16_T 0 14;
     mk_field "chan7_raw" MAVLINK_TYPE_UINT16_T 0 16; mk_field "chan8_raw" MAVLINK_TYPE_UINT16_T 0 18;
     mk_field "rssi" MAVLINK_TYPE_UINT8_T 0 21]
    [put uint32_t 0 "time_boot_ms"; put uint16_t 4 "chan1_raw"; put uint16_t 6 "chan2_raw";
     put uint16_t 8 "chan3_raw"; put uint16_t 10 "chan4_raw"; put uint16_t 12 "chan5_raw";
     put uint16_t 14 "chan6_raw"; put uint16_t 16 "chan7_raw"; put uint16_t 18 "chan8_raw"; put uint8_t 20 "port";
     put uint8_t 21 "rssi"]
    [assign "time_boot_ms" "time_boot_ms"; assign "chan1_raw" "chan1_raw"; assign "chan2_raw" "chan2_raw";
     assign "chan3_raw" "chan3_raw"; assign "chan4_raw" "chan4_raw"; assign "chan5_raw" "chan5_raw";
     assign "chan6_raw" "chan6_raw"; assign "chan7_raw" "chan7_raw"; assign "chan8_raw" "chan8_raw";
     assign "port" "port"; assign "rssi" "rssi"].
Definition GET_RC_CHANNELS_RAW : list getter :=
    [mk_getter "time_boot_ms" uint32_t 0 0; mk_getter "port" uint8_t 0 20; mk_getter "chan1_raw" uint16_t 0 4;
     mk_getter "chan2_raw" uint16_t 0 6; mk_getter "chan3_raw" uint16_t 0 8; mk_getter "chan4_raw" uint16_t 0 10;
     mk_getter "chan5_raw" uint16_t 0 12; mk_getter "chan6_raw" uint16_t 0 14; mk_getter "chan7_raw" uint16_t 0 16;
     mk_getter "chan8_raw" uint16_t 0 18; mk_getter "rssi" uint8_t 0 21].

Definition MSG_SERVO_OUTPUT_RAW : mav_message :=
  mk_message 36 "SERVO_OUTPUT_RAW" 21 37 222 true
    [mk_member uint32_t "time_usec" 0; mk_member uint16_t "servo1_raw" 0; mk_member uint16_t "servo2_raw" 0;
     mk_member uint16_t "servo3_raw" 0; mk_member uint16_t "servo4_raw" 0; mk_member uint16_t "servo5_raw" 0;
     mk_member uint16_t "servo6_raw" 0; mk_member uint16_t "servo7_raw" 0; mk_member uint16_t "servo8_raw" 0;
     mk_member uint8_t "port" 0; mk_member uint16_t "servo9_raw" 0; mk_member uint16_t "servo10_raw" 0;
     mk_member uint16_t "servo11_raw" 0; mk_member uint16_t "servo12_raw" 0; mk_member uint16_t "servo13_raw" 0;
     mk_member uint16_t "servo14_raw" 0; mk_member uint16_t "servo15_raw" 0; mk_member uint16_t "servo16_raw" 0]
    [mk_field "time_usec" MAVLINK_TYPE_UINT32_T 0 0; mk_field "port" MAVLINK_TYPE_UINT8_T 0 20;
     mk_field "servo1_raw" MAVLINK_TYPE_UINT16_T 0 4; mk_field "servo2_raw" MAVLINK_TYPE_UINT16_T 0 6;
     mk_field "servo3_raw" MAVLINK_TYPE_UINT16_T 0 8; mk_field "servo4_raw" MAVLINK_TYPE_UINT16_T 0 10;
     mk_field "servo5_raw" MAVLINK_TYPE_UINT16_T 0 12; mk_field "servo6_raw" MAVLINK_TYPE_UINT16_T 0 14;
     mk_field "servo7_raw" MAVLINK_TYPE_UINT16_T 0 16; mk_field "servo8_raw" MAVLINK_TYPE_UINT16_T 0 18;
     mk_field "servo9_raw" MAVLINK_TYPE_UINT16_T 0 21; mk_field "servo10_raw" MAVLINK_TYPE_UINT16_T 0 23;
     mk_field "servo11_raw" MAVLINK_TYPE_UINT16_T 0 25; mk_field "servo12_raw" MAVLINK_TYPE_UINT16_T 0 27;
     mk_field "servo13_raw" MAVLINK_TYPE_UINT16_T 0 29; mk_field "servo14_raw" MAVLINK_TYPE_UINT16_T 0 31;
     mk_field "servo15_raw" MAVLINK_TYPE_UINT16_T 0 33; mk_field "servo16_raw" MAVLINK_TYPE_UINT16_T 0 35]
    [put uint32_t 0 "time_usec"; put uint16_t 4 "servo1_raw"; put uint16_t 6 "servo2_raw";
     put uint16_t 8 "servo3_raw"; put uint16_t 10 "servo4_raw"; put uint16_t 12 "servo5_raw";
     put uint16_t 14 "servo6_raw"; put uint16_t 16 "servo7_raw"; put uint16_t 18 "servo8_raw"; put uint8_t 20 "port";
     put uint16_t 21 "servo9_raw"; put uint16_t 23 "servo10_raw"; put uint16_t 25 "servo11_raw";
     put uint16_t 27 "servo12_raw"; put uint16_t 29 "servo13_raw"; put uint16_t 31 "servo14_raw";
     put uint16_t 33 "servo15_raw"; put uint16_t 35 "servo16_raw"]
    [assign "time_usec" "time_usec"; assign "servo1_raw" "servo1_raw"; assign "servo2_raw" "servo2_raw";
     assign "servo3_raw" "servo3_raw"; assign "servo4_raw" "servo4_raw"; assign "servo5_raw" "servo5_raw";
     assign "servo6_raw" "servo6_raw"; assign "servo7_raw" "servo7_raw"; assign "servo8_raw" "servo8_raw";
     assign "port" "port"; assign "servo9_raw" "servo9_raw"; assign "servo10_raw" "servo10_raw";
     assign "servo11_raw" "servo11_raw"; assign "servo12_raw" "servo12_raw"; assign "servo13_raw" "servo13_raw";
     assign "servo14_raw" "servo14_raw"; assign "servo15_raw" "servo15_raw"; assign "servo16_raw" "servo16_raw"].
Definition GET_SERVO_OUTPUT_RAW : list getter :=
    [mk_getter "time_usec" uint32_t 0 0; mk_getter "port" uint8_t 0 20; mk_getter "servo1_raw" uint16_t 0 4;
     mk_getter "servo2_raw" uint16_t 0 6; mk_getter "servo3_raw" uint16_t 0 8; mk_getter "servo4_raw" uint16_t 0 10;
     mk_getter "servo5_raw" uint16_t 0 12; mk_getter "servo6_raw" uint16_t 0 14; mk_getter "servo7_raw" uint16_t 0 16;
     mk_getter "servo8_raw" uint16_t 0 18; mk_getter "servo9_raw" uint16_t 0 21;
     mk_getter "servo10_raw" uint16_t 0 23; mk_getter "servo11_raw" uint16_t 0 25;
     mk_getter "servo12_raw" uint16_t 0 27; mk_getter "servo13_raw" uint16_t 0 29;
     mk_getter "servo14_raw" uint16_t 0 31; mk_getter "servo15_raw" uint16_t 0 33;
     mk_getter "servo16_raw" uint16_t 0 35].

Definition MSG_MISSION_REQUEST_PARTIAL_LIST : mav_message :=
  mk_message 37 "MISSION_REQUEST_PARTIAL_LIST" 6 7 212 false
    [mk_member int16_t "start_index" 0; mk_member int16_t "end_index" 0; mk_member uint8_t "target_system" 0;
     mk_member uint8_t "target_component" 0; mk_member uint8_t "mission_type" 0]
    [mk_field "target_system" MAVLINK_TYPE_UINT8_T 0 4; mk_field "target_component" MAVLINK_TYPE_UINT8_T 0 5;
     mk_field "start_index" MAVLINK_TYPE_INT16_T 0 0; mk_field "end_index" MAVLINK_TYPE_INT16_T 0 2;
     mk_field "mission_type" MAVLINK_TYPE_UINT8_T 0 6]
    [put int16_t 0 "start_index"; put int16_t 2 "end_index"; put uint8_t 4 "target_system";
     put uint8_t 5 "target_component"; put uint8_t 6 "mission_type"]
    [assign "start_index" "start_index"; assign "end_index" "end_index"; assign "target_system" "target_system";
     assign "target_component" "target_component"; assign "mission_type" "mission_type"].
Definition GET_MISSION_REQUEST_PARTIAL_LIST : list getter :=
    [mk_getter "target_system" uint8_t 0 4; mk_getter "target_component" uint8_t 0 5;
     mk_getter "start_index" int16_t 0 0; mk_getter "end_index" int16_t 0 2; mk_getter "mission_type" uint8_t 0 6].

Definition MSG_MISSION_WRITE_PARTIAL_LIST : mav_message :=
  mk_message 38 "MISSION_WRITE_PARTIAL_LIST" 6 7 9 false
    [mk_member int16_t "start_index" 0; mk_member int16_t "end_index" 0; mk_member uint8_t "target_system" 0;
     mk_member uint8_t "target_component" 0; mk_member uint8_t "mission_type" 0]
    [mk_field "target_system" MAVLINK_TYPE_UINT8_T 0 4; mk_field "target_component" MAVLINK_TYPE_UINT8_T 0 5;
     mk_field "start_index" MAVLINK_TYPE_INT16_T 0 0; mk_field "end_index" MAVLINK_TYPE_INT16_T 0 2;
     mk_field "mission_type" MAVLINK_TYPE_UINT8_T 0 6]
    [put int16_t 0 "start_index"; put int16_t 2 "end_index"; put uint8_t 4 "target_system";
     put uint8_t 5 "target_component"; put uint8_t 6 "mission_type"]
    [assign "start_index" "start_index"; assign "end_index" "end_index"; assign "target_system" "target_system";
     assign "target_component" "target_component"; assign "mission_type" "mission_type"].
Definition GET_MISSION_WRITE_PARTIAL_LIST : list getter :=
    [mk_getter "target_system" uint8_t 0 4; mk_getter "target_component" uint8_t 0 5;
     mk_getter "start_index" int16_t 0 0; mk_getter "end_index" int16_t 0 2; mk_getter "mission_type" uint8_t 0 6].

Definition MSG_MISSION_ITEM : mav_message :=
  mk_message 39 "MISSION_ITEM" 37 38 254 false
    [mk_member float_t "param1" 0; mk_member float_t "param2" 0; mk_member float_t "param3" 0;
     mk_member float_t "param4" 0; mk_member float_t "x" 0; mk_member float_t "y" 0; mk_member float_t "z" 0;
     mk_member uint16_t "seq" 0; mk_member uint16_t "command" 0; mk_member uint8_t "target_system" 0;
     mk_member uint8_t "target_component" 0; mk_member uint8_t "frame" 0; mk_member uint8_t "current" 0;
     mk_member uint8_t "autocontinue" 0; mk_member uint8_t "mission_type" 0]
    [mk_field "target_system" MAVLINK_TYPE_UINT8_T 0 32; mk_field "target_component" MAVLINK_TYPE_UINT8_T 0 33;
     mk_field "seq" MAVLINK_TYPE_UINT16_T 0 28; mk_field "frame" MAVLINK_TYPE_UINT8_T 0 34;
     mk_field "command" MAVLINK_TYPE_UINT16_T 0 30; mk_field "current" MAVLINK_TYPE_UINT8_T 0 35;
     mk_field "autocontinue" MAVLINK_TYPE_UINT8_T 0 36; mk_field "param1" MAVLINK_TYPE_FLOAT 0 0;
     mk_field "param2" MAVLINK_TYPE_FLOAT 0 4; mk_field "param3" MAVLINK_TYPE_FLOAT 0 8;
     mk_field "param4" MAVLINK_TYPE_FLOAT 0 12; mk_field "x" MAVLINK_TYPE_FLOAT 0 16;
     mk_field "y" MAVLINK_TYPE_FLOAT 0 20; mk_field "z" MAVLINK_TYPE_FLOAT 0 24;
     mk_field "mission_type" MAVLINK_TYPE_UINT8_T 0 37]
    [put float_t 0 "param1"; put float_t 4 "param2"; put float_t 8 "param3"; put float_t 12 "param4";
     put float_t 16 "x"; put float_t 20 "y"; put float_t 24 "z"; put uint16_t 28 "seq"; put uint16_t 30 "command";
     put uint8_t 32 "target_system"; put uint8_t 33 "target_component"; put uint8_t 34 "frame";
     put uint8_t 35 "current"; put uint8_t 36 "autocontinue"; put uint8_t 37 "mission_type"]
    [assign "param1" "param1"; assign "param2" "param2"; assign "param3" "param3"; assign "param4" "param4";
     assign "x" "x"; assign "y" "y"; assign "z" "z"; assign "seq" "seq"; assign "command" "command";
     assign "target_system" "target_system"; assign "target_component" "target_component"; assign "frame" "frame";
     assign "current" "current"; assign "autocontinue" "autocontinue"; assign "mission_type" "mission_type"].
Definition GET_MISSION_ITEM : list getter :=
    [mk_getter "target_system" uint8_t 0 32; mk_getter "target_component" uint8_t 0 33; mk_getter "seq" uint16_t 0 28;
     mk_getter "frame" uint8_t 0 34; mk_getter "command" uint16_t 0 30; mk_getter "current" uint8_t 0 35;
     mk_getter "autocontinue" uint8_t 0 36; mk_getter "param1" float_t 0 0; mk_getter "param2" float_t 0 4;
     mk_getter "param3" float_t 0 8; mk_getter "param4" float_t 0 12; mk_getter "x" float_t 0 16;
     mk_getter "y" float_t 0 20; mk_getter "z" float_t 0 24; mk_getter "mission_type" uint8_t 0 37].

Definition MSG_MISSION_REQUEST : mav_message :=
  mk_message 40 "MISSION_REQUEST" 4 5 230 false
    [mk_member uint16_t "seq" 0; mk_member uint8_t "target_system" 0; mk_member uint8_t "target_component" 0;
     mk_member uint8_t "mission_type" 0]
    [mk_field "target_system" MAVLINK_TYPE_UINT8_T 0 2; mk_field "target_component" MAVLINK_TYPE_UINT8_T 0 3;
     mk_field "seq" MAVLINK_TYPE_UINT16_T 0 0; mk_field "mission_type" MAVLINK_TYPE_UINT8_T 0 4]
    [put uint16_t 0 "seq"; put uint8_t 2 "target_system"; put uint8_t 3 "target_component";
     put uint8_t 4 "mission_type"]
    [assign "seq" "seq"; assign "target_system" "target_system"; assign "target_component" "target_component";
     assign "mission_type" "mission_type"].
Definition GET_MISSION_REQUEST : list getter :=
    [mk_getter "target_system" uint8_t 0 2; mk_getter "target_component" uint8_t 0 3; mk_getter "seq" uint16_t 0 0;
     mk_getter "mission_type" uint8_t 0 4].

Definition MSG_MISSION_SET_CURRENT : mav_message :=
  mk_message 41 "MISSION_SET_CURRENT" 4 4 28 false
    [mk_member uint16_t "seq" 0; mk_member uint8_t "target_system" 0; mk_member uint8_t "target_component" 0]
    [mk_field "target_system" MAVLINK_TYPE_UINT8_T 0 2; mk_field "target_component" MAVLINK_TYPE_UINT8_T 0 3;
     mk_field "seq" MAVLINK_TYPE_UINT16_T 0 0]
    [put uint16_t 0 "seq"; put uint8_t 2 "target_system"; put uint8_t 3 "target_component"]
    [assign "seq" "seq"; assign "target_system" "target_system"; assign "target_component" "target_component"].
Definition GET_MISSION_SET_CURRENT : list getter :=
    [mk_getter "target_system" uint8_t 0 2; mk_getter "target_component" uint8_t 0 3; mk_getter "seq" uint16_t 0 0].

Definition MSG_MISSION_CURRENT : mav_message :=
  mk_message 42 "MISSION_CURRENT" 2 18 28 true
    [mk_member uint16_t "seq" 0; mk_member uint16_t "total" 0; mk_member uint8_t "mission_state" 0;
     mk_member uint8_t "mission_mode" 0; mk_member uint32_t "mission_id" 0; mk_member uint32_t "fence_id" 0;
     mk_member uint32_t "rally_points_id" 0]
    [mk_field "seq" MAVLINK_TYPE_UINT16_T 0 0; mk_field "total" MAVLINK_TYPE_UINT16_T 0 2;
     mk_field "mission_state" MAVLINK_TYPE_UINT8_T 0 4; mk_field "mission_mode" MAVLINK_TYPE_UINT8_T 0 5;
     mk_field "mission_id" MAVLINK_TYPE_UINT32_T 0 6; mk_field "fence_id" MAVLINK_TYPE_UINT32_T 0 10;
     mk_field "rally_points_id" MAVLINK_TYPE_UINT32_T 0 14]
    [put uint16_t 0 "seq"; put uint16_t 2 "total"; put uint8_t 4 "mission_state"; put uint8_t 5 "mission_mode";
     put uint32_t 6 "mission_id"; put uint32_t 10 "fence_id"; put uint32_t 14 "rally_points_id"]
    [assign "seq" "seq"; assign "total" "total"; assign "mission_state" "mission_state";
     assign "mission_mode" "mission_mode"; assign "mission_id" "mission_id"; assign "fence_id" "fence_id";
     assign "rally_points_id" "rally_points_id"].
Definition GET_MISSION_CURRENT : list getter :=
    [mk_getter "seq" uint16_t 0 0; mk_getter "total" uint16_t 0 2; mk_getter "mission_state" uint8_t 0 4;
     mk_getter "mission_mode" uint8_t 0 5; mk_getter "mission_id" uint32_t 0 6; mk_getter "fence_id" uint32_t 0 10;
     mk_getter "rally_points_id" uint32_t 0 14].

Definition MSG_MISSION_REQUEST_LIST : mav_message :=
  mk_message 43 "MISSION_REQUEST_LIST" 2 3 132 false
    [mk_member uint8_t "target_system" 0; mk_member uint8_t "target_component" 0; mk_member uint8_t "mission_type" 0]
    [mk_field "target_system" MAVLINK_TYPE_UINT8_T 0 0; mk_field "target_component" MAVLINK_TYPE_UINT8_T 0 1;
     mk_field "mission_type" MAVLINK_TYPE_UINT8_T 0 2]
    [put uint8_t 0 "target_system"; put uint8_t 1 "target_component"; put uint8_t 2 "mission_type"]
    [assign "target_system" "target_system"; assign "target_component" "target_component";
     assign "mission_type" "mission_type"].
Definition GET_MISSION_REQUEST_LIST : list getter :=
    [mk_getter "target_system" uint8_t 0 0; mk_getter "target_component" uint8_t 0 1;
     mk_getter "mission_type" uint8_t 0 2].

Definition MSG_MISSION_COUNT : mav_message :=
  mk_message 44 "MISSION_COUNT" 4 9 221 true
    [mk_member uint16_t "count" 0; mk_member uint8_t "target_system" 0; mk_member uint8_t "target_component" 0;
     mk_member uint8_t "mission_type" 0; mk_member uint32_t "opaque_id" 0]
    [mk_field "target_system" MAVLINK_TYPE_UINT8_T 0 2; mk_field "target_component" MAVLINK_TYPE_UINT8_T 0 3;
     mk_field "count" MAVLINK_TYPE_UINT16_T 0 0; mk_field "mission_type" MAVLINK_TYPE_UINT8_T 0 4;
     mk_field "opaque_id" MAVLINK_TYPE_UINT32_T 0 5]
    [put uint16_t 0 "count"; put uint8_t 2 "target_system"; put uint8_t 3 "target_component";
     put uint8_t 4 "mission_type"; put uint32_t 5 "opaque_id"]
    [assign "count" "count"; assign "target_system" "target_system"; assign "target_component" "target_component";
     assign "mission_type" "mission_type"; assign "opaque_id" "opaque_id"].
Definition GET_MISSION_COUNT : list getter :=
    [mk_getter "target_system" uint8_t 0 2; mk_getter "target_component" uint8_t 0 3; mk_getter "count" uint16_t 0 0;
     mk_getter "mission_type" uint8_t 0 4; mk_getter "opaque_id" uint32_t 0 5].

Definition MSG_MISSION_CLEAR_ALL : mav_message :=
  mk_message 45 "MISSION_CLEAR_ALL" 2 3 232 false
    [mk_member uint8_t "target_system" 0; mk_member uint8_t "target_component" 0; mk_member uint8_t "mission_type" 0]
    [mk_field "target_system" MAVLINK_TYPE_UINT8_T 0 0; mk_field "target_component" MAVLINK_TYPE_UINT8_T 0 1;
     mk_field "mission_type" MAVLINK_TYPE_UINT8_T 0 2]
    [put uint8_t 0 "target_system"; put uint8_t 1 "target_component"; put uint8_t 2 "mission_type"]
    [assign "target_system" "target_system"; assign "target_component" "target_component";
     assign "mission_type" "mission_type"].
Definition GET_MISSION_CLEAR_ALL : list getter :=
    [mk_getter "target_system" uint8_t 0 0; mk_getter "target_component" uint8_t 0 1;
     mk_getter "mission_type" uint8_t 0 2].

Definition MSG_MISSION_ITEM_REACHED : mav_message :=
  mk_message 46 "MISSION_ITEM_REACHED" 2 2 11 false
    [mk_member uint16_t "seq" 0]
    [mk_field "seq" MAVLINK_TYPE_UINT16_T 0 0]
    [put uint16_t 0 "seq"]
    [assign "seq" "seq"].
Definition GET_MISSION_ITEM_REACHED : list getter :=
    [mk_getter "seq" uint16_t 0 0].

Definition MSG_MISSION_ACK : mav_message :=
  mk_message 47 "MISSION_ACK" 3 8 153 false
    [mk_member uint8_t "target_system" 0; mk_member uint8_t "target_component" 0; mk_member uint8_t "type" 0;
     mk_member uint8_t "mission_type" 0; mk_member uint32_t "opaque_id" 0]
    [mk_field "target_system" MAVLINK_TYPE_UINT8_T 0 0; mk_field "target_component" MAVLINK_TYPE_UINT8_T 0 1;
     mk_field "type" MAVLINK_TYPE_UINT8_T 0 2; mk_field "mission_type" MAVLINK_TYPE_UINT8_T 0 3;
     mk_field "opaque_id" MAVLINK_TYPE_UINT32_T 0 4]
    [put uint8_t 0 "target_system"; put uint8_t 1 "target_component"; put uint8_t 2 "type";
     put uint8_t 3 "mission_type"; put uint32_t 4 "opaque_id"]
    [assign "target_system" "target_system"; assign "target_component" "target_component"; assign "type" "type";
     assign "mission_type" "mission_type"; assign "opaque_id" "opaque_id"].
Definition GET_MISSION_ACK : list getter :=
    [mk_getter "target_system" uint8_t 0 0; mk_getter "target_component" uint8_t 0 1; mk_getter "type" uint8_t 0 2;
     mk_getter "mission_type" uint8_t 0 3; mk_getter "opaque_id" uint32_t 0 4].

Definition MSG_SET_GPS_GLOBAL_ORIGIN : mav_message :=
  mk_message 48 "SET_GPS_GLOBAL_ORIGIN" 13 21 41 true
    [mk_member int32_t "latitude" 0; mk_member int32_t "longitude" 0; mk_member int32_t "altitude" 0;
     mk_member uint8_t "target_system" 0; mk_member uint64_t "time_usec" 0]
    [mk_field "target_system" MAVLINK_TYPE_UINT8_T 0 12; mk_field "latitude" MAVLINK_TYPE_INT32_T 0 0;
     mk_field "longitude" MAVLINK_TYPE_INT32_T 0 4; mk_field "altitude" MAVLINK_TYPE_INT32_T 0 8;
     mk_field "time_usec" MAVLINK_TYPE_UINT64_T 0 13]
    [put int32_t 0 "latitude"; put int32_t 4 "longitude"; put int32_t 8 "altitude"; put uint8_t 12 "target_system";
     put uint64_t 13 "time_usec"]
    [assign "latitude" "latitude"; assign "longitude" "longitude"; assign "altitude" "altitude";
     assign "target_system" "target_system"; assign "time_usec" "time_usec"].
Definition GET_SET_GPS_GLOBAL_ORIGIN : list getter :=
    [mk_getter "target_system" uint8_t 0 12; mk_getter "latitude" int32_t 0 0; mk_getter "longitude" int32_t 0 4;
     mk_getter "altitude" int32_t 0 8; mk_getter "time_usec" uint64_t 0 13].

Definition MSG_GPS_GLOBAL_ORIGIN : mav_message :=
  mk_message 49 "GPS_GLOBAL_ORIGIN" 12 20 39 true
    [mk_member int32_t "latitude" 0; mk_member int32_t "longitude" 0; mk_member int32_t "altitude" 0;
     mk_member uint64_t "time_usec" 0]
    [mk_field "latitude" MAVLINK_TYPE_INT32_T 0 0; mk_field "longitude" MAVLINK_TYPE_INT32_T 0 4;
     mk_field "altitude" MAVLINK_TYPE_INT32_T 0 8; mk_field "time_usec" MAVLINK_TYPE_UINT64_T 0 12]
    [put int32_t 0 "latitude"; put int32_t 4 "longitude"; put int32_t 8 "altitude"; put uint64_t 12 "time_usec"]
    [assign "latitude" "latitude"; assign "longitude" "longitude"; assign "altitude" "altitude";
     assign "time_usec" "time_usec"].
Definition GET_GPS_GLOBAL_ORIGIN : list getter :=
    [mk_getter "latitude" int32_t 0 0; mk_getter "longitude" int32_t 0 4; mk_getter "altitude" int32_t 0 8;
     mk_getter "time_usec" uint64_t 0 12].

Definition MSG_PARAM_MAP_RC : mav_message :=
  mk_message 50 "PARAM_MAP_RC" 37 37 78 false
    [mk_member float_t "param_value0" 0; mk_member float_t "scale" 0; mk_member float_t "param_value_min" 0;
     mk_member float_t "param_value_max" 0; mk_member int16_t "param_index" 0; mk_member uint8_t "target_system" 0;
     mk_member uint8_t "target_component" 0; mk_member char_t "param_id" 16;
     mk_member uint8_t "parameter_rc_channel_index" 0]
    [mk_field "target_system" MAVLINK_TYPE_UINT8_T 0 18; mk_field "target_component" MAVLINK_TYPE_UINT8_T 0 19;
     mk_field "param_id" MAVLINK_TYPE_CHAR 16 20; mk_field "param_index" MAVLINK_TYPE_INT16_T 0 16;
     mk_field "parameter_rc_channel_index" MAVLINK_TYPE_UINT8_T 0 36; mk_field "param_value0" MAVLINK_TYPE_FLOAT 0 0;
     mk_field "scale" MAVLINK_TYPE_FLOAT 0 4; mk_field "param_value_min" MAVLINK_TYPE_FLOAT 0 8;
     mk_field "param_value_max" MAVLINK_TYPE_FLOAT 0 12]
    [put float_t 0 "param_value0"; put float_t 4 "scale"; put float_t 8 "param_value_min";
     put float_t 12 "param_value_max"; put int16_t 16 "param_index"; put uint8_t 18 "target_system";
     put uint8_t 19 "target_component"; put uint8_t 36 "parameter_rc_channel_index";
     put_array char_t 20 "param_id" 16]
    [assign "param_value0" "param_value0"; assign "scale" "scale"; assign "param_value_min" "param_value_min";
     assign "param_value_max" "param_value_max"; assign "param_index" "param_index";
     assign "target_system" "target_system"; assign "target_component" "target_component";
     assign "parameter_rc_channel_index" "parameter_rc_channel_index"; copy_array "param_id" "param_id" char_t 16].
Definition GET_PARAM_MAP_RC : list getter :=
    [mk_getter "target_system" uint8_t 0 18; mk_getter "target_component" uint8_t 0 19;
     mk_getter "param_id" char_t 16 20; mk_getter "param_index" int16_t 0 16;
     mk_getter "parameter_rc_channel_index" uint8_t 0 36; mk_getter "param_value0" float_t 0 0;
     mk_getter "scale" float_t 0 4; mk_getter "param_value_min" float_t 0 8; mk_getter "param_value_max" float_t 0 12].

Definition MSG_MISSION_REQUEST_INT : mav_message :=
  mk_message 51 "MISSION_REQUEST_INT" 4 5 196 false
    [mk_member uint16_t "seq" 0; mk_member uint8_t "target_system" 0; mk_member uint8_t "target_component" 0;
     mk_member uint8_t "mission_type" 0]
    [mk_field "target_system" MAVLINK_TYPE_UINT8_T 0 2; mk_field "target_component" MAVLINK_TYPE_UINT8_T 0 3;
     mk_field "seq" MAVLINK_TYPE_UINT16_T 0 0; mk_field "mission_type" MAVLINK_TYPE_UINT8_T 0 4]
    [put uint16_t 0 "seq"; put uint8_t 2 "target_system"; put uint8_t 3 "target_component";
     put uint8_t 4 "mission_type"]
    [assign "seq" "seq"; assign "target_system" "target_system"; assign "target_component" "target_component";
     assign "mission_type" "mission_type"].
Definition GET_MISSION_REQUEST_INT : list getter :=
    [mk_getter "target_system" uint8_t 0 2; mk_getter "target_component" uint8_t 0 3; mk_getter "seq" uint16_t 0 0;
     mk_getter "mission_type" uint8_t 0 4].

Definition MSG_SAFETY_SET_ALLOWED_AREA : mav_message :=
  mk_message 54 "SAFETY_SET_ALLOWED_AREA" 27 27 15 false
    [mk_member float_t "p1x" 0; mk_member float_t "p1y" 0; mk_member float_t "p1z" 0; mk_member float_t "p2x" 0;
     mk_member float_t "p2y" 0; mk_member float_t "p2z" 0; mk_member uint8_t "target_system" 0;
     mk_member uint8_t "target_component" 0; mk_member uint8_t "frame" 0]
    [mk_field "target_system" MAVLINK_TYPE_UINT8_T 0 24; mk_field "target_component" MAVLINK_TYPE_UINT8_T 0 25;
     mk_field "frame" MAVLINK_TYPE_UINT8_T 0 26; mk_field "p1x" MAVLINK_TYPE_FLOAT 0 0;
     mk_field "p1y" MAVLINK_TYPE_FLOAT 0 4; mk_field "p1z" MAVLINK_TYPE_FLOAT 0 8;
     mk_field "p2x" MAVLINK_TYPE_FLOAT 0 12; mk_field "p2y" MAVLINK_TYPE_FLOAT 0 16;
     mk_field "p2z" MAVLINK_TYPE_FLOAT 0 20]
    [put float_t 0 "p1x"; put float_t 4 "p1y"; put float_t 8 "p1z"; put float_t 12 "p2x"; put float_t 16 "p2y";
     put float_t 20 "p2z"; put uint8_t 24 "target_system"; put uint8_t 25 "target_component"; put uint8_t 26 "frame"]
    [assign "p1x" "p1x"; assign "p1y" "p1y"; assign "p1z" "p1z"; assign "p2x" "p2x"; assign "p2y" "p2y";
     assign "p2z" "p2z"; assign "target_system" "target_system"; assign "target_component" "target_component";
     assign "frame" "frame"].
Definition GET_SAFETY_SET_ALLOWED_AREA : list getter :=
    [mk_getter "target_system" uint8_t 0 24; mk_getter "target_component" uint8_t 0 25;
     mk_getter "frame" uint8_t 0 26; mk_getter "p1x" float_t 0 0; mk_getter "p1y" float_t 0 4;
     mk_getter "p1z" float_t 0 8; mk_getter "p2x" float_t 0 12; mk_getter "p2y" float_t 0 16;
     mk_getter "p2z" float_t 0 20].

Definition MSG_SAFETY_ALLOWED_AREA : mav_message :=
  mk_message 55 "SAFETY_ALLOWED_AREA" 25 25 3 false
    [mk_member float_t "p1x" 0; mk_member float_t "p1y" 0; mk_member float_t "p1z" 0; mk_member float_t "p2x" 0;
     mk_member float_t "p2y" 0; mk_member float_t "p2z" 0; mk_member uint8_t "frame" 0]
    [mk_field "frame" MAVLINK_TYPE_UINT8_T 0 24; mk_field "p1x" MAVLINK_TYPE_FLOAT 0 0;
     mk_field "p1y" MAVLINK_TYPE_FLOAT 0 4; mk_field "p1z" MAVLINK_TYPE_FLOAT 0 8;
     mk_field "p2x" MAVLINK_TYPE_FLOAT 0 12; mk_field "p2y" MAVLINK_TYPE_FLOAT 0 16;
     mk_field "p2z" MAVLINK_TYPE_FLOAT 0 20]
    [put float_t 0 "p1x"; put float_t 4 "p1y"; put float_t 8 "p1z"; put float_t 12 "p2x"; put float_t 16 "p2y";
     put float_t 20 "p2z"; put uint8_t 24 "frame"]
    [assign "p1x" "p1x"; assign "p1y" "p1y"; assign "p1z" "p1z"; assign "p2x" "p2x"; assign "p2y" "p2y";
     assign "p2z" "p2z"; assign "frame" "frame"].
Definition GET_SAFETY_ALLOWED_AREA : list getter :=
    [mk_getter "frame" uint8_t 0 24; mk_getter "p1x" float_t 0 0; mk_getter "p1y" float_t 0 4;
     mk_getter "p1z" float_t 0 8; mk_getter "p2x" float_t 0 12; mk_getter "p2y" float_t 0 16;
     mk_getter "p2z" float_t 0 20].

Definition MSG_ATTITUDE_QUATERNION_COV : mav_message :=
  mk_message 61 "ATTITUDE_QUATERNION_COV" 72 72 167 false
    [mk_member uint64_t "time_usec" 0; mk_member float_t "q" 4; mk_member float_t "rollspeed" 0;
     mk_member float_t "pitchspeed" 0; mk_member float_t "yawspeed" 0; mk_member float_t "covariance" 9]
    [mk_field "time_usec" MAVLINK_TYPE_UINT64_T 0 0; mk_field "q" MAVLINK_TYPE_FLOAT 4 8;
     mk_field "rollspeed" MAVLINK_TYPE_FLOAT 0 24; mk_field "pitchspeed" MAVLINK_TYPE_FLOAT 0 28;
     mk_field "yawspeed" MAVLINK_TYPE_FLOAT 0 32; mk_field "covariance" MAVLINK_TYPE_FLOAT 9 36]
    [put uint64_t 0 "time_usec"; put float_t 24 "rollspeed"; put float_t 28 "pitchspeed"; put float_t 32 "yawspeed";
     put_array float_t 8 "q" 4; put_array float_t 36 "covariance" 9]
    [assign "time_usec" "time_usec"; assign "rollspeed" "rollspeed"; assign "pitchspeed" "pitchspeed";
     assign "yawspeed" "yawspeed"; copy_array "q" "q" float_t 4; copy_array "covariance" "covariance" float_t 9].
Definition GET_ATTITUDE_QUATERNION_COV : list getter :=
    [mk_getter "time_usec" uint64_t 0 0; mk_getter "q" float_t 4 8; mk_getter "rollspeed" float_t 0 24;
     mk_getter "pitchspeed" float_t 0 28; mk_getter "yawspeed" float_t 0 32; mk_getter "covariance" float_t 9 36].

Definition MSG_NAV_CONTROLLER_OUTPUT : mav_message :=
  mk_message 62 "NAV_CONTROLLER_OUTPUT" 26 26 183 false
    [mk_member float_t "nav_roll" 0; mk_member float_t "nav_pitch" 0; mk_member float_t "alt_error" 0;
     mk_member float_t "aspd_error" 0; mk_member float_t "xtrack_error" 0; mk_member int16_t "nav_bearing" 0;
     mk_member int16_t "target_bearing" 0; mk_member uint16_t "wp_dist" 0]
    [mk_field "nav_roll" MAVLINK_TYPE_FLOAT 0 0; mk_field "nav_pitch" MAVLINK_TYPE_FLOAT 0 4;
     mk_field "nav_bearing" MAVLINK_TYPE_INT16_T 0 20; mk_field "target_bearing" MAVLINK_TYPE_INT16_T 0 22;
     mk_field "wp_dist" MAVLINK_TYPE_UINT16_T 0 24; mk_field "alt_error" MAVLINK_TYPE_FLOAT 0 8;
     mk_field "aspd_error" MAVLINK_TYPE_FLOAT 0 12; mk_field "xtrack_error" MAVLINK_TYPE_FLOAT 0 16]
    [put float_t 0 "nav_roll"; put float_t 4 "nav_pitch"; put float_t 8 "alt_error"; put float_t 12 "aspd_error";
     put float_t 16 "xtrack_error"; put int16_t 20 "nav_bearing"; put int16_t 22 "target_bearing";
     put uint16_t 24 "wp_dist"]
    [assign "nav_roll" "nav_roll"; assign "nav_pitch" "nav_pitch"; assign "alt_error" "alt_error";
     assign "aspd_error" "aspd_error"; assign "xtrack_error" "xtrack_error"; assign "nav_bearing" "nav_bearing";
     assign "target_bearing" "target_bearing"; assign "wp_dist" "wp_dist"].
Definition GET_NAV_CONTROLLER_OUTPUT : list getter :=
    [mk_getter "nav_roll" float_t 0 0; mk_getter "nav_pitch" float_t 0 4; mk_getter "nav_bearing" int16_t 0 20;
     mk_getter "target_bearing" int16_t 0 22; mk_getter "wp_dist" uint16_t 0 24; mk_getter "alt_error" float_t 0 8;
     mk_getter "aspd_error" float_t 0 12; mk_getter "xtrack_error" float_t 0 16].

Definition MSG_GLOBAL_POSITION_INT_COV : mav_message :=
  mk_message 63 "GLOBAL_POSITION_INT_COV" 181 181 119 false
    [mk_member uint64_t "time_usec" 0; mk_member int32_t "lat" 0; mk_member int32_t "lon" 0;
     mk_member int32_t "alt" 0; mk_member int32_t "relative_alt" 0; mk_member float_t "vx" 0;
     mk_member float_t "vy" 0; mk_member float_t "vz" 0; mk_member float_t "covariance" 36;
     mk_member uint8_t "estimator_type" 0]
    [mk_field "time_usec" MAVLINK_TYPE_UINT64_T 0 0; mk_field "estimator_type" MAVLINK_TYPE_UINT8_T 0 180;
     mk_field "lat" MAVLINK_TYPE_INT32_T 0 8; mk_field "lon" MAVLINK_TYPE_INT32_T 0 12;
     mk_field "alt" MAVLINK_TYPE_INT32_T 0 16; mk_field "relative_alt" MAVLINK_TYPE_INT32_T 0 20;
     mk_field "vx" MAVLINK_TYPE_FLOAT 0 24; mk_field "vy" MAVLINK_TYPE_FLOAT 0 28;
     mk_field "vz" MAVLINK_TYPE_FLOAT 0 32; mk_field "covariance" MAVLINK_TYPE_FLOAT 36 36]
    [put uint64_t 0 "time_usec"; put int32_t 8 "lat"; put int32_t 12 "lon"; put int32_t 16 "alt";
     put int32_t 20 "relative_alt"; put float_t 24 "vx"; put float_t 28 "vy"; put float_t 32 "vz";
     put uint8_t 180 "estimator_type"; put_array float_t 36 "covariance" 36]
    [assign "time_usec" "time_usec"; assign "lat" "lat"; assign "lon" "lon"; assign "alt" "alt";
     assign "relative_alt" "relative_alt"; assign "vx" "vx"; assign "vy" "vy"; assign "vz" "vz";
     assign "estimator_type" "estimator_type"; copy_array "covariance" "covariance" float_t 36].
Definition GET_GLOBAL_POSITION_INT_COV : list getter :=
    [mk_getter "time_usec" uint64_t 0 0; mk_getter "estimator_type" uint8_t 0 180; mk_getter "lat" int32_t 0 8;
     mk_getter "lon" int32_t 0 12; mk_getter "alt" int32_t 0 16; mk_getter "relative_alt" int32_t 0 20;
     mk_getter "vx" float_t 0 24; mk_getter "vy" float_t 0 28; mk_getter "vz" float_t 0 32;
     mk_getter "covariance" float_t 36 36].

Definition MSG_LOCAL_POSITION_NED_COV : mav_message :=
  mk_message 64 "LOCAL_POSITION_NED_COV" 225 225 191 false
    [mk_member uint64_t "time_usec" 0; mk_member float_t "x" 0; mk_member float_t "y" 0; mk_member float_t "z" 0;
     mk_member float_t "vx" 0; mk_member float_t "vy" 0; mk_member float_t "vz" 0; mk_member float_t "ax" 0;
     mk_member float_t "ay" 0; mk_member float_t "az" 0; mk_member float_t "covariance" 45;
     mk_member uint8_t "estimator_type" 0]
    [mk_field "time_usec" MAVLINK_TYPE_UINT64_T 0 0; mk_field "estimator_type" MAVLINK_TYPE_UINT8_T 0 224;
     mk_field "x" MAVLINK_TYPE_FLOAT 0 8; mk_field "y" MAVLINK_TYPE_FLOAT 0 12; mk_field "z" MAVLINK_TYPE_FLOAT 0 16;
     mk_field "vx" MAVLINK_TYPE_FLOAT 0 20; mk_field "vy" MAVLINK_TYPE_FLOAT 0 24;
     mk_field "vz" MAVLINK_TYPE_FLOAT 0 28; mk_field "ax" MAVLINK_TYPE_FLOAT 0 32;
     mk_field "ay" MAVLINK_TYPE_FLOAT 0 36; mk_field "az" MAVLINK_TYPE_FLOAT 0 40;
     mk_field "covariance" MAVLINK_TYPE_FLOAT 45 44]
    [put uint64_t 0 "time_usec"; put float_t 8 "x"; put float_t 12 "y"; put float_t 16 "z"; put float_t 20 "vx";
     put float_t 24 "vy"; put float_t 28 "vz"; put float_t 32 "ax"; put float_t 36 "ay"; put float_t 40 "az";
     put uint8_t 224 "estimator_type"; put_array float_t 44 "covariance" 45]
    [assign "time_usec" "time_usec"; assign "x" "x"; assign "y" "y"; assign "z" "z"; assign "vx" "vx";
     assign "vy" "vy"; assign "vz" "vz"; assign "ax" "ax"; assign "ay" "ay"; assign "az" "az";
     assign "estimator_type" "estimator_type"; copy_array "covariance" "covariance" float_t 45].
Definition GET_LOCAL_POSITION_NED_COV : list getter :=
    [mk_getter "time_usec" uint64_t 0 0; mk_getter "estimator_type" uint8_t 0 224; mk_getter "x" float_t 0 8;
     mk_getter "y" float_t 0 12; mk_getter "z" float_t 0 16; mk_getter "vx" float_t 0 20; mk_getter "vy" float_t 0 24;
     mk_getter "vz" float_t 0 28; mk_getter "ax" float_t 0 32; mk_getter "ay" float_t 0 36;
     mk_getter "az" float_t 0 40; mk_getter "covariance" float_t 45 44].

Definition MSG_RC_CHANNELS : mav_message :=
  mk_message 65 "RC_CHANNELS" 42 42 118 false
    [mk_member uint32_t "time_boot_ms" 0; mk_member uint16_t "chan1_raw" 0; mk_member uint16_t "chan2_raw" 0;
     mk_member uint16_t "chan3_raw" 0; mk_member uint16_t "chan4_raw" 0; mk_member uint16_t "chan5_raw" 0;
     mk_member uint16_t "chan6_raw" 0; mk_member uint16_t "chan7_raw" 0; mk_member uint16_t "chan8_raw" 0;
     mk_member uint16_t "chan9_raw" 0; mk_member uint16_t "chan10_raw" 0; mk_member uint16_t "chan11_raw" 0;
     mk_member uint16_t "chan12_raw" 0; mk_member uint16_t "chan13_raw" 0; mk_member uint16_t "chan14_raw" 0;
     mk_member uint16_t "chan15_raw" 0; mk_member uint16_t "chan16_raw" 0; mk_member uint16_t "chan17_raw" 0;
     mk_member uint16_t "chan18_raw" 0; mk_member uint8_t "chancount" 0; mk_member uint8_t "rssi" 0]
    [mk_field "time_boot_ms" MAVLINK_TYPE_UINT32_T 0 0; mk_field "chancount" MAVLINK_TYPE_UINT8_T 0 40;
     mk_field "chan1_raw" MAVLINK_TYPE_UINT16_T 0 4; mk_field "chan2_raw" MAVLINK_TYPE_UINT16_T 0 6;
     mk_field "chan3_raw" MAVLINK_TYPE_UINT16_T 0 8; mk_field "chan4_raw" MAVLINK_TYPE_UINT16_T 0 10;
     mk_field "chan5_raw" MAVLINK_TYPE_UINT16_T 0 12; mk_field "chan6_raw" MAVLINK_TYPE_UINT16_T 0 14;
     mk_field "chan7_raw" MAVLINK_TYPE_UINT16_T 0 16; mk_field "chan8_raw" MAVLINK_TYPE_UINT16_T 0 18;
     mk_field "chan9_raw" MAVLINK_TYPE_UINT16_T 0 20; mk_field "chan10_raw" MAVLINK_TYPE_UINT16_T 0 22;
     mk_field "chan11_raw" MAVLINK_TYPE_UINT16_T 0 24; mk_field "chan12_raw" MAVLINK_TYPE_UINT16_T 0 26;
     mk_field "chan13_raw" MAVLINK_TYPE_UINT16_T 0 28; mk_field "chan14_raw" MAVLINK_TYPE_UINT16_T 0 30;
     mk_field "chan15_raw" MAVLINK_TYPE_UINT16_T 0 32; mk_field "chan16_raw" MAVLINK_TYPE_UINT16_T 0 34;
     mk_field "chan17_raw" MAVLINK_TYPE_UINT16_T 0 36; mk_field "chan18_raw" MAVLINK_TYPE_UINT16_T 0 38;
     mk_field "rssi" MAVLINK_TYPE_UINT8_T 0 41]
    [put uint32_t 0 "time_boot_ms"; put uint16_t 4 "chan1_raw"; put uint16_t 6 "chan2_raw";
     put uint16_t 8 "chan3_raw"; put uint16_t 10 "chan4_raw"; put uint16_t 12 "chan5_raw";
     put uint16_t 14 "chan6_raw"; put uint16_t 16 "chan7_raw"; put uint16_t 18 "chan8_raw";
     put uint16_t 20 "chan9_raw"; put uint16_t 22 "chan10_raw"; put uint16_t 24 "chan11_raw";
     put uint16_t 26 "chan12_raw"; put uint16_t 28 "chan13_raw"; put uint16_t 30 "chan14_raw";
     put uint16_t 32 "chan15_raw"; put uint16_t 34 "chan16_raw"; put uint16_t 36 "chan17_raw";
     put uint16_t 38 "chan18_raw"; put uint8_t 40 "chancount"; put uint8_t 41 "rssi"]
    [assign "time_boot_ms" "time_boot_ms"; assign "chan1_raw" "chan1_raw"; assign "chan2_raw" "chan2_raw";
     assign "chan3_raw" "chan3_raw"; assign "chan4_raw" "chan4_raw"; assign "chan5_raw" "chan5_raw";
     assign "chan6_raw" "chan6_raw"; assign "chan7_raw" "chan7_raw"; assign "chan8_raw" "chan8_raw";
     assign "chan9_raw" "chan9_raw"; assign "chan10_raw" "chan10_raw"; assign "chan11_raw" "chan11_raw";
     assign "chan12_raw" "chan12_raw"; assign "chan13_raw" "chan13_raw"; assign "chan14_raw" "chan14_raw";
     assign "chan15_raw" "chan15_raw"; assign "chan16_raw" "chan16_raw"; assign "chan17_raw" "chan17_raw";
     assign "chan18_raw" "chan18_raw"; assign "chancount" "chancount"; assign "rssi" "rssi"].
Definition GET_RC_CHANNELS : list getter :=
    [mk_getter "time_boot_ms" uint32_t 0 0; mk_getter "chancount" uint8_t 0 40; mk_getter "chan1_raw" uint16_t 0 4;
     mk_getter "chan2_raw" uint16_t 0 6; mk_getter "chan3_raw" uint16_t 0 8; mk_getter "chan4_raw" uint16_t 0 10;
     mk_getter "chan5_raw" uint16_t 0 12; mk_getter "chan6_raw" uint16_t 0 14; mk_getter "chan7_raw" uint16_t 0 16;
     mk_getter "chan8_raw" uint16_t 0 18; mk_getter "chan9_raw" uint16_t 0 20; mk_getter "chan10_raw" uint16_t 0 22;
     mk_getter "chan11_raw" uint16_t 0 24; mk_getter "chan12_raw" uint16_t 0 26; mk_getter "chan13_raw" uint16_t 0 28;
     mk_getter "chan14_raw" uint16_t 0 30; mk_getter "chan15_raw" uint16_t 0 32; mk_getter "chan16_raw" uint16_t 0 34;
     mk_getter "chan17_raw" uint16_t 0 36; mk_getter "chan18_raw" uint16_t 0 38; mk_getter "rssi" uint8_t 0 41].

Definition MSG_REQUEST_DATA_STREAM : mav_message :=
  mk_message 66 "REQUEST_DATA_STREAM" 6 6 148 false
    [mk_member uint16_t "req_message_rate" 0; mk_member uint8_t "target_system" 0;
     mk_member uint8_t "target_component" 0; mk_member uint8_t "req_stream_id" 0; mk_member uint8_t "start_stop" 0]
    [mk_field "target_system" MAVLINK_TYPE_UINT8_T 0 2; mk_field "target_component" MAVLINK_TYPE_UINT8_T 0 3;
     mk_field "req_stream_id" MAVLINK_TYPE_UINT8_T 0 4; mk_field "req_message_rate" MAVLINK_TYPE_UINT16_T 0 0;
     mk_field "start_stop" MAVLINK_TYPE_UINT8_T 0 5]
    [put uint16_t 0 "req_message_rate"; put uint8_t 2 "target_system"; put uint8_t 3 "target_component";
     put uint8_t 4 "req_stream_id"; put uint8_t 5 "start_stop"]
    [assign "req_message_rate" "req_message_rate"; assign "target_system" "target_system";
     assign "target_component" "target_component"; assign "req_stream_id" "req_stream_id";
     assign "start_stop" "start_stop"].
Definition GET_REQUEST_DATA_STREAM : list getter :=
    [mk_getter "target_system" uint8_t 0 2; mk_getter "target_component" uint8_t 0 3;
     mk_getter "req_stream_id" uint8_t 0 4; mk_getter "req_message_rate" uint16_t 0 0;
     mk_getter "start_stop" uint8_t 0 5].

Definition MSG_DATA_STREAM : mav_message :=
  mk_message 67 "DATA_STREAM" 4 4 21 false
    [mk_member uint16_t "message_rate" 0; mk_member uint8_t "stream_id" 0; mk_member uint8_t "on_off" 0]
    [mk_field "stream_id" MAVLINK_TYPE_UINT8_T 0 2; mk_field "message_rate" MAVLINK_TYPE_UINT16_T 0 0;
     mk_field "on_off" MAVLINK_TYPE_UINT8_T 0 3]
    [put uint16_t 0 "message_rate"; put uint8_t 2 "stream_id"; put uint8_t 3 "on_off"]
    [assign "message_rate" "message_rate"; assign "stream_id" "stream_id"; assign "on_off" "on_off"].
Definition GET_DATA_STREAM : list getter :=
    [mk_getter "stream_id" uint8_t 0 2; mk_getter "message_rate" uint16_t 0 0; mk_getter "on_off" uint8_t 0 3].

Definition MSG_MANUAL_CONTROL : mav_message :=
  mk_message 69 "MANUAL_CONTROL" 11 30 243 true
    [mk_member int16_t "x" 0; mk_member int16_t "y" 0; mk_member int16_t "z" 0; mk_member int16_t "r" 0;
     mk_member uint16_t "buttons" 0; mk_member uint8_t "target" 0; mk_member uint16_t "buttons2" 0;
     mk_member uint8_t "enabled_extensions" 0; mk_member int16_t "s" 0; mk_member int16_t "t" 0;
     mk_member int16_t "aux1" 0; mk_member int16_t "aux2" 0; mk_member int16_t "aux3" 0; mk_member int16_t "aux4" 0;
     mk_member int16_t "aux5" 0; mk_member int16_t "aux6" 0]
    [mk_field "target" MAVLINK_TYPE_UINT8_T 0 10; mk_field "x" MAVLINK_TYPE_INT16_T 0 0;
     mk_field "y" MAVLINK_TYPE_INT16_T 0 2; mk_field "z" MAVLINK_TYPE_INT16_T 0 4;
     mk_field "r" MAVLINK_TYPE_INT16_T 0 6; mk_field "buttons" MAVLINK_TYPE_UINT16_T 0 8;
     mk_field "buttons2" MAVLINK_TYPE_UINT16_T 0 11; mk_field "enabled_extensions" MAVLINK_TYPE_UINT8_T 0 13;
     mk_field "s" MAVLINK_TYPE_INT16_T 0 14; mk_field "t" MAVLINK_TYPE_INT16_T 0 16;
     mk_field "aux1" MAVLINK_TYPE_INT16_T 0 18; mk_field "aux2" MAVLINK_TYPE_INT16_T 0 20;
     mk_field "aux3" MAVLINK_TYPE_INT16_T 0 22; mk_field "aux4" MAVLINK_TYPE_INT16_T 0 24;
     mk_field "aux5" MAVLINK_TYPE_INT16_T 0 26; mk_field "aux6" MAVLINK_TYPE_INT16_T 0 28]
    [put int16_t 0 "x"; put int16_t 2 "y"; put int16_t 4 "z"; put int16_t 6 "r"; put uint16_t 8 "buttons";
     put uint8_t 10 "target"; put uint16_t 11 "buttons2"; put uint8_t 13 "enabled_extensions"; put int16_t 14 "s";
     put int16_t 16 "t"; put int16_t 18 "aux1"; put int16_t 20 "aux2"; put int16_t 22 "aux3"; put int16_t 24 "aux4";
     put int16_t 26 "aux5"; put int16_t 28 "aux6"]
    [assign "x" "x"; assign "y" "y"; assign "z" "z"; assign "r" "r"; assign "buttons" "buttons";
     assign "target" "target"; assign "buttons2" "buttons2"; assign "enabled_extensions" "enabled_extensions";
     assign "s" "s"; assign "t" "t"; assign "aux1" "aux1"; assign "aux2" "aux2"; assign "aux3" "aux3";
     assign "aux4" "aux4"; assign "aux5" "aux5"; assign "aux6" "aux6"].
Definition GET_MANUAL_CONTROL : list getter :=
    [mk_getter "target" uint8_t 0 10; mk_getter "x" int16_t 0 0; mk_getter "y" int16_t 0 2; mk_getter "z" int16_t 0 4;
     mk_getter "r" int16_t 0 6; mk_getter "buttons" uint16_t 0 8; mk_getter "buttons2" uint16_t 0 11;
     mk_getter "enabled_extensions" uint8_t 0 13; mk_getter "s" int16_t 0 14; mk_getter "t" int16_t 0 16;
     mk_getter "aux1" int16_t 0 18; mk_getter "aux2" int16_t 0 20; mk_getter "aux3" int16_t 0 22;
     mk_getter "aux4" int16_t 0 24; mk_getter "aux5" int16_t 0 26; mk_getter "aux6" int16_t 0 28].

Definition MSG_RC_CHANNELS_OVERRIDE : mav_message :=
  mk_message 70 "RC_CHANNELS_OVERRIDE" 18 38 124 false
    [mk_member uint16_t "chan1_raw" 0; mk_member uint16_t "chan2_raw" 0; mk_member uint16_t "chan3_raw" 0;
     mk_member uint16_t "chan4_raw" 0; mk_member uint16_t "chan5_raw" 0; mk_member uint16_t "chan6_raw" 0;
     mk_member uint16_t "chan7_raw" 0; mk_member uint16_t "chan8_raw" 0; mk_member uint8_t "target_system" 0;
     mk_member uint8_t "target_component" 0; mk_member uint16_t "chan9_raw" 0; mk_member uint16_t "chan10_raw" 0;
     mk_member uint16_t "chan11_raw" 0; mk_member uint16_t "chan12_raw" 0; mk_member uint16_t "chan13_raw" 0;
     mk_member uint16_t "chan14_raw" 0; mk_member uint16_t "chan15_raw" 0; mk_member uint16_t "chan16_raw" 0;
     mk_member uint16_t "chan17_raw" 0; mk_member uint16_t "chan18_raw" 0]
    [mk_field "target_system" MAVLINK_TYPE_UINT8_T 0 16; mk_field "target_component" MAVLINK_TYPE_UINT8_T 0 17;
     mk_field "chan1_raw" MAVLINK_TYPE_UINT16_T 0 0; mk_field "chan2_raw" MAVLINK_TYPE_UINT16_T 0 2;
     mk_field "chan3_raw" MAVLINK_TYPE_UINT16_T 0 4; mk_field "chan4_raw" MAVLINK_TYPE_UINT16_T 0 6;
     mk_field "chan5_raw" MAVLINK_TYPE_UINT16_T 0 8; mk_field "chan6_raw" MAVLINK_TYPE_UINT16_T 0 10;
     mk_field "chan7_raw" MAVLINK_TYPE_UINT16_T 0 12; mk_field "chan8_raw" MAVLINK_TYPE_UINT16_T 0 14;
     mk_field "chan9_raw" MAVLINK_TYPE_UINT16_T 0 18; mk_field "chan10_raw" MAVLINK_TYPE_UINT16_T 0 20;
     mk_field "chan11_raw" MAVLINK_TYPE_UINT16_T 0 22; mk_field "chan12_raw" MAVLINK_TYPE_UINT16_T 0 24;
     mk_field "chan13_raw" MAVLINK_TYPE_UINT16_T 0 26; mk_field "chan14_raw" MAVLINK_TYPE_UINT16_T 0 28;
     mk_field "chan15_raw" MAVLINK_TYPE_UINT16_T 0 30; mk_field "chan16_raw" MAVLINK_TYPE_UINT16_T 0 32;
     mk_field "chan17_raw" MAVLINK_TYPE_UINT16_T 0 34; mk_field "chan18_raw" MAVLINK_TYPE_UINT16_T 0 36]
    [put uint16_t 0 "chan1_raw"; put uint16_t 2 "chan2_raw"; put uint16_t 4 "chan3_raw"; put uint16_t 6 "chan4_raw";
     put uint16_t 8 "chan5_raw"; put uint16_t 10 "chan6_raw"; put uint16_t 12 "chan7_raw";
     put uint16_t 14 "chan8_raw"; put uint8_t 16 "target_system"; put uint8_t 17 "target_component";
     put uint16_t 18 "chan9_raw"; put uint16_t 20 "chan10_raw"; put uint16_t 22 "chan11_raw";
     put uint16_t 24 "chan12_raw"; put uint16_t 26 "chan13_raw"; put uint16_t 28 "chan14_raw";
     put uint16_t 30 "chan15_raw"; put uint16_t 32 "chan16_raw"; put uint16_t 34 "chan17_raw";
     put uint16_t 36 "chan18_raw"]
    [assign "chan1_raw" "chan1_raw"; assign "chan2_raw" "chan2_raw"; assign "chan3_raw" "chan3_raw";
     assign "chan4_raw" "chan4_raw"; assign "chan5_raw" "chan5_raw"; assign "chan6_raw" "chan6_raw";
     assign "chan7_raw" "chan7_raw"; assign "chan8_raw" "chan8_raw"; assign "target_system" "target_system";
     assign "target_component" "target_component"; assign "chan9_raw" "chan9_raw"; assign "chan10_raw" "chan10_raw";
     assign "chan11_raw" "chan11_raw"; assign "chan12_raw" "chan12_raw"; assign "chan13_raw" "chan13_raw";
     assign "chan14_raw" "chan14_raw"; assign "chan15_raw" "chan15_raw"; assign "chan16_raw" "chan16_raw";
     assign "chan17_raw" "chan17_raw"; assign "chan18_raw" "chan18_raw"].
Definition GET_RC_CHANNELS_OVERRIDE : list getter :=
    [mk_getter "target_system" uint8_t 0 16; mk_getter "target_component" uint8_t 0 17;
     mk_getter "chan1_raw" uint16_t 0 0; mk_getter "chan2_raw" uint16_t 0 2; mk_getter "chan3_raw" uint16_t 0 4;
     mk_getter "chan4_raw" uint16_t 0 6; mk_getter "chan5_raw" uint16_t 0 8; mk_getter "chan6_raw" uint16_t 0 10;
     mk_getter "chan7_raw" uint16_t 0 12; mk_getter "chan8_raw" uint16_t 0 14; mk_getter "chan9_raw" uint16_t 0 18;
     mk_getter "chan10_raw" uint16_t 0 20; mk_getter "chan11_raw" uint16_t 0 22; mk_getter "chan12_raw" uint16_t 0 24;
     mk_getter "chan13_raw" uint16_t 0 26; mk_getter "chan14_raw" uint16_t 0 28; mk_getter "chan15_raw" uint16_t 0 30;
     mk_getter "chan16_raw" uint16_t 0 32; mk_getter "chan17_raw" uint16_t 0 34; mk_getter "chan18_raw" uint16_t 0 36].

Definition MSG_MISSION_ITEM_INT : mav_message :=
  mk_message 73 "MISSION_ITEM_INT" 37 38 38 false
    [mk_member float_t "param1" 0; mk_member float_t "param2" 0; mk_member float_t "param3" 0;
     mk_member float_t "param4" 0; mk_member int32_t "x" 0; mk_member int32_t "y" 0; mk_member float_t "z" 0;
     mk_member uint16_t "seq" 0; mk_member uint16_t "command" 0; mk_member uint8_t "target_system" 0;
     mk_member uint8_t "target_component" 0; mk_member uint8_t "frame" 0; mk_member uint8_t "current" 0;
     mk_member uint8_t "autocontinue" 0; mk_member uint8_t "mission_type" 0]
    [mk_field "target_system" MAVLINK_TYPE_UINT8_T 0 32; mk_field "target_component" MAVLINK_TYPE_UINT8_T 0 33;
     mk_field "seq" MAVLINK_TYPE_UINT16_T 0 28; mk_field "frame" MAVLINK_TYPE_UINT8_T 0 34;
     mk_field "command" MAVLINK_TYPE_UINT16_T 0 30; mk_field "current" MAVLINK_TYPE_UINT8_T 0 35;
     mk_field "autocontinue" MAVLINK_TYPE_UINT8_T 0 36; mk_field "param1" MAVLINK_TYPE_FLOAT 0 0;
     mk_field "param2" MAVLINK_TYPE_FLOAT 0 4; mk_field "param3" MAVLINK_TYPE_FLOAT 0 8;
     mk_field "param4" MAVLINK_TYPE_FLOAT 0 12; mk_field "x" MAVLINK_TYPE_INT32_T 0 16;
     mk_field "y" MAVLINK_TYPE_INT32_T 0 20; mk_field "z" MAVLINK_TYPE_FLOAT 0 24;
     mk_field "mission_type" MAVLINK_TYPE_UINT8_T 0 37]
    [put float_t 0 "param1"; put float_t 4 "param2"; put float_t 8 "param3"; put float_t 12 "param4";
     put int32_t 16 "x"; put int32_t 20 "y"; put float_t 24 "z"; put uint16_t 28 "seq"; put uint16_t 30 "command";
     put uint8_t 32 "target_system"; put uint8_t 33 "target_component"; put uint8_t 34 "frame";
     put uint8_t 35 "current"; put uint8_t 36 "autocontinue"; put uint8_t 37 "mission_type"]
    [assign "param1" "param1"; assign "param2" "param2"; assign "param3" "param3"; assign "param4" "param4";
     assign "x" "x"; assign "y" "y"; assign "z" "z"; assign "seq" "seq"; assign "command" "command";
     assign "target_system" "target_system"; assign "target_component" "target_component"; assign "frame" "frame";
     assign "current" "current"; assign "autocontinue" "autocontinue"; assign "mission_type" "mission_type"].
Definition GET_MISSION_ITEM_INT : list getter :=
    [mk_getter "target_system" uint8_t 0 32; mk_getter "target_component" uint8_t 0 33; mk_getter "seq" uint16_t 0 28;
     mk_getter "frame" uint8_t 0 34; mk_getter "command" uint16_t 0 30; mk_getter "current" uint8_t 0 35;
     mk_getter "autocontinue" uint8_t 0 36; mk_getter "param1" float_t 0 0; mk_getter "param2" float_t 0 4;
     mk_getter "param3" float_t 0 8; mk_getter "param4" float_t 0 12; mk_getter "x" int32_t 0 16;
     mk_getter "y" int32_t 0 20; mk_getter "z" float_t 0 24; mk_getter "mission_type" uint8_t 0 37].

Definition MSG_VFR_HUD : mav_message :=
  mk_message 74 "VFR_HUD" 20 20 20 false
    [mk_member float_t "airspeed" 0; mk_member float_t "groundspeed" 0; mk_member float_t "alt" 0;
     mk_member float_t "climb" 0; mk_member int16_t "heading" 0; mk_member uint16_t "throttle" 0]
    [mk_field "airspeed" MAVLINK_TYPE_FLOAT 0 0; mk_field "groundspeed" MAVLINK_TYPE_FLOAT 0 4;
     mk_field "heading" MAVLINK_TYPE_INT16_T 0 16; mk_field "throttle" MAVLINK_TYPE_UINT16_T 0 18;
     mk_field "alt" MAVLINK_TYPE_FLOAT 0 8; mk_field "climb" MAVLINK_TYPE_FLOAT 0 12]
    [put float_t 0 "airspeed"; put float_t 4 "groundspeed"; put float_t 8 "alt"; put float_t 12 "climb";
     put int16_t 16 "heading"; put uint16_t 18 "throttle"]
    [assign "airspeed" "airspeed"; assign "groundspeed" "groundspeed"; assign "alt" "alt"; assign "climb" "climb";
     assign "heading" "heading"; assign "throttle" "throttle"].
Definition GET_VFR_HUD : list getter :=
    [mk_getter "airspeed" float_t 0 0; mk_getter "groundspeed" float_t 0 4; mk_getter "heading" int16_t 0 16;
     mk_getter "throttle" uint16_t 0 18; mk_getter "alt" float_t 0 8; mk_getter "climb" float_t 0 12].

Definition MSG_COMMAND_INT : mav_message :=
  mk_message 75 "COMMAND_INT" 35 35 158 false
    [mk_member float_t "param1" 0; mk_member float_t "param2" 0; mk_member float_t "param3" 0;
     mk_member float_t "param4" 0; mk_member int32_t "x" 0; mk_member int32_t "y" 0; mk_member float_t "z" 0;
     mk_member uint16_t "command" 0; mk_member uint8_t "target_system" 0; mk_member uint8_t "target_component" 0;
     mk_member uint8_t "frame" 0; mk_member uint8_t "current" 0; mk_member uint8_t "autocontinue" 0]
    [mk_field "target_system" MAVLINK_TYPE_UINT8_T 0 30; mk_field "target_component" MAVLINK_TYPE_UINT8_T 0 31;
     mk_field "frame" MAVLINK_TYPE_UINT8_T 0 32; mk_field "command" MAVLINK_TYPE_UINT16_T 0 28;
     mk_field "current" MAVLINK_TYPE_UINT8_T 0 33; mk_field "autocontinue" MAVLINK_TYPE_UINT8_T 0 34;
     mk_field "param1" MAVLINK_TYPE_FLOAT 0 0; mk_field "param2" MAVLINK_TYPE_FLOAT 0 4;
     mk_field "param3" MAVLINK_TYPE_FLOAT 0 8; mk_field "param4" MAVLINK_TYPE_FLOAT 0 12;
     mk_field "x" MAVLINK_TYPE_INT32_T 0 16; mk_field "y" MAVLINK_TYPE_INT32_T 0 20;
     mk_field "z" MAVLINK_TYPE_FLOAT 0 24]
    [put float_t 0 "param1"; put float_t 4 "param2"; put float_t 8 "param3"; put float_t 12 "param4";
     put int32_t 16 "x"; put int32_t 20 "y"; put float_t 24 "z"; put uint16_t 28 "command";
     put uint8_t 30 "target_system"; put uint8_t 31 "target_component"; put uint8_t 32 "frame";
     put uint8_t 33 "current"; put uint8_t 34 "autocontinue"]
    [assign "param1" "param1"; assign "param2" "param2"; assign "param3" "param3"; assign "param4" "param4";
     assign "x" "x"; assign "y" "y"; assign "z" "z"; assign "command" "command";
     assign "target_system" "target_system"; assign "target_component" "target_component"; assign "frame" "frame";
     assign "current" "current"; assign "autocontinue" "autocontinue"].
Definition GET_COMMAND_INT : list getter :=
    [mk_getter "target_system" uint8_t 0 30; mk_getter "target_component" uint8_t 0 31;
     mk_getter "frame" uint8_t 0 32; mk_getter "command" uint16_t 0 28; mk_getter "current" uint8_t 0 33;
     mk_getter "autocontinue" uint8_t 0 34; mk_getter "param1" float_t 0 0; mk_getter "param2" float_t 0 4;
     mk_getter "param3" float_t 0 8; mk_getter "param4" float_t 0 12; mk_getter "x" int32_t 0 16;
     mk_getter "y" int32_t 0 20; mk_getter "z" float_t 0 24].

Definition MSG_COMMAND_LONG : mav_message :=
  mk_message 76 "COMMAND_LONG" 33 33 152 false
    [mk_member float_t "param1" 0; mk_member float_t "param2" 0; mk_member float_t "param3" 0;
     mk_member float_t "param4" 0; mk_member float_t "param5" 0; mk_member float_t "param6" 0;
     mk_member float_t "param7" 0; mk_member uint16_t "command" 0; mk_member uint8_t "target_system" 0;
     mk_member uint8_t "target_component" 0; mk_member uint8_t "confirmation" 0]
    [mk_field "target_system" MAVLINK_TYPE_UINT8_T 0 30; mk_field "target_component" MAVLINK_TYPE_UINT8_T 0 31;
     mk_field "command" MAVLINK_TYPE_UINT16_T 0 28; mk_field "confirmation" MAVLINK_TYPE_UINT8_T 0 32;
     mk_field "param1" MAVLINK_TYPE_FLOAT 0 0; mk_field "param2" MAVLINK_TYPE_FLOAT 0 4;
     mk_field "param3" MAVLINK_TYPE_FLOAT 0 8; mk_field "param4" MAVLINK_TYPE_FLOAT 0 12;
     mk_field "param5" MAVLINK_TYPE_FLOAT 0 16; mk_field "param6" MAVLINK_TYPE_FLOAT 0 20;
     mk_field "param7" MAVLINK_TYPE_FLOAT 0 24]
    [put float_t 0 "param1"; put float_t 4 "param2"; put float_t 8 "param3"; put float_t 12 "param4";
     put float_t 16 "param5"; put float_t 20 "param6"; put float_t 24 "param7"; put uint16_t 28 "command";
     put uint8_t 30 "target_system"; put uint8_t 31 "target_component"; put uint8_t 32 "confirmation"]
    [assign "param1" "param1"; assign "param2" "param2"; assign "param3" "param3"; assign "param4" "param4";
     assign "param5" "param5"; assign "param6" "param6"; assign "param7" "param7"; assign "command" "command";
     assign "target_system" "target_system"; assign "target_component" "target_component";
     assign "confirmation" "confirmation"].
Definition GET_COMMAND_LONG : list getter :=
    [mk_getter "target_system" uint8_t 0 30; mk_getter "target_component" uint8_t 0 31;
     mk_getter "command" uint16_t 0 28; mk_getter "confirmation" uint8_t 0 32; mk_getter "param1" float_t 0 0;
     mk_getter "param2" float_t 0 4; mk_getter "param3" float_t 0 8; mk_getter "param4" float_t 0 12;
     mk_getter "param5" float_t 0 16; mk_getter "param6" float_t 0 20; mk_getter "param7" float_t 0 24].

Definition MSG_COMMAND_ACK : mav_message :=
  mk_message 77 "COMMAND_ACK" 3 10 143 false
    [mk_member uint16_t "command" 0; mk_member uint8_t "result" 0; mk_member uint8_t "progress" 0;
     mk_member int32_t "result_param2" 0; mk_member uint8_t "target_system" 0; mk_member uint8_t "target_component" 0]
    [mk_field "command" MAVLINK_TYPE_UINT16_T 0 0; mk_field "result" MAVLINK_TYPE_UINT8_T 0 2;
     mk_field "progress" MAVLINK_TYPE_UINT8_T 0 3; mk_field "result_param2" MAVLINK_TYPE_INT32_T 0 4;
     mk_field "target_system" MAVLINK_TYPE_UINT8_T 0 8; mk_field "target_component" MAVLINK_TYPE_UINT8_T 0 9]
    [put uint16_t 0 "command"; put uint8_t 2 "result"; put uint8_t 3 "progress"; put int32_t 4 "result_param2";
     put uint8_t 8 "target_system"; put uint8_t 9 "target_component"]
    [assign "command" "command"; assign "result" "result"; assign "progress" "progress";
     assign "result_param2" "result_param2"; assign "target_system" "target_system";
     assign "target_component" "target_component"].
Definition GET_COMMAND_ACK : list getter :=
    [mk_getter "command" uint16_t 0 0; mk_getter "result" uint8_t 0 2; mk_getter "progress" uint8_t 0 3;
     mk_getter "result_param2" int32_t 0 4; mk_getter "target_system" uint8_t 0 8;
     mk_getter "target_component" uint8_t 0 9].

Definition MSG_COMMAND_CANCEL : mav_message :=
  mk_message 80 "COMMAND_CANCEL" 4 4 14 false
    [mk_member uint16_t "command" 0; mk_member uint8_t "target_system" 0; mk_member uint8_t "target_component" 0]
    [mk_field "target_system" MAVLINK_TYPE_UINT8_T 0 2; mk_field "target_component" MAVLINK_TYPE_UINT8_T 0 3;
     mk_field "command" MAVLINK_TYPE_UINT16_T 0 0]
    [put uint16_t 0 "command"; put uint8_t 2 "target_system"; put uint8_t 3 "target_component"]
    [assign "command" "command"; assign "target_system" "target_system"; assign "target_component" "target_component"].
Definition GET_COMMAND_CANCEL : list getter :=
    [mk_getter "target_system" uint8_t 0 2; mk_getter "target_component" uint8_t 0 3;
     mk_getter "command" uint16_t 0 0].

Definition MSG_MANUAL_SETPOINT : mav_message :=
  mk_message 81 "MANUAL_SETPOINT" 22 22 106 false
    [mk_member uint32_t "time_boot_ms" 0; mk_member float_t "roll" 0; mk_member float_t "pitch" 0;
     mk_member float_t "yaw" 0; mk_member float_t "thrust" 0; mk_member uint8_t "mode_switch" 0;
     mk_member uint8_t "manual_override_switch" 0]
    [mk_field "time_boot_ms" MAVLINK_TYPE_UINT32_T 0 0; mk_field "roll" MAVLINK_TYPE_FLOAT 0 4;
     mk_field "pitch" MAVLINK_TYPE_FLOAT 0 8; mk_field "yaw" MAVLINK_TYPE_FLOAT 0 12;
     mk_field "thrust" MAVLINK_TYPE_FLOAT 0 16; mk_field "mode_switch" MAVLINK_TYPE_UINT8_T 0 20;
     mk_field "manual_override_switch" MAVLINK_TYPE_UINT8_T 0 21]
    [put uint32_t 0 "time_boot_ms"; put float_t 4 "roll"; put float_t 8 "pitch"; put float_t 12 "yaw";
     put float_t 16 "thrust"; put uint8_t 20 "mode_switch"; put uint8_t 21 "manual_override_switch"]
    [assign "time_boot_ms" "time_boot_ms"; assign "roll" "roll"; assign "pitch" "pitch"; assign "yaw" "yaw";
     assign "thrust" "thrust"; assign "mode_switch" "mode_switch";
     assign "manual_override_switch" "manual_override_switch"].
Definition GET_MANUAL_SETPOINT : list getter :=
    [mk_getter "time_boot_ms" uint32_t 0 0; mk_getter "roll" float_t 0 4; mk_getter "pitch" float_t 0 8;
     mk_getter "yaw" float_t 0 12; mk_getter "thrust" float_t 0 16; mk_getter "mode_switch" uint8_t 0 20;
     mk_getter "manual_override_switch" uint8_t 0 21].

Definition MSG_SET_ATTITUDE_TARGET : mav_message :=
  mk_message 82 "SET_ATTITUDE_TARGET" 39 51 49 true
    [mk_member uint32_t "time_boot_ms" 0; mk_member float_t "q" 4; mk_member float_t "body_roll_rate" 0;
     mk_member float_t "body_pitch_rate" 0; mk_member float_t "body_yaw_rate" 0; mk_member float_t "thrust" 0;
     mk_member uint8_t "target_system" 0; mk_member uint8_t "target_component" 0; mk_member uint8_t "type_mask" 0;
     mk_member float_t "thrust_body" 3]
    [mk_field "time_boot_ms" MAVLINK_TYPE_UINT32_T 0 0; mk_field "target_system" MAVLINK_TYPE_UINT8_T 0 36;
     mk_field "target_component" MAVLINK_TYPE_UINT8_T 0 37; mk_field "type_mask" MAVLINK_TYPE_UINT8_T 0 38;
     mk_field "q" MAVLINK_TYPE_FLOAT 4 4; mk_field "body_roll_rate" MAVLINK_TYPE_FLOAT 0 20;
     mk_field "body_pitch_rate" MAVLINK_TYPE_FLOAT 0 24; mk_field "body_yaw_rate" MAVLINK_TYPE_FLOAT 0 28;
     mk_field "thrust" MAVLINK_TYPE_FLOAT 0 32; mk_field "thrust_body" MAVLINK_TYPE_FLOAT 3 39]
    [put uint32_t 0 "time_boot_ms"; put float_t 20 "body_roll_rate"; put float_t 24 "body_pitch_rate";
     put float_t 28 "body_yaw_rate"; put float_t 32 "thrust"; put uint8_t 36 "target_system";
     put uint8_t 37 "target_component"; put uint8_t 38 "type_mask"; put_array float_t 4 "q" 4;
     put_array float_t 39 "thrust_body" 3]
    [assign "time_boot_ms" "time_boot_ms"; assign "body_roll_rate" "body_roll_rate";
     assign "body_pitch_rate" "body_pitch_rate"; assign "body_yaw_rate" "body_yaw_rate"; assign "thrust" "thrust";
     assign "target_system" "target_system"; assign "target_component" "target_component";
     assign "type_mask" "type_mask"; copy_array "q" "q" float_t 4; copy_array "thrust_body" "thrust_body" float_t 3].
Definition GET_SET_ATTITUDE_TARGET : list getter :=
    [mk_getter "time_boot_ms" uint32_t 0 0; mk_getter "target_system" uint8_t 0 36;
     mk_getter "target_component" uint8_t 0 37; mk_getter "type_mask" uint8_t 0 38; mk_getter "q" float_t 4 4;
     mk_getter "body_roll_rate" float_t 0 20; mk_getter "body_pitch_rate" float_t 0 24;
     mk_getter "body_yaw_rate" float_t 0 28; mk_getter "thrust" float_t 0 32; mk_getter "thrust_body" float_t 3 39].

Definition MSG_ATTITUDE_TARGET : mav_message :=
  mk_message 83 "ATTITUDE_TARGET" 37 37 22 false
    [mk_member uint32_t "time_boot_ms" 0; mk_member float_t "q" 4; mk_member float_t "body_roll_rate" 0;
     mk_member float_t "body_pitch_rate" 0; mk_member float_t "body_yaw_rate" 0; mk_member float_t "thrust" 0;
     mk_member uint8_t "type_mask" 0]
    [mk_field "time_boot_ms" MAVLINK_TYPE_UINT32_T 0 0; mk_field "type_mask" MAVLINK_TYPE_UINT8_T 0 36;
     mk_field "q" MAVLINK_TYPE_FLOAT 4 4; mk_field "body_roll_rate" MAVLINK_TYPE_FLOAT 0 20;
     mk_field "body_pitch_rate" MAVLINK_TYPE_FLOAT 0 24; mk_field "body_yaw_rate" MAVLINK_TYPE_FLOAT 0 28;
     mk_field "thrust" MAVLINK_TYPE_FLOAT 0 32]
    [put uint32_t 0 "time_boot_ms"; put float_t 20 "body_roll_rate"; put float_t 24 "body_pitch_rate";
     put float_t 28 "body_yaw_rate"; put float_t 32 "thrust"; put uint8_t 36 "type_mask"; put_array float_t 4 "q" 4]
    [assign "time_boot_ms" "time_boot_ms"; assign "body_roll_rate" "body_roll_rate";
     assign "body_pitch_rate" "body_pitch_rate"; assign "body_yaw_rate" "body_yaw_rate"; assign "thrust" "thrust";
     assign "type_mask" "type_mask"; copy_array "q" "q" float_t 4].
Definition GET_ATTITUDE_TARGET : list getter :=
    [mk_getter "time_boot_ms" uint32_t 0 0; mk_getter "type_mask" uint8_t 0 36; mk_getter "q" float_t 4 4;
     mk_getter "body_roll_rate" float_t 0 20; mk_getter "body_pitch_rate" float_t 0 24;
     mk_getter "body_yaw_rate" float_t 0 28; mk_getter "thrust" float_t 0 32].

Definition MSG_SET_POSITION_TARGET_LOCAL_NED : mav_message :=
  mk_message 84 "SET_POSITION_TARGET_LOCAL_NED" 53 53 143 false
    [mk_member uint32_t "time_boot_ms" 0; mk_member float_t "x" 0; mk_member float_t "y" 0; mk_member float_t "z" 0;
     mk_member float_t "vx" 0; mk_member float_t "vy" 0; mk_member float_t "vz" 0; mk_member float_t "afx" 0;
     mk_member float_t "afy" 0; mk_member float_t "afz" 0; mk_member float_t "yaw" 0; mk_member float_t "yaw_rate" 0;
     mk_member uint16_t "type_mask" 0; mk_member uint8_t "target_system" 0; mk_member uint8_t "target_component" 0;
     mk_member uint8_t "coordinate_frame" 0]
    [mk_field "time_boot_ms" MAVLINK_TYPE_UINT32_T 0 0; mk_field "target_system" MAVLINK_TYPE_UINT8_T 0 50;
     mk_field "target_component" MAVLINK_TYPE_UINT8_T 0 51; mk_field "coordinate_frame" MAVLINK_TYPE_UINT8_T 0 52;
     mk_field "type_mask" MAVLINK_TYPE_UINT16_T 0 48; mk_field "x" MAVLINK_TYPE_FLOAT 0 4;
     mk_field "y" MAVLINK_TYPE_FLOAT 0 8; mk_field "z" MAVLINK_TYPE_FLOAT 0 12; mk_field "vx" MAVLINK_TYPE_FLOAT 0 16;
     mk_field "vy" MAVLINK_TYPE_FLOAT 0 20; mk_field "vz" MAVLINK_TYPE_FLOAT 0 24;
     mk_field "afx" MAVLINK_TYPE_FLOAT 0 28; mk_field "afy" MAVLINK_TYPE_FLOAT 0 32;
     mk_field "afz" MAVLINK_TYPE_FLOAT 0 36; mk_field "yaw" MAVLINK_TYPE_FLOAT 0 40;
     mk_field "yaw_rate" MAVLINK_TYPE_FLOAT 0 44]
    [put uint32_t 0 "time_boot_ms"; put float_t 4 "x"; put float_t 8 "y"; put float_t 12 "z"; put float_t 16 "vx";
     put float_t 20 "vy"; put float_t 24 "vz"; put float_t 28 "afx"; put float_t 32 "afy"; put float_t 36 "afz";
     put float_t 40 "yaw"; put float_t 44 "yaw_rate"; put uint16_t 48 "type_mask"; put uint8_t 50 "target_system";
     put uint8_t 51 "target_component"; put uint8_t 52 "coordinate_frame"]
    [assign "time_boot_ms" "time_boot_ms"; assign "x" "x"; assign "y" "y"; assign "z" "z"; assign "vx" "vx";
     assign "vy" "vy"; assign "vz" "vz"; assign "afx" "afx"; assign "afy" "afy"; assign "afz" "afz";
     assign "yaw" "yaw"; assign "yaw_rate" "yaw_rate"; assign "type_mask" "type_mask";
     assign "target_system" "target_system"; assign "target_component" "target_component";
     assign "coordinate_frame" "coordinate_frame"].
Definition GET_SET_POSITION_TARGET_LOCAL_NED : list getter :=
    [mk_getter "time_boot_ms" uint32_t 0 0; mk_getter "target_system" uint8_t 0 50;
     mk_getter "target_component" uint8_t 0 51; mk_getter "coordinate_frame" uint8_t 0 52;
     mk_getter "type_mask" uint16_t 0 48; mk_getter "x" float_t 0 4; mk_getter "y" float_t 0 8;
     mk_getter "z" float_t 0 12; mk_getter "vx" float_t 0 16; mk_getter "vy" float_t 0 20;
     mk_getter "vz" float_t 0 24; mk_getter "afx" float_t 0 28; mk_getter "afy" float_t 0 32;
     mk_getter "afz" float_t 0 36; mk_getter "yaw" float_t 0 40; mk_getter "yaw_rate" float_t 0 44].

Definition MSG_POSITION_TARGET_LOCAL_NED : mav_message :=
  mk_message 85 "POSITION_TARGET_LOCAL_NED" 51 51 140 false
    [mk_member uint32_t "time_boot_ms" 0; mk_member float_t "x" 0; mk_member float_t "y" 0; mk_member float_t "z" 0;
     mk_member float_t "vx" 0; mk_member float_t "vy" 0; mk_member float_t "vz" 0; mk_member float_t "afx" 0;
     mk_member float_t "afy" 0; mk_member float_t "afz" 0; mk_member float_t "yaw" 0; mk_member float_t "yaw_rate" 0;
     mk_member uint16_t "type_mask" 0; mk_member uint8_t "coordinate_frame" 0]
    [mk_field "time_boot_ms" MAVLINK_TYPE_UINT32_T 0 0; mk_field "coordinate_frame" MAVLINK_TYPE_UINT8_T 0 50;
     mk_field "type_mask" MAVLINK_TYPE_UINT16_T 0 48; mk_field "x" MAVLINK_TYPE_FLOAT 0 4;
     mk_field "y" MAVLINK_TYPE_FLOAT 0 8; mk_field "z" MAVLINK_TYPE_FLOAT 0 12; mk_field "vx" MAVLINK_TYPE_FLOAT 0 16;
     mk_field "vy" MAVLINK_TYPE_FLOAT 0 20; mk_field "vz" MAVLINK_TYPE_FLOAT 0 24;
     mk_field "afx" MAVLINK_TYPE_FLOAT 0 28; mk_field "afy" MAVLINK_TYPE_FLOAT 0 32;
     mk_field "afz" MAVLINK_TYPE_FLOAT 0 36; mk_field "yaw" MAVLINK_TYPE_FLOAT 0 40;
     mk_field "yaw_rate" MAVLINK_TYPE_FLOAT 0 44]
    [put uint32_t 0 "time_boot_ms"; put float_t 4 "x"; put float_t 8 "y"; put float_t 12 "z"; put float_t 16 "vx";
     put float_t 20 "vy"; put float_t 24 "vz"; put float_t 28 "afx"; put float_t 32 "afy"; put float_t 36 "afz";
     put float_t 40 "yaw"; put float_t 44 "yaw_rate"; put uint16_t 48 "type_mask"; put uint8_t 50 "coordinate_frame"]
    [assign "time_boot_ms" "time_boot_ms"; assign "x" "x"; assign "y" "y"; assign "z" "z"; assign "vx" "vx";
     assign "vy" "vy"; assign "vz" "vz"; assign "afx" "afx"; assign "afy" "afy"; assign "afz" "afz";
     assign "yaw" "yaw"; assign "yaw_rate" "yaw_rate"; assign "type_mask" "type_mask";
     assign "coordinate_frame" "coordinate_frame"].
Definition GET_POSITION_TARGET_LOCAL_NED : list getter :=
    [mk_getter "time_boot_ms" uint32_t 0 0; mk_getter "coordinate_frame" uint8_t 0 50;
     mk_getter "type_mask" uint16_t 0 48; mk_getter "x" float_t 0 4; mk_getter "y" float_t 0 8;
     mk_getter "z" float_t 0 12; mk_getter "vx" float_t 0 16; mk_getter "vy" float_t 0 20;
     mk_getter "vz" float_t 0 24; mk_getter "afx" float_t 0 28; mk_getter "afy" float_t 0 32;
     mk_getter "afz" float_t 0 36; mk_getter "yaw" float_t 0 40; mk_getter "yaw_rate" float_t 0 44].

Definition MSG_SET_POSITION_TARGET_GLOBAL_INT : mav_message :=
  mk_message 86 "SET_POSITION_TARGET_GLOBAL_INT" 53 53 5 false
    [mk_member uint32_t "time_boot_ms" 0; mk_member int32_t "lat_int" 0; mk_member int32_t "lon_int" 0;
     mk_member float_t "alt" 0; mk_member float_t "vx" 0; mk_member float_t "vy" 0; mk_member float_t "vz" 0;
     mk_member float_t "afx" 0; mk_member float_t "afy" 0; mk_member float_t "afz" 0; mk_member float_t "yaw" 0;
     mk_member float_t "yaw_rate" 0; mk_member uint16_t "type_mask" 0; mk_member uint8_t "target_system" 0;
     mk_member uint8_t "target_component" 0; mk_member uint8_t "coordinate_frame" 0]
    [mk_field "time_boot_ms" MAVLINK_TYPE_UINT32_T 0 0; mk_field "target_system" MAVLINK_TYPE_UINT8_T 0 50;
     mk_field "target_component" MAVLINK_TYPE_UINT8_T 0 51; mk_field "coordinate_frame" MAVLINK_TYPE_UINT8_T 0 52;
     mk_field "type_mask" MAVLINK_TYPE_UINT16_T 0 48; mk_field "lat_int" MAVLINK_TYPE_INT32_T 0 4;
     mk_field "lon_int" MAVLINK_TYPE_INT32_T 0 8; mk_field "alt" MAVLINK_TYPE_FLOAT 0 12;
     mk_field "vx" MAVLINK_TYPE_FLOAT 0 16; mk_field "vy" MAVLINK_TYPE_FLOAT 0 20;
     mk_field "vz" MAVLINK_TYPE_FLOAT 0 24; mk_field "afx" MAVLINK_TYPE_FLOAT 0 28;
     mk_field "afy" MAVLINK_TYPE_FLOAT 0 32; mk_field "afz" MAVLINK_TYPE_FLOAT 0 36;
     mk_field "yaw" MAVLINK_TYPE_FLOAT 0 40; mk_field "yaw_rate" MAVLINK_TYPE_FLOAT 0 44]
    [put uint32_t 0 "time_boot_ms"; put int32_t 4 "lat_int"; put int32_t 8 "lon_int"; put float_t 12 "alt";
     put float_t 16 "vx"; put float_t 20 "vy"; put float_t 24 "vz"; put float_t 28 "afx"; put float_t 32 "afy";
     put float_t 36 "afz"; put float_t 40 "yaw"; put float_t 44 "yaw_rate"; put uint16_t 48 "type_mask";
     put uint8_t 50 "target_system"; put uint8_t 51 "target_component"; put uint8_t 52 "coordinate_frame"]
    [assign "time_boot_ms" "time_boot_ms"; assign "lat_int" "lat_int"; assign "lon_int" "lon_int"; assign "alt" "alt";
     assign "vx" "vx"; assign "vy" "vy"; assign "vz" "vz"; assign "afx" "afx"; assign "afy" "afy"; assign "afz" "afz";
     assign "yaw" "yaw"; assign "yaw_rate" "yaw_rate"; assign "type_mask" "type_mask";
     assign "target_system" "target_system"; assign "target_component" "target_component";
     assign "coordinate_frame" "coordinate_frame"].
Definition GET_SET_POSITION_TARGET_GLOBAL_INT : list getter :=
    [mk_getter "time_boot_ms" uint32_t 0 0; mk_getter "target_system" uint8_t 0 50;
     mk_getter "target_component" uint8_t 0 51; mk_getter "coordinate_frame" uint8_t 0 52;
     mk_getter "type_mask" uint16_t 0 48; mk_getter "lat_int" int32_t 0 4; mk_getter "lon_int" int32_t 0 8;
     mk_getter "alt" float_t 0 12; mk_getter "vx" float_t 0 16; mk_getter "vy" float_t 0 20;
     mk_getter "vz" float_t 0 24; mk_getter "afx" float_t 0 28; mk_getter "afy" float_t 0 32;
     mk_getter "afz" float_t 0 36; mk_getter "yaw" float_t 0 40; mk_getter "yaw_rate" float_t 0 44].

Definition MSG_POSITION_TARGET_GLOBAL_INT : mav_message :=
  mk_message 87 "POSITION_TARGET_GLOBAL_INT" 51 51 150 false
    [mk_member uint32_t "time_boot_ms" 0; mk_member int32_t "lat_int" 0; mk_member int32_t "lon_int" 0;
     mk_member float_t "alt" 0; mk_member float_t "vx" 0; mk_member float_t "vy" 0; mk_member float_t "vz" 0;
     mk_member float_t "afx" 0; mk_member float_t "afy" 0; mk_member float_t "afz" 0; mk_member float_t "yaw" 0;
     mk_member float_t "yaw_rate" 0; mk_member uint16_t "type_mask" 0; mk_member uint8_t "coordinate_frame" 0]
    [mk_field "time_boot_ms" MAVLINK_TYPE_UINT32_T 0 0; mk_field "coordinate_frame" MAVLINK_TYPE_UINT8_T 0 50;
     mk_field "type_mask" MAVLINK_TYPE_UINT16_T 0 48; mk_field "lat_int" MAVLINK_TYPE_INT32_T 0 4;
     mk_field "lon_int" MAVLINK_TYPE_INT32_T 0 8; mk_field "alt" MAVLINK_TYPE_FLOAT 0 12;
     mk_field "vx" MAVLINK_TYPE_FLOAT 0 16; mk_field "vy" MAVLINK_TYPE_FLOAT 0 20;
     mk_field "vz" MAVLINK_TYPE_FLOAT 0 24; mk_field "afx" MAVLINK_TYPE_FLOAT 0 28;
     mk_field "afy" MAVLINK_TYPE_FLOAT 0 32; mk_field "afz" MAVLINK_TYPE_FLOAT 0 36;
     mk_field "yaw" MAVLINK_TYPE_FLOAT 0 40; mk_field "yaw_rate" MAVLINK_TYPE_FLOAT 0 44]
    [put uint32_t 0 "time_boot_ms"; put int32_t 4 "lat_int"; put int32_t 8 "lon_int"; put float_t 12 "alt";
     put float_t 16 "vx"; put float_t 20 "vy"; put float_t 24 "vz"; put float_t 28 "afx"; put float_t 32 "afy";
     put float_t 36 "afz"; put float_t 40 "yaw"; put float_t 44 "yaw_rate"; put uint16_t 48 "type_mask";
     put uint8_t 50 "coordinate_frame"]
    [assign "time_boot_ms" "time_boot_ms"; assign "lat_int" "lat_int"; assign "lon_int" "lon_int"; assign "alt" "alt";
     assign "vx" "vx"; assign "vy" "vy"; assign "vz" "vz"; assign "afx" "afx"; assign "afy" "afy"; assign "afz" "afz";
     assign "yaw" "yaw"; assign "yaw_rate" "yaw_rate"; assign "type_mask" "type_mask";
     assign "coordinate_frame" "coordinate_frame"].
Definition GET_POSITION_TARGET_GLOBAL_INT : list getter :=
    [mk_getter "time_boot_ms" uint32_t 0 0; mk_getter "coordinate_frame" uint8_t 0 50;
     mk_getter "type_mask" uint16_t 0 48; mk_getter "lat_int" int32_t 0 4; mk_getter "lon_int" int32_t 0 8;
     mk_getter "alt" float_t 0 12; mk_getter "vx" float_t 0 16; mk_getter "vy" float_t 0 20;
     mk_getter "vz" float_t 0 24; mk_getter "afx" float_t 0 28; mk_getter "afy" float_t 0 32;
     mk_getter "afz" float_t 0 36; mk_getter "yaw" float_t 0 40; mk_getter "yaw_rate" float_t 0 44].

Definition MSG_LOCAL_POSITION_NED_SYSTEM_GLOBAL_OFFSET : mav_message :=
  mk_message 89 "LOCAL_POSITION_NED_SYSTEM_GLOBAL_OFFSET" 28 28 231 false
    [mk_member uint32_t "time_boot_ms" 0; mk_member float_t "x" 0; mk_member float_t "y" 0; mk_member float_t "z" 0;
     mk_member float_t "roll" 0; mk_member float_t "pitch" 0; mk_member float_t "yaw" 0]
    [mk_field "time_boot_ms" MAVLINK_TYPE_UINT32_T 0 0; mk_field "x" MAVLINK_TYPE_FLOAT 0 4;
     mk_field "y" MAVLINK_TYPE_FLOAT 0 8; mk_field "z" MAVLINK_TYPE_FLOAT 0 12;
     mk_field "roll" MAVLINK_TYPE_FLOAT 0 16; mk_field "pitch" MAVLINK_TYPE_FLOAT 0 20;
     mk_field "yaw" MAVLINK_TYPE_FLOAT 0 24]
    [put uint32_t 0 "time_boot_ms"; put float_t 4 "x"; put float_t 8 "y"; put float_t 12 "z"; put float_t 16 "roll";
     put float_t 20 "pitch"; put float_t 24 "yaw"]
    [assign "time_boot_ms" "time_boot_ms"; assign "x" "x"; assign "y" "y"; assign "z" "z"; assign "roll" "roll";
     assign "pitch" "pitch"; assign "yaw" "yaw"].
Definition GET_LOCAL_POSITION_NED_SYSTEM_GLOBAL_OFFSET : list getter :=
    [mk_getter "time_boot_ms" uint32_t 0 0; mk_getter "x" float_t 0 4; mk_getter "y" float_t 0 8;
     mk_getter "z" float_t 0 12; mk_getter "roll" float_t 0 16; mk_getter "pitch" float_t 0 20;
     mk_getter "yaw" float_t 0 24].

Definition MSG_HIL_STATE : mav_message :=
  mk_message 90 "HIL_STATE" 56 56 183 false
    [mk_member uint64_t "time_usec" 0; mk_member float_t "roll" 0; mk_member float_t "pitch" 0;
     mk_member float_t "yaw" 0; mk_member float_t "rollspeed" 0; mk_member float_t "pitchspeed" 0;
     mk_member float_t "yawspeed" 0; mk_member int32_t "lat" 0; mk_member int32_t "lon" 0; mk_member int32_t "alt" 0;
     mk_member int16_t "vx" 0; mk_member int16_t "vy" 0; mk_member int16_t "vz" 0; mk_member int16_t "xacc" 0;
     mk_member int16_t "yacc" 0; mk_member int16_t "zacc" 0]
    [mk_field "time_usec" MAVLINK_TYPE_UINT64_T 0 0; mk_field "roll" MAVLINK_TYPE_FLOAT 0 8;
     mk_field "pitch" MAVLINK_TYPE_FLOAT 0 12; mk_field "yaw" MAVLINK_TYPE_FLOAT 0 16;
     mk_field "rollspeed" MAVLINK_TYPE_FLOAT 0 20; mk_field "pitchspeed" MAVLINK_TYPE_FLOAT 0 24;
     mk_field "yawspeed" MAVLINK_TYPE_FLOAT 0 28; mk_field "lat" MAVLINK_TYPE_INT32_T 0 32;
     mk_field "lon" MAVLINK_TYPE_INT32_T 0 36; mk_field "alt" MAVLINK_TYPE_INT32_T 0 40;
     mk_field "vx" MAVLINK_TYPE_INT16_T 0 44; mk_field "vy" MAVLINK_TYPE_INT16_T 0 46;
     mk_field "vz" MAVLINK_TYPE_INT16_T 0 48; mk_field "xacc" MAVLINK_TYPE_INT16_T 0 50;
     mk_field "yacc" MAVLINK_TYPE_INT16_T 0 52; mk_field "zacc" MAVLINK_TYPE_INT16_T 0 54]
    [put uint64_t 0 "time_usec"; put float_t 8 "roll"; put float_t 12 "pitch"; put float_t 16 "yaw";
     put float_t 20 "rollspeed"; put float_t 24 "pitchspeed"; put float_t 28 "yawspeed"; put int32_t 32 "lat";
     put int32_t 36 "lon"; put int32_t 40 "alt"; put int16_t 44 "vx"; put int16_t 46 "vy"; put int16_t 48 "vz";
     put int16_t 50 "xacc"; put int16_t 52 "yacc"; put int16_t 54 "zacc"]
    [assign "time_usec" "time_usec"; assign "roll" "roll"; assign "pitch" "pitch"; assign "yaw" "yaw";
     assign "rollspeed" "rollspeed"; assign "pitchspeed" "pitchspeed"; assign "yawspeed" "yawspeed";
     assign "lat" "lat"; assign "lon" "lon"; assign "alt" "alt"; assign "vx" "vx"; assign "vy" "vy"; assign "vz" "vz";
     assign "xacc" "xacc"; assign "yacc" "yacc"; assign "zacc" "zacc"].
Definition GET_HIL_STATE : list getter :=
    [mk_getter "time_usec" uint64_t 0 0; mk_getter "roll" float_t 0 8; mk_getter "pitch" float_t 0 12;
     mk_getter "yaw" float_t 0 16; mk_getter "rollspeed" float_t 0 20; mk_getter "pitchspeed" float_t 0 24;
     mk_getter "yawspeed" float_t 0 28; mk_getter "lat" int32_t 0 32; mk_getter "lon" int32_t 0 36;
     mk_getter "alt" int32_t 0 40; mk_getter "vx" int16_t 0 44; mk_getter "vy" int16_t 0 46;
     mk_getter "vz" int16_t 0 48; mk_getter "xacc" int16_t 0 50; mk_getter "yacc" int16_t 0 52;
     mk_getter "zacc" int16_t 0 54].

Definition MSG_HIL_CONTROLS : mav_message :=
  mk_message 91 "HIL_CONTROLS" 42 42 63 false
    [mk_member uint64_t "time_usec" 0; mk_member float_t "roll_ailerons" 0; mk_member float_t "pitch_elevator" 0;
     mk_member float_t "yaw_rudder" 0; mk_member float_t "throttle" 0; mk_member float_t "aux1" 0;
     mk_member float_t "aux2" 0; mk_member float_t "aux3" 0; mk_member float_t "aux4" 0; mk_member uint8_t "mode" 0;
     mk_member uint8_t "nav_mode" 0]
    [mk_field "time_usec" MAVLINK_TYPE_UINT64_T 0 0; mk_field "roll_ailerons" MAVLINK_TYPE_FLOAT 0 8;
     mk_field "pitch_elevator" MAVLINK_TYPE_FLOAT 0 12; mk_field "yaw_rudder" MAVLINK_TYPE_FLOAT 0 16;
     mk_field "throttle" MAVLINK_TYPE_FLOAT 0 20; mk_field "aux1" MAVLINK_TYPE_FLOAT 0 24;
     mk_field "aux2" MAVLINK_TYPE_FLOAT 0 28; mk_field "aux3" MAVLINK_TYPE_FLOAT 0 32;
     mk_field "aux4" MAVLINK_TYPE_FLOAT 0 36; mk_field "mode" MAVLINK_TYPE_UINT8_T 0 40;
     mk_field "nav_mode" MAVLINK_TYPE_UINT8_T 0 41]
    [put uint64_t 0 "time_usec"; put float_t 8 "roll_ailerons"; put float_t 12 "pitch_elevator";
     put float_t 16 "yaw_rudder"; put float_t 20 "throttle"; put float_t 24 "aux1"; put float_t 28 "aux2";
     put float_t 32 "aux3"; put float_t 36 "aux4"; put uint8_t 40 "mode"; put uint8_t 41 "nav_mode"]
    [assign "time_usec" "time_usec"; assign "roll_ailerons" "roll_ailerons"; assign "pitch_elevator" "pitch_elevator";
     assign "yaw_rudder" "yaw_rudder"; assign "throttle" "throttle"; assign "aux1" "aux1"; assign "aux2" "aux2";
     assign "aux3" "aux3"; assign "aux4" "aux4"; assign "mode" "mode"; assign "nav_mode" "nav_mode"].
Definition GET_HIL_CONTROLS : list getter :=
    [mk_getter "time_usec" uint64_t 0 0; mk_getter "roll_ailerons" float_t 0 8;
     mk_getter "pitch_elevator" float_t 0 12; mk_getter "yaw_rudder" float_t 0 16; mk_getter "throttle" float_t 0 20;
     mk_getter "aux1" float_t 0 24; mk_getter "aux2" float_t 0 28; mk_getter "aux3" float_t 0 32;
     mk_getter "aux4" float_t 0 36; mk_getter "mode" uint8_t 0 40; mk_getter "nav_mode" uint8_t 0 41].

Definition MSG_HIL_RC_INPUTS_RAW : mav_message :=
  mk_message 92 "HIL_RC_INPUTS_RAW" 33 33 54 false
    [mk_member uint64_t "time_usec" 0; mk_member uint16_t "chan1_raw" 0; mk_member uint16_t "chan2_raw" 0;
     mk_member uint16_t "chan3_raw" 0; mk_member uint16_t "chan4_raw" 0; mk_member uint16_t "chan5_raw" 0;
     mk_member uint16_t "chan6_raw" 0; mk_member uint16_t "chan7_raw" 0; mk_member uint16_t "chan8_raw" 0;
     mk_member uint16_t "chan9_raw" 0; mk_member uint16_t "chan10_raw" 0; mk_member uint16_t "chan11_raw" 0;
     mk_member uint16_t "chan12_raw" 0; mk_member uint8_t "rssi" 0]
    [mk_field "time_usec" MAVLINK_TYPE_UINT64_T 0 0; mk_field "chan1_raw" MAVLINK_TYPE_UINT16_T 0 8;
     mk_field "chan2_raw" MAVLINK_TYPE_UINT16_T 0 10; mk_field "chan3_raw" MAVLINK_TYPE_UINT16_T 0 12;
     mk_field "chan4_raw" MAVLINK_TYPE_UINT16_T 0 14; mk_field "chan5_raw" MAVLINK_TYPE_UINT16_T 0 16;
     mk_field "chan6_raw" MAVLINK_TYPE_UINT16_T 0 18; mk_field "chan7_raw" MAVLINK_TYPE_UINT16_T 0 20;
     mk_field "chan8_raw" MAVLINK_TYPE_UINT16_T 0 22; mk_field "chan9_raw" MAVLINK_TYPE_UINT16_T 0 24;
     mk_field "chan10_raw" MAVLINK_TYPE_UINT16_T 0 26; mk_field "chan11_raw" MAVLINK_TYPE_UINT16_T 0 28;
     mk_field "chan12_raw" MAVLINK_TYPE_UINT16_T 0 30; mk_field "rssi" MAVLINK_TYPE_UINT8_T 0 32]
    [put uint64_t 0 "time_usec"; put uint16_t 8 "chan1_raw"; put uint16_t 10 "chan2_raw"; put uint16_t 12 "chan3_raw";
     put uint16_t 14 "chan4_raw"; put uint16_t 16 "chan5_raw"; put uint16_t 18 "chan6_raw";
     put uint16_t 20 "chan7_raw"; put uint16_t 22 "chan8_raw"; put uint16_t 24 "chan9_raw";
     put uint16_t 26 "chan10_raw"; put uint16_t 28 "chan11_raw"; put uint16_t 30 "chan12_raw"; put uint8_t 32 "rssi"]
    [assign "time_usec" "time_usec"; assign "chan1_raw" "chan1_raw"; assign "chan2_raw" "chan2_raw";
     assign "chan3_raw" "chan3_raw"; assign "chan4_raw" "chan4_raw"; assign "chan5_raw" "chan5_raw";
     assign "chan6_raw" "chan6_raw"; assign "chan7_raw" "chan7_raw"; assign "chan8_raw" "chan8_raw";
     assign "chan9_raw" "chan9_raw"; assign "chan10_raw" "chan10_raw"; assign "chan11_raw" "chan11_raw";
     assign "chan12_raw" "chan12_raw"; assign "rssi" "rssi"].
Definition GET_HIL_RC_INPUTS_RAW : list getter :=
    [mk_getter "time_usec" uint64_t 0 0; mk_getter "chan1_raw" uint16_t 0 8; mk_getter "chan2_raw" uint16_t 0 10;
     mk_getter "chan3_raw" uint16_t 0 12; mk_getter "chan4_raw" uint16_t 0 14; mk_getter "chan5_raw" uint16_t 0 16;
     mk_getter "chan6_raw" uint16_t 0 18; mk_getter "chan7_raw" uint16_t 0 20; mk_getter "chan8_raw" uint16_t 0 22;
     mk_getter "chan9_raw" uint16_t 0 24; mk_getter "chan10_raw" uint16_t 0 26; mk_getter "chan11_raw" uint16_t 0 28;
     mk_getter "chan12_raw" uint16_t 0 30; mk_getter "rssi" uint8_t 0 32].

Definition MSG_HIL_ACTUATOR_CONTROLS : mav_message :=
  mk_message 93 "HIL_ACTUATOR_CONTROLS" 81 81 47 false
    [mk_member uint64_t "time_usec" 0; mk_member uint64_t "flags" 0; mk_member float_t "controls" 16;
     mk_member uint8_t "mode" 0]
    [mk_field "time_usec" MAVLINK_TYPE_UINT64_T 0 0; mk_field "controls" MAVLINK_TYPE_FLOAT 16 16;
     mk_field "mode" MAVLINK_TYPE_UINT8_T 0 80; mk_field "flags" MAVLINK_TYPE_UINT64_T 0 8]
    [put uint64_t 0 "time_usec"; put uint64_t 8 "flags"; put uint8_t 80 "mode"; put_array float_t 16 "controls" 16]
    [assign "time_usec" "time_usec"; assign "flags" "flags"; assign "mode" "mode";
     copy_array "controls" "controls" float_t 16].
Definition GET_HIL_ACTUATOR_CONTROLS : list getter :=
    [mk_getter "time_usec" uint64_t 0 0; mk_getter "controls" float_t 16 16; mk_getter "mode" uint8_t 0 80;
     mk_getter "flags" uint64_t 0 8].

Definition MSG_OPTICAL_FLOW : mav_message :=
  mk_message 100 "OPTICAL_FLOW" 26 34 175 true
    [mk_member uint64_t "time_usec" 0; mk_member float_t "flow_comp_m_x" 0; mk_member float_t "flow_comp_m_y" 0;
     mk_member float_t "ground_distance" 0; mk_member int16_t "flow_x" 0; mk_member int16_t "flow_y" 0;
     mk_member uint8_t "sensor_id" 0; mk_member uint8_t "quality" 0; mk_member float_t "flow_rate_x" 0;
     mk_member float_t "flow_rate_y" 0]
    [mk_field "time_usec" MAVLINK_TYPE_UINT64_T 0 0; mk_field "sensor_id" MAVLINK_TYPE_UINT8_T 0 24;
     mk_field "flow_x" MAVLINK_TYPE_INT16_T 0 20; mk_field "flow_y" MAVLINK_TYPE_INT16_T 0 22;
     mk_field "flow_comp_m_x" MAVLINK_TYPE_FLOAT 0 8; mk_field "flow_comp_m_y" MAVLINK_TYPE_FLOAT 0 12;
     mk_field "quality" MAVLINK_TYPE_UINT8_T 0 25; mk_field "ground_distance" MAVLINK_TYPE_FLOAT 0 16;
     mk_field "flow_rate_x" MAVLINK_TYPE_FLOAT 0 26; mk_field "flow_rate_y" MAVLINK_TYPE_FLOAT 0 30]
    [put uint64_t 0 "time_usec"; put float_t 8 "flow_comp_m_x"; put float_t 12 "flow_comp_m_y";
     put float_t 16 "ground_distance"; put int16_t 20 "flow_x"; put int16_t 22 "flow_y"; put uint8_t 24 "sensor_id";
     put uint8_t 25 "quality"; put float_t 26 "flow_rate_x"; put float_t 30 "flow_rate_y"]
    [assign "time_usec" "time_usec"; assign "flow_comp_m_x" "flow_comp_m_x"; assign "flow_comp_m_y" "flow_comp_m_y";
     assign "ground_distance" "ground_distance"; assign "flow_x" "flow_x"; assign "flow_y" "flow_y";
     assign "sensor_id" "sensor_id"; assign "quality" "quality"; assign "flow_rate_x" "flow_rate_x";
     assign "flow_rate_y" "flow_rate_y"].
Definition GET_OPTICAL_FLOW : list getter :=
    [mk_getter "time_usec" uint64_t 0 0; mk_getter "sensor_id" uint8_t 0 24; mk_getter "flow_x" int16_t 0 20;
     mk_getter "flow_y" int16_t 0 22; mk_getter "flow_comp_m_x" float_t 0 8; mk_getter "flow_comp_m_y" float_t 0 12;
     mk_getter "quality" uint8_t 0 25; mk_getter "ground_distance" float_t 0 16; mk_getter "flow_rate_x" float_t 0 26;
     mk_getter "flow_rate_y" float_t 0 30].

Definition MSG_GLOBAL_VISION_POSITION_ESTIMATE : mav_message :=
  mk_message 101 "GLOBAL_VISION_POSITION_ESTIMATE" 32 117 102 false
    [mk_member uint64_t "usec" 0; mk_member float_t "x" 0; mk_member float_t "y" 0; mk_member float_t "z" 0;
     mk_member float_t "roll" 0; mk_member float_t "pitch" 0; mk_member float_t "yaw" 0;
     mk_member float_t "covariance" 21; mk_member uint8_t "reset_counter" 0]
    [mk_field "usec" MAVLINK_TYPE_UINT64_T 0 0; mk_field "x" MAVLINK_TYPE_FLOAT 0 8;
     mk_field "y" MAVLINK_TYPE_FLOAT 0 12; mk_field "z" MAVLINK_TYPE_FLOAT 0 16;
     mk_field "roll" MAVLINK_TYPE_FLOAT 0 20; mk_field "pitch" MAVLINK_TYPE_FLOAT 0 24;
     mk_field "yaw" MAVLINK_TYPE_FLOAT 0 28; mk_field "covariance" MAVLINK_TYPE_FLOAT 21 32;
     mk_field "reset_counter" MAVLINK_TYPE_UINT8_T 0 116]
    [put uint64_t 0 "usec"; put float_t 8 "x"; put float_t 12 "y"; put float_t 16 "z"; put float_t 20 "roll";
     put float_t 24 "pitch"; put float_t 28 "yaw"; put uint8_t 116 "reset_counter";
     put_array float_t 32 "covariance" 21]
    [assign "usec" "usec"; assign "x" "x"; assign "y" "y"; assign "z" "z"; assign "roll" "roll";
     assign "pitch" "pitch"; assign "yaw" "yaw"; assign "reset_counter" "reset_counter";
     copy_array "covariance" "covariance" float_t 21].
Definition GET_GLOBAL_VISION_POSITION_ESTIMATE : list getter :=
    [mk_getter "usec" uint64_t 0 0; mk_getter "x" float_t 0 8; mk_getter "y" float_t 0 12; mk_getter "z" float_t 0 16;
     mk_getter "roll" float_t 0 20; mk_getter "pitch" float_t 0 24; mk_getter "yaw" float_t 0 28;
     mk_getter "covariance" float_t 21 32; mk_getter "reset_counter" uint8_t 0 116].

Definition MSG_VISION_POSITION_ESTIMATE : mav_message :=
  mk_message 102 "VISION_POSITION_ESTIMATE" 32 117 158 false
    [mk_member uint64_t "usec" 0; mk_member float_t "x" 0; mk_member float_t "y" 0; mk_member float_t "z" 0;
     mk_member float_t "roll" 0; mk_member float_t "pitch" 0; mk_member float_t "yaw" 0;
     mk_member float_t "covariance" 21; mk_member uint8_t "reset_counter" 0]
    [mk_field "usec" MAVLINK_TYPE_UINT64_T 0 0; mk_field "x" MAVLINK_TYPE_FLOAT 0 8;
     mk_field "y" MAVLINK_TYPE_FLOAT 0 12; mk_field "z" MAVLINK_TYPE_FLOAT 0 16;
     mk_field "roll" MAVLINK_TYPE_FLOAT 0 20; mk_field "pitch" MAVLINK_TYPE_FLOAT 0 24;
     mk_field "yaw" MAVLINK_TYPE_FLOAT 0 28; mk_field "covariance" MAVLINK_TYPE_FLOAT 21 32;
     mk_field "reset_counter" MAVLINK_TYPE_UINT8_T 0 116]
    [put uint64_t 0 "usec"; put float_t 8 "x"; put float_t 12 "y"; put float_t 16 "z"; put float_t 20 "roll";
     put float_t 24 "pitch"; put float_t 28 "yaw"; put uint8_t 116 "reset_counter";
     put_array float_t 32 "covariance" 21]
    [assign "usec" "usec"; assign "x" "x"; assign "y" "y"; assign "z" "z"; assign "roll" "roll";
     assign "pitch" "pitch"; assign "yaw" "yaw"; assign "reset_counter" "reset_counter";
     copy_array "covariance" "covariance" float_t 21].
Definition GET_VISION_POSITION_ESTIMATE : list getter :=
    [mk_getter "usec" uint64_t 0 0; mk_getter "x" float_t 0 8; mk_getter "y" float_t 0 12; mk_getter "z" float_t 0 16;
     mk_getter "roll" float_t 0 20; mk_getter "pitch" float_t 0 24; mk_getter "yaw" float_t 0 28;
     mk_getter "covariance" float_t 21 32; mk_getter "reset_counter" uint8_t 0 116].

Definition MSG_VISION_SPEED_ESTIMATE : mav_message :=
  mk_message 103 "VISION_SPEED_ESTIMATE" 20 57 208 false
    [mk_member uint64_t "usec" 0; mk_member float_t "x" 0; mk_member float_t "y" 0; mk_member float_t "z" 0;
     mk_member float_t "covariance" 9; mk_member uint8_t "reset_counter" 0]
    [mk_field "usec" MAVLINK_TYPE_UINT64_T 0 0; mk_field "x" MAVLINK_TYPE_FLOAT 0 8;
     mk_field "y" MAVLINK_TYPE_FLOAT 0 12; mk_field "z" MAVLINK_TYPE_FLOAT 0 16;
     mk_field "covariance" MAVLINK_TYPE_FLOAT 9 20; mk_field "reset_counter" MAVLINK_TYPE_UINT8_T 0 56]
    [put uint64_t 0 "usec"; put float_t 8 "x"; put float_t 12 "y"; put float_t 16 "z"; put uint8_t 56 "reset_counter";
     put_array float_t 20 "covariance" 9]
    [assign "usec" "usec"; assign "x" "x"; assign "y" "y"; assign "z" "z"; assign "reset_counter" "reset_counter";
     copy_array "covariance" "covariance" float_t 9].
Definition GET_VISION_SPEED_ESTIMATE : list getter :=
    [mk_getter "usec" uint64_t 0 0; mk_getter "x" float_t 0 8; mk_getter "y" float_t 0 12; mk_getter "z" float_t 0 16;
     mk_getter "covariance" float_t 9 20; mk_getter "reset_counter" uint8_t 0 56].

Definition MSG_VICON_POSITION_ESTIMATE : mav_message :=
  mk_message 104 "VICON_POSITION_ESTIMATE" 32 116 56 false
    [mk_member uint64_t "usec" 0; mk_member float_t "x" 0; mk_member float_t "y" 0; mk_member float_t "z" 0;
     mk_member float_t "roll" 0; mk_member float_t "pitch" 0; mk_member float_t "yaw" 0;
     mk_member float_t "covariance" 21]
    [mk_field "usec" MAVLINK_TYPE_UINT64_T 0 0; mk_field "x" MAVLINK_TYPE_FLOAT 0 8;
     mk_field "y" MAVLINK_TYPE_FLOAT 0 12; mk_field "z" MAVLINK_TYPE_FLOAT 0 16;
     mk_field "roll" MAVLINK_TYPE_FLOAT 0 20; mk_field "pitch" MAVLINK_TYPE_FLOAT 0 24;
     mk_field "yaw" MAVLINK_TYPE_FLOAT 0 28; mk_field "covariance" MAVLINK_TYPE_FLOAT 21 32]
    [put uint64_t 0 "usec"; put float_t 8 "x"; put float_t 12 "y"; put float_t 16 "z"; put float_t 20 "roll";
     put float_t 24 "pitch"; put float_t 28 "yaw"; put_array float_t 32 "covariance" 21]
    [assign "usec" "usec"; assign "x" "x"; assign "y" "y"; assign "z" "z"; assign "roll" "roll";
     assign "pitch" "pitch"; assign "yaw" "yaw"; copy_array "covariance" "covariance" float_t 21].
Definition GET_VICON_POSITION_ESTIMATE : list getter :=
    [mk_getter "usec" uint64_t 0 0; mk_getter "x" float_t 0 8; mk_getter "y" float_t 0 12; mk_getter "z" float_t 0 16;
     mk_getter "roll" float_t 0 20; mk_getter "pitch" float_t 0 24; mk_getter "yaw" float_t 0 28;
     mk_getter "covariance" float_t 21 32].

Definition MSG_HIGHRES_IMU : mav_message :=
  mk_message 105 "HIGHRES_IMU" 62 63 93 false
    [mk_member uint64_t "time_usec" 0; mk_member float_t "xacc" 0; mk_member float_t "yacc" 0;
     mk_member float_t "zacc" 0; mk_member float_t "xgyro" 0; mk_member float_t "ygyro" 0;
     mk_member float_t "zgyro" 0; mk_member float_t "xmag" 0; mk_member float_t "ymag" 0; mk_member float_t "zmag" 0;
     mk_member float_t "abs_pressure" 0; mk_member float_t "diff_pressure" 0; mk_member float_t "pressure_alt" 0;
     mk_member float_t "temperature" 0; mk_member uint16_t "fields_updated" 0; mk_member uint8_t "id" 0]
    [mk_field "time_usec" MAVLINK_TYPE_UINT64_T 0 0; mk_field "xacc" MAVLINK_TYPE_FLOAT 0 8;
     mk_field "yacc" MAVLINK_TYPE_FLOAT 0 12; mk_field "zacc" MAVLINK_TYPE_FLOAT 0 16;
     mk_field "xgyro" MAVLINK_TYPE_FLOAT 0 20; mk_field "ygyro" MAVLINK_TYPE_FLOAT 0 24;
     mk_field "zgyro" MAVLINK_TYPE_FLOAT 0 28; mk_field "xmag" MAVLINK_TYPE_FLOAT 0 32;
     mk_field "ymag" MAVLINK_TYPE_FLOAT 0 36; mk_field "zmag" MAVLINK_TYPE_FLOAT 0 40;
     mk_field "abs_pressure" MAVLINK_TYPE_FLOAT 0 44; mk_field "diff_pressure" MAVLINK_TYPE_FLOAT 0 48;
     mk_field "pressure_alt" MAVLINK_TYPE_FLOAT 0 52; mk_field "temperature" MAVLINK_TYPE_FLOAT 0 56;
     mk_field "fields_updated" MAVLINK_TYPE_UINT16_T 0 60; mk_field "id" MAVLINK_TYPE_UINT8_T 0 62]
    [put uint64_t 0 "time_usec"; put float_t 8 "xacc"; put float_t 12 "yacc"; put float_t 16 "zacc";
     put float_t 20 "xgyro"; put float_t 24 "ygyro"; put float_t 28 "zgyro"; put float_t 32 "xmag";
     put float_t 36 "ymag"; put float_t 40 "zmag"; put float_t 44 "abs_pressure"; put float_t 48 "diff_pressure";
     put float_t 52 "pressure_alt"; put float_t 56 "temperature"; put uint16_t 60 "fields_updated";
     put uint8_t 62 "id"]
    [assign "time_usec" "time_usec"; assign "xacc" "xacc"; assign "yacc" "yacc"; assign "zacc" "zacc";
     assign "xgyro" "xgyro"; assign "ygyro" "ygyro"; assign "zgyro" "zgyro"; assign "xmag" "xmag";
     assign "ymag" "ymag"; assign "zmag" "zmag"; assign "abs_pressure" "abs_pressure";
     assign "diff_pressure" "diff_pressure"; assign "pressure_alt" "pressure_alt"; assign "temperature" "temperature";
     assign "fields_updated" "fields_updated"; assign "id" "id"].
Definition GET_HIGHRES_IMU : list getter :=
    [mk_getter "time_usec" uint64_t 0 0; mk_getter "xacc" float_t 0 8; mk_getter "yacc" float_t 0 12;
     mk_getter "zacc" float_t 0 16; mk_getter "xgyro" float_t 0 20; mk_getter "ygyro" float_t 0 24;
     mk_getter "zgyro" float_t 0 28; mk_getter "xmag" float_t 0 32; mk_getter "ymag" float_t 0 36;
     mk_getter "zmag" float_t 0 40; mk_getter "abs_pressure" float_t 0 44; mk_getter "diff_pressure" float_t 0 48;
     mk_getter "pressure_alt" float_t 0 52; mk_getter "temperature" float_t 0 56;
     mk_getter "fields_updated" uint16_t 0 60; mk_getter "id" uint8_t 0 62].

Definition MSG_OPTICAL_FLOW_RAD : mav_message :=
  mk_message 106 "OPTICAL_FLOW_RAD" 44 44 138 false
    [mk_member uint64_t "time_usec" 0; mk_member uint32_t "integration_time_us" 0; mk_member float_t "integrated_x" 0;
     mk_member float_t "integrated_y" 0; mk_member float_t "integrated_xgyro" 0;
     mk_member float_t "integrated_ygyro" 0; mk_member float_t "integrated_zgyro" 0;
     mk_member uint32_t "time_delta_distance_us" 0; mk_member float_t "distance" 0; mk_member int16_t "temperature" 0;
     mk_member uint8_t "sensor_id" 0; mk_member uint8_t "quality" 0]
    [mk_field "time_usec" MAVLINK_TYPE_UINT64_T 0 0; mk_field "sensor_id" MAVLINK_TYPE_UINT8_T 0 42;
     mk_field "integration_time_us" MAVLINK_TYPE_UINT32_T 0 8; mk_field "integrated_x" MAVLINK_TYPE_FLOAT 0 12;
     mk_field "integrated_y" MAVLINK_TYPE_FLOAT 0 16; mk_field "integrated_xgyro" MAVLINK_TYPE_FLOAT 0 20;
     mk_field "integrated_ygyro" MAVLINK_TYPE_FLOAT 0 24; mk_field "integrated_zgyro" MAVLINK_TYPE_FLOAT 0 28;
     mk_field "temperature" MAVLINK_TYPE_INT16_T 0 40; mk_field "quality" MAVLINK_TYPE_UINT8_T 0 43;
     mk_field "time_delta_distance_us" MAVLINK_TYPE_UINT32_T 0 32; mk_field "distance" MAVLINK_TYPE_FLOAT 0 36]
    [put uint64_t 0 "time_usec"; put uint32_t 8 "integration_time_us"; put float_t 12 "integrated_x";
     put float_t 16 "integrated_y"; put float_t 20 "integrated_xgyro"; put float_t 24 "integrated_ygyro";
     put float_t 28 "integrated_zgyro"; put uint32_t 32 "time_delta_distance_us"; put float_t 36 "distance";
     put int16_t 40 "temperature"; put uint8_t 42 "sensor_id"; put uint8_t 43 "quality"]
    [assign "time_usec" "time_usec"; assign "integration_time_us" "integration_time_us";
     assign "integrated_x" "integrated_x"; assign "integrated_y" "integrated_y";
     assign "integrated_xgyro" "integrated_xgyro"; assign "integrated_ygyro" "integrated_ygyro";
     assign "integrated_zgyro" "integrated_zgyro"; assign "time_delta_distance_us" "time_delta_distance_us";
     assign "distance" "distance"; assign "temperature" "temperature"; assign "sensor_id" "sensor_id";
     assign "quality" "quality"].
Definition GET_OPTICAL_FLOW_RAD : list getter :=
    [mk_getter "time_usec" uint64_t 0 0; mk_getter "sensor_id" uint8_t 0 42;
     mk_getter "integration_time_us" uint32_t 0 8; mk_getter "integrated_x" float_t 0 12;
     mk_getter "integrated_y" float_t 0 16; mk_getter "integrated_xgyro" float_t 0 20;
     mk_getter "integrated_ygyro" float_t 0 24; mk_getter "integrated_zgyro" float_t 0 28;
     mk_getter "temperature" int16_t 0 40; mk_getter "quality" uint8_t 0 43;
     mk_getter "time_delta_distance_us" uint32_t 0 32; mk_getter "distance" float_t 0 36].

Definition MSG_HIL_SENSOR : mav_message :=
  mk_message 107 "HIL_SENSOR" 64 65 108 false
    [mk_member uint64_t "time_usec" 0; mk_member float_t "xacc" 0; mk_member float_t "yacc" 0;
     mk_member float_t "zacc" 0; mk_member float_t "xgyro" 0; mk_member float_t "ygyro" 0;
     mk_member float_t "zgyro" 0; mk_member float_t "xmag" 0; mk_member float_t "ymag" 0; mk_member float_t "zmag" 0;
     mk_member float_t "abs_pressure" 0; mk_member float_t "diff_pressure" 0; mk_member float_t "pressure_alt" 0;
     mk_member float_t "temperature" 0; mk_member uint32_t "fields_updated" 0; mk_member uint8_t "id" 0]
    [mk_field "time_usec" MAVLINK_TYPE_UINT64_T 0 0; mk_field "xacc" MAVLINK_TYPE_FLOAT 0 8;
     mk_field "yacc" MAVLINK_TYPE_FLOAT 0 12; mk_field "zacc" MAVLINK_TYPE_FLOAT 0 16;
     mk_field "xgyro" MAVLINK_TYPE_FLOAT 0 20; mk_field "ygyro" MAVLINK_TYPE_FLOAT 0 24;
     mk_field "zgyro" MAVLINK_TYPE_FLOAT 0 28; mk_field "xmag" MAVLINK_TYPE_FLOAT 0 32;
     mk_field "ymag" MAVLINK_TYPE_FLOAT 0 36; mk_field "zmag" MAVLINK_TYPE_FLOAT 0 40;
     mk_field "abs_pressure" MAVLINK_TYPE_FLOAT 0 44; mk_field "diff_pressure" MAVLINK_TYPE_FLOAT 0 48;
     mk_field "pressure_alt" MAVLINK_TYPE_FLOAT 0 52; mk_field "temperature" MAVLINK_TYPE_FLOAT 0 56;
     mk_field "fields_updated" MAVLINK_TYPE_UINT32_T 0 60; mk_field "id" MAVLINK_TYPE_UINT8_T 0 64]
    [put uint64_t 0 "time_usec"; put float_t 8 "xacc"; put float_t 12 "yacc"; put float_t 16 "zacc";
     put float_t 20 "xgyro"; put float_t 24 "ygyro"; put float_t 28 "zgyro"; put float_t 32 "xmag";
     put float_t 36 "ymag"; put float_t 40 "zmag"; put float_t 44 "abs_pressure"; put float_t 48 "diff_pressure";
     put float_t 52 "pressure_alt"; put float_t 56 "temperature"; put uint32_t 60 "fields_updated";
     put uint8_t 64 "id"]
    [assign "time_usec" "time_usec"; assign "xacc" "xacc"; assign "yacc" "yacc"; assign "zacc" "zacc";
     assign "xgyro" "xgyro"; assign "ygyro" "ygyro"; assign "zgyro" "zgyro"; assign "xmag" "xmag";
     assign "ymag" "ymag"; assign "zmag" "zmag"; assign "abs_pressure" "abs_pressure";
     assign "diff_pressure" "diff_pressure"; assign "pressure_alt" "pressure_alt"; assign "temperature" "temperature";
     assign "fields_updated" "fields_updated"; assign "id" "id"].
Definition GET_HIL_SENSOR : list getter :=
    [mk_getter "time_usec" uint64_t 0 0; mk_getter "xacc" float_t 0 8; mk_getter "yacc" float_t 0 12;
     mk_getter "zacc" float_t 0 16; mk_getter "xgyro" float_t 0 20; mk_getter "ygyro" float_t 0 24;
     mk_getter "zgyro" float_t 0 28; mk_getter "xmag" float_t 0 32; mk_getter "ymag" float_t 0 36;
     mk_getter "zmag" float_t 0 40; mk_getter "abs_pressure" float_t 0 44; mk_getter "diff_pressure" float_t 0 48;
     mk_getter "pressure_alt" float_t 0 52; mk_getter "temperature" float_t 0 56;
     mk_getter "fields_updated" uint32_t 0 60; mk_getter "id" uint8_t 0 64].

Definition MSG_SIM_STATE : mav_message :=
  mk_message 108 "SIM_STATE" 84 92 32 false
    [mk_member float_t "q1" 0; mk_member float_t "q2" 0; mk_member float_t "q3" 0; mk_member float_t "q4" 0;
     mk_member float_t "roll" 0; mk_member float_t "pitch" 0; mk_member float_t "yaw" 0; mk_member float_t "xacc" 0;
     mk_member float_t "yacc" 0; mk_member float_t "zacc" 0; mk_member float_t "xgyro" 0; mk_member float_t "ygyro" 0;
     mk_member float_t "zgyro" 0; mk_member float_t "lat" 0; mk_member float_t "lon" 0; mk_member float_t "alt" 0;
     mk_member float_t "std_dev_horz" 0; mk_member float_t "std_dev_vert" 0; mk_member float_t "vn" 0;
     mk_member float_t "ve" 0; mk_member float_t "vd" 0; mk_member int32_t "lat_int" 0; mk_member int32_t "lon_int" 0]
    [mk_field "q1" MAVLINK_TYPE_FLOAT 0 0; mk_field "q2" MAVLINK_TYPE_FLOAT 0 4; mk_field "q3" MAVLINK_TYPE_FLOAT 0 8;
     mk_field "q4" MAVLINK_TYPE_FLOAT 0 12; mk_field "roll" MAVLINK_TYPE_FLOAT 0 16;
     mk_field "pitch" MAVLINK_TYPE_FLOAT 0 20; mk_field "yaw" MAVLINK_TYPE_FLOAT 0 24;
     mk_field "xacc" MAVLINK_TYPE_FLOAT 0 28; mk_field "yacc" MAVLINK_TYPE_FLOAT 0 32;
     mk_field "zacc" MAVLINK_TYPE_FLOAT 0 36; mk_field "xgyro" MAVLINK_TYPE_FLOAT 0 40;
     mk_field "ygyro" MAVLINK_TYPE_FLOAT 0 44; mk_field "zgyro" MAVLINK_TYPE_FLOAT 0 48;
     mk_field "lat" MAVLINK_TYPE_FLOAT 0 52; mk_field "lon" MAVLINK_TYPE_FLOAT 0 56;
     mk_field "alt" MAVLINK_TYPE_FLOAT 0 60; mk_field "std_dev_horz" MAVLINK_TYPE_FLOAT 0 64;
     mk_field "std_dev_vert" MAVLINK_TYPE_FLOAT 0 68; mk_field "vn" MAVLINK_TYPE_FLOAT 0 72;
     mk_field "ve" MAVLINK_TYPE_FLOAT 0 76; mk_field "vd" MAVLINK_TYPE_FLOAT 0 80;
     mk_field "lat_int" MAVLINK_TYPE_INT32_T 0 84; mk_field "lon_int" MAVLINK_TYPE_INT32_T 0 88]
    [put float_t 0 "q1"; put float_t 4 "q2"; put float_t 8 "q3"; put float_t 12 "q4"; put float_t 16 "roll";
     put float_t 20 "pitch"; put float_t 24 "yaw"; put float_t 28 "xacc"; put float_t 32 "yacc";
     put float_t 36 "zacc"; put float_t 40 "xgyro"; put float_t 44 "ygyro"; put float_t 48 "zgyro";
     put float_t 52 "lat"; put float_t 56 "lon"; put float_t 60 "alt"; put float_t 64 "std_dev_horz";
     put float_t 68 "std_dev_vert"; put float_t 72 "vn"; put float_t 76 "ve"; put float_t 80 "vd";
     put int32_t 84 "lat_int"; put int32_t 88 "lon_int"]
    [assign "q1" "q1"; assign "q2" "q2"; assign "q3" "q3"; assign "q4" "q4"; assign "roll" "roll";
     assign "pitch" "pitch"; assign "yaw" "yaw"; assign "xacc" "xacc"; assign "yacc" "yacc"; assign "zacc" "zacc";
     assign "xgyro" "xgyro"; assign "ygyro" "ygyro"; assign "zgyro" "zgyro"; assign "lat" "lat"; assign "lon" "lon";
     assign "alt" "alt"; assign "std_dev_horz" "std_dev_horz"; assign "std_dev_vert" "std_dev_vert"; assign "vn" "vn";
     assign "ve" "ve"; assign "vd" "vd"; assign "lat_int" "lat_int"; assign "lon_int" "lon_int"].
Definition GET_SIM_STATE : list getter :=
    [mk_getter "q1" float_t 0 0; mk_getter "q2" float_t 0 4; mk_getter "q3" float_t 0 8; mk_getter "q4" float_t 0 12;
     mk_getter "roll" float_t 0 16; mk_getter "pitch" float_t 0 20; mk_getter "yaw" float_t 0 24;
     mk_getter "xacc" float_t 0 28; mk_getter "yacc" float_t 0 32; mk_getter "zacc" float_t 0 36;
     mk_getter "xgyro" float_t 0 40; mk_getter "ygyro" float_t 0 44; mk_getter "zgyro" float_t 0 48;
     mk_getter "lat" float_t 0 52; mk_getter "lon" float_t 0 56; mk_getter "alt" float_t 0 60;
     mk_getter "std_dev_horz" float_t 0 64; mk_getter "std_dev_vert" float_t 0 68; mk_getter "vn" float_t 0 72;
     mk_getter "ve" float_t 0 76; mk_getter "vd" float_t 0 80; mk_getter "lat_int" int32_t 0 84;
     mk_getter "lon_int" int32_t 0 88].

Definition MSG_RADIO_STATUS : mav_message :=
  mk_message 109 "RADIO_STATUS" 9 9 185 false
    [mk_member uint16_t "rxerrors" 0; mk_member uint16_t "fixed" 0; mk_member uint8_t "rssi" 0;
     mk_member uint8_t "remrssi" 0; mk_member uint8_t "txbuf" 0; mk_member uint8_t "noise" 0;
     mk_member uint8_t "remnoise" 0]
    [mk_field "rssi" MAVLINK_TYPE_UINT8_T 0 4; mk_field "remrssi" MAVLINK_TYPE_UINT8_T 0 5;
     mk_field "txbuf" MAVLINK_TYPE_UINT8_T 0 6; mk_field "noise" MAVLINK_TYPE_UINT8_T 0 7;
     mk_field "remnoise" MAVLINK_TYPE_UINT8_T 0 8; mk_field "rxerrors" MAVLINK_TYPE_UINT16_T 0 0;
     mk_field "fixed" MAVLINK_TYPE_UINT16_T 0 2]
    [put uint16_t 0 "rxerrors"; put uint16_t 2 "fixed"; put uint8_t 4 "rssi"; put uint8_t 5 "remrssi";
     put uint8_t 6 "txbuf"; put uint8_t 7 "noise"; put uint8_t 8 "remnoise"]
    [assign "rxerrors" "rxerrors"; assign "fixed" "fixed"; assign "rssi" "rssi"; assign "remrssi" "remrssi";
     assign "txbuf" "txbuf"; assign "noise" "noise"; assign "remnoise" "remnoise"].
Definition GET_RADIO_STATUS : list getter :=
    [mk_getter "rssi" uint8_t 0 4; mk_getter "remrssi" uint8_t 0 5; mk_getter "txbuf" uint8_t 0 6;
     mk_getter "noise" uint8_t 0 7; mk_getter "remnoise" uint8_t 0 8; mk_getter "rxerrors" uint16_t 0 0;
     mk_getter "fixed" uint16_t 0 2].

Definition messages1 : list (mav_message * list getter) :=
    [(MSG_HEARTBEAT, GET_HEARTBEAT); (MSG_SYS_STATUS, GET_SYS_STATUS); (MSG_SYSTEM_TIME, GET_SYSTEM_TIME);
     (MSG_PING, GET_PING); (MSG_CHANGE_OPERATOR_CONTROL, GET_CHANGE_OPERATOR_CONTROL);
     (MSG_CHANGE_OPERATOR_CONTROL_ACK, GET_CHANGE_OPERATOR_CONTROL_ACK); (MSG_AUTH_KEY, GET_AUTH_KEY);
     (MSG_LINK_NODE_STATUS, GET_LINK_NODE_STATUS); (MSG_SET_MODE, GET_SET_MODE);
     (MSG_PARAM_REQUEST_READ, GET_PARAM_REQUEST_READ); (MSG_PARAM_REQUEST_LIST, GET_PARAM_REQUEST_LIST);
     (MSG_PARAM_VALUE, GET_PARAM_VALUE); (MSG_PARAM_SET, GET_PARAM_SET); (MSG_GPS_RAW_INT, GET_GPS_RAW_INT);
     (MSG_GPS_STATUS, GET_GPS_STATUS); (MSG_SCALED_IMU, GET_SCALED_IMU); (MSG_RAW_IMU, GET_RAW_IMU);
     (MSG_RAW_PRESSURE, GET_RAW_PRESSURE); (MSG_SCALED_PRESSURE, GET_SCALED_PRESSURE); (MSG_ATTITUDE, GET_ATTITUDE);
     (MSG_ATTITUDE_QUATERNION, GET_ATTITUDE_QUATERNION); (MSG_LOCAL_POSITION_NED, GET_LOCAL_POSITION_NED);
     (MSG_GLOBAL_POSITION_INT, GET_GLOBAL_POSITION_INT); (MSG_RC_CHANNELS_SCALED, GET_RC_CHANNELS_SCALED);
     (MSG_RC_CHANNELS_RAW, GET_RC_CHANNELS_RAW); (MSG_SERVO_OUTPUT_RAW, GET_SERVO_OUTPUT_RAW);
     (MSG_MISSION_REQUEST_PARTIAL_LIST, GET_MISSION_REQUEST_PARTIAL_LIST);
     (MSG_MISSION_WRITE_PARTIAL_LIST, GET_MISSION_WRITE_PARTIAL_LIST); (MSG_MISSION_ITEM, GET_MISSION_ITEM);
     (MSG_MISSION_REQUEST, GET_MISSION_REQUEST); (MSG_MISSION_SET_CURRENT, GET_MISSION_SET_CURRENT);
     (MSG_MISSION_CURRENT, GET_MISSION_CURRENT); (MSG_MISSION_REQUEST_LIST, GET_MISSION_REQUEST_LIST);
     (MSG_MISSION_COUNT, GET_MISSION_COUNT); (MSG_MISSION_CLEAR_ALL, GET_MISSION_CLEAR_ALL);
     (MSG_MISSION_ITEM_REACHED, GET_MISSION_ITEM_REACHED); (MSG_MISSION_ACK, GET_MISSION_ACK);
     (MSG_SET_GPS_GLOBAL_ORIGIN, GET_SET_GPS_GLOBAL_ORIGIN); (MSG_GPS_GLOBAL_ORIGIN, GET_GPS_GLOBAL_ORIGIN);
     (MSG_PARAM_MAP_RC, GET_PARAM_MAP_RC); (MSG_MISSION_REQUEST_INT, GET_MISSION_REQUEST_INT);
     (MSG_SAFETY_SET_ALLOWED_AREA, GET_SAFETY_SET_ALLOWED_AREA); (MSG_SAFETY_ALLOWED_AREA, GET_SAFETY_ALLOWED_AREA);
     (MSG_ATTITUDE_QUATERNION_COV, GET_ATTITUDE_QUATERNION_COV);
     (MSG_NAV_CONTROLLER_OUTPUT, GET_NAV_CONTROLLER_OUTPUT);
     (MSG_GLOBAL_POSITION_INT_COV, GET_GLOBAL_POSITION_INT_COV);
     (MSG_LOCAL_POSITION_NED_COV, GET_LOCAL_POSITION_NED_COV); (MSG_RC_CHANNELS, GET_RC_CHANNELS);
     (MSG_REQUEST_DATA_STREAM, GET_REQUEST_DATA_STREAM); (MSG_DATA_STREAM, GET_DATA_STREAM);
     (MSG_MANUAL_CONTROL, GET_MANUAL_CONTROL); (MSG_RC_CHANNELS_OVERRIDE, GET_RC_CHANNELS_OVERRIDE);
     (MSG_MISSION_ITEM_INT, GET_MISSION_ITEM_INT); (MSG_VFR_HUD, GET_VFR_HUD); (MSG_COMMAND_INT, GET_COMMAND_INT);
     (MSG_COMMAND_LONG, GET_COMMAND_LONG); (MSG_COMMAND_ACK, GET_COMMAND_ACK);
     (MSG_COMMAND_CANCEL, GET_COMMAND_CANCEL); (MSG_MANUAL_SETPOINT, GET_MANUAL_SETPOINT);
     (MSG_SET_ATTITUDE_TARGET, GET_SET_ATTITUDE_TARGET); (MSG_ATTITUDE_TARGET, GET_ATTITUDE_TARGET);
     (MSG_SET_POSITION_TARGET_LOCAL_NED, GET_SET_POSITION_TARGET_LOCAL_NED);
     (MSG_POSITION_TARGET_LOCAL_NED, GET_POSITION_TARGET_LOCAL_NED);
     (MSG_SET_POSITION_TARGET_GLOBAL_INT, GET_SET_POSITION_TARGET_GLOBAL_INT);
     (MSG_POSITION_TARGET_GLOBAL_INT, GET_POSITION_TARGET_GLOBAL_INT);
     (MSG_LOCAL_POSITION_NED_SYSTEM_GLOBAL_OFFSET, GET_LOCAL_POSITION_NED_SYSTEM_GLOBAL_OFFSET);
     (MSG_HIL_STATE, GET_HIL_STATE); (MSG_HIL_CONTROLS, GET_HIL_CONTROLS);
     (MSG_HIL_RC_INPUTS_RAW, GET_HIL_RC_INPUTS_RAW); (MSG_HIL_ACTUATOR_CONTROLS, GET_HIL_ACTUATOR_CONTROLS);
     (MSG_OPTICAL_FLOW, GET_OPTICAL_FLOW); (MSG_GLOBAL_VISION_POSITION_ESTIMATE, GET_GLOBAL_VISION_POSITION_ESTIMATE);
     (MSG_VISION_POSITION_ESTIMATE, GET_VISION_POSITION_ESTIMATE);
     (MSG_VISION_SPEED_ESTIMATE, GET_VISION_SPEED_ESTIMATE);
     (MSG_VICON_POSITION_ESTIMATE, GET_VICON_POSITION_ESTIMATE); (MSG_HIGHRES_IMU, GET_HIGHRES_IMU);
     (MSG_OPTICAL_FLOW_RAD, GET_OPTICAL_FLOW_RAD); (MSG_HIL_SENSOR, GET_HIL_SENSOR); (MSG_SIM_STATE, GET_SIM_STATE);
     (MSG_RADIO_STATUS, GET_RADIO_STATUS)].
