(* ===== verification/MavMessages2.v ===== *)
(** * Message headers, part 2

    The headers of the messages 110 to 276 of the dialect [common]: for each, the
    structure, the description, the bodies of its packing functions ([MSG_*]) and its
    getters ([GET_*]), as [MavFields] reads them. *)
From stdpp Require Import strings.
From S2P Require Import Prelude MavFields.

#[local] Open Scope Z_scope.

Definition MSG_FILE_TRANSFER_PROTOCOL : mav_message :=
  mk_message 110 "FILE_TRANSFER_PROTOCOL" 254 254 84 false
    [mk_member uint8_t "target_network" 0; mk_member uint8_t "target_system" 0;
     mk_member uint8_t "target_component" 0; mk_member uint8_t "payload" 251]
    [mk_field "target_network" MAVLINK_TYPE_UINT8_T 0 0; mk_field "target_system" MAVLINK_TYPE_UINT8_T 0 1;
     mk_field "target_component" MAVLINK_TYPE_UINT8_T 0 2; mk_field "payload" MAVLINK_TYPE_UINT8_T 251 3]
    [put uint8_t 0 "target_network"; put uint8_t 1 "target_system"; put uint8_t 2 "target_component";
     put_array uint8_t 3 "payload" 251]
    [assign "target_network" "target_network"; assign "target_system" "target_system";
     assign "target_component" "target_component"; copy_array "payload" "payload" uint8_t 251].
Definition GET_FILE_TRANSFER_PROTOCOL : list getter :=
    [mk_getter "target_network" uint8_t 0 0; mk_getter "target_system" uint8_t 0 1;
     mk_getter "target_component" uint8_t 0 2; mk_getter "payload" uint8_t 251 3].

Definition MSG_TIMESYNC : mav_message :=
  mk_message 111 "TIMESYNC" 16 18 34 false
    [mk_member int64_t "tc1" 0; mk_member int64_t "ts1" 0; mk_member uint8_t "target_system" 0;
     mk_member uint8_t "target_component" 0]
    [mk_field "tc1" MAVLINK_TYPE_INT64_T 0 0; mk_field "ts1" MAVLINK_TYPE_INT64_T 0 8;
     mk_field "target_system" MAVLINK_TYPE_UINT8_T 0 16; mk_field "target_component" MAVLINK_TYPE_UINT8_T 0 17]
    [put int64_t 0 "tc1"; put int64_t 8 "ts1"; put uint8_t 16 "target_system"; put uint8_t 17 "target_component"]
    [assign "tc1" "tc1"; assign "ts1" "ts1"; assign "target_system" "target_system";
     assign "target_component" "target_component"].
Definition GET_TIMESYNC : list getter :=
    [mk_getter "tc1" int64_t 0 0; mk_getter "ts1" int64_t 0 8; mk_getter "target_system" uint8_t 0 16;
     mk_getter "target_component" uint8_t 0 17].

Definition MSG_CAMERA_TRIGGER : mav_message :=
  mk_message 112 "CAMERA_TRIGGER" 12 12 174 false
    [mk_member uint64_t "time_usec" 0; mk_member uint32_t "seq" 0]
    [mk_field "time_usec" MAVLINK_TYPE_UINT64_T 0 0; mk_field "seq" MAVLINK_TYPE_UINT32_T 0 8]
    [put uint64_t 0 "time_usec"; put uint32_t 8 "seq"]
    [assign "time_usec" "time_usec"; assign "seq" "seq"].
Definition GET_CAMERA_TRIGGER : list getter :=
    [mk_getter "time_usec" uint64_t 0 0; mk_getter "seq" uint32_t 0 8].

Definition MSG_HIL_GPS : mav_message :=
  mk_message 113 "HIL_GPS" 36 39 124 true
    [mk_member uint64_t "time_usec" 0; mk_member int32_t "lat" 0; mk_member int32_t "lon" 0;
     mk_member int32_t "alt" 0; mk_member uint16_t "eph" 0; mk_member uint16_t "epv" 0; mk_member uint16_t "vel" 0;
     mk_member int16_t "vn" 0; mk_member int16_t "ve" 0; mk_member int16_t "vd" 0; mk_member uint16_t "cog" 0;
     mk_member uint8_t "fix_type" 0; mk_member uint8_t "satellites_visible" 0; mk_member uint8_t "id" 0;
     mk_member uint16_t "yaw" 0]
    [mk_field "time_usec" MAVLINK_TYPE_UINT64_T 0 0; mk_field "fix_type" MAVLINK_TYPE_UINT8_T 0 34;
     mk_field "lat" MAVLINK_TYPE_INT32_T 0 8; mk_field "lon" MAVLINK_TYPE_INT32_T 0 12;
     mk_field "alt" MAVLINK_TYPE_INT32_T 0 16; mk_field "eph" MAVLINK_TYPE_UINT16_T 0 20;
     mk_field "epv" MAVLINK_TYPE_UINT16_T 0 22; mk_field "vel" MAVLINK_TYPE_UINT16_T 0 24;
     mk_field "vn" MAVLINK_TYPE_INT16_T 0 26; mk_field "ve" MAVLINK_TYPE_INT16_T 0 28;
     mk_field "vd" MAVLINK_TYPE_INT16_T 0 30; mk_field "cog" MAVLINK_TYPE_UINT16_T 0 32;
     mk_field "satellites_visible" MAVLINK_TYPE_UINT8_T 0 35; mk_field "id" MAVLINK_TYPE_UINT8_T 0 36;
     mk_field "yaw" MAVLINK_TYPE_UINT16_T 0 37]
    [put uint64_t 0 "time_usec"; put int32_t 8 "lat"; put int32_t 12 "lon"; put int32_t 16 "alt";
     put uint16_t 20 "eph"; put uint16_t 22 "epv"; put uint16_t 24 "vel"; put int16_t 26 "vn"; put int16_t 28 "ve";
     put int16_t 30 "vd"; put uint16_t 32 "cog"; put uint8_t 34 "fix_type"; put uint8_t 35 "satellites_visible";
     put uint8_t 36 "id"; put uint16_t 37 "yaw"]
    [assign "time_usec" "time_usec"; assign "lat" "lat"; assign "lon" "lon"; assign "alt" "alt"; assign "eph" "eph";
     assign "epv" "epv"; assign "vel" "vel"; assign "vn" "vn"; assign "ve" "ve"; assign "vd" "vd"; assign "cog" "cog";
     assign "fix_type" "fix_type"; assign "satellites_visible" "satellites_visible"; assign "id" "id";
     assign "yaw" "yaw"].
Definition GET_HIL_GPS : list getter :=
    [mk_getter "time_usec" uint64_t 0 0; mk_getter "fix_type" uint8_t 0 34; mk_getter "lat" int32_t 0 8;
     mk_getter "lon" int32_t 0 12; mk_getter "alt" int32_t 0 16; mk_getter "eph" uint16_t 0 20;
     mk_getter "epv" uint16_t 0 22; mk_getter "vel" uint16_t 0 24; mk_getter "vn" int16_t 0 26;
     mk_getter "ve" int16_t 0 28; mk_getter "vd" int16_t 0 30; mk_getter "cog" uint16_t 0 32;
     mk_getter "satellites_visible" uint8_t 0 35; mk_getter "id" uint8_t 0 36; mk_getter "yaw" uint16_t 0 37].

Definition MSG_HIL_OPTICAL_FLOW : mav_message :=
  mk_message 114 "HIL_OPTICAL_FLOW" 44 44 237 false
    [mk_member uint64_t "time_usec" 0; mk_member uint32_t "integration_time_us" 0; mk_member float_t "integrated_x" 0;
     mk_member float_t "integrated_y" 0; mk_member float_t "integrated_xgyro" 0;
     mk_member float_t "integrated_ygyro" 0; mk_member float_t "integrated_zgyro" 0;
     mk_member uint32_t "time_delta_distance_us" 0; mk_member float_t "distance" 0; mk_member int16_t "temperature" 0;
     mk_member uint8_t "sensor_id" 0; mk_member uint8_t "quality" 0]
    [mk_field "time_usec" MAVLINK_TYPE_UINT64_T 0 0; mk_field "sensor_id" MAVLINK_TYPE_UINT8_T 0 42;
     mk_field "integration_time_us" MAVLINK_TYPE_UINT32_T 0 8; mk_field "integrated_x" MAVLINK_TYPE_FLOAT 0 12;
     mk_field "integrated_y" MAVLINK_TYPE_FLOAT 0 16; mk_field "integrated_xgyro" MAVLINK_TYPE_FLOAT 0 20;
     mk_field "integrated_ygyro" MAVLINK_TYPE_FLOAT 0 24; mk_field "integrated_zgyro" MAVLINK_TYPE_FLOAT 0 28;
     mk_field "temperature" MAVLINK_TYPE_INT16_T 0 40; mk_field "quality" MAVLINK_TYPE_UINT8_T 0 43;
     mk_field "time_delta_distance_us" MAVLINK_TYPE_UINT32_T 0 32; mk_field "distance" MAVLINK_TYPE_FLOAT 0 36]
    [put uint64_t 0 "time_usec"; put uint32_t 8 "integration_time_us"; put float_t 12 "integrated_x";
     put float_t 16 "integrated_y"; put float_t 20 "integrated_xgyro"; put float_t 24 "integrated_ygyro";
     put float_t 28 "integrated_zgyro"; put uint32_t 32 "time_delta_distance_us"; put float_t 36 "distance";
     put int16_t 40 "temperature"; put uint8_t 42 "sensor_id"; put uint8_t 43 "quality"]
    [assign "time_usec" "time_usec"; assign "integration_time_us" "integration_time_us";
     assign "integrated_x" "integrated_x"; assign "integrated_y" "integrated_y";
     assign "integrated_xgyro" "integrated_xgyro"; assign "integrated_ygyro" "integrated_ygyro";
     assign "integrated_zgyro" "integrated_zgyro"; assign "time_delta_distance_us" "time_delta_distance_us";
     assign "distance" "distance"; assign "temperature" "temperature"; assign "sensor_id" "sensor_id";
     assign "quality" "quality"].
Definition GET_HIL_OPTICAL_FLOW : list getter :=
    [mk_getter "time_usec" uint64_t 0 0; mk_getter "sensor_id" uint8_t 0 42;
     mk_getter "integration_time_us" uint32_t 0 8; mk_getter "integrated_x" float_t 0 12;
     mk_getter "integrated_y" float_t 0 16; mk_getter "integrated_xgyro" float_t 0 20;
     mk_getter "integrated_ygyro" float_t 0 24; mk_getter "integrated_zgyro" float_t 0 28;
     mk_getter "temperature" int16_t 0 40; mk_getter "quality" uint8_t 0 43;
     mk_getter "time_delta_distance_us" uint32_t 0 32; mk_getter "distance" float_t 0 36].

Definition MSG_HIL_STATE_QUATERNION : mav_message :=
  mk_message 115 "HIL_STATE_QUATERNION" 64 64 4 false
    [mk_member uint64_t "time_usec" 0; mk_member float_t "attitude_quaternion" 4; mk_member float_t "rollspeed" 0;
     mk_member float_t "pitchspeed" 0; mk_member float_t "yawspeed" 0; mk_member int32_t "lat" 0;
     mk_member int32_t "lon" 0; mk_member int32_t "alt" 0; mk_member int16_t "vx" 0; mk_member int16_t "vy" 0;
     mk_member int16_t "vz" 0; mk_member uint16_t "ind_airspeed" 0; mk_member uint16_t "true_airspeed" 0;
     mk_member int16_t "xacc" 0; mk_member int16_t "yacc" 0; mk_member int16_t "zacc" 0]
    [mk_field "time_usec" MAVLINK_TYPE_UINT64_T 0 0; mk_field "attitude_quaternion" MAVLINK_TYPE_FLOAT 4 8;
     mk_field "rollspeed" MAVLINK_TYPE_FLOAT 0 24; mk_field "pitchspeed" MAVLINK_TYPE_FLOAT 0 28;
     mk_field "yawspeed" MAVLINK_TYPE_FLOAT 0 32; mk_field "lat" MAVLINK_TYPE_INT32_T 0 36;
     mk_field "lon" MAVLINK_TYPE_INT32_T 0 40; mk_field "alt" MAVLINK_TYPE_INT32_T 0 44;
     mk_field "vx" MAVLINK_TYPE_INT16_T 0 48; mk_field "vy" MAVLINK_TYPE_INT16_T 0 50;
     mk_field "vz" MAVLINK_TYPE_INT16_T 0 52; mk_field "ind_airspeed" MAVLINK_TYPE_UINT16_T 0 54;
     mk_field "true_airspeed" MAVLINK_TYPE_UINT16_T 0 56; mk_field "xacc" MAVLINK_TYPE_INT16_T 0 58;
     mk_field "yacc" MAVLINK_TYPE_INT16_T 0 60; mk_field "zacc" MAVLINK_TYPE_INT16_T 0 62]
    [put uint64_t 0 "time_usec"; put float_t 24 "rollspeed"; put float_t 28 "pitchspeed"; put float_t 32 "yawspeed";
     put int32_t 36 "lat"; put int32_t 40 "lon"; put int32_t 44 "alt"; put int16_t 48 "vx"; put int16_t 50 "vy";
     put int16_t 52 "vz"; put uint16_t 54 "ind_airspeed"; put uint16_t 56 "true_airspeed"; put int16_t 58 "xacc";
     put int16_t 60 "yacc"; put int16_t 62 "zacc"; put_array float_t 8 "attitude_quaternion" 4]
    [assign "time_usec" "time_usec"; assign "rollspeed" "rollspeed"; assign "pitchspeed" "pitchspeed";
     assign "yawspeed" "yawspeed"; assign "lat" "lat"; assign "lon" "lon"; assign "alt" "alt"; assign "vx" "vx";
     assign "vy" "vy"; assign "vz" "vz"; assign "ind_airspeed" "ind_airspeed"; assign "true_airspeed" "true_airspeed";
     assign "xacc" "xacc"; assign "yacc" "yacc"; assign "zacc" "zacc";
     copy_array "attitude_quaternion" "attitude_quaternion" float_t 4].
Definition GET_HIL_STATE_QUATERNION : list getter :=
    [mk_getter "time_usec" uint64_t 0 0; mk_getter "attitude_quaternion" float_t 4 8;
     mk_getter "rollspeed" float_t 0 24; mk_getter "pitchspeed" float_t 0 28; mk_getter "yawspeed" float_t 0 32;
     mk_getter "lat" int32_t 0 36; mk_getter "lon" int32_t 0 40; mk_getter "alt" int32_t 0 44;
     mk_getter "vx" int16_t 0 48; mk_getter "vy" int16_t 0 50; mk_getter "vz" int16_t 0 52;
     mk_getter "ind_airspeed" uint16_t 0 54; mk_getter "true_airspeed" uint16_t 0 56; mk_getter "xacc" int16_t 0 58;
     mk_getter "yacc" int16_t 0 60; mk_getter "zacc" int16_t 0 62].

Definition MSG_SCALED_IMU2 : mav_message :=
  mk_message 116 "SCALED_IMU2" 22 24 76 false
    [mk_member uint32_t "time_boot_ms" 0; mk_member int16_t "xacc" 0; mk_member int16_t "yacc" 0;
     mk_member int16_t "zacc" 0; mk_member int16_t "xgyro" 0; mk_member int16_t "ygyro" 0;
     mk_member int16_t "zgyro" 0; mk_member int16_t "xmag" 0; mk_member int16_t "ymag" 0; mk_member int16_t "zmag" 0;
     mk_member int16_t "temperature" 0]
    [mk_field "time_boot_ms" MAVLINK_TYPE_UINT32_T 0 0; mk_field "xacc" MAVLINK_TYPE_INT16_T 0 4;
     mk_field "yacc" MAVLINK_TYPE_INT16_T 0 6; mk_field "zacc" MAVLINK_TYPE_INT16_T 0 8;
     mk_field "xgyro" MAVLINK_TYPE_INT16_T 0 10; mk_field "ygyro" MAVLINK_TYPE_INT16_T 0 12;
     mk_field "zgyro" MAVLINK_TYPE_INT16_T 0 14; mk_field "xmag" MAVLINK_TYPE_INT16_T 0 16;
     mk_field "ymag" MAVLINK_TYPE_INT16_T 0 18; mk_field "zmag" MAVLINK_TYPE_INT16_T 0 20;
     mk_field "temperature" MAVLINK_TYPE_INT16_T 0 22]
    [put uint32_t 0 "time_boot_ms"; put int16_t 4 "xacc"; put int16_t 6 "yacc"; put int16_t 8 "zacc";
     put int16_t 10 "xgyro"; put int16_t 12 "ygyro"; put int16_t 14 "zgyro"; put int16_t 16 "xmag";
     put int16_t 18 "ymag"; put int16_t 20 "zmag"; put int16_t 22 "temperature"]
    [assign "time_boot_ms" "time_boot_ms"; assign "xacc" "xacc"; assign "yacc" "yacc"; assign "zacc" "zacc";
     assign "xgyro" "xgyro"; assign "ygyro" "ygyro"; assign "zgyro" "zgyro"; assign "xmag" "xmag";
     assign "ymag" "ymag"; assign "zmag" "zmag"; assign "temperature" "temperature"].
Definition GET_SCALED_IMU2 : list getter :=
    [mk_getter "time_boot_ms" uint32_t 0 0; mk_getter "xacc" int16_t 0 4; mk_getter "yacc" int16_t 0 6;
     mk_getter "zacc" int16_t 0 8; mk_getter "xgyro" int16_t 0 10; mk_getter "ygyro" int16_t 0 12;
     mk_getter "zgyro" int16_t 0 14; mk_getter "xmag" int16_t 0 16; mk_getter "ymag" int16_t 0 18;
     mk_getter "zmag" int16_t 0 20; mk_getter "temperature" int16_t 0 22].

Definition MSG_LOG_REQUEST_LIST : mav_message :=
  mk_message 117 "LOG_REQUEST_LIST" 6 6 128 false
    [mk_member uint16_t "start" 0; mk_member uint16_t "end" 0; mk_member uint8_t "target_system" 0;
     mk_member uint8_t "target_component" 0]
    [mk_field "target_system" MAVLINK_TYPE_UINT8_T 0 4; mk_field "target_component" MAVLINK_TYPE_UINT8_T 0 5;
     mk_field "start" MAVLINK_TYPE_UINT16_T 0 0; mk_field "end" MAVLINK_TYPE_UINT16_T 0 2]
    [put uint16_t 0 "start"; put uint16_t 2 "end"; put uint8_t 4 "target_system"; put uint8_t 5 "target_component"]
    [assign "start" "start"; assign "end" "end"; assign "target_system" "target_system";
     assign "target_component" "target_component"].
Definition GET_LOG_REQUEST_LIST : list getter :=
    [mk_getter "target_system" uint8_t 0 4; mk_getter "target_component" uint8_t 0 5; mk_getter "start" uint16_t 0 0;
     mk_getter "end" uint16_t 0 2].

Definition MSG_LOG_ENTRY : mav_message :=
  mk_message 118 "LOG_ENTRY" 14 14 56 false
    [mk_member uint32_t "time_utc" 0; mk_member uint32_t "size" 0; mk_member uint16_t "id" 0;
     mk_member uint16_t "num_logs" 0; mk_member uint16_t "last_log_num" 0]
    [mk_field "id" MAVLINK_TYPE_UINT16_T 0 8; mk_field "num_logs" MAVLINK_TYPE_UINT16_T 0 10;
     mk_field "last_log_num" MAVLINK_TYPE_UINT16_T 0 12; mk_field "time_utc" MAVLINK_TYPE_UINT32_T 0 0;
     mk_field "size" MAVLINK_TYPE_UINT32_T 0 4]
    [put uint32_t 0 "time_utc"; put uint32_t 4 "size"; put uint16_t 8 "id"; put uint16_t 10 "num_logs";
     put uint16_t 12 "last_log_num"]
    [assign "time_utc" "time_utc"; assign "size" "size"; assign "id" "id"; assign "num_logs" "num_logs";
     assign "last_log_num" "last_log_num"].
Definition GET_LOG_ENTRY : list getter :=
    [mk_getter "id" uint16_t 0 8; mk_getter "num_logs" uint16_t 0 10; mk_getter "last_log_num" uint16_t 0 12;
     mk_getter "time_utc" uint32_t 0 0; mk_getter "size" uint32_t 0 4].

Definition MSG_LOG_REQUEST_DATA : mav_message :=
  mk_message 119 "LOG_REQUEST_DATA" 12 12 116 false
    [mk_member uint32_t "ofs" 0; mk_member uint32_t "count" 0; mk_member uint16_t "id" 0;
     mk_member uint8_t "target_system" 0; mk_member uint8_t "target_component" 0]
    [mk_field "target_system" MAVLINK_TYPE_UINT8_T 0 10; mk_field "target_component" MAVLINK_TYPE_UINT8_T 0 11;
     mk_field "id" MAVLINK_TYPE_UINT16_T 0 8; mk_field "ofs" MAVLINK_TYPE_UINT32_T 0 0;
     mk_field "count" MAVLINK_TYPE_UINT32_T 0 4]
    [put uint32_t 0 "ofs"; put uint32_t 4 "count"; put uint16_t 8 "id"; put uint8_t 10 "target_system";
     put uint8_t 11 "target_component"]
    [assign "ofs" "ofs"; assign "count" "count"; assign "id" "id"; assign "target_system" "target_system";
     assign "target_component" "target_component"].
Definition GET_LOG_REQUEST_DATA : list getter :=
    [mk_getter "target_system" uint8_t 0 10; mk_getter "target_component" uint8_t 0 11; mk_getter "id" uint16_t 0 8;
     mk_getter "ofs" uint32_t 0 0; mk_getter "count" uint32_t 0 4].

Definition MSG_LOG_DATA : mav_message :=
  mk_message 120 "LOG_DATA" 97 97 134 false
    [mk_member uint32_t "ofs" 0; mk_member uint16_t "id" 0; mk_member uint8_t "count" 0; mk_member uint8_t "data" 90]
    [mk_field "id" MAVLINK_TYPE_UINT16_T 0 4; mk_field "ofs" MAVLINK_TYPE_UINT32_T 0 0;
     mk_field "count" MAVLINK_TYPE_UINT8_T 0 6; mk_field "data" MAVLINK_TYPE_UINT8_T 90 7]
    [put uint32_t 0 "ofs"; put uint16_t 4 "id"; put uint8_t 6 "count"; put_array uint8_t 7 "data" 90]
    [assign "ofs" "ofs"; assign "id" "id"; assign "count" "count"; copy_array "data" "data" uint8_t 90].
Definition GET_LOG_DATA : list getter :=
    [mk_getter "id" uint16_t 0 4; mk_getter "ofs" uint32_t 0 0; mk_getter "count" uint8_t 0 6;
     mk_getter "data" uint8_t 90 7].

Definition MSG_LOG_ERASE : mav_message :=
  mk_message 121 "LOG_ERASE" 2 2 237 false
    [mk_member uint8_t "target_system" 0; mk_member uint8_t "target_component" 0]
    [mk_field "target_system" MAVLINK_TYPE_UINT8_T 0 0; mk_field "target_component" MAVLINK_TYPE_UINT8_T 0 1]
    [put uint8_t 0 "target_system"; put uint8_t 1 "target_component"]
    [assign "target_system" "target_system"; assign "target_component" "target_component"].
Definition GET_LOG_ERASE : list getter :=
    [mk_getter "target_system" uint8_t 0 0; mk_getter "target_component" uint8_t 0 1].

Definition MSG_LOG_REQUEST_END : mav_message :=
  mk_message 122 "LOG_REQUEST_END" 2 2 203 false
    [mk_member uint8_t "target_system" 0; mk_member uint8_t "target_component" 0]
    [mk_field "target_system" MAVLINK_TYPE_UINT8_T 0 0; mk_field "target_component" MAVLINK_TYPE_UINT8_T 0 1]
    [put uint8_t 0 "target_system"; put uint8_t 1 "target_component"]
    [assign "target_system" "target_system"; assign "target_component" "target_component"].
Definition GET_LOG_REQUEST_END : list getter :=
    [mk_getter "target_system" uint8_t 0 0; mk_getter "target_component" uint8_t 0 1].

Definition MSG_GPS_INJECT_DATA : mav_message :=
  mk_message 123 "GPS_INJECT_DATA" 113 113 250 false
    [mk_member uint8_t "target_system" 0; mk_member uint8_t "target_component" 0; mk_member uint8_t "len" 0;
     mk_member uint8_t "data" 110]
    [mk_field "target_system" MAVLINK_TYPE_UINT8_T 0 0; mk_field "target_component" MAVLINK_TYPE_UINT8_T 0 1;
     mk_field "len" MAVLINK_TYPE_UINT8_T 0 2; mk_field "data" MAVLINK_TYPE_UINT8_T 110 3]
    [put uint8_t 0 "target_system"; put uint8_t 1 "target_component"; put uint8_t 2 "len";
     put_array uint8_t 3 "data" 110]
    [assign "target_system" "target_system"; assign "target_component" "target_component"; assign "len" "len";
     copy_array "data" "data" uint8_t 110].
Definition GET_GPS_INJECT_DATA : list getter :=
    [mk_getter "target_system" uint8_t 0 0; mk_getter "target_component" uint8_t 0 1; mk_getter "len" uint8_t 0 2;
     mk_getter "data" uint8_t 110 3].

Definition MSG_GPS2_RAW : mav_message :=
  mk_message 124 "GPS2_RAW" 35 57 87 true
    [mk_member uint64_t "time_usec" 0; mk_member int32_t "lat" 0; mk_member int32_t "lon" 0;
     mk_member int32_t "alt" 0; mk_member uint32_t "dgps_age" 0; mk_member uint16_t "eph" 0;
     mk_member uint16_t "epv" 0; mk_member uint16_t "vel" 0; mk_member uint16_t "cog" 0;
     mk_member uint8_t "fix_type" 0; mk_member uint8_t "satellites_visible" 0; mk_member uint8_t "dgps_numch" 0;
     mk_member uint16_t "yaw" 0; mk_member int32_t "alt_ellipsoid" 0; mk_member uint32_t "h_acc" 0;
     mk_member uint32_t "v_acc" 0; mk_member uint32_t "vel_acc" 0; mk_member uint32_t "hdg_acc" 0]
    [mk_field "time_usec" MAVLINK_TYPE_UINT64_T 0 0; mk_field "fix_type" MAVLINK_TYPE_UINT8_T 0 32;
     mk_field "lat" MAVLINK_TYPE_INT32_T 0 8; mk_field "lon" MAVLINK_TYPE_INT32_T 0 12;
     mk_field "alt" MAVLINK_TYPE_INT32_T 0 16; mk_field "eph" MAVLINK_TYPE_UINT16_T 0 24;
     mk_field "epv" MAVLINK_TYPE_UINT16_T 0 26; mk_field "vel" MAVLINK_TYPE_UINT16_T 0 28;
     mk_field "cog" MAVLINK_TYPE_UINT16_T 0 30; mk_field "satellites_visible" MAVLINK_TYPE_UINT8_T 0 33;
     mk_field "dgps_numch" MAVLINK_TYPE_UINT8_T 0 34; mk_field "dgps_age" MAVLINK_TYPE_UINT32_T 0 20;
     mk_field "yaw" MAVLINK_TYPE_UINT16_T 0 35; mk_field "alt_ellipsoid" MAVLINK_TYPE_INT32_T 0 37;
     mk_field "h_acc" MAVLINK_TYPE_UINT32_T 0 41; mk_field "v_acc" MAVLINK_TYPE_UINT32_T 0 45;
     mk_field "vel_acc" MAVLINK_TYPE_UINT32_T 0 49; mk_field "hdg_acc" MAVLINK_TYPE_UINT32_T 0 53]
    [put uint64_t 0 "time_usec"; put int32_t 8 "lat"; put int32_t 12 "lon"; put int32_t 16 "alt";
     put uint32_t 20 "dgps_age"; put uint16_t 24 "eph"; put uint16_t 26 "epv"; put uint16_t 28 "vel";
     put uint16_t 30 "cog"; put uint8_t 32 "fix_type"; put uint8_t 33 "satellites_visible";
     put uint8_t 34 "dgps_numch"; put uint16_t 35 "yaw"; put int32_t 37 "alt_ellipsoid"; put uint32_t 41 "h_acc";
     put uint32_t 45 "v_acc"; put uint32_t 49 "vel_acc"; put uint32_t 53 "hdg_acc"]
    [assign "time_usec" "time_usec"; assign "lat" "lat"; assign "lon" "lon"; assign "alt" "alt";
     assign "dgps_age" "dgps_age"; assign "eph" "eph"; assign "epv" "epv"; assign "vel" "vel"; assign "cog" "cog";
     assign "fix_type" "fix_type"; assign "satellites_visible" "satellites_visible"; assign "dgps_numch" "dgps_numch";
     assign "yaw" "yaw"; assign "alt_ellipsoid" "alt_ellipsoid"; assign "h_acc" "h_acc"; assign "v_acc" "v_acc";
     assign "vel_acc" "vel_acc"; assign "hdg_acc" "hdg_acc"].
Definition GET_GPS2_RAW : list getter :=
    [mk_getter "time_usec" uint64_t 0 0; mk_getter "fix_type" uint8_t 0 32; mk_getter "lat" int32_t 0 8;
     mk_getter "lon" int32_t 0 12; mk_getter "alt" int32_t 0 16; mk_getter "eph" uint16_t 0 24;
     mk_getter "epv" uint16_t 0 26; mk_getter "vel" uint16_t 0 28; mk_getter "cog" uint16_t 0 30;
     mk_getter "satellites_visible" uint8_t 0 33; mk_getter "dgps_numch" uint8_t 0 34;
     mk_getter "dgps_age" uint32_t 0 20; mk_getter "yaw" uint16_t 0 35; mk_getter "alt_ellipsoid" int32_t 0 37;
     mk_getter "h_acc" uint32_t 0 41; mk_getter "v_acc" uint32_t 0 45; mk_getter "vel_acc" uint32_t 0 49;
     mk_getter "hdg_acc" uint32_t 0 53].

Definition MSG_POWER_STATUS : mav_message :=
  mk_message 125 "POWER_STATUS" 6 6 203 false
    [mk_member uint16_t "Vcc" 0; mk_member uint16_t "Vservo" 0; mk_member uint16_t "flags" 0]
    [mk_field "Vcc" MAVLINK_TYPE_UINT16_T 0 0; mk_field "Vservo" MAVLINK_TYPE_UINT16_T 0 2;
     mk_field "flags" MAVLINK_TYPE_UINT16_T 0 4]
    [put uint16_t 0 "Vcc"; put uint16_t 2 "Vservo"; put uint16_t 4 "flags"]
    [assign "Vcc" "Vcc"; assign "Vservo" "Vservo"; assign "flags" "flags"].
Definition GET_POWER_STATUS : list getter :=
    [mk_getter "Vcc" uint16_t 0 0; mk_getter "Vservo" uint16_t 0 2; mk_getter "flags" uint16_t 0 4].

Definition MSG_SERIAL_CONTROL : mav_message :=
  mk_message 126 "SERIAL_CONTROL" 79 81 220 false
    [mk_member uint32_t "baudrate" 0; mk_member uint16_t "timeout" 0; mk_member uint8_t "device" 0;
     mk_member uint8_t "flags" 0; mk_member uint8_t "count" 0; mk_member uint8_t "data" 70;
     mk_member uint8_t "target_system" 0; mk_member uint8_t "target_component" 0]
    [mk_field "device" MAVLINK_TYPE_UINT8_T 0 6; mk_field "flags" MAVLINK_TYPE_UINT8_T 0 7;
     mk_field "timeout" MAVLINK_TYPE_UINT16_T 0 4; mk_field "baudrate" MAVLINK_TYPE_UINT32_T 0 0;
     mk_field "count" MAVLINK_TYPE_UINT8_T 0 8; mk_field "data" MAVLINK_TYPE_UINT8_T 70 9;
     mk_field "target_system" MAVLINK_TYPE_UINT8_T 0 79; mk_field "target_component" MAVLINK_TYPE_UINT8_T 0 80]
    [put uint32_t 0 "baudrate"; put uint16_t 4 "timeout"; put uint8_t 6 "device"; put uint8_t 7 "flags";
     put uint8_t 8 "count"; put uint8_t 79 "target_system"; put uint8_t 80 "target_component";
     put_array uint8_t 9 "data" 70]
    [assign "baudrate" "baudrate"; assign "timeout" "timeout"; assign "device" "device"; assign "flags" "flags";
     assign "count" "count"; assign "target_system" "target_system"; assign "target_component" "target_component";
     copy_array "data" "data" uint8_t 70].
Definition GET_SERIAL_CONTROL : list getter :=
    [mk_getter "device" uint8_t 0 6; mk_getter "flags" uint8_t 0 7; mk_getter "timeout" uint16_t 0 4;
     mk_getter "baudrate" uint32_t 0 0; mk_getter "count" uint8_t 0 8; mk_getter "data" uint8_t 70 9;
     mk_getter "target_system" uint8_t 0 79; mk_getter "target_component" uint8_t 0 80].

Definition MSG_GPS_RTK : mav_message :=
  mk_message 127 "GPS_RTK" 35 35 25 false
    [mk_member uint32_t "time_last_baseline_ms" 0; mk_member uint32_t "tow" 0; mk_member int32_t "baseline_a_mm" 0;
     mk_member int32_t "baseline_b_mm" 0; mk_member int32_t "baseline_c_mm" 0; mk_member uint32_t "accuracy" 0;
     mk_member int32_t "iar_num_hypotheses" 0; mk_member uint16_t "wn" 0; mk_member uint8_t "rtk_receiver_id" 0;
     mk_member uint8_t "rtk_health" 0; mk_member uint8_t "rtk_rate" 0; mk_member uint8_t "nsats" 0;
     mk_member uint8_t "baseline_coords_type" 0]
    [mk_field "time_last_baseline_ms" MAVLINK_TYPE_UINT32_T 0 0; mk_field "rtk_receiver_id" MAVLINK_TYPE_UINT8_T 0 30;
     mk_field "wn" MAVLINK_TYPE_UINT16_T 0 28; mk_field "tow" MAVLINK_TYPE_UINT32_T 0 4;
     mk_field "rtk_health" MAVLINK_TYPE_UINT8_T 0 31; mk_field "rtk_rate" MAVLINK_TYPE_UINT8_T 0 32;
     mk_field "nsats" MAVLINK_TYPE_UINT8_T 0 33; mk_field "baseline_coords_type" MAVLINK_TYPE_UINT8_T 0 34;
     mk_field "baseline_a_mm" MAVLINK_TYPE_INT32_T 0 8; mk_field "baseline_b_mm" MAVLINK_TYPE_INT32_T 0 12;
     mk_field "baseline_c_mm" MAVLINK_TYPE_INT32_T 0 16; mk_field "accuracy" MAVLINK_TYPE_UINT32_T 0 20;
     mk_field "iar_num_hypotheses" MAVLINK_TYPE_INT32_T 0 24]
    [put uint32_t 0 "time_last_baseline_ms"; put uint32_t 4 "tow"; put int32_t 8 "baseline_a_mm";
     put int32_t 12 "baseline_b_mm"; put int32_t 16 "baseline_c_mm"; put uint32_t 20 "accuracy";
     put int32_t 24 "iar_num_hypotheses"; put uint16_t 28 "wn"; put uint8_t 30 "rtk_receiver_id";
     put uint8_t 31 "rtk_health"; put uint8_t 32 "rtk_rate"; put uint8_t 33 "nsats";
     put uint8_t 34 "baseline_coords_type"]
    [assign "time_last_baseline_ms" "time_last_baseline_ms"; assign "tow" "tow";
     assign "baseline_a_mm" "baseline_a_mm"; assign "baseline_b_mm" "baseline_b_mm";
     assign "baseline_c_mm" "baseline_c_mm"; assign "accuracy" "accuracy";
     assign "iar_num_hypotheses" "iar_num_hypotheses"; assign "wn" "wn"; assign "rtk_receiver_id" "rtk_receiver_id";
     assign "rtk_health" "rtk_health"; assign "rtk_rate" "rtk_rate"; assign "nsats" "nsats";
     assign "baseline_coords_type" "baseline_coords_type"].
Definition GET_GPS_RTK : list getter :=
    [mk_getter "time_last_baseline_ms" uint32_t 0 0; mk_getter "rtk_receiver_id" uint8_t 0 30;
     mk_getter "wn" uint16_t 0 28; mk_getter "tow" uint32_t 0 4; mk_getter "rtk_health" uint8_t 0 31;
     mk_getter "rtk_rate" uint8_t 0 32; mk_getter "nsats" uint8_t 0 33; mk_getter "baseline_coords_type" uint8_t 0 34;
     mk_getter "baseline_a_mm" int32_t 0 8; mk_getter "baseline_b_mm" int32_t 0 12;
     mk_getter "baseline_c_mm" int32_t 0 16; mk_getter "accuracy" uint32_t 0 20;
     mk_getter "iar_num_hypotheses" int32_t 0 24].

Definition MSG_GPS2_RTK : mav_message :=
  mk_message 128 "GPS2_RTK" 35 35 226 false
    [mk_member uint32_t "time_last_baseline_ms" 0; mk_member uint32_t "tow" 0; mk_member int32_t "baseline_a_mm" 0;
     mk_member int32_t "baseline_b_mm" 0; mk_member int32_t "baseline_c_mm" 0; mk_member uint32_t "accuracy" 0;
     mk_member int32_t "iar_num_hypotheses" 0; mk_member uint16_t "wn" 0; mk_member uint8_t "rtk_receiver_id" 0;
     mk_member uint8_t "rtk_health" 0; mk_member uint8_t "rtk_rate" 0; mk_member uint8_t "nsats" 0;
     mk_member uint8_t "baseline_coords_type" 0]
    [mk_field "time_last_baseline_ms" MAVLINK_TYPE_UINT32_T 0 0; mk_field "rtk_receiver_id" MAVLINK_TYPE_UINT8_T 0 30;
     mk_field "wn" MAVLINK_TYPE_UINT16_T 0 28; mk_field "tow" MAVLINK_TYPE_UINT32_T 0 4;
     mk_field "rtk_health" MAVLINK_TYPE_UINT8_T 0 31; mk_field "rtk_rate" MAVLINK_TYPE_UINT8_T 0 32;
     mk_field "nsats" MAVLINK_TYPE_UINT8_T 0 33; mk_field "baseline_coords_type" MAVLINK_TYPE_UINT8_T 0 34;
     mk_field "baseline_a_mm" MAVLINK_TYPE_INT32_T 0 8; mk_field "baseline_b_mm" MAVLINK_TYPE_INT32_T 0 12;
     mk_field "baseline_c_mm" MAVLINK_TYPE_INT32_T 0 16; mk_field "accuracy" MAVLINK_TYPE_UINT32_T 0 20;
     mk_field "iar_num_hypotheses" MAVLINK_TYPE_INT32_T 0 24]
    [put uint32_t 0 "time_last_baseline_ms"; put uint32_t 4 "tow"; put int32_t 8 "baseline_a_mm";
     put int32_t 12 "baseline_b_mm"; put int32_t 16 "baseline_c_mm"; put uint32_t 20 "accuracy";
     put int32_t 24 "iar_num_hypotheses"; put uint16_t 28 "wn"; put uint8_t 30 "rtk_receiver_id";
     put uint8_t 31 "rtk_health"; put uint8_t 32 "rtk_rate"; put uint8_t 33 "nsats";
     put uint8_t 34 "baseline_coords_type"]
    [assign "time_last_baseline_ms" "time_last_baseline_ms"; assign "tow" "tow";
     assign "baseline_a_mm" "baseline_a_mm"; assign "baseline_b_mm" "baseline_b_mm";
     assign "baseline_c_mm" "baseline_c_mm"; assign "accuracy" "accuracy";
     assign "iar_num_hypotheses" "iar_num_hypotheses"; assign "wn" "wn"; assign "rtk_receiver_id" "rtk_receiver_id";
     assign "rtk_health" "rtk_health"; assign "rtk_rate" "rtk_rate"; assign "nsats" "nsats";
     assign "baseline_coords_type" "baseline_coords_type"].
Definition GET_GPS2_RTK : list getter :=
    [mk_getter "time_last_baseline_ms" uint32_t 0 0; mk_getter "rtk_receiver_id" uint8_t 0 30;
     mk_getter "wn" uint16_t 0 28; mk_getter "tow" uint32_t 0 4; mk_getter "rtk_health" uint8_t 0 31;
     mk_getter "rtk_rate" uint8_t 0 32; mk_getter "nsats" uint8_t 0 33; mk_getter "baseline_coords_type" uint8_t 0 34;
     mk_getter "baseline_a_mm" int32_t 0 8; mk_getter "baseline_b_mm" int32_t 0 12;
     mk_getter "baseline_c_mm" int32_t 0 16; mk_getter "accuracy" uint32_t 0 20;
     mk_getter "iar_num_hypotheses" int32_t 0 24].

Definition MSG_SCALED_IMU3 : mav_message :=
  mk_message 129 "SCALED_IMU3" 22 24 46 false
    [mk_member uint32_t "time_boot_ms" 0; mk_member int16_t "xacc" 0; mk_member int16_t "yacc" 0;
     mk_member int16_t "zacc" 0; mk_member int16_t "xgyro" 0; mk_member int16_t "ygyro" 0;
     mk_member int16_t "zgyro" 0; mk_member int16_t "xmag" 0; mk_member int16_t "ymag" 0; mk_member int16_t "zmag" 0;
     mk_member int16_t "temperature" 0]
    [mk_field "time_boot_ms" MAVLINK_TYPE_UINT32_T 0 0; mk_field "xacc" MAVLINK_TYPE_INT16_T 0 4;
     mk_field "yacc" MAVLINK_TYPE_INT16_T 0 6; mk_field "zacc" MAVLINK_TYPE_INT16_T 0 8;
     mk_field "xgyro" MAVLINK_TYPE_INT16_T 0 10; mk_field "ygyro" MAVLINK_TYPE_INT16_T 0 12;
     mk_field "zgyro" MAVLINK_TYPE_INT16_T 0 14; mk_field "xmag" MAVLINK_TYPE_INT16_T 0 16;
     mk_field "ymag" MAVLINK_TYPE_INT16_T 0 18; mk_field "zmag" MAVLINK_TYPE_INT16_T 0 20;
     mk_field "temperature" MAVLINK_TYPE_INT16_T 0 22]
    [put uint32_t 0 "time_boot_ms"; put int16_t 4 "xacc"; put int16_t 6 "yacc"; put int16_t 8 "zacc";
     put int16_t 10 "xgyro"; put int16_t 12 "ygyro"; put int16_t 14 "zgyro"; put int16_t 16 "xmag";
     put int16_t 18 "ymag"; put int16_t 20 "zmag"; put int16_t 22 "temperature"]
    [assign "time_boot_ms" "time_boot_ms"; assign "xacc" "xacc"; assign "yacc" "yacc"; assign "zacc" "zacc";
     assign "xgyro" "xgyro"; assign "ygyro" "ygyro"; assign "zgyro" "zgyro"; assign "xmag" "xmag";
     assign "ymag" "ymag"; assign "zmag" "zmag"; assign "temperature" "temperature"].
Definition GET_SCALED_IMU3 : list getter :=
    [mk_getter "time_boot_ms" uint32_t 0 0; mk_getter "xacc" int16_t 0 4; mk_getter "yacc" int16_t 0 6;
     mk_getter "zacc" int16_t 0 8; mk_getter "xgyro" int16_t 0 10; mk_getter "ygyro" int16_t 0 12;
     mk_getter "zgyro" int16_t 0 14; mk_getter "xmag" int16_t 0 16; mk_getter "ymag" int16_t 0 18;
     mk_getter "zmag" int16_t 0 20; mk_getter "temperature" int16_t 0 22].

Definition MSG_DATA_TRANSMISSION_HANDSHAKE : mav_message :=
  mk_message 130 "DATA_TRANSMISSION_HANDSHAKE" 13 13 29 false
    [mk_member uint32_t "size" 0; mk_member uint16_t "width" 0; mk_member uint16_t "height" 0;
     mk_member uint16_t "packets" 0; mk_member uint8_t "type" 0; mk_member uint8_t "payload" 0;
     mk_member uint8_t "jpg_quality" 0]
    [mk_field "type" MAVLINK_TYPE_UINT8_T 0 10; mk_field "size" MAVLINK_TYPE_UINT32_T 0 0;
     mk_field "width" MAVLINK_TYPE_UINT16_T 0 4; mk_field "height" MAVLINK_TYPE_UINT16_T 0 6;
     mk_field "packets" MAVLINK_TYPE_UINT16_T 0 8; mk_field "payload" MAVLINK_TYPE_UINT8_T 0 11;
     mk_field "jpg_quality" MAVLINK_TYPE_UINT8_T 0 12]
    [put uint32_t 0 "size"; put uint16_t 4 "width"; put uint16_t 6 "height"; put uint16_t 8 "packets";
     put uint8_t 10 "type"; put uint8_t 11 "payload"; put uint8_t 12 "jpg_quality"]
    [assign "size" "size"; assign "width" "width"; assign "height" "height"; assign "packets" "packets";
     assign "type" "type"; assign "payload" "payload"; assign "jpg_quality" "jpg_quality"].
Definition GET_DATA_TRANSMISSION_HANDSHAKE : list getter :=
    [mk_getter "type" uint8_t 0 10; mk_getter "size" uint32_t 0 0; mk_getter "width" uint16_t 0 4;
     mk_getter "height" uint16_t 0 6; mk_getter "packets" uint16_t 0 8; mk_getter "payload" uint8_t 0 11;
     mk_getter "jpg_quality" uint8_t 0 12].

Definition MSG_ENCAPSULATED_DATA : mav_message :=
  mk_message 131 "ENCAPSULATED_DATA" 255 255 223 false
    [mk_member uint16_t "seqnr" 0; mk_member uint8_t "data" 253]
    [mk_field "seqnr" MAVLINK_TYPE_UINT16_T 0 0; mk_field "data" MAVLINK_TYPE_UINT8_T 253 2]
    [put uint16_t 0 "seqnr"; put_array uint8_t 2 "data" 253]
    [assign "seqnr" "seqnr"; copy_array "data" "data" uint8_t 253].
Definition GET_ENCAPSULATED_DATA : list getter :=
    [mk_getter "seqnr" uint16_t 0 0; mk_getter "data" uint8_t 253 2].

Definition MSG_DISTANCE_SENSOR : mav_message :=
  mk_message 132 "DISTANCE_SENSOR" 14 39 85 true
    [mk_member uint32_t "time_boot_ms" 0; mk_member uint16_t "min_distance" 0; mk_member uint16_t "max_distance" 0;
     mk_member uint16_t "current_distance" 0; mk_member uint8_t "type" 0; mk_member uint8_t "id" 0;
     mk_member uint8_t "orientation" 0; mk_member uint8_t "covariance" 0; mk_member float_t "horizontal_fov" 0;
     mk_member float_t "vertical_fov" 0; mk_member float_t "quaternion" 4; mk_member uint8_t "signal_quality" 0]
    [mk_field "time_boot_ms" MAVLINK_TYPE_UINT32_T 0 0; mk_field "min_distance" MAVLINK_TYPE_UINT16_T 0 4;
     mk_field "max_distance" MAVLINK_TYPE_UINT16_T 0 6; mk_field "current_distance" MAVLINK_TYPE_UINT16_T 0 8;
     mk_field "type" MAVLINK_TYPE_UINT8_T 0 10; mk_field "id" MAVLINK_TYPE_UINT8_T 0 11;
     mk_field "orientation" MAVLINK_TYPE_UINT8_T 0 12; mk_field "covariance" MAVLINK_TYPE_UINT8_T 0 13;
     mk_field "horizontal_fov" MAVLINK_TYPE_FLOAT 0 14; mk_field "vertical_fov" MAVLINK_TYPE_FLOAT 0 18;
     mk_field "quaternion" MAVLINK_TYPE_FLOAT 4 22; mk_field "signal_quality" MAVLINK_TYPE_UINT8_T 0 38]
    [put uint32_t 0 "time_boot_ms"; put uint16_t 4 "min_distance"; put uint16_t 6 "max_distance";
     put uint16_t 8 "current_distance"; put uint8_t 10 "type"; put uint8_t 11 "id"; put uint8_t 12 "orientation";
     put uint8_t 13 "covariance"; put float_t 14 "horizontal_fov"; put float_t 18 "vertical_fov";
     put uint8_t 38 "signal_quality"; put_array float_t 22 "quaternion" 4]
    [assign "time_boot_ms" "time_boot_ms"; assign "min_distance" "min_distance"; assign "max_distance" "max_distance";
     assign "current_distance" "current_distance"; assign "type" "type"; assign "id" "id";
     assign "orientation" "orientation"; assign "covariance" "covariance"; assign "horizontal_fov" "horizontal_fov";
     assign "vertical_fov" "vertical_fov"; assign "signal_quality" "signal_quality";
     copy_array "quaternion" "quaternion" float_t 4].
Definition GET_DISTANCE_SENSOR : list getter :=
    [mk_getter "time_boot_ms" uint32_t 0 0; mk_getter "min_distance" uint16_t 0 4;
     mk_getter "max_distance" uint16_t 0 6; mk_getter "current_distance" uint16_t 0 8; mk_getter "type" uint8_t 0 10;
     mk_getter "id" uint8_t 0 11; mk_getter "orientation" uint8_t 0 12; mk_getter "covariance" uint8_t 0 13;
     mk_getter "horizontal_fov" float_t 0 14; mk_getter "vertical_fov" float_t 0 18;
     mk_getter "quaternion" float_t 4 22; mk_getter "signal_quality" uint8_t 0 38].

Definition MSG_TERRAIN_REQUEST : mav_message :=
  mk_message 133 "TERRAIN_REQUEST" 18 18 6 false
    [mk_member uint64_t "mask" 0; mk_member int32_t "lat" 0; mk_member int32_t "lon" 0;
     mk_member uint16_t "grid_spacing" 0]
    [mk_field "lat" MAVLINK_TYPE_INT32_T 0 8; mk_field "lon" MAVLINK_TYPE_INT32_T 0 12;
     mk_field "grid_spacing" MAVLINK_TYPE_UINT16_T 0 16; mk_field "mask" MAVLINK_TYPE_UINT64_T 0 0]
    [put uint64_t 0 "mask"; put int32_t 8 "lat"; put int32_t 12 "lon"; put uint16_t 16 "grid_spacing"]
    [assign "mask" "mask"; assign "lat" "lat"; assign "lon" "lon"; assign "grid_spacing" "grid_spacing"].
Definition GET_TERRAIN_REQUEST : list getter :=
    [mk_getter "lat" int32_t 0 8; mk_getter "lon" int32_t 0 12; mk_getter "grid_spacing" uint16_t 0 16;
     mk_getter "mask" uint64_t 0 0].

Definition MSG_TERRAIN_DATA : mav_message :=
  mk_message 134 "TERRAIN_DATA" 43 43 229 false
    [mk_member int32_t "lat" 0; mk_member int32_t "lon" 0; mk_member uint16_t "grid_spacing" 0;
     mk_member int16_t "data" 16; mk_member uint8_t "gridbit" 0]
    [mk_field "lat" MAVLINK_TYPE_INT32_T 0 0; mk_field "lon" MAVLINK_TYPE_INT32_T 0 4;
     mk_field "grid_spacing" MAVLINK_TYPE_UINT16_T 0 8; mk_field "gridbit" MAVLINK_TYPE_UINT8_T 0 42;
     mk_field "data" MAVLINK_TYPE_INT16_T 16 10]
    [put int32_t 0 "lat"; put int32_t 4 "lon"; put uint16_t 8 "grid_spacing"; put uint8_t 42 "gridbit";
     put_array int16_t 10 "data" 16]
    [assign "lat" "lat"; assign "lon" "lon"; assign "grid_spacing" "grid_spacing"; assign "gridbit" "gridbit";
     copy_array "data" "data" int16_t 16].
Definition GET_TERRAIN_DATA : list getter :=
    [mk_getter "lat" int32_t 0 0; mk_getter "lon" int32_t 0 4; mk_getter "grid_spacing" uint16_t 0 8;
     mk_getter "gridbit" uint8_t 0 42; mk_getter "data" int16_t 16 10].

Definition MSG_TERRAIN_CHECK : mav_message :=
  mk_message 135 "TERRAIN_CHECK" 8 8 203 false
    [mk_member int32_t "lat" 0; mk_member int32_t "lon" 0]
    [mk_field "lat" MAVLINK_TYPE_INT32_T 0 0; mk_field "lon" MAVLINK_TYPE_INT32_T 0 4]
    [put int32_t 0 "lat"; put int32_t 4 "lon"]
    [assign "lat" "lat"; assign "lon" "lon"].
Definition GET_TERRAIN_CHECK : list getter :=
    [mk_getter "lat" int32_t 0 0; mk_getter "lon" int32_t 0 4].

Definition MSG_TERRAIN_REPORT : mav_message :=
  mk_message 136 "TERRAIN_REPORT" 22 22 1 false
    [mk_member int32_t "lat" 0; mk_member int32_t "lon" 0; mk_member float_t "terrain_height" 0;
     mk_member float_t "current_height" 0; mk_member uint16_t "spacing" 0; mk_member uint16_t "pending" 0;
     mk_member uint16_t "loaded" 0]
    [mk_field "lat" MAVLINK_TYPE_INT32_T 0 0; mk_field "lon" MAVLINK_TYPE_INT32_T 0 4;
     mk_field "spacing" MAVLINK_TYPE_UINT16_T 0 16; mk_field "terrain_height" MAVLINK_TYPE_FLOAT 0 8;
     mk_field "current_height" MAVLINK_TYPE_FLOAT 0 12; mk_field "pending" MAVLINK_TYPE_UINT16_T 0 18;
     mk_field "loaded" MAVLINK_TYPE_UINT16_T 0 20]
    [put int32_t 0 "lat"; put int32_t 4 "lon"; put float_t 8 "terrain_height"; put float_t 12 "current_height";
     put uint16_t 16 "spacing"; put uint16_t 18 "pending"; put uint16_t 20 "loaded"]
    [assign "lat" "lat"; assign "lon" "lon"; assign "terrain_height" "terrain_height";
     assign "current_height" "current_height"; assign "spacing" "spacing"; assign "pending" "pending";
     assign "loaded" "loaded"].
Definition GET_TERRAIN_REPORT : list getter :=
    [mk_getter "lat" int32_t 0 0; mk_getter "lon" int32_t 0 4; mk_getter "spacing" uint16_t 0 16;
     mk_getter "terrain_height" float_t 0 8; mk_getter "current_height" float_t 0 12;
     mk_getter "pending" uint16_t 0 18; mk_getter "loaded" uint16_t 0 20].

Definition MSG_SCALED_PRESSURE2 : mav_message :=
  mk_message 137 "SCALED_PRESSURE2" 14 16 195 false
    [mk_member uint32_t "time_boot_ms" 0; mk_member float_t "press_abs" 0; mk_member float_t "press_diff" 0;
     mk_member int16_t "temperature" 0; mk_member int16_t "temperature_press_diff" 0]
    [mk_field "time_boot_ms" MAVLINK_TYPE_UINT32_T 0 0; mk_field "press_abs" MAVLINK_TYPE_FLOAT 0 4;
     mk_field "press_diff" MAVLINK_TYPE_FLOAT 0 8; mk_field "temperature" MAVLINK_TYPE_INT16_T 0 12;
     mk_field "temperature_press_diff" MAVLINK_TYPE_INT16_T 0 14]
    [put uint32_t 0 "time_boot_ms"; put float_t 4 "press_abs"; put float_t 8 "press_diff";
     put int16_t 12 "temperature"; put int16_t 14 "temperature_press_diff"]
    [assign "time_boot_ms" "time_boot_ms"; assign "press_abs" "press_abs"; assign "press_diff" "press_diff";
     assign "temperature" "temperature"; assign "temperature_press_diff" "temperature_press_diff"].
Definition GET_SCALED_PRESSURE2 : list getter :=
    [mk_getter "time_boot_ms" uint32_t 0 0; mk_getter "press_abs" float_t 0 4; mk_getter "press_diff" float_t 0 8;
     mk_getter "temperature" int16_t 0 12; mk_getter "temperature_press_diff" int16_t 0 14].

Definition MSG_ATT_POS_MOCAP : mav_message :=
  mk_message 138 "ATT_POS_MOCAP" 36 120 109 false
    [mk_member uint64_t "time_usec" 0; mk_member float_t "q" 4; mk_member float_t "x" 0; mk_member float_t "y" 0;
     mk_member float_t "z" 0; mk_member float_t "covariance" 21]
    [mk_field "time_usec" MAVLINK_TYPE_UINT64_T 0 0; mk_field "q" MAVLINK_TYPE_FLOAT 4 8;
     mk_field "x" MAVLINK_TYPE_FLOAT 0 24; mk_field "y" MAVLINK_TYPE_FLOAT 0 28; mk_field "z" MAVLINK_TYPE_FLOAT 0 32;
     mk_field "covariance" MAVLINK_TYPE_FLOAT 21 36]
    [put uint64_t 0 "time_usec"; put float_t 24 "x"; put float_t 28 "y"; put float_t 32 "z";
     put_array float_t 8 "q" 4; put_array float_t 36 "covariance" 21]
    [assign "time_usec" "time_usec"; assign "x" "x"; assign "y" "y"; assign "z" "z"; copy_array "q" "q" float_t 4;
     copy_array "covariance" "covariance" float_t 21].
Definition GET_ATT_POS_MOCAP : list getter :=
    [mk_getter "time_usec" uint64_t 0 0; mk_getter "q" float_t 4 8; mk_getter "x" float_t 0 24;
     mk_getter "y" float_t 0 28; mk_getter "z" float_t 0 32; mk_getter "covariance" float_t 21 36].

Definition MSG_SET_ACTUATOR_CONTROL_TARGET : mav_message :=
  mk_message 139 "SET_ACTUATOR_CONTROL_TARGET" 43 43 168 false
    [mk_member uint64_t "time_usec" 0; mk_member float_t "controls" 8; mk_member uint8_t "group_mlx" 0;
     mk_member uint8_t "target_system" 0; mk_member uint8_t "target_component" 0]
    [mk_field "time_usec" MAVLINK_TYPE_UINT64_T 0 0; mk_field "group_mlx" MAVLINK_TYPE_UINT8_T 0 40;
     mk_field "target_system" MAVLINK_TYPE_UINT8_T 0 41; mk_field "target_component" MAVLINK_TYPE_UINT8_T 0 42;
     mk_field "controls" MAVLINK_TYPE_FLOAT 8 8]
    [put uint64_t 0 "time_usec"; put uint8_t 40 "group_mlx"; put uint8_t 41 "target_system";
     put uint8_t 42 "target_component"; put_array float_t 8 "controls" 8]
    [assign "time_usec" "time_usec"; assign "group_mlx" "group_mlx"; assign "target_system" "target_system";
     assign "target_component" "target_component"; copy_array "controls" "controls" float_t 8].
Definition GET_SET_ACTUATOR_CONTROL_TARGET : list getter :=
    [mk_getter "time_usec" uint64_t 0 0; mk_getter "group_mlx" uint8_t 0 40; mk_getter "target_system" uint8_t 0 41;
     mk_getter "target_component" uint8_t 0 42; mk_getter "controls" float_t 8 8].

Definition MSG_ACTUATOR_CONTROL_TARGET : mav_message :=
  mk_message 140 "ACTUATOR_CONTROL_TARGET" 41 41 181 false
    [mk_member uint64_t "time_usec" 0; mk_member float_t "controls" 8; mk_member uint8_t "group_mlx" 0]
    [mk_field "time_usec" MAVLINK_TYPE_UINT64_T 0 0; mk_field "group_mlx" MAVLINK_TYPE_UINT8_T 0 40;
     mk_field "controls" MAVLINK_TYPE_FLOAT 8 8]
    [put uint64_t 0 "time_usec"; put uint8_t 40 "group_mlx"; put_array float_t 8 "controls" 8]
    [assign "time_usec" "time_usec"; assign "group_mlx" "group_mlx"; copy_array "controls" "controls" float_t 8].
Definition GET_ACTUATOR_CONTROL_TARGET : list getter :=
    [mk_getter "time_usec" uint64_t 0 0; mk_getter "group_mlx" uint8_t 0 40; mk_getter "controls" float_t 8 8].

Definition MSG_ALTITUDE : mav_message :=
  mk_message 141 "ALTITUDE" 32 32 47 false
    [mk_member uint64_t "time_usec" 0; mk_member float_t "altitude_monotonic" 0; mk_member float_t "altitude_amsl" 0;
     mk_member float_t "altitude_local" 0; mk_member float_t "altitude_relative" 0;
     mk_member float_t "altitude_terrain" 0; mk_member float_t "bottom_clearance" 0]
    [mk_field "time_usec" MAVLINK_TYPE_UINT64_T 0 0; mk_field "altitude_monotonic" MAVLINK_TYPE_FLOAT 0 8;
     mk_field "altitude_amsl" MAVLINK_TYPE_FLOAT 0 12; mk_field "altitude_local" MAVLINK_TYPE_FLOAT 0 16;
     mk_field "altitude_relative" MAVLINK_TYPE_FLOAT 0 20; mk_field "altitude_terrain" MAVLINK_TYPE_FLOAT 0 24;
     mk_field "bottom_clearance" MAVLINK_TYPE_FLOAT 0 28]
    [put uint64_t 0 "time_usec"; put float_t 8 "altitude_monotonic"; put float_t 12 "altitude_amsl";
     put float_t 16 "altitude_local"; put float_t 20 "altitude_relative"; put float_t 24 "altitude_terrain";
     put float_t 28 "bottom_clearance"]
    [assign "time_usec" "time_usec"; assign "altitude_monotonic" "altitude_monotonic";
     assign "altitude_amsl" "altitude_amsl"; assign "altitude_local" "altitude_local";
     assign "altitude_relative" "altitude_relative"; assign "altitude_terrain" "altitude_terrain";
     assign "bottom_clearance" "bottom_clearance"].
Definition GET_ALTITUDE : list getter :=
    [mk_getter "time_usec" uint64_t 0 0; mk_getter "altitude_monotonic" float_t 0 8;
     mk_getter "altitude_amsl" float_t 0 12; mk_getter "altitude_local" float_t 0 16;
     mk_getter "altitude_relative" float_t 0 20; mk_getter "altitude_terrain" float_t 0 24;
     mk_getter "bottom_clearance" float_t 0 28].

Definition MSG_RESOURCE_REQUEST : mav_message :=
  mk_message 142 "RESOURCE_REQUEST" 243 243 72 false
    [mk_member uint8_t "request_id" 0; mk_member uint8_t "uri_type" 0; mk_member uint8_t "uri" 120;
     mk_member uint8_t "transfer_type" 0; mk_member uint8_t "storage" 120]
    [mk_field "request_id" MAVLINK_TYPE_UINT8_T 0 0; mk_field "uri_type" MAVLINK_TYPE_UINT8_T 0 1;
     mk_field "uri" MAVLINK_TYPE_UINT8_T 120 2; mk_field "transfer_type" MAVLINK_TYPE_UINT8_T 0 122;
     mk_field "storage" MAVLINK_TYPE_UINT8_T 120 123]
    [put uint8_t 0 "request_id"; put uint8_t 1 "uri_type"; put uint8_t 122 "transfer_type";
     put_array uint8_t 2 "uri" 120; put_array uint8_t 123 "storage" 120]
    [assign "request_id" "request_id"; assign "uri_type" "uri_type"; assign "transfer_type" "transfer_type";
     copy_array "uri" "uri" uint8_t 120; copy_array "storage" "storage" uint8_t 120].
Definition GET_RESOURCE_REQUEST : list getter :=
    [mk_getter "request_id" uint8_t 0 0; mk_getter "uri_type" uint8_t 0 1; mk_getter "uri" uint8_t 120 2;
     mk_getter "transfer_type" uint8_t 0 122; mk_getter "storage" uint8_t 120 123].

Definition MSG_SCALED_PRESSURE3 : mav_message :=
  mk_message 143 "SCALED_PRESSURE3" 14 16 131 false
    [mk_member uint32_t "time_boot_ms" 0; mk_member float_t "press_abs" 0; mk_member float_t "press_diff" 0;
     mk_member int16_t "temperature" 0; mk_member int16_t "temperature_press_diff" 0]
    [mk_field "time_boot_ms" MAVLINK_TYPE_UINT32_T 0 0; mk_field "press_abs" MAVLINK_TYPE_FLOAT 0 4;
     mk_field "press_diff" MAVLINK_TYPE_FLOAT 0 8; mk_field "temperature" MAVLINK_TYPE_INT16_T 0 12;
     mk_field "temperature_press_diff" MAVLINK_TYPE_INT16_T 0 14]
    [put uint32_t 0 "time_boot_ms"; put float_t 4 "press_abs"; put float_t 8 "press_diff";
     put int16_t 12 "temperature"; put int16_t 14 "temperature_press_diff"]
    [assign "time_boot_ms" "time_boot_ms"; assign "press_abs" "press_abs"; assign "press_diff" "press_diff";
     assign "temperature" "temperature"; assign "temperature_press_diff" "temperature_press_diff"].
Definition GET_SCALED_PRESSURE3 : list getter :=
    [mk_getter "time_boot_ms" uint32_t 0 0; mk_getter "press_abs" float_t 0 4; mk_getter "press_diff" float_t 0 8;
     mk_getter "temperature" int16_t 0 12; mk_getter "temperature_press_diff" int16_t 0 14].

Definition MSG_FOLLOW_TARGET : mav_message :=
  mk_message 144 "FOLLOW_TARGET" 93 93 127 false
    [mk_member uint64_t "timestamp" 0; mk_member uint64_t "custom_state" 0; mk_member int32_t "lat" 0;
     mk_member int32_t "lon" 0; mk_member float_t "alt" 0; mk_member float_t "vel" 3; mk_member float_t "acc" 3;
     mk_member float_t "attitude_q" 4; mk_member float_t "rates" 3; mk_member float_t "position_cov" 3;
     mk_member uint8_t "est_capabilities" 0]
    [mk_field "timestamp" MAVLINK_TYPE_UINT64_T 0 0; mk_field "est_capabilities" MAVLINK_TYPE_UINT8_T 0 92;
     mk_field "lat" MAVLINK_TYPE_INT32_T 0 16; mk_field "lon" MAVLINK_TYPE_INT32_T 0 20;
     mk_field "alt" MAVLINK_TYPE_FLOAT 0 24; mk_field "vel" MAVLINK_TYPE_FLOAT 3 28;
     mk_field "acc" MAVLINK_TYPE_FLOAT 3 40; mk_field "attitude_q" MAVLINK_TYPE_FLOAT 4 52;
     mk_field "rates" MAVLINK_TYPE_FLOAT 3 68; mk_field "position_cov" MAVLINK_TYPE_FLOAT 3 80;
     mk_field "custom_state" MAVLINK_TYPE_UINT64_T 0 8]
    [put uint64_t 0 "timestamp"; put uint64_t 8 "custom_state"; put int32_t 16 "lat"; put int32_t 20 "lon";
     put float_t 24 "alt"; put uint8_t 92 "est_capabilities"; put_array float_t 28 "vel" 3;
     put_array float_t 40 "acc" 3; put_array float_t 52 "attitude_q" 4; put_array float_t 68 "rates" 3;
     put_array float_t 80 "position_cov" 3]
    [assign "timestamp" "timestamp"; assign "custom_state" "custom_state"; assign "lat" "lat"; assign "lon" "lon";
     assign "alt" "alt"; assign "est_capabilities" "est_capabilities"; copy_array "vel" "vel" float_t 3;
     copy_array "acc" "acc" float_t 3; copy_array "attitude_q" "attitude_q" float_t 4;
     copy_array "rates" "rates" float_t 3; copy_array "position_cov" "position_cov" float_t 3].
Definition GET_FOLLOW_TARGET : list getter :=
    [mk_getter "timestamp" uint64_t 0 0; mk_getter "est_capabilities" uint8_t 0 92; mk_getter "lat" int32_t 0 16;
     mk_getter "lon" int32_t 0 20; mk_getter "alt" float_t 0 24; mk_getter "vel" float_t 3 28;
     mk_getter "acc" float_t 3 40; mk_getter "attitude_q" float_t 4 52; mk_getter "rates" float_t 3 68;
     mk_getter "position_cov" float_t 3 80; mk_getter "custom_state" uint64_t 0 8].

Definition MSG_CONTROL_SYSTEM_STATE : mav_message :=
  mk_message 146 "CONTROL_SYSTEM_STATE" 100 100 103 false
    [mk_member uint64_t "time_usec" 0; mk_member float_t "x_acc" 0; mk_member float_t "y_acc" 0;
     mk_member float_t "z_acc" 0; mk_member float_t "x_vel" 0; mk_member float_t "y_vel" 0;
     mk_member float_t "z_vel" 0; mk_member float_t "x_pos" 0; mk_member float_t "y_pos" 0;
     mk_member float_t "z_pos" 0; mk_member float_t "airspeed" 0; mk_member float_t "vel_variance" 3;
     mk_member float_t "pos_variance" 3; mk_member float_t "q" 4; mk_member float_t "roll_rate" 0;
     mk_member float_t "pitch_rate" 0; mk_member float_t "yaw_rate" 0]
    [mk_field "time_usec" MAVLINK_TYPE_UINT64_T 0 0; mk_field "x_acc" MAVLINK_TYPE_FLOAT 0 8;
     mk_field "y_acc" MAVLINK_TYPE_FLOAT 0 12; mk_field "z_acc" MAVLINK_TYPE_FLOAT 0 16;
     mk_field "x_vel" MAVLINK_TYPE_FLOAT 0 20; mk_field "y_vel" MAVLINK_TYPE_FLOAT 0 24;
     mk_field "z_vel" MAVLINK_TYPE_FLOAT 0 28; mk_field "x_pos" MAVLINK_TYPE_FLOAT 0 32;
     mk_field "y_pos" MAVLINK_TYPE_FLOAT 0 36; mk_field "z_pos" MAVLINK_TYPE_FLOAT 0 40;
     mk_field "airspeed" MAVLINK_TYPE_FLOAT 0 44; mk_field "vel_variance" MAVLINK_TYPE_FLOAT 3 48;
     mk_field "pos_variance" MAVLINK_TYPE_FLOAT 3 60; mk_field "q" MAVLINK_TYPE_FLOAT 4 72;
     mk_field "roll_rate" MAVLINK_TYPE_FLOAT 0 88; mk_field "pitch_rate" MAVLINK_TYPE_FLOAT 0 92;
     mk_field "yaw_rate" MAVLINK_TYPE_FLOAT 0 96]
    [put uint64_t 0 "time_usec"; put float_t 8 "x_acc"; put float_t 12 "y_acc"; put float_t 16 "z_acc";
     put float_t 20 "x_vel"; put float_t 24 "y_vel"; put float_t 28 "z_vel"; put float_t 32 "x_pos";
     put float_t 36 "y_pos"; put float_t 40 "z_pos"; put float_t 44 "airspeed"; put float_t 88 "roll_rate";
     put float_t 92 "pitch_rate"; put float_t 96 "yaw_rate"; put_array float_t 48 "vel_variance" 3;
     put_array float_t 60 "pos_variance" 3; put_array float_t 72 "q" 4]
    [assign "time_usec" "time_usec"; assign "x_acc" "x_acc"; assign "y_acc" "y_acc"; assign "z_acc" "z_acc";
     assign "x_vel" "x_vel"; assign "y_vel" "y_vel"; assign "z_vel" "z_vel"; assign "x_pos" "x_pos";
     assign "y_pos" "y_pos"; assign "z_pos" "z_pos"; assign "airspeed" "airspeed"; assign "roll_rate" "roll_rate";
     assign "pitch_rate" "pitch_rate"; assign "yaw_rate" "yaw_rate";
     copy_array "vel_variance" "vel_variance" float_t 3; copy_array "pos_variance" "pos_variance" float_t 3;
     copy_array "q" "q" float_t 4].
Definition GET_CONTROL_SYSTEM_STATE : list getter :=
    [mk_getter "time_usec" uint64_t 0 0; mk_getter "x_acc" float_t 0 8; mk_getter "y_acc" float_t 0 12;
     mk_getter "z_acc" float_t 0 16; mk_getter "x_vel" float_t 0 20; mk_getter "y_vel" float_t 0 24;
     mk_getter "z_vel" float_t 0 28; mk_getter "x_pos" float_t 0 32; mk_getter "y_pos" float_t 0 36;
     mk_getter "z_pos" float_t 0 40; mk_getter "airspeed" float_t 0 44; mk_getter "vel_variance" float_t 3 48;
     mk_getter "pos_variance" float_t 3 60; mk_getter "q" float_t 4 72; mk_getter "roll_rate" float_t 0 88;
     mk_getter "pitch_rate" float_t 0 92; mk_getter "yaw_rate" float_t 0 96].

Definition MSG_BATTERY_STATUS : mav_message :=
  mk_message 147 "BATTERY_STATUS" 36 54 154 true
    [mk_member int32_t "current_consumed" 0; mk_member int32_t "energy_consumed" 0; mk_member int16_t "temperature" 0;
     mk_member uint16_t "voltages" 10; mk_member int16_t "current_battery" 0; mk_member uint8_t "id" 0;
     mk_member uint8_t "battery_function" 0; mk_member uint8_t "type" 0; mk_member int8_t "battery_remaining" 0;
     mk_member int32_t "time_remaining" 0; mk_member uint8_t "charge_state" 0; mk_member uint16_t "voltages_ext" 4;
     mk_member uint8_t "mode" 0; mk_member uint32_t "fault_bitmask" 0]
    [mk_field "id" MAVLINK_TYPE_UINT8_T 0 32; mk_field "battery_function" MAVLINK_TYPE_UINT8_T 0 33;
     mk_field "type" MAVLINK_TYPE_UINT8_T 0 34; mk_field "temperature" MAVLINK_TYPE_INT16_T 0 8;
     mk_field "voltages" MAVLINK_TYPE_UINT16_T 10 10; mk_field "current_battery" MAVLINK_TYPE_INT16_T 0 30;
     mk_field "current_consumed" MAVLINK_TYPE_INT32_T 0 0; mk_field "energy_consumed" MAVLINK_TYPE_INT32_T 0 4;
     mk_field "battery_remaining" MAVLINK_TYPE_INT8_T 0 35; mk_field "time_remaining" MAVLINK_TYPE_INT32_T 0 36;
     mk_field "charge_state" MAVLINK_TYPE_UINT8_T 0 40; mk_field "voltages_ext" MAVLINK_TYPE_UINT16_T 4 41;
     mk_field "mode" MAVLINK_TYPE_UINT8_T 0 49; mk_field "fault_bitmask" MAVLINK_TYPE_UINT32_T 0 50]
    [put int32_t 0 "current_consumed"; put int32_t 4 "energy_consumed"; put int16_t 8 "temperature";
     put int16_t 30 "current_battery"; put uint8_t 32 "id"; put uint8_t 33 "battery_function"; put uint8_t 34 "type";
     put int8_t 35 "battery_remaining"; put int32_t 36 "time_remaining"; put uint8_t 40 "charge_state";
     put uint8_t 49 "mode"; put uint32_t 50 "fault_bitmask"; put_array uint16_t 10 "voltages" 10;
     put_array uint16_t 41 "voltages_ext" 4]
    [assign "current_consumed" "current_consumed"; assign "energy_consumed" "energy_consumed";
     assign "temperature" "temperature"; assign "current_battery" "current_battery"; assign "id" "id";
     assign "battery_function" "battery_function"; assign "type" "type";
     assign "battery_remaining" "battery_remaining"; assign "time_remaining" "time_remaining";
     assign "charge_state" "charge_state"; assign "mode" "mode"; assign "fault_bitmask" "fault_bitmask";
     copy_array "voltages" "voltages" uint16_t 10; copy_array "voltages_ext" "voltages_ext" uint16_t 4].
Definition GET_BATTERY_STATUS : list getter :=
    [mk_getter "id" uint8_t 0 32; mk_getter "battery_function" uint8_t 0 33; mk_getter "type" uint8_t 0 34;
     mk_getter "temperature" int16_t 0 8; mk_getter "voltages" uint16_t 10 10;
     mk_getter "current_battery" int16_t 0 30; mk_getter "current_consumed" int32_t 0 0;
     mk_getter "energy_consumed" int32_t 0 4; mk_getter "battery_remaining" int8_t 0 35;
     mk_getter "time_remaining" int32_t 0 36; mk_getter "charge_state" uint8_t 0 40;
     mk_getter "voltages_ext" uint16_t 4 41; mk_getter "mode" uint8_t 0 49; mk_getter "fault_bitmask" uint32_t 0 50].

Definition MSG_AUTOPILOT_VERSION : mav_message :=
  mk_message 148 "AUTOPILOT_VERSION" 60 78 178 false
    [mk_member uint64_t "capabilities" 0; mk_member uint64_t "uid" 0; mk_member uint32_t "flight_sw_version" 0;
     mk_member uint32_t "middleware_sw_version" 0; mk_member uint32_t "os_sw_version" 0;
     mk_member uint32_t "board_version" 0; mk_member uint16_t "vendor_id" 0; mk_member uint16_t "product_id" 0;
     mk_member uint8_t "flight_custom_version" 8; mk_member uint8_t "middleware_custom_version" 8;
     mk_member uint8_t "os_custom_version" 8; mk_member uint8_t "uid2" 18]
    [mk_field "capabilities" MAVLINK_TYPE_UINT64_T 0 0; mk_field "flight_sw_version" MAVLINK_TYPE_UINT32_T 0 16;
     mk_field "middleware_sw_version" MAVLINK_TYPE_UINT32_T 0 20; mk_field "os_sw_version" MAVLINK_TYPE_UINT32_T 0 24;
     mk_field "board_version" MAVLINK_TYPE_UINT32_T 0 28; mk_field "flight_custom_version" MAVLINK_TYPE_UINT8_T 8 36;
     mk_field "middleware_custom_version" MAVLINK_TYPE_UINT8_T 8 44;
     mk_field "os_custom_version" MAVLINK_TYPE_UINT8_T 8 52; mk_field "vendor_id" MAVLINK_TYPE_UINT16_T 0 32;
     mk_field "product_id" MAVLINK_TYPE_UINT16_T 0 34; mk_field "uid" MAVLINK_TYPE_UINT64_T 0 8;
     mk_field "uid2" MAVLINK_TYPE_UINT8_T 18 60]
    [put uint64_t 0 "capabilities"; put uint64_t 8 "uid"; put uint32_t 16 "flight_sw_version";
     put uint32_t 20 "middleware_sw_version"; put uint32_t 24 "os_sw_version"; put uint32_t 28 "board_version";
     put uint16_t 32 "vendor_id"; put uint16_t 34 "product_id"; put_array uint8_t 36 "flight_custom_version" 8;
     put_array uint8_t 44 "middleware_custom_version" 8; put_array uint8_t 52 "os_custom_version" 8;
     put_array uint8_t 60 "uid2" 18]
    [assign "capabilities" "capabilities"; assign "uid" "uid"; assign "flight_sw_version" "flight_sw_version";
     assign "middleware_sw_version" "middleware_sw_version"; assign "os_sw_version" "os_sw_version";
     assign "board_version" "board_version"; assign "vendor_id" "vendor_id"; assign "product_id" "product_id";
     copy_array "flight_custom_version" "flight_custom_version" uint8_t 8;
     copy_array "middleware_custom_version" "middleware_custom_version" uint8_t 8;
     copy_array "os_custom_version" "os_custom_version" uint8_t 8; copy_array "uid2" "uid2" uint8_t 18].
Definition GET_AUTOPILOT_VERSION : list getter :=
    [mk_getter "capabilities" uint64_t 0 0; mk_getter "flight_sw_version" uint32_t 0 16;
     mk_getter "middleware_sw_version" uint32_t 0 20; mk_getter "os_sw_version" uint32_t 0 24;
     mk_getter "board_version" uint32_t 0 28; mk_getter "flight_custom_version" uint8_t 8 36;
     mk_getter "middleware_custom_version" uint8_t 8 44; mk_getter "os_custom_version" uint8_t 8 52;
     mk_getter "vendor_id" uint16_t 0 32; mk_getter "product_id" uint16_t 0 34; mk_getter "uid" uint64_t 0 8;
     mk_getter "uid2" uint8_t 18 60].

Definition MSG_LANDING_TARGET : mav_message :=
  mk_message 149 "LANDING_TARGET" 30 60 200 true
    [mk_member uint64_t "time_usec" 0; mk_member float_t "angle_x" 0; mk_member float_t "angle_y" 0;
     mk_member float_t "distance" 0; mk_member float_t "size_x" 0; mk_member float_t "size_y" 0;
     mk_member uint8_t "target_num" 0; mk_member uint8_t "frame" 0; mk_member float_t "x" 0; mk_member float_t "y" 0;
     mk_member float_t "z" 0; mk_member float_t "q" 4; mk_member uint8_t "type" 0;
     mk_member uint8_t "position_valid" 0]
    [mk_field "time_usec" MAVLINK_TYPE_UINT64_T 0 0; mk_field "target_num" MAVLINK_TYPE_UINT8_T 0 28;
     mk_field "frame" MAVLINK_TYPE_UINT8_T 0 29; mk_field "angle_x" MAVLINK_TYPE_FLOAT 0 8;
     mk_field "angle_y" MAVLINK_TYPE_FLOAT 0 12; mk_field "distance" MAVLINK_TYPE_FLOAT 0 16;
     mk_field "size_x" MAVLINK_TYPE_FLOAT 0 20; mk_field "size_y" MAVLINK_TYPE_FLOAT 0 24;
     mk_field "x" MAVLINK_TYPE_FLOAT 0 30; mk_field "y" MAVLINK_TYPE_FLOAT 0 34; mk_field "z" MAVLINK_TYPE_FLOAT 0 38;
     mk_field "q" MAVLINK_TYPE_FLOAT 4 42; mk_field "type" MAVLINK_TYPE_UINT8_T 0 58;
     mk_field "position_valid" MAVLINK_TYPE_UINT8_T 0 59]
    [put uint64_t 0 "time_usec"; put float_t 8 "angle_x"; put float_t 12 "angle_y"; put float_t 16 "distance";
     put float_t 20 "size_x"; put float_t 24 "size_y"; put uint8_t 28 "target_num"; put uint8_t 29 "frame";
     put float_t 30 "x"; put float_t 34 "y"; put float_t 38 "z"; put uint8_t 58 "type";
     put uint8_t 59 "position_valid"; put_array float_t 42 "q" 4]
    [assign "time_usec" "time_usec"; assign "angle_x" "angle_x"; assign "angle_y" "angle_y";
     assign "distance" "distance"; assign "size_x" "size_x"; assign "size_y" "size_y";
     assign "target_num" "target_num"; assign "frame" "frame"; assign "x" "x"; assign "y" "y"; assign "z" "z";
     assign "type" "type"; assign "position_valid" "position_valid"; copy_array "q" "q" float_t 4].
Definition GET_LANDING_TARGET : list getter :=
    [mk_getter "time_usec" uint64_t 0 0; mk_getter "target_num" uint8_t 0 28; mk_getter "frame" uint8_t 0 29;
     mk_getter "angle_x" float_t 0 8; mk_getter "angle_y" float_t 0 12; mk_getter "distance" float_t 0 16;
     mk_getter "size_x" float_t 0 20; mk_getter "size_y" float_t 0 24; mk_getter "x" float_t 0 30;
     mk_getter "y" float_t 0 34; mk_getter "z" float_t 0 38; mk_getter "q" float_t 4 42;
     mk_getter "type" uint8_t 0 58; mk_getter "position_valid" uint8_t 0 59].

Definition MSG_FENCE_STATUS : mav_message :=
  mk_message 162 "FENCE_STATUS" 8 9 189 false
    [mk_member uint32_t "breach_time" 0; mk_member uint16_t "breach_count" 0; mk_member uint8_t "breach_status" 0;
     mk_member uint8_t "breach_type" 0; mk_member uint8_t "breach_mitigation" 0]
    [mk_field "breach_status" MAVLINK_TYPE_UINT8_T 0 6; mk_field "breach_count" MAVLINK_TYPE_UINT16_T 0 4;
     mk_field "breach_type" MAVLINK_TYPE_UINT8_T 0 7; mk_field "breach_time" MAVLINK_TYPE_UINT32_T 0 0;
     mk_field "breach_mitigation" MAVLINK_TYPE_UINT8_T 0 8]
    [put uint32_t 0 "breach_time"; put uint16_t 4 "breach_count"; put uint8_t 6 "breach_status";
     put uint8_t 7 "breach_type"; put uint8_t 8 "breach_mitigation"]
    [assign "breach_time" "breach_time"; assign "breach_count" "breach_count"; assign "breach_status" "breach_status";
     assign "breach_type" "breach_type"; assign "breach_mitigation" "breach_mitigation"].
Definition GET_FENCE_STATUS : list getter :=
    [mk_getter "breach_status" uint8_t 0 6; mk_getter "breach_count" uint16_t 0 4;
     mk_getter "breach_type" uint8_t 0 7; mk_getter "breach_time" uint32_t 0 0;
     mk_getter "breach_mitigation" uint8_t 0 8].

Definition MSG_MAG_CAL_REPORT : mav_message :=
  mk_message 192 "MAG_CAL_REPORT" 44 54 36 true
    [mk_member float_t "fitness" 0; mk_member float_t "ofs_x" 0; mk_member float_t "ofs_y" 0;
     mk_member float_t "ofs_z" 0; mk_member float_t "diag_x" 0; mk_member float_t "diag_y" 0;
     mk_member float_t "diag_z" 0; mk_member float_t "offdiag_x" 0; mk_member float_t "offdiag_y" 0;
     mk_member float_t "offdiag_z" 0; mk_member uint8_t "compass_id" 0; mk_member uint8_t "cal_mask" 0;
     mk_member uint8_t "cal_status" 0; mk_member uint8_t "autosaved" 0; mk_member float_t "orientation_confidence" 0;
     mk_member uint8_t "old_orientation" 0; mk_member uint8_t "new_orientation" 0; mk_member float_t "scale_factor" 0]
    [mk_field "compass_id" MAVLINK_TYPE_UINT8_T 0 40; mk_field "cal_mask" MAVLINK_TYPE_UINT8_T 0 41;
     mk_field "cal_status" MAVLINK_TYPE_UINT8_T 0 42; mk_field "autosaved" MAVLINK_TYPE_UINT8_T 0 43;
     mk_field "fitness" MAVLINK_TYPE_FLOAT 0 0; mk_field "ofs_x" MAVLINK_TYPE_FLOAT 0 4;
     mk_field "ofs_y" MAVLINK_TYPE_FLOAT 0 8; mk_field "ofs_z" MAVLINK_TYPE_FLOAT 0 12;
     mk_field "diag_x" MAVLINK_TYPE_FLOAT 0 16; mk_field "diag_y" MAVLINK_TYPE_FLOAT 0 20;
     mk_field "diag_z" MAVLINK_TYPE_FLOAT 0 24; mk_field "offdiag_x" MAVLINK_TYPE_FLOAT 0 28;
     mk_field "offdiag_y" MAVLINK_TYPE_FLOAT 0 32; mk_field "offdiag_z" MAVLINK_TYPE_FLOAT 0 36;
     mk_field "orientation_confidence" MAVLINK_TYPE_FLOAT 0 44; mk_field "old_orientation" MAVLINK_TYPE_UINT8_T 0 48;
     mk_field "new_orientation" MAVLINK_TYPE_UINT8_T 0 49; mk_field "scale_factor" MAVLINK_TYPE_FLOAT 0 50]
    [put float_t 0 "fitness"; put float_t 4 "ofs_x"; put float_t 8 "ofs_y"; put float_t 12 "ofs_z";
     put float_t 16 "diag_x"; put float_t 20 "diag_y"; put float_t 24 "diag_z"; put float_t 28 "offdiag_x";
     put float_t 32 "offdiag_y"; put float_t 36 "offdiag_z"; put uint8_t 40 "compass_id"; put uint8_t 41 "cal_mask";
     put uint8_t 42 "cal_status"; put uint8_t 43 "autosaved"; put float_t 44 "orientation_confidence";
     put uint8_t 48 "old_orientation"; put uint8_t 49 "new_orientation"; put float_t 50 "scale_factor"]
    [assign "fitness" "fitness"; assign "ofs_x" "ofs_x"; assign "ofs_y" "ofs_y"; assign "ofs_z" "ofs_z";
     assign "diag_x" "diag_x"; assign "diag_y" "diag_y"; assign "diag_z" "diag_z"; assign "offdiag_x" "offdiag_x";
     assign "offdiag_y" "offdiag_y"; assign "offdiag_z" "offdiag_z"; assign "compass_id" "compass_id";
     assign "cal_mask" "cal_mask"; assign "cal_status" "cal_status"; assign "autosaved" "autosaved";
     assign "orientation_confidence" "orientation_confidence"; assign "old_orientation" "old_orientation";
     assign "new_orientation" "new_orientation"; assign "scale_factor" "scale_factor"].
Definition GET_MAG_CAL_REPORT : list getter :=
    [mk_getter "compass_id" uint8_t 0 40; mk_getter "cal_mask" uint8_t 0 41; mk_getter "cal_status" uint8_t 0 42;
     mk_getter "autosaved" uint8_t 0 43; mk_getter "fitness" float_t 0 0; mk_getter "ofs_x" float_t 0 4;
     mk_getter "ofs_y" float_t 0 8; mk_getter "ofs_z" float_t 0 12; mk_getter "diag_x" float_t 0 16;
     mk_getter "diag_y" float_t 0 20; mk_getter "diag_z" float_t 0 24; mk_getter "offdiag_x" float_t 0 28;
     mk_getter "offdiag_y" float_t 0 32; mk_getter "offdiag_z" float_t 0 36;
     mk_getter "orientation_confidence" float_t 0 44; mk_getter "old_orientation" uint8_t 0 48;
     mk_getter "new_orientation" uint8_t 0 49; mk_getter "scale_factor" float_t 0 50].

Definition MSG_EFI_STATUS : mav_message :=
  mk_message 225 "EFI_STATUS" 65 73 208 true
    [mk_member float_t "ecu_index" 0; mk_member float_t "rpm" 0; mk_member float_t "fuel_consumed" 0;
     mk_member float_t "fuel_flow" 0; mk_member float_t "engine_load" 0; mk_member float_t "throttle_position" 0;
     mk_member float_t "spark_dwell_time" 0; mk_member float_t "barometric_pressure" 0;
     mk_member float_t "intake_manifold_pressure" 0; mk_member float_t "intake_manifold_temperature" 0;
     mk_member float_t "cylinder_head_temperature" 0; mk_member float_t "ignition_timing" 0;
     mk_member float_t "injection_time" 0; mk_member float_t "exhaust_gas_temperature" 0;
     mk_member float_t "throttle_out" 0; mk_member float_t "pt_compensation" 0; mk_member uint8_t "health" 0;
     mk_member float_t "ignition_voltage" 0; mk_member float_t "fuel_pressure" 0]
    [mk_field "health" MAVLINK_TYPE_UINT8_T 0 64; mk_field "ecu_index" MAVLINK_TYPE_FLOAT 0 0;
     mk_field "rpm" MAVLINK_TYPE_FLOAT 0 4; mk_field "fuel_consumed" MAVLINK_TYPE_FLOAT 0 8;
     mk_field "fuel_flow" MAVLINK_TYPE_FLOAT 0 12; mk_field "engine_load" MAVLINK_TYPE_FLOAT 0 16;
     mk_field "throttle_position" MAVLINK_TYPE_FLOAT 0 20; mk_field "spark_dwell_time" MAVLINK_TYPE_FLOAT 0 24;
     mk_field "barometric_pressure" MAVLINK_TYPE_FLOAT 0 28;
     mk_field "intake_manifold_pressure" MAVLINK_TYPE_FLOAT 0 32;
     mk_field "intake_manifold_temperature" MAVLINK_TYPE_FLOAT 0 36;
     mk_field "cylinder_head_temperature" MAVLINK_TYPE_FLOAT 0 40; mk_field "ignition_timing" MAVLINK_TYPE_FLOAT 0 44;
     mk_field "injection_time" MAVLINK_TYPE_FLOAT 0 48; mk_field "exhaust_gas_temperature" MAVLINK_TYPE_FLOAT 0 52;
     mk_field "throttle_out" MAVLINK_TYPE_FLOAT 0 56; mk_field "pt_compensation" MAVLINK_TYPE_FLOAT 0 60;
     mk_field "ignition_voltage" MAVLINK_TYPE_FLOAT 0 65; mk_field "fuel_pressure" MAVLINK_TYPE_FLOAT 0 69]
    [put float_t 0 "ecu_index"; put float_t 4 "rpm"; put float_t 8 "fuel_consumed"; put float_t 12 "fuel_flow";
     put float_t 16 "engine_load"; put float_t 20 "throttle_position"; put float_t 24 "spark_dwell_time";
     put float_t 28 "barometric_pressure"; put float_t 32 "intake_manifold_pressure";
     put float_t 36 "intake_manifold_temperature"; put float_t 40 "cylinder_head_temperature";
     put float_t 44 "ignition_timing"; put float_t 48 "injection_time"; put float_t 52 "exhaust_gas_temperature";
     put float_t 56 "throttle_out"; put float_t 60 "pt_compensation"; put uint8_t 64 "health";
     put float_t 65 "ignition_voltage"; put float_t 69 "fuel_pressure"]
    [assign "ecu_index" "ecu_index"; assign "rpm" "rpm"; assign "fuel_consumed" "fuel_consumed";
     assign "fuel_flow" "fuel_flow"; assign "engine_load" "engine_load";
     assign "throttle_position" "throttle_position"; assign "spark_dwell_time" "spark_dwell_time";
     assign "barometric_pressure" "barometric_pressure"; assign "intake_manifold_pressure" "intake_manifold_pressure";
     assign "intake_manifold_temperature" "intake_manifold_temperature";
     assign "cylinder_head_temperature" "cylinder_head_temperature"; assign "ignition_timing" "ignition_timing";
     assign "injection_time" "injection_time"; assign "exhaust_gas_temperature" "exhaust_gas_temperature";
     assign "throttle_out" "throttle_out"; assign "pt_compensation" "pt_compensation"; assign "health" "health";
     assign "ignition_voltage" "ignition_voltage"; assign "fuel_pressure" "fuel_pressure"].
Definition GET_EFI_STATUS : list getter :=
    [mk_getter "health" uint8_t 0 64; mk_getter "ecu_index" float_t 0 0; mk_getter "rpm" float_t 0 4;
     mk_getter "fuel_consumed" float_t 0 8; mk_getter "fuel_flow" float_t 0 12; mk_getter "engine_load" float_t 0 16;
     mk_getter "throttle_position" float_t 0 20; mk_getter "spark_dwell_time" float_t 0 24;
     mk_getter "barometric_pressure" float_t 0 28; mk_getter "intake_manifold_pressure" float_t 0 32;
     mk_getter "intake_manifold_temperature" float_t 0 36; mk_getter "cylinder_head_temperature" float_t 0 40;
     mk_getter "ignition_timing" float_t 0 44; mk_getter "injection_time" float_t 0 48;
     mk_getter "exhaust_gas_temperature" float_t 0 52; mk_getter "throttle_out" float_t 0 56;
     mk_getter "pt_compensation" float_t 0 60; mk_getter "ignition_voltage" float_t 0 65;
     mk_getter "fuel_pressure" float_t 0 69].

Definition MSG_ESTIMATOR_STATUS : mav_message :=
  mk_message 230 "ESTIMATOR_STATUS" 42 42 163 false
    [mk_member uint64_t "time_usec" 0; mk_member float_t "vel_ratio" 0; mk_member float_t "pos_horiz_ratio" 0;
     mk_member float_t "pos_vert_ratio" 0; mk_member float_t "mag_ratio" 0; mk_member float_t "hagl_ratio" 0;
     mk_member float_t "tas_ratio" 0; mk_member float_t "pos_horiz_accuracy" 0;
     mk_member float_t "pos_vert_accuracy" 0; mk_member uint16_t "flags" 0]
    [mk_field "time_usec" MAVLINK_TYPE_UINT64_T 0 0; mk_field "flags" MAVLINK_TYPE_UINT16_T 0 40;
     mk_field "vel_ratio" MAVLINK_TYPE_FLOAT 0 8; mk_field "pos_horiz_ratio" MAVLINK_TYPE_FLOAT 0 12;
     mk_field "pos_vert_ratio" MAVLINK_TYPE_FLOAT 0 16; mk_field "mag_ratio" MAVLINK_TYPE_FLOAT 0 20;
     mk_field "hagl_ratio" MAVLINK_TYPE_FLOAT 0 24; mk_field "tas_ratio" MAVLINK_TYPE_FLOAT 0 28;
     mk_field "pos_horiz_accuracy" MAVLINK_TYPE_FLOAT 0 32; mk_field "pos_vert_accuracy" MAVLINK_TYPE_FLOAT 0 36]
    [put uint64_t 0 "time_usec"; put float_t 8 "vel_ratio"; put float_t 12 "pos_horiz_ratio";
     put float_t 16 "pos_vert_ratio"; put float_t 20 "mag_ratio"; put float_t 24 "hagl_ratio";
     put float_t 28 "tas_ratio"; put float_t 32 "pos_horiz_accuracy"; put float_t 36 "pos_vert_accuracy";
     put uint16_t 40 "flags"]
    [assign "time_usec" "time_usec"; assign "vel_ratio" "vel_ratio"; assign "pos_horiz_ratio" "pos_horiz_ratio";
     assign "pos_vert_ratio" "pos_vert_ratio"; assign "mag_ratio" "mag_ratio"; assign "hagl_ratio" "hagl_ratio";
     assign "tas_ratio" "tas_ratio"; assign "pos_horiz_accuracy" "pos_horiz_accuracy";
     assign "pos_vert_accuracy" "pos_vert_accuracy"; assign "flags" "flags"].
Definition GET_ESTIMATOR_STATUS : list getter :=
    [mk_getter "time_usec" uint64_t 0 0; mk_getter "flags" uint16_t 0 40; mk_getter "vel_ratio" float_t 0 8;
     mk_getter "pos_horiz_ratio" float_t 0 12; mk_getter "pos_vert_ratio" float_t 0 16;
     mk_getter "mag_ratio" float_t 0 20; mk_getter "hagl_ratio" float_t 0 24; mk_getter "tas_ratio" float_t 0 28;
     mk_getter "pos_horiz_accuracy" float_t 0 32; mk_getter "pos_vert_accuracy" float_t 0 36].

Definition MSG_WIND_COV : mav_message :=
  mk_message 231 "WIND_COV" 40 40 105 false
    [mk_member uint64_t "time_usec" 0; mk_member float_t "wind_x" 0; mk_member float_t "wind_y" 0;
     mk_member float_t "wind_z" 0; mk_member float_t "var_horiz" 0; mk_member float_t "var_vert" 0;
     mk_member float_t "wind_alt" 0; mk_member float_t "horiz_accuracy" 0; mk_member float_t "vert_accuracy" 0]
    [mk_field "time_usec" MAVLINK_TYPE_UINT64_T 0 0; mk_field "wind_x" MAVLINK_TYPE_FLOAT 0 8;
     mk_field "wind_y" MAVLINK_TYPE_FLOAT 0 12; mk_field "wind_z" MAVLINK_TYPE_FLOAT 0 16;
     mk_field "var_horiz" MAVLINK_TYPE_FLOAT 0 20; mk_field "var_vert" MAVLINK_TYPE_FLOAT 0 24;
     mk_field "wind_alt" MAVLINK_TYPE_FLOAT 0 28; mk_field "horiz_accuracy" MAVLINK_TYPE_FLOAT 0 32;
     mk_field "vert_accuracy" MAVLINK_TYPE_FLOAT 0 36]
    [put uint64_t 0 "time_usec"; put float_t 8 "wind_x"; put float_t 12 "wind_y"; put float_t 16 "wind_z";
     put float_t 20 "var_horiz"; put float_t 24 "var_vert"; put float_t 28 "wind_alt";
     put float_t 32 "horiz_accuracy"; put float_t 36 "vert_accuracy"]
    [assign "time_usec" "time_usec"; assign "wind_x" "wind_x"; assign "wind_y" "wind_y"; assign "wind_z" "wind_z";
     assign "var_horiz" "var_horiz"; assign "var_vert" "var_vert"; assign "wind_alt" "wind_alt";
     assign "horiz_accuracy" "horiz_accuracy"; assign "vert_accuracy" "vert_accuracy"].
Definition GET_WIND_COV : list getter :=
    [mk_getter "time_usec" uint64_t 0 0; mk_getter "wind_x" float_t 0 8; mk_getter "wind_y" float_t 0 12;
     mk_getter "wind_z" float_t 0 16; mk_getter "var_horiz" float_t 0 20; mk_getter "var_vert" float_t 0 24;
     mk_getter "wind_alt" float_t 0 28; mk_getter "horiz_accuracy" float_t 0 32;
     mk_getter "vert_accuracy" float_t 0 36].

Definition MSG_GPS_INPUT : mav_message :=
  mk_message 232 "GPS_INPUT" 63 65 151 true
    [mk_member uint64_t "time_usec" 0; mk_member uint32_t "time_week_ms" 0; mk_member int32_t "lat" 0;
     mk_member int32_t "lon" 0; mk_member float_t "alt" 0; mk_member float_t "hdop" 0; mk_member float_t "vdop" 0;
     mk_member float_t "vn" 0; mk_member float_t "ve" 0; mk_member float_t "vd" 0;
     mk_member float_t "speed_accuracy" 0; mk_member float_t "horiz_accuracy" 0; mk_member float_t "vert_accuracy" 0;
     mk_member uint16_t "ignore_flags" 0; mk_member uint16_t "time_week" 0; mk_member uint8_t "gps_id" 0;
     mk_member uint8_t "fix_type" 0; mk_member uint8_t "satellites_visible" 0; mk_member uint16_t "yaw" 0]
    [mk_field "time_usec" MAVLINK_TYPE_UINT64_T 0 0; mk_field "gps_id" MAVLINK_TYPE_UINT8_T 0 60;
     mk_field "ignore_flags" MAVLINK_TYPE_UINT16_T 0 56; mk_field "time_week_ms" MAVLINK_TYPE_UINT32_T 0 8;
     mk_field "time_week" MAVLINK_TYPE_UINT16_T 0 58; mk_field "fix_type" MAVLINK_TYPE_UINT8_T 0 61;
     mk_field "lat" MAVLINK_TYPE_INT32_T 0 12; mk_field "lon" MAVLINK_TYPE_INT32_T 0 16;
     mk_field "alt" MAVLINK_TYPE_FLOAT 0 20; mk_field "hdop" MAVLINK_TYPE_FLOAT 0 24;
     mk_field "vdop" MAVLINK_TYPE_FLOAT 0 28; mk_field "vn" MAVLINK_TYPE_FLOAT 0 32;
     mk_field "ve" MAVLINK_TYPE_FLOAT 0 36; mk_field "vd" MAVLINK_TYPE_FLOAT 0 40;
     mk_field "speed_accuracy" MAVLINK_TYPE_FLOAT 0 44; mk_field "horiz_accuracy" MAVLINK_TYPE_FLOAT 0 48;
     mk_field "vert_accuracy" MAVLINK_TYPE_FLOAT 0 52; mk_field "satellites_visible" MAVLINK_TYPE_UINT8_T 0 62;
     mk_field "yaw" MAVLINK_TYPE_UINT16_T 0 63]
    [put uint64_t 0 "time_usec"; put uint32_t 8 "time_week_ms"; put int32_t 12 "lat"; put int32_t 16 "lon";
     put float_t 20 "alt"; put float_t 24 "hdop"; put float_t 28 "vdop"; put float_t 32 "vn"; put float_t 36 "ve";
     put float_t 40 "vd"; put float_t 44 "speed_accuracy"; put float_t 48 "horiz_accuracy";
     put float_t 52 "vert_accuracy"; put uint16_t 56 "ignore_flags"; put uint16_t 58 "time_week";
     put uint8_t 60 "gps_id"; put uint8_t 61 "fix_type"; put uint8_t 62 "satellites_visible"; put uint16_t 63 "yaw"]
    [assign "time_usec" "time_usec"; assign "time_week_ms" "time_week_ms"; assign "lat" "lat"; assign "lon" "lon";
     assign "alt" "alt"; assign "hdop" "hdop"; assign "vdop" "vdop"; assign "vn" "vn"; assign "ve" "ve";
     assign "vd" "vd"; assign "speed_accuracy" "speed_accuracy"; assign "horiz_accuracy" "horiz_accuracy";
     assign "vert_accuracy" "vert_accuracy"; assign "ignore_flags" "ignore_flags"; assign "time_week" "time_week";
     assign "gps_id" "gps_id"; assign "fix_type" "fix_type"; assign "satellites_visible" "satellites_visible";
     assign "yaw" "yaw"].
Definition GET_GPS_INPUT : list getter :=
    [mk_getter "time_usec" uint64_t 0 0; mk_getter "gps_id" uint8_t 0 60; mk_getter "ignore_flags" uint16_t 0 56;
     mk_getter "time_week_ms" uint32_t 0 8; mk_getter "time_week" uint16_t 0 58; mk_getter "fix_type" uint8_t 0 61;
     mk_getter "lat" int32_t 0 12; mk_getter "lon" int32_t 0 16; mk_getter "alt" float_t 0 20;
     mk_getter "hdop" float_t 0 24; mk_getter "vdop" float_t 0 28; mk_getter "vn" float_t 0 32;
     mk_getter "ve" float_t 0 36; mk_getter "vd" float_t 0 40; mk_getter "speed_accuracy" float_t 0 44;
     mk_getter "horiz_accuracy" float_t 0 48; mk_getter "vert_accuracy" float_t 0 52;
     mk_getter "satellites_visible" uint8_t 0 62; mk_getter "yaw" uint16_t 0 63].

Definition MSG_GPS_RTCM_DATA : mav_message :=
  mk_message 233 "GPS_RTCM_DATA" 182 182 35 false
    [mk_member uint8_t "flags" 0; mk_member uint8_t "len" 0; mk_member uint8_t "data" 180]
    [mk_field "flags" MAVLINK_TYPE_UINT8_T 0 0; mk_field "len" MAVLINK_TYPE_UINT8_T 0 1;
     mk_field "data" MAVLINK_TYPE_UINT8_T 180 2]
    [put uint8_t 0 "flags"; put uint8_t 1 "len"; put_array uint8_t 2 "data" 180]
    [assign "flags" "flags"; assign "len" "len"; copy_array "data" "data" uint8_t 180].
Definition GET_GPS_RTCM_DATA : list getter :=
    [mk_getter "flags" uint8_t 0 0; mk_getter "len" uint8_t 0 1; mk_getter "data" uint8_t 180 2].

Definition MSG_HIGH_LATENCY : mav_message :=
  mk_message 234 "HIGH_LATENCY" 40 40 150 false
    [mk_member uint32_t "custom_mode" 0; mk_member int32_t "latitude" 0; mk_member int32_t "longitude" 0;
     mk_member int16_t "roll" 0; mk_member int16_t "pitch" 0; mk_member uint16_t "heading" 0;
     mk_member int16_t "heading_sp" 0; mk_member int16_t "altitude_amsl" 0; mk_member int16_t "altitude_sp" 0;
     mk_member uint16_t "wp_distance" 0; mk_member uint8_t "base_mode" 0; mk_member uint8_t "landed_state" 0;
     mk_member int8_t "throttle" 0; mk_member uint8_t "airspeed" 0; mk_member uint8_t "airspeed_sp" 0;
     mk_member uint8_t "groundspeed" 0; mk_member int8_t "climb_rate" 0; mk_member uint8_t "gps_nsat" 0;
     mk_member uint8_t "gps_fix_type" 0; mk_member uint8_t "battery_remaining" 0; mk_member int8_t "temperature" 0;
     mk_member int8_t "temperature_air" 0; mk_member uint8_t "failsafe" 0; mk_member uint8_t "wp_num" 0]
    [mk_field "base_mode" MAVLINK_TYPE_UINT8_T 0 26; mk_field "custom_mode" MAVLINK_TYPE_UINT32_T 0 0;
     mk_field "landed_state" MAVLINK_TYPE_UINT8_T 0 27; mk_field "roll" MAVLINK_TYPE_INT16_T 0 12;
     mk_field "pitch" MAVLINK_TYPE_INT16_T 0 14; mk_field "heading" MAVLINK_TYPE_UINT16_T 0 16;
     mk_field "throttle" MAVLINK_TYPE_INT8_T 0 28; mk_field "heading_sp" MAVLINK_TYPE_INT16_T 0 18;
     mk_field "latitude" MAVLINK_TYPE_INT32_T 0 4; mk_field "longitude" MAVLINK_TYPE_INT32_T 0 8;
     mk_field "altitude_amsl" MAVLINK_TYPE_INT16_T 0 20; mk_field "altitude_sp" MAVLINK_TYPE_INT16_T 0 22;
     mk_field "airspeed" MAVLINK_TYPE_UINT8_T 0 29; mk_field "airspeed_sp" MAVLINK_TYPE_UINT8_T 0 30;
     mk_field "groundspeed" MAVLINK_TYPE_UINT8_T 0 31; mk_field "climb_rate" MAVLINK_TYPE_INT8_T 0 32;
     mk_field "gps_nsat" MAVLINK_TYPE_UINT8_T 0 33; mk_field "gps_fix_type" MAVLINK_TYPE_UINT8_T 0 34;
     mk_field "battery_remaining" MAVLINK_TYPE_UINT8_T 0 35; mk_field "temperature" MAVLINK_TYPE_INT8_T 0 36;
     mk_field "temperature_air" MAVLINK_TYPE_INT8_T 0 37; mk_field "failsafe" MAVLINK_TYPE_UINT8_T 0 38;
     mk_field "wp_num" MAVLINK_TYPE_UINT8_T 0 39; mk_field "wp_distance" MAVLINK_TYPE_UINT16_T 0 24]
    [put uint32_t 0 "custom_mode"; put int32_t 4 "latitude"; put int32_t 8 "longitude"; put int16_t 12 "roll";
     put int16_t 14 "pitch"; put uint16_t 16 "heading"; put int16_t 18 "heading_sp"; put int16_t 20 "altitude_amsl";
     put int16_t 22 "altitude_sp"; put uint16_t 24 "wp_distance"; put uint8_t 26 "base_mode";
     put uint8_t 27 "landed_state"; put int8_t 28 "throttle"; put uint8_t 29 "airspeed"; put uint8_t 30 "airspeed_sp";
     put uint8_t 31 "groundspeed"; put int8_t 32 "climb_rate"; put uint8_t 33 "gps_nsat";
     put uint8_t 34 "gps_fix_type"; put uint8_t 35 "battery_remaining"; put int8_t 36 "temperature";
     put int8_t 37 "temperature_air"; put uint8_t 38 "failsafe"; put uint8_t 39 "wp_num"]
    [assign "custom_mode" "custom_mode"; assign "latitude" "latitude"; assign "longitude" "longitude";
     assign "roll" "roll"; assign "pitch" "pitch"; assign "heading" "heading"; assign "heading_sp" "heading_sp";
     assign "altitude_amsl" "altitude_amsl"; assign "altitude_sp" "altitude_sp"; assign "wp_distance" "wp_distance";
     assign "base_mode" "base_mode"; assign "landed_state" "landed_state"; assign "throttle" "throttle";
     assign "airspeed" "airspeed"; assign "airspeed_sp" "airspeed_sp"; assign "groundspeed" "groundspeed";
     assign "climb_rate" "climb_rate"; assign "gps_nsat" "gps_nsat"; assign "gps_fix_type" "gps_fix_type";
     assign "battery_remaining" "battery_remaining"; assign "temperature" "temperature";
     assign "temperature_air" "temperature_air"; assign "failsafe" "failsafe"; assign "wp_num" "wp_num"].
Definition GET_HIGH_LATENCY : list getter :=
    [mk_getter "base_mode" uint8_t 0 26; mk_getter "custom_mode" uint32_t 0 0; mk_getter "landed_state" uint8_t 0 27;
     mk_getter "roll" int16_t 0 12; mk_getter "pitch" int16_t 0 14; mk_getter "heading" uint16_t 0 16;
     mk_getter "throttle" int8_t 0 28; mk_getter "heading_sp" int16_t 0 18; mk_getter "latitude" int32_t 0 4;
     mk_getter "longitude" int32_t 0 8; mk_getter "altitude_amsl" int16_t 0 20; mk_getter "altitude_sp" int16_t 0 22;
     mk_getter "airspeed" uint8_t 0 29; mk_getter "airspeed_sp" uint8_t 0 30; mk_getter "groundspeed" uint8_t 0 31;
     mk_getter "climb_rate" int8_t 0 32; mk_getter "gps_nsat" uint8_t 0 33; mk_getter "gps_fix_type" uint8_t 0 34;
     mk_getter "battery_remaining" uint8_t 0 35; mk_getter "temperature" int8_t 0 36;
     mk_getter "temperature_air" int8_t 0 37; mk_getter "failsafe" uint8_t 0 38; mk_getter "wp_num" uint8_t 0 39;
     mk_getter "wp_distance" uint16_t 0 24].

Definition MSG_HIGH_LATENCY2 : mav_message :=
  mk_message 235 "HIGH_LATENCY2" 42 42 179 false
    [mk_member uint32_t "timestamp" 0; mk_member int32_t "latitude" 0; mk_member int32_t "longitude" 0;
     mk_member uint16_t "custom_mode" 0; mk_member int16_t "altitude" 0; mk_member int16_t "target_altitude" 0;
     mk_member uint16_t "target_distance" 0; mk_member uint16_t "wp_num" 0; mk_member uint16_t "failure_flags" 0;
     mk_member uint8_t "type" 0; mk_member uint8_t "autopilot" 0; mk_member uint8_t "heading" 0;
     mk_member uint8_t "target_heading" 0; mk_member uint8_t "throttle" 0; mk_member uint8_t "airspeed" 0;
     mk_member uint8_t "airspeed_sp" 0; mk_member uint8_t "groundspeed" 0; mk_member uint8_t "windspeed" 0;
     mk_member uint8_t "wind_heading" 0; mk_member uint8_t "eph" 0; mk_member uint8_t "epv" 0;
     mk_member int8_t "temperature_air" 0; mk_member int8_t "climb_rate" 0; mk_member int8_t "battery" 0;
     mk_member int8_t "custom0" 0; mk_member int8_t "custom1" 0; mk_member int8_t "custom2" 0]
    [mk_field "timestamp" MAVLINK_TYPE_UINT32_T 0 0; mk_field "type" MAVLINK_TYPE_UINT8_T 0 24;
     mk_field "autopilot" MAVLINK_TYPE_UINT8_T 0 25; mk_field "custom_mode" MAVLINK_TYPE_UINT16_T 0 12;
     mk_field "latitude" MAVLINK_TYPE_INT32_T 0 4; mk_field "longitude" MAVLINK_TYPE_INT32_T 0 8;
     mk_field "altitude" MAVLINK_TYPE_INT16_T 0 14; mk_field "target_altitude" MAVLINK_TYPE_INT16_T 0 16;
     mk_field "heading" MAVLINK_TYPE_UINT8_T 0 26; mk_field "target_heading" MAVLINK_TYPE_UINT8_T 0 27;
     mk_field "target_distance" MAVLINK_TYPE_UINT16_T 0 18; mk_field "throttle" MAVLINK_TYPE_UINT8_T 0 28;
     mk_field "airspeed" MAVLINK_TYPE_UINT8_T 0 29; mk_field "airspeed_sp" MAVLINK_TYPE_UINT8_T 0 30;
     mk_field "groundspeed" MAVLINK_TYPE_UINT8_T 0 31; mk_field "windspeed" MAVLINK_TYPE_UINT8_T 0 32;
     mk_field "wind_heading" MAVLINK_TYPE_UINT8_T 0 33; mk_field "eph" MAVLINK_TYPE_UINT8_T 0 34;
     mk_field "epv" MAVLINK_TYPE_UINT8_T 0 35; mk_field "temperature_air" MAVLINK_TYPE_INT8_T 0 36;
     mk_field "climb_rate" MAVLINK_TYPE_INT8_T 0 37; mk_field "battery" MAVLINK_TYPE_INT8_T 0 38;
     mk_field "wp_num" MAVLINK_TYPE_UINT16_T 0 20; mk_field "failure_flags" MAVLINK_TYPE_UINT16_T 0 22;
     mk_field "custom0" MAVLINK_TYPE_INT8_T 0 39; mk_field "custom1" MAVLINK_TYPE_INT8_T 0 40;
     mk_field "custom2" MAVLINK_TYPE_INT8_T 0 41]
    [put uint32_t 0 "timestamp"; put int32_t 4 "latitude"; put int32_t 8 "longitude"; put uint16_t 12 "custom_mode";
     put int16_t 14 "altitude"; put int16_t 16 "target_altitude"; put uint16_t 18 "target_distance";
     put uint16_t 20 "wp_num"; put uint16_t 22 "failure_flags"; put uint8_t 24 "type"; put uint8_t 25 "autopilot";
     put uint8_t 26 "heading"; put uint8_t 27 "target_heading"; put uint8_t 28 "throttle"; put uint8_t 29 "airspeed";
     put uint8_t 30 "airspeed_sp"; put uint8_t 31 "groundspeed"; put uint8_t 32 "windspeed";
     put uint8_t 33 "wind_heading"; put uint8_t 34 "eph"; put uint8_t 35 "epv"; put int8_t 36 "temperature_air";
     put int8_t 37 "climb_rate"; put int8_t 38 "battery"; put int8_t 39 "custom0"; put int8_t 40 "custom1";
     put int8_t 41 "custom2"]
    [assign "timestamp" "timestamp"; assign "latitude" "latitude"; assign "longitude" "longitude";
     assign "custom_mode" "custom_mode"; assign "altitude" "altitude"; assign "target_altitude" "target_altitude";
     assign "target_distance" "target_distance"; assign "wp_num" "wp_num"; assign "failure_flags" "failure_flags";
     assign "type" "type"; assign "autopilot" "autopilot"; assign "heading" "heading";
     assign "target_heading" "target_heading"; assign "throttle" "throttle"; assign "airspeed" "airspeed";
     assign "airspeed_sp" "airspeed_sp"; assign "groundspeed" "groundspeed"; assign "windspeed" "windspeed";
     assign "wind_heading" "wind_heading"; assign "eph" "eph"; assign "epv" "epv";
     assign "temperature_air" "temperature_air"; assign "climb_rate" "climb_rate"; assign "battery" "battery";
     assign "custom0" "custom0"; assign "custom1" "custom1"; assign "custom2" "custom2"].
Definition GET_HIGH_LATENCY2 : list getter :=
    [mk_getter "timestamp" uint32_t 0 0; mk_getter "type" uint8_t 0 24; mk_getter "autopilot" uint8_t 0 25;
     mk_getter "custom_mode" uint16_t 0 12; mk_getter "latitude" int32_t 0 4; mk_getter "longitude" int32_t 0 8;
     mk_getter "altitude" int16_t 0 14; mk_getter "target_altitude" int16_t 0 16; mk_getter "heading" uint8_t 0 26;
     mk_getter "target_heading" uint8_t 0 27; mk_getter "target_distance" uint16_t 0 18;
     mk_getter "throttle" uint8_t 0 28; mk_getter "airspeed" uint8_t 0 29; mk_getter "airspeed_sp" uint8_t 0 30;
     mk_getter "groundspeed" uint8_t 0 31; mk_getter "windspeed" uint8_t 0 32; mk_getter "wind_heading" uint8_t 0 33;
     mk_getter "eph" uint8_t 0 34; mk_getter "epv" uint8_t 0 35; mk_getter "temperature_air" int8_t 0 36;
     mk_getter "climb_rate" int8_t 0 37; mk_getter "battery" int8_t 0 38; mk_getter "wp_num" uint16_t 0 20;
     mk_getter "failure_flags" uint16_t 0 22; mk_getter "custom0" int8_t 0 39; mk_getter "custom1" int8_t 0 40;
     mk_getter "custom2" int8_t 0 41].

Definition MSG_VIBRATION : mav_message :=
  mk_message 241 "VIBRATION" 32 32 90 false
    [mk_member uint64_t "time_usec" 0; mk_member float_t "vibration_x" 0; mk_member float_t "vibration_y" 0;
     mk_member float_t "vibration_z" 0; mk_member uint32_t "clipping_0" 0; mk_member uint32_t "clipping_1" 0;
     mk_member uint32_t "clipping_2" 0]
    [mk_field "time_usec" MAVLINK_TYPE_UINT64_T 0 0; mk_field "vibration_x" MAVLINK_TYPE_FLOAT 0 8;
     mk_field "vibration_y" MAVLINK_TYPE_FLOAT 0 12; mk_field "vibration_z" MAVLINK_TYPE_FLOAT 0 16;
     mk_field "clipping_0" MAVLINK_TYPE_UINT32_T 0 20; mk_field "clipping_1" MAVLINK_TYPE_UINT32_T 0 24;
     mk_field "clipping_2" MAVLINK_TYPE_UINT32_T 0 28]
    [put uint64_t 0 "time_usec"; put float_t 8 "vibration_x"; put float_t 12 "vibration_y";
     put float_t 16 "vibration_z"; put uint32_t 20 "clipping_0"; put uint32_t 24 "clipping_1";
     put uint32_t 28 "clipping_2"]
    [assign "time_usec" "time_usec"; assign "vibration_x" "vibration_x"; assign "vibration_y" "vibration_y";
     assign "vibration_z" "vibration_z"; assign "clipping_0" "clipping_0"; assign "clipping_1" "clipping_1";
     assign "clipping_2" "clipping_2"].
Definition GET_VIBRATION : list getter :=
    [mk_getter "time_usec" uint64_t 0 0; mk_getter "vibration_x" float_t 0 8; mk_getter "vibration_y" float_t 0 12;
     mk_getter "vibration_z" float_t 0 16; mk_getter "clipping_0" uint32_t 0 20; mk_getter "clipping_1" uint32_t 0 24;
     mk_getter "clipping_2" uint32_t 0 28].

Definition MSG_HOME_POSITION : mav_message :=
  mk_message 242 "HOME_POSITION" 52 60 104 true
    [mk_member int32_t "latitude" 0; mk_member int32_t "longitude" 0; mk_member int32_t "altitude" 0;
     mk_member float_t "x" 0; mk_member float_t "y" 0; mk_member float_t "z" 0; mk_member float_t "q" 4;
     mk_member float_t "approach_x" 0; mk_member float_t "approach_y" 0; mk_member float_t "approach_z" 0;
     mk_member uint64_t "time_usec" 0]
    [mk_field "latitude" MAVLINK_TYPE_INT32_T 0 0; mk_field "longitude" MAVLINK_TYPE_INT32_T 0 4;
     mk_field "altitude" MAVLINK_TYPE_INT32_T 0 8; mk_field "x" MAVLINK_TYPE_FLOAT 0 12;
     mk_field "y" MAVLINK_TYPE_FLOAT 0 16; mk_field "z" MAVLINK_TYPE_FLOAT 0 20; mk_field "q" MAVLINK_TYPE_FLOAT 4 24;
     mk_field "approach_x" MAVLINK_TYPE_FLOAT 0 40; mk_field "approach_y" MAVLINK_TYPE_FLOAT 0 44;
     mk_field "approach_z" MAVLINK_TYPE_FLOAT 0 48; mk_field "time_usec" MAVLINK_TYPE_UINT64_T 0 52]
    [put int32_t 0 "latitude"; put int32_t 4 "longitude"; put int32_t 8 "altitude"; put float_t 12 "x";
     put float_t 16 "y"; put float_t 20 "z"; put float_t 40 "approach_x"; put float_t 44 "approach_y";
     put float_t 48 "approach_z"; put uint64_t 52 "time_usec"; put_array float_t 24 "q" 4]
    [assign "latitude" "latitude"; assign "longitude" "longitude"; assign "altitude" "altitude"; assign "x" "x";
     assign "y" "y"; assign "z" "z"; assign "approach_x" "approach_x"; assign "approach_y" "approach_y";
     assign "approach_z" "approach_z"; assign "time_usec" "time_usec"; copy_array "q" "q" float_t 4].
Definition GET_HOME_POSITION : list getter :=
    [mk_getter "latitude" int32_t 0 0; mk_getter "longitude" int32_t 0 4; mk_getter "altitude" int32_t 0 8;
     mk_getter "x" float_t 0 12; mk_getter "y" float_t 0 16; mk_getter "z" float_t 0 20; mk_getter "q" float_t 4 24;
     mk_getter "approach_x" float_t 0 40; mk_getter "approach_y" float_t 0 44; mk_getter "approach_z" float_t 0 48;
     mk_getter "time_usec" uint64_t 0 52].

Definition MSG_SET_HOME_POSITION : mav_message :=
  mk_message 243 "SET_HOME_POSITION" 53 61 85 true
    [mk_member int32_t "latitude" 0; mk_member int32_t "longitude" 0; mk_member int32_t "altitude" 0;
     mk_member float_t "x" 0; mk_member float_t "y" 0; mk_member float_t "z" 0; mk_member float_t "q" 4;
     mk_member float_t "approach_x" 0; mk_member float_t "approach_y" 0; mk_member float_t "approach_z" 0;
     mk_member uint8_t "target_system" 0; mk_member uint64_t "time_usec" 0]
    [mk_field "target_system" MAVLINK_TYPE_UINT8_T 0 52; mk_field "latitude" MAVLINK_TYPE_INT32_T 0 0;
     mk_field "longitude" MAVLINK_TYPE_INT32_T 0 4; mk_field "altitude" MAVLINK_TYPE_INT32_T 0 8;
     mk_field "x" MAVLINK_TYPE_FLOAT 0 12; mk_field "y" MAVLINK_TYPE_FLOAT 0 16; mk_field "z" MAVLINK_TYPE_FLOAT 0 20;
     mk_field "q" MAVLINK_TYPE_FLOAT 4 24; mk_field "approach_x" MAVLINK_TYPE_FLOAT 0 40;
     mk_field "approach_y" MAVLINK_TYPE_FLOAT 0 44; mk_field "approach_z" MAVLINK_TYPE_FLOAT 0 48;
     mk_field "time_usec" MAVLINK_TYPE_UINT64_T 0 53]
    [put int32_t 0 "latitude"; put int32_t 4 "longitude"; put int32_t 8 "altitude"; put float_t 12 "x";
     put float_t 16 "y"; put float_t 20 "z"; put float_t 40 "approach_x"; put float_t 44 "approach_y";
     put float_t 48 "approach_z"; put uint8_t 52 "target_system"; put uint64_t 53 "time_usec";
     put_array float_t 24 "q" 4]
    [assign "latitude" "latitude"; assign "longitude" "longitude"; assign "altitude" "altitude"; assign "x" "x";
     assign "y" "y"; assign "z" "z"; assign "approach_x" "approach_x"; assign "approach_y" "approach_y";
     assign "approach_z" "approach_z"; assign "target_system" "target_system"; assign "time_usec" "time_usec";
     copy_array "q" "q" float_t 4].
Definition GET_SET_HOME_POSITION : list getter :=
    [mk_getter "target_system" uint8_t 0 52; mk_getter "latitude" int32_t 0 0; mk_getter "longitude" int32_t 0 4;
     mk_getter "altitude" int32_t 0 8; mk_getter "x" float_t 0 12; mk_getter "y" float_t 0 16;
     mk_getter "z" float_t 0 20; mk_getter "q" float_t 4 24; mk_getter "approach_x" float_t 0 40;
     mk_getter "approach_y" float_t 0 44; mk_getter "approach_z" float_t 0 48; mk_getter "time_usec" uint64_t 0 53].

Definition MSG_MESSAGE_INTERVAL : mav_message :=
  mk_message 244 "MESSAGE_INTERVAL" 6 6 95 false
    [mk_member int32_t "interval_us" 0; mk_member uint16_t "message_id" 0]
    [mk_field "message_id" MAVLINK_TYPE_UINT16_T 0 4; mk_field "interval_us" MAVLINK_TYPE_INT32_T 0 0]
    [put int32_t 0 "interval_us"; put uint16_t 4 "message_id"]
    [assign "interval_us" "interval_us"; assign "message_id" "message_id"].
Definition GET_MESSAGE_INTERVAL : list getter :=
    [mk_getter "message_id" uint16_t 0 4; mk_getter "interval_us" int32_t 0 0].

Definition MSG_EXTENDED_SYS_STATE : mav_message :=
  mk_message 245 "EXTENDED_SYS_STATE" 2 2 130 false
    [mk_member uint8_t "vtol_state" 0; mk_member uint8_t "landed_state" 0]
    [mk_field "vtol_state" MAVLINK_TYPE_UINT8_T 0 0; mk_field "landed_state" MAVLINK_TYPE_UINT8_T 0 1]
    [put uint8_t 0 "vtol_state"; put uint8_t 1 "landed_state"]
    [assign "vtol_state" "vtol_state"; assign "landed_state" "landed_state"].
Definition GET_EXTENDED_SYS_STATE : list getter :=
    [mk_getter "vtol_state" uint8_t 0 0; mk_getter "landed_state" uint8_t 0 1].

Definition MSG_ADSB_VEHICLE : mav_message :=
  mk_message 246 "ADSB_VEHICLE" 38 38 184 false
    [mk_member uint32_t "ICAO_address" 0; mk_member int32_t "lat" 0; mk_member int32_t "lon" 0;
     mk_member int32_t "altitude" 0; mk_member uint16_t "heading" 0; mk_member uint16_t "hor_velocity" 0;
     mk_member int16_t "ver_velocity" 0; mk_member uint16_t "flags" 0; mk_member uint16_t "squawk" 0;
     mk_member uint8_t "altitude_type" 0; mk_member char_t "callsign" 9; mk_member uint8_t "emitter_type" 0;
     mk_member uint8_t "tslc" 0]
    [mk_field "ICAO_address" MAVLINK_TYPE_UINT32_T 0 0; mk_field "lat" MAVLINK_TYPE_INT32_T 0 4;
     mk_field "lon" MAVLINK_TYPE_INT32_T 0 8; mk_field "altitude_type" MAVLINK_TYPE_UINT8_T 0 26;
     mk_field "altitude" MAVLINK_TYPE_INT32_T 0 12; mk_field "heading" MAVLINK_TYPE_UINT16_T 0 16;
     mk_field "hor_velocity" MAVLINK_TYPE_UINT16_T 0 18; mk_field "ver_velocity" MAVLINK_TYPE_INT16_T 0 20;
     mk_field "callsign" MAVLINK_TYPE_CHAR 9 27; mk_field "emitter_type" MAVLINK_TYPE_UINT8_T 0 36;
     mk_field "tslc" MAVLINK_TYPE_UINT8_T 0 37; mk_field "flags" MAVLINK_TYPE_UINT16_T 0 22;
     mk_field "squawk" MAVLINK_TYPE_UINT16_T 0 24]
    [put uint32_t 0 "ICAO_address"; put int32_t 4 "lat"; put int32_t 8 "lon"; put int32_t 12 "altitude";
     put uint16_t 16 "heading"; put uint16_t 18 "hor_velocity"; put int16_t 20 "ver_velocity";
     put uint16_t 22 "flags"; put uint16_t 24 "squawk"; put uint8_t 26 "altitude_type"; put uint8_t 36 "emitter_type";
     put uint8_t 37 "tslc"; put_array char_t 27 "callsign" 9]
    [assign "ICAO_address" "ICAO_address"; assign "lat" "lat"; assign "lon" "lon"; assign "altitude" "altitude";
     assign "heading" "heading"; assign "hor_velocity" "hor_velocity"; assign "ver_velocity" "ver_velocity";
     assign "flags" "flags"; assign "squawk" "squawk"; assign "altitude_type" "altitude_type";
     assign "emitter_type" "emitter_type"; assign "tslc" "tslc"; copy_array "callsign" "callsign" char_t 9].
Definition GET_ADSB_VEHICLE : list getter :=
    [mk_getter "ICAO_address" uint32_t 0 0; mk_getter "lat" int32_t 0 4; mk_getter "lon" int32_t 0 8;
     mk_getter "altitude_type" uint8_t 0 26; mk_getter "altitude" int32_t 0 12; mk_getter "heading" uint16_t 0 16;
     mk_getter "hor_velocity" uint16_t 0 18; mk_getter "ver_velocity" int16_t 0 20; mk_getter "callsign" char_t 9 27;
     mk_getter "emitter_type" uint8_t 0 36; mk_getter "tslc" uint8_t 0 37; mk_getter "flags" uint16_t 0 22;
     mk_getter "squawk" uint16_t 0 24].

Definition MSG_COLLISION : mav_message :=
  mk_message 247 "COLLISION" 19 19 81 false
    [mk_member uint32_t "id" 0; mk_member float_t "time_to_minimum_delta" 0;
     mk_member float_t "altitude_minimum_delta" 0; mk_member float_t "horizontal_minimum_delta" 0;
     mk_member uint8_t "src" 0; mk_member uint8_t "action" 0; mk_member uint8_t "threat_level" 0]
    [mk_field "src" MAVLINK_TYPE_UINT8_T 0 16; mk_field "id" MAVLINK_TYPE_UINT32_T 0 0;
     mk_field "action" MAVLINK_TYPE_UINT8_T 0 17; mk_field "threat_level" MAVLINK_TYPE_UINT8_T 0 18;
     mk_field "time_to_minimum_delta" MAVLINK_TYPE_FLOAT 0 4;
     mk_field "altitude_minimum_delta" MAVLINK_TYPE_FLOAT 0 8;
     mk_field "horizontal_minimum_delta" MAVLINK_TYPE_FLOAT 0 12]
    [put uint32_t 0 "id"; put float_t 4 "time_to_minimum_delta"; put float_t 8 "altitude_minimum_delta";
     put float_t 12 "horizontal_minimum_delta"; put uint8_t 16 "src"; put uint8_t 17 "action";
     put uint8_t 18 "threat_level"]
    [assign "id" "id"; assign "time_to_minimum_delta" "time_to_minimum_delta";
     assign "altitude_minimum_delta" "altitude_minimum_delta";
     assign "horizontal_minimum_delta" "horizontal_minimum_delta"; assign "src" "src"; assign "action" "action";
     assign "threat_level" "threat_level"].
Definition GET_COLLISION : list getter :=
    [mk_getter "src" uint8_t 0 16; mk_getter "id" uint32_t 0 0; mk_getter "action" uint8_t 0 17;
     mk_getter "threat_level" uint8_t 0 18; mk_getter "time_to_minimum_delta" float_t 0 4;
     mk_getter "altitude_minimum_delta" float_t 0 8; mk_getter "horizontal_minimum_delta" float_t 0 12].

Definition MSG_V2_EXTENSION : mav_message :=
  mk_message 248 "V2_EXTENSION" 254 254 8 false
    [mk_member uint16_t "message_type" 0; mk_member uint8_t "target_network" 0; mk_member uint8_t "target_system" 0;
     mk_member uint8_t "target_component" 0; mk_member uint8_t "payload" 249]
    [mk_field "target_network" MAVLINK_TYPE_UINT8_T 0 2; mk_field "target_system" MAVLINK_TYPE_UINT8_T 0 3;
     mk_field "target_component" MAVLINK_TYPE_UINT8_T 0 4; mk_field "message_type" MAVLINK_TYPE_UINT16_T 0 0;
     mk_field "payload" MAVLINK_TYPE_UINT8_T 249 5]
    [put uint16_t 0 "message_type"; put uint8_t 2 "target_network"; put uint8_t 3 "target_system";
     put uint8_t 4 "target_component"; put_array uint8_t 5 "payload" 249]
    [assign "message_type" "message_type"; assign "target_network" "target_network";
     assign "target_system" "target_system"; assign "target_component" "target_component";
     copy_array "payload" "payload" uint8_t 249].
Definition GET_V2_EXTENSION : list getter :=
    [mk_getter "target_network" uint8_t 0 2; mk_getter "target_system" uint8_t 0 3;
     mk_getter "target_component" uint8_t 0 4; mk_getter "message_type" uint16_t 0 0;
     mk_getter "payload" uint8_t 249 5].

Definition MSG_MEMORY_VECT : mav_message :=
  mk_message 249 "MEMORY_VECT" 36 36 204 false
    [mk_member uint16_t "address" 0; mk_member uint8_t "ver" 0; mk_member uint8_t "type" 0;
     mk_member int8_t "value" 32]
    [mk_field "address" MAVLINK_TYPE_UINT16_T 0 0; mk_field "ver" MAVLINK_TYPE_UINT8_T 0 2;
     mk_field "type" MAVLINK_TYPE_UINT8_T 0 3; mk_field "value" MAVLINK_TYPE_INT8_T 32 4]
    [put uint16_t 0 "address"; put uint8_t 2 "ver"; put uint8_t 3 "type"; put_array int8_t 4 "value" 32]
    [assign "address" "address"; assign "ver" "ver"; assign "type" "type"; copy_array "value" "value" int8_t 32].
Definition GET_MEMORY_VECT : list getter :=
    [mk_getter "address" uint16_t 0 0; mk_getter "ver" uint8_t 0 2; mk_getter "type" uint8_t 0 3;
     mk_getter "value" int8_t 32 4].

Definition MSG_DEBUG_VECT : mav_message :=
  mk_message 250 "DEBUG_VECT" 30 30 49 false
    [mk_member uint64_t "time_usec" 0; mk_member float_t "x" 0; mk_member float_t "y" 0; mk_member float_t "z" 0;
     mk_member char_t "name" 10]
    [mk_field "name" MAVLINK_TYPE_CHAR 10 20; mk_field "time_usec" MAVLINK_TYPE_UINT64_T 0 0;
     mk_field "x" MAVLINK_TYPE_FLOAT 0 8; mk_field "y" MAVLINK_TYPE_FLOAT 0 12; mk_field "z" MAVLINK_TYPE_FLOAT 0 16]
    [put uint64_t 0 "time_usec"; put float_t 8 "x"; put float_t 12 "y"; put float_t 16 "z";
     put_array char_t 20 "name" 10]
    [assign "time_usec" "time_usec"; assign "x" "x"; assign "y" "y"; assign "z" "z";
     copy_array "name" "name" char_t 10].
Definition GET_DEBUG_VECT : list getter :=
    [mk_getter "name" char_t 10 20; mk_getter "time_usec" uint64_t 0 0; mk_getter "x" float_t 0 8;
     mk_getter "y" float_t 0 12; mk_getter "z" float_t 0 16].

Definition MSG_NAMED_VALUE_FLOAT : mav_message :=
  mk_message 251 "NAMED_VALUE_FLOAT" 18 18 170 false
    [mk_member uint32_t "time_boot_ms" 0; mk_member float_t "value" 0; mk_member char_t "name" 10]
    [mk_field "time_boot_ms" MAVLINK_TYPE_UINT32_T 0 0; mk_field "name" MAVLINK_TYPE_CHAR 10 8;
     mk_field "value" MAVLINK_TYPE_FLOAT 0 4]
    [put uint32_t 0 "time_boot_ms"; put float_t 4 "value"; put_array char_t 8 "name" 10]
    [assign "time_boot_ms" "time_boot_ms"; assign "value" "value"; copy_array "name" "name" char_t 10].
Definition GET_NAMED_VALUE_FLOAT : list getter :=
    [mk_getter "time_boot_ms" uint32_t 0 0; mk_getter "name" char_t 10 8; mk_getter "value" float_t 0 4].

Definition MSG_NAMED_VALUE_INT : mav_message :=
  mk_message 252 "NAMED_VALUE_INT" 18 18 44 false
    [mk_member uint32_t "time_boot_ms" 0; mk_member int32_t "value" 0; mk_member char_t "name" 10]
    [mk_field "time_boot_ms" MAVLINK_TYPE_UINT32_T 0 0; mk_field "name" MAVLINK_TYPE_CHAR 10 8;
     mk_field "value" MAVLINK_TYPE_INT32_T 0 4]
    [put uint32_t 0 "time_boot_ms"; put int32_t 4 "value"; put_array char_t 8 "name" 10]
    [assign "time_boot_ms" "time_boot_ms"; assign "value" "value"; copy_array "name" "name" char_t 10].
Definition GET_NAMED_VALUE_INT : list getter :=
    [mk_getter "time_boot_ms" uint32_t 0 0; mk_getter "name" char_t 10 8; mk_getter "value" int32_t 0 4].

Definition MSG_STATUSTEXT : mav_message :=
  mk_message 253 "STATUSTEXT" 51 54 83 true
    [mk_member uint8_t "severity" 0; mk_member char_t "text" 50; mk_member uint16_t "id" 0;
     mk_member uint8_t "chunk_seq" 0]
    [mk_field "severity" MAVLINK_TYPE_UINT8_T 0 0; mk_field "text" MAVLINK_TYPE_CHAR 50 1;
     mk_field "id" MAVLINK_TYPE_UINT16_T 0 51; mk_field "chunk_seq" MAVLINK_TYPE_UINT8_T 0 53]
    [put uint8_t 0 "severity"; put uint16_t 51 "id"; put uint8_t 53 "chunk_seq"; put_array char_t 1 "text" 50]
    [assign "severity" "severity"; assign "id" "id"; assign "chunk_seq" "chunk_seq";
     copy_array "text" "text" char_t 50].
Definition GET_STATUSTEXT : list getter :=
    [mk_getter "severity" uint8_t 0 0; mk_getter "text" char_t 50 1; mk_getter "id" uint16_t 0 51;
     mk_getter "chunk_seq" uint8_t 0 53].

Definition MSG_DEBUG : mav_message :=
  mk_message 254 "DEBUG" 9 9 46 false
    [mk_member uint32_t "time_boot_ms" 0; mk_member float_t "value" 0; mk_member uint8_t "ind" 0]
    [mk_field "time_boot_ms" MAVLINK_TYPE_UINT32_T 0 0; mk_field "ind" MAVLINK_TYPE_UINT8_T 0 8;
     mk_field "value" MAVLINK_TYPE_FLOAT 0 4]
    [put uint32_t 0 "time_boot_ms"; put float_t 4 "value"; put uint8_t 8 "ind"]
    [assign "time_boot_ms" "time_boot_ms"; assign "value" "value"; assign "ind" "ind"].
Definition GET_DEBUG : list getter :=
    [mk_getter "time_boot_ms" uint32_t 0 0; mk_getter "ind" uint8_t 0 8; mk_getter "value" float_t 0 4].

Definition MSG_SETUP_SIGNING : mav_message :=
  mk_message 256 "SETUP_SIGNING" 42 42 71 false
    [mk_member uint64_t "initial_timestamp" 0; mk_member uint8_t "target_system" 0;
     mk_member uint8_t "target_component" 0; mk_member uint8_t "secret_key" 32]
    [mk_field "target_system" MAVLINK_TYPE_UINT8_T 0 8; mk_field "target_component" MAVLINK_TYPE_UINT8_T 0 9;
     mk_field "secret_key" MAVLINK_TYPE_UINT8_T 32 10; mk_field "initial_timestamp" MAVLINK_TYPE_UINT64_T 0 0]
    [put uint64_t 0 "initial_timestamp"; put uint8_t 8 "target_system"; put uint8_t 9 "target_component";
     put_array uint8_t 10 "secret_key" 32]
    [assign "initial_timestamp" "initial_timestamp"; assign "target_system" "target_system";
     assign "target_component" "target_component"; copy_array "secret_key" "secret_key" uint8_t 32].
Definition GET_SETUP_SIGNING : list getter :=
    [mk_getter "target_system" uint8_t 0 8; mk_getter "target_component" uint8_t 0 9;
     mk_getter "secret_key" uint8_t 32 10; mk_getter "initial_timestamp" uint64_t 0 0].

Definition MSG_BUTTON_CHANGE : mav_message :=
  mk_message 257 "BUTTON_CHANGE" 9 9 131 false
    [mk_member uint32_t "time_boot_ms" 0; mk_member uint32_t "last_change_ms" 0; mk_member uint8_t "state" 0]
    [mk_field "time_boot_ms" MAVLINK_TYPE_UINT32_T 0 0; mk_field "last_change_ms" MAVLINK_TYPE_UINT32_T 0 4;
     mk_field "state" MAVLINK_TYPE_UINT8_T 0 8]
    [put uint32_t 0 "time_boot_ms"; put uint32_t 4 "last_change_ms"; put uint8_t 8 "state"]
    [assign "time_boot_ms" "time_boot_ms"; assign "last_change_ms" "last_change_ms"; assign "state" "state"].
Definition GET_BUTTON_CHANGE : list getter :=
    [mk_getter "time_boot_ms" uint32_t 0 0; mk_getter "last_change_ms" uint32_t 0 4; mk_getter "state" uint8_t 0 8].

Definition MSG_PLAY_TUNE : mav_message :=
  mk_message 258 "PLAY_TUNE" 32 232 187 false
    [mk_member uint8_t "target_system" 0; mk_member uint8_t "target_component" 0; mk_member char_t "tune" 30;
     mk_member char_t "tune2" 200]
    [mk_field "target_system" MAVLINK_TYPE_UINT8_T 0 0; mk_field "target_component" MAVLINK_TYPE_UINT8_T 0 1;
     mk_field "tune" MAVLINK_TYPE_CHAR 30 2; mk_field "tune2" MAVLINK_TYPE_CHAR 200 32]
    [put uint8_t 0 "target_system"; put uint8_t 1 "target_component"; put_array char_t 2 "tune" 30;
     put_array char_t 32 "tune2" 200]
    [assign "target_system" "target_system"; assign "target_component" "target_component";
     copy_array "tune" "tune" char_t 30; copy_array "tune2" "tune2" char_t 200].
Definition GET_PLAY_TUNE : list getter :=
    [mk_getter "target_system" uint8_t 0 0; mk_getter "target_component" uint8_t 0 1; mk_getter "tune" char_t 30 2;
     mk_getter "tune2" char_t 200 32].

Definition MSG_CAMERA_INFORMATION : mav_message :=
  mk_message 259 "CAMERA_INFORMATION" 235 237 92 false
    [mk_member uint32_t "time_boot_ms" 0; mk_member uint32_t "firmware_version" 0; mk_member float_t "focal_length" 0;
     mk_member float_t "sensor_size_h" 0; mk_member float_t "sensor_size_v" 0; mk_member uint32_t "flags" 0;
     mk_member uint16_t "resolution_h" 0; mk_member uint16_t "resolution_v" 0;
     mk_member uint16_t "cam_definition_version" 0; mk_member uint8_t "vendor_name" 32;
     mk_member uint8_t "model_name" 32; mk_member uint8_t "lens_id" 0; mk_member char_t "cam_definition_uri" 140;
     mk_member uint8_t "gimbal_device_id" 0; mk_member uint8_t "camera_device_id" 0]
    [mk_field "time_boot_ms" MAVLINK_TYPE_UINT32_T 0 0; mk_field "vendor_name" MAVLINK_TYPE_UINT8_T 32 30;
     mk_field "model_name" MAVLINK_TYPE_UINT8_T 32 62; mk_field "firmware_version" MAVLINK_TYPE_UINT32_T 0 4;
     mk_field "focal_length" MAVLINK_TYPE_FLOAT 0 8; mk_field "sensor_size_h" MAVLINK_TYPE_FLOAT 0 12;
     mk_field "sensor_size_v" MAVLINK_TYPE_FLOAT 0 16; mk_field "resolution_h" MAVLINK_TYPE_UINT16_T 0 24;
     mk_field "resolution_v" MAVLINK_TYPE_UINT16_T 0 26; mk_field "lens_id" MAVLINK_TYPE_UINT8_T 0 94;
     mk_field "flags" MAVLINK_TYPE_UINT32_T 0 20; mk_field "cam_definition_version" MAVLINK_TYPE_UINT16_T 0 28;
     mk_field "cam_definition_uri" MAVLINK_TYPE_CHAR 140 95; mk_field "gimbal_device_id" MAVLINK_TYPE_UINT8_T 0 235;
     mk_field "camera_device_id" MAVLINK_TYPE_UINT8_T 0 236]
    [put uint32_t 0 "time_boot_ms"; put uint32_t 4 "firmware_version"; put float_t 8 "focal_length";
     put float_t 12 "sensor_size_h"; put float_t 16 "sensor_size_v"; put uint32_t 20 "flags";
     put uint16_t 24 "resolution_h"; put uint16_t 26 "resolution_v"; put uint16_t 28 "cam_definition_version";
     put uint8_t 94 "lens_id"; put uint8_t 235 "gimbal_device_id"; put uint8_t 236 "camera_device_id";
     put_array uint8_t 30 "vendor_name" 32; put_array uint8_t 62 "model_name" 32;
     put_array char_t 95 "cam_definition_uri" 140]
    [assign "time_boot_ms" "time_boot_ms"; assign "firmware_version" "firmware_version";
     assign "focal_length" "focal_length"; assign "sensor_size_h" "sensor_size_h";
     assign "sensor_size_v" "sensor_size_v"; assign "flags" "flags"; assign "resolution_h" "resolution_h";
     assign "resolution_v" "resolution_v"; assign "cam_definition_version" "cam_definition_version";
     assign "lens_id" "lens_id"; assign "gimbal_device_id" "gimbal_device_id";
     assign "camera_device_id" "camera_device_id"; copy_array "vendor_name" "vendor_name" uint8_t 32;
     copy_array "model_name" "model_name" uint8_t 32; copy_array "cam_definition_uri" "cam_definition_uri" char_t 140].
Definition GET_CAMERA_INFORMATION : list getter :=
    [mk_getter "time_boot_ms" uint32_t 0 0; mk_getter "vendor_name" uint8_t 32 30;
     mk_getter "model_name" uint8_t 32 62; mk_getter "firmware_version" uint32_t 0 4;
     mk_getter "focal_length" float_t 0 8; mk_getter "sensor_size_h" float_t 0 12;
     mk_getter "sensor_size_v" float_t 0 16; mk_getter "resolution_h" uint16_t 0 24;
     mk_getter "resolution_v" uint16_t 0 26; mk_getter "lens_id" uint8_t 0 94; mk_getter "flags" uint32_t 0 20;
     mk_getter "cam_definition_version" uint16_t 0 28; mk_getter "cam_definition_uri" char_t 140 95;
     mk_getter "gimbal_device_id" uint8_t 0 235; mk_getter "camera_device_id" uint8_t 0 236].

Definition MSG_CAMERA_SETTINGS : mav_message :=
  mk_message 260 "CAMERA_SETTINGS" 5 14 146 true
    [mk_member uint32_t "time_boot_ms" 0; mk_member uint8_t "mode_id" 0; mk_member float_t "zoomLevel" 0;
     mk_member float_t "focusLevel" 0; mk_member uint8_t "camera_device_id" 0]
    [mk_field "time_boot_ms" MAVLINK_TYPE_UINT32_T 0 0; mk_field "mode_id" MAVLINK_TYPE_UINT8_T 0 4;
     mk_field "zoomLevel" MAVLINK_TYPE_FLOAT 0 5; mk_field "focusLevel" MAVLINK_TYPE_FLOAT 0 9;
     mk_field "camera_device_id" MAVLINK_TYPE_UINT8_T 0 13]
    [put uint32_t 0 "time_boot_ms"; put uint8_t 4 "mode_id"; put float_t 5 "zoomLevel"; put float_t 9 "focusLevel";
     put uint8_t 13 "camera_device_id"]
    [assign "time_boot_ms" "time_boot_ms"; assign "mode_id" "mode_id"; assign "zoomLevel" "zoomLevel";
     assign "focusLevel" "focusLevel"; assign "camera_device_id" "camera_device_id"].
Definition GET_CAMERA_SETTINGS : list getter :=
    [mk_getter "time_boot_ms" uint32_t 0 0; mk_getter "mode_id" uint8_t 0 4; mk_getter "zoomLevel" float_t 0 5;
     mk_getter "focusLevel" float_t 0 9; mk_getter "camera_device_id" uint8_t 0 13].

Definition MSG_STORAGE_INFORMATION : mav_message :=
  mk_message 261 "STORAGE_INFORMATION" 27 61 179 false
    [mk_member uint32_t "time_boot_ms" 0; mk_member float_t "total_capacity" 0; mk_member float_t "used_capacity" 0;
     mk_member float_t "available_capacity" 0; mk_member float_t "read_speed" 0; mk_member float_t "write_speed" 0;
     mk_member uint8_t "storage_id" 0; mk_member uint8_t "storage_count" 0; mk_member uint8_t "status" 0;
     mk_member uint8_t "type" 0; mk_member char_t "name" 32; mk_member uint8_t "storage_usage" 0]
    [mk_field "time_boot_ms" MAVLINK_TYPE_UINT32_T 0 0; mk_field "storage_id" MAVLINK_TYPE_UINT8_T 0 24;
     mk_field "storage_count" MAVLINK_TYPE_UINT8_T 0 25; mk_field "status" MAVLINK_TYPE_UINT8_T 0 26;
     mk_field "total_capacity" MAVLINK_TYPE_FLOAT 0 4; mk_field "used_capacity" MAVLINK_TYPE_FLOAT 0 8;
     mk_field "available_capacity" MAVLINK_TYPE_FLOAT 0 12; mk_field "read_speed" MAVLINK_TYPE_FLOAT 0 16;
     mk_field "write_speed" MAVLINK_TYPE_FLOAT 0 20; mk_field "type" MAVLINK_TYPE_UINT8_T 0 27;
     mk_field "name" MAVLINK_TYPE_CHAR 32 28; mk_field "storage_usage" MAVLINK_TYPE_UINT8_T 0 60]
    [put uint32_t 0 "time_boot_ms"; put float_t 4 "total_capacity"; put float_t 8 "used_capacity";
     put float_t 12 "available_capacity"; put float_t 16 "read_speed"; put float_t 20 "write_speed";
     put uint8_t 24 "storage_id"; put uint8_t 25 "storage_count"; put uint8_t 26 "status"; put uint8_t 27 "type";
     put uint8_t 60 "storage_usage"; put_array char_t 28 "name" 32]
    [assign "time_boot_ms" "time_boot_ms"; assign "total_capacity" "total_capacity";
     assign "used_capacity" "used_capacity"; assign "available_capacity" "available_capacity";
     assign "read_speed" "read_speed"; assign "write_speed" "write_speed"; assign "storage_id" "storage_id";
     assign "storage_count" "storage_count"; assign "status" "status"; assign "type" "type";
     assign "storage_usage" "storage_usage"; copy_array "name" "name" char_t 32].
Definition GET_STORAGE_INFORMATION : list getter :=
    [mk_getter "time_boot_ms" uint32_t 0 0; mk_getter "storage_id" uint8_t 0 24;
     mk_getter "storage_count" uint8_t 0 25; mk_getter "status" uint8_t 0 26; mk_getter "total_capacity" float_t 0 4;
     mk_getter "used_capacity" float_t 0 8; mk_getter "available_capacity" float_t 0 12;
     mk_getter "read_speed" float_t 0 16; mk_getter "write_speed" float_t 0 20; mk_getter "type" uint8_t 0 27;
     mk_getter "name" char_t 32 28; mk_getter "storage_usage" uint8_t 0 60].

Definition MSG_CAMERA_CAPTURE_STATUS : mav_message :=
  mk_message 262 "CAMERA_CAPTURE_STATUS" 18 23 12 true
    [mk_member uint32_t "time_boot_ms" 0; mk_member float_t "image_interval" 0;
     mk_member uint32_t "recording_time_ms" 0; mk_member float_t "available_capacity" 0;
     mk_member uint8_t "image_status" 0; mk_member uint8_t "video_status" 0; mk_member int32_t "image_count" 0;
     mk_member uint8_t "camera_device_id" 0]
    [mk_field "time_boot_ms" MAVLINK_TYPE_UINT32_T 0 0; mk_field "image_status" MAVLINK_TYPE_UINT8_T 0 16;
     mk_field "video_status" MAVLINK_TYPE_UINT8_T 0 17; mk_field "image_interval" MAVLINK_TYPE_FLOAT 0 4;
     mk_field "recording_time_ms" MAVLINK_TYPE_UINT32_T 0 8; mk_field "available_capacity" MAVLINK_TYPE_FLOAT 0 12;
     mk_field "image_count" MAVLINK_TYPE_INT32_T 0 18; mk_field "camera_device_id" MAVLINK_TYPE_UINT8_T 0 22]
    [put uint32_t 0 "time_boot_ms"; put float_t 4 "image_interval"; put uint32_t 8 "recording_time_ms";
     put float_t 12 "available_capacity"; put uint8_t 16 "image_status"; put uint8_t 17 "video_status";
     put int32_t 18 "image_count"; put uint8_t 22 "camera_device_id"]
    [assign "time_boot_ms" "time_boot_ms"; assign "image_interval" "image_interval";
     assign "recording_time_ms" "recording_time_ms"; assign "available_capacity" "available_capacity";
     assign "image_status" "image_status"; assign "video_status" "video_status"; assign "image_count" "image_count";
     assign "camera_device_id" "camera_device_id"].
Definition GET_CAMERA_CAPTURE_STATUS : list getter :=
    [mk_getter "time_boot_ms" uint32_t 0 0; mk_getter "image_status" uint8_t 0 16;
     mk_getter "video_status" uint8_t 0 17; mk_getter "image_interval" float_t 0 4;
     mk_getter "recording_time_ms" uint32_t 0 8; mk_getter "available_capacity" float_t 0 12;
     mk_getter "image_count" int32_t 0 18; mk_getter "camera_device_id" uint8_t 0 22].

Definition MSG_CAMERA_IMAGE_CAPTURED : mav_message :=
  mk_message 263 "CAMERA_IMAGE_CAPTURED" 255 255 133 false
    [mk_member uint64_t "time_utc" 0; mk_member uint32_t "time_boot_ms" 0; mk_member int32_t "lat" 0;
     mk_member int32_t "lon" 0; mk_member int32_t "alt" 0; mk_member int32_t "relative_alt" 0;
     mk_member float_t "q" 4; mk_member int32_t "image_index" 0; mk_member uint8_t "camera_id" 0;
     mk_member int8_t "capture_result" 0; mk_member char_t "file_url" 205]
    [mk_field "time_boot_ms" MAVLINK_TYPE_UINT32_T 0 8; mk_field "time_utc" MAVLINK_TYPE_UINT64_T 0 0;
     mk_field "camera_id" MAVLINK_TYPE_UINT8_T 0 48; mk_field "lat" MAVLINK_TYPE_INT32_T 0 12;
     mk_field "lon" MAVLINK_TYPE_INT32_T 0 16; mk_field "alt" MAVLINK_TYPE_INT32_T 0 20;
     mk_field "relative_alt" MAVLINK_TYPE_INT32_T 0 24; mk_field "q" MAVLINK_TYPE_FLOAT 4 28;
     mk_field "image_index" MAVLINK_TYPE_INT32_T 0 44; mk_field "capture_result" MAVLINK_TYPE_INT8_T 0 49;
     mk_field "file_url" MAVLINK_TYPE_CHAR 205 50]
    [put uint64_t 0 "time_utc"; put uint32_t 8 "time_boot_ms"; put int32_t 12 "lat"; put int32_t 16 "lon";
     put int32_t 20 "alt"; put int32_t 24 "relative_alt"; put int32_t 44 "image_index"; put uint8_t 48 "camera_id";
     put int8_t 49 "capture_result"; put_array float_t 28 "q" 4; put_array char_t 50 "file_url" 205]
    [assign "time_utc" "time_utc"; assign "time_boot_ms" "time_boot_ms"; assign "lat" "lat"; assign "lon" "lon";
     assign "alt" "alt"; assign "relative_alt" "relative_alt"; assign "image_index" "image_index";
     assign "camera_id" "camera_id"; assign "capture_result" "capture_result"; copy_array "q" "q" float_t 4;
     copy_array "file_url" "file_url" char_t 205].
Definition GET_CAMERA_IMAGE_CAPTURED : list getter :=
    [mk_getter "time_boot_ms" uint32_t 0 8; mk_getter "time_utc" uint64_t 0 0; mk_getter "camera_id" uint8_t 0 48;
     mk_getter "lat" int32_t 0 12; mk_getter "lon" int32_t 0 16; mk_getter "alt" int32_t 0 20;
     mk_getter "relative_alt" int32_t 0 24; mk_getter "q" float_t 4 28; mk_getter "image_index" int32_t 0 44;
     mk_getter "capture_result" int8_t 0 49; mk_getter "file_url" char_t 205 50].

Definition MSG_FLIGHT_INFORMATION : mav_message :=
  mk_message 264 "FLIGHT_INFORMATION" 28 32 49 false
    [mk_member uint64_t "arming_time_utc" 0; mk_member uint64_t "takeoff_time_utc" 0;
     mk_member uint64_t "flight_uuid" 0; mk_member uint32_t "time_boot_ms" 0; mk_member uint32_t "landing_time" 0]
    [mk_field "time_boot_ms" MAVLINK_TYPE_UINT32_T 0 24; mk_field "arming_time_utc" MAVLINK_TYPE_UINT64_T 0 0;
     mk_field "takeoff_time_utc" MAVLINK_TYPE_UINT64_T 0 8; mk_field "flight_uuid" MAVLINK_TYPE_UINT64_T 0 16;
     mk_field "landing_time" MAVLINK_TYPE_UINT32_T 0 28]
    [put uint64_t 0 "arming_time_utc"; put uint64_t 8 "takeoff_time_utc"; put uint64_t 16 "flight_uuid";
     put uint32_t 24 "time_boot_ms"; put uint32_t 28 "landing_time"]
    [assign "arming_time_utc" "arming_time_utc"; assign "takeoff_time_utc" "takeoff_time_utc";
     assign "flight_uuid" "flight_uuid"; assign "time_boot_ms" "time_boot_ms"; assign "landing_time" "landing_time"].
Definition GET_FLIGHT_INFORMATION : list getter :=
    [mk_getter "time_boot_ms" uint32_t 0 24; mk_getter "arming_time_utc" uint64_t 0 0;
     mk_getter "takeoff_time_utc" uint64_t 0 8; mk_getter "flight_uuid" uint64_t 0 16;
     mk_getter "landing_time" uint32_t 0 28].

Definition MSG_MOUNT_ORIENTATION : mav_message :=
  mk_message 265 "MOUNT_ORIENTATION" 16 20 26 false
    [mk_member uint32_t "time_boot_ms" 0; mk_member float_t "roll" 0; mk_member float_t "pitch" 0;
     mk_member float_t "yaw" 0; mk_member float_t "yaw_absolute" 0]
    [mk_field "time_boot_ms" MAVLINK_TYPE_UINT32_T 0 0; mk_field "roll" MAVLINK_TYPE_FLOAT 0 4;
     mk_field "pitch" MAVLINK_TYPE_FLOAT 0 8; mk_field "yaw" MAVLINK_TYPE_FLOAT 0 12;
     mk_field "yaw_absolute" MAVLINK_TYPE_FLOAT 0 16]
    [put uint32_t 0 "time_boot_ms"; put float_t 4 "roll"; put float_t 8 "pitch"; put float_t 12 "yaw";
     put float_t 16 "yaw_absolute"]
    [assign "time_boot_ms" "time_boot_ms"; assign "roll" "roll"; assign "pitch" "pitch"; assign "yaw" "yaw";
     assign "yaw_absolute" "yaw_absolute"].
Definition GET_MOUNT_ORIENTATION : list getter :=
    [mk_getter "time_boot_ms" uint32_t 0 0; mk_getter "roll" float_t 0 4; mk_getter "pitch" float_t 0 8;
     mk_getter "yaw" float_t 0 12; mk_getter "yaw_absolute" float_t 0 16].

Definition MSG_LOGGING_DATA : mav_message :=
  mk_message 266 "LOGGING_DATA" 255 255 193 false
    [mk_member uint16_t "sequence" 0; mk_member uint8_t "target_system" 0; mk_member uint8_t "target_component" 0;
     mk_member uint8_t "length" 0; mk_member uint8_t "first_message_offset" 0; mk_member uint8_t "data" 249]
    [mk_field "target_system" MAVLINK_TYPE_UINT8_T 0 2; mk_field "target_component" MAVLINK_TYPE_UINT8_T 0 3;
     mk_field "sequence" MAVLINK_TYPE_UINT16_T 0 0; mk_field "length" MAVLINK_TYPE_UINT8_T 0 4;
     mk_field "first_message_offset" MAVLINK_TYPE_UINT8_T 0 5; mk_field "data" MAVLINK_TYPE_UINT8_T 249 6]
    [put uint16_t 0 "sequence"; put uint8_t 2 "target_system"; put uint8_t 3 "target_component";
     put uint8_t 4 "length"; put uint8_t 5 "first_message_offset"; put_array uint8_t 6 "data" 249]
    [assign "sequence" "sequence"; assign "target_system" "target_system";
     assign "target_component" "target_component"; assign "length" "length";
     assign "first_message_offset" "first_message_offset"; copy_array "data" "data" uint8_t 249].
Definition GET_LOGGING_DATA : list getter :=
    [mk_getter "target_system" uint8_t 0 2; mk_getter "target_component" uint8_t 0 3;
     mk_getter "sequence" uint16_t 0 0; mk_getter "length" uint8_t 0 4; mk_getter "first_message_offset" uint8_t 0 5;
     mk_getter "data" uint8_t 249 6].

Definition MSG_LOGGING_DATA_ACKED : mav_message :=
  mk_message 267 "LOGGING_DATA_ACKED" 255 255 35 false
    [mk_member uint16_t "sequence" 0; mk_member uint8_t "target_system" 0; mk_member uint8_t "target_component" 0;
     mk_member uint8_t "length" 0; mk_member uint8_t "first_message_offset" 0; mk_member uint8_t "data" 249]
    [mk_field "target_system" MAVLINK_TYPE_UINT8_T 0 2; mk_field "target_component" MAVLINK_TYPE_UINT8_T 0 3;
     mk_field "sequence" MAVLINK_TYPE_UINT16_T 0 0; mk_field "length" MAVLINK_TYPE_UINT8_T 0 4;
     mk_field "first_message_offset" MAVLINK_TYPE_UINT8_T 0 5; mk_field "data" MAVLINK_TYPE_UINT8_T 249 6]
    [put uint16_t 0 "sequence"; put uint8_t 2 "target_system"; put uint8_t 3 "target_component";
     put uint8_t 4 "length"; put uint8_t 5 "first_message_offset"; put_array uint8_t 6 "data" 249]
    [assign "sequence" "sequence"; assign "target_system" "target_system";
     assign "target_component" "target_component"; assign "length" "length";
     assign "first_message_offset" "first_message_offset"; copy_array "data" "data" uint8_t 249].
Definition GET_LOGGING_DATA_ACKED : list getter :=
    [mk_getter "target_system" uint8_t 0 2; mk_getter "target_component" uint8_t 0 3;
     mk_getter "sequence" uint16_t 0 0; mk_getter "length" uint8_t 0 4; mk_getter "first_message_offset" uint8_t 0 5;
     mk_getter "data" uint8_t 249 6].

Definition MSG_LOGGING_ACK : mav_message :=
  mk_message 268 "LOGGING_ACK" 4 4 14 false
    [mk_member uint16_t "sequence" 0; mk_member uint8_t "target_system" 0; mk_member uint8_t "target_component" 0]
    [mk_field "target_system" MAVLINK_TYPE_UINT8_T 0 2; mk_field "target_component" MAVLINK_TYPE_UINT8_T 0 3;
     mk_field "sequence" MAVLINK_TYPE_UINT16_T 0 0]
    [put uint16_t 0 "sequence"; put uint8_t 2 "target_system"; put uint8_t 3 "target_component"]
    [assign "sequence" "sequence"; assign "target_system" "target_system";
     assign "target_component" "target_component"].
Definition GET_LOGGING_ACK : list getter :=
    [mk_getter "target_system" uint8_t 0 2; mk_getter "target_component" uint8_t 0 3;
     mk_getter "sequence" uint16_t 0 0].

Definition MSG_VIDEO_STREAM_INFORMATION : mav_message :=
  mk_message 269 "VIDEO_STREAM_INFORMATION" 213 215 109 false
    [mk_member float_t "framerate" 0; mk_member uint32_t "bitrate" 0; mk_member uint16_t "flags" 0;
     mk_member uint16_t "resolution_h" 0; mk_member uint16_t "resolution_v" 0; mk_member uint16_t "rotation" 0;
     mk_member uint16_t "hfov" 0; mk_member uint8_t "stream_id" 0; mk_member uint8_t "count" 0;
     mk_member uint8_t "type" 0; mk_member char_t "name" 32; mk_member char_t "uri" 160;
     mk_member uint8_t "encoding" 0; mk_member uint8_t "camera_device_id" 0]
    [mk_field "stream_id" MAVLINK_TYPE_UINT8_T 0 18; mk_field "count" MAVLINK_TYPE_UINT8_T 0 19;
     mk_field "type" MAVLINK_TYPE_UINT8_T 0 20; mk_field "flags" MAVLINK_TYPE_UINT16_T 0 8;
     mk_field "framerate" MAVLINK_TYPE_FLOAT 0 0; mk_field "resolution_h" MAVLINK_TYPE_UINT16_T 0 10;
     mk_field "resolution_v" MAVLINK_TYPE_UINT16_T 0 12; mk_field "bitrate" MAVLINK_TYPE_UINT32_T 0 4;
     mk_field "rotation" MAVLINK_TYPE_UINT16_T 0 14; mk_field "hfov" MAVLINK_TYPE_UINT16_T 0 16;
     mk_field "name" MAVLINK_TYPE_CHAR 32 21; mk_field "uri" MAVLINK_TYPE_CHAR 160 53;
     mk_field "encoding" MAVLINK_TYPE_UINT8_T 0 213; mk_field "camera_device_id" MAVLINK_TYPE_UINT8_T 0 214]
    [put float_t 0 "framerate"; put uint32_t 4 "bitrate"; put uint16_t 8 "flags"; put uint16_t 10 "resolution_h";
     put uint16_t 12 "resolution_v"; put uint16_t 14 "rotation"; put uint16_t 16 "hfov"; put uint8_t 18 "stream_id";
     put uint8_t 19 "count"; put uint8_t 20 "type"; put uint8_t 213 "encoding"; put uint8_t 214 "camera_device_id";
     put_array char_t 21 "name" 32; put_array char_t 53 "uri" 160]
    [assign "framerate" "framerate"; assign "bitrate" "bitrate"; assign "flags" "flags";
     assign "resolution_h" "resolution_h"; assign "resolution_v" "resolution_v"; assign "rotation" "rotation";
     assign "hfov" "hfov"; assign "stream_id" "stream_id"; assign "count" "count"; assign "type" "type";
     assign "encoding" "encoding"; assign "camera_device_id" "camera_device_id"; copy_array "name" "name" char_t 32;
     copy_array "uri" "uri" char_t 160].
Definition GET_VIDEO_STREAM_INFORMATION : list getter :=
    [mk_getter "stream_id" uint8_t 0 18; mk_getter "count" uint8_t 0 19; mk_getter "type" uint8_t 0 20;
     mk_getter "flags" uint16_t 0 8; mk_getter "framerate" float_t 0 0; mk_getter "resolution_h" uint16_t 0 10;
     mk_getter "resolution_v" uint16_t 0 12; mk_getter "bitrate" uint32_t 0 4; mk_getter "rotation" uint16_t 0 14;
     mk_getter "hfov" uint16_t 0 16; mk_getter "name" char_t 32 21; mk_getter "uri" char_t 160 53;
     mk_getter "encoding" uint8_t 0 213; mk_getter "camera_device_id" uint8_t 0 214].

Definition MSG_VIDEO_STREAM_STATUS : mav_message :=
  mk_message 270 "VIDEO_STREAM_STATUS" 19 20 59 false
    [mk_member float_t "framerate" 0; mk_member uint32_t "bitrate" 0; mk_member uint16_t "flags" 0;
     mk_member uint16_t "resolution_h" 0; mk_member uint16_t "resolution_v" 0; mk_member uint16_t "rotation" 0;
     mk_member uint16_t "hfov" 0; mk_member uint8_t "stream_id" 0; mk_member uint8_t "camera_device_id" 0]
    [mk_field "stream_id" MAVLINK_TYPE_UINT8_T 0 18; mk_field "flags" MAVLINK_TYPE_UINT16_T 0 8;
     mk_field "framerate" MAVLINK_TYPE_FLOAT 0 0; mk_field "resolution_h" MAVLINK_TYPE_UINT16_T 0 10;
     mk_field "resolution_v" MAVLINK_TYPE_UINT16_T 0 12; mk_field "bitrate" MAVLINK_TYPE_UINT32_T 0 4;
     mk_field "rotation" MAVLINK_TYPE_UINT16_T 0 14; mk_field "hfov" MAVLINK_TYPE_UINT16_T 0 16;
     mk_field "camera_device_id" MAVLINK_TYPE_UINT8_T 0 19]
    [put float_t 0 "framerate"; put uint32_t 4 "bitrate"; put uint16_t 8 "flags"; put uint16_t 10 "resolution_h";
     put uint16_t 12 "resolution_v"; put uint16_t 14 "rotation"; put uint16_t 16 "hfov"; put uint8_t 18 "stream_id";
     put uint8_t 19 "camera_device_id"]
    [assign "framerate" "framerate"; assign "bitrate" "bitrate"; assign "flags" "flags";
     assign "resolution_h" "resolution_h"; assign "resolution_v" "resolution_v"; assign "rotation" "rotation";
     assign "hfov" "hfov"; assign "stream_id" "stream_id"; assign "camera_device_id" "camera_device_id"].
Definition GET_VIDEO_STREAM_STATUS : list getter :=
    [mk_getter "stream_id" uint8_t 0 18; mk_getter "flags" uint16_t 0 8; mk_getter "framerate" float_t 0 0;
     mk_getter "resolution_h" uint16_t 0 10; mk_getter "resolution_v" uint16_t 0 12; mk_getter "bitrate" uint32_t 0 4;
     mk_getter "rotation" uint16_t 0 14; mk_getter "hfov" uint16_t 0 16; mk_getter "camera_device_id" uint8_t 0 19].

Definition MSG_CAMERA_FOV_STATUS : mav_message :=
  mk_message 271 "CAMERA_FOV_STATUS" 52 53 22 false
    [mk_member uint32_t "time_boot_ms" 0; mk_member int32_t "lat_camera" 0; mk_member int32_t "lon_camera" 0;
     mk_member int32_t "alt_camera" 0; mk_member int32_t "lat_image" 0; mk_member int32_t "lon_image" 0;
     mk_member int32_t "alt_image" 0; mk_member float_t "q" 4; mk_member float_t "hfov" 0; mk_member float_t "vfov" 0;
     mk_member uint8_t "camera_device_id" 0]
    [mk_field "time_boot_ms" MAVLINK_TYPE_UINT32_T 0 0; mk_field "lat_camera" MAVLINK_TYPE_INT32_T 0 4;
     mk_field "lon_camera" MAVLINK_TYPE_INT32_T 0 8; mk_field "alt_camera" MAVLINK_TYPE_INT32_T 0 12;
     mk_field "lat_image" MAVLINK_TYPE_INT32_T 0 16; mk_field "lon_image" MAVLINK_TYPE_INT32_T 0 20;
     mk_field "alt_image" MAVLINK_TYPE_INT32_T 0 24; mk_field "q" MAVLINK_TYPE_FLOAT 4 28;
     mk_field "hfov" MAVLINK_TYPE_FLOAT 0 44; mk_field "vfov" MAVLINK_TYPE_FLOAT 0 48;
     mk_field "camera_device_id" MAVLINK_TYPE_UINT8_T 0 52]
    [put uint32_t 0 "time_boot_ms"; put int32_t 4 "lat_camera"; put int32_t 8 "lon_camera";
     put int32_t 12 "alt_camera"; put int32_t 16 "lat_image"; put int32_t 20 "lon_image"; put int32_t 24 "alt_image";
     put float_t 44 "hfov"; put float_t 48 "vfov"; put uint8_t 52 "camera_device_id"; put_array float_t 28 "q" 4]
    [assign "time_boot_ms" "time_boot_ms"; assign "lat_camera" "lat_camera"; assign "lon_camera" "lon_camera";
     assign "alt_camera" "alt_camera"; assign "lat_image" "lat_image"; assign "lon_image" "lon_image";
     assign "alt_image" "alt_image"; assign "hfov" "hfov"; assign "vfov" "vfov";
     assign "camera_device_id" "camera_device_id"; copy_array "q" "q" float_t 4].
Definition GET_CAMERA_FOV_STATUS : list getter :=
    [mk_getter "time_boot_ms" uint32_t 0 0; mk_getter "lat_camera" int32_t 0 4; mk_getter "lon_camera" int32_t 0 8;
     mk_getter "alt_camera" int32_t 0 12; mk_getter "lat_image" int32_t 0 16; mk_getter "lon_image" int32_t 0 20;
     mk_getter "alt_image" int32_t 0 24; mk_getter "q" float_t 4 28; mk_getter "hfov" float_t 0 44;
     mk_getter "vfov" float_t 0 48; mk_getter "camera_device_id" uint8_t 0 52].

Definition MSG_CAMERA_TRACKING_IMAGE_STATUS : mav_message :=
  mk_message 275 "CAMERA_TRACKING_IMAGE_STATUS" 31 32 126 false
    [mk_member float_t "point_x" 0; mk_member float_t "point_y" 0; mk_member float_t "radius" 0;
     mk_member float_t "rec_top_x" 0; mk_member float_t "rec_top_y" 0; mk_member float_t "rec_bottom_x" 0;
     mk_member float_t "rec_bottom_y" 0; mk_member uint8_t "tracking_status" 0; mk_member uint8_t "tracking_mode" 0;
     mk_member uint8_t "target_data" 0; mk_member uint8_t "camera_device_id" 0]
    [mk_field "tracking_status" MAVLINK_TYPE_UINT8_T 0 28; mk_field "tracking_mode" MAVLINK_TYPE_UINT8_T 0 29;
     mk_field "target_data" MAVLINK_TYPE_UINT8_T 0 30; mk_field "point_x" MAVLINK_TYPE_FLOAT 0 0;
     mk_field "point_y" MAVLINK_TYPE_FLOAT 0 4; mk_field "radius" MAVLINK_TYPE_FLOAT 0 8;
     mk_field "rec_top_x" MAVLINK_TYPE_FLOAT 0 12; mk_field "rec_top_y" MAVLINK_TYPE_FLOAT 0 16;
     mk_field "rec_bottom_x" MAVLINK_TYPE_FLOAT 0 20; mk_field "rec_bottom_y" MAVLINK_TYPE_FLOAT 0 24;
     mk_field "camera_device_id" MAVLINK_TYPE_UINT8_T 0 31]
    [put float_t 0 "point_x"; put float_t 4 "point_y"; put float_t 8 "radius"; put float_t 12 "rec_top_x";
     put float_t 16 "rec_top_y"; put float_t 20 "rec_bottom_x"; put float_t 24 "rec_bottom_y";
     put uint8_t 28 "tracking_status"; put uint8_t 29 "tracking_mode"; put uint8_t 30 "target_data";
     put uint8_t 31 "camera_device_id"]
    [assign "point_x" "point_x"; assign "point_y" "point_y"; assign "radius" "radius"; assign "rec_top_x" "rec_top_x";
     assign "rec_top_y" "rec_top_y"; assign "rec_bottom_x" "rec_bottom_x"; assign "rec_bottom_y" "rec_bottom_y";
     assign "tracking_status" "tracking_status"; assign "tracking_mode" "tracking_mode";
     assign "target_data" "target_data"; assign "camera_device_id" "camera_device_id"].
Definition GET_CAMERA_TRACKING_IMAGE_STATUS : list getter :=
    [mk_getter "tracking_status" uint8_t 0 28; mk_getter "tracking_mode" uint8_t 0 29;
     mk_getter "target_data" uint8_t 0 30; mk_getter "point_x" float_t 0 0; mk_getter "point_y" float_t 0 4;
     mk_getter "radius" float_t 0 8; mk_getter "rec_top_x" float_t 0 12; mk_getter "rec_top_y" float_t 0 16;
     mk_getter "rec_bottom_x" float_t 0 20; mk_getter "rec_bottom_y" float_t 0 24;
     mk_getter "camera_device_id" uint8_t 0 31].

Definition MSG_CAMERA_TRACKING_GEO_STATUS : mav_message :=
  mk_message 276 "CAMERA_TRACKING_GEO_STATUS" 49 50 18 false
    [mk_member int32_t "lat" 0; mk_member int32_t "lon" 0; mk_member float_t "alt" 0; mk_member float_t "h_acc" 0;
     mk_member float_t "v_acc" 0; mk_member float_t "vel_n" 0; mk_member float_t "vel_e" 0;
     mk_member float_t "vel_d" 0; mk_member float_t "vel_acc" 0; mk_member float_t "dist" 0;
     mk_member float_t "hdg" 0; mk_member float_t "hdg_acc" 0; mk_member uint8_t "tracking_status" 0;
     mk_member uint8_t "camera_device_id" 0]
    [mk_field "tracking_status" MAVLINK_TYPE_UINT8_T 0 48; mk_field "lat" MAVLINK_TYPE_INT32_T 0 0;
     mk_field "lon" MAVLINK_TYPE_INT32_T 0 4; mk_field "alt" MAVLINK_TYPE_FLOAT 0 8;
     mk_field "h_acc" MAVLINK_TYPE_FLOAT 0 12; mk_field "v_acc" MAVLINK_TYPE_FLOAT 0 16;
     mk_field "vel_n" MAVLINK_TYPE_FLOAT 0 20; mk_field "vel_e" MAVLINK_TYPE_FLOAT 0 24;
     mk_field "vel_d" MAVLINK_TYPE_FLOAT 0 28; mk_field "vel_acc" MAVLINK_TYPE_FLOAT 0 32;
     mk_field "dist" MAVLINK_TYPE_FLOAT 0 36; mk_field "hdg" MAVLINK_TYPE_FLOAT 0 40;
     mk_field "hdg_acc" MAVLINK_TYPE_FLOAT 0 44; mk_field "camera_device_id" MAVLINK_TYPE_UINT8_T 0 49]
    [put int32_t 0 "lat"; put int32_t 4 "lon"; put float_t 8 "alt"; put float_t 12 "h_acc"; put float_t 16 "v_acc";
     put float_t 20 "vel_n"; put float_t 24 "vel_e"; put float_t 28 "vel_d"; put float_t 32 "vel_acc";
     put float_t 36 "dist"; put float_t 40 "hdg"; put float_t 44 "hdg_acc"; put uint8_t 48 "tracking_status";
     put uint8_t 49 "camera_device_id"]
    [assign "lat" "lat"; assign "lon" "lon"; assign "alt" "alt"; assign "h_acc" "h_acc"; assign "v_acc" "v_acc";
     assign "vel_n" "vel_n"; assign "vel_e" "vel_e"; assign "vel_d" "vel_d"; assign "vel_acc" "vel_acc";
     assign "dist" "dist"; assign "hdg" "hdg"; assign "hdg_acc" "hdg_acc"; assign "tracking_status" "tracking_status";
     assign "camera_device_id" "camera_device_id"].
Definition GET_CAMERA_TRACKING_GEO_STATUS : list getter :=
    [mk_getter "tracking_status" uint8_t 0 48; mk_getter "lat" int32_t 0 0; mk_getter "lon" int32_t 0 4;
     mk_getter "alt" float_t 0 8; mk_getter "h_acc" float_t 0 12; mk_getter "v_acc" float_t 0 16;
     mk_getter "vel_n" float_t 0 20; mk_getter "vel_e" float_t 0 24; mk_getter "vel_d" float_t 0 28;
     mk_getter "vel_acc" float_t 0 32; mk_getter "dist" float_t 0 36; mk_getter "hdg" float_t 0 40;
     mk_getter "hdg_acc" float_t 0 44; mk_getter "camera_device_id" uint8_t 0 49].

Definition messages2 : list (mav_message * list getter) :=
    [(MSG_FILE_TRANSFER_PROTOCOL, GET_FILE_TRANSFER_PROTOCOL); (MSG_TIMESYNC, GET_TIMESYNC);
     (MSG_CAMERA_TRIGGER, GET_CAMERA_TRIGGER); (MSG_HIL_GPS, GET_HIL_GPS);
     (MSG_HIL_OPTICAL_FLOW, GET_HIL_OPTICAL_FLOW); (MSG_HIL_STATE_QUATERNION, GET_HIL_STATE_QUATERNION);
     (MSG_SCALED_IMU2, GET_SCALED_IMU2); (MSG_LOG_REQUEST_LIST, GET_LOG_REQUEST_LIST); (MSG_LOG_ENTRY, GET_LOG_ENTRY);
     (MSG_LOG_REQUEST_DATA, GET_LOG_REQUEST_DATA); (MSG_LOG_DATA, GET_LOG_DATA); (MSG_LOG_ERASE, GET_LOG_ERASE);
     (MSG_LOG_REQUEST_END, GET_LOG_REQUEST_END); (MSG_GPS_INJECT_DATA, GET_GPS_INJECT_DATA);
     (MSG_GPS2_RAW, GET_GPS2_RAW); (MSG_POWER_STATUS, GET_POWER_STATUS); (MSG_SERIAL_CONTROL, GET_SERIAL_CONTROL);
     (MSG_GPS_RTK, GET_GPS_RTK); (MSG_GPS2_RTK, GET_GPS2_RTK); (MSG_SCALED_IMU3, GET_SCALED_IMU3);
     (MSG_DATA_TRANSMISSION_HANDSHAKE, GET_DATA_TRANSMISSION_HANDSHAKE);
     (MSG_ENCAPSULATED_DATA, GET_ENCAPSULATED_DATA); (MSG_DISTANCE_SENSOR, GET_DISTANCE_SENSOR);
     (MSG_TERRAIN_REQUEST, GET_TERRAIN_REQUEST); (MSG_TERRAIN_DATA, GET_TERRAIN_DATA);
     (MSG_TERRAIN_CHECK, GET_TERRAIN_CHECK); (MSG_TERRAIN_REPORT, GET_TERRAIN_REPORT);
     (MSG_SCALED_PRESSURE2, GET_SCALED_PRESSURE2); (MSG_ATT_POS_MOCAP, GET_ATT_POS_MOCAP);
     (MSG_SET_ACTUATOR_CONTROL_TARGET, GET_SET_ACTUATOR_CONTROL_TARGET);
     (MSG_ACTUATOR_CONTROL_TARGET, GET_ACTUATOR_CONTROL_TARGET); (MSG_ALTITUDE, GET_ALTITUDE);
     (MSG_RESOURCE_REQUEST, GET_RESOURCE_REQUEST); (MSG_SCALED_PRESSURE3, GET_SCALED_PRESSURE3);
     (MSG_FOLLOW_TARGET, GET_FOLLOW_TARGET); (MSG_CONTROL_SYSTEM_STATE, GET_CONTROL_SYSTEM_STATE);
     (MSG_BATTERY_STATUS, GET_BATTERY_STATUS); (MSG_AUTOPILOT_VERSION, GET_AUTOPILOT_VERSION);
     (MSG_LANDING_TARGET, GET_LANDING_TARGET); (MSG_FENCE_STATUS, GET_FENCE_STATUS);
     (MSG_MAG_CAL_REPORT, GET_MAG_CAL_REPORT); (MSG_EFI_STATUS, GET_EFI_STATUS);
     (MSG_ESTIMATOR_STATUS, GET_ESTIMATOR_STATUS); (MSG_WIND_COV, GET_WIND_COV); (MSG_GPS_INPUT, GET_GPS_INPUT);
     (MSG_GPS_RTCM_DATA, GET_GPS_RTCM_DATA); (MSG_HIGH_LATENCY, GET_HIGH_LATENCY);
     (MSG_HIGH_LATENCY2, GET_HIGH_LATENCY2); (MSG_VIBRATION, GET_VIBRATION); (MSG_HOME_POSITION, GET_HOME_POSITION);
     (MSG_SET_HOME_POSITION, GET_SET_HOME_POSITION); (MSG_MESSAGE_INTERVAL, GET_MESSAGE_INTERVAL);
     (MSG_EXTENDED_SYS_STATE, GET_EXTENDED_SYS_STATE); (MSG_ADSB_VEHICLE, GET_ADSB_VEHICLE);
     (MSG_COLLISION, GET_COLLISION); (MSG_V2_EXTENSION, GET_V2_EXTENSION); (MSG_MEMORY_VECT, GET_MEMORY_VECT);
     (MSG_DEBUG_VECT, GET_DEBUG_VECT); (MSG_NAMED_VALUE_FLOAT, GET_NAMED_VALUE_FLOAT);
     (MSG_NAMED_VALUE_INT, GET_NAMED_VALUE_INT); (MSG_STATUSTEXT, GET_STATUSTEXT); (MSG_DEBUG, GET_DEBUG);
     (MSG_SETUP_SIGNING, GET_SETUP_SIGNING); (MSG_BUTTON_CHANGE, GET_BUTTON_CHANGE); (MSG_PLAY_TUNE, GET_PLAY_TUNE);
     (MSG_CAMERA_INFORMATION, GET_CAMERA_INFORMATION); (MSG_CAMERA_SETTINGS, GET_CAMERA_SETTINGS);
     (MSG_STORAGE_INFORMATION, GET_STORAGE_INFORMATION); (MSG_CAMERA_CAPTURE_STATUS, GET_CAMERA_CAPTURE_STATUS);
     (MSG_CAMERA_IMAGE_CAPTURED, GET_CAMERA_IMAGE_CAPTURED); (MSG_FLIGHT_INFORMATION, GET_FLIGHT_INFORMATION);
     (MSG_MOUNT_ORIENTATION, GET_MOUNT_ORIENTATION); (MSG_LOGGING_DATA, GET_LOGGING_DATA);
     (MSG_LOGGING_DATA_ACKED, GET_LOGGING_DATA_ACKED); (MSG_LOGGING_ACK, GET_LOGGING_ACK);
     (MSG_VIDEO_STREAM_INFORMATION, GET_VIDEO_STREAM_INFORMATION); (MSG_VIDEO_STREAM_STATUS, GET_VIDEO_STREAM_STATUS);
     (MSG_CAMERA_FOV_STATUS, GET_CAMERA_FOV_STATUS);
     (MSG_CAMERA_TRACKING_IMAGE_STATUS, GET_CAMERA_TRACKING_IMAGE_STATUS);
     (MSG_CAMERA_TRACKING_GEO_STATUS, GET_CAMERA_TRACKING_GEO_STATUS)].
