(* ===== verification/MavMessages3.v ===== *)
(** * Message headers, part 3

    The headers of the messages 277 to 12920 of the dialect [common]: for each, the
    structure, the description, the bodies of its packing functions ([MSG_*]) and its
    getters ([GET_*]), as [MavFields] reads them. *)
From stdpp Require Import strings.
From S2P Require Import Prelude MavFields.

#[local] Open Scope Z_scope.

Definition MSG_CAMERA_THERMAL_RANGE : mav_message :=
  mk_message 277 "CAMERA_THERMAL_RANGE" 30 30 62 false
    [mk_member uint32_t "time_boot_ms" 0; mk_member float_t "max" 0; mk_member float_t "max_point_x" 0;
     mk_member float_t "max_point_y" 0; mk_member float_t "min" 0; mk_member float_t "min_point_x" 0;
     mk_member float_t "min_point_y" 0; mk_member uint8_t "stream_id" 0; mk_member uint8_t "camera_device_id" 0]
    [mk_field "time_boot_ms" MAVLINK_TYPE_UINT32_T 0 0; mk_field "stream_id" MAVLINK_TYPE_UINT8_T 0 28;
     mk_field "camera_device_id" MAVLINK_TYPE_UINT8_T 0 29; mk_field "max" MAVLINK_TYPE_FLOAT 0 4;
     mk_field "max_point_x" MAVLINK_TYPE_FLOAT 0 8; mk_field "max_point_y" MAVLINK_TYPE_FLOAT 0 12;
     mk_field "min" MAVLINK_TYPE_FLOAT 0 16; mk_field "min_point_x" MAVLINK_TYPE_FLOAT 0 20;
     mk_field "min_point_y" MAVLINK_TYPE_FLOAT 0 24]
    [put uint32_t 0 "time_boot_ms"; put float_t 4 "max"; put float_t 8 "max_point_x"; put float_t 12 "max_point_y";
     put float_t 16 "min"; put float_t 20 "min_point_x"; put float_t 24 "min_point_y"; put uint8_t 28 "stream_id";
     put uint8_t 29 "camera_device_id"]
    [assign "time_boot_ms" "time_boot_ms"; assign "max" "max"; assign "max_point_x" "max_point_x";
     assign "max_point_y" "max_point_y"; assign "min" "min"; assign "min_point_x" "min_point_x";
     assign "min_point_y" "min_point_y"; assign "stream_id" "stream_id"; assign "camera_device_id" "camera_device_id"].
Definition GET_CAMERA_THERMAL_RANGE : list getter :=
    [mk_getter "time_boot_ms" uint32_t 0 0; mk_getter "stream_id" uint8_t 0 28;
     mk_getter "camera_device_id" uint8_t 0 29; mk_getter "max" float_t 0 4; mk_getter "max_point_x" float_t 0 8;
     mk_getter "max_point_y" float_t 0 12; mk_getter "min" float_t 0 16; mk_getter "min_point_x" float_t 0 20;
     mk_getter "min_point_y" float_t 0 24].

Definition MSG_GIMBAL_MANAGER_INFORMATION : mav_message :=
  mk_message 280 "GIMBAL_MANAGER_INFORMATION" 33 33 70 false
    [mk_member uint32_t "time_boot_ms" 0; mk_member uint32_t "cap_flags" 0; mk_member float_t "roll_min" 0;
     mk_member float_t "roll_max" 0; mk_member float_t "pitch_min" 0; mk_member float_t "pitch_max" 0;
     mk_member float_t "yaw_min" 0; mk_member float_t "yaw_max" 0; mk_member uint8_t "gimbal_device_id" 0]
    [mk_field "time_boot_ms" MAVLINK_TYPE_UINT32_T 0 0; mk_field "cap_flags" MAVLINK_TYPE_UINT32_T 0 4;
     mk_field "gimbal_device_id" MAVLINK_TYPE_UINT8_T 0 32; mk_field "roll_min" MAVLINK_TYPE_FLOAT 0 8;
     mk_field "roll_max" MAVLINK_TYPE_FLOAT 0 12; mk_field "pitch_min" MAVLINK_TYPE_FLOAT 0 16;
     mk_field "pitch_max" MAVLINK_TYPE_FLOAT 0 20; mk_field "yaw_min" MAVLINK_TYPE_FLOAT 0 24;
     mk_field "yaw_max" MAVLINK_TYPE_FLOAT 0 28]
    [put uint32_t 0 "time_boot_ms"; put uint32_t 4 "cap_flags"; put float_t 8 "roll_min"; put float_t 12 "roll_max";
     put float_t 16 "pitch_min"; put float_t 20 "pitch_max"; put float_t 24 "yaw_min"; put float_t 28 "yaw_max";
     put uint8_t 32 "gimbal_device_id"]
    [assign "time_boot_ms" "time_boot_ms"; assign "cap_flags" "cap_flags"; assign "roll_min" "roll_min";
     assign "roll_max" "roll_max"; assign "pitch_min" "pitch_min"; assign "pitch_max" "pitch_max";
     assign "yaw_min" "yaw_min"; assign "yaw_max" "yaw_max"; assign "gimbal_device_id" "gimbal_device_id"].
Definition GET_GIMBAL_MANAGER_INFORMATION : list getter :=
    [mk_getter "time_boot_ms" uint32_t 0 0; mk_getter "cap_flags" uint32_t 0 4;
     mk_getter "gimbal_device_id" uint8_t 0 32; mk_getter "roll_min" float_t 0 8; mk_getter "roll_max" float_t 0 12;
     mk_getter "pitch_min" float_t 0 16; mk_getter "pitch_max" float_t 0 20; mk_getter "yaw_min" float_t 0 24;
     mk_getter "yaw_max" float_t 0 28].

Definition MSG_GIMBAL_MANAGER_STATUS : mav_message :=
  mk_message 281 "GIMBAL_MANAGER_STATUS" 13 13 48 false
    [mk_member uint32_t "time_boot_ms" 0; mk_member uint32_t "flags" 0; mk_member uint8_t "gimbal_device_id" 0;
     mk_member uint8_t "primary_control_sysid" 0; mk_member uint8_t "primary_control_compid" 0;
     mk_member uint8_t "secondary_control_sysid" 0; mk_member uint8_t "secondary_control_compid" 0]
    [mk_field "time_boot_ms" MAVLINK_TYPE_UINT32_T 0 0; mk_field "flags" MAVLINK_TYPE_UINT32_T 0 4;
     mk_field "gimbal_device_id" MAVLINK_TYPE_UINT8_T 0 8; mk_field "primary_control_sysid" MAVLINK_TYPE_UINT8_T 0 9;
     mk_field "primary_control_compid" MAVLINK_TYPE_UINT8_T 0 10;
     mk_field "secondary_control_sysid" MAVLINK_TYPE_UINT8_T 0 11;
     mk_field "secondary_control_compid" MAVLINK_TYPE_UINT8_T 0 12]
    [put uint32_t 0 "time_boot_ms"; put uint32_t 4 "flags"; put uint8_t 8 "gimbal_device_id";
     put uint8_t 9 "primary_control_sysid"; put uint8_t 10 "primary_control_compid";
     put uint8_t 11 "secondary_control_sysid"; put uint8_t 12 "secondary_control_compid"]
    [assign "time_boot_ms" "time_boot_ms"; assign "flags" "flags"; assign "gimbal_device_id" "gimbal_device_id";
     assign "primary_control_sysid" "primary_control_sysid"; assign "primary_control_compid" "primary_control_compid";
     assign "secondary_control_sysid" "secondary_control_sysid";
     assign "secondary_control_compid" "secondary_control_compid"].
Definition GET_GIMBAL_MANAGER_STATUS : list getter :=
    [mk_getter "time_boot_ms" uint32_t 0 0; mk_getter "flags" uint32_t 0 4; mk_getter "gimbal_device_id" uint8_t 0 8;
     mk_getter "primary_control_sysid" uint8_t 0 9; mk_getter "primary_control_compid" uint8_t 0 10;
     mk_getter "secondary_control_sysid" uint8_t 0 11; mk_getter "secondary_control_compid" uint8_t 0 12].

Definition MSG_GIMBAL_MANAGER_SET_ATTITUDE : mav_message :=
  mk_message 282 "GIMBAL_MANAGER_SET_ATTITUDE" 35 35 123 false
    [mk_member uint32_t "flags" 0; mk_member float_t "q" 4; mk_member float_t "angular_velocity_x" 0;
     mk_member float_t "angular_velocity_y" 0; mk_member float_t "angular_velocity_z" 0;
     mk_member uint8_t "target_system" 0; mk_member uint8_t "target_component" 0;
     mk_member uint8_t "gimbal_device_id" 0]
    [mk_field "target_system" MAVLINK_TYPE_UINT8_T 0 32; mk_field "target_component" MAVLINK_TYPE_UINT8_T 0 33;
     mk_field "flags" MAVLINK_TYPE_UINT32_T 0 0; mk_field "gimbal_device_id" MAVLINK_TYPE_UINT8_T 0 34;
     mk_field "q" MAVLINK_TYPE_FLOAT 4 4; mk_field "angular_velocity_x" MAVLINK_TYPE_FLOAT 0 20;
     mk_field "angular_velocity_y" MAVLINK_TYPE_FLOAT 0 24; mk_field "angular_velocity_z" MAVLINK_TYPE_FLOAT 0 28]
    [put uint32_t 0 "flags"; put float_t 20 "angular_velocity_x"; put float_t 24 "angular_velocity_y";
     put float_t 28 "angular_velocity_z"; put uint8_t 32 "target_system"; put uint8_t 33 "target_component";
     put uint8_t 34 "gimbal_device_id"; put_array float_t 4 "q" 4]
    [assign "flags" "flags"; assign "angular_velocity_x" "angular_velocity_x";
     assign "angular_velocity_y" "angular_velocity_y"; assign "angular_velocity_z" "angular_velocity_z";
     assign "target_system" "target_system"; assign "target_component" "target_component";
     assign "gimbal_device_id" "gimbal_device_id"; copy_array "q" "q" float_t 4].
Definition GET_GIMBAL_MANAGER_SET_ATTITUDE : list getter :=
    [mk_getter "target_system" uint8_t 0 32; mk_getter "target_component" uint8_t 0 33;
     mk_getter "flags" uint32_t 0 0; mk_getter "gimbal_device_id" uint8_t 0 34; mk_getter "q" float_t 4 4;
     mk_getter "angular_velocity_x" float_t 0 20; mk_getter "angular_velocity_y" float_t 0 24;
     mk_getter "angular_velocity_z" float_t 0 28].

Definition MSG_GIMBAL_DEVICE_INFORMATION : mav_message :=
  mk_message 283 "GIMBAL_DEVICE_INFORMATION" 144 149 74 true
    [mk_member uint64_t "uid" 0; mk_member uint32_t "time_boot_ms" 0; mk_member uint32_t "firmware_version" 0;
     mk_member uint32_t "hardware_version" 0; mk_member float_t "roll_min" 0; mk_member float_t "roll_max" 0;
     mk_member float_t "pitch_min" 0; mk_member float_t "pitch_max" 0; mk_member float_t "yaw_min" 0;
     mk_member float_t "yaw_max" 0; mk_member uint16_t "cap_flags" 0; mk_member uint16_t "custom_cap_flags" 0;
     mk_member char_t "vendor_name" 32; mk_member char_t "model_name" 32; mk_member char_t "custom_name" 32;
     mk_member uint8_t "gimbal_device_id" 0; mk_member uint32_t "cap_flags2" 0]
    [mk_field "time_boot_ms" MAVLINK_TYPE_UINT32_T 0 8; mk_field "vendor_name" MAVLINK_TYPE_CHAR 32 48;
     mk_field "model_name" MAVLINK_TYPE_CHAR 32 80; mk_field "custom_name" MAVLINK_TYPE_CHAR 32 112;
     mk_field "firmware_version" MAVLINK_TYPE_UINT32_T 0 12; mk_field "hardware_version" MAVLINK_TYPE_UINT32_T 0 16;
     mk_field "uid" MAVLINK_TYPE_UINT64_T 0 0; mk_field "cap_flags" MAVLINK_TYPE_UINT16_T 0 44;
     mk_field "custom_cap_flags" MAVLINK_TYPE_UINT16_T 0 46; mk_field "roll_min" MAVLINK_TYPE_FLOAT 0 20;
     mk_field "roll_max" MAVLINK_TYPE_FLOAT 0 24; mk_field "pitch_min" MAVLINK_TYPE_FLOAT 0 28;
     mk_field "pitch_max" MAVLINK_TYPE_FLOAT 0 32; mk_field "yaw_min" MAVLINK_TYPE_FLOAT 0 36;
     mk_field "yaw_max" MAVLINK_TYPE_FLOAT 0 40; mk_field "gimbal_device_id" MAVLINK_TYPE_UINT8_T 0 144;
     mk_field "cap_flags2" MAVLINK_TYPE_UINT32_T 0 145]
    [put uint64_t 0 "uid"; put uint32_t 8 "time_boot_ms"; put uint32_t 12 "firmware_version";
     put uint32_t 16 "hardware_version"; put float_t 20 "roll_min"; put float_t 24 "roll_max";
     put float_t 28 "pitch_min"; put float_t 32 "pitch_max"; put float_t 36 "yaw_min"; put float_t 40 "yaw_max";
     put uint16_t 44 "cap_flags"; put uint16_t 46 "custom_cap_flags"; put uint8_t 144 "gimbal_device_id";
     put uint32_t 145 "cap_flags2"; put_array char_t 48 "vendor_name" 32; put_array char_t 80 "model_name" 32;
     put_array char_t 112 "custom_name" 32]
    [assign "uid" "uid"; assign "time_boot_ms" "time_boot_ms"; assign "firmware_version" "firmware_version";
     assign "hardware_version" "hardware_version"; assign "roll_min" "roll_min"; assign "roll_max" "roll_max";
     assign "pitch_min" "pitch_min"; assign "pitch_max" "pitch_max"; assign "yaw_min" "yaw_min";
     assign "yaw_max" "yaw_max"; assign "cap_flags" "cap_flags"; assign "custom_cap_flags" "custom_cap_flags";
     assign "gimbal_device_id" "gimbal_device_id"; assign "cap_flags2" "cap_flags2";
     copy_array "vendor_name" "vendor_name" char_t 32; copy_array "model_name" "model_name" char_t 32;
     copy_array "custom_name" "custom_name" char_t 32].
Definition GET_GIMBAL_DEVICE_INFORMATION : list getter :=
    [mk_getter "time_boot_ms" uint32_t 0 8; mk_getter "vendor_name" char_t 32 48; mk_getter "model_name" char_t 32 80;
     mk_getter "custom_name" char_t 32 112; mk_getter "firmware_version" uint32_t 0 12;
     mk_getter "hardware_version" uint32_t 0 16; mk_getter "uid" uint64_t 0 0; mk_getter "cap_flags" uint16_t 0 44;
     mk_getter "custom_cap_flags" uint16_t 0 46; mk_getter "roll_min" float_t 0 20; mk_getter "roll_max" float_t 0 24;
     mk_getter "pitch_min" float_t 0 28; mk_getter "pitch_max" float_t 0 32; mk_getter "yaw_min" float_t 0 36;
     mk_getter "yaw_max" float_t 0 40; mk_getter "gimbal_device_id" uint8_t 0 144;
     mk_getter "cap_flags2" uint32_t 0 145].

Definition MSG_GIMBAL_DEVICE_SET_ATTITUDE : mav_message :=
  mk_message 284 "GIMBAL_DEVICE_SET_ATTITUDE" 32 32 99 false
    [mk_member float_t "q" 4; mk_member float_t "angular_velocity_x" 0; mk_member float_t "angular_velocity_y" 0;
     mk_member float_t "angular_velocity_z" 0; mk_member uint16_t "flags" 0; mk_member uint8_t "target_system" 0;
     mk_member uint8_t "target_component" 0]
    [mk_field "target_system" MAVLINK_TYPE_UINT8_T 0 30; mk_field "target_component" MAVLINK_TYPE_UINT8_T 0 31;
     mk_field "flags" MAVLINK_TYPE_UINT16_T 0 28; mk_field "q" MAVLINK_TYPE_FLOAT 4 0;
     mk_field "angular_velocity_x" MAVLINK_TYPE_FLOAT 0 16; mk_field "angular_velocity_y" MAVLINK_TYPE_FLOAT 0 20;
     mk_field "angular_velocity_z" MAVLINK_TYPE_FLOAT 0 24]
    [put float_t 16 "angular_velocity_x"; put float_t 20 "angular_velocity_y"; put float_t 24 "angular_velocity_z";
     put uint16_t 28 "flags"; put uint8_t 30 "target_system"; put uint8_t 31 "target_component";
     put_array float_t 0 "q" 4]
    [assign "angular_velocity_x" "angular_velocity_x"; assign "angular_velocity_y" "angular_velocity_y";
     assign "angular_velocity_z" "angular_velocity_z"; assign "flags" "flags"; assign "target_system" "target_system";
     assign "target_component" "target_component"; copy_array "q" "q" float_t 4].
Definition GET_GIMBAL_DEVICE_SET_ATTITUDE : list getter :=
    [mk_getter "target_system" uint8_t 0 30; mk_getter "target_component" uint8_t 0 31;
     mk_getter "flags" uint16_t 0 28; mk_getter "q" float_t 4 0; mk_getter "angular_velocity_x" float_t 0 16;
     mk_getter "angular_velocity_y" float_t 0 20; mk_getter "angular_velocity_z" float_t 0 24].

Definition MSG_GIMBAL_DEVICE_ATTITUDE_STATUS : mav_message :=
  mk_message 285 "GIMBAL_DEVICE_ATTITUDE_STATUS" 40 49 137 false
    [mk_member uint32_t "time_boot_ms" 0; mk_member float_t "q" 4; mk_member float_t "angular_velocity_x" 0;
     mk_member float_t "angular_velocity_y" 0; mk_member float_t "angular_velocity_z" 0;
     mk_member uint32_t "failure_flags" 0; mk_member uint16_t "flags" 0; mk_member uint8_t "target_system" 0;
     mk_member uint8_t "target_component" 0; mk_member float_t "delta_yaw" 0;
     mk_member float_t "delta_yaw_velocity" 0; mk_member uint8_t "gimbal_device_id" 0]
    [mk_field "target_system" MAVLINK_TYPE_UINT8_T 0 38; mk_field "target_component" MAVLINK_TYPE_UINT8_T 0 39;
     mk_field "time_boot_ms" MAVLINK_TYPE_UINT32_T 0 0; mk_field "flags" MAVLINK_TYPE_UINT16_T 0 36;
     mk_field "q" MAVLINK_TYPE_FLOAT 4 4; mk_field "angular_velocity_x" MAVLINK_TYPE_FLOAT 0 20;
     mk_field "angular_velocity_y" MAVLINK_TYPE_FLOAT 0 24; mk_field "angular_velocity_z" MAVLINK_TYPE_FLOAT 0 28;
     mk_field "failure_flags" MAVLINK_TYPE_UINT32_T 0 32; mk_field "delta_yaw" MAVLINK_TYPE_FLOAT 0 40;
     mk_field "delta_yaw_velocity" MAVLINK_TYPE_FLOAT 0 44; mk_field "gimbal_device_id" MAVLINK_TYPE_UINT8_T 0 48]
    [put uint32_t 0 "time_boot_ms"; put float_t 20 "angular_velocity_x"; put float_t 24 "angular_velocity_y";
     put float_t 28 "angular_velocity_z"; put uint32_t 32 "failure_flags"; put uint16_t 36 "flags";
     put uint8_t 38 "target_system"; put uint8_t 39 "target_component"; put float_t 40 "delta_yaw";
     put float_t 44 "delta_yaw_velocity"; put uint8_t 48 "gimbal_device_id"; put_array float_t 4 "q" 4]
    [assign "time_boot_ms" "time_boot_ms"; assign "angular_velocity_x" "angular_velocity_x";
     assign "angular_velocity_y" "angular_velocity_y"; assign "angular_velocity_z" "angular_velocity_z";
     assign "failure_flags" "failure_flags"; assign "flags" "flags"; assign "target_system" "target_system";
     assign "target_component" "target_component"; assign "delta_yaw" "delta_yaw";
     assign "delta_yaw_velocity" "delta_yaw_velocity"; assign "gimbal_device_id" "gimbal_device_id";
     copy_array "q" "q" float_t 4].
Definition GET_GIMBAL_DEVICE_ATTITUDE_STATUS : list getter :=
    [mk_getter "target_system" uint8_t 0 38; mk_getter "target_component" uint8_t 0 39;
     mk_getter "time_boot_ms" uint32_t 0 0; mk_getter "flags" uint16_t 0 36; mk_getter "q" float_t 4 4;
     mk_getter "angular_velocity_x" float_t 0 20; mk_getter "angular_velocity_y" float_t 0 24;
     mk_getter "angular_velocity_z" float_t 0 28; mk_getter "failure_flags" uint32_t 0 32;
     mk_getter "delta_yaw" float_t 0 40; mk_getter "delta_yaw_velocity" float_t 0 44;
     mk_getter "gimbal_device_id" uint8_t 0 48].

Definition MSG_AUTOPILOT_STATE_FOR_GIMBAL_DEVICE : mav_message :=
  mk_message 286 "AUTOPILOT_STATE_FOR_GIMBAL_DEVICE" 53 57 210 true
    [mk_member uint64_t "time_boot_us" 0; mk_member float_t "q" 4; mk_member uint32_t "q_estimated_delay_us" 0;
     mk_member float_t "vx" 0; mk_member float_t "vy" 0; mk_member float_t "vz" 0;
     mk_member uint32_t "v_estimated_delay_us" 0; mk_member float_t "feed_forward_angular_velocity_z" 0;
     mk_member uint16_t "estimator_status" 0; mk_member uint8_t "target_system" 0;
     mk_member uint8_t "target_component" 0; mk_member uint8_t "landed_state" 0;
     mk_member float_t "angular_velocity_z" 0]
    [mk_field "target_system" MAVLINK_TYPE_UINT8_T 0 50; mk_field "target_component" MAVLINK_TYPE_UINT8_T 0 51;
     mk_field "time_boot_us" MAVLINK_TYPE_UINT64_T 0 0; mk_field "q" MAVLINK_TYPE_FLOAT 4 8;
     mk_field "q_estimated_delay_us" MAVLINK_TYPE_UINT32_T 0 24; mk_field "vx" MAVLINK_TYPE_FLOAT 0 28;
     mk_field "vy" MAVLINK_TYPE_FLOAT 0 32; mk_field "vz" MAVLINK_TYPE_FLOAT 0 36;
     mk_field "v_estimated_delay_us" MAVLINK_TYPE_UINT32_T 0 40;
     mk_field "feed_forward_angular_velocity_z" MAVLINK_TYPE_FLOAT 0 44;
     mk_field "estimator_status" MAVLINK_TYPE_UINT16_T 0 48; mk_field "landed_state" MAVLINK_TYPE_UINT8_T 0 52;
     mk_field "angular_velocity_z" MAVLINK_TYPE_FLOAT 0 53]
    [put uint64_t 0 "time_boot_us"; put uint32_t 24 "q_estimated_delay_us"; put float_t 28 "vx"; put float_t 32 "vy";
     put float_t 36 "vz"; put uint32_t 40 "v_estimated_delay_us"; put float_t 44 "feed_forward_angular_velocity_z";
     put uint16_t 48 "estimator_status"; put uint8_t 50 "target_system"; put uint8_t 51 "target_component";
     put uint8_t 52 "landed_state"; put float_t 53 "angular_velocity_z"; put_array float_t 8 "q" 4]
    [assign "time_boot_us" "time_boot_us"; assign "q_estimated_delay_us" "q_estimated_delay_us"; assign "vx" "vx";
     assign "vy" "vy"; assign "vz" "vz"; assign "v_estimated_delay_us" "v_estimated_delay_us";
     assign "feed_forward_angular_velocity_z" "feed_forward_angular_velocity_z";
     assign "estimator_status" "estimator_status"; assign "target_system" "target_system";
     assign "target_component" "target_component"; assign "landed_state" "landed_state";
     assign "angular_velocity_z" "angular_velocity_z"; copy_array "q" "q" float_t 4].
Definition GET_AUTOPILOT_STATE_FOR_GIMBAL_DEVICE : list getter :=
    [mk_getter "target_system" uint8_t 0 50; mk_getter "target_component" uint8_t 0 51;
     mk_getter "time_boot_us" uint64_t 0 0; mk_getter "q" float_t 4 8; mk_getter "q_estimated_delay_us" uint32_t 0 24;
     mk_getter "vx" float_t 0 28; mk_getter "vy" float_t 0 32; mk_getter "vz" float_t 0 36;
     mk_getter "v_estimated_delay_us" uint32_t 0 40; mk_getter "feed_forward_angular_velocity_z" float_t 0 44;
     mk_getter "estimator_status" uint16_t 0 48; mk_getter "landed_state" uint8_t 0 52;
     mk_getter "angular_velocity_z" float_t 0 53].

Definition MSG_GIMBAL_MANAGER_SET_PITCHYAW : mav_message :=
  mk_message 287 "GIMBAL_MANAGER_SET_PITCHYAW" 23 23 1 false
    [mk_member uint32_t "flags" 0; mk_member float_t "pitch" 0; mk_member float_t "yaw" 0;
     mk_member float_t "pitch_rate" 0; mk_member float_t "yaw_rate" 0; mk_member uint8_t "target_system" 0;
     mk_member uint8_t "target_component" 0; mk_member uint8_t "gimbal_device_id" 0]
    [mk_field "target_system" MAVLINK_TYPE_UINT8_T 0 20; mk_field "target_component" MAVLINK_TYPE_UINT8_T 0 21;
     mk_field "flags" MAVLINK_TYPE_UINT32_T 0 0; mk_field "gimbal_device_id" MAVLINK_TYPE_UINT8_T 0 22;
     mk_field "pitch" MAVLINK_TYPE_FLOAT 0 4; mk_field "yaw" MAVLINK_TYPE_FLOAT 0 8;
     mk_field "pitch_rate" MAVLINK_TYPE_FLOAT 0 12; mk_field "yaw_rate" MAVLINK_TYPE_FLOAT 0 16]
    [put uint32_t 0 "flags"; put float_t 4 "pitch"; put float_t 8 "yaw"; put float_t 12 "pitch_rate";
     put float_t 16 "yaw_rate"; put uint8_t 20 "target_system"; put uint8_t 21 "target_component";
     put uint8_t 22 "gimbal_device_id"]
    [assign "flags" "flags"; assign "pitch" "pitch"; assign "yaw" "yaw"; assign "pitch_rate" "pitch_rate";
     assign "yaw_rate" "yaw_rate"; assign "target_system" "target_system";
     assign "target_component" "target_component"; assign "gimbal_device_id" "gimbal_device_id"].
Definition GET_GIMBAL_MANAGER_SET_PITCHYAW : list getter :=
    [mk_getter "target_system" uint8_t 0 20; mk_getter "target_component" uint8_t 0 21;
     mk_getter "flags" uint32_t 0 0; mk_getter "gimbal_device_id" uint8_t 0 22; mk_getter "pitch" float_t 0 4;
     mk_getter "yaw" float_t 0 8; mk_getter "pitch_rate" float_t 0 12; mk_getter "yaw_rate" float_t 0 16].

Definition MSG_GIMBAL_MANAGER_SET_MANUAL_CONTROL : mav_message :=
  mk_message 288 "GIMBAL_MANAGER_SET_MANUAL_CONTROL" 23 23 20 false
    [mk_member uint32_t "flags" 0; mk_member float_t "pitch" 0; mk_member float_t "yaw" 0;
     mk_member float_t "pitch_rate" 0; mk_member float_t "yaw_rate" 0; mk_member uint8_t "target_system" 0;
     mk_member uint8_t "target_component" 0; mk_member uint8_t "gimbal_device_id" 0]
    [mk_field "target_system" MAVLINK_TYPE_UINT8_T 0 20; mk_field "target_component" MAVLINK_TYPE_UINT8_T 0 21;
     mk_field "flags" MAVLINK_TYPE_UINT32_T 0 0; mk_field "gimbal_device_id" MAVLINK_TYPE_UINT8_T 0 22;
     mk_field "pitch" MAVLINK_TYPE_FLOAT 0 4; mk_field "yaw" MAVLINK_TYPE_FLOAT 0 8;
     mk_field "pitch_rate" MAVLINK_TYPE_FLOAT 0 12; mk_field "yaw_rate" MAVLINK_TYPE_FLOAT 0 16]
    [put uint32_t 0 "flags"; put float_t 4 "pitch"; put float_t 8 "yaw"; put float_t 12 "pitch_rate";
     put float_t 16 "yaw_rate"; put uint8_t 20 "target_system"; put uint8_t 21 "target_component";
     put uint8_t 22 "gimbal_device_id"]
    [assign "flags" "flags"; assign "pitch" "pitch"; assign "yaw" "yaw"; assign "pitch_rate" "pitch_rate";
     assign "yaw_rate" "yaw_rate"; assign "target_system" "target_system";
     assign "target_component" "target_component"; assign "gimbal_device_id" "gimbal_device_id"].
Definition GET_GIMBAL_MANAGER_SET_MANUAL_CONTROL : list getter :=
    [mk_getter "target_system" uint8_t 0 20; mk_getter "target_component" uint8_t 0 21;
     mk_getter "flags" uint32_t 0 0; mk_getter "gimbal_device_id" uint8_t 0 22; mk_getter "pitch" float_t 0 4;
     mk_getter "yaw" float_t 0 8; mk_getter "pitch_rate" float_t 0 12; mk_getter "yaw_rate" float_t 0 16].

Definition MSG_ESC_INFO : mav_message :=
  mk_message 290 "ESC_INFO" 46 46 251 false
    [mk_member uint64_t "time_usec" 0; mk_member uint32_t "error_count" 4; mk_member uint16_t "counter" 0;
     mk_member uint16_t "failure_flags" 4; mk_member int16_t "temperature" 4; mk_member uint8_t "index" 0;
     mk_member uint8_t "count" 0; mk_member uint8_t "connection_type" 0; mk_member uint8_t "info" 0]
    [mk_field "index" MAVLINK_TYPE_UINT8_T 0 42; mk_field "time_usec" MAVLINK_TYPE_UINT64_T 0 0;
     mk_field "counter" MAVLINK_TYPE_UINT16_T 0 24; mk_field "count" MAVLINK_TYPE_UINT8_T 0 43;
     mk_field "connection_type" MAVLINK_TYPE_UINT8_T 0 44; mk_field "info" MAVLINK_TYPE_UINT8_T 0 45;
     mk_field "failure_flags" MAVLINK_TYPE_UINT16_T 4 26; mk_field "error_count" MAVLINK_TYPE_UINT32_T 4 8;
     mk_field "temperature" MAVLINK_TYPE_INT16_T 4 34]
    [put uint64_t 0 "time_usec"; put uint16_t 24 "counter"; put uint8_t 42 "index"; put uint8_t 43 "count";
     put uint8_t 44 "connection_type"; put uint8_t 45 "info"; put_array uint32_t 8 "error_count" 4;
     put_array uint16_t 26 "failure_flags" 4; put_array int16_t 34 "temperature" 4]
    [assign "time_usec" "time_usec"; assign "counter" "counter"; assign "index" "index"; assign "count" "count";
     assign "connection_type" "connection_type"; assign "info" "info";
     copy_array "error_count" "error_count" uint32_t 4; copy_array "failure_flags" "failure_flags" uint16_t 4;
     copy_array "temperature" "temperature" int16_t 4].
Definition GET_ESC_INFO : list getter :=
    [mk_getter "index" uint8_t 0 42; mk_getter "time_usec" uint64_t 0 0; mk_getter "counter" uint16_t 0 24;
     mk_getter "count" uint8_t 0 43; mk_getter "connection_type" uint8_t 0 44; mk_getter "info" uint8_t 0 45;
     mk_getter "failure_flags" uint16_t 4 26; mk_getter "error_count" uint32_t 4 8;
     mk_getter "temperature" int16_t 4 34].

Definition MSG_ESC_STATUS : mav_message :=
  mk_message 291 "ESC_STATUS" 57 57 10 false
    [mk_member uint64_t "time_usec" 0; mk_member int32_t "rpm" 4; mk_member float_t "voltage" 4;
     mk_member float_t "current" 4; mk_member uint8_t "index" 0]
    [mk_field "index" MAVLINK_TYPE_UINT8_T 0 56; mk_field "time_usec" MAVLINK_TYPE_UINT64_T 0 0;
     mk_field "rpm" MAVLINK_TYPE_INT32_T 4 8; mk_field "voltage" MAVLINK_TYPE_FLOAT 4 24;
     mk_field "current" MAVLINK_TYPE_FLOAT 4 40]
    [put uint64_t 0 "time_usec"; put uint8_t 56 "index"; put_array int32_t 8 "rpm" 4;
     put_array float_t 24 "voltage" 4; put_array float_t 40 "current" 4]
    [assign "time_usec" "time_usec"; assign "index" "index"; copy_array "rpm" "rpm" int32_t 4;
     copy_array "voltage" "voltage" float_t 4; copy_array "current" "current" float_t 4].
Definition GET_ESC_STATUS : list getter :=
    [mk_getter "index" uint8_t 0 56; mk_getter "time_usec" uint64_t 0 0; mk_getter "rpm" int32_t 4 8;
     mk_getter "voltage" float_t 4 24; mk_getter "current" float_t 4 40].

Definition MSG_AIRSPEED : mav_message :=
  mk_message 295 "AIRSPEED" 12 12 234 false
    [mk_member float_t "airspeed" 0; mk_member float_t "raw_press" 0; mk_member int16_t "temperature" 0;
     mk_member uint8_t "id" 0; mk_member uint8_t "flags" 0]
    [mk_field "id" MAVLINK_TYPE_UINT8_T 0 10; mk_field "airspeed" MAVLINK_TYPE_FLOAT 0 0;
     mk_field "temperature" MAVLINK_TYPE_INT16_T 0 8; mk_field "raw_press" MAVLINK_TYPE_FLOAT 0 4;
     mk_field "flags" MAVLINK_TYPE_UINT8_T 0 11]
    [put float_t 0 "airspeed"; put float_t 4 "raw_press"; put int16_t 8 "temperature"; put uint8_t 10 "id";
     put uint8_t 11 "flags"]
    [assign "airspeed" "airspeed"; assign "raw_press" "raw_press"; assign "temperature" "temperature";
     assign "id" "id"; assign "flags" "flags"].
Definition GET_AIRSPEED : list getter :=
    [mk_getter "id" uint8_t 0 10; mk_getter "airspeed" float_t 0 0; mk_getter "temperature" int16_t 0 8;
     mk_getter "raw_press" float_t 0 4; mk_getter "flags" uint8_t 0 11].

Definition MSG_GLOBAL_POSITION_SENSOR : mav_message :=
  mk_message 296 "GLOBAL_POSITION_SENSOR" 41 41 158 false
    [mk_member uint64_t "time_usec" 0; mk_member uint32_t "processing_time" 0; mk_member int32_t "lat" 0;
     mk_member int32_t "lon" 0; mk_member float_t "alt_ellipsoid" 0; mk_member float_t "alt" 0;
     mk_member float_t "eph" 0; mk_member float_t "epv" 0; mk_member uint8_t "target_system" 0;
     mk_member uint8_t "target_component" 0; mk_member uint8_t "id" 0; mk_member uint8_t "source" 0;
     mk_member uint8_t "flags" 0]
    [mk_field "target_system" MAVLINK_TYPE_UINT8_T 0 36; mk_field "target_component" MAVLINK_TYPE_UINT8_T 0 37;
     mk_field "id" MAVLINK_TYPE_UINT8_T 0 38; mk_field "time_usec" MAVLINK_TYPE_UINT64_T 0 0;
     mk_field "processing_time" MAVLINK_TYPE_UINT32_T 0 8; mk_field "source" MAVLINK_TYPE_UINT8_T 0 39;
     mk_field "flags" MAVLINK_TYPE_UINT8_T 0 40; mk_field "lat" MAVLINK_TYPE_INT32_T 0 12;
     mk_field "lon" MAVLINK_TYPE_INT32_T 0 16; mk_field "alt_ellipsoid" MAVLINK_TYPE_FLOAT 0 20;
     mk_field "alt" MAVLINK_TYPE_FLOAT 0 24; mk_field "eph" MAVLINK_TYPE_FLOAT 0 28;
     mk_field "epv" MAVLINK_TYPE_FLOAT 0 32]
    [put uint64_t 0 "time_usec"; put uint32_t 8 "processing_time"; put int32_t 12 "lat"; put int32_t 16 "lon";
     put float_t 20 "alt_ellipsoid"; put float_t 24 "alt"; put float_t 28 "eph"; put float_t 32 "epv";
     put uint8_t 36 "target_system"; put uint8_t 37 "target_component"; put uint8_t 38 "id"; put uint8_t 39 "source";
     put uint8_t 40 "flags"]
    [assign "time_usec" "time_usec"; assign "processing_time" "processing_time"; assign "lat" "lat";
     assign "lon" "lon"; assign "alt_ellipsoid" "alt_ellipsoid"; assign "alt" "alt"; assign "eph" "eph";
     assign "epv" "epv"; assign "target_system" "target_system"; assign "target_component" "target_component";
     assign "id" "id"; assign "source" "source"; assign "flags" "flags"].
Definition GET_GLOBAL_POSITION_SENSOR : list getter :=
    [mk_getter "target_system" uint8_t 0 36; mk_getter "target_component" uint8_t 0 37; mk_getter "id" uint8_t 0 38;
     mk_getter "time_usec" uint64_t 0 0; mk_getter "processing_time" uint32_t 0 8; mk_getter "source" uint8_t 0 39;
     mk_getter "flags" uint8_t 0 40; mk_getter "lat" int32_t 0 12; mk_getter "lon" int32_t 0 16;
     mk_getter "alt_ellipsoid" float_t 0 20; mk_getter "alt" float_t 0 24; mk_getter "eph" float_t 0 28;
     mk_getter "epv" float_t 0 32].

Definition MSG_WIFI_CONFIG_AP : mav_message :=
  mk_message 299 "WIFI_CONFIG_AP" 96 98 19 false
    [mk_member char_t "ssid" 32; mk_member char_t "password" 64; mk_member int8_t "mode" 0;
     mk_member int8_t "response" 0]
    [mk_field "ssid" MAVLINK_TYPE_CHAR 32 0; mk_field "password" MAVLINK_TYPE_CHAR 64 32;
     mk_field "mode" MAVLINK_TYPE_INT8_T 0 96; mk_field "response" MAVLINK_TYPE_INT8_T 0 97]
    [put int8_t 96 "mode"; put int8_t 97 "response"; put_array char_t 0 "ssid" 32; put_array char_t 32 "password" 64]
    [assign "mode" "mode"; assign "response" "response"; copy_array "ssid" "ssid" char_t 32;
     copy_array "password" "password" char_t 64].
Definition GET_WIFI_CONFIG_AP : list getter :=
    [mk_getter "ssid" char_t 32 0; mk_getter "password" char_t 64 32; mk_getter "mode" int8_t 0 96;
     mk_getter "response" int8_t 0 97].

Definition MSG_PROTOCOL_VERSION : mav_message :=
  mk_message 300 "PROTOCOL_VERSION" 22 22 217 false
    [mk_member uint16_t "version" 0; mk_member uint16_t "min_version" 0; mk_member uint16_t "max_version" 0;
     mk_member uint8_t "spec_version_hash" 8; mk_member uint8_t "library_version_hash" 8]
    [mk_field "version" MAVLINK_TYPE_UINT16_T 0 0; mk_field "min_version" MAVLINK_TYPE_UINT16_T 0 2;
     mk_field "max_version" MAVLINK_TYPE_UINT16_T 0 4; mk_field "spec_version_hash" MAVLINK_TYPE_UINT8_T 8 6;
     mk_field "library_version_hash" MAVLINK_TYPE_UINT8_T 8 14]
    [put uint16_t 0 "version"; put uint16_t 2 "min_version"; put uint16_t 4 "max_version";
     put_array uint8_t 6 "spec_version_hash" 8; put_array uint8_t 14 "library_version_hash" 8]
    [assign "version" "version"; assign "min_version" "min_version"; assign "max_version" "max_version";
     copy_array "spec_version_hash" "spec_version_hash" uint8_t 8;
     copy_array "library_version_hash" "library_version_hash" uint8_t 8].
Definition GET_PROTOCOL_VERSION : list getter :=
    [mk_getter "version" uint16_t 0 0; mk_getter "min_version" uint16_t 0 2; mk_getter "max_version" uint16_t 0 4;
     mk_getter "spec_version_hash" uint8_t 8 6; mk_getter "library_version_hash" uint8_t 8 14].

Definition MSG_AIS_VESSEL : mav_message :=
  mk_message 301 "AIS_VESSEL" 58 58 243 false
    [mk_member uint32_t "MMSI" 0; mk_member int32_t "lat" 0; mk_member int32_t "lon" 0; mk_member uint16_t "COG" 0;
     mk_member uint16_t "heading" 0; mk_member uint16_t "velocity" 0; mk_member uint16_t "dimension_bow" 0;
     mk_member uint16_t "dimension_stern" 0; mk_member uint16_t "tslc" 0; mk_member uint16_t "flags" 0;
     mk_member int8_t "turn_rate" 0; mk_member uint8_t "navigational_status" 0; mk_member uint8_t "type" 0;
     mk_member uint8_t "dimension_port" 0; mk_member uint8_t "dimension_starboard" 0; mk_member char_t "callsign" 7;
     mk_member char_t "name" 20]
    [mk_field "MMSI" MAVLINK_TYPE_UINT32_T 0 0; mk_field "lat" MAVLINK_TYPE_INT32_T 0 4;
     mk_field "lon" MAVLINK_TYPE_INT32_T 0 8; mk_field "COG" MAVLINK_TYPE_UINT16_T 0 12;
     mk_field "heading" MAVLINK_TYPE_UINT16_T 0 14; mk_field "velocity" MAVLINK_TYPE_UINT16_T 0 16;
     mk_field "turn_rate" MAVLINK_TYPE_INT8_T 0 26; mk_field "navigational_status" MAVLINK_TYPE_UINT8_T 0 27;
     mk_field "type" MAVLINK_TYPE_UINT8_T 0 28; mk_field "dimension_bow" MAVLINK_TYPE_UINT16_T 0 18;
     mk_field "dimension_stern" MAVLINK_TYPE_UINT16_T 0 20; mk_field "dimension_port" MAVLINK_TYPE_UINT8_T 0 29;
     mk_field "dimension_starboard" MAVLINK_TYPE_UINT8_T 0 30; mk_field "callsign" MAVLINK_TYPE_CHAR 7 31;
     mk_field "name" MAVLINK_TYPE_CHAR 20 38; mk_field "tslc" MAVLINK_TYPE_UINT16_T 0 22;
     mk_field "flags" MAVLINK_TYPE_UINT16_T 0 24]
    [put uint32_t 0 "MMSI"; put int32_t 4 "lat"; put int32_t 8 "lon"; put uint16_t 12 "COG";
     put uint16_t 14 "heading"; put uint16_t 16 "velocity"; put uint16_t 18 "dimension_bow";
     put uint16_t 20 "dimension_stern"; put uint16_t 22 "tslc"; put uint16_t 24 "flags"; put int8_t 26 "turn_rate";
     put uint8_t 27 "navigational_status"; put uint8_t 28 "type"; put uint8_t 29 "dimension_port";
     put uint8_t 30 "dimension_starboard"; put_array char_t 31 "callsign" 7; put_array char_t 38 "name" 20]
    [assign "MMSI" "MMSI"; assign "lat" "lat"; assign "lon" "lon"; assign "COG" "COG"; assign "heading" "heading";
     assign "velocity" "velocity"; assign "dimension_bow" "dimension_bow"; assign "dimension_stern" "dimension_stern";
     assign "tslc" "tslc"; assign "flags" "flags"; assign "turn_rate" "turn_rate";
     assign "navigational_status" "navigational_status"; assign "type" "type";
     assign "dimension_port" "dimension_port"; assign "dimension_starboard" "dimension_starboard";
     copy_array "callsign" "callsign" char_t 7; copy_array "name" "name" char_t 20].
Definition GET_AIS_VESSEL : list getter :=
    [mk_getter "MMSI" uint32_t 0 0; mk_getter "lat" int32_t 0 4; mk_getter "lon" int32_t 0 8;
     mk_getter "COG" uint16_t 0 12; mk_getter "heading" uint16_t 0 14; mk_getter "velocity" uint16_t 0 16;
     mk_getter "turn_rate" int8_t 0 26; mk_getter "navigational_status" uint8_t 0 27; mk_getter "type" uint8_t 0 28;
     mk_getter "dimension_bow" uint16_t 0 18; mk_getter "dimension_stern" uint16_t 0 20;
     mk_getter "dimension_port" uint8_t 0 29; mk_getter "dimension_starboard" uint8_t 0 30;
     mk_getter "callsign" char_t 7 31; mk_getter "name" char_t 20 38; mk_getter "tslc" uint16_t 0 22;
     mk_getter "flags" uint16_t 0 24].

Definition MSG_UAVCAN_NODE_STATUS : mav_message :=
  mk_message 310 "UAVCAN_NODE_STATUS" 17 17 28 false
    [mk_member uint64_t "time_usec" 0; mk_member uint32_t "uptime_sec" 0;
     mk_member uint16_t "vendor_specific_status_code" 0; mk_member uint8_t "health" 0; mk_member uint8_t "mode" 0;
     mk_member uint8_t "sub_mode" 0]
    [mk_field "time_usec" MAVLINK_TYPE_UINT64_T 0 0; mk_field "uptime_sec" MAVLINK_TYPE_UINT32_T 0 8;
     mk_field "health" MAVLINK_TYPE_UINT8_T 0 14; mk_field "mode" MAVLINK_TYPE_UINT8_T 0 15;
     mk_field "sub_mode" MAVLINK_TYPE_UINT8_T 0 16; mk_field "vendor_specific_status_code" MAVLINK_TYPE_UINT16_T 0 12]
    [put uint64_t 0 "time_usec"; put uint32_t 8 "uptime_sec"; put uint16_t 12 "vendor_specific_status_code";
     put uint8_t 14 "health"; put uint8_t 15 "mode"; put uint8_t 16 "sub_mode"]
    [assign "time_usec" "time_usec"; assign "uptime_sec" "uptime_sec";
     assign "vendor_specific_status_code" "vendor_specific_status_code"; assign "health" "health";
     assign "mode" "mode"; assign "sub_mode" "sub_mode"].
Definition GET_UAVCAN_NODE_STATUS : list getter :=
    [mk_getter "time_usec" uint64_t 0 0; mk_getter "uptime_sec" uint32_t 0 8; mk_getter "health" uint8_t 0 14;
     mk_getter "mode" uint8_t 0 15; mk_getter "sub_mode" uint8_t 0 16;
     mk_getter "vendor_specific_status_code" uint16_t 0 12].

Definition MSG_UAVCAN_NODE_INFO : mav_message :=
  mk_message 311 "UAVCAN_NODE_INFO" 116 116 95 false
    [mk_member uint64_t "time_usec" 0; mk_member uint32_t "uptime_sec" 0; mk_member uint32_t "sw_vcs_commit" 0;
     mk_member char_t "name" 80; mk_member uint8_t "hw_version_major" 0; mk_member uint8_t "hw_version_minor" 0;
     mk_member uint8_t "hw_unique_id" 16; mk_member uint8_t "sw_version_major" 0;
     mk_member uint8_t "sw_version_minor" 0]
    [mk_field "time_usec" MAVLINK_TYPE_UINT64_T 0 0; mk_field "uptime_sec" MAVLINK_TYPE_UINT32_T 0 8;
     mk_field "name" MAVLINK_TYPE_CHAR 80 16; mk_field "hw_version_major" MAVLINK_TYPE_UINT8_T 0 96;
     mk_field "hw_version_minor" MAVLINK_TYPE_UINT8_T 0 97; mk_field "hw_unique_id" MAVLINK_TYPE_UINT8_T 16 98;
     mk_field "sw_version_major" MAVLINK_TYPE_UINT8_T 0 114; mk_field "sw_version_minor" MAVLINK_TYPE_UINT8_T 0 115;
     mk_field "sw_vcs_commit" MAVLINK_TYPE_UINT32_T 0 12]
    [put uint64_t 0 "time_usec"; put uint32_t 8 "uptime_sec"; put uint32_t 12 "sw_vcs_commit";
     put uint8_t 96 "hw_version_major"; put uint8_t 97 "hw_version_minor"; put uint8_t 114 "sw_version_major";
     put uint8_t 115 "sw_version_minor"; put_array char_t 16 "name" 80; put_array uint8_t 98 "hw_unique_id" 16]
    [assign "time_usec" "time_usec"; assign "uptime_sec" "uptime_sec"; assign "sw_vcs_commit" "sw_vcs_commit";
     assign "hw_version_major" "hw_version_major"; assign "hw_version_minor" "hw_version_minor";
     assign "sw_version_major" "sw_version_major"; assign "sw_version_minor" "sw_version_minor";
     copy_array "name" "name" char_t 80; copy_array "hw_unique_id" "hw_unique_id" uint8_t 16].
Definition GET_UAVCAN_NODE_INFO : list getter :=
    [mk_getter "time_usec" uint64_t 0 0; mk_getter "uptime_sec" uint32_t 0 8; mk_getter "name" char_t 80 16;
     mk_getter "hw_version_major" uint8_t 0 96; mk_getter "hw_version_minor" uint8_t 0 97;
     mk_getter "hw_unique_id" uint8_t 16 98; mk_getter "sw_version_major" uint8_t 0 114;
     mk_getter "sw_version_minor" uint8_t 0 115; mk_getter "sw_vcs_commit" uint32_t 0 12].

Definition MSG_PARAM_EXT_REQUEST_READ : mav_message :=
  mk_message 320 "PARAM_EXT_REQUEST_READ" 20 20 243 false
    [mk_member int16_t "param_index" 0; mk_member uint8_t "target_system" 0; mk_member uint8_t "target_component" 0;
     mk_member char_t "param_id" 16]
    [mk_field "target_system" MAVLINK_TYPE_UINT8_T 0 2; mk_field "target_component" MAVLINK_TYPE_UINT8_T 0 3;
     mk_field "param_id" MAVLINK_TYPE_CHAR 16 4; mk_field "param_index" MAVLINK_TYPE_INT16_T 0 0]
    [put int16_t 0 "param_index"; put uint8_t 2 "target_system"; put uint8_t 3 "target_component";
     put_array char_t 4 "param_id" 16]
    [assign "param_index" "param_index"; assign "target_system" "target_system";
     assign "target_component" "target_component"; copy_array "param_id" "param_id" char_t 16].
Definition GET_PARAM_EXT_REQUEST_READ : list getter :=
    [mk_getter "target_system" uint8_t 0 2; mk_getter "target_component" uint8_t 0 3;
     mk_getter "param_id" char_t 16 4; mk_getter "param_index" int16_t 0 0].

Definition MSG_PARAM_EXT_REQUEST_LIST : mav_message :=
  mk_message 321 "PARAM_EXT_REQUEST_LIST" 2 2 88 false
    [mk_member uint8_t "target_system" 0; mk_member uint8_t "target_component" 0]
    [mk_field "target_system" MAVLINK_TYPE_UINT8_T 0 0; mk_field "target_component" MAVLINK_TYPE_UINT8_T 0 1]
    [put uint8_t 0 "target_system"; put uint8_t 1 "target_component"]
    [assign "target_system" "target_system"; assign "target_component" "target_component"].
Definition GET_PARAM_EXT_REQUEST_LIST : list getter :=
    [mk_getter "target_system" uint8_t 0 0; mk_getter "target_component" uint8_t 0 1].

Definition MSG_PARAM_EXT_VALUE : mav_message :=
  mk_message 322 "PARAM_EXT_VALUE" 149 149 243 false
    [mk_member uint16_t "param_count" 0; mk_member uint16_t "param_index" 0; mk_member char_t "param_id" 16;
     mk_member char_t "param_value" 128; mk_member uint8_t "param_type" 0]
    [mk_field "param_id" MAVLINK_TYPE_CHAR 16 4; mk_field "param_value" MAVLINK_TYPE_CHAR 128 20;
     mk_field "param_type" MAVLINK_TYPE_UINT8_T 0 148; mk_field "param_count" MAVLINK_TYPE_UINT16_T 0 0;
     mk_field "param_index" MAVLINK_TYPE_UINT16_T 0 2]
    [put uint16_t 0 "param_count"; put uint16_t 2 "param_index"; put uint8_t 148 "param_type";
     put_array char_t 4 "param_id" 16; put_array char_t 20 "param_value" 128]
    [assign "param_count" "param_count"; assign "param_index" "param_index"; assign "param_type" "param_type";
     copy_array "param_id" "param_id" char_t 16; copy_array "param_value" "param_value" char_t 128].
Definition GET_PARAM_EXT_VALUE : list getter :=
    [mk_getter "param_id" char_t 16 4; mk_getter "param_value" char_t 128 20; mk_getter "param_type" uint8_t 0 148;
     mk_getter "param_count" uint16_t 0 0; mk_getter "param_index" uint16_t 0 2].

Definition MSG_PARAM_EXT_SET : mav_message :=
  mk_message 323 "PARAM_EXT_SET" 147 147 78 false
    [mk_member uint8_t "target_system" 0; mk_member uint8_t "target_component" 0; mk_member char_t "param_id" 16;
     mk_member char_t "param_value" 128; mk_member uint8_t "param_type" 0]
    [mk_field "target_system" MAVLINK_TYPE_UINT8_T 0 0; mk_field "target_component" MAVLINK_TYPE_UINT8_T 0 1;
     mk_field "param_id" MAVLINK_TYPE_CHAR 16 2; mk_field "param_value" MAVLINK_TYPE_CHAR 128 18;
     mk_field "param_type" MAVLINK_TYPE_UINT8_T 0 146]
    [put uint8_t 0 "target_system"; put uint8_t 1 "target_component"; put uint8_t 146 "param_type";
     put_array char_t 2 "param_id" 16; put_array char_t 18 "param_value" 128]
    [assign "target_system" "target_system"; assign "target_component" "target_component";
     assign "param_type" "param_type"; copy_array "param_id" "param_id" char_t 16;
     copy_array "param_value" "param_value" char_t 128].
Definition GET_PARAM_EXT_SET : list getter :=
    [mk_getter "target_system" uint8_t 0 0; mk_getter "target_component" uint8_t 0 1;
     mk_getter "param_id" char_t 16 2; mk_getter "param_value" char_t 128 18; mk_getter "param_type" uint8_t 0 146].

Definition MSG_PARAM_EXT_ACK : mav_message :=
  mk_message 324 "PARAM_EXT_ACK" 146 146 132 false
    [mk_member char_t "param_id" 16; mk_member char_t "param_value" 128; mk_member uint8_t "param_type" 0;
     mk_member uint8_t "param_result" 0]
    [mk_field "param_id" MAVLINK_TYPE_CHAR 16 0; mk_field "param_value" MAVLINK_TYPE_CHAR 128 16;
     mk_field "param_type" MAVLINK_TYPE_UINT8_T 0 144; mk_field "param_result" MAVLINK_TYPE_UINT8_T 0 145]
    [put uint8_t 144 "param_type"; put uint8_t 145 "param_result"; put_array char_t 0 "param_id" 16;
     put_array char_t 16 "param_value" 128]
    [assign "param_type" "param_type"; assign "param_result" "param_result";
     copy_array "param_id" "param_id" char_t 16; copy_array "param_value" "param_value" char_t 128].
Definition GET_PARAM_EXT_ACK : list getter :=
    [mk_getter "param_id" char_t 16 0; mk_getter "param_value" char_t 128 16; mk_getter "param_type" uint8_t 0 144;
     mk_getter "param_result" uint8_t 0 145].

Definition MSG_OBSTACLE_DISTANCE : mav_message :=
  mk_message 330 "OBSTACLE_DISTANCE" 158 167 23 true
    [mk_member uint64_t "time_usec" 0; mk_member uint16_t "distances" 72; mk_member uint16_t "min_distance" 0;
     mk_member uint16_t "max_distance" 0; mk_member uint8_t "sensor_type" 0; mk_member uint8_t "increment" 0;
     mk_member float_t "increment_f" 0; mk_member float_t "angle_offset" 0; mk_member uint8_t "frame" 0]
    [mk_field "time_usec" MAVLINK_TYPE_UINT64_T 0 0; mk_field "sensor_type" MAVLINK_TYPE_UINT8_T 0 156;
     mk_field "distances" MAVLINK_TYPE_UINT16_T 72 8; mk_field "increment" MAVLINK_TYPE_UINT8_T 0 157;
     mk_field "min_distance" MAVLINK_TYPE_UINT16_T 0 152; mk_field "max_distance" MAVLINK_TYPE_UINT16_T 0 154;
     mk_field "increment_f" MAVLINK_TYPE_FLOAT 0 158; mk_field "angle_offset" MAVLINK_TYPE_FLOAT 0 162;
     mk_field "frame" MAVLINK_TYPE_UINT8_T 0 166]
    [put uint64_t 0 "time_usec"; put uint16_t 152 "min_distance"; put uint16_t 154 "max_distance";
     put uint8_t 156 "sensor_type"; put uint8_t 157 "increment"; put float_t 158 "increment_f";
     put float_t 162 "angle_offset"; put uint8_t 166 "frame"; put_array uint16_t 8 "distances" 72]
    [assign "time_usec" "time_usec"; assign "min_distance" "min_distance"; assign "max_distance" "max_distance";
     assign "sensor_type" "sensor_type"; assign "increment" "increment"; assign "increment_f" "increment_f";
     assign "angle_offset" "angle_offset"; assign "frame" "frame"; copy_array "distances" "distances" uint16_t 72].
Definition GET_OBSTACLE_DISTANCE : list getter :=
    [mk_getter "time_usec" uint64_t 0 0; mk_getter "sensor_type" uint8_t 0 156; mk_getter "distances" uint16_t 72 8;
     mk_getter "increment" uint8_t 0 157; mk_getter "min_distance" uint16_t 0 152;
     mk_getter "max_distance" uint16_t 0 154; mk_getter "increment_f" float_t 0 158;
     mk_getter "angle_offset" float_t 0 162; mk_getter "frame" uint8_t 0 166].

Definition MSG_ODOMETRY : mav_message :=
  mk_message 331 "ODOMETRY" 230 233 91 false
    [mk_member uint64_t "time_usec" 0; mk_member float_t "x" 0; mk_member float_t "y" 0; mk_member float_t "z" 0;
     mk_member float_t "q" 4; mk_member float_t "vx" 0; mk_member float_t "vy" 0; mk_member float_t "vz" 0;
     mk_member float_t "rollspeed" 0; mk_member float_t "pitchspeed" 0; mk_member float_t "yawspeed" 0;
     mk_member float_t "pose_covariance" 21; mk_member float_t "velocity_covariance" 21;
     mk_member uint8_t "frame_id" 0; mk_member uint8_t "child_frame_id" 0; mk_member uint8_t "reset_counter" 0;
     mk_member uint8_t "estimator_type" 0; mk_member int8_t "quality" 0]
    [mk_field "time_usec" MAVLINK_TYPE_UINT64_T 0 0; mk_field "frame_id" MAVLINK_TYPE_UINT8_T 0 228;
     mk_field "child_frame_id" MAVLINK_TYPE_UINT8_T 0 229; mk_field "x" MAVLINK_TYPE_FLOAT 0 8;
     mk_field "y" MAVLINK_TYPE_FLOAT 0 12; mk_field "z" MAVLINK_TYPE_FLOAT 0 16; mk_field "q" MAVLINK_TYPE_FLOAT 4 20;
     mk_field "vx" MAVLINK_TYPE_FLOAT 0 36; mk_field "vy" MAVLINK_TYPE_FLOAT 0 40;
     mk_field "vz" MAVLINK_TYPE_FLOAT 0 44; mk_field "rollspeed" MAVLINK_TYPE_FLOAT 0 48;
     mk_field "pitchspeed" MAVLINK_TYPE_FLOAT 0 52; mk_field "yawspeed" MAVLINK_TYPE_FLOAT 0 56;
     mk_field "pose_covariance" MAVLINK_TYPE_FLOAT 21 60; mk_field "velocity_covariance" MAVLINK_TYPE_FLOAT 21 144;
     mk_field "reset_counter" MAVLINK_TYPE_UINT8_T 0 230; mk_field "estimator_type" MAVLINK_TYPE_UINT8_T 0 231;
     mk_field "quality" MAVLINK_TYPE_INT8_T 0 232]
    [put uint64_t 0 "time_usec"; put float_t 8 "x"; put float_t 12 "y"; put float_t 16 "z"; put float_t 36 "vx";
     put float_t 40 "vy"; put float_t 44 "vz"; put float_t 48 "rollspeed"; put float_t 52 "pitchspeed";
     put float_t 56 "yawspeed"; put uint8_t 228 "frame_id"; put uint8_t 229 "child_frame_id";
     put uint8_t 230 "reset_counter"; put uint8_t 231 "estimator_type"; put int8_t 232 "quality";
     put_array float_t 20 "q" 4; put_array float_t 60 "pose_covariance" 21;
     put_array float_t 144 "velocity_covariance" 21]
    [assign "time_usec" "time_usec"; assign "x" "x"; assign "y" "y"; assign "z" "z"; assign "vx" "vx";
     assign "vy" "vy"; assign "vz" "vz"; assign "rollspeed" "rollspeed"; assign "pitchspeed" "pitchspeed";
     assign "yawspeed" "yawspeed"; assign "frame_id" "frame_id"; assign "child_frame_id" "child_frame_id";
     assign "reset_counter" "reset_counter"; assign "estimator_type" "estimator_type"; assign "quality" "quality";
     copy_array "q" "q" float_t 4; copy_array "pose_covariance" "pose_covariance" float_t 21;
     copy_array "velocity_covariance" "velocity_covariance" float_t 21].
Definition GET_ODOMETRY : list getter :=
    [mk_getter "time_usec" uint64_t 0 0; mk_getter "frame_id" uint8_t 0 228; mk_getter "child_frame_id" uint8_t 0 229;
     mk_getter "x" float_t 0 8; mk_getter "y" float_t 0 12; mk_getter "z" float_t 0 16; mk_getter "q" float_t 4 20;
     mk_getter "vx" float_t 0 36; mk_getter "vy" float_t 0 40; mk_getter "vz" float_t 0 44;
     mk_getter "rollspeed" float_t 0 48; mk_getter "pitchspeed" float_t 0 52; mk_getter "yawspeed" float_t 0 56;
     mk_getter "pose_covariance" float_t 21 60; mk_getter "velocity_covariance" float_t 21 144;
     mk_getter "reset_counter" uint8_t 0 230; mk_getter "estimator_type" uint8_t 0 231;
     mk_getter "quality" int8_t 0 232].

Definition MSG_TRAJECTORY_REPRESENTATION_WAYPOINTS : mav_message :=
  mk_message 332 "TRAJECTORY_REPRESENTATION_WAYPOINTS" 239 239 236 false
    [mk_member uint64_t "time_usec" 0; mk_member float_t "pos_x" 5; mk_member float_t "pos_y" 5;
     mk_member float_t "pos_z" 5; mk_member float_t "vel_x" 5; mk_member float_t "vel_y" 5;
     mk_member float_t "vel_z" 5; mk_member float_t "acc_x" 5; mk_member float_t "acc_y" 5;
     mk_member float_t "acc_z" 5; mk_member float_t "pos_yaw" 5; mk_member float_t "vel_yaw" 5;
     mk_member uint16_t "command" 5; mk_member uint8_t "valid_points" 0]
    [mk_field "time_usec" MAVLINK_TYPE_UINT64_T 0 0; mk_field "valid_points" MAVLINK_TYPE_UINT8_T 0 238;
     mk_field "pos_x" MAVLINK_TYPE_FLOAT 5 8; mk_field "pos_y" MAVLINK_TYPE_FLOAT 5 28;
     mk_field "pos_z" MAVLINK_TYPE_FLOAT 5 48; mk_field "vel_x" MAVLINK_TYPE_FLOAT 5 68;
     mk_field "vel_y" MAVLINK_TYPE_FLOAT 5 88; mk_field "vel_z" MAVLINK_TYPE_FLOAT 5 108;
     mk_field "acc_x" MAVLINK_TYPE_FLOAT 5 128; mk_field "acc_y" MAVLINK_TYPE_FLOAT 5 148;
     mk_field "acc_z" MAVLINK_TYPE_FLOAT 5 168; mk_field "pos_yaw" MAVLINK_TYPE_FLOAT 5 188;
     mk_field "vel_yaw" MAVLINK_TYPE_FLOAT 5 208; mk_field "command" MAVLINK_TYPE_UINT16_T 5 228]
    [put uint64_t 0 "time_usec"; put uint8_t 238 "valid_points"; put_array float_t 8 "pos_x" 5;
     put_array float_t 28 "pos_y" 5; put_array float_t 48 "pos_z" 5; put_array float_t 68 "vel_x" 5;
     put_array float_t 88 "vel_y" 5; put_array float_t 108 "vel_z" 5; put_array float_t 128 "acc_x" 5;
     put_array float_t 148 "acc_y" 5; put_array float_t 168 "acc_z" 5; put_array float_t 188 "pos_yaw" 5;
     put_array float_t 208 "vel_yaw" 5; put_array uint16_t 228 "command" 5]
    [assign "time_usec" "time_usec"; assign "valid_points" "valid_points"; copy_array "pos_x" "pos_x" float_t 5;
     copy_array "pos_y" "pos_y" float_t 5; copy_array "pos_z" "pos_z" float_t 5; copy_array "vel_x" "vel_x" float_t 5;
     copy_array "vel_y" "vel_y" float_t 5; copy_array "vel_z" "vel_z" float_t 5; copy_array "acc_x" "acc_x" float_t 5;
     copy_array "acc_y" "acc_y" float_t 5; copy_array "acc_z" "acc_z" float_t 5;
     copy_array "pos_yaw" "pos_yaw" float_t 5; copy_array "vel_yaw" "vel_yaw" float_t 5;
     copy_array "command" "command" uint16_t 5].
Definition GET_TRAJECTORY_REPRESENTATION_WAYPOINTS : list getter :=
    [mk_getter "time_usec" uint64_t 0 0; mk_getter "valid_points" uint8_t 0 238; mk_getter "pos_x" float_t 5 8;
     mk_getter "pos_y" float_t 5 28; mk_getter "pos_z" float_t 5 48; mk_getter "vel_x" float_t 5 68;
     mk_getter "vel_y" float_t 5 88; mk_getter "vel_z" float_t 5 108; mk_getter "acc_x" float_t 5 128;
     mk_getter "acc_y" float_t 5 148; mk_getter "acc_z" float_t 5 168; mk_getter "pos_yaw" float_t 5 188;
     mk_getter "vel_yaw" float_t 5 208; mk_getter "command" uint16_t 5 228].

Definition MSG_TRAJECTORY_REPRESENTATION_BEZIER : mav_message :=
  mk_message 333 "TRAJECTORY_REPRESENTATION_BEZIER" 109 109 231 false
    [mk_member uint64_t "time_usec" 0; mk_member float_t "pos_x" 5; mk_member float_t "pos_y" 5;
     mk_member float_t "pos_z" 5; mk_member float_t "delta" 5; mk_member float_t "pos_yaw" 5;
     mk_member uint8_t "valid_points" 0]
    [mk_field "time_usec" MAVLINK_TYPE_UINT64_T 0 0; mk_field "valid_points" MAVLINK_TYPE_UINT8_T 0 108;
     mk_field "pos_x" MAVLINK_TYPE_FLOAT 5 8; mk_field "pos_y" MAVLINK_TYPE_FLOAT 5 28;
     mk_field "pos_z" MAVLINK_TYPE_FLOAT 5 48; mk_field "delta" MAVLINK_TYPE_FLOAT 5 68;
     mk_field "pos_yaw" MAVLINK_TYPE_FLOAT 5 88]
    [put uint64_t 0 "time_usec"; put uint8_t 108 "valid_points"; put_array float_t 8 "pos_x" 5;
     put_array float_t 28 "pos_y" 5; put_array float_t 48 "pos_z" 5; put_array float_t 68 "delta" 5;
     put_array float_t 88 "pos_yaw" 5]
    [assign "time_usec" "time_usec"; assign "valid_points" "valid_points"; copy_array "pos_x" "pos_x" float_t 5;
     copy_array "pos_y" "pos_y" float_t 5; copy_array "pos_z" "pos_z" float_t 5; copy_array "delta" "delta" float_t 5;
     copy_array "pos_yaw" "pos_yaw" float_t 5].
Definition GET_TRAJECTORY_REPRESENTATION_BEZIER : list getter :=
    [mk_getter "time_usec" uint64_t 0 0; mk_getter "valid_points" uint8_t 0 108; mk_getter "pos_x" float_t 5 8;
     mk_getter "pos_y" float_t 5 28; mk_getter "pos_z" float_t 5 48; mk_getter "delta" float_t 5 68;
     mk_getter "pos_yaw" float_t 5 88].

Definition MSG_CELLULAR_STATUS : mav_message :=
  mk_message 334 "CELLULAR_STATUS" 10 53 72 true
    [mk_member uint16_t "mcc" 0; mk_member uint16_t "mnc" 0; mk_member uint16_t "lac" 0; mk_member uint8_t "status" 0;
     mk_member uint8_t "failure_reason" 0; mk_member uint8_t "type" 0; mk_member uint8_t "quality" 0;
     mk_member uint8_t "id" 0; mk_member uint32_t "link_tx_rate" 0; mk_member uint32_t "link_rx_rate" 0;
     mk_member char_t "cell_tower_id" 9; mk_member uint8_t "band_number" 0; mk_member float_t "band_frequency" 0;
     mk_member uint32_t "channel_number" 0; mk_member float_t "rx_level" 0; mk_member float_t "tx_level" 0;
     mk_member float_t "rx_quality" 0; mk_member float_t "sinr" 0]
    [mk_field "status" MAVLINK_TYPE_UINT8_T 0 6; mk_field "failure_reason" MAVLINK_TYPE_UINT8_T 0 7;
     mk_field "type" MAVLINK_TYPE_UINT8_T 0 8; mk_field "quality" MAVLINK_TYPE_UINT8_T 0 9;
     mk_field "mcc" MAVLINK_TYPE_UINT16_T 0 0; mk_field "mnc" MAVLINK_TYPE_UINT16_T 0 2;
     mk_field "lac" MAVLINK_TYPE_UINT16_T 0 4; mk_field "id" MAVLINK_TYPE_UINT8_T 0 10;
     mk_field "link_tx_rate" MAVLINK_TYPE_UINT32_T 0 11; mk_field "link_rx_rate" MAVLINK_TYPE_UINT32_T 0 15;
     mk_field "cell_tower_id" MAVLINK_TYPE_CHAR 9 19; mk_field "band_number" MAVLINK_TYPE_UINT8_T 0 28;
     mk_field "band_frequency" MAVLINK_TYPE_FLOAT 0 29; mk_field "channel_number" MAVLINK_TYPE_UINT32_T 0 33;
     mk_field "rx_level" MAVLINK_TYPE_FLOAT 0 37; mk_field "tx_level" MAVLINK_TYPE_FLOAT 0 41;
     mk_field "rx_quality" MAVLINK_TYPE_FLOAT 0 45; mk_field "sinr" MAVLINK_TYPE_FLOAT 0 49]
    [put uint16_t 0 "mcc"; put uint16_t 2 "mnc"; put uint16_t 4 "lac"; put uint8_t 6 "status";
     put uint8_t 7 "failure_reason"; put uint8_t 8 "type"; put uint8_t 9 "quality"; put uint8_t 10 "id";
     put uint32_t 11 "link_tx_rate"; put uint32_t 15 "link_rx_rate"; put uint8_t 28 "band_number";
     put float_t 29 "band_frequency"; put uint32_t 33 "channel_number"; put float_t 37 "rx_level";
     put float_t 41 "tx_level"; put float_t 45 "rx_quality"; put float_t 49 "sinr";
     put_array char_t 19 "cell_tower_id" 9]
    [assign "mcc" "mcc"; assign "mnc" "mnc"; assign "lac" "lac"; assign "status" "status";
     assign "failure_reason" "failure_reason"; assign "type" "type"; assign "quality" "quality"; assign "id" "id";
     assign "link_tx_rate" "link_tx_rate"; assign "link_rx_rate" "link_rx_rate"; assign "band_number" "band_number";
     assign "band_frequency" "band_frequency"; assign "channel_number" "channel_number"; assign "rx_level" "rx_level";
     assign "tx_level" "tx_level"; assign "rx_quality" "rx_quality"; assign "sinr" "sinr";
     copy_array "cell_tower_id" "cell_tower_id" char_t 9].
Definition GET_CELLULAR_STATUS : list getter :=
    [mk_getter "status" uint8_t 0 6; mk_getter "failure_reason" uint8_t 0 7; mk_getter "type" uint8_t 0 8;
     mk_getter "quality" uint8_t 0 9; mk_getter "mcc" uint16_t 0 0; mk_getter "mnc" uint16_t 0 2;
     mk_getter "lac" uint16_t 0 4; mk_getter "id" uint8_t 0 10; mk_getter "link_tx_rate" uint32_t 0 11;
     mk_getter "link_rx_rate" uint32_t 0 15; mk_getter "cell_tower_id" char_t 9 19;
     mk_getter "band_number" uint8_t 0 28; mk_getter "band_frequency" float_t 0 29;
     mk_getter "channel_number" uint32_t 0 33; mk_getter "rx_level" float_t 0 37; mk_getter "tx_level" float_t 0 41;
     mk_getter "rx_quality" float_t 0 45; mk_getter "sinr" float_t 0 49].

Definition MSG_ISBD_LINK_STATUS : mav_message :=
  mk_message 335 "ISBD_LINK_STATUS" 24 24 225 false
    [mk_member uint64_t "timestamp" 0; mk_member uint64_t "last_heartbeat" 0; mk_member uint16_t "failed_sessions" 0;
     mk_member uint16_t "successful_sessions" 0; mk_member uint8_t "signal_quality" 0;
     mk_member uint8_t "ring_pending" 0; mk_member uint8_t "tx_session_pending" 0;
     mk_member uint8_t "rx_session_pending" 0]
    [mk_field "timestamp" MAVLINK_TYPE_UINT64_T 0 0; mk_field "last_heartbeat" MAVLINK_TYPE_UINT64_T 0 8;
     mk_field "failed_sessions" MAVLINK_TYPE_UINT16_T 0 16; mk_field "successful_sessions" MAVLINK_TYPE_UINT16_T 0 18;
     mk_field "signal_quality" MAVLINK_TYPE_UINT8_T 0 20; mk_field "ring_pending" MAVLINK_TYPE_UINT8_T 0 21;
     mk_field "tx_session_pending" MAVLINK_TYPE_UINT8_T 0 22; mk_field "rx_session_pending" MAVLINK_TYPE_UINT8_T 0 23]
    [put uint64_t 0 "timestamp"; put uint64_t 8 "last_heartbeat"; put uint16_t 16 "failed_sessions";
     put uint16_t 18 "successful_sessions"; put uint8_t 20 "signal_quality"; put uint8_t 21 "ring_pending";
     put uint8_t 22 "tx_session_pending"; put uint8_t 23 "rx_session_pending"]
    [assign "timestamp" "timestamp"; assign "last_heartbeat" "last_heartbeat";
     assign "failed_sessions" "failed_sessions"; assign "successful_sessions" "successful_sessions";
     assign "signal_quality" "signal_quality"; assign "ring_pending" "ring_pending";
     assign "tx_session_pending" "tx_session_pending"; assign "rx_session_pending" "rx_session_pending"].
Definition GET_ISBD_LINK_STATUS : list getter :=
    [mk_getter "timestamp" uint64_t 0 0; mk_getter "last_heartbeat" uint64_t 0 8;
     mk_getter "failed_sessions" uint16_t 0 16; mk_getter "successful_sessions" uint16_t 0 18;
     mk_getter "signal_quality" uint8_t 0 20; mk_getter "ring_pending" uint8_t 0 21;
     mk_getter "tx_session_pending" uint8_t 0 22; mk_getter "rx_session_pending" uint8_t 0 23].

Definition MSG_CELLULAR_CONFIG : mav_message :=
  mk_message 336 "CELLULAR_CONFIG" 84 84 245 false
    [mk_member uint8_t "enable_lte" 0; mk_member uint8_t "enable_pin" 0; mk_member char_t "pin" 16;
     mk_member char_t "new_pin" 16; mk_member char_t "apn" 32; mk_member char_t "puk" 16;
     mk_member uint8_t "roaming" 0; mk_member uint8_t "response" 0]
    [mk_field "enable_lte" MAVLINK_TYPE_UINT8_T 0 0; mk_field "enable_pin" MAVLINK_TYPE_UINT8_T 0 1;
     mk_field "pin" MAVLINK_TYPE_CHAR 16 2; mk_field "new_pin" MAVLINK_TYPE_CHAR 16 18;
     mk_field "apn" MAVLINK_TYPE_CHAR 32 34; mk_field "puk" MAVLINK_TYPE_CHAR 16 66;
     mk_field "roaming" MAVLINK_TYPE_UINT8_T 0 82; mk_field "response" MAVLINK_TYPE_UINT8_T 0 83]
    [put uint8_t 0 "enable_lte"; put uint8_t 1 "enable_pin"; put uint8_t 82 "roaming"; put uint8_t 83 "response";
     put_array char_t 2 "pin" 16; put_array char_t 18 "new_pin" 16; put_array char_t 34 "apn" 32;
     put_array char_t 66 "puk" 16]
    [assign "enable_lte" "enable_lte"; assign "enable_pin" "enable_pin"; assign "roaming" "roaming";
     assign "response" "response"; copy_array "pin" "pin" char_t 16; copy_array "new_pin" "new_pin" char_t 16;
     copy_array "apn" "apn" char_t 32; copy_array "puk" "puk" char_t 16].
Definition GET_CELLULAR_CONFIG : list getter :=
    [mk_getter "enable_lte" uint8_t 0 0; mk_getter "enable_pin" uint8_t 0 1; mk_getter "pin" char_t 16 2;
     mk_getter "new_pin" char_t 16 18; mk_getter "apn" char_t 32 34; mk_getter "puk" char_t 16 66;
     mk_getter "roaming" uint8_t 0 82; mk_getter "response" uint8_t 0 83].

Definition MSG_RAW_RPM : mav_message :=
  mk_message 339 "RAW_RPM" 5 5 199 false
    [mk_member float_t "frequency" 0; mk_member uint8_t "index" 0]
    [mk_field "index" MAVLINK_TYPE_UINT8_T 0 4; mk_field "frequency" MAVLINK_TYPE_FLOAT 0 0]
    [put float_t 0 "frequency"; put uint8_t 4 "index"]
    [assign "frequency" "frequency"; assign "index" "index"].
Definition GET_RAW_RPM : list getter :=
    [mk_getter "index" uint8_t 0 4; mk_getter "frequency" float_t 0 0].

Definition MSG_UTM_GLOBAL_POSITION : mav_message :=
  mk_message 340 "UTM_GLOBAL_POSITION" 70 70 99 false
    [mk_member uint64_t "time" 0; mk_member int32_t "lat" 0; mk_member int32_t "lon" 0; mk_member int32_t "alt" 0;
     mk_member int32_t "relative_alt" 0; mk_member int32_t "next_lat" 0; mk_member int32_t "next_lon" 0;
     mk_member int32_t "next_alt" 0; mk_member int16_t "vx" 0; mk_member int16_t "vy" 0; mk_member int16_t "vz" 0;
     mk_member uint16_t "h_acc" 0; mk_member uint16_t "v_acc" 0; mk_member uint16_t "vel_acc" 0;
     mk_member uint16_t "update_rate" 0; mk_member uint8_t "uas_id" 18; mk_member uint8_t "flight_state" 0;
     mk_member uint8_t "flags" 0]
    [mk_field "time" MAVLINK_TYPE_UINT64_T 0 0; mk_field "uas_id" MAVLINK_TYPE_UINT8_T 18 50;
     mk_field "lat" MAVLINK_TYPE_INT32_T 0 8; mk_field "lon" MAVLINK_TYPE_INT32_T 0 12;
     mk_field "alt" MAVLINK_TYPE_INT32_T 0 16; mk_field "relative_alt" MAVLINK_TYPE_INT32_T 0 20;
     mk_field "vx" MAVLINK_TYPE_INT16_T 0 36; mk_field "vy" MAVLINK_TYPE_INT16_T 0 38;
     mk_field "vz" MAVLINK_TYPE_INT16_T 0 40; mk_field "h_acc" MAVLINK_TYPE_UINT16_T 0 42;
     mk_field "v_acc" MAVLINK_TYPE_UINT16_T 0 44; mk_field "vel_acc" MAVLINK_TYPE_UINT16_T 0 46;
     mk_field "next_lat" MAVLINK_TYPE_INT32_T 0 24; mk_field "next_lon" MAVLINK_TYPE_INT32_T 0 28;
     mk_field "next_alt" MAVLINK_TYPE_INT32_T 0 32; mk_field "update_rate" MAVLINK_TYPE_UINT16_T 0 48;
     mk_field "flight_state" MAVLINK_TYPE_UINT8_T 0 68; mk_field "flags" MAVLINK_TYPE_UINT8_T 0 69]
    [put uint64_t 0 "time"; put int32_t 8 "lat"; put int32_t 12 "lon"; put int32_t 16 "alt";
     put int32_t 20 "relative_alt"; put int32_t 24 "next_lat"; put int32_t 28 "next_lon"; put int32_t 32 "next_alt";
     put int16_t 36 "vx"; put int16_t 38 "vy"; put int16_t 40 "vz"; put uint16_t 42 "h_acc"; put uint16_t 44 "v_acc";
     put uint16_t 46 "vel_acc"; put uint16_t 48 "update_rate"; put uint8_t 68 "flight_state"; put uint8_t 69 "flags";
     put_array uint8_t 50 "uas_id" 18]
    [assign "time" "time"; assign "lat" "lat"; assign "lon" "lon"; assign "alt" "alt";
     assign "relative_alt" "relative_alt"; assign "next_lat" "next_lat"; assign "next_lon" "next_lon";
     assign "next_alt" "next_alt"; assign "vx" "vx"; assign "vy" "vy"; assign "vz" "vz"; assign "h_acc" "h_acc";
     assign "v_acc" "v_acc"; assign "vel_acc" "vel_acc"; assign "update_rate" "update_rate";
     assign "flight_state" "flight_state"; assign "flags" "flags"; copy_array "uas_id" "uas_id" uint8_t 18].
Definition GET_UTM_GLOBAL_POSITION : list getter :=
    [mk_getter "time" uint64_t 0 0; mk_getter "uas_id" uint8_t 18 50; mk_getter "lat" int32_t 0 8;
     mk_getter "lon" int32_t 0 12; mk_getter "alt" int32_t 0 16; mk_getter "relative_alt" int32_t 0 20;
     mk_getter "vx" int16_t 0 36; mk_getter "vy" int16_t 0 38; mk_getter "vz" int16_t 0 40;
     mk_getter "h_acc" uint16_t 0 42; mk_getter "v_acc" uint16_t 0 44; mk_getter "vel_acc" uint16_t 0 46;
     mk_getter "next_lat" int32_t 0 24; mk_getter "next_lon" int32_t 0 28; mk_getter "next_alt" int32_t 0 32;
     mk_getter "update_rate" uint16_t 0 48; mk_getter "flight_state" uint8_t 0 68; mk_getter "flags" uint8_t 0 69].

Definition MSG_PARAM_ERROR : mav_message :=
  mk_message 345 "PARAM_ERROR" 21 21 209 false
    [mk_member int16_t "param_index" 0; mk_member uint8_t "target_system" 0; mk_member uint8_t "target_component" 0;
     mk_member char_t "param_id" 16; mk_member uint8_t "error" 0]
    [mk_field "target_system" MAVLINK_TYPE_UINT8_T 0 2; mk_field "target_component" MAVLINK_TYPE_UINT8_T 0 3;
     mk_field "param_id" MAVLINK_TYPE_CHAR 16 4; mk_field "param_index" MAVLINK_TYPE_INT16_T 0 0;
     mk_field "error" MAVLINK_TYPE_UINT8_T 0 20]
    [put int16_t 0 "param_index"; put uint8_t 2 "target_system"; put uint8_t 3 "target_component";
     put uint8_t 20 "error"; put_array char_t 4 "param_id" 16]
    [assign "param_index" "param_index"; assign "target_system" "target_system";
     assign "target_component" "target_component"; assign "error" "error"; copy_array "param_id" "param_id" char_t 16].
Definition GET_PARAM_ERROR : list getter :=
    [mk_getter "target_system" uint8_t 0 2; mk_getter "target_component" uint8_t 0 3;
     mk_getter "param_id" char_t 16 4; mk_getter "param_index" int16_t 0 0; mk_getter "error" uint8_t 0 20].

Definition MSG_DEBUG_FLOAT_ARRAY : mav_message :=
  mk_message 350 "DEBUG_FLOAT_ARRAY" 20 252 232 false
    [mk_member uint64_t "time_usec" 0; mk_member uint16_t "array_id" 0; mk_member char_t "name" 10;
     mk_member float_t "data" 58]
    [mk_field "time_usec" MAVLINK_TYPE_UINT64_T 0 0; mk_field "name" MAVLINK_TYPE_CHAR 10 10;
     mk_field "array_id" MAVLINK_TYPE_UINT16_T 0 8; mk_field "data" MAVLINK_TYPE_FLOAT 58 20]
    [put uint64_t 0 "time_usec"; put uint16_t 8 "array_id"; put_array char_t 10 "name" 10;
     put_array float_t 20 "data" 58]
    [assign "time_usec" "time_usec"; assign "array_id" "array_id"; copy_array "name" "name" char_t 10;
     copy_array "data" "data" float_t 58].
Definition GET_DEBUG_FLOAT_ARRAY : list getter :=
    [mk_getter "time_usec" uint64_t 0 0; mk_getter "name" char_t 10 10; mk_getter "array_id" uint16_t 0 8;
     mk_getter "data" float_t 58 20].

Definition MSG_ORBIT_EXECUTION_STATUS : mav_message :=
  mk_message 360 "ORBIT_EXECUTION_STATUS" 25 25 11 false
    [mk_member uint64_t "time_usec" 0; mk_member float_t "radius" 0; mk_member int32_t "x" 0; mk_member int32_t "y" 0;
     mk_member float_t "z" 0; mk_member uint8_t "frame" 0]
    [mk_field "time_usec" MAVLINK_TYPE_UINT64_T 0 0; mk_field "radius" MAVLINK_TYPE_FLOAT 0 8;
     mk_field "frame" MAVLINK_TYPE_UINT8_T 0 24; mk_field "x" MAVLINK_TYPE_INT32_T 0 12;
     mk_field "y" MAVLINK_TYPE_INT32_T 0 16; mk_field "z" MAVLINK_TYPE_FLOAT 0 20]
    [put uint64_t 0 "time_usec"; put float_t 8 "radius"; put int32_t 12 "x"; put int32_t 16 "y"; put float_t 20 "z";
     put uint8_t 24 "frame"]
    [assign "time_usec" "time_usec"; assign "radius" "radius"; assign "x" "x"; assign "y" "y"; assign "z" "z";
     assign "frame" "frame"].
Definition GET_ORBIT_EXECUTION_STATUS : list getter :=
    [mk_getter "time_usec" uint64_t 0 0; mk_getter "radius" float_t 0 8; mk_getter "frame" uint8_t 0 24;
     mk_getter "x" int32_t 0 12; mk_getter "y" int32_t 0 16; mk_getter "z" float_t 0 20].

Definition MSG_FIGURE_EIGHT_EXECUTION_STATUS : mav_message :=
  mk_message 361 "FIGURE_EIGHT_EXECUTION_STATUS" 33 33 93 false
    [mk_member uint64_t "time_usec" 0; mk_member float_t "major_radius" 0; mk_member float_t "minor_radius" 0;
     mk_member float_t "orientation" 0; mk_member int32_t "x" 0; mk_member int32_t "y" 0; mk_member float_t "z" 0;
     mk_member uint8_t "frame" 0]
    [mk_field "time_usec" MAVLINK_TYPE_UINT64_T 0 0; mk_field "major_radius" MAVLINK_TYPE_FLOAT 0 8;
     mk_field "minor_radius" MAVLINK_TYPE_FLOAT 0 12; mk_field "orientation" MAVLINK_TYPE_FLOAT 0 16;
     mk_field "frame" MAVLINK_TYPE_UINT8_T 0 32; mk_field "x" MAVLINK_TYPE_INT32_T 0 20;
     mk_field "y" MAVLINK_TYPE_INT32_T 0 24; mk_field "z" MAVLINK_TYPE_FLOAT 0 28]
    [put uint64_t 0 "time_usec"; put float_t 8 "major_radius"; put float_t 12 "minor_radius";
     put float_t 16 "orientation"; put int32_t 20 "x"; put int32_t 24 "y"; put float_t 28 "z"; put uint8_t 32 "frame"]
    [assign "time_usec" "time_usec"; assign "major_radius" "major_radius"; assign "minor_radius" "minor_radius";
     assign "orientation" "orientation"; assign "x" "x"; assign "y" "y"; assign "z" "z"; assign "frame" "frame"].
Definition GET_FIGURE_EIGHT_EXECUTION_STATUS : list getter :=
    [mk_getter "time_usec" uint64_t 0 0; mk_getter "major_radius" float_t 0 8; mk_getter "minor_radius" float_t 0 12;
     mk_getter "orientation" float_t 0 16; mk_getter "frame" uint8_t 0 32; mk_getter "x" int32_t 0 20;
     mk_getter "y" int32_t 0 24; mk_getter "z" float_t 0 28].

Definition MSG_SMART_BATTERY_INFO : mav_message :=
  mk_message 370 "SMART_BATTERY_INFO" 87 109 75 true
    [mk_member int32_t "capacity_full_specification" 0; mk_member int32_t "capacity_full" 0;
     mk_member uint16_t "cycle_count" 0; mk_member uint16_t "weight" 0;
     mk_member uint16_t "discharge_minimum_voltage" 0; mk_member uint16_t "charging_minimum_voltage" 0;
     mk_member uint16_t "resting_minimum_voltage" 0; mk_member uint8_t "id" 0; mk_member uint8_t "battery_function" 0;
     mk_member uint8_t "type" 0; mk_member char_t "serial_number" 16; mk_member char_t "device_name" 50;
     mk_member uint16_t "charging_maximum_voltage" 0; mk_member uint8_t "cells_in_series" 0;
     mk_member uint32_t "discharge_maximum_current" 0; mk_member uint32_t "discharge_maximum_burst_current" 0;
     mk_member char_t "manufacture_date" 11]
    [mk_field "id" MAVLINK_TYPE_UINT8_T 0 18; mk_field "battery_function" MAVLINK_TYPE_UINT8_T 0 19;
     mk_field "type" MAVLINK_TYPE_UINT8_T 0 20; mk_field "capacity_full_specification" MAVLINK_TYPE_INT32_T 0 0;
     mk_field "capacity_full" MAVLINK_TYPE_INT32_T 0 4; mk_field "cycle_count" MAVLINK_TYPE_UINT16_T 0 8;
     mk_field "serial_number" MAVLINK_TYPE_CHAR 16 21; mk_field "device_name" MAVLINK_TYPE_CHAR 50 37;
     mk_field "weight" MAVLINK_TYPE_UINT16_T 0 10; mk_field "discharge_minimum_voltage" MAVLINK_TYPE_UINT16_T 0 12;
     mk_field "charging_minimum_voltage" MAVLINK_TYPE_UINT16_T 0 14;
     mk_field "resting_minimum_voltage" MAVLINK_TYPE_UINT16_T 0 16;
     mk_field "charging_maximum_voltage" MAVLINK_TYPE_UINT16_T 0 87;
     mk_field "cells_in_series" MAVLINK_TYPE_UINT8_T 0 89;
     mk_field "discharge_maximum_current" MAVLINK_TYPE_UINT32_T 0 90;
     mk_field "discharge_maximum_burst_current" MAVLINK_TYPE_UINT32_T 0 94;
     mk_field "manufacture_date" MAVLINK_TYPE_CHAR 11 98]
    [put int32_t 0 "capacity_full_specification"; put int32_t 4 "capacity_full"; put uint16_t 8 "cycle_count";
     put uint16_t 10 "weight"; put uint16_t 12 "discharge_minimum_voltage";
     put uint16_t 14 "charging_minimum_voltage"; put uint16_t 16 "resting_minimum_voltage"; put uint8_t 18 "id";
     put uint8_t 19 "battery_function"; put uint8_t 20 "type"; put uint16_t 87 "charging_maximum_voltage";
     put uint8_t 89 "cells_in_series"; put uint32_t 90 "discharge_maximum_current";
     put uint32_t 94 "discharge_maximum_burst_current"; put_array char_t 21 "serial_number" 16;
     put_array char_t 37 "device_name" 50; put_array char_t 98 "manufacture_date" 11]
    [assign "capacity_full_specification" "capacity_full_specification"; assign "capacity_full" "capacity_full";
     assign "cycle_count" "cycle_count"; assign "weight" "weight";
     assign "discharge_minimum_voltage" "discharge_minimum_voltage";
     assign "charging_minimum_voltage" "charging_minimum_voltage";
     assign "resting_minimum_voltage" "resting_minimum_voltage"; assign "id" "id";
     assign "battery_function" "battery_function"; assign "type" "type";
     assign "charging_maximum_voltage" "charging_maximum_voltage"; assign "cells_in_series" "cells_in_series";
     assign "discharge_maximum_current" "discharge_maximum_current";
     assign "discharge_maximum_burst_current" "discharge_maximum_burst_current";
     copy_array "serial_number" "serial_number" char_t 16; copy_array "device_name" "device_name" char_t 50;
     copy_array "manufacture_date" "manufacture_date" char_t 11].
Definition GET_SMART_BATTERY_INFO : list getter :=
    [mk_getter "id" uint8_t 0 18; mk_getter "battery_function" uint8_t 0 19; mk_getter "type" uint8_t 0 20;
     mk_getter "capacity_full_specification" int32_t 0 0; mk_getter "capacity_full" int32_t 0 4;
     mk_getter "cycle_count" uint16_t 0 8; mk_getter "serial_number" char_t 16 21;
     mk_getter "device_name" char_t 50 37; mk_getter "weight" uint16_t 0 10;
     mk_getter "discharge_minimum_voltage" uint16_t 0 12; mk_getter "charging_minimum_voltage" uint16_t 0 14;
     mk_getter "resting_minimum_voltage" uint16_t 0 16; mk_getter "charging_maximum_voltage" uint16_t 0 87;
     mk_getter "cells_in_series" uint8_t 0 89; mk_getter "discharge_maximum_current" uint32_t 0 90;
     mk_getter "discharge_maximum_burst_current" uint32_t 0 94; mk_getter "manufacture_date" char_t 11 98].

Definition MSG_FUEL_STATUS : mav_message :=
  mk_message 371 "FUEL_STATUS" 26 26 10 false
    [mk_member float_t "maximum_fuel" 0; mk_member float_t "consumed_fuel" 0; mk_member float_t "remaining_fuel" 0;
     mk_member float_t "flow_rate" 0; mk_member float_t "temperature" 0; mk_member uint32_t "fuel_type" 0;
     mk_member uint8_t "id" 0; mk_member uint8_t "percent_remaining" 0]
    [mk_field "id" MAVLINK_TYPE_UINT8_T 0 24; mk_field "maximum_fuel" MAVLINK_TYPE_FLOAT 0 0;
     mk_field "consumed_fuel" MAVLINK_TYPE_FLOAT 0 4; mk_field "remaining_fuel" MAVLINK_TYPE_FLOAT 0 8;
     mk_field "percent_remaining" MAVLINK_TYPE_UINT8_T 0 25; mk_field "flow_rate" MAVLINK_TYPE_FLOAT 0 12;
     mk_field "temperature" MAVLINK_TYPE_FLOAT 0 16; mk_field "fuel_type" MAVLINK_TYPE_UINT32_T 0 20]
    [put float_t 0 "maximum_fuel"; put float_t 4 "consumed_fuel"; put float_t 8 "remaining_fuel";
     put float_t 12 "flow_rate"; put float_t 16 "temperature"; put uint32_t 20 "fuel_type"; put uint8_t 24 "id";
     put uint8_t 25 "percent_remaining"]
    [assign "maximum_fuel" "maximum_fuel"; assign "consumed_fuel" "consumed_fuel";
     assign "remaining_fuel" "remaining_fuel"; assign "flow_rate" "flow_rate"; assign "temperature" "temperature";
     assign "fuel_type" "fuel_type"; assign "id" "id"; assign "percent_remaining" "percent_remaining"].
Definition GET_FUEL_STATUS : list getter :=
    [mk_getter "id" uint8_t 0 24; mk_getter "maximum_fuel" float_t 0 0; mk_getter "consumed_fuel" float_t 0 4;
     mk_getter "remaining_fuel" float_t 0 8; mk_getter "percent_remaining" uint8_t 0 25;
     mk_getter "flow_rate" float_t 0 12; mk_getter "temperature" float_t 0 16; mk_getter "fuel_type" uint32_t 0 20].

Definition MSG_BATTERY_INFO : mav_message :=
  mk_message 372 "BATTERY_INFO" 140 140 26 false
    [mk_member float_t "discharge_minimum_voltage" 0; mk_member float_t "charging_minimum_voltage" 0;
     mk_member float_t "resting_minimum_voltage" 0; mk_member float_t "charging_maximum_voltage" 0;
     mk_member float_t "charging_maximum_current" 0; mk_member float_t "nominal_voltage" 0;
     mk_member float_t "discharge_maximum_current" 0; mk_member float_t "discharge_maximum_burst_current" 0;
     mk_member float_t "design_capacity" 0; mk_member float_t "full_charge_capacity" 0;
     mk_member uint16_t "cycle_count" 0; mk_member uint16_t "weight" 0; mk_member uint8_t "id" 0;
     mk_member uint8_t "battery_function" 0; mk_member uint8_t "type" 0; mk_member uint8_t "state_of_health" 0;
     mk_member uint8_t "cells_in_series" 0; mk_member char_t "manufacture_date" 9;
     mk_member char_t "serial_number" 32; mk_member char_t "name" 50]
    [mk_field "id" MAVLINK_TYPE_UINT8_T 0 44; mk_field "battery_function" MAVLINK_TYPE_UINT8_T 0 45;
     mk_field "type" MAVLINK_TYPE_UINT8_T 0 46; mk_field "state_of_health" MAVLINK_TYPE_UINT8_T 0 47;
     mk_field "cells_in_series" MAVLINK_TYPE_UINT8_T 0 48; mk_field "cycle_count" MAVLINK_TYPE_UINT16_T 0 40;
     mk_field "weight" MAVLINK_TYPE_UINT16_T 0 42; mk_field "discharge_minimum_voltage" MAVLINK_TYPE_FLOAT 0 0;
     mk_field "charging_minimum_voltage" MAVLINK_TYPE_FLOAT 0 4;
     mk_field "resting_minimum_voltage" MAVLINK_TYPE_FLOAT 0 8;
     mk_field "charging_maximum_voltage" MAVLINK_TYPE_FLOAT 0 12;
     mk_field "charging_maximum_current" MAVLINK_TYPE_FLOAT 0 16; mk_field "nominal_voltage" MAVLINK_TYPE_FLOAT 0 20;
     mk_field "discharge_maximum_current" MAVLINK_TYPE_FLOAT 0 24;
     mk_field "discharge_maximum_burst_current" MAVLINK_TYPE_FLOAT 0 28;
     mk_field "design_capacity" MAVLINK_TYPE_FLOAT 0 32; mk_field "full_charge_capacity" MAVLINK_TYPE_FLOAT 0 36;
     mk_field "manufacture_date" MAVLINK_TYPE_CHAR 9 49; mk_field "serial_number" MAVLINK_TYPE_CHAR 32 58;
     mk_field "name" MAVLINK_TYPE_CHAR 50 90]
    [put float_t 0 "discharge_minimum_voltage"; put float_t 4 "charging_minimum_voltage";
     put float_t 8 "resting_minimum_voltage"; put float_t 12 "charging_maximum_voltage";
     put float_t 16 "charging_maximum_current"; put float_t 20 "nominal_voltage";
     put float_t 24 "discharge_maximum_current"; put float_t 28 "discharge_maximum_burst_current";
     put float_t 32 "design_capacity"; put float_t 36 "full_charge_capacity"; put uint16_t 40 "cycle_count";
     put uint16_t 42 "weight"; put uint8_t 44 "id"; put uint8_t 45 "battery_function"; put uint8_t 46 "type";
     put uint8_t 47 "state_of_health"; put uint8_t 48 "cells_in_series"; put_array char_t 49 "manufacture_date" 9;
     put_array char_t 58 "serial_number" 32; put_array char_t 90 "name" 50]
    [assign "discharge_minimum_voltage" "discharge_minimum_voltage";
     assign "charging_minimum_voltage" "charging_minimum_voltage";
     assign "resting_minimum_voltage" "resting_minimum_voltage";
     assign "charging_maximum_voltage" "charging_maximum_voltage";
     assign "charging_maximum_current" "charging_maximum_current"; assign "nominal_voltage" "nominal_voltage";
     assign "discharge_maximum_current" "discharge_maximum_current";
     assign "discharge_maximum_burst_current" "discharge_maximum_burst_current";
     assign "design_capacity" "design_capacity"; assign "full_charge_capacity" "full_charge_capacity";
     assign "cycle_count" "cycle_count"; assign "weight" "weight"; assign "id" "id";
     assign "battery_function" "battery_function"; assign "type" "type"; assign "state_of_health" "state_of_health";
     assign "cells_in_series" "cells_in_series"; copy_array "manufacture_date" "manufacture_date" char_t 9;
     copy_array "serial_number" "serial_number" char_t 32; copy_array "name" "name" char_t 50].
Definition GET_BATTERY_INFO : list getter :=
    [mk_getter "id" uint8_t 0 44; mk_getter "battery_function" uint8_t 0 45; mk_getter "type" uint8_t 0 46;
     mk_getter "state_of_health" uint8_t 0 47; mk_getter "cells_in_series" uint8_t 0 48;
     mk_getter "cycle_count" uint16_t 0 40; mk_getter "weight" uint16_t 0 42;
     mk_getter "discharge_minimum_voltage" float_t 0 0; mk_getter "charging_minimum_voltage" float_t 0 4;
     mk_getter "resting_minimum_voltage" float_t 0 8; mk_getter "charging_maximum_voltage" float_t 0 12;
     mk_getter "charging_maximum_current" float_t 0 16; mk_getter "nominal_voltage" float_t 0 20;
     mk_getter "discharge_maximum_current" float_t 0 24; mk_getter "discharge_maximum_burst_current" float_t 0 28;
     mk_getter "design_capacity" float_t 0 32; mk_getter "full_charge_capacity" float_t 0 36;
     mk_getter "manufacture_date" char_t 9 49; mk_getter "serial_number" char_t 32 58; mk_getter "name" char_t 50 90].

Definition MSG_GENERATOR_STATUS : mav_message :=
  mk_message 373 "GENERATOR_STATUS" 42 42 117 false
    [mk_member uint64_t "status" 0; mk_member float_t "battery_current" 0; mk_member float_t "load_current" 0;
     mk_member float_t "power_generated" 0; mk_member float_t "bus_voltage" 0;
     mk_member float_t "bat_current_setpoint" 0; mk_member uint32_t "runtime" 0;
     mk_member int32_t "time_until_maintenance" 0; mk_member uint16_t "generator_speed" 0;
     mk_member int16_t "rectifier_temperature" 0; mk_member int16_t "generator_temperature" 0]
    [mk_field "status" MAVLINK_TYPE_UINT64_T 0 0; mk_field "generator_speed" MAVLINK_TYPE_UINT16_T 0 36;
     mk_field "battery_current" MAVLINK_TYPE_FLOAT 0 8; mk_field "load_current" MAVLINK_TYPE_FLOAT 0 12;
     mk_field "power_generated" MAVLINK_TYPE_FLOAT 0 16; mk_field "bus_voltage" MAVLINK_TYPE_FLOAT 0 20;
     mk_field "rectifier_temperature" MAVLINK_TYPE_INT16_T 0 38;
     mk_field "bat_current_setpoint" MAVLINK_TYPE_FLOAT 0 24;
     mk_field "generator_temperature" MAVLINK_TYPE_INT16_T 0 40; mk_field "runtime" MAVLINK_TYPE_UINT32_T 0 28;
     mk_field "time_until_maintenance" MAVLINK_TYPE_INT32_T 0 32]
    [put uint64_t 0 "status"; put float_t 8 "battery_current"; put float_t 12 "load_current";
     put float_t 16 "power_generated"; put float_t 20 "bus_voltage"; put float_t 24 "bat_current_setpoint";
     put uint32_t 28 "runtime"; put int32_t 32 "time_until_maintenance"; put uint16_t 36 "generator_speed";
     put int16_t 38 "rectifier_temperature"; put int16_t 40 "generator_temperature"]
    [assign "status" "status"; assign "battery_current" "battery_current"; assign "load_current" "load_current";
     assign "power_generated" "power_generated"; assign "bus_voltage" "bus_voltage";
     assign "bat_current_setpoint" "bat_current_setpoint"; assign "runtime" "runtime";
     assign "time_until_maintenance" "time_until_maintenance"; assign "generator_speed" "generator_speed";
     assign "rectifier_temperature" "rectifier_temperature"; assign "generator_temperature" "generator_temperature"].
Definition GET_GENERATOR_STATUS : list getter :=
    [mk_getter "status" uint64_t 0 0; mk_getter "generator_speed" uint16_t 0 36;
     mk_getter "battery_current" float_t 0 8; mk_getter "load_current" float_t 0 12;
     mk_getter "power_generated" float_t 0 16; mk_getter "bus_voltage" float_t 0 20;
     mk_getter "rectifier_temperature" int16_t 0 38; mk_getter "bat_current_setpoint" float_t 0 24;
     mk_getter "generator_temperature" int16_t 0 40; mk_getter "runtime" uint32_t 0 28;
     mk_getter "time_until_maintenance" int32_t 0 32].

Definition MSG_ACTUATOR_OUTPUT_STATUS : mav_message :=
  mk_message 375 "ACTUATOR_OUTPUT_STATUS" 140 140 251 false
    [mk_member uint64_t "time_usec" 0; mk_member uint32_t "active" 0; mk_member float_t "actuator" 32]
    [mk_field "time_usec" MAVLINK_TYPE_UINT64_T 0 0; mk_field "active" MAVLINK_TYPE_UINT32_T 0 8;
     mk_field "actuator" MAVLINK_TYPE_FLOAT 32 12]
    [put uint64_t 0 "time_usec"; put uint32_t 8 "active"; put_array float_t 12 "actuator" 32]
    [assign "time_usec" "time_usec"; assign "active" "active"; copy_array "actuator" "actuator" float_t 32].
Definition GET_ACTUATOR_OUTPUT_STATUS : list getter :=
    [mk_getter "time_usec" uint64_t 0 0; mk_getter "active" uint32_t 0 8; mk_getter "actuator" float_t 32 12].

Definition MSG_RELAY_STATUS : mav_message :=
  mk_message 376 "RELAY_STATUS" 8 8 199 false
    [mk_member uint32_t "time_boot_ms" 0; mk_member uint16_t "on" 0; mk_member uint16_t "present" 0]
    [mk_field "time_boot_ms" MAVLINK_TYPE_UINT32_T 0 0; mk_field "on" MAVLINK_TYPE_UINT16_T 0 4;
     mk_field "present" MAVLINK_TYPE_UINT16_T 0 6]
    [put uint32_t 0 "time_boot_ms"; put uint16_t 4 "on"; put uint16_t 6 "present"]
    [assign "time_boot_ms" "time_boot_ms"; assign "on" "on"; assign "present" "present"].
Definition GET_RELAY_STATUS : list getter :=
    [mk_getter "time_boot_ms" uint32_t 0 0; mk_getter "on" uint16_t 0 4; mk_getter "present" uint16_t 0 6].

Definition MSG_TIME_ESTIMATE_TO_TARGET : mav_message :=
  mk_message 380 "TIME_ESTIMATE_TO_TARGET" 20 20 232 false
    [mk_member int32_t "safe_return" 0; mk_member int32_t "land" 0; mk_member int32_t "mission_next_item" 0;
     mk_member int32_t "mission_end" 0; mk_member int32_t "commanded_action" 0]
    [mk_field "safe_return" MAVLINK_TYPE_INT32_T 0 0; mk_field "land" MAVLINK_TYPE_INT32_T 0 4;
     mk_field "mission_next_item" MAVLINK_TYPE_INT32_T 0 8; mk_field "mission_end" MAVLINK_TYPE_INT32_T 0 12;
     mk_field "commanded_action" MAVLINK_TYPE_INT32_T 0 16]
    [put int32_t 0 "safe_return"; put int32_t 4 "land"; put int32_t 8 "mission_next_item";
     put int32_t 12 "mission_end"; put int32_t 16 "commanded_action"]
    [assign "safe_return" "safe_return"; assign "land" "land"; assign "mission_next_item" "mission_next_item";
     assign "mission_end" "mission_end"; assign "commanded_action" "commanded_action"].
Definition GET_TIME_ESTIMATE_TO_TARGET : list getter :=
    [mk_getter "safe_return" int32_t 0 0; mk_getter "land" int32_t 0 4; mk_getter "mission_next_item" int32_t 0 8;
     mk_getter "mission_end" int32_t 0 12; mk_getter "commanded_action" int32_t 0 16].

Definition MSG_TUNNEL : mav_message :=
  mk_message 385 "TUNNEL" 133 133 147 false
    [mk_member uint16_t "payload_type" 0; mk_member uint8_t "target_system" 0; mk_member uint8_t "target_component" 0;
     mk_member uint8_t "payload_length" 0; mk_member uint8_t "payload" 128]
    [mk_field "target_system" MAVLINK_TYPE_UINT8_T 0 2; mk_field "target_component" MAVLINK_TYPE_UINT8_T 0 3;
     mk_field "payload_type" MAVLINK_TYPE_UINT16_T 0 0; mk_field "payload_length" MAVLINK_TYPE_UINT8_T 0 4;
     mk_field "payload" MAVLINK_TYPE_UINT8_T 128 5]
    [put uint16_t 0 "payload_type"; put uint8_t 2 "target_system"; put uint8_t 3 "target_component";
     put uint8_t 4 "payload_length"; put_array uint8_t 5 "payload" 128]
    [assign "payload_type" "payload_type"; assign "target_system" "target_system";
     assign "target_component" "target_component"; assign "payload_length" "payload_length";
     copy_array "payload" "payload" uint8_t 128].
Definition GET_TUNNEL : list getter :=
    [mk_getter "target_system" uint8_t 0 2; mk_getter "target_component" uint8_t 0 3;
     mk_getter "payload_type" uint16_t 0 0; mk_getter "payload_length" uint8_t 0 4; mk_getter "payload" uint8_t 128 5].

Definition MSG_CAN_FRAME : mav_message :=
  mk_message 386 "CAN_FRAME" 16 16 132 false
    [mk_member uint32_t "id" 0; mk_member uint8_t "target_system" 0; mk_member uint8_t "target_component" 0;
     mk_member uint8_t "bus" 0; mk_member uint8_t "len" 0; mk_member uint8_t "data" 8]
    [mk_field "target_system" MAVLINK_TYPE_UINT8_T 0 4; mk_field "target_component" MAVLINK_TYPE_UINT8_T 0 5;
     mk_field "bus" MAVLINK_TYPE_UINT8_T 0 6; mk_field "len" MAVLINK_TYPE_UINT8_T 0 7;
     mk_field "id" MAVLINK_TYPE_UINT32_T 0 0; mk_field "data" MAVLINK_TYPE_UINT8_T 8 8]
    [put uint32_t 0 "id"; put uint8_t 4 "target_system"; put uint8_t 5 "target_component"; put uint8_t 6 "bus";
     put uint8_t 7 "len"; put_array uint8_t 8 "data" 8]
    [assign "id" "id"; assign "target_system" "target_system"; assign "target_component" "target_component";
     assign "bus" "bus"; assign "len" "len"; copy_array "data" "data" uint8_t 8].
Definition GET_CAN_FRAME : list getter :=
    [mk_getter "target_system" uint8_t 0 4; mk_getter "target_component" uint8_t 0 5; mk_getter "bus" uint8_t 0 6;
     mk_getter "len" uint8_t 0 7; mk_getter "id" uint32_t 0 0; mk_getter "data" uint8_t 8 8].

Definition MSG_CANFD_FRAME : mav_message :=
  mk_message 387 "CANFD_FRAME" 72 72 4 false
    [mk_member uint32_t "id" 0; mk_member uint8_t "target_system" 0; mk_member uint8_t "target_component" 0;
     mk_member uint8_t "bus" 0; mk_member uint8_t "len" 0; mk_member uint8_t "data" 64]
    [mk_field "target_system" MAVLINK_TYPE_UINT8_T 0 4; mk_field "target_component" MAVLINK_TYPE_UINT8_T 0 5;
     mk_field "bus" MAVLINK_TYPE_UINT8_T 0 6; mk_field "len" MAVLINK_TYPE_UINT8_T 0 7;
     mk_field "id" MAVLINK_TYPE_UINT32_T 0 0; mk_field "data" MAVLINK_TYPE_UINT8_T 64 8]
    [put uint32_t 0 "id"; put uint8_t 4 "target_system"; put uint8_t 5 "target_component"; put uint8_t 6 "bus";
     put uint8_t 7 "len"; put_array uint8_t 8 "data" 64]
    [assign "id" "id"; assign "target_system" "target_system"; assign "target_component" "target_component";
     assign "bus" "bus"; assign "len" "len"; copy_array "data" "data" uint8_t 64].
Definition GET_CANFD_FRAME : list getter :=
    [mk_getter "target_system" uint8_t 0 4; mk_getter "target_component" uint8_t 0 5; mk_getter "bus" uint8_t 0 6;
     mk_getter "len" uint8_t 0 7; mk_getter "id" uint32_t 0 0; mk_getter "data" uint8_t 64 8].

Definition MSG_CAN_FILTER_MODIFY : mav_message :=
  mk_message 388 "CAN_FILTER_MODIFY" 37 37 8 false
    [mk_member uint16_t "ids" 16; mk_member uint8_t "target_system" 0; mk_member uint8_t "target_component" 0;
     mk_member uint8_t "bus" 0; mk_member uint8_t "operation" 0; mk_member uint8_t "num_ids" 0]
    [mk_field "target_system" MAVLINK_TYPE_UINT8_T 0 32; mk_field "target_component" MAVLINK_TYPE_UINT8_T 0 33;
     mk_field "bus" MAVLINK_TYPE_UINT8_T 0 34; mk_field "operation" MAVLINK_TYPE_UINT8_T 0 35;
     mk_field "num_ids" MAVLINK_TYPE_UINT8_T 0 36; mk_field "ids" MAVLINK_TYPE_UINT16_T 16 0]
    [put uint8_t 32 "target_system"; put uint8_t 33 "target_component"; put uint8_t 34 "bus";
     put uint8_t 35 "operation"; put uint8_t 36 "num_ids"; put_array uint16_t 0 "ids" 16]
    [assign "target_system" "target_system"; assign "target_component" "target_component"; assign "bus" "bus";
     assign "operation" "operation"; assign "num_ids" "num_ids"; copy_array "ids" "ids" uint16_t 16].
Definition GET_CAN_FILTER_MODIFY : list getter :=
    [mk_getter "target_system" uint8_t 0 32; mk_getter "target_component" uint8_t 0 33; mk_getter "bus" uint8_t 0 34;
     mk_getter "operation" uint8_t 0 35; mk_getter "num_ids" uint8_t 0 36; mk_getter "ids" uint16_t 16 0].

Definition MSG_ONBOARD_COMPUTER_STATUS : mav_message :=
  mk_message 390 "ONBOARD_COMPUTER_STATUS" 238 240 156 false
    [mk_member uint64_t "time_usec" 0; mk_member uint32_t "uptime" 0; mk_member uint32_t "ram_usage" 0;
     mk_member uint32_t "ram_total" 0; mk_member uint32_t "storage_type" 4; mk_member uint32_t "storage_usage" 4;
     mk_member uint32_t "storage_total" 4; mk_member uint32_t "link_type" 6; mk_member uint32_t "link_tx_rate" 6;
     mk_member uint32_t "link_rx_rate" 6; mk_member uint32_t "link_tx_max" 6; mk_member uint32_t "link_rx_max" 6;
     mk_member int16_t "fan_speed" 4; mk_member uint8_t "type" 0; mk_member uint8_t "cpu_cores" 8;
     mk_member uint8_t "cpu_combined" 10; mk_member uint8_t "gpu_cores" 4; mk_member uint8_t "gpu_combined" 10;
     mk_member int8_t "temperature_board" 0; mk_member int8_t "temperature_core" 8;
     mk_member uint16_t "status_flags" 0]
    [mk_field "time_usec" MAVLINK_TYPE_UINT64_T 0 0; mk_field "uptime" MAVLINK_TYPE_UINT32_T 0 8;
     mk_field "type" MAVLINK_TYPE_UINT8_T 0 196; mk_field "cpu_cores" MAVLINK_TYPE_UINT8_T 8 197;
     mk_field "cpu_combined" MAVLINK_TYPE_UINT8_T 10 205; mk_field "gpu_cores" MAVLINK_TYPE_UINT8_T 4 215;
     mk_field "gpu_combined" MAVLINK_TYPE_UINT8_T 10 219; mk_field "temperature_board" MAVLINK_TYPE_INT8_T 0 229;
     mk_field "temperature_core" MAVLINK_TYPE_INT8_T 8 230; mk_field "fan_speed" MAVLINK_TYPE_INT16_T 4 188;
     mk_field "ram_usage" MAVLINK_TYPE_UINT32_T 0 12; mk_field "ram_total" MAVLINK_TYPE_UINT32_T 0 16;
     mk_field "storage_type" MAVLINK_TYPE_UINT32_T 4 20; mk_field "storage_usage" MAVLINK_TYPE_UINT32_T 4 36;
     mk_field "storage_total" MAVLINK_TYPE_UINT32_T 4 52; mk_field "link_type" MAVLINK_TYPE_UINT32_T 6 68;
     mk_field "link_tx_rate" MAVLINK_TYPE_UINT32_T 6 92; mk_field "link_rx_rate" MAVLINK_TYPE_UINT32_T 6 116;
     mk_field "link_tx_max" MAVLINK_TYPE_UINT32_T 6 140; mk_field "link_rx_max" MAVLINK_TYPE_UINT32_T 6 164;
     mk_field "status_flags" MAVLINK_TYPE_UINT16_T 0 238]
    [put uint64_t 0 "time_usec"; put uint32_t 8 "uptime"; put uint32_t 12 "ram_usage"; put uint32_t 16 "ram_total";
     put uint8_t 196 "type"; put int8_t 229 "temperature_board"; put uint16_t 238 "status_flags";
     put_array uint32_t 20 "storage_type" 4; put_array uint32_t 36 "storage_usage" 4;
     put_array uint32_t 52 "storage_total" 4; put_array uint32_t 68 "link_type" 6;
     put_array uint32_t 92 "link_tx_rate" 6; put_array uint32_t 116 "link_rx_rate" 6;
     put_array uint32_t 140 "link_tx_max" 6; put_array uint32_t 164 "link_rx_max" 6;
     put_array int16_t 188 "fan_speed" 4; put_array uint8_t 197 "cpu_cores" 8;
     put_array uint8_t 205 "cpu_combined" 10; put_array uint8_t 215 "gpu_cores" 4;
     put_array uint8_t 219 "gpu_combined" 10; put_array int8_t 230 "temperature_core" 8]
    [assign "time_usec" "time_usec"; assign "uptime" "uptime"; assign "ram_usage" "ram_usage";
     assign "ram_total" "ram_total"; assign "type" "type"; assign "temperature_board" "temperature_board";
     assign "status_flags" "status_flags"; copy_array "storage_type" "storage_type" uint32_t 4;
     copy_array "storage_usage" "storage_usage" uint32_t 4; copy_array "storage_total" "storage_total" uint32_t 4;
     copy_array "link_type" "link_type" uint32_t 6; copy_array "link_tx_rate" "link_tx_rate" uint32_t 6;
     copy_array "link_rx_rate" "link_rx_rate" uint32_t 6; copy_array "link_tx_max" "link_tx_max" uint32_t 6;
     copy_array "link_rx_max" "link_rx_max" uint32_t 6; copy_array "fan_speed" "fan_speed" int16_t 4;
     copy_array "cpu_cores" "cpu_cores" uint8_t 8; copy_array "cpu_combined" "cpu_combined" uint8_t 10;
     copy_array "gpu_cores" "gpu_cores" uint8_t 4; copy_array "gpu_combined" "gpu_combined" uint8_t 10;
     copy_array "temperature_core" "temperature_core" int8_t 8].
Definition GET_ONBOARD_COMPUTER_STATUS : list getter :=
    [mk_getter "time_usec" uint64_t 0 0; mk_getter "uptime" uint32_t 0 8; mk_getter "type" uint8_t 0 196;
     mk_getter "cpu_cores" uint8_t 8 197; mk_getter "cpu_combined" uint8_t 10 205;
     mk_getter "gpu_cores" uint8_t 4 215; mk_getter "gpu_combined" uint8_t 10 219;
     mk_getter "temperature_board" int8_t 0 229; mk_getter "temperature_core" int8_t 8 230;
     mk_getter "fan_speed" int16_t 4 188; mk_getter "ram_usage" uint32_t 0 12; mk_getter "ram_total" uint32_t 0 16;
     mk_getter "storage_type" uint32_t 4 20; mk_getter "storage_usage" uint32_t 4 36;
     mk_getter "storage_total" uint32_t 4 52; mk_getter "link_type" uint32_t 6 68;
     mk_getter "link_tx_rate" uint32_t 6 92; mk_getter "link_rx_rate" uint32_t 6 116;
     mk_getter "link_tx_max" uint32_t 6 140; mk_getter "link_rx_max" uint32_t 6 164;
     mk_getter "status_flags" uint16_t 0 238].

Definition MSG_COMPONENT_INFORMATION : mav_message :=
  mk_message 395 "COMPONENT_INFORMATION" 212 212 0 false
    [mk_member uint32_t "time_boot_ms" 0; mk_member uint32_t "general_metadata_file_crc" 0;
     mk_member uint32_t "peripherals_metadata_file_crc" 0; mk_member char_t "general_metadata_uri" 100;
     mk_member char_t "peripherals_metadata_uri" 100]
    [mk_field "time_boot_ms" MAVLINK_TYPE_UINT32_T 0 0;
     mk_field "general_metadata_file_crc" MAVLINK_TYPE_UINT32_T 0 4;
     mk_field "general_metadata_uri" MAVLINK_TYPE_CHAR 100 12;
     mk_field "peripherals_metadata_file_crc" MAVLINK_TYPE_UINT32_T 0 8;
     mk_field "peripherals_metadata_uri" MAVLINK_TYPE_CHAR 100 112]
    [put uint32_t 0 "time_boot_ms"; put uint32_t 4 "general_metadata_file_crc";
     put uint32_t 8 "peripherals_metadata_file_crc"; put_array char_t 12 "general_metadata_uri" 100;
     put_array char_t 112 "peripherals_metadata_uri" 100]
    [assign "time_boot_ms" "time_boot_ms"; assign "general_metadata_file_crc" "general_metadata_file_crc";
     assign "peripherals_metadata_file_crc" "peripherals_metadata_file_crc";
     copy_array "general_metadata_uri" "general_metadata_uri" char_t 100;
     copy_array "peripherals_metadata_uri" "peripherals_metadata_uri" char_t 100].
Definition GET_COMPONENT_INFORMATION : list getter :=
    [mk_getter "time_boot_ms" uint32_t 0 0; mk_getter "general_metadata_file_crc" uint32_t 0 4;
     mk_getter "general_metadata_uri" char_t 100 12; mk_getter "peripherals_metadata_file_crc" uint32_t 0 8;
     mk_getter "peripherals_metadata_uri" char_t 100 112].

Definition MSG_COMPONENT_INFORMATION_BASIC : mav_message :=
  mk_message 396 "COMPONENT_INFORMATION_BASIC" 160 160 50 false
    [mk_member uint64_t "capabilities" 0; mk_member uint32_t "time_boot_ms" 0;
     mk_member uint32_t "time_manufacture_s" 0; mk_member char_t "vendor_name" 32; mk_member char_t "model_name" 32;
     mk_member char_t "software_version" 24; mk_member char_t "hardware_version" 24;
     mk_member char_t "serial_number" 32]
    [mk_field "time_boot_ms" MAVLINK_TYPE_UINT32_T 0 8; mk_field "capabilities" MAVLINK_TYPE_UINT64_T 0 0;
     mk_field "time_manufacture_s" MAVLINK_TYPE_UINT32_T 0 12; mk_field "vendor_name" MAVLINK_TYPE_CHAR 32 16;
     mk_field "model_name" MAVLINK_TYPE_CHAR 32 48; mk_field "software_version" MAVLINK_TYPE_CHAR 24 80;
     mk_field "hardware_version" MAVLINK_TYPE_CHAR 24 104; mk_field "serial_number" MAVLINK_TYPE_CHAR 32 128]
    [put uint64_t 0 "capabilities"; put uint32_t 8 "time_boot_ms"; put uint32_t 12 "time_manufacture_s";
     put_array char_t 16 "vendor_name" 32; put_array char_t 48 "model_name" 32;
     put_array char_t 80 "software_version" 24; put_array char_t 104 "hardware_version" 24;
     put_array char_t 128 "serial_number" 32]
    [assign "capabilities" "capabilities"; assign "time_boot_ms" "time_boot_ms";
     assign "time_manufacture_s" "time_manufacture_s"; copy_array "vendor_name" "vendor_name" char_t 32;
     copy_array "model_name" "model_name" char_t 32; copy_array "software_version" "software_version" char_t 24;
     copy_array "hardware_version" "hardware_version" char_t 24; copy_array "serial_number" "serial_number" char_t 32].
Definition GET_COMPONENT_INFORMATION_BASIC : list getter :=
    [mk_getter "time_boot_ms" uint32_t 0 8; mk_getter "capabilities" uint64_t 0 0;
     mk_getter "time_manufacture_s" uint32_t 0 12; mk_getter "vendor_name" char_t 32 16;
     mk_getter "model_name" char_t 32 48; mk_getter "software_version" char_t 24 80;
     mk_getter "hardware_version" char_t 24 104; mk_getter "serial_number" char_t 32 128].

Definition MSG_COMPONENT_METADATA : mav_message :=
  mk_message 397 "COMPONENT_METADATA" 108 108 182 false
    [mk_member uint32_t "time_boot_ms" 0; mk_member uint32_t "file_crc" 0; mk_member char_t "uri" 100]
    [mk_field "time_boot_ms" MAVLINK_TYPE_UINT32_T 0 0; mk_field "file_crc" MAVLINK_TYPE_UINT32_T 0 4;
     mk_field "uri" MAVLINK_TYPE_CHAR 100 8]
    [put uint32_t 0 "time_boot_ms"; put uint32_t 4 "file_crc"; put_array char_t 8 "uri" 100]
    [assign "time_boot_ms" "time_boot_ms"; assign "file_crc" "file_crc"; copy_array "uri" "uri" char_t 100].
Definition GET_COMPONENT_METADATA : list getter :=
    [mk_getter "time_boot_ms" uint32_t 0 0; mk_getter "file_crc" uint32_t 0 4; mk_getter "uri" char_t 100 8].

Definition MSG_PLAY_TUNE_V2 : mav_message :=
  mk_message 400 "PLAY_TUNE_V2" 254 254 110 false
    [mk_member uint32_t "format" 0; mk_member uint8_t "target_system" 0; mk_member uint8_t "target_component" 0;
     mk_member char_t "tune" 248]
    [mk_field "target_system" MAVLINK_TYPE_UINT8_T 0 4; mk_field "target_component" MAVLINK_TYPE_UINT8_T 0 5;
     mk_field "format" MAVLINK_TYPE_UINT32_T 0 0; mk_field "tune" MAVLINK_TYPE_CHAR 248 6]
    [put uint32_t 0 "format"; put uint8_t 4 "target_system"; put uint8_t 5 "target_component";
     put_array char_t 6 "tune" 248]
    [assign "format" "format"; assign "target_system" "target_system"; assign "target_component" "target_component";
     copy_array "tune" "tune" char_t 248].
Definition GET_PLAY_TUNE_V2 : list getter :=
    [mk_getter "target_system" uint8_t 0 4; mk_getter "target_component" uint8_t 0 5; mk_getter "format" uint32_t 0 0;
     mk_getter "tune" char_t 248 6].

Definition MSG_SUPPORTED_TUNES : mav_message :=
  mk_message 401 "SUPPORTED_TUNES" 6 6 183 false
    [mk_member uint32_t "format" 0; mk_member uint8_t "target_system" 0; mk_member uint8_t "target_component" 0]
    [mk_field "target_system" MAVLINK_TYPE_UINT8_T 0 4; mk_field "target_component" MAVLINK_TYPE_UINT8_T 0 5;
     mk_field "format" MAVLINK_TYPE_UINT32_T 0 0]
    [put uint32_t 0 "format"; put uint8_t 4 "target_system"; put uint8_t 5 "target_component"]
    [assign "format" "format"; assign "target_system" "target_system"; assign "target_component" "target_component"].
Definition GET_SUPPORTED_TUNES : list getter :=
    [mk_getter "target_system" uint8_t 0 4; mk_getter "target_component" uint8_t 0 5; mk_getter "format" uint32_t 0 0].

Definition MSG_EVENT : mav_message :=
  mk_message 410 "EVENT" 53 53 160 false
    [mk_member uint32_t "id" 0; mk_member uint32_t "event_time_boot_ms" 0; mk_member uint16_t "sequence" 0;
     mk_member uint8_t "destination_component" 0; mk_member uint8_t "destination_system" 0;
     mk_member uint8_t "log_levels" 0; mk_member uint8_t "arguments" 40]
    [mk_field "destination_component" MAVLINK_TYPE_UINT8_T 0 10;
     mk_field "destination_system" MAVLINK_TYPE_UINT8_T 0 11; mk_field "id" MAVLINK_TYPE_UINT32_T 0 0;
     mk_field "event_time_boot_ms" MAVLINK_TYPE_UINT32_T 0 4; mk_field "sequence" MAVLINK_TYPE_UINT16_T 0 8;
     mk_field "log_levels" MAVLINK_TYPE_UINT8_T 0 12; mk_field "arguments" MAVLINK_TYPE_UINT8_T 40 13]
    [put uint32_t 0 "id"; put uint32_t 4 "event_time_boot_ms"; put uint16_t 8 "sequence";
     put uint8_t 10 "destination_component"; put uint8_t 11 "destination_system"; put uint8_t 12 "log_levels";
     put_array uint8_t 13 "arguments" 40]
    [assign "id" "id"; assign "event_time_boot_ms" "event_time_boot_ms"; assign "sequence" "sequence";
     assign "destination_component" "destination_component"; assign "destination_system" "destination_system";
     assign "log_levels" "log_levels"; copy_array "arguments" "arguments" uint8_t 40].
Definition GET_EVENT : list getter :=
    [mk_getter "destination_component" uint8_t 0 10; mk_getter "destination_system" uint8_t 0 11;
     mk_getter "id" uint32_t 0 0; mk_getter "event_time_boot_ms" uint32_t 0 4; mk_getter "sequence" uint16_t 0 8;
     mk_getter "log_levels" uint8_t 0 12; mk_getter "arguments" uint8_t 40 13].

Definition MSG_CURRENT_EVENT_SEQUENCE : mav_message :=
  mk_message 411 "CURRENT_EVENT_SEQUENCE" 3 3 106 false
    [mk_member uint16_t "sequence" 0; mk_member uint8_t "flags" 0]
    [mk_field "sequence" MAVLINK_TYPE_UINT16_T 0 0; mk_field "flags" MAVLINK_TYPE_UINT8_T 0 2]
    [put uint16_t 0 "sequence"; put uint8_t 2 "flags"]
    [assign "sequence" "sequence"; assign "flags" "flags"].
Definition GET_CURRENT_EVENT_SEQUENCE : list getter :=
    [mk_getter "sequence" uint16_t 0 0; mk_getter "flags" uint8_t 0 2].

Definition MSG_REQUEST_EVENT : mav_message :=
  mk_message 412 "REQUEST_EVENT" 6 6 33 false
    [mk_member uint16_t "first_sequence" 0; mk_member uint16_t "last_sequence" 0; mk_member uint8_t "target_system" 0;
     mk_member uint8_t "target_component" 0]
    [mk_field "target_system" MAVLINK_TYPE_UINT8_T 0 4; mk_field "target_component" MAVLINK_TYPE_UINT8_T 0 5;
     mk_field "first_sequence" MAVLINK_TYPE_UINT16_T 0 0; mk_field "last_sequence" MAVLINK_TYPE_UINT16_T 0 2]
    [put uint16_t 0 "first_sequence"; put uint16_t 2 "last_sequence"; put uint8_t 4 "target_system";
     put uint8_t 5 "target_component"]
    [assign "first_sequence" "first_sequence"; assign "last_sequence" "last_sequence";
     assign "target_system" "target_system"; assign "target_component" "target_component"].
Definition GET_REQUEST_EVENT : list getter :=
    [mk_getter "target_system" uint8_t 0 4; mk_getter "target_component" uint8_t 0 5;
     mk_getter "first_sequence" uint16_t 0 0; mk_getter "last_sequence" uint16_t 0 2].

Definition MSG_RESPONSE_EVENT_ERROR : mav_message :=
  mk_message 413 "RESPONSE_EVENT_ERROR" 7 7 77 false
    [mk_member uint16_t "sequence" 0; mk_member uint16_t "sequence_oldest_available" 0;
     mk_member uint8_t "target_system" 0; mk_member uint8_t "target_component" 0; mk_member uint8_t "reason" 0]
    [mk_field "target_system" MAVLINK_TYPE_UINT8_T 0 4; mk_field "target_component" MAVLINK_TYPE_UINT8_T 0 5;
     mk_field "sequence" MAVLINK_TYPE_UINT16_T 0 0; mk_field "sequence_oldest_available" MAVLINK_TYPE_UINT16_T 0 2;
     mk_field "reason" MAVLINK_TYPE_UINT8_T 0 6]
    [put uint16_t 0 "sequence"; put uint16_t 2 "sequence_oldest_available"; put uint8_t 4 "target_system";
     put uint8_t 5 "target_component"; put uint8_t 6 "reason"]
    [assign "sequence" "sequence"; assign "sequence_oldest_available" "sequence_oldest_available";
     assign "target_system" "target_system"; assign "target_component" "target_component"; assign "reason" "reason"].
Definition GET_RESPONSE_EVENT_ERROR : list getter :=
    [mk_getter "target_system" uint8_t 0 4; mk_getter "target_component" uint8_t 0 5;
     mk_getter "sequence" uint16_t 0 0; mk_getter "sequence_oldest_available" uint16_t 0 2;
     mk_getter "reason" uint8_t 0 6].

Definition MSG_AVAILABLE_MODES : mav_message :=
  mk_message 435 "AVAILABLE_MODES" 46 46 134 false
    [mk_member uint32_t "custom_mode" 0; mk_member uint32_t "properties" 0; mk_member uint8_t "number_modes" 0;
     mk_member uint8_t "mode_index" 0; mk_member uint8_t "standard_mode" 0; mk_member char_t "mode_name" 35]
    [mk_field "number_modes" MAVLINK_TYPE_UINT8_T 0 8; mk_field "mode_index" MAVLINK_TYPE_UINT8_T 0 9;
     mk_field "standard_mode" MAVLINK_TYPE_UINT8_T 0 10; mk_field "custom_mode" MAVLINK_TYPE_UINT32_T 0 0;
     mk_field "properties" MAVLINK_TYPE_UINT32_T 0 4; mk_field "mode_name" MAVLINK_TYPE_CHAR 35 11]
    [put uint32_t 0 "custom_mode"; put uint32_t 4 "properties"; put uint8_t 8 "number_modes";
     put uint8_t 9 "mode_index"; put uint8_t 10 "standard_mode"; put_array char_t 11 "mode_name" 35]
    [assign "custom_mode" "custom_mode"; assign "properties" "properties"; assign "number_modes" "number_modes";
     assign "mode_index" "mode_index"; assign "standard_mode" "standard_mode";
     copy_array "mode_name" "mode_name" char_t 35].
Definition GET_AVAILABLE_MODES : list getter :=
    [mk_getter "number_modes" uint8_t 0 8; mk_getter "mode_index" uint8_t 0 9; mk_getter "standard_mode" uint8_t 0 10;
     mk_getter "custom_mode" uint32_t 0 0; mk_getter "properties" uint32_t 0 4; mk_getter "mode_name" char_t 35 11].

Definition MSG_CURRENT_MODE : mav_message :=
  mk_message 436 "CURRENT_MODE" 9 9 193 false
    [mk_member uint32_t "custom_mode" 0; mk_member uint32_t "intended_custom_mode" 0;
     mk_member uint8_t "standard_mode" 0]
    [mk_field "standard_mode" MAVLINK_TYPE_UINT8_T 0 8; mk_field "custom_mode" MAVLINK_TYPE_UINT32_T 0 0;
     mk_field "intended_custom_mode" MAVLINK_TYPE_UINT32_T 0 4]
    [put uint32_t 0 "custom_mode"; put uint32_t 4 "intended_custom_mode"; put uint8_t 8 "standard_mode"]
    [assign "custom_mode" "custom_mode"; assign "intended_custom_mode" "intended_custom_mode";
     assign "standard_mode" "standard_mode"].
Definition GET_CURRENT_MODE : list getter :=
    [mk_getter "standard_mode" uint8_t 0 8; mk_getter "custom_mode" uint32_t 0 0;
     mk_getter "intended_custom_mode" uint32_t 0 4].

Definition MSG_AVAILABLE_MODES_MONITOR : mav_message :=
  mk_message 437 "AVAILABLE_MODES_MONITOR" 1 1 30 false
    [mk_member uint8_t "seq" 0]
    [mk_field "seq" MAVLINK_TYPE_UINT8_T 0 0]
    [put uint8_t 0 "seq"]
    [assign "seq" "seq"].
Definition GET_AVAILABLE_MODES_MONITOR : list getter :=
    [mk_getter "seq" uint8_t 0 0].

Definition MSG_ILLUMINATOR_STATUS : mav_message :=
  mk_message 440 "ILLUMINATOR_STATUS" 35 35 66 false
    [mk_member uint32_t "uptime_ms" 0; mk_member uint32_t "error_status" 0; mk_member float_t "brightness" 0;
     mk_member float_t "strobe_period" 0; mk_member float_t "strobe_duty_cycle" 0; mk_member float_t "temp_c" 0;
     mk_member float_t "min_strobe_period" 0; mk_member float_t "max_strobe_period" 0; mk_member uint8_t "enable" 0;
     mk_member uint8_t "mode_bitmask" 0; mk_member uint8_t "mode" 0]
    [mk_field "uptime_ms" MAVLINK_TYPE_UINT32_T 0 0; mk_field "enable" MAVLINK_TYPE_UINT8_T 0 32;
     mk_field "mode_bitmask" MAVLINK_TYPE_UINT8_T 0 33; mk_field "error_status" MAVLINK_TYPE_UINT32_T 0 4;
     mk_field "mode" MAVLINK_TYPE_UINT8_T 0 34; mk_field "brightness" MAVLINK_TYPE_FLOAT 0 8;
     mk_field "strobe_period" MAVLINK_TYPE_FLOAT 0 12; mk_field "strobe_duty_cycle" MAVLINK_TYPE_FLOAT 0 16;
     mk_field "temp_c" MAVLINK_TYPE_FLOAT 0 20; mk_field "min_strobe_period" MAVLINK_TYPE_FLOAT 0 24;
     mk_field "max_strobe_period" MAVLINK_TYPE_FLOAT 0 28]
    [put uint32_t 0 "uptime_ms"; put uint32_t 4 "error_status"; put float_t 8 "brightness";
     put float_t 12 "strobe_period"; put float_t 16 "strobe_duty_cycle"; put float_t 20 "temp_c";
     put float_t 24 "min_strobe_period"; put float_t 28 "max_strobe_period"; put uint8_t 32 "enable";
     put uint8_t 33 "mode_bitmask"; put uint8_t 34 "mode"]
    [assign "uptime_ms" "uptime_ms"; assign "error_status" "error_status"; assign "brightness" "brightness";
     assign "strobe_period" "strobe_period"; assign "strobe_duty_cycle" "strobe_duty_cycle"; assign "temp_c" "temp_c";
     assign "min_strobe_period" "min_strobe_period"; assign "max_strobe_period" "max_strobe_period";
     assign "enable" "enable"; assign "mode_bitmask" "mode_bitmask"; assign "mode" "mode"].
Definition GET_ILLUMINATOR_STATUS : list getter :=
    [mk_getter "uptime_ms" uint32_t 0 0; mk_getter "enable" uint8_t 0 32; mk_getter "mode_bitmask" uint8_t 0 33;
     mk_getter "error_status" uint32_t 0 4; mk_getter "mode" uint8_t 0 34; mk_getter "brightness" float_t 0 8;
     mk_getter "strobe_period" float_t 0 12; mk_getter "strobe_duty_cycle" float_t 0 16;
     mk_getter "temp_c" float_t 0 20; mk_getter "min_strobe_period" float_t 0 24;
     mk_getter "max_strobe_period" float_t 0 28].

Definition MSG_WHEEL_DISTANCE : mav_message :=
  mk_message 9000 "WHEEL_DISTANCE" 137 137 113 false
    [mk_member uint64_t "time_usec" 0; mk_member double_t "distance" 16; mk_member uint8_t "count" 0]
    [mk_field "time_usec" MAVLINK_TYPE_UINT64_T 0 0; mk_field "count" MAVLINK_TYPE_UINT8_T 0 136;
     mk_field "distance" MAVLINK_TYPE_DOUBLE 16 8]
    [put uint64_t 0 "time_usec"; put uint8_t 136 "count"; put_array double_t 8 "distance" 16]
    [assign "time_usec" "time_usec"; assign "count" "count"; copy_array "distance" "distance" double_t 16].
Definition GET_WHEEL_DISTANCE : list getter :=
    [mk_getter "time_usec" uint64_t 0 0; mk_getter "count" uint8_t 0 136; mk_getter "distance" double_t 16 8].

Definition MSG_WINCH_STATUS : mav_message :=
  mk_message 9005 "WINCH_STATUS" 34 34 117 false
    [mk_member uint64_t "time_usec" 0; mk_member float_t "line_length" 0; mk_member float_t "speed" 0;
     mk_member float_t "tension" 0; mk_member float_t "voltage" 0; mk_member float_t "current" 0;
     mk_member uint32_t "status" 0; mk_member int16_t "temperature" 0]
    [mk_field "time_usec" MAVLINK_TYPE_UINT64_T 0 0; mk_field "line_length" MAVLINK_TYPE_FLOAT 0 8;
     mk_field "speed" MAVLINK_TYPE_FLOAT 0 12; mk_field "tension" MAVLINK_TYPE_FLOAT 0 16;
     mk_field "voltage" MAVLINK_TYPE_FLOAT 0 20; mk_field "current" MAVLINK_TYPE_FLOAT 0 24;
     mk_field "temperature" MAVLINK_TYPE_INT16_T 0 32; mk_field "status" MAVLINK_TYPE_UINT32_T 0 28]
    [put uint64_t 0 "time_usec"; put float_t 8 "line_length"; put float_t 12 "speed"; put float_t 16 "tension";
     put float_t 20 "voltage"; put float_t 24 "current"; put uint32_t 28 "status"; put int16_t 32 "temperature"]
    [assign "time_usec" "time_usec"; assign "line_length" "line_length"; assign "speed" "speed";
     assign "tension" "tension"; assign "voltage" "voltage"; assign "current" "current"; assign "status" "status";
     assign "temperature" "temperature"].
Definition GET_WINCH_STATUS : list getter :=
    [mk_getter "time_usec" uint64_t 0 0; mk_getter "line_length" float_t 0 8; mk_getter "speed" float_t 0 12;
     mk_getter "tension" float_t 0 16; mk_getter "voltage" float_t 0 20; mk_getter "current" float_t 0 24;
     mk_getter "temperature" int16_t 0 32; mk_getter "status" uint32_t 0 28].

Definition MSG_OPEN_DRONE_ID_BASIC_ID : mav_message :=
  mk_message 12900 "OPEN_DRONE_ID_BASIC_ID" 44 44 114 false
    [mk_member uint8_t "target_system" 0; mk_member uint8_t "target_component" 0; mk_member uint8_t "id_or_mac" 20;
     mk_member uint8_t "id_type" 0; mk_member uint8_t "ua_type" 0; mk_member uint8_t "uas_id" 20]
    [mk_field "target_system" MAVLINK_TYPE_UINT8_T 0 0; mk_field "target_component" MAVLINK_TYPE_UINT8_T 0 1;
     mk_field "id_or_mac" MAVLINK_TYPE_UINT8_T 20 2; mk_field "id_type" MAVLINK_TYPE_UINT8_T 0 22;
     mk_field "ua_type" MAVLINK_TYPE_UINT8_T 0 23; mk_field "uas_id" MAVLINK_TYPE_UINT8_T 20 24]
    [put uint8_t 0 "target_system"; put uint8_t 1 "target_component"; put uint8_t 22 "id_type";
     put uint8_t 23 "ua_type"; put_array uint8_t 2 "id_or_mac" 20; put_array uint8_t 24 "uas_id" 20]
    [assign "target_system" "target_system"; assign "target_component" "target_component"; assign "id_type" "id_type";
     assign "ua_type" "ua_type"; copy_array "id_or_mac" "id_or_mac" uint8_t 20;
     copy_array "uas_id" "uas_id" uint8_t 20].
Definition GET_OPEN_DRONE_ID_BASIC_ID : list getter :=
    [mk_getter "target_system" uint8_t 0 0; mk_getter "target_component" uint8_t 0 1;
     mk_getter "id_or_mac" uint8_t 20 2; mk_getter "id_type" uint8_t 0 22; mk_getter "ua_type" uint8_t 0 23;
     mk_getter "uas_id" uint8_t 20 24].

Definition MSG_OPEN_DRONE_ID_LOCATION : mav_message :=
  mk_message 12901 "OPEN_DRONE_ID_LOCATION" 59 59 254 false
    [mk_member int32_t "latitude" 0; mk_member int32_t "longitude" 0; mk_member float_t "altitude_barometric" 0;
     mk_member float_t "altitude_geodetic" 0; mk_member float_t "height" 0; mk_member float_t "timestamp" 0;
     mk_member uint16_t "direction" 0; mk_member uint16_t "speed_horizontal" 0; mk_member int16_t "speed_vertical" 0;
     mk_member uint8_t "target_system" 0; mk_member uint8_t "target_component" 0; mk_member uint8_t "id_or_mac" 20;
     mk_member uint8_t "status" 0; mk_member uint8_t "height_reference" 0; mk_member uint8_t "horizontal_accuracy" 0;
     mk_member uint8_t "vertical_accuracy" 0; mk_member uint8_t "barometer_accuracy" 0;
     mk_member uint8_t "speed_accuracy" 0; mk_member uint8_t "timestamp_accuracy" 0]
    [mk_field "target_system" MAVLINK_TYPE_UINT8_T 0 30; mk_field "target_component" MAVLINK_TYPE_UINT8_T 0 31;
     mk_field "id_or_mac" MAVLINK_TYPE_UINT8_T 20 32; mk_field "status" MAVLINK_TYPE_UINT8_T 0 52;
     mk_field "direction" MAVLINK_TYPE_UINT16_T 0 24; mk_field "speed_horizontal" MAVLINK_TYPE_UINT16_T 0 26;
     mk_field "speed_vertical" MAVLINK_TYPE_INT16_T 0 28; mk_field "latitude" MAVLINK_TYPE_INT32_T 0 0;
     mk_field "longitude" MAVLINK_TYPE_INT32_T 0 4; mk_field "altitude_barometric" MAVLINK_TYPE_FLOAT 0 8;
     mk_field "altitude_geodetic" MAVLINK_TYPE_FLOAT 0 12; mk_field "height_reference" MAVLINK_TYPE_UINT8_T 0 53;
     mk_field "height" MAVLINK_TYPE_FLOAT 0 16; mk_field "horizontal_accuracy" MAVLINK_TYPE_UINT8_T 0 54;
     mk_field "vertical_accuracy" MAVLINK_TYPE_UINT8_T 0 55; mk_field "barometer_accuracy" MAVLINK_TYPE_UINT8_T 0 56;
     mk_field "speed_accuracy" MAVLINK_TYPE_UINT8_T 0 57; mk_field "timestamp" MAVLINK_TYPE_FLOAT 0 20;
     mk_field "timestamp_accuracy" MAVLINK_TYPE_UINT8_T 0 58]
    [put int32_t 0 "latitude"; put int32_t 4 "longitude"; put float_t 8 "altitude_barometric";
     put float_t 12 "altitude_geodetic"; put float_t 16 "height"; put float_t 20 "timestamp";
     put uint16_t 24 "direction"; put uint16_t 26 "speed_horizontal"; put int16_t 28 "speed_vertical";
     put uint8_t 30 "target_system"; put uint8_t 31 "target_component"; put uint8_t 52 "status";
     put uint8_t 53 "height_reference"; put uint8_t 54 "horizontal_accuracy"; put uint8_t 55 "vertical_accuracy";
     put uint8_t 56 "barometer_accuracy"; put uint8_t 57 "speed_accuracy"; put uint8_t 58 "timestamp_accuracy";
     put_array uint8_t 32 "id_or_mac" 20]
    [assign "latitude" "latitude"; assign "longitude" "longitude"; assign "altitude_barometric" "altitude_barometric";
     assign "altitude_geodetic" "altitude_geodetic"; assign "height" "height"; assign "timestamp" "timestamp";
     assign "direction" "direction"; assign "speed_horizontal" "speed_horizontal";
     assign "speed_vertical" "speed_vertical"; assign "target_system" "target_system";
     assign "target_component" "target_component"; assign "status" "status";
     assign "height_reference" "height_reference"; assign "horizontal_accuracy" "horizontal_accuracy";
     assign "vertical_accuracy" "vertical_accuracy"; assign "barometer_accuracy" "barometer_accuracy";
     assign "speed_accuracy" "speed_accuracy"; assign "timestamp_accuracy" "timestamp_accuracy";
     copy_array "id_or_mac" "id_or_mac" uint8_t 20].
Definition GET_OPEN_DRONE_ID_LOCATION : list getter :=
    [mk_getter "target_system" uint8_t 0 30; mk_getter "target_component" uint8_t 0 31;
     mk_getter "id_or_mac" uint8_t 20 32; mk_getter "status" uint8_t 0 52; mk_getter "direction" uint16_t 0 24;
     mk_getter "speed_horizontal" uint16_t 0 26; mk_getter "speed_vertical" int16_t 0 28;
     mk_getter "latitude" int32_t 0 0; mk_getter "longitude" int32_t 0 4; mk_getter "altitude_barometric" float_t 0 8;
     mk_getter "altitude_geodetic" float_t 0 12; mk_getter "height_reference" uint8_t 0 53;
     mk_getter "height" float_t 0 16; mk_getter "horizontal_accuracy" uint8_t 0 54;
     mk_getter "vertical_accuracy" uint8_t 0 55; mk_getter "barometer_accuracy" uint8_t 0 56;
     mk_getter "speed_accuracy" uint8_t 0 57; mk_getter "timestamp" float_t 0 20;
     mk_getter "timestamp_accuracy" uint8_t 0 58].

Definition MSG_OPEN_DRONE_ID_AUTHENTICATION : mav_message :=
  mk_message 12902 "OPEN_DRONE_ID_AUTHENTICATION" 53 53 140 false
    [mk_member uint32_t "timestamp" 0; mk_member uint8_t "target_system" 0; mk_member uint8_t "target_component" 0;
     mk_member uint8_t "id_or_mac" 20; mk_member uint8_t "authentication_type" 0; mk_member uint8_t "data_page" 0;
     mk_member uint8_t "last_page_index" 0; mk_member uint8_t "length" 0; mk_member uint8_t "authentication_data" 23]
    [mk_field "target_system" MAVLINK_TYPE_UINT8_T 0 4; mk_field "target_component" MAVLINK_TYPE_UINT8_T 0 5;
     mk_field "id_or_mac" MAVLINK_TYPE_UINT8_T 20 6; mk_field "authentication_type" MAVLINK_TYPE_UINT8_T 0 26;
     mk_field "data_page" MAVLINK_TYPE_UINT8_T 0 27; mk_field "last_page_index" MAVLINK_TYPE_UINT8_T 0 28;
     mk_field "length" MAVLINK_TYPE_UINT8_T 0 29; mk_field "timestamp" MAVLINK_TYPE_UINT32_T 0 0;
     mk_field "authentication_data" MAVLINK_TYPE_UINT8_T 23 30]
    [put uint32_t 0 "timestamp"; put uint8_t 4 "target_system"; put uint8_t 5 "target_component";
     put uint8_t 26 "authentication_type"; put uint8_t 27 "data_page"; put uint8_t 28 "last_page_index";
     put uint8_t 29 "length"; put_array uint8_t 6 "id_or_mac" 20; put_array uint8_t 30 "authentication_data" 23]
    [assign "timestamp" "timestamp"; assign "target_system" "target_system";
     assign "target_component" "target_component"; assign "authentication_type" "authentication_type";
     assign "data_page" "data_page"; assign "last_page_index" "last_page_index"; assign "length" "length";
     copy_array "id_or_mac" "id_or_mac" uint8_t 20; copy_array "authentication_data" "authentication_data" uint8_t 23].
Definition GET_OPEN_DRONE_ID_AUTHENTICATION : list getter :=
    [mk_getter "target_system" uint8_t 0 4; mk_getter "target_component" uint8_t 0 5;
     mk_getter "id_or_mac" uint8_t 20 6; mk_getter "authentication_type" uint8_t 0 26;
     mk_getter "data_page" uint8_t 0 27; mk_getter "last_page_index" uint8_t 0 28; mk_getter "length" uint8_t 0 29;
     mk_getter "timestamp" uint32_t 0 0; mk_getter "authentication_data" uint8_t 23 30].

Definition MSG_OPEN_DRONE_ID_SELF_ID : mav_message :=
  mk_message 12903 "OPEN_DRONE_ID_SELF_ID" 46 46 249 false
    [mk_member uint8_t "target_system" 0; mk_member uint8_t "target_component" 0; mk_member uint8_t "id_or_mac" 20;
     mk_member uint8_t "description_type" 0; mk_member char_t "description" 23]
    [mk_field "target_system" MAVLINK_TYPE_UINT8_T 0 0; mk_field "target_component" MAVLINK_TYPE_UINT8_T 0 1;
     mk_field "id_or_mac" MAVLINK_TYPE_UINT8_T 20 2; mk_field "description_type" MAVLINK_TYPE_UINT8_T 0 22;
     mk_field "description" MAVLINK_TYPE_CHAR 23 23]
    [put uint8_t 0 "target_system"; put uint8_t 1 "target_component"; put uint8_t 22 "description_type";
     put_array uint8_t 2 "id_or_mac" 20; put_array char_t 23 "description" 23]
    [assign "target_system" "target_system"; assign "target_component" "target_component";
     assign "description_type" "description_type"; copy_array "id_or_mac" "id_or_mac" uint8_t 20;
     copy_array "description" "description" char_t 23].
Definition GET_OPEN_DRONE_ID_SELF_ID : list getter :=
    [mk_getter "target_system" uint8_t 0 0; mk_getter "target_component" uint8_t 0 1;
     mk_getter "id_or_mac" uint8_t 20 2; mk_getter "description_type" uint8_t 0 22;
     mk_getter "description" char_t 23 23].

Definition MSG_OPEN_DRONE_ID_SYSTEM : mav_message :=
  mk_message 12904 "OPEN_DRONE_ID_SYSTEM" 54 54 77 false
    [mk_member int32_t "operator_latitude" 0; mk_member int32_t "operator_longitude" 0;
     mk_member float_t "area_ceiling" 0; mk_member float_t "area_floor" 0;
     mk_member float_t "operator_altitude_geo" 0; mk_member uint32_t "timestamp" 0; mk_member uint16_t "area_count" 0;
     mk_member uint16_t "area_radius" 0; mk_member uint8_t "target_system" 0; mk_member uint8_t "target_component" 0;
     mk_member uint8_t "id_or_mac" 20; mk_member uint8_t "operator_location_type" 0;
     mk_member uint8_t "classification_type" 0; mk_member uint8_t "category_eu" 0; mk_member uint8_t "class_eu" 0]
    [mk_field "target_system" MAVLINK_TYPE_UINT8_T 0 28; mk_field "target_component" MAVLINK_TYPE_UINT8_T 0 29;
     mk_field "id_or_mac" MAVLINK_TYPE_UINT8_T 20 30; mk_field "operator_location_type" MAVLINK_TYPE_UINT8_T 0 50;
     mk_field "classification_type" MAVLINK_TYPE_UINT8_T 0 51; mk_field "operator_latitude" MAVLINK_TYPE_INT32_T 0 0;
     mk_field "operator_longitude" MAVLINK_TYPE_INT32_T 0 4; mk_field "area_count" MAVLINK_TYPE_UINT16_T 0 24;
     mk_field "area_radius" MAVLINK_TYPE_UINT16_T 0 26; mk_field "area_ceiling" MAVLINK_TYPE_FLOAT 0 8;
     mk_field "area_floor" MAVLINK_TYPE_FLOAT 0 12; mk_field "category_eu" MAVLINK_TYPE_UINT8_T 0 52;
     mk_field "class_eu" MAVLINK_TYPE_UINT8_T 0 53; mk_field "operator_altitude_geo" MAVLINK_TYPE_FLOAT 0 16;
     mk_field "timestamp" MAVLINK_TYPE_UINT32_T 0 20]
    [put int32_t 0 "operator_latitude"; put int32_t 4 "operator_longitude"; put float_t 8 "area_ceiling";
     put float_t 12 "area_floor"; put float_t 16 "operator_altitude_geo"; put uint32_t 20 "timestamp";
     put uint16_t 24 "area_count"; put uint16_t 26 "area_radius"; put uint8_t 28 "target_system";
     put uint8_t 29 "target_component"; put uint8_t 50 "operator_location_type"; put uint8_t 51 "classification_type";
     put uint8_t 52 "category_eu"; put uint8_t 53 "class_eu"; put_array uint8_t 30 "id_or_mac" 20]
    [assign "operator_latitude" "operator_latitude"; assign "operator_longitude" "operator_longitude";
     assign "area_ceiling" "area_ceiling"; assign "area_floor" "area_floor";
     assign "operator_altitude_geo" "operator_altitude_geo"; assign "timestamp" "timestamp";
     assign "area_count" "area_count"; assign "area_radius" "area_radius"; assign "target_system" "target_system";
     assign "target_component" "target_component"; assign "operator_location_type" "operator_location_type";
     assign "classification_type" "classification_type"; assign "category_eu" "category_eu";
     assign "class_eu" "class_eu"; copy_array "id_or_mac" "id_or_mac" uint8_t 20].
Definition GET_OPEN_DRONE_ID_SYSTEM : list getter :=
    [mk_getter "target_system" uint8_t 0 28; mk_getter "target_component" uint8_t 0 29;
     mk_getter "id_or_mac" uint8_t 20 30; mk_getter "operator_location_type" uint8_t 0 50;
     mk_getter "classification_type" uint8_t 0 51; mk_getter "operator_latitude" int32_t 0 0;
     mk_getter "operator_longitude" int32_t 0 4; mk_getter "area_count" uint16_t 0 24;
     mk_getter "area_radius" uint16_t 0 26; mk_getter "area_ceiling" float_t 0 8; mk_getter "area_floor" float_t 0 12;
     mk_getter "category_eu" uint8_t 0 52; mk_getter "class_eu" uint8_t 0 53;
     mk_getter "operator_altitude_geo" float_t 0 16; mk_getter "timestamp" uint32_t 0 20].

Definition MSG_OPEN_DRONE_ID_OPERATOR_ID : mav_message :=
  mk_message 12905 "OPEN_DRONE_ID_OPERATOR_ID" 43 43 49 false
    [mk_member uint8_t "target_system" 0; mk_member uint8_t "target_component" 0; mk_member uint8_t "id_or_mac" 20;
     mk_member uint8_t "operator_id_type" 0; mk_member char_t "operator_id" 20]
    [mk_field "target_system" MAVLINK_TYPE_UINT8_T 0 0; mk_field "target_component" MAVLINK_TYPE_UINT8_T 0 1;
     mk_field "id_or_mac" MAVLINK_TYPE_UINT8_T 20 2; mk_field "operator_id_type" MAVLINK_TYPE_UINT8_T 0 22;
     mk_field "operator_id" MAVLINK_TYPE_CHAR 20 23]
    [put uint8_t 0 "target_system"; put uint8_t 1 "target_component"; put uint8_t 22 "operator_id_type";
     put_array uint8_t 2 "id_or_mac" 20; put_array char_t 23 "operator_id" 20]
    [assign "target_system" "target_system"; assign "target_component" "target_component";
     assign "operator_id_type" "operator_id_type"; copy_array "id_or_mac" "id_or_mac" uint8_t 20;
     copy_array "operator_id" "operator_id" char_t 20].
Definition GET_OPEN_DRONE_ID_OPERATOR_ID : list getter :=
    [mk_getter "target_system" uint8_t 0 0; mk_getter "target_component" uint8_t 0 1;
     mk_getter "id_or_mac" uint8_t 20 2; mk_getter "operator_id_type" uint8_t 0 22;
     mk_getter "operator_id" char_t 20 23].

Definition MSG_OPEN_DRONE_ID_MESSAGE_PACK : mav_message :=
  mk_message 12915 "OPEN_DRONE_ID_MESSAGE_PACK" 249 249 94 false
    [mk_member uint8_t "target_system" 0; mk_member uint8_t "target_component" 0; mk_member uint8_t "id_or_mac" 20;
     mk_member uint8_t "single_message_size" 0; mk_member uint8_t "msg_pack_size" 0; mk_member uint8_t "messages" 225]
    [mk_field "target_system" MAVLINK_TYPE_UINT8_T 0 0; mk_field "target_component" MAVLINK_TYPE_UINT8_T 0 1;
     mk_field "id_or_mac" MAVLINK_TYPE_UINT8_T 20 2; mk_field "single_message_size" MAVLINK_TYPE_UINT8_T 0 22;
     mk_field "msg_pack_size" MAVLINK_TYPE_UINT8_T 0 23; mk_field "messages" MAVLINK_TYPE_UINT8_T 225 24]
    [put uint8_t 0 "target_system"; put uint8_t 1 "target_component"; put uint8_t 22 "single_message_size";
     put uint8_t 23 "msg_pack_size"; put_array uint8_t 2 "id_or_mac" 20; put_array uint8_t 24 "messages" 225]
    [assign "target_system" "target_system"; assign "target_component" "target_component";
     assign "single_message_size" "single_message_size"; assign "msg_pack_size" "msg_pack_size";
     copy_array "id_or_mac" "id_or_mac" uint8_t 20; copy_array "messages" "messages" uint8_t 225].
Definition GET_OPEN_DRONE_ID_MESSAGE_PACK : list getter :=
    [mk_getter "target_system" uint8_t 0 0; mk_getter "target_component" uint8_t 0 1;
     mk_getter "id_or_mac" uint8_t 20 2; mk_getter "single_message_size" uint8_t 0 22;
     mk_getter "msg_pack_size" uint8_t 0 23; mk_getter "messages" uint8_t 225 24].

Definition MSG_OPEN_DRONE_ID_ARM_STATUS : mav_message :=
  mk_message 12918 "OPEN_DRONE_ID_ARM_STATUS" 51 51 139 false
    [mk_member uint8_t "status" 0; mk_member char_t "error" 50]
    [mk_field "status" MAVLINK_TYPE_UINT8_T 0 0; mk_field "error" MAVLINK_TYPE_CHAR 50 1]
    [put uint8_t 0 "status"; put_array char_t 1 "error" 50]
    [assign "status" "status"; copy_array "error" "error" char_t 50].
Definition GET_OPEN_DRONE_ID_ARM_STATUS : list getter :=
    [mk_getter "status" uint8_t 0 0; mk_getter "error" char_t 50 1].

Definition MSG_OPEN_DRONE_ID_SYSTEM_UPDATE : mav_message :=
  mk_message 12919 "OPEN_DRONE_ID_SYSTEM_UPDATE" 18 18 7 false
    [mk_member int32_t "operator_latitude" 0; mk_member int32_t "operator_longitude" 0;
     mk_member float_t "operator_altitude_geo" 0; mk_member uint32_t "timestamp" 0;
     mk_member uint8_t "target_system" 0; mk_member uint8_t "target_component" 0]
    [mk_field "target_system" MAVLINK_TYPE_UINT8_T 0 16; mk_field "target_component" MAVLINK_TYPE_UINT8_T 0 17;
     mk_field "operator_latitude" MAVLINK_TYPE_INT32_T 0 0; mk_field "operator_longitude" MAVLINK_TYPE_INT32_T 0 4;
     mk_field "operator_altitude_geo" MAVLINK_TYPE_FLOAT 0 8; mk_field "timestamp" MAVLINK_TYPE_UINT32_T 0 12]
    [put int32_t 0 "operator_latitude"; put int32_t 4 "operator_longitude"; put float_t 8 "operator_altitude_geo";
     put uint32_t 12 "timestamp"; put uint8_t 16 "target_system"; put uint8_t 17 "target_component"]
    [assign "operator_latitude" "operator_latitude"; assign "operator_longitude" "operator_longitude";
     assign "operator_altitude_geo" "operator_altitude_geo"; assign "timestamp" "timestamp";
     assign "target_system" "target_system"; assign "target_component" "target_component"].
Definition GET_OPEN_DRONE_ID_SYSTEM_UPDATE : list getter :=
    [mk_getter "target_system" uint8_t 0 16; mk_getter "target_component" uint8_t 0 17;
     mk_getter "operator_latitude" int32_t 0 0; mk_getter "operator_longitude" int32_t 0 4;
     mk_getter "operator_altitude_geo" float_t 0 8; mk_getter "timestamp" uint32_t 0 12].

Definition MSG_HYGROMETER_SENSOR : mav_message :=
  mk_message 12920 "HYGROMETER_SENSOR" 5 5 20 false
    [mk_member int16_t "temperature" 0; mk_member uint16_t "humidity" 0; mk_member uint8_t "id" 0]
    [mk_field "id" MAVLINK_TYPE_UINT8_T 0 4; mk_field "temperature" MAVLINK_TYPE_INT16_T 0 0;
     mk_field "humidity" MAVLINK_TYPE_UINT16_T 0 2]
    [put int16_t 0 "temperature"; put uint16_t 2 "humidity"; put uint8_t 4 "id"]
    [assign "temperature" "temperature"; assign "humidity" "humidity"; assign "id" "id"].
Definition GET_HYGROMETER_SENSOR : list getter :=
    [mk_getter "id" uint8_t 0 4; mk_getter "temperature" int16_t 0 0; mk_getter "humidity" uint16_t 0 2].

Definition messages3 : list (mav_message * list getter) :=
    [(MSG_CAMERA_THERMAL_RANGE, GET_CAMERA_THERMAL_RANGE);
     (MSG_GIMBAL_MANAGER_INFORMATION, GET_GIMBAL_MANAGER_INFORMATION);
     (MSG_GIMBAL_MANAGER_STATUS, GET_GIMBAL_MANAGER_STATUS);
     (MSG_GIMBAL_MANAGER_SET_ATTITUDE, GET_GIMBAL_MANAGER_SET_ATTITUDE);
     (MSG_GIMBAL_DEVICE_INFORMATION, GET_GIMBAL_DEVICE_INFORMATION);
     (MSG_GIMBAL_DEVICE_SET_ATTITUDE, GET_GIMBAL_DEVICE_SET_ATTITUDE);
     (MSG_GIMBAL_DEVICE_ATTITUDE_STATUS, GET_GIMBAL_DEVICE_ATTITUDE_STATUS);
     (MSG_AUTOPILOT_STATE_FOR_GIMBAL_DEVICE, GET_AUTOPILOT_STATE_FOR_GIMBAL_DEVICE);
     (MSG_GIMBAL_MANAGER_SET_PITCHYAW, GET_GIMBAL_MANAGER_SET_PITCHYAW);
     (MSG_GIMBAL_MANAGER_SET_MANUAL_CONTROL, GET_GIMBAL_MANAGER_SET_MANUAL_CONTROL); (MSG_ESC_INFO, GET_ESC_INFO);
     (MSG_ESC_STATUS, GET_ESC_STATUS); (MSG_AIRSPEED, GET_AIRSPEED);
     (MSG_GLOBAL_POSITION_SENSOR, GET_GLOBAL_POSITION_SENSOR); (MSG_WIFI_CONFIG_AP, GET_WIFI_CONFIG_AP);
     (MSG_PROTOCOL_VERSION, GET_PROTOCOL_VERSION); (MSG_AIS_VESSEL, GET_AIS_VESSEL);
     (MSG_UAVCAN_NODE_STATUS, GET_UAVCAN_NODE_STATUS); (MSG_UAVCAN_NODE_INFO, GET_UAVCAN_NODE_INFO);
     (MSG_PARAM_EXT_REQUEST_READ, GET_PARAM_EXT_REQUEST_READ);
     (MSG_PARAM_EXT_REQUEST_LIST, GET_PARAM_EXT_REQUEST_LIST); (MSG_PARAM_EXT_VALUE, GET_PARAM_EXT_VALUE);
     (MSG_PARAM_EXT_SET, GET_PARAM_EXT_SET); (MSG_PARAM_EXT_ACK, GET_PARAM_EXT_ACK);
     (MSG_OBSTACLE_DISTANCE, GET_OBSTACLE_DISTANCE); (MSG_ODOMETRY, GET_ODOMETRY);
     (MSG_TRAJECTORY_REPRESENTATION_WAYPOINTS, GET_TRAJECTORY_REPRESENTATION_WAYPOINTS);
     (MSG_TRAJECTORY_REPRESENTATION_BEZIER, GET_TRAJECTORY_REPRESENTATION_BEZIER);
     (MSG_CELLULAR_STATUS, GET_CELLULAR_STATUS); (MSG_ISBD_LINK_STATUS, GET_ISBD_LINK_STATUS);
     (MSG_CELLULAR_CONFIG, GET_CELLULAR_CONFIG); (MSG_RAW_RPM, GET_RAW_RPM);
     (MSG_UTM_GLOBAL_POSITION, GET_UTM_GLOBAL_POSITION); (MSG_PARAM_ERROR, GET_PARAM_ERROR);
     (MSG_DEBUG_FLOAT_ARRAY, GET_DEBUG_FLOAT_ARRAY); (MSG_ORBIT_EXECUTION_STATUS, GET_ORBIT_EXECUTION_STATUS);
     (MSG_FIGURE_EIGHT_EXECUTION_STATUS, GET_FIGURE_EIGHT_EXECUTION_STATUS);
     (MSG_SMART_BATTERY_INFO, GET_SMART_BATTERY_INFO); (MSG_FUEL_STATUS, GET_FUEL_STATUS);
     (MSG_BATTERY_INFO, GET_BATTERY_INFO); (MSG_GENERATOR_STATUS, GET_GENERATOR_STATUS);
     (MSG_ACTUATOR_OUTPUT_STATUS, GET_ACTUATOR_OUTPUT_STATUS); (MSG_RELAY_STATUS, GET_RELAY_STATUS);
     (MSG_TIME_ESTIMATE_TO_TARGET, GET_TIME_ESTIMATE_TO_TARGET); (MSG_TUNNEL, GET_TUNNEL);
     (MSG_CAN_FRAME, GET_CAN_FRAME); (MSG_CANFD_FRAME, GET_CANFD_FRAME);
     (MSG_CAN_FILTER_MODIFY, GET_CAN_FILTER_MODIFY); (MSG_ONBOARD_COMPUTER_STATUS, GET_ONBOARD_COMPUTER_STATUS);
     (MSG_COMPONENT_INFORMATION, GET_COMPONENT_INFORMATION);
     (MSG_COMPONENT_INFORMATION_BASIC, GET_COMPONENT_INFORMATION_BASIC);
     (MSG_COMPONENT_METADATA, GET_COMPONENT_METADATA); (MSG_PLAY_TUNE_V2, GET_PLAY_TUNE_V2);
     (MSG_SUPPORTED_TUNES, GET_SUPPORTED_TUNES); (MSG_EVENT, GET_EVENT);
     (MSG_CURRENT_EVENT_SEQUENCE, GET_CURRENT_EVENT_SEQUENCE); (MSG_REQUEST_EVENT, GET_REQUEST_EVENT);
     (MSG_RESPONSE_EVENT_ERROR, GET_RESPONSE_EVENT_ERROR); (MSG_AVAILABLE_MODES, GET_AVAILABLE_MODES);
     (MSG_CURRENT_MODE, GET_CURRENT_MODE); (MSG_AVAILABLE_MODES_MONITOR, GET_AVAILABLE_MODES_MONITOR);
     (MSG_ILLUMINATOR_STATUS, GET_ILLUMINATOR_STATUS); (MSG_WHEEL_DISTANCE, GET_WHEEL_DISTANCE);
     (MSG_WINCH_STATUS, GET_WINCH_STATUS); (MSG_OPEN_DRONE_ID_BASIC_ID, GET_OPEN_DRONE_ID_BASIC_ID);
     (MSG_OPEN_DRONE_ID_LOCATION, GET_OPEN_DRONE_ID_LOCATION);
     (MSG_OPEN_DRONE_ID_AUTHENTICATION, GET_OPEN_DRONE_ID_AUTHENTICATION);
     (MSG_OPEN_DRONE_ID_SELF_ID, GET_OPEN_DRONE_ID_SELF_ID); (MSG_OPEN_DRONE_ID_SYSTEM, GET_OPEN_DRONE_ID_SYSTEM);
     (MSG_OPEN_DRONE_ID_OPERATOR_ID, GET_OPEN_DRONE_ID_OPERATOR_ID);
     (MSG_OPEN_DRONE_ID_MESSAGE_PACK, GET_OPEN_DRONE_ID_MESSAGE_PACK);
     (MSG_OPEN_DRONE_ID_ARM_STATUS, GET_OPEN_DRONE_ID_ARM_STATUS);
     (MSG_OPEN_DRONE_ID_SYSTEM_UPDATE, GET_OPEN_DRONE_ID_SYSTEM_UPDATE);
     (MSG_HYGROMETER_SENSOR, GET_HYGROMETER_SENSOR)].
