(* ===== verification/MavMessageTheorems.v ===== *)
(** * The messages of the dialect

    The headers of [common] together: they are consistent, they agree with the table
    [MAVLINK_MESSAGE_CRCS] and with the checksum seed that MAVLink derives from a
    message's definition, and a message that is packed, finalised, sent, parsed and
    decoded comes back with the arguments it was packed with. *)
From stdpp Require Import strings.
From S2P Require Import Prelude MavTypes MavChecksum MavMessageTable MavFinalize MavParser MavFraming MavRoundtrip MavFields MavMessageLayout MavMessages1 MavMessages2 MavMessages3.

#[local] Open Scope Z_scope.

Definition common_messages : list (mav_message * list getter) := messages1 ++ messages2 ++ messages3.

#[local] Strategy 1000 [common_messages].

Lemma common_messages_wf : forallb (λ mg, wf_message mg.1 mg.2) common_messages = true.
Proof. vm_compute. reflexivity. Qed.

(** ** The checksum seed *)

Definition type_name (t : mavlink_message_type_t) : string :=
  match t with
  | MAVLINK_TYPE_CHAR => "char" | MAVLINK_TYPE_UINT8_T => "uint8_t" | MAVLINK_TYPE_INT8_T => "int8_t"
  | MAVLINK_TYPE_UINT16_T => "uint16_t" | MAVLINK_TYPE_INT16_T => "int16_t" | MAVLINK_TYPE_UINT32_T => "uint32_t"
  | MAVLINK_TYPE_INT32_T => "int32_t" | MAVLINK_TYPE_UINT64_T => "uint64_t" | MAVLINK_TYPE_INT64_T => "int64_t"
  | MAVLINK_TYPE_FLOAT => "float" | MAVLINK_TYPE_DOUBLE => "double"
  end.

Definition text_bytes (s : string) : list Z := map (λ c, Z.of_nat (Ascii.nat_of_ascii c)) (String.list_ascii_of_string s).

(** The seed of the message's checksum: a checksum of its name and of the types and
    names of its fields, in wire order, without the extensions. *)
Definition crc_extra (m : mav_message) : Z :=
  let base := filter (λ mo : placed, (mo.2 < msg_min_len m)%nat) (message_layout m) in
  let field (mo : placed) := text_bytes (type_name (sm_type mo.1) +:+ " " +:+ sm_name mo.1 +:+ " ")
                             ++ (match sm_len mo.1 with O => [] | n => [Z.of_nat n] end) in
  let crc := crc_calculate (text_bytes (msg_name m +:+ " ") ++ concat (map field base)) in
  Z.lxor (Z.land crc 0xff) (Z.shiftr crc 8).

(** The field that names the addressee; [MANUAL_CONTROL] calls it [target]. *)
Definition target_field (m : mav_message) : string :=
  if String.eqb (msg_name m) "MANUAL_CONTROL" then "target" else "target_system".
Definition field_offset (m : mav_message) (name : string) : option nat :=
  match list_find (λ f, fi_name f = name) (msg_fields m) with Some (_, f) => Some (fi_wire_offset f) | None => None end.

Definition entry_of (m : mav_message) : mavlink_msg_entry_t :=
  let ts := field_offset m (target_field m) in
  let tc := field_offset m "target_component" in
  mk_entry (msg_id m) (crc_extra m) (Z.of_nat (msg_min_len m)) (Z.of_nat (msg_len m))
    ((if ts then 1 else 0) + (if tc then 2 else 0)) (Z.of_nat (default 0%nat ts)) (Z.of_nat (default 0%nat tc)).

(** C32: The table MAVLINK_MESSAGE_CRCS and the generated headers agree, entry by entry:
    ids, minimal and maximal lengths, addressee flags and offsets, and the checksum
    seeds, which are recomputed from the names and types of the fields. *)
Theorem messages_match_table :
  MAVLINK_MESSAGE_CRCS = map (λ mg, entry_of mg.1) common_messages ∧
  Forall (λ mg, msg_crc mg.1 = crc_extra mg.1) common_messages.
Proof.
  split; [vm_compute; reflexivity|].
  assert (H : forallb (λ mg, msg_crc mg.1 =? crc_extra mg.1) common_messages = true) by (vm_compute; reflexivity).
  apply Forall_forall. intros mg Hmg. apply Z.eqb_eq. rewrite forallb_forall in H. by apply (H mg).
Qed.

#[global] Instance mavlink_msg_entry_eq_dec : EqDecision mavlink_msg_entry_t.
Proof. solve_decision. Defined.

Lemma common_message_wf mg : mg ∈ common_messages → wf_message mg.1 mg.2 = true.
Proof. intros Hin. exact (proj1 (forallb_elem _ _) common_messages_wf mg Hin). Qed.

Lemma common_message_entry mg : mg ∈ common_messages →
  mavlink_get_msg_entry (msg_id mg.1) = Some (entry_of mg.1) ∧ msg_crc mg.1 = e_crc_extra (entry_of mg.1).
Proof.
  assert (H : forallb (λ mg, bool_decide (mavlink_get_msg_entry (msg_id mg.1) = Some (entry_of mg.1)) && (msg_crc mg.1 =? crc_extra mg.1))
                common_messages = true) by (vm_compute; reflexivity).
  intros Hin. pose proof (proj1 (forallb_elem _ _) H mg Hin) as [H1%bool_decide_eq_true H2%Z.eqb_eq]%andb_true_iff.
  split; [exact H1|exact H2].
Qed.

Lemma array_bytes_ok t vs : bytes_ok (array_bytes t vs).
Proof. unfold array_bytes. induction vs as [|v vs IH]; [constructor|]. cbn. apply Forall_app. split; [apply le_bytes_ok|done]. Qed.

Lemma wire_ok m args : bytes_ok (wire m args).
Proof. unfold wire. induction (msg_members m) as [|sm l IH]; [constructor|]. cbn. apply Forall_app. split; [apply array_bytes_ok|done]. Qed.

(** A message filled by a packing function. *)
Lemma fill_message_spec aligned mg args stack msg :
  mg ∈ common_messages → args_ok mg.1 args → length stack = stack_size aligned mg.1 → msg_ok msg →
  ∃ msg1, fill_message aligned mg.1 args stack msg = Some msg1 ∧ msg_ok msg1 ∧ m_msgid msg1 = msg_id mg.1 ∧
    m_payload msg1 = memcpy_at (m_payload msg) 0 (wire mg.1 args) ∧ take (msg_len mg.1) (m_payload msg1) = wire mg.1 args.
Proof.
  intros Hin Ha Hs Hm. pose proof (common_message_wf mg Hin) as Hwf. destruct (pack_payload_wire aligned _ _ args stack Hwf Ha Hs) as [Hp Hlen].
  apply wf_message_spec in Hwf as (_ & Hl & _ & _ & _ & _ & Hid).
  pose proof Hm as (?&?&?&?&?&?&?&?&?&Hcap&Hb&?&?&?&?). unfold payload_capacity in Hcap.
  unfold fill_message. rewrite Hp. cbn [mbind option_bind]. unfold store. rewrite bool_decide_true by lia. cbn.
  eexists. split; [done|]. split; [|split; [done|split; [done|]]].
  - unfold msg_ok. cbn. split_and!; try done; try lia.
    + rewrite length_memcpy_at by lia. done.
    + apply memcpy_at_ok; [done|apply wire_ok].
  - cbn. rewrite <- Hlen. unfold memcpy_at. rewrite take_0, app_nil_l. apply take_app_length.
Qed.

(** Both bodies of a packing function produce the same payload, whatever the stack
    held before: nothing of the stack is sent. *)
Theorem pack_bodies_agree mg args stack stack' :
  mg ∈ common_messages → args_ok mg.1 args →
  length stack = stack_size true mg.1 → length stack' = stack_size false mg.1 →
  pack_payload true mg.1 args stack = Some (wire mg.1 args) ∧ pack_payload false mg.1 args stack' = Some (wire mg.1 args) ∧
  length (wire mg.1 args) = msg_len mg.1.
Proof.
  intros Hin Ha Hs Hs'. pose proof (common_message_wf mg Hin) as Hwf.
  destruct (pack_payload_wire true mg.1 mg.2 args stack Hwf Ha Hs) as [H1 Hl].
  destruct (pack_payload_wire false mg.1 mg.2 args stack' Hwf Ha Hs') as [H2 _]. by split_and!.
Qed.

(** Only the first bytes of a packet are streamed. *)
Lemma stream_prefix sys status id packet min_length len crc :
  lengths_ok min_length len →
  mav_finalize_message_chan_send sys status id (take (Z.to_nat len) packet) min_length len crc =
  mav_finalize_message_chan_send sys status id packet min_length len crc.
Proof.
  intros Hl. unfold lengths_ok in Hl. unfold mav_finalize_message_chan_send. destruct sys as [sysid compid].
  rewrite trim_take. pose proof (trim_le packet (Z.to_nat len)) as Ht.
  destruct (out_mavlink1 status); rewrite take_take_le by lia; done.
Qed.

(** For every message of the dialect a generated send function streams, for either
    body and whatever its stack held, exactly the bytes that the packing function and
    mavlink_msg_to_send_buffer produce, and leaves the same channel status. *)
Theorem send_streams_packed_message aligned aligned' mg args stack stack' msg sysid compid status :
  mg ∈ common_messages → args_ok mg.1 args →
  length stack = stack_size aligned mg.1 → length stack' = stack_size aligned' mg.1 → msg_ok msg →
  out_mavlink1 status && (255 <? msg_id mg.1) = false →
  ∃ n msg' status', msg_pack_status aligned mg.1 args stack sysid compid status msg = Some (n, msg', status') ∧
    msg_send aligned' mg.1 args stack' (sysid, compid) status = Some ((mavlink_msg_to_send_buffer msg').1, status').
Proof.
  intros Hin Ha Hs Hs' Hm Hid. pose proof (common_message_wf mg Hin) as Hwf.
  destruct (fill_message_spec aligned mg args stack msg Hin Ha Hs Hm) as (msg1 & Ef & Hm1 & Eid & _ & Ew).
  destruct (send_packet_wire aligned' mg.1 mg.2 args stack' Hwf Ha Hs') as (packet & Ep & Ewp).
  pose proof (wf_message_spec _ _ Hwf) as (_ & Hl & _). set (len := Z.of_nat (msg_len mg.1)).
  assert (Hlens : lengths_ok (Z.of_nat (msg_min_len mg.1)) len) by (unfold lengths_ok, len; lia).
  assert (Hcap : length (m_payload msg1) = payload_capacity) by by destruct Hm1 as (?&?&?&?&?&?&?&?&?&?&?).
  rewrite <- Eid in Hid.
  pose proof (chan_send_is_finalize_then_send msg1 sysid compid status _ _ (msg_crc mg.1) Hcap Hlens Hid) as Hc.
  unfold msg_pack_status. rewrite Ef. cbn [mbind option_bind].
  fold len. destruct (mavlink_finalize_message_buffer _ _ _ _ _ _ _) as [[n msg'] status'].
  exists n, msg', status'. split; [done|]. unfold msg_send, stream_packet. rewrite Ep. cbn [mbind option_bind]. fold len.
  f_equal. rewrite <- Hc, Eid. rewrite <- (stream_prefix _ _ _ packet) by done. f_equal.
  unfold len. by rewrite Nat2Z.id, Ewp, Ew.
Qed.

Lemma trusts_ext tx rx m m' : m_sysid m = m_sysid m' → m_compid m = m_compid m' → trusts tx rx m → trusts tx rx m'.
Proof.
  intros E1 E2. unfold trusts. destruct (_ && _); [|done]. intros [?|(s&r&st&?&?&?&?&?&Hf)]; [by left|]. right.
  exists s, r, st. split_and!; try done. by apply (fresh_ext r st m m').
Qed.

Section EndToEnd.
Variable accept_unsigned : mavlink_status_t → Z → bool.

(** C1: For every message of the dialect, any arguments of its fields' types, either
    body of the generated packing function and of the decoder, and whatever their stacks
    held: when the sender is in MAVLink 2 mode, the receiver's parser is idle and, where
    signing is on, the receiver trusts the sender's signature, packing, finalising and
    sending on one side, parsing byte by byte and decoding on the other returns the
    arguments, with the sender's ids. *)
Theorem message_end_to_end aligned_tx aligned_rx mg args stack stack' msg sysid compid tx p :
  mg ∈ common_messages → args_ok mg.1 args → values_ok mg.1 args →
  length stack = stack_size aligned_tx mg.1 → length stack' = struct_size (msg_packed mg.1) (msg_members mg.1) →
  msg_ok msg → out_mavlink1 tx = false →
  parser_ok (pr_rxmsg p) (pr_status p) → is_idle (st_parse_state (pr_status p)) = true →
  trusts tx (pr_status p) (set_m_sysid sysid (set_m_compid compid msg)) →
  ∃ n msg' tx' p', msg_pack_status aligned_tx mg.1 args stack sysid compid tx msg = Some (n, msg', tx') ∧
    frame_run accept_unsigned p (mavlink_msg_to_send_buffer msg').1 = Some p' ∧ pr_return p' = FRAMING_OK ∧
    m_msgid (pr_rxmsg p') = msg_id mg.1 ∧ m_sysid (pr_rxmsg p') = sysid ∧ m_compid (pr_rxmsg p') = compid ∧
    msg_decode aligned_rx mg.1 mg.2 stack' (pr_rxmsg p') = Some (decoded mg.1 args).
Proof.
  intros Hin Ha Hv Hs Hs' Hm Htx Hp Hidle Htr.
  destruct (fill_message_spec aligned_tx mg args stack msg Hin Ha Hs Hm) as (msg1 & Ef & Hm1 & Eid & _ & Ew).
  destruct (common_message_entry mg Hin) as [Hentry Hcrc]. pose proof (common_message_wf mg Hin) as Hwf.
  pose proof (wf_message_spec _ _ Hwf) as (_ & Hl & _). set (len := Z.of_nat (msg_len mg.1)).
  assert (Hlens : lengths_ok (Z.of_nat (msg_min_len mg.1)) len) by (unfold lengths_ok, len; lia).
  assert (Hcap : length (m_payload msg1) = payload_capacity) by by destruct Hm1 as (?&?&?&?&?&?&?&?&?&?&?).
  unfold payload_capacity in Hcap.
  pose proof (roundtrip_frame accept_unsigned msg1 sysid compid tx (Z.of_nat (msg_min_len mg.1)) len (entry_of mg.1) p Hm1 Hlens
    (Z.le_refl _)) as Hr.
  rewrite Eid in Hr. specialize (Hr Hentry). rewrite Htx in Hr. specialize (Hr ltac:(done) Hp Hidle).
  specialize (Hr (trusts_ext _ _ (set_m_sysid sysid (set_m_compid compid msg)) (set_m_sysid sysid (set_m_compid compid msg1)) eq_refl eq_refl Htr)).
  unfold msg_pack_status. rewrite Ef. cbn [mbind option_bind]. rewrite Hcrc.
  destruct (mavlink_finalize_message_buffer _ _ _ _ _ _ _) as [[n msg'] tx'].
  destruct Hr as (p' & Erun & Eret & Elen & Ecap & Emid & Esys & Ecomp & _ & Epay). unfold payload_capacity in Ecap.
  exists n, msg', tx', p'. split_and!; try done.
  assert (Epre : take (msg_len mg.1) (m_payload (pr_rxmsg p')) = wire mg.1 args).
  { rewrite <- Ew. apply list_eq_same_length with (msg_len mg.1); [rewrite length_take; lia|rewrite length_take; lia|].
    intros i x y Hi. rewrite !lookup_take_lt by lia. intros H1 H2. specialize (Epay i ltac:(unfold len; lia)).
    rewrite !list_lookup_total_alt, H1, H2 in Epay. exact Epay. }
  apply (msg_decode_wire aligned_rx mg.1 mg.2 args stack'); try done; [lia| |].
  - intros k Hk. rewrite Epay by (unfold len; lia). unfold wire_len in Elen. rewrite Htx in Elen.
    apply (trim_zero _ (Z.to_nat len)). unfold len in *. lia.
  - rewrite Elen. by apply (wire_len_range tx msg1).
Qed.
End EndToEnd.

(** ** Instance: a heartbeat *)

Definition heartbeat_args : mav_args := λ _, Some [2].
Definition heartbeat_header : mav_message * list getter := (MSG_HEARTBEAT, GET_HEARTBEAT).

Lemma heartbeat_common : heartbeat_header ∈ common_messages.
Proof. apply list_elem_of_here. Qed.

Lemma heartbeat_args_ok : args_ok MSG_HEARTBEAT heartbeat_args ∧ values_ok MSG_HEARTBEAT heartbeat_args.
Proof. split; repeat constructor; try (intros _; by eexists); try done; by intros [=]. Qed.

Lemma pack_bodies_agree_witness :
  pack_payload true MSG_HEARTBEAT heartbeat_args (replicate 12 0xcc) = Some (wire MSG_HEARTBEAT heartbeat_args).
Proof.
  apply (pack_bodies_agree heartbeat_header heartbeat_args (replicate 12 0xcc) (replicate 9 0xcc));
    [exact heartbeat_common|apply heartbeat_args_ok|vm_compute; reflexivity|vm_compute; reflexivity].
Defined.

Lemma send_streams_packed_message_witness :
  ∃ n msg' status',
    msg_pack_status true MSG_HEARTBEAT heartbeat_args (replicate 12 0xcc) 255 190 zero_status sample_heartbeat = Some (n, msg', status') ∧
    msg_send false MSG_HEARTBEAT heartbeat_args (replicate 9 0xee) (255, 190) zero_status =
      Some ((mavlink_msg_to_send_buffer msg').1, status').
Proof.
  apply (send_streams_packed_message true false heartbeat_header heartbeat_args (replicate 12 0xcc) (replicate 9 0xee) sample_heartbeat
           255 190 zero_status).
  - exact heartbeat_common.
  - apply heartbeat_args_ok.
  - vm_compute. reflexivity.
  - vm_compute. reflexivity.
  - decide_now.
  - reflexivity.
Defined.

Lemma message_end_to_end_witness :
  ∃ n msg' tx' p', msg_pack_status true MSG_HEARTBEAT heartbeat_args (replicate 12 0xcc) 255 190 zero_status sample_heartbeat = Some (n, msg', tx') ∧
    frame_run no_callback start_parse (mavlink_msg_to_send_buffer msg').1 = Some p' ∧ pr_return p' = FRAMING_OK ∧
    m_msgid (pr_rxmsg p') = 0 ∧ m_sysid (pr_rxmsg p') = 255 ∧ m_compid (pr_rxmsg p') = 190 ∧
    msg_decode false MSG_HEARTBEAT GET_HEARTBEAT (replicate 12 0) (pr_rxmsg p') = Some (decoded MSG_HEARTBEAT heartbeat_args).
Proof.
  apply (message_end_to_end no_callback true false heartbeat_header heartbeat_args (replicate 12 0xcc) (replicate 12 0) sample_heartbeat 255 190 zero_status start_parse).
  - exact heartbeat_common.
  - apply heartbeat_args_ok.
  - apply heartbeat_args_ok.
  - vm_compute. reflexivity.
  - vm_compute. reflexivity.
  - decide_now.
  - reflexivity.
  - apply zero_parser_ok.
  - reflexivity.
  - reflexivity.
Defined.
