(* ===== verification/MavInfo.v ===== *)
(** * The message information table

    Model of [mavlink_get_info.h]: the descriptions of the messages, found by message
    id or by name with a bisection over a sorted table. *)
From Stdlib Require Import OrderedTypeEx.
From stdpp Require Import strings.
From S2P Require Import Prelude MavTypes MavMessageTable MavFields MavMessageLayout MavMessages1 MavMessages2 MavMessages3.

#[local] Open Scope Z_scope.

(** ** The tables ([common.h]) *)

Record mavlink_message_info_t := mk_info { mi_msgid : Z; mi_name : string; mi_fields : list mavlink_field_info_t }.

(** [MAVLINK_MESSAGE_INFO_*] of a header. *)
Definition info_of (m : mav_message) : mavlink_message_info_t := mk_info (msg_id m) (msg_name m) (msg_fields m).

Definition MAVLINK_MESSAGE_INFO : list mavlink_message_info_t := map info_of [
  MSG_HEARTBEAT; MSG_SYS_STATUS; MSG_SYSTEM_TIME; MSG_PING; MSG_CHANGE_OPERATOR_CONTROL; MSG_CHANGE_OPERATOR_CONTROL_ACK;
  MSG_AUTH_KEY; MSG_LINK_NODE_STATUS; MSG_SET_MODE; MSG_PARAM_REQUEST_READ; MSG_PARAM_REQUEST_LIST; MSG_PARAM_VALUE;
  MSG_PARAM_SET; MSG_GPS_RAW_INT; MSG_GPS_STATUS; MSG_SCALED_IMU; MSG_RAW_IMU; MSG_RAW_PRESSURE; MSG_SCALED_PRESSURE;
  MSG_ATTITUDE; MSG_ATTITUDE_QUATERNION; MSG_LOCAL_POSITION_NED; MSG_GLOBAL_POSITION_INT; MSG_RC_CHANNELS_SCALED;
  MSG_RC_CHANNELS_RAW; MSG_SERVO_OUTPUT_RAW; MSG_MISSION_REQUEST_PARTIAL_LIST; MSG_MISSION_WRITE_PARTIAL_LIST;
  MSG_MISSION_ITEM; MSG_MISSION_REQUEST; MSG_MISSION_SET_CURRENT; MSG_MISSION_CURRENT; MSG_MISSION_REQUEST_LIST;
  MSG_MISSION_COUNT; MSG_MISSION_CLEAR_ALL; MSG_MISSION_ITEM_REACHED; MSG_MISSION_ACK; MSG_SET_GPS_GLOBAL_ORIGIN;
  MSG_GPS_GLOBAL_ORIGIN; MSG_PARAM_MAP_RC; MSG_MISSION_REQUEST_INT; MSG_SAFETY_SET_ALLOWED_AREA; MSG_SAFETY_ALLOWED_AREA;
  MSG_ATTITUDE_QUATERNION_COV; MSG_NAV_CONTROLLER_OUTPUT; MSG_GLOBAL_POSITION_INT_COV; MSG_LOCAL_POSITION_NED_COV;
  MSG_RC_CHANNELS; MSG_REQUEST_DATA_STREAM; MSG_DATA_STREAM; MSG_MANUAL_CONTROL; MSG_RC_CHANNELS_OVERRIDE;
  MSG_MISSION_ITEM_INT; MSG_VFR_HUD; MSG_COMMAND_INT; MSG_COMMAND_LONG; MSG_COMMAND_ACK; MSG_COMMAND_CANCEL;
  MSG_MANUAL_SETPOINT; MSG_SET_ATTITUDE_TARGET; MSG_ATTITUDE_TARGET; MSG_SET_POSITION_TARGET_LOCAL_NED;
  MSG_POSITION_TARGET_LOCAL_NED; MSG_SET_POSITION_TARGET_GLOBAL_INT; MSG_POSITION_TARGET_GLOBAL_INT;
  MSG_LOCAL_POSITION_NED_SYSTEM_GLOBAL_OFFSET; MSG_HIL_STATE; MSG_HIL_CONTROLS; MSG_HIL_RC_INPUTS_RAW;
  MSG_HIL_ACTUATOR_CONTROLS; MSG_OPTICAL_FLOW; MSG_GLOBAL_VISION_POSITION_ESTIMATE; MSG_VISION_POSITION_ESTIMATE;
  MSG_VISION_SPEED_ESTIMATE; MSG_VICON_POSITION_ESTIMATE; MSG_HIGHRES_IMU; MSG_OPTICAL_FLOW_RAD; MSG_HIL_SENSOR;
  MSG_SIM_STATE; MSG_RADIO_STATUS; MSG_FILE_TRANSFER_PROTOCOL; MSG_TIMESYNC; MSG_CAMERA_TRIGGER; MSG_HIL_GPS;
  MSG_HIL_OPTICAL_FLOW; MSG_HIL_STATE_QUATERNION; MSG_SCALED_IMU2; MSG_LOG_REQUEST_LIST; MSG_LOG_ENTRY;
  MSG_LOG_REQUEST_DATA; MSG_LOG_DATA; MSG_LOG_ERASE; MSG_LOG_REQUEST_END; MSG_GPS_INJECT_DATA; MSG_GPS2_RAW;
  MSG_POWER_STATUS; MSG_SERIAL_CONTROL; MSG_GPS_RTK; MSG_GPS2_RTK; MSG_SCALED_IMU3; MSG_DATA_TRANSMISSION_HANDSHAKE;
  MSG_ENCAPSULATED_DATA; MSG_DISTANCE_SENSOR; MSG_TERRAIN_REQUEST; MSG_TERRAIN_DATA; MSG_TERRAIN_CHECK; MSG_TERRAIN_REPORT;
  MSG_SCALED_PRESSURE2; MSG_ATT_POS_MOCAP; MSG_SET_ACTUATOR_CONTROL_TARGET; MSG_ACTUATOR_CONTROL_TARGET; MSG_ALTITUDE;
  MSG_RESOURCE_REQUEST; MSG_SCALED_PRESSURE3; MSG_FOLLOW_TARGET; MSG_CONTROL_SYSTEM_STATE; MSG_BATTERY_STATUS;
  MSG_AUTOPILOT_VERSION; MSG_LANDING_TARGET; MSG_FENCE_STATUS; MSG_MAG_CAL_REPORT; MSG_EFI_STATUS; MSG_ESTIMATOR_STATUS;
  MSG_WIND_COV; MSG_GPS_INPUT; MSG_GPS_RTCM_DATA; MSG_HIGH_LATENCY; MSG_HIGH_LATENCY2; MSG_VIBRATION; MSG_HOME_POSITION;
  MSG_SET_HOME_POSITION; MSG_MESSAGE_INTERVAL; MSG_EXTENDED_SYS_STATE; MSG_ADSB_VEHICLE; MSG_COLLISION; MSG_V2_EXTENSION;
  MSG_MEMORY_VECT; MSG_DEBUG_VECT; MSG_NAMED_VALUE_FLOAT; MSG_NAMED_VALUE_INT; MSG_STATUSTEXT; MSG_DEBUG; MSG_SETUP_SIGNING;
  MSG_BUTTON_CHANGE; MSG_PLAY_TUNE; MSG_CAMERA_INFORMATION; MSG_CAMERA_SETTINGS; MSG_STORAGE_INFORMATION;
  MSG_CAMERA_CAPTURE_STATUS; MSG_CAMERA_IMAGE_CAPTURED; MSG_FLIGHT_INFORMATION; MSG_MOUNT_ORIENTATION; MSG_LOGGING_DATA;
  MSG_LOGGING_DATA_ACKED; MSG_LOGGING_ACK; MSG_VIDEO_STREAM_INFORMATION; MSG_VIDEO_STREAM_STATUS; MSG_CAMERA_FOV_STATUS;
  MSG_CAMERA_TRACKING_IMAGE_STATUS; MSG_CAMERA_TRACKING_GEO_STATUS; MSG_CAMERA_THERMAL_RANGE;
  MSG_GIMBAL_MANAGER_INFORMATION; MSG_GIMBAL_MANAGER_STATUS; MSG_GIMBAL_MANAGER_SET_ATTITUDE; MSG_GIMBAL_DEVICE_INFORMATION;
  MSG_GIMBAL_DEVICE_SET_ATTITUDE; MSG_GIMBAL_DEVICE_ATTITUDE_STATUS; MSG_AUTOPILOT_STATE_FOR_GIMBAL_DEVICE;
  MSG_GIMBAL_MANAGER_SET_PITCHYAW; MSG_GIMBAL_MANAGER_SET_MANUAL_CONTROL; MSG_ESC_INFO; MSG_ESC_STATUS; MSG_AIRSPEED;
  MSG_GLOBAL_POSITION_SENSOR; MSG_WIFI_CONFIG_AP; MSG_PROTOCOL_VERSION; MSG_AIS_VESSEL; MSG_UAVCAN_NODE_STATUS;
  MSG_UAVCAN_NODE_INFO; MSG_PARAM_EXT_REQUEST_READ; MSG_PARAM_EXT_REQUEST_LIST; MSG_PARAM_EXT_VALUE; MSG_PARAM_EXT_SET;
  MSG_PARAM_EXT_ACK; MSG_OBSTACLE_DISTANCE; MSG_ODOMETRY; MSG_TRAJECTORY_REPRESENTATION_WAYPOINTS;
  MSG_TRAJECTORY_REPRESENTATION_BEZIER; MSG_CELLULAR_STATUS; MSG_ISBD_LINK_STATUS; MSG_CELLULAR_CONFIG; MSG_RAW_RPM;
  MSG_UTM_GLOBAL_POSITION; MSG_PARAM_ERROR; MSG_DEBUG_FLOAT_ARRAY; MSG_ORBIT_EXECUTION_STATUS;
  MSG_FIGURE_EIGHT_EXECUTION_STATUS; MSG_SMART_BATTERY_INFO; MSG_FUEL_STATUS; MSG_BATTERY_INFO; MSG_GENERATOR_STATUS;
  MSG_ACTUATOR_OUTPUT_STATUS; MSG_RELAY_STATUS; MSG_TIME_ESTIMATE_TO_TARGET; MSG_TUNNEL; MSG_CAN_FRAME; MSG_CANFD_FRAME;
  MSG_CAN_FILTER_MODIFY; MSG_ONBOARD_COMPUTER_STATUS; MSG_COMPONENT_INFORMATION; MSG_COMPONENT_INFORMATION_BASIC;
  MSG_COMPONENT_METADATA; MSG_PLAY_TUNE_V2; MSG_SUPPORTED_TUNES; MSG_EVENT; MSG_CURRENT_EVENT_SEQUENCE; MSG_REQUEST_EVENT;
  MSG_RESPONSE_EVENT_ERROR; MSG_AVAILABLE_MODES; MSG_CURRENT_MODE; MSG_AVAILABLE_MODES_MONITOR; MSG_ILLUMINATOR_STATUS;
  MSG_WHEEL_DISTANCE; MSG_WINCH_STATUS; MSG_OPEN_DRONE_ID_BASIC_ID; MSG_OPEN_DRONE_ID_LOCATION;
  MSG_OPEN_DRONE_ID_AUTHENTICATION; MSG_OPEN_DRONE_ID_SELF_ID; MSG_OPEN_DRONE_ID_SYSTEM; MSG_OPEN_DRONE_ID_OPERATOR_ID;
  MSG_OPEN_DRONE_ID_MESSAGE_PACK; MSG_OPEN_DRONE_ID_ARM_STATUS; MSG_OPEN_DRONE_ID_SYSTEM_UPDATE; MSG_HYGROMETER_SENSOR].

Definition MAVLINK_MESSAGE_NAMES : list (string * Z) := [
  ("ACTUATOR_CONTROL_TARGET", 140); ("ACTUATOR_OUTPUT_STATUS", 375); ("ADSB_VEHICLE", 246); ("AIRSPEED", 295);
  ("AIS_VESSEL", 301); ("ALTITUDE", 141); ("ATTITUDE", 30); ("ATTITUDE_QUATERNION", 31); ("ATTITUDE_QUATERNION_COV", 61);
  ("ATTITUDE_TARGET", 83); ("ATT_POS_MOCAP", 138); ("AUTH_KEY", 7); ("AUTOPILOT_STATE_FOR_GIMBAL_DEVICE", 286);
  ("AUTOPILOT_VERSION", 148); ("AVAILABLE_MODES", 435); ("AVAILABLE_MODES_MONITOR", 437); ("BATTERY_INFO", 372);
  ("BATTERY_STATUS", 147); ("BUTTON_CHANGE", 257); ("CAMERA_CAPTURE_STATUS", 262); ("CAMERA_FOV_STATUS", 271);
  ("CAMERA_IMAGE_CAPTURED", 263); ("CAMERA_INFORMATION", 259); ("CAMERA_SETTINGS", 260); ("CAMERA_THERMAL_RANGE", 277);
  ("CAMERA_TRACKING_GEO_STATUS", 276); ("CAMERA_TRACKING_IMAGE_STATUS", 275); ("CAMERA_TRIGGER", 112); ("CANFD_FRAME", 387);
  ("CAN_FILTER_MODIFY", 388); ("CAN_FRAME", 386); ("CELLULAR_CONFIG", 336); ("CELLULAR_STATUS", 334);
  ("CHANGE_OPERATOR_CONTROL", 5); ("CHANGE_OPERATOR_CONTROL_ACK", 6); ("COLLISION", 247); ("COMMAND_ACK", 77);
  ("COMMAND_CANCEL", 80); ("COMMAND_INT", 75); ("COMMAND_LONG", 76); ("COMPONENT_INFORMATION", 395);
  ("COMPONENT_INFORMATION_BASIC", 396); ("COMPONENT_METADATA", 397); ("CONTROL_SYSTEM_STATE", 146);
  ("CURRENT_EVENT_SEQUENCE", 411); ("CURRENT_MODE", 436); ("DATA_STREAM", 67); ("DATA_TRANSMISSION_HANDSHAKE", 130);
  ("DEBUG", 254); ("DEBUG_FLOAT_ARRAY", 350); ("DEBUG_VECT", 250); ("DISTANCE_SENSOR", 132); ("EFI_STATUS", 225);
  ("ENCAPSULATED_DATA", 131); ("ESC_INFO", 290); ("ESC_STATUS", 291); ("ESTIMATOR_STATUS", 230); ("EVENT", 410);
  ("EXTENDED_SYS_STATE", 245); ("FENCE_STATUS", 162); ("FIGURE_EIGHT_EXECUTION_STATUS", 361);
  ("FILE_TRANSFER_PROTOCOL", 110); ("FLIGHT_INFORMATION", 264); ("FOLLOW_TARGET", 144); ("FUEL_STATUS", 371);
  ("GENERATOR_STATUS", 373); ("GIMBAL_DEVICE_ATTITUDE_STATUS", 285); ("GIMBAL_DEVICE_INFORMATION", 283);
  ("GIMBAL_DEVICE_SET_ATTITUDE", 284); ("GIMBAL_MANAGER_INFORMATION", 280); ("GIMBAL_MANAGER_SET_ATTITUDE", 282);
  ("GIMBAL_MANAGER_SET_MANUAL_CONTROL", 288); ("GIMBAL_MANAGER_SET_PITCHYAW", 287); ("GIMBAL_MANAGER_STATUS", 281);
  ("GLOBAL_POSITION_INT", 33); ("GLOBAL_POSITION_INT_COV", 63); ("GLOBAL_POSITION_SENSOR", 296);
  ("GLOBAL_VISION_POSITION_ESTIMATE", 101); ("GPS2_RAW", 124); ("GPS2_RTK", 128); ("GPS_GLOBAL_ORIGIN", 49);
  ("GPS_INJECT_DATA", 123); ("GPS_INPUT", 232); ("GPS_RAW_INT", 24); ("GPS_RTCM_DATA", 233); ("GPS_RTK", 127);
  ("GPS_STATUS", 25); ("HEARTBEAT", 0); ("HIGHRES_IMU", 105); ("HIGH_LATENCY", 234); ("HIGH_LATENCY2", 235);
  ("HIL_ACTUATOR_CONTROLS", 93); ("HIL_CONTROLS", 91); ("HIL_GPS", 113); ("HIL_OPTICAL_FLOW", 114);
  ("HIL_RC_INPUTS_RAW", 92); ("HIL_SENSOR", 107); ("HIL_STATE", 90); ("HIL_STATE_QUATERNION", 115); ("HOME_POSITION", 242);
  ("HYGROMETER_SENSOR", 12920); ("ILLUMINATOR_STATUS", 440); ("ISBD_LINK_STATUS", 335); ("LANDING_TARGET", 149);
  ("LINK_NODE_STATUS", 8); ("LOCAL_POSITION_NED", 32); ("LOCAL_POSITION_NED_COV", 64);
  ("LOCAL_POSITION_NED_SYSTEM_GLOBAL_OFFSET", 89); ("LOGGING_ACK", 268); ("LOGGING_DATA", 266); ("LOGGING_DATA_ACKED", 267);
  ("LOG_DATA", 120); ("LOG_ENTRY", 118); ("LOG_ERASE", 121); ("LOG_REQUEST_DATA", 119); ("LOG_REQUEST_END", 122);
  ("LOG_REQUEST_LIST", 117); ("MAG_CAL_REPORT", 192); ("MANUAL_CONTROL", 69); ("MANUAL_SETPOINT", 81); ("MEMORY_VECT", 249);
  ("MESSAGE_INTERVAL", 244); ("MISSION_ACK", 47); ("MISSION_CLEAR_ALL", 45); ("MISSION_COUNT", 44); ("MISSION_CURRENT", 42);
  ("MISSION_ITEM", 39); ("MISSION_ITEM_INT", 73); ("MISSION_ITEM_REACHED", 46); ("MISSION_REQUEST", 40);
  ("MISSION_REQUEST_INT", 51); ("MISSION_REQUEST_LIST", 43); ("MISSION_REQUEST_PARTIAL_LIST", 37);
  ("MISSION_SET_CURRENT", 41); ("MISSION_WRITE_PARTIAL_LIST", 38); ("MOUNT_ORIENTATION", 265); ("NAMED_VALUE_FLOAT", 251);
  ("NAMED_VALUE_INT", 252); ("NAV_CONTROLLER_OUTPUT", 62); ("OBSTACLE_DISTANCE", 330); ("ODOMETRY", 331);
  ("ONBOARD_COMPUTER_STATUS", 390); ("OPEN_DRONE_ID_ARM_STATUS", 12918); ("OPEN_DRONE_ID_AUTHENTICATION", 12902);
  ("OPEN_DRONE_ID_BASIC_ID", 12900); ("OPEN_DRONE_ID_LOCATION", 12901); ("OPEN_DRONE_ID_MESSAGE_PACK", 12915);
  ("OPEN_DRONE_ID_OPERATOR_ID", 12905); ("OPEN_DRONE_ID_SELF_ID", 12903); ("OPEN_DRONE_ID_SYSTEM", 12904);
  ("OPEN_DRONE_ID_SYSTEM_UPDATE", 12919); ("OPTICAL_FLOW", 100); ("OPTICAL_FLOW_RAD", 106); ("ORBIT_EXECUTION_STATUS", 360);
  ("PARAM_ERROR", 345); ("PARAM_EXT_ACK", 324); ("PARAM_EXT_REQUEST_LIST", 321); ("PARAM_EXT_REQUEST_READ", 320);
  ("PARAM_EXT_SET", 323); ("PARAM_EXT_VALUE", 322); ("PARAM_MAP_RC", 50); ("PARAM_REQUEST_LIST", 21);
  ("PARAM_REQUEST_READ", 20); ("PARAM_SET", 23); ("PARAM_VALUE", 22); ("PING", 4); ("PLAY_TUNE", 258);
  ("PLAY_TUNE_V2", 400); ("POSITION_TARGET_GLOBAL_INT", 87); ("POSITION_TARGET_LOCAL_NED", 85); ("POWER_STATUS", 125);
  ("PROTOCOL_VERSION", 300); ("RADIO_STATUS", 109); ("RAW_IMU", 27); ("RAW_PRESSURE", 28); ("RAW_RPM", 339);
  ("RC_CHANNELS", 65); ("RC_CHANNELS_OVERRIDE", 70); ("RC_CHANNELS_RAW", 35); ("RC_CHANNELS_SCALED", 34);
  ("RELAY_STATUS", 376); ("REQUEST_DATA_STREAM", 66); ("REQUEST_EVENT", 412); ("RESOURCE_REQUEST", 142);
  ("RESPONSE_EVENT_ERROR", 413); ("SAFETY_ALLOWED_AREA", 55); ("SAFETY_SET_ALLOWED_AREA", 54); ("SCALED_IMU", 26);
  ("SCALED_IMU2", 116); ("SCALED_IMU3", 129); ("SCALED_PRESSURE", 29); ("SCALED_PRESSURE2", 137); ("SCALED_PRESSURE3", 143);
  ("SERIAL_CONTROL", 126); ("SERVO_OUTPUT_RAW", 36); ("SETUP_SIGNING", 256); ("SET_ACTUATOR_CONTROL_TARGET", 139);
  ("SET_ATTITUDE_TARGET", 82); ("SET_GPS_GLOBAL_ORIGIN", 48); ("SET_HOME_POSITION", 243); ("SET_MODE", 11);
  ("SET_POSITION_TARGET_GLOBAL_INT", 86); ("SET_POSITION_TARGET_LOCAL_NED", 84); ("SIM_STATE", 108);
  ("SMART_BATTERY_INFO", 370); ("STATUSTEXT", 253); ("STORAGE_INFORMATION", 261); ("SUPPORTED_TUNES", 401);
  ("SYSTEM_TIME", 2); ("SYS_STATUS", 1); ("TERRAIN_CHECK", 135); ("TERRAIN_DATA", 134); ("TERRAIN_REPORT", 136);
  ("TERRAIN_REQUEST", 133); ("TIMESYNC", 111); ("TIME_ESTIMATE_TO_TARGET", 380); ("TRAJECTORY_REPRESENTATION_BEZIER", 333);
  ("TRAJECTORY_REPRESENTATION_WAYPOINTS", 332); ("TUNNEL", 385); ("UAVCAN_NODE_INFO", 311); ("UAVCAN_NODE_STATUS", 310);
  ("UTM_GLOBAL_POSITION", 340); ("V2_EXTENSION", 248); ("VFR_HUD", 74); ("VIBRATION", 241);
  ("VICON_POSITION_ESTIMATE", 104); ("VIDEO_STREAM_INFORMATION", 269); ("VIDEO_STREAM_STATUS", 270);
  ("VISION_POSITION_ESTIMATE", 102); ("VISION_SPEED_ESTIMATE", 103); ("WHEEL_DISTANCE", 9000); ("WIFI_CONFIG_AP", 299);
  ("WINCH_STATUS", 9005); ("WIND_COV", 231)].

(** ** The code *)

(** The loop of both functions; [cmp mid] is the order of the entry [mid] and what is
    sought. [None] when the fuel is spent. *)
Fixpoint bisect_down (cmp : nat → comparison) (fuel low high : nat) : option nat :=
  if bool_decide (low < high)%nat then
    match fuel with
    | O => None
    | S fuel =>
        let mid := ((low + high) / 2)%nat in
        match cmp mid with
        | Gt => bisect_down cmp fuel low mid
        | Lt => bisect_down cmp fuel (mid + 1) high
        | Eq => Some mid
        end
    end
  else Some low.

(** The search of a table, with the test after the loop. *)
Definition search_table {A} (tbl : list A) (cmp : A → comparison) : option A :=
  match tbl with
  | [] => None
  | d :: _ =>
      low ← bisect_down (λ i, cmp (nth i tbl d)) (length tbl) 0 (length tbl - 1);
      if bool_decide (cmp (nth low tbl d) = Eq) then Some (nth low tbl d) else None
  end.

Definition mavlink_get_message_info_by_id (msgid : Z) : option mavlink_message_info_t :=
  search_table MAVLINK_MESSAGE_INFO (λ e, mi_msgid e ?= msgid).

Definition mavlink_get_message_info (msg : mavlink_message_t) : option mavlink_message_info_t :=
  mavlink_get_message_info_by_id (m_msgid msg).

Definition mavlink_get_message_info_by_name (name : string) : option mavlink_message_info_t :=
  e ← search_table MAVLINK_MESSAGE_NAMES (λ e, String.compare e.1 name);
  mavlink_get_message_info_by_id e.2.

(** ** The search is right on a sorted table *)

(** The entries before one that is too small are too small, those after one that is too
    large are too large. *)
Definition monotone (cmp : nat → comparison) (n : nat) : Prop :=
  ∀ i j, (i < j < n)%nat → (cmp j ≠ Gt → cmp i = Lt) ∧ (cmp i ≠ Lt → cmp j = Gt).

Lemma bisect_down_spec cmp n fuel low high :
  monotone cmp n → (low ≤ high < n)%nat → (high - low ≤ fuel)%nat →
  (∀ i, (i < n)%nat → cmp i = Eq → (low ≤ i ≤ high)%nat) →
  ∃ r, bisect_down cmp fuel low high = Some r ∧ (r < n)%nat ∧ (cmp r = Eq ∨ ∀ i, (i < n)%nat → cmp i ≠ Eq).
Proof.
  intros Hm. revert low high. induction fuel as [|fuel IH]; intros low high Hr Hf Hin; cbn [bisect_down]; case_bool_decide as Hlt.
  - lia.
  - exists low. split_and!; [done|lia|]. destruct (cmp low) eqn:E; [by left| |]; right; intros i Hi Hc;
      pose proof (Hin i Hi Hc); replace i with low in Hc by lia; congruence.
  - pose proof (Nat.div_mod (low + high) 2 ltac:(lia)) as Hd. pose proof (Nat.mod_upper_bound (low + high) 2 ltac:(lia)) as Hb.
    set (mid := ((low + high) / 2)%nat) in *. destruct (cmp mid) eqn:E.
    + exists mid. split_and!; [done|lia|by left].
    + apply IH; [lia..|]. intros i Hi Hc. pose proof (Hin i Hi Hc). destruct (decide (i ≤ mid)%nat); [|lia].
      destruct (decide (i = mid)) as [->|]; [congruence|]. destruct (Hm i mid ltac:(lia)) as [Hdown _].
      rewrite Hdown in Hc by (rewrite E; done). done.
    + apply IH; [lia..|]. intros i Hi Hc. pose proof (Hin i Hi Hc). destruct (decide (mid ≤ i)%nat); [|lia].
      destruct (decide (i = mid)) as [->|]; [congruence|]. destruct (Hm mid i ltac:(lia)) as [_ Hup].
      rewrite Hup in Hc by (rewrite E; done). done.
  - exists low. split_and!; [done|lia|]. destruct (cmp low) eqn:E; [by left| |]; right; intros i Hi Hc;
      pose proof (Hin i Hi Hc); replace i with low in Hc by lia; congruence.
Qed.

(** A table sorted by a strict order of its keys. *)
Section Search.
Context {A K : Type} (key : A → K) (kcmp : K → K → comparison).
Hypothesis kcmp_eq : ∀ a b, kcmp a b = Eq ↔ a = b.
Hypothesis kcmp_antisym : ∀ a b, kcmp a b = CompOpp (kcmp b a).
Hypothesis kcmp_trans : ∀ a b c, kcmp a b = Lt → kcmp b c = Lt → kcmp a c = Lt.

Fixpoint sorted_by (l : list A) : bool :=
  match l with
  | a :: (b :: _) as l => bool_decide (kcmp (key a) (key b) = Lt) && sorted_by l
  | _ => true
  end.

Lemma sorted_by_nth l d i j : sorted_by l = true → (i < j < length l)%nat → kcmp (key (nth i l d)) (key (nth j l d)) = Lt.
Proof.
  revert i j. induction l as [|a l IH]; intros i j Hs Hij; [cbn in Hij; lia|].
  assert (Hstep : sorted_by l = true ∧ ∀ b l', l = b :: l' → kcmp (key a) (key b) = Lt).
  { destruct l as [|b l]; [done|]. cbn in Hs. apply andb_true_iff in Hs as [Hab%bool_decide_eq_true ?]. split; [done|].
    by intros ?? [= <- _]. }
  destruct Hstep as [Hl Hh]. destruct j as [|j]; [lia|]. cbn in Hij. destruct i as [|i]; [|cbn; apply IH; [done|lia]].
  destruct l as [|b l]; [cbn in Hij; lia|]. specialize (Hh b l eq_refl). cbn. destruct j as [|j]; [done|].
  eapply kcmp_trans; [exact Hh|]. apply (IH 0%nat (S j)); [done|cbn in *; lia].
Qed.

Lemma sorted_monotone l d k : sorted_by l = true → monotone (λ i, kcmp (key (nth i l d)) k) (length l).
Proof.
  intros Hs i j Hij. pose proof (sorted_by_nth l d i j Hs Hij) as Hlt. split; intros H.
  - destruct (kcmp (key (nth j l d)) k) eqn:E; [|by eapply kcmp_trans|done]. apply kcmp_eq in E. by rewrite <- E.
  - destruct (kcmp (key (nth i l d)) k) eqn:E; [|done|].
    + apply kcmp_eq in E. by rewrite kcmp_antisym, <- E, Hlt.
    + rewrite kcmp_antisym in E. destruct (kcmp k (key (nth i l d))) eqn:E'; try done.
      rewrite kcmp_antisym. by rewrite (kcmp_trans _ _ _ E' Hlt).
Qed.

Lemma search_table_spec l k e :
  sorted_by l = true → search_table l (λ e, kcmp (key e) k) = Some e ↔ e ∈ l ∧ key e = k.
Proof.
  intros Hs. destruct l as [|d l]; [split; [done|]; by intros [?%not_elem_of_nil _]|].
  unfold search_table. set (tbl := d :: l) in *. pose proof (sorted_monotone tbl d k Hs) as Hm.
  destruct (bisect_down_spec _ _ (length tbl) 0 (length tbl - 1) Hm) as (r & Er & Hr & Hx); [cbn; lia|lia| |].
  { intros i Hi _. lia. }
  rewrite Er. cbn [mbind option_bind]. case_bool_decide as Ec.
  - apply kcmp_eq in Ec. split.
    + intros H. apply (inj Some) in H. subst e. split; [|done]. apply list_elem_of_In, nth_In. done.
    + intros [Hin Hk]. apply list_elem_of_In in Hin. apply (In_nth _ _ d) in Hin as (i & Hi & Hei). f_equal. rewrite <- Hei.
      f_equal. destruct (Nat.lt_trichotomy i r) as [Hlt|[Heq|Hlt]]; [exfalso|done|exfalso].
      * pose proof (sorted_by_nth tbl d i r Hs ltac:(lia)) as H. rewrite Hei, Hk, Ec in H.
        by rewrite (proj2 (kcmp_eq k k) eq_refl) in H.
      * pose proof (sorted_by_nth tbl d r i Hs ltac:(lia)) as H. rewrite Hei, Hk, Ec in H.
        by rewrite (proj2 (kcmp_eq k k) eq_refl) in H.
  - split; [done|]. intros [Hin Hk]. apply list_elem_of_In in Hin. apply (In_nth _ _ d) in Hin as (i & Hi & Hei).
    destruct Hx as [?|Hx]; [done|]. exfalso. apply (Hx i Hi). rewrite Hei, Hk. by apply kcmp_eq.
Qed.
End Search.

Lemma Zcompare_trans a b c : (a ?= b) = Lt → (b ?= c) = Lt → (a ?= c) = Lt.
Proof. rewrite !Z.compare_lt_iff. lia. Qed.
Lemma string_compare_eq a b : String.compare a b = Eq ↔ a = b.
Proof. exact (String_as_OT.cmp_eq a b). Qed.
Lemma string_compare_trans a b c : String.compare a b = Lt → String.compare b c = Lt → String.compare a c = Lt.
Proof.
  change String.compare with String_as_OT.cmp. rewrite !String_as_OT.cmp_lt. apply String_as_OT.lt_trans.
Qed.

Lemma info_by_id_spec id info :
  mavlink_get_message_info_by_id id = Some info ↔ info ∈ MAVLINK_MESSAGE_INFO ∧ mi_msgid info = id.
Proof.
  apply (search_table_spec mi_msgid Z.compare); [apply Z.compare_eq_iff| |apply Zcompare_trans|vm_compute; reflexivity].
  intros a b. apply Z.compare_antisym.
Qed.

(** The two tables list the same messages. *)
Lemma names_in_info e : e ∈ MAVLINK_MESSAGE_NAMES → ∃ info, info ∈ MAVLINK_MESSAGE_INFO ∧ mi_name info = e.1 ∧ mi_msgid info = e.2.
Proof.
  assert (H : forallb (λ e, existsb (λ i, String.eqb (mi_name i) e.1 && (mi_msgid i =? e.2)) MAVLINK_MESSAGE_INFO)
                MAVLINK_MESSAGE_NAMES = true) by (vm_compute; reflexivity).
  intros He. apply (proj1 (forallb_elem _ _) H) in He. apply existsb_elem in He as (i & Hi & [?%String.eqb_eq ?%Z.eqb_eq]%andb_true_iff).
  by exists i.
Qed.
Lemma info_in_names info : info ∈ MAVLINK_MESSAGE_INFO → (mi_name info, mi_msgid info) ∈ MAVLINK_MESSAGE_NAMES.
Proof.
  assert (H : forallb (λ i, existsb (λ e, String.eqb e.1 (mi_name i) && (e.2 =? mi_msgid i)) MAVLINK_MESSAGE_NAMES)
                MAVLINK_MESSAGE_INFO = true) by (vm_compute; reflexivity).
  intros Hi. apply (proj1 (forallb_elem _ _) H) in Hi. apply existsb_elem in Hi as ([n i] & He & [E1 E2]%andb_true_iff).
  apply String.eqb_eq in E1. apply Z.eqb_eq in E2. cbn in E1, E2. by rewrite <- E1, <- E2.
Qed.

(** ** Theorem *)

(** The bisections over the message information tables are exact: a message of the
    dialect is found by its id and by its name, with its own description, and nothing
    else is found. *)
Theorem message_info_exact id name info :
  (mavlink_get_message_info_by_id id = Some info ↔ info ∈ MAVLINK_MESSAGE_INFO ∧ mi_msgid info = id) ∧
  (mavlink_get_message_info_by_name name = Some info ↔ info ∈ MAVLINK_MESSAGE_INFO ∧ mi_name info = name).
Proof.
  split; [apply info_by_id_spec|]. unfold mavlink_get_message_info_by_name.
  set (found := search_table _ _). assert (Hf : ∀ e, found = Some e ↔ e ∈ MAVLINK_MESSAGE_NAMES ∧ e.1 = name).
  { intros e. apply (search_table_spec fst String.compare);
      [apply string_compare_eq|apply String.compare_antisym|apply string_compare_trans|vm_compute; reflexivity]. }
  destruct found as [[n i]|].
  - destruct (proj1 (Hf _) eq_refl) as [Hin Hn]. cbn [fst] in Hn. subst n. cbn [mbind option_bind snd].
    destruct (names_in_info _ Hin) as (info' & Hi' & En & Ei). cbn [fst snd] in En, Ei. split.
    + intros H. assert (H' : mavlink_get_message_info_by_id i = Some info') by (by apply info_by_id_spec).
      assert (info = info') as -> by congruence. done.
    + intros [Hi He]. apply info_by_id_spec. split; [done|]. pose proof (info_in_names _ Hi) as H. rewrite He in H.
      pose proof (proj2 (Hf (name, mi_msgid info)) (conj H eq_refl)) as [= ->]. done.
  - split; [done|]. intros [Hi He]. pose proof (info_in_names _ Hi) as H. rewrite He in H.
    by pose proof (proj2 (Hf (name, mi_msgid info)) (conj H eq_refl)).
Qed.
