(* ===== verification/Zephyr.v ===== *)
(** * Firmware programs over the Zephyr platform

    The firmware calls the Zephyr kernel, its drivers and the radio stacks. None
    of that code is part of the repository: every call appends an event to a
    trace (latest first), and what a call answers is a parameter, a function of
    the trace so far, so that a theorem holds for every behaviour of the
    platform. A firmware function is a program over its static variables [S] and
    the trace. The observations of the hardware (the level of a pin, a pending
    work item, the references held on a connection) are functions of the
    trace. *)
From S2P Require Import Prelude.

(** ** Shared C names *)

(** [errno] values. *)
Definition ENOENT : Z := 2.
Definition EIO : Z := 5.
Definition EAGAIN : Z := 11.
Definition EALREADY : Z := 120.
Definition ENOMEM : Z := 12.
Definition ENODEV : Z := 19.
Definition EINVAL : Z := 22.
Definition EOPNOTSUPP : Z := 95.
Definition ENOTSUP : Z := 134.
Definition UINT16_MAX : Z := 65535.

(** The C string at the start of a buffer. *)
Fixpoint c_string (buf : list Z) : list Z :=
  match buf with
  | b :: buf => if b =? 0 then [] else b :: c_string buf
  | [] => []
  end.

Lemma c_string_app name rest :
  Forall (λ b, 0x21 ≤ b ≤ 0x7e) name → c_string (name ++ 0 :: rest) = name.
Proof.
  induction 1 as [|b name Hb _ IH]; [done|]. cbn. rewrite (proj2 (Z.eqb_neq _ _)) by lia. by rewrite IH.
Qed.

(** The CRC-32 that [crc32_ieee] and the writers of the factory records compute;
    the firmware takes it as a parameter, the instances use this one. *)
Fixpoint crc32_bits (n : nat) (c : Z) : Z :=
  match n with
  | O => c
  | S n => crc32_bits n (if Z.odd c then Z.lxor (Z.shiftr c 1) 0xedb88320 else Z.shiftr c 1)
  end.
Definition crc32_reference (bs : list Z) : Z :=
  u32 (Z.lxor (foldl (λ c b, crc32_bits 8 (Z.lxor c b)) 0xffffffff bs) 0xffffffff).

Lemma crc32_reference_u32 bs : in_u 32 (crc32_reference bs).
Proof. apply wrapu_in_u. lia. Qed.

(** ** Events *)

(** [struct gpio_dt_spec]: a device and a pin of it. *)
Record gpio_dt_spec := mk_gpio { gpio_port : Z; gpio_pin : Z }.

#[global] Instance gpio_dt_spec_eq_dec : EqDecision gpio_dt_spec.
Proof. solve_decision. Defined.

(** The work items of the firmware programs. *)
Inductive work_item :=
  | redcon_command_work | measurement_notify_work | idle_measurement_notify_work | advertise_work
  | sed_transition_work | redcon_sleep_work | recovery_work | sed_fallback_work
  | sed_debug_redcon_sleep_work | sed_recovery_work | pm_transition_log_work.

#[global] Instance work_item_eq_dec : EqDecision work_item.
Proof. solve_decision. Defined.

Inductive event :=
  | EGpioConfigureInactive (pin : gpio_dt_spec)
  | EGpioSet (pin : gpio_dt_spec) (active : bool)
  | EGpioFailed (pin : gpio_dt_spec)
  | ERegulator (reg : Z) (on : bool)
  | ESaadc (on : bool)
  | EAdcSetup
  | EAdcPower (on : bool)
  | EAdcRead
  | ESleep (ms : Z)
  | EWorkSubmit (w : work_item)
  | EWorkSchedule (w : work_item) (ms : Z)
  | EWorkReschedule (w : work_item) (ms : Z)
  | EWorkCancel (w : work_item)
  | EWorkRun (w : work_item)
  | EConnRef (conn : Z)
  | EConnUnref (conn : Z)
  | EConnParamUpdate (conn interval_min interval_max latency timeout : Z)
  | ENotify (attr : Z) (payload : list Z)
  | EAdvStart (name : list Z)
  | EBtEnable
  | EBtSetName (name : list Z)
  | EHciAlloc
  | EHciTxPower (dbm : Z)
  | EHciRelease
  | EI2cRead (reg len : Z)
  | EI2cWrite (reg value : Z)
  | EFlashOpen
  | EFlashRead (offset len : Z)
  | EFlashClose
  | EOtLock (held : bool)
  | EOtSetLinkMode (rx_on_when_idle device_type network_data : bool)
  | EOtSetPollPeriod (ms : Z)
  | EOtSetEnabled (enabled : bool)
  | EOtIp6SetEnabled
  | EOtDatasetSet (tlvs : list Z)
  | EOtCoapStart (port : Z)
  | EOtCoapAddResource (path : list Z)
  | EOtSrpSetCallback
  | EOtSrpSetHostName (name : list Z)
  | EOtSrpSetHostAddress (address : list Z)
  | EOtSrpAddService (instance : list Z) (port : Z)
  | EOtSrpAutoStart
  | EOtStateCallback
  | EOtCallback
  | EOtMessageNew
  | EOtMessageFree
  | EOtCoapSend (type code : Z) (payload : option (list Z))
  | ESensorFetch.

Definition trace := list event.

(** ** Programs *)

Definition M (S A : Type) : Type := S → trace → A * S * trace.

#[global] Instance M_ret {S} : MRet (M S) := λ A a s t, (a, s, t).
#[global] Instance M_bind {S} : MBind (M S) :=
  λ A B f c s t, let '(a, s, t) := c s t in f a s t.

Definition get {S} : M S S := λ s t, (s, s, t).
Definition modify {S} (f : S → S) : M S unit := λ s t, (tt, f s, t).
Definition emit {S} (e : event) : M S unit := λ s t, (tt, s, e :: t).
(** A call that answers and leaves no event of its own. *)
Definition ask {S A} (f : trace → A) : M S A := λ s t, (f t, s, t).
(** A call recorded in the trace, then answered. *)
Definition call {S A} (e : event) (f : trace → A) : M S A := λ s t, (f t, s, e :: t).

Definition when {S} (b : bool) (c : M S unit) : M S unit := if b then c else mret tt.

(** ** Reasoning *)

Definition final {S A} (r : A * S * trace) : S * trace := (r.1.2, r.2).

(** [keeps R c]: whatever the platform answers, [c] relates the state before to
    the state after by [R]. *)
Definition keeps {S A} (R : relation (S * trace)) (c : M S A) : Prop :=
  ∀ s t, R (s, t) (final (c s t)).

Definition triple {S A} (P : S → trace → Prop) (c : M S A) (Q : A → S → trace → Prop) : Prop :=
  ∀ s t, P s t → let '(a, s', t') := c s t in Q a s' t'.

Create HintDb zephyr.

Section Rules.
Context {S : Type}.
Implicit Types R : relation (S * trace).

Lemma keeps_ret {A} R `{!Reflexive R} (a : A) : keeps R (mret a).
Proof. intros s t. cbn. reflexivity. Qed.

Lemma keeps_get R `{!Reflexive R} : keeps R get.
Proof. intros s t. cbn. reflexivity. Qed.

Lemma keeps_ask {A} R `{!Reflexive R} (f : trace → A) : keeps R (ask f).
Proof. intros s t. cbn. reflexivity. Qed.

Lemma keeps_bind {A B} R `{!Transitive R} (c : M S A) (f : A → M S B) :
  keeps R c → (∀ a, keeps R (f a)) → keeps R (c ≫= f).
Proof.
  intros Hc Hf s t. specialize (Hc s t). unfold mbind, M_bind, final in *.
  destruct (c s t) as [[a s1] t1]. cbn in *. etransitivity; [exact Hc|]. apply (Hf a s1 t1).
Qed.

Lemma keeps_emit R e : (∀ s t, R (s, t) (s, e :: t)) → keeps R (emit e).
Proof. intros H s t. apply H. Qed.

Lemma keeps_call {A} R e (f : trace → A) : (∀ s t, R (s, t) (s, e :: t)) → keeps R (call e f).
Proof. intros H s t. apply H. Qed.

Lemma keeps_modify R f : (∀ s t, R (s, t) (f s, t)) → keeps R (modify f).
Proof. intros H s t. apply H. Qed.

Lemma keeps_if {A} R (b : bool) (c d : M S A) : keeps R c → keeps R d → keeps R (if b then c else d).
Proof. by destruct b. Qed.

Lemma keeps_when R `{!Reflexive R} b c : keeps R c → keeps R (when b c).
Proof. intros. destruct b; [done|apply keeps_ret, _]. Qed.

Lemma keeps_weaken {A} R R' (c : M S A) : (∀ x y, R x y → R' x y) → keeps R c → keeps R' c.
Proof. intros H Hc s t. apply H, Hc. Qed.

Lemma triple_bind {A B} P Q Q' (c : M S A) (f : A → M S B) :
  triple P c Q → (∀ a, triple (Q a) (f a) Q') → triple P (c ≫= f) Q'.
Proof.
  intros Hc Hf s t Hp. specialize (Hc s t Hp). unfold mbind, M_bind.
  destruct (c s t) as [[a s1] t1]. apply (Hf a s1 t1 Hc).
Qed.

Lemma triple_ret {A} (a : A) (Q : A → S → trace → Prop) : triple (Q a) (mret a) Q.
Proof. by intros s t. Qed.

Lemma triple_conseq {A} P P' (Q Q' : A → S → trace → Prop) c :
  triple P c Q → (∀ s t, P' s t → P s t) → (∀ a s t, Q a s t → Q' a s t) → triple P' c Q'.
Proof.
  intros H HP HQ s t Hp. specialize (H s t (HP s t Hp)). destruct (c s t) as [[a s'] t']. by apply HQ.
Qed.

(** A property carried by a relation is an invariant. *)
Lemma triple_keeps {A} R (P : S → trace → Prop) (c : M S A) :
  keeps R c → (∀ s t s' t', R (s, t) (s', t') → P s t → P s' t') → triple P c (λ _, P).
Proof.
  intros Hk HR s t Hp. specialize (Hk s t). unfold final in Hk. destruct (c s t) as [[a s'] t']. cbn in Hk.
  by eapply HR.
Qed.

Lemma triple_pure {A} (φ : Prop) P (c : M S A) Q :
  (φ → triple P c Q) → triple (λ s t, φ ∧ P s t) c Q.
Proof. intros H s t [Hφ Hp]. by apply H. Qed.

Lemma triple_and {A} P P' (Q Q' : A → S → trace → Prop) c :
  triple P c Q → triple P' c Q' → triple (λ s t, P s t ∧ P' s t) c (λ a s t, Q a s t ∧ Q' a s t).
Proof.
  intros H H' s t [Hp Hp']. specialize (H s t Hp). specialize (H' s t Hp').
  destruct (c s t) as [[a s'] t']. done.
Qed.
End Rules.

(** Structural decomposition of a [keeps] goal; what is left are the calls and
    the assignments. *)
Ltac keeps_step :=
  lazymatch goal with
  | |- keeps _ (mret _) => apply keeps_ret; apply _
  | |- keeps _ get => apply keeps_get; apply _
  | |- keeps _ (ask _) => apply keeps_ask; apply _
  | |- keeps _ (mbind _ _) => apply keeps_bind; [apply _| |intros ?]
  | |- keeps _ (when _ _) => apply keeps_when; [apply _|]
  | |- keeps _ (if _ then _ else _) => apply keeps_if
  | |- keeps _ (match ?x with _ => _ end) => destruct x
  | |- keeps _ (let '(_, _) := ?x in _) => destruct x
  end.

Ltac keeps_auto := repeat (keeps_step || (solve [auto with zephyr nocore])).

(** ** Weakest preconditions

    For a program that breaks an invariant and restores it: symbolic execution of
    its calls, with a specification for each subprogram. *)

Definition wp {S A} (c : M S A) (Q : A → S → trace → Prop) (s : S) (t : trace) : Prop :=
  let '(a, s', t') := c s t in Q a s' t'.

Section Wp.
Context {S : Type}.

Lemma wp_bind {A B} (c : M S A) (f : A → M S B) Q s t :
  wp c (λ a s t, wp (f a) Q s t) s t → wp (c ≫= f) Q s t.
Proof. unfold wp, mbind, M_bind. by destruct (c s t) as [[??]?]. Qed.

Lemma wp_mono {A} (c : M S A) (Q Q' : A → S → trace → Prop) s t :
  wp c Q s t → (∀ a s' t', Q a s' t' → Q' a s' t') → wp c Q' s t.
Proof. unfold wp. destruct (c s t) as [[??]?]. auto. Qed.

Lemma wp_elim {A} (c : M S A) Q s t : wp c (λ _, Q) s t → Q (final (c s t)).1 (final (c s t)).2.
Proof. unfold wp, final. by destruct (c s t) as [[??]?]. Qed.

Lemma wp_triple {A} P (c : M S A) Q : (∀ s t, P s t → wp c Q s t) ↔ triple P c Q.
Proof. done. Qed.
End Wp.

(** One step of symbolic execution. *)
Ltac wp_step :=
  lazymatch goal with
  | |- wp (mbind _ _) _ _ _ => apply wp_bind
  | |- wp (mret ?a) ?Q ?s ?t => change (Q a s t)
  | |- wp get ?Q ?s ?t => change (Q s s t)
  | |- wp (modify ?f) ?Q ?s ?t => change (Q tt (f s) t)
  | |- wp (emit ?e) ?Q ?s ?t => change (Q tt s (e :: t))
  | |- wp (ask ?f) ?Q ?s ?t => change (Q (f t) s t)
  | |- wp (call ?e ?f) ?Q ?s ?t => change (Q (f t) s (e :: t))
  | |- wp (when ?b ?c) ?Q ?s ?t => change (wp (if b then c else mret tt) Q s t)
  | |- wp (let '(_, _) := ?x in _) _ _ _ => let E := fresh "E" in destruct x eqn:E
  | |- wp (if ?b then _ else _) _ _ _ => let E := fresh "E" in destruct b eqn:E
  | |- wp (match ?x with _ => _ end) _ _ _ => let E := fresh "E" in destruct x eqn:E
  end; cbv beta iota.

(** ** Observations *)

(** The level the firmware last gave to a pin. *)
Fixpoint pin_level (p : gpio_dt_spec) (t : trace) : option bool :=
  match t with
  | [] => None
  | EGpioConfigureInactive q :: t => if bool_decide (p = q) then Some false else pin_level p t
  | EGpioSet q v :: t => if bool_decide (p = q) then Some v else pin_level p t
  | _ :: t => pin_level p t
  end.

Fixpoint regulator_level (r : Z) (t : trace) : option bool :=
  match t with
  | [] => None
  | ERegulator q v :: t => if r =? q then Some v else regulator_level r t
  | _ :: t => regulator_level r t
  end.

Fixpoint saadc_level (t : trace) : bool :=
  match t with
  | [] => false
  | ESaadc v :: _ => v
  | _ :: t => saadc_level t
  end.

(** A work item is pending from the moment it is submitted or scheduled until it
    runs or is cancelled. *)
Fixpoint pending (w : work_item) (t : trace) : bool :=
  match t with
  | [] => false
  | EWorkSubmit v :: t | EWorkSchedule v _ :: t | EWorkReschedule v _ :: t =>
      if bool_decide (w = v) then true else pending w t
  | EWorkCancel v :: t | EWorkRun v :: t => if bool_decide (w = v) then false else pending w t
  | _ :: t => pending w t
  end.

(** References taken minus references dropped. *)
Fixpoint conn_refs (c : Z) (t : trace) : Z :=
  match t with
  | [] => 0
  | EConnRef d :: t => (if c =? d then 1 else 0) + conn_refs c t
  | EConnUnref d :: t => conn_refs c t - (if c =? d then 1 else 0)
  | _ :: t => conn_refs c t
  end.

(** Messages allocated minus messages freed or handed to the stack. *)
Fixpoint messages_held (t : trace) : Z :=
  match t with
  | [] => 0
  | EOtMessageNew :: t => 1 + messages_held t
  | EOtMessageFree :: t | EOtCoapSend _ _ _ :: t => messages_held t - 1
  | _ :: t => messages_held t
  end.

(** Locks taken minus locks released. *)
Fixpoint locks_held (t : trace) : Z :=
  match t with
  | [] => 0
  | EOtLock true :: t => 1 + locks_held t
  | EOtLock false :: t => locks_held t - 1
  | _ :: t => locks_held t
  end.

(** The receiver mode last asked of the Thread stack. *)
Fixpoint link_rx_on (t : trace) : option bool :=
  match t with
  | [] => None
  | EOtSetLinkMode rx _ _ :: _ => Some rx
  | _ :: t => link_rx_on t
  end.

(** The delays a work item was scheduled with, latest first. *)
Fixpoint delays (w : work_item) (t : trace) : list Z :=
  match t with
  | [] => []
  | EWorkSchedule v ms :: t | EWorkReschedule v ms :: t => if bool_decide (w = v) then ms :: delays w t else delays w t
  | _ :: t => delays w t
  end.
