(* ===== verification/Cpp.v ===== *)
(** * The C++ programs of the cloud agent and of the board

    These programs throw: a function either returns or ends with an exception
    that carries a message, and a caller may catch it. What a program does to the
    outside is a trace of events, newest first; an event holds the answer the
    outside gave, and the answers are functions of the trace before, so that a
    theorem covers every behaviour of the services and of the clocks. [S] is the
    state the functions share: the captured variables of a closure or the
    members of an object. It survives an exception, as in C++. *)
From Stdlib Require Export Ascii.
From stdpp Require Export strings.
From S2P Require Import Prelude.

#[global] Open Scope Z_scope.

(** ** Programs that throw *)

Definition X (E S A : Type) : Type := S → list E → (string + A) * S * list E.

#[global] Instance X_ret {E S} : MRet (X E S) := λ A a s t, (inr a, s, t).
#[global] Instance X_bind {E S} : MBind (X E S) :=
  λ A B f c s t,
    match c s t with
    | (inl e, s, t) => (inl e, s, t)
    | (inr a, s, t) => f a s t
    end.

Definition throw {E S A} (message : string) : X E S A := λ s t, (inl message, s, t).
Definition xget {E S} : X E S S := λ s t, (inr s, s, t).
Definition xmodify {E S} (f : S → S) : X E S unit := λ s t, (inr tt, f s, t).
Definition xemit {E S} (e : E) : X E S unit := λ s t, (inr tt, s, e :: t).

(** A call to the outside: the answer [f t], a value or an exception, is
    recorded with the call. *)
Definition xcall {E S A} (e : string + A → E) (f : list E → string + A) : X E S A :=
  λ s t, (f t, s, e (f t) :: t).

(** [try { c } catch (const std::exception&) { h }]. *)
Definition try_catch {E S A} (c : X E S A) (h : string → X E S A) : X E S A :=
  λ s t, match c s t with
         | (inl e, s, t) => h e s t
         | r => r
         end.

Definition xwhen {E S} (b : bool) (c : X E S unit) : X E S unit := if b then c else mret tt.

(** A loop over a container. *)
Fixpoint for_each {E S A} (body : A → X E S unit) (l : list A) : X E S unit :=
  match l with
  | [] => mret tt
  | a :: l => _ ← body a; for_each body l
  end.

(** ** Reasoning

    [xwp c Q R]: a normal end satisfies [Q], an exception [R]. *)

Definition xwp {E S A} (c : X E S A) (Q : A → S → list E → Prop)
    (R : string → S → list E → Prop) (s : S) (t : list E) : Prop :=
  match c s t with
  | (inr a, s', t') => Q a s' t'
  | (inl e, s', t') => R e s' t'
  end.

Section Rules.
Context {E S : Type}.
Implicit Types (s : S) (t : list E).

Lemma xwp_bind {A B} (c : X E S A) (f : A → X E S B) Q R s t :
  xwp c (λ a s t, xwp (f a) Q R s t) R s t → xwp (c ≫= f) Q R s t.
Proof. unfold xwp, mbind, X_bind. by destruct (c s t) as [[[]?]?]. Qed.

Lemma xwp_mono {A} (c : X E S A) (Q Q' : A → S → list E → Prop) (R R' : string → S → list E → Prop) s t :
  xwp c Q R s t → (∀ a s' t', Q a s' t' → Q' a s' t') → (∀ e s' t', R e s' t' → R' e s' t') →
  xwp c Q' R' s t.
Proof. unfold xwp. destruct (c s t) as [[[]?]?]; auto. Qed.

Lemma xwp_and {A} (c : X E S A) (Q Q' : A → S → list E → Prop) (R R' : string → S → list E → Prop) s t :
  xwp c Q R s t → xwp c Q' R' s t → xwp c (λ a s t, Q a s t ∧ Q' a s t) (λ e s t, R e s t ∧ R' e s t) s t.
Proof. unfold xwp. destruct (c s t) as [[[]?]?]; auto. Qed.

Lemma xwp_ret {A} (a : A) Q R s t : Q a s t → xwp (mret a) Q R s t.
Proof. done. Qed.

Lemma xwp_throw {A} e Q R s t : R e s t → xwp (A:=A) (throw e) Q R s t.
Proof. done. Qed.

Lemma xwp_get Q R s t : Q s s t → xwp xget Q R s t.
Proof. done. Qed.

Lemma xwp_modify f Q R s t : Q tt (f s) t → xwp (xmodify f) Q R s t.
Proof. done. Qed.

Lemma xwp_emit e Q R s t : Q tt s (e :: t) → xwp (xemit e) Q R s t.
Proof. done. Qed.

Lemma xwp_call {A} (e : string + A → E) f Q R s t :
  (∀ a, f t = inr a → Q a s (e (inr a) :: t)) →
  (∀ m, f t = inl m → R m s (e (inl m) :: t)) → xwp (xcall e f) Q R s t.
Proof. intros HQ HR. unfold xwp, xcall. destruct (f t) eqn:Ef; auto. Qed.

Lemma xwp_try {A} (c : X E S A) h Q R s t :
  xwp c Q (λ e s t, xwp (h e) Q R s t) s t → xwp (try_catch c h) Q R s t.
Proof. unfold xwp, try_catch. destruct (c s t) as [[[]?]?]; auto. Qed.

Lemma xwp_if {A} (b : bool) (c d : X E S A) Q R s t :
  (b = true → xwp c Q R s t) → (b = false → xwp d Q R s t) →
  xwp (if b then c else d) Q R s t.
Proof. destruct b; auto. Qed.

Lemma xwp_when b (c : X E S unit) Q R s t :
  (b = true → xwp c Q R s t) → (b = false → Q tt s t) → xwp (xwhen b c) Q R s t.
Proof. destruct b; intros; [auto|]. apply xwp_ret. auto. Qed.

(** What a program did before does not matter. *)
Lemma xwp_after {A B} (c : X E S A) (f : A → X E S B) Q s t :
  (∀ a s' t', xwp (f a) Q (λ _ _ _, True) s' t') → xwp (c ≫= f) Q (λ _ _ _, True) s t.
Proof. intros Hf. apply xwp_bind. unfold xwp at 1. destruct (c s t) as [[[]?]?]; [done|]. apply Hf. Qed.

(** A loop keeps what its body keeps. *)
Lemma xwp_for_each {A} (body : A → X E S unit) (I : S → list E → Prop) R l s t :
  I s t → (∀ a s t, a ∈ l → I s t → xwp (body a) (λ _, I) R s t) →
  xwp (for_each body l) (λ _, I) R s t.
Proof.
  revert s t. induction l as [|a l IH]; intros s t HI Hb; [done|]. cbn. apply xwp_bind.
  eapply xwp_mono; [apply Hb; [left|done]| |done].
  intros [] s' t' HI'. apply IH; [done|]. intros a' s2 t2 Ha. apply Hb. by right.
Qed.

(** The result of a run, read back. *)
Lemma xwp_result {A} (c : X E S A) Q R s t : xwp c Q R s t →
  match (c s t).1.1 with
  | inr a => Q a (c s t).1.2 (c s t).2
  | inl e => R e (c s t).1.2 (c s t).2
  end.
Proof. unfold xwp. by destruct (c s t) as [[[]?]?]. Qed.
End Rules.

(** One symbolic step; a goal that is a call leaves its two outcomes. *)
Ltac xwp_step :=
  lazymatch goal with
  | |- xwp (mbind _ _) _ _ _ _ => apply xwp_bind
  | |- xwp (mret _) _ _ _ _ => apply xwp_ret
  | |- xwp (throw _) _ _ _ _ => apply xwp_throw
  | |- xwp xget _ _ _ _ => apply xwp_get
  | |- xwp (xmodify _) _ _ _ _ => apply xwp_modify
  | |- xwp (xemit _) _ _ _ _ => apply xwp_emit
  | |- xwp (try_catch _ _) _ _ _ _ => apply xwp_try
  | |- xwp (xwhen _ _) _ _ _ _ => apply xwp_when; [let H := fresh "Hb" in intros H|let H := fresh "Hb" in intros H]
  | |- xwp (if _ then _ else _) _ _ _ _ => apply xwp_if; [let H := fresh "Hb" in intros H|let H := fresh "Hb" in intros H]
  | |- xwp (match ?x with _ => _ end) _ _ _ _ => let E := fresh "Em" in destruct x eqn:E
  end.

(** [xkeeps I R c]: [c] keeps the invariant [I], and throws only where [R] allows. *)
Definition xkeeps {E S A} (I : S → list E → Prop) (R : string → S → list E → Prop) (c : X E S A) : Prop :=
  ∀ s t, I s t → xwp c (λ _, I) R s t.

Section Keeps.
Context {E S : Type} (I : S → list E → Prop) (R : string → S → list E → Prop).

Lemma xkeeps_ret {A} (a : A) : xkeeps I R (mret a).
Proof. by intros s t H. Qed.
Lemma xkeeps_get : xkeeps I R xget.
Proof. by intros s t H. Qed.
Lemma xkeeps_bind {A B} (c : X E S A) (f : A → X E S B) :
  xkeeps I R c → (∀ a, xkeeps I R (f a)) → xkeeps I R (c ≫= f).
Proof. intros Hc Hf s t H. apply xwp_bind. eapply xwp_mono; [by apply Hc| |done]. intros. by apply Hf. Qed.
Lemma xkeeps_if {A} (b : bool) (c d : X E S A) : xkeeps I R c → xkeeps I R d → xkeeps I R (if b then c else d).
Proof. by destruct b. Qed.
Lemma xkeeps_when b (c : X E S unit) : xkeeps I R c → xkeeps I R (xwhen b c).
Proof. destruct b; [done|]. intros _. apply xkeeps_ret. Qed.
Lemma xkeeps_modify f : (∀ s t, I s t → I (f s) t) → xkeeps I R (xmodify f).
Proof. intros H s t HI. by apply H. Qed.
Lemma xkeeps_emit e : (∀ s t, I s t → I s (e :: t)) → xkeeps I R (xemit e).
Proof. intros H s t HI. by apply H. Qed.
Lemma xkeeps_call {A} (e : string + A → E) f :
  (∀ a s t, I s t → I s (e (inr a) :: t)) → (∀ m s t, f t = inl m → I s t → R m s (e (inl m) :: t)) →
  xkeeps I R (xcall e f).
Proof. intros H1 H2 s t HI. apply xwp_call; auto. Qed.
(** A call that cannot throw. *)
Lemma xkeeps_answer {A} (e : string + A → E) (f : list E → A) :
  (∀ a s t, I s t → I s (e (inr a) :: t)) → xkeeps I R (xcall e (λ t, inr (f t))).
Proof. intros H. apply xkeeps_call; [done|]. by intros. Qed.
Lemma xkeeps_for_each {A} (body : A → X E S unit) l :
  (∀ a, xkeeps I R (body a)) → xkeeps I R (for_each body l).
Proof. intros Hb s t HI. apply xwp_for_each; [done|]. intros a s' t' _. apply Hb. Qed.
(** A handler starts where the program threw. *)
Lemma xkeeps_try {A} (c : X E S A) (h : string → X E S A) :
  xkeeps I (λ _, I) c → (∀ e, xkeeps I R (h e)) → xkeeps I R (try_catch c h).
Proof.
  intros Hc Hh s t H. apply xwp_try. eapply xwp_mono; [by apply Hc|done|]. intros e s' t' H'. by apply Hh.
Qed.
End Keeps.

(** Structural decomposition of an [xkeeps] goal; what is left are the calls and
    the assignments. *)
Ltac xkeeps_step :=
  lazymatch goal with
  | |- xkeeps _ _ (mret _) => apply xkeeps_ret
  | |- xkeeps _ _ xget => apply xkeeps_get
  | |- xkeeps _ _ (mbind _ _) => apply xkeeps_bind; [|intros ?]
  | |- xkeeps _ _ (xwhen _ _) => apply xkeeps_when
  | |- xkeeps _ _ (if _ then _ else _) => apply xkeeps_if
  | |- xkeeps _ _ (for_each _ _) => apply xkeeps_for_each; intros ?
  | |- xkeeps _ _ (match ?x with _ => _ end) => destruct x
  end.

(** ** Programs without effects

    A program that only computes or throws, and what its results satisfy. *)

Definition pure_prog {E S A} (c : X E S A) (φ : A → Prop) : Prop :=
  ∀ s t, xwp c (λ a s' t', s' = s ∧ t' = t ∧ φ a) (λ _ s' t', s' = s ∧ t' = t) s t.

Lemma pure_prog_bind {E S A B} (c : X E S A) (f : A → X E S B) φ ψ :
  pure_prog c φ → (∀ a, φ a → pure_prog (f a) ψ) → pure_prog (c ≫= f) ψ.
Proof.
  intros Hc Hf s t. apply xwp_bind. eapply xwp_mono; [apply Hc| |done]. intros a s' t' (->&->&Ha). by apply Hf.
Qed.
Lemma pure_prog_ret {E S A} (a : A) (φ : A → Prop) : φ a → pure_prog (E:=E) (S:=S) (mret a) φ.
Proof. by intros. Qed.
Lemma pure_prog_throw {E S A} e (φ : A → Prop) : pure_prog (E:=E) (S:=S) (throw e) φ.
Proof. by intros. Qed.
Lemma pure_prog_if {E S A} (b : bool) (c d : X E S A) φ :
  (b = true → pure_prog c φ) → (b = false → pure_prog d φ) → pure_prog (if b then c else d) φ.
Proof. destruct b; auto. Qed.

Ltac pure_step :=
  lazymatch goal with
  | |- pure_prog (mbind _ _) _ => apply (pure_prog_bind _ _ (λ _, True)); [|intros ? _]
  | |- pure_prog (mret _) _ => apply pure_prog_ret
  | |- pure_prog (throw _) _ => apply pure_prog_throw
  | |- pure_prog (match ?x with _ => _ end) _ =>
      lazymatch type of x with
      | bool => let H := fresh "Hb" in apply pure_prog_if; intros H
      | _ => destruct x
      end
  end.

Lemma pure_prog_mono {E S A} (c : X E S A) (φ ψ : A → Prop) : pure_prog c φ → (∀ a, φ a → ψ a) → pure_prog c ψ.
Proof. intros Hc H s t. eapply xwp_mono; [apply Hc| |done]. intros a s' t' (->&->&Ha). auto. Qed.

Lemma pure_prog_run {E S A} (c : X E S A) (φ : A → Prop) s t a s' t' :
  pure_prog c φ → c s t = (inr a, s', t') → φ a ∧ s' = s ∧ t' = t.
Proof. intros Hc Hr. pose proof (Hc s t) as H. unfold xwp in H. rewrite Hr in H. by destruct H as (->&->&?). Qed.

(** ** Events allowed by what came before *)

Section Guarded.
Context {E : Type} (G : E → list E → Prop).

Fixpoint guarded (t : list E) : Prop :=
  match t with
  | [] => True
  | e :: t => G e t ∧ guarded t
  end.

Lemma guarded_at t2 e t1 : guarded (t2 ++ e :: t1) → G e t1.
Proof. induction t2 as [|e' t2 IH]; cbn; intros [??]; auto. Qed.

Lemma guarded_elem e t : guarded t → e ∈ t → ∃ t2 t1, t = t2 ++ e :: t1 ∧ G e t1.
Proof.
  intros H Hin. apply list_elem_of_split in Hin as (t2 & t1 & ->). exists t2, t1. split; [done|]. by eapply guarded_at.
Qed.
End Guarded.

Create HintDb cpp.

(** ** Values of the language *)

Definition INT64_MAX : Z := 2 ^ 63 - 1.
Definition INT64_MIN : Z := - 2 ^ 63.

(** Times of the steady clock are in nanoseconds. *)
Definition NANOSECONDS : Z := 10 ^ 9.
Definition seconds (n : Z) : Z := n * NANOSECONDS.

(** [s.find_first_not_of(chars) == npos]. *)
Fixpoint string_mem (c : Ascii.ascii) (s : string) : bool :=
  match s with
  | EmptyString => false
  | String c' s => Ascii.eqb c c' || string_mem c s
  end.
Fixpoint only_chars (chars s : string) : bool :=
  match s with
  | EmptyString => true
  | String c s => string_mem c chars && only_chars chars s
  end.

Definition string_size (s : string) : Z := Z.of_nat (String.length s).
Definition string_empty (s : string) : bool := match s with EmptyString => true | _ => false end.

Lemma string_empty_spec s : string_empty s = true ↔ s = EmptyString.
Proof. by destruct s. Qed.

Lemma string_empty_false s : string_empty s = false ↔ s ≠ EmptyString.
Proof. by destruct s. Qed.

Lemma string_length_append s s' : String.length (s +:+ s') = (String.length s + String.length s')%nat.
Proof. induction s as [|c s IH]; [done|]. change (String c s +:+ s') with (String c (s +:+ s')). cbn. by rewrite IH. Qed.

Lemma append_cons c a b : String c a +:+ b = String c (a +:+ b).
Proof. done. Qed.

Lemma append_nil_l a : EmptyString +:+ a = a.
Proof. done. Qed.

Lemma append_nil_r a : a +:+ EmptyString = a.
Proof. induction a as [|x a IH]; [done|]. rewrite append_cons. by f_equal. Qed.

Lemma append_assoc a b c : a +:+ (b +:+ c) = (a +:+ b) +:+ c.
Proof. induction a as [|x a IH]; [done|]. rewrite !append_cons. by f_equal. Qed.

(** The identity alphabet of the cloud agent. *)
Definition identity_chars : string :=
  "abcdefghijklmnopqrstuvwxyzABCDEFGHIJKLMNOPQRSTUVWXYZ0123456789_-:.".

(** Splits the boolean tests of a context. *)
Ltac bool_simpl :=
  repeat match goal with
  | H : _ && _ = true |- _ => apply andb_true_iff in H; destruct H
  | H : _ || _ = false |- _ => apply orb_false_iff in H; destruct H
  | H : negb _ = true |- _ => apply negb_true_iff in H
  | H : negb _ = false |- _ => apply negb_false_iff in H
  | H : bool_decide _ = true |- _ => apply bool_decide_eq_true in H
  | H : bool_decide _ = false |- _ => apply bool_decide_eq_false in H
  | H : (_ =? _) = true |- _ => apply Z.eqb_eq in H
  | H : (_ =? _) = false |- _ => apply Z.eqb_neq in H
  | H : (_ <? _) = true |- _ => apply Z.ltb_lt in H
  | H : (_ <? _) = false |- _ => apply Z.ltb_ge in H
  | H : (_ <=? _) = true |- _ => apply Z.leb_le in H
  | H : (_ <=? _) = false |- _ => apply Z.leb_gt in H
  end.
