(* ===== verification/CppDouble.v ===== *)
(** * The type double

    The IEEE 754 binary64 numbers of the Standard Library's [SpecFloat] with the
    operations the board programs use: arithmetic rounded to nearest even,
    comparisons, conversions from integers, [std::clamp], [std::llround] and
    [std::to_string]. A conversion to an integer whose value does not fit is
    unspecified in C++; it is [None] here, so that a program that gets a number
    out of it is proved to stay in range. The lemmas bound a rounded result by an
    integer that bounds the exact one. *)
From Stdlib Require Export SpecFloat.
From stdpp Require Import pretty strings.
From S2P Require Import Prelude Cpp.

#[local] Open Scope Z_scope.

Abbreviation double := spec_float.
Abbreviation prec := 53.
Abbreviation emax := 1024.

Definition dmul : double → double → double := SFmul prec emax.
Definition ddiv : double → double → double := SFdiv prec emax.
Definition dadd : double → double → double := SFadd prec emax.
Definition dsub : double → double → double := SFsub prec emax.
Definition dltb : double → double → bool := SFltb.
Definition dleb : double → double → bool := SFleb.
Definition deqb : double → double → bool := SFeqb.

(** [static_cast<double>(z)]. *)
Definition double_of (z : Z) : double := binary_normalize prec emax z 0 false.

Definition isfinite (x : double) : bool :=
  match x with S754_zero _ | S754_finite _ _ _ => true | _ => false end.

(** [std::clamp(v, lo, hi)]. *)
Definition dclamp (v lo hi : double) : double := if dltb v lo then lo else if dltb hi v then hi else v.

(** The magnitude [m * 2^e], rounded half away from zero. *)
Definition round_half_up (m e : Z) : Z :=
  if 0 <=? e then m * 2 ^ e else (2 * m + 2 ^ (- e)) / (2 * 2 ^ (- e)).

(** [std::llround]; [None] where its value is unspecified. *)
Definition llround (x : double) : option Z :=
  match x with
  | S754_zero _ => Some 0
  | S754_finite s m e =>
      let n := round_half_up (Z.pos m) e in
      let z := if s then - n else n in
      if (INT64_MIN <=? z) && (z <=? INT64_MAX) then Some z else None
  | _ => None
  end.

(** [m * 2^e] to the nearest multiple of [10^-6], ties to even, as a number of millionths. *)
Definition millionths (m e : Z) : Z :=
  if 0 <=? e then m * 10 ^ 6 * 2 ^ e else
  let d := 2 ^ (- e) in
  let q := m * 10 ^ 6 / d in
  let r := m * 10 ^ 6 mod d in
  match 2 * r ?= d with Lt => q | Gt => q + 1 | Eq => if Z.even q then q else q + 1 end.

Definition pad6 (n : Z) : string :=
  let s := pretty n in
  String.concat EmptyString (replicate (6 - String.length s) "0") +:+ s.

(** [std::to_string(double)]: the format "%f". *)
Definition to_string_double (x : double) : string :=
  let sign (s : bool) := if s then "-" else EmptyString in
  match x with
  | S754_zero s => sign s +:+ "0.000000"
  | S754_infinity s => sign s +:+ "inf"
  | S754_nan => "nan"
  | S754_finite s m e =>
      let n := millionths (Z.pos m) e in
      sign s +:+ pretty (n / 10 ^ 6) +:+ "." +:+ pad6 (n mod 10 ^ 6)
  end.

Definition valid_double (x : double) : Prop := valid_binary prec emax x = true.

(** ** Scaled comparisons

    [le_scaled k e B]: [k * 2^e <= B]. *)

Definition le_scaled (k e B : Z) : Prop := k * 2 ^ (Z.max e 0) ≤ B * 2 ^ (Z.max (- e) 0).

Lemma le_scaled_at p k e B : 0 ≤ p → 0 ≤ p + e → (le_scaled k e B ↔ k * 2 ^ (p + e) ≤ B * 2 ^ p).
Proof.
  intros Hp Hpe. unfold le_scaled. destruct (Z.le_ge_cases 0 e).
  - rewrite Z.max_l by lia. rewrite (Z.max_r (-e)) by lia. rewrite Z.pow_add_r by lia.
    pose proof (Z.pow_pos_nonneg 2 p). split; intros; nia.
  - rewrite Z.max_r by lia. rewrite (Z.max_l (-e)) by lia.
    assert (Hs : 2 ^ p = 2 ^ (p + e) * 2 ^ (- e)) by (rewrite <- Z.pow_add_r by lia; f_equal; lia).
    pose proof (Z.pow_pos_nonneg 2 (p + e)). split; intros; rewrite ?Hs in *; nia.
Qed.

Lemma le_scaled_mono k k' e B : k ≤ k' → le_scaled k' e B → le_scaled k e B.
Proof. unfold le_scaled. pose proof (Z.pow_pos_nonneg 2 (Z.max e 0)). nia. Qed.

Lemma le_scaled_neg k e B : e ≤ 0 → (le_scaled k e B ↔ k ≤ B * 2 ^ (- e)).
Proof. intros He. unfold le_scaled. rewrite Z.max_r, Z.max_l by lia. rewrite Z.mul_1_r. done. Qed.

(** A value below [2^53] has its leading digit below it too. *)
Lemma le_scaled_digits k e B d : 2 ^ (d - 1) ≤ k → 1 ≤ d → le_scaled k e B → B < 2 ^ 53 → d + e ≤ 53.
Proof.
  intros Hk Hd Hle HB. destruct (Z.le_gt_cases (d + e) 53) as [|Hgt]; [done|]. exfalso.
  set (p := Z.max (- e) 0). assert (Hp : 0 ≤ p ∧ 0 ≤ p + e) by lia.
  apply (le_scaled_at p) in Hle; [|lia..].
  assert (H1 : 2 ^ (53 + p) ≤ 2 ^ (d - 1) * 2 ^ (p + e)) by (rewrite <- Z.pow_add_r by lia; apply Z.pow_le_mono_r; lia).
  rewrite Z.pow_add_r in H1 by lia. pose proof (Z.pow_pos_nonneg 2 p). pose proof (Z.pow_pos_nonneg 2 (p + e)). nia.
Qed.

(** ** Digits and shifts *)

Lemma digits2_pos_spec p : 2 ^ (Z.pos (digits2_pos p) - 1) ≤ Z.pos p < 2 ^ Z.pos (digits2_pos p).
Proof.
  induction p as [p IH|p IH|]; cbn [digits2_pos]; [| |cbn; lia];
    rewrite Pos2Z.inj_succ; replace (Z.succ (Z.pos (digits2_pos p)) - 1) with (Z.succ (Z.pos (digits2_pos p) - 1)) by lia;
    rewrite !Z.pow_succ_r by lia; lia.
Qed.

Lemma Zdigits2_spec m : 0 < m → 1 ≤ Zdigits2 m ∧ 2 ^ (Zdigits2 m - 1) ≤ m < 2 ^ Zdigits2 m.
Proof. destruct m as [|p|p]; intros; [lia| |lia]. cbn [Zdigits2]. split; [lia|apply digits2_pos_spec]. Qed.

Lemma Zdigits2_le m d : 0 ≤ m < 2 ^ d → 0 ≤ d → Zdigits2 m ≤ d.
Proof.
  intros [H0 H] Hd. destruct (decide (m = 0)) as [->|]; [done|].
  destruct (Zdigits2_spec m) as (? & Hl & _); [lia|]. destruct (Z.le_gt_cases (Zdigits2 m) d) as [|Hgt]; [done|].
  pose proof (Z.pow_le_mono_r 2 d (Zdigits2 m - 1)). lia.
Qed.

(** The lost digits of a record. *)
Definition lost (mrs : shr_record) : Z := if shr_r mrs || shr_s mrs then 1 else 0.

Lemma shr_1_spec mrs : 0 ≤ shr_m mrs →
  0 ≤ shr_m (shr_1 mrs) ∧ 2 * shr_m (shr_1 mrs) ≤ shr_m mrs < 2 * (shr_m (shr_1 mrs) + 1) ∧
  ∀ K, shr_m mrs + lost mrs ≤ 2 * K → shr_m (shr_1 mrs) + lost (shr_1 mrs) ≤ K.
Proof.
  destruct mrs as [[|[p|p|]|p] r s]; cbn [shr_m]; intros; [| | | |lia];
    unfold lost; destruct r, s; cbn; repeat split; lia.
Qed.

Lemma iter_pos_spec {A} (f : A → A) n x : SpecFloat.iter_pos f n x = Pos.iter f x n.
Proof.
  revert x. induction n as [n IH|n IH|]; intros x; cbn; [| |done]; rewrite !IH; [|done].
  by rewrite !Pos.iter_swap.
Qed.

(** [n] shifts. *)
Lemma shr_iter_spec (n : nat) mrs : 0 ≤ shr_m mrs →
  let mrs' := Nat.iter n shr_1 mrs in
  0 ≤ shr_m mrs' ∧ 2 ^ Z.of_nat n * shr_m mrs' ≤ shr_m mrs < 2 ^ Z.of_nat n * (shr_m mrs' + 1) ∧
  ∀ K, shr_m mrs + lost mrs ≤ 2 ^ Z.of_nat n * K → shr_m mrs' + lost mrs' ≤ K.
Proof.
  intros H0. induction n as [|n IH].
  { cbn. rewrite Nat2Z.inj_0, Z.pow_0_r. split_and!; intros; lia. }
  change (Nat.iter (S n) shr_1 mrs) with (shr_1 (Nat.iter n shr_1 mrs)).
  destruct IH as (Hn & Hle & Hk). destruct (shr_1_spec _ Hn) as (Hn' & Hle' & Hk'). cbn zeta in *.
  rewrite Nat2Z.inj_succ, Z.pow_succ_r by lia. pose proof (Z.pow_pos_nonneg 2 (Z.of_nat n)). split_and!; [done|nia|nia|].
  intros K HK. apply Hk'. apply Hk. lia.
Qed.

Lemma shr_spec mrs e n : 0 ≤ shr_m mrs →
  ∃ k mrs', shr mrs e n = (mrs', e + k) ∧ k = Z.max n 0 ∧ 0 ≤ shr_m mrs' ∧
    2 ^ k * shr_m mrs' ≤ shr_m mrs < 2 ^ k * (shr_m mrs' + 1) ∧
    ∀ K, shr_m mrs + lost mrs ≤ 2 ^ k * K → shr_m mrs' + lost mrs' ≤ K.
Proof.
  intros H0. destruct n as [|p|p]; cbn [shr].
  - exists 0, mrs. rewrite Z.add_0_r, Z.pow_0_r. split_and!; try done; intros; lia.
  - exists (Z.pos p), (SpecFloat.iter_pos shr_1 p mrs). split; [done|]. split; [lia|].
    rewrite iter_pos_spec, Pos2Nat.inj_iter. pose proof (shr_iter_spec (Pos.to_nat p) mrs H0) as Hs.
    cbn zeta in Hs. by rewrite positive_nat_Z in Hs.
  - exists 0, mrs. rewrite Z.add_0_r, Z.pow_0_r. split_and!; try done; intros; lia.
Qed.

Lemma shr_record_of_loc_m m l : shr_m (shr_record_of_loc m l) = m.
Proof. by destruct l as [|[]]. Qed.

Definition inexact (l : location) : Z := match l with loc_Exact => 0 | loc_Inexact _ => 1 end.

Lemma lost_of_loc m l : lost (shr_record_of_loc m l) = inexact l.
Proof. by destruct l as [|[]]. Qed.
Lemma inexact_lost mrs : inexact (loc_of_shr_record mrs) = lost mrs.
Proof. by destruct mrs as [m [] []]. Qed.

Lemma round_nearest_even_le m l : m ≤ round_nearest_even m l ≤ m + inexact l.
Proof. destruct l as [|[]]; cbn; try lia. case_match; lia. Qed.

(** The alignment of a mantissa keeps a bound. *)
Lemma shr_fexp_le m e l B : 0 ≤ m → B < 2 ^ 53 → le_scaled (m + inexact l) e B →
  ∃ mrs e', shr_fexp prec emax m e l = (mrs, e') ∧ 0 ≤ shr_m mrs ∧ le_scaled (shr_m mrs + lost mrs) e' B.
Proof.
  intros Hm HB Hle. unfold shr_fexp.
  destruct (shr_spec (shr_record_of_loc m l) e (fexp prec emax (Zdigits2 m + e) - e)) as (k & mrs & -> & Hk & H0 & _ & HK).
  { by rewrite shr_record_of_loc_m. }
  exists mrs, (e + k). split; [done|]. split; [done|]. rewrite shr_record_of_loc_m, lost_of_loc in HK.
  destruct (decide (k = 0)) as [->|Hk0].
  { rewrite Z.add_0_r. eapply le_scaled_mono; [|done]. apply HK. lia. }
  assert (Hneg : e + k ≤ 0).
  { unfold fexp, emin in Hk. destruct (decide (m = 0)) as [->|]; [cbn in Hk; lia|].
    destruct (Zdigits2_spec m) as (? & Hd & _); [lia|].
    assert (Zdigits2 m + e ≤ 53); [|lia]. apply (le_scaled_digits m e B); [done..| |done].
    eapply le_scaled_mono; [|done]. destruct l; cbn; lia. }
  rewrite le_scaled_neg in * by lia. apply HK.
  replace (- e) with (k + - (e + k)) in Hle by lia. rewrite Z.pow_add_r in Hle by lia. lia.
Qed.

(** ** Rounded results within an integer bound *)

Definition within (x : double) (B : Z) : Prop :=
  match x with
  | S754_zero _ => True
  | S754_finite _ m e => le_scaled (Z.pos m) e B
  | _ => False
  end.

Lemma binary_round_aux_within s m e l B : 0 ≤ m → B < 2 ^ 53 → le_scaled (m + inexact l) e B →
  within (binary_round_aux prec emax s m e l) B.
Proof.
  intros Hm HB Hle. unfold binary_round_aux.
  destruct (shr_fexp_le m e l B) as (mrs & e' & -> & H0 & Hle'); [done..|].
  pose proof (round_nearest_even_le (shr_m mrs) (loc_of_shr_record mrs)) as Hr. rewrite inexact_lost in Hr.
  set (m1 := round_nearest_even _ _) in *.
  destruct (shr_fexp_le m1 e' loc_Exact B) as (mrs2 & e2 & -> & H2 & Hle2); [lia|done| |].
  { cbn [inexact]. rewrite Z.add_0_r. eapply le_scaled_mono; [|done]. lia. }
  destruct (shr_m mrs2) as [|m2|m2] eqn:E; [done| |lia].
  assert (Hle3 : le_scaled (Z.pos m2) e2 B) by (eapply le_scaled_mono; [|done]; unfold lost; case_match; lia).
  rewrite (proj2 (Z.leb_le _ _)); [done|].
  assert (1 + e2 ≤ 53); [|lia]. apply (le_scaled_digits (Z.pos m2) e2 B); [cbn; lia|lia|done..].
Qed.

Lemma dmul_within x y B C : 0 ≤ B → 0 ≤ C → within x B → within y C → B * C < 2 ^ 53 → within (dmul x y) (B * C).
Proof.
  intros HB HC. destruct x as [sx| | |sx mx ex], y as [sy| | |sy my ey]; try done. cbn. intros Hx Hy Hlt.
  apply binary_round_aux_within; [lia|done|]. cbn [inexact]. rewrite Z.add_0_r, Pos2Z.inj_mul.
  set (p := Z.abs ex + Z.abs ey).
  apply (le_scaled_at p) in Hx; [|lia..]. apply (le_scaled_at p) in Hy; [|lia..]. apply (le_scaled_at (p + p)); [lia..|].
  replace (p + p + (ex + ey)) with ((p + ex) + (p + ey)) by lia. rewrite (Z.pow_add_r 2 (p + ex)), (Z.pow_add_r 2 p p) by lia.
  pose proof (Z.pow_pos_nonneg 2 (p + ex)). pose proof (Z.pow_pos_nonneg 2 (p + ey)).
  apply Z.le_trans with ((B * 2 ^ p) * (C * 2 ^ p)); [|lia].
  etrans; [|apply Z.mul_le_mono_nonneg; [|exact Hx| |exact Hy]]; lia.
Qed.

Lemma new_location_inexact n k : inexact (new_location n k) = if k =? 0 then 0 else 1.
Proof. unfold new_location, new_location_even, new_location_odd. by repeat case_match. Qed.

(** The quotient of magnitudes [x <= B * y]. *)
Lemma ddiv_within sx mx ex sy my ey B :
  0 ≤ B < 2 ^ 53 → (∀ p, 0 ≤ p + ex → 0 ≤ p + ey → Z.pos mx * 2 ^ (p + ex) ≤ B * (Z.pos my * 2 ^ (p + ey))) →
  within (ddiv (S754_finite sx mx ex) (S754_finite sy my ey)) B.
Proof.
  intros HB Hle. cbn -[SFdiv_core_binary]. unfold SFdiv_core_binary.
  set (e' := Z.min _ (ex - ey)). set (s := ex - ey - e').
  assert (Hs : 0 ≤ s) by lia.
  replace (match s with Z0 => Z.pos mx | Z.pos _ => Z.shiftl (Z.pos mx) s | Z.neg _ => 0 end) with (Z.pos mx * 2 ^ s).
  2: { destruct s; [lia|by rewrite Z.shiftl_mul_pow2 by lia|lia]. }
  pose proof (Zdiv.Z_div_mod (Z.pos mx * 2 ^ s) (Z.pos my)) as Hdm.
  destruct (Z.div_eucl (Z.pos mx * 2 ^ s) (Z.pos my)) as [q r]. destruct Hdm as [Hq Hr]; [lia|].
  pose proof (Z.pow_pos_nonneg 2 s). assert (0 ≤ q) by nia.
  apply binary_round_aux_within; [done|lia|]. rewrite new_location_inexact.
  assert (He' : e' ≤ 0).
  { destruct (Z.le_gt_cases e' 0) as [|Hgt]; [done|exfalso]. specialize (Hle (- ey) ltac:(lia) ltac:(lia)).
    destruct (Zdigits2_spec (Z.pos mx)) as (? & Hmx & _); [lia|]. destruct (Zdigits2_spec (Z.pos my)) as (? & _ & Hmy); [lia|].
    unfold fexp, emin in e'. set (d1 := Zdigits2 (Z.pos mx)) in *. set (d2 := Zdigits2 (Z.pos my)) in *.
    assert (Hd : 53 + d2 ≤ d1 - 1 + (- ey + ex)) by lia. apply (Z.pow_le_mono_r 2) in Hd; [|lia].
    rewrite !Z.pow_add_r in Hd by lia. replace (- ey + ey) with 0 in Hle by lia.
    pose proof (Z.pow_pos_nonneg 2 (- ey + ex)). nia. }
  apply le_scaled_neg; [done|]. specialize (Hle (- e' - ey) ltac:(lia) ltac:(lia)).
  replace (- e' - ey + ex) with s in Hle by lia. replace (- e' - ey + ey) with (- e') in Hle by lia.
  rewrite Hq in Hle. case_match; bool_simpl; nia.
Qed.

Lemma Pos_iter_xO m d : Z.pos (Pos.iter xO m d) = Z.pos m * 2 ^ Z.pos d.
Proof.
  induction d as [|d IH] using Pos.peano_ind; [cbn; lia|]. rewrite Pos.iter_succ, Pos2Z.inj_succ, Z.pow_succ_r by lia.
  change (Z.pos (Pos.iter xO m d)~0) with (2 * Z.pos (Pos.iter xO m d)). lia.
Qed.

Lemma shl_align_fst m e e' : e' ≤ e → Z.pos (fst (shl_align m e e')) = Z.pos m * 2 ^ (e - e').
Proof.
  intros He. unfold shl_align. destruct (e' - e) as [|d|d] eqn:E; [|lia|]; cbn [fst].
  - replace (e - e') with 0 by lia. lia.
  - rewrite Pos_iter_xO. do 2 f_equal. lia.
Qed.

Lemma shl_align_le m e e' B : le_scaled (Z.pos m) e B →
  le_scaled (Z.pos (fst (shl_align m e e'))) (snd (shl_align m e e')) B.
Proof.
  intros H. destruct (Z.le_gt_cases e e') as [Hge|Hlt].
  { unfold shl_align. destruct (e' - e) eqn:E; [done|done|lia]. }
  replace (snd (shl_align m e e')) with e' by (unfold shl_align; destruct (e' - e) eqn:E; cbn; lia).
  rewrite shl_align_fst by lia. set (p := Z.abs e + Z.abs e').
  apply (le_scaled_at p) in H; [|lia..]. apply (le_scaled_at p); [lia..|].
  rewrite <- Z.mul_assoc, <- Z.pow_add_r by lia. by replace (e - e' + (p + e')) with (p + e) by lia.
Qed.

Lemma binary_round_within s m e B : B < 2 ^ 53 → le_scaled (Z.pos m) e B → within (binary_round prec emax s m e) B.
Proof.
  intros HB H. unfold binary_round. apply (shl_align_le _ _ (fexp prec emax (Z.pos (digits2_pos m) + e))) in H.
  destruct (shl_align _ _ _) as [mz ez]. apply binary_round_aux_within; [lia|done|]. cbn [inexact]. by rewrite Z.add_0_r.
Qed.

(** ** The shape of a rounded result *)

Lemma shr_fexp_shape m e l : 0 ≤ m →
  ∃ mrs k, shr_fexp prec emax m e l = (mrs, e + k) ∧ k = Z.max (fexp prec emax (Zdigits2 m + e) - e) 0 ∧
    0 ≤ shr_m mrs ∧ 2 ^ k * shr_m mrs ≤ m < 2 ^ k * (shr_m mrs + 1).
Proof.
  intros Hm. unfold shr_fexp.
  destruct (shr_spec (shr_record_of_loc m l) e (fexp prec emax (Zdigits2 m + e) - e)) as (k & mrs & -> & Hk & H0 & Hb & _);
    rewrite ?shr_record_of_loc_m in *; [done|]. by exists mrs, k.
Qed.

(** Rounding: the mantissa keeps its 53 bits. *)
Lemma round_steps s m e l : 0 ≤ m →
  ∃ m2 e2, binary_round_aux prec emax s m e l =
      match m2 with
      | Z0 => S754_zero s
      | Z.pos m2 => if e2 <=? emax - prec then S754_finite s m2 e2 else S754_infinity s
      | Z.neg _ => S754_nan
      end ∧ 0 ≤ m2 < 2 ^ 53 ∧ e ≤ e2 ≤ Z.max e (fexp prec emax (Zdigits2 m + e)) + 1 ∧ (1 ≤ m → 0 ≤ e → 1 ≤ m2).
Proof.
  intros Hm. unfold binary_round_aux.
  destruct (shr_fexp_shape m e l Hm) as (mrs & k & -> & Hk & H0 & Hb).
  pose proof (round_nearest_even_le (shr_m mrs) (loc_of_shr_record mrs)) as Hr.
  set (m1 := round_nearest_even _ _) in *. assert (Hi : inexact (loc_of_shr_record mrs) ≤ 1) by (destruct (loc_of_shr_record mrs); cbn; lia).
  destruct (shr_fexp_shape m1 (e + k) loc_Exact) as (mrs2 & k2 & -> & Hk2 & H2 & Hb2); [lia|].
  exists (shr_m mrs2), (e + k + k2). split; [done|].
  assert (Hsmall : shr_m mrs < 2 ^ 53).
  { destruct (decide (m = 0)) as [->|]. { pose proof (Z.pow_pos_nonneg 2 k). nia. }
    destruct (Zdigits2_spec m) as (? & _ & Hd); [lia|]. unfold fexp, emin in Hk.
    assert (Hp : 2 ^ Zdigits2 m ≤ 2 ^ (53 + k)) by (apply Z.pow_le_mono_r; lia). rewrite Z.pow_add_r in Hp by lia.
    pose proof (Z.pow_pos_nonneg 2 k). nia. }
  assert (Hd1 : Zdigits2 m1 ≤ 54) by (apply Zdigits2_le; lia).
  assert (H1k : m1 = 2 ^ 53 → 1 ≤ k2).
  { intros E. rewrite E in Hk2. unfold fexp in Hk2. change (Zdigits2 (2 ^ 53)) with 54 in Hk2. lia. }
  pose proof (Z.pow_pos_nonneg 2 k2) as Hp2. pose proof (Z.pow_pos_nonneg 2 k) as Hp1.
  split_and!.
  - lia.
  - destruct (decide (m1 = 2 ^ 53)) as [E|]; [|nia].
    assert (2 ^ 1 ≤ 2 ^ k2) by (apply Z.pow_le_mono_r; lia). nia.
  - lia.
  - unfold fexp, emin in *. lia.
  - intros H1m He. assert (Hm1 : 1 ≤ m1).
    { destruct (Z.le_gt_cases 1 (shr_m mrs)); [lia|]. replace (shr_m mrs) with 0 in Hb by lia.
      destruct (Zdigits2_spec m) as (? & Hd & _); [lia|].
      unfold fexp, emin in Hk. destruct (decide (k = 0)) as [->|]; [lia|].
      assert (2 ^ (k + 52) ≤ 2 ^ (Zdigits2 m - 1)) by (apply Z.pow_le_mono_r; lia). rewrite Z.pow_add_r in * by lia. nia. }
    destruct (decide (k2 = 0)) as [->|]; [lia|].
    destruct (Zdigits2_spec m1) as (? & Hd & _); [lia|]. unfold fexp, emin in Hk2.
    destruct (Z.le_gt_cases 1 (shr_m mrs2)); [lia|]. replace (shr_m mrs2) with 0 in Hb2 by lia.
    assert (2 ^ (k2 + 52) ≤ 2 ^ (Zdigits2 m1 - 1)) by (apply Z.pow_le_mono_r; lia). rewrite Z.pow_add_r in * by lia. nia.
Qed.

(** ** Rounded results above an integer bound *)

Definition ge_scaled (k e B : Z) : Prop := B * 2 ^ (Z.max (- e) 0) ≤ k * 2 ^ (Z.max e 0).

Lemma ge_scaled_at p k e B : 0 ≤ p → 0 ≤ p + e → (ge_scaled k e B ↔ B * 2 ^ p ≤ k * 2 ^ (p + e)).
Proof.
  intros Hp Hpe. unfold ge_scaled. pose proof (le_scaled_at p (- k) e (- B) Hp Hpe) as H. unfold le_scaled in H. lia.
Qed.

Lemma ge_scaled_mono k k' e B : k' ≤ k → ge_scaled k' e B → ge_scaled k e B.
Proof. unfold ge_scaled. pose proof (Z.pow_pos_nonneg 2 (Z.max e 0)). nia. Qed.

Lemma shr_fexp_ge m e l B C : 0 ≤ m → C < 2 ^ 53 → le_scaled m e C → ge_scaled m e B →
  ∃ mrs e', shr_fexp prec emax m e l = (mrs, e') ∧ 0 ≤ shr_m mrs ∧ ge_scaled (shr_m mrs) e' B.
Proof.
  intros Hm HC Hle Hge. destruct (shr_fexp_shape m e l Hm) as (mrs & k & -> & Hk & H0 & Hb).
  exists mrs, (e + k). split_and!; [done..|]. destruct (decide (k = 0)) as [->|Hk0].
  { rewrite Z.add_0_r. eapply ge_scaled_mono; [|done]. lia. }
  assert (Hneg : e + k ≤ 0).
  { unfold fexp, emin in Hk. destruct (decide (m = 0)) as [->|]; [cbn in Hk; lia|].
    destruct (Zdigits2_spec m) as (? & Hd & _); [lia|].
    assert (Zdigits2 m + e ≤ 53); [|lia]. by apply (le_scaled_digits m e C). }
  apply (ge_scaled_at (- e)) in Hge; [|lia..]. apply (ge_scaled_at (- e)); [lia..|].
  replace (- e + e) with 0 in Hge by lia. replace (- e + (e + k)) with k by lia.
  assert (Hs : 2 ^ (- e) = 2 ^ k * 2 ^ (- (e + k))) by (rewrite <- Z.pow_add_r by lia; f_equal; lia).
  rewrite Hs in *. pose proof (Z.pow_pos_nonneg 2 k). assert (B * 2 ^ (- (e + k)) < shr_m mrs + 1) by nia. nia.
Qed.

Definition at_least (x : double) (B : Z) : Prop :=
  match x with
  | S754_finite false m e => ge_scaled (Z.pos m) e B
  | _ => False
  end.

Lemma binary_round_aux_at_least m e l B C : 0 ≤ m → C < 2 ^ 53 → 1 ≤ B → le_scaled (m + inexact l) e C → ge_scaled m e B →
  at_least (binary_round_aux prec emax false m e l) B.
Proof.
  intros Hm HC HB Hle Hge. pose proof (binary_round_aux_within false m e l C Hm HC Hle) as Hw. revert Hw. unfold binary_round_aux.
  destruct (shr_fexp_le m e l C) as (mrs & e' & E1 & H0 & Hle'); [done..|].
  destruct (shr_fexp_ge m e l B C) as (mrs' & e'' & E2 & _ & Hge'); [done|done| |done|].
  { eapply le_scaled_mono; [|done]. destruct l; cbn; lia. }
  rewrite E1 in E2. injection E2 as <- <-. rewrite E1.
  pose proof (round_nearest_even_le (shr_m mrs) (loc_of_shr_record mrs)) as Hr. rewrite inexact_lost in Hr.
  set (m1 := round_nearest_even _ _) in *.
  destruct (shr_fexp_ge m1 e' loc_Exact B C) as (mrs2 & e2 & -> & H2 & Hge2); [lia|done|..].
  { eapply le_scaled_mono; [|done]. lia. }
  { eapply ge_scaled_mono; [|done]. lia. }
  destruct (shr_m mrs2) as [|m2|m2] eqn:E; [|by case_match|lia].
  exfalso. unfold ge_scaled in Hge2. pose proof (Z.pow_pos_nonneg 2 (Z.max (- e2) 0)). nia.
Qed.

(** ** Operations *)

(** An integer below [2^53] is exact. *)
Lemma double_of_exact z : 0 < z < 2 ^ 53 →
  ∃ m e, double_of z = S754_finite false m e ∧ e ≤ 0 ∧ Z.pos m = z * 2 ^ (- e) ∧ Z.pos m < 2 ^ 53.
Proof.
  intros Hz. destruct z as [|p|p]; [lia| |lia]. unfold double_of, binary_normalize, binary_round.
  pose proof (digits2_pos_spec p) as Hd. set (d := Z.pos (digits2_pos p)) in *.
  assert (Hd53 : 1 ≤ d ≤ 53) by (split; [lia|]; pose proof (Zdigits2_le (Z.pos p) 53); cbn in *; lia).
  assert (Hf : fexp prec emax (d + 0) = d - 53) by (unfold fexp, emin; lia). rewrite Hf.
  pose proof (shl_align_fst p 0 (d - 53) ltac:(lia)) as Hm.
  assert (He : snd (shl_align p 0 (d - 53)) = d - 53).
  { unfold shl_align. destruct (d - 53 - 0) eqn:E; cbn; lia. }
  destruct (shl_align p 0 (d - 53)) as [mz ez]. cbn in Hm, He. subst ez.
  assert (Hdz : Zdigits2 (Z.pos mz) = 53).
  { assert (2 ^ 52 ≤ Z.pos mz < 2 ^ 53) as [Hl Hu].
    { rewrite Hm. replace 52 with (d - 1 + (0 - (d - 53))) by lia. replace 53 with (d + (0 - (d - 53))) at 4 by lia.
      rewrite !Z.pow_add_r by lia. pose proof (Z.pow_pos_nonneg 2 (0 - (d - 53))). nia. }
    pose proof (Zdigits2_le (Z.pos mz) 53). destruct (Zdigits2_spec (Z.pos mz)) as (_ & _ & Hu'); [lia|].
    assert (¬ Zdigits2 (Z.pos mz) ≤ 52); [|lia]. intros Hle. apply (Z.pow_le_mono_r 2) in Hle; lia. }
  assert (Hs : ∀ l, shr_fexp prec emax (Z.pos mz) (d - 53) l = (shr_record_of_loc (Z.pos mz) l, d - 53)).
  { intros l. unfold shr_fexp. rewrite Hdz. replace (53 + (d - 53)) with (d + 0) by lia. rewrite Hf.
    by replace (d - 53 - (d - 53)) with 0 by lia. }
  unfold binary_round_aux. rewrite Hs. cbn [shr_record_of_loc shr_m loc_of_shr_record round_nearest_even]. rewrite Hs. cbn [shr_record_of_loc shr_m].
  rewrite (proj2 (Z.leb_le _ _)) by lia. exists mz, (d - 53). split_and!; [done|lia| |].
  - by rewrite Hm.
  - destruct (Zdigits2_spec (Z.pos mz)) as (_ & _ & Hu'); [lia|]. by rewrite Hdz in Hu'.
Qed.

Lemma double_of_within z : 0 ≤ z < 2 ^ 53 → within (double_of z) z.
Proof.
  intros Hz. destruct (decide (z = 0)) as [->|]; [done|]. destruct (double_of_exact z) as (m & e & -> & He & Hm & _); [lia|].
  cbn. apply le_scaled_neg; [done|]. lia.
Qed.

Lemma llround_within x B : 0 ≤ B ≤ INT64_MAX → within x B → ∃ z, llround x = Some z ∧ - B ≤ z ≤ B.
Proof.
  intros HB Hx. destruct x as [s| | |s m e]; cbn in Hx; [exists 0; split; [done|lia]|done|done|]. cbn -[round_half_up INT64_MIN INT64_MAX].
  assert (Hn : 0 ≤ round_half_up (Z.pos m) e ≤ B).
  { unfold round_half_up. destruct (Z.leb_spec 0 e) as [He|He].
    - unfold le_scaled in Hx. rewrite Z.max_l, Z.max_r in Hx by lia. pose proof (Z.pow_pos_nonneg 2 e). lia.
    - apply le_scaled_neg in Hx; [|lia]. pose proof (Z.pow_pos_nonneg 2 (- e)). split.
      + apply Z.div_pos; lia.
      + assert ((2 * Z.pos m + 2 ^ (- e)) / (2 * 2 ^ (- e)) < B + 1); [|lia].
        apply Z.div_lt_upper_bound; nia. }
  rewrite (proj2 (andb_true_iff _ _)).
  - eexists. split; [done|]. destruct s; lia.
  - unfold INT64_MIN, INT64_MAX in *. rewrite !Z.leb_le. destruct s; lia.
Qed.

(** The bounds of [llround] from below. *)
Lemma llround_at_least x B C : 0 ≤ B → C ≤ INT64_MAX → within x C → at_least x B → ∃ z, llround x = Some z ∧ B ≤ z ≤ C.
Proof.
  intros HB HC Hw Hx. destruct x as [s| | |[] m e]; try done. cbn in Hw, Hx.
  assert (HC0 : 0 ≤ C).
  { unfold le_scaled in Hw. pose proof (Z.pow_pos_nonneg 2 (Z.max e 0)). pose proof (Z.pow_pos_nonneg 2 (Z.max (- e) 0)). nia. }
  destruct (llround_within (S754_finite false m e) C) as (z & Hz & Hle); [lia|done|]. exists z. split; [done|]. split; [|lia].
  cbn -[round_half_up INT64_MIN INT64_MAX] in Hz. case_match; [|done]. injection Hz as <-. unfold round_half_up.
  destruct (Z.leb_spec 0 e) as [He|He].
  - unfold ge_scaled in Hx. rewrite Z.max_r, Z.max_l in Hx by lia. lia.
  - apply (ge_scaled_at (- e)) in Hx; [|lia..]. replace (- e + e) with 0 in Hx by lia.
    pose proof (Z.pow_pos_nonneg 2 (- e)). apply Z.div_le_lower_bound; nia.
Qed.

Lemma binary_round_at_least m e B C : C < 2 ^ 53 → 1 ≤ B → le_scaled (Z.pos m) e C → ge_scaled (Z.pos m) e B →
  at_least (binary_round prec emax false m e) B.
Proof.
  intros HC HB Hle Hge. unfold binary_round. set (e' := fexp _ _ _).
  apply (shl_align_le _ _ e') in Hle.
  assert (Hge' : ge_scaled (Z.pos (fst (shl_align m e e'))) (snd (shl_align m e e')) B).
  { destruct (Z.le_gt_cases e e') as [Hge'|Hlt].
    { unfold shl_align. destruct (e' - e) eqn:E; [done|done|lia]. }
    replace (snd (shl_align m e e')) with e' by (unfold shl_align; destruct (e' - e) eqn:E; cbn; lia).
    rewrite shl_align_fst by lia. set (p := Z.abs e + Z.abs e').
    apply (ge_scaled_at p) in Hge; [|lia..]. apply (ge_scaled_at p); [lia..|].
    rewrite <- Z.mul_assoc, <- Z.pow_add_r by lia. by replace (e - e' + (p + e')) with (p + e) by lia. }
  destruct (shl_align m e e') as [mz ez]. apply (binary_round_aux_at_least _ _ _ _ C); cbn [inexact]; rewrite ?Z.add_0_r; done.
Qed.

(** The sum of magnitudes. *)
Lemma dadd_bounds x y A B C : 0 ≤ C → within x B → within y C → at_least x A → 1 ≤ A → B + C < 2 ^ 53 →
  (∀ s m e, y = S754_finite s m e → s = false) → within (dadd x y) (B + C) ∧ at_least (dadd x y) A.
Proof.
  intros HC Hx Hy Ha HA HBC Hs. destruct x as [s| | |[] mx ex]; try done.
  destruct y as [s| | |s my ey]; try done; cbn in Hx, Hy, Ha.
  { cbn. split; [|done]. unfold le_scaled in *. pose proof (Z.pow_pos_nonneg 2 (Z.max (- ex) 0)). nia. }
  rewrite (Hs s my ey) by done. unfold dadd, SFadd. cbn [cond_Zopp]. set (ez := Z.min ex ey).
  pose proof (shl_align_fst mx ex ez ltac:(lia)) as H1. pose proof (shl_align_fst my ey ez ltac:(lia)) as H2.
  destruct (shl_align mx ex ez) as [m1 e1], (shl_align my ey ez) as [m2 e2]. cbn [fst] in *.
  change (Z.pos m1 + Z.pos m2) with (Z.pos (m1 + m2)). cbn [binary_normalize].
  set (p := Z.abs ex + Z.abs ey).
  apply (le_scaled_at p) in Hx; [|lia..]. apply (le_scaled_at p) in Hy; [|lia..]. apply (ge_scaled_at p) in Ha; [|lia..].
  assert (Hsum : Z.pos (m1 + m2) * 2 ^ (p + ez) = Z.pos mx * 2 ^ (p + ex) + Z.pos my * 2 ^ (p + ey)).
  { rewrite Pos2Z.inj_add, H1, H2, Z.mul_add_distr_r, <- !Z.mul_assoc, <- !Z.pow_add_r by lia. do 3 f_equal; lia. }
  assert (Hle : le_scaled (Z.pos (m1 + m2)) ez (B + C)) by (apply (le_scaled_at p); [lia..|]; rewrite Hsum; lia).
  assert (Hge : ge_scaled (Z.pos (m1 + m2)) ez A).
  { apply (ge_scaled_at p); [lia..|]. rewrite Hsum. pose proof (Z.pow_pos_nonneg 2 (p + ey)). nia. }
  split; [by apply binary_round_within|by apply (binary_round_at_least _ _ _ (B + C))].
Qed.

(** ** Not a number, and infinities *)

Lemma binary_round_aux_sign s m e l : 0 ≤ m →
  match binary_round_aux prec emax s m e l with
  | S754_finite s' m' _ => s' = s ∧ Z.pos m' < 2 ^ 53
  | S754_zero _ | S754_infinity _ => True
  | S754_nan => False
  end.
Proof.
  intros Hm. destruct (round_steps s m e l Hm) as (m2 & e2 & -> & Hb & _). destruct m2 as [|m2|m2]; [done| |lia].
  destruct (_ <=? _); [|done]. split; [done|lia].
Qed.

(** A result of rounding has a mantissa of 53 bits at most. *)
Definition small (x : double) : Prop := match x with S754_finite _ m _ => Z.pos m < 2 ^ 53 | S754_nan => False | _ => True end.

Lemma valid_small x : valid_double x → x ≠ S754_nan → small x.
Proof.
  destruct x as [| | |s m e]; try done. intros Hv _. cbn. unfold valid_double, valid_binary, bounded in Hv.
  apply andb_true_iff in Hv as [Hc _]. unfold canonical_mantissa, fexp in Hc. apply Z.eqb_eq in Hc.
  pose proof (digits2_pos_spec m) as [_ Hd]. eapply Z.lt_le_trans; [done|]. apply Z.pow_le_mono_r; lia.
Qed.

Lemma binary_round_aux_small s m e l : 0 ≤ m → small (binary_round_aux prec emax s m e l).
Proof. intros Hm. pose proof (binary_round_aux_sign s m e l Hm) as H. destruct (binary_round_aux _ _ _ _ _ _); try done. apply H. Qed.

Lemma binary_normalize_small m e s : small (binary_normalize prec emax m e s).
Proof.
  destruct m as [|p|p]; cbn [binary_normalize]; [done|..]; unfold binary_round; case_match; by apply binary_round_aux_small.
Qed.

Lemma dmul_small x y : isfinite x = true → isfinite y = true → small (dmul x y).
Proof. destruct x, y; try done. intros _ _. by apply binary_round_aux_small. Qed.

Lemma dadd_small x y : small x → isfinite x = true → small y → small (dadd x y).
Proof. destruct x as [[]| | |], y as [[]| | |]; try done. intros. apply binary_normalize_small. Qed.

Lemma dsub_small x y : small x → isfinite x = true → small y → small (dsub x y).
Proof. destruct x as [[]| | |], y as [[]| | |]; try done. intros. apply binary_normalize_small. Qed.

Lemma ddiv_small x s m e : small x → small (ddiv x (S754_finite s m e)).
Proof.
  destruct x as [| | |sx mx ex]; try done. intros _. unfold ddiv, SFdiv, SFdiv_core_binary. set (s' := ex - e - _).
  assert (Hs : 0 ≤ s') by lia.
  pose proof (Zdiv.Z_div_mod (match s' with Z0 => Z.pos mx | Z.pos _ => Z.shiftl (Z.pos mx) s' | Z.neg _ => 0 end) (Z.pos m)) as Hdm.
  destruct (Z.div_eucl _ _) as [q r]. apply binary_round_aux_small. destruct Hdm as [Hq Hr]; [lia|].
  assert (0 ≤ match s' with Z0 => Z.pos mx | Z.pos _ => Z.shiftl (Z.pos mx) s' | Z.neg _ => 0 end); [|nia].
  destruct s'; [lia| |lia]. rewrite Z.shiftl_nonneg. lia.
Qed.

(** Half of a finite number is finite. *)
Lemma half_finite s m e : valid_double (S754_finite s m e) → isfinite (ddiv (S754_finite s m e) (double_of 2)) = true.
Proof.
  intros Hv. pose proof (valid_small _ Hv ltac:(done)) as Hm. cbn in Hm.
  unfold valid_double, valid_binary, bounded in Hv. apply andb_true_iff in Hv as [_ He]. apply Z.leb_le in He.
  change (double_of 2) with (S754_finite false 4503599627370496 (-51)). unfold ddiv, SFdiv, SFdiv_core_binary.
  change (Zdigits2 4503599627370496) with 53. change 4503599627370496 with (2 ^ 52).
  set (d := Zdigits2 (Z.pos m)). set (e' := Z.min _ _). set (s' := e - -51 - e').
  assert (Hd : 1 ≤ d ≤ 53 ∧ Z.pos m < 2 ^ d).
  { pose proof (Zdigits2_spec (Z.pos m) ltac:(lia)) as (?&_&?). pose proof (Zdigits2_le (Z.pos m) 53 ltac:(lia) ltac:(lia)). unfold d. split; [split; done|done]. }
  assert (Hs : 0 ≤ s') by lia.
  replace (match s' with Z0 => Z.pos m | Z.pos _ => Z.shiftl (Z.pos m) s' | Z.neg _ => 0 end) with (Z.pos m * 2 ^ s').
  2: { destruct s'; [lia|by rewrite Z.shiftl_mul_pow2 by lia|lia]. }
  pose proof (Zdiv.Z_div_mod (Z.pos m * 2 ^ s') (2 ^ 52)) as Hdm.
  destruct (Z.div_eucl _ _) as [q r]. destruct Hdm as [Hq Hr]; [lia|]. pose proof (Z.pow_pos_nonneg 2 s').
  destruct (round_steps (xorb s false) q e' (new_location (2 ^ 52) r)) as (m2 & e2 & -> & Hb & He2 & _); [nia|].
  destruct m2 as [|m2|m2]; [done| |lia]. rewrite (proj2 (Z.leb_le _ _)); [done|].
  assert (Hqd : Zdigits2 q ≤ Z.max 0 (d + s' - 52)).
  { apply Zdigits2_le; [|lia]. split; [nia|]. destruct (Z.le_gt_cases 0 (d + s' - 52)).
    - rewrite Z.max_r by lia. apply (Z.mul_lt_mono_pos_r (2 ^ 52)); [lia|]. rewrite <- Z.pow_add_r by lia.
      replace (d + s' - 52 + 52) with (d + s') by lia. rewrite Z.pow_add_r by lia. nia.
    - rewrite Z.max_l by lia. assert (2 ^ (d + s') ≤ 2 ^ 52) by (apply Z.pow_le_mono_r; lia).
      rewrite Z.pow_add_r in * by lia. nia. }
  unfold fexp, emin in *. lia.
Qed.

(** A quotient bounded through integers: [x <= A], [y >= C] and [A <= B * C]. *)
Lemma ddiv_bound x y A B C : 0 ≤ B < 2 ^ 53 → 1 ≤ C → A ≤ B * C → within x A → at_least y C → within (ddiv x y) B.
Proof.
  intros HB HC HA Hx Hy. destruct y as [| | |[] my ey]; try done. destruct x as [| | |sx mx ex]; try done.
  cbn in Hx, Hy. apply ddiv_within; [done|]. intros p H1 H2. set (t := Z.abs p).
  apply (le_scaled_at (p + t)) in Hx; [|lia..]. apply (ge_scaled_at (p + t)) in Hy; [|lia..].
  replace (p + t + ex) with (t + (p + ex)) in Hx by lia. replace (p + t + ey) with (t + (p + ey)) in Hy by lia.
  rewrite (Z.pow_add_r 2 t) in Hx, Hy by lia. pose proof (Z.pow_pos_nonneg 2 t). pose proof (Z.pow_pos_nonneg 2 (p + t)).
  apply (Z.mul_le_mono_pos_l _ _ (2 ^ t)); [lia|].
  apply Z.le_trans with (A * 2 ^ (p + t)); [lia|]. apply Z.le_trans with (B * (C * 2 ^ (p + t))); nia.
Qed.

Lemma double_of_at_least z : 0 < z < 2 ^ 53 → at_least (double_of z) z.
Proof.
  intros Hz. destruct (double_of_exact z) as (m & e & -> & He & Hm & _); [lia|].
  cbn. apply (ge_scaled_at (- e)); [lia..|]. replace (- e + e) with 0 by lia. lia.
Qed.

(** Any positive 64-bit integer is at least one. *)
Lemma double_of_positive z : 0 < z < 2 ^ 64 → at_least (double_of z) 1.
Proof.
  intros Hz. destruct (Z.lt_ge_cases z (2 ^ 53)).
  { pose proof (double_of_at_least z ltac:(lia)) as Ha. destruct (double_of z) as [| | |[] m e]; try done. cbn in *.
    unfold ge_scaled in *. pose proof (Z.pow_pos_nonneg 2 (Z.max (- e) 0)). nia. }
  destruct z as [|p|p]; [lia| |lia]. unfold double_of, binary_normalize, binary_round.
  pose proof (digits2_pos_spec p) as [Hl Hu]. set (d := Z.pos (digits2_pos p)) in *.
  assert (Hd : 54 ≤ d ≤ 64).
  { split; [|pose proof (Zdigits2_le (Z.pos p) 64); cbn in *; lia].
    assert (¬ d ≤ 53); [|lia]. intros Hle. apply (Z.pow_le_mono_r 2) in Hle; lia. }
  replace (shl_align p 0 (fexp prec emax (d + 0))) with (p, 0).
  2: { unfold shl_align, fexp, emin. destruct (_ - 0) eqn:E; [done|done|lia]. }
  destruct (round_steps false (Z.pos p) 0 loc_Exact) as (m2 & e2 & -> & Hb & He & Hpos); [lia|].
  specialize (Hpos ltac:(lia) ltac:(lia)). destruct m2 as [|m2|m2]; [lia| |lia].
  change (Zdigits2 (Z.pos p)) with d in He. unfold fexp, emin in He.
  rewrite (proj2 (Z.leb_le _ _)) by lia. cbn. unfold ge_scaled. rewrite Z.max_r, Z.max_l by lia.
  pose proof (Z.pow_pos_nonneg 2 e2). lia.
Qed.

(** A comparison with a positive integer. *)
Lemma not_above_within m e mc ec B : Z.pos m < 2 ^ 53 → 2 ^ 52 ≤ Z.pos mc → ec ≤ 0 → Z.pos mc = B * 2 ^ (- ec) →
  (ec ?= e) ≠ Lt → (ec = e → Z.pos m ≤ Z.pos mc) → le_scaled (Z.pos m) e B.
Proof.
  intros Hm Hc Hec HB Hcmp Heq. destruct (Z.compare_spec ec e) as [->|?|Hlt]; [|done|].
  - apply le_scaled_neg; [done|]. specialize (Heq eq_refl). lia.
  - apply le_scaled_neg; [lia|]. replace (- e) with (- ec + (ec - e)) by lia. rewrite Z.pow_add_r by lia.
    assert (2 ^ 1 ≤ 2 ^ (ec - e)) by (apply Z.pow_le_mono_r; lia). nia.
Qed.

Lemma compare_cont_le m c : Pos.compare_cont Eq m c ≠ Gt → Z.pos m ≤ Z.pos c.
Proof. change (Pos.compare_cont Eq m c) with (m ?= c)%positive. destruct (Pos.compare_spec m c); [lia|lia|done]. Qed.

Lemma compare_cont_ge m c : Pos.compare_cont Eq c m ≠ Lt → Z.pos m ≤ Z.pos c.
Proof. change (Pos.compare_cont Eq c m) with (c ?= m)%positive. destruct (Pos.compare_spec c m); [lia|done|lia]. Qed.

Definition dopp : double → double := SFopp.

Lemma dclamp_within v : small v → within (dclamp v (dopp (double_of 1)) (double_of 1)) 1.
Proof.
  intros Hs. unfold dclamp. change (dopp (double_of 1)) with (S754_finite true 4503599627370496 (-52)).
  change (double_of 1) with (S754_finite false 4503599627370496 (-52)).
  destruct (dltb v _) eqn:E1; [by vm_compute|].
  destruct (dltb _ v) eqn:E2; [by vm_compute|].
  destruct v as [|[]| |[] m e]; try done. all: cbn in Hs |- *; unfold dltb, SFltb, SFcompare in E1, E2.
  - apply (not_above_within m e 4503599627370496 (-52)); [done|lia|lia|done|..].
    + rewrite Z.compare_antisym. by destruct (e ?= -52).
    + intros <-. rewrite Z.compare_refl in E1. apply compare_cont_le. intros E. by rewrite E in E1.
  - apply (not_above_within m e 4503599627370496 (-52)); [done|lia|lia|done|..].
    + by destruct (-52 ?= e).
    + intros <-. rewrite Z.compare_refl in E2. apply compare_cont_ge. intros E. by rewrite E in E2.
Qed.

(** A number in (0, 100]. *)
Lemma percent_within x : small x → isfinite x = true → dltb (double_of 100) x = false → dleb x (double_of 0) = false →
  within x 100.
Proof.
  change (double_of 100) with (S754_finite false 7036874417766400 (-46)). intros Hs Hf E2 E1.
  destruct x as [| | |[] m e]; try done. cbn in Hs |- *. unfold dltb, SFltb, SFcompare in E2.
  apply (not_above_within m e 7036874417766400 (-46)); [done|lia|lia|done|..].
  - by destruct (-46 ?= e).
  - intros <-. rewrite Z.compare_refl in E2. apply compare_cont_ge. intros E. by rewrite E in E2.
Qed.
