(* ===== verification/CppParse.v ===== *)
(** * Text of the command line and of the environment

    The functions of the C++ library that read settings: [find], [substr],
    [find_first_not_of] and [std::getline] on strings, the conversions [std::stol],
    [std::stoul] and [std::stoull] in base 10 and [std::stod] in the "C" locale. A
    conversion gives the value with the text it did not use, which is what the
    position it stores says, or [None] where it throws. [std::stod] is exact: the
    number as it is written is rounded once, to nearest even. *)
From S2P Require Import Prelude Cpp CppDouble.

#[local] Open Scope Z_scope.

(** ** Searching and cutting *)

(** [s.find(c)] as a split: what is before the first [c] and what is after it. *)
Fixpoint split_at (c : Ascii.ascii) (s : string) : option (string * string) :=
  match s with
  | EmptyString => None
  | String x s =>
      if Ascii.eqb x c then Some (EmptyString, s)
      else prod_map (String x) id <$> split_at c s
  end.

(** [s.substr(s.find_first_not_of(chars))], empty when there is no such character. *)
Fixpoint drop_chars (chars s : string) : string :=
  match s with
  | String c rest => if string_mem c chars then drop_chars chars rest else s
  | EmptyString => EmptyString
  end.

(** The text up to the last character that is not one of [chars]. *)
Fixpoint drop_last_chars (chars s : string) : string :=
  match s with
  | String c rest =>
      match drop_last_chars chars rest with
      | EmptyString => if string_mem c chars then EmptyString else String c EmptyString
      | rest => String c rest
      end
  | EmptyString => EmptyString
  end.

(** [s.substr(n)]. *)
Fixpoint drop_string (n : nat) (s : string) : string :=
  match n, s with
  | Datatypes.S n, String _ s => drop_string n s
  | _, _ => s
  end.

(** The pieces that a loop over [std::getline(stream, piece, c)] sees: an empty
    piece after the last separator is not one of them. *)
Fixpoint getlines (c : Ascii.ascii) (piece s : string) : list string :=
  match s with
  | EmptyString => if string_empty piece then [] else [piece]
  | String x s => if Ascii.eqb x c then piece :: getlines c EmptyString s
                  else getlines c (piece +:+ String x EmptyString) s
  end.

(** ** Paths *)

(** [operator/] of [std::filesystem::path], for a relative right operand. *)
Fixpoint last_char (s : string) : option Ascii.ascii :=
  match s with
  | EmptyString => None
  | String c EmptyString => Some c
  | String _ s => last_char s
  end.
Definition path_join (a b : string) : string :=
  if string_empty a || bool_decide (last_char a = Some "/"%char) then a +:+ b else a +:+ "/" +:+ b.

(** ** Integers *)

(** [isspace] of the "C" locale. *)
Definition isspace (c : Ascii.ascii) : bool :=
  let n := Ascii.nat_of_ascii c in Nat.eqb n 32 || (Nat.leb 9 n && Nat.leb n 13).
Fixpoint skip_spaces (s : string) : string :=
  match s with
  | String c rest => if isspace c then skip_spaces rest else s
  | EmptyString => EmptyString
  end.

(** The value of a digit in a base of at most 16. *)
Definition digit_value (base : Z) (c : Ascii.ascii) : option Z :=
  let n := Z.of_nat (Ascii.nat_of_ascii c) in
  let d := if (48 <=? n) && (n <=? 57) then n - 48
           else if (97 <=? n) && (n <=? 102) then n - 87
           else if (65 <=? n) && (n <=? 70) then n - 55 else 99 in
  if d <? base then Some d else None.

(** The longest run of digits: its value after [acc], its length, and the rest. *)
Fixpoint read_digits (base acc count : Z) (s : string) : Z * Z * string :=
  match s with
  | EmptyString => (acc, count, s)
  | String c rest =>
      match digit_value base c with
      | Some d => read_digits base (acc * base + d) (count + 1) rest
      | None => (acc, count, s)
      end
  end.

Definition read_sign (s : string) : bool * string :=
  match s with
  | String "-" rest => (true, rest)
  | String "+" rest => (false, rest)
  | _ => (false, s)
  end.

(** White space, a sign and at least one decimal digit: sign, magnitude, rest. *)
Definition read_integer (s : string) : option (bool * Z * string) :=
  let '(negative, s) := read_sign (skip_spaces s) in
  let '(n, count, rest) := read_digits 10 0 0 s in
  if count =? 0 then None else Some (negative, n, rest).

(** [std::stol] on a 64-bit platform. *)
Definition std_stol (s : string) : option (Z * string) :=
  '(negative, n, rest) ← read_integer s;
  let v := if negative : bool then - n else n in
  if (INT64_MIN <=? v) && (v <=? INT64_MAX) then Some (v, rest) else None.

(** [std::stoul] and [std::stoull]: a minus sign negates in the unsigned type. *)
Definition std_stoull (s : string) : option (Z * string) :=
  '(negative, n, rest) ← read_integer s;
  if n <? 2 ^ 64 then Some (if negative : bool then wrapu 64 (- n) else n, rest) else None.

(** ** Numbers of type double *)

(** Whether [strtod] reports that a result which is not zero is too small for a
    normal number is left to the implementation. *)
Class StrtodUnderflow := strtod_underflow : string → bool.

(** [m * 10^e], rounded once. *)
Definition decimal_double (negative : bool) (m e : Z) : double :=
  match m with
  | Z.pos _ =>
      let n := if 0 <=? e then m * 10 ^ e else m in
      let d := if 0 <=? e then 1 else 10 ^ (- e) in
      ddiv (S754_finite negative (Z.to_pos n) 0) (S754_finite false (Z.to_pos d) 0)
  | _ => S754_zero negative
  end.
(** [m * 2^e], rounded once. *)
Definition binary_double (negative : bool) (m e : Z) : double :=
  match m with
  | Z.pos m => ddiv (S754_finite negative m e) (S754_finite false 1 0)
  | _ => S754_zero negative
  end.

Definition lower (c : Ascii.ascii) : Ascii.ascii :=
  let n := Ascii.nat_of_ascii c in
  if Nat.leb 65 n && Nat.leb n 90 then Ascii.ascii_of_nat (n + 32) else c.

(** Removes a word written in small letters, in either case. *)
Fixpoint read_word (word s : string) : option string :=
  match word, s with
  | EmptyString, _ => Some s
  | String w word, String c s => if Ascii.eqb (lower c) w then read_word word s else None
  | _, _ => None
  end.

Definition word_char (c : Ascii.ascii) : bool :=
  let n := Ascii.nat_of_ascii (lower c) in
  Nat.eqb n 95 || (Nat.leb 48 n && Nat.leb n 57) || (Nat.leb 97 n && Nat.leb n 122).
Fixpoint skip_word_chars (s : string) : string :=
  match s with
  | String c rest => if word_char c then skip_word_chars rest else s
  | EmptyString => EmptyString
  end.

(** What may follow "nan": a sequence of word characters in parentheses. *)
Definition skip_nan_sequence (s : string) : string :=
  match s with
  | String "(" rest => match skip_word_chars rest with String ")" rest' => rest' | _ => s end
  | _ => s
  end.

(** Digits with an optional point: the digits as a number, how many there are, how
    many of them follow the point, the rest. *)
Definition read_mantissa (base : Z) (s : string) : Z * Z * Z * string :=
  let '(m, count, rest) := read_digits base 0 0 s in
  match rest with
  | String "." rest' =>
      let '(m', count', rest'') := read_digits base m 0 rest' in
      if count + count' =? 0 then (m, 0, 0, s) else (m', count + count', count', rest'')
  | _ => (m, count, 0, rest)
  end.

(** An exponent part is used when it has digits. *)
Definition read_exponent (letter : Ascii.ascii) (s : string) : Z * string :=
  match s with
  | String c rest =>
      if Ascii.eqb (lower c) letter then
        let '(negative, digits) := read_sign rest in
        let '(e, count, rest') := read_digits 10 0 0 digits in
        if count =? 0 then (0, s) else (if negative : bool then - e else e, rest')
      else (0, s)
  | EmptyString => (0, s)
  end.

(** A number without its sign: its value, whether a number other than zero is
    written, and the rest; [None] when no number starts here. *)
Definition read_number (negative : bool) (s : string) : option (double * bool * string) :=
  match read_word "infinity" s, read_word "inf" s, read_word "nan" s with
  | Some rest, _, _ | None, Some rest, _ => Some (S754_infinity negative, false, rest)
  | None, None, Some rest => Some (S754_nan, false, skip_nan_sequence rest)
  | None, None, None =>
      let hexadecimal :=
        rest ← read_word "0x" s;
        let '(m, count, after, rest') := read_mantissa 16 rest in
        if count =? 0 then None else
        let '(e, rest'') := read_exponent "p" rest' in
        Some (binary_double negative m (e - 4 * after), negb (m =? 0), rest'') in
      match hexadecimal with
      | Some r => Some r
      | None =>
          let '(m, count, after, rest) := read_mantissa 10 s in
          if count =? 0 then None else
          let '(e, rest') := read_exponent "e" rest in
          Some (decimal_double negative m (e - after), negb (m =? 0), rest')
      end
  end.

(** Zero, or smaller than the normal numbers. *)
Definition too_small (x : double) : bool :=
  match x with S754_finite _ m _ => Z.pos m <? 2 ^ 52 | S754_zero _ => true | _ => false end.

Section Stod.
Context `{StrtodUnderflow}.

(** [std::stod]: an overflow throws. *)
Definition std_stod (s : string) : option (double * string) :=
  let '(negative, number) := read_sign (skip_spaces s) in
  '(x, nonzero, rest) ← read_number negative number;
  if nonzero && match x with S754_infinity _ => true | _ => false end then None else
  if nonzero && too_small x && strtod_underflow s then None else Some (x, rest).

(** ** What the conversions return *)

Example stod_quarter : std_stod " -0.25e1x" = Some (ddiv (dopp (double_of 5)) (double_of 2), "x").
Proof. reflexivity. Qed.
Example stod_default_width : fst <$> std_stod "0.28" = Some (ddiv (double_of 28) (double_of 100)).
Proof. reflexivity. Qed.
Example stod_hexadecimal : std_stod "0x1.8p1" = Some (double_of 3, EmptyString).
Proof. reflexivity. Qed.
Example stod_overflow : std_stod "1e309" = None ∧ std_stod "1.7e308" ≠ None.
Proof. split; [reflexivity|by vm_compute]. Qed.
Example stod_names : std_stod "+INFx" = Some (S754_infinity false, "x") ∧ std_stod "nan(a_1)" = Some (S754_nan, EmptyString).
Proof. done. Qed.
Example stod_ends : std_stod "0x" = Some (S754_zero false, "x") ∧ std_stod "1e+" = Some (double_of 1, "e+") ∧ std_stod "." = None.
Proof. done. Qed.
End Stod.

Example stoull_minus_one : std_stoull "-1" = Some (2 ^ 64 - 1, EmptyString).
Proof. reflexivity. Qed.

(** A comma at the end starts no piece. *)
Example getlines_commas : getlines "," EmptyString "a,,b," = ["a"; EmptyString; "b"].
Proof. reflexivity. Qed.

(** ** A rounded result is a number of the format *)

Lemma Zdigits2_unique m d : 1 ≤ d → 2 ^ (d - 1) ≤ m < 2 ^ d → Zdigits2 m = d.
Proof.
  intros Hd [H1 H2]. assert (0 < m) by (pose proof (Z.pow_pos_nonneg 2 (d - 1)); lia).
  destruct (Zdigits2_spec m) as (? & H3 & H4); [done|].
  assert (d - 1 < Zdigits2 m) by (apply (Z.pow_lt_mono_r_iff 2); lia).
  assert (Zdigits2 m - 1 < d) by (apply (Z.pow_lt_mono_r_iff 2); lia). lia.
Qed.

Lemma Zdigits2_shr m m' k : 0 ≤ k → 0 < m' → 2 ^ k * m' ≤ m < 2 ^ k * (m' + 1) → Zdigits2 m = Zdigits2 m' + k.
Proof.
  intros Hk Hm' [H1 H2]. destruct (Zdigits2_spec m') as (? & H3 & H4); [done|]. pose proof (Z.pow_pos_nonneg 2 k).
  apply Zdigits2_unique; [lia|]. replace (Zdigits2 m' + k - 1) with (k + (Zdigits2 m' - 1)) by lia.
  rewrite (Z.add_comm _ k), !Z.pow_add_r by lia. nia.
Qed.

Lemma Zdigits2_mono m m' : 0 ≤ m ≤ m' → Zdigits2 m ≤ Zdigits2 m'.
Proof.
  intros [H0 H]. destruct (decide (m = 0)) as [->|]; [by destruct m'|].
  destruct (Zdigits2_spec m') as (? & _ & ?); [lia|]. apply Zdigits2_le; lia.
Qed.

Lemma fexp_eq x : fexp prec emax x = Z.max (x - 53) (-1074).
Proof. reflexivity. Qed.

(** Shifting to the exponent that the format asks for. *)
Lemma shr_fexp_canonical m e l : 0 ≤ m → e ≤ fexp prec emax (Zdigits2 m + e) →
  ∃ mrs, shr_fexp prec emax m e l = (mrs, fexp prec emax (Zdigits2 m + e)) ∧ 0 ≤ shr_m mrs ∧
    (0 < shr_m mrs → fexp prec emax (Zdigits2 (shr_m mrs) + fexp prec emax (Zdigits2 m + e)) = fexp prec emax (Zdigits2 m + e)) ∧
    (shr_m mrs = 0 → fexp prec emax (Zdigits2 m + e) = -1074).
Proof.
  intros Hm He. destruct (shr_fexp_shape m e l Hm) as (mrs & k & -> & Hk & H0 & Hb). rewrite Z.max_l in Hk by lia.
  set (f := fexp prec emax (Zdigits2 m + e)) in *. assert (Hf : f = Z.max (Zdigits2 m + e - 53) (-1074)) by apply fexp_eq.
  exists mrs. replace (e + k) with f by lia. split_and!; [done|done|..].
  - intros Hp. rewrite fexp_eq. pose proof (Zdigits2_shr m (shr_m mrs) k). lia.
  - intros Hz. rewrite Hz, Z.mul_1_r in Hb. destruct (decide (m = 0)) as [->|]; [cbn in *; lia|].
    pose proof (Zdigits2_le m k). lia.
Qed.

Lemma round_up_bounds m l : m ≤ round_nearest_even m l ≤ m + 1.
Proof. destruct l as [|[]]; cbn; try lia. destruct (Z.even m); lia. Qed.

Lemma binary_round_aux_valid s m e l : 0 ≤ m → e ≤ fexp prec emax (Zdigits2 m + e) →
  valid_double (binary_round_aux prec emax s m e l).
Proof.
  intros Hm He. unfold binary_round_aux. destruct (shr_fexp_canonical m e l Hm He) as (mrs & -> & H0 & Hpos & Hzero).
  set (f := fexp prec emax (Zdigits2 m + e)) in *. assert (Hf : f = Z.max (Zdigits2 m + e - 53) (-1074)) by apply fexp_eq.
  pose proof (round_up_bounds (shr_m mrs) (loc_of_shr_record mrs)) as Hr. set (m1 := round_nearest_even _ _) in *.
  assert (Hf1 : f ≤ fexp prec emax (Zdigits2 m1 + f)).
  { rewrite fexp_eq. destruct (decide (shr_m mrs = 0)) as [Hz|]; [specialize (Hzero Hz); lia|].
    assert (0 < shr_m mrs) as Hp by lia. specialize (Hpos Hp). rewrite fexp_eq in Hpos.
    pose proof (Zdigits2_mono (shr_m mrs) m1). lia. }
  destruct (shr_fexp_canonical m1 f loc_Exact ltac:(lia) Hf1) as (mrs2 & -> & H2 & Hpos2 & _).
  set (f2 := fexp prec emax (Zdigits2 m1 + f)) in *. destruct (shr_m mrs2) as [|p|p]; [done| |lia].
  destruct (Z.leb f2 _) eqn:Hle; [|done]. unfold valid_double, valid_binary, bounded, canonical_mantissa.
  apply andb_true_iff. split; [|done]. apply Z.eqb_eq. by apply Hpos2.
Qed.

(** The quotient of two positive numbers, whatever their mantissas. *)
Lemma ddiv_valid sx mx ex sy my ey : valid_double (ddiv (S754_finite sx mx ex) (S754_finite sy my ey)).
Proof.
  unfold ddiv, SFdiv, SFdiv_core_binary.
  set (e' := Z.min _ _). set (sh := ex - ey - e'). assert (Hs : 0 ≤ sh) by lia.
  set (m' := match sh with Z0 => _ | _ => _ end).
  assert (Hm' : m' = Z.pos mx * 2 ^ sh) by (unfold m'; destruct sh; [lia|apply Z.shiftl_mul_pow2; lia|lia]).
  pose proof (Z_div_mod m' (Z.pos my) ltac:(lia)) as Hd. destruct (Z.div_eucl m' (Z.pos my)) as [q r]. destruct Hd as [Hq Hr].
  pose proof (Z.pow_pos_nonneg 2 sh). assert (Hq0 : 0 ≤ q) by nia. apply binary_round_aux_valid; [done|].
  destruct (Zdigits2_spec (Z.pos mx)) as (Hdx & Hx1 & _); [lia|]. destruct (Zdigits2_spec (Z.pos my)) as (Hdy & _ & Hy2); [lia|].
  set (dx := Zdigits2 (Z.pos mx)) in *. set (dy := Zdigits2 (Z.pos my)) in *.
  assert (He : e' ≤ fexp prec emax (dx + ex - (dy + ey))) by lia. rewrite fexp_eq in He. rewrite fexp_eq.
  enough (dx + sh - dy ≤ Zdigits2 q) by lia.
  destruct (Z.le_gt_cases (dx + sh - dy) (Zdigits2 q)) as [|Hgt]; [done|]. exfalso.
  assert (Hq2 : q < 2 ^ Zdigits2 q) by (destruct (decide (q = 0)) as [->|]; [done|apply Zdigits2_spec; lia]).
  assert (Hqd : 0 ≤ Zdigits2 q) by (destruct (decide (q = 0)) as [->|]; [done|destruct (Zdigits2_spec q); lia]).
  assert (H1 : 2 ^ (dx - 1) * 2 ^ sh ≤ m') by nia.
  assert (H2 : m' < 2 ^ dy * 2 ^ Zdigits2 q) by nia.
  rewrite <- Z.pow_add_r in H1 by lia. rewrite <- Z.pow_add_r in H2 by lia.
  pose proof (Z.pow_le_mono_r 2 (dy + Zdigits2 q) (dx - 1 + sh)). lia.
Qed.

Lemma std_stod_valid `{StrtodUnderflow} s x rest : std_stod s = Some (x, rest) → valid_double x.
Proof.
  assert (Hb : ∀ n m e, valid_double (binary_double n m e)) by (intros n [] e; [done|apply ddiv_valid|done]).
  assert (Hd : ∀ n m e, valid_double (decimal_double n m e)) by (intros n [] e; [done|apply ddiv_valid|done]).
  unfold std_stod. destruct (read_sign _) as [n number].
  assert (Hn : ∀ x nz rest, read_number n number = Some (x, nz, rest) → valid_double x).
  { clear x rest. intros x nz rest. unfold read_number. repeat case_match; intros; simplify_option_eq; try done.
    all: repeat case_match; simplify_eq; done. }
  destruct (read_number n number) as [[[x' nz] rest']|]; [|done]. cbn. intros Hr. repeat case_match; simplify_eq; by eapply Hn.
Qed.

(** ** Lemmas on texts *)

#[local] Arguments Ascii.eqb : simpl never.

Lemma split_at_app c a b : string_mem c a = false → split_at c (a +:+ String c b) = Some (a, b).
Proof.
  induction a as [|x a IH]; intros H.
  { change (EmptyString +:+ String c b) with (String c b). cbn. by rewrite Ascii.eqb_refl. }
  rewrite append_cons. cbn in H |- *. apply orb_false_iff in H as [Hx Ha]. rewrite Ascii.eqb_sym, Hx. by rewrite IH.
Qed.

Lemma split_at_none c a : string_mem c a = false → split_at c a = None.
Proof.
  induction a as [|x a IH]; intros H; [done|]. cbn in H |- *. apply orb_false_iff in H as [Hx Ha].
  rewrite Ascii.eqb_sym, Hx. by rewrite IH.
Qed.

Lemma string_mem_app c a b : string_mem c (a +:+ b) = string_mem c a || string_mem c b.
Proof. induction a as [|x a IH]; [done|]. rewrite append_cons. cbn. by rewrite IH, orb_assoc. Qed.

Lemma last_char_append a b : b ≠ EmptyString → last_char (a +:+ b) = last_char b.
Proof.
  intros Hb. induction a as [|x a IH]; [done|]. rewrite append_cons. cbn [last_char]. rewrite IH.
  destruct (a +:+ b) eqn:E; [|done]. exfalso. apply Hb. by destruct a, b.
Qed.
