(* ===== verification/HardwareMotor.v ===== *)
(** * The motor controller of the board's hardware worker

    [devices/common/board/hardware_worker]: [src/motor.cpp] from the commanded
    velocity to the raw speeds of the motor driver, with the watchdog deadline and
    the error state, [ValidateMotorConfig] of [src/config.cpp] and the service of
    [src/main.cpp], whose calls run one at a time under its mutex. The motor driver
    is the interface [MotorDriver]; [HardwareDriver] implements it. *)
From stdpp Require Import gmap.
From S2P Require Import Prelude Cpp CppDouble.

#[local] Open Scope Z_scope.

(** ** Data *)

Record MotorConfig := mk_motor_config {
  enabled : bool; pwm_sysfs_root : string;
  raw_max_speed : Z; cmd_raw_min_speed : Z; cmd_raw_max_speed : Z;
  pwm_hz : Z; pwm_chip : Z; gpio_chip : Z;
  left_pwm_channel : Z; right_pwm_channel : Z; left_dir_gpio : Z; right_dir_gpio : Z;
  left_inverted : bool; right_inverted : bool;
  track_width_m : double; max_wheel_linear_speed_mps : double;
  left_track_power_percent : double; right_track_power_percent : double;
  watchdog_timeout_ms : Z }.

Definition default_motor_config : MotorConfig :=
  mk_motor_config true "/sys/class/pwm" 480 50 250 20000 0 0 0 1 5 6 false false
    (ddiv (double_of 28) (double_of 100)) (ddiv (double_of 1) (double_of 2)) (double_of 100) (double_of 100) 5000.

Record Vector3 := mk_vector3 { vx : double; vy : double; vz : double }.
Record Twist := mk_twist { linear : Vector3; angular : Vector3 }.
Record MotionState := mk_motion { left_speed : Z; right_speed : Z; sequence : Z }.
Inductive HardwareState := Starting | Ready | Degraded | Error | Stopped.

#[global] Instance HardwareState_eq_dec : EqDecision HardwareState.
Proof. solve_decision. Defined.

(** The members of [MotorController], the driver apart. *)
Record MotorController := mk_motor_controller {
  config_ : MotorConfig; motion_ : MotionState; active_deadline_unix_ms_ : option Z;
  state_ : HardwareState; actuator_ready_ : bool; last_error_ : string; closed_ : bool }.

Record HardwareStatus := mk_hardware_status {
  hs_state : HardwareState; hs_actuator_ready : bool; hs_last_error : string;
  hs_motion : MotionState; hs_active_deadline_unix_ms : option Z }.

Definition set_motion (v : MotionState) (m : MotorController) : MotorController :=
  mk_motor_controller (config_ m) v (active_deadline_unix_ms_ m) (state_ m) (actuator_ready_ m) (last_error_ m) (closed_ m).
Definition set_deadline (v : option Z) (m : MotorController) : MotorController :=
  mk_motor_controller (config_ m) (motion_ m) v (state_ m) (actuator_ready_ m) (last_error_ m) (closed_ m).
Definition set_hw_state (v : HardwareState) (m : MotorController) : MotorController :=
  mk_motor_controller (config_ m) (motion_ m) (active_deadline_unix_ms_ m) v (actuator_ready_ m) (last_error_ m) (closed_ m).
Definition set_ready (v : bool) (m : MotorController) : MotorController :=
  mk_motor_controller (config_ m) (motion_ m) (active_deadline_unix_ms_ m) (state_ m) v (last_error_ m) (closed_ m).
Definition set_last_error (v : string) (m : MotorController) : MotorController :=
  mk_motor_controller (config_ m) (motion_ m) (active_deadline_unix_ms_ m) (state_ m) (actuator_ready_ m) v (closed_ m).
Definition set_closed (m : MotorController) : MotorController :=
  mk_motor_controller (config_ m) (motion_ m) (active_deadline_unix_ms_ m) (state_ m) (actuator_ready_ m) (last_error_ m) true.

(** ** Arithmetic *)

(** What [std::llround] returns for a value that is out of range, infinite or not
    a number is not specified: any function of the argument. *)
Class LlroundOutside := llround_outside : double → Z.

Section Arithmetic.
Context `{LlroundOutside}.

Definition std_llround (x : double) : Z := default (llround_outside x) (llround x).

Definition ClampI32 (value low high : Z) : Z := Z.max low (Z.min value high).

Definition ApplyRawTrackPowerPercent (raw_speed : Z) (track_power_percent : double) (config : MotorConfig) : Z :=
  if raw_speed =? 0 then 0 else
  let trimmed := wraps 32 (std_llround (dmul (double_of (Z.abs raw_speed)) (ddiv track_power_percent (double_of 100)))) in
  let bounded := ClampI32 trimmed (cmd_raw_min_speed config) (cmd_raw_max_speed config) in
  if raw_speed <? 0 then - bounded else bounded.

Definition ScalePercentToRaw (value : Z) (config : MotorConfig) : Z :=
  let clamped := ClampI32 value (-100) 100 in
  if clamped =? 0 then 0 else
  let magnitude := Z.abs clamped in
  let scaled :=
    if cmd_raw_min_speed config =? 0
    then wraps 32 (std_llround (dmul (ddiv (double_of magnitude) (double_of 100)) (double_of (cmd_raw_max_speed config))))
    else
      let position := if magnitude =? 1 then double_of 0 else ddiv (double_of (magnitude - 1)) (double_of 99) in
      wraps 32 (std_llround (dadd (double_of (cmd_raw_min_speed config))
                               (dmul position (double_of (cmd_raw_max_speed config - cmd_raw_min_speed config))))) in
  if clamped <? 0 then - scaled else scaled.

(** The raw speed of one track. *)
Definition raw_of (speed : Z) (percent : double) (config : MotorConfig) : Z :=
  ApplyRawTrackPowerPercent (ScalePercentToRaw speed config) percent config.

Definition check_finite {E S} (nv : string * double) : X E S unit :=
  if negb (isfinite nv.2) then throw ("cmd_vel " +:+ nv.1 +:+ " must be finite") else mret tt.

Definition add_unsupported (unsupported : string) (nv : string * double) : string :=
  if negb (deqb nv.2 (double_of 0))
  then (if string_empty unsupported then EmptyString else unsupported +:+ ", ") +:+ nv.1 +:+ "=" +:+ to_string_double nv.2
  else unsupported.

Definition ValidateTwist {E S} (twist : Twist) : X E S unit :=
  _ ← for_each check_finite
    [("linear.x", vx (linear twist)); ("linear.y", vy (linear twist)); ("linear.z", vz (linear twist));
     ("angular.x", vx (angular twist)); ("angular.y", vy (angular twist)); ("angular.z", vz (angular twist))];
  let unsupported := foldl add_unsupported EmptyString
    [("linear.y", vy (linear twist)); ("linear.z", vz (linear twist));
     ("angular.x", vx (angular twist)); ("angular.y", vy (angular twist))] in
  if negb (string_empty unsupported) then throw ("unsupported cmd_vel axes: " +:+ unsupported) else mret tt.

Definition bad_percent (x : double) : bool :=
  dleb x (double_of 0) || dltb (double_of 100) x || negb (isfinite x).

Definition ValidateMotorConfig {E S} (config : MotorConfig) : X E S unit :=
  if raw_max_speed config <=? 0 then throw "motor-raw-max-speed must be positive" else
  if cmd_raw_min_speed config <? 0 then throw "motor-cmd-raw-min-speed must be non-negative" else
  if cmd_raw_max_speed config <=? 0 then throw "motor-cmd-raw-max-speed must be positive" else
  if cmd_raw_max_speed config <=? cmd_raw_min_speed config
  then throw "motor-cmd-raw-min-speed must be less than motor-cmd-raw-max-speed" else
  if raw_max_speed config <? cmd_raw_max_speed config
  then throw "motor-cmd-raw-max-speed must be less than or equal to motor-raw-max-speed" else
  if pwm_hz config =? 0 then throw "motor-pwm-hz must be positive" else
  if left_pwm_channel config =? right_pwm_channel config then throw "left and right motor PWM channels must differ" else
  if left_dir_gpio config =? right_dir_gpio config then throw "left and right motor direction GPIOs must differ" else
  if dleb (track_width_m config) (double_of 0) || negb (isfinite (track_width_m config))
  then throw "motor-track-width-m must be a positive finite number" else
  if dleb (max_wheel_linear_speed_mps config) (double_of 0) || negb (isfinite (max_wheel_linear_speed_mps config))
  then throw "motor-max-wheel-linear-speed-mps must be a positive finite number" else
  if bad_percent (left_track_power_percent config)
  then throw "motor-left-track-power-percent must be a finite percentage in (0, 100]" else
  if bad_percent (right_track_power_percent config)
  then throw "motor-right-track-power-percent must be a finite percentage in (0, 100]" else
  if watchdog_timeout_ms config =? 0 then throw "motor-watchdog-timeout-ms must be positive" else mret tt.

Definition wheel_percent (wheel : double) (config : MotorConfig) : Z :=
  let side := dclamp (ddiv wheel (max_wheel_linear_speed_mps config)) (dopp (double_of 1)) (double_of 1) in
  wraps 32 (std_llround (dmul side (double_of 100))).

Definition MixTwistToTankSpeeds {E S} (twist : Twist) (config : MotorConfig) : X E S (Z * Z) :=
  _ ← ValidateMotorConfig config;
  let half_track_width_m := ddiv (track_width_m config) (double_of 2) in
  let left_wheel_linear_speed := dsub (vx (linear twist)) (dmul (vz (angular twist)) half_track_width_m) in
  let right_wheel_linear_speed := dadd (vx (linear twist)) (dmul (vz (angular twist)) half_track_width_m) in
  mret (wheel_percent left_wheel_linear_speed config, wheel_percent right_wheel_linear_speed config).

(** ** The controller *)

(** [class MotorDriver], over the driver's own state. *)
Class MotorDriver (E D : Type) := {
  SetSpeeds : Z → Z → X E D unit;
  driver_close : X E D unit }.
End Arithmetic.

Section Controller.
Context `{LlroundOutside} {E D : Type} `{!MotorDriver E D}.

(** The controller owns its driver. *)
Abbreviation M := (X E (MotorController * D)).

Definition on_driver {A} (c : X E D A) : M A :=
  λ s t, let '(r, d, t) := c s.2 t in (r, (s.1, d), t).
Definition members : M MotorController := λ s t, (inr s.1, s, t).
Definition update (f : MotorController → MotorController) : M unit := xmodify (λ s, (f s.1, s.2)).

Definition next_motion (left right : Z) (motion : MotionState) : MotionState :=
  mk_motion left right (wrapu 64 (sequence motion + 1)).

Definition MarkError (message : string) : M unit :=
  _ ← update (set_last_error message);
  _ ← update (set_hw_state Error);
  _ ← update (set_ready false);
  _ ← update (set_deadline None);
  _ ← try_catch (on_driver (SetSpeeds 0 0)) (λ _, mret tt);
  m ← members;
  xwhen (negb (left_speed (motion_ m) =? 0) || negb (right_speed (motion_ m) =? 0))
    (update (set_motion (next_motion 0 0 (motion_ m)))).

Definition ApplySpeeds (left right : Z) (force : bool) : M unit :=
  m ← members;
  if negb force && (left_speed (motion_ m) =? left) && (right_speed (motion_ m) =? right) then mret tt else
  let left_raw := raw_of left (left_track_power_percent (config_ m)) (config_ m) in
  let right_raw := raw_of right (right_track_power_percent (config_ m)) (config_ m) in
  _ ← try_catch (on_driver (SetSpeeds left_raw right_raw)) (λ err, _ ← MarkError err; throw err);
  m ← members;
  update (set_motion (next_motion left right (motion_ m))).

Definition Stop (force : bool) : M MotionState :=
  _ ← update (set_deadline None);
  _ ← ApplySpeeds 0 0 force;
  m ← members;
  _ ← xwhen (negb (bool_decide (state_ m = Error))) (update (set_hw_state Ready));
  m ← members;
  mret (motion_ m).

Definition ApplyVelocity (twist : Twist) (deadline_unix_ms now_unix_ms : Z) : M MotionState :=
  m ← members;
  if negb (actuator_ready_ m) then throw "hardware actuator unavailable" else
  if deadline_unix_ms <=? now_unix_ms
  then _ ← Stop true; throw "cmd_vel deadline is not in the future" else
  let deadline_unix_ms :=
    if watchdog_timeout_ms (config_ m) <? deadline_unix_ms - now_unix_ms
    then wrapu 64 (now_unix_ms + watchdog_timeout_ms (config_ m)) else deadline_unix_ms in
  _ ← ValidateTwist twist;
  speeds ← MixTwistToTankSpeeds twist (config_ m);
  _ ← update (set_deadline (Some deadline_unix_ms));
  _ ← ApplySpeeds speeds.1 speeds.2 false;
  m ← members;
  mret (motion_ m).

Definition Tick (now_unix_ms : Z) : M bool :=
  m ← members;
  match active_deadline_unix_ms_ m with
  | Some deadline => if deadline <=? now_unix_ms then _ ← Stop false; mret true else mret false
  | None => mret false
  end.

Definition Close : M unit :=
  m ← members;
  if closed_ m then mret tt else
  _ ← update set_closed;
  _ ← try_catch (_ ← Stop true; mret tt) (λ _, mret tt);
  _ ← try_catch (on_driver driver_close) MarkError;
  m ← members;
  xwhen (negb (bool_decide (state_ m = Error))) (_ ← update (set_hw_state Stopped); update (set_ready false)).

Definition Status : M HardwareStatus :=
  m ← members;
  mret (mk_hardware_status (state_ m) (actuator_ready_ m) (last_error_ m) (motion_ m) (active_deadline_unix_ms_ m)).

(** ** The service *)

Inductive StatusCode := OK | FAILED_PRECONDITION | INTERNAL.

Inductive reply :=
  | RStatus (status : HardwareStatus)
  | RMotion (motion : MotionState) (status : HardwareStatus)
  | RFailed (code : StatusCode) (message : string)
  | RTick (stopped : bool)
  | RDone.

(** A call, with the time [NowUnixMs] reads in it. *)
Inductive service_call :=
  | CGetStatus
  | CApplyVelocity (twist : Twist) (deadline_unix_ms now : Z)
  | CStop
  | CTick (now : Z)
  | CShutdown.

Definition service (c : service_call) : M reply :=
  match c with
  | CGetStatus => s ← Status; mret (RStatus s)
  | CApplyVelocity twist deadline now =>
      try_catch (motion ← ApplyVelocity twist deadline now; s ← Status; mret (RMotion motion s))
        (λ err, mret (RFailed FAILED_PRECONDITION err))
  | CStop => try_catch (motion ← Stop true; s ← Status; mret (RMotion motion s)) (λ err, mret (RFailed INTERNAL err))
  | CTick now => try_catch (b ← Tick now; mret (RTick b)) (λ _, mret (RTick false))
  | CShutdown => _ ← Close; mret RDone
  end.

(** [MotorController(config, driver)]. *)
Definition new_controller (config : MotorConfig) : MotorController :=
  mk_motor_controller config (mk_motion 0 0 0) None Ready true EmptyString false.
End Controller.

(** * Speeds in range

    What [ValidateMotorConfig] checks is enough for the conversions: no value that
    reaches [std::llround] is out of its range, and every raw speed stays within
    the configured limits, in the direction of the commanded speed. *)

(** The values of the C++ types. *)
Record motor_config_typed (c : MotorConfig) : Prop := {
  typed_raw_max : in_s 32 (raw_max_speed c);
  typed_hz : in_u 64 (pwm_hz c);
  typed_watchdog : in_u 64 (watchdog_timeout_ms c);
  typed_width : valid_double (track_width_m c);
  typed_wheel : valid_double (max_wheel_linear_speed_mps c);
  typed_left : valid_double (left_track_power_percent c);
  typed_right : valid_double (right_track_power_percent c) }.

Record twist_typed (twist : Twist) : Prop := {
  typed_lx : valid_double (vx (linear twist));
  typed_az : valid_double (vz (angular twist)) }.

(** A configuration that passed. *)
Record motor_config_ok (c : MotorConfig) : Prop := {
  ok_typed : motor_config_typed c;
  ok_min : 0 ≤ cmd_raw_min_speed c < cmd_raw_max_speed c;
  ok_max : cmd_raw_max_speed c ≤ raw_max_speed c;
  ok_hz : 0 < pwm_hz c;
  ok_channels : left_pwm_channel c ≠ right_pwm_channel c;
  ok_pins : left_dir_gpio c ≠ right_dir_gpio c;
  ok_width : dleb (track_width_m c) (double_of 0) = false ∧ isfinite (track_width_m c) = true;
  ok_wheel : dleb (max_wheel_linear_speed_mps c) (double_of 0) = false ∧ isfinite (max_wheel_linear_speed_mps c) = true;
  ok_left : bad_percent (left_track_power_percent c) = false;
  ok_right : bad_percent (right_track_power_percent c) = false;
  ok_watchdog : 0 < watchdog_timeout_ms c }.

Lemma ValidateMotorConfig_ok {E S} c (s : S) (t : list E) :
  motor_config_typed c → xwp (ValidateMotorConfig c) (λ _ s' t', s' = s ∧ t' = t ∧ motor_config_ok c) (λ _ _ _, True) s t.
Proof.
  intros Ht. unfold ValidateMotorConfig. do 13 (apply xwp_if; [done|intros ?]). apply xwp_ret. bool_simpl.
  pose proof (typed_hz c Ht) as []. pose proof (typed_watchdog c Ht) as [].
  split_and!; [done..|]. constructor; try done; try lia.
Qed.

Lemma ValidateMotorConfig_accepts {E S} c (s : S) (t : list E) :
  motor_config_ok c → ValidateMotorConfig c s t = (inr tt, s, t).
Proof.
  intros []. unfold ValidateMotorConfig. rewrite ok_left0, ok_right0, (proj1 ok_width0), (proj2 ok_width0), (proj1 ok_wheel0), (proj2 ok_wheel0). cbn [orb negb].
  rewrite !(proj2 (Z.leb_gt _ _)), !(proj2 (Z.ltb_ge _ _)), !(proj2 (Z.eqb_neq _ _)) by lia. done.
Qed.

Lemma default_config_ok : motor_config_ok default_motor_config.
Proof. constructor; [constructor| | | | | | | | | | ]; try (vm_compute; split; done); try (vm_compute; done); vm_compute; lia. Qed.

Section Bounds.
Context `{LlroundOutside}.

Lemma i32_llround x B : 0 ≤ B < 2 ^ 31 → within x B → - B ≤ wraps 32 (std_llround x) ≤ B.
Proof.
  intros HB Hx. destruct (llround_within x B) as (z & Hz & Hle); [unfold INT64_MAX; lia|done|].
  unfold std_llround. rewrite Hz. cbn [default]. rewrite wraps_id; [done|lia|]. unfold in_s. cbn. lia.
Qed.

Lemma i32_llround_positive x A B : 1 ≤ A → B < 2 ^ 31 → within x B → at_least x A → A ≤ wraps 32 (std_llround x) ≤ B.
Proof.
  intros HA HB Hw Hx. destruct (llround_at_least x A B) as (z & Hz & Hle); [lia|unfold INT64_MAX; lia|done..|].
  unfold std_llround. rewrite Hz. cbn [default]. rewrite wraps_id; [done|lia|]. unfold in_s. cbn. lia.
Qed.

Lemma percent_fraction x : valid_double x → bad_percent x = false → within (ddiv x (double_of 100)) 1.
Proof.
  intros Hv Hb. unfold bad_percent in Hb. bool_simpl. apply (ddiv_bound _ _ 100 1 100); [lia|lia|lia| |by apply double_of_at_least].
  apply percent_within; try done. apply valid_small; [done|]. by intros ->.
Qed.

(** A wheel speed becomes a percentage. *)
Lemma wheel_percent_range wheel c : motor_config_ok c → small wheel → -100 ≤ wheel_percent wheel c ≤ 100.
Proof.
  intros [] Hs. unfold wheel_percent. apply (i32_llround _ 100); [lia|].
  change 100 with (1 * 100) at 2. apply dmul_within; [lia|lia| |by apply double_of_within|lia].
  apply dclamp_within. destruct ok_wheel0 as [H1 H2]. destruct (max_wheel_linear_speed_mps c); try done. by apply ddiv_small.
Qed.

Lemma mix_range {E S} twist c (s : S) (t : list E) :
  motor_config_ok c → twist_typed twist → isfinite (vx (linear twist)) = true → isfinite (vz (angular twist)) = true →
  ∃ l r, MixTwistToTankSpeeds twist c s t = (inr (l, r), s, t) ∧ -100 ≤ l ≤ 100 ∧ -100 ≤ r ≤ 100.
Proof.
  intros Hc [Hx Hz] Fx Fz. pose proof Hc as [].
  assert (Hsx : small (vx (linear twist))) by (apply valid_small; [done|by intros E0; rewrite E0 in Fx]).
  assert (Hh : isfinite (ddiv (track_width_m c) (double_of 2)) = true).
  { destruct ok_width0 as [H1 H2]. pose proof (typed_width c ok_typed0) as Hw. destruct (track_width_m c); try done.
    by apply half_finite. }
  assert (Hm : small (dmul (vz (angular twist)) (ddiv (track_width_m c) (double_of 2)))) by by apply dmul_small.
  unfold MixTwistToTankSpeeds, mbind, X_bind. rewrite ValidateMotorConfig_accepts by done.
  do 2 eexists. split; [reflexivity|]. split; apply wheel_percent_range; try done; [by apply dsub_small|by apply dadd_small].
Qed.
(** Not below zero. *)
Definition nonneg (x : double) : Prop := match x with S754_finite s _ _ => s = false | _ => True end.

Lemma nonneg_double_of z : 0 ≤ z < 2 ^ 53 → nonneg (double_of z).
Proof. intros Hz. destruct (decide (z = 0)) as [->|]; [done|]. by destruct (double_of_exact z) as (m & e & -> & _); [lia|]. Qed.

Lemma nonneg_dmul x y : nonneg x → nonneg y → nonneg (dmul x y).
Proof.
  destruct x as [| | |sx mx ex], y as [| | |sy my ey]; try done. cbn [nonneg]. intros -> ->. cbn -[binary_round_aux].
  pose proof (binary_round_aux_sign false (Z.pos (mx * my)) (ex + ey) loc_Exact) as Hs.
  destruct (binary_round_aux _ _ _ _ _ _); try done. by apply Hs.
Qed.

Lemma nonneg_ddiv x y : nonneg x → nonneg y → nonneg (ddiv x y).
Proof.
  destruct x as [| | |sx mx ex], y as [| | |sy my ey]; try done. cbn [nonneg]. intros -> ->. unfold ddiv, SFdiv.
  destruct (SFdiv_core_binary _ _ _ _ _ _) as [[q e] l] eqn:Eq.
  destruct (Z.le_gt_cases 0 q) as [Hq|Hq].
  - pose proof (binary_round_aux_sign (xorb false false) q e l Hq) as Hs. destruct (binary_round_aux _ _ _ _ _ _); try done. by apply Hs.
  - exfalso. unfold SFdiv_core_binary in Eq. set (s := ex - ey - _) in Eq.
    pose proof (Zdiv.Z_div_mod (match s with Z0 => Z.pos mx | Z.pos _ => Z.shiftl (Z.pos mx) s | Z.neg _ => 0 end) (Z.pos my)) as Hdm.
    destruct (Z.div_eucl _ _) as [q' r]. injection Eq as -> _ _. destruct Hdm as [Hdm Hr]; [lia|].
    assert (0 ≤ match s with Z0 => Z.pos mx | Z.pos _ => Z.shiftl (Z.pos mx) s | Z.neg _ => 0 end); [|nia].
    destruct s; [lia|by apply Z.shiftl_nonneg|lia].
Qed.

Lemma i32_llround_nonneg x B : 0 ≤ B < 2 ^ 31 → within x B → nonneg x → 0 ≤ wraps 32 (std_llround x) ≤ B.
Proof.
  intros HB Hx Hn. destruct (llround_within x B) as (z & Hz & Hle); [unfold INT64_MAX; lia|done|].
  unfold std_llround. rewrite Hz. cbn [default]. assert (Hin : in_s 32 z) by (unfold in_s; cbn; lia).
  rewrite wraps_id by done. unfold id. split; [|lia].
  destruct x as [| | |s m e]; try done; [by injection Hz as <-|]. cbn in Hn. subst s.
  cbn -[round_half_up INT64_MIN INT64_MAX] in Hz. case_match; [|done]. injection Hz as <-. unfold round_half_up.
  pose proof (Z.pow_pos_nonneg 2 e). pose proof (Z.pow_pos_nonneg 2 (- e)).
  case_match; bool_simpl; [lia|]. apply Z.div_pos; lia.
Qed.

(** A percentage of the command range. *)
Lemma ScalePercentToRaw_range value c : motor_config_ok c →
  Z.abs (ScalePercentToRaw value c) ≤ cmd_raw_max_speed c ∧ 0 ≤ value * ScalePercentToRaw value c ∧
  (0 < cmd_raw_min_speed c → value ≠ 0 → cmd_raw_min_speed c ≤ Z.abs (ScalePercentToRaw value c)) ∧
  (value = 0 → ScalePercentToRaw value c = 0).
Proof.
  intros []. pose proof (typed_raw_max c ok_typed0) as [_ Hmax]. cbn in Hmax. unfold ScalePercentToRaw, ClampI32.
  set (v := Z.max (-100) (Z.min value 100)). destruct (Z.eqb_spec v 0); [lia|].
  assert (Hmag : 1 ≤ Z.abs v ≤ 100) by lia. set (mag := Z.abs v) in *.
  set (scaled := if cmd_raw_min_speed c =? 0 then _ else _).
  assert (Hs : 0 ≤ scaled ≤ cmd_raw_max_speed c ∧ (0 < cmd_raw_min_speed c → cmd_raw_min_speed c ≤ scaled)).
  { unfold scaled. destruct (Z.eqb_spec (cmd_raw_min_speed c) 0) as [E0|E0].
    - split; [|lia]. apply i32_llround_nonneg; [lia| |].
      + rewrite <- (Z.mul_1_l (cmd_raw_max_speed c)) at 2. apply dmul_within; [lia|lia| |by apply double_of_within; lia|lia].
        apply (ddiv_bound _ _ mag 1 100); [lia..|apply double_of_within; lia|by apply double_of_at_least].
      + apply nonneg_dmul; [apply nonneg_ddiv; [apply nonneg_double_of; lia|by apply nonneg_double_of]|apply nonneg_double_of; lia].
    - set (position := if mag =? 1 then _ else _). set (span := cmd_raw_max_speed c - cmd_raw_min_speed c).
      assert (Hp : within position 1 ∧ nonneg position).
      { unfold position. destruct (Z.eqb_spec mag 1); [done|]. split.
        - apply (ddiv_bound _ _ (mag - 1) 1 99); [lia..|apply double_of_within; lia|by apply double_of_at_least].
        - apply nonneg_ddiv; [apply nonneg_double_of; lia|by apply nonneg_double_of]. }
      assert (Hq : within (dmul position (double_of span)) (1 * span)).
      { apply dmul_within; [lia|lia|apply Hp|apply double_of_within; lia|lia]. }
      rewrite Z.mul_1_l in Hq.
      destruct (dadd_bounds (double_of (cmd_raw_min_speed c)) (dmul position (double_of span)) (cmd_raw_min_speed c) (cmd_raw_min_speed c) span)
        as [Hw Ha]; [lia|apply double_of_within; lia|done|apply double_of_at_least; lia|lia|lia|..].
      { intros s m e E. assert (Hn : nonneg (dmul position (double_of span))) by (apply nonneg_dmul; [apply Hp|apply nonneg_double_of; lia]).
        by rewrite E in Hn. }
      replace (cmd_raw_min_speed c + span) with (cmd_raw_max_speed c) in Hw by lia.
      pose proof (i32_llround_positive _ (cmd_raw_min_speed c) (cmd_raw_max_speed c) ltac:(lia) ltac:(lia) Hw Ha). lia. }
  clearbody scaled. destruct (Z.ltb_spec v 0); split_and!; try nia.
Qed.

(** The raw speed of a track: zero, or within the command range and in the
    direction of the commanded percentage; a range that starts above zero leaves no
    commanded speed at rest. *)
Lemma raw_of_range value percent c : motor_config_ok c →
  let raw := raw_of value percent c in
  (raw = 0 ∨ cmd_raw_min_speed c ≤ Z.abs raw) ∧ Z.abs raw ≤ cmd_raw_max_speed c ∧ 0 ≤ value * raw ∧
  (0 < cmd_raw_min_speed c → (raw = 0 ↔ value = 0)).
Proof.
  intros Hc raw. destruct (ScalePercentToRaw_range value c Hc) as (Hmax & Hsign & Hmin & Hzero). pose proof Hc as [].
  unfold raw, raw_of, ApplyRawTrackPowerPercent, ClampI32. set (scaled := ScalePercentToRaw value c) in *.
  destruct (Z.eqb_spec scaled 0) as [E0|E0]; [split_and!; lia|].
  assert (value ≠ 0) by tauto.
  set (trimmed := wraps 32 _). clearbody trimmed scaled. destruct (Z.ltb_spec scaled 0); split_and!; first [nia|lia].
Qed.
End Bounds.
