(* ===== verification/HardwareConfig.v ===== *)
(** * The settings of the hardware worker

    [ParseCli] of [devices/common/board/hardware_worker/src/config.cpp]: options of
    the command line, then variables of the environment, then the defaults. The
    theorems: options are read back as they were written, the last one wins; and
    a configuration that comes out meets every condition that the theorems on the
    motor controller and its driver ask for. *)
From stdpp Require Import gmap.
From S2P Require Import Prelude Cpp CppDouble CppParse HardwareMotor.

#[local] Open Scope Z_scope.
#[local] Arguments Ascii.eqb : simpl never.

Definition EnvLookup : Type := string → option string.

Record RuntimeConfig := mk_runtime_config { socket_path : string; motor : MotorConfig }.
Record ParsedCli := mk_parsed_cli { show_help : bool; show_version : bool; config : RuntimeConfig }.

Section Parser.
Context {E S : Type}.
Abbreviation P := (X E S).

Abbreviation options_map := (gmap string string).

Definition LookupValue (options : options_map) (key : string) (lookup_env : EnvLookup) (env_name : string) : option string :=
  match options !! key with
  | Some v => Some v
  | None =>
      if negb (string_empty env_name) then
        match lookup_env env_name with
        | Some v => if negb (string_empty v) then Some v else None
        | None => None
        end
      else None
  end.

Definition ParseBoolValue (value name : string) : P bool :=
  if bool_decide (value ∈ ["1"; "true"; "TRUE"; "yes"; "YES"; "on"; "ON"]) then mret true else
  if bool_decide (value ∈ ["0"; "false"; "FALSE"; "no"; "NO"; "off"; "OFF"]) then mret false else
  throw (name +:+ " must be a boolean").

(** The name that an error message gives to a setting. *)
Definition setting_name (options : options_map) (key env_name : string) : string :=
  if bool_decide (is_Some (options !! key)) then "--" +:+ key else env_name.

Definition ParseOptional {T} (options : options_map) (key : string) (lookup_env : EnvLookup) (env_name : string)
    (default_value : T) (parse : string → string → P T) : P T :=
  match LookupValue options key lookup_env env_name with
  | Some value => parse value (setting_name options key env_name)
  | None => mret default_value
  end.

Definition ParseBool (options : options_map) (key : string) (lookup_env : EnvLookup) (env_name : string)
    (default_value : bool) : P bool :=
  match LookupValue options key lookup_env env_name with
  | Some value => ParseBoolValue value (setting_name options key env_name)
  | None => mret default_value
  end.

(** A conversion that must use the whole text. *)
Definition whole {T} (parsed : option (T * string)) (error : string) : P T :=
  match parsed with
  | Some (v, rest) => if string_empty rest then mret v else throw error
  | None => throw error
  end.

Definition ParseI32Value (value name : string) : P Z :=
  v ← whole (std_stol value) (name +:+ " must be a signed integer"); mret (wraps 32 v).
Definition ParseU32Value (value name : string) : P Z :=
  v ← whole (std_stoull value) (name +:+ " must be an unsigned integer"); mret (wrapu 32 v).
Definition ParseU64Value (value name : string) : P Z :=
  whole (std_stoull value) (name +:+ " must be an unsigned integer").
Definition ParseDoubleValue `{StrtodUnderflow} (value name : string) : P double :=
  whole (std_stod value) (name +:+ " must be a number").

(** The arguments after the program's name; [help] and [version] are what
    [show_help] and [show_version] hold, [options] what was read before. *)
Fixpoint ParseOptions (arguments : list string) (help version : bool) (options : options_map) : P (options_map * bool * bool) :=
  match arguments with
  | [] => mret (options, help, version)
  | argument :: rest =>
      if bool_decide (argument = "--help") || bool_decide (argument = "-h") then ParseOptions rest true version options else
      if bool_decide (argument = "--version") then ParseOptions rest help true options else
      if negb (String.prefix "--" argument) then throw ("unexpected positional argument: " +:+ argument) else
      match split_at "=" argument with
      | Some (before, value) =>
          let key := drop_string 2 before in
          if string_empty key then throw "empty option name is not allowed"
          else ParseOptions rest help version (<[key := value]> options)
      | None =>
          let key := drop_string 2 argument in
          match rest with
          | [] => throw ("missing value for --" +:+ key)
          | value :: rest =>
              if string_empty key then throw "empty option name is not allowed"
              else ParseOptions rest help version (<[key := value]> options)
          end
      end
  end.

Section Cli.
Context `{StrtodUnderflow} (default_socket_path : string).

Definition default_runtime_config : RuntimeConfig := mk_runtime_config default_socket_path default_motor_config.

(** The settings of the motor, in the order in which they are read. *)
Definition parse_motor (options : options_map) (lookup_env : EnvLookup) (motor : MotorConfig) : P MotorConfig :=
  enabled ← ParseBool options "motor-enabled" lookup_env "TXING_MOTOR_ENABLED" (enabled motor);
  left_inverted ← ParseBool options "motor-left-inverted" lookup_env "TXING_MOTOR_LEFT_INVERTED" (left_inverted motor);
  right_inverted ← ParseBool options "motor-right-inverted" lookup_env "TXING_MOTOR_RIGHT_INVERTED" (right_inverted motor);
  let pwm_sysfs_root :=
    default (pwm_sysfs_root motor) (LookupValue options "motor-pwm-sysfs-root" lookup_env "TXING_MOTOR_PWM_SYSFS_ROOT") in
  raw_max_speed ← ParseOptional options "motor-raw-max-speed" lookup_env "TXING_MOTOR_RAW_MAX_SPEED" (raw_max_speed motor) ParseI32Value;
  cmd_raw_min_speed ← ParseOptional options "motor-cmd-raw-min-speed" lookup_env "TXING_MOTOR_CMD_RAW_MIN_SPEED" (cmd_raw_min_speed motor) ParseI32Value;
  cmd_raw_max_speed ← ParseOptional options "motor-cmd-raw-max-speed" lookup_env "TXING_MOTOR_CMD_RAW_MAX_SPEED" (cmd_raw_max_speed motor) ParseI32Value;
  pwm_hz ← ParseOptional options "motor-pwm-hz" lookup_env "TXING_MOTOR_PWM_HZ" (pwm_hz motor) ParseU64Value;
  pwm_chip ← ParseOptional options "motor-pwm-chip" lookup_env "TXING_MOTOR_PWM_CHIP" (pwm_chip motor) ParseU32Value;
  gpio_chip ← ParseOptional options "motor-gpio-chip" lookup_env "TXING_MOTOR_GPIO_CHIP" (gpio_chip motor) ParseU32Value;
  left_pwm_channel ← ParseOptional options "motor-left-pwm-channel" lookup_env "TXING_MOTOR_LEFT_PWM_CHANNEL" (left_pwm_channel motor) ParseU32Value;
  right_pwm_channel ← ParseOptional options "motor-right-pwm-channel" lookup_env "TXING_MOTOR_RIGHT_PWM_CHANNEL" (right_pwm_channel motor) ParseU32Value;
  left_dir_gpio ← ParseOptional options "motor-left-dir-gpio" lookup_env "TXING_MOTOR_LEFT_DIR_GPIO" (left_dir_gpio motor) ParseU32Value;
  right_dir_gpio ← ParseOptional options "motor-right-dir-gpio" lookup_env "TXING_MOTOR_RIGHT_DIR_GPIO" (right_dir_gpio motor) ParseU32Value;
  track_width_m ← ParseOptional options "motor-track-width-m" lookup_env "TXING_MOTOR_TRACK_WIDTH_M" (track_width_m motor) ParseDoubleValue;
  max_wheel_linear_speed_mps ← ParseOptional options "motor-max-wheel-linear-speed-mps" lookup_env "TXING_MOTOR_MAX_WHEEL_LINEAR_SPEED_MPS" (max_wheel_linear_speed_mps motor) ParseDoubleValue;
  left_track_power_percent ← ParseOptional options "motor-left-track-power-percent" lookup_env "TXING_MOTOR_LEFT_TRACK_POWER_PERCENT" (left_track_power_percent motor) ParseDoubleValue;
  right_track_power_percent ← ParseOptional options "motor-right-track-power-percent" lookup_env "TXING_MOTOR_RIGHT_TRACK_POWER_PERCENT" (right_track_power_percent motor) ParseDoubleValue;
  watchdog_timeout_ms ← ParseOptional options "motor-watchdog-timeout-ms" lookup_env "TXING_MOTOR_WATCHDOG_TIMEOUT_MS" (watchdog_timeout_ms motor) ParseU64Value;
  mret (mk_motor_config enabled pwm_sysfs_root raw_max_speed cmd_raw_min_speed cmd_raw_max_speed pwm_hz pwm_chip gpio_chip
          left_pwm_channel right_pwm_channel left_dir_gpio right_dir_gpio left_inverted right_inverted
          track_width_m max_wheel_linear_speed_mps left_track_power_percent right_track_power_percent watchdog_timeout_ms).

Definition ParseCli (arguments : list string) (lookup_env : EnvLookup) : P ParsedCli :=
  match arguments with
  | [] => throw "argv[0] must be present"
  | _ :: arguments =>
      r ← ParseOptions arguments false false ∅;
      let '(options, help, version) := r in
      if help || version then mret (mk_parsed_cli help version default_runtime_config) else
      let path :=
        match LookupValue options "socket-path" lookup_env "TXING_HARDWARE_WORKER_SOCKET_PATH" with
        | Some p => if negb (string_empty p) then p else default_socket_path
        | None => default_socket_path
        end in
      motor ← parse_motor options lookup_env default_motor_config;
      _ ← ValidateMotorConfig motor;
      mret (mk_parsed_cli help version (mk_runtime_config path motor))
  end.
End Cli.
End Parser.

(** ** Options are read back as they were written *)

Lemma prefix_dashes k : String.prefix "--" ("--" +:+ k) = true.
Proof. rewrite !append_cons. by destruct k. Qed.
Lemma drop_dashes k : drop_string 2 ("--" +:+ k) = k.
Proof. rewrite !append_cons. by destruct k. Qed.

(** An option in one word, "--key=value", or in two. *)
Inductive written_option := Joined (key value : string) | Apart (key value : string).

Definition option_key (o : written_option) : string := match o with Joined k _ | Apart k _ => k end.
Definition option_value (o : written_option) : string := match o with Joined _ v | Apart _ v => v end.
Definition option_words (o : written_option) : list string :=
  match o with
  | Joined k v => ["--" +:+ (k +:+ String "=" v)]
  | Apart k v => ["--" +:+ k; v]
  end.
(** In two words the names of the flags are no keys. *)
Definition option_ok (o : written_option) : bool :=
  negb (string_empty (option_key o)) && negb (string_mem "=" (option_key o)) &&
  match o with Joined _ _ => true | Apart k _ => negb (bool_decide (k = "help")) && negb (bool_decide (k = "version")) end.

(** The value of the last option with a key. *)
Definition last_value (os : list written_option) (key : string) : option string :=
  last (option_value <$> filter (λ o, option_key o = key) os).

Section ReadBack.
Context {E S : Type}.

Lemma ParseOptions_word o rest h v options (s : S) (t : list E) : option_ok o = true →
  ParseOptions (option_words o ++ rest) h v options s t = ParseOptions rest h v (<[option_key o := option_value o]> options) s t.
Proof.
  intros Hok. unfold option_ok in Hok. apply andb_true_iff in Hok as [Hok Hw]. apply andb_true_iff in Hok as [Hk Hq].
  apply negb_true_iff in Hk, Hq. destruct o as [k w|k w]; cbn [option_words option_key option_value app ParseOptions] in *.
  - assert (Hm : string_mem "=" ("--" +:+ (k +:+ String "=" w)) = true).
    { rewrite !string_mem_app. cbn. by rewrite orb_true_r. }
    rewrite !bool_decide_false; [|by intros Heq; rewrite Heq in Hm..].
    cbn [orb negb]. rewrite prefix_dashes. cbn [negb].
    rewrite append_assoc, split_at_app; [|by rewrite string_mem_app, Hq].
    rewrite drop_dashes. by rewrite Hk.
  - bool_simpl. 
    assert (Hneq : ∀ x, k ≠ x → "--" +:+ k ≠ "--" +:+ x) by (intros x Hx [= Heq]; done).
    rewrite (bool_decide_false (_ +:+ k = "--help")) by by apply (Hneq "help").
    rewrite (bool_decide_false (_ +:+ k = "-h")) by by intros [=].
    rewrite (bool_decide_false (_ +:+ k = "--version")) by by apply (Hneq "version"). cbn [orb negb]. rewrite prefix_dashes. cbn [negb].
    rewrite split_at_none by (by rewrite string_mem_app, Hq). rewrite drop_dashes. by rewrite Hk.
Qed.

Lemma ParseOptions_words os h v options (s : S) (t : list E) : forallb option_ok os = true →
  ParseOptions (concat (option_words <$> os)) h v options s t =
    (inr (foldl (λ m o, <[option_key o := option_value o]> m) options os, h, v), s, t).
Proof.
  revert options. induction os as [|o os IH]; intros options Hok; [done|]. cbn in Hok. apply andb_true_iff in Hok as [Ho Hos].
  rewrite fmap_cons. cbn [concat]. rewrite ParseOptions_word by done. by apply IH.
Qed.
End ReadBack.

Lemma last_option os (options : gmap string string) key :
  foldl (λ m o, <[option_key o := option_value o]> m) options os !! key =
    match last_value os key with Some v => Some v | None => options !! key end.
Proof.
  unfold last_value. induction os as [|o os IH] using rev_ind; [done|]. rewrite foldl_app, filter_app, fmap_app. cbn [foldl].
  destruct (decide (option_key o = key)) as [<-|Hk].
  - rewrite lookup_insert_eq, filter_cons_True, filter_nil by done. cbn. by rewrite last_snoc.
  - rewrite lookup_insert_ne, filter_cons_False, filter_nil, app_nil_r by done. apply IH.
Qed.

(** Options written as words, in either form, are read back: a key has its last value,
    and a key that was not given has the value of its environment variable, if any. *)
Theorem options_read_back {E S} os (s : S) (t : list E) : forallb option_ok os = true →
  ∃ options, ParseOptions (concat (option_words <$> os)) false false ∅ s t = (inr (options, false, false), s, t) ∧
    ∀ key lookup_env env_name, env_name ≠ EmptyString →
      LookupValue options key lookup_env env_name =
        match last_value os key with
        | Some v => Some v
        | None => v ← lookup_env env_name; guard (v ≠ EmptyString);; Some v
        end.
Proof.
  intros Hok. eexists. split; [by apply ParseOptions_words|]. intros key lookup_env env_name Hn. unfold LookupValue. rewrite last_option, lookup_empty.
  destruct (last_value os key); [done|]. rewrite (proj2 (string_empty_false _) Hn). cbn [negb]. destruct (lookup_env env_name) as [[|c v]|]; [done| |done].
  cbn. by rewrite option_guard_True.
Qed.

(** The last value wins, in either form; a value may look like an option. *)
Lemma options_read_back_witness :
  ∃ options : gmap string string,
    ParseOptions (E:=unit) ["--motor-pwm-chip=1"; "--socket-path"; "--help"; "--motor-pwm-chip"; "a=b"] false false ∅ tt [] =
      (inr (options, false, false), tt, []) ∧
    LookupValue options "motor-pwm-chip" (λ _, Some "2") "TXING_MOTOR_PWM_CHIP" = Some "a=b" ∧
    LookupValue options "motor-pwm-hz" (λ _, Some "2") "TXING_MOTOR_PWM_HZ" = Some "2".
Proof.
  destruct (options_read_back (E:=unit) [Joined "motor-pwm-chip" "1"; Apart "socket-path" "--help"; Apart "motor-pwm-chip" "a=b"] tt [])
    as (options & Hp & Hl); [reflexivity|].
  exists options. split; [exact Hp|]. split; by rewrite Hl.
Defined.

(** ** What comes out *)

Section Accepted.
Context {E S : Type} `{StrtodUnderflow}.
Implicit Types (φ : Z → Prop).

Lemma whole_pure {T} (parsed : option (T * string)) e (φ : T → Prop) :
  (∀ v, parsed = Some (v, EmptyString) → φ v) → pure_prog (E:=E) (S:=S) (whole parsed e) φ.
Proof.
  intros Hv. destruct parsed as [[v rest]|]; [|apply pure_prog_throw]. unfold whole. apply pure_prog_if; intros Hr; [|apply pure_prog_throw].
  apply string_empty_spec in Hr as ->. by apply pure_prog_ret, Hv.
Qed.

Lemma read_digits_nonneg base acc count s : 0 ≤ base → 0 ≤ acc → 0 ≤ (read_digits base acc count s).1.1.
Proof.
  intros Hb. revert acc count. induction s as [|c s IH]; intros acc count Ha; cbn [read_digits]; [done|].
  destruct (digit_value base c) as [d|] eqn:Hd; [|done]. apply IH. unfold digit_value in Hd. repeat case_match; simplify_eq; bool_simpl; lia.
Qed.

Lemma std_stoull_range s v rest : std_stoull s = Some (v, rest) → in_u 64 v.
Proof.
  unfold std_stoull, read_integer. destruct (read_sign _) as [negative digits]. pose proof (read_digits_nonneg 10 0 0 digits) as Hd.
  destruct (read_digits 10 0 0 digits) as [[n count] r]. cbn in Hd. destruct (count =? 0); [done|]. cbn. case_match; [|done].
  intros [= <- _]. bool_simpl. destruct negative; [apply wrapu_in_u; lia|]. split; lia.
Qed.

Lemma ParseI32Value_pure v n : pure_prog (E:=E) (S:=S) (ParseI32Value v n) (in_s 32).
Proof. unfold ParseI32Value. eapply pure_prog_bind; [by apply (whole_pure _ _ (λ _, True))|]. intros z _. apply pure_prog_ret, wraps_in_s. lia. Qed.
Lemma ParseU32Value_pure v n : pure_prog (E:=E) (S:=S) (ParseU32Value v n) (in_u 32).
Proof. unfold ParseU32Value. eapply pure_prog_bind; [by apply (whole_pure _ _ (λ _, True))|]. intros z _. apply pure_prog_ret, wrapu_in_u. lia. Qed.
Lemma ParseU64Value_pure v n : pure_prog (E:=E) (S:=S) (ParseU64Value v n) (in_u 64).
Proof. apply whole_pure. intros z Hz. by eapply std_stoull_range. Qed.
Lemma ParseDoubleValue_pure v n : pure_prog (E:=E) (S:=S) (ParseDoubleValue v n) valid_double.
Proof. apply whole_pure. intros x Hx. by eapply std_stod_valid. Qed.

Lemma ParseOptional_pure {T} options key lookup_env name d parse (φ : T → Prop) :
  φ d → (∀ v n, pure_prog (E:=E) (S:=S) (parse v n) φ) → pure_prog (ParseOptional options key lookup_env name d parse) φ.
Proof. intros Hd Hp. unfold ParseOptional. destruct (LookupValue _ _ _ _); [apply Hp|by apply pure_prog_ret]. Qed.

Lemma ParseBool_pure options key lookup_env name d : pure_prog (E:=E) (S:=S) (ParseBool options key lookup_env name d) (λ _, True).
Proof. unfold ParseBool, ParseBoolValue. repeat pure_step; done. Qed.

Ltac value_pure := first [apply ParseI32Value_pure|apply ParseU32Value_pure|apply ParseU64Value_pure|apply ParseDoubleValue_pure].

Lemma parse_motor_pure options lookup_env m : motor_config_typed m →
  pure_prog (E:=E) (S:=S) (parse_motor options lookup_env m) motor_config_typed.
Proof.
  intros []. unfold parse_motor. do 3 (eapply pure_prog_bind; [apply ParseBool_pure|intros ? _]). cbv zeta.
  do 15 first
    [eapply pure_prog_bind; [apply ParseOptional_pure; [eassumption|intros ??; value_pure]|intros ? ?]
    |apply (pure_prog_bind _ _ (λ _, True)); [apply ParseOptional_pure; [done|intros ??; eapply pure_prog_mono; [value_pure|done]]|intros ? _]].
  by apply pure_prog_ret.
Qed.

Lemma ParseOptions_pure n : ∀ arguments h v options, (length arguments ≤ n)%nat →
  pure_prog (E:=E) (S:=S) (ParseOptions arguments h v options) (λ _, True).
Proof.
  induction n as [|n IH]; intros [|argument rest] h v options Hn; cbn [length] in Hn; try lia; [by apply pure_prog_ret..|].
  cbn [ParseOptions]. repeat pure_step; try (apply IH; cbn in *; lia); try done.
Qed.

Lemma ParseCli_pure path arguments lookup_env :
  pure_prog (E:=E) (S:=S) (ParseCli path arguments lookup_env) (λ parsed, motor_config_ok (motor (config parsed))).
Proof.
  destruct arguments as [|name arguments]; [apply pure_prog_throw|]. unfold ParseCli.
  eapply pure_prog_bind; [by eapply ParseOptions_pure|]. intros [[options help] version] _.
  apply pure_prog_if; intros _; [apply pure_prog_ret, default_config_ok|]. cbv zeta.
  eapply pure_prog_bind; [apply parse_motor_pure, default_config_ok|]. intros m Hm.
  eapply (pure_prog_bind _ _ (λ _, motor_config_ok m)); [|intros [] Hok; by apply pure_prog_ret].
  assert (Hv : pure_prog (E:=E) (S:=S) (ValidateMotorConfig m) (λ _, True)) by (unfold ValidateMotorConfig; by repeat pure_step).
  intros s t. eapply xwp_mono; [apply (xwp_and _ _ _ _ _ _ _ (Hv s t) (ValidateMotorConfig_ok m s t Hm))| |].
  - by intros a s' t' [(-> & -> & _) (_ & _ & Hok)].
  - by intros e s' t' [[-> ->] _].
Qed.
End Accepted.

(** Every configuration that the command line and the environment give, whatever they
    hold, satisfies what the motor controller relies on. *)
Theorem cli_motor_config_ok `{StrtodUnderflow} {E S} path arguments lookup_env (s s' : S) (t t' : list E) parsed :
  ParseCli path arguments lookup_env s t = (inr parsed, s', t') → motor_config_ok (motor (config parsed)).
Proof. intros Hp. by eapply pure_prog_run in Hp as [? _]; [|apply ParseCli_pure]. Qed.

#[local] Instance underflow_reported : StrtodUnderflow := λ _, true.

(** A track width of the environment and two options. *)
Lemma cli_motor_config_ok_witness :
  ∃ parsed, ParseCli (E:=unit) "/run/worker.sock" ["worker"; "--motor-raw-max-speed=400"; "--motor-left-inverted"; "yes"]
      (λ name, if bool_decide (name = "TXING_MOTOR_TRACK_WIDTH_M") then Some "0.3" else None) tt [] = (inr parsed, tt, []) ∧
    raw_max_speed (motor (config parsed)) = 400 ∧ motor_config_ok (motor (config parsed)).
Proof.
  eexists. split; [vm_compute; reflexivity|]. split; [reflexivity|].
  apply (cli_motor_config_ok (E:=unit) "/run/worker.sock" ["worker"; "--motor-raw-max-speed=400"; "--motor-left-inverted"; "yes"]
      (λ name, if bool_decide (name = "TXING_MOTOR_TRACK_WIDTH_M") then Some "0.3" else None) tt tt [] []).
  vm_compute. reflexivity.
Defined.

(** Settings out of the 32-bit range are accepted and reduced: chip 2^32 + 1 is chip
    1, and a line of -1 is line 2^32 - 1. *)
Theorem settings_are_narrowed :
  ∃ parsed, ParseCli (E:=unit) "/run/worker.sock" ["worker"; "--motor-pwm-chip=4294967297"; "--motor-left-dir-gpio=-1"]
      (λ _, None) tt [] = (inr parsed, tt, []) ∧
    pwm_chip (motor (config parsed)) = 1 ∧ left_dir_gpio (motor (config parsed)) = 2 ^ 32 - 1.
Proof. eexists. split; [vm_compute; reflexivity|]. done. Qed.
