(* ===== verification/HardwareMotorSafety.v ===== *)
(** * The watchdog of the motor controller

    For every driver that keeps its contract and every sequence of calls to the
    service: a track moves only under a deadline that the watchdog bounds, the
    driver's outputs follow the recorded motion, a deadline that passes stops the
    tracks, and an error is final. *)
From stdpp Require Import gmap.
From S2P Require Import Prelude Cpp CppDouble HardwareMotor.

#[local] Open Scope Z_scope.

(** What a driver promises for the raw speeds of a configuration: after a
    [SetSpeeds] that returns, its outputs [drives] those speeds. *)
Class DriverContract (E D : Type) `{!MotorDriver E D} (config : MotorConfig) := {
  driver_inv : D → list E → Prop;
  drives : Z → Z → D → list E → Prop;
  set_speeds_ok l r d t :
    Z.abs l ≤ cmd_raw_max_speed config → Z.abs r ≤ cmd_raw_max_speed config → driver_inv d t →
    xwp (SetSpeeds l r) (λ _ d t, driver_inv d t ∧ drives l r d t) (λ _, driver_inv) d t;
  driver_close_ok d t : driver_inv d t → xwp driver_close (λ _, driver_inv) (λ _, driver_inv) d t }.

Section Safety.
Context `{LlroundOutside} {E D : Type} `{!MotorDriver E D} (config : MotorConfig) `{!DriverContract E D config}.
Hypothesis config_ok : motor_config_ok config.

Abbreviation M := (X E (MotorController * D)).
Implicit Types (m : MotorController) (d : D) (t : list E).

Definition left_raw (m : MotorController) : Z := raw_of (left_speed (motion_ m)) (left_track_power_percent config) config.
Definition right_raw (m : MotorController) : Z := raw_of (right_speed (motion_ m)) (right_track_power_percent config) config.
Definition at_rest (m : MotorController) : Prop := left_speed (motion_ m) = 0 ∧ right_speed (motion_ m) = 0.

(** The driver follows the recorded motion. *)
Definition follows (m : MotorController) (d : D) (t : list E) : Prop :=
  config_ m = config ∧ driver_inv d t ∧
  (state_ m ≠ Error → closed_ m = false → drives (left_raw m) (right_raw m) d t).

(** The state a failure leaves. *)
Definition halted (m : MotorController) : Prop :=
  state_ m = Error ∧ actuator_ready_ m = false ∧ active_deadline_unix_ms_ m = None ∧ at_rest m.

Lemma raw_bound v p : Z.abs (raw_of v p config) ≤ cmd_raw_max_speed config.
Proof. by apply raw_of_range. Qed.

Lemma on_driver_wp {A} (c : X E D A) Q R m d t :
  xwp c (λ a d t, Q a (m, d) t) (λ e d t, R e (m, d) t) d t → xwp (on_driver c : M A) Q R (m, d) t.
Proof. unfold xwp, on_driver. cbn. by destruct (c d t) as [[[]?]?]. Qed.

Lemma MarkError_wp e m d t : config_ m = config → driver_inv d t →
  xwp (MarkError e : M unit)
    (λ _ s t', config_ s.1 = config ∧ driver_inv s.2 t' ∧ halted s.1 ∧ closed_ s.1 = closed_ m ∧ last_error_ s.1 = e)
    (λ _ _ _, False) (m, d) t.
Proof.
  intros Hc Hd. unfold MarkError. do 4 (apply xwp_bind, xwp_modify). apply xwp_bind, xwp_try, on_driver_wp.
  set (m1 := set_deadline None _).
  assert (Hrest : ∀ d' t', driver_inv d' t' →
    xwp (m ← members; xwhen (negb (left_speed (motion_ m) =? 0) || negb (right_speed (motion_ m) =? 0))
                        (update (set_motion (next_motion 0 0 (motion_ m)))) : M unit)
      (λ _ s t', config_ s.1 = config ∧ driver_inv s.2 t' ∧ halted s.1 ∧ closed_ s.1 = closed_ m ∧ last_error_ s.1 = e)
      (λ _ _ _, False) (m1, d') t').
  { intros d' t' Hd'. apply xwp_bind. unfold members, xwp at 1. apply xwp_when; intros Hb; [apply xwp_modify|]; cbn.
    - by split_and!.
    - bool_simpl. by split_and!. }
  eapply xwp_mono; [apply (set_speeds_ok 0 0); [pose proof (ok_min _ config_ok); lia..|done]|..].
  - intros _ d' t' [Hd' _]. by apply Hrest.
  - intros m' d' t' Hd'. apply xwp_ret. by apply Hrest.
Qed.

Lemma ApplySpeeds_wp l r force m d t : follows m d t →
  xwp (ApplySpeeds l r force : M unit)
    (λ _ s t', ∃ mo, s.1 = set_motion mo m ∧ left_speed mo = l ∧ right_speed mo = r ∧ follows s.1 s.2 t' ∧
                     (force = true → drives (left_raw s.1) (right_raw s.1) s.2 t'))
    (λ _ s t', config_ s.1 = config ∧ driver_inv s.2 t' ∧ halted s.1 ∧ closed_ s.1 = closed_ m) (m, d) t.
Proof.
  intros (Hc & Hd & Hdr). unfold ApplySpeeds. apply xwp_bind. unfold members at 1, xwp at 1. cbn [fst].
  apply xwp_if; intros Hb.
  { apply xwp_ret. bool_simpl. exists (motion_ m). cbn. destruct m. cbn in *. split_and!; try done. by rewrite H0. }
  rewrite Hc. apply xwp_bind, xwp_try, on_driver_wp.
  eapply xwp_mono; [apply set_speeds_ok; [apply raw_bound|apply raw_bound|done]|..].
  - intros _ d' t' [Hd' Hdr']. apply xwp_bind. unfold members, xwp at 1. apply xwp_modify. cbn [fst snd].
    eexists. split_and!; [done|done|done| |done]. by split_and!.
  - intros err d' t' Hd'. apply xwp_bind. eapply xwp_mono; [by apply MarkError_wp| |done].
    intros _ [m' d''] t'' (?&?&?&?&_). by apply xwp_throw.
Qed.

Lemma Stop_wp force m d t : follows m d t →
  xwp (Stop force : M MotionState)
    (λ mo s t', mo = motion_ s.1 ∧ follows s.1 s.2 t' ∧ at_rest s.1 ∧ active_deadline_unix_ms_ s.1 = None ∧
      state_ s.1 = (if decide (state_ m = Error) then Error else Ready) ∧ actuator_ready_ s.1 = actuator_ready_ m ∧
      closed_ s.1 = closed_ m ∧ (force = true → drives 0 0 s.2 t'))
    (λ _ s t', config_ s.1 = config ∧ driver_inv s.2 t' ∧ halted s.1 ∧ closed_ s.1 = closed_ m) (m, d) t.
Proof.
  intros (Hc & Hd & Hdr). unfold Stop. apply xwp_bind, xwp_modify. apply xwp_bind. cbn [fst snd].
  eapply xwp_mono; [by apply ApplySpeeds_wp| |done].
  intros _ [m' d'] t' (mo & Em & Hl & Hr & (Hc' & Hd' & Hdr') & Hforce). cbn [fst snd] in *.
  apply xwp_bind. unfold members at 1, xwp at 1. cbn [fst]. apply xwp_bind.
  assert (Hz : force = true → drives 0 0 d' t').
  { intros Hf. specialize (Hforce Hf). subst m'. revert Hforce. unfold left_raw, right_raw. cbn. by rewrite Hl, Hr. }
  subst m'. cbn in *. apply xwp_when; intros Hb; bool_simpl.
  - apply xwp_modify, xwp_bind. unfold members at 1, xwp at 1. cbn. rewrite decide_False by done. split_and!; try done.
    + split_and!; try done. intros _ Hcl. by apply Hdr'.
  - apply xwp_bind. unfold members at 1, xwp at 1. cbn. rewrite decide_True by done. split_and!; try done.
Qed.
(** The deadline is one that an accepted command asked for, cut by the watchdog. *)
Definition granted (hist : list service_call) (deadline : Z) : Prop :=
  ∃ twist requested now, CApplyVelocity twist requested now ∈ hist ∧
    now < deadline ≤ now + watchdog_timeout_ms config ∧ deadline ≤ requested.

(** The invariant between calls. *)
Record safe (hist : list service_call) (m : MotorController) (d : D) (t : list E) : Prop := {
  safe_follows : follows m d t;
  safe_error : state_ m = Error → actuator_ready_ m = false;
  safe_ready : actuator_ready_ m = false → active_deadline_unix_ms_ m = None;
  safe_rest : active_deadline_unix_ms_ m = None → at_rest m;
  safe_closed : closed_ m = true → actuator_ready_ m = false;
  safe_deadline dl : active_deadline_unix_ms_ m = Some dl → granted hist dl }.

Lemma granted_cons hist c dl : granted hist dl → granted (c :: hist) dl.
Proof. intros (twist & req & now & Hin & ?). exists twist, req, now. split; [by right|done]. Qed.

Lemma safe_cons hist c m d t : safe hist m d t → safe (c :: hist) m d t.
Proof. intros []. constructor; auto using granted_cons. Qed.

Lemma halted_safe hist m d t : config_ m = config → driver_inv d t → halted m → safe hist m d t.
Proof. intros Hc Hd (?&?&?&?). constructor; try done; first [by split_and!|congruence]. Qed.

Definition keeps_safe {A} hist (c : M A) (m : MotorController) (d : D) (t : list E) : Prop :=
  xwp c (λ _ s t, safe hist s.1 s.2 t) (λ _ s t, safe hist s.1 s.2 t) (m, d) t.

Lemma Stop_safe hist force m d t : safe hist m d t → keeps_safe hist (Stop force) m d t.
Proof.
  intros []. unfold keeps_safe. eapply xwp_mono; [by apply Stop_wp|..].
  - intros mo [m' d'] t' (_&Hf&Hr&Hdl&Hst&Hrd&Hcl&_). cbn [fst snd] in *. constructor; try done; [|by rewrite Hrd, Hcl|congruence].
    rewrite Hst, Hrd. case_decide; [auto|done].
  - intros e [m' d'] t' (?&?&?&?). by apply halted_safe.
Qed.

(** An accepted command has finite axes. *)
Lemma ValidateTwist_wp {S} twist (s : S) t :
  xwp (ValidateTwist twist) (λ _ s' t', s' = s ∧ t' = t ∧ isfinite (vx (linear twist)) = true ∧ isfinite (vz (angular twist)) = true)
    (λ _ s' t', s' = s ∧ t' = t) s t.
Proof.
  unfold ValidateTwist. cbn [for_each]. apply xwp_bind.
  repeat (apply xwp_bind; unfold check_finite at 1; apply xwp_if; intros ?; [by apply xwp_throw|apply xwp_ret]).
  apply xwp_ret. bool_simpl. cbn [snd] in *. apply xwp_if; intros ?; [by apply xwp_throw|by apply xwp_ret].
Qed.

Definition typed_call (c : service_call) : Prop :=
  match c with
  | CApplyVelocity twist requested now => twist_typed twist ∧ in_u 64 requested ∧ in_u 64 now
  | CTick now => in_u 64 now
  | _ => True
  end.

Lemma ApplyVelocity_safe hist twist req now m d t :
  safe hist m d t → typed_call (CApplyVelocity twist req now) →
  keeps_safe (CApplyVelocity twist req now :: hist) (ApplyVelocity twist req now) m d t.
Proof.
  intros Hs (Htw & Hreq & Hnow). pose proof (safe_cons _ (CApplyVelocity twist req now) _ _ _ Hs) as Hs'. set (h := _ :: hist) in *.
  unfold keeps_safe, ApplyVelocity. apply xwp_bind. unfold members at 1, xwp at 1. cbn [fst].
  apply xwp_if; intros Hb1; [by apply xwp_throw|].
  apply xwp_if; intros Hb2.
  { apply xwp_bind. eapply xwp_mono; [by apply Stop_safe| |done]. intros mo [m' d'] t' ?. by apply xwp_throw. }
  bool_simpl. destruct Hs as [(Hc & Hd & Hdr) Herr Hrdy Hrest Hcl Hdl]. rewrite Hc.
  set (dl := if _ <? _ then _ else _).
  assert (Hgr : granted h dl).
  { exists twist, req, now. split; [by left|]. destruct Hreq, Hnow. pose proof (ok_watchdog _ config_ok).
    unfold dl. destruct (Z.ltb_spec (watchdog_timeout_ms config) (req - now)); [|lia].
    rewrite wrapu_id; [lia|]. split; lia. }
  apply xwp_bind. eapply xwp_mono; [apply ValidateTwist_wp| |]; [|by intros e s t' (-> & ->)].
  intros _ s t' (-> & -> & Fx & Fz).
  destruct (mix_range (E:=E) (S:=MotorController * D) twist config (m, d) t config_ok Htw Fx Fz) as (l & r & Emix & Hl & Hr).
  apply xwp_bind. unfold xwp at 1. rewrite Emix. apply xwp_bind, xwp_modify, xwp_bind. cbn [fst snd].
  eapply xwp_mono; [apply ApplySpeeds_wp; by split_and!|..].
  - intros _ [m' d'] t'. cbn [fst snd]. intros (mo & -> & _ & _ & Hf & _). apply xwp_bind. unfold members, xwp. cbn.
    constructor; cbn; try done; [congruence|by intros dl' [= <-]].
  - intros e [m' d'] t' (?&?&?&?). by apply halted_safe.
Qed.

Lemma Tick_safe hist now m d t : safe hist m d t → keeps_safe hist (Tick now) m d t.
Proof.
  intros Hs. unfold keeps_safe, Tick. apply xwp_bind. unfold members, xwp at 1. cbn [fst].
  destruct (active_deadline_unix_ms_ m); [|by apply xwp_ret]. apply xwp_if; intros _; [|by apply xwp_ret].
  apply xwp_bind. by eapply xwp_mono; [by apply Stop_safe|..].
Qed.

(** The end of [Close], from a controller at rest. *)
Definition closing (m : MotorController) (d : D) (t : list E) : Prop :=
  config_ m = config ∧ driver_inv d t ∧ closed_ m = true ∧ at_rest m ∧ active_deadline_unix_ms_ m = None ∧
  (state_ m = Error → actuator_ready_ m = false).

Definition shut (hist : list service_call) (m : MotorController) (d : D) (t : list E) : Prop :=
  safe hist m d t ∧ closed_ m = true ∧ at_rest m ∧ actuator_ready_ m = false.

Lemma close_state_wp hist m d t : closing m d t →
  xwp (m ← members;
       xwhen (negb (bool_decide (state_ m = Error))) (_ ← update (set_hw_state Stopped); update (set_ready false)) : M unit)
    (λ _ s, shut hist s.1 s.2) (λ _ _ _, False) (m, d) t.
Proof.
  intros (Hc & Hd & Hcl & Hr & Hn & He). apply xwp_bind. unfold members, xwp at 1. cbn [fst].
  assert (Hf : ∀ m', config_ m' = config → closed_ m' = true → follows m' d t) by (intros m' ??; split_and!; [done|done|congruence]).
  apply xwp_when; intros Hb; bool_simpl.
  - apply xwp_bind, xwp_modify, xwp_modify. cbn. split_and!; try done.
    constructor; cbn; [by apply Hf|done|done|done|by auto|congruence].
  - split_and!; [|done|done|by apply He]. constructor; cbn; [by apply Hf|done|done|done|by auto|congruence].
Qed.

Lemma close_driver_wp hist m d t : closing m d t →
  xwp (_ ← try_catch (on_driver driver_close) MarkError;
       m ← members;
       xwhen (negb (bool_decide (state_ m = Error))) (_ ← update (set_hw_state Stopped); update (set_ready false)) : M unit)
    (λ _ s, shut hist s.1 s.2) (λ _ _ _, False) (m, d) t.
Proof.
  intros (Hc & Hd & Hrest). apply xwp_bind, xwp_try, on_driver_wp. eapply xwp_mono; [by apply driver_close_ok|..].
  - intros [] d2 t2 Hd2. apply close_state_wp. by split.
  - intros e d2 t2 Hd2. eapply xwp_mono; [by apply MarkError_wp| |done]. intros _ [m3 d3] t3 (?&?&(?&?&?&?)&Hcl&_). cbn [fst snd] in *.
    apply close_state_wp. split_and!; try done. rewrite Hcl. apply Hrest.
Qed.

Lemma Close_wp hist m d t : safe hist m d t → closed_ m = false →
  xwp (Close : M unit) (λ _ s, shut hist s.1 s.2) (λ _ _ _, False) (m, d) t.
Proof.
  intros [(Hc & Hd & Hdr) Herr _ _ _ _] Hcl. unfold Close. apply xwp_bind. unfold members at 1, xwp at 1. cbn [fst]. rewrite Hcl.
  apply xwp_bind, xwp_modify. cbn [fst snd]. apply xwp_bind, xwp_try, xwp_bind. eapply xwp_mono; [apply Stop_wp; split_and!; done|..].
  - intros mo [m' d'] t' (_&(?&?&_)&?&?&Hst&Hrd&Hcl'&_). cbn [fst snd] in *. apply xwp_ret, close_driver_wp. split_and!; try done.
    rewrite Hst, Hrd. case_decide as Hx; [by intros _; apply Herr|done].
  - intros e [m' d'] t' (?&?&(?&?&?&?)&Hcl'). cbn [fst snd] in *. apply xwp_ret, close_driver_wp. by split_and!.
Qed.

(** A reply reads the state only. *)
Definition reads_only (c : M reply) : Prop := ∀ s t, ∃ r, c s t = (inr r, s, t).

Lemma safe_call {A} hist (c : M A) (f : A → M reply) h m d t :
  keeps_safe hist c m d t → (∀ a, reads_only (f a)) → (∀ e, reads_only (h e)) →
  xwp (try_catch (c ≫= f) h) (λ _ s t, safe hist s.1 s.2 t) (λ _ _ _, False) (m, d) t.
Proof.
  intros Hc Hf Hh. apply xwp_try, xwp_bind. eapply xwp_mono; [exact Hc|..].
  - intros a s t' Hs. destruct (Hf a s t') as [r Hr]. unfold xwp. by rewrite Hr.
  - intros e s t' Hs. destruct (Hh e s t') as [r Hr]. unfold xwp. by rewrite Hr.
Qed.

(** Every call of the service returns and keeps the invariant. *)
Lemma service_safe hist c m d t : safe hist m d t → typed_call c →
  xwp (service c : M reply) (λ _ s t', safe (c :: hist) s.1 s.2 t') (λ _ _ _, False) (m, d) t.
Proof.
  intros Hs Hc. pose proof (safe_cons _ c _ _ _ Hs) as Hs'. destruct c as [|twist req now| |now|]; cbn [service].
  - done.
  - apply safe_call; [by apply ApplyVelocity_safe|by intros ???; eexists..].
  - apply safe_call; [by apply Stop_safe|by intros ???; eexists..].
  - apply safe_call; [by apply Tick_safe|by intros ???; eexists..].
  - apply xwp_bind. destruct (closed_ m) eqn:Hcl.
    + unfold Close, xwp, mbind, X_bind, members. cbn. by rewrite Hcl.
    + eapply xwp_mono; [by apply Close_wp| |done]. by intros _ s t' [].
Qed.

(** ** Sequences of calls *)

(** The calls of the gRPC threads and of the main loop, in the order the mutex
    gives them; [hist] holds the earlier ones. *)
Inductive service_run : list service_call → MotorController → D → list E → Prop :=
  | run_start d t : driver_inv d t → drives 0 0 d t → service_run [] (new_controller config) d t
  | run_call hist m d t c r m' d' t' :
      service_run hist m d t → typed_call c → service c (m, d) t = (inr r, (m', d'), t') →
      service_run (c :: hist) m' d' t'.

Lemma service_run_safe hist m d t : service_run hist m d t → safe hist m d t.
Proof.
  induction 1 as [d t Hd Hdr|hist m d t c r m' d' t' _ IH Hc Hs]; [by constructor|].
  pose proof (service_safe _ _ _ _ _ IH Hc) as Hw. unfold xwp in Hw. by rewrite Hs in Hw.
Qed.
(** C14: After every sequence of calls of the hardware service, with a configuration
    that passes its checks and over any driver that keeps its contract, a controller
    whose recorded motion is not at rest has a deadline that a velocity command asked
    for and that is not later than the watchdog allows, its actuator is ready and it is
    without error. The motion is the one that the controller records and reports: after
    a fault of the driver it records rest, and a wheel may go on
    (left_fault_keeps_right_running). *)
Theorem moving_under_watchdog hist m d t :
  service_run hist m d t → ¬ at_rest m →
  ∃ dl, active_deadline_unix_ms_ m = Some dl ∧ granted hist dl ∧ actuator_ready_ m = true ∧ state_ m ≠ Error.
Proof.
  intros Hr Hm. destruct (service_run_safe _ _ _ _ Hr) as [Hf He Hrd Hre Hcl Hdl].
  destruct (active_deadline_unix_ms_ m) as [dl|] eqn:Ed; [|by destruct Hm; apply Hre].
  destruct (actuator_ready_ m) eqn:Ea; [|by specialize (Hrd eq_refl)].
  exists dl. split_and!; [done|by apply Hdl|done|]. intros Hx. by specialize (He Hx).
Qed.

(** The calls that stop the tracks: a stop, the shutdown, and the tick of a
    deadline that has passed. *)
Definition stops (c : service_call) (m : MotorController) : Prop :=
  match c with
  | CStop | CShutdown => True
  | CTick now => ∀ dl, active_deadline_unix_ms_ m = Some dl → dl ≤ now
  | _ => False
  end.

Lemma raw_of_zero p : raw_of 0 p config = 0.
Proof.
  unfold raw_of, ScalePercentToRaw, ClampI32. cbn. done.
Qed.

Lemma follows_rest m d t : follows m d t → at_rest m → state_ m ≠ Error → closed_ m = false → drives 0 0 d t.
Proof.
  intros (_&_&Hd) [Hl Hr] He Hc. specialize (Hd He Hc). unfold left_raw, right_raw in Hd. by rewrite Hl, Hr, !raw_of_zero in Hd.
Qed.

Lemma service_returns hist c m d t : safe hist m d t → typed_call c →
  ∃ r m' d' t', service c (m, d) t = (inr r, (m', d'), t') ∧ safe (c :: hist) m' d' t'.
Proof.
  intros Hs Hc. pose proof (service_safe _ _ _ _ _ Hs Hc) as Hw. unfold xwp in Hw.
  destruct (service c (m, d) t) as [[[e|r] [m' d']] t']; [done|]. by exists r, m', d', t'.
Qed.

(** A call that neither moves nor keeps moving leaves the deadline unset. *)
Lemma stopping_call_rests c m d t hist : safe hist m d t → stops c m →
  xwp (service c : M reply) (λ _ s _, at_rest s.1) (λ _ _ _, False) (m, d) t.
Proof.
  intros Hs Hc. pose proof Hs as [Hf He Hrd Hre Hcl Hdl].
  assert (Hstop : ∀ force (f : MotionState → M reply) h, (∀ a, reads_only (f a)) → (∀ e, reads_only (h e)) →
    xwp (try_catch (Stop force ≫= f) h) (λ _ s _, at_rest s.1) (λ _ _ _, False) (m, d) t).
  { intros force f h Hf' Hh. apply xwp_try, xwp_bind. eapply xwp_mono; [by apply Stop_wp|..].
    - intros a s t' (_&_&Hr&_). destruct (Hf' a s t') as [r E1]. unfold xwp. by rewrite E1.
    - intros e s t' (_&_&(_&_&_&Hr)&_). destruct (Hh e s t') as [r E1]. unfold xwp. by rewrite E1. }
  destruct c as [|twist req now| |now|]; try done; cbn [service].
  - apply Hstop; by intros ???; eexists.
  - cbn in Hc. destruct (active_deadline_unix_ms_ m) as [dl|] eqn:Ed.
    + assert (Ht : (dl <=? now) = true) by (apply Z.leb_le; by apply Hc).
      unfold xwp. replace ((try_catch (b ← Tick now; mret (RTick b)) (λ _, mret (RTick false)) : M reply) (m, d) t)
        with ((try_catch (_ ← Stop false; mret (RTick true)) (λ _, mret (RTick false)) : M reply) (m, d) t).
      { apply Hstop; by intros ???; eexists. }
      unfold try_catch, Tick, mbind, X_bind, members. cbn [fst]. rewrite Ed, Ht. by destruct (Stop false (m, d) t) as [[[]?]?].
    + unfold xwp, try_catch, Tick, mbind, X_bind, members. cbn [fst]. rewrite Ed. cbn. by apply Hre.
  - apply xwp_bind. destruct (closed_ m) eqn:Hcm.
    + unfold Close, xwp, mbind, X_bind, members. cbn. rewrite Hcm. cbn. by apply Hre, Hrd, Hcl.
    + eapply xwp_mono; [by apply (Close_wp hist)| |done]. by intros _ s t' (_&_&?&_).
Qed.
(** Each of these calls returns with the tracks recorded at rest, and the driver
    then drives zero unless it failed or was closed. *)
Theorem stopping_call_stops hist c m d t :
  service_run hist m d t → typed_call c → stops c m →
  ∃ r m' d' t', service c (m, d) t = (inr r, (m', d'), t') ∧ at_rest m' ∧
    (state_ m' ≠ Error → closed_ m' = false → drives 0 0 d' t').
Proof.
  intros Hr Ht Hc. apply service_run_safe in Hr. pose proof (stopping_call_rests c m d t hist Hr Hc) as Hw.
  destruct (service_returns _ _ _ _ _ Hr Ht) as (r & m' & d' & t' & Es & [Hf _ _ _ _ _]).
  unfold xwp in Hw. rewrite Es in Hw. exists r, m', d', t'. split_and!; [done|done|]. intros. by apply (follows_rest m').
Qed.

Lemma unready_wp c m d t hist : safe hist m d t → actuator_ready_ m = false → typed_call c →
  xwp (service c : M reply) (λ _ s _, actuator_ready_ s.1 = false) (λ _ _ _, False) (m, d) t.
Proof.
  intros Hs Ha Ht. pose proof Hs as [Hf He Hrd Hre Hcl Hdl].
  assert (Hn : active_deadline_unix_ms_ m = None) by auto.
  destruct c as [|twist req now| |now|]; cbn [service].
  - done.
  - unfold xwp, try_catch, ApplyVelocity, mbind, X_bind, members. cbn [fst]. by rewrite Ha.
  - apply xwp_try, xwp_bind. eapply xwp_mono; [by apply Stop_wp|..].
    + intros a s t' (_&_&_&_&_&Hr&_). unfold xwp. cbn. congruence.
    + by intros e s t' (_&_&(_&?&_)&_).
  - unfold xwp, try_catch, Tick, mbind, X_bind, members. cbn [fst]. by rewrite Hn.
  - apply xwp_bind. destruct (closed_ m) eqn:Hcm.
    + unfold Close, xwp, mbind, X_bind, members. cbn. by rewrite Hcm.
    + eapply xwp_mono; [by apply (Close_wp hist)| |done]. by intros _ s t' (_&_&_&?).
Qed.

(** An error or a shutdown of the hardware worker is final: the actuator is never
    ready again, the tracks stay recorded at rest, and every later velocity command is
    refused without a call of the driver. *)
Theorem unready_is_final hist c m d t :
  service_run hist m d t → typed_call c → actuator_ready_ m = false →
  ∃ r m' d' t', service c (m, d) t = (inr r, (m', d'), t') ∧ actuator_ready_ m' = false ∧ at_rest m' ∧
    (∀ twist req now, c = CApplyVelocity twist req now →
       r = RFailed FAILED_PRECONDITION "hardware actuator unavailable" ∧ m' = m ∧ d' = d ∧ t' = t).
Proof.
  intros Hr Ht Ha. apply service_run_safe in Hr. pose proof (unready_wp c m d t hist Hr Ha Ht) as Hw.
  destruct (service_returns _ _ _ _ _ Hr Ht) as (r & m' & d' & t' & Es & [_ _ Hrd Hre _ _]).
  unfold xwp in Hw. rewrite Es in Hw. exists r, m', d', t'. split_and!; [done|done|by apply Hre, Hrd|].
  intros twist req now ->. revert Es. cbn [service]. unfold try_catch, ApplyVelocity, mbind, X_bind, members. cbn [fst].
  rewrite Ha. cbn. by intros [= <- <- <- <-].
Qed.
End Safety.
