(* ===== verification/HardwareDriver.v ===== *)
(** * The sysfs motor driver

    [SysfsPwmChannel], [GpioOutputPin] and [SysfsMotorDriver] of
    [hardware_worker/src/motor.cpp], with [NoopMotorDriver], as implementations of
    [MotorDriver]. Files and pins are the outside: a write opens the file, which
    may fail, and hands the text to a buffered stream; the kernel gets it when the
    stream is destroyed, and whether it took it is not looked at. *)
From stdpp Require Import gmap pretty.
From S2P Require Import Prelude Cpp CppDouble CppParse HardwareMotor HardwareMotorSafety.

#[local] Open Scope Z_scope.

(** ** The board *)

Inductive write_outcome := OpenFailed | Written | Rejected.

#[global] Instance write_outcome_eq_dec : EqDecision write_outcome.
Proof. solve_decision. Defined.

Inductive hw_event :=
  | HWrite (path text : string) (r : write_outcome)
  | HIsDirectory (path : string) (r : string + bool)
  | HSleep (ms : Z)
  | HOpenChip (chip : Z) (ok : bool)
  | HRequestLine (chip pin : Z) (ok : bool)
  | HSetLine (chip pin : Z) (high ok : bool)
  | HCloseLine (chip pin : Z)
  | HCloseChip (chip : Z).

Abbreviation hw_trace := (list hw_event).

Class Board := {
  fs_write : string → string → hw_trace → write_outcome;
  fs_is_directory : string → hw_trace → string + bool;
  (** How often [WaitForDirectory] polls before the clock passes its timeout. *)
  fs_polls : hw_trace → nat;
  gpio_open : Z → hw_trace → bool;
  gpio_request : Z → Z → hw_trace → bool;
  gpio_set : Z → Z → bool → hw_trace → bool }.

(** ** Paths *)

(** The part after the last slash. *)
Fixpoint filename (s : string) : string :=
  match s with
  | EmptyString => EmptyString
  | String c rest => if string_mem "/" s then filename rest else s
  end.

Section Driver.
Context `{LlroundOutside} `{board : Board} {S : Type}.

Abbreviation W := (X hw_event S).

Definition WriteText (path value : string) : W unit :=
  λ s t, let r := fs_write path value t in
    (if bool_decide (r = OpenFailed) then inl ("open " +:+ path) else inr tt, s, HWrite path value r :: t).

Definition newline : string := String (Ascii.ascii_of_nat 10) EmptyString.
Definition WriteInt (path : string) (value : Z) : W unit := WriteText path (pretty value +:+ newline).

Definition is_directory (path : string) : W bool := xcall (HIsDirectory path) (fs_is_directory path).

Fixpoint wait_polls (path : string) (polls : nat) : W unit :=
  match polls with
  | O => throw ("path did not appear after export: " +:+ path)
  | Datatypes.S polls =>
      b ← is_directory path;
      if b : bool then mret tt else
      _ ← xemit (HSleep 10);
      wait_polls path polls
  end.
Definition WaitForDirectory (path : string) : W unit := λ s t, wait_polls path (fs_polls t) s t.

Definition ChannelNumberFromPath (path : string) : W Z :=
  let name := filename path in
  if negb (String.prefix "pwm" name) then throw ("invalid PWM channel path " +:+ path) else
  match std_stoull (String.substring 3 (String.length name - 3) name) with
  | Some (n, _) => mret (wrapu 32 n)
  | None => throw "stoul"
  end.

(** ** PWM channels *)

Record PwmChannel := mk_pwm { chip_path_ : string; channel_path_ : string; period_ns_ : Z; owns_channel_ : bool; pwm_closed_ : bool }.

Definition SetDutyCycleNs (p : PwmChannel) (value : Z) : W unit :=
  WriteInt (path_join (channel_path_ p) "duty_cycle") (Z.min value (period_ns_ p)).
Definition SetPeriodNs (p : PwmChannel) (value : Z) : W unit := WriteInt (path_join (channel_path_ p) "period") value.
Definition Enable (p : PwmChannel) : W unit := WriteInt (path_join (channel_path_ p) "enable") 1.
Definition DisableNoThrow (p : PwmChannel) : W unit :=
  try_catch (WriteInt (path_join (channel_path_ p) "enable") 0) (λ _, mret tt).

Definition pwm_period (frequency_hz : Z) : Z :=
  wrapu 64 (std_llround (ddiv (double_of 1000000000) (double_of frequency_hz))).

Definition new_pwm (root : string) (chip channel frequency_hz : Z) : W PwmChannel :=
  let chip_path := path_join root ("pwmchip" +:+ pretty chip) in
  let channel_path := path_join chip_path ("pwm" +:+ pretty channel) in
  let p := mk_pwm chip_path channel_path (pwm_period frequency_hz) false false in
  b ← is_directory chip_path;
  if negb b then throw ("PWM chip path does not exist: " +:+ chip_path) else
  b ← is_directory channel_path;
  p ← (if negb b
       then _ ← WriteInt (path_join chip_path "export") channel;
            _ ← WaitForDirectory channel_path;
            mret (mk_pwm chip_path channel_path (pwm_period frequency_hz) true false)
       else mret p);
  _ ← DisableNoThrow p;
  _ ← SetPeriodNs p (period_ns_ p);
  _ ← SetDutyCycleNs p 0;
  _ ← Enable p;
  mret p.

(** The body of [Close], after the flag. *)
Definition pwm_shut (p : PwmChannel) : W unit :=
  _ ← SetDutyCycleNs p 0;
  _ ← DisableNoThrow p;
  xwhen (owns_channel_ p)
    (n ← ChannelNumberFromPath (channel_path_ p); WriteInt (path_join (chip_path_ p) "unexport") n).

(** [~SysfsPwmChannel]. *)
Definition destroy_pwm (p : PwmChannel) : W unit :=
  if pwm_closed_ p then mret tt else try_catch (pwm_shut p) (λ _, mret tt).

(** ** Direction pins *)

Record GpioPin := mk_pin { chip_ : Z; pin_ : Z }.

Definition SetValue (g : GpioPin) (high : bool) : W unit :=
  λ s t, let ok := gpio_set (chip_ g) (pin_ g) high t in
    (if ok then inr tt else inl ("set GPIO direction pin " +:+ pretty (pin_ g) +:+ " on gpiochip" +:+ pretty (chip_ g)),
     s, HSetLine (chip_ g) (pin_ g) high ok :: t).

Definition new_pin (chip pin : Z) : W GpioPin :=
  λ s t,
    let opened := gpio_open chip t in
    let t := HOpenChip chip opened :: t in
    if negb opened then (inl ("open /dev/gpiochip" +:+ pretty chip), s, t) else
    let granted := gpio_request chip pin t in
    let t := HRequestLine chip pin granted :: t in
    if negb granted
    then (inl ("request GPIO direction pin " +:+ pretty pin +:+ " on gpiochip" +:+ pretty chip), s, HCloseChip chip :: t)
    else (inr (mk_pin chip pin), s, t).

(** [~GpioOutputPin]. *)
Definition destroy_pin (g : GpioPin) : W unit :=
  _ ← try_catch (SetValue g false) (λ _, mret tt);
  _ ← xemit (HCloseLine (chip_ g) (pin_ g));
  xemit (HCloseChip (chip_ g)).

(** ** One side *)

Definition effective_speed (raw_speed max : Z) (inverted : bool) : Z :=
  let clamped := ClampI32 raw_speed (- max) max in if inverted then - clamped else clamped.
Definition duty_of (effective max period : Z) : Z :=
  wrapu 64 (std_llround (dmul (ddiv (double_of (Z.abs effective)) (double_of max)) (double_of period))).

Definition ApplyMotorSide (raw_speed raw_max_speed : Z) (inverted : bool) (pwm : PwmChannel) (direction : GpioPin) : W unit :=
  let effective := effective_speed raw_speed raw_max_speed inverted in
  _ ← SetValue direction (effective <? 0);
  SetDutyCycleNs pwm (duty_of effective raw_max_speed (period_ns_ pwm)).
End Driver.

(** ** The drivers *)

Record SysfsDriver := mk_sysfs {
  sd_config : MotorConfig; left_pwm_ : PwmChannel; right_pwm_ : PwmChannel; left_dir_ : GpioPin; right_dir_ : GpioPin }.

Section Sysfs.
Context `{LlroundOutside} `{board : Board}.

Abbreviation W := (X hw_event SysfsDriver).

Definition set_raw {S} (d : SysfsDriver) (left_raw right_raw : Z) : X hw_event S unit :=
  _ ← ApplyMotorSide left_raw (raw_max_speed (sd_config d)) (left_inverted (sd_config d)) (left_pwm_ d) (left_dir_ d);
  ApplyMotorSide right_raw (raw_max_speed (sd_config d)) (right_inverted (sd_config d)) (right_pwm_ d) (right_dir_ d).

Definition SetRawSpeeds (left_raw right_raw : Z) : W unit := d ← xget; set_raw d left_raw right_raw.

Definition SysfsSetSpeeds (left_raw right_raw : Z) : W unit :=
  try_catch (SetRawSpeeds left_raw right_raw)
    (λ err, _ ← try_catch (SetRawSpeeds 0 0) (λ _, mret tt); throw err).

Definition close_flag (p : PwmChannel) : PwmChannel :=
  mk_pwm (chip_path_ p) (channel_path_ p) (period_ns_ p) (owns_channel_ p) true.

Definition close_left : W unit :=
  d ← xget;
  if pwm_closed_ (left_pwm_ d) then mret tt else
  _ ← xmodify (λ d, mk_sysfs (sd_config d) (close_flag (left_pwm_ d)) (right_pwm_ d) (left_dir_ d) (right_dir_ d));
  pwm_shut (left_pwm_ d).
Definition close_right : W unit :=
  d ← xget;
  if pwm_closed_ (right_pwm_ d) then mret tt else
  _ ← xmodify (λ d, mk_sysfs (sd_config d) (left_pwm_ d) (close_flag (right_pwm_ d)) (left_dir_ d) (right_dir_ d));
  pwm_shut (right_pwm_ d).

Definition SysfsClose : W unit :=
  _ ← SetRawSpeeds 0 0;
  _ ← close_left;
  close_right.

#[global] Instance sysfs_driver : MotorDriver hw_event SysfsDriver := {
  SetSpeeds := SysfsSetSpeeds; driver_close := SysfsClose }.

(** [SysfsMotorDriver::Impl::Impl]: the members are built in order, and an
    exception destroys those already built. *)
Definition new_sysfs_driver {S} (config : MotorConfig) : X hw_event S SysfsDriver :=
  left ← new_pwm (pwm_sysfs_root config) (pwm_chip config) (left_pwm_channel config) (pwm_hz config);
  try_catch
    (right ← new_pwm (pwm_sysfs_root config) (pwm_chip config) (right_pwm_channel config) (pwm_hz config);
     try_catch
       (left_dir ← new_pin (gpio_chip config) (left_dir_gpio config);
        try_catch
          (right_dir ← new_pin (gpio_chip config) (right_dir_gpio config);
           let d := mk_sysfs config left right left_dir right_dir in
           try_catch (_ ← set_raw d 0 0; mret d) (λ err, _ ← destroy_pin right_dir; throw err))
          (λ err, _ ← destroy_pin left_dir; throw err))
       (λ err, _ ← destroy_pwm right; throw err))
    (λ err, _ ← destroy_pwm left; throw err).

(** [~SysfsMotorDriver]: the members in the reverse order. *)
Definition destroy_sysfs_driver {S} (d : SysfsDriver) : X hw_event S unit :=
  _ ← destroy_pin (right_dir_ d);
  _ ← destroy_pin (left_dir_ d);
  _ ← destroy_pwm (right_pwm_ d);
  destroy_pwm (left_pwm_ d).

(** [NoopMotorDriver]; its [Close] is the one of the base class. *)
Definition NoopSetSpeeds (left_raw right_raw : Z) : X hw_event unit unit := mret tt.
#[global] Instance noop_driver : MotorDriver hw_event unit := {
  SetSpeeds := NoopSetSpeeds; driver_close := NoopSetSpeeds 0 0 }.
End Sysfs.

(** ** What the outputs are *)

(** The last text that was handed to a file, and the last value of a pin. *)
Fixpoint last_write (path : string) (t : hw_trace) : option (string * write_outcome) :=
  match t with
  | [] => None
  | HWrite p text r :: t => if bool_decide (p = path) then Some (text, r) else last_write path t
  | _ :: t => last_write path t
  end.
Fixpoint last_set (chip pin : Z) (t : hw_trace) : option (bool * bool) :=
  match t with
  | [] => None
  | HSetLine c p high ok :: t => if (c =? chip) && (p =? pin) then Some (high, ok) else last_set chip pin t
  | _ :: t => last_set chip pin t
  end.

Definition duty_path (p : PwmChannel) : string := path_join (channel_path_ p) "duty_cycle".

(** ** Paths are different *)

Lemma append_cancel_r a b s : a +:+ s = b +:+ s → a = b.
Proof.
  intros Hab. pose proof (f_equal String.length Hab) as Hlen. rewrite !string_length_append in Hlen.
  assert (Hl : String.length a = String.length b) by lia. clear Hlen. revert b Hab Hl.
  induction a as [|c a IH]; intros [|c' b] Hab Hl; try done. rewrite !append_cons in Hab. injection Hab as <- Hab.
  injection Hl as Hl. f_equal. by apply IH.
Qed.

Lemma pretty_go_last x s : s ≠ EmptyString → last_char (pretty_N_go x s) = last_char s.
Proof.
  revert s. induction (N.lt_wf_0 x) as [x _ IH]; intros s Hs.
  assert (x = 0 ∨ 0 < x)%N as [->|?] by lia; [by rewrite pretty_N_go_0|].
  rewrite pretty_N_go_step by done. rewrite IH; [by destruct s|by apply N.div_lt|done].
Qed.

Lemma pretty_last (z : Z) : ∃ c, last_char (pretty z) = Some c ∧ c ≠ "/"%char.
Proof.
  assert (Hp : ∀ p : positive, ∃ c, last_char (pretty p) = Some c ∧ c ≠ "/"%char).
  { intros p. unfold pretty, pretty_positive, pretty, pretty_N. rewrite decide_False by done.
    rewrite pretty_N_go_step by lia. rewrite pretty_go_last by done. cbn. eexists. split; [done|].
    unfold pretty_N_char. by repeat case_match. }
  destruct z as [|p|p]; [by eexists|apply Hp|]. destruct (Hp p) as (c & Hc & Hne). exists c. split; [|done].
  unfold pretty, pretty_Z. rewrite last_char_append; [done|]. intros E. by rewrite E in Hc.
Qed.

Lemma path_join_inj a b b' : path_join a b = path_join a b' → b = b'.
Proof.
  unfold path_join. destruct (_ || _); intros E; [by apply (inj _) in E|]. apply (inj _) in E. by apply (inj (String.append "/")) in E.
Qed.

Lemma path_join_last a b : b ≠ EmptyString → last_char (path_join a b) = last_char b.
Proof.
  intros Hb. unfold path_join. destruct (_ || _); [by apply last_char_append|].
  rewrite append_assoc. by apply last_char_append.
Qed.

Lemma channel_dir chip (z : Z) : path_join (path_join chip ("pwm" +:+ pretty z)) "duty_cycle" = path_join chip ("pwm" +:+ pretty z) +:+ "/duty_cycle".
Proof.
  destruct (pretty_last z) as (c & Hc & Hne).
  assert (Hl : last_char (path_join chip ("pwm" +:+ pretty z)) = Some c).
  { rewrite path_join_last by done. rewrite last_char_append; [done|]. intros E. by rewrite E in Hc. }
  unfold path_join at 1. rewrite Hl, bool_decide_false by congruence.
  assert (Hs : string_empty (path_join chip ("pwm" +:+ pretty z)) = false) by by destruct (path_join chip ("pwm" +:+ pretty z)).
  by rewrite Hs.
Qed.

Lemma duty_paths_differ chip (l r : Z) : l ≠ r →
  path_join (path_join chip ("pwm" +:+ pretty l)) "duty_cycle" ≠ path_join (path_join chip ("pwm" +:+ pretty r)) "duty_cycle".
Proof.
  intros Hlr E. rewrite !channel_dir in E. apply append_cancel_r, path_join_inj in E. apply (inj (String.append "pwm")) in E.
  by apply (inj pretty) in E.
Qed.

Section SysfsContract.
Context `{LlroundOutside} `{board : Board} (config : MotorConfig).
Hypothesis config_ok : motor_config_ok config.

(** A side outputs a raw speed: its duty cycle was handed to the file, and its pin
    has the direction. *)
Definition side_drives (raw : Z) (inverted : bool) (p : PwmChannel) (g : GpioPin) (t : hw_trace) : Prop :=
  let effective := effective_speed raw (raw_max_speed config) inverted in
  last_set (chip_ g) (pin_ g) t = Some (effective <? 0, true) ∧
  ∃ r, last_write (duty_path p) t = Some (pretty (duty_of effective (raw_max_speed config) (period_ns_ p)) +:+ newline, r) ∧ r ≠ OpenFailed.

Definition sysfs_inv (d : SysfsDriver) (t : hw_trace) : Prop :=
  sd_config d = config ∧ duty_path (left_pwm_ d) ≠ duty_path (right_pwm_ d) ∧
  pin_ (left_dir_ d) ≠ pin_ (right_dir_ d) ∧
  0 ≤ period_ns_ (left_pwm_ d) ≤ 10 ^ 9 ∧ 0 ≤ period_ns_ (right_pwm_ d) ≤ 10 ^ 9.

Definition sysfs_drives (l r : Z) (d : SysfsDriver) (t : hw_trace) : Prop :=
  side_drives l (left_inverted config) (left_pwm_ d) (left_dir_ d) t ∧
  side_drives r (right_inverted config) (right_pwm_ d) (right_dir_ d) t.

(** The duty cycle of an admitted speed fits the period. *)
Lemma duty_of_range raw inverted period : 0 ≤ period ≤ 10 ^ 9 →
  0 ≤ duty_of (effective_speed raw (raw_max_speed config) inverted) (raw_max_speed config) period ≤ period.
Proof.
  intros Hp. set (e := effective_speed _ _ _). pose proof config_ok as []. pose proof (typed_raw_max _ ok_typed) as [_ Hmax]. cbn in Hmax.
  assert (He : Z.abs e ≤ raw_max_speed config) by (unfold e, effective_speed, ClampI32; destruct inverted; lia).
  unfold duty_of. set (x := dmul _ _).
  assert (Hw : within x (1 * period)).
  { apply dmul_within; [lia|lia| |apply double_of_within; lia|lia].
    apply (ddiv_bound _ _ (Z.abs e) 1 (raw_max_speed config)); [lia..|apply double_of_within; lia|apply double_of_at_least; lia]. }
  rewrite Z.mul_1_l in Hw. destruct (llround_within x period) as (z & Hz & Hle); [unfold INT64_MAX; lia|done|].
  assert (Hnn : nonneg x).
  { apply nonneg_dmul; [apply nonneg_ddiv|]; apply nonneg_double_of; lia. }
  pose proof (i32_llround_nonneg x period ltac:(lia) Hw Hnn) as Hr. unfold std_llround in *. rewrite Hz in *. unfold default, id in *.
  rewrite wraps_id in Hr by (unfold in_s; cbn; lia). rewrite wrapu_id by (unfold in_u; lia). lia.
Qed.

Lemma duty_of_zero max period : 0 ≤ period ≤ 10 ^ 9 → 0 < max < 2 ^ 31 → duty_of 0 max period = 0.
Proof.
  intros Hp Hm. unfold duty_of. change (double_of (Z.abs 0)) with (S754_zero false).
  destruct (double_of_exact max) as (m & e & -> & _); [lia|]. cbn [ddiv SFdiv xorb].
  destruct (decide (period = 0)) as [->|]; [done|]. by destruct (double_of_exact period) as (m' & e' & -> & _); [lia|].
Qed.
(** One side writes its pin, then its duty cycle. *)
Lemma ApplyMotorSide_wp {S} raw inverted p g (s : S) t : 0 ≤ period_ns_ p ≤ 10 ^ 9 →
  xwp (ApplyMotorSide raw (raw_max_speed config) inverted p g)
    (λ _ s' t', s' = s ∧ ∃ text r high, t' = HWrite (duty_path p) text r :: HSetLine (chip_ g) (pin_ g) high true :: t ∧
                 side_drives raw inverted p g t')
    (λ _ s' _, s' = s) s t.
Proof.
  intros Hp. unfold ApplyMotorSide. apply xwp_bind. unfold SetValue, xwp at 1. destruct (gpio_set _ _ _ t) eqn:Eg; [|done].
  unfold SetDutyCycleNs. rewrite Z.min_l by by apply duty_of_range. unfold WriteInt, WriteText, xwp.
  case_bool_decide as Er; [done|]. split; [done|].
  do 3 eexists. split; [reflexivity|]. split; cbn.
  - by rewrite !Z.eqb_refl.
  - rewrite bool_decide_true by done. by eexists.
Qed.

Lemma side_drives_frame raw inverted p g p' g' text r high t :
  duty_path p' ≠ duty_path p → pin_ g' ≠ pin_ g → side_drives raw inverted p g t →
  side_drives raw inverted p g (HWrite (duty_path p') text r :: HSetLine (chip_ g') (pin_ g') high true :: t).
Proof.
  intros Hp Hg [H1 H2]. split; cbn.
  - rewrite (proj2 (Z.eqb_neq _ _) Hg). by rewrite andb_false_r.
  - by rewrite bool_decide_false.
Qed.

(** Both sides. *)
Lemma set_raw_wp {S} d l r (s : S) t : sysfs_inv d t →
  xwp (set_raw d l r) (λ _ s' t', s' = s ∧ sysfs_drives l r d t') (λ _ s' _, s' = s) s t.
Proof.
  intros (Hc & Hpath & Hpin & Hl & Hr). unfold set_raw. rewrite Hc. apply xwp_bind.
  eapply xwp_mono; [by apply ApplyMotorSide_wp| |done]. intros _ s' t' (-> & text & r1 & high & Et & Hleft).
  eapply xwp_mono; [by apply ApplyMotorSide_wp| |done]. intros _ s' t'' (-> & text' & r2 & high' & -> & Hright).
  split; [done|]. split; [|done]. by apply side_drives_frame.
Qed.

Lemma SetRawSpeeds_wp l r d t : sysfs_inv d t →
  xwp (SetRawSpeeds l r) (λ _ d' t', d' = d ∧ sysfs_drives l r d t') (λ _ d' _, d' = d) d t.
Proof. intros Hd. unfold SetRawSpeeds. apply xwp_bind, xwp_get. by apply set_raw_wp. Qed.

(** The invariant is about the driver's members only. *)
Lemma sysfs_inv_trace d t t' : sysfs_inv d t → sysfs_inv d t'.
Proof. done. Qed.

(** Programs that only write. *)
Definition writes_only {S A} (c : X hw_event S A) : Prop :=
  ∀ s0, xkeeps (λ s _, s = s0) (λ _ s _, s = s0) c.

Lemma WriteInt_writes_only {S} path v : writes_only (S:=S) (WriteInt path v).
Proof. intros s0 s t ->. unfold WriteInt, WriteText, xwp. by case_bool_decide. Qed.

Lemma SetValue_writes_only {S} g high : writes_only (S:=S) (SetValue g high).
Proof. intros s0 s t ->. unfold SetValue, xwp. by destruct (gpio_set _ _ _ _). Qed.

Lemma ChannelNumber_writes_only {S} path : writes_only (S:=S) (ChannelNumberFromPath path).
Proof. intros s0 s t ->. unfold ChannelNumberFromPath. xwp_step; [by xwp_step|]. destruct (std_stoull _) as [[]|]; by xwp_step. Qed.

Lemma pwm_shut_writes_only {S} p : writes_only (S:=S) (pwm_shut p).
Proof.
  intros s0. unfold pwm_shut, SetDutyCycleNs, DisableNoThrow.
  repeat first [xkeeps_step|apply WriteInt_writes_only|apply ChannelNumber_writes_only|apply xkeeps_try|intros ?].
Qed.

Lemma set_raw_writes_only {S} d l r : writes_only (S:=S) (set_raw d l r).
Proof.
  intros s0. unfold set_raw, ApplyMotorSide, SetDutyCycleNs.
  repeat first [xkeeps_step|apply WriteInt_writes_only|apply SetValue_writes_only].
Qed.

Lemma close_left_inv d t : sysfs_inv d t → xwp close_left (λ _, sysfs_inv) (λ _, sysfs_inv) d t.
Proof.
  intros Hd. unfold close_left. apply xwp_bind, xwp_get. xwp_step; [done|]. apply xwp_bind, xwp_modify.
  eapply xwp_mono; [by eapply pwm_shut_writes_only|..]; by intros ? ? ? ->.
Qed.

Lemma close_right_inv d t : sysfs_inv d t → xwp close_right (λ _, sysfs_inv) (λ _, sysfs_inv) d t.
Proof.
  intros Hd. unfold close_right. apply xwp_bind, xwp_get. xwp_step; [done|]. apply xwp_bind, xwp_modify.
  eapply xwp_mono; [by eapply pwm_shut_writes_only|..]; by intros ? ? ? ->.
Qed.

#[global, program] Instance sysfs_contract : DriverContract hw_event SysfsDriver config := {
  driver_inv := sysfs_inv; drives := sysfs_drives }.
Next Obligation.
  intros l r d t _ _ Hd. cbn. unfold SysfsSetSpeeds. apply xwp_try. eapply xwp_mono; [by apply SetRawSpeeds_wp|..].
  - by intros _ d' t' (-> & ?).
  - intros e d' t' ->. apply xwp_bind, xwp_try. eapply xwp_mono; [by apply SetRawSpeeds_wp|..].
    + intros _ d' t'' (-> & _). by apply xwp_throw.
    + intros _ d' t'' ->. by apply xwp_ret, xwp_throw.
Qed.
Next Obligation.
  intros d t Hd. cbn. unfold SysfsClose. apply xwp_bind. eapply xwp_mono; [by apply SetRawSpeeds_wp| |by intros ? ? ? ->].
  intros _ d' t' (-> & _). apply xwp_bind. eapply xwp_mono; [by apply close_left_inv| |done].
  intros [] d' t'' Hd'. by apply close_right_inv.
Qed.

(** The driver that does nothing keeps the contract too. *)
#[global, program] Instance noop_contract : DriverContract hw_event unit config := {
  driver_inv := λ _ _, True; drives := λ _ _ _ _, True }.
Next Obligation. done. Qed.
Next Obligation. done. Qed.

(** At rest, both duty cycles are zero. *)
Lemma sysfs_drives_zero d t : sysfs_inv d t → sysfs_drives 0 0 d t →
  (∃ r, last_write (duty_path (left_pwm_ d)) t = Some ("0" +:+ newline, r) ∧ r ≠ OpenFailed) ∧
  (∃ r, last_write (duty_path (right_pwm_ d)) t = Some ("0" +:+ newline, r) ∧ r ≠ OpenFailed).
Proof.
  intros (_ & _ & _ & Hl & Hr) [[_ Hdl] [_ Hdr]]. pose proof config_ok as []. pose proof (typed_raw_max _ ok_typed) as [_ Hmax]. cbn in Hmax.
  assert (Hz : ∀ inverted, effective_speed 0 (raw_max_speed config) inverted = 0).
  { intros []; unfold effective_speed, ClampI32; lia. }
  rewrite !Hz, !duty_of_zero in * by lia. done.
Qed.
(** ** Construction *)

Lemma pwm_period_range hz : 0 < hz < 2 ^ 64 → 0 ≤ pwm_period hz ≤ 10 ^ 9.
Proof.
  intros Hz. unfold pwm_period. set (x := ddiv _ _).
  assert (Hw : within x (10 ^ 9)).
  { apply (ddiv_bound _ _ (10 ^ 9) (10 ^ 9) 1); [lia|lia|lia|by apply double_of_within|by apply double_of_positive]. }
  assert (Hn : nonneg x).
  { apply nonneg_ddiv; [by apply nonneg_double_of|]. pose proof (double_of_positive hz Hz). by destruct (double_of hz) as [| | |[]]. }
  destruct (llround_within x (10 ^ 9)) as (z & Ez & Hle); [unfold INT64_MAX; lia|done|].
  pose proof (i32_llround_nonneg x (10 ^ 9) ltac:(lia) Hw Hn) as Hr. unfold std_llround in *. rewrite Ez in *. unfold default, id in *.
  rewrite wraps_id in Hr by (unfold in_s; cbn; lia). rewrite wrapu_id by (unfold in_u; lia). lia.
Qed.

Lemma new_pwm_wp {S} root chip ch hz (s : S) t :
  xwp (new_pwm root chip ch hz)
    (λ p _ _, channel_path_ p = path_join (path_join root ("pwmchip" +:+ pretty chip)) ("pwm" +:+ pretty ch) ∧ period_ns_ p = pwm_period hz)
    (λ _ _ _, True) s t.
Proof.
  unfold new_pwm. apply xwp_after; intros b ??. xwp_step; [done|]. apply xwp_after; intros b' ??. apply xwp_bind.
  eapply (xwp_mono _ (λ p _ _, channel_path_ p = path_join (path_join root ("pwmchip" +:+ pretty chip)) ("pwm" +:+ pretty ch) ∧ period_ns_ p = pwm_period hz) _ (λ _ _ _, True)).
  - xwp_step; [|by xwp_step]. do 2 (apply xwp_after; intros ???). by xwp_step.
  - intros p s2 t2 Hp. do 4 (apply xwp_after; intros ???). by xwp_step.
  - done.
Qed.

Lemma new_pin_wp {S} chip pin (s : S) t :
  xwp (new_pin chip pin) (λ g _ _, g = mk_pin chip pin) (λ _ _ _, True) s t.
Proof. unfold new_pin, xwp. by destruct (gpio_open _ _), (gpio_request _ _ _). Qed.

(** An exception destroys what was built and goes on. *)
Lemma xwp_unwind {S A} (c : X hw_event S A) (destroy : X hw_event S unit) Q s t :
  xwp c Q (λ _ _ _, True) s t → xwp (try_catch c (λ err, _ ← destroy; throw err)) Q (λ _ _ _, True) s t.
Proof.
  intros Hc. apply xwp_try. eapply xwp_mono; [exact Hc|done|]. intros e s' t' _. apply xwp_after. by intros.
Qed.

(** A driver that was built keeps its invariant and drives zero. *)
Theorem new_sysfs_driver_ready {S} (s : S) t :
  xwp (new_sysfs_driver config) (λ d s' t', sysfs_inv d t' ∧ sysfs_drives 0 0 d t') (λ _ _ _, True) s t.
Proof.
  pose proof config_ok as []. pose proof (typed_hz _ ok_typed) as [_ Hhz].
  unfold new_sysfs_driver. apply xwp_bind. eapply xwp_mono; [apply new_pwm_wp| |done]. intros left s1 t1 [Hlp Hln]. cbn beta.
  apply xwp_unwind, xwp_bind. eapply xwp_mono; [apply new_pwm_wp| |done]. intros right s2 t2 [Hrp Hrn]. cbn beta.
  apply xwp_unwind, xwp_bind. eapply xwp_mono; [apply new_pin_wp| |done]. intros ld s3 t3 ->. cbn beta.
  apply xwp_unwind, xwp_bind. eapply xwp_mono; [apply new_pin_wp| |done]. intros rd s4 t4 ->. cbn beta zeta.
  apply xwp_unwind, xwp_bind. set (d := mk_sysfs _ _ _ _ _).
  assert (Hi : ∀ t, sysfs_inv d t).
  { intros t'. unfold sysfs_inv, d, duty_path. cbn. rewrite Hlp, Hrp, Hln, Hrn.
    pose proof (pwm_period_range (pwm_hz config) ltac:(lia)). split_and!; try lia; try done. by apply duty_paths_differ. }
  eapply xwp_mono; [by apply set_raw_wp| |done]. intros _ s5 t5 (_ & Hd). by apply xwp_ret.
Qed.
End SysfsContract.
