(* ===== verification/HardwareTheorems.v ===== *)
(** * The hardware worker as a whole

    The service on top of the sysfs driver: from the construction of the driver
    through any sequence of calls. *)
From stdpp Require Import gmap pretty.
From S2P Require Import Prelude Cpp CppDouble HardwareMotor HardwareMotorSafety HardwareDriver.

#[local] Open Scope Z_scope.

Section Worker.
Context `{LlroundOutside} `{board : Board}.

(** The calls in the order in which they take the mutex. *)
Fixpoint serve (calls : list service_call) : X hw_event (MotorController * SysfsDriver) unit :=
  match calls with
  | [] => mret tt
  | c :: calls => _ ← service c; serve calls
  end.

(** [MotorController::FromConfig] for an enabled motor: when the constructor
    rejects the configuration its driver is destroyed. *)
Definition FromConfig {S} (config : MotorConfig) : X hw_event S (MotorController * SysfsDriver) :=
  d ← new_sysfs_driver config;
  _ ← try_catch (ValidateMotorConfig config) (λ err, _ ← destroy_sysfs_driver d; throw err);
  mret (new_controller config, d).

(** ... and for a disabled one, whose driver has no state. *)
Definition FromConfigDisabled {S} (config : MotorConfig) : X hw_event S (MotorController * unit) :=
  _ ← ValidateMotorConfig config;
  mret (new_controller config, tt).

Section Config.
Context (config : MotorConfig).
Hypothesis config_ok : motor_config_ok config.

#[local] Instance worker_contract : DriverContract hw_event SysfsDriver config := sysfs_contract config config_ok.

Abbreviation reached := (service_run (D:=SysfsDriver) config).

Lemma FromConfig_reached {S} (s : S) t m d s' t' :
  FromConfig config s t = (inr (m, d), s', t') → reached [] m d t'.
Proof.
  pose proof (new_sysfs_driver_ready config config_ok s t) as Hw. unfold xwp in Hw. unfold FromConfig, try_catch, mbind, X_bind.
  destruct (new_sysfs_driver config s t) as [[[e|d0] s0] t0]; [done|]. rewrite ValidateMotorConfig_accepts by done.
  intros [= <- <- <- <-]. destruct Hw as [Hi Hd]. by constructor.
Qed.

Lemma serve_reached calls hist m d t : reached hist m d t → Forall typed_call calls →
  ∃ m' d' t', serve calls (m, d) t = (inr tt, (m', d'), t') ∧ reached (reverse calls ++ hist) m' d' t'.
Proof.
  revert hist m d t. induction calls as [|c calls IH]; intros hist m d t Hr Ht; [by exists m, d, t|].
  apply Forall_cons in Ht as [Hc Ht].
  destruct (service_returns config config_ok hist c m d t) as (r & m1 & d1 & t1 & Es & _); [by apply service_run_safe|done|].
  destruct (IH (c :: hist) m1 d1 t1) as (m2 & d2 & t2 & Es2 & Hr2); [by eapply run_call|done|].
  exists m2, d2, t2. cbn [serve]. unfold mbind, X_bind. rewrite Es, Es2. split; [done|].
  by rewrite reverse_cons, <- (assoc_L (++)).
Qed.

(** C4: A hardware worker that was built on the sysfs driver answers every sequence of
    calls, and a stop, an expired watchdog tick or a shutdown returns with the tracks
    recorded at rest; unless the driver failed or was closed, the last text handed to
    both duty cycle files is zero. *)
Theorem hardware_worker_stops {S} (s : S) t0 m0 d0 s' t calls c :
  FromConfig config s t0 = (inr (m0, d0), s', t) → Forall typed_call calls → typed_call c →
  ∃ m d t1, serve calls (m0, d0) t = (inr tt, (m, d), t1) ∧
    (stops c m → ∃ r m' d' t', service c (m, d) t1 = (inr r, (m', d'), t') ∧ at_rest m' ∧
       (state_ m' ≠ Error → closed_ m' = false →
          (∃ w, last_write (duty_path (left_pwm_ d')) t' = Some ("0" +:+ newline, w) ∧ w ≠ OpenFailed) ∧
          (∃ w, last_write (duty_path (right_pwm_ d')) t' = Some ("0" +:+ newline, w) ∧ w ≠ OpenFailed))).
Proof.
  intros Hf Ht Hc. apply FromConfig_reached in Hf. destruct (serve_reached calls [] m0 d0 t Hf Ht) as (m & d & t1 & Es & Hr).
  exists m, d, t1. split; [done|]. intros Hst.
  assert (Hsafe : safe config (reverse calls ++ []) m d t1) by by apply service_run_safe.
  pose proof (stopping_call_rests config config_ok c m d t1 _ Hsafe Hst) as Hw. unfold xwp in Hw.
  destruct (service_returns config config_ok _ c m d t1 Hsafe Hc) as (r & m' & d' & t' & Ec & [Hfo _ _ _ _ _]).
  rewrite Ec in Hw. exists r, m', d', t'. split_and!; [done|done|]. intros He Hcl.
  pose proof (follows_rest config m' d' t' Hfo Hw He Hcl) as Hz. destruct Hfo as (_ & Hi & _).
  exact (sysfs_drives_zero config config_ok d' t' Hi Hz).
Qed.
End Config.
End Worker.

(** ** A board that answers *)

#[global] Instance zero_outside : LlroundOutside := λ _, 0.

(** Every file and pin works. *)
Definition good_board : Board := {|
  fs_write _ _ _ := Written; fs_is_directory _ _ := inr true; fs_polls _ := 100%nat;
  gpio_open _ _ := true; gpio_request _ _ _ := true; gpio_set _ _ _ _ := true |}.

(** Straight ahead at half speed, asked for three seconds. *)
Definition ahead : Twist :=
  let zero := double_of 0 in
  mk_twist (mk_vector3 (ddiv (double_of 1) (double_of 4)) zero zero) (mk_vector3 zero zero zero).
Definition demo_calls : list service_call := [CApplyVelocity ahead 4000 1000; CTick 1500].

Lemma demo_calls_typed : Forall typed_call demo_calls.
Proof. repeat constructor; vm_compute; done. Qed.

Lemma hardware_worker_stops_witness :
  ∃ m0 d0 t m d t1, FromConfig (board:=good_board) default_motor_config tt [] = (inr (m0, d0), tt, t) ∧
    serve (board:=good_board) demo_calls (m0, d0) t = (inr tt, (m, d), t1) ∧
    (stops (CTick 4000) m → ∃ r m' d' t', service (MotorDriver0:=sysfs_driver (board:=good_board)) (CTick 4000) (m, d) t1 = (inr r, (m', d'), t') ∧ at_rest m' ∧
       (state_ m' ≠ Error → closed_ m' = false →
          (∃ w, last_write (duty_path (left_pwm_ d')) t' = Some ("0" +:+ newline, w) ∧ w ≠ OpenFailed) ∧
          (∃ w, last_write (duty_path (right_pwm_ d')) t' = Some ("0" +:+ newline, w) ∧ w ≠ OpenFailed))).
Proof.
  assert (Hb : ∃ m0 d0 t, FromConfig (board:=good_board) default_motor_config tt [] = (inr (m0, d0), tt, t))
    by (do 3 eexists; vm_compute; reflexivity).
  destruct Hb as (m0 & d0 & t & Hb).
  destruct (hardware_worker_stops (board:=good_board) default_motor_config default_config_ok tt [] m0 d0 tt t demo_calls (CTick 4000))
    as (m & d & t1 & Hs & Hc); [exact Hb|exact demo_calls_typed|split; lia|].
  exists m0, d0, t, m, d, t1. split; [exact Hb|]. split; [exact Hs|exact Hc].
Defined.

(** The same calls move the tracks and then stop them. *)
Example demo_moves :
  match FromConfig (board:=good_board) default_motor_config tt [] with
  | (inr w, _, t) =>
      match serve (board:=good_board) demo_calls w t with
      | (_, (m, d), t) =>
          motion_ m = mk_motion 50 50 1 ∧ active_deadline_unix_ms_ m = Some 4000 ∧
          last_write (duty_path (right_pwm_ d)) t = Some ("15521" +:+ newline, Written)
      end
  | _ => False
  end.
Proof. vm_compute. done. Qed.

(** ** A fault of the left pin

    Once the right channel runs, the left direction pin fails. *)
Definition right_duty : string := "/sys/class/pwm/pwmchip0/pwm1/duty_cycle".
Definition left_pin_fault : Board := {|
  fs_write _ _ _ := Written; fs_is_directory _ _ := inr true; fs_polls _ := 100%nat;
  gpio_open _ _ := true; gpio_request _ _ _ := true;
  gpio_set _ pin _ t :=
    negb ((pin =? 5) && match last_write right_duty t with Some (text, _) => negb (String.eqb text ("0" +:+ newline)) | None => false end) |}.

(** When the left direction pin fails while the robot moves, the watchdog, a stop
    and the shutdown all write the left side first and give up there: the controller
    records rest and an error while the last duty cycle of the right channel is the one
    it was driving. *)
Theorem left_fault_keeps_right_running :
  match FromConfig (board:=left_pin_fault) default_motor_config tt [] with
  | (inr w, _, t) =>
      match serve (board:=left_pin_fault) (demo_calls ++ [CTick 4000; CStop; CShutdown]) w t with
      | (_, (m, d), t) =>
          motion_ m = mk_motion 0 0 2 ∧ state_ m = Error ∧ duty_path (right_pwm_ d) = right_duty ∧
          last_write right_duty t = Some ("15521" +:+ newline, Written)
      end
  | _ => False
  end.
Proof. vm_compute. done. Qed.

(** ** A controller without motors *)

#[local] Instance demo_contract : DriverContract hw_event unit default_motor_config := noop_contract default_motor_config.

Definition moving_controller : MotorController :=
  mk_motor_controller default_motor_config (mk_motion 50 50 1) (Some 4000) Ready true EmptyString false.
Definition shut_controller : MotorController :=
  mk_motor_controller default_motor_config (mk_motion 0 0 1) None Stopped false EmptyString true.

Lemma moving_reached : service_run default_motor_config [CApplyVelocity ahead 4000 1000] moving_controller tt [].
Proof. eapply run_call; [by apply (run_start _ tt [])|by repeat constructor|]. vm_compute. reflexivity. Qed.

Lemma shut_reached : service_run default_motor_config [CShutdown] shut_controller tt [].
Proof. eapply run_call; [by apply (run_start _ tt [])|done|]. vm_compute. reflexivity. Qed.

Lemma moving_under_watchdog_witness :
  ∃ dl, active_deadline_unix_ms_ moving_controller = Some dl ∧
    granted default_motor_config [CApplyVelocity ahead 4000 1000] dl ∧
    actuator_ready_ moving_controller = true ∧ state_ moving_controller ≠ Error.
Proof.
  apply (moving_under_watchdog default_motor_config default_config_ok _ moving_controller tt []); [exact moving_reached|].
  intros [Hl _]. discriminate Hl.
Defined.

Lemma stopping_call_stops_witness :
  ∃ r m' d' t', service (CTick 4000) (moving_controller, tt) [] = (inr r, (m', d'), t') ∧ at_rest m' ∧
    (state_ m' ≠ Error → closed_ m' = false → drives (E:=hw_event) 0 0 d' t').
Proof.
  apply (stopping_call_stops default_motor_config default_config_ok [CApplyVelocity ahead 4000 1000]); [exact moving_reached|split; lia|].
  intros dl Hdl. injection Hdl as <-. lia.
Defined.

Lemma unready_is_final_witness :
  ∃ r m' d' t', service (CApplyVelocity ahead 9000 8000) (shut_controller, tt) [] = (inr r, (m', d'), t') ∧
    actuator_ready_ m' = false ∧ at_rest m' ∧
    (∀ twist req now, CApplyVelocity ahead 9000 8000 = CApplyVelocity twist req now →
       r = RFailed FAILED_PRECONDITION "hardware actuator unavailable" ∧ m' = shut_controller ∧ d' = tt ∧ t' = []).
Proof.
  apply (unready_is_final default_motor_config default_config_ok [CShutdown]); [exact shut_reached|by repeat constructor|reflexivity].
Defined.

(** ** From a velocity to the duty cycles *)

(** What a side outputs for a percentage. *)
Definition side_in_range `{LlroundOutside} (speed : Z) (percent : double) (inverted : bool) (c : MotorConfig) : Prop :=
  let raw := raw_of speed percent c in
  let effective := effective_speed raw (raw_max_speed c) inverted in
  -100 ≤ speed ≤ 100 ∧ (raw = 0 ∨ cmd_raw_min_speed c ≤ Z.abs raw) ∧ Z.abs raw ≤ cmd_raw_max_speed c ∧ 0 ≤ speed * raw ∧
  (0 < cmd_raw_min_speed c → (raw = 0 ↔ speed = 0)) ∧
  0 ≤ duty_of effective (raw_max_speed c) (pwm_period (pwm_hz c)) ≤ pwm_period (pwm_hz c) ≤ 10 ^ 9.

(** C34: For every configuration that passes its checks and every finite velocity, in
    binary64 arithmetic and whatever llround does outside its range, the mixed speeds
    are percentages, the raw speeds keep to the configured command range and to their
    direction, and the duty cycles fit the PWM period. *)
Theorem commanded_speeds_in_range `{LlroundOutside} {E S} twist c (s : S) (t : list E) :
  motor_config_ok c → twist_typed twist → isfinite (vx (linear twist)) = true → isfinite (vz (angular twist)) = true →
  ∃ l r, MixTwistToTankSpeeds twist c s t = (inr (l, r), s, t) ∧
    side_in_range l (left_track_power_percent c) (left_inverted c) c ∧
    side_in_range r (right_track_power_percent c) (right_inverted c) c.
Proof.
  intros Hc Ht Fx Fz. destruct (mix_range twist c s t Hc Ht Fx Fz) as (l & r & Hm & Hl & Hr). exists l, r. split; [done|].
  pose proof (pwm_period_range (pwm_hz c)) as Hp. pose proof (ok_hz c Hc). pose proof (typed_hz c (ok_typed c Hc)) as [_ Hhz].
  assert (Hs : ∀ v p i, -100 ≤ v ≤ 100 → side_in_range v p i c); [|by split; apply Hs].
  intros v p i Hv. pose proof (raw_of_range v p c Hc) as (?&?&?&?). pose proof (duty_of_range c Hc (raw_of v p c) i (pwm_period (pwm_hz c))).
  unfold side_in_range. split_and!; try done; lia.
Qed.

Lemma commanded_speeds_in_range_witness :
  ∃ l r, MixTwistToTankSpeeds (E:=hw_event) ahead default_motor_config tt [] = (inr (l, r), tt, []) ∧
    side_in_range l (left_track_power_percent default_motor_config) (left_inverted default_motor_config) default_motor_config ∧
    side_in_range r (right_track_power_percent default_motor_config) (right_inverted default_motor_config) default_motor_config.
Proof.
  apply (commanded_speeds_in_range ahead default_motor_config tt []);
    [exact default_config_ok|by constructor|reflexivity|reflexivity].
Defined.

(** A stop after the shutdown reports a ready state with an actuator that is not. *)
Example stop_after_shutdown :
  match service (CStop) (shut_controller, tt) [] with
  | (inr (RMotion _ status), _, _) => hs_state status = Ready ∧ hs_actuator_ready status = false
  | _ => False
  end.
Proof. vm_compute. done. Qed.
