(* ===== verification/KvsChannel.v ===== *)
(** * Channels and counters of the video master

    Three headers of [devices/common/board/kvs_master]: the data channel that is
    shared by threads under a mutex ([serialized_data_channel.hpp]), the order of
    the steps of a WebRTC answer ([peer_negotiation.hpp]) and the lock-free
    counters of [mavlink_diagnostics.hpp], as a step relation of the threads that
    update them and of a thread that reads them. *)
From stdpp Require Import gmap.
From S2P Require Import Prelude Cpp.

#[local] Open Scope Z_scope.

(** ** The serialized data channel *)

Module SerializedDataChannel.
Section Channel.
Context {Channel : Type} `{EqDecision Channel} (empty : Channel).

Record channel_state := mk_state { channel_ : Channel; closed_ : bool }.
Definition unbound : channel_state := mk_state empty false.

(** The calls; each holds the mutex. *)
Inductive op := Bind (channel : Channel) | Close | Send (expected : Channel).

(** The result of a call, and the channel that [Send] handed to its writer. *)
Definition channel_step (o : op) (s : channel_state) : (bool * option Channel) * channel_state :=
  match o with
  | Bind c => if closed_ s then (false, None, s) else (true, None, mk_state c (closed_ s))
  | Close => (true, None, mk_state empty true)
  | Send expected =>
      if bool_decide (channel_ s = empty) || negb (bool_decide (channel_ s = expected)) then (false, None, s)
      else (true, Some (channel_ s), s)
  end.

Fixpoint channel_run (ops : list op) (s : channel_state) : list (op * (bool * option Channel)) * channel_state :=
  match ops with
  | [] => ([], s)
  | o :: ops =>
      let r := channel_step o s in
      let rest := channel_run ops r.2 in
      ((o, r.1) :: rest.1, rest.2)
  end.

(** The last channel a successful [Bind] installed with no [Close] since. *)
Fixpoint bound (ops : list op) (current : option Channel) : option Channel :=
  match ops with
  | [] => current
  | Bind c :: ops => bound ops (Some c)
  | Close :: ops => None
  | Send _ :: ops => bound ops current
  end.

Lemma run_app ops1 ops2 s : channel_run (ops1 ++ ops2) s =
  ((channel_run ops1 s).1 ++ (channel_run ops2 (channel_run ops1 s).2).1, (channel_run ops2 (channel_run ops1 s).2).2).
Proof.
  revert s. induction ops1 as [|o ops1 IH]; intros s; cbn; [by destruct (channel_run ops2 s)|]. by rewrite IH.
Qed.

Lemma closed_stays ops s : closed_ s = true → channel_ s = empty → closed_ (channel_run ops s).2 = true ∧ channel_ (channel_run ops s).2 = empty.
Proof.
  revert s. induction ops as [|o ops IH]; intros s Hc He; [done|]. cbn. apply IH.
  - destruct o; cbn; [by rewrite Hc|done|]. by rewrite bool_decide_true.
  - destruct o; cbn; [by rewrite Hc|done|]. by rewrite bool_decide_true.
Qed.

Lemma run_bound ops s : closed_ s = false →
  channel_ (channel_run ops s).2 = default empty (bound ops (Some (channel_ s))).
Proof.
  revert s. induction ops as [|o ops IH]; intros s Hc; [done|]. cbn [channel_run snd]. destruct o as [c| |e]; cbn [bound].
  - rewrite IH; cbn [channel_step]; rewrite Hc; done.
  - cbn. by apply closed_stays.
  - rewrite IH; cbn [channel_step]; destruct (_ || _); done.
Qed.

(** A writer runs only inside a [Send], on the channel that was asked for and that
    is the one bound last, and never after a [Close]. *)
Theorem writes_to_bound_channel before expected r written after :
  (channel_run (before ++ Send expected :: after) unbound).1 !! length before = Some (Send expected, (r, Some written)) →
  written = expected ∧ written ≠ empty ∧ Close ∉ before ∧ bound before (Some empty) = Some written.
Proof.
  assert (Hlen : ∀ ops s, length (channel_run ops s).1 = length ops).
  { induction ops as [|o ops IH]; intros s; cbn; [done|]. by rewrite IH. }
  rewrite run_app. cbn [fst]. rewrite lookup_app_r by (rewrite Hlen; done). rewrite Hlen, Nat.sub_diag. cbn.
  destruct (_ || _) eqn:E; [done|]. cbn. intros [= <- Hw]. bool_simpl. subst expected.
  assert (Hc : Close ∉ before).
  { intros (b1 & b2 & ->)%list_elem_of_split. rewrite run_app in H. cbn in H. apply H. by apply closed_stays. }
  assert (Hb : ∀ ops cur, Close ∉ ops → is_Some (bound ops (Some cur))).
  { induction ops as [|o ops IH]; intros cur Hn; [by eexists|]. apply not_elem_of_cons in Hn as [Hn1 Hn2].
    destruct o; cbn; [by apply IH|done|by apply IH]. }
  rewrite (run_bound before unbound eq_refl) in *. cbn [unbound channel_] in *.
  destruct (Hb before empty Hc) as [w Hw']. rewrite Hw' in *. cbn in *. split_and!; try done; congruence.
Qed.
End Channel.

Lemma writes_to_bound_channel_witness :
  (7 : Z) = 7 ∧ 7 ≠ 0 ∧ Close (Channel:=Z) ∉ [Bind 3; Bind 7] ∧ bound [Bind 3; Bind 7] (Some 0) = Some 7.
Proof.
  apply (writes_to_bound_channel (Channel:=Z) 0 [Bind 3; Bind 7] 7 true 7 [Close; Send 7]). vm_compute. reflexivity.
Defined.
End SerializedDataChannel.

(** ** The answer of a peer *)

Section Answer.
Context {Status : Type} {S : Type}.

Inductive answer_step := CreateAnswer (status : Status) | SetLocalDescription (status : Status) | SendAnswer (status : Status).

(** The three calls, which may answer anything. *)
Definition PrepareMasterAnswer (create set send : list answer_step → Status) (is_failure : Status → bool)
    (remote_can_trickle : bool) : X answer_step S Status :=
  λ s t,
    let status := create t in
    let t := CreateAnswer status :: t in
    if is_failure status then (inr status, s, t) else
    let status := set t in
    let t := SetLocalDescription status :: t in
    if is_failure status || negb remote_can_trickle then (inr status, s, t) else
    let status := send t in
    (inr status, s, SendAnswer status :: t).

(** The answer goes out only to a peer that takes candidates later, after it was
    created and installed. *)
Lemma answer_sent_after_install create set send is_failure trickle s t st :
  SendAnswer st ∉ t → SendAnswer st ∈ (PrepareMasterAnswer create set send is_failure trickle s t).2 →
  trickle = true ∧ ∃ s1 s2, (PrepareMasterAnswer create set send is_failure trickle s t).2 =
    SendAnswer st :: SetLocalDescription s2 :: CreateAnswer s1 :: t ∧ is_failure s1 = false ∧ is_failure s2 = false.
Proof.
  intros Hn. unfold PrepareMasterAnswer. destruct (is_failure (create t)) eqn:E1; cbn [snd].
  { intros [?|?]%elem_of_cons; done. }
  destruct (_ || _) eqn:E2; cbn [snd].
  { intros [?|[?|?]%elem_of_cons]%elem_of_cons; done. }
  bool_simpl. intros [He|[?|[?|?]%elem_of_cons]%elem_of_cons]%elem_of_cons; try done. injection He as ->. eauto 10.
Qed.
End Answer.

(** ** The diagnostic counters *)

Module MavlinkDiagnostics.

(** [struct Counters] of one operation. *)
Record Counters := mk_counters {
  started : Z; finished : Z; failed : Z; last_start_ms : Z; last_ms : Z; max_ms : Z }.

(** Where a thread is in its [Scope]: before each atomic access, with its locals. *)
Inductive scope :=
  | s_last_start (start : Z)                              (** [last_start_ms.store] *)
  | s_started (start : Z)                                 (** [++started] *)
  | s_running (start : Z) (fail : bool)                   (** the tracked operation *)
  | s_last (elapsed : Z) (fail : bool)                    (** [last_ms.store] *)
  | s_load_max (elapsed : Z) (fail : bool)                (** [max_ms.load] *)
  | s_cas (elapsed maximum : Z) (fail : bool)             (** the loop *)
  | s_failed (elapsed : Z) (fail : bool)                  (** [++failed] *)
  | s_finished (elapsed : Z)                              (** [++finished] *)
  | s_done (elapsed : Z).

(** A thread in [Line]: it reads [finished], then [started]. The counts that
    were right at its reads are kept beside what it read. *)
Inductive reader :=
  | r_idle
  | r_finished (value count : Z)
  | r_both (value_finished value_started count_finished count_started : Z).

(** [n_started] and [n_finished] count the scopes, without a width. *)
Record state := mk_state {
  counters : Counters; scopes : list scope; line : reader; n_started : Z; n_finished : Z }.

Definition set_started v c := mk_counters v (finished c) (failed c) (last_start_ms c) (last_ms c) (max_ms c).
Definition set_finished v c := mk_counters (started c) v (failed c) (last_start_ms c) (last_ms c) (max_ms c).
Definition set_failed v c := mk_counters (started c) (finished c) v (last_start_ms c) (last_ms c) (max_ms c).
Definition set_last_start v c := mk_counters (started c) (finished c) (failed c) v (last_ms c) (max_ms c).
Definition set_last v c := mk_counters (started c) (finished c) (failed c) (last_start_ms c) v (max_ms c).
Definition set_max v c := mk_counters (started c) (finished c) (failed c) (last_start_ms c) (last_ms c) v.

(** One access of one scope. [now] is what [NowMs] reads, [uncaught] whether an
    exception is leaving the scope, [spurious] a weak exchange that fails. *)
Inductive scope_step (c : Counters) : scope → Counters → scope → Prop :=
  | step_last_start start : scope_step c (s_last_start start) (set_last_start start c) (s_started start)
  | step_started start : scope_step c (s_started start) (set_started (u64 (started c + 1)) c) (s_running start false)
  | step_fail start b : scope_step c (s_running start b) c (s_running start true)
  | step_leave start b now uncaught : in_u 64 now →
      scope_step c (s_running start b) c (s_last (u64 (now - start)) (b || uncaught))
  | step_last e b : scope_step c (s_last e b) (set_last e c) (s_load_max e b)
  | step_load e b : scope_step c (s_load_max e b) c (s_cas e (max_ms c) b)
  | step_no_cas e m b : ¬ m < e → scope_step c (s_cas e m b) c (s_failed e b)
  | step_cas e m b : m < e → max_ms c = m → scope_step c (s_cas e m b) (set_max e c) (s_failed e b)
  | step_cas_fails e m b : m < e → scope_step c (s_cas e m b) c (s_cas e (max_ms c) b)
  | step_failed e b : scope_step c (s_failed e b) (if b : bool then set_failed (u64 (failed c + 1)) c else c) (s_finished e)
  | step_finished e : scope_step c (s_finished e) (set_finished (u64 (finished c + 1)) c) (s_done e).

(** What a step adds to the counts. *)
Definition starts (s : scope) : Z := match s with s_started _ => 1 | _ => 0 end.
Definition finishes (s : scope) : Z := match s with s_finished _ => 1 | _ => 0 end.

Inductive step : state → state → Prop :=
  | track st now : in_u 64 now →
      step st (mk_state (counters st) (scopes st ++ [s_last_start now]) (line st) (n_started st) (n_finished st))
  | access st i s c' s' : scopes st !! i = Some s → scope_step (counters st) s c' s' →
      step st (mk_state c' (<[i:=s']> (scopes st)) (line st) (n_started st + starts s) (n_finished st + finishes s))
  | read_finished st : line st = r_idle →
      step st (mk_state (counters st) (scopes st) (r_finished (finished (counters st)) (n_finished st)) (n_started st) (n_finished st))
  | read_started st v n : line st = r_finished v n →
      step st (mk_state (counters st) (scopes st) (r_both v (started (counters st)) n (n_started st)) (n_started st) (n_finished st))
  | line_done st v w n m : line st = r_both v w n m →
      step st (mk_state (counters st) (scopes st) r_idle (n_started st) (n_finished st)).

Definition initial : state := mk_state (mk_counters 0 0 0 0 0 0) [] r_idle 0 0.
Definition reachable (st : state) : Prop := rtc step initial st.

(** *** The invariant *)

(** Scopes that have started and not finished. *)
Definition active (s : scope) : Z :=
  match s with s_last_start _ | s_started _ | s_done _ => 0 | _ => 1 end.
Fixpoint count_active (l : list scope) : Z := match l with [] => 0 | s :: l => active s + count_active l end.

(** The time of a scope that is past its update of the maximum. *)
Definition recorded (s : scope) : option Z :=
  match s with s_failed e _ | s_finished e | s_done e => Some e | _ => None end.

Lemma count_active_app l s : count_active (l ++ [s]) = count_active l + active s.
Proof. induction l as [|x l IH]; cbn; [lia|]. rewrite IH. lia. Qed.

Lemma count_active_insert l i s s' : l !! i = Some s → count_active (<[i:=s']> l) = count_active l - active s + active s'.
Proof.
  revert i. induction l as [|x l IH]; intros [|i] Hi; [done|done|injection Hi as ->; cbn; lia|].
  change (<[S i:=s']> (x :: l)) with (x :: <[i:=s']> l). cbn [count_active]. rewrite (IH i) by done. lia.
Qed.

Lemma count_active_nonneg l : 0 ≤ count_active l.
Proof. induction l as [|s l IH]; cbn; [lia|]. destruct s; cbn; lia. Qed.

Record inv (st : state) : Prop := {
  inv_started : started (counters st) = u64 (n_started st);
  inv_finished : finished (counters st) = u64 (n_finished st);
  inv_active : n_started st - n_finished st = count_active (scopes st);
  inv_max s e : s ∈ scopes st → recorded s = Some e → e ≤ max_ms (counters st);
  inv_cas e m b : s_cas e m b ∈ scopes st → m ≤ max_ms (counters st);
  inv_max_from : max_ms (counters st) = 0 ∨ ∃ s, s ∈ scopes st ∧ recorded s = Some (max_ms (counters st));
  inv_line : match line st with
             | r_idle => True
             | r_finished v n => v = u64 n ∧ n ≤ n_finished st
             | r_both v w n m => v = u64 n ∧ w = u64 m ∧ n ≤ m
             end }.

(** A step of a scope: the counts, and the maximum, which only grows and reaches
    the time of a scope that passes its update. *)
Lemma scope_step_counts c s c' s' : scope_step c s c' s' →
  started c' = (if decide (starts s = 1) then u64 (started c + 1) else started c) ∧
  finished c' = (if decide (finishes s = 1) then u64 (finished c + 1) else finished c) ∧
  active s' - active s = starts s - finishes s.
Proof. destruct 1 as [| | | | | | | | |e b|]; cbn; split_and!; try done; try lia; by destruct b. Qed.

Lemma scope_step_max c s c' s' : scope_step c s c' s' →
  (∀ e m b, s = s_cas e m b → m ≤ max_ms c) → (∀ e, recorded s = Some e → e ≤ max_ms c) →
  max_ms c ≤ max_ms c' ∧ (∀ e, recorded s' = Some e → e ≤ max_ms c') ∧ (∀ e m b, s' = s_cas e m b → m ≤ max_ms c') ∧
  (max_ms c' = max_ms c ∧ (∀ e, recorded s = Some e → recorded s' = Some e) ∨ recorded s' = Some (max_ms c')).
Proof.
  intros Hs Hcas Hrec. destruct Hs as [| | | | | |e m b Hm|e m b Hm Hmax|e m b Hm|e b|]; cbn in *; split_and!; try done; try lia; try (by left);
    try (intros e0 [= <-]); try (intros e0 m0 b0 [= <- <- <-]); try lia; try (by right); try (by destruct b).
  - specialize (Hcas e m b eq_refl). lia.
  - specialize (Hrec e eq_refl). destruct b; cbn; lia.
  - left. by destruct b.
Qed.

Lemma u64_succ n : u64 (u64 n + 1) = u64 (n + 1).
Proof. unfold wrapu. by rewrite Zplus_mod_idemp_l. Qed.

Lemma counters_step_inv st st' : step st st' → inv st → inv st'.
Proof.
  intros Hs [H1 H2 H3 H4 H5 H6 H7].
  destruct Hs as [st now _|st i s c' s' Hi Hstep|st Hl|st v n Hl|st v w n m Hl].
  - constructor; cbn; try done.
    + rewrite count_active_app. cbn. lia.
    + intros s e [Hin| ->%list_elem_of_singleton]%elem_of_app; [eauto|done].
    + intros e m b [Hin|?%list_elem_of_singleton]%elem_of_app; [eauto|done].
    + destruct H6 as [?|(s & Hin & ?)]; [by left|]. right. exists s. split; [|done]. apply elem_of_app. by left.
  - destruct (scope_step_counts _ _ _ _ Hstep) as (E1 & E2 & E3).
    destruct (scope_step_max _ _ _ _ Hstep) as (M1 & M2 & M3 & M4).
    { intros e m b ->. apply (H5 e m b). by eapply list_elem_of_lookup_2. }
    { intros e. apply H4. by eapply list_elem_of_lookup_2. }
    assert (Hin' : s' ∈ <[i:=s']> (scopes st)).
    { apply list_elem_of_lookup. exists i. apply list_lookup_insert_eq. by eapply lookup_lt_Some. }
    assert (Hold : ∀ x, x ∈ <[i:=s']> (scopes st) → x = s' ∨ x ∈ scopes st).
    { intros x (j & Hj)%list_elem_of_lookup. apply list_lookup_insert_Some in Hj as [(_&?&_)|(_&?)]; [by left|]. right. by eapply list_elem_of_lookup_2. }
    constructor; cbn.
    + rewrite E1, H1. destruct s; cbn; rewrite ?Z.add_0_r; try done. by apply u64_succ.
    + rewrite E2, H2. destruct s; cbn; rewrite ?Z.add_0_r; try done. by apply u64_succ.
    + rewrite (count_active_insert _ _ _ _ Hi). lia.
    + intros x e [->|Hx]%Hold He; [by apply M2|]. etrans; [by eapply H4|done].
    + intros e m b [<-|Hx]%Hold; [by eapply M3|]. etrans; [by eapply H5|done].
    + destruct M4 as [[Em Hk]|Hr]; [|right; by exists s']. rewrite Em. destruct H6 as [?|(x & Hx & Hr)]; [by left|]. right.
      apply list_elem_of_lookup in Hx as [j Hj]. destruct (decide (i = j)) as [->|Hne].
      * rewrite Hi in Hj. injection Hj as ->. exists s'. split; [done|by apply Hk].
      * exists x. split; [|done]. apply list_elem_of_lookup. exists j. by rewrite list_lookup_insert_ne.
    + destruct (line st); try done. destruct H7. split; [done|]. destruct s; cbn; lia.
  - by constructor.
  - pose proof (count_active_nonneg (scopes st)). rewrite Hl in H7. destruct H7. constructor; try done. cbn. split_and!; [done|done|lia].
  - by constructor.
Qed.

Lemma counters_reachable_inv st : reachable st → inv st.
Proof.
  unfold reachable. intros Hr. assert (Hi : inv initial).
  { constructor; try done; [by intros s e ?%not_elem_of_nil|by intros e m b ?%not_elem_of_nil|by left]. }
  revert Hi. induction Hr; [done|]. intros Hi. apply IHHr. by eapply counters_step_inv.
Qed.

(** In every interleaving of the lock-free counter updates a sampled line never
    shows more finished than started operations: the two values are the counts at the
    two reads, the later not smaller, and their 64-bit difference is the number of
    pending operations. *)
Theorem sample_consistent st v w n m : reachable st → line st = r_both v w n m →
  v = u64 n ∧ w = u64 m ∧ n ≤ m ∧ (m - n < 2 ^ 64 → u64 (w - v) = m - n).
Proof.
  intros Hr Hl. apply counters_reachable_inv in Hr as [_ _ _ _ _ _ H7]. rewrite Hl in H7. destruct H7 as (-> & -> & Hle). split_and!; try done.
  intros Hlt. unfold wrapu. rewrite <- Zminus_mod. apply Z.mod_small. lia.
Qed.

(** The recorded maximum is the longest time of the operations that are past its
    update, however their exchanges interleave. *)
Theorem maximum_exact st : reachable st →
  (∀ s e, s ∈ scopes st → recorded s = Some e → e ≤ max_ms (counters st)) ∧
  (max_ms (counters st) = 0 ∨ ∃ s, s ∈ scopes st ∧ recorded s = Some (max_ms (counters st))).
Proof. intros Hr. apply counters_reachable_inv in Hr as []. split; [|done]. eauto. Qed.
(** *** A run of one operation *)

(** The next state, computed. *)
Ltac normal_state :=
  match goal with |- rtc step ?s _ => let s' := eval vm_compute in s in replace s with s' by (vm_compute; reflexivity) end.
Ltac go_access := eapply rtc_l; [eapply (access _ 0%nat); [reflexivity|econstructor; cbn; try done]|]; normal_state.

Lemma demo_line : reachable (mk_state (mk_counters 1 0 0 5 0 0) [s_running 5 false] (r_both 0 1 0 1) 1 0).
Proof.
  eapply rtc_l; [by apply (track _ 5)|]. eapply rtc_l; [by apply read_finished|]. do 2 go_access.
  eapply rtc_l; [by eapply read_started|]. apply rtc_refl.
Qed.

Lemma sample_consistent_witness : 0 = u64 0 ∧ 1 = u64 1 ∧ 0 ≤ 1 ∧ (1 - 0 < 2 ^ 64 → u64 (1 - 0) = 1 - 0).
Proof.
  apply (sample_consistent (mk_state (mk_counters 1 0 0 5 0 0) [s_running 5 false] (r_both 0 1 0 1) 1 0)); [exact demo_line|reflexivity].
Defined.

Lemma demo_done : reachable (mk_state (mk_counters 1 1 0 5 7 7) [s_done 7] r_idle 1 1).
Proof.
  eapply rtc_l; [by apply (track _ 5)|]. do 2 go_access.
  eapply rtc_l; [eapply (access _ 0%nat); [reflexivity|by apply (step_leave _ 5 false 12 false)]|]. normal_state.
  do 2 go_access. eapply rtc_l; [eapply (access _ 0%nat); [reflexivity|apply step_cas; [by vm_compute|done]]|]. normal_state.
  do 2 go_access. apply rtc_refl.
Qed.

Lemma maximum_exact_witness :
  (∀ s e, s ∈ [s_done 7] → recorded s = Some e → e ≤ 7) ∧ (7 = 0 ∨ ∃ s, s ∈ [s_done 7] ∧ recorded s = Some 7).
Proof. exact (maximum_exact (mk_state (mk_counters 1 1 0 5 7 7) [s_done 7] r_idle 1 1) demo_done). Defined.
End MavlinkDiagnostics.
