(* ===== verification/VideoConfig.v ===== *)
(** * The settings of the video master

    [devices/common/board/kvs_master]: [ParseCli] of [src/config.cpp], the AWS
    credentials of the environment or of the shared file ([src/aws_env.cpp]) and
    the marker lines that the supervisor reads ([src/markers.cpp]). *)
From stdpp Require Import gmap pretty.
From S2P Require Import Prelude Cpp CppParse.

#[local] Open Scope Z_scope.

Definition EnvLookup : Type := string → option string.

(** ** Data *)

Record CameraConfig := mk_camera { camera_index : Z; width : Z; height : Z; framerate : Z; bitrate : Z; intra : Z }.
Definition default_camera : CameraConfig := mk_camera 0 1920 1080 30 8000000 30.

Inductive KvsSessionKind := kVideo | kMavlinkControl.

Record RuntimeConfig := mk_runtime_config {
  region : string; channel_name : string; worker_name : string; client_id : string;
  mcp_webrtc_socket_path : option string; board_video_bridge_socket_path : option string;
  mavlink_bridge_socket_path : option string;
  mcp_data_channel_label : string; mavlink_data_channel_label : string; session_kind : KvsSessionKind;
  mcp_data_channel_enabled : bool; prefer_ipv6 : bool; disable_ipv4_turn : bool; camera : CameraConfig }.

Record ParsedCli := mk_parsed_cli { show_help : bool; show_version : bool; camera_probe : bool; config : RuntimeConfig }.

Record AwsCredentials := mk_credentials { access_key_id : string; secret_access_key : string; session_token : option string }.

(** [Trim]: white space of both ends is removed. *)
Definition blanks : string :=
  String " " (String (Ascii.ascii_of_nat 9) (String (Ascii.ascii_of_nat 13) (String (Ascii.ascii_of_nat 10) EmptyString))).
Definition Trim (value : string) : string := drop_last_chars blanks (drop_chars blanks value).

Section Parser.
Context {E S : Type}.
Abbreviation P := (X E S).
Abbreviation options_map := (gmap string string).

(** ** Settings *)

Definition nonempty (v : option string) : option string := v ≫= λ v, if string_empty v then None else Some v.

Definition LookupValue (options : options_map) (key : string) (lookup_env : EnvLookup) (env_name fallback_env_name : string) : option string :=
  match options !! key with
  | Some v => Some v
  | None =>
      match (if negb (string_empty env_name) then nonempty (lookup_env env_name) else None) with
      | Some v => Some v
      | None => if negb (string_empty fallback_env_name) then lookup_env fallback_env_name else None
      end
  end.

Definition RequireValue (options : options_map) (key : string) (lookup_env : EnvLookup) (env_name fallback_env_name : string) : P string :=
  match LookupValue options key lookup_env env_name fallback_env_name with
  | Some v => if string_empty v then throw ("--" +:+ key +:+ " or " +:+ env_name +:+ " is required") else mret v
  | None => throw ("--" +:+ key +:+ " or " +:+ env_name +:+ " is required")
  end.

Definition ParseUnsigned (options : options_map) (key : string) (default_value : Z) : P Z :=
  match options !! key with
  | None => mret default_value
  | Some text =>
      match std_stoull text with
      | Some (v, rest) => if string_empty rest then mret (wrapu 32 v) else throw ("--" +:+ key +:+ " must be an unsigned integer")
      | None => throw ("--" +:+ key +:+ " must be an unsigned integer")
      end
  end.

Definition ParseBoolValue (value name : string) : P bool :=
  if bool_decide (value ∈ ["1"; "true"; "TRUE"; "yes"; "YES"; "on"; "ON"]) then mret true else
  if bool_decide (value ∈ ["0"; "false"; "FALSE"; "no"; "NO"; "off"; "OFF"]) then mret false else
  throw (name +:+ " must be a boolean").

Definition ParseBool (options : options_map) (key : string) (lookup_env : EnvLookup) (env_name : string) (default_value : bool) : P bool :=
  match options !! key with
  | Some v => ParseBoolValue v ("--" +:+ key)
  | None =>
      match nonempty (lookup_env env_name) with
      | Some v => ParseBoolValue v env_name
      | None => mret default_value
      end
  end.

Definition HasMavlinkCapability (lookup_env : EnvLookup) : bool :=
  match lookup_env "TXING_DAEMON_CAPABILITIES" with
  | None => false
  | Some capabilities => existsb (λ c, bool_decide (Trim c = "mavlink")) (getlines "," EmptyString capabilities)
  end.

(** The flags of the command line: [--help], [--version] and [--camera-probe]. *)
Record cli_flags := mk_flags { flag_help : bool; flag_version : bool; flag_probe : bool }.

Fixpoint ParseOptions (arguments : list string) (flags : cli_flags) (options : options_map) : P (options_map * cli_flags) :=
  match arguments with
  | [] => mret (options, flags)
  | argument :: rest =>
      if bool_decide (argument = "--help") || bool_decide (argument = "-h")
      then ParseOptions rest (mk_flags true (flag_version flags) (flag_probe flags)) options else
      if bool_decide (argument = "--version")
      then ParseOptions rest (mk_flags (flag_help flags) true (flag_probe flags)) options else
      if bool_decide (argument = "--camera-probe")
      then ParseOptions rest (mk_flags (flag_help flags) (flag_version flags) true) options else
      if negb (String.prefix "--" argument) then throw ("unexpected positional argument: " +:+ argument) else
      match split_at "=" argument with
      | Some (before, value) =>
          let key := drop_string 2 before in
          if string_empty key then throw "empty option name is not allowed" else ParseOptions rest flags (<[key := value]> options)
      | None =>
          let key := drop_string 2 argument in
          match rest with
          | [] => throw ("missing value for --" +:+ key)
          | value :: rest =>
              if string_empty key then throw "empty option name is not allowed" else ParseOptions rest flags (<[key := value]> options)
          end
      end
  end.

(** The build sets the name of the program. *)
Context (binary_name : string).

Definition default_runtime_config : RuntimeConfig :=
  mk_runtime_config EmptyString EmptyString binary_name binary_name None None None
    "txing.mcp.v1" "txing.mavlink.v1" kVideo false true false default_camera.

Definition ParseCli (arguments : list string) (lookup_env : EnvLookup) : P ParsedCli :=
  match arguments with
  | [] => throw "argv[0] must be present"
  | _ :: arguments =>
      r ← ParseOptions arguments (mk_flags false false false) ∅;
      let '(options, flags) := r in
      if flag_help flags || flag_version flags
      then mret (mk_parsed_cli (flag_help flags) (flag_version flags) (flag_probe flags) default_runtime_config) else
      let lookup key env_name fallback := LookupValue options key lookup_env env_name fallback in
      let worker_name := default binary_name (lookup "worker-name" "TXING_KVS_WORKER_NAME" EmptyString) in
      if string_empty worker_name then throw "--worker-name or TXING_KVS_WORKER_NAME must not be empty" else
      let client_id := default worker_name (lookup "client-id" "TXING_KVS_CLIENT_ID" EmptyString) in
      let bridge := nonempty (lookup "board-video-bridge-socket-path" "TXING_BOARD_VIDEO_BRIDGE_SOCKET_PATH" EmptyString) in
      mavlink ← match nonempty (lookup "mavlink-bridge-socket-path" "TXING_MAVLINK_BRIDGE_SOCKET_PATH" EmptyString) with
        | Some p => mret (Some p)
        | None =>
            if HasMavlinkCapability lookup_env
            then throw "--mavlink-bridge-socket-path or TXING_MAVLINK_BRIDGE_SOCKET_PATH is required when the mavlink capability is enabled"
            else mret None
        end;
      rc ← (if bool_decide (is_Some bridge) || flag_probe flags
            then mret (default EmptyString (lookup "region" "BOARD_VIDEO_REGION" "TXING_BOARD_VIDEO_REGION"),
                       default EmptyString (lookup "channel-name" "BOARD_VIDEO_CHANNEL_NAME" "TXING_BOARD_VIDEO_CHANNEL_NAME"))
            else r ← RequireValue options "region" lookup_env "BOARD_VIDEO_REGION" "TXING_BOARD_VIDEO_REGION";
                 c ← RequireValue options "channel-name" lookup_env "BOARD_VIDEO_CHANNEL_NAME" "TXING_BOARD_VIDEO_CHANNEL_NAME";
                 mret (r, c));
      let mcp := nonempty (lookup "mcp-webrtc-socket-path" "BOARD_MCP_WEBRTC_SOCKET_PATH" EmptyString) in
      prefer_ipv6 ← ParseBool options "prefer-ipv6" lookup_env "KVS_DUALSTACK_ENDPOINTS" true;
      disable_ipv4_turn ← ParseBool options "disable-ipv4-turn" lookup_env "KVS_DISABLE_IPV4_TURN" false;
      camera ← ParseUnsigned options "camera" (camera_index default_camera);
      width ← ParseUnsigned options "width" (width default_camera);
      height ← ParseUnsigned options "height" (height default_camera);
      framerate ← ParseUnsigned options "framerate" (framerate default_camera);
      bitrate ← ParseUnsigned options "bitrate" (bitrate default_camera);
      intra ← ParseUnsigned options "intra" (intra default_camera);
      mret (mk_parsed_cli (flag_help flags) (flag_version flags) (flag_probe flags)
        (mk_runtime_config rc.1 rc.2 worker_name client_id mcp bridge mavlink "txing.mcp.v1" "txing.mavlink.v1" kVideo
           (bool_decide (is_Some mcp)) prefer_ipv6 disable_ipv4_turn (mk_camera camera width height framerate bitrate intra)))
  end.
End Parser.

(** ** Credentials *)

Abbreviation IniSections := (gmap string (gmap string string)).

(** One line: the current section and the sections before it. *)
Definition ini_line (st : string * IniSections) (raw_line : string) : string * IniSections :=
  let '(current, sections) := st in
  let line := Trim raw_line in
  match line with
  | EmptyString => st
  | String first _ =>
      if Ascii.eqb first "#" || Ascii.eqb first ";" then st else
      if Ascii.eqb first "[" && bool_decide (last_char line = Some "]"%char) then
        let name := Trim (String.substring 1 (String.length line - 2) line) in
        (name, if bool_decide (is_Some (sections !! name)) then sections else <[name := ∅]> sections)
      else match split_at "=" line with
           | Some (key, value) =>
               if string_empty current then st
               else (current, <[current := <[Trim key := Trim value]> (default ∅ (sections !! current))]> sections)
           | None => st
           end
  end.

Definition newline_char : Ascii.ascii := Ascii.ascii_of_nat 10.
Definition ParseIniSections (content : string) : IniSections :=
  (foldl ini_line (EmptyString, ∅) (getlines newline_char EmptyString content)).2.

Section Credentials.
Context {E S : Type} (lookup_env : EnvLookup) (read_file : string → X E S string).
Abbreviation P := (X E S).

Definition SharedCredentialsPath : P string :=
  match nonempty (lookup_env "AWS_SHARED_CREDENTIALS_FILE") with
  | Some p => mret p
  | None =>
      match nonempty (lookup_env "HOME") with
      | Some home => mret (path_join (path_join home ".aws") "credentials")
      | None => throw "could not determine the shared AWS credentials file path"
      end
  end.

Definition LoadFromEnvironment : P (option AwsCredentials) :=
  match lookup_env "AWS_ACCESS_KEY_ID", lookup_env "AWS_SECRET_ACCESS_KEY" with
  | None, None => mret None
  | Some access, Some secret =>
      if string_empty access || string_empty secret
      then throw "AWS_ACCESS_KEY_ID and AWS_SECRET_ACCESS_KEY must either both be set or both be absent" else
      let token := nonempty (Trim <$> lookup_env "AWS_SESSION_TOKEN") in
      mret (Some (mk_credentials (Trim access) (Trim secret) token))
  | _, _ => throw "AWS_ACCESS_KEY_ID and AWS_SECRET_ACCESS_KEY must either both be set or both be absent"
  end.

Definition LoadFromSharedCredentialsFile : P AwsCredentials :=
  let profile := default "default" (lookup_env "AWS_PROFILE") in
  path ← SharedCredentialsPath;
  content ← read_file path;
  match ParseIniSections content !! profile with
  | None => throw ("shared AWS credentials file " +:+ path +:+ " does not contain the profile " +:+ profile)
  | Some section =>
      match nonempty (section !! "aws_access_key_id") with
      | None => throw ("profile " +:+ profile +:+ " is missing aws_access_key_id")
      | Some access =>
          match nonempty (section !! "aws_secret_access_key") with
          | None => throw ("profile " +:+ profile +:+ " is missing aws_secret_access_key")
          | Some secret => mret (mk_credentials access secret (nonempty (section !! "aws_session_token")))
          end
      end
  end.

Definition ResolveAwsCredentials : P AwsCredentials :=
  c ← LoadFromEnvironment;
  match c with
  | Some credentials => mret credentials
  | None => LoadFromSharedCredentialsFile
  end.
End Credentials.

(** ** Markers *)

Fixpoint SanitizeMarkerValue (value : string) : string :=
  match value with
  | EmptyString => EmptyString
  | String c rest =>
      String (if bool_decide (c ∈ [Ascii.ascii_of_nat 10; Ascii.ascii_of_nat 13; Ascii.ascii_of_nat 9]) then " "%char else c)
        (SanitizeMarkerValue rest)
  end.

Definition FormatMarkerLine (prefix : string) (fields : list (string * string)) : string :=
  foldl (λ line f, line +:+ " " +:+ f.1 +:+ "=" +:+ SanitizeMarkerValue f.2) prefix fields.

(** ** What an accepted command line promises *)

Definition camera_typed (c : CameraConfig) : Prop :=
  Forall (in_u 32) [camera_index c; width c; height c; framerate c; bitrate c; intra c].

Definition path_ok (p : option string) : Prop := p ≠ Some EmptyString.

Record video_config_ok (lookup_env : EnvLookup) (probe : bool) (c : RuntimeConfig) : Prop := {
  ok_worker : worker_name c ≠ EmptyString;
  (** Without the bridge, which delivers them, a channel and its region are given. *)
  ok_channel : board_video_bridge_socket_path c = None → probe = false → region c ≠ EmptyString ∧ channel_name c ≠ EmptyString;
  ok_mavlink : HasMavlinkCapability lookup_env = true → is_Some (mavlink_bridge_socket_path c);
  ok_paths : Forall path_ok [mcp_webrtc_socket_path c; board_video_bridge_socket_path c; mavlink_bridge_socket_path c];
  ok_mcp : mcp_data_channel_enabled c = true ↔ is_Some (mcp_webrtc_socket_path c);
  ok_kind : session_kind c = kVideo;
  ok_camera : camera_typed (camera c) }.

Lemma nonempty_ok p : path_ok (nonempty p).
Proof. destruct p as [[|c p]|]; done. Qed.

Section Accepted.
Context {E S : Type}.

Lemma video_ParseOptions_pure n : ∀ arguments flags options, (length arguments ≤ n)%nat →
  pure_prog (E:=E) (S:=S) (ParseOptions arguments flags options) (λ _, True).
Proof.
  induction n as [|n IH]; intros [|argument rest] flags options Hn; cbn [length] in Hn; try lia; [by apply pure_prog_ret..|].
  cbn [ParseOptions]. repeat pure_step; try (apply IH; cbn in *; lia); try done.
Qed.

Lemma RequireValue_pure options key lookup_env n f :
  pure_prog (E:=E) (S:=S) (RequireValue options key lookup_env n f) (λ v, v ≠ EmptyString).
Proof.
  unfold RequireValue. destruct (LookupValue _ _ _ _ _) as [v|]; [|apply pure_prog_throw].
  apply pure_prog_if; intros Hv; [apply pure_prog_throw|]. by apply pure_prog_ret, string_empty_false.
Qed.

Lemma ParseUnsigned_pure options key d : in_u 32 d → pure_prog (E:=E) (S:=S) (ParseUnsigned options key d) (in_u 32).
Proof.
  intros Hd. unfold ParseUnsigned. destruct (options !! key) as [text|]; [|by apply pure_prog_ret].
  destruct (std_stoull text) as [[v rest]|]; [|apply pure_prog_throw]. apply pure_prog_if; intros _; [|apply pure_prog_throw].
  apply pure_prog_ret, wrapu_in_u. lia.
Qed.

Lemma video_ParseBool_pure options key lookup_env n d : pure_prog (E:=E) (S:=S) (ParseBool options key lookup_env n d) (λ _, True).
Proof. unfold ParseBool, ParseBoolValue. repeat pure_step; done. Qed.

Lemma video_ParseCli_pure binary_name arguments lookup_env :
  pure_prog (E:=E) (S:=S) (ParseCli binary_name arguments lookup_env)
    (λ p, show_help p || show_version p = true ∨ video_config_ok lookup_env (camera_probe p) (config p)).
Proof.
  destruct arguments as [|name arguments]; [apply pure_prog_throw|]. unfold ParseCli.
  eapply pure_prog_bind; [by eapply video_ParseOptions_pure|]. intros [options flags] _.
  apply pure_prog_if; intros Hf; [by apply pure_prog_ret; left|]. cbv zeta.
  apply pure_prog_if; intros Hw; [apply pure_prog_throw|]. apply string_empty_false in Hw.
  set (bridge := nonempty (LookupValue options "board-video-bridge-socket-path" _ _ _)).
  set (mcp := nonempty (LookupValue options "mcp-webrtc-socket-path" _ _ _)).
  eapply (pure_prog_bind _ _ (λ m, path_ok m ∧ (HasMavlinkCapability lookup_env = true → is_Some m))).
  { set (m := nonempty _). assert (path_ok m) by apply nonempty_ok. destruct m as [p|]; [by apply pure_prog_ret|].
    apply pure_prog_if; intros Hm; [apply pure_prog_throw|]. apply pure_prog_ret. split; [done|congruence]. }
  intros mavlink [Hmp Hm].
  eapply (pure_prog_bind _ _ (λ rc, bridge = None → flag_probe flags = false → rc.1 ≠ EmptyString ∧ rc.2 ≠ EmptyString)).
  { apply pure_prog_if; intros Hb.
    - apply pure_prog_ret. intros -> Hp. rewrite Hp, bool_decide_false in Hb; [done|by intros []].
    - do 2 (eapply pure_prog_bind; [apply RequireValue_pure|intros ? ?]). by apply pure_prog_ret. }
  intros rc Hrc. do 2 (eapply pure_prog_bind; [apply video_ParseBool_pure|intros ? _]).
  do 6 (eapply pure_prog_bind; [apply ParseUnsigned_pure; vm_compute; split; done|intros ? ?]). apply pure_prog_ret. right.
  constructor; cbn; try done.
  - by repeat constructor; try apply nonempty_ok.
  - by rewrite bool_decide_eq_true.
  - unfold camera_typed. by rewrite !Forall_cons, Forall_nil.
Qed.
End Accepted.

(** What the command line accepts: names that are not empty, 32-bit camera settings, a
    region and a channel unless the bridge gives them, and the socket of the MAVLink
    bridge whenever the capability is enabled. *)
Theorem video_cli_accepts {E S} binary_name arguments lookup_env (s s' : S) (t t' : list E) parsed :
  ParseCli binary_name arguments lookup_env s t = (inr parsed, s', t') → show_help parsed = false → show_version parsed = false →
  video_config_ok lookup_env (camera_probe parsed) (config parsed).
Proof.
  intros Hp Hh Hv. apply (pure_prog_run _ _ _ _ _ _ _ (video_ParseCli_pure _ _ _)) in Hp as [[H|H] _]; [|done]. by rewrite Hh, Hv in H.
Qed.

Lemma video_cli_accepts_witness :
  ∃ parsed, ParseCli (E:=unit) "kvs" ["kvs"; "--region=eu-central-1"; "--channel-name"; "board"; "--width=640"]
      (λ _, None) tt [] = (inr parsed, tt, []) ∧
    region (config parsed) = "eu-central-1" ∧ video_config_ok (λ _, None) (camera_probe parsed) (config parsed).
Proof.
  eexists. split; [vm_compute; reflexivity|]. split; [reflexivity|].
  apply (video_cli_accepts (E:=unit) "kvs" ["kvs"; "--region=eu-central-1"; "--channel-name"; "board"; "--width=640"] (λ _, None) tt tt [] []);
    vm_compute; reflexivity.
Defined.

(** ** A credentials file is read back *)

Lemma drop_last_chars_last chars s : drop_last_chars chars s ≠ EmptyString →
  ∃ c, last_char (drop_last_chars chars s) = Some c ∧ string_mem c chars = false.
Proof.
  induction s as [|x s IH]; [done|]. cbn [drop_last_chars]. destruct (drop_last_chars chars s) as [|y r] eqn:Hr.
  - destruct (string_mem x chars) eqn:Hx; [done|]. intros _. by exists x.
  - intros _. destruct IH as (c & Hc & Hb); [done|]. exists c. split; [|done]. done.
Qed.

Lemma drop_last_chars_id chars s c : last_char s = Some c → string_mem c chars = false → drop_last_chars chars s = s.
Proof.
  intros Hl Hc. induction s as [|x s IH]; [done|]. cbn [drop_last_chars]. destruct s as [|y s].
  - cbn in Hl |- *. simplify_eq. by rewrite Hc.
  - rewrite IH by done. done.
Qed.

(** A text that [Trim] leaves alone ends in no blank. *)
Lemma trimmed_last v : v ≠ EmptyString → Trim v = v → ∃ c, last_char v = Some c ∧ string_mem c blanks = false.
Proof.
  intros Hv Ht. destruct (drop_last_chars_last blanks (drop_chars blanks v)) as (c & Hc & Hb); unfold Trim in Ht; rewrite Ht in *; [done|].
  by exists c.
Qed.

Lemma Trim_id c s l : string_mem c blanks = false → last_char (String c s) = Some l → string_mem l blanks = false →
  Trim (String c s) = String c s.
Proof.
  intros Hc Hl Hlb. unfold Trim. assert (Hd : drop_chars blanks (String c s) = String c s) by (cbn [drop_chars]; by rewrite Hc).
  rewrite Hd. by eapply drop_last_chars_id.
Qed.

Lemma getlines_line c piece l rest : string_mem c l = false →
  getlines c piece (l +:+ String c rest) = (piece +:+ l) :: getlines c EmptyString rest.
Proof.
  revert piece. induction l as [|x l IH]; intros piece Hm.
  - change (EmptyString +:+ String c rest) with (String c rest). cbn [getlines]. rewrite Ascii.eqb_refl. f_equal.
    induction piece as [|y piece IHp]; [done|]. rewrite append_cons. by f_equal.
  - cbn [string_mem] in Hm. apply orb_false_iff in Hm as [Hx Hm]. rewrite append_cons. cbn [getlines]. rewrite Ascii.eqb_sym, Hx.
    rewrite IH by done. by rewrite <- append_assoc.
Qed.

(** A profile as it stands in the file. *)
Definition line_end : string := String newline_char EmptyString.
Definition setting_line (key value : string) : string := key +:+ " = " +:+ value.
Definition profile_lines (p : string * AwsCredentials) : list string :=
  [("[" +:+ p.1 +:+ "]"); setting_line "aws_access_key_id" (access_key_id p.2);
   setting_line "aws_secret_access_key" (secret_access_key p.2)] ++
  match session_token p.2 with Some token => [setting_line "aws_session_token" token] | None => [] end.
Definition file_text (lines : list string) : string := foldr (λ l text, l +:+ String newline_char text) EmptyString lines.
Definition credentials_file (profiles : list (string * AwsCredentials)) : string := file_text (concat (profile_lines <$> profiles)).

(** One line, without blanks around it. *)
Definition value_ok (v : string) : Prop := v ≠ EmptyString ∧ Trim v = v ∧ string_mem newline_char v = false.
#[global] Instance value_ok_dec v : Decision (value_ok v).
Proof. unfold value_ok. apply _. Defined.
Definition profile_ok (p : string * AwsCredentials) : Prop :=
  value_ok p.1 ∧ value_ok (access_key_id p.2) ∧ value_ok (secret_access_key p.2) ∧
  (∀ token, session_token p.2 = Some token → value_ok token).

Definition profile_section (c : AwsCredentials) : gmap string string :=
  let section := <["aws_secret_access_key" := secret_access_key c]> (<["aws_access_key_id" := access_key_id c]> ∅) in
  match session_token c with Some token => <["aws_session_token" := token]> section | None => section end.

Lemma getlines_file lines : Forall (λ l, string_mem newline_char l = false) lines →
  getlines newline_char EmptyString (file_text lines) = lines.
Proof.
  induction 1 as [|l lines Hl _ IH]; [done|]. cbn [file_text foldr]. rewrite getlines_line by done. by f_equal.
Qed.

(** A setting of the current section. *)
Lemma ini_setting c key value current sections : value_ok value → current ≠ EmptyString →
  string_mem c (blanks +:+ "#;[") = false → string_mem "=" (String c key) = false → Trim (String c key +:+ " ") = String c key →
  ini_line (current, sections) (setting_line (String c key) value) =
    (current, <[current := <[String c key := value]> (default ∅ (sections !! current))]> sections).
Proof.
  intros (Hv & Ht & _) Hc Hm Hq Hk. rewrite string_mem_app in Hm. apply orb_false_iff in Hm as [Hb Hm].
  destruct (trimmed_last value Hv Ht) as (l & Hl & Hlb). unfold ini_line, setting_line. rewrite append_cons.
  rewrite (Trim_id c _ l); [|done| |done]; last first.
  { rewrite <- append_cons, append_assoc, last_char_append; done. }
  cbn [string_mem] in Hm. apply orb_false_iff in Hm as [H1 Hm]. apply orb_false_iff in Hm as [H2 Hm]. apply orb_false_iff in Hm as [H3 _].
  rewrite H1, H2, H3. cbn [orb andb]. rewrite <- append_cons.
  change (" = " +:+ value) with (" " +:+ String "=" (" " +:+ value)). rewrite append_assoc, split_at_app by (by rewrite string_mem_app, Hq).
  rewrite (proj2 (string_empty_false current)) by done. rewrite Hk.
  do 3 f_equal. destruct value as [|x value]; [done|]. unfold Trim in *. change (drop_chars blanks (" " +:+ String x value)) with (drop_chars blanks (String x value)). done.
Qed.

Lemma substring_inner name : String.substring 1 (String.length ("[" +:+ name +:+ "]") - 2) ("[" +:+ name +:+ "]") = name.
Proof.
  rewrite !string_length_append. replace (String.length "[" + (String.length name + String.length "]") - 2)%nat with (String.length name) by (cbn; lia).
  change (String.substring 1 (String.length name) ("[" +:+ name +:+ "]")) with (String.substring 0 (String.length name) (name +:+ "]")).
  induction name as [|c name IH]; [done|]. rewrite append_cons. cbn [String.length String.substring]. by rewrite IH.
Qed.

(** A section that is not there yet. *)
Lemma ini_section name current (sections : IniSections) : value_ok name → sections !! name = None →
  ini_line (current, sections) ("[" +:+ name +:+ "]") = (name, <[name := ∅]> sections).
Proof.
  intros (Hn & Ht & _) Hs. unfold ini_line.
  assert (Hl : last_char ("[" +:+ name +:+ "]") = Some "]"%char) by (rewrite !last_char_append; [done..|by destruct name]).
  rewrite append_cons in Hl |- *. rewrite (Trim_id _ _ "]"); [|done..].
  change (Ascii.eqb "[" "#" || Ascii.eqb "[" ";") with false. change (Ascii.eqb "[" "[") with true. cbn [andb].
  rewrite Hl, bool_decide_true by done. rewrite <- append_cons, substring_inner, Ht. rewrite bool_decide_false; [done|]. rewrite Hs. by intros [].
Qed.

Lemma ini_profile p current (sections : IniSections) : profile_ok p → sections !! p.1 = None →
  foldl ini_line (current, sections) (profile_lines p) = (p.1, <[p.1 := profile_section p.2]> sections).
Proof.
  intros (Hn & Ha & Hs & Hto) Hl. unfold profile_lines, profile_section. rewrite foldl_app. cbn [foldl].
  rewrite ini_section by done. pose proof (proj1 Hn) as Hne.
  rewrite ini_setting, lookup_insert_eq, insert_insert_eq by (done || by vm_compute). cbn [default].
  rewrite ini_setting, lookup_insert_eq, insert_insert_eq by (done || by vm_compute). cbn [default].
  destruct (session_token p.2) as [token|]; [|done]. cbn [foldl].
  rewrite ini_setting, lookup_insert_eq, insert_insert_eq by (by auto || by vm_compute). done.
Qed.

Lemma ini_profiles profiles current (sections : IniSections) : Forall profile_ok profiles → NoDup profiles.*1 →
  (∀ p, p ∈ profiles → sections !! p.1 = None) →
  (foldl ini_line (current, sections) (concat (profile_lines <$> profiles))).2 =
    foldl (λ m p, <[p.1 := profile_section p.2]> m) sections profiles.
Proof.
  revert current sections. induction profiles as [|p profiles IH]; intros current sections Hok Hnd Hs; [done|].
  rewrite fmap_cons in *. apply Forall_cons in Hok as [Hp Hok]. apply NoDup_cons in Hnd as [Hnp Hnd].
  cbn [concat foldl]. rewrite foldl_app, ini_profile; [|done|apply Hs; by left]. apply IH; [done..|].
  intros q Hq. rewrite lookup_insert_ne; [apply Hs; by right|]. intros Heq. apply Hnp. rewrite Heq. by apply list_elem_of_fmap_2.
Qed.

Lemma profiles_lookup profiles (sections : IniSections) p : NoDup profiles.*1 → p ∈ profiles →
  foldl (λ m p, <[p.1 := profile_section p.2]> m) sections profiles !! p.1 = Some (profile_section p.2).
Proof.
  revert p. induction profiles as [|q profiles IH] using rev_ind; intros p Hnd Hp; [by apply not_elem_of_nil in Hp|].
  rewrite foldl_app. cbn [foldl]. rewrite fmap_app in Hnd. apply NoDup_app in Hnd as (Hnd & Hdis & _).
  apply elem_of_app in Hp as [Hp| ->%list_elem_of_singleton]; [|by rewrite lookup_insert_eq].
  rewrite lookup_insert_ne; [by apply IH|]. intros Heq. eapply (Hdis p.1); [by apply list_elem_of_fmap_2|]. cbn. rewrite Heq. by left.
Qed.

Lemma profile_lines_one_line p : profile_ok p → Forall (λ l, string_mem newline_char l = false) (profile_lines p).
Proof.
  intros ((_ & _ & Hn) & (_ & _ & Ha) & (_ & _ & Hs) & Hto). unfold profile_lines, setting_line.
  apply Forall_app. split; [repeat constructor|destruct (session_token p.2) as [token|]; [|done]; destruct (Hto token) as (_ & _ & Ht); [done|]; repeat constructor];
    rewrite !string_mem_app; cbn; rewrite ?Hn, ?Ha, ?Hs, ?Ht; done.
Qed.

(** A shared AWS credentials file written for any list of profiles with distinct
    names is read back: the selected profile gives its key, secret and session token,
    from the path that the environment names. *)
Theorem shared_credentials_read_back {E S} (lookup_env : EnvLookup) (read_file : string → X E S string) profiles p path (s s' : S) (t t' : list E) :
  Forall profile_ok profiles → NoDup profiles.*1 → p ∈ profiles →
  lookup_env "AWS_ACCESS_KEY_ID" = None → lookup_env "AWS_SECRET_ACCESS_KEY" = None →
  default "default" (lookup_env "AWS_PROFILE") = p.1 →
  SharedCredentialsPath lookup_env s t = (inr path, s, t) → read_file path s t = (inr (credentials_file profiles), s', t') →
  ResolveAwsCredentials lookup_env read_file s t = (inr p.2, s', t').
Proof.
  intros Hok Hnd Hp Ha Hs Hpr Hpath Hread. pose proof (proj1 (Forall_forall _ _) Hok p Hp) as (_ & (Hna & _) & (Hns & _) & Hto).
  unfold ResolveAwsCredentials, LoadFromEnvironment, LoadFromSharedCredentialsFile. rewrite Ha, Hs.
  unfold mbind, X_bind, mret, X_ret. rewrite Hpath, Hread, Hpr. unfold ParseIniSections, credentials_file.
  rewrite getlines_file by (apply Forall_concat, Forall_fmap; eapply Forall_impl; [exact Hok|apply profile_lines_one_line]).
  rewrite ini_profiles by done. rewrite profiles_lookup by done. unfold profile_section. destruct p as [name [access secret token]]. cbn in *.
  destruct access as [|a access]; [done|]. destruct secret as [|b secret]; [done|].
  destruct token as [token|]; [destruct (Hto token eq_refl) as [Htn _]; destruct token as [|k token]; [done|]|];
    simplify_map_eq; reflexivity.
Qed.

(** Two profiles; the second one is asked for. *)
Definition demo_profiles : list (string * AwsCredentials) :=
  [("default", mk_credentials "AKIA1" "s3cr3t=" None); ("board a", mk_credentials "AKIA2" "b/c" (Some "tok en"))].
Definition demo_env : EnvLookup := λ name,
  if bool_decide (name = "AWS_PROFILE") then Some "board a" else if bool_decide (name = "HOME") then Some "/home/pi/" else None.
Definition demo_file (path : string) : X unit unit string :=
  if bool_decide (path = "/home/pi/.aws/credentials") then mret (credentials_file demo_profiles) else throw "not found".

Lemma shared_credentials_read_back_witness :
  ResolveAwsCredentials demo_env demo_file tt [] = (inr (mk_credentials "AKIA2" "b/c" (Some "tok en")), tt, []).
Proof.
  apply (shared_credentials_read_back demo_env demo_file demo_profiles ("board a", mk_credentials "AKIA2" "b/c" (Some "tok en"))
    "/home/pi/.aws/credentials" tt tt [] []); try (vm_compute; reflexivity).
  - unfold demo_profiles. rewrite !Forall_cons, Forall_nil. unfold profile_ok.
    split_and!; try done; try (apply (bool_decide_unpack _); vm_compute; exact I);
      cbn; intros token [= <-]; apply (bool_decide_unpack _); vm_compute; exact I.
  - apply (bool_decide_unpack _). vm_compute. exact I.
  - right. left.
Defined.

(** A variable that holds only white space passes the test for an empty value and is
    then trimmed: the key that comes out is empty. *)
Theorem blank_variable_gives_empty_key {E S} (read_file : string → X E S string) (s : S) (t : list E) :
  ResolveAwsCredentials (λ name, if bool_decide (name = "AWS_ACCESS_KEY_ID") then Some " " else
      if bool_decide (name = "AWS_SECRET_ACCESS_KEY") then Some "secret" else None) read_file s t =
    (inr (mk_credentials EmptyString "secret" None), s, t).
Proof. reflexivity. Qed.

(** ** A marker is one line *)

Lemma sanitized_one_line v : string_mem newline_char (SanitizeMarkerValue v) = false.
Proof.
  induction v as [|c v IH]; [done|]. cbn [SanitizeMarkerValue string_mem]. rewrite IH, orb_false_r.
  destruct (bool_decide _) eqn:Hc; [done|]. apply bool_decide_eq_false in Hc. apply Ascii.eqb_neq. intros <-. apply Hc. by left.
Qed.

(** Whatever the values of its fields, such as the text of an error. *)
Theorem marker_is_one_line prefix fields : string_mem newline_char prefix = false →
  forallb (λ f, negb (string_mem newline_char f.1)) fields = true →
  string_mem newline_char (FormatMarkerLine prefix fields) = false.
Proof.
  unfold FormatMarkerLine. revert prefix. induction fields as [|[name value] fields IH]; intros prefix Hp Hf; [done|].
  cbn in Hf. apply andb_true_iff in Hf as [Hn Hf]. apply negb_true_iff in Hn. cbn [foldl fst snd]. apply IH; [|done].
  rewrite !string_mem_app, sanitized_one_line, Hp, Hn. done.
Qed.
