(* ===== verification/VideoRuntime.v ===== *)
(** * The video master at run time

    [devices/common/board/kvs_master/src/runtime.cpp]: the main program [Run], which
    moves encoded frames of the camera into a KVS session, the loop that keeps the
    MAVLink control channel open in a thread of its own, and the camera probe. The
    sessions, the bridges to the daemon, the camera, the clocks and the signals are
    the class [RuntimeEnv]. [g_stop_requested] is read off the trace: it is set when
    a store or an earlier load says so, or when a signal has arrived since.

    Two things a C++ catch clause does not see end a run here: the use of a null
    pointer, and the end of the fuel of a loop, which stands for an execution that
    goes on. A statement about every fuel is a statement about every prefix of an
    execution that does not end. *)
From stdpp Require Import gmap pretty.
From S2P Require Import Prelude Cpp VideoConfig.

#[local] Open Scope Z_scope.

(** ** Data *)

Inductive BridgeVideoState := kStarting | kReady | kError | kStopped.
Inductive VideoCapturerStatus := cNotReady | cConfigured | cStreaming | cStopped | cError.
Record BridgeCredentials := mk_bridge_credentials { bc_credentials : AwsCredentials; expires_at : Z }.
Record BridgeWorkerConfig := mk_worker_config { runtime_config : RuntimeConfig; wc_credentials : BridgeCredentials }.
Record EncodedVideoFrame := mk_frame { frame_bytes : list Z; timestamp_us : Z; is_keyframe : bool }.
Record MavlinkControlChannelConfig := mk_control_channel {
  cc_region : string; cc_channel_name : string; cc_client_id : string; data_channel_label : string;
  data_channel_ordered : bool; data_channel_reliable : bool; cc_credentials : BridgeCredentials }.

#[global] Instance BridgeVideoState_eq_dec : EqDecision BridgeVideoState.
Proof. solve_decision. Defined.
#[global] Instance VideoCapturerStatus_eq_dec : EqDecision VideoCapturerStatus.
Proof. solve_decision. Defined.

(** Sessions are numbered in the order of their creation. *)
Inductive rt_object := OSession (id : nat) | OCapturer | OBridge | OMavlinkBridge.

(** A factory answers whether its pointer is not null. *)
Inductive rt_event :=
  | StopStored (v : bool)
  | StopLoaded (r : string + bool)
  | Sigaction (signal : string) (r : string + bool)
  | SystemNow (r : string + Z)
  | SteadyNow (r : string + Z)
  | SleptMs (ms : Z)
  | ThreadStarted (r : string + unit)
  | ThreadJoined
  | EnvSet (name : string) (value : option string)
  | MarkerEmitted (line : string)
  | Warned (message : string)
  | CredentialsResolved (r : string + AwsCredentials)
  | BridgeCreated (path : string) (r : string + bool)
  | WorkerConfigGot (worker version : string) (r : string + BridgeWorkerConfig)
  | CredentialsRefreshed (r : string + BridgeCredentials)
  | VideoReported (state : BridgeVideoState) (viewers : Z) (error : string) (r : string + unit)
  | SessionCreated (config : RuntimeConfig) (credentials : AwsCredentials) (r : string + bool)
  | SessionStarted (id : nat) (r : string + unit)
  | UnitPushed (id : nat) (bytes : list Z) (presentation_ts duration : Z) (keyframe : bool) (r : string + unit)
  | SessionStopped (id : nat)
  | FatalTaken (id : nat) (r : string + option string)
  | CapturerCreated (r : string + bool)
  | CapturerConfigured (camera : CameraConfig) (r : string + unit)
  | CapturerStarted (r : string + unit)
  | FrameGot (timeout_ms : Z) (r : string + option EncodedVideoFrame)
  | StatusGot (r : string + VideoCapturerStatus)
  | CapturerStopped
  | MavlinkBridgeCreated (path : string) (r : string + bool)
  | ControlConfigGot (worker version : string) (r : string + MavlinkControlChannelConfig)
  | ControlReported (ready : bool) (error : string) (r : string + unit)
  | Destroyed (o : rt_object).

Abbreviation rt_trace := (list rt_event).

Class RuntimeEnv := {
  rt_version : string;
  rt_signal : rt_trace → bool;
  rt_sigaction : string → rt_trace → bool;
  rt_system_now : rt_trace → Z;
  rt_steady_now : rt_trace → Z;
  rt_thread : rt_trace → string + unit;
  rt_resolve : rt_trace → string + AwsCredentials;
  rt_create_bridge : string → rt_trace → string + bool;
  rt_worker_config : string → string → rt_trace → string + BridgeWorkerConfig;
  rt_refresh : rt_trace → string + BridgeCredentials;
  rt_report : BridgeVideoState → Z → string → rt_trace → string + unit;
  rt_create_session : RuntimeConfig → AwsCredentials → rt_trace → string + bool;
  rt_start : nat → rt_trace → string + unit;
  rt_push : nat → list Z → Z → Z → bool → rt_trace → string + unit;
  rt_fatal : nat → rt_trace → string + option string;
  rt_create_capturer : rt_trace → string + bool;
  rt_configure : CameraConfig → rt_trace → string + unit;
  rt_capture : rt_trace → string + unit;
  rt_frame : rt_trace → string + option EncodedVideoFrame;
  rt_status : rt_trace → VideoCapturerStatus;
  rt_create_mavlink : string → rt_trace → string + bool;
  rt_control_config : string → string → rt_trace → string + MavlinkControlChannelConfig;
  rt_control_report : bool → string → rt_trace → string + unit }.

(** [g_stop_requested], as far as this thread knows. *)
Fixpoint stop_known (t : rt_trace) : bool :=
  match t with
  | [] => false
  | StopStored v :: _ => v
  | StopLoaded (inr true) :: _ => true
  | _ :: t => stop_known t
  end.

(** How many sessions were created; the next one gets this number. *)
Fixpoint sessions_created (t : rt_trace) : nat :=
  match t with
  | [] => 0
  | SessionCreated _ _ (inr true) :: t => Datatypes.S (sessions_created t)
  | _ :: t => sessions_created t
  end.

(** ** Runs that a catch clause does not end *)

Inductive halt := Crashed | StillRunning.

Section Halting.
Context {V : Type}.

Record rt_state := mk_state { halted : option halt; vars : V }.
Abbreviation R := (X rt_event rt_state).

Definition halt_with {A} (h : halt) : R A :=
  _ ← xmodify (λ s, mk_state (Some h) (vars s)); throw "halted".
Definition get_vars : R V := s ← xget; mret (vars s).
Definition set_vars (f : V → V) : R unit := xmodify (λ s, mk_state (halted s) (f (vars s))).

(** [try { c } catch (const std::exception& e) { h(e) }]. *)
Definition try_std {A} (c : R A) (h : string → R A) : R A := λ s t,
  match c s t with
  | (inl e, s, t) => match halted s with Some _ => (inl e, s, t) | None => h e s t end
  | r => r
  end.

(** What the destructors of a scope do, at its end or when an exception leaves it. *)
Definition scoped {A} (c : R A) (destructors : R unit) : R A := λ s t,
  match c s t with
  | (r, s, t) => match halted s with
                 | Some _ => (r, s, t)
                 | None => let '(_, s', t') := destructors s t in (r, s', t')
                 end
  end.

(** [while (body()) {}]. *)
Fixpoint while (fuel : nat) (body : R bool) : R unit :=
  match fuel with
  | O => halt_with StillRunning
  | Datatypes.S fuel => b ← body; if b : bool then while fuel body else mret tt
  end.

Definition answer {A} (e : string + A → rt_event) (f : rt_trace → A) : R A := xcall e (λ t, inr (f t)).
End Halting.
Arguments rt_state : clear implicits.

(** ** Time and arithmetic *)

Definition milliseconds (n : Z) : Z := n * 10 ^ 6.
Definition kCredentialRefreshMargin : Z := seconds 300.
Definition kCredentialRefreshMinDelay : Z := seconds 30.
Definition kBridgeRetryInitialDelay : Z := 1.
Definition kBridgeRetryMaxDelay : Z := 30.

Definition UINT64_MAX : Z := 2 ^ 64 - 1.
Definition SaturatingMultiply (value multiplier : Z) : Z :=
  if (value =? 0) || (multiplier =? 0) then 0 else
  if UINT64_MAX / multiplier <? value then UINT64_MAX else wrapu 64 (value * multiplier).
Definition TimestampUsTo100ns (timestamp_us : Z) : Z := SaturatingMultiply timestamp_us 10.
Definition SaturatingAdd (left right : Z) : Z :=
  if UINT64_MAX - right <? left then UINT64_MAX else wrapu 64 (left + right).
Definition DefaultFrameDuration100ns (config : CameraConfig) : Z := 10000000 / Z.max 1 (framerate config).

(** ** Steps that both threads take *)

Section Common.
Context `{env : RuntimeEnv} {V : Type} (fuel : nat).
Abbreviation R := (X rt_event (rt_state V)).

Definition stop_requested : R bool := answer StopLoaded (λ t, stop_known t || rt_signal t).
Definition store_stop (v : bool) : R unit := xemit (StopStored v).
Definition system_now : R Z := answer SystemNow rt_system_now.
Definition steady_now : R Z := answer SteadyNow rt_steady_now.
Definition EmitMarker (prefix : string) (fields : list (string * string)) : R unit :=
  xemit (MarkerEmitted (FormatMarkerLine prefix fields)).

Definition CredentialRefreshAt (expires_at : Z) : R Z :=
  now ← system_now;
  if now + kCredentialRefreshMargin + kCredentialRefreshMinDelay <? expires_at
  then mret (expires_at - kCredentialRefreshMargin) else mret (now + kCredentialRefreshMinDelay).

Definition SleepUntilStopped (duration : Z) : R unit :=
  start ← steady_now;
  let deadline := start + duration in
  while fuel (
    stop ← stop_requested;
    if stop : bool then mret false else
    now ← steady_now;
    if deadline <=? now then mret false else
    now ← steady_now;
    let remaining := deadline - now in
    _ ← xemit (SleptMs (Z.min (Z.quot remaining (10 ^ 6)) 200));
    mret true).

Definition SetEnvironmentFlag (name : string) (enabled : bool) (enabled_value : string) : R unit :=
  if enabled then xemit (EnvSet name (Some enabled_value)) else xemit (EnvSet name None).

Definition ConfigureKvsNetworkEnvironment (config : RuntimeConfig) : R unit :=
  _ ← SetEnvironmentFlag "KVS_DUALSTACK_ENDPOINTS" (prefer_ipv6 config) "ON";
  _ ← SetEnvironmentFlag "AWS_USE_DUALSTACK_ENDPOINT" (prefer_ipv6 config) "true";
  SetEnvironmentFlag "KVS_DISABLE_IPV4_TURN" (disable_ipv4_turn config) "ON".

Definition install_handler (signal : string) : R unit :=
  ok ← answer (Sigaction signal) (rt_sigaction signal);
  if ok : bool then mret tt else throw ("failed to register " +:+ signal +:+ " handler").
Definition InstallSignalHandlers : R unit := _ ← install_handler "SIGINT"; install_handler "SIGTERM".

(** A new session, [None] for a null pointer. *)
Definition create_session (config : RuntimeConfig) (credentials : AwsCredentials) : R (option nat) :=
  λ s t, let id := sessions_created t in
    (created ← xcall (SessionCreated config credentials) (rt_create_session config credentials);
     mret (if created : bool then Some id else None)) s t.
Definition session_start (id : nat) : R unit := xcall (SessionStarted id) (rt_start id).
Definition take_fatal_error (id : nat) : R (option string) := xcall (FatalTaken id) (rt_fatal id).
End Common.

(** ** The main program *)

(** The locals of [Run] that live across an exception. *)
Record run_vars := mk_vars {
  v_thread : bool; v_bridge : bool; v_session : option nat; v_capturer : bool;
  v_credentials : AwsCredentials; v_refresh_at : option Z; v_first_error : option string;
  v_ready_emitted : bool; v_previous_us : Z; v_have_previous : bool; v_pts : Z }.

Definition initial_vars : run_vars :=
  mk_vars false false None false (mk_credentials EmptyString EmptyString None) None None false 0 false 0.

Definition set_thread (x : bool) (v : run_vars) : run_vars :=
  mk_vars x (v_bridge v) (v_session v) (v_capturer v) (v_credentials v) (v_refresh_at v) (v_first_error v) (v_ready_emitted v) (v_previous_us v) (v_have_previous v) (v_pts v).
Definition set_bridge (x : bool) (v : run_vars) : run_vars :=
  mk_vars (v_thread v) x (v_session v) (v_capturer v) (v_credentials v) (v_refresh_at v) (v_first_error v) (v_ready_emitted v) (v_previous_us v) (v_have_previous v) (v_pts v).
Definition set_session (x : option nat) (v : run_vars) : run_vars :=
  mk_vars (v_thread v) (v_bridge v) x (v_capturer v) (v_credentials v) (v_refresh_at v) (v_first_error v) (v_ready_emitted v) (v_previous_us v) (v_have_previous v) (v_pts v).
Definition set_capturer (x : bool) (v : run_vars) : run_vars :=
  mk_vars (v_thread v) (v_bridge v) (v_session v) x (v_credentials v) (v_refresh_at v) (v_first_error v) (v_ready_emitted v) (v_previous_us v) (v_have_previous v) (v_pts v).
Definition set_credentials (x : AwsCredentials) (v : run_vars) : run_vars :=
  mk_vars (v_thread v) (v_bridge v) (v_session v) (v_capturer v) x (v_refresh_at v) (v_first_error v) (v_ready_emitted v) (v_previous_us v) (v_have_previous v) (v_pts v).
Definition set_refresh_at (x : option Z) (v : run_vars) : run_vars :=
  mk_vars (v_thread v) (v_bridge v) (v_session v) (v_capturer v) (v_credentials v) x (v_first_error v) (v_ready_emitted v) (v_previous_us v) (v_have_previous v) (v_pts v).
Definition set_first_error (x : option string) (v : run_vars) : run_vars :=
  mk_vars (v_thread v) (v_bridge v) (v_session v) (v_capturer v) (v_credentials v) (v_refresh_at v) x (v_ready_emitted v) (v_previous_us v) (v_have_previous v) (v_pts v).
Definition set_ready_emitted (x : bool) (v : run_vars) : run_vars :=
  mk_vars (v_thread v) (v_bridge v) (v_session v) (v_capturer v) (v_credentials v) (v_refresh_at v) (v_first_error v) x (v_previous_us v) (v_have_previous v) (v_pts v).
Definition set_previous (us : Z) (v : run_vars) : run_vars :=
  mk_vars (v_thread v) (v_bridge v) (v_session v) (v_capturer v) (v_credentials v) (v_refresh_at v) (v_first_error v) (v_ready_emitted v) us true (v_pts v).
Definition set_pts (x : Z) (v : run_vars) : run_vars :=
  mk_vars (v_thread v) (v_bridge v) (v_session v) (v_capturer v) (v_credentials v) (v_refresh_at v) (v_first_error v) (v_ready_emitted v) (v_previous_us v) (v_have_previous v) x.

Section Run.
Context `{env : RuntimeEnv} (fuel : nat).
Abbreviation R := (X rt_event (rt_state run_vars)).

Definition TryReportVideoState (state : BridgeVideoState) (viewer_count : Z) (error : string) : R unit :=
  v ← get_vars;
  if negb (v_bridge v) then mret tt else
  try_std (xcall (VideoReported state viewer_count error) (rt_report state viewer_count error))
    (λ e, xemit (Warned ("failed to report video state to board video bridge: " +:+ e))).

(** The loop of [GetWorkerConfigWithRetry]; [delay] is in seconds. *)
Fixpoint worker_config_retry (n : nat) (worker_name : string) (delay : Z) : R BridgeWorkerConfig :=
  match n with
  | O => halt_with StillRunning
  | Datatypes.S n =>
      stop ← stop_requested;
      if stop : bool then throw "stopped before board video bridge config was available" else
      r ← try_std (c ← xcall (WorkerConfigGot worker_name rt_version) (rt_worker_config worker_name rt_version); mret (Some c))
            (λ e, _ ← xemit (Warned ("board video bridge config unavailable: " +:+ e));
                  _ ← SleepUntilStopped fuel (seconds delay);
                  mret None);
      match r with
      | Some c => mret c
      | None => worker_config_retry n worker_name (Z.min (delay * 2) kBridgeRetryMaxDelay)
      end
  end.
Definition GetWorkerConfigWithRetry (worker_name : string) : R BridgeWorkerConfig :=
  worker_config_retry fuel worker_name kBridgeRetryInitialDelay.

Definition join_control_thread : R unit :=
  v ← get_vars;
  xwhen (v_thread v) (_ ← xemit ThreadJoined; set_vars (set_thread false)).

(** The session pointer, where it is used. *)
Definition session_pointer : R nat :=
  v ← get_vars;
  match v_session v with
  | Some id => mret id
  | None => halt_with Crashed
  end.

(** The configuration of the camera and the names of the bridge answer are replaced. *)
Definition effective_config_of (config : RuntimeConfig) (w : RuntimeConfig) : RuntimeConfig :=
  mk_runtime_config (region w) (channel_name w) (worker_name config) (client_id w) (mcp_webrtc_socket_path w)
    (board_video_bridge_socket_path config) (mavlink_bridge_socket_path w) (mcp_data_channel_label w)
    (mavlink_data_channel_label w) (session_kind w) (mcp_data_channel_enabled w) (prefer_ipv6 w) (disable_ipv4_turn w) (camera config).

Definition setup (config : RuntimeConfig) : R RuntimeConfig :=
  match board_video_bridge_socket_path config with
  | Some path =>
      created ← xcall (BridgeCreated path) (rt_create_bridge path);
      _ ← set_vars (set_bridge created);
      if negb created then throw "board video bridge client is not initialized" else
      w ← GetWorkerConfigWithRetry (worker_name config);
      _ ← set_vars (set_credentials (bc_credentials (wc_credentials w)));
      at_ ← CredentialRefreshAt (expires_at (wc_credentials w));
      _ ← set_vars (set_refresh_at (Some at_));
      mret (effective_config_of config (runtime_config w))
  | None =>
      c ← xcall CredentialsResolved rt_resolve;
      _ ← set_vars (set_credentials c);
      mret config
  end.

(** New credentials: the session is replaced by a new one. *)
Definition refresh (config : RuntimeConfig) : R unit :=
  refreshed ← xcall CredentialsRefreshed rt_refresh;
  _ ← set_vars (set_credentials (bc_credentials refreshed));
  at_ ← CredentialRefreshAt (expires_at refreshed);
  _ ← set_vars (set_refresh_at (Some at_));
  old ← session_pointer;
  _ ← xemit (SessionStopped old);
  new ← create_session config (bc_credentials refreshed);
  _ ← set_vars (set_session new);
  _ ← xemit (Destroyed (OSession old));
  match new with
  | None => throw "KVS session is not initialized after credential refresh"
  | Some id =>
      _ ← session_start id;
      _ ← set_vars (set_ready_emitted false);
      TryReportVideoState kStarting 0 EmptyString
  end.

Definition refresh_if_due (config : RuntimeConfig) : R unit :=
  v ← get_vars;
  match v_bridge v, v_refresh_at v with
  | true, Some at_ =>
      now ← system_now;
      if at_ <=? now then
        try_std (refresh config)
          (λ e, _ ← xemit (Warned ("failed to refresh board video bridge credentials: " +:+ e));
                now ← system_now;
                set_vars (set_refresh_at (Some (now + kCredentialRefreshMinDelay))))
      else mret tt
  | _, _ => mret tt
  end.

(** The time stamps of a frame: how long it is shown and when. *)
Definition frame_times (default_duration : Z) (frame : EncodedVideoFrame) (v : run_vars) : Z * Z :=
  if v_have_previous v && (v_previous_us v <? timestamp_us frame) then
    let duration := TimestampUsTo100ns (wrapu 64 (timestamp_us frame - v_previous_us v)) in
    (duration, SaturatingAdd (v_pts v) duration)
  else if v_have_previous v then (default_duration, SaturatingAdd (v_pts v) default_duration)
  else (default_duration, v_pts v).

Definition push_frame (default_duration : Z) (frame : EncodedVideoFrame) : R unit :=
  v ← get_vars;
  let times := frame_times default_duration frame v in
  _ ← set_vars (set_pts times.2);
  id ← session_pointer;
  _ ← xcall (UnitPushed id (frame_bytes frame) times.2 times.1 (is_keyframe frame)) (rt_push id (frame_bytes frame) times.2 times.1 (is_keyframe frame));
  _ ← set_vars (set_previous (timestamp_us frame));
  if negb (v_ready_emitted v) && is_keyframe frame then
    _ ← EmitMarker "TXING_KVS_READY" [("version", rt_version)];
    _ ← TryReportVideoState kReady 0 EmptyString;
    set_vars (set_ready_emitted true)
  else mret tt.

(** One round of the streaming loop; [false] leaves it. *)
Definition stream_round (config effective_config : RuntimeConfig) : R bool :=
  stop ← stop_requested;
  if stop : bool then mret false else
  id ← session_pointer;
  fatal ← take_fatal_error id;
  match fatal with
  | Some e => _ ← set_vars (set_first_error (Some e)); mret false
  | None =>
      _ ← refresh_if_due effective_config;
      frame ← xcall (FrameGot 100) rt_frame;
      match frame with
      | None => status ← answer StatusGot rt_status; mret (negb (bool_decide (status = cStopped)))
      | Some frame =>
          match frame_bytes frame with
          | [] => mret true
          | _ => _ ← push_frame (DefaultFrameDuration100ns (camera config)) frame; mret true
          end
      end
  end.

Definition stream (config effective_config : RuntimeConfig) : R unit :=
  _ ← TryReportVideoState kStarting 0 EmptyString;
  id ← session_pointer;
  _ ← session_start id;
  _ ← xcall (CapturerConfigured (camera effective_config)) (rt_configure (camera effective_config));
  _ ← xcall CapturerStarted rt_capture;
  while fuel (stream_round config effective_config).

Definition failure_marker (stage : string) : R unit :=
  v ← get_vars;
  match v_first_error v with
  | Some _ => EmitMarker "TXING_KVS_VIDEO_FAILURE" [("stage", stage)]
  | None => mret tt
  end.

(** What follows the streaming loop: the session and the camera are closed. *)
Definition close_video : R unit :=
  _ ← failure_marker "closing_video";
  id ← session_pointer;
  _ ← xemit (SessionStopped id);
  v ← get_vars;
  _ ← match v_first_error v with
      | Some e => _ ← TryReportVideoState kError 0 e; failure_marker "releasing_camera"
      | None => mret tt
      end;
  _ ← xemit CapturerStopped;
  failure_marker "camera_released".

(** After a failure the control thread goes on until the program is told to stop. *)
Definition end_run : R unit :=
  v ← get_vars;
  _ ← match v_first_error v with
      | Some _ =>
          xwhen (v_thread v)
            (_ ← while fuel (stop ← stop_requested;
                             if stop : bool then mret false else _ ← SleepUntilStopped fuel (milliseconds 200); mret true);
             set_vars (set_first_error None))
      | None => mret tt
      end;
  _ ← store_stop true;
  _ ← join_control_thread;
  v ← get_vars;
  match v_first_error v with
  | Some e => throw e
  | None => TryReportVideoState kStopped 0 EmptyString
  end.

Definition run_body (config : RuntimeConfig) : R unit :=
  _ ← xwhen (bool_decide (is_Some (mavlink_bridge_socket_path config)))
        (_ ← xcall ThreadStarted rt_thread; set_vars (set_thread true));
  effective_config ← try_std (setup config) (λ e, _ ← store_stop true; _ ← join_control_thread; throw e);
  _ ← ConfigureKvsNetworkEnvironment effective_config;
  v ← get_vars;
  session ← create_session effective_config (v_credentials v);
  _ ← set_vars (set_session session);
  capturer ← xcall CapturerCreated rt_create_capturer;
  _ ← set_vars (set_capturer capturer);
  if bool_decide (session = None) || negb capturer then
    _ ← store_stop true; _ ← join_control_thread; throw "runtime dependencies are not initialized" else
  _ ← try_std (stream config effective_config) (λ e, set_vars (set_first_error (Some e)));
  _ ← close_video;
  end_run.

(** The destructors of the locals, the last one declared first. *)
Definition run_destructors : R unit :=
  v ← get_vars;
  _ ← xwhen (v_capturer v) (xemit (Destroyed OCapturer));
  _ ← match v_session v with Some id => xemit (Destroyed (OSession id)) | None => mret tt end;
  _ ← xwhen (v_bridge v) (xemit (Destroyed OBridge));
  _ ← store_stop true;
  join_control_thread.

Definition Run (config : RuntimeConfig) (hooks_complete : bool) : R unit :=
  if negb hooks_complete then throw "runtime hooks are incomplete" else
  _ ← store_stop false;
  _ ← InstallSignalHandlers;
  scoped (run_body config) run_destructors.
End Run.

(** ** The control channel *)

(** [c_delay] is in seconds. *)
Record control_vars := mk_control_vars { c_delay : Z }.

Section Control.
Context `{env : RuntimeEnv} (fuel : nat).
Abbreviation R := (X rt_event (rt_state control_vars)).

Definition report_control (ready : bool) (error : string) : R unit :=
  xcall (ControlReported ready error) (rt_control_report ready error).

Definition control_config_of (config : RuntimeConfig) (channel : MavlinkControlChannelConfig) : RuntimeConfig :=
  mk_runtime_config (cc_region channel) (cc_channel_name channel) (worker_name config) (cc_client_id channel) None None
    (mavlink_bridge_socket_path config) (mcp_data_channel_label config) (data_channel_label channel) kMavlinkControl
    (mcp_data_channel_enabled config) (prefer_ipv6 config) (disable_ipv4_turn config) (camera config).

(** The session is watched until its credentials are due, or the program stops. *)
Definition watch_session (id : nat) (refresh_at : Z) : R unit :=
  while fuel (
    stop ← stop_requested;
    if stop : bool then mret false else
    now ← system_now;
    if refresh_at <=? now then mret false else
    fatal ← take_fatal_error id;
    match fatal with
    | Some e => throw e
    | None => _ ← SleepUntilStopped fuel (milliseconds 200); mret true
    end).

Definition control_session (id : nat) (expires_at : Z) : R unit :=
  _ ← session_start id;
  _ ← report_control true EmptyString;
  refresh_at ← CredentialRefreshAt expires_at;
  _ ← set_vars (λ _, mk_control_vars kBridgeRetryInitialDelay);
  _ ← watch_session id refresh_at;
  _ ← xemit (SessionStopped id);
  report_control false "MAVLink control KVS is restarting".

Definition control_attempt (config : RuntimeConfig) : R unit :=
  _ ← report_control false "MAVLink control KVS is starting";
  channel ← xcall (ControlConfigGot (worker_name config) rt_version) (rt_control_config (worker_name config) rt_version);
  if negb (data_channel_ordered channel) || negb (data_channel_reliable channel)
  then throw "MAVLink bridge requires an ordered reliable data channel" else
  let control_config := control_config_of config channel in
  _ ← ConfigureKvsNetworkEnvironment control_config;
  session ← create_session control_config (bc_credentials (cc_credentials channel));
  match session with
  | None => throw "MAVLink KVS session is not initialized"
  | Some id => scoped (control_session id (expires_at (cc_credentials channel))) (xemit (Destroyed (OSession id)))
  end.

(** A bridge client for the time of [c]; [null] when there is none. *)
Definition with_mavlink_bridge (path : string) (null : R unit) (c : R unit) : R unit :=
  created ← xcall (MavlinkBridgeCreated path) (rt_create_mavlink path);
  if created : bool then scoped c (xemit (Destroyed OMavlinkBridge)) else null.

Definition control_failed (path error : string) : R unit :=
  _ ← try_std (with_mavlink_bridge path (mret tt) (report_control false error)) (λ _, mret tt);
  _ ← xemit (Warned ("MAVLink control KVS unavailable: " +:+ error));
  v ← get_vars;
  _ ← SleepUntilStopped fuel (seconds (c_delay v));
  set_vars (λ v, mk_control_vars (Z.min (c_delay v * 2) kBridgeRetryMaxDelay)).

Definition control_round (config : RuntimeConfig) (path : string) : R bool :=
  stop ← stop_requested;
  if stop : bool then mret false else
  _ ← try_std (with_mavlink_bridge path (throw "MAVLink bridge client is not initialized") (control_attempt config)) (control_failed path);
  mret true.

Definition RunMavlinkControlLoop (config : RuntimeConfig) : R unit :=
  match mavlink_bridge_socket_path config with
  | None => mret tt
  | Some path => while fuel (control_round config path)
  end.
End Control.

(** ** The camera probe *)

Record probe_vars := mk_probe { p_frames : Z; p_saw_keyframe : bool; p_first_error : option string }.

Section Probe.
Context `{env : RuntimeEnv} (fuel : nat).
Abbreviation R := (X rt_event (rt_state probe_vars)).

Definition kProbeFrameDeadline : Z := seconds 20.
Definition kProbeTargetFrames : Z := 30.

Definition probe_round (deadline : Z) : R bool :=
  stop ← stop_requested;
  if stop : bool then mret false else
  v ← get_vars;
  if kProbeTargetFrames <=? p_frames v then mret false else
  now ← steady_now;
  if deadline <=? now then mret false else
  frame ← xcall (FrameGot 100) rt_frame;
  match frame with
  | None => status ← answer StatusGot rt_status; mret (negb (bool_decide (status = cStopped)))
  | Some frame =>
      match frame_bytes frame with
      | [] => mret true
      | _ => _ ← set_vars (λ v, mk_probe (p_frames v + 1) (p_saw_keyframe v || is_keyframe frame) (p_first_error v)); mret true
      end
  end.

Definition probe_body (config : RuntimeConfig) : R unit :=
  _ ← EmitMarker "TXING_KVS_CAMERA_PROBE_START" [("camera", pretty (camera_index (camera config)))];
  _ ← try_std
        (_ ← xcall (CapturerConfigured (camera config)) (rt_configure (camera config));
         _ ← xcall CapturerStarted rt_capture;
         start ← steady_now;
         while fuel (probe_round (start + kProbeFrameDeadline)))
        (λ e, set_vars (λ v, mk_probe (p_frames v) (p_saw_keyframe v) (Some e)));
  _ ← xemit CapturerStopped;
  v ← get_vars;
  match p_first_error v with
  | Some e => throw e
  | None =>
      if p_frames v =? 0
      then throw "camera probe captured no encoded frames before the deadline; check camera permission and camera availability" else
      if negb (p_saw_keyframe v) then throw "camera probe captured frames but no H.264 keyframe" else
      EmitMarker "TXING_KVS_CAMERA_PROBE_OK" [("frames", pretty (p_frames v)); ("keyframe", "true")]
  end.

Definition RunCameraProbe (config : RuntimeConfig) (hook_set : bool) : R unit :=
  if negb hook_set then throw "runtime hooks are incomplete" else
  _ ← store_stop false;
  _ ← InstallSignalHandlers;
  capturer ← xcall CapturerCreated rt_create_capturer;
  if negb capturer then throw "runtime dependencies are not initialized" else
  scoped (probe_body config) (xemit (Destroyed OCapturer)).
End Probe.
