(* ===== verification/VideoRuntimeSafety.v ===== *)
(** * What the video master does

    The order of the effects of [Run] and of the control loop. A small Hoare logic
    for programs that may halt: [G] says which event may follow which trace, [C]
    after which trace a null pointer may be used, and a triple has a postcondition
    for a normal end and one for an exception; after a halt only the trace counts. *)
From stdpp Require Import gmap.
From S2P Require Import Prelude Cpp VideoConfig VideoRuntime.

#[local] Open Scope Z_scope.

Section Hoare.
Context (G : rt_event → rt_trace → Prop) (C : rt_trace → Prop) {V : Type}.
Abbreviation R := (X rt_event (rt_state V)).
Abbreviation assertion := (V → rt_trace → Prop).

Definition ht {A} (L : assertion) (c : R A) (Q : A → assertion) (Lx : string → assertion) : Prop :=
  ∀ v t, guarded G t → L v t →
    xwp c (λ a s' t', halted s' = None ∧ guarded G t' ∧ Q a (vars s') t')
      (λ e s' t', guarded G t' ∧ (halted s' = None → Lx e (vars s') t') ∧ (halted s' = Some Crashed → C t')) (mk_state None v) t.

Implicit Types (L : assertion) (Lx : string → assertion).

Lemma ht_mono {A} L L' (c : R A) Q Q' Lx Lx' :
  ht L' c Q' Lx' → (∀ v t, L v t → L' v t) → (∀ a v t, Q' a v t → Q a v t) → (∀ e v t, Lx' e v t → Lx e v t) → ht L c Q Lx.
Proof.
  intros Hc H1 H2 H3 v t Hg Hl. eapply xwp_mono; [by apply Hc, H1| |].
  - intros a s' t' (Hh & Hg' & Hq). auto.
  - intros e s' t' (Hg' & Hq & Hcr). auto.
Qed.

Lemma ht_pre {A} L L' (c : R A) Q Lx : ht L' c Q Lx → (∀ v t, L v t → L' v t) → ht L c Q Lx.
Proof. intros Hc Hl. by eapply ht_mono. Qed.

(** A fact of the starting state may be assumed. *)
Lemma ht_fact {A} L (P : Prop) (c : R A) Q Lx : (∀ v t, L v t → P) → (P → ht L c Q Lx) → ht L c Q Lx.
Proof. intros HP Hc v t Hg Hl. apply Hc; eauto. Qed.

Lemma ht_ret {A} (a : A) L (Q : A → assertion) Lx : (∀ v t, L v t → Q a v t) → ht L (mret a) Q Lx.
Proof. intros HQ v t Hg Hl. apply xwp_ret. auto. Qed.
Lemma ht_throw {A} e L (Q : A → assertion) Lx : (∀ v t, L v t → Lx e v t) → ht L (throw e) Q Lx.
Proof. intros HL v t Hg Hl. apply xwp_throw. split_and!; [done|auto|done]. Qed.
Lemma ht_running {A} L (Q : A → assertion) Lx : ht L (halt_with StillRunning) Q Lx.
Proof. intros v t Hg _. unfold halt_with. apply xwp_bind, xwp_modify, xwp_throw. done. Qed.
Lemma ht_crash {A} L (Q : A → assertion) Lx : (∀ v t, L v t → C t) → ht L (halt_with Crashed) Q Lx.
Proof. intros HC v t Hg Hl. unfold halt_with. apply xwp_bind, xwp_modify, xwp_throw. split_and!; [done..|eauto]. Qed.

Lemma ht_bind {A B} (c : R A) (f : A → R B) L M Q Lx : ht L c M Lx → (∀ a, ht (M a) (f a) Q Lx) → ht L (c ≫= f) Q Lx.
Proof.
  intros Hc Hf v t Hg Hl. apply xwp_bind. eapply xwp_mono; [by apply Hc| |done].
  intros a [h v'] t' (Hh & Hg' & Hm). cbn in *. subst h. by apply Hf.
Qed.
Lemma ht_get {B} (f : V → R B) L Q Lx : (∀ x, ht (λ v t, v = x ∧ L v t) (f x) Q Lx) → ht L (get_vars ≫= f) Q Lx.
Proof. intros Hf v t Hg Hl. apply xwp_bind. unfold get_vars. apply xwp_bind, xwp_get, xwp_ret. by apply Hf. Qed.
Lemma ht_set f L (Q : unit → assertion) Lx : (∀ v t, L v t → Q tt (f v) t) → ht L (set_vars f) Q Lx.
Proof. intros HQ v t Hg Hl. unfold set_vars. apply xwp_modify. cbn. auto. Qed.
Lemma ht_emit e L (Q : unit → assertion) Lx : (∀ v t, L v t → G e t ∧ Q tt v (e :: t)) → ht L (xemit e) Q Lx.
Proof. intros HQ v t Hg Hl. apply xwp_emit. destruct (HQ v t Hl). done. Qed.
Lemma ht_call {A} (e : string + A → rt_event) f L (Q : A → assertion) Lx :
  (∀ v t r, f t = r → L v t → G (e r) t ∧ match r with inr a => Q a v (e r :: t) | inl m => Lx m v (e r :: t) end) →
  ht L (xcall e f) Q Lx.
Proof.
  intros HQ v t Hg Hl. destruct (HQ v t (f t) eq_refl Hl) as [HG Hr]. apply xwp_call; intros ? Hf; rewrite Hf in *; cbn; repeat split; (done || auto).
Qed.
Lemma ht_answer {A} (e : string + A → rt_event) f L (Q : A → assertion) Lx :
  (∀ v t, L v t → G (e (inr (f t))) t ∧ Q (f t) v (e (inr (f t)) :: t)) → ht L (answer e f) Q Lx.
Proof. intros HQ. apply ht_call. intros v t r <- Hl. by apply HQ. Qed.
Lemma ht_if {A} (b : bool) (c d : R A) L Q Lx :
  (b = true → ht L c Q Lx) → (b = false → ht L d Q Lx) → ht L (if b then c else d) Q Lx.
Proof. destruct b; auto. Qed.
Lemma ht_when b (c : R unit) L (Q : unit → assertion) Lx :
  (b = true → ht L c Q Lx) → (b = false → ∀ v t, L v t → Q tt v t) → ht L (xwhen b c) Q Lx.
Proof. destruct b; intros H1 H2; [auto|]. apply ht_ret. auto. Qed.
Lemma ht_try {A} (c : R A) h L Q Lx Lc :
  ht L c Q Lc → (∀ e, ht (Lc e) (h e) Q Lx) → ht L (try_std c h) Q Lx.
Proof.
  intros Hc Hh v t Hg Hl. pose proof (Hc v t Hg Hl) as Hw. unfold xwp, try_std in *.
  destruct (c _ t) as [[[e|a] [hl v']] t']; [|done]. cbn in *. destruct Hw as (Hg' & Hw & Hcr). destruct hl; [done|]. exact (Hh e v' t' Hg' (Hw eq_refl)).
Qed.

(** A destructor does not throw. *)
Definition no_throw {A} (d : R A) : Prop := ∀ s t, ∃ a s' t', d s t = (inr a, s', t').

Lemma no_throw_ret {A} (a : A) : no_throw (mret a).
Proof. by intros s t; do 3 eexists. Qed.
Lemma no_throw_emit e : no_throw (xemit e).
Proof. by intros s t; do 3 eexists. Qed.
Lemma no_throw_set f : no_throw (set_vars f).
Proof. by intros s t; do 3 eexists. Qed.
Lemma no_throw_get : no_throw get_vars.
Proof. by intros s t; do 3 eexists. Qed.
Lemma no_throw_bind {A B} (c : R A) (f : A → R B) : no_throw c → (∀ a, no_throw (f a)) → no_throw (c ≫= f).
Proof. intros Hc Hf s t. destruct (Hc s t) as (a & s' & t' & Hr). unfold mbind, X_bind. rewrite Hr. apply Hf. Qed.
Lemma no_throw_when b (c : R unit) : no_throw c → no_throw (xwhen b c).
Proof. destruct b; [done|]. intros _. apply no_throw_ret. Qed.

Lemma ht_scoped {A} (c : R A) d L M Mx (Q : A → assertion) Lx : no_throw d →
  ht L c M Mx → (∀ a, ht (M a) d (λ _, Q a) (λ _ _ _, False)) → (∀ e, ht (Mx e) d (λ _, Lx e) (λ _ _ _, False)) →
  ht L (scoped c d) Q Lx.
Proof.
  intros Hn Hc Hd Hx v t Hg Hl. pose proof (Hc v t Hg Hl) as Hw. unfold xwp, scoped in *.
  destruct (c _ t) as [[[e|a] [hl v']] t']; cbn in *.
  - destruct Hw as (Hg' & Hw & Hcr). destruct hl as [h|]; [done|]. pose proof (Hx e v' t' Hg' (Hw eq_refl)) as Hw'. unfold xwp in Hw'.
    destruct (Hn (mk_state None v') t') as ([] & s2 & t2 & Hr). rewrite Hr in *. destruct Hw' as (Hh2 & ? & ?). split_and!; [done|done|]. by rewrite Hh2.
  - destruct Hw as (-> & Hg' & Hw). cbn. pose proof (Hd a v' t' Hg' Hw) as Hw'. unfold xwp in Hw'.
    destruct (Hn (mk_state None v') t') as ([] & s2 & t2 & Hr). by rewrite Hr in *.
Qed.

Lemma ht_while n (body : R bool) L Q Lx :
  ht L body (λ b, if b then L else Q tt) Lx → ht L (while n body) Q Lx.
Proof.
  intros Hb. induction n as [|n IH]; cbn [while]; [apply ht_running|]. eapply ht_bind; [exact Hb|].
  intros []; [exact IH|]. apply ht_ret. auto.
Qed.

(** ** Quiet steps: clocks, sleeps, loads, warnings *)

Definition quiet (e : rt_event) : bool :=
  match e with
  | StopLoaded _ | SystemNow _ | SteadyNow _ | SleptMs _ | Warned _ | EnvSet _ _ | Sigaction _ _ => true
  | _ => false
  end.

(** [L] does not see quiet events, and [G] allows them. *)
Definition unseen (L : assertion) : Prop := ∀ e v t, quiet e = true → L v t → G e t ∧ L v (e :: t).

Context `{env : RuntimeEnv}.

Lemma ht_quiet_emit e L Lx : unseen L → quiet e = true → ht L (xemit e) (λ _, L) Lx.
Proof. intros Hu He. apply ht_emit. intros v t Hl. by apply Hu. Qed.
Lemma ht_quiet_answer {A} (e : string + A → rt_event) f L Lx : unseen L → (∀ r, quiet (e r) = true) → ht L (answer e f) (λ _, L) Lx.
Proof. intros Hu He. apply ht_answer. intros v t Hl. by apply Hu. Qed.
Lemma ht_stop_requested L Lx : unseen L → ht L stop_requested (λ b v t, L v t ∧ (b = true → stop_known t = true)) Lx.
Proof.
  intros Hu. apply ht_answer. intros v t Hl. destruct (Hu (StopLoaded (inr (stop_known t || rt_signal t))) v t eq_refl Hl) as [Hg Hl'].
  split_and!; [done|done|]. intros ->. done.
Qed.
Lemma ht_stop_quiet L Lx : unseen L → ht L stop_requested (λ _, L) Lx.
Proof. intros Hu. eapply ht_mono; [by apply (ht_stop_requested L Lx)|done| |done]. by intros b v t [? _]. Qed.
Lemma ht_system_now L Lx : unseen L → ht L system_now (λ _, L) Lx.
Proof. intros Hu. by apply ht_quiet_answer. Qed.
Lemma ht_steady_now L Lx : unseen L → ht L steady_now (λ _, L) Lx.
Proof. intros Hu. by apply ht_quiet_answer. Qed.
Lemma ht_refresh_at L Lx x : unseen L → ht L (CredentialRefreshAt x) (λ _, L) Lx.
Proof. intros Hu. unfold CredentialRefreshAt. eapply ht_bind; [by apply ht_system_now|]. intros n. apply ht_if; intros _; by apply ht_ret. Qed.
Lemma ht_sleep fuel L Lx d : unseen L → ht L (SleepUntilStopped fuel d) (λ _, L) Lx.
Proof.
  intros Hu. unfold SleepUntilStopped. eapply ht_bind; [by apply ht_steady_now|]. intros start. cbv zeta. apply (ht_while _ _ _ (λ _, L)).
  eapply ht_bind; [by apply ht_stop_quiet|]. intros []; [by apply ht_ret|]. eapply ht_bind; [by apply ht_steady_now|]. intros now.
  apply ht_if; intros _; [by apply ht_ret|]. eapply ht_bind; [by apply ht_steady_now|]. intros now'.
  eapply ht_bind; [by apply ht_quiet_emit|]. intros []. by apply ht_ret.
Qed.
Lemma ht_network L Lx c : unseen L → ht L (ConfigureKvsNetworkEnvironment c) (λ _, L) Lx.
Proof.
  intros Hu. unfold ConfigureKvsNetworkEnvironment, SetEnvironmentFlag.
  do 2 (eapply ht_bind; [apply ht_if; intros _; by apply ht_quiet_emit|intros []]). apply ht_if; intros _; by apply ht_quiet_emit.
Qed.
Lemma ht_handlers L Lx : unseen L → (∀ e v t, L v t → Lx e v t) → ht L InstallSignalHandlers (λ _, L) Lx.
Proof.
  intros Hu HL. unfold InstallSignalHandlers, install_handler. apply (ht_bind _ _ _ (λ _, L)); [|intros []].
  all: eapply ht_bind; [by apply ht_quiet_answer|]; intros []; [by apply ht_ret|apply ht_throw; eauto].
Qed.
Lemma ht_create_session c credentials L (Q : option nat → assertion) Lx :
  (∀ v t r, L v t → G (SessionCreated c credentials r) t ∧
     match r with
     | inl m => Lx m v (SessionCreated c credentials r :: t)
     | inr b => Q (if b : bool then Some (sessions_created t) else None) v (SessionCreated c credentials r :: t)
     end) → ht L (create_session c credentials) Q Lx.
Proof.
  intros H v t Hg Hl. unfold create_session, xwp. cbv zeta. unfold xcall, mbind, X_bind, mret, X_ret.
  destruct (H v t (rt_create_session c credentials t) Hl) as [HG Hr]. destruct (rt_create_session c credentials t); cbn; repeat split; (done || auto).
Qed.
End Hoare.

(** ** Reading a trace of [Run] *)

Fixpoint thread_running (t : rt_trace) : bool :=
  match t with
  | [] => false
  | ThreadStarted (inr _) :: _ => true
  | ThreadJoined :: _ => false
  | _ :: t => thread_running t
  end.

(** The session that the program's pointer refers to. *)
Fixpoint pointer (t : rt_trace) : option nat :=
  match t with
  | [] => None
  | SessionCreated _ _ (inr true) :: t => Some (sessions_created t)
  | SessionCreated _ _ (inr false) :: _ => None
  | _ :: t => pointer t
  end.
(** A factory answered with a null pointer. *)
Fixpoint null_session (t : rt_trace) : Prop :=
  match t with
  | [] => False
  | SessionCreated _ _ (inr false) :: _ => True
  | _ :: t => null_session t
  end.

Fixpoint bridge_up (t : rt_trace) : bool :=
  match t with
  | [] => false
  | BridgeCreated _ (inr b) :: _ => b
  | _ :: t => bridge_up t
  end.

Definition failure_line (stage : string) : string := FormatMarkerLine "TXING_KVS_VIDEO_FAILURE" [("stage", stage)].
(** The first marker of a video failure was emitted. *)
Fixpoint video_failed (t : rt_trace) : bool :=
  match t with
  | [] => false
  | MarkerEmitted line :: t => bool_decide (line = failure_line "closing_video") || video_failed t
  | _ :: t => video_failed t
  end.
Fixpoint camera_released (t : rt_trace) : bool :=
  match t with
  | [] => false
  | CapturerStopped :: _ => true
  | _ :: t => camera_released t
  end.
Fixpoint camera_started (t : rt_trace) : bool :=
  match t with
  | [] => false
  | CapturerStarted _ :: _ => true
  | _ :: t => camera_started t
  end.
Fixpoint last_report (t : rt_trace) : option BridgeVideoState :=
  match t with
  | [] => None
  | VideoReported state _ _ _ :: _ => Some state
  | _ :: t => last_report t
  end.

(** The last frame that a session accepted: its time stamp and when it is shown. *)
Fixpoint last_push (t : rt_trace) : option (Z * Z) :=
  match t with
  | [] => None
  | UnitPushed _ _ pts _ _ (inr _) :: FrameGot _ (inr (Some frame)) :: _ => Some (timestamp_us frame, pts)
  | _ :: t => last_push t
  end.

(** The times of a frame, in exact arithmetic up to the largest 64-bit number. *)
Definition times_after (default_duration : Z) (previous : option (Z * Z)) (frame : EncodedVideoFrame) : Z * Z :=
  match previous with
  | None => (default_duration, 0)
  | Some (us, pts) =>
      let duration := if us <? timestamp_us frame then Z.min UINT64_MAX ((timestamp_us frame - us) * 10) else default_duration in
      (duration, Z.min UINT64_MAX (pts + duration))
  end.

Section Guards.
Context `{env : RuntimeEnv} (config : RuntimeConfig).

Definition ready_line : string := FormatMarkerLine "TXING_KVS_READY" [("version", rt_version)].
(** Readiness was announced since the session started. *)
Fixpoint ready_shown (t : rt_trace) : bool :=
  match t with
  | [] => false
  | MarkerEmitted line :: t => bool_decide (line = ready_line) || ready_shown t
  | SessionStarted _ (inr _) :: _ => false
  | _ :: t => ready_shown t
  end.

(** What may follow a trace of [Run]. *)
Definition run_guard (e : rt_event) (t : rt_trace) : Prop :=
  match e with
  | StopStored true => video_failed t = true → thread_running t = true → stop_known t = true
  | ThreadStarted _ => thread_running t = false
  | ThreadJoined => thread_running t = true ∧ stop_known t = true
  | SessionStarted id _ => pointer t = Some id ∧ video_failed t = false ∧ camera_released t = false
  | UnitPushed id bytes pts duration keyframe _ =>
      ∃ frame t', t = FrameGot 100 (inr (Some frame)) :: t' ∧ bytes = frame_bytes frame ∧ bytes ≠ [] ∧ keyframe = is_keyframe frame ∧
        pointer t = Some id ∧ video_failed t = false ∧ camera_released t = false ∧
        (duration, pts) = times_after (DefaultFrameDuration100ns (camera config)) (last_push t') frame
  | FrameGot _ (inr (Some frame)) => in_u 64 (timestamp_us frame)
  | MarkerEmitted line => line = ready_line → ready_shown t = false ∧ ∃ id b p d t', t = UnitPushed id b p d true (inr tt) :: t'
  | VideoReported kStarting _ _ _ => video_failed t = false
  | VideoReported kReady _ _ _ => ∃ id b p d t', t = MarkerEmitted ready_line :: UnitPushed id b p d true (inr tt) :: t'
  | VideoReported kError _ _ _ =>
      video_failed t = true ∧ camera_released t = false ∧ ∃ id t', t = SessionStopped id :: t' ∧ pointer t' = Some id
  | VideoReported kStopped _ _ _ => thread_running t = false ∧ camera_released t = true
  | CapturerStopped => camera_released t = false ∧ (video_failed t = true → bridge_up t = true → last_report t = Some kError)
  | _ => True
  end.
End Guards.
