(* ===== verification/VideoRunSafety.v ===== *)
(** * The order of the effects of [Run]

    Every execution of the main program of the video master, ended or not, keeps
    [run_guard]. *)
From stdpp Require Import gmap.
From S2P Require Import Prelude Cpp VideoConfig VideoRuntime VideoRuntimeSafety.

#[local] Open Scope Z_scope.
#[local] Arguments ready_line : simpl never.
#[local] Arguments failure_line : simpl never.
#[local] Arguments bool_decide : simpl never.
#[local] Arguments FormatMarkerLine : simpl never.

Lemma closing_not_ready `{RuntimeEnv} stage : failure_line stage ≠ ready_line.
Proof. intros [=]. Qed.

Lemma saturating_add a b : in_u 64 a → in_u 64 b → SaturatingAdd a b = Z.min UINT64_MAX (a + b).
Proof.
  unfold SaturatingAdd, UINT64_MAX, in_u. intros Ha Hb. destruct (Z.ltb_spec (2 ^ 64 - 1 - b) a); [lia|].
  rewrite wrapu_id; [lia|]. unfold in_u. lia.
Qed.
Lemma us_to_100ns d : 0 < d → in_u 64 d → TimestampUsTo100ns d = Z.min UINT64_MAX (d * 10).
Proof.
  unfold TimestampUsTo100ns, SaturatingMultiply, UINT64_MAX, in_u. intros Hp Hd.
  rewrite (proj2 (Z.eqb_neq d 0)) by lia. cbn [orb Z.eqb]. change (10 =? 0) with false. cbn [orb].
  pose proof (Z.div_mod (2 ^ 64 - 1) 10 ltac:(lia)). pose proof (Z.mod_pos_bound (2 ^ 64 - 1) 10 ltac:(lia)).
  destruct (Z.ltb_spec ((2 ^ 64 - 1) / 10) d) as [Hl|Hl]; [lia|]. rewrite wrapu_id; [lia|]. unfold in_u. lia.
Qed.
Lemma default_duration_range c : in_u 64 (DefaultFrameDuration100ns c).
Proof.
  unfold DefaultFrameDuration100ns, in_u. split; [apply Z.div_pos; lia|].
  pose proof (Z.div_le_upper_bound 10000000 (Z.max 1 (framerate c)) 10000000). lia.
Qed.

Section Run.
Context `{env : RuntimeEnv} (fuel : nat) (config : RuntimeConfig).
(** A time stamp is an unsigned 64-bit number. *)
Hypothesis frames_typed : ∀ t frame, rt_frame t = inr (Some frame) → in_u 64 (timestamp_us frame).

Abbreviation R := (X rt_event (rt_state run_vars)).
Abbreviation G := (run_guard config).
Abbreviation triple := (ht G null_session).

(** The locals agree with the trace. *)
Definition agree (v : run_vars) (t : rt_trace) : Prop :=
  v_thread v = thread_running t ∧ v_session v = pointer t ∧ v_bridge v = bridge_up t.
Definition calm (t : rt_trace) : Prop := video_failed t = false ∧ camera_released t = false.
Definition started (v : run_vars) (t : rt_trace) : Prop := agree v t ∧ calm t.
(** Once there was a session, its pointer is null only when a factory made it so. *)
Definition live (v : run_vars) (t : rt_trace) : Prop := started v t ∧ (pointer t = None → null_session t).

Definition times_agree (v : run_vars) (t : rt_trace) : Prop :=
  in_u 64 (v_pts v) ∧ in_u 64 (v_previous_us v) ∧
  match last_push t with
  | None => v_have_previous v = false ∧ v_pts v = 0
  | Some (us, pts) => v_have_previous v = true ∧ v_previous_us v = us ∧ v_pts v = pts
  end.
Definition streaming (v : run_vars) (t : rt_trace) : Prop :=
  live v t ∧ times_agree v t ∧ v_first_error v = None ∧ v_ready_emitted v = ready_shown t.

Ltac crush :=
  unfold streaming, times_agree, live, started, agree, calm in *; cbn [fst snd] in *; cbn in *; intros; destruct_and?; split_and?; (done || congruence || eauto).

Lemma started_unseen : unseen G started.
Proof. intros e v t Hq Hl. destruct e; try done; crush. Qed.
Lemma live_unseen : unseen G live.
Proof. intros e v t Hq Hl. destruct e; try done; crush. Qed.
Lemma streaming_unseen : unseen G streaming.
Proof. intros e v t Hq Hl. destruct e; try done; crush. Qed.

(** A report, whether the bridge takes it or not. *)
Lemma report_triple (L M : run_vars → rt_trace → Prop) Lx state n e : unseen G M →
  (∀ v t, L v t → v_bridge v = false → M v t) →
  (∀ v t r, L v t → v_bridge v = true → G (VideoReported state n e r) t ∧ M v (VideoReported state n e r :: t)) →
  triple L (TryReportVideoState state n e) (λ _, M) Lx.
Proof.
  intros Hu H1 H2. unfold TryReportVideoState. apply ht_get. intros x. apply ht_if; intros Hb.
  - apply ht_ret. intros v t [-> Hl]. apply H1; [done|]. by destruct (v_bridge x).
  - apply (ht_try _ _ _ _ _ _ _ (λ _, M)).
    + apply ht_call. intros v t r _ [-> Hl]. destruct (H2 x t r Hl) as [HG HM]; [by destruct (v_bridge x)|]. by destruct r.
    + intros m. by apply ht_quiet_emit.
Qed.

Lemma session_pointer_triple (L : run_vars → rt_trace → Prop) Lx : (∀ v t, L v t → v_session v = pointer t ∧ (pointer t = None → null_session t)) →
  triple L session_pointer (λ id v t, L v t ∧ pointer t = Some id) Lx.
Proof.
  intros HL. unfold session_pointer. apply ht_get. intros x. destruct (v_session x) as [id|] eqn:Hx.
  - apply ht_ret. intros v t [-> Hl]. split; [done|]. destruct (HL x t Hl). congruence.
  - apply ht_crash. intros v t [-> Hl]. destruct (HL x t Hl) as [Hp Hn]. apply Hn. congruence.
Qed.

(** ** Streaming *)

Lemma refresh_triple c : triple streaming (refresh c) (λ _, streaming) (λ _, streaming).
Proof.
  unfold refresh. eapply ht_bind; [apply (ht_call _ _ _ _ _ (λ _, streaming)); intros v t [] _ Hl; crush|]. intros refreshed.
  eapply ht_bind; [apply (ht_set _ _ _ _ (λ _, streaming)); crush|]. intros [].
  eapply ht_bind; [apply ht_refresh_at, streaming_unseen|]. intros at_.
  eapply ht_bind; [apply (ht_set _ _ _ _ (λ _, streaming)); crush|]. intros [].
  eapply ht_bind; [apply session_pointer_triple; crush|]. intros old.
  eapply ht_bind; [apply (ht_emit _ _ _ _ (λ _, streaming)); crush|]. intros [].
  eapply ht_bind.
  { apply (ht_create_session _ _ _ _ _ (λ new v t, streaming (set_session new v) t)). intros v t [m|[]] Hl; crush. }
  intros new. eapply ht_bind; [apply (ht_set _ _ _ _ (λ _ v t, streaming v t ∧ v_session v = new)); crush|]. intros [].
  eapply ht_bind; [apply (ht_emit _ _ _ _ (λ _ v t, streaming v t ∧ v_session v = new)); crush|]. intros [].
  destruct new as [id|]; [|apply ht_throw; crush].
  eapply ht_bind.
  { apply (ht_call _ _ _ _ _ (λ _ v t, streaming (set_ready_emitted false v) t)). intros v t [m|[]] _ Hl; crush. }
  intros []. eapply ht_bind; [apply (ht_set _ _ _ _ (λ _, streaming)); crush|]. intros [].
  apply report_triple; [apply streaming_unseen|done|crush].
Qed.

Lemma refresh_if_due_triple c : triple streaming (refresh_if_due c) (λ _, streaming) (λ _, streaming).
Proof.
  unfold refresh_if_due. apply ht_get. intros x. destruct (v_bridge x); [|by apply ht_ret; crush].
  destruct (v_refresh_at x) as [at_|]; [|by apply ht_ret; crush].
  apply ht_pre with streaming; [|crush]. eapply ht_bind; [apply ht_system_now, streaming_unseen|]. intros now.
  apply ht_if; intros _; [|by apply ht_ret]. eapply ht_try; [apply refresh_triple|]. intros e.
  eapply ht_bind; [by apply ht_quiet_emit; [apply streaming_unseen|]|]. intros [].
  eapply ht_bind; [apply ht_system_now, streaming_unseen|]. intros now'. apply ht_set. crush.
Qed.

Lemma frame_times_spec frame v t : in_u 64 (timestamp_us frame) → times_agree v t →
  frame_times (DefaultFrameDuration100ns (camera config)) frame v =
    times_after (DefaultFrameDuration100ns (camera config)) (last_push t) frame ∧
  in_u 64 (frame_times (DefaultFrameDuration100ns (camera config)) frame v).2.
Proof.
  intros Hf (Hp & Hus & Ht). pose proof (default_duration_range (camera config)) as Hd.
  set (dd := DefaultFrameDuration100ns _) in *. unfold frame_times, times_after.
  destruct (last_push t) as [[us pts]|]; [destruct Ht as (-> & <- & <-)|destruct Ht as [-> ->]; done]. cbn [andb].
  destruct (Z.ltb_spec (v_previous_us v) (timestamp_us frame)) as [Hl|Hl].
  - rewrite wrapu_id by (unfold in_u in *; lia). rewrite us_to_100ns by (unfold in_u in *; lia).
    set (d := Z.min UINT64_MAX _). assert (Hdu : in_u 64 d) by (unfold d, UINT64_MAX, in_u in *; lia).
    rewrite saturating_add by done. split; [done|]. cbn. unfold UINT64_MAX, in_u in *. lia.
  - rewrite saturating_add by done. split; [done|]. cbn. unfold UINT64_MAX, in_u in *. lia.
Qed.

Definition got (frame : EncodedVideoFrame) (t : rt_trace) : Prop := ∃ t', t = FrameGot 100 (inr (Some frame)) :: t'.

Lemma ready_marker v t : streaming v t → streaming (set_ready_emitted true v) (MarkerEmitted ready_line :: t).
Proof.
  intros (([? [? ?]] & ?) & ? & ? & ?). unfold streaming, live, started, calm, times_agree.
  cbn [video_failed ready_shown pointer null_session camera_released last_push]. rewrite (bool_decide_true (ready_line = ready_line)) by done.
  rewrite bool_decide_false by (intros H'; by apply (closing_not_ready "closing_video")). done.
Qed.

Lemma push_frame_triple frame : in_u 64 (timestamp_us frame) → frame_bytes frame ≠ [] →
  triple (λ v t, streaming v t ∧ got frame t) (push_frame (DefaultFrameDuration100ns (camera config)) frame) (λ _, streaming) (λ _, live).
Proof.
  intros Hf Hb. unfold push_frame. apply ht_get. intros x. cbv zeta. set (times := frame_times _ _ _).
  set (L v t := v = set_pts times.2 x ∧ streaming x t ∧ got frame t).
  eapply ht_bind; [apply (ht_set _ _ _ _ (λ _, L)); by intros v t (-> & ? & ?)|]. intros [].
  eapply ht_bind; [apply session_pointer_triple; unfold L; intros v t (-> & ? & ?); crush|]. intros id.
  set (ev := UnitPushed id (frame_bytes frame) times.2 times.1 (is_keyframe frame)).
  set (M v t := streaming v t ∧ v_ready_emitted v = v_ready_emitted x ∧ ∃ t', t = ev (inr tt) :: t').
  eapply ht_bind.
  { apply (ht_call _ _ _ _ _ (λ _ v t, M (set_previous (timestamp_us frame) v) t)).
    intros v t r _ [(-> & Hs & t' & ->) Hid]. destruct (frame_times_spec frame x (FrameGot 100 (inr (Some frame)) :: t')) as [He Hu]; [done|apply Hs|].
    fold times in He, Hu. cbn in He. split.
    - exists frame, t'. rewrite <- He. destruct times. crush.
    - destruct r as [m|[]]; [crush|]. unfold M. split; [|split; [done|by eexists]]. unfold ev. crush. }
  intros []. eapply ht_bind; [apply (ht_set _ _ _ _ (λ _, M)); by intros v t ?|]. intros [].
  apply ht_if; intros Hr; [|apply ht_ret; by intros v t [? _]]. apply andb_true_iff in Hr as [Hr Hk]. apply negb_true_iff in Hr.
  eapply ht_bind.
  { apply (ht_emit _ _ _ _ (λ _ v t, streaming (set_ready_emitted true v) t ∧ ∃ t', t = MarkerEmitted ready_line :: ev (inr tt) :: t')).
    intros v t (Hs & Hrx & t' & ->). fold ready_line. unfold ev in *. rewrite Hk in *. split.
    - intros _. split; [|by do 5 eexists]. crush.
    - split; [|by eexists]. by apply ready_marker. }
  intros []. apply (ht_bind _ _ _ _ _ (λ _ v t, streaming (set_ready_emitted true v) t)); [|intros []; by apply ht_set].
  apply report_triple.
  - intros e v t Hq Hl. destruct e; try done; crush.
  - by intros v t [? _].
  - intros v t r (Hs & t' & ->) _. unfold ev in *. rewrite Hk. split; [by do 5 eexists|]. crush.
Qed.

Lemma stream_round_triple effective : triple streaming (stream_round config effective) (λ b, if b then streaming else live) (λ _, live).
Proof.
  unfold stream_round. eapply ht_bind; [apply ht_stop_quiet, streaming_unseen|]. intros [].
  { apply ht_ret. crush. }
  eapply ht_bind; [apply session_pointer_triple; crush|]. intros id.
  eapply ht_bind; [apply (ht_call _ _ _ _ _ (λ _, streaming)); intros v t [] _ [Hl _]; crush|]. intros [e|].
  { eapply ht_bind; [apply (ht_set _ _ _ _ (λ _, live)); crush|]. intros []. by apply ht_ret. }
  eapply ht_bind; [eapply ht_mono; [apply refresh_if_due_triple|done|done|crush]|]. intros [].
  eapply ht_bind.
  { apply (ht_call _ _ _ _ _ (λ r v t, streaming v t ∧ match r with Some f => in_u 64 (timestamp_us f) ∧ got f t | None => True end)).
    intros v t [m|[f|]] Hf Hl; (split; [cbn; by eauto|]); [crush| |crush]. split; [crush|]. split; [by eapply frames_typed|by eexists]. }
  intros [frame|].
  - apply ht_fact with (in_u 64 (timestamp_us frame)); [by intros v t (_ & ? & _)|]. intros Hf.
    destruct (frame_bytes frame) as [|b bytes] eqn:Hb; [apply ht_ret; by intros v t [? _]|].
    eapply ht_bind; [eapply ht_pre; [apply push_frame_triple; [done|by rewrite Hb]|by intros v t (? & _ & ?)]|]. intros []. by apply ht_ret.
  - eapply ht_bind; [apply (ht_answer _ _ _ _ _ (λ _, streaming)); intros v t [Hl _]; crush|]. intros st.
    apply ht_ret. intros v t Hl. destruct (negb _); [done|crush].
Qed.

Lemma stream_triple effective : triple (λ v t, streaming v t ∧ v_ready_emitted v = false) (stream fuel config effective) (λ _, live) (λ _, live).
Proof.
  set (L v t := streaming v t ∧ v_ready_emitted v = false). unfold stream.
  eapply ht_bind; [apply (report_triple L L); unfold L; [intros e v t Hq Hl; destruct e; try done; crush|done|crush]|]. intros [].
  eapply ht_bind; [apply session_pointer_triple; unfold L; crush|]. intros id.
  eapply ht_bind; [apply (ht_call _ _ _ _ _ (λ _, streaming)); unfold L; intros v t [m|[]] _ Hl; crush|]. intros [].
  do 2 (eapply ht_bind; [apply (ht_call _ _ _ _ _ (λ _, streaming)); intros v t [m|[]] _ Hl; crush|]; intros []).
  apply (ht_while _ _ _ _ _ (λ _, live)), stream_round_triple.
Qed.

(** ** The end of a run *)

Lemma marker_triple (L M : run_vars → rt_trace → Prop) Lx stage :
  (∀ v t, L v t → v_first_error v = None → M v t) →
  (∀ v t e, L v t → v_first_error v = Some e → M v (MarkerEmitted (failure_line stage) :: t)) →
  triple L (failure_marker stage) (λ _, M) Lx.
Proof.
  intros H1 H2. unfold failure_marker. apply ht_get. intros x. destruct (v_first_error x) as [e|] eqn:He.
  - apply ht_emit. intros v t [-> Hl]. split; [|by eapply H2]. intros H. by apply closing_not_ready in H.
  - apply ht_ret. intros v t [-> Hl]. by apply H1.
Qed.

(** The failure is on record. *)
Definition recorded (v : run_vars) (t : rt_trace) : Prop := video_failed t = bool_decide (is_Some (v_first_error v)).
Definition closing (v : run_vars) (t : rt_trace) : Prop :=
  agree v t ∧ (pointer t = None → null_session t) ∧ camera_released t = false ∧ recorded v t.
Definition reported (v : run_vars) (t : rt_trace) : Prop :=
  closing v t ∧ (v_first_error v ≠ None → bridge_up t = true → last_report t = Some kError).
Definition released (v : run_vars) (t : rt_trace) : Prop := agree v t ∧ camera_released t = true ∧ recorded v t.
(** The control thread may be told to stop. *)
Definition stoppable (v : run_vars) (t : rt_trace) : Prop :=
  v_thread v = thread_running t ∧ (video_failed t = true → thread_running t = true → stop_known t = true).

Ltac crush2 :=
  unfold reported, closing, released, stoppable, recorded, live, started, agree, calm in *; cbn in *; intros; destruct_and?;
  split_and?; (done || congruence || eauto).

Lemma recorded_none v t : v_first_error v = None → (recorded v t ↔ video_failed t = false).
Proof. intros He. unfold recorded. by rewrite He. Qed.
Lemma recorded_some v t e : v_first_error v = Some e → (recorded v t ↔ video_failed t = true).
Proof. intros He. unfold recorded. by rewrite He. Qed.

Lemma recorded_marker v t e stage : v_first_error v = Some e → recorded v t → recorded v (MarkerEmitted (failure_line stage) :: t).
Proof. intros He Hr. apply (recorded_some _ _ _ He) in Hr. apply (recorded_some _ _ _ He). cbn. rewrite Hr. by apply orb_true_r. Qed.

Lemma join_triple (L Q : run_vars → rt_trace → Prop) Lx :
  (∀ v t, L v t → v_thread v = thread_running t ∧ stop_known t = true) →
  (∀ v t, L v t → v_thread v = false → Q v t) →
  (∀ v t, L v t → v_thread v = true → Q (set_thread false v) (ThreadJoined :: t)) →
  triple L join_control_thread (λ _, Q) Lx.
Proof.
  intros HL H1 H2. unfold join_control_thread. apply ht_get. intros x. apply ht_when; intros Hx.
  - apply (ht_bind _ _ _ _ _ (λ _ v t, Q (set_thread false v) t)); [|intros []; by apply ht_set].
    apply ht_emit. intros v t [-> Hl]. split; [|by apply H2]. destruct (HL x t Hl). split; [congruence|done].
  - intros v t [-> Hl]. by apply H1.
Qed.

(** Telling the control thread to stop, and joining it, whatever else is known. *)
Definition kept (F : run_vars → rt_trace → Prop) : Prop :=
  ∀ v t, F v t → F v (StopStored true :: t) ∧ F (set_thread false v) (ThreadJoined :: t).
Definition told (F : run_vars → rt_trace → Prop) (v : run_vars) (t : rt_trace) : Prop :=
  v_thread v = thread_running t ∧ stop_known t = true ∧ F v t.
Definition joined (F : run_vars → rt_trace → Prop) (v : run_vars) (t : rt_trace) : Prop :=
  v_thread v = false ∧ thread_running t = false ∧ F v t.

Lemma store_triple F Lx : kept F → triple (λ v t, stoppable v t ∧ F v t) (store_stop true) (λ _, told F) Lx.
Proof. intros HF. apply ht_emit. intros v t [[? ?] Ht]. destruct (HF v t Ht). split; [done|]. by unfold told. Qed.
Lemma joined_triple F Lx : kept F → triple (told F) join_control_thread (λ _, joined F) Lx.
Proof.
  intros HF. apply join_triple; unfold told, joined.
  - by intros v t (? & ? & _).
  - intros v t (Hv & _ & Ht) Hf. split_and!; [done|congruence|done].
  - intros v t (_ & _ & Ht) _. split_and!; [done..|]. by apply HF.
Qed.

(** What a run that ended leaves behind. *)
Definition camera_off (v : run_vars) (t : rt_trace) : Prop := v_bridge v = bridge_up t ∧ camera_released t = true.
Definition stopped_reported (t : rt_trace) : Prop := bridge_up t = true → last_report t = Some kStopped.

Lemma camera_off_kept : kept camera_off.
Proof. intros v t. unfold camera_off. done. Qed.

(** Waiting for the signal after a video failure. *)
Lemma wait_triple e : triple (λ v t, released v t ∧ v_first_error v = Some e)
  (while fuel (stop ← stop_requested; if stop : bool then mret false else _ ← SleepUntilStopped fuel (milliseconds 200); mret true))
  (λ _ v t, released v t ∧ stop_known t = true) (λ _ _ _, False).
Proof.
  assert (Hu : unseen G (λ v t, released v t ∧ v_first_error v = Some e)) by (intros ev v t Hq Hl; destruct ev; try done; crush2).
  apply (ht_while _ _ _ _ _ (λ _ v t, released v t ∧ stop_known t = true)). eapply ht_bind; [by apply ht_stop_requested|]. intros [].
  - apply ht_ret. intros v t [[? ?] Hs]. split; [done|by apply Hs].
  - eapply ht_bind; [eapply ht_pre; [by apply ht_sleep|by intros v t [? _]]|]. intros []. by apply ht_ret.
Qed.

Lemma close_video_triple : triple live close_video (λ _, released) (λ _ _ _, False).
Proof.
  unfold close_video. eapply ht_bind.
  { apply (marker_triple live closing).
    - intros v t Hl He. assert (recorded v t) by (apply recorded_none; crush2). crush2.
    - intros v t e Hl He. assert (recorded v (MarkerEmitted (failure_line "closing_video") :: t)).
      { apply (recorded_some _ _ e He). cbn. by rewrite bool_decide_true. }
      unfold closing. split_and!; [crush2..|done]. }
  intros []. eapply ht_bind; [apply session_pointer_triple; crush2|]. intros id.
  eapply ht_bind.
  { apply (ht_emit _ _ _ _ (λ _ v t, closing v t ∧ ∃ t', t = SessionStopped id :: t' ∧ pointer t' = Some id)).
    intros v t [Hc Hp]. split; [done|]. split; [crush2|]. by eexists. }
  intros []. apply ht_get. intros x. eapply (ht_bind _ _ _ _ _ (λ _, reported)).
  { destruct (v_first_error x) as [e|] eqn:Hx; [|apply ht_ret; intros v t (-> & Hc & _); crush2].
    assert (Hu : unseen G (λ v t, reported v t ∧ v_first_error v = Some e)) by (intros ev v t Hq Hl; destruct ev; try done; crush2).
    eapply ht_bind.
    - apply (report_triple _ (λ v t, reported v t ∧ v_first_error v = Some e)); [done| |].
      + intros v t (-> & Hc & _) Hb. split; [|done]. split; [done|]. intros _ Hup. crush2.
      + intros v t r (-> & Hc & t' & -> & Hp) Hb. split; [|split; [crush2|done]].
        split_and!; [|crush2|by do 2 eexists]. destruct Hc as (_ & _ & _ & Hr). by apply (recorded_some _ _ _ Hx) in Hr.
    - intros []. apply marker_triple; [by intros v t [? _]|]. intros v t e' [[Hc Hl] He] _. split; [|done].
      destruct Hc as (? & ? & ? & Hr). split_and!; [crush2..|]. by eapply recorded_marker. }
  intros []. eapply ht_bind.
  { apply (ht_emit _ _ _ _ (λ _, released)). intros v t [(Ha & Hn & Hc & Hr) Hl]. split; [|crush2]. split; [done|]. intros Hf Hb.
    apply Hl; [|done]. intros He. apply (recorded_none _ _ He) in Hr. congruence. }
  intros []. apply (marker_triple released released); [done|]. intros v t e (Ha & Hc & Hr) He. split_and!; [crush2..|]. by eapply recorded_marker.
Qed.

Lemma end_run_triple : triple released (end_run fuel)
  (λ _ v t, joined camera_off v t ∧ stopped_reported t) (λ _, joined camera_off).
Proof.
  unfold end_run. apply ht_get. intros y. eapply (ht_bind _ _ _ _ _ (λ _ v t, stoppable v t ∧ camera_off v t)).
  { destruct (v_first_error y) as [e|] eqn:Hx.
    - apply ht_when; intros Ht.
      + eapply ht_bind; [eapply ht_mono; [apply (wait_triple e)|intros v t [-> ?]; done|done|done]|]. intros [].
        apply ht_set. unfold camera_off. crush2.
      + intros v t [-> Hr]. unfold camera_off. crush2.
    - apply ht_ret. intros v t [-> (Ha & Hc & Hr)]. apply (recorded_none _ _ Hx) in Hr. unfold camera_off. crush2. }
  intros []. eapply ht_bind; [apply (store_triple camera_off), camera_off_kept|]. intros [].
  eapply ht_bind; [apply joined_triple, camera_off_kept|]. intros []. apply ht_get. intros z.
  destruct (v_first_error z); [apply ht_throw; by intros v t [-> ?]|].
  apply report_triple.
  - intros ev v t Hq Hl. destruct ev; try done; crush2.
  - intros v t [-> (? & ? & Hb & ?)] Hv. split; [done|]. intros Hup. congruence.
  - intros v t r [-> (? & ? & Hb & ?)] Hv. done.
Qed.

(** ** The whole program *)

Lemma retry_triple n worker delay (L : run_vars → rt_trace → Prop) : unseen G L →
  (∀ r v t, L v t → L v (WorkerConfigGot worker rt_version r :: t)) →
  triple L (worker_config_retry fuel n worker delay) (λ _, L) (λ _, L).
Proof.
  intros Hu HL. revert delay. induction n as [|n IH]; intros delay; cbn [worker_config_retry]; [apply ht_running|].
  eapply ht_bind; [by apply ht_stop_quiet|]. intros []; [by apply ht_throw|].
  eapply (ht_bind _ _ _ _ _ (λ _, L)); [|intros [c|]; [by apply ht_ret|apply IH]].
  apply (ht_try _ _ _ _ _ _ _ (λ _, L)).
  - eapply (ht_bind _ _ _ _ _ (λ _, L)); [|intros; by apply ht_ret]. apply ht_call. intros v t [] _ Hl; split; auto; done.
  - intros e. eapply ht_bind; [by apply ht_quiet_emit|]. intros []. eapply ht_bind; [by apply ht_sleep|]. intros []. by apply ht_ret.
Qed.

(** Before the first session. *)
Definition fresh (v : run_vars) (t : rt_trace) : Prop :=
  started v t ∧ camera_started t = false ∧ last_push t = None ∧ ready_shown t = false ∧ v_session v = None ∧ v_capturer v = false ∧
  v_ready_emitted v = false ∧ v_have_previous v = false ∧ v_pts v = 0 ∧ v_previous_us v = 0 ∧ v_first_error v = None.

Ltac crush3 := unfold fresh, started, agree, calm in *; cbn in *; intros; destruct_and?; split_and?; (done || congruence || eauto).

Lemma fresh_unseen : unseen G fresh.
Proof. intros e v t Hq Hl. destruct e; try done; crush3. Qed.

Lemma setup_triple : triple fresh (setup fuel config) (λ _, fresh) (λ _, fresh).
Proof.
  unfold setup. destruct (board_video_bridge_socket_path config) as [path|].
  - eapply ht_bind.
    { apply (ht_call _ _ _ _ _ (λ b v t, fresh (set_bridge b v) t)). intros v t [m|b] _ Hl; crush3. }
    intros created. eapply ht_bind; [apply (ht_set _ _ _ _ (λ _, fresh)); by intros v t ?|]. intros [].
    apply ht_if; intros _; [by apply ht_throw|].
    eapply ht_bind; [apply retry_triple; [apply fresh_unseen|intros r v t Hl; crush3]|]. intros w.
    eapply ht_bind; [apply (ht_set _ _ _ _ (λ _, fresh)); crush3|]. intros [].
    eapply ht_bind; [apply ht_refresh_at, fresh_unseen|]. intros at_.
    eapply ht_bind; [apply (ht_set _ _ _ _ (λ _, fresh)); crush3|]. intros []. by apply ht_ret.
  - eapply ht_bind; [apply (ht_call _ _ _ _ _ (λ _, fresh)); intros v t [] _ Hl; crush3|]. intros c.
    eapply ht_bind; [apply (ht_set _ _ _ _ (λ _, fresh)); crush3|]. intros []. by apply ht_ret.
Qed.

(** What an exception leaves to the destructors. *)
Definition leaving (v : run_vars) (t : rt_trace) : Prop := stoppable v t ∧ (camera_started t = true → camera_released t = true).

Lemma fresh_leaving v t : fresh v t → leaving v t.
Proof. intros Hf. unfold leaving. crush3. unfold stoppable. split; [done|congruence]. Qed.

Definition not_started (_ : run_vars) (t : rt_trace) : Prop := camera_started t = false.
Lemma not_started_kept : kept not_started.
Proof. by intros v t. Qed.
Lemma joined_leaving (F : run_vars → rt_trace → Prop) v t :
  joined F v t → (F v t → camera_started t = true → camera_released t = true) → leaving v t.
Proof. intros (Hv & Ht & Hf) H. unfold leaving, stoppable. split_and!; [congruence|congruence|auto]. Qed.

(** Giving up before the streaming starts. *)
Lemma give_up_triple {A} e (L : run_vars → rt_trace → Prop) (Q : A → run_vars → rt_trace → Prop) :
  (∀ v t, L v t → stoppable v t ∧ not_started v t) →
  triple L (_ ← store_stop true; _ ← join_control_thread; throw e) Q (λ _, leaving).
Proof.
  intros HL. eapply ht_bind; [eapply ht_pre; [apply (store_triple not_started), not_started_kept|done]|]. intros [].
  eapply ht_bind; [apply joined_triple, not_started_kept|]. intros []. apply ht_throw. intros v t Hj.
  apply (joined_leaving _ _ _ Hj). unfold not_started. congruence.
Qed.

Lemma first_session c k b v t : fresh v t →
  streaming (set_session (if b : bool then Some (sessions_created t) else None) v) (SessionCreated c k (inr b) :: t).
Proof.
  intros (Hs & _ & Hp & Hr & _ & _ & Hre & Hh & Hpt & Hus & He). unfold streaming, live, times_agree, started, agree, calm in *.
  destruct b; cbn; rewrite Hp, Hpt, Hus, Hre, Hr; destruct_and?; split_and?; try done.
Qed.

Lemma run_body_triple : triple (λ v t, fresh v t ∧ v_thread v = false) (run_body fuel config)
  (λ _ v t, joined camera_off v t ∧ stopped_reported t) (λ _, leaving).
Proof.
  assert (Hfs : ∀ v t, fresh v t → stoppable v t ∧ not_started v t) by (intros v t Hf; unfold stoppable, not_started; crush3).
  unfold run_body. eapply (ht_bind _ _ _ _ _ (λ _, fresh)).
  { apply ht_when; intros _; [|by intros v t [? _]].
    apply (ht_bind _ _ _ _ _ (λ _ v t, fresh (set_thread true v) t)); [|intros []; by apply ht_set].
    apply ht_call. intros v t [m|[]] _ [Hl Ht]; (split; [crush3|]); [apply fresh_leaving|]; crush3. }
  intros []. eapply (ht_bind _ _ _ _ _ (λ _, fresh)).
  { eapply ht_try; [apply setup_triple|]. intros e. by apply give_up_triple. }
  intros effective. eapply ht_bind; [apply ht_network, fresh_unseen|]. intros []. apply ht_get. intros x.
  eapply ht_bind.
  { apply (ht_create_session _ _ _ _ _ (λ new v t, streaming (set_session new v) t ∧ v_ready_emitted v = false ∧ not_started v t)).
    intros v t [m|b] [-> Hl]; (split; [done|]); [apply fresh_leaving; crush3|]. split_and!; [by apply first_session|crush3..]. }
  intros session. set (L v t := streaming v t ∧ v_ready_emitted v = false ∧ not_started v t ∧ v_session v = session).
  eapply ht_bind; [apply (ht_set _ _ _ _ (λ _, L)); by intros v t (? & ? & ?)|]. intros [].
  assert (HL : ∀ v t, L v t → stoppable v t ∧ not_started v t) by (intros v t Hf; unfold L, not_started, stoppable in *; crush).
  eapply ht_bind.
  { apply (ht_call _ _ _ _ _ (λ _, L)). intros v t [m|b] _ Hl; (split; [done|]).
    - destruct (HL v t Hl) as [Hst Hns]. unfold leaving, stoppable, not_started in *. cbn. split; [done|congruence].
    - unfold L, not_started in *. crush. }
  intros capturer. eapply ht_bind; [apply (ht_set _ _ _ _ (λ _, L)); unfold L, not_started; crush|]. intros [].
  apply ht_if; intros _; [by apply give_up_triple|].
  eapply (ht_bind _ _ _ _ _ (λ _, live)).
  { eapply (ht_try _ _ _ _ _ _ _ (λ _, live)); [eapply ht_pre; [apply stream_triple|]; by intros v t (? & ? & _)|].
    intros e. apply ht_set. crush. }
  intros []. eapply ht_bind; [eapply ht_mono; [apply close_video_triple|done|done|done]|]. intros [].
  eapply ht_mono; [apply end_run_triple|done|done|]. intros e v t Hj. apply (joined_leaving _ _ _ Hj). by intros [_ ?].
Qed.

Lemma run_destructors_no_throw : no_throw run_destructors.
Proof.
  unfold run_destructors, join_control_thread, store_stop.
  repeat first [apply no_throw_emit|apply no_throw_set|apply no_throw_get|apply no_throw_when|apply no_throw_ret|apply no_throw_bind; [|intros ?]|case_match].
Qed.

(** The destructors keep what they do not change. *)
Lemma run_destructors_triple (F : run_vars → rt_trace → Prop) Lx : kept F → (∀ o v t, F v t → F v (Destroyed o :: t)) →
  triple (λ v t, stoppable v t ∧ F v t) run_destructors (λ _, joined F) Lx.
Proof.
  intros Hk HF. set (L v t := stoppable v t ∧ F v t).
  assert (Hd : ∀ o Lx, triple L (xemit (Destroyed o)) (λ _, L) Lx).
  { intros o Lx'. apply ht_emit. intros v t [Hs Hf]. split; [done|]. split; [exact Hs|by apply HF]. }
  unfold run_destructors. apply ht_get. intros x. apply ht_pre with L; [|by intros v t [_ ?]].
  eapply (ht_bind _ _ _ _ _ (λ _, L)); [apply ht_when; intros _; [apply Hd|done]|]. intros [].
  eapply (ht_bind _ _ _ _ _ (λ _, L)); [destruct (v_session x); [apply Hd|by apply ht_ret]|]. intros [].
  eapply (ht_bind _ _ _ _ _ (λ _, L)); [apply ht_when; intros _; [apply Hd|done]|]. intros [].
  eapply ht_bind; [by apply store_triple|]. intros []. by apply joined_triple.
Qed.

Definition camera_safe (_ : run_vars) (t : rt_trace) : Prop := camera_started t = true → camera_released t = true.

Lemma Run_triple hooks : triple (λ v t, v = initial_vars ∧ t = []) (Run fuel config hooks)
  (λ _ _ t, thread_running t = false ∧ camera_released t = true ∧ stopped_reported t)
  (λ _ _ t, thread_running t = false ∧ (camera_started t = true → camera_released t = true)).
Proof.
  unfold Run. apply ht_if; intros _; [apply ht_throw; by intros v t [-> ->]|].
  set (L v t := fresh v t ∧ v_thread v = false).
  eapply ht_bind; [apply (ht_emit _ _ _ _ (λ _, L)); intros v t [-> ->]; unfold L; crush3|]. intros [].
  eapply ht_bind.
  { apply ht_handlers; unfold L; [intros e v t Hq Hl; destruct e; try done; crush3|]. intros e v t Hl. crush3. }
  intros []. eapply ht_scoped; [apply run_destructors_no_throw|apply run_body_triple|..].
  - intros []. eapply ht_mono; [apply (run_destructors_triple (λ v t, camera_off v t ∧ stopped_reported t) (λ _ _ _, False))| | |done].
    + intros v t [[??]?]. done.
    + by intros o v t.
    + intros v t [(Hv & Ht & Hc) Hr]. split; [|done]. unfold stoppable. split; congruence.
    + intros [] v t (_ & Ht & [_ Hc] & Hr). done.
  - intros e. eapply ht_mono; [apply (run_destructors_triple camera_safe (λ _ _ _, False))| | |done].
    + by intros v t.
    + by intros o v t.
    + by intros v t [? ?].
    + by intros [] v t (_ & Ht & Hc).
Qed.
End Run.
