(* ===== verification/VideoTheorems.v ===== *)
(** * Theorems on the video master

    The order of what [Run] does to the sessions, the camera, the bridge and the
    control thread, the times it gives to the frames, and two ways in which a
    failed refresh of the credentials goes wrong. *)
From stdpp Require Import gmap.
From S2P Require Import Prelude Cpp VideoConfig VideoRuntime VideoRuntimeSafety VideoRunSafety.

#[local] Open Scope Z_scope.

Definition run_start : rt_state run_vars := mk_state None initial_vars.

Section Run.
Context `{env : RuntimeEnv} (fuel : nat) (config : RuntimeConfig) (hooks : bool).
Hypothesis frames_typed : ∀ t frame, rt_frame t = inr (Some frame) → in_u 64 (timestamp_us frame).

Lemma Run_result : xwp (Run fuel config hooks)
  (λ _ s t, halted s = None ∧ guarded (run_guard config) t ∧ thread_running t = false ∧ camera_released t = true ∧ stopped_reported t)
  (λ _ s t, guarded (run_guard config) t ∧ (halted s = None → thread_running t = false ∧ (camera_started t = true → camera_released t = true)) ∧
     (halted s = Some Crashed → null_session t)) run_start [].
Proof. by apply (Run_triple fuel config frames_typed hooks initial_vars []). Qed.

(** C10: Whatever the camera, the services and the signals do, and for every prefix of
    an execution that goes on, the effects of the video program keep their order: the
    control thread is joined only after it was told to stop, and a video failure alone
    never stops it; a unit is pushed only for the frame just captured, into the current
    session, with the time stamps that follow the last unit; READY is shown only for a
    key frame that was accepted; an error is reported after the session is closed and
    before the camera is released. A return has the camera released, the thread ended
    and STOPPED reported; only a session that could not be created after a refresh
    crashes it. *)
Theorem run_effects_ordered :
  match Run fuel config hooks run_start [] with
  | (r, s, t) =>
      guarded (run_guard config) t ∧
      (halted s = None → thread_running t = false ∧ (camera_started t = true → camera_released t = true)) ∧
      (halted s = Some Crashed → null_session t) ∧
      (r = inr tt → halted s = None ∧ (bridge_up t = true → last_report t = Some kStopped))
  end.
Proof.
  pose proof Run_result as H. unfold xwp in H. destruct (Run fuel config hooks run_start []) as [[[e|[]] s] t].
  - destruct H as (? & ? & ?). done.
  - destruct H as (Hh & Hg & Ht & Hc & Hr). rewrite Hh. split_and!; [done| | |]; done.
Qed.

Lemma times_range previous frame : in_u 64 (timestamp_us frame) →
  (∀ us p, previous = Some (us, p) → 0 ≤ p ≤ UINT64_MAX) →
  let times := times_after (DefaultFrameDuration100ns (camera config)) previous frame in
  0 ≤ times.2 ≤ UINT64_MAX ∧ (∀ us p, previous = Some (us, p) → p ≤ times.2).
Proof.
  intros Hf Hp. pose proof (default_duration_range (camera config)) as Hd. unfold in_u in *. set (dd := DefaultFrameDuration100ns _) in *.
  destruct previous as [[us p]|]; cbn; [|split; [by vm_compute|done]]. destruct (Hp us p eq_refl) as [Hp0 Hp1].
  assert (HM : UINT64_MAX = 2 ^ 64 - 1) by done. destruct (Z.ltb_spec us (timestamp_us frame)); (split; [lia|]); intros us' p' [= -> ->]; lia.
Qed.

Lemma last_push_range t : guarded (run_guard config) t → ∀ us p, last_push t = Some (us, p) → 0 ≤ p ≤ UINT64_MAX.
Proof.
  induction t as [|e t IH]; intros Hg us p Hl; [done|]. destruct Hg as [He Hg].
  destruct e; try (by eapply IH). destruct r as [m|u]; [by eapply IH|].
  destruct He as (f & t' & -> & _ & _ & _ & _ & _ & _ & Htimes). cbn in Hl. injection Hl as <- <-.
  destruct (times_range (last_push t') f) as [Hr _]; [by destruct Hg| |by rewrite <- Htimes in Hr].
  apply (IH Hg).
Qed.

Lemma last_push_after t2 id bytes pts d k x t1 :
  guarded (run_guard config) (t2 ++ UnitPushed id bytes pts d k (inr x) :: t1) →
  ∃ us p, last_push (t2 ++ UnitPushed id bytes pts d k (inr x) :: t1) = Some (us, p) ∧ pts ≤ p.
Proof.
  induction t2 as [|e t2 IH]; cbn [app guarded].
  - intros [(f & t' & -> & _) _]. cbn. by do 2 eexists.
  - intros [He Hg]. destruct (IH Hg) as (us & p & Hl & Hp). destruct e; try (by exists us, p).
    destruct He as (f & t' & Heq & _ & _ & _ & _ & _ & _ & Htimes). destruct r as [m|u]; [by exists us, p|].
    assert (Hl' : last_push t' = Some (us, p)) by (rewrite Heq in Hl; exact Hl).
    pose proof (last_push_range _ Hg us p Hl) as Hr. rewrite Heq in Hg. destruct Hg as [Hf _].
    destruct (times_range (last_push t') f Hf) as [_ Hm]; [intros us' p'; rewrite Hl'; by intros [= <- <-]|].
    specialize (Hm us p Hl'). rewrite <- Htimes in Hm. cbn in Hm. rewrite Heq. cbn. do 2 eexists. split; [done|]. lia.
Qed.

(** Presentation times never go back and never wrap, whatever time stamps the camera
    gives: a later unit is not shown before one that was accepted. *)
Theorem presentation_times_monotone t3 id2 b2 p2 d2 k2 r2 t2 id1 b1 p1 d1 k1 x t1 :
  (Run fuel config hooks run_start []).2 = t3 ++ UnitPushed id2 b2 p2 d2 k2 r2 :: t2 ++ UnitPushed id1 b1 p1 d1 k1 (inr x) :: t1 →
  p1 ≤ p2 ≤ UINT64_MAX.
Proof.
  intros Ht. assert (Hg : guarded (run_guard config) (Run fuel config hooks run_start []).2).
  { pose proof Run_result as H. unfold xwp in H. destruct (Run fuel config hooks run_start []) as [[[e|[]] s] t]; [apply H|apply H]. }
  rewrite Ht in Hg. clear Ht. induction t3 as [|e t3 IH]; [|apply IH, Hg]. destruct Hg as [(f & t' & Heq & _ & _ & _ & _ & _ & _ & Htimes) Hg].
  destruct (last_push_after t2 id1 b1 p1 d1 k1 x t1 Hg) as (us & p & Hl & Hp).
  rewrite Heq in Hl, Hg. destruct Hg as [Hf Hg]. cbn in Hl. pose proof (last_push_range t' Hg) as Hr.
  destruct (times_range (last_push t') f Hf Hr) as [[_ H2] Hm]. specialize (Hm us p Hl). rewrite <- Htimes in H2, Hm. cbn in H2, Hm. lia.
Qed.
End Run.

(** ** A board that works, and one whose second session fails *)

Definition demo_credentials : AwsCredentials := mk_credentials "AKIA" "secret" None.
Definition demo_config : RuntimeConfig :=
  mk_runtime_config "eu-central-1" "board" "worker" "client" None (Some "/run/video.sock") None
    "txing.mcp.v1" "txing.mavlink.v1" kVideo false true false default_camera.

(** A second passes with every event; a frame is there whenever one is asked for, and
    the signal comes after [n] events. *)
Definition demo_env (n : nat) (second : string + bool) : RuntimeEnv := {|
  rt_version := "1.0";
  rt_signal t := Nat.leb n (length t);
  rt_sigaction _ _ := true;
  rt_system_now t := seconds (Z.of_nat (length t));
  rt_steady_now t := seconds (Z.of_nat (length t));
  rt_thread _ := inr tt;
  rt_resolve _ := inr demo_credentials;
  rt_create_bridge _ _ := inr true;
  rt_worker_config _ _ _ := inr (mk_worker_config demo_config (mk_bridge_credentials demo_credentials (seconds 0)));
  rt_refresh _ := inr (mk_bridge_credentials demo_credentials (seconds 0));
  rt_report _ _ _ _ := inr tt;
  rt_create_session _ _ t := if Nat.eqb (sessions_created t) 0 then inr true else second;
  rt_start _ _ := inr tt;
  rt_push _ _ _ _ _ _ := inr tt;
  rt_fatal _ _ := inr None;
  rt_create_capturer _ := inr true;
  rt_configure _ _ := inr tt;
  rt_capture _ := inr tt;
  rt_frame t := inr (Some (mk_frame [1] (Z.of_nat (length t) mod 2 ^ 64) true));
  rt_status _ := cStreaming;
  rt_create_mavlink _ _ := inr true;
  rt_control_config _ _ _ := inl "unavailable";
  rt_control_report _ _ _ := inr tt |}.

Lemma demo_frames_typed n second t frame : rt_frame (RuntimeEnv:=demo_env n second) t = inr (Some frame) → in_u 64 (timestamp_us frame).
Proof. intros [= <-]. cbn. apply Z.mod_pos_bound. lia. Qed.

(** A run of sixty events that ends with the signal. *)
Lemma run_effects_ordered_witness :
  ∃ s t, Run (env:=demo_env 60 (inr true)) 100 demo_config true run_start [] = (inr tt, s, t) ∧
    guarded (run_guard (env:=demo_env 60 (inr true)) demo_config) t ∧ thread_running t = false ∧ last_report t = Some kStopped.
Proof.
  pose proof (run_effects_ordered (env:=demo_env 60 (inr true)) 100 demo_config true (demo_frames_typed 60 (inr true))) as H.
  set (out := Run (env:=demo_env 60 (inr true)) 100 demo_config true run_start []) in *.
  assert (Hr : out.1.1 = inr tt) by (vm_compute; reflexivity). assert (Hb : bridge_up out.2 = true) by (vm_compute; reflexivity).
  clearbody out. destruct out as [[r s] t]. cbn in Hr, Hb. subst r.
  destruct H as (Hg & Ht & _ & Hs). destruct (Hs eq_refl) as [Hh Hl]. exists s, t. split_and!; [done|done|by apply Ht|by apply Hl].
Defined.

(** The frames that reached a session, newest first: session, time, duration. *)
Fixpoint pushes (t : rt_trace) : list (nat * Z * Z) :=
  match t with
  | [] => []
  | UnitPushed id _ pts d _ _ :: t => (id, pts, d) :: pushes t
  | _ :: t => pushes t
  end.

Definition demo_run (n : nat) (second : string + bool) : rt_state run_vars * rt_trace :=
  let r := Run (env:=demo_env n second) 100 demo_config true run_start [] in (r.1.2, r.2).

Example demo_pushes : pushes (demo_run 36 (inr true)).2 = [(0%nat, 170, 50); (0%nat, 120, 50); (0%nat, 70, 70); (0%nat, 0, 333333)].
Proof. vm_compute. reflexivity. Qed.

Lemma presentation_times_monotone_witness :
  ∃ t3 b2 d2 t2 b1 d1 t1,
    (Run (env:=demo_env 36 (inr true)) 100 demo_config true run_start []).2 =
      t3 ++ UnitPushed 0 b2 170 d2 true (inr tt) :: t2 ++ UnitPushed 0 b1 120 d1 true (inr tt) :: t1 ∧ 120 ≤ 170 ≤ UINT64_MAX.
Proof.
  set (t := (Run (env:=demo_env 36 (inr true)) 100 demo_config true run_start []).2).
  assert (Ht : ∃ t3 b2 d2 t2 b1 d1 t1, t = t3 ++ UnitPushed 0 b2 170 d2 true (inr tt) :: t2 ++ UnitPushed 0 b1 120 d1 true (inr tt) :: t1).
  { exists (take 9 t), [1], 50, (take 4 (drop 10 t)), [1], 50, (drop 15 t). vm_compute. reflexivity. }
  destruct Ht as (t3 & b2 & d2 & t2 & b1 & d1 & t1 & Ht). exists t3, b2, d2, t2, b1, d1, t1. split; [exact Ht|].
  exact (presentation_times_monotone (env:=demo_env 36 (inr true)) 100 demo_config true (demo_frames_typed 36 (inr true))
    t3 0 b2 170 d2 true (inr tt) t2 0 b1 120 d1 true tt t1 Ht).
Defined.

(** ** A refresh that fails *)

(** When the factory answers a refresh with a null pointer, the exception that reports
    it is caught and the loop uses the pointer. *)
Theorem null_session_after_refresh_crashes : halted (demo_run 60 (inr false)).1 = Some Crashed.
Proof. vm_compute. reflexivity. Qed.

(** Frames that a session took after it was stopped. *)
Fixpoint stopped_session (id : nat) (t : rt_trace) : bool :=
  match t with
  | [] => false
  | SessionStopped id' :: t => Nat.eqb id' id || stopped_session id t
  | _ :: t => stopped_session id t
  end.
Fixpoint stale_pushes (t : rt_trace) : nat :=
  match t with
  | [] => 0
  | UnitPushed id _ _ _ _ _ :: t =>
      if stopped_session id t && bool_decide (last_report t = Some kReady) then Datatypes.S (stale_pushes t) else stale_pushes t
  | _ :: t => stale_pushes t
  end.

(** When the factory throws in a refresh, the session that was stopped for it stays:
    frames go into it while the bridge was last told that the video is ready. *)
Theorem failed_refresh_keeps_stopped_session : stale_pushes (demo_run 60 (inl "no network")).2 = 4%nat.
Proof. vm_compute. reflexivity. Qed.
