(* ===== verification/VideoControlSafety.v ===== *)
(** * The control channel of the video master

    Every execution of [RunMavlinkControlLoop], ended or not: one session at a time,
    only over an ordered and reliable channel, announced only once it started, and its
    withdrawal tried before the next attempt. *)
From stdpp Require Import gmap.
From S2P Require Import Prelude Cpp VideoConfig VideoRuntime VideoRuntimeSafety.

#[local] Open Scope Z_scope.

(** ** Reading a trace of the loop *)

(** The session that was created and not destroyed. *)
Fixpoint live_session (t : rt_trace) : option nat :=
  match t with
  | [] => None
  | SessionCreated _ _ (inr true) :: t => Some (sessions_created t)
  | Destroyed (OSession _) :: _ => None
  | _ :: t => live_session t
  end.

Fixpoint last_channel (t : rt_trace) : option MavlinkControlChannelConfig :=
  match t with
  | [] => None
  | ControlConfigGot _ _ (inr channel) :: _ => Some channel
  | _ :: t => last_channel t
  end.

(** Since readiness was announced its withdrawal was attempted: it was reported, or
    the bridge could not be reached. *)
Fixpoint withdrawal_tried (t : rt_trace) : Prop :=
  match t with
  | [] => True
  | ControlReported ready _ _ :: _ => ready = false
  | MavlinkBridgeCreated _ (inl _) :: _ | MavlinkBridgeCreated _ (inr false) :: _ => True
  | _ :: t => withdrawal_tried t
  end.

Definition control_guard (config : RuntimeConfig) (e : rt_event) (t : rt_trace) : Prop :=
  match e with
  | ControlConfigGot _ _ _ => live_session t = None ∧ withdrawal_tried t
  | SessionCreated c credentials _ =>
      live_session t = None ∧ ∃ channel, last_channel t = Some channel ∧
        data_channel_ordered channel = true ∧ data_channel_reliable channel = true ∧
        c = control_config_of config channel ∧ credentials = bc_credentials (cc_credentials channel)
  | SessionStarted id _ => live_session t = Some id
  | ControlReported true _ _ => ∃ id t', t = SessionStarted id (inr tt) :: t' ∧ live_session t' = Some id
  | _ => True
  end.

Section Control.
Context `{env : RuntimeEnv} (fuel : nat) (config : RuntimeConfig).

Abbreviation R := (X rt_event (rt_state control_vars)).
Abbreviation triple := (ht (V:=control_vars) (control_guard config) (λ _, False)).

Definition delay_ok (v : control_vars) : Prop := 1 ≤ c_delay v ≤ kBridgeRetryMaxDelay.
Definition idle (v : control_vars) (t : rt_trace) : Prop := delay_ok v ∧ live_session t = None.
Definition waiting (v : control_vars) (t : rt_trace) : Prop := idle v t ∧ withdrawal_tried t.
Definition serving (id : nat) (v : control_vars) (t : rt_trace) : Prop := delay_ok v ∧ live_session t = Some id.

Ltac crush := unfold waiting, idle, serving in *; cbn in *; intros; destruct_and?; split_and?; (done || congruence || eauto).

Lemma idle_unseen : unseen (control_guard config) idle.
Proof. intros e v t Hq Hl. destruct e; try done; crush. Qed.
Lemma waiting_unseen : unseen (control_guard config) waiting.
Proof. intros e v t Hq Hl. destruct e; try done; crush. Qed.
Lemma serving_unseen id : unseen (control_guard config) (serving id).
Proof. intros e v t Hq Hl. destruct e; try done; crush. Qed.

Lemma watch_triple id refresh_at : triple (serving id) (watch_session fuel id refresh_at) (λ _, serving id) (λ _, serving id).
Proof.
  apply (ht_while _ _ _ _ _ (λ _, serving id)). eapply ht_bind; [apply ht_stop_quiet, serving_unseen|]. intros []; [by apply ht_ret|].
  eapply ht_bind; [apply ht_system_now, serving_unseen|]. intros now. apply ht_if; intros _; [by apply ht_ret|].
  eapply ht_bind; [apply (ht_call _ _ _ _ _ (λ _, serving id)); intros v t [] _ Hl; crush|]. intros [e|]; [by apply ht_throw|].
  eapply ht_bind; [apply ht_sleep, serving_unseen|]. intros []. by apply ht_ret.
Qed.

Lemma control_session_triple id at_ : triple (serving id) (control_session fuel id at_)
  (λ _ v t, serving id v t ∧ withdrawal_tried t) (λ _, serving id).
Proof.
  unfold control_session, session_start, report_control.
  eapply ht_bind.
  { apply (ht_call _ _ _ _ _ (λ _ v t, serving id v t ∧ ∃ t', t = SessionStarted id (inr tt) :: t')).
    intros v t [m|[]] _ Hl; crush. }
  intros []. eapply ht_bind.
  { apply (ht_call _ _ _ _ _ (λ _, serving id)). intros v t r _ [Hl [t' ->]]. split; [|by destruct r; crush].
    cbn. exists id, t'. split; [done|]. crush. }
  intros []. eapply ht_bind; [apply ht_refresh_at, serving_unseen|]. intros refresh_at.
  eapply ht_bind; [apply (ht_set _ _ _ _ (λ _, serving id)); crush; unfold delay_ok; by vm_compute|]. intros [].
  eapply ht_bind; [apply watch_triple|]. intros [].
  eapply ht_bind; [apply (ht_emit _ _ _ _ (λ _, serving id)); crush|]. intros [].
  apply ht_call. intros v t [] _ Hl; crush.
Qed.

Lemma control_attempt_triple : triple idle (control_attempt fuel config) (λ _, waiting) (λ _, idle).
Proof.
  unfold control_attempt, report_control.
  eapply ht_bind; [apply (ht_call _ _ _ _ _ (λ _, waiting)); intros v t [] _ Hl; crush|]. intros [].
  eapply ht_bind; [apply (ht_call _ _ _ _ _ (λ c v t, idle v t ∧ last_channel t = Some c)); intros v t [] _ Hl; crush|].
  intros channel. apply ht_if; intros Hc; [apply ht_throw; crush|].
  apply orb_false_iff in Hc as [Ho Hr]. apply negb_false_iff in Ho, Hr. cbv zeta.
  eapply ht_bind; [apply (ht_network _ _ (λ v t, idle v t ∧ last_channel t = Some channel)); intros e v t Hq Hl; destruct e; try done; crush|].
  intros []. eapply ht_bind.
  { apply (ht_create_session _ _ _ _ _ (λ new v t, delay_ok v ∧ live_session t = new)). intros v t r [Hi Hl].
    split; [cbn; split; [apply Hi|]; by exists channel|]. destruct r as [m|[]]; crush. }
  intros [id|]; [|by apply ht_throw].
  eapply ht_scoped; [apply no_throw_emit|apply control_session_triple|..].
  - intros []. apply ht_emit. crush.
  - intros e. apply ht_emit. crush.
Qed.

Lemma with_bridge_triple path null c (Q : control_vars → rt_trace → Prop) :
  triple waiting null (λ _, Q) (λ _, idle) → triple idle c (λ _, Q) (λ _, idle) →
  (∀ v t, Q v t → Q v (Destroyed OMavlinkBridge :: t)) →
  triple idle (with_mavlink_bridge path null c) (λ _, Q) (λ _, idle).
Proof.
  intros Hn Hc HQ. unfold with_mavlink_bridge. eapply ht_bind.
  { apply (ht_call _ _ _ _ _ (λ (b : bool) v t, idle v t ∧ (b = false → withdrawal_tried t))). intros v t [m|[]] _ Hl; crush. }
  intros []; [|eapply ht_pre; [exact Hn|]; crush].
  eapply ht_scoped; [apply no_throw_emit|eapply ht_pre; [exact Hc|crush]|..]; intros; apply ht_emit; [|crush].
  intros v t Hq. split; [done|auto].
Qed.

(** The handler cannot throw and tries to withdraw readiness. *)
Lemma control_failed_triple path e : triple idle (control_failed fuel path e) (λ _, waiting) (λ _ _ _, False).
Proof.
  unfold control_failed. eapply (ht_bind _ _ _ _ _ (λ _, waiting)).
  { unfold with_mavlink_bridge, report_control. apply (ht_try _ _ _ _ _ _ _ (λ _, waiting)); [|intros; by apply ht_ret].
    eapply ht_bind.
    { apply (ht_call _ _ _ _ _ (λ (b : bool) v t, idle v t ∧ (b = false → withdrawal_tried t))). intros v t [m|[]] _ Hl; crush. }
    intros []; [|apply ht_ret; crush].
    eapply (ht_scoped _ _ _ _ _ (λ _, waiting) (λ _, waiting)); [apply no_throw_emit| |intros; apply ht_emit; crush..].
    apply ht_call. intros v t [] _ Hl; crush. }
  intros []. eapply ht_bind; [apply ht_quiet_emit; [apply waiting_unseen|done]|]. intros []. apply ht_get. intros x.
  apply ht_pre with waiting; [|by intros v t [_ ?]].
  eapply ht_bind; [apply ht_sleep, waiting_unseen|]. intros []. apply ht_set. intros v t [[Hd Hl] Hw]. split; [split; [|done]|done].
  unfold delay_ok, kBridgeRetryMaxDelay in *. cbn [c_delay]. lia.
Qed.

Lemma control_loop_triple : triple waiting (RunMavlinkControlLoop fuel config)
  (λ _ v t, waiting v t ∧ (mavlink_bridge_socket_path config = None ∨ stop_known t = true)) (λ _ _ _, False).
Proof.
  unfold RunMavlinkControlLoop. destruct (mavlink_bridge_socket_path config) as [path|]; [|apply ht_ret; by auto].
  apply (ht_while _ _ _ _ _ (λ _ v t, waiting v t ∧ (Some path = None ∨ stop_known t = true))). unfold control_round.
  eapply ht_bind; [apply ht_stop_requested, waiting_unseen|]. intros [].
  { apply ht_ret. intros v t [Hw Hs]. split; [done|]. right. by apply Hs. }
  eapply (ht_bind _ _ _ _ _ (λ _, waiting)); [|intros []; by apply ht_ret].
  eapply ht_try; [|intros e; apply control_failed_triple].
  eapply ht_pre; [apply with_bridge_triple; [apply ht_throw; crush|apply control_attempt_triple|done]|crush].
Qed.

(** C30: The control loop of the video program, whatever the bridge and the session
    answer: a session is created only while none is alive, from the configuration the
    daemon gave last and only when it asks for an ordered reliable channel; the channel
    is reported ready only just after its session started; before the configuration is
    asked for again, and at the end, it was reported not ready since then (whether or
    not the report succeeded) or the bridge could not be reached; no exception leaves
    the loop, and when it ends it was told to stop and its session is gone. *)
Theorem control_loop_effects :
  match RunMavlinkControlLoop fuel config (mk_state None (mk_control_vars kBridgeRetryInitialDelay)) [] with
  | (r, s, t) =>
      guarded (control_guard config) t ∧ halted s ≠ Some Crashed ∧
      (halted s = None → r = inr tt ∧ withdrawal_tried t ∧ live_session t = None ∧ (mavlink_bridge_socket_path config = None ∨ stop_known t = true))
  end.
Proof.
  pose proof (control_loop_triple (mk_control_vars kBridgeRetryInitialDelay) [] I) as H.
  assert (Hw : waiting (mk_control_vars kBridgeRetryInitialDelay) []) by (crush; by vm_compute). specialize (H Hw). unfold xwp in H.
  destruct (RunMavlinkControlLoop _ _ _ _) as [[[e|[]] s] t].
  - destruct H as (Hg & Hn & Hc). split_and!; [done|by intros Hh; apply Hc|]. intros Hh. by destruct (Hn Hh).
  - destruct H as (Hh & Hg & ((_ & Hl) & Hwd) & Hs). rewrite Hh. done.
Qed.
End Control.

(** A channel that works: the loop announces it and withdraws it when the signal comes. *)
Definition control_env : RuntimeEnv := {|
  rt_version := "1.0"; rt_signal t := Nat.leb 40 (length t); rt_sigaction _ _ := true;
  rt_system_now t := seconds (Z.of_nat (length t)); rt_steady_now t := seconds (Z.of_nat (length t));
  rt_thread _ := inr tt; rt_resolve _ := inl "none"; rt_create_bridge _ _ := inl "none"; rt_worker_config _ _ _ := inl "none";
  rt_refresh _ := inl "none"; rt_report _ _ _ _ := inr tt; rt_create_session _ _ _ := inr true; rt_start _ _ := inr tt;
  rt_push _ _ _ _ _ _ := inr tt; rt_fatal _ _ := inr None; rt_create_capturer _ := inl "none"; rt_configure _ _ := inr tt;
  rt_capture _ := inr tt; rt_frame _ := inr None; rt_status _ := cStopped; rt_create_mavlink _ _ := inr true;
  rt_control_config _ _ _ := inr (mk_control_channel "eu" "control" "client" "txing.mavlink.v1" true true
    (mk_bridge_credentials (mk_credentials "AKIA" "secret" None) 0));
  rt_control_report _ _ _ := inr tt |}.
Definition control_demo_config : RuntimeConfig :=
  mk_runtime_config EmptyString EmptyString "worker" "client" None None (Some "/run/mavlink.sock")
    "txing.mcp.v1" "txing.mavlink.v1" kVideo false true false default_camera.

Fixpoint control_reports (t : rt_trace) : list bool :=
  match t with
  | [] => []
  | ControlReported ready _ _ :: t => ready :: control_reports t
  | _ :: t => control_reports t
  end.

Example control_demo :
  let out := RunMavlinkControlLoop (env:=control_env) 50 control_demo_config (mk_state None (mk_control_vars 1)) [] in
  out.1.1 = inr tt ∧ control_reports out.2 = [false; true; false].
Proof. vm_compute. done. Qed.

(** ** The camera probe *)

Fixpoint encoded_frames (t : rt_trace) : list bool :=
  match t with
  | [] => []
  | FrameGot _ (inr (Some frame)) :: t =>
      match frame_bytes frame with [] => encoded_frames t | _ => is_keyframe frame :: encoded_frames t end
  | _ :: t => encoded_frames t
  end.

Section Probe.
Context `{env : RuntimeEnv} (fuel : nat) (config : RuntimeConfig) (hook : bool).
Abbreviation triple := (ht (V:=probe_vars) (λ _ _, True) (λ _, False)).

(** The counters agree with the frames of the trace; [kProbeTargetFrames] is never passed. *)
Definition counted (v : probe_vars) (t : rt_trace) : Prop :=
  p_frames v = Z.of_nat (length (encoded_frames t)) ∧ p_saw_keyframe v = existsb id (encoded_frames t) ∧
  p_frames v ≤ kProbeTargetFrames.

Lemma counted_unseen : unseen (λ _ _, True) counted.
Proof. intros e v t Hq Hl. destruct e; done. Qed.

Lemma probe_round_triple deadline : triple counted (probe_round deadline) (λ _, counted) (λ _, counted).
Proof.
  unfold probe_round. eapply ht_bind; [apply ht_stop_quiet, counted_unseen|]. intros []; [by apply ht_ret|].
  apply ht_get. intros x. apply ht_if; intros Hx; [apply ht_ret; by intros v t [-> ?]|]. apply Z.leb_gt in Hx.
  set (L v t := counted v t ∧ p_frames v < kProbeTargetFrames).
  assert (Hu : unseen (λ _ _, True) L) by (intros e v t Hq Hl; destruct e; done).
  apply ht_pre with L; [|intros v t [-> ?]; done].
  eapply ht_bind; [by apply ht_steady_now|]. intros now. apply ht_if; intros _; [apply ht_ret; by intros v t [? _]|].
  eapply ht_bind.
  { apply (ht_call _ _ _ _ _ (λ r v t, match r with
      | Some f => match frame_bytes f with
                  | [] => counted v t
                  | _ => counted (mk_probe (p_frames v + 1) (p_saw_keyframe v || is_keyframe f) (p_first_error v)) t
                  end
      | None => counted v t end)).
    intros v t [m|[f|]] _ [(Hn & Hk & Hm) Hlt]; (split; [done|]); [done| |done]. unfold counted. cbn.
    destruct (frame_bytes f); [done|]. cbn. rewrite Hn, Hk in *. split_and!; [lia|by rewrite orb_comm|lia]. }
  intros [f|].
  - destruct (frame_bytes f); [by apply ht_ret|]. apply (ht_bind _ _ _ _ _ (λ _, counted)); [by apply ht_set|intros []; by apply ht_ret].
  - eapply ht_bind; [apply (ht_answer _ _ _ _ _ (λ _, counted)); by intros v t ?|]. intros st. by apply ht_ret.
Qed.

Definition probe_safe (v : probe_vars) (t : rt_trace) : Prop := counted v t ∧ camera_released t = true.

Lemma probe_body_triple : triple counted (probe_body fuel config)
  (λ _ _ t, camera_released t = true ∧ encoded_frames t ≠ [] ∧ existsb id (encoded_frames t) = true) (λ _, probe_safe).
Proof.
  unfold probe_body. eapply ht_bind; [apply (ht_emit _ _ _ _ (λ _, counted)); by intros v t ?|]. intros [].
  eapply (ht_bind _ _ _ _ _ (λ _, counted)).
  { apply (ht_try _ _ _ _ _ _ _ (λ _, counted)); [|intros e; apply ht_set; by intros v t ?].
    do 2 (eapply ht_bind; [apply (ht_call _ _ _ _ _ (λ _, counted)); by intros v t [] _ Hl|intros []]).
    eapply ht_bind; [apply ht_steady_now, counted_unseen|]. intros start. apply (ht_while _ _ _ _ _ (λ _, counted)).
    eapply ht_mono; [apply probe_round_triple|done| |done]. by intros [] v t ?. }
  intros []. eapply ht_bind; [apply (ht_emit _ _ _ _ (λ _, probe_safe)); by intros v t ?|]. intros []. apply ht_get. intros x.
  destruct (p_first_error x); [apply ht_throw; by intros v t [-> ?]|].
  apply ht_if; intros Hn; [apply ht_throw; by intros v t [-> ?]|]. apply ht_if; intros Hk; [apply ht_throw; by intros v t [-> ?]|].
  apply ht_emit. intros v t (-> & (Hf & Hs & _) & Hc). cbn. apply Z.eqb_neq in Hn. apply negb_false_iff in Hk.
  split_and!; [done|done| |congruence]. intros He. rewrite He in Hf. done.
Qed.

(** The probe succeeds only when the camera gave an encoded key frame, and it never
    ends with the camera running; an exception is not a success. *)
Theorem camera_probe_sound :
  match RunCameraProbe fuel config hook (mk_state None (mk_probe 0 false None)) [] with
  | (r, s, t) =>
      (r = inr tt → camera_released t = true ∧ existsb id (encoded_frames t) = true) ∧
      (halted s = None → camera_started t = true → camera_released t = true) ∧ halted s ≠ Some Crashed
  end.
Proof.
  assert (H : triple (λ v t, counted v t ∧ camera_started t = false) (RunCameraProbe fuel config hook)
    (λ _ _ t, camera_released t = true ∧ existsb id (encoded_frames t) = true)
    (λ _ _ t, camera_started t = true → camera_released t = true)).
  { set (L v t := counted v t ∧ camera_started t = false).
    assert (Hu : unseen (λ _ _, True) L) by (intros e v t Hq Hl; destruct e; done).
    unfold RunCameraProbe. apply ht_if; intros _; [apply ht_throw; intros v t [_ ?]; congruence|].
    eapply ht_bind; [apply (ht_emit _ _ _ _ (λ _, L)); by intros v t ?|]. intros [].
    eapply ht_bind; [apply ht_handlers; [done|]; intros e v t [_ ?]; congruence|]. intros [].
    eapply ht_bind.
    { apply (ht_call _ _ _ _ _ (λ _, L)). intros v t [m|b] _ [Hl Hc]; (split; [done|]); [cbn; congruence|done]. }
    intros capturer. apply ht_if; intros _; [apply ht_throw; intros v t [_ ?]; congruence|].
    eapply ht_scoped; [apply no_throw_emit|eapply ht_pre; [apply probe_body_triple|by intros v t [? _]]|..].
    - intros []. apply ht_emit. intros v t (? & _ & ?). done.
    - intros e. apply ht_emit. intros v t [_ ?]. done. }
  specialize (H (mk_probe 0 false None) [] I). unfold xwp in H. destruct (RunCameraProbe _ _ _ _ _) as [[[e|[]] s] t].
  - destruct H as (_ & Hn & Hc); [done|]. split_and!; [done|done|]. by intros Hh; apply Hc.
  - destruct H as (Hh & _ & Hc & Hk); [done|]. rewrite Hh. done.
Qed.
End Probe.
