(* ===== verification/KvsText.v ===== *)
(** * Texts of the KVS session

    The functions of [devices/common/board/kvs_master/src/kvs_session_real.cpp] that
    read and write texts: fields of JSON documents found by their quoted name, the
    JSON-RPC error reply, and the address of an ICE candidate, which is replaced when
    it is an mDNS name. *)
From stdpp Require Import pretty.
From S2P Require Import Prelude Cpp CppParse.

#[local] Open Scope Z_scope.
#[local] Arguments Ascii.eqb : simpl never.

Definition quote : Ascii.ascii := Ascii.ascii_of_nat 34.
Definition backslash : Ascii.ascii := Ascii.ascii_of_nat 92.
Definition quoted (s : string) : string := String quote (s +:+ String quote EmptyString).

(** ** Fields of a JSON document *)

(** The text after the first occurrence of [needle]. *)
Fixpoint after_sub (needle s : string) : option string :=
  if String.prefix needle s then Some (drop_string (String.length needle) s)
  else match s with
       | EmptyString => None
       | String _ s => after_sub needle s
       end.

(** Where the value of a field starts: after its name, a colon and white space. *)
Definition field_start (json key : string) : option string :=
  rest ← after_sub (quoted key) json;
  r ← split_at ":" rest;
  Some (skip_spaces r.2).

(** The text of a string up to its closing quote; a backslash makes the next
    character part of it. *)
Fixpoint read_string (escaping : bool) (s : string) : option string :=
  match s with
  | EmptyString => None
  | String c s =>
      if escaping then String c <$> read_string false s
      else if Ascii.eqb c backslash then read_string true s
      else if Ascii.eqb c quote then Some EmptyString
      else String c <$> read_string false s
  end.

Definition ExtractJsonStringField (json key : string) : option string :=
  v ← field_start json key;
  match v with
  | String c rest => if Ascii.eqb c quote then read_string false rest else None
  | EmptyString => None
  end.

Definition HasJsonField (json key : string) : bool :=
  match field_start json key with
  | Some v => negb (string_empty v)
  | None => false
  end.

(** A string with its quotes and escapes. *)
Fixpoint read_raw_string (escaping : bool) (s : string) : option string :=
  match s with
  | EmptyString => None
  | String c s =>
      String c <$>
        (if escaping then read_raw_string false s
         else if Ascii.eqb c backslash then read_raw_string true s
         else if Ascii.eqb c quote then Some EmptyString
         else read_raw_string false s)
  end.
(** Characters up to a comma, a closing brace or white space. *)
Fixpoint read_token (s : string) : string :=
  match s with
  | EmptyString => EmptyString
  | String c s => if Ascii.eqb c "," || Ascii.eqb c "}" || isspace c then EmptyString else String c (read_token s)
  end.

Definition ExtractJsonRawField (json key : string) : option string :=
  v ← field_start json key;
  match v with
  | EmptyString => None
  | String c rest =>
      if Ascii.eqb c quote then String c <$> read_raw_string false rest else
      let token := read_token v in
      if string_empty token then None else Some token
  end.

Definition escape_char (c : Ascii.ascii) : string :=
  if Ascii.eqb c backslash then String backslash (String backslash EmptyString) else
  if Ascii.eqb c quote then String backslash (String quote EmptyString) else
  if Ascii.eqb c (Ascii.ascii_of_nat 10) then String backslash "n" else
  if Ascii.eqb c (Ascii.ascii_of_nat 13) then String backslash "r" else
  if Ascii.eqb c (Ascii.ascii_of_nat 9) then String backslash "t" else String c EmptyString.
Fixpoint EscapeJsonString (value : string) : string :=
  match value with
  | EmptyString => EmptyString
  | String c value => escape_char c +:+ EscapeJsonString value
  end.

Definition BuildJsonRpcErrorResponse (request : string) (code : Z) (message : string) : string :=
  let id := default "null" (ExtractJsonRawField request "id") in
  "{" +:+ quoted "jsonrpc" +:+ ":" +:+ quoted "2.0" +:+ "," +:+ quoted "id" +:+ ":" +:+ id +:+ "," +:+
  quoted "error" +:+ ":{" +:+ quoted "code" +:+ ":" +:+ pretty code +:+ "," +:+
  quoted "message" +:+ ":" +:+ quoted (EscapeJsonString message) +:+ "}}".

(** ** ICE candidates *)

(** [stream >> part] until the stream ends. *)
Fixpoint SplitWhitespaceSeparated (part value : string) : list string :=
  match value with
  | EmptyString => if string_empty part then [] else [part]
  | String c value =>
      if isspace c then (if string_empty part then [] else [part]) ++ SplitWhitespaceSeparated EmptyString value
      else SplitWhitespaceSeparated (part +:+ String c EmptyString) value
  end.

Definition kCandidateAddressTokenIndex : nat := 4.

Definition candidate_parts (candidate_sdp : string) : option (list string) :=
  let parts := SplitWhitespaceSeparated EmptyString candidate_sdp in
  if Nat.leb (length parts) kCandidateAddressTokenIndex || negb (String.prefix "candidate:" (default EmptyString (head parts)))
  then None else Some parts.

Definition ExtractIceCandidateAddress (candidate_sdp : string) : option string :=
  parts ← candidate_parts candidate_sdp; parts !! kCandidateAddressTokenIndex.

Definition IsMdnsHostname (hostname : string) : bool :=
  Nat.ltb 6 (String.length hostname) && bool_decide (drop_string (String.length hostname - 6) hostname = ".local").

Fixpoint join_spaces (parts : list string) : string :=
  match parts with
  | [] => EmptyString
  | [p] => p
  | p :: parts => p +:+ String " " (join_spaces parts)
  end.

Definition RewriteIceCandidateAddress (candidate_sdp replacement_address : string) : option string :=
  parts ← candidate_parts candidate_sdp; Some (join_spaces (<[kCandidateAddressTokenIndex := replacement_address]> parts)).

(** ** A text survives its escapes *)

(** No newline, carriage return or tabulator: their escapes are not undone. *)
Definition printable (v : string) : bool :=
  negb (string_mem (Ascii.ascii_of_nat 10) v) && negb (string_mem (Ascii.ascii_of_nat 13) v) && negb (string_mem (Ascii.ascii_of_nat 9) v).

Lemma printable_cons c v : printable (String c v) = true →
  printable v = true ∧ Ascii.eqb c (Ascii.ascii_of_nat 10) = false ∧ Ascii.eqb c (Ascii.ascii_of_nat 13) = false ∧ Ascii.eqb c (Ascii.ascii_of_nat 9) = false.
Proof.
  unfold printable. cbn [string_mem]. rewrite !andb_true_iff, !negb_true_iff, !orb_false_iff.
  intros [[[H1 ?] [H2 ?]] [H3 ?]]. rewrite Ascii.eqb_sym in H1, H2, H3. done.
Qed.

Lemma read_string_escaped v rest : printable v = true →
  read_string false (EscapeJsonString v +:+ String quote rest) = Some v.
Proof.
  induction v as [|c v IH]; intros Hv; [done|]. apply printable_cons in Hv as (Hv & H1 & H2 & H3).
  cbn [EscapeJsonString]. rewrite <- append_assoc. unfold escape_char.
  destruct (Ascii.eqb c backslash) eqn:Hb; [apply Ascii.eqb_eq in Hb as ->; rewrite !append_cons; cbn [read_string]; change (EmptyString +:+ ?x) with x; by rewrite IH|].
  destruct (Ascii.eqb c quote) eqn:Hq; [apply Ascii.eqb_eq in Hq as ->; rewrite !append_cons; cbn [read_string]; change (EmptyString +:+ ?x) with x; by rewrite IH|].
  rewrite H1, H2, H3, append_cons. cbn [read_string]. rewrite Hb, Hq. change (EmptyString +:+ ?x) with x. by rewrite IH.
Qed.

Lemma prefix_refl s rest : String.prefix s (s +:+ rest) = true.
Proof. induction s as [|c s IH]; [by destruct rest|]. rewrite append_cons. cbn. destruct (Ascii.ascii_dec c c); [done|congruence]. Qed.
Lemma drop_append s rest : drop_string (String.length s) (s +:+ rest) = rest.
Proof. induction s as [|c s IH]; [by destruct rest|]. rewrite append_cons. cbn. exact IH. Qed.

Lemma field_start_first key rest : field_start (String "{" (quoted key +:+ String ":" rest)) key = Some (skip_spaces rest).
Proof.
  unfold field_start. assert (Ha : after_sub (quoted key) (String "{" (quoted key +:+ String ":" rest)) = Some (String ":" rest)).
  { unfold quoted at 1. cbn [after_sub String.prefix]. destruct (Ascii.ascii_dec quote "{"); [done|]. fold (quoted key).
    destruct (quoted key +:+ String ":" rest) as [|c r] eqn:Hq; [done|]. rewrite <- Hq. cbn [after_sub].
    pose proof (prefix_refl (quoted key) (String ":" rest)) as Hp. pose proof (drop_append (quoted key) (String ":" rest)) as Hd.
    rewrite Hq in *. cbn [after_sub]. rewrite Hp. by f_equal. }
  rewrite Ha. cbn. by rewrite Ascii.eqb_refl.
Qed.

(** A value that is written with its escapes is read back, whatever follows it. *)
Theorem json_string_read_back key v rest : printable v = true →
  ExtractJsonStringField (String "{" (quoted key +:+ String ":" (String quote (EscapeJsonString v +:+ String quote rest)))) key = Some v.
Proof.
  intros Hv. unfold ExtractJsonStringField. rewrite field_start_first. cbn [skip_spaces mbind option_bind].
  change (isspace quote) with false. cbn. by apply read_string_escaped.
Qed.

(** ** The address of a candidate is replaced, and nothing else *)

Fixpoint no_space (s : string) : bool :=
  match s with
  | EmptyString => true
  | String c s => negb (isspace c) && no_space s
  end.
Definition word (s : string) : Prop := s ≠ EmptyString ∧ no_space s = true.

Lemma no_space_snoc s c : no_space s = true → isspace c = false → no_space (s +:+ String c EmptyString) = true.
Proof. intros Hs Hc. induction s as [|x s IH]; [rewrite append_nil_l; cbn; by rewrite Hc|]. rewrite append_cons. cbn in *. apply andb_true_iff in Hs as [-> Hs]. by apply IH. Qed.
Lemma append_nonempty s c : s +:+ String c EmptyString ≠ EmptyString.
Proof. by destruct s. Qed.

Lemma split_words part value : no_space part = true → Forall word (SplitWhitespaceSeparated part value).
Proof.
  revert part. induction value as [|c value IH]; intros part Hp; cbn [SplitWhitespaceSeparated].
  - destruct part; [done|]. cbn [string_empty]. by apply Forall_singleton.
  - destruct (isspace c) eqn:Hc; [|by apply IH, no_space_snoc]. apply Forall_app. split; [|by apply IH].
    destruct part; [done|]. cbn [string_empty]. by apply Forall_singleton.
Qed.

Lemma split_word part s : no_space s = true → (part ≠ EmptyString ∨ s ≠ EmptyString) →
  (SplitWhitespaceSeparated part s = [part +:+ s]) ∧
  ∀ rest, SplitWhitespaceSeparated part (s +:+ String " " rest) = (part +:+ s) :: SplitWhitespaceSeparated EmptyString rest.
Proof.
  revert part. induction s as [|c s IH]; intros part Hs Hne.
  - assert (Hp : part ≠ EmptyString) by (destruct Hne; done). rewrite append_nil_r. cbn [SplitWhitespaceSeparated]. apply string_empty_false in Hp as Hpe. split; [by rewrite Hpe|].
    intros rest. rewrite append_nil_l. cbn [SplitWhitespaceSeparated].
    change (isspace " ") with true. cbn. by rewrite Hpe.
  - cbn [no_space] in Hs. apply andb_true_iff in Hs as [Hc Hs]. apply negb_true_iff in Hc.
    destruct (IH (part +:+ String c EmptyString) Hs) as [H1 H2]; [left; apply append_nonempty|].
    rewrite <- append_assoc in H1, H2. split.
    + cbn [SplitWhitespaceSeparated]. rewrite Hc. exact H1.
    + intros rest. rewrite append_cons. cbn [SplitWhitespaceSeparated]. rewrite Hc. by rewrite H2.
Qed.

Lemma split_join parts : Forall word parts → SplitWhitespaceSeparated EmptyString (join_spaces parts) = parts.
Proof.
  induction parts as [|p parts IH]; intros Hw; [done|]. apply Forall_cons in Hw as [[Hp Hs] Hw].
  destruct (split_word EmptyString p Hs) as [H1 H2]; [by right|]. rewrite append_nil_l in H1, H2.
  destruct parts as [|q parts]; [exact H1|]. cbn [join_spaces]. rewrite H2. f_equal. by apply IH.
Qed.

(** The address of a candidate is replaced by a word, and every other part stays. *)
Theorem candidate_address_replaced candidate address replacement :
  ExtractIceCandidateAddress candidate = Some address → word replacement →
  ∃ rewritten, RewriteIceCandidateAddress candidate replacement = Some rewritten ∧
    ExtractIceCandidateAddress rewritten = Some replacement ∧
    ∀ i, i ≠ kCandidateAddressTokenIndex →
      SplitWhitespaceSeparated EmptyString rewritten !! i = SplitWhitespaceSeparated EmptyString candidate !! i.
Proof.
  unfold ExtractIceCandidateAddress, RewriteIceCandidateAddress, candidate_parts. intros He Hr.
  pose proof (split_words EmptyString candidate eq_refl) as Hw. set (parts := SplitWhitespaceSeparated EmptyString candidate) in *.
  destruct (_ || _) eqn:Hc; [done|]. cbn in He |- *. apply orb_false_iff in Hc as [Hlen Hpre]. apply Nat.leb_gt in Hlen.
  eexists. split; [done|]. assert (Hw' : Forall word (<[kCandidateAddressTokenIndex := replacement]> parts)) by by apply Forall_insert.
  rewrite split_join by done. rewrite length_insert.
  rewrite (proj2 (Nat.leb_gt _ _)) by done. assert (Hh : head (<[kCandidateAddressTokenIndex := replacement]> parts) = head parts) by (by destruct parts).
  rewrite Hh, Hpre. cbn [orb mbind option_bind]. split; [apply list_lookup_insert_eq; lia|]. intros i Hi. by rewrite list_lookup_insert_ne.
Qed.

Definition demo_candidate : string := "candidate:1 1 udp 2113937151 a1b2.local 54321 typ host".

Lemma candidate_address_replaced_witness :
  IsMdnsHostname "a1b2.local" = true ∧
  ∃ rewritten, RewriteIceCandidateAddress demo_candidate "192.168.1.7" = Some rewritten ∧
    ExtractIceCandidateAddress rewritten = Some "192.168.1.7" ∧
    ∀ i, i ≠ kCandidateAddressTokenIndex →
      SplitWhitespaceSeparated EmptyString rewritten !! i = SplitWhitespaceSeparated EmptyString demo_candidate !! i.
Proof.
  split; [reflexivity|]. apply (candidate_address_replaced demo_candidate "a1b2.local" "192.168.1.7"); [reflexivity|split; [intros [=]|reflexivity]].
Defined.

(** A name inside a string, where its quotes are escaped, is not taken for the field. *)
Example name_in_string_skipped :
  ExtractJsonRawField (String "{" (quoted "note" +:+ ":" +:+ quoted ("see " +:+ String backslash (String quote "epoch") +:+ String backslash (String quote EmptyString) +:+ ":9,") +:+ "," +:+ quoted "epoch" +:+ ":4}")) "epoch" = Some "4".
Proof. reflexivity. Qed.
