(* ===== verification/KvsSessions.v ===== *)
(** * The viewers of a KVS session

    [RealKvsSession] of [devices/common/board/kvs_master/src/kvs_session_real.cpp]:
    the table of viewer sessions, the candidates that wait for an offer, and the
    count of connected viewers. All of it is under [state_lock_]: every critical
    section is one step, and the threads (signalling, SDK callbacks, cleanup, [Stop])
    take steps in any order. Sessions are numbered in the order of their creation. *)
From stdpp Require Import gmap sorting.
From S2P Require Import Prelude Cpp VideoConfig.

#[local] Open Scope Z_scope.
#[local] Arguments Nat.leb : simpl never.

Definition kMaxConcurrentStreamingSessions : nat := 10.
Definition kPendingMessageCleanupDuration100ns : Z := 20 * 10000000.

(** What the lock guards, of one [StreamingSession]. *)
Record StreamingSession := mk_streaming { peer_id : string; connected : bool; terminate_requested : bool }.

Record registry := mk_registry {
  sessions : gmap nat StreamingSession;
  sessions_by_peer : gmap string nat;
  pending_ice_by_peer : gmap string (list (Z * string));
  viewer_count : Z;
  stopping : bool; recreate_signaling_client : bool }.

Definition set_sessions (x : gmap nat StreamingSession) (r : registry) : registry :=
  mk_registry x (sessions_by_peer r) (pending_ice_by_peer r) (viewer_count r) (stopping r) (recreate_signaling_client r).
Definition set_by_peer (x : gmap string nat) (r : registry) : registry :=
  mk_registry (sessions r) x (pending_ice_by_peer r) (viewer_count r) (stopping r) (recreate_signaling_client r).
Definition set_pending (x : gmap string (list (Z * string))) (r : registry) : registry :=
  mk_registry (sessions r) (sessions_by_peer r) x (viewer_count r) (stopping r) (recreate_signaling_client r).
Definition set_viewer_count (x : Z) (r : registry) : registry :=
  mk_registry (sessions r) (sessions_by_peer r) (pending_ice_by_peer r) x (stopping r) (recreate_signaling_client r).
Definition set_stopping (x : bool) (r : registry) : registry :=
  mk_registry (sessions r) (sessions_by_peer r) (pending_ice_by_peer r) (viewer_count r) x (recreate_signaling_client r).
Definition set_recreate (x : bool) (r : registry) : registry :=
  mk_registry (sessions r) (sessions_by_peer r) (pending_ice_by_peer r) (viewer_count r) (stopping r) x.

Definition empty_registry : registry := mk_registry ∅ ∅ ∅ 0 true false.

(** ** Critical sections *)

(** What a section hands to its caller. *)
Inductive outcome :=
  | Done
  | ToDestroy (ids : list nat)                       (* sessions that left the table *)
  | Refused (ids : list nat)                          (* no room for the offer *)
  | Inserted (ids : list nat) (pending : list string)    (* the late replaced one, the waiting candidates *)
  | NotInserted                                       (* the new session is to be destroyed *)
  | Found (id : nat)
  | Markers (connected_emitted disconnected_emitted : bool) (viewers : Z).

(** The start of an offer: an older session of the peer leaves the table. *)
Definition offer_begin (peer : string) (r : registry) : outcome * registry :=
  let replaced := option_list (sessions_by_peer r !! peer) in
  let by_peer := delete peer (sessions_by_peer r) in
  let r' := set_by_peer by_peer r in
  if Nat.leb kMaxConcurrentStreamingSessions (size by_peer)
  then (Refused replaced, set_pending (delete peer (pending_ice_by_peer r)) r')
  else (ToDestroy replaced, r').

(** The end of an offer: the new session enters the table. *)
Definition offer_end (peer : string) (id : nat) (r : registry) : outcome * registry :=
  match sessions_by_peer r !! peer with
  | Some old => (Inserted [old] [], set_by_peer (<[peer := id]> (sessions_by_peer r)) r)
  | None =>
      if Nat.leb kMaxConcurrentStreamingSessions (size (sessions_by_peer r))
      then (NotInserted, set_pending (delete peer (pending_ice_by_peer r)) r)
      else (Inserted [] (snd <$> default [] (pending_ice_by_peer r !! peer)),
            set_by_peer (<[peer := id]> (sessions_by_peer r)) (set_pending (delete peer (pending_ice_by_peer r)) r))
  end.

(** An answer goes to the session of its peer, or to the only session there is. *)
Definition find_for_answer (peer : string) (r : registry) : outcome * registry :=
  match sessions_by_peer r !! peer with
  | Some id => (Found id, r)
  | None =>
      match map_to_list (sessions_by_peer r) with
      | [(_, id)] => (Found id, r)
      | _ => (Done, r)
      end
  end.

(** A candidate waits when its peer has no session. *)
Definition remote_candidate (peer message : string) (now : Z) (r : registry) : outcome * registry :=
  match sessions_by_peer r !! peer with
  | Some id => (Found id, r)
  | None =>
      (Done, set_pending (<[peer := default [] (pending_ice_by_peer r !! peer) ++ [(now, message)]]> (pending_ice_by_peer r)) r)
  end.

Definition SetSessionConnected (id : nat) (value : bool) (r : registry) : outcome * registry :=
  match sessions r !! id with
  | None => (Done, r)
  | Some s =>
      if Bool.eqb (connected s) value then (Done, r) else
      let previous := viewer_count r in
      let count := if value then wrapu 32 (previous + 1) else if 0 <? previous then previous - 1 else previous in
      let r' := set_viewer_count count (set_sessions (<[id := mk_streaming (peer_id s) value (terminate_requested s)]> (sessions r)) r) in
      (Markers ((previous =? 0) && (0 <? count)) ((0 <? previous) && (count =? 0)) count, r')
  end.

(** [session->terminate_requested.store(true)]; the flag is atomic. *)
Definition request_terminate (id : nat) (r : registry) : outcome * registry :=
  match sessions r !! id with
  | None => (Done, r)
  | Some s => (Done, set_sessions (<[id := mk_streaming (peer_id s) (connected s) true]> (sessions r)) r)
  end.

Definition terminating (r : registry) (id : nat) : bool := from_option terminate_requested false (sessions r !! id).

Definition CollectTerminatedSessions (r : registry) : outcome * registry :=
  let gone := filter (λ kv, terminating r kv.2 = true) (sessions_by_peer r) in
  (ToDestroy ((map_to_list gone).*2), set_by_peer (filter (λ kv, terminating r kv.2 = false) (sessions_by_peer r)) r).

Fixpoint drop_expired (now : Z) (messages : list (Z * string)) : list (Z * string) :=
  match messages with
  | (created, m) :: rest => if wrapu 64 (created + kPendingMessageCleanupDuration100ns) <? now then drop_expired now rest else messages
  | [] => []
  end.
Definition RemoveExpiredPendingMessages (now : Z) (r : registry) : outcome * registry :=
  (Done, set_pending (filter (λ kv, kv.2 ≠ []) (drop_expired now <$> pending_ice_by_peer r)) r).

Definition RequestSignalingRecreate (r : registry) : outcome * registry := (Done, set_recreate true r).

(** The two sections of [Stop]. *)
Definition stop_begin (r : registry) : outcome * registry := (Done, set_stopping true r).
Definition stop_end (r : registry) : outcome * registry :=
  (ToDestroy ((map_to_list (sessions_by_peer r)).*2), set_recreate false (set_pending ∅ (set_by_peer ∅ r))).

(** ** Every interleaving

    A session belongs to one place: to the thread that creates it, to the table, or
    to the thread that destroys it. [owned] and [handed] are the first and the last
    of these; the table is the second. *)
Record world := mk_world { table : registry; owned : list nat; handed : list nat }.

(** The sessions that a section hands over for destruction. *)
Definition destroyed_by (o : outcome) (own : list nat) : list nat :=
  match o with
  | ToDestroy ids | Refused ids | Inserted ids _ => ids
  | NotInserted => own
  | _ => []
  end.

Definition new_session (peer : string) (id : nat) (r : registry) : registry :=
  set_sessions (<[id := mk_streaming peer false false]> (sessions r)) r.

(** The sections that neither create nor insert a session. *)
Inductive section := SBegin (peer : string) | SAnswer (peer : string) | SCandidate (peer message : string) (now : Z)
  | SConnected (id : nat) (value : bool) | STerminate (id : nat) | SCollect | SExpire (now : Z) | SRecreate | SRecreated | SStart | SStopBegin | SStopEnd.

Definition run_section (c : section) (r : registry) : outcome * registry :=
  match c with
  | SBegin peer => offer_begin peer r
  | SAnswer peer => find_for_answer peer r
  | SCandidate peer message now => remote_candidate peer message now r
  | SConnected id value => SetSessionConnected id value r
  | STerminate id => request_terminate id r
  | SCollect => CollectTerminatedSessions r
  | SExpire now => RemoveExpiredPendingMessages now r
  | SRecreate => RequestSignalingRecreate r
  | SRecreated => (Done, set_recreate false r)
  | SStart => (Done, set_stopping false r)
  | SStopBegin => stop_begin r
  | SStopEnd => stop_end r
  end.

Inductive step : world → world → Prop :=
  | step_section c w :
      step w (mk_world (run_section c (table w)).2 (owned w) (destroyed_by (run_section c (table w)).1 [] ++ handed w))
  | step_create peer id w : sessions (table w) !! id = None →
      step w (mk_world (new_session peer id (table w)) (id :: owned w) (handed w))
  | step_abandon id o1 o2 w : owned w = o1 ++ id :: o2 →
      step w (mk_world (table w) (o1 ++ o2) (id :: handed w))
  | step_insert peer id o1 o2 w : owned w = o1 ++ id :: o2 →
      step w (mk_world (offer_end peer id (table w)).2 (o1 ++ o2)
                (destroyed_by (offer_end peer id (table w)).1 [id] ++ handed w)).

Definition start_world : world := mk_world empty_registry [] [].
Definition reachable (w : world) : Prop := rtc step start_world w.

(** ** The invariant *)

(** The sessions whose flag is set, of all that were created. *)
Definition connected_flags (r : registry) : Z := Z.of_nat (size (filter (λ kv, connected kv.2 = true) (sessions r))).
Definition is_connected (r : registry) (id : nat) : bool := from_option connected false (sessions r !! id).
(** How many of some sessions have it set. *)
Definition count_connected (r : registry) (ids : list nat) : Z := Z.of_nat (length (filter (λ id, is_connected r id = true) ids)).
Definition table_ids (r : registry) : list nat := (map_to_list (sessions_by_peer r)).*2.
Definition places (w : world) : list nat := table_ids (table w) ++ owned w ++ handed w.

Record registry_ok (w : world) : Prop := {
  ok_size : (size (sessions_by_peer (table w)) ≤ kMaxConcurrentStreamingSessions)%nat;
  ok_once : NoDup (places w);
  ok_known : ∀ id, is_Some (sessions (table w) !! id) ↔ id ∈ places w;
  ok_viewers : Z.of_nat (size (sessions (table w))) < 2 ^ 32 → viewer_count (table w) = connected_flags (table w) }.

Lemma table_ids_delete peer id r : sessions_by_peer r !! peer = Some id →
  table_ids r ≡ₚ id :: (map_to_list (delete peer (sessions_by_peer r))).*2.
Proof. intros Hp. unfold table_ids. by rewrite <- (map_to_list_delete _ _ _ Hp). Qed.

Lemma table_ids_insert peer id (m : gmap string nat) : m !! peer = None → (map_to_list (<[peer := id]> m)).*2 ≡ₚ id :: (map_to_list m).*2.
Proof. intros Hp. by rewrite map_to_list_insert. Qed.

Lemma map_to_list_filter_perm `{Countable K} {A} (P : K * A → Prop) `{∀ x, Decision (P x)} (m : gmap K A) :
  map_to_list (filter P m) ≡ₚ filter P (map_to_list m).
Proof.
  rewrite map_filter_alt. apply map_to_list_to_map. apply NoDup_fmap_fst.
  - intros k x y Hx Hy. apply list_elem_of_filter in Hx as [_ Hx]. apply list_elem_of_filter in Hy as [_ Hy]. by apply (map_to_list_unique m k).
  - apply NoDup_filter, NoDup_map_to_list.
Qed.

(** What leaves the table is handed over. *)
Lemma section_places c r : table_ids r ≡ₚ destroyed_by (run_section c r).1 [] ++ table_ids (run_section c r).2.
Proof.
  destruct c as [peer|peer|peer m now|id v|id| |now| | | | |]; cbn [run_section]; try done.
  - unfold offer_begin. destruct (sessions_by_peer r !! peer) as [id|] eqn:Hp; cbn.
    + rewrite (table_ids_delete _ _ _ Hp). by case_match.
    + unfold table_ids. rewrite delete_id by done. by case_match.
  - unfold find_for_answer. by repeat case_match.
  - unfold remote_candidate. by case_match.
  - unfold SetSessionConnected. by repeat case_match.
  - unfold request_terminate. by case_match.
  - cbn. unfold table_ids. cbn. rewrite !map_to_list_filter_perm, <- fmap_app.
    rewrite <- (filter_app_complement (λ kv : string * nat, terminating r kv.2 = true)) at 1.
    apply fmap_Permutation, Permutation_app; [done|]. rewrite (list_filter_iff _ (λ kv : string * nat, terminating r kv.2 = false)); [done|].
    intros kv. by rewrite not_true_iff_false.
  - cbn. unfold table_ids at 2. cbn. by rewrite map_to_list_empty, app_nil_r.
Qed.

Lemma insert_places peer id r :
  id :: table_ids r ≡ₚ destroyed_by (offer_end peer id r).1 [id] ++ table_ids (offer_end peer id r).2.
Proof.
  unfold offer_end. destruct (sessions_by_peer r !! peer) as [old|] eqn:Hp; cbn [fst snd destroyed_by].
  - rewrite (table_ids_delete _ _ _ Hp). unfold table_ids. cbn. rewrite <- insert_delete_eq, table_ids_insert by apply lookup_delete_eq.
    apply perm_swap.
  - case_match; [done|]. cbn. unfold table_ids at 2. cbn. by rewrite table_ids_insert.
Qed.

(** The sections neither add nor remove a session. *)
Lemma section_dom c r id : is_Some (sessions (run_section c r).2 !! id) ↔ is_Some (sessions r !! id).
Proof.
  destruct c as [peer|peer|peer m now|id' v|id'| |now| | | | |]; cbn [run_section]; try done.
  - unfold offer_begin. by case_match.
  - unfold find_for_answer. by repeat case_match.
  - unfold remote_candidate. by case_match.
  - unfold SetSessionConnected. destruct (sessions r !! id') eqn:Hs; [|done]. case_match; [done|]. cbn. rewrite lookup_insert_is_Some'. naive_solver.
  - unfold request_terminate. destruct (sessions r !! id') eqn:Hs; [|done]. cbn. rewrite lookup_insert_is_Some'. naive_solver.
Qed.

Lemma section_size c r : size (sessions (run_section c r).2) = size (sessions r).
Proof.
  destruct c as [peer|peer|peer m now|id v|id| |now| | | | |]; cbn [run_section]; try done.
  - unfold offer_begin. by case_match.
  - unfold find_for_answer. by repeat case_match.
  - unfold remote_candidate. by case_match.
  - unfold SetSessionConnected. destruct (sessions r !! id) eqn:Hs; [|done]. case_match; [done|]. cbn. by apply map_size_insert_Some.
  - unfold request_terminate. destruct (sessions r !! id) eqn:Hs; [|done]. cbn. by apply map_size_insert_Some.
Qed.

Lemma section_table_size c r : (size (sessions_by_peer (run_section c r).2) ≤ size (sessions_by_peer r))%nat.
Proof.
  destruct c as [peer|peer|peer m now|id v|id| |now| | | | |]; cbn [run_section]; try done.
  - unfold offer_begin. assert (size (delete peer (sessions_by_peer r)) ≤ size (sessions_by_peer r))%nat by (apply map_subseteq_size, delete_subseteq).
    by case_match.
  - unfold find_for_answer. by repeat case_match.
  - unfold remote_candidate. by case_match.
  - unfold SetSessionConnected. by repeat case_match.
  - unfold request_terminate. by case_match.
  - cbn. apply map_subseteq_size, map_filter_subseteq.
  - cbn. rewrite map_size_empty. lia.
Qed.

(** Setting the flag of one session changes the number of connected ones by one. *)
Lemma viewers_insert (m : gmap nat StreamingSession) id s v tr : m !! id = Some s →
  Z.of_nat (size (filter (λ kv, connected kv.2 = true) (<[id := mk_streaming (peer_id s) v tr]> m))) =
    Z.of_nat (size (filter (λ kv, connected kv.2 = true) m)) + (if v then 1 else 0) - (if connected s then 1 else 0).
Proof.
  intros Hs. set (P := λ kv : nat * StreamingSession, connected kv.2 = true).
  assert (Hd : filter P m !! id = if connected s then Some s else None).
  { destruct (connected s) eqn:Hc; [by apply map_lookup_filter_Some|]. apply map_lookup_filter_None. right. intros s' Hs'. unfold P. cbn. congruence. }
  destruct v.
  - rewrite map_filter_insert_True by done. rewrite map_size_insert, Hd. destruct (connected s); cbn; lia.
  - rewrite map_filter_insert_False by done. rewrite map_filter_delete, map_size_delete, Hd.
    destruct (connected s); cbn; [|lia]. assert (size (filter P m) ≠ 0%nat) by (rewrite map_size_ne_0_lookup; by eauto). lia.
Qed.

Lemma connected_le r : 0 ≤ connected_flags r ≤ Z.of_nat (size (sessions r)).
Proof. unfold connected_flags. pose proof (map_subseteq_size _ _ (map_filter_subseteq (λ kv, connected kv.2 = true) (sessions r))). lia. Qed.

Lemma section_viewers c r : Z.of_nat (size (sessions r)) < 2 ^ 32 → viewer_count r = connected_flags r →
  viewer_count (run_section c r).2 = connected_flags (run_section c r).2.
Proof.
  intros Hn Hv. pose proof (connected_le r) as Hle.
  destruct c as [peer|peer|peer m now|id v|id| |now| | | | |]; cbn [run_section]; try done.
  - unfold offer_begin. by case_match.
  - unfold find_for_answer. by repeat case_match.
  - unfold remote_candidate. by case_match.
  - unfold SetSessionConnected. destruct (sessions r !! id) as [s|] eqn:Hs; [|done]. destruct (Bool.eqb _ _) eqn:He; [done|].
    apply Bool.eqb_false_iff in He. cbn. unfold connected_flags in *. cbn. rewrite viewers_insert by done. rewrite <- Hv.
    destruct (connected s) eqn:Hc, v; try done.
    + assert (0 < viewer_count r) as Hp; [|rewrite (proj2 (Z.ltb_lt _ _)) by done; lia].
      rewrite Hv. assert (size (filter (λ kv, connected kv.2 = true) (sessions r)) ≠ 0%nat); [|lia].
      rewrite map_size_ne_0_lookup. exists id, s. by apply map_lookup_filter_Some.
    + assert (Hlt : size (filter (λ kv, connected kv.2 = true) (sessions r)) ≠ size (sessions r)).
      { intros Heq. assert (Hf : filter (λ kv, connected kv.2 = true) (sessions r) = sessions r).
        { apply map_subseteq_size_eq; [apply map_filter_subseteq|lia]. }
        rewrite <- Hf in Hs. apply map_lookup_filter_Some in Hs as [_ Hs]. cbn in Hs. congruence. }
      rewrite wrapu_id; [lia|]. unfold in_u. lia.
  - unfold request_terminate. destruct (sessions r !! id) as [s|] eqn:Hs; [|done]. cbn. unfold connected_flags in *. cbn.
    rewrite viewers_insert by done. lia.
Qed.

Lemma offer_end_rest peer id r : sessions (offer_end peer id r).2 = sessions r ∧ viewer_count (offer_end peer id r).2 = viewer_count r ∧
  ((size (sessions_by_peer r) ≤ kMaxConcurrentStreamingSessions)%nat →
   (size (sessions_by_peer (offer_end peer id r).2) ≤ kMaxConcurrentStreamingSessions)%nat).
Proof.
  unfold offer_end. destruct (sessions_by_peer r !! peer) eqn:Hp; cbn.
  - split_and!; [done|done|]. by rewrite map_size_insert_Some.
  - destruct (Nat.leb kMaxConcurrentStreamingSessions (size (sessions_by_peer r))) eqn:Hl; [done|]. cbn. split_and!; [done|done|].
    intros _. rewrite map_size_insert_None by done. apply Nat.leb_gt in Hl. lia.
Qed.

Lemma step_ok w w' : step w w' → registry_ok w → registry_ok w'.
Proof.
  intros Hs [H1 H2 H3 H4]. unfold places in *. destruct Hs as [c w|peer id w Hid|id o1 o2 w Ho|peer id o1 o2 w Ho]; cbn in *.
  - assert (Hp : table_ids (table w) ++ owned w ++ handed w ≡ₚ
        table_ids (run_section c (table w)).2 ++ owned w ++ destroyed_by (run_section c (table w)).1 [] ++ handed w).
    { rewrite (section_places c (table w)) at 1. solve_Permutation. }
    constructor; unfold places; cbn.
    + pose proof (section_table_size c (table w)). lia.
    + by rewrite <- Hp.
    + intros id. rewrite <- Hp, section_dom. apply H3.
    + rewrite section_size. intros Hn. by apply section_viewers, H4.
  - assert (Hnew : id ∉ table_ids (table w) ++ owned w ++ handed w) by (intros [? Hin]%H3; congruence).
    assert (Hp : table_ids (new_session peer id (table w)) ++ (id :: owned w) ++ handed w ≡ₚ
        id :: table_ids (table w) ++ owned w ++ handed w) by (unfold table_ids; cbn; solve_Permutation).
    constructor; unfold places; cbn [table owned handed]; [done|..].
    + rewrite Hp. by apply NoDup_cons.
    + intros id'. rewrite Hp. cbn. rewrite elem_of_cons, lookup_insert_is_Some', H3. naive_solver.
    + cbn. rewrite map_size_insert_None by done. intros Hn. rewrite H4 by lia. unfold connected_flags. cbn.
      rewrite map_filter_insert_False by done. by rewrite delete_id.
  - assert (Hp : table_ids (table w) ++ owned w ++ handed w ≡ₚ table_ids (table w) ++ (o1 ++ o2) ++ id :: handed w)
      by (rewrite Ho; solve_Permutation).
    constructor; unfold places; cbn; [done| | |done]; [by rewrite <- Hp|]. intros id'. rewrite <- Hp. apply H3.
  - destruct (offer_end_rest peer id (table w)) as (Es & Ev & Hsz).
    assert (Hp : table_ids (table w) ++ owned w ++ handed w ≡ₚ
        table_ids (offer_end peer id (table w)).2 ++ (o1 ++ o2) ++ destroyed_by (offer_end peer id (table w)).1 [id] ++ handed w).
    { rewrite Ho. transitivity ((id :: table_ids (table w)) ++ o1 ++ o2 ++ handed w); [solve_Permutation|].
      rewrite (insert_places peer id (table w)). solve_Permutation. }
    constructor; unfold places; cbn; [by apply Hsz|by rewrite <- Hp| |].
    + intros id'. rewrite <- Hp, Es. apply H3.
    + unfold connected_flags. by rewrite Es, Ev.
Qed.

Lemma steps_ok w w' : rtc step w w' → registry_ok w → registry_ok w'.
Proof. induction 1; [done|]. eauto using step_ok. Qed.

Lemma start_ok : registry_ok start_world.
Proof.
  constructor; unfold places, table_ids; cbn; rewrite ?map_to_list_empty; cbn; try done; [rewrite map_size_empty; lia|apply NoDup_nil_2|].
  intros id. rewrite elem_of_nil, lookup_empty. split; [by intros []|done].
Qed.

(** The flags that are set, by the place of their session. *)
Lemma flags_by_place w : registry_ok w → connected_flags (table w) = count_connected (table w) (places w).
Proof.
  intros [_ Hn Hk _]. unfold connected_flags, count_connected. f_equal.
  rewrite <- length_map_to_list, map_to_list_filter_perm, <- (length_fmap fst).
  assert (Hp : places w ≡ₚ (map_to_list (sessions (table w))).*1).
  { apply NoDup_Permutation; [done|apply NoDup_fst_map_to_list|]. intros id. rewrite <- Hk, list_elem_of_fmap. split.
    - intros [v Hv]. exists (id, v). split; [done|by apply elem_of_map_to_list].
    - intros ([k v] & -> & Hv%elem_of_map_to_list). by exists v. }
  rewrite Hp. clear Hp. assert (Hall : ∀ kv, kv ∈ map_to_list (sessions (table w)) → is_connected (table w) kv.1 = connected kv.2).
  { intros [k v] Hkv%elem_of_map_to_list. unfold is_connected. cbn. by rewrite Hkv. }
  induction (map_to_list (sessions (table w))) as [|kv l IH]; [done|]. rewrite fmap_cons, !filter_cons.
  assert (Hkv := Hall kv ltac:(left)). specialize (IH ltac:(intros; apply Hall; by right)).
  repeat case_decide; cbn; rewrite ?IH; congruence.
Qed.
Lemma count_connected_app r l1 l2 : count_connected r (l1 ++ l2) = count_connected r l1 + count_connected r l2.
Proof. unfold count_connected. rewrite filter_app, length_app. lia. Qed.

(** C15: In every interleaving of the critical sections of a KVS session there are never
    more than ten viewers in the table, and the sessions that were created are exactly
    those in three disjoint places, each once: with their creator, in the table, or
    handed over for destruction. With fewer than 2^32 sessions the viewer count is the
    number of sessions with the connected flag, those in the table plus those in the
    other two places; a session that was handed over counts when its flag is set again
    (late_connect_leaves_a_viewer). *)
Theorem viewer_sessions_consistent w : reachable w →
  (size (sessions_by_peer (table w)) ≤ kMaxConcurrentStreamingSessions)%nat ∧
  NoDup (table_ids (table w) ++ owned w ++ handed w) ∧
  (∀ id, is_Some (sessions (table w) !! id) ↔ id ∈ table_ids (table w) ++ owned w ++ handed w) ∧
  (Z.of_nat (size (sessions (table w))) < 2 ^ 32 →
   viewer_count (table w) = count_connected (table w) (table_ids (table w)) + count_connected (table w) (owned w ++ handed w)).
Proof.
  intros Hr. pose proof (steps_ok _ _ Hr start_ok) as H. split_and!; try apply H. intros Hn. rewrite (ok_viewers _ H Hn), <- count_connected_app.
  by apply flags_by_place.
Qed.

(** An offer that is refused returns before its older session would be destroyed;
    there is none, because the table had room for it. *)
Lemma refused_replaces peer r ids : (size (sessions_by_peer r) ≤ kMaxConcurrentStreamingSessions)%nat →
  (offer_begin peer r).1 = Refused ids → ids = [].
Proof.
  intros Hs. unfold offer_begin. destruct (sessions_by_peer r !! peer) as [id|] eqn:Hp; cbn; [|by case_match; intros [= <-]].
  rewrite map_size_delete_Some by done. destruct (Nat.leb _ _) eqn:Hl; [|done]. intros _. exfalso. apply Nat.leb_le in Hl.
  assert (size (sessions_by_peer r) ≠ 0%nat) by (rewrite map_size_ne_0_lookup; by eauto). lia.
Qed.
Theorem refused_offer_replaces_nothing w peer ids : reachable w → (offer_begin peer (table w)).1 = Refused ids → ids = [].
Proof. intros Hr. apply refused_replaces, (steps_ok _ _ Hr start_ok). Qed.

(** ** Executions *)

Fixpoint run_sections (cs : list section) (w : world) : world :=
  match cs with
  | [] => w
  | c :: cs => run_sections cs (mk_world (run_section c (table w)).2 (owned w) (destroyed_by (run_section c (table w)).1 [] ++ handed w))
  end.
Lemma run_sections_steps cs w : rtc step w (run_sections cs w).
Proof. revert w. induction cs as [|c cs IH]; intros w; [done|]. cbn. eapply rtc_l; [apply (step_section c)|]. apply IH. Qed.

(** A peer's session, inserted. *)
Definition one_viewer : world :=
  let r := new_session "viewer" 0 empty_registry in
  mk_world (offer_end "viewer" 0 r).2 [] (destroyed_by (offer_end "viewer" 0 r).1 [0%nat]).
Lemma one_viewer_reachable : reachable one_viewer.
Proof.
  eapply rtc_l; [by apply (step_create "viewer" 0)|].
  eapply rtc_l; [by apply (step_insert "viewer" 0 [] [])|]. apply rtc_refl.
Qed.

Lemma viewer_sessions_consistent_witness :
  let w := run_sections [SConnected 0 true; SCandidate "other" "candidate" 5] one_viewer in
  reachable w ∧ viewer_count (table w) = 1 ∧ viewer_count (table w) = count_connected (table w) [0%nat] ∧ NoDup (table_ids (table w) ++ owned w ++ handed w).
Proof.
  intros w. assert (Hr : reachable w) by (unfold reachable; etrans; [apply one_viewer_reachable|apply run_sections_steps]).
  destruct (viewer_sessions_consistent w Hr) as (_ & Hn & _ & Hv).
  split_and!; [exact Hr|reflexivity|etrans; [apply Hv; reflexivity|reflexivity]|exact Hn].
Defined.

(** The callback of a connection does not look at [terminate_requested]: one that
    comes after the session was taken out and disconnected counts a viewer that no
    later step of the cleanup takes back. *)
Definition late_connect : world :=
  run_sections [STerminate 0; SCollect; SConnected 0 false; SConnected 0 true] one_viewer.
Theorem late_connect_leaves_a_viewer :
  reachable late_connect ∧ sessions_by_peer (table late_connect) = ∅ ∧ handed late_connect = [0%nat] ∧ viewer_count (table late_connect) = 1.
Proof. split; [unfold reachable; etrans; [apply one_viewer_reachable|apply run_sections_steps]|]. vm_compute. done. Qed.
