(* ===== verification/KvsMavlink.v ===== *)
(** * The MAVLink data channel of a viewer session

    [kvs_session_real.cpp]: how a session of the control channel binds a data channel,
    opens a peer at the bridge of the daemon, passes control messages and frames to it
    and telemetry back, and closes it. The functions that touch the peer hold
    [mavlink_lock], those that touch the data channel its own mutex; each such
    critical section is one step, and the steps of the callbacks, of the telemetry
    reader and of the cleanup thread come in any order. The epoch of a frame is the
    one in the last answer of the daemon that has one. *)
From stdpp Require Import gmap.
From S2P Require Import Prelude Cpp CppParse KvsChannel KvsText VideoConfig.
Import SerializedDataChannel.

#[local] Open Scope Z_scope.

Inductive mv_event :=
  | PeerOpened (peer_id : string) (r : string + unit)
  | PeerClosed (peer : nat) (reason : string)
  | ControlHandled (peer : nat) (payload : string) (r : string + string)
  | FrameForwarded (peer : nat) (frame : list Z) (epoch : Z) (r : string + unit)
  | ChannelSent (channel : nat) (binary : bool) (data : list Z + string) (r : string + Z)
  | MarkerLine (line : string)
  | TerminateStored
  | MessageHandlerSet (channel : nat) (r : string + Z).

Abbreviation mv_trace := (list mv_event).

Class MavlinkEnv := {
  mv_open : string → mv_trace → string + unit;
  mv_control : nat → string → mv_trace → string + string;
  mv_forward : nat → list Z → Z → mv_trace → string + unit;
  mv_send : nat → mv_trace → Z;
  mv_on_message : nat → mv_trace → Z }.

(** Peers are numbered in the order in which they were opened. *)
Fixpoint peers_opened (t : mv_trace) : nat :=
  match t with
  | [] => 0
  | PeerOpened _ (inr _) :: t => Datatypes.S (peers_opened t)
  | _ :: t => peers_opened t
  end.

(** The members of [StreamingSession] that the control channel uses; a channel of
    number 0 is no channel. *)
Record mavlink_session := mk_mavlink {
  mavlink_data_channel : channel_state (Channel:=nat);
  mavlink_peer : option nat; mavlink_epoch : Z; terminate_requested : bool }.
Definition new_mavlink_session : mavlink_session := mk_mavlink (unbound 0%nat) None 0 false.

Definition set_channel (x : channel_state) (m : mavlink_session) : mavlink_session :=
  mk_mavlink x (mavlink_peer m) (mavlink_epoch m) (terminate_requested m).
Definition set_peer (x : option nat) (m : mavlink_session) : mavlink_session :=
  mk_mavlink (mavlink_data_channel m) x (mavlink_epoch m) (terminate_requested m).
Definition set_epoch (x : Z) (m : mavlink_session) : mavlink_session :=
  mk_mavlink (mavlink_data_channel m) (mavlink_peer m) x (terminate_requested m).
Definition set_terminate (m : mavlink_session) : mavlink_session :=
  mk_mavlink (mavlink_data_channel m) (mavlink_peer m) (mavlink_epoch m) true.

Section Mavlink.
Context `{env : MavlinkEnv} (id : string) (data_channel_label : string) (has_bridge : bool).
Abbreviation M := (X mv_event mavlink_session).

Definition STATUS_FAILED (status : Z) : bool := negb (status =? 0).
Definition emit_marker (prefix : string) (fields : list (string * string)) : M unit :=
  xemit (MarkerLine (FormatMarkerLine prefix fields)).
Definition channel_error (detail : string) : M unit :=
  emit_marker "TXING_MAVLINK_DATACHANNEL_ERROR" [("peerId", id); ("detail", detail)].

(** A call of the data channel under its mutex. *)
Definition channel_call (o : op) : M (bool * option nat) :=
  m ← xget;
  let r := channel_step 0%nat o (mavlink_data_channel m) in
  _ ← xmodify (set_channel r.2);
  mret r.1.

(** [mavlink_data_channel.Send(channel, ...)] with [dataChannelSend] as the writer. *)
Definition send_on (channel : nat) (binary : bool) (data : list Z + string) : M unit :=
  r ← channel_call (Send channel);
  match r.2 with
  | Some ch => _ ← xcall (ChannelSent ch binary data) (λ t, inr (mv_send ch t)); mret tt
  | None => mret tt
  end.

(** The peer object goes away: its destructor closes it. *)
Definition reset_peer (reason : string) : M unit :=
  m ← xget;
  match mavlink_peer m with
  | Some p => _ ← xmodify (set_peer None); xemit (PeerClosed p reason)
  | None => mret tt
  end.

(** The two sections of [CloseMavlinkDataChannel]. *)
Definition close_channel : M unit := _ ← channel_call Close; mret tt.
Definition close_peer (reason : string) : M unit :=
  _ ← reset_peer reason;
  xmodify (set_epoch 0).

(** [OpenMavlinkDataChannel], under [mavlink_lock]; [has_bridge]: the owner has a
    client of the bridge. *)
Definition OpenMavlinkDataChannel : M unit :=
  if negb has_bridge then mret tt else
  m ← xget;
  if terminate_requested m then mret tt else
  try_catch
    (λ s t, let p := peers_opened t in
       (_ ← xcall (PeerOpened id) (mv_open id);
        _ ← reset_peer "MAVLink KVS peer destroyed";
        _ ← xmodify (set_peer (Some p));
        emit_marker "TXING_MAVLINK_DATACHANNEL_OPEN" [("peerId", id)]) s t)
    channel_error.

(** The epoch of an answer, where it is an unsigned number. *)
Definition answer_epoch (response : string) : option Z :=
  raw ← ExtractJsonRawField response "epoch";
  '(parsed, rest) ← std_stoull raw;
  if string_empty rest then Some parsed else None.

Definition DispatchMavlinkDataChannelMessage (payload : string) : M (option string) :=
  m ← xget;
  match mavlink_peer m with
  | None => mret None
  | Some p =>
      try_catch
        (response ← xcall (ControlHandled p payload) (mv_control p payload);
         _ ← match answer_epoch response with Some e => xmodify (set_epoch e) | None => mret tt end;
         mret (Some response))
        (λ e, _ ← channel_error e; mret None)
  end.

Definition DispatchMavlinkDataChannelFrame (frame : list Z) : M unit :=
  if Nat.eqb (length frame) 0 then mret tt else
  m ← xget;
  match mavlink_peer m with
  | None => mret tt
  | Some p =>
      if mavlink_epoch m =? 0 then mret tt else
      try_catch (xcall (FrameForwarded p frame (mavlink_epoch m)) (mv_forward p frame (mavlink_epoch m))) channel_error
  end.

(** [OnDataChannel] of a control session: the label is checked and the channel bound;
    the peer is opened by the next section. *)
Definition bind_data_channel (channel : nat) (label : string) : M bool :=
  if Nat.eqb channel 0 || negb (bool_decide (label = data_channel_label)) then mret false else
  r ← channel_call (Bind channel);
  mret r.1.
Definition set_message_handler (channel : nat) : M unit :=
  status ← xcall (MessageHandlerSet channel) (λ t, inr (mv_on_message channel t));
  if STATUS_FAILED status
  then emit_marker "TXING_MAVLINK_DATACHANNEL_ERROR" [("sessionId", id); ("detail", "failed to register data channel message handler")]
  else mret tt.

(** The telemetry receiver that was given to the peer of [channel]. *)
Definition receive_telemetry (channel : nat) (frame : list Z) : M unit :=
  m ← xget;
  if terminate_requested m || Nat.eqb (length frame) 0 then mret tt else send_on channel true (inl frame).

(** ** Steps of the threads *)

Inductive mv_op :=
  | OpBind (channel : nat) (label : string)
  | OpOpen
  | OpHandler (channel : nat)
  | OpText (channel : nat) (payload : string)
  | OpReply (channel : nat) (response : string)
  | OpBinary (channel : nat) (frame : list Z)
  | OpTelemetry (channel : nat) (frame : list Z)
  | OpTerminate
  | OpCloseChannel
  | OpClosePeer (reason : string).

Definition mv_step (o : mv_op) : M unit :=
  match o with
  | OpBind channel label => _ ← bind_data_channel channel label; mret tt
  | OpOpen => OpenMavlinkDataChannel
  | OpHandler channel => set_message_handler channel
  | OpText _ payload => _ ← DispatchMavlinkDataChannelMessage payload; mret tt
  | OpReply channel response => send_on channel false (inr response)
  | OpBinary _ frame => DispatchMavlinkDataChannelFrame frame
  | OpTelemetry channel frame => receive_telemetry channel frame
  | OpTerminate => _ ← xmodify set_terminate; xemit TerminateStored
  | OpCloseChannel => close_channel
  | OpClosePeer reason => close_peer reason
  end.

Fixpoint mv_run (ops : list mv_op) : M unit :=
  match ops with
  | [] => mret tt
  | o :: ops => _ ← mv_step o; mv_run ops
  end.
End Mavlink.

(** ** Reading a trace *)

(** The peer that is open. *)
Fixpoint current_peer (t : mv_trace) : option nat :=
  match t with
  | [] => None
  | PeerOpened _ (inr _) :: t => Some (peers_opened t)
  | PeerClosed p _ :: t => if bool_decide (current_peer t = Some p) then None else current_peer t
  | _ :: t => current_peer t
  end.
(** The epoch that the daemon gave last. *)
Fixpoint granted (t : mv_trace) : Z :=
  match t with
  | [] => 0
  | ControlHandled _ _ (inr response) :: t => default (granted t) (answer_epoch response)
  | _ :: t => granted t
  end.

Definition mavlink_guard (e : mv_event) (t : mv_trace) : Prop :=
  match e with
  | ControlHandled p _ _ => current_peer t = Some p
  | FrameForwarded p frame epoch _ => current_peer t = Some p ∧ frame ≠ [] ∧ epoch ≠ 0 ∧ epoch = granted t
  | PeerClosed p _ => (p < peers_opened t)%nat
  | _ => True
  end.

(** A session that was shut. *)
Definition ended (m : mavlink_session) : Prop :=
  terminate_requested m = true ∧ mavlink_peer m = None ∧ mavlink_data_channel m = mk_state 0%nat true.
(** What a session that was shut still does: a marker, the registration of a handler. *)
Definition silent (e : mv_event) : Prop :=
  match e with MarkerLine _ | TerminateStored | MessageHandlerSet _ _ => True | _ => False end.

Section Safety.
Context `{env : MavlinkEnv} (id : string) (data_channel_label : string) (has_bridge : bool).
Abbreviation M := (X mv_event mavlink_session).

Definition linked (m : mavlink_session) (t : mv_trace) : Prop :=
  mavlink_peer m = current_peer t ∧ (mavlink_epoch m = 0 ∨ mavlink_epoch m = granted t) ∧
  (∀ p, mavlink_peer m = Some p → (p < peers_opened t)%nat).
Definition mv_inv (m : mavlink_session) (t : mv_trace) : Prop := guarded mavlink_guard t ∧ linked m t.

(** Flags that are never taken back. *)
Definition later (m m' : mavlink_session) : Prop :=
  (terminate_requested m = true → terminate_requested m' = true) ∧
  (mavlink_data_channel m = mk_state 0%nat true → mavlink_data_channel m' = mk_state 0%nat true) ∧
  (terminate_requested m = true → mavlink_peer m = None → mavlink_peer m' = None).

Lemma channel_closed_step o : (channel_step 0%nat o (mk_state 0%nat true)).2 = mk_state 0%nat true ∧ (channel_step 0%nat o (mk_state 0%nat true)).1.2 = None.
Proof. destruct o; done. Qed.

(** Every step returns, keeps the invariant and the flags; of a shut session it is silent. *)
Definition mv_post (m : mavlink_session) (t : mv_trace) (m' : mavlink_session) (t' : mv_trace) : Prop :=
  mv_inv m' t' ∧ later m m' ∧ (ended m → ∃ new, t' = new ++ t ∧ Forall silent new).

Lemma keep_post m t : mv_inv m t → mv_post m t m t.
Proof. intros Hi. split_and!; [done|by unfold later|]. intros _. by exists []. Qed.

Lemma emit_post m t m' t' e : silent e → mv_post m t m' t' → mv_post m t m' (e :: t').
Proof.
  intros He ((Hg & Hl & Hep & Hp) & Hlat & Hs). split; [|split; [done|]].
  - destruct e; try done; (split; [split; [done|exact Hg]|split_and!; [exact Hl|exact Hep|exact Hp]]).
  - intros Hend. destruct (Hs Hend) as (new & -> & Hn). exists (e :: new). split; [done|]. by apply Forall_cons.
Qed.

(** An event that opens or closes no peer and gives no epoch. *)
Definition quiet (e : mv_event) : Prop :=
  match e with PeerOpened _ (inr _) | PeerClosed _ _ | ControlHandled _ _ (inr _) => False | _ => True end.

Lemma quiet_inv m t e : quiet e → mavlink_guard e t → mv_inv m t → mv_inv m (e :: t).
Proof.
  intros Hq He (Hg & Hl & Hep & Hp). split; [done|].
  by destruct e as [? []| |? ? []| | | | |].
Qed.

Lemma post_trans m t m1 t1 m2 t2 : mv_post m t m1 t1 → mv_post m1 t1 m2 t2 → mv_post m t m2 t2.
Proof.
  intros (_ & (T1 & C1 & P1) & S1) (I2 & (T2 & C2 & P2) & S2). split; [done|split; [unfold later; auto|]].
  intros He. destruct (S1 He) as (n1 & -> & F1). destruct He as (Ht & Hp & Hc).
  destruct S2 as (n2 & -> & F2); [split_and!; auto|]. exists (n2 ++ n1). by rewrite <- app_assoc, Forall_app.
Qed.

(** A step that emitted [e] on a session that was not shut. *)
Lemma live_post m t m' t' : ¬ ended m → mv_inv m' t' → later m m' → mv_post m t m' t'.
Proof. intros Hn Hi Hl. by split_and!. Qed.

Ltac later := by split_and!; cbn; intros; congruence.
Abbreviation good c m t := (xwp c (λ _ m' t', mv_post m t m' t') (λ _ _ _, False) m t).

Lemma channel_call_good o m t : mv_inv m t →
  xwp (E:=mv_event) (channel_call o) (λ r m' t', t' = t ∧ mv_post m t m' t ∧ (ended m → r.2 = None)) (λ _ _ _, False) m t.
Proof.
  intros (Hg & Hl). unfold channel_call. repeat xwp_step. split; [done|]. split.
  - split; [done|]. split; [|by exists []]. split_and!; [done| |done]. cbn. intros ->. apply channel_closed_step.
  - intros (_ & _ & ->). apply channel_closed_step.
Qed.

Lemma send_on_good channel binary data m t : mv_inv m t → good (send_on channel binary data) m t.
Proof.
  intros Hi. unfold send_on. xwp_step. eapply xwp_mono; [by apply channel_call_good| |done].
  intros [b [ch|]] m' t' (-> & Hpost & He); [|done]. cbn in *. xwp_step. apply xwp_call; [|done]. intros a _. cbn.
  destruct Hpost as (Hi' & Hlat & _). apply live_post; [|by apply quiet_inv|done].
  intros Hend. by specialize (He Hend).
Qed.

Lemma marker_good prefix fields m t m' t' : mv_post m t m' t' →
  xwp (emit_marker prefix fields) (λ _ m' t', mv_post m t m' t') (λ _ _ _, False) m' t'.
Proof. intros H. unfold emit_marker. xwp_step. by apply emit_post. Qed.

Lemma close_peer_good reason m t : mv_inv m t → good (close_peer reason) m t.
Proof.
  intros (Hg & Hl & Hep & Hp). unfold close_peer, reset_peer. repeat xwp_step.
  - apply live_post; [|split; [split; [by apply Hp|done]|]|later].
    + intros (_ & H & _). congruence.
    + split_and!; [|by left|by cbn]. cbn. rewrite bool_decide_true; [done|congruence].
  - split; [|split; [later|by exists []]]. split; [done|]. split_and!; [cbn; congruence|by left|]. cbn. intros p. by rewrite Em.
Qed.

Lemma open_good m t : mv_inv m t → good (OpenMavlinkDataChannel id has_bridge) m t.
Proof.
  intros Hi. unfold OpenMavlinkDataChannel. xwp_step; [by apply keep_post|]. repeat xwp_step; [by apply keep_post|].
  assert (Hne : ¬ ended m) by (intros (? & _); congruence).
  pose proof Hi as (Hg & Hl & Hep & Hp).
  unfold xwp. destruct (mv_open id t) as [e|[]] eqn:Eo.
  - unfold xcall, mbind, X_bind. rewrite Eo. apply marker_good, live_post; [done|by apply quiet_inv|done].
  - unfold xcall, reset_peer, xget, xmodify, mbind, X_bind. rewrite Eo. cbn.
    destruct (mavlink_peer m) as [q|] eqn:Eq; cbn; apply emit_post; try done; (apply live_post; [done| |]).
    + pose proof (Hp q eq_refl). split; [split; [cbn; lia|done]|]. split_and!; [|done|].
      * cbn. rewrite bool_decide_false; [done|]. intros [=]. lia.
      * cbn. intros ? [= <-]. lia.
    + later.
    + split; [done|]. split_and!; [done|done|]. cbn. intros ? [= <-]. lia.
    + later.
Qed.

Lemma text_good payload m t : mv_inv m t → good (DispatchMavlinkDataChannelMessage id payload) m t.
Proof.
  intros Hi. unfold DispatchMavlinkDataChannelMessage. repeat xwp_step; [|by apply keep_post].
  pose proof Hi as (Hg & Hl & Hep & Hp).
  assert (Hne : ¬ ended m) by (intros (_ & ? & _); congruence).
  apply xwp_call; intros r Er.
  - xwp_step. destruct (answer_epoch r) as [e|] eqn:Ee; repeat xwp_step; apply live_post; try done.
    + split; [split; [cbn; congruence|done]|]. split_and!; [done|right; cbn; by rewrite Ee|done].
    + split; [split; [cbn; congruence|done]|]. split_and!; [done|cbn; by rewrite Ee|done].
  - xwp_step. eapply xwp_mono; [apply marker_good, live_post; [done| |done]| |done].
    + apply quiet_inv; [done| |done]. cbn. congruence.
    + intros [] m' t' H. by xwp_step.
Qed.

Lemma frame_good frame m t : mv_inv m t → good (DispatchMavlinkDataChannelFrame id frame) m t.
Proof.
  intros Hi. unfold DispatchMavlinkDataChannelFrame.
  repeat xwp_step; try by apply keep_post. rename n into p. pose proof Hi as (Hg & Hl & Hep & Hp).
  assert (Hne : ¬ ended m) by (intros (_ & ? & _); congruence).
  assert (HG : ∀ r, mv_inv m (FrameForwarded p frame (mavlink_epoch m) r :: t)).
  { intros r. apply quiet_inv; [done| |done]. apply Z.eqb_neq in Hb0. split_and!; [congruence| |done|by destruct Hep].
    by destruct frame. }
  apply xwp_call; intros r Er; [by apply live_post|]. by apply marker_good, live_post.
Qed.

Lemma handler_good channel m t : mv_inv m t → good (set_message_handler id channel) m t.
Proof.
  intros Hi. unfold set_message_handler. xwp_step. apply xwp_call; [|done]. intros r _.
  pose proof (emit_post _ _ _ _ (MessageHandlerSet channel (inr r)) I (keep_post _ _ Hi)) as H.
  xwp_step; [by apply marker_good|done].
Qed.

(** Every section returns, and keeps the invariant. *)
Lemma mv_step_good o m t : mv_inv m t → good (mv_step id data_channel_label has_bridge o) m t.
Proof.
  intros Hi. destruct o; cbn.
  - unfold bind_data_channel. xwp_step. xwp_step; repeat xwp_step; [by apply keep_post|].
    eapply xwp_mono; [by apply channel_call_good| |done]. intros r m' t' (-> & ? & _). by repeat xwp_step.
  - by apply open_good.
  - by apply handler_good.
  - xwp_step. eapply xwp_mono; [by apply text_good| |done]. intros r m' t' H. by xwp_step.
  - by apply send_on_good.
  - by apply frame_good.
  - unfold receive_telemetry. repeat xwp_step; [by apply keep_post|by apply send_on_good].
  - repeat xwp_step. destruct Hi as (Hg & Hl). apply emit_post; [done|]. split; [done|]. split; [later|by exists []].
  - unfold close_channel. xwp_step. eapply xwp_mono; [by apply channel_call_good| |done]. intros r m' t' (-> & ? & _). by xwp_step.
  - by apply close_peer_good.
Qed.

Lemma mv_run_good ops m t : mv_inv m t → good (mv_run id data_channel_label has_bridge ops) m t.
Proof.
  revert m t. induction ops as [|o ops IH]; intros m t Hi; [by apply keep_post|]. cbn. xwp_step.
  eapply xwp_mono; [by apply mv_step_good| |done]. intros [] m1 t1 H1.
  eapply xwp_mono; [apply IH, H1| |done]. intros [] m2 t2. by apply post_trans.
Qed.

Lemma mv_run_returns ops m t : mv_inv m t → ∃ m' t', mv_run id data_channel_label has_bridge ops m t = (inr tt, m', t') ∧ mv_post m t m' t'.
Proof. intros Hi. pose proof (mv_run_good ops m t Hi) as H. unfold xwp in H. destruct (mv_run _ _ _ _ _ _) as [[[|[]] m'] t']; [done|]. eauto. Qed.

Lemma new_mavlink_inv : mv_inv new_mavlink_session [].
Proof. split; [done|]. split_and!; [done|by left|done]. Qed.

Lemma mv_run_app ops1 ops2 m t m1 t1 : mv_run id data_channel_label has_bridge ops1 m t = (inr tt, m1, t1) →
  mv_run id data_channel_label has_bridge (ops1 ++ ops2) m t = mv_run id data_channel_label has_bridge ops2 m1 t1.
Proof.
  revert m t. induction ops1 as [|o ops1 IH]; intros m t; cbn; [by intros [= -> ->]|].
  unfold mbind, X_bind. destruct (mv_step _ _ _ o m t) as [[[|[]] ?] ?]; [done|]. apply IH.
Qed.

(** The cleanup of a session: the flag, then the two sections of the close, with the
    sections of any thread in between. *)
Definition shut_down (between1 between2 : list mv_op) (reason : string) : list mv_op :=
  OpTerminate :: between1 ++ OpCloseChannel :: between2 ++ [OpClosePeer reason].

(** C16: For any sequence of callbacks, telemetry and cleanup steps of a control
    session, none throws; a control message and a frame go only to the peer that is
    open, a frame is never empty and carries the epoch, not zero, that the daemon gave
    last, and the session knows the peer that is open. *)
Theorem mavlink_session_safe ops :
  ∃ m t, mv_run id data_channel_label has_bridge ops new_mavlink_session [] = (inr tt, m, t) ∧
    guarded mavlink_guard t ∧ mavlink_peer m = current_peer t.
Proof.
  destruct (mv_run_returns ops _ _ new_mavlink_inv) as (m & t & -> & (Hg & Hl & _) & _). eauto.
Qed.

(** A step and then any others. *)
Lemma mv_run_then o ops m t m1 t1 : mv_inv m t → mv_step id data_channel_label has_bridge o m t = (inr tt, m1, t1) →
  ∃ m' t', mv_run id data_channel_label has_bridge (o :: ops) m t = (inr tt, m', t') ∧ mv_inv m' t' ∧ later m1 m'.
Proof.
  intros Hi Hs. pose proof (mv_step_good o m t Hi) as H1. unfold xwp in H1. rewrite Hs in H1. destruct H1 as (Hi1 & _).
  destruct (mv_run_returns ops m1 t1 Hi1) as (m' & t' & Hr & Hi' & Hl & _). exists m', t'. split; [|done].
  cbn. unfold mbind, X_bind. by rewrite Hs.
Qed.

Lemma shut_down_ends between1 between2 reason m t : mv_inv m t →
  ∃ m' t', mv_run id data_channel_label has_bridge (shut_down between1 between2 reason) m t = (inr tt, m', t') ∧ mv_inv m' t' ∧ ended m'.
Proof.
  intros Hi. unfold shut_down.
  destruct (mv_run_then OpTerminate between1 m t _ _ Hi eq_refl) as (m1 & t1 & R1 & I1 & T1 & _).
  rewrite app_comm_cons, (mv_run_app _ _ _ _ _ _ R1).
  destruct (mv_run_then OpCloseChannel between2 m1 t1 _ _ I1 eq_refl) as (m2 & t2 & R2 & I2 & T2 & C2 & _).
  rewrite app_comm_cons, (mv_run_app _ _ _ _ _ _ R2).
  pose proof (mv_step_good (OpClosePeer reason) m2 t2 I2) as H3. cbn in *. unfold xwp, mbind, X_bind, mret, X_ret in *.
  destruct (close_peer reason m2 t2) as [[[|[]] m3] t3] eqn:E3; [done|]. destruct H3 as (I3 & (T3 & C3 & _) & _).
  exists m3, t3. split; [done|]. split; [done|]. split_and!; [by auto| |by auto].
  revert E3. unfold close_peer, reset_peer, mbind, X_bind, xget, xmodify, xemit, mret, X_ret.
  destruct (mavlink_peer m2) eqn:Ep; cbn; intros [= <- <-]; done.
Qed.

(** Once a control session was told to terminate and both halves of its close ran,
    in this order with anything in between, it is shut for good: no later callback opens
    a peer, forwards a frame or a message, or writes to the data channel. *)
Theorem shut_session_is_silent before between1 between2 reason after :
  let ops := before ++ shut_down between1 between2 reason in
  ∃ m t m' new, mv_run id data_channel_label has_bridge ops new_mavlink_session [] = (inr tt, m, t) ∧
    mv_run id data_channel_label has_bridge (ops ++ after) new_mavlink_session [] = (inr tt, m', new ++ t) ∧
    ended m ∧ ended m' ∧ Forall silent new.
Proof.
  cbn zeta. destruct (mv_run_returns before _ _ new_mavlink_inv) as (m1 & t1 & R1 & I1 & _).
  destruct (shut_down_ends between1 between2 reason m1 t1 I1) as (m & t & R2 & I2 & Hend).
  assert (R3 : mv_run id data_channel_label has_bridge (before ++ shut_down between1 between2 reason) new_mavlink_session [] = (inr tt, m, t)).
  { by rewrite (mv_run_app _ _ _ _ _ _ R1). }
  destruct (mv_run_returns after m t I2) as (m' & t' & R4 & _ & (T & C & P) & Hs).
  destruct (Hs Hend) as (new & -> & Hn). exists m, t, m', new.
  rewrite (mv_run_app _ _ _ _ _ _ R3). destruct Hend as (? & ? & ?). repeat split; auto.
Qed.
End Safety.

(** ** A daemon that grants the epoch 7 to the first peer only *)

Definition demo_daemon : MavlinkEnv := {|
  mv_open := λ _ _, inr tt;
  mv_control := λ p _ _, inr (if Nat.eqb p 0 then "{" +:+ quoted "epoch" +:+ ":7}" else "{" +:+ quoted "error" +:+ ":1}");
  mv_forward := λ _ _ _ _, inr tt;
  mv_send := λ _ _, 0;
  mv_on_message := λ _ _, 0 |}.

(** A second data channel of the session opens a second peer, and the epoch of the
    first is not taken back: the frame of the second goes out with it. *)
Theorem reopened_channel_keeps_epoch :
  ∃ m t, mv_run (env:=demo_daemon) "viewer" "txing.mavlink.v1" true
      [OpBind 1%nat "txing.mavlink.v1"; OpOpen; OpText 1%nat "{}"; OpBind 2%nat "txing.mavlink.v1"; OpOpen; OpBinary 2%nat [253]]
      new_mavlink_session [] = (inr tt, m, t) ∧
    head t = Some (FrameForwarded 1%nat [253] 7 (inr tt)) ∧ current_peer t = Some 1%nat ∧
    Forall (λ e, match e with ControlHandled p _ _ => p = 0%nat | _ => True end) t.
Proof.
  eexists _, _. split; [vm_compute; reflexivity|]. split; [done|]. split; [done|]. by repeat constructor.
Qed.
