(* ===== verification/KvsSignal.v ===== *)
(** * The signalling client of a KVS session

    [devices/common/board/kvs_master/src/kvs_session_real.cpp], the life of the client
    that connects the board to its signalling channel: [Start] creates it, the clean-up
    thread keeps it connected and replaces it on request, messages are sent with it,
    [Stop] and the destructor free it. The body of a function that holds
    [signaling_client_lock_] or [state_lock_] is one step, the status of every call of the
    SDK is chosen by the step, so is the section in which a configuration of a peer
    connection asks the client for its servers, and the steps of the owner, of the clean-up thread and of
    the SDK's threads come in any order. *)
From stdpp Require Import gmap relations.
From S2P Require Import Prelude Cpp.

#[local] Open Scope Z_scope.

(** ** Data *)

Inductive STATUS :=
  | STATUS_SUCCESS
  | STATUS_NULL_ARG | STATUS_INVALID_ARG | STATUS_INVALID_OPERATION | STATUS_INTERNAL_ERROR
  | STATUS_ICE_CANDIDATE_MISSING_CANDIDATE | STATUS_ICE_CANDIDATE_STRING_MISSING_IP | STATUS_SRTP_NOT_READY_YET
  | STATUS_SIGNALING_GET_TOKEN_CALL_FAILED | STATUS_SIGNALING_DESCRIBE_CALL_FAILED
  | STATUS_SIGNALING_CREATE_CALL_FAILED | STATUS_SIGNALING_GET_ENDPOINT_CALL_FAILED
  | STATUS_SIGNALING_GET_ICE_CONFIG_CALL_FAILED | STATUS_SIGNALING_CONNECT_CALL_FAILED
  | STATUS_SIGNALING_DESCRIBE_MEDIA_CALL_FAILED
  | STATUS_SIGNALING_ICE_CONFIG_REFRESH_FAILED | STATUS_SIGNALING_RECONNECT_FAILED
  | STATUS_OTHER (code : Z).
#[global] Instance STATUS_eq_dec : EqDecision STATUS.
Proof. solve_decision. Defined.

Definition STATUS_FAILED (status : STATUS) : bool := match status with STATUS_SUCCESS => false | _ => true end.
Definition IsSignalingCallFailure (status : STATUS) : bool :=
  match status with
  | STATUS_SIGNALING_GET_TOKEN_CALL_FAILED | STATUS_SIGNALING_DESCRIBE_CALL_FAILED
  | STATUS_SIGNALING_CREATE_CALL_FAILED | STATUS_SIGNALING_GET_ENDPOINT_CALL_FAILED
  | STATUS_SIGNALING_GET_ICE_CONFIG_CALL_FAILED | STATUS_SIGNALING_CONNECT_CALL_FAILED
  | STATUS_SIGNALING_DESCRIBE_MEDIA_CALL_FAILED => true
  | _ => false
  end.

(** What [ReportError] is called with. *)
Inductive report := MaintenanceFailed (status : STATUS) | ClientError (status : STATUS) (message : string).

(** Calls of the SDK with a client, numbered in the order of their creation. *)
Inductive sdk_call :=
  | Created (c : nat) | Fetched (c : nat) | Connected (c : nat) | StateAsked (c : nat)
  | Sent (c : nat) | IceCounted (c : nat) | IceInfoAsked (c : nat)
  | Disconnected (c : nat) | Freed (c : nat) | ProviderFreed.

(** Where the clean-up thread and the owner of the session are. *)
Inductive cleanup_pc :=
  | CNone | CHead
  | CWork (recreate : bool)
  | CCreate
  | CAfter (status : STATUS) (recreate : bool)
  | CReport (status : STATUS)
  | CWait | CDone.
Inductive owner_pc :=
  | OIdle | OStarting | OStartFailed | ORunning
  | OMarked (destroying : bool) | OFreed (destroying : bool) | ODestroyed.

Record signal := mk_signal {
  signaling_client_handle_ : option nat; started_ : bool; stopping_ : bool; recreate_signaling_client_ : bool;
  fatal_error_ : option report; cleanup : cleanup_pc; owner : owner_pc; made : nat; calls : list sdk_call }.

Definition new_signal : signal := mk_signal None false true false None CNone OIdle 0 [].

Definition sg_client (h : option nat) (l : list sdk_call) (s : signal) : signal :=
  mk_signal h (started_ s) (stopping_ s) (recreate_signaling_client_ s) (fatal_error_ s) (cleanup s) (owner s) (made s) (l ++ calls s).
Definition sg_new (s : signal) : signal :=
  mk_signal (Some (made s)) (started_ s) (stopping_ s) (recreate_signaling_client_ s) (fatal_error_ s) (cleanup s) (owner s) (S (made s)) (Created (made s) :: calls s).
Definition sg_flags (started stopping : bool) (s : signal) : signal :=
  mk_signal (signaling_client_handle_ s) started stopping (recreate_signaling_client_ s) (fatal_error_ s) (cleanup s) (owner s) (made s) (calls s).
Definition sg_recreate (x : bool) (s : signal) : signal :=
  mk_signal (signaling_client_handle_ s) (started_ s) (stopping_ s) x (fatal_error_ s) (cleanup s) (owner s) (made s) (calls s).
Definition sg_fatal (x : option report) (s : signal) : signal :=
  mk_signal (signaling_client_handle_ s) (started_ s) (stopping_ s) (recreate_signaling_client_ s) x (cleanup s) (owner s) (made s) (calls s).
Definition sg_cleanup (x : cleanup_pc) (s : signal) : signal :=
  mk_signal (signaling_client_handle_ s) (started_ s) (stopping_ s) (recreate_signaling_client_ s) (fatal_error_ s) x (owner s) (made s) (calls s).
Definition sg_owner (x : owner_pc) (s : signal) : signal :=
  mk_signal (signaling_client_handle_ s) (started_ s) (stopping_ s) (recreate_signaling_client_ s) (fatal_error_ s) (cleanup s) x (made s) (calls s).

(** ** Sections of the code *)

Definition ReportError (r : report) (s : signal) : signal :=
  match fatal_error_ s with Some _ => s | None => sg_fatal (Some r) s end.
Definition TakeFatalError (s : signal) : option report * signal := (fatal_error_ s, sg_fatal None s).
Definition RequestSignalingRecreate (s : signal) : signal := sg_recreate true s.

(** [SignalingClientError], called by a thread of the SDK. *)
Definition SignalingClientError (status : STATUS) (message : string) (s : signal) : signal :=
  match status with
  | STATUS_SIGNALING_ICE_CONFIG_REFRESH_FAILED | STATUS_SIGNALING_RECONNECT_FAILED => RequestSignalingRecreate s
  | _ => ReportError (ClientError status message) s
  end.

Definition DisconnectAndFreeSignalingClientLocked (s : signal) : signal :=
  match signaling_client_handle_ s with
  | Some c => sg_client None [Freed c; Disconnected c] s
  | None => s
  end.

Section Sdk.
(** What [freeSignalingClient] stores in the handle of the client that it freed; the
    failure paths of [CreateSignalingClient] leave the handle as the call left it. *)
Context (after_free : nat → option nat).

(** [CreateSignalingClient], with the answers of its three calls. *)
Definition CreateSignalingClient (created fetched connected : STATUS) (s : signal) : STATUS * signal :=
  let s := DisconnectAndFreeSignalingClientLocked s in
  if STATUS_FAILED created then (created, s) else
  let c := made s in
  let s := sg_new s in
  if STATUS_FAILED fetched then (fetched, sg_client (after_free c) [Freed c; Fetched c] s) else
  if STATUS_FAILED connected then (connected, sg_client (after_free c) [Freed c; Connected c; Fetched c] s) else
  (STATUS_SUCCESS, sg_client (Some c) [Connected c; Fetched c] s).

(** [EnsureSignalingConnected]; [ready] is the state of the client. *)
Definition EnsureSignalingConnected (asked : STATUS) (ready : bool) (connected : STATUS) (s : signal) : STATUS * signal :=
  match signaling_client_handle_ s with
  | None => (STATUS_INVALID_OPERATION, s)
  | Some c =>
      if STATUS_FAILED asked then (asked, sg_client (Some c) [StateAsked c] s) else
      if ready then (connected, sg_client (Some c) [Connected c; StateAsked c] s)
      else (STATUS_SUCCESS, sg_client (Some c) [StateAsked c] s)
  end.

(** The first section of [RefreshOrRecreateSignalingClient]: its status, or a client must
    be created. *)
Definition refresh_section (fetched : STATUS) (s : signal) : option STATUS * signal :=
  match signaling_client_handle_ s with
  | None => (None, s)
  | Some c =>
      let s := sg_client (Some c) [Fetched c] s in
      if negb (STATUS_FAILED fetched) then (Some STATUS_SUCCESS, s) else
      if negb (IsSignalingCallFailure fetched) then (Some fetched, s) else
      (None, DisconnectAndFreeSignalingClientLocked s)
  end.

Definition SendSignalingMessage (sent : STATUS) (s : signal) : STATUS * signal :=
  match signaling_client_handle_ s with
  | None => (STATUS_INVALID_OPERATION, s)
  | Some c => (sent, sg_client (Some c) [Sent c] s)
  end.

(** The section of [BuildPeerConnectionConfiguration], with the answers of its two calls;
    there is a second one when the count is not zero and the servers have room. *)
Definition ice_section (counted : STATUS) (some : bool) (info : STATUS) (s : signal) : STATUS * signal :=
  match signaling_client_handle_ s with
  | None => (STATUS_INVALID_OPERATION, s)
  | Some c =>
      if STATUS_FAILED counted then (counted, sg_client (Some c) [IceCounted c] s) else
      if some then (info, sg_client (Some c) [IceInfoAsked c; IceCounted c] s)
      else (STATUS_SUCCESS, sg_client (Some c) [IceCounted c] s)
  end.

(** [CleanupLoop]: the test of the flags, and what follows the maintenance. *)
Definition cleanup_head (s : signal) : signal :=
  sg_cleanup (if stopping_ s then CDone else CWork (recreate_signaling_client_ s)) s.
Definition cleanup_after (status : STATUS) (recreate : bool) (s : signal) : signal :=
  if negb (STATUS_FAILED status) && recreate then sg_cleanup CWait (sg_recreate false s)
  else if STATUS_FAILED status && negb (stopping_ s) then sg_cleanup (CReport status) s
  else sg_cleanup CWait s.
Definition cleanup_report (status : STATUS) (s : signal) : signal :=
  sg_cleanup CWait (if IsSignalingCallFailure status then RequestSignalingRecreate s else ReportError (MaintenanceFailed status) s).

(** ** Every interleaving

    With [polite] the destructor runs only after [Stop]. *)

Definition no_thread (s : signal) : bool := match cleanup s with CNone | CDone => true | _ => false end.

Inductive step (polite : bool) : signal → signal → Prop :=
  (* the owner *)
  | sg_start created fetched connected status s s' : owner s = OIdle → started_ s = false →
      CreateSignalingClient created fetched connected s = (status, s') →
      step polite s (sg_owner (if STATUS_FAILED status then OIdle else OStarting) s')
  | sg_thread s : owner s = OStarting → step polite s (sg_owner ORunning (sg_cleanup CHead (sg_flags true false s)))
  | sg_thread_failed s : owner s = OStarting → step polite s (sg_owner OStartFailed (sg_flags false true s))
  | sg_start_undone s : owner s = OStartFailed → step polite s (sg_owner OIdle (DisconnectAndFreeSignalingClientLocked s))
  | sg_stop destroying s : owner s = OIdle ∨ owner s = ORunning ∧ (polite = true → destroying = false) →
      step polite s (sg_owner (OMarked destroying) (sg_flags false true s))
  | sg_stop_free destroying s : owner s = OMarked destroying →
      step polite s (sg_owner (OFreed destroying) (DisconnectAndFreeSignalingClientLocked s))
  | sg_stop_join s : owner s = OFreed false → no_thread s = true →
      step polite s (sg_owner OIdle (sg_cleanup CNone (sg_recreate false s)))
  | sg_destroy s : owner s = OFreed true → no_thread s = true →
      step polite s (sg_owner ODestroyed (sg_cleanup CNone (sg_recreate false (sg_client (signaling_client_handle_ s) [ProviderFreed] s))))
  | sg_take s : owner s = ORunning → step polite s (TakeFatalError s).2
  (* the clean-up thread *)
  | sg_head s : cleanup s = CHead → step polite s (cleanup_head s)
  | sg_refresh fetched s : cleanup s = CWork true →
      step polite s (sg_cleanup (match (refresh_section fetched s).1 with Some st => CAfter st true | None => CCreate end) (refresh_section fetched s).2)
  | sg_create created fetched connected status s s' : cleanup s = CCreate →
      CreateSignalingClient created fetched connected s = (status, s') → step polite s (sg_cleanup (CAfter status true) s')
  | sg_ensure asked ready connected s : cleanup s = CWork false →
      step polite s (sg_cleanup (CAfter (EnsureSignalingConnected asked ready connected s).1 false) (EnsureSignalingConnected asked ready connected s).2)
  | sg_after status recreate s : cleanup s = CAfter status recreate → step polite s (cleanup_after status recreate s)
  | sg_report status s : cleanup s = CReport status → step polite s (cleanup_report status s)
  | sg_wake s : cleanup s = CWait → step polite s (sg_cleanup CHead s)
  (* threads of the SDK *)
  | sg_request s : step polite s (RequestSignalingRecreate s)
  | sg_error status message s : step polite s (SignalingClientError status message s)
  | sg_send sent s : step polite s (SendSignalingMessage sent s).2
  | sg_ice counted some info s : step polite s (ice_section counted some info s).2.

Definition reachable (polite : bool) : signal → Prop := rtc (step polite) new_signal.
End Sdk.

(** ** Clients *)

Fixpoint clients (l : list sdk_call) : list nat :=
  match l with
  | [] => []
  | Created c :: l => c :: clients l
  | Freed c :: l => filter (λ d, d ≠ c) (clients l)
  | _ :: l => clients l
  end.
(** A client is created when there is none, and is used until it is freed. *)
Definition in_use (e : sdk_call) (l : list sdk_call) : Prop :=
  match e with
  | Created c => clients l = [] ∧ Created c ∉ l
  | Fetched c | Connected c | StateAsked c | Sent c | IceCounted c | IceInfoAsked c | Disconnected c | Freed c => c ∈ clients l
  | ProviderFreed => True
  end.

Record signal_ok (s : signal) : Prop := {
  g_calls : guarded in_use (calls s);
  g_clients : clients (calls s) = option_list (signaling_client_handle_ s);
  g_fresh : ∀ c, Created c ∈ calls s → (c < made s)%nat }.

Lemma ok_same s s' : calls s' = calls s → signaling_client_handle_ s' = signaling_client_handle_ s → made s' = made s → signal_ok s → signal_ok s'.
Proof. intros E1 E2 E3 []. by constructor; rewrite ?E1, ?E2, ?E3. Qed.

Lemma ok_free s : signal_ok s → signal_ok (DisconnectAndFreeSignalingClientLocked s).
Proof.
  intros [H1 H2 H3]. unfold DisconnectAndFreeSignalingClientLocked. destruct (signaling_client_handle_ s) as [c|] eqn:E; [|by constructor; rewrite ?E].
  cbn in H2. constructor; cbn.
  - rewrite H2. split_and!; [set_solver..|done].
  - rewrite H2. cbn. by rewrite decide_False by auto.
  - intros d Hd. apply H3. set_solver.
Qed.
Lemma free_handle s : signaling_client_handle_ (DisconnectAndFreeSignalingClientLocked s) = None.
Proof. unfold DisconnectAndFreeSignalingClientLocked. by destruct (signaling_client_handle_ s) eqn:E. Qed.

(** Calls with the client at hand. *)
Definition uses_of (c : nat) : list sdk_call := [Fetched c; Connected c; StateAsked c; Sent c; IceCounted c; IceInfoAsked c].
Lemma ok_use s c l : signal_ok s → signaling_client_handle_ s = Some c →
  Forall (λ e, e ∈ uses_of c) l → signal_ok (sg_client (Some c) l s).
Proof.
  intros [H1 H2 H3] Hc Hl. unfold uses_of in Hl. rewrite Hc in H2. assert (Hcl : clients (l ++ calls s) = [c]).
  { induction Hl as [|e l He _ IH]; [done|]. set_unfold. by naive_solver. }
  constructor; cbn; [|done|].
  - clear H2. revert Hcl. induction Hl as [|e l He Hl IH]; intros Hcl; [done|]. cbn.
    assert (Hcl' : clients (l ++ calls s) = [c]) by (set_unfold; by naive_solver). split; [|by apply IH].
    set_unfold. destruct He as [->|[->|[->|[->|[->|[->|[]]]]]]]; cbn; rewrite Hcl'; set_solver.
  - intros d Hd. apply H3. apply elem_of_app in Hd as [Hd|]; [|done]. rewrite Forall_forall in Hl. apply Hl in Hd. set_solver.
Qed.

Section Safety.
Context (after_free : nat → option nat) (Hfree : ∀ c, after_free c = None).

Lemma ok_create a b c s : signal_ok s → signal_ok (CreateSignalingClient after_free a b c s).2.
Proof.
  intros H. unfold CreateSignalingClient. pose proof (free_handle s) as Hn. apply ok_free in H. revert H Hn.
  generalize (DisconnectAndFreeSignalingClientLocked s). clear s. intros s H Hn. destruct (STATUS_FAILED a); [done|].
  assert (Hnew : signal_ok (sg_new s)).
  { destruct H as [H1 H2 H3]. rewrite Hn in H2. constructor; cbn.
    - split; [|done]. split; [done|]. intros Hin%H3. lia.
    - by rewrite H2.
    - intros d Hd. apply elem_of_cons in Hd as [[= ->]|Hd]; [lia|]. apply H3 in Hd. lia. }
  assert (Hfreed : ∀ l, Forall (λ e, e ∈ uses_of (made s)) l →
    signal_ok (sg_client None (Freed (made s) :: l) (sg_new s))).
  { intros l Hl. pose proof (ok_use _ _ _ Hnew eq_refl Hl) as [H1 H2 H3]. cbn in *. constructor; cbn.
    - split; [|done]. rewrite H2. set_solver.
    - rewrite H2. cbn. by rewrite decide_False by auto.
    - intros d Hd. apply H3. set_solver. }
  destruct (STATUS_FAILED b); [rewrite Hfree; apply Hfreed; repeat constructor|].
  destruct (STATUS_FAILED c); [rewrite Hfree; apply Hfreed; repeat constructor|]. apply ok_use; [done|done|repeat constructor].
Qed.
Lemma ok_ensure a b c s : signal_ok s → signal_ok (EnsureSignalingConnected a b c s).2.
Proof.
  intros H. unfold EnsureSignalingConnected. destruct (signaling_client_handle_ s) eqn:E; [|done].
  destruct (STATUS_FAILED a), b; apply ok_use; try done; repeat constructor.
Qed.
Lemma ok_refresh a s : signal_ok s → signal_ok (refresh_section a s).2.
Proof.
  intros H. unfold refresh_section. destruct (signaling_client_handle_ s) eqn:E; [|done].
  assert (Hf : signal_ok (sg_client (Some n) [Fetched n] s)) by (apply ok_use; [done|done|repeat constructor]).
  destruct (STATUS_FAILED a); cbn; [|done]. destruct (IsSignalingCallFailure a); cbn [negb snd]; [by apply (ok_free (sg_client (Some n) [Fetched n] s))|done].
Qed.
Lemma ok_send a s : signal_ok s → signal_ok (SendSignalingMessage a s).2.
Proof. intros H. unfold SendSignalingMessage. destruct (signaling_client_handle_ s) eqn:E; [|done]. apply ok_use; [done|done|repeat constructor]. Qed.
Lemma ok_ice a b c s : signal_ok s → signal_ok (ice_section a b c s).2.
Proof.
  intros H. unfold ice_section. destruct (signaling_client_handle_ s) eqn:E; [|done].
  destruct (STATUS_FAILED a), b; apply ok_use; try done; repeat constructor.
Qed.

Lemma ok_status s c : signal_ok s → signal_ok (cleanup_after c true s) ∧ signal_ok (cleanup_after c false s) ∧ signal_ok (cleanup_report c s).
Proof.
  intros H. unfold cleanup_after, cleanup_report, ReportError. split_and!; repeat case_match; by apply (ok_same s).
Qed.

Lemma ok_step polite s s' : step after_free polite s s' → signal_ok s → signal_ok s'.
Proof.
  intros Hs H. destruct Hs as [a b c st s s' _ _ E| | | | | |s|s _ _|s _|s _|a s _|a b c st s s' _ E|a b c s _|st r s _|st s _|s _|s|st m s|a s|a b c s].
  - apply (ok_same s'); try done. change s' with (st, s').2. rewrite <- E. by apply ok_create.
  - by apply (ok_same s).
  - by apply (ok_same s).
  - by eapply ok_same; [..|apply ok_free, H].
  - by apply (ok_same s).
  - by eapply ok_same; [..|apply ok_free, H].
  - by apply (ok_same s).
  - destruct H as [H1 H2 H3]. constructor; cbn; [done|done|]. intros c Hc. apply H3. set_solver.
  - by apply (ok_same s).
  - by apply (ok_same s).
  - by eapply ok_same; [..|apply (ok_refresh a), H].
  - apply (ok_same s'); try done. change s' with (st, s').2. rewrite <- E. by apply ok_create.
  - by eapply ok_same; [..|apply (ok_ensure a b c), H].
  - destruct r; by apply (ok_status s st).
  - by apply (ok_status s st).
  - by apply (ok_same s).
  - by apply (ok_same s).
  - unfold SignalingClientError, ReportError. repeat case_match; by apply (ok_same s).
  - by apply ok_send.
  - by apply ok_ice.
Qed.

Lemma signal_reachable_ok polite s : reachable after_free polite s → signal_ok s.
Proof.
  intros Hr. assert (H0 : signal_ok new_signal) by (constructor; [done..|intros c ?%elem_of_nil; done]).
  revert H0. induction Hr; [done|]. eauto using ok_step.
Qed.

(** C20: In every interleaving of the owner of a KVS session, its clean-up thread and
    the threads of the SDK there is at most one signalling client, the handle names
    exactly the client that exists, a client is created only when there is none, every
    call, those for the ICE servers included, uses one that is not freed, and each is
    freed at most once. Assumed of the SDK: freeSignalingClient clears the handle that
    it is given, as it documents; the code does not reset it where the creation fails,
    and would use the freed client otherwise (unreset_handle_is_used_again). Nothing is
    assumed of the statuses that the calls return. *)
Theorem signaling_client_safe polite s : reachable after_free polite s →
  guarded in_use (calls s) ∧ clients (calls s) = option_list (signaling_client_handle_ s).
Proof.
  intros Hr. by destruct (signal_reachable_ok _ _ Hr).
Qed.

(** *** The end of a session *)

Definition thread_free (o : owner_pc) : bool :=
  match o with OIdle | OStarting | OStartFailed | OMarked true | OFreed true | ODestroyed => true | _ => false end.
Record ended_ok (s : signal) : Prop := {
  e_thread : thread_free (owner s) = true → cleanup s = CNone;
  e_freed : owner s = OFreed true ∨ owner s = ODestroyed → signaling_client_handle_ s = None }.

Lemma create_pcs a b c s : cleanup (CreateSignalingClient after_free a b c s).2 = cleanup s ∧ owner (CreateSignalingClient after_free a b c s).2 = owner s.
Proof. unfold CreateSignalingClient, DisconnectAndFreeSignalingClientLocked. by destruct (signaling_client_handle_ s), (STATUS_FAILED a), (STATUS_FAILED b), (STATUS_FAILED c). Qed.
Lemma free_pcs s : cleanup (DisconnectAndFreeSignalingClientLocked s) = cleanup s ∧ owner (DisconnectAndFreeSignalingClientLocked s) = owner s.
Proof. unfold DisconnectAndFreeSignalingClientLocked. by destruct (signaling_client_handle_ s). Qed.

(** A step of the clean-up thread. *)
Lemma ended_thread s s' : cleanup s ≠ CNone → owner s' = owner s → ended_ok s → ended_ok s'.
Proof.
  intros Hc Ho [H1 H2]. constructor; rewrite Ho; [by intros ?%H1|]. intros Hd. destruct Hc. apply H1. by destruct Hd as [-> | ->].
Qed.
Lemma ended_same s s' : cleanup s' = cleanup s → owner s' = owner s → signaling_client_handle_ s' = signaling_client_handle_ s → ended_ok s → ended_ok s'.
Proof. intros E1 E2 E3 []. by constructor; rewrite ?E1, ?E2, ?E3. Qed.

Lemma ended_step s s' : step after_free true s s' → ended_ok s → ended_ok s'.
Proof.
  intros Hs H. destruct Hs as [a b c st s s' Ho Hst E|s Ho|s Ho|s Ho|d s Ho|d s Ho|s Ho Hn|s Ho Hn|s _|s Hc|a s Hc|a b c st s s' Hc E|a b c s Hc|st r s Hc|st s Hc|s Hc|s|st m s|a s|a b c s].
  - destruct (create_pcs a b c s) as [Ec Eo]. rewrite E in Ec, Eo. cbn in Ec, Eo. destruct H as [H1 _].
    constructor; cbn; [intros _; rewrite Ec; apply H1; by rewrite Ho|]. destruct (STATUS_FAILED st); by intros [|].
  - constructor; cbn; [done|by intros [|]].
  - destruct H as [H1 _]. constructor; cbn; [intros _; apply H1; by rewrite Ho|by intros [|]].
  - destruct H as [H1 _], (free_pcs s) as [Ec _]. constructor; cbn; [intros _; rewrite Ec; apply H1; by rewrite Ho|by intros [|]].
  - destruct H as [H1 _]. constructor; cbn; [|by intros [|]]. intros Hd. apply H1. destruct Ho as [-> |[Ho Hp]]; [done|].
    rewrite Hp in Hd by done. done.
  - destruct H as [H1 _], (free_pcs s) as [Ec _]. constructor; cbn; [|by rewrite free_handle].
    intros Hd. rewrite Ec. apply H1. by rewrite Ho; destruct d.
  - constructor; cbn; [done|by intros [|]].
  - destruct H as [_ H2]. constructor; cbn; [done|]. intros _. apply H2. by left.
  - by apply (ended_same s).
  - apply (ended_thread s); congruence || done.
  - apply (ended_thread s); [congruence| |done]. unfold refresh_section. cbn. destruct (signaling_client_handle_ s); [|done]. cbn.
    destruct (STATUS_FAILED a); [|done]. by destruct (IsSignalingCallFailure a).
  - destruct (create_pcs a b c s) as [_ Eo]. rewrite E in Eo. cbn in Eo. apply (ended_thread s); [congruence| |done]. cbn. by rewrite <- Eo.
  - apply (ended_thread s); [congruence| |done]. unfold EnsureSignalingConnected. cbn. destruct (signaling_client_handle_ s); [|done].
    by destruct (STATUS_FAILED a), b.
  - apply (ended_thread s); [congruence| |done]. unfold cleanup_after. by repeat case_match.
  - apply (ended_thread s); [congruence| |done]. unfold cleanup_report, ReportError. by repeat case_match.
  - apply (ended_thread s); congruence || done.
  - by apply (ended_same s).
  - apply (ended_same s); try done; unfold SignalingClientError, ReportError; by repeat case_match.
  - unfold SendSignalingMessage. destruct (signaling_client_handle_ s) eqn:E; cbn; [|done]. by apply (ended_same s).
  - unfold ice_section. destruct (signaling_client_handle_ s) eqn:E; cbn; [|done]. destruct (STATUS_FAILED a), b; by apply (ended_same s).
Qed.

(** A session that was stopped and then destroyed leaves no client and no thread. *)
Theorem destroyed_session_has_no_client s : reachable after_free true s → owner s = ODestroyed →
  clients (calls s) = [] ∧ cleanup s = CNone ∧ guarded in_use (calls s).
Proof.
  intros Hr Ho. destruct (signal_reachable_ok _ _ Hr) as [Hg Hc _].
  assert (H : ended_ok s).
  { assert (H0 : ended_ok new_signal) by by constructor. revert H0. clear -Hr. induction Hr; [done|]. eauto using ended_step. }
  destruct H as [H1 H2]. rewrite Hc, H2 by auto. split; [done|]. split; [|done]. apply H1. by rewrite Ho.
Qed.
End Safety.

(** ** Three runs *)

Definition clears (c : nat) : option nat := None.
(** One step of a run, and the state after it, evaluated. *)
Ltac evaluated :=
  lazymatch goal with
  | |- rtc ?R ?x ?y => let x' := eval vm_compute in x in replace x with x' by (vm_compute; reflexivity)
  end.
Ltac sg_run c := eapply rtc_l; [eapply c; reflexivity|evaluated].

(** The clean-up thread has tested the flags when [Stop] sets them: it finds the client
    freed and creates another one, which is there when [Stop] returns. *)
Definition left_over : signal :=
  mk_signal (Some 1%nat) false true false None CNone OIdle 2
    [Connected 1; Fetched 1; Created 1; Freed 0; Disconnected 0; Connected 0; Fetched 0; Created 0].
Lemma left_over_reached : reachable clears true left_over.
Proof.
  unfold reachable, new_signal.
  eapply rtc_l; [apply (sg_start clears true STATUS_SUCCESS STATUS_SUCCESS STATUS_SUCCESS); reflexivity|evaluated].
  sg_run sg_thread. eapply rtc_l; [apply sg_request|evaluated]. sg_run sg_head.
  eapply rtc_l; [apply (sg_stop clears true false); right; split; [reflexivity|done]|evaluated].
  sg_run sg_stop_free. eapply rtc_l; [apply (sg_refresh clears true STATUS_SUCCESS); reflexivity|evaluated].
  eapply rtc_l; [apply (sg_create clears true STATUS_SUCCESS STATUS_SUCCESS STATUS_SUCCESS); reflexivity|evaluated].
  sg_run sg_after. sg_run sg_wake. sg_run sg_head. sg_run sg_stop_join. apply rtc_refl.
Qed.
Theorem stop_can_leave_a_client :
  ∃ s, reachable clears true s ∧ owner s = OIdle ∧ stopping_ s = true ∧ clients (calls s) = [1%nat].
Proof. exists left_over. split; [exact left_over_reached|done]. Qed.

(** A request that comes while the client is refreshed is forgotten. *)
Theorem recreate_request_forgotten :
  ∃ s1 s2, reachable clears true s1 ∧ cleanup s1 = CAfter STATUS_SUCCESS true ∧
    step clears true s1 (SignalingClientError STATUS_SIGNALING_RECONNECT_FAILED EmptyString s1) ∧
    step clears true (SignalingClientError STATUS_SIGNALING_RECONNECT_FAILED EmptyString s1) s2 ∧
    recreate_signaling_client_ s2 = false ∧ calls s2 = calls s1.
Proof.
  eexists _, _. split; [|split; [|split; [apply sg_error|split; [apply sg_after|]]]].
  - unfold reachable, new_signal.
    eapply rtc_l; [apply (sg_start clears true STATUS_SUCCESS STATUS_SUCCESS STATUS_SUCCESS); reflexivity|evaluated].
    sg_run sg_thread. eapply rtc_l; [apply sg_request|evaluated]. sg_run sg_head.
    eapply rtc_l; [apply (sg_refresh clears true STATUS_SUCCESS); reflexivity|evaluated]. apply rtc_refl.
  - reflexivity.
  - reflexivity.
  - done.
Qed.

(** Nothing but the SDK resets the handle when the set-up of a client fails: with a
    [freeSignalingClient] that left it as it was, the next [Start] would use the client
    that was freed. *)
Definition keeps_handle (c : nat) : option nat := Some c.
Theorem unreset_handle_is_used_again : ∃ s, reachable keeps_handle true s ∧ ¬ guarded in_use (calls s).
Proof.
  eexists. split.
  - unfold reachable, new_signal.
    eapply rtc_l; [apply (sg_start keeps_handle true STATUS_SUCCESS STATUS_NULL_ARG STATUS_SUCCESS); reflexivity|evaluated].
    eapply rtc_l; [apply (sg_start keeps_handle true STATUS_NULL_ARG STATUS_SUCCESS STATUS_SUCCESS); reflexivity|evaluated]. apply rtc_refl.
  - cbn. intros (_ & Hd & _). by apply elem_of_nil in Hd.
Qed.

Lemma signaling_client_safe_witness :
  reachable clears true left_over ∧ clients (calls left_over) = [1%nat] ∧ guarded in_use (calls left_over).
Proof.
  split; [exact left_over_reached|]. destruct (signaling_client_safe clears (λ _, eq_refl) true left_over left_over_reached) as [H1 H2].
  split; [exact H2|exact H1].
Defined.

Definition destroyed : signal :=
  mk_signal None false true false None CNone ODestroyed 2
    [ProviderFreed; Freed 1; Disconnected 1; Connected 1; Fetched 1; Created 1; Freed 0; Disconnected 0; Connected 0; Fetched 0; Created 0].
Lemma destroyed_reached : reachable clears true destroyed.
Proof.
  unfold reachable. etrans; [exact left_over_reached|]. unfold left_over.
  eapply rtc_l; [apply (sg_stop clears true true); left; reflexivity|evaluated]. sg_run sg_stop_free. sg_run sg_destroy. apply rtc_refl.
Qed.
Lemma destroyed_session_has_no_client_witness : owner destroyed = ODestroyed ∧ clients (calls destroyed) = [].
Proof. split; [reflexivity|]. by apply (destroyed_session_has_no_client clears (λ _, eq_refl) destroyed destroyed_reached). Defined.
