(* ===== verification/KvsPeer.v ===== *)
(** * The peer connections of a KVS session

    [devices/common/board/kvs_master/src/kvs_session_real.cpp], what the handlers do with a
    viewer: the configuration and the creation of its peer connection, the offer and the
    answer, ICE candidates in both directions, frames, the MCP data channel, and the end of
    the session. The table of sessions and its critical sections are those of [KvsSessions].

    The handlers run on the threads of the SDK, on the clean-up thread and on the owner's
    thread, at the same time. A handler is a program of atoms: a critical section of
    [state_lock_], a call of the SDK or of the bridge, an access to a member of the session,
    or the part under [peer_connection_lock] that looks at the connection and uses it; where
    the code holds that lock longer, the model lets the others run in between. Any thread
    may take its next atom at any time, and handlers may start at any time. Every call is
    an event whose answer is an arbitrary function of the events before. *)
From stdpp Require Import gmap.
From S2P Require Import Prelude Cpp VideoConfig KvsText KvsSessions KvsSignal.

#[local] Open Scope Z_scope.
#[local] Arguments Nat.leb : simpl never.

(** ** Calls *)

Record IceServer := mk_server { urls : string; username : string; credential : string }.

(** The calls of the SDK; a peer connection has the number of its session. *)
Inductive pcall :=
  | GetIceConfigInfoCount | GetIceConfigInfo (index : nat)
  | CreatePeerConnection (id : nat) (relay : bool) (servers : list IceServer)
  | OnIceCandidateSet (id : nat) | OnStateChangeSet (id : nat) | OnDataChannelSet (id : nat)
  | AddSupportedCodec (id : nat) | AddTransceiver (id : nat) | ConfigureRollingBuffer (id : nat)
  | Deserialize (payload : string) | SetRemoteDescription (id : nat) | CanTrickle (id : nat)
  | CreateAnswer (id : nat) | SetLocalDescription (id : nat) | SerializeAnswer (id : nat)
  | AddIceCandidate (id : nat) (candidate : string)
  | WriteFrame (id : nat) (index size : Z) (keyframe : bool)
  | ClosePeerConnection (id : nat) | FreePeerConnection (id : nat)
  | SendAnswerMessage (peer : string) (postfix : Z) | SendCandidateMessage (peer payload : string)
  | DataChannelOnMessage (channel : nat) | DataChannelSend (channel : nat) (payload : string).

Inductive pk_event :=
  | Called (c : pcall) (status : STATUS)
  | Viewers (o : outcome)                                (* markers and report of [SetSessionConnected] *)
  | Marker (name : string) (peer detail : string)
  | McpOpened (peer : string) (r : string + unit)
  | McpClosed (peer reason : string) (r : string + unit)
  | McpHandled (peer payload : string) (r : string + option string)
  | MavlinkClosed (id : nat)                             (* [CloseMavlinkDataChannel] *)
  | MavlinkOpened (id channel : nat).                    (* the channel of a MAVLink session *)
Abbreviation pk_trace := (list pk_event).

(** ** State *)

(** What is not under [state_lock_], of one [StreamingSession]. *)
Record peer := mk_peer {
  peer_connection : bool; video_transceiver : bool; mcp_data_channel : option nat;
  remote_can_trickle : bool; first_frame : bool; frame_index : Z; correlation_id_postfix : Z }.
Definition new_peer : peer := mk_peer false false None false true 0 0.

Record kv := mk_kv { table : registry; peers : gmap nat peer; next_session : nat }.
Definition new_kv : kv := mk_kv empty_registry ∅ 0.

Definition with_peer (id : nat) (f : peer → peer) (s : kv) : kv := mk_kv (table s) (alter f id (peers s)) (next_session s).
Definition with_table (r : registry) (s : kv) : kv := mk_kv r (peers s) (next_session s).

Definition set_connection (x : bool) (p : peer) : peer :=
  mk_peer x (video_transceiver p) (mcp_data_channel p) (remote_can_trickle p) (first_frame p) (frame_index p) (correlation_id_postfix p).
Definition set_transceiver (x : bool) (p : peer) : peer :=
  mk_peer (peer_connection p) x (mcp_data_channel p) (remote_can_trickle p) (first_frame p) (frame_index p) (correlation_id_postfix p).
Definition set_mcp_channel (x : option nat) (p : peer) : peer :=
  mk_peer (peer_connection p) (video_transceiver p) x (remote_can_trickle p) (first_frame p) (frame_index p) (correlation_id_postfix p).
Definition set_trickle (x : bool) (p : peer) : peer :=
  mk_peer (peer_connection p) (video_transceiver p) (mcp_data_channel p) x (first_frame p) (frame_index p) (correlation_id_postfix p).
Definition next_frame (p : peer) : peer :=
  mk_peer (peer_connection p) (video_transceiver p) (mcp_data_channel p) (remote_can_trickle p) (first_frame p) (u64 (frame_index p + 1)) (correlation_id_postfix p).
Definition frame_written (p : peer) : peer :=
  mk_peer (peer_connection p) (video_transceiver p) (mcp_data_channel p) (remote_can_trickle p) false (frame_index p) (correlation_id_postfix p).
Definition next_postfix (p : peer) : peer :=
  mk_peer (peer_connection p) (video_transceiver p) (mcp_data_channel p) (remote_can_trickle p) (first_frame p) (frame_index p) (u64 (correlation_id_postfix p + 1)).

(** The configuration of the session, the limits of the SDK, and what the outside answers. *)
Record PeerEnv := mk_peer_env {
  pe_mavlink : bool; pe_mcp_enabled : bool; pe_bridge : bool; pe_mavlink_bridge : bool; pe_relay : bool;
  pe_stun_url : string; pe_mcp_label : string; pe_mavlink_label : string;
  pe_max_servers : nat; pe_url_size : nat; pe_username_size : nat; pe_credential_size : nat; pe_payload_size : nat;
  pe_status : pcall → pk_trace → STATUS;
  pe_client : pk_trace → bool;                           (* the signalling client exists, see [KvsSignal] *)
  pe_ice_count : pk_trace → Z;
  pe_ice_config : nat → pk_trace → option (list string * string * string);
  pe_trickle : nat → pk_trace → option bool;
  pe_resolve : string → pk_trace → option string;
  pe_now : pk_trace → Z;
  pe_mcp_open : pk_trace → string + unit;
  pe_mcp_close : pk_trace → string + unit;
  pe_mcp_handle : string → pk_trace → string + option string }.

(** ** Programs of a thread *)

(** One atom: it reads and changes the shared state, and adds its events. *)
Definition St (B : Type) : Type := kv → pk_trace → B * kv * pk_trace.
(** What is left of a thread's program; between two atoms the others run. *)
Inductive prog (A : Type) : Type :=
  | Ret (a : A)
  | Throw (message : string)
  | Atom {B : Type} (c : St B) (k : B → prog A).
Arguments Ret {A} a.
Arguments Throw {A} message.
Arguments Atom {A B} c k.

Fixpoint prog_bind {A B} (f : A → prog B) (p : prog A) : prog B :=
  match p with
  | Ret a => f a
  | Throw m => Throw m
  | Atom c k => Atom c (λ b, prog_bind f (k b))
  end.
#[global] Instance prog_mret : MRet prog := @Ret.
#[global] Instance prog_mbind : MBind prog := @prog_bind.

Definition atom {B} (c : St B) : prog B := Atom c Ret.
Definition emit (e : pk_event) : prog unit := atom (λ s t, (tt, s, e :: t)).
Definition when (b : bool) (p : prog unit) : prog unit := if b then p else mret tt.

Section Handlers.
Context (env : PeerEnv).

Definition call_status (c : pcall) : St STATUS := λ s t, (pe_status env c t, s, Called c (pe_status env c t) :: t).
Definition sdk (c : pcall) : prog STATUS := atom (call_status c).
Definition observe {A} (f : pk_trace → A) : prog A := atom (λ s t, (f t, s, t)).
(** A call of the bridge; an exception that it throws is caught where it is made. *)
Definition bridge {A} (e : string + A → pk_event) (f : pk_trace → string + A) : prog (string + A) :=
  atom (λ s t, (f t, s, e (f t) :: t)).

Definition peer_field {A} (id : nat) (f : peer → A) (d : A) (s : kv) : A := from_option f d (peers s !! id).
Definition of_peer {A} (id : nat) (f : peer → A) (d : A) : prog A := atom (λ s t, (peer_field id f d s, s, t)).
Definition modify_peer (id : nat) (f : peer → peer) : prog unit := atom (λ s t, (tt, with_peer id f s, t)).
Definition peer_name (id : nat) : prog string := atom (λ s t, (from_option peer_id EmptyString (sessions (table s) !! id), s, t)).
Definition is_terminating (id : nat) : prog bool := atom (λ s t, (terminating (table s) id, s, t)).
(** A critical section of [state_lock_]. *)
Definition locked (f : registry → outcome * registry) : prog outcome :=
  atom (λ s t, ((f (table s)).1, with_table (f (table s)).2 s, t)).

(** Under [peer_connection_lock]: a call when the session has a connection. *)
Definition if_connected (id : nat) (c : pcall) : prog (option STATUS) :=
  atom (λ s t, if peer_field id peer_connection false s then let '(status, s, t) := call_status c s t in (Some status, s, t) else (None, s, t)).

(** [if (STATUS_FAILED(status)) return status;] *)
Definition and_then (c : prog STATUS) (k : prog STATUS) : prog STATUS :=
  status ← c; if STATUS_FAILED status then mret status else k.

(** ** The configuration of a peer connection *)

Definition clip (n : nat) (s : string) : string := String.substring 0 (pred n) s.

(** The servers that follow the first one. *)
Fixpoint turn_servers (room : nat) (uris : list string) (user password : string) : list IceServer :=
  match room, uris with
  | S room, uri :: uris =>
      mk_server (clip (pe_url_size env) uri) (clip (pe_username_size env) user) (clip (pe_credential_size env) password)
      :: turn_servers room uris user password
  | _, _ => []
  end.
Definition stun_server : IceServer := mk_server (pe_stun_url env) EmptyString EmptyString.
Definition max_turn_servers : nat := 1.

(** The loop over the configurations, [count] of them. *)
Fixpoint ice_loop (rounds index : nat) (count : Z) (servers : list IceServer) : prog (STATUS * list IceServer) :=
  match rounds with
  | O => mret (STATUS_SUCCESS, servers)
  | S rounds =>
      if (Z.of_nat index <? count) && Nat.ltb (length servers) (pe_max_servers env) then
        status ← sdk (GetIceConfigInfo index);
        if STATUS_FAILED status then mret (status, servers) else
        config ← observe (pe_ice_config env index);
        match config with
        | None => ice_loop rounds (S index) count servers
        | Some (uris, user, password) =>
            ice_loop rounds (S index) count (servers ++ turn_servers (pe_max_servers env - length servers) uris user password)
        end
      else mret (STATUS_SUCCESS, servers)
  end.
Definition BuildPeerConnectionConfiguration : prog (STATUS * list IceServer) :=
  client ← observe (pe_client env);
  if negb client then mret (STATUS_INVALID_OPERATION, [stun_server]) else
  status ← sdk GetIceConfigInfoCount;
  if STATUS_FAILED status then mret (status, [stun_server]) else
  count ← observe (pe_ice_count env);
  ice_loop max_turn_servers 0 count [stun_server].

(** ** The end of a session *)

Definition CloseMcpIpc (id : nat) (reason : string) : prog unit :=
  name ← peer_name id;
  channel ← of_peer id mcp_data_channel None;
  _ ← when (bool_decide (is_Some channel))
        (_ ← emit (Marker "TXING_MCP_DATACHANNEL_CLOSED" name reason); modify_peer id (set_mcp_channel None));
  when (pe_bridge env) (_ ← bridge (McpClosed name reason) (pe_mcp_close env); mret tt).

Definition SetConnected (id : nat) (value : bool) : prog unit :=
  o ← locked (SetSessionConnected id value);
  match o with Markers _ _ _ => emit (Viewers o) | _ => mret tt end.

(** [freePeerConnection], and the members that are cleared before the lock is released. *)
Definition free_connection (id : nat) : prog unit :=
  atom (λ s t, let '(_, s, t) := call_status (FreePeerConnection id) s t in
               (tt, with_peer id (λ p, set_transceiver false (set_connection false p)) s, t)).
Definition DestroySession (id : nat) : prog unit :=
  _ ← SetConnected id false;
  _ ← locked (request_terminate id);
  _ ← (if pe_mavlink env then emit (MavlinkClosed id) else CloseMcpIpc id "MCP WebRTC peer session destroyed");
  connected ← of_peer id peer_connection false;                  (* the code holds the lock from here on *)
  when connected (_ ← sdk (ClosePeerConnection id); free_connection id).

(** ** The start of a session *)

(** [addTransceiver], which stores the transceiver. *)
Definition add_transceiver (id : nat) : prog STATUS :=
  atom (λ s t, let '(status, s, t) := call_status (AddTransceiver id) s t in
               (status, if STATUS_FAILED status then s else with_peer id (set_transceiver true) s, t)).
Definition AddSendOnlyVideoTransceiver (id : nat) : prog STATUS :=
  connected ← of_peer id peer_connection false;
  if negb connected then mret STATUS_NULL_ARG else
  and_then (add_transceiver id) (sdk (ConfigureRollingBuffer id)).
Definition AddMcpDataChannelHandler (id : nat) : prog STATUS :=
  if negb (pe_mavlink env) && negb (pe_mcp_enabled env) then mret STATUS_SUCCESS else
  if negb (pe_bridge env) && negb (pe_mavlink_bridge env) then mret STATUS_SUCCESS else
  sdk (OnDataChannelSet id).

(** [if (STATUS_FAILED(status)) { DestroySession(session); return status; }] *)
Definition or_destroy (id : nat) (c : prog STATUS) (k : prog STATUS) : prog STATUS :=
  status ← c;
  if STATUS_FAILED status then (_ ← DestroySession id; mret status) else k.

Definition new_object (peer_name : string) : prog nat :=
  atom (λ s t, (next_session s,
    mk_kv (new_session peer_name (next_session s) (table s)) (<[next_session s := new_peer]> (peers s)) (S (next_session s)), t)).

Definition connect_session (id : nat) : prog STATUS :=
  or_destroy id (sdk (OnIceCandidateSet id))
    (or_destroy id (sdk (OnStateChangeSet id))
      (or_destroy id (AddMcpDataChannelHandler id)
        (if pe_mavlink env then mret STATUS_SUCCESS else
         or_destroy id (sdk (AddSupportedCodec id))
           (or_destroy id (AddSendOnlyVideoTransceiver id) (mret STATUS_SUCCESS))))).
(** [createPeerConnection], which stores the connection. *)
Definition create_connection (id : nat) (servers : list IceServer) : prog STATUS :=
  atom (λ s t, let '(status, s, t) := call_status (CreatePeerConnection id (pe_relay env) servers) s t in
               (status, if STATUS_FAILED status then s else with_peer id (set_connection true) s, t)).
Definition CreateStreamingSession (name : string) : prog (STATUS * nat) :=
  id ← new_object name;
  configuration ← BuildPeerConnectionConfiguration;
  if STATUS_FAILED configuration.1 then mret (configuration.1, id) else
  status ← create_connection id configuration.2;
  if STATUS_FAILED status then mret (status, id) else
  status ← connect_session id;
  mret (status, id).

(** ** Offer and answer *)

(** [SendSignalingMessage]. *)
Definition send_message (c : pcall) : prog STATUS :=
  client ← observe (pe_client env);
  if negb client then mret STATUS_INVALID_OPERATION else sdk c.
Definition SendAnswer (id : nat) : prog STATUS :=
  and_then (sdk (SerializeAnswer id))
    (name ← peer_name id;
     _ ← modify_peer id next_postfix;
     postfix ← of_peer id correlation_id_postfix 0;
     send_message (SendAnswerMessage name postfix)).
Definition SendIceCandidate (id : nat) (candidate_json : string) : prog STATUS :=
  name ← peer_name id; send_message (SendCandidateMessage name (clip (pe_payload_size env) candidate_json)).

Definition HandleOffer (id : nat) (payload : string) : prog STATUS :=
  and_then (sdk (Deserialize payload))
    (and_then (sdk (SetRemoteDescription id))
      (_ ← sdk (CanTrickle id);
       can_trickle ← observe (pe_trickle env id);
       match can_trickle with
       | None => mret STATUS_INTERNAL_ERROR
       | Some trickle =>
           _ ← modify_peer id (set_trickle trickle);
           and_then (sdk (CreateAnswer id))
             (status ← sdk (SetLocalDescription id);
              if STATUS_FAILED status || negb trickle then mret status else SendAnswer id)
       end)).

Definition HandleAnswer (id : nat) (payload : string) : prog STATUS :=
  and_then (sdk (Deserialize payload))
    (ending ← is_terminating id;
     if ending : bool then mret STATUS_SUCCESS else
     status ← if_connected id (SetRemoteDescription id);
     mret (default STATUS_SUCCESS status)).

Definition IsRemoteIceCandidateIgnorableFailure (status : STATUS) : bool :=
  match status with
  | STATUS_ICE_CANDIDATE_MISSING_CANDIDATE | STATUS_ICE_CANDIDATE_STRING_MISSING_IP
  | STATUS_NULL_ARG | STATUS_INVALID_ARG | STATUS_INVALID_OPERATION => true
  | _ => false
  end.

(** The text of a candidate, with a host name of the local network resolved; none is
    skipped. *)
Definition candidate_text (payload : string) : prog (option string) :=
  match ExtractJsonStringField payload "candidate" with
  | None => mret None
  | Some candidate_sdp =>
      if string_empty candidate_sdp then mret None else
      match ExtractIceCandidateAddress candidate_sdp with
      | Some address =>
          if negb (IsMdnsHostname address) then mret (Some candidate_sdp) else
          resolved ← observe (pe_resolve env address);
          match resolved with
          | None => mret None
          | Some ip => mret (RewriteIceCandidateAddress candidate_sdp ip)
          end
      | None => mret (Some candidate_sdp)
      end
  end.
Definition HandleRemoteCandidate (id : nat) (payload : string) : prog STATUS :=
  text ← candidate_text payload;
  match text with
  | None => mret STATUS_SUCCESS
  | Some candidate =>
      ending ← is_terminating id;
      if ending : bool then mret STATUS_SUCCESS else
      status ← if_connected id (AddIceCandidate id candidate);
      match status with
      | None => mret STATUS_SUCCESS
      | Some status => mret (if IsRemoteIceCandidateIgnorableFailure status then STATUS_SUCCESS else status)
      end
  end.
Fixpoint SubmitPendingIceCandidates (id : nat) (pending : list string) : prog STATUS :=
  match pending with
  | [] => mret STATUS_SUCCESS
  | payload :: pending => and_then (HandleRemoteCandidate id payload) (SubmitPendingIceCandidates id pending)
  end.

(** ** Signalling messages *)

Fixpoint destroy_all (ids : list nat) : prog unit :=
  match ids with
  | [] => mret tt
  | id :: ids => _ ← DestroySession id; destroy_all ids
  end.

Definition offer_inserted (name : string) (id : nat) : prog STATUS :=
  o ← locked (offer_end name id);
  match o with
  | Inserted late pending =>
      _ ← destroy_all late;
      status ← SubmitPendingIceCandidates id pending;
      _ ← (if STATUS_FAILED status then (_ ← locked (request_terminate id); mret tt) else mret tt);
      mret status
  | _ => _ ← DestroySession id; mret STATUS_SUCCESS
  end.
Definition on_offer (name payload : string) : prog STATUS :=
  o ← locked (offer_begin name);
  match o with
  | ToDestroy replaced =>
      _ ← destroy_all replaced;
      created ← CreateStreamingSession name;
      if STATUS_FAILED created.1 then mret created.1 else
      status ← HandleOffer created.2 payload;
      if STATUS_FAILED status then (_ ← DestroySession created.2; mret status)
      else offer_inserted name created.2
  | _ => mret STATUS_SUCCESS
  end.

Inductive message_type := OFFER | ANSWER | ICE_CANDIDATE | OTHER_TYPE.
Definition HandleSignalingMessage (type : message_type) (name payload : string) : prog STATUS :=
  if string_empty name then mret STATUS_INVALID_ARG else
  match type with
  | OFFER => on_offer name payload
  | ANSWER =>
      o ← locked (find_for_answer name);
      match o with Found id => HandleAnswer id payload | _ => mret STATUS_SUCCESS end
  | ICE_CANDIDATE =>
      now ← observe (pe_now env);
      o ← locked (remote_candidate name payload now);
      match o with Found id => HandleRemoteCandidate id payload | _ => mret STATUS_SUCCESS end
  | OTHER_TYPE => mret STATUS_SUCCESS
  end.
Definition SignalingMessageReceived (type : message_type) (name payload : string) : prog unit :=
  status ← HandleSignalingMessage type name payload;
  if STATUS_FAILED status && IsSignalingCallFailure status
  then (_ ← locked KvsSessions.RequestSignalingRecreate; mret tt) else mret tt.

(** The text of an exception, without the number of the status. *)
Definition ThrowIfFailed (status : STATUS) (context : string) : prog unit :=
  if STATUS_FAILED status then Throw (context +:+ " failed") else mret tt.
Definition HandleLocalIceCandidate (id : nat) (candidate_json : option string) : prog unit :=
  trickle ← of_peer id remote_can_trickle false;
  match candidate_json with
  | None => if negb trickle then (status ← SendAnswer id; ThrowIfFailed status "send answer") else mret tt
  | Some json =>
      if negb trickle then mret tt else
      status ← SendIceCandidate id json;
      if STATUS_FAILED status then (_ ← locked KvsSessions.RequestSignalingRecreate; mret tt) else mret tt
  end.

Inductive connection_state := STATE_CONNECTED | STATE_FAILED | STATE_CLOSED | STATE_DISCONNECTED | STATE_OTHER.
Definition OnConnectionStateChange (id : nat) (state : connection_state) : prog unit :=
  match state with
  | STATE_CONNECTED => SetConnected id true
  | STATE_FAILED | STATE_CLOSED | STATE_DISCONNECTED => _ ← locked (request_terminate id); SetConnected id false
  | STATE_OTHER => mret tt
  end.

(** ** Frames *)

Definition MAX_UINT32 : Z := 2 ^ 32 - 1.
(** The results of the sessions that were tried. *)
Record push_result := mk_push { wrote_frame : bool; srtp_pending : bool; first_failure : STATUS }.
Definition no_push : push_result := mk_push false false STATUS_SUCCESS.
Definition note_write (status : STATUS) (r : push_result) : push_result :=
  match status with
  | STATUS_SUCCESS => mk_push true (srtp_pending r) (first_failure r)
  | STATUS_SRTP_NOT_READY_YET => mk_push (wrote_frame r) true (first_failure r)
  | _ => if STATUS_FAILED (first_failure r) then r else mk_push (wrote_frame r) (srtp_pending r) status
  end.
(** Under [peer_connection_lock]: the frame is written when the session has a transceiver. *)
Definition write_frame (len : Z) (keyframe : bool) (id : nat) : prog (option STATUS) :=
  atom (λ s t,
    if peer_field id video_transceiver false s then
      let s := with_peer id next_frame s in
      let '(status, s, t) := call_status (WriteFrame id (u32 (peer_field id frame_index 0 s)) (u32 len) keyframe) s t in
      (Some status, match status with STATUS_SUCCESS => with_peer id frame_written s | _ => s end, t)
    else (None, s, t)).
Definition push_to (len : Z) (keyframe : bool) (id : nat) (r : push_result) : prog push_result :=
  ending ← is_terminating id;
  if ending : bool then mret r else
  status ← write_frame len keyframe id;
  mret (match status with Some status => note_write status r | None => r end).
Fixpoint push_all (len : Z) (keyframe : bool) (ids : list nat) (r : push_result) : prog push_result :=
  match ids with
  | [] => mret r
  | id :: ids => r ← push_to len keyframe id r; push_all len keyframe ids r
  end.
(** The sessions that take frames. *)
Definition streaming_ids (s : kv) : list nat :=
  filter (λ id, from_option video_transceiver false (peers s !! id) = true ∧ terminating (table s) id = false) (table_ids (table s)).
Definition PushH264AccessUnit (len : Z) (keyframe : bool) : prog unit :=
  if len =? 0 then Throw "KVS session is not initialized" else
  if MAX_UINT32 <? len then Throw "H.264 access unit exceeds AWS frame size limits" else
  ids ← atom (λ s t, (streaming_ids s, s, t));
  r ← push_all len keyframe ids no_push;
  if wrote_frame r || srtp_pending r then mret tt else
  if STATUS_FAILED (first_failure r) then
    _ ← emit (Marker "TXING_KVS_ERROR" EmptyString "writeFrame failed");
    Throw "txing_kvs_push_h264_au failed"
  else mret tt.

(** ** The MCP data channel *)

Definition OpenMcpDataChannel (id : nat) : prog unit :=
  name ← peer_name id;
  when (pe_bridge env)
    (r ← bridge (McpOpened name) (pe_mcp_open env);
     match r with
     | inl _ => emit (Marker "TXING_MCP_DATACHANNEL_ERROR" name "open MCP bridge session failed")
     | inr _ => mret tt
     end).
(** [OnDataChannel]; what follows for a MAVLink session is in [KvsMavlink]. *)
Definition OnDataChannel (id channel : nat) (label : string) : prog unit :=
  if negb (pe_mavlink env) && negb (pe_mcp_enabled env) then mret tt else
  if negb (String.eqb label (if pe_mavlink env then pe_mavlink_label env else pe_mcp_label env)) then mret tt else
  if pe_mavlink env then emit (MavlinkOpened id channel) else
  name ← peer_name id;
  _ ← modify_peer id (set_mcp_channel (Some channel));
  _ ← emit (Marker "TXING_MCP_DATACHANNEL_OPEN" name EmptyString);
  _ ← OpenMcpDataChannel id;
  status ← sdk (DataChannelOnMessage channel);
  when (STATUS_FAILED status)
    (emit (Marker "TXING_MCP_DATACHANNEL_ERROR" name "failed to register data channel message handler")).

Definition DispatchMcpDataChannelMessage (id : nat) (payload : string) : prog (option string) :=
  name ← peer_name id;
  if negb (pe_bridge env) then
    _ ← emit (Marker "TXING_MCP_DATACHANNEL_ERROR" name "MCP bridge unavailable");
    mret (if HasJsonField payload "id" then Some (BuildJsonRpcErrorResponse payload (-32000) "MCP bridge is unavailable") else None)
  else
    r ← bridge (McpHandled name payload) (pe_mcp_handle env payload);
    match r with
    | inr response => mret response
    | inl error =>
        _ ← emit (Marker "TXING_MCP_DATACHANNEL_ERROR" name "MCP bridge request failed");
        mret (if HasJsonField payload "id"
              then Some (BuildJsonRpcErrorResponse payload (-32000) ("MCP bridge request failed: " +:+ error)) else None)
    end.
(** [OnDataChannelMessage] of a video session; the other kind is in [KvsMavlink]. *)
Definition OnMcpMessage (id channel : nat) (binary : bool) (payload : string) : prog unit :=
  if binary then mret tt else
  response ← DispatchMcpDataChannelMessage id payload;
  match response with
  | None => mret tt
  | Some text => _ ← sdk (DataChannelSend channel text); mret tt
  end.

(** ** The clean-up thread and [Stop] *)

Definition cleanup_round : prog unit :=
  o ← locked CollectTerminatedSessions;
  _ ← match o with ToDestroy ids => destroy_all ids | _ => mret tt end;
  now ← observe (pe_now env);
  _ ← locked (RemoveExpiredPendingMessages now);
  mret tt.
Definition stop_sessions : prog unit :=
  _ ← locked stop_begin;
  o ← locked stop_end;
  match o with ToDestroy ids => destroy_all ids | _ => mret tt end.

(** ** Threads *)

Inductive kv_op :=
  | KMessage (type : message_type) (name payload : string)
  | KLocalCandidate (id : nat) (candidate_json : option string)
  | KState (id : nat) (state : connection_state)
  | KFrame (len : Z) (keyframe : bool)
  | KDataChannel (id channel : nat) (label : string)
  | KMcpMessage (id channel : nat) (binary : bool) (payload : string)
  | KCleanup | KStop.
Definition handler (o : kv_op) : prog unit :=
  match o with
  | KMessage type name payload => SignalingMessageReceived type name payload
  | KLocalCandidate id json => HandleLocalIceCandidate id json
  | KState id state => OnConnectionStateChange id state
  | KFrame len keyframe => PushH264AccessUnit len keyframe
  | KDataChannel id channel label => OnDataChannel id channel label
  | KMcpMessage id channel binary payload => OnMcpMessage id channel binary payload
  | KCleanup => cleanup_round
  | KStop => stop_sessions
  end.

(** What is left of the handlers that started, and the state that they share. *)
Record pool := mk_pool { threads : list (prog unit); shared : kv; history : pk_trace }.
Definition new_pool : pool := mk_pool [] new_kv [].
Inductive pool_step : pool → pool → Prop :=
  | pool_start o w : pool_step w (mk_pool (threads w ++ [handler o]) (shared w) (history w))
  | pool_atom before after B (c : St B) k s t b s' t' : c s t = (b, s', t') →
      pool_step (mk_pool (before ++ Atom c k :: after) s t) (mk_pool (before ++ k b :: after) s' t').
Definition reachable : pool → Prop := rtc pool_step new_pool.

(** A program that no other thread disturbs. *)
Fixpoint alone {A} (p : prog A) : kv → pk_trace → (string + A) * kv * pk_trace :=
  match p with
  | Ret a => λ s t, (inr a, s, t)
  | Throw m => λ s t, (inl m, s, t)
  | Atom c k => λ s t, let '(b, s, t) := c s t in alone (k b) s t
  end.

(** A schedule: a handler starts, or a thread takes its next atom. *)
Inductive turn := Starts (o : kv_op) | Goes (thread : nat).
Definition take_turn (x : turn) (w : pool) : pool :=
  match x with
  | Starts o => mk_pool (threads w ++ [handler o]) (shared w) (history w)
  | Goes i =>
      match threads w !! i with
      | Some (Atom c k) => let '(b, s, t) := c (shared w) (history w) in mk_pool (<[i := k b]> (threads w)) s t
      | _ => w
      end
  end.
Definition run_turns (xs : list turn) (w : pool) : pool := foldl (λ w x, take_turn x w) w xs.
End Handlers.

(** ** The life of a connection *)

Fixpoint alive (id : nat) (t : pk_trace) : bool :=
  match t with
  | [] => false
  | Called (CreatePeerConnection id' _ _) STATUS_SUCCESS :: t => if decide (id' = id) then true else alive id t
  | Called (FreePeerConnection id') _ :: t => if decide (id' = id) then false else alive id t
  | _ :: t => alive id t
  end.
(** The connection that a call uses. *)
Definition uses (c : pcall) : option nat :=
  match c with
  | OnIceCandidateSet id | OnStateChangeSet id | OnDataChannelSet id | AddSupportedCodec id | AddTransceiver id
  | ConfigureRollingBuffer id | SetRemoteDescription id | CanTrickle id | CreateAnswer id | SetLocalDescription id
  | AddIceCandidate id _ | WriteFrame id _ _ _ | ClosePeerConnection id | FreePeerConnection id => Some id
  | _ => None
  end.
Definition creates (id : nat) (e : pk_event) : Prop :=
  match e with Called (CreatePeerConnection id' _ _) _ => id' = id | _ => False end.

Section Lives.
Context (env : PeerEnv).

Definition pk_guard (e : pk_event) (t : pk_trace) : Prop :=
  match e with
  | Called (CreatePeerConnection id _ servers) _ =>
      Forall (λ e, ¬ creates id e) t ∧ (1 ≤ length servers ≤ max 1 (pe_max_servers env))%nat
  | Called c _ => match uses c with Some id => alive id t = true | None => True end
  | _ => True
  end.

(** The sessions that a thread creates or destroys; the flag says that the connection is
    open. *)
Abbreviation owned := (list (nat * bool)).
Record kv_inv (O : owned) (s : kv) (t : pk_trace) : Prop := {
  i_guard : guarded pk_guard t;
  i_alive : ∀ id, alive id t = peer_field id peer_connection false s;
  i_transceiver : ∀ id p, peers s !! id = Some p → video_transceiver p = true → peer_connection p = true;
  i_fresh : ∀ id, (next_session s ≤ id)%nat → peers s !! id = None ∧ Forall (λ e, ¬ creates id e) t;
  i_once : NoDup (O.*1 ++ table_ids (table s));
  i_open : ∀ id, alive id t = true ↔ (id, true) ∈ O ∨ id ∈ table_ids (table s);
  i_new : ∀ id, (id, false) ∈ O → is_Some (peers s !! id) ∧ Forall (λ e, ¬ creates id e) t;
  i_size : (size (sessions_by_peer (table s)) ≤ kMaxConcurrentStreamingSessions)%nat }.

Lemma kv_inv_perm O O' s t : O ≡ₚ O' → kv_inv O s t → kv_inv O' s t.
Proof. intros Hp []. constructor; try done; [by rewrite <- Hp|intros id; by rewrite <- Hp|intros id; rewrite <- Hp; auto]. Qed.

(** *** Programs that keep the invariant

    [psafe p Q D]: a thread that owns [D] runs [p] beside any others; where [p] ends it
    owns what [Q] says, and where it throws no open connection. *)
Definition closed (D : owned) : Prop := Forall (λ x, x.2 = false) D.
Fixpoint psafe {A} (p : prog A) (Q : A → owned → Prop) (D : owned) : Prop :=
  match p with
  | Ret a => Q a D
  | Throw _ => closed D
  | Atom c k => ∀ F s t, kv_inv (D ++ F) s t →
      let '(b, s', t') := c s t in ∃ D', kv_inv (D' ++ F) s' t' ∧ psafe (k b) Q D'
  end.

Lemma psafe_bind {A B} (p : prog A) (f : A → prog B) Q : ∀ D,
  psafe p (λ a D', psafe (f a) Q D') D → psafe (p ≫= f) Q D.
Proof.
  unfold mbind, prog_mbind. induction p as [a|m|T c k IH]; intros D H; cbn in *; [done|done|].
  intros F s t Hi. specialize (H F s t Hi). destruct (c s t) as [[b s'] t']. destruct H as (D' & Hi' & H'). eauto.
Qed.
Lemma psafe_mono {A} (p : prog A) (Q Q' : A → owned → Prop) : (∀ a D, Q a D → Q' a D) → ∀ D, psafe p Q D → psafe p Q' D.
Proof.
  intros HQ. induction p as [a|m|T c k IH]; intros D H; cbn in *; [auto|done|].
  intros F s t Hi. specialize (H F s t Hi). destruct (c s t) as [[b s'] t']. destruct H as (D' & Hi' & H'). eauto.
Qed.
Lemma psafe_atom {A} (c : St A) Q D :
  (∀ F s t, kv_inv (D ++ F) s t → let '(b, s', t') := c s t in ∃ D', kv_inv (D' ++ F) s' t' ∧ Q b D') → psafe (atom c) Q D.
Proof. done. Qed.

(** A program that leaves the thread's sessions alone. *)
Definition still {A} (p : prog A) (D : owned) : Prop := psafe p (λ _ D', D' = D) D.
Lemma psafe_still {A B} (p : prog A) (f : A → prog B) Q D : still p D → (∀ a, psafe (f a) Q D) → psafe (p ≫= f) Q D.
Proof. intros Hp Hf. apply psafe_bind. eapply psafe_mono; [|exact Hp]. by intros a D' ->. Qed.
Lemma still_bind {A B} (p : prog A) (f : A → prog B) D : still p D → (∀ a, still (f a) D) → still (p ≫= f) D.
Proof. apply psafe_still. Qed.
Lemma still_ret {A} (a : A) D : still (mret a) D.
Proof. done. Qed.
Lemma still_when b p D : still p D → still (when b p) D.
Proof. by destruct b. Qed.
Lemma still_and_then c k D : still c D → still k D → still (and_then c k) D.
Proof. intros Hc Hk. unfold and_then. apply still_bind; [done|]. intros st. by destruct (STATUS_FAILED st). Qed.
Lemma still_atom {A} (c : St A) D :
  (∀ O s t, D ⊆+ O → kv_inv O s t → let '(_, s', t') := c s t in kv_inv O s' t') → still (atom c) D.
Proof.
  intros Hc F s t Hi. specialize (Hc (D ++ F) s t ltac:(by apply submseteq_inserts_r) Hi). destruct (c s t) as [[b s'] t']. by exists D.
Qed.

(** Events that neither create nor free. *)
Definition plain (e : pk_event) : Prop :=
  match e with Called (CreatePeerConnection _ _ _) _ | Called (FreePeerConnection _) _ => False | _ => True end.
Lemma alive_plain e id t : plain e → alive id (e :: t) = alive id t.
Proof. by destruct e as [[] | | | | | | |]. Qed.
Lemma creates_plain e id : plain e → ¬ creates id e.
Proof. by destruct e as [[] | | | | | | |]; intros ? ?. Qed.
Lemma uncreated_cons id e t : ¬ creates id e → Forall (λ e, ¬ creates id e) t → Forall (λ e, ¬ creates id e) (e :: t).
Proof. by constructor. Qed.

Lemma kv_inv_event O s e t : plain e → pk_guard e t → kv_inv O s t → kv_inv O s (e :: t).
Proof.
  intros Hp Hg []. constructor; try done.
  - intros id. rewrite (alive_plain _ _ _ Hp). apply i_alive0.
  - intros id Hid. destruct (i_fresh0 id Hid). split; [done|]. by apply uncreated_cons; [apply creates_plain|].
  - intros id. rewrite (alive_plain _ _ _ Hp). apply i_open0.
  - intros id Hid. destruct (i_new0 id Hid). split; [done|]. by apply uncreated_cons; [apply creates_plain|].
Qed.

(** A change of what the invariant does not look at. *)
Lemma peer_field_alter {A} id j f (g : peer → A) d s : (∀ p, g (f p) = g p) → peer_field j g d (with_peer id f s) = peer_field j g d s.
Proof.
  intros Hf. unfold peer_field. cbn. destruct (decide (id = j)) as [->|]; [|by rewrite lookup_alter_ne]. rewrite lookup_alter_eq.
  destruct (peers s !! j); cbn; [apply Hf|done].
Qed.
Lemma kv_inv_peer O s t id f : (∀ p, peer_connection (f p) = peer_connection p) →
  (∀ p, peers s !! id = Some p → video_transceiver (f p) = true → peer_connection p = true) → kv_inv O s t → kv_inv O (with_peer id f s) t.
Proof.
  intros Hf Hv []. constructor; try done.
  - intros j. rewrite i_alive0. by rewrite peer_field_alter.
  - intros j p. cbn. destruct (decide (id = j)) as [->|]; [|rewrite lookup_alter_ne by done; apply i_transceiver0]. rewrite lookup_alter_eq.
    intros (p0 & Hp0 & ->)%fmap_Some. rewrite Hf. auto.
  - intros j Hj. destruct (i_fresh0 j Hj) as [Hn ?]. split; [|done]. cbn. destruct (decide (id = j)) as [->|]; [by rewrite lookup_alter_eq, Hn|by rewrite lookup_alter_ne].
  - intros j Hj. destruct (i_new0 j Hj) as [[p Hp] ?]. split; [|done]. cbn. destruct (decide (id = j)) as [->|]; [rewrite lookup_alter_eq, Hp; eauto|rewrite lookup_alter_ne by done; eauto].
Qed.
Lemma kv_inv_table O s t r : sessions_by_peer r = sessions_by_peer (table s) → kv_inv O s t → kv_inv O (with_table r s) t.
Proof. intros Hr []. constructor; cbn; try done; unfold table_ids in *; rewrite Hr; done. Qed.

(** An owned connection is open. *)
Lemma owned_alive D O s t id : (id, true) ∈ D → D ⊆+ O → kv_inv O s t → alive id t = true.
Proof. intros Hin Hsub H. apply (i_open _ _ _ H). left. by eapply elem_of_submseteq. Qed.

Lemma call_kept O s t c : plain (Called c STATUS_SUCCESS) → (∀ id, uses c = Some id → alive id t = true) → kv_inv O s t →
  kv_inv O s (Called c (pe_status env c t) :: t).
Proof. intros Hp Hu H. apply kv_inv_event; [by destruct c| |done]. destruct c; cbn in *; try done; by apply Hu. Qed.

Section Atoms.
Context (D : owned).

Lemma sdk_still c : plain (Called c STATUS_SUCCESS) → (∀ id, uses c = Some id → (id, true) ∈ D) → still (sdk env c) D.
Proof.
  intros Hp Hu. apply still_atom. intros O s t Hs H. cbn. apply call_kept; [done| |done]. intros id Hid. by eapply owned_alive; [apply Hu| |].
Qed.
Lemma observe_still {A} (f : pk_trace → A) : still (observe f) D.
Proof. by apply still_atom. Qed.
Lemma of_peer_still {A} id (f : peer → A) d : still (of_peer id f d) D.
Proof. by apply still_atom. Qed.
Lemma name_still id : still (peer_name id) D.
Proof. by apply still_atom. Qed.
Lemma ending_still id : still (is_terminating id) D.
Proof. by apply still_atom. Qed.
Lemma emit_still e : plain e → (∀ t, pk_guard e t) → still (emit e) D.
Proof. intros Hp Hg. apply still_atom. intros O s t _ H. by apply kv_inv_event. Qed.
Lemma bridge_still {A} (e : string + A → pk_event) f : (∀ r, plain (e r) ∧ ∀ t, pk_guard (e r) t) → still (bridge e f) D.
Proof. intros He. apply still_atom. intros O s t _ H. by apply kv_inv_event; [apply He..|]. Qed.
Lemma locked_still f : (∀ r, sessions_by_peer (f r).2 = sessions_by_peer r) → still (locked f) D.
Proof. intros Hf. apply still_atom. intros O s t _ H. by apply kv_inv_table. Qed.
Lemma modify_still id f : (∀ p, peer_connection (f p) = peer_connection p ∧ video_transceiver (f p) = video_transceiver p) → still (modify_peer id f) D.
Proof.
  intros Hf. apply still_atom. intros O s t _ H. apply kv_inv_peer; [apply Hf| |done]. intros p Hp. rewrite (proj2 (Hf p)). by apply (i_transceiver _ _ _ H id).
Qed.
Lemma if_connected_still id c : plain (Called c STATUS_SUCCESS) → uses c = Some id → still (if_connected env id c) D.
Proof.
  intros Hp Hu. apply still_atom. intros O s t _ H. destruct (peer_field id peer_connection false s) eqn:E; [|done]. cbn.
  apply call_kept; [done| |done]. intros j [= <-]%(eq_trans (eq_sym Hu)). by rewrite (i_alive _ _ _ H).
Qed.
Lemma write_frame_still len key id : still (write_frame env len key id) D.
Proof.
  apply still_atom. intros O s t _ H. destruct (peer_field id video_transceiver false s) eqn:E; [|done]. cbn zeta.
  assert (Ha : alive id t = true).
  { rewrite (i_alive _ _ _ H). unfold peer_field in *. destruct (peers s !! id) as [p|] eqn:Ep; cbn in *; [|done]. by eapply (i_transceiver _ _ _ H). }
  assert (Hk : ∀ s' f, (f = next_frame ∨ f = frame_written) → kv_inv O s' t → kv_inv O (with_peer id f s') t).
  { intros s' f Hf H'. apply kv_inv_peer; [by destruct Hf; subst| |done]. intros p Hp Hv. apply (i_transceiver _ _ _ H' id p Hp). by destruct Hf; subst. }
  unfold call_status. apply call_kept; [done|by intros j [= <-]|]. case_match; auto.
Qed.
End Atoms.

Lemma same_connected id v r : sessions_by_peer (SetSessionConnected id v r).2 = sessions_by_peer r.
Proof. unfold SetSessionConnected. destruct (sessions r !! id); [|done]. by destruct (Bool.eqb _ _). Qed.
Lemma same_terminate id r : sessions_by_peer (request_terminate id r).2 = sessions_by_peer r.
Proof. unfold request_terminate. by destruct (sessions r !! id). Qed.
Lemma same_candidate a b c r : sessions_by_peer (remote_candidate a b c r).2 = sessions_by_peer r.
Proof. unfold remote_candidate. by destruct (sessions_by_peer r !! a). Qed.
Lemma same_answer a r : sessions_by_peer (find_for_answer a r).2 = sessions_by_peer r.
Proof. unfold find_for_answer. destruct (sessions_by_peer r !! a); [done|]. by repeat case_match. Qed.

(** A program, atom by atom; what is left are calls that need an owned connection. *)
Ltac still_step :=
  lazymatch goal with
  | |- still (and_then _ _) _ => apply still_and_then
  | |- still (sdk _ _) _ => apply sdk_still; [done|cbn; try (by intros); try (by intros ? [= <-])]
  | |- still (observe _) _ => apply observe_still
  | |- still (of_peer _ _ _) _ => apply of_peer_still
  | |- still (peer_name _) _ => apply name_still
  | |- still (is_terminating _) _ => apply ending_still
  | |- still (emit _) _ => apply emit_still; done
  | |- still (bridge _ _) _ => apply bridge_still; done
  | |- still (modify_peer _ _) _ => apply modify_still; by intros
  | |- still (if_connected _ _ _) _ => by apply if_connected_still
  | |- still (write_frame _ _ _ _) _ => apply write_frame_still
  | |- still (locked _) _ => apply locked_still; intros ?; first [apply same_connected|apply same_terminate|apply same_candidate|apply same_answer|done]
  | |- still (when _ _) _ => apply still_when
  | |- still (if ?b then _ else _) _ => destruct b
  | |- still (mret _) _ => apply still_ret
  | |- still (mbind _ _) _ => apply still_bind; [|intros ?]
  | |- still (match ?x with _ => _ end) _ => destruct x
  end.

Section Programs.
Context (D : owned).

Lemma CloseMcpIpc_still id reason : still (CloseMcpIpc env id reason) D.
Proof. unfold CloseMcpIpc. repeat still_step. Qed.
Lemma SetConnected_still id v : still (SetConnected id v) D.
Proof. unfold SetConnected. repeat still_step. Qed.
Lemma SendAnswer_still id : still (SendAnswer env id) D.
Proof. unfold SendAnswer, send_message. repeat still_step. Qed.
Lemma HandleOffer_still id payload : (id, true) ∈ D → still (HandleOffer env id payload) D.
Proof. intros Ha. unfold HandleOffer. repeat (still_step || apply SendAnswer_still). Qed.
Lemma HandleAnswer_still id payload : still (HandleAnswer env id payload) D.
Proof. unfold HandleAnswer. repeat still_step. Qed.
Lemma HandleRemoteCandidate_still id payload : still (HandleRemoteCandidate env id payload) D.
Proof. unfold HandleRemoteCandidate, candidate_text. repeat still_step. Qed.
Lemma Submit_still id pending : still (SubmitPendingIceCandidates env id pending) D.
Proof. induction pending as [|m l IH]; cbn [SubmitPendingIceCandidates]; repeat still_step; [apply HandleRemoteCandidate_still|done]. Qed.
Lemma push_still len key ids : ∀ r, still (push_all env len key ids r) D.
Proof. induction ids as [|id ids IH]; intros r; cbn [push_all]; [still_step|]. unfold push_to. repeat still_step; auto. Qed.
Lemma OpenMcp_still id : still (OpenMcpDataChannel env id) D.
Proof. unfold OpenMcpDataChannel. repeat still_step. Qed.
End Programs.

(** *** The end of a session *)

Definition opened (ids : list nat) : owned := (λ id, (id, true)) <$> ids.
Lemma opened_fst ids (F : owned) : (opened ids ++ F).*1 = ids ++ F.*1.
Proof. rewrite fmap_app. f_equal. unfold opened. rewrite <- list_fmap_compose. apply list_fmap_id. Qed.
Lemma opened_in id ids : (id, true) ∈ opened ids ↔ id ∈ ids.
Proof. unfold opened. rewrite list_elem_of_fmap. naive_solver. Qed.
Lemma opened_not id ids : (id, false) ∉ opened ids.
Proof. unfold opened. rewrite list_elem_of_fmap. naive_solver. Qed.

Lemma free_ok O s t id st : kv_inv ((id, true) :: O) s t →
  kv_inv O (with_peer id (λ p, set_transceiver false (set_connection false p)) s) (Called (FreePeerConnection id) st :: t).
Proof.
  intros H. assert (Hal : ∀ j, alive j (Called (FreePeerConnection id) st :: t) = if decide (id = j) then false else alive j t) by done.
  assert (Ha : alive id t = true) by (apply (i_open _ _ _ H); left; left). destruct H. cbn in i_once0. apply NoDup_cons in i_once0 as [Hid Hnd].
  constructor; cbn [with_peer table next_session]; try done.
  - intros j. rewrite Hal. unfold peer_field. cbn. case_decide as E; [subst j; rewrite lookup_alter_eq; by destruct (peers s !! id)|].
    rewrite lookup_alter_ne by done. apply i_alive0.
  - intros j p. cbn. destruct (decide (id = j)) as [<-|]; [rewrite lookup_alter_eq|rewrite lookup_alter_ne by done; apply i_transceiver0].
    by intros (p0 & _ & ->)%fmap_Some.
  - intros j Hj. destruct (i_fresh0 j Hj) as [Hn Hf]. split; [|apply uncreated_cons; [by intros []|done]]. cbn.
    destruct (decide (id = j)) as [->|]; [by rewrite lookup_alter_eq, Hn|by rewrite lookup_alter_ne].
  - intros j. rewrite Hal. case_decide as E.
    + subst j. split; [done|]. intros Hin. exfalso. apply Hid, elem_of_app. destruct Hin as [Hin|]; [left|by right].
      apply list_elem_of_fmap. by exists (id, true).
    + rewrite i_open0, elem_of_cons. naive_solver.
  - intros j Hj. destruct (i_new0 j ltac:(by right)) as [[p Hp] Hf]. split; [|apply uncreated_cons; [by intros []|done]]. cbn.
    destruct (decide (id = j)) as [->|]; [rewrite lookup_alter_eq, Hp; eauto|rewrite lookup_alter_ne by done; eauto].
Qed.

Lemma destroy_safe D id : psafe (DestroySession env id) (λ _ D', D' = D) ((id, true) :: D).
Proof.
  unfold DestroySession. apply psafe_still; [apply SetConnected_still|intros _]. apply psafe_still; [still_step|intros _].
  apply psafe_still; [destruct (pe_mavlink env); [still_step|apply CloseMcpIpc_still]|intros _].
  apply psafe_bind, psafe_atom. intros F s t H. exists ((id, true) :: D). split; [done|].
  assert (Ha : peer_field id peer_connection false s = true) by (rewrite <- (i_alive _ _ _ H); apply (i_open _ _ _ H); left; left).
  rewrite Ha. apply psafe_still; [still_step; intros ? [= <-]; left|intros _].
  apply psafe_atom. intros F' s' t' H'. exists D. split; [|done]. by apply free_ok.
Qed.
Lemma destroy_all_safe D ids : psafe (destroy_all env ids) (λ _ D', D' = D) (opened ids ++ D).
Proof.
  induction ids as [|id ids IH]; cbn [destroy_all]; [done|]. apply psafe_bind. eapply psafe_mono; [|apply destroy_safe]. by intros _ D' ->.
Qed.

(** *** The start of a session *)

(** The servers of a configuration. *)
Lemma turn_servers_length room uris u p : (length (turn_servers env room uris u p) ≤ room)%nat.
Proof. revert uris. induction room as [|k IH]; intros [|x l]; cbn; try lia. specialize (IH l). lia. Qed.
Definition servers_ok (servers : list IceServer) : Prop := (1 ≤ length servers ≤ max 1 (pe_max_servers env))%nat.

Lemma ice_loop_safe D rounds : ∀ i count servers, servers_ok servers →
  psafe (ice_loop env rounds i count servers) (λ r D', D' = D ∧ servers_ok r.2) D.
Proof.
  induction rounds as [|k IH]; intros i count servers Hl; cbn [ice_loop]; [done|].
  destruct (_ && _) eqn:Hb; [|done]. apply andb_true_iff in Hb as [_ Hroom%Nat.ltb_lt].
  apply psafe_still; [still_step|intros st]. destruct (STATUS_FAILED st); [done|]. apply psafe_still; [still_step|intros config].
  destruct config as [[[uris u] p]|]; [|by apply IH]. apply IH. unfold servers_ok in *. rewrite length_app.
  pose proof (turn_servers_length (pe_max_servers env - length servers) uris u p). lia.
Qed.
Lemma configuration_safe D : psafe (BuildPeerConnectionConfiguration env) (λ r D', D' = D ∧ servers_ok r.2) D.
Proof.
  unfold BuildPeerConnectionConfiguration. assert (H1 : servers_ok [stun_server env]) by (unfold servers_ok; cbn; lia).
  apply psafe_still; [still_step|intros client]. destruct (negb client); [done|].
  apply psafe_still; [still_step|intros st]. destruct (STATUS_FAILED st); [done|]. apply psafe_still; [still_step|intros count]. by apply ice_loop_safe.
Qed.

Lemma new_object_safe D name : psafe (new_object name) (λ id D', D' = (id, false) :: D) D.
Proof.
  apply psafe_atom. intros F s t H. exists ((next_session s, false) :: D). split; [|done]. destruct H.
  destruct (i_fresh0 (next_session s) (le_n _)) as [Hn Hf].
  assert (Hal : alive (next_session s) t = false) by (rewrite i_alive0; unfold peer_field; by rewrite Hn).
  assert (Hfield : ∀ j, peer_field j peer_connection false
    (mk_kv (new_session name (next_session s) (table s)) (<[next_session s := new_peer]> (peers s)) (S (next_session s))) = peer_field j peer_connection false s).
  { intros j. unfold peer_field. cbn. destruct (decide (next_session s = j)) as [<-|]; [by rewrite lookup_insert_eq, Hn|by rewrite lookup_insert_ne]. }
  constructor; try done.
  - intros j. by rewrite Hfield.
  - intros j p. cbn. destruct (decide (next_session s = j)) as [<-|]; [rewrite lookup_insert_eq; by intros [= <-]|rewrite lookup_insert_ne by done; apply i_transceiver0].
  - intros j Hj. cbn in *. destruct (i_fresh0 j ltac:(lia)) as [Hj1 Hj2]. split; [|done]. rewrite lookup_insert_ne by lia. done.
  - cbn. apply NoDup_cons. split; [|done]. intros Hin. apply elem_of_app in Hin as [Hin|Hin].
    + apply list_elem_of_fmap in Hin as ([j b] & Ej & Hin). cbn in Ej. subst j. destruct b.
      * assert (alive (next_session s) t = true) by (apply i_open0; by left). congruence.
      * destruct (i_new0 _ Hin) as [[p Hp] _]. congruence.
    + assert (alive (next_session s) t = true) by (apply i_open0; by right). congruence.
  - intros j. rewrite i_open0. cbn. rewrite elem_of_cons. naive_solver.
  - intros j. cbn. rewrite elem_of_cons. intros [[= ->]|Hin]; [split; [rewrite lookup_insert_eq; eauto|done]|].
    destruct (i_new0 j Hin) as [[p Hp] ?]. split; [|done]. rewrite lookup_insert_is_Some'. right. eauto.
Qed.

Lemma created_ok O s t id servers st : kv_inv ((id, false) :: O) s t → servers_ok servers → 
  let e := Called (CreatePeerConnection id (pe_relay env) servers) st in
  if STATUS_FAILED st then kv_inv O s (e :: t) else kv_inv ((id, true) :: O) (with_peer id (set_connection true) s) (e :: t).
Proof.
  intros [] Hl e. destruct (i_new0 id ltac:(left)) as [[p Hp] Hf]. cbn in i_once0. apply NoDup_cons in i_once0 as [Hid Hnd].
  assert (Hg : guarded pk_guard (e :: t)) by by split.
  assert (Hc : ∀ j, j ≠ id → ¬ creates j e) by (intros j Hj Hcr; by apply Hj).
  assert (Hnext : ∀ j, (next_session s ≤ j)%nat → j ≠ id) by (intros j Hj ->; destruct (i_fresh0 id Hj); congruence).
  assert (Hne : ∀ j b, (j, b) ∈ O → j ≠ id).
  { intros j b Hj ->. apply Hid, elem_of_app. left. apply list_elem_of_fmap. by exists (id, b). }
  destruct (STATUS_FAILED st) eqn:Est.
  - assert (Hal : ∀ j, alive j (e :: t) = alive j t) by (intros j; by destruct st).
    constructor; try done.
    + intros j. by rewrite Hal.
    + intros j Hj. destruct (i_fresh0 j Hj). split; [done|]. by apply uncreated_cons; [apply Hc, Hnext|].
    + intros j. rewrite Hal, i_open0, elem_of_cons. naive_solver.
    + intros j Hj. destruct (i_new0 j ltac:(by right)). split; [done|]. apply uncreated_cons; [by eapply Hc, Hne|done].
  - assert (Hal : ∀ j, alive j (e :: t) = if decide (id = j) then true else alive j t) by (intros j; by destruct st).
    constructor; try done.
    + intros j. rewrite Hal. unfold peer_field. cbn. case_decide as E; [subst j; by rewrite lookup_alter_eq, Hp|]. rewrite lookup_alter_ne by done. apply i_alive0.
    + intros j p'. cbn. destruct (decide (id = j)) as [<-|]; [rewrite lookup_alter_eq|rewrite lookup_alter_ne by done; apply i_transceiver0].
      by intros (p0 & _ & ->)%fmap_Some.
    + intros j Hj. cbn. destruct (i_fresh0 j Hj). pose proof (Hnext j Hj). rewrite lookup_alter_ne by done. split; [done|]. by apply uncreated_cons; [apply Hc|].
    + cbn. by apply NoDup_cons.
    + intros j. rewrite Hal. case_decide as E; [subst j; split; [intros _; left; left|done]|]. rewrite i_open0, !elem_of_cons. naive_solver.
    + intros j. rewrite elem_of_cons. intros [[=]|Hj]. destruct (i_new0 j ltac:(by right)) as [[p' Hp'] ?]. pose proof (Hne _ _ Hj). split; [|by apply uncreated_cons; [apply Hc|]].
      cbn. rewrite lookup_alter_ne by done. eauto.
Qed.
Lemma create_safe D id servers : servers_ok servers →
  psafe (create_connection env id servers) (λ st D', D' = if STATUS_FAILED st then D else (id, true) :: D) ((id, false) :: D).
Proof.
  intros Hl. apply psafe_atom. intros F s t H. unfold call_status. cbn -[alive].
  generalize (pe_status env (CreatePeerConnection id (pe_relay env) servers) t). intros st.
  pose proof (created_ok (D ++ F) s t id servers st H Hl) as Hc. cbv zeta in Hc.
  destruct (STATUS_FAILED st); [exists D|exists ((id, true) :: D)]; by split.
Qed.

(** A step that fails destroys the session. *)
Definition connected_or_gone (D : owned) (id : nat) (st : STATUS) (D' : owned) : Prop := D' = if STATUS_FAILED st then D else (id, true) :: D.
Lemma or_destroy_safe D id c k : still c ((id, true) :: D) → psafe k (connected_or_gone D id) ((id, true) :: D) →
  psafe (or_destroy env id c k) (connected_or_gone D id) ((id, true) :: D).
Proof.
  intros Hc Hk. unfold or_destroy. apply psafe_still; [done|intros st]. destruct (STATUS_FAILED st) eqn:E; [|done].
  apply psafe_bind. eapply psafe_mono; [|apply destroy_safe]. intros _ D' ->. cbn. unfold connected_or_gone. by rewrite E.
Qed.

Lemma transceiver_still D id : (id, true) ∈ D → still (AddSendOnlyVideoTransceiver env id) D.
Proof.
  intros Hid. unfold AddSendOnlyVideoTransceiver. still_step; [still_step|]. still_step; [still_step|]. still_step; [|still_step].
  apply still_atom. intros O s t Hs H. assert (Ha : alive id t = true) by by eapply owned_alive. unfold call_status. cbn zeta.
  assert (Hk : kv_inv O s (Called (AddTransceiver id) (pe_status env (AddTransceiver id) t) :: t)).
  { apply call_kept; [done|by intros j [= <-]|done]. }
  destruct (STATUS_FAILED _); [done|]. apply kv_inv_peer; [done| |done]. intros p Hp _.
  assert (Hf : peer_field id peer_connection false s = true) by by rewrite <- (i_alive _ _ _ H). unfold peer_field in Hf. by rewrite Hp in Hf.
Qed.
Lemma connect_safe D id : psafe (connect_session env id) (connected_or_gone D id) ((id, true) :: D).
Proof.
  unfold connect_session. assert (Hid : (id, true) ∈ (id, true) :: D) by left.
  repeat (apply or_destroy_safe; [first [still_step|unfold AddMcpDataChannelHandler; repeat still_step|by apply transceiver_still]|]).
  destruct (pe_mavlink env); [done|].
  repeat (apply or_destroy_safe; [first [still_step|by apply transceiver_still]|]). done.
Qed.

Lemma create_session_safe D name : psafe (CreateStreamingSession env name)
  (λ r D', if STATUS_FAILED r.1 then D' = D ∨ D' = (r.2, false) :: D else D' = (r.2, true) :: D) D.
Proof.
  unfold CreateStreamingSession. apply psafe_bind. eapply psafe_mono; [|apply new_object_safe]. intros id D1 ->.
  apply psafe_bind. eapply psafe_mono; [|apply configuration_safe]. intros [st servers] D2 [-> Hl]. cbn [fst snd] in *.
  destruct (STATUS_FAILED st) eqn:E; [cbn; rewrite E; by right|]. apply psafe_bind. eapply psafe_mono; [|by apply create_safe]. intros st1 D3 ->.
  destruct (STATUS_FAILED st1) eqn:E1; [cbn; rewrite E1; by left|]. apply psafe_bind. eapply psafe_mono; [|apply connect_safe].
  intros st2 D4 ->. cbn. destruct (STATUS_FAILED st2); [by left|done].
Qed.

(** *** The table *)

(** A section that moves sessions out of the table, or in. *)
Lemma moved_ok ids ids' O r s t : kv_inv (opened ids ++ O) s t → ids ++ table_ids (table s) ≡ₚ ids' ++ table_ids r →
  (size (sessions_by_peer r) ≤ kMaxConcurrentStreamingSessions)%nat → kv_inv (opened ids' ++ O) (with_table r s) t.
Proof.
  intros [] Hp Hs. rewrite opened_fst in i_once0.
  assert (Hin : ∀ id, id ∈ ids ∨ id ∈ table_ids (table s) ↔ id ∈ ids' ∨ id ∈ table_ids r) by (intros id; by rewrite <- !elem_of_app, Hp).
  constructor; cbn [with_table table next_session]; try done.
  - rewrite opened_fst. assert (Hq : (ids' ++ O.*1) ++ table_ids r ≡ₚ (ids ++ O.*1) ++ table_ids (table s)); [|by rewrite Hq].
    rewrite <- !app_assoc, !(Permutation_app_comm (O.*1)), !app_assoc. by rewrite Hp.
  - intros id. rewrite i_open0, !elem_of_app, !opened_in. specialize (Hin id). tauto.
  - intros id. rewrite elem_of_app. intros [Hf|Hf]; [by destruct (opened_not id ids')|]. apply i_new0, elem_of_app. by right.
Qed.

(** What the thread then has to destroy. *)
Definition taken (D : owned) (o : outcome) (D' : owned) : Prop := D' = match o with ToDestroy ids => opened ids ++ D | _ => D end.
Lemma section_safe c D : (∀ r, (size (sessions_by_peer r) ≤ kMaxConcurrentStreamingSessions)%nat →
    match (run_section c r).1 with ToDestroy _ => True | o => destroyed_by o [] = [] end) →
  psafe (locked (run_section c)) (taken D) D.
Proof.
  intros Hc. apply psafe_atom. intros F s t H. specialize (Hc (table s) (i_size _ _ _ H)). pose proof (section_places c (table s)) as Hp.
  pose proof (section_table_size c (table s)). pose proof (i_size _ _ _ H).
  exists (opened (destroyed_by (run_section c (table s)).1 []) ++ D). split.
  - rewrite <- app_assoc. apply (moved_ok []); [exact H|exact Hp|lia].
  - unfold taken. destruct (run_section c (table s)).1; cbn in *; subst; done.
Qed.
Lemma begin_safe name D : psafe (locked (offer_begin name)) (taken D) D.
Proof.
  apply (section_safe (SBegin name)). intros r Hr. cbn. pose proof (λ ids, refused_replaces name r ids Hr) as Hn.
  unfold offer_begin in *. destruct (Nat.leb _ _); cbn in *; [by apply Hn|done].
Qed.
Lemma collect_safe D : psafe (locked CollectTerminatedSessions) (taken D) D.
Proof. by apply (section_safe SCollect). Qed.
Lemma stop_end_safe D : psafe (locked stop_end) (taken D) D.
Proof. by apply (section_safe SStopEnd). Qed.

Lemma insert_safe name id D : psafe (locked (offer_end name id))
  (λ o D', match o with Inserted late _ => D' = opened late ++ D | _ => D' = (id, true) :: D end) ((id, true) :: D).
Proof.
  apply psafe_atom. intros F s t H. pose proof (insert_places name id (table s)) as Hp. destruct (offer_end_rest name id (table s)) as (_ & _ & Hs).
  exists (opened (destroyed_by (offer_end name id (table s)).1 [id]) ++ D). split.
  - rewrite <- app_assoc. apply (moved_ok [id]); [exact H|exact Hp|apply Hs, (i_size _ _ _ H)].
  - unfold offer_end. destruct (sessions_by_peer (table s) !! name); [done|]. by destruct (Nat.leb _ _).
Qed.

(** *** Handlers *)

(** A handler that starts with no session ends with no open one. *)
Abbreviation safe p := (psafe p (λ _, closed)).
Lemma still_safe {A} (p : prog A) D : closed D → still p D → safe p D.
Proof. intros Hc Hp. eapply psafe_mono; [|exact Hp]. by intros a D' ->. Qed.
Lemma safe_then {A B} (p : prog A) (f : A → prog B) D : safe p D → (∀ a D', closed D' → safe (f a) D') → safe (p ≫= f) D.
Proof. intros Hp Hf. apply psafe_bind. eapply psafe_mono; [|exact Hp]. auto. Qed.
Lemma destroy_then {A} id (p : prog A) D : safe p D → safe (_ ← DestroySession env id; p) ((id, true) :: D).
Proof. intros Hp. apply psafe_bind. eapply psafe_mono; [|apply destroy_safe]. by intros _ D' ->. Qed.
Lemma destroy_all_then {A} ids (p : prog A) Q D : psafe p Q D → psafe (_ ← destroy_all env ids; p) Q (opened ids ++ D).
Proof. intros Hp. apply psafe_bind. eapply psafe_mono; [|apply destroy_all_safe]. by intros _ D' ->. Qed.
Lemma closed_nil : closed [].
Proof. constructor. Qed.

Lemma offer_inserted_safe name id : safe (offer_inserted env name id) [(id, true)].
Proof.
  unfold offer_inserted. apply psafe_bind. eapply psafe_mono; [|apply insert_safe]. intros o D' H.
  assert (Hd : safe (_ ← DestroySession env id; mret STATUS_SUCCESS) [(id, true)]) by (apply destroy_then, closed_nil).
  destruct o as [| | |late pending| | |]; subst; try exact Hd. apply destroy_all_then. apply still_safe; [constructor|].
  apply still_bind; [apply Submit_still|intros st]. repeat still_step.
Qed.
Lemma on_offer_safe name payload : safe (on_offer env name payload) [].
Proof.
  unfold on_offer. apply psafe_bind. eapply psafe_mono; [|apply begin_safe]. intros o D' ->. destruct o as [|replaced| | | | |]; try constructor.
  apply destroy_all_then, psafe_bind. eapply psafe_mono; [|apply create_session_safe]. intros [st id] D1. cbn [fst snd].
  destruct (STATUS_FAILED st); [intros [->| ->]; by repeat constructor|intros ->].
  apply psafe_still; [apply HandleOffer_still; left|intros st1]. destruct (STATUS_FAILED st1); [apply destroy_then, closed_nil|apply offer_inserted_safe].
Qed.
Lemma taken_safe f (k : prog unit) : psafe (locked f) (taken []) [] → safe k [] →
  safe (o ← locked f; _ ← match o with ToDestroy ids => destroy_all env ids | _ => mret tt end; k) [].
Proof.
  intros Hf Hk. apply psafe_bind. eapply psafe_mono; [|exact Hf]. intros o D ->. destruct o; try exact Hk. by apply destroy_all_then.
Qed.

Lemma message_safe type name payload : safe (SignalingMessageReceived env type name payload) [].
Proof.
  unfold SignalingMessageReceived. apply safe_then; [|intros st D Hc; apply still_safe; [done|repeat still_step]].
  unfold HandleSignalingMessage. destruct (string_empty name); [constructor|]. destruct type; [apply on_offer_safe|..]; (apply still_safe; [constructor|]).
  - repeat (still_step || apply HandleAnswer_still).
  - repeat (still_step || apply HandleRemoteCandidate_still).
  - still_step.
Qed.
Lemma throw_still {A} m : still (Throw m : prog A) [].
Proof. constructor. Qed.
Lemma handler_safe o : safe (handler env o) [].
Proof.
  destruct o as [type name payload|id json|id state|len key|id ch label|id ch bin payload| |]; cbn [handler];
    [apply message_safe|apply still_safe; [constructor|]..| |].
  - unfold HandleLocalIceCandidate, SendIceCandidate, send_message, ThrowIfFailed. repeat (still_step || apply SendAnswer_still || apply throw_still).
  - unfold OnConnectionStateChange. repeat (still_step || apply SetConnected_still).
  - unfold PushH264AccessUnit. repeat (still_step || apply push_still || apply throw_still || by apply still_atom).
  - unfold OnDataChannel. repeat (still_step || apply OpenMcp_still).
  - unfold OnMcpMessage, DispatchMcpDataChannelMessage. repeat still_step.
  - unfold cleanup_round. apply taken_safe; [apply collect_safe|]. apply still_safe; [constructor|repeat still_step].
  - unfold stop_sessions. apply psafe_still; [still_step|intros _]. apply psafe_bind. eapply psafe_mono; [|apply stop_end_safe].
    intros o D ->. destruct o; try constructor. eapply psafe_mono; [|apply destroy_all_safe]. intros _ D ->. constructor.
Qed.

(** *** Every interleaving *)

Definition pool_inv (w : pool) : Prop :=
  ∃ Ds, Forall2 (λ p D, safe p D) (threads w) Ds ∧ kv_inv (concat Ds) (shared w) (history w).

Lemma pool_step_inv w w' : pool_step env w w' → pool_inv w → pool_inv w'.
Proof.
  intros Hs (Ds & Hf & Hi). destruct Hs as [o w|before after B c k s t b s' t' Hc]; cbn in *.
  - exists (Ds ++ [[]]). split; [apply Forall2_app; [done|]; repeat constructor; apply handler_safe|]. cbn. by rewrite concat_app, app_nil_r.
  - apply Forall2_app_inv_l in Hf as (D1 & D2' & H1 & H2 & ->). apply Forall2_cons_inv_l in H2 as (D & D2 & Hp & H2 & ->).
    assert (Hperm : ∀ X : owned, concat (D1 ++ X :: D2) ≡ₚ X ++ concat D1 ++ concat D2).
    { intros X. rewrite concat_app. cbn. rewrite !app_assoc. by rewrite (Permutation_app_comm (concat D1)). }
    cbn in Hp. specialize (Hp (concat D1 ++ concat D2) s t (kv_inv_perm _ _ _ _ (Hperm D) Hi)). rewrite Hc in Hp. destruct Hp as (D' & Hi' & Hp').
    exists (D1 ++ D' :: D2). split; [by apply Forall2_app; [|constructor]|]. cbn. by eapply kv_inv_perm; [symmetry; apply Hperm|].
Qed.
Lemma new_pool_inv : pool_inv new_pool.
Proof.
  exists []. split; [constructor|]. constructor; cbn; try done.
  - unfold table_ids. cbn. rewrite map_to_list_empty. constructor.
  - unfold table_ids. cbn. rewrite map_to_list_empty. intros id. rewrite !elem_of_nil. naive_solver.
  - by intros id ?%elem_of_nil.
  - rewrite map_size_empty. lia.
Qed.
Lemma reachable_pool_inv w : reachable env w → pool_inv w.
Proof. unfold reachable. intros H. cut (pool_inv new_pool → pool_inv w); [intros Hx; apply Hx, new_pool_inv|]. induction H; [done|]. eauto using pool_step_inv. Qed.

(** The open connections that a thread has yet to destroy or to put in the table. *)
Definition open_ids (D : owned) : list nat := (filter (λ x, x.2 = true) D).*1.
Lemma open_ids_in D id : id ∈ open_ids D ↔ (id, true) ∈ D.
Proof.
  unfold open_ids. rewrite list_elem_of_fmap. split; [|intros Hin; exists (id, true); by rewrite list_elem_of_filter].
  intros ([j b] & -> & [Hb Hin]%list_elem_of_filter). cbn in *. by subst.
Qed.
Lemma open_ids_concat Ds id : id ∈ concat (open_ids <$> Ds) ↔ (id, true) ∈ concat Ds.
Proof. induction Ds as [|D Ds IH]; cbn; [rewrite !elem_of_nil; done|]. by rewrite !elem_of_app, IH, open_ids_in. Qed.
Lemma open_ids_sub Ds : concat (open_ids <$> Ds) ⊆+ (concat Ds).*1.
Proof.
  induction Ds as [|D Ds IH]; cbn; [done|]. rewrite fmap_app. apply submseteq_app; [|done].
  apply fmap_submseteq, sublist_submseteq, sublist_filter.
Qed.
Definition finished (p : prog unit) : Prop := match p with Atom _ _ => False | _ => True end.
Lemma finished_closed p D : safe p D → finished p → open_ids D = [].
Proof.
  intros Hp Hf. assert (Hc : closed D) by by destruct p. clear Hp. unfold open_ids.
  induction Hc as [|x D Hx Hc IH]; [done|]. rewrite filter_cons, decide_False; [done|congruence].
Qed.

(** C17: The handlers of signalling messages, candidates, state changes, frames and data
    channels, the rounds of the clean-up thread and the stops run as threads, any number
    of them, that interleave between any two critical sections, calls and accesses to a
    flag, whatever the SDK, the resolver and the bridge answer. In every state: a call
    used a peer connection only between its creation and its release, each was created
    once and with one server at least and not more than the SDK takes, the table has at
    most ten viewers, and the open connections are exactly those in the table and those
    that a handler that has not finished creates or destroys, each in one place. So when
    no handler runs the open ones are those in the table. *)
Theorem peer_connections_safe w : reachable env w →
  guarded pk_guard (history w) ∧
  (size (sessions_by_peer (table (shared w))) ≤ kMaxConcurrentStreamingSessions)%nat ∧
  ∃ owners : list (list nat), Forall2 (λ p own, finished p → own = []) (threads w) owners ∧
    NoDup (concat owners ++ table_ids (table (shared w))) ∧
    ∀ id, alive id (history w) = true ↔ id ∈ concat owners ++ table_ids (table (shared w)).
Proof.
  intros (Ds & Hf & Hi)%reachable_pool_inv. destruct Hi. split_and!; [done|done|]. exists (open_ids <$> Ds). split_and!.
  - rewrite Forall2_fmap_r. eapply Forall2_impl; [exact Hf|]. intros p D Hp Hd. exact (finished_closed p D Hp Hd).
  - destruct (submseteq_Permutation _ _ (open_ids_sub Ds)) as (rest & Hp). rewrite Hp, <- app_assoc, (Permutation_app_comm rest), app_assoc in i_once0.
    by apply NoDup_app in i_once0 as [? _].
  - intros id. by rewrite i_open0, elem_of_app, open_ids_concat.
Qed.

(** ** Frames *)

Lemma alone_bind {A B} (p : prog A) (f : A → prog B) : ∀ s t,
  alone (p ≫= f) s t = let '(r, s', t') := alone p s t in match r with inl m => (inl m, s', t') | inr a => alone (f a) s' t' end.
Proof. unfold mbind, prog_mbind. induction p as [a|m|T c k IH]; intros s t; cbn; [done..|]. by destruct (c s t) as [[b s'] t']. Qed.

Definition frame_write (e : pk_event) : option (nat * STATUS) :=
  match e with Called (WriteFrame id _ _ _) st => Some (id, st) | _ => None end.
Definition note_all (results : list STATUS) (r : push_result) : push_result := foldl (λ r st, note_write st r) r results.

Definition same_streams (s s' : kv) : Prop :=
  table s' = table s ∧ ∀ id, from_option video_transceiver false (peers s' !! id) = from_option video_transceiver false (peers s !! id).

Lemma alter_streams id f s : (∀ p, video_transceiver (f p) = video_transceiver p) → same_streams s (with_peer id f s).
Proof.
  intros Hf. split; [done|]. intros j. cbn. destruct (decide (id = j)) as [->|]; [|by rewrite lookup_alter_ne].
  rewrite lookup_alter_eq. by destruct (peers s !! j); cbn.
Qed.
Lemma streams_trans s1 s2 s3 : same_streams s1 s2 → same_streams s2 s3 → same_streams s1 s3.
Proof. intros [E1 H1] [E2 H2]. split; [congruence|]. intros id. by rewrite H2. Qed.

Definition takes_frames (s : kv) (id : nat) : Prop :=
  from_option video_transceiver false (peers s !! id) = true ∧ terminating (table s) id = false.
Lemma streams_take s s' id : same_streams s s' → takes_frames s id → takes_frames s' id.
Proof. intros [E1 E2] [H1 H2]. split; [by rewrite E2|by rewrite E1]. Qed.

Lemma push_to_writes len key id r s t : takes_frames s id → ∃ st s' index,
  alone (push_to env len key id r) s t = (inr (note_write st r), s', Called (WriteFrame id index (u32 len) key) st :: t) ∧ same_streams s s'.
Proof.
  intros [Ht Hn]. unfold push_to. rewrite alone_bind. cbn. rewrite Hn. cbn. unfold peer_field at 1. rewrite Ht. cbn.
  generalize (u32 (peer_field id frame_index 0 (with_peer id next_frame s))). intros index.
  generalize (pe_status env (WriteFrame id index (u32 len) key) t). intros st. exists st, (match st with STATUS_SUCCESS => with_peer id frame_written (with_peer id next_frame s) | _ => with_peer id next_frame s end), index.
  split; [by destruct st|]. destruct st; try (by apply alter_streams). by eapply streams_trans; apply alter_streams.
Qed.

Lemma push_all_writes len key ids : ∀ r s t, Forall (takes_frames s) ids →
  ∃ l s', alone (push_all env len key ids r) s t = (inr (note_all (snd <$> omap frame_write (reverse l)) r), s', l ++ t) ∧ fst <$> omap frame_write (reverse l) = ids.
Proof.
  induction ids as [|id ids IH]; intros r s t Hall; cbn [push_all]; [by exists [], s|]. apply Forall_cons in Hall as [Hid Hall].
  destruct (push_to_writes len key id r s t Hid) as (st & s1 & index & E & Hs). rewrite alone_bind, E.
  destruct (IH (note_write st r) s1 (Called (WriteFrame id index (u32 len) key) st :: t)) as (l & s2 & E2 & El).
  { eapply Forall_impl; [exact Hall|]. intros j. by apply streams_take. }
  exists (l ++ [Called (WriteFrame id index (u32 len) key) st]), s2. rewrite E2, reverse_app. cbn. rewrite El, <- app_assoc. done.
Qed.

(** Something was written, or will be. *)
Lemma note_all_ok results r : let q := note_all results r in
  (wrote_frame q || srtp_pending q = true ↔ wrote_frame r || srtp_pending r = true ∨ STATUS_SUCCESS ∈ results ∨ STATUS_SRTP_NOT_READY_YET ∈ results) ∧
  (wrote_frame q || srtp_pending q = false → results ≠ [] ∨ STATUS_FAILED (first_failure r) = true → STATUS_FAILED (first_failure q) = true) ∧
  (results = [] → q = r).
Proof.
  revert r. induction results as [|st results IH]; intros r; cbn.
  - split_and!; [set_solver|naive_solver|done].
  - destruct (IH (note_write st r)) as (H1 & H2 & _). split_and!; [|intros Hq _; apply H2; [done|]|done].
    + rewrite H1. destruct st; cbn; try destruct (STATUS_FAILED (first_failure r)); cbn; rewrite ?orb_true_r; set_solver.
    + right. apply not_true_iff_false in Hq. rewrite H1 in Hq. destruct st; cbn in *; try destruct (STATUS_FAILED (first_failure r)) eqn:E; cbn; try done; exfalso; apply Hq; left; by rewrite ?orb_true_r.
Qed.

(** An access unit of a valid length, pushed while no other thread runs, is written once
    to every viewer that has a transceiver and is not terminating, whatever the writes
    before it returned; the push throws exactly when there was such a viewer and no write
    succeeded or was deferred. *)
Theorem frame_reaches_every_viewer len key s t : 0 < len ≤ MAX_UINT32 →
  let '(r, s', t') := alone (PushH264AccessUnit env len key) s t in
  ∃ l m, t' = m ++ l ++ t ∧ omap frame_write m = [] ∧ fst <$> omap frame_write (reverse l) = streaming_ids s ∧
    let results := snd <$> omap frame_write (reverse l) in
    (r = inr tt ↔ results = [] ∨ STATUS_SUCCESS ∈ results ∨ STATUS_SRTP_NOT_READY_YET ∈ results).
Proof.
  intros Hl. unfold PushH264AccessUnit. rewrite (proj2 (Z.eqb_neq len 0)), (proj2 (Z.ltb_ge MAX_UINT32 len)) by lia.
  rewrite alone_bind. cbn -[streaming_ids]. destruct (push_all_writes len key (streaming_ids s) no_push s t) as (l & s' & E & El).
  { apply Forall_forall. intros id Hid. apply list_elem_of_filter in Hid. by destruct Hid. }
  rewrite alone_bind, E. remember (snd <$> omap frame_write (reverse l)) as results eqn:Er. destruct (note_all_ok results no_push) as (H1 & H2 & H3).
  destruct (wrote_frame (note_all results no_push) || srtp_pending (note_all results no_push)) eqn:Eq.
  - exists l, []. split; [done|]. split; [done|]. split; [done|]. cbv zeta. rewrite <- Er. split; [|done]. intros _. right. by destruct (proj1 H1 eq_refl).
  - destruct (STATUS_FAILED (first_failure (note_all results no_push))) eqn:Ef.
    + eexists l, [_]. split; [done|]. split; [done|]. split; [done|]. cbv zeta. rewrite <- Er. split; [done|]. intros [Hr|Hr]; [by rewrite (H3 Hr) in Ef|]. exfalso. by discriminate (proj2 H1 (or_intror Hr)).
    + exists l, []. split; [done|]. split; [done|]. split; [done|]. cbv zeta. rewrite <- Er. split; [|done]. intros _. left.
      destruct (decide (results = [])) as [|Hne]; [done|]. by discriminate (H2 eq_refl (or_introl Hne)).
Qed.

(** The end of gathering, for a peer that takes no candidates later: when the answer
    cannot be sent, the exception leaves the callback of the SDK. *)
Theorem late_answer_failure_escapes id s t : peer_field id remote_can_trickle false s = false →
  STATUS_FAILED (pe_status env (SerializeAnswer id) t) = true →
  (alone (HandleLocalIceCandidate env id None) s t).1.1 = inl "send answer failed"%string.
Proof.
  intros Ht Hs. unfold HandleLocalIceCandidate. rewrite alone_bind. cbn. rewrite Ht. cbn. rewrite Hs. cbn. unfold ThrowIfFailed. by rewrite Hs.
Qed.
End Lives.

(** ** Examples *)

(** Everything succeeds but the write of a frame to the first viewer. *)
Definition demo_peer_env : PeerEnv := {|
  pe_mavlink := false; pe_mcp_enabled := true; pe_bridge := true; pe_mavlink_bridge := false; pe_relay := false;
  pe_stun_url := "stun:stun.kinesisvideo.eu-west-1.amazonaws.com:443"; pe_mcp_label := "txing.mcp.v1"; pe_mavlink_label := "txing.mavlink.v1";
  pe_max_servers := 21; pe_url_size := 257; pe_username_size := 257; pe_credential_size := 257; pe_payload_size := 1001;
  pe_status c _ := match c with WriteFrame 0 _ _ _ => STATUS_INTERNAL_ERROR | _ => STATUS_SUCCESS end;
  pe_client _ := true;
  pe_ice_count _ := 1;
  pe_ice_config _ _ := Some (["turn:a"; "turn:b"], "user", "password")%string;
  pe_trickle _ _ := Some true;
  pe_resolve _ _ := None;
  pe_now _ := 0;
  pe_mcp_open _ := inr tt; pe_mcp_close _ := inr tt; pe_mcp_handle _ _ := inr None |}.

(** A handler that starts and runs to its end, at most 100 atoms. *)
Definition whole (thread : nat) (o : kv_op) : list turn := Starts o :: replicate 100 (Goes thread).
Lemma take_turn_step env x w : rtc (pool_step env) w (take_turn env x w).
Proof.
  destruct x as [o|i]; cbn; [apply rtc_once; constructor|]. destruct (threads w !! i) as [[a|m|B c k]|] eqn:E; try done.
  destruct (c (shared w) (history w)) as [[b s'] t'] eqn:Ec. apply rtc_once. destruct w as [ths s t]. cbn in *.
  rewrite (insert_take_drop _ _ _ (lookup_lt_Some _ _ _ E)). rewrite <- (take_drop_middle ths i _ E) at 1. by constructor.
Qed.
Lemma run_turns_steps env xs w : rtc (pool_step env) w (run_turns env xs w).
Proof. revert w. induction xs as [|x xs IH]; intros w; cbn; [done|]. etrans; [apply take_turn_step|apply IH]. Qed.

(** The connection of a viewer failed, and the clean-up thread has taken its session out
    of the table, but not yet closed it, when a second viewer's offer completes. *)
Definition between_collect_and_destroy : pool :=
  run_turns demo_peer_env (whole 0 (KMessage OFFER "a" "offer") ++ whole 1 (KState 0 STATE_FAILED) ++ [Starts KCleanup; Goes 2]
    ++ whole 3 (KMessage OFFER "b" "offer")) new_pool.
Lemma peer_connections_safe_witness :
  let w := between_collect_and_destroy in
  reachable demo_peer_env w ∧ table_ids (table (shared w)) = [1%nat] ∧ alive 0 (history w) = true ∧ alive 1 (history w) = true ∧
  guarded (pk_guard demo_peer_env) (history w) ∧
  ∃ owners, length owners = 4%nat ∧ 0%nat ∈ concat owners.
Proof.
  intros w. assert (Hr : reachable demo_peer_env w) by apply run_turns_steps. assert (Ht : table_ids (table (shared w)) = [1%nat]) by (vm_compute; reflexivity).
  assert (H0 : alive 0 (history w) = true) by (vm_compute; reflexivity). assert (Hn : length (threads w) = 4%nat) by (vm_compute; reflexivity).
  destruct (peer_connections_safe demo_peer_env w Hr) as (Hg & _ & owners & Hf & _ & Ho).
  split; [exact Hr|]. split; [exact Ht|]. split; [exact H0|]. split; [vm_compute; reflexivity|]. split; [exact Hg|].
  exists owners. split; [rewrite <- Hn; symmetry; exact (Forall2_length _ _ _ Hf)|]. apply Ho in H0. rewrite Ht in H0.
  apply elem_of_app in H0 as [H0|H0]; [exact H0|]. exfalso. apply list_elem_of_singleton in H0. discriminate H0.
Defined.

Definition two_viewers : kv * pk_trace :=
  let w := run_turns demo_peer_env (whole 0 (KMessage OFFER "a" "offer") ++ whole 1 (KMessage OFFER "b" "offer") ++ whole 2 (KState 0 STATE_CONNECTED)) new_pool in
  (shared w, history w).

Example two_viewers_alive : alive 0 two_viewers.2 = true ∧ alive 1 two_viewers.2 = true ∧ viewer_count (table two_viewers.1) = 1.
Proof. vm_compute. done. Qed.

Lemma frame_reaches_every_viewer_witness : streaming_ids two_viewers.1 = [0; 1]%nat ∧
  ∃ l m, (alone (PushH264AccessUnit demo_peer_env 4096 true) two_viewers.1 two_viewers.2).2 = m ++ l ++ two_viewers.2 ∧
    fst <$> omap frame_write (reverse l) = [0; 1]%nat.
Proof.
  assert (Hs : streaming_ids two_viewers.1 = [0; 1]%nat) by (vm_compute; reflexivity). split; [exact Hs|].
  assert (Hl : 0 < 4096 ≤ MAX_UINT32) by (unfold MAX_UINT32; lia). revert Hs. generalize two_viewers. intros [s0 t0] Hs. cbn [fst snd] in *.
  pose proof (frame_reaches_every_viewer demo_peer_env 4096 true s0 t0 Hl) as H.
  destruct (alone (PushH264AccessUnit demo_peer_env 4096 true) s0 t0) as [[r s'] t'].
  destruct H as (l & m & Et & _ & El & _). exists l, m. split; [exact Et|]. rewrite El. exact Hs.
Defined.
