(* ===== verification/CapturePipeline.v ===== *)
(** * The frame pipeline of the camera

    [devices/common/board/kvs_master/src/video_capturer_libcamera.cpp] at run time: the
    callback of libcamera, the thread that feeds the H.264 encoder, the thread that polls
    it, and the program that takes frames and stops. A request with its buffer travels
    from the camera over a queue to a slot of the encoder and back. Every access to a
    shared member is a step of its own, a critical section of [queue_lock_] is one step,
    and the steps of the four threads come in any order; what the camera, the encoder and
    the clock do is chosen by the step. Requests are numbered in the order in which they
    were created. *)
From stdpp Require Import gmap sorting relations.
From S2P Require Import Prelude Cpp VideoConfig VideoRuntime.

#[local] Open Scope Z_scope.

(** ** Data *)

(** A plane of a frame buffer: descriptor, offset and length, 32 bits each. *)
Record plane := mk_plane { plane_fd : Z; plane_offset : Z; plane_length : Z }.

Record PendingCameraRequest := mk_pending { p_request : nat; p_buffer : list plane; p_timestamp_us : Z }.

(** What libcamera says about a request that it completed. *)
Inductive completion :=
  | RequestCancelled
  | WithoutStream
  | NullBuffer
  | FrameSkipped
  | FrameSuccess (buffer : list plane) (sensor_timestamp : option Z) (buffer_timestamp : Z).

(** A buffer of the encoder that was dequeued: its bytes, time stamp and flags. *)
Record encoded_buffer := mk_encoded { e_bytes : list Z; e_tv_sec : Z; e_tv_usec : Z; e_flags : Z }.
Definition V4L2_BUF_FLAG_KEYFRAME : Z := 8.

(** The span of the file that holds every plane. *)
Fixpoint span_of (dma_fd : Z) (span : Z) (planes : list plane) : string + Z :=
  match planes with
  | [] => inr span
  | p :: planes =>
      if negb (plane_fd p =? dma_fd)
      then inl "libcamera buffer uses multiple DMABUF fds; unsupported encoder import layout"%string
      else span_of dma_fd (Z.max span (wrapu 64 (plane_offset p + plane_length p))) planes
  end.
Definition ImportedDmabufSpan (buffer : list plane) : string + Z :=
  match buffer with
  | [] => inl "libcamera buffer does not contain any planes"%string
  | first :: _ =>
      let dma_fd := plane_fd first in
      if dma_fd <? 0 then inl "libcamera buffer plane does not expose a valid DMABUF fd"%string else
      match span_of dma_fd 0 buffer with
      | inl e => inl e
      | inr span =>
          if (span =? 0) || (2 ^ 32 - 1 <? span)
          then inl "libcamera buffer span is invalid for V4L2 encoder import"%string
          else inr (wrapu 32 span)
      end
  end.

(** Time stamps: nanoseconds of the sensor, seconds and microseconds at the encoder, and
    microseconds of a frame. *)
Definition pending_timestamp (sensor_timestamp : option Z) (buffer_timestamp : Z) : Z :=
  match sensor_timestamp with
  | Some ns => wrapu 64 (Z.quot ns 1000)
  | None => wrapu 64 (buffer_timestamp / 1000)
  end.
Definition encoder_timestamp (us : Z) : Z * Z := (us / 1000000, us mod 1000000).
Definition frame_of (b : encoded_buffer) : EncodedVideoFrame :=
  mk_frame (e_bytes b) (wrapu 64 (wrapu 64 (wrapu 64 (e_tv_sec b) * 1000000) + wrapu 64 (e_tv_usec b)))
    (negb (Z.land (e_flags b) V4L2_BUF_FLAG_KEYFRAME =? 0)).

(** ** State *)

(** Where a thread is, with its locals. *)
Inductive callback_pc :=
  | CbIdle
  | CbEntered (r : nat) (c : completion)
  | CbChecked (r : nat) (c : completion)
  | CbFailing (r : nat) (e : string).
Inductive input_pc :=
  | InHead
  | InLock                                       (* about to evaluate the predicate *)
  | InEvaluated                                  (* it was false; the lock is held *)
  | InSleep
  | InHave (p : PendingCameraRequest) (index : nat)
  | InQueued (r : nat) (index : nat)             (* the encoder has the buffer, its slot is not set *)
  | InFailing (r : nat) (e : string)
  | InDone.
Inductive poll_pc :=
  | PoHead
  | PoInput
  | PoRead (index : nat)
  | PoClear (index : nat) (r : option nat)
  | PoPush (index : nat) (r : option nat)
  | PoRequeue (r : option nat)
  | PoCapture
  | PoFrame (b : encoded_buffer)
  | PoRecapture
  | PoFailing (r : option nat) (e : string)
  | PoDone.
Inductive main_pc := MRunning | MStopStored | MNotified | MCameraStopped | MInputJoined | MJoined.

Record pipeline := mk_pipeline {
  stop_requested_ : bool; fatal_error_ : option string; status_ : VideoCapturerStatus;
  pending_requests_ : list PendingCameraRequest; available_output_buffers_ : list nat;
  encoded_frames_ : list EncodedVideoFrame; output_slots_ : list (option nat);
  (* outside: requests at the camera, buffers at the encoder with the request they came with *)
  in_camera : list nat; encoding : list (nat * nat);
  callback : callback_pc; input : input_pc; poller : poll_pc; main : main_pc;
  (* history: requests that nobody will give back, frames that were encoded and delivered *)
  lost : list nat; captured : list EncodedVideoFrame; delivered : list EncodedVideoFrame }.

Definition started_pipeline (requests slots : nat) : pipeline :=
  mk_pipeline false None cStreaming [] (seq 0 slots) [] (replicate slots None) (seq 0 requests) []
    CbIdle InHead PoHead MRunning [] [] [].

Definition cp_stop (x : bool) (s : pipeline) : pipeline :=
  mk_pipeline x (fatal_error_ s) (status_ s) (pending_requests_ s) (available_output_buffers_ s) (encoded_frames_ s) (output_slots_ s) (in_camera s) (encoding s) (callback s) (input s) (poller s) (main s) (lost s) (captured s) (delivered s).
Definition cp_fatal (x : option string) (s : pipeline) : pipeline :=
  mk_pipeline (stop_requested_ s) x (status_ s) (pending_requests_ s) (available_output_buffers_ s) (encoded_frames_ s) (output_slots_ s) (in_camera s) (encoding s) (callback s) (input s) (poller s) (main s) (lost s) (captured s) (delivered s).
Definition cp_status (x : VideoCapturerStatus) (s : pipeline) : pipeline :=
  mk_pipeline (stop_requested_ s) (fatal_error_ s) x (pending_requests_ s) (available_output_buffers_ s) (encoded_frames_ s) (output_slots_ s) (in_camera s) (encoding s) (callback s) (input s) (poller s) (main s) (lost s) (captured s) (delivered s).
Definition cp_pending (x : list PendingCameraRequest) (s : pipeline) : pipeline :=
  mk_pipeline (stop_requested_ s) (fatal_error_ s) (status_ s) x (available_output_buffers_ s) (encoded_frames_ s) (output_slots_ s) (in_camera s) (encoding s) (callback s) (input s) (poller s) (main s) (lost s) (captured s) (delivered s).
Definition cp_available (x : list nat) (s : pipeline) : pipeline :=
  mk_pipeline (stop_requested_ s) (fatal_error_ s) (status_ s) (pending_requests_ s) x (encoded_frames_ s) (output_slots_ s) (in_camera s) (encoding s) (callback s) (input s) (poller s) (main s) (lost s) (captured s) (delivered s).
Definition cp_frames (x : list EncodedVideoFrame) (s : pipeline) : pipeline :=
  mk_pipeline (stop_requested_ s) (fatal_error_ s) (status_ s) (pending_requests_ s) (available_output_buffers_ s) x (output_slots_ s) (in_camera s) (encoding s) (callback s) (input s) (poller s) (main s) (lost s) (captured s) (delivered s).
Definition cp_slots (x : list (option nat)) (s : pipeline) : pipeline :=
  mk_pipeline (stop_requested_ s) (fatal_error_ s) (status_ s) (pending_requests_ s) (available_output_buffers_ s) (encoded_frames_ s) x (in_camera s) (encoding s) (callback s) (input s) (poller s) (main s) (lost s) (captured s) (delivered s).
Definition cp_in_camera (x : list nat) (s : pipeline) : pipeline :=
  mk_pipeline (stop_requested_ s) (fatal_error_ s) (status_ s) (pending_requests_ s) (available_output_buffers_ s) (encoded_frames_ s) (output_slots_ s) x (encoding s) (callback s) (input s) (poller s) (main s) (lost s) (captured s) (delivered s).
Definition cp_encoding (x : list (nat * nat)) (s : pipeline) : pipeline :=
  mk_pipeline (stop_requested_ s) (fatal_error_ s) (status_ s) (pending_requests_ s) (available_output_buffers_ s) (encoded_frames_ s) (output_slots_ s) (in_camera s) x (callback s) (input s) (poller s) (main s) (lost s) (captured s) (delivered s).
Definition cp_callback (x : callback_pc) (s : pipeline) : pipeline :=
  mk_pipeline (stop_requested_ s) (fatal_error_ s) (status_ s) (pending_requests_ s) (available_output_buffers_ s) (encoded_frames_ s) (output_slots_ s) (in_camera s) (encoding s) x (input s) (poller s) (main s) (lost s) (captured s) (delivered s).
Definition cp_input (x : input_pc) (s : pipeline) : pipeline :=
  mk_pipeline (stop_requested_ s) (fatal_error_ s) (status_ s) (pending_requests_ s) (available_output_buffers_ s) (encoded_frames_ s) (output_slots_ s) (in_camera s) (encoding s) (callback s) x (poller s) (main s) (lost s) (captured s) (delivered s).
Definition cp_poller (x : poll_pc) (s : pipeline) : pipeline :=
  mk_pipeline (stop_requested_ s) (fatal_error_ s) (status_ s) (pending_requests_ s) (available_output_buffers_ s) (encoded_frames_ s) (output_slots_ s) (in_camera s) (encoding s) (callback s) (input s) x (main s) (lost s) (captured s) (delivered s).
Definition cp_main (x : main_pc) (s : pipeline) : pipeline :=
  mk_pipeline (stop_requested_ s) (fatal_error_ s) (status_ s) (pending_requests_ s) (available_output_buffers_ s) (encoded_frames_ s) (output_slots_ s) (in_camera s) (encoding s) (callback s) (input s) (poller s) x (lost s) (captured s) (delivered s).
Definition cp_lost (x : list nat) (s : pipeline) : pipeline :=
  mk_pipeline (stop_requested_ s) (fatal_error_ s) (status_ s) (pending_requests_ s) (available_output_buffers_ s) (encoded_frames_ s) (output_slots_ s) (in_camera s) (encoding s) (callback s) (input s) (poller s) (main s) x (captured s) (delivered s).
Definition cp_captured (x : list EncodedVideoFrame) (s : pipeline) : pipeline :=
  mk_pipeline (stop_requested_ s) (fatal_error_ s) (status_ s) (pending_requests_ s) (available_output_buffers_ s) (encoded_frames_ s) (output_slots_ s) (in_camera s) (encoding s) (callback s) (input s) (poller s) (main s) (lost s) x (delivered s).
Definition cp_delivered (x : list EncodedVideoFrame) (s : pipeline) : pipeline :=
  mk_pipeline (stop_requested_ s) (fatal_error_ s) (status_ s) (pending_requests_ s) (available_output_buffers_ s) (encoded_frames_ s) (output_slots_ s) (in_camera s) (encoding s) (callback s) (input s) (poller s) (main s) (lost s) (captured s) x.

(** ** Sections of the code *)

Definition lose (r : option nat) (s : pipeline) : pipeline := cp_lost (option_list r ++ lost s) s.

(** [pending_ready_.notify_all()]: only the input thread waits there. *)
Definition wake (s : pipeline) : pipeline :=
  match input s with InSleep => cp_input InLock s | _ => s end.

Definition SetFatalError (message : string) (s : pipeline) : pipeline :=
  match fatal_error_ s with
  | Some _ => s
  | None => wake (cp_status cError (cp_stop true (cp_fatal (Some message) s)))
  end.

Definition GetFrame (s : pipeline) : (string + option EncodedVideoFrame) * pipeline :=
  match fatal_error_ s, encoded_frames_ s with
  | Some e, _ => (inl e, s)
  | None, [] => (inr None, s)
  | None, frame :: frames => (inr (Some frame), cp_delivered (delivered s ++ [frame]) (cp_frames frames s))
  end.

(** [OnRequestCompleted]: the test of the flag, and what follows; [requeued] is the answer
    of [queueRequest]. *)
Definition callback_check (r : nat) (c : completion) (s : pipeline) : pipeline :=
  if stop_requested_ s then cp_callback CbIdle (lose (Some r) s) else cp_callback (CbChecked r c) s.
Definition callback_section (requeued : bool) (r : nat) (c : completion) (s : pipeline) : pipeline :=
  match c with
  | RequestCancelled => cp_callback (CbFailing r "libcamera request was cancelled") s
  | WithoutStream => cp_callback (CbFailing r "completed libcamera request did not include the video stream") s
  | NullBuffer => cp_callback (CbFailing r "completed libcamera request returned a null buffer") s
  | FrameSkipped =>
      if requeued then cp_callback CbIdle (cp_in_camera (in_camera s ++ [r]) s)
      else cp_callback (CbFailing r "failed to requeue libcamera request after a skipped frame") s
  | FrameSuccess buffer sensor_timestamp buffer_timestamp =>
      wake (cp_callback CbIdle (cp_pending
        (pending_requests_ s ++ [mk_pending r buffer (pending_timestamp sensor_timestamp buffer_timestamp)]) s))
  end.

(** The critical section of [EncoderInputLoop]. *)
Definition input_predicate (s : pipeline) : bool :=
  stop_requested_ s || bool_decide (is_Some (fatal_error_ s)) ||
  (negb (Nat.eqb (length (pending_requests_ s)) 0) && negb (Nat.eqb (length (available_output_buffers_ s)) 0)).
Definition input_section (s : pipeline) : pipeline :=
  if negb (input_predicate s) then cp_input InEvaluated s else
  if stop_requested_ s || bool_decide (is_Some (fatal_error_ s)) then cp_input InDone s else
  match pending_requests_ s, available_output_buffers_ s with
  | p :: pending, i :: available => cp_input (InHave p i) (cp_pending pending (cp_available available s))
  | _, _ => s
  end.

(** The slots that hold a request of their own: not the one that the poller has read and
    not cleared yet. *)
Definition owned_slots (s : pipeline) : list (option nat) :=
  match poller s with
  | PoClear i r => if decide (output_slots_ s !! i = Some r) then <[i := None]> (output_slots_ s) else output_slots_ s
  | _ => output_slots_ s
  end.
Definition overwritten (i : nat) (s : pipeline) : option nat := default None (owned_slots s !! i).

(** [QueueEncoderInput]: the import, the call of the driver ([queued] is its answer), and
    then the slot. *)
Definition queue_input (queued : bool) (p : PendingCameraRequest) (i : nat) (s : pipeline) : pipeline :=
  match ImportedDmabufSpan (p_buffer p) with
  | inl e => cp_input (InFailing (p_request p) e) s
  | inr _ =>
      if queued then cp_input (InQueued (p_request p) i) (cp_encoding ((i, p_request p) :: encoding s) s)
      else cp_input (InFailing (p_request p) "failed to queue libcamera buffer into the H.264 encoder") s
  end.
Definition store_slot (r i : nat) (s : pipeline) : pipeline :=
  cp_input InHead (cp_slots (<[i := Some r]> (output_slots_ s)) (lose (overwritten i s) s)).

(** [EncoderPollLoop]. *)
Inductive poll_outcome := PollInterrupted | PollFailed | PollTimeout | PollError | PollReady.
Definition poll_head (o : poll_outcome) (s : pipeline) : pipeline :=
  if stop_requested_ s then cp_poller PoDone s else
  match o with
  | PollInterrupted | PollTimeout => s
  | PollFailed => cp_poller (PoFailing None "failed to poll the H.264 encoder") s
  | PollError => cp_poller (PoFailing None "the H.264 encoder reported a poll error") s
  | PollReady => cp_poller PoInput s
  end.

(** [DrainEncoderInputCompletions]. *)
Definition read_slot (i : nat) (s : pipeline) : pipeline :=
  match output_slots_ s !! i with
  | Some r => cp_poller (PoClear i r) s
  | None => cp_poller (PoFailing None "vector::_M_range_check") s
  end.
Definition clear_slot (i : nat) (r : option nat) (s : pipeline) : pipeline :=
  cp_poller (PoPush i r) (cp_slots (<[i := None]> (output_slots_ s)) (lose (overwritten i s) s)).
Definition push_available (i : nat) (r : option nat) (s : pipeline) : pipeline :=
  wake (cp_poller (PoRequeue r) (cp_available (available_output_buffers_ s ++ [i]) s)).
Definition requeue (queued : bool) (r : option nat) (s : pipeline) : pipeline :=
  match r with
  | None => cp_poller PoInput s
  | Some id =>
      if stop_requested_ s then cp_poller PoInput (lose r s)
      else if queued then cp_poller PoInput (cp_in_camera (in_camera s ++ [id]) s)
      else cp_poller (PoFailing r "failed to requeue libcamera request after encoding") s
  end.

(** [DrainEncoderCapture]. *)
Definition push_frame (b : encoded_buffer) (s : pipeline) : pipeline :=
  cp_poller PoRecapture (cp_captured (captured s ++ [frame_of b]) (cp_frames (encoded_frames_ s ++ [frame_of b]) s)).

(** ** Every interleaving

    With [ordered] the encoder completes a buffer only after its slot was set; the code
    does not see to that. *)

Definition unlocked (s : pipeline) : Prop := input s ≠ InEvaluated.
Definition camera_running (s : pipeline) : bool :=
  match main s with MRunning | MStopStored | MNotified => true | _ => false end.

Inductive step (ordered : bool) : pipeline → pipeline → Prop :=
  | st_complete r c l1 l2 s : callback s = CbIdle → camera_running s = true → in_camera s = l1 ++ r :: l2 →
      step ordered s (cp_callback (CbEntered r c) (cp_in_camera (l1 ++ l2) s))
  | st_callback_check r c s : callback s = CbEntered r c → step ordered s (callback_check r c s)
  | st_callback r c requeued s : callback s = CbChecked r c → unlocked s → step ordered s (callback_section requeued r c s)
  | st_callback_fail r e s : callback s = CbFailing r e → unlocked s →
      step ordered s (cp_callback CbIdle (lose (Some r) (SetFatalError e s)))
  | st_input_head s : input s = InHead → step ordered s (cp_input (if stop_requested_ s then InDone else InLock) s)
  | st_input_section s : input s = InLock → step ordered s (input_section s)
  | st_input_sleep s : input s = InEvaluated → step ordered s (cp_input InSleep s)
  | st_input_spurious s : input s = InSleep → step ordered s (cp_input InLock s)
  | st_input_queue p i queued s : input s = InHave p i → step ordered s (queue_input queued p i s)
  | st_input_slot r i s : input s = InQueued r i → step ordered s (store_slot r i s)
  | st_input_fail r e s : input s = InFailing r e → step ordered s (cp_input InDone (lose (Some r) (SetFatalError e s)))
  | st_poll_head o s : poller s = PoHead → step ordered s (poll_head o s)
  | st_poll_again s : poller s = PoInput → step ordered s (cp_poller PoCapture s)
  | st_poll_input_error s : poller s = PoInput →
      step ordered s (cp_poller (PoFailing None "failed to dequeue completed encoder input buffer") s)
  | st_poll_dequeue i r l1 l2 s : poller s = PoInput → encoding s = l1 ++ (i, r) :: l2 →
      (ordered = true → input s ≠ InQueued r i) →
      step ordered s (cp_poller (PoRead i) (cp_encoding (l1 ++ l2) s))
  | st_poll_read i s : poller s = PoRead i → step ordered s (read_slot i s)
  | st_poll_clear i r s : poller s = PoClear i r → step ordered s (clear_slot i r s)
  | st_poll_push i r s : poller s = PoPush i r → unlocked s → step ordered s (push_available i r s)
  | st_poll_requeue r queued s : poller s = PoRequeue r → step ordered s (requeue queued r s)
  | st_capture_again s : poller s = PoCapture → step ordered s (cp_poller PoHead s)
  | st_capture_error s : poller s = PoCapture →
      step ordered s (cp_poller (PoFailing None "failed to dequeue encoder capture buffer") s)
  | st_capture_frame b s : poller s = PoCapture → step ordered s (cp_poller (PoFrame b) s)
  | st_push_frame b s : poller s = PoFrame b → unlocked s → step ordered s (push_frame b s)
  | st_recapture (queued : bool) s : poller s = PoRecapture →
      step ordered s (cp_poller (if queued then PoCapture else PoFailing None "failed to requeue encoder capture buffer") s)
  | st_poll_fail r e s : poller s = PoFailing r e → unlocked s →
      step ordered s (cp_poller PoDone (lose r (SetFatalError e s)))
  | st_get_frame s : main s = MRunning → unlocked s → step ordered s (GetFrame s).2
  | st_stop s : main s = MRunning → step ordered s (cp_main MStopStored (cp_stop true s))
  | st_notify s : main s = MStopStored → step ordered s (cp_main MNotified (wake s))
  | st_camera_stop s : main s = MNotified → callback s = CbIdle → step ordered s (cp_main MCameraStopped s)
  | st_join_input s : main s = MCameraStopped → input s = InDone → step ordered s (cp_main MInputJoined s)
  | st_join_poll s : main s = MInputJoined → poller s = PoDone → step ordered s (cp_main MJoined s).

Definition reachable (ordered : bool) (requests slots : nat) : pipeline → Prop :=
  rtc (step ordered) (started_pipeline requests slots).

(** ** Where the requests and the output buffers are *)

Definition callback_holds (c : callback_pc) : list nat :=
  match c with CbIdle => [] | CbEntered r _ | CbChecked r _ | CbFailing r _ => [r] end.
Definition input_holds (i : input_pc) : list nat :=
  match i with InHave p _ => [p_request p] | InQueued r _ | InFailing r _ => [r] | _ => [] end.
Definition poll_holds (p : poll_pc) : list nat :=
  match p with PoClear _ r | PoPush _ r | PoRequeue r | PoFailing r _ => option_list r | _ => [] end.
Definition input_index (i : input_pc) : list nat :=
  match i with InHave _ i => [i] | _ => [] end.
Definition poll_index (p : poll_pc) : list nat :=
  match p with PoRead i | PoClear i _ | PoPush i _ => [i] | _ => [] end.

Definition requests_at (s : pipeline) : list nat :=
  in_camera s ++ callback_holds (callback s) ++ (p_request <$> pending_requests_ s) ++ input_holds (input s) ++
  omap (λ r, r) (owned_slots s) ++ poll_holds (poller s) ++ lost s.
Definition indices_at (s : pipeline) : list nat :=
  available_output_buffers_ s ++ input_index (input s) ++ (encoding s).*1 ++ poll_index (poller s).

Section Invariant.
Context (ordered : bool) (n m : nat).

Record pipeline_ok (s : pipeline) : Prop := {
  ok_requests : requests_at s ≡ₚ seq 0 n;
  ok_indices : indices_at s ⊆+ seq 0 m;
  ok_slots : length (output_slots_ s) = m;
  ok_encoding : ∀ i r, (i, r) ∈ encoding s → input s = InQueued r i ∨ owned_slots s !! i = Some (Some r);
  ok_queued : ∀ r i, input s = InQueued r i → (i < m)%nat ∧ ∀ q, (i, q) ∈ encoding s → q = r;
  ok_stop : is_Some (fatal_error_ s) → stop_requested_ s = true;
  ok_frames : delivered s ++ encoded_frames_ s = captured s }.

(** A slot that changes its request. *)
Lemma slots_insert (l : list (option nat)) i x y : l !! i = Some y →
  option_list y ++ omap (λ r, r) (<[i := x]> l) ≡ₚ option_list x ++ omap (λ r, r) l.
Proof.
  revert i. induction l as [|z l IH]; intros [|i] Hi; [done|done| |].
  - injection Hi as ->. cbn. destruct x, y; cbn; solve_Permutation.
  - specialize (IH i Hi). destruct z as [r|]; cbn; [|done].
    rewrite <- !Permutation_middle. by rewrite IH.
Qed.

Lemma owned_length s : length (owned_slots s) = length (output_slots_ s).
Proof. unfold owned_slots. destruct (poller s); try done. case_decide; [apply length_insert|done]. Qed.

Lemma owned_store s r i : (∀ j, poller s ≠ PoClear j (Some r)) →
  owned_slots (store_slot r i s) = <[i := Some r]> (owned_slots s).
Proof.
  intros Hn. unfold owned_slots, store_slot. cbn. destruct (poller s) as [| | |j q| | | | | | |]; try done.
  destruct (decide (i = j)) as [->|Hij].
  - destruct (decide (output_slots_ s !! j = Some q)) as [Hq|Hq].
    + rewrite decide_False.
      * by rewrite list_insert_insert_eq.
      * rewrite list_lookup_insert_eq by (by eapply lookup_lt_Some). intros [= <-]. by apply (Hn j).
    + destruct (decide (j < length (output_slots_ s))%nat) as [Hl|Hl].
      * rewrite decide_False; [done|]. rewrite list_lookup_insert_eq by done. intros [= <-]. by apply (Hn j).
      * rewrite list_insert_ge by lia. by rewrite decide_False.
  - rewrite list_lookup_insert_ne by done. case_decide; [|done]. by rewrite list_insert_insert_ne.
Qed.

Lemma owned_lookup s i : owned_slots s !! i = Some (overwritten i s) ∨ (length (output_slots_ s) ≤ i)%nat.
Proof.
  unfold overwritten. destruct (owned_slots s !! i) eqn:E; [by left|]. right. rewrite <- owned_length. by apply lookup_ge_None.
Qed.

(** What a step keeps when it leaves the slots alone. *)
Record kept (s s' : pipeline) : Prop := {
  k_requests : requests_at s' ≡ₚ requests_at s;
  k_indices : indices_at s' ⊆+ indices_at s;
  k_slots : output_slots_ s' = output_slots_ s;
  k_owned : owned_slots s' = owned_slots s;
  k_encoding : ∀ x, x ∈ encoding s' → x ∈ encoding s;
  k_queued : ∀ r i, input s = InQueued r i ↔ input s' = InQueued r i;
  k_stop : fatal_error_ s' = fatal_error_ s ∧ (stop_requested_ s = true → stop_requested_ s' = true) ∨ stop_requested_ s' = true;
  k_frames : delivered s ++ encoded_frames_ s = captured s → delivered s' ++ encoded_frames_ s' = captured s' }.

Lemma kept_ok s s' : kept s s' → pipeline_ok s → pipeline_ok s'.
Proof.
  intros [K1 K2 K3 K4 K5 K6 K7 K8] [H1 H2 H3 H4 H5 H6 H7]. constructor.
  - by rewrite K1.
  - by rewrite K2.
  - by rewrite K3.
  - intros i r Hin. rewrite K4, <- K6. by apply H4, K5.
  - intros r i Hi. apply K6 in Hi. destruct (H5 _ _ Hi) as [? Hq]. split; [done|]. intros q Hin. by apply Hq, K5.
  - destruct K7 as [[-> K7]|K7]; auto.
  - auto.
Qed.

Ltac kept_solve :=
  constructor; unfold requests_at, indices_at, owned_slots; cbn;
  repeat match goal with H : callback _ = _ |- _ => rewrite H | H : input _ = _ |- _ => rewrite H | H : poller _ = _ |- _ => rewrite H
    | H : in_camera _ = _ |- _ => rewrite H | H : encoding _ = _ |- _ => rewrite H end; cbn;
  rewrite ?fmap_app; cbn; try done; try solve_Permutation; try solve_submseteq; try (by intros ?; set_unfold; naive_solver); try (by left); try (by right); try (by intros; split; congruence).

Lemma submseteq_seq_nodup (l : list nat) k : l ⊆+ seq 0 k → NoDup l.
Proof. intros [l' Hp]%submseteq_Permutation. eapply (NoDup_app l l'). rewrite <- Hp. apply NoDup_seq. Qed.

Lemma wake_kept s : kept s (wake s).
Proof. unfold wake. destruct (input s) eqn:E; kept_solve. Qed.

Lemma fatal_ok e s : pipeline_ok s → pipeline_ok (SetFatalError e s).
Proof.
  intros H. unfold SetFatalError. destruct (fatal_error_ s) eqn:E; [done|]. eapply kept_ok; [apply wake_kept|].
  eapply kept_ok; [|exact H]. kept_solve.
Qed.

Lemma fatal_pcs e s : callback (SetFatalError e s) = callback s ∧ poller (SetFatalError e s) = poller s ∧
  (input s ≠ InSleep → input (SetFatalError e s) = input s).
Proof. unfold SetFatalError, wake. cbn. destruct (fatal_error_ s); [done|]. by destruct (input s) eqn:E; cbn; split_and!; intros; rewrite ?E. Qed.

Lemma callback_ok r c requeued s : callback s = CbChecked r c → pipeline_ok s → pipeline_ok (callback_section requeued r c s).
Proof.
  intros Hc H. destruct c; cbn; try solve [eapply kept_ok; [|exact H]; kept_solve].
  - destruct requeued; (eapply kept_ok; [|exact H]; kept_solve).
  - eapply kept_ok; [apply wake_kept|]. eapply kept_ok; [|exact H]. kept_solve.
Qed.

(** A thread that fails keeps its request to the end. *)
Lemma callback_fail_ok r e s : callback s = CbFailing r e → pipeline_ok s →
  pipeline_ok (cp_callback CbIdle (lose (Some r) (SetFatalError e s))).
Proof.
  intros Hc H. destruct (fatal_pcs e s) as (Hc' & _). rewrite <- Hc' in Hc. clear Hc'.
  eapply kept_ok; [|apply fatal_ok, H]. kept_solve.
Qed.
Lemma input_fail_ok r e s : input s = InFailing r e → pipeline_ok s →
  pipeline_ok (cp_input InDone (lose (Some r) (SetFatalError e s))).
Proof.
  intros Hc H. destruct (fatal_pcs e s) as (_ & _ & Hc'). rewrite <- Hc' in Hc by congruence. clear Hc'.
  eapply kept_ok; [|apply fatal_ok, H]. kept_solve.
Qed.
Lemma poll_fail_ok r e s : poller s = PoFailing r e → pipeline_ok s →
  pipeline_ok (cp_poller PoDone (lose r (SetFatalError e s))).
Proof.
  intros Hc H. destruct (fatal_pcs e s) as (_ & Hc' & _). rewrite <- Hc' in Hc. clear Hc'.
  eapply kept_ok; [|apply fatal_ok, H]. kept_solve.
Qed.

Lemma input_section_ok s : input s = InLock → pipeline_ok s → pipeline_ok (input_section s).
Proof.
  intros Hi H. unfold input_section. eapply kept_ok; [|exact H].
  destruct (input_predicate s); cbn; [|kept_solve]. destruct (_ || _); [kept_solve|].
  destruct (pending_requests_ s) as [|p ps] eqn:Ep; [kept_solve|].
  destruct (available_output_buffers_ s) as [|i av] eqn:Ea; [kept_solve|].
  kept_solve; rewrite ?Ep, ?Ea; cbn; solve_Permutation || solve_submseteq.
Qed.

Lemma queue_input_ok queued p i s : input s = InHave p i → pipeline_ok s → pipeline_ok (queue_input queued p i s).
Proof.
  intros Hi H. unfold queue_input. destruct (ImportedDmabufSpan _); [eapply kept_ok; [|exact H]; kept_solve|].
  destruct queued; [|eapply kept_ok; [|exact H]; kept_solve]. destruct H as [H1 H2 H3 H4 H5 H6 H7].
  constructor; try done.
  - rewrite <- H1. unfold requests_at, owned_slots. cbn. rewrite Hi. done.
  - rewrite <- H2. unfold indices_at. cbn. rewrite Hi. cbn. solve_submseteq.
  - intros j r Hin. cbn in *. apply elem_of_cons in Hin as [[= -> ->]|Hin]; [by left|]. right.
    destruct (H4 _ _ Hin) as [Hq|Hq]; [congruence|done].
  - intros r j [= <- <-]. assert (Hin : i ∈ indices_at s) by (unfold indices_at; rewrite Hi, !elem_of_app; right; left; by left). split.
    + eapply elem_of_submseteq in Hin; [|exact H2]. apply elem_of_seq in Hin. lia.
    + intros q [[=]|Hq]%elem_of_cons; [done|]. exfalso.
      assert (Hnd : NoDup (indices_at s)) by (by eapply submseteq_seq_nodup).
      revert Hnd. unfold indices_at. rewrite Hi. cbn. intros (_ & _ & Hnd)%NoDup_app. apply NoDup_cons in Hnd as [Hnd _].
      apply Hnd. rewrite elem_of_app. left. by apply (list_elem_of_fmap_2 fst) in Hq.
Qed.

Lemma indices_nodup s : pipeline_ok s → NoDup (indices_at s).
Proof. intros H. eapply submseteq_seq_nodup, ok_indices, H. Qed.
Lemma requests_nodup s : pipeline_ok s → NoDup (requests_at s).
Proof. intros H. rewrite (ok_requests _ H). apply NoDup_seq. Qed.
Lemma index_bound s i : pipeline_ok s → i ∈ indices_at s → (i < length (output_slots_ s))%nat.
Proof. intros H Hi. eapply elem_of_submseteq in Hi; [|apply ok_indices, H]. apply elem_of_seq in Hi. rewrite (ok_slots _ H). lia. Qed.

(** A buffer that the poller holds is not at the encoder. *)
Lemma polled_not_encoding s i r : pipeline_ok s → i ∈ poll_index (poller s) → (i, r) ∈ encoding s → False.
Proof.
  intros H Hi Hin. pose proof (indices_nodup s H) as Hnd. do 2 apply NoDup_app in Hnd as (_ & _ & Hnd).
  apply NoDup_app in Hnd as (_ & Hd & _). apply (Hd i); [|done]. by apply (list_elem_of_fmap_2 fst) in Hin.
Qed.

Lemma store_slot_ok r i s : input s = InQueued r i → pipeline_ok s → pipeline_ok (store_slot r i s).
Proof.
  intros Hi H. pose proof (requests_nodup s H) as Hnd. pose proof H as [H1 H2 H3 H4 H5 H6 H7].
  assert (Hp : ∀ j, poller s ≠ PoClear j (Some r)).
  { intros j Hp. revert Hnd. unfold requests_at. rewrite Hi, Hp. cbn. intros Hnd. do 3 apply NoDup_app in Hnd as (_ & _ & Hnd).
    apply NoDup_cons in Hnd as [Hnd _]. apply Hnd. rewrite elem_of_app. right. left. }
  assert (Hl : owned_slots s !! i = Some (overwritten i s)).
  { destruct (owned_lookup s i) as [|Hl]; [done|]. destruct (H5 _ _ Hi) as [? _]. lia. }
  constructor; try done.
  - rewrite <- H1. unfold requests_at. rewrite (owned_store s r i Hp). cbn. rewrite Hi. cbn.
    pose proof (slots_insert (owned_slots s) i (Some r) _ Hl) as Hs. cbn in Hs.
    transitivity (in_camera s ++ callback_holds (callback s) ++ (p_request <$> pending_requests_ s) ++
      (option_list (overwritten i s) ++ omap (λ r0, r0) (<[i := Some r]> (owned_slots s))) ++ poll_holds (poller s) ++ lost s);
      [solve_Permutation|rewrite Hs; solve_Permutation].
  - rewrite <- H2. unfold indices_at. cbn. by rewrite Hi.
  - cbn. by rewrite length_insert.
  - intros j q Hin. right. rewrite (owned_store s r i Hp). cbn in Hin. destruct (H4 _ _ Hin) as [Hq|Hq].
    + rewrite Hi in Hq. injection Hq as <- <-. apply list_lookup_insert_eq. by eapply lookup_lt_Some.
    + destruct (decide (i = j)) as [<-|Hne]; [|by rewrite list_lookup_insert_ne].
      destruct (H5 _ _ Hi) as [_ Hr]. rewrite (Hr q Hin). apply list_lookup_insert_eq. by eapply lookup_lt_Some.
Qed.

(** The poller takes the request out of a slot in two steps. *)
Lemma dequeue_ok i r l1 l2 s : poller s = PoInput → encoding s = l1 ++ (i, r) :: l2 → pipeline_ok s →
  pipeline_ok (cp_poller (PoRead i) (cp_encoding (l1 ++ l2) s)).
Proof. intros Hp He H. eapply kept_ok; [|exact H]. kept_solve. Qed.

Lemma read_slot_ok i s : poller s = PoRead i → pipeline_ok s → pipeline_ok (read_slot i s).
Proof.
  intros Hp H. pose proof H as [H1 H2 H3 H4 H5 H6 H7].
  assert (Hi : i ∈ indices_at s) by (unfold indices_at; rewrite Hp, !elem_of_app; right; right; right; by left).
  destruct (lookup_lt_is_Some_2 (output_slots_ s) i) as [r Hr]; [by apply index_bound|].
  assert (Ho : owned_slots s = output_slots_ s) by (unfold owned_slots; by rewrite Hp).
  unfold read_slot. rewrite Hr.
  assert (Ho' : owned_slots (cp_poller (PoClear i r) s) = <[i := None]> (owned_slots s)).
  { rewrite Ho. unfold owned_slots. cbn. by rewrite decide_True. }
  constructor; try done.
  - rewrite <- H1. unfold requests_at. rewrite Ho'. cbn. rewrite Hp. cbn.
    rewrite <- (slots_insert (owned_slots s) i None r) by (by rewrite Ho). cbn. solve_Permutation.
  - rewrite <- H2. unfold indices_at. cbn. by rewrite Hp.
  - intros j q Hin. cbn in Hin. destruct (H4 _ _ Hin) as [Hq|Hq]; [by left|]. right. rewrite Ho', list_lookup_insert_ne; [done|].
    intros <-. by eapply polled_not_encoding; [done|by rewrite Hp; left|].
Qed.

Lemma clear_slot_ok i r s : poller s = PoClear i r → pipeline_ok s → pipeline_ok (clear_slot i r s).
Proof.
  intros Hp H. pose proof H as [H1 H2 H3 H4 H5 H6 H7].
  assert (Hi : i ∈ indices_at s) by (unfold indices_at; rewrite Hp, !elem_of_app; right; right; right; by left).
  assert (Hl : owned_slots s !! i = Some (overwritten i s)).
  { destruct (owned_lookup s i) as [|Hl]; [done|]. apply index_bound in Hi; [lia|done]. }
  assert (Ho : owned_slots (clear_slot i r s) = <[i := None]> (owned_slots s)).
  { unfold owned_slots. cbn. rewrite Hp. case_decide; [|done]. by rewrite list_insert_insert_eq. }
  constructor; try done.
  - rewrite <- H1. unfold requests_at. rewrite Ho. cbn. rewrite Hp. cbn.
    rewrite <- (slots_insert (owned_slots s) i None _ Hl). cbn. solve_Permutation.
  - rewrite <- H2. unfold indices_at. cbn. by rewrite Hp.
  - cbn. by rewrite length_insert.
  - intros j q Hin. cbn in Hin. destruct (H4 _ _ Hin) as [Hq|Hq]; [by left|]. right. rewrite Ho, list_lookup_insert_ne; [done|].
    intros <-. by eapply polled_not_encoding; [done|by rewrite Hp; left|].
Qed.

Lemma get_frame_ok s : pipeline_ok s → pipeline_ok (GetFrame s).2.
Proof.
  intros H. eapply kept_ok; [|exact H]. unfold GetFrame. destruct (fatal_error_ s) eqn:Ef; [kept_solve|].
  destruct (encoded_frames_ s) as [|f fs] eqn:Ee; [kept_solve|]. kept_solve. rewrite Ee. intros <-. by rewrite <- app_assoc.
Qed.

Lemma pipeline_step_ok s s' : step ordered s s' → pipeline_ok s → pipeline_ok s'.
Proof.
  intros Hs H. destruct Hs; try solve [eapply kept_ok; [|exact H]; kept_solve].
  all: eauto using callback_ok, callback_fail_ok, input_fail_ok, poll_fail_ok, input_section_ok, queue_input_ok, store_slot_ok,
    dequeue_ok, read_slot_ok, clear_slot_ok, get_frame_ok.
  all: eapply kept_ok; [|exact H].
  - unfold callback_check. destruct (stop_requested_ s); kept_solve.
  - destruct (stop_requested_ s); kept_solve.
  - unfold poll_head. destruct (stop_requested_ s); [kept_solve|]. destruct o; kept_solve.
  - unfold push_available, wake. cbn. destruct (input s) eqn:Ei; kept_solve.
  - unfold requeue. destruct r as [r|]; [|kept_solve]. destruct (stop_requested_ s); [kept_solve|]. destruct queued; kept_solve.
  - kept_solve. intros <-. by rewrite app_assoc.
  - destruct queued; kept_solve.
  - unfold wake. destruct (input s) eqn:Ei; kept_solve.
Qed.

(** The camera does not have a buffer that the encoder reads. *)
Lemma encoding_apart s i r : pipeline_ok s → (i, r) ∈ encoding s → r ∉ in_camera s ∧ r ∉ p_request <$> pending_requests_ s.
Proof.
  intros H Hin. pose proof (requests_nodup s H) as Hnd.
  assert (Hr : r ∈ input_holds (input s) ++ omap (λ r, r) (owned_slots s)).
  { rewrite elem_of_app. destruct (ok_encoding _ H _ _ Hin) as [->|Hs]; [left; by left|right].
    apply list_elem_of_omap. exists (Some r). split; [by eapply list_elem_of_lookup_2|done]. }
  revert Hnd. unfold requests_at. rewrite (app_assoc (input_holds _)). intros Hnd. split.
  - apply NoDup_app in Hnd as (_ & Hd & _). intros Hc. apply (Hd r Hc). apply elem_of_app. right. apply elem_of_app. right. apply elem_of_app. by left.
  - do 2 apply NoDup_app in Hnd as (_ & _ & Hnd). apply NoDup_app in Hnd as (_ & Hd & _). intros Hc. apply (Hd r Hc). rewrite elem_of_app. by left.
Qed.

Lemma started_ok : pipeline_ok (started_pipeline n m).
Proof.
  constructor; cbn; try done.
  - unfold requests_at, owned_slots. cbn. rewrite app_nil_r. replace (omap _ _) with (@nil nat); [by rewrite app_nil_r|].
    clear. by induction m.
  - unfold indices_at. cbn. by rewrite app_nil_r.
  - by rewrite length_replicate.
  - by intros i r ?%elem_of_nil.
Qed.

Lemma pipeline_reachable_ok s : reachable ordered n m s → pipeline_ok s.
Proof.
  intros Hr. pose proof started_ok as H0. unfold reachable in Hr. revert H0. induction Hr; [done|]. eauto using pipeline_step_ok.
Qed.
End Invariant.

(** C18: In every interleaving of the libcamera callback, the encoder's input and poll
    threads, the reader of frames and Stop, every request is in exactly one place (the
    camera, a queue, a thread, a slot of the encoder, or given up), the indices of the
    encoder's input buffers that are free, at the encoder or in a thread are distinct
    and in range, the frames that are delivered and waiting are exactly the encoded
    ones, in order, and while an error is recorded a stop is requested. *)
Theorem capture_requests_safe requests slots s : reachable false requests slots s →
  requests_at s ≡ₚ seq 0 requests ∧ indices_at s ⊆+ seq 0 slots ∧
  (∀ i r, (i, r) ∈ encoding s → r ∉ in_camera s ∧ r ∉ p_request <$> pending_requests_ s) ∧
  (∀ i, poller s = PoRead i → is_Some (output_slots_ s !! i)) ∧
  delivered s ++ encoded_frames_ s = captured s ∧
  (is_Some (fatal_error_ s) → stop_requested_ s = true).
Proof.
  intros Hr. pose proof (pipeline_reachable_ok _ _ _ _ Hr) as H. split_and!; try apply H.
  - intros i r. by eapply encoding_apart.
  - intros i Hp. apply lookup_lt_is_Some_2. eapply index_bound; [exact H|].
    unfold indices_at. rewrite Hp, !elem_of_app. right; right; right. by left.
Qed.

(** ** When the slot is set in time *)

Record in_order (s : pipeline) : Prop := {
  o_free : ∀ i, i ∈ available_output_buffers_ s ++ input_index (input s) → output_slots_ s !! i = Some None;
  o_queued : ∀ r i, input s = InQueued r i → output_slots_ s !! i = Some None ∧ (i, r) ∈ encoding s;
  o_push : ∀ i r, poller s = PoPush i r → output_slots_ s !! i = Some None;
  o_clear : ∀ i r, poller s = PoClear i r → output_slots_ s !! i = Some r;
  o_lost : stop_requested_ s = false → lost s = [] }.

Section Ordered.
Context (n m : nat).

(** A step that leaves slots and encoder alone. *)
Lemma order_frame s s' : output_slots_ s' = output_slots_ s → encoding s' = encoding s →
  (∀ i, i ∈ available_output_buffers_ s' ++ input_index (input s') → i ∈ available_output_buffers_ s ++ input_index (input s)) →
  (∀ r i, input s' = InQueued r i → input s = InQueued r i) →
  poller s' = poller s ∨ poll_index (poller s') = [] →
  (stop_requested_ s' = false → stop_requested_ s = false ∧ lost s' = lost s) → in_order s → in_order s'.
Proof.
  intros Hs He Ha Hi Hp Hl [O1 O2 O3 O4 O5]. constructor; rewrite ?Hs, ?He; auto.
  - destruct Hp as [->|Hp]; [done|]. intros i r E. by rewrite E in Hp.
  - destruct Hp as [->|Hp]; [done|]. intros i r E. by rewrite E in Hp.
  - intros Hst. destruct (Hl Hst) as [? ->]. auto.
Qed.

Ltac frame_solve :=
  cbn; repeat match goal with H : input _ = _ |- _ => rewrite H | H : poller _ = _ |- _ => rewrite H end; cbn;
  rewrite ?app_nil_r; try done; try (by left); try (by right); try (by intros; congruence); try (by intros ? ?; apply elem_of_app; left).

Lemma wake_order s : in_order s → in_order (wake s).
Proof. unfold wake. destruct (input s) eqn:E; try done. intros H. eapply order_frame; [..|exact H]; frame_solve. Qed.

Lemma fatal_order e s : pipeline_ok n m s → in_order s → in_order (SetFatalError e s) ∧ stop_requested_ (SetFatalError e s) = true.
Proof.
  intros Hok H. unfold SetFatalError. destruct (fatal_error_ s) eqn:E; [split; [done|]; apply (ok_stop _ _ _ Hok); by rewrite E|]. split.
  - apply wake_order. eapply order_frame; [..|exact H]; frame_solve.
  - unfold wake. cbn. by destruct (input s).
Qed.

Lemma fail_order e r s s' : pipeline_ok n m s → in_order s →
  output_slots_ s' = output_slots_ (SetFatalError e s) → encoding s' = encoding (SetFatalError e s) →
  available_output_buffers_ s' = available_output_buffers_ (SetFatalError e s) →
  input s' = input (SetFatalError e s) ∨ input s' = InDone → poller s' = poller (SetFatalError e s) ∨ poller s' = PoDone →
  stop_requested_ s' = stop_requested_ (SetFatalError e s) → lost s' = r ++ lost (SetFatalError e s) → in_order s'.
Proof.
  intros Hok H Hs He Ha Hi Hp Hst Hl. destruct (fatal_order e s Hok H) as [Hf Ht].
  eapply order_frame; [done|done| | | | |exact Hf].
  - rewrite Ha. destruct Hi as [-> | ->]; [done|]. cbn. intros i. rewrite app_nil_r, elem_of_app. by left.
  - intros q i E. destruct Hi as [<-|Hi]; [done|congruence].
  - destruct Hp as [-> | ->]; [by left|by right].
  - rewrite Hst, Ht. done.
Qed.

(** The index that a thread holds is not at another place. *)
Lemma queued_index s r i : pipeline_ok n m s → in_order s → input s = InQueued r i →
  i ∉ available_output_buffers_ s ∧ i ∉ poll_index (poller s).
Proof.
  intros Hok Ho Hi. destruct (o_queued _ Ho _ _ Hi) as [_ Hin]. split.
  - intros Ha. pose proof (indices_nodup _ _ _ Hok) as Hnd. apply NoDup_app in Hnd as (_ & Hd & _). apply (Hd i Ha).
    rewrite !elem_of_app. right. left. by apply (list_elem_of_fmap_2 fst) in Hin.
  - intros Hp. by eapply polled_not_encoding.
Qed.

Lemma polled_index s i : pipeline_ok n m s → i ∈ poll_index (poller s) → i ∉ available_output_buffers_ s ++ input_index (input s).
Proof.
  intros Hok Hp Ha. pose proof (indices_nodup _ _ _ Hok) as Hnd. unfold indices_at in Hnd. rewrite app_assoc in Hnd.
  apply NoDup_app in Hnd as (_ & Hd & _). apply (Hd i Ha). rewrite elem_of_app. by right.
Qed.

Lemma store_order r i s : pipeline_ok n m s → in_order s → input s = InQueued r i → in_order (store_slot r i s).
Proof.
  intros Hok Ho Hi. destruct (queued_index s r i Hok Ho Hi) as [Ha Hp]. destruct (o_queued _ Ho _ _ Hi) as [Hn _].
  pose proof Ho as [O1 O2 O3 O4 O5].
  assert (Hw : overwritten i s = None).
  { unfold overwritten, owned_slots. destruct (poller s); try (by rewrite Hn). case_decide; [|by rewrite Hn].
    rewrite list_lookup_insert_ne; [by rewrite Hn|]. intros ->. apply Hp. by left. }
  unfold store_slot. rewrite Hw. constructor; cbn.
  - intros j. rewrite app_nil_r. intros Hj. rewrite list_lookup_insert_ne by (by intros ->). apply O1. rewrite elem_of_app. by left.
  - done.
  - intros j q E. rewrite E in Hp. rewrite list_lookup_insert_ne by (intros ->; apply Hp; by left). by eapply O3.
  - intros j q E. rewrite E in Hp. rewrite list_lookup_insert_ne by (intros ->; apply Hp; by left). by eapply O4.
  - done.
Qed.

Lemma clear_order i r s : pipeline_ok n m s → in_order s → poller s = PoClear i r → in_order (clear_slot i r s).
Proof.
  intros Hok Ho Hp. pose proof Ho as [O1 O2 O3 O4 O5]. pose proof (O4 _ _ Hp) as Hs.
  assert (Hi : i ∈ poll_index (poller s)) by (rewrite Hp; by left). pose proof (polled_index s i Hok Hi) as Ha.
  assert (Hw : overwritten i s = None).
  { unfold overwritten, owned_slots. rewrite Hp, decide_True by done. by rewrite list_lookup_insert_eq by (by eapply lookup_lt_Some). }
  unfold clear_slot. rewrite Hw. constructor; cbn.
  - intros j Hj. rewrite list_lookup_insert_ne by (by intros ->). by apply O1.
  - intros q j E. destruct (O2 _ _ E) as [? Hin]. split; [|done]. rewrite list_lookup_insert_ne; [done|]. intros ->.
    by eapply (queued_index s).
  - intros j q [= <- <-]. rewrite list_lookup_insert_eq; [done|]. by eapply lookup_lt_Some.
  - done.
  - done.
Qed.

Lemma dequeue_order i r l1 l2 s : pipeline_ok n m s → in_order s → poller s = PoInput → encoding s = l1 ++ (i, r) :: l2 →
  input s ≠ InQueued r i → in_order (cp_poller (PoRead i) (cp_encoding (l1 ++ l2) s)).
Proof.
  intros Hok [O1 O2 O3 O4 O5] Hp He Hne. constructor; cbn; try done.
  intros q j E. destruct (O2 _ _ E) as [? Hin]. split; [done|]. rewrite He in Hin.
  apply elem_of_app in Hin as [Hin|[[= <- <-]|Hin]%elem_of_cons]; [rewrite elem_of_app; by left|done|rewrite elem_of_app; by right].
Qed.

Lemma queue_order queued p i s : in_order s → input s = InHave p i → in_order (queue_input queued p i s).
Proof.
  intros Ho Hi. unfold queue_input. destruct (ImportedDmabufSpan _); [eapply order_frame; [..|exact Ho]; frame_solve|].
  destruct queued; [|eapply order_frame; [..|exact Ho]; frame_solve]. destruct Ho as [O1 O2 O3 O4 O5].
  constructor; cbn; try done.
  - intros j Hj. rewrite app_nil_r in Hj. apply O1. rewrite elem_of_app. by left.
  - intros r j [= <- <-]. split; [|by left]. apply O1. rewrite Hi, elem_of_app. right. by left.
Qed.

(** [same]: nothing but the place of a thread changed. *)
Ltac same Ho := eapply order_frame; [..|exact Ho]; frame_solve.

Lemma callback_order requeued r c s : in_order s → in_order (callback_section requeued r c s).
Proof.
  intros Ho. destruct c; cbn; try (by same Ho); [destruct requeued; same Ho|]. apply wake_order. same Ho.
Qed.

Lemma input_section_order s : in_order s → input s = InLock → in_order (input_section s).
Proof.
  intros Ho Hi. unfold input_section. destruct (input_predicate s); cbn; [|same Ho]. destruct (_ || _); [same Ho|].
  destruct (pending_requests_ s) as [|p ps]; [done|]. destruct (available_output_buffers_ s) as [|i av] eqn:Ea; [done|].
  same Ho. rewrite Ea. set_solver.
Qed.

Lemma push_order i r s : in_order s → poller s = PoPush i r → in_order (push_available i r s).
Proof.
  intros Ho Hp. apply wake_order. pose proof Ho as [O1 O2 O3 O4 O5]. pose proof (O3 _ _ Hp) as Hs. constructor; cbn; try done.
  intros j Hj. rewrite !elem_of_app, list_elem_of_singleton in Hj. destruct Hj as [[Hj| ->]|Hj]; [|done|]; apply O1; rewrite elem_of_app; tauto.
Qed.

Lemma read_order i s : in_order s → poller s = PoRead i → in_order (read_slot i s).
Proof.
  intros Ho Hp. unfold read_slot. destruct (output_slots_ s !! i) eqn:E; [|same Ho]. destruct Ho. constructor; cbn; try done.
  by intros j q [= <- <-].
Qed.

Lemma step_order s s' : step true s s' → pipeline_ok n m s → in_order s → in_order s'.
Proof.
  intros Hs Hok Ho. destruct Hs; try solve [same Ho].
  all: eauto using store_order, clear_order, dequeue_order, queue_order, callback_order, input_section_order, push_order, read_order.
  - unfold callback_check. destruct (stop_requested_ s) eqn:E; same Ho.
  - apply (fail_order e [r] s); cbn; auto.
  - destruct (stop_requested_ s); same Ho.
  - apply (fail_order e [r] s); cbn; auto.
  - unfold poll_head. destruct (stop_requested_ s); [same Ho|]. destruct o; same Ho.
  - unfold requeue. destruct r as [r|]; [|same Ho]. destruct (stop_requested_ s) eqn:E; [same Ho|]. destruct queued; same Ho.
  - destruct queued; same Ho.
  - apply (fail_order e (option_list r) s); cbn; auto.
  - unfold GetFrame. destruct (fatal_error_ s); [done|]. destruct (encoded_frames_ s); [done|]. same Ho.
  - pose proof (wake_order s Ho) as Hw. same Hw.
Qed.

Lemma started_order : in_order (started_pipeline n m).
Proof.
  constructor; cbn; try done. intros i. rewrite app_nil_r, elem_of_seq. intros [_ Hi]. by rewrite lookup_replicate_2 by lia.
Qed.

(** If the encoder completes a buffer only after its slot was set, every request comes back
    to the camera until a stop is requested. *)
Theorem capture_loses_nothing_in_order s : reachable true n m s → stop_requested_ s = false → lost s = [].
Proof.
  intros Hr. assert (H : pipeline_ok n m s ∧ in_order s); [|by intros; apply H].
  unfold reachable in Hr. pose proof (started_ok n m) as H1. pose proof started_order as H2. revert H1 H2.
  induction Hr as [|s1 s2 s3 Hs _ IH]; [done|]. intros H1 H2. apply IH; [by eapply pipeline_step_ok|by eapply step_order].
Qed.
End Ordered.

(** ** Two runs *)

Definition demo_plane : plane := mk_plane 5 0 4096.
Definition demo_frame : completion := FrameSuccess [demo_plane] (Some 2000000) 0.
(** The encoder completes a buffer between the call that queues it and the store of its
    slot: the poller finds no request there. *)
Definition raced : pipeline :=
  mk_pipeline false None cStreaming [] [0%nat] [] [Some 0%nat] [] [] CbIdle InHead PoInput MRunning [] [] [].

Ltac run_step c := eapply rtc_l; [eapply c; (reflexivity || discriminate)|cbn].

Lemma raced_reached : reachable false 1 1 raced.
Proof.
  unfold reachable, started_pipeline. cbn.
  eapply rtc_l; [apply (st_complete _ 0%nat demo_frame [] []); reflexivity|cbn].
  run_step st_callback_check. eapply rtc_l; [eapply (st_callback _ _ _ true); (reflexivity || discriminate)|cbn].
  run_step st_input_head. run_step st_input_section. eapply rtc_l; [eapply (st_input_queue _ _ _ true); reflexivity|cbn].
  eapply rtc_l; [apply (st_poll_head _ PollReady); reflexivity|cbn].
  eapply rtc_l; [apply (st_poll_dequeue _ 0%nat 0%nat [] []); (reflexivity || discriminate)|cbn].
  run_step st_poll_read. run_step st_poll_clear. run_step st_poll_push. eapply rtc_l; [eapply (st_poll_requeue _ _ true); reflexivity|cbn].
  run_step st_input_slot. apply rtc_refl.
Qed.

Lemma capture_requests_safe_witness :
  reachable false 1 1 raced ∧ requests_at raced = [0%nat] ∧ requests_at raced ≡ₚ seq 0 1.
Proof. split; [exact raced_reached|]. split; [reflexivity|]. apply (capture_requests_safe 1 1 raced raced_reached). Defined.

Lemma capture_loses_nothing_in_order_witness :
  reachable true 1 1 (started_pipeline 1 1) ∧ lost (started_pipeline 1 1) = [].
Proof. split; [apply rtc_refl|]. apply (capture_loses_nothing_in_order 1 1); [apply rtc_refl|reflexivity]. Defined.

(** No request is on its way. *)
Definition stalled (s : pipeline) : Prop :=
  in_camera s = [] ∧ callback s = CbIdle ∧ pending_requests_ s = [] ∧ encoding s = [] ∧ input_holds (input s) = [] ∧
  poll_holds (poller s) = [] ∧ poll_index (poller s) = [].

Lemma stalled_wake s : stalled s → stalled (wake s).
Proof. unfold wake. destruct (input s) eqn:E; [done..| |done|done|done|done]. intros (? & ? & ? & ? & ? & ? & ?). by split_and!. Qed.
Lemma stalled_fatal e s : stalled s → stalled (SetFatalError e s).
Proof. intros H. unfold SetFatalError. destruct (fatal_error_ s); [done|]. by apply stalled_wake. Qed.

Lemma stalled_step s s' : step false s s' → stalled s → stalled s'.
Proof.
  intros Hs Hst. pose proof Hst as (H1 & H2 & H3 & H4 & H5 & H6 & H7).
  destruct Hs; unfold stalled; cbn; try solve [split_and!; cbn; congruence || done].
  all: repeat match goal with H : callback _ = _, H' : callback _ = _ |- _ => rewrite H in H' | H : input _ = _ |- _ => rewrite H in H5 | H : poller _ = _ |- _ => rewrite H in H6, H7 end; try done.
  - rewrite H1 in *. by destruct l1.
  - by destruct (stop_requested_ s).
  - unfold input_section. destruct (input_predicate s); [|done]. cbn. destruct (_ || _); [done|].
    rewrite H3. split_and!; try done. by rewrite H.
  - unfold poll_head. destruct (stop_requested_ s); [done|]. destruct o; split_and!; cbn; try done; by match goal with E : poller s = _ |- _ => rewrite E end.
  - rewrite H4 in *. by destruct l1.
  - destruct r; [done|]. done.
  - by destruct queued.
  - destruct (stalled_fatal e s Hst) as (? & ? & ? & ? & ? & _). by split_and!.
  - unfold GetFrame. destruct (fatal_error_ s); [done|]. by destruct (encoded_frames_ s).
  - destruct (stalled_wake s Hst) as (? & ? & ? & ? & ? & ? & ?). by split_and!.
Qed.

(** The race loses the only request: nothing failed, and the camera never gets a request
    again. *)
Theorem capture_can_stall :
  reachable false 1 1 raced ∧ stop_requested_ raced = false ∧ fatal_error_ raced = None ∧
  ∀ s, rtc (step false) raced s → in_camera s = [] ∧ encoding s = [].
Proof.
  split; [exact raced_reached|]. split; [done|]. split; [done|]. intros s Hr.
  assert (H : stalled s); [|by destruct H as (? & _ & _ & ? & _)].
  assert (H0 : stalled raced) by done. revert H0. induction Hr; [done|]. eauto using stalled_step.
Qed.

(** [Stop] stores its flag and notifies without the lock: the input thread, which has
    evaluated its predicate, goes to sleep after that, and [Stop] waits for it. Only a
    spurious wake-up of the condition variable gets it out. *)
Definition hanging : pipeline :=
  mk_pipeline true None cStreaming [] [0%nat] [] [None] [0%nat] [] CbIdle InSleep PoDone MCameraStopped [] [] [].

Theorem capture_stop_can_hang :
  reachable false 1 1 hanging ∧ ∀ s, step false hanging s → s = cp_input InLock hanging.
Proof.
  split.
  - unfold reachable, started_pipeline. cbn. run_step st_input_head. run_step st_input_section. run_step st_stop. run_step st_notify.
    run_step st_input_sleep. run_step st_camera_stop. eapply rtc_l; [apply (st_poll_head _ PollTimeout); reflexivity|cbn]. apply rtc_refl.
  - intros s Hs. remember hanging as h eqn:Eh. destruct Hs; subst; done.
Qed.

(** ** Times and spans *)

(** A time stamp survives the way through the encoder. *)
Theorem capture_timestamp_survives us bytes flags : in_u 64 us →
  timestamp_us (frame_of (mk_encoded bytes (encoder_timestamp us).1 (encoder_timestamp us).2 flags)) = us.
Proof.
  unfold in_u. intros Hu. cbn. assert (Hd : us = 1000000 * (us / 1000000) + us mod 1000000) by (apply Z.div_mod; lia).
  pose proof (Z.mod_pos_bound us 1000000). assert (0 <= us / 1000000 <= us) by (split; [apply Z.div_pos; lia|apply Z.div_le_upper_bound; lia]).
  assert (Hw : ∀ x, 0 <= x < 2 ^ 64 → wrapu 64 x = x) by (intros; by apply Z.mod_small).
  rewrite (Hw (us / 1000000)), (Hw (us mod 1000000)), (Hw (us / 1000000 * 1000000)) by lia. rewrite Hw; lia.
Qed.

Lemma span_of_covers dma_fd planes : ∀ span n, span_of dma_fd span planes = inr n →
  span ≤ n ∧ Forall (λ p, plane_fd p = dma_fd ∧ wrapu 64 (plane_offset p + plane_length p) ≤ n) planes.
Proof.
  induction planes as [|p planes IH]; intros span n; cbn; [by intros [= <-]|].
  destruct (Z.eqb_spec (plane_fd p) dma_fd) as [Hf|]; cbn; [|done]. intros [Hle Hall]%IH. split; [lia|].
  apply Forall_cons. split; [|done]. split; [done|lia].
Qed.

(** The length that is imported covers every plane, all of one descriptor. *)
Theorem imported_span_covers buffer n :
  Forall (λ p, in_u 32 (plane_offset p) ∧ in_u 32 (plane_length p)) buffer → ImportedDmabufSpan buffer = inr n →
  in_u 32 n ∧ n ≠ 0 ∧ ∃ fd, 0 ≤ fd ∧ Forall (λ p, plane_fd p = fd ∧ plane_offset p + plane_length p ≤ n) buffer.
Proof.
  intros Ht. unfold ImportedDmabufSpan. destruct buffer as [|first rest]; [done|].
  destruct (Z.ltb_spec (plane_fd first) 0); [done|]. destruct (span_of _ _ _) as [e|span] eqn:Es; [done|].
  destruct ((span =? 0) || (2 ^ 32 - 1 <? span)) eqn:Eb; [done|]. apply orb_false_iff in Eb as [E0 E1].
  apply Z.eqb_neq in E0. apply Z.ltb_ge in E1. intros [= <-]. apply span_of_covers in Es as [Hp Hall].
  unfold in_u, wrapu in *. rewrite Z.mod_small by lia. split; [lia|]. split; [done|]. exists (plane_fd first). split; [done|].
  apply Forall_forall. intros p Hin. rewrite Forall_forall in Ht, Hall. destruct (Ht p Hin) as [Ho Hl], (Hall p Hin) as [Hf Hs].
  split; [done|]. rewrite Z.mod_small in Hs by lia. done.
Qed.
