(* ===== verification/CaptureSetup.v ===== *)
(** * The set-up and the shut-down of the camera

    [devices/common/board/kvs_master/src/video_capturer_libcamera.cpp] around its
    pipeline: [Configure], [Start] with the camera and the H.264 encoder, and [Stop].
    Every call of libcamera, of the encoder's driver and of the system is an event with
    its answer, an arbitrary function of the events before. The theorems follow what is
    acquired: however [Start] ends, [Stop] gives everything back, in an order that never
    takes a thing away from somebody who still uses it. *)
From stdpp Require Import gmap.
From S2P Require Import Prelude Cpp VideoConfig VideoRuntime CapturePipeline.

#[local] Open Scope Z_scope.

(** ** Calls *)

(** The queue of the encoder that a request is about: raw frames in, or H.264 out. *)
Inductive v4l2_queue := OUTPUT_MPLANE | CAPTURE_MPLANE.

Inductive ioctl_request :=
  | S_CTRL (id value : Z)
  | S_FMT (q : v4l2_queue) (w h pixelformat bytesperline sizeimage : Z)
  | S_PARM (numerator denominator : Z)
  | REQBUFS (q : v4l2_queue) (dmabuf : bool) (count : Z)
  | QUERYBUF (index : nat)
  | QBUF (index : nat)
  | STREAMON (q : v4l2_queue)
  | STREAMOFF (q : v4l2_queue).

Inductive call :=
  | ManagerStart | CameraCount | CameraAt (index : Z) | Acquire
  | GenerateConfiguration | DefaultBufferCount | Validate (w h buffers : Z) | ConfigureCamera
  | FrameSize | Stride | Allocate | BufferCount | CreateRequest | AddBuffer (index : nat)
  | Connect | CameraStart (duration : Z) | QueueRequest (index : nat)
  | Open | Ioctl (fd : Z) (r : ioctl_request) | OutCount | OutLength | OutOffset
  | Mmap (fd length offset : Z) | StartThread (poll : bool)
  | Disconnect | CameraStop | Join (poll : bool) | Munmap (memory size : Z) | Close (fd : Z)
  | Release | ManagerStop.

(** A call and its answer, as a C integer; pointers are zero when null. *)
Inductive event := Did (c : call) (answer : Z).
Abbreviation trace := (list event).

Definition V4L2_CID_MPEG_VIDEO_BITRATE : Z := 0x9909cf.
Definition V4L2_CID_MPEG_VIDEO_H264_I_PERIOD : Z := 0x990a66.
Definition V4L2_CID_MPEG_VIDEO_REPEAT_SEQ_HEADER : Z := 0x9909e2.
Definition V4L2_PIX_FMT_YUV420 : Z := 0x32315559.
Definition V4L2_PIX_FMT_H264 : Z := 0x34363248.
Definition kCaptureBufferCount : Z := 6.
Definition MAP_FAILED : Z := -1.

(** ** Members *)

Record CaptureBuffer := mk_capture_buffer { memory : Z; size : Z }.
Definition unmapped : CaptureBuffer := mk_capture_buffer MAP_FAILED 0.

(** The members that the threads of the pipeline share. *)
Record shared := mk_shared {
  sh_stop_requested : bool; sh_fatal_error : option string; sh_status : VideoCapturerStatus;
  sh_pending : list PendingCameraRequest; sh_available : list nat; sh_frames : list EncodedVideoFrame;
  sh_slots : list (option nat) }.

Record capturer := mk_capturer {
  config_ : CameraConfig; queues : shared;
  camera_manager_ : bool; camera_ : bool; camera_configuration_ : bool; allocator_ : bool; video_stream_ : bool;
  requests_ : nat; encoder_fd_ : Z; frame_size_ : Z; stride_ : Z;
  capture_buffers_ : list CaptureBuffer; encoder_input_thread_ : bool; encoder_poll_thread_ : bool }.

Definition new_capturer : capturer :=
  mk_capturer default_camera (mk_shared false None cNotReady [] [] [] []) false false false false false 0 (-1) 0 0 [] false false.

Definition with_queues (f : shared → shared) (s : capturer) : capturer :=
  mk_capturer (config_ s) (f (queues s)) (camera_manager_ s) (camera_ s) (camera_configuration_ s) (allocator_ s) (video_stream_ s)
    (requests_ s) (encoder_fd_ s) (frame_size_ s) (stride_ s) (capture_buffers_ s) (encoder_input_thread_ s) (encoder_poll_thread_ s).
Definition with_camera (manager camera configuration allocator stream : bool) (s : capturer) : capturer :=
  mk_capturer (config_ s) (queues s) manager camera configuration allocator stream
    (requests_ s) (encoder_fd_ s) (frame_size_ s) (stride_ s) (capture_buffers_ s) (encoder_input_thread_ s) (encoder_poll_thread_ s).
Definition with_requests (n : nat) (s : capturer) : capturer :=
  mk_capturer (config_ s) (queues s) (camera_manager_ s) (camera_ s) (camera_configuration_ s) (allocator_ s) (video_stream_ s)
    n (encoder_fd_ s) (frame_size_ s) (stride_ s) (capture_buffers_ s) (encoder_input_thread_ s) (encoder_poll_thread_ s).
Definition with_sizes (frame_size stride : Z) (s : capturer) : capturer :=
  mk_capturer (config_ s) (queues s) (camera_manager_ s) (camera_ s) (camera_configuration_ s) (allocator_ s) (video_stream_ s)
    (requests_ s) (encoder_fd_ s) frame_size stride (capture_buffers_ s) (encoder_input_thread_ s) (encoder_poll_thread_ s).
Definition with_fd (fd : Z) (s : capturer) : capturer :=
  mk_capturer (config_ s) (queues s) (camera_manager_ s) (camera_ s) (camera_configuration_ s) (allocator_ s) (video_stream_ s)
    (requests_ s) fd (frame_size_ s) (stride_ s) (capture_buffers_ s) (encoder_input_thread_ s) (encoder_poll_thread_ s).
Definition with_buffers (l : list CaptureBuffer) (s : capturer) : capturer :=
  mk_capturer (config_ s) (queues s) (camera_manager_ s) (camera_ s) (camera_configuration_ s) (allocator_ s) (video_stream_ s)
    (requests_ s) (encoder_fd_ s) (frame_size_ s) (stride_ s) l (encoder_input_thread_ s) (encoder_poll_thread_ s).
Definition with_threads (input poll : bool) (s : capturer) : capturer :=
  mk_capturer (config_ s) (queues s) (camera_manager_ s) (camera_ s) (camera_configuration_ s) (allocator_ s) (video_stream_ s)
    (requests_ s) (encoder_fd_ s) (frame_size_ s) (stride_ s) (capture_buffers_ s) input poll.

Definition set_status (x : VideoCapturerStatus) (q : shared) : shared :=
  mk_shared (sh_stop_requested q) (sh_fatal_error q) x (sh_pending q) (sh_available q) (sh_frames q) (sh_slots q).
Definition set_stop (x : bool) (q : shared) : shared :=
  mk_shared x (sh_fatal_error q) (sh_status q) (sh_pending q) (sh_available q) (sh_frames q) (sh_slots q).
Definition set_output_buffers (available : list nat) (slots : list (option nat)) (q : shared) : shared :=
  mk_shared (sh_stop_requested q) (sh_fatal_error q) (sh_status q) (sh_pending q) available (sh_frames q) slots.

(** ** Operations *)

Section Operations.
(** What the outside answers, and whether a call that failed was interrupted. *)
Context (answer : call → trace → Z) (interrupted : trace → bool).
(** Whether a thread of the capturer, asked to stop, ends. *)
Context (ends : bool → trace → bool).

Definition ask (c : call) : X event capturer Z := xcall (λ r, Did c (default 0 (match r with inr z => Some z | inl _ => None end))) (λ t, inr (answer c t)).
Definition fail_if (b : bool) (message : string) : X event capturer unit := if b then throw message else mret tt.

(** [errno == EINTR] after a call that failed. *)
Definition was_interrupted : X event capturer bool := λ s t, (inr (interrupted t), s, t).

(** [RetryIoctl]: [attempts] counts down while the call is interrupted. *)
Fixpoint retry_ioctl (attempts : nat) (fd : Z) (r : ioctl_request) : X event capturer Z :=
  result ← ask (Ioctl fd r);
  again ← was_interrupted;
  if (result =? -1) && again then
    match attempts with
    | O => mret result
    | S attempts => retry_ioctl attempts fd r
    end
  else mret result.
Definition RetryIoctl (fd : Z) (r : ioctl_request) : X event capturer Z := retry_ioctl 10 fd r.
Definition must_ioctl (fd : Z) (r : ioctl_request) (message : string) : X event capturer unit :=
  result ← RetryIoctl fd r; fail_if (result <? 0) message.

Definition Configure (config : CameraConfig) : X event capturer unit :=
  xmodify (λ s, with_queues (set_status cConfigured)
    (mk_capturer config (queues s) (camera_manager_ s) (camera_ s) (camera_configuration_ s) (allocator_ s) (video_stream_ s)
       (requests_ s) (encoder_fd_ s) (frame_size_ s) (stride_ s) (capture_buffers_ s) (encoder_input_thread_ s) (encoder_poll_thread_ s))).

(** [InitializeCamera], in the order of the code. *)
Definition open_camera : X event capturer unit :=
  _ ← xmodify (λ s, with_camera true (camera_ s) (camera_configuration_ s) (allocator_ s) (video_stream_ s) s);
  started ← ask ManagerStart;
  _ ← fail_if (negb (started =? 0)) "failed to start libcamera camera manager";
  cameras ← ask CameraCount;
  s ← xget;
  _ ← fail_if (cameras <=? camera_index (config_ s)) "configured camera index is not available";
  camera ← ask (CameraAt (camera_index (config_ s)));
  _ ← xmodify (λ s, with_camera (camera_manager_ s) (negb (camera =? 0)) (camera_configuration_ s) (allocator_ s) (video_stream_ s) s);
  _ ← fail_if (camera =? 0) "failed to resolve libcamera device";
  acquired ← ask Acquire;
  fail_if (negb (acquired =? 0)) "failed to acquire libcamera device".

Definition configure_camera : X event capturer unit :=
  streams ← ask GenerateConfiguration;
  _ ← xmodify (λ s, with_camera (camera_manager_ s) (camera_ s) (negb (streams <=? -1)) (allocator_ s) (video_stream_ s) s);
  _ ← fail_if (streams <=? 0) "failed to generate libcamera video configuration";
  buffers ← ask DefaultBufferCount;
  s ← xget;
  validation ← ask (Validate (width (config_ s)) (height (config_ s)) (if buffers <? 6 then 6 else buffers));
  _ ← fail_if (validation =? 2) "invalid libcamera video configuration";
  configured ← ask ConfigureCamera;
  _ ← fail_if (negb (configured =? 0)) "failed to apply libcamera video configuration";
  _ ← xmodify (λ s, with_camera (camera_manager_ s) (camera_ s) (camera_configuration_ s) (allocator_ s) true s);
  frame_size ← ask FrameSize;
  stride ← ask Stride;
  xmodify (with_sizes frame_size stride).

Definition create_request (index : nat) : X event capturer unit :=
  request ← ask CreateRequest;
  _ ← fail_if (request =? 0) "failed to create libcamera request";
  added ← ask (AddBuffer index);
  _ ← fail_if (added <? 0) "failed to add video buffer to libcamera request";
  xmodify (λ s, with_requests (S (requests_ s)) s).
Definition create_requests : X event capturer unit :=
  _ ← xmodify (λ s, with_camera (camera_manager_ s) (camera_ s) (camera_configuration_ s) true (video_stream_ s) s);
  allocated ← ask Allocate;
  _ ← fail_if (allocated <? 0) "failed to allocate libcamera frame buffers";
  buffers ← ask BufferCount;
  _ ← xmodify (with_requests 0);
  for_each create_request (seq 0 (Z.to_nat buffers)).

Definition frame_duration (config : CameraConfig) : Z := 1000000 / Z.max 1 (framerate config).
Definition start_camera : X event capturer unit :=
  s ← xget;
  _ ← ask Connect;
  started ← ask (CameraStart (frame_duration (config_ s)));
  _ ← fail_if (negb (started =? 0)) "failed to start libcamera capture";
  for_each (λ index, queued ← ask (QueueRequest index);
                     fail_if (queued <? 0) "failed to queue initial libcamera request") (seq 0 (requests_ s)).

Definition InitializeCamera : X event capturer unit :=
  _ ← open_camera; _ ← configure_camera; _ ← create_requests; start_camera.

Definition ShutdownCamera : X event capturer unit :=
  _ ← xmodify (λ s, with_sizes 0 0 (with_requests 0 (with_camera (camera_manager_ s) (camera_ s) false false false s)));
  s ← xget;
  _ ← xwhen (camera_ s) (_ ← ask Release; xmodify (λ s, with_camera (camera_manager_ s) false (camera_configuration_ s) (allocator_ s) (video_stream_ s) s));
  xwhen (camera_manager_ s) (_ ← ask ManagerStop; xmodify (λ s, with_camera false (camera_ s) (camera_configuration_ s) (allocator_ s) (video_stream_ s) s)).

(** [InitializeEncoder]. *)
Definition configure_encoder (fd : Z) : X event capturer unit :=
  s ← xget;
  let c := config_ s in
  _ ← must_ioctl fd (S_CTRL V4L2_CID_MPEG_VIDEO_BITRATE (s32 (bitrate c))) "failed to configure encoder bitrate";
  _ ← must_ioctl fd (S_CTRL V4L2_CID_MPEG_VIDEO_H264_I_PERIOD (s32 (intra c))) "failed to configure encoder intra period";
  _ ← must_ioctl fd (S_CTRL V4L2_CID_MPEG_VIDEO_REPEAT_SEQ_HEADER 1) "failed to configure encoder inline sequence headers";
  _ ← must_ioctl fd (S_FMT OUTPUT_MPLANE (width c) (height c) V4L2_PIX_FMT_YUV420 (stride_ s) 0) "failed to configure encoder input format";
  _ ← must_ioctl fd (S_FMT CAPTURE_MPLANE (width c) (height c) V4L2_PIX_FMT_H264 0 (Z.shiftl 512 10)) "failed to configure encoder output format";
  must_ioctl fd (S_PARM (90000 / Z.max 1 (framerate c)) 90000) "failed to configure encoder frame rate".

Definition request_buffers (fd : Z) : X event capturer unit :=
  s ← xget;
  _ ← must_ioctl fd (REQBUFS OUTPUT_MPLANE true (u32 (Z.of_nat (requests_ s)))) "failed to allocate encoder input buffers";
  count ← ask OutCount;
  _ ← xmodify (with_queues (λ q, set_output_buffers (sh_available q ++ seq 0 (Z.to_nat (u32 count))) (replicate (Z.to_nat (u32 count)) None) q));
  _ ← must_ioctl fd (REQBUFS CAPTURE_MPLANE false kCaptureBufferCount) "failed to allocate encoder capture buffers";
  count ← ask OutCount;
  xmodify (with_buffers (replicate (Z.to_nat (u32 count)) unmapped)).

Definition map_buffer (fd : Z) (index : nat) : X event capturer unit :=
  _ ← must_ioctl fd (QUERYBUF index) "failed to query encoder capture buffer";
  length ← ask OutLength;
  offset ← ask OutOffset;
  memory ← ask (Mmap fd (u32 length) offset);
  _ ← fail_if (memory =? MAP_FAILED) "failed to map encoder capture buffer";
  _ ← xmodify (λ s, with_buffers (<[index := mk_capture_buffer memory (u32 length)]> (capture_buffers_ s)) s);
  must_ioctl fd (QBUF index) "failed to queue encoder capture buffer".

Definition InitializeEncoder : X event capturer unit :=
  fd ← ask Open;
  _ ← xmodify (with_fd fd);
  _ ← fail_if (fd <? 0) "failed to open V4L2 H.264 encoder";
  _ ← configure_encoder fd;
  _ ← request_buffers fd;
  s ← xget;
  _ ← for_each (map_buffer fd) (seq 0 (length (capture_buffers_ s)));
  _ ← must_ioctl fd (STREAMON OUTPUT_MPLANE) "failed to start encoder input stream";
  must_ioctl fd (STREAMON CAPTURE_MPLANE) "failed to start encoder capture stream".

Definition unmap_buffer (index : nat) : X event capturer unit :=
  s ← xget;
  match capture_buffers_ s !! index with
  | Some b =>
      xwhen (negb (memory b =? MAP_FAILED))
        (_ ← ask (Munmap (memory b) (size b));
         xmodify (λ s, with_buffers (<[index := unmapped]> (capture_buffers_ s)) s))
  | None => mret tt
  end.
Definition ShutdownEncoder : X event capturer unit :=
  s ← xget;
  xwhen (0 <=? encoder_fd_ s)
    (_ ← RetryIoctl (encoder_fd_ s) (STREAMOFF OUTPUT_MPLANE);
     _ ← RetryIoctl (encoder_fd_ s) (STREAMOFF CAPTURE_MPLANE);
     _ ← for_each unmap_buffer (seq 0 (length (capture_buffers_ s)));
     _ ← xmodify (λ s, with_buffers [] (with_queues (set_output_buffers [] []) s));
     _ ← ask (Close (encoder_fd_ s));
     xmodify (with_fd (-1))).

(** A thread starts, or its constructor throws. *)
Definition start_thread (poll : bool) : X event capturer unit :=
  r ← ask (StartThread poll);
  _ ← fail_if (negb (r =? 0)) "Resource temporarily unavailable";
  xmodify (λ s, with_threads (encoder_input_thread_ s || negb poll) (encoder_poll_thread_ s || poll) s).
(** The join of a thread that does not end does not return: nothing of the program
    follows, which the model writes as an end of its own. *)
Definition waits_for_ever : string := "join does not return".
Definition join (poll : bool) : X event capturer Z :=
  λ s t, if ends poll t then ask (Join poll) s t else throw waits_for_ever s t.
Definition JoinThread (poll : bool) : X event capturer unit :=
  s ← xget;
  xwhen (if poll then encoder_poll_thread_ s else encoder_input_thread_ s)
    (_ ← join poll;
     xmodify (λ s, with_threads (encoder_input_thread_ s && poll) (encoder_poll_thread_ s && negb poll) s)).

Definition Start : X event capturer unit :=
  s ← xget;
  if bool_decide (sh_status (queues s) = cStreaming) then mret tt else
  if bool_decide (sh_status (queues s) = cNotReady) then throw "video capturer must be configured before start" else
  _ ← xmodify (with_queues (set_stop false));
  _ ← InitializeCamera;
  _ ← InitializeEncoder;
  _ ← start_thread false;
  _ ← start_thread true;
  xmodify (with_queues (set_status cStreaming)).

Definition Stop : X event capturer unit :=
  _ ← xmodify (with_queues (set_stop true));
  s ← xget;
  _ ← xwhen (camera_ s) (_ ← ask Disconnect; _ ← ask CameraStop; mret tt);
  _ ← JoinThread false;
  _ ← JoinThread true;
  _ ← ShutdownEncoder;
  _ ← ShutdownCamera;
  xmodify (with_queues (λ q, set_status cStopped (mk_shared (sh_stop_requested q) None (sh_status q) [] (sh_available q) [] (sh_slots q)))).
End Operations.

(** ** What is held *)

Inductive resource := RManager | RCamera | RRunning | RFd (fd : Z) | RMap (memory size : Z) | RThread (poll : bool).
#[global] Instance resource_eq_dec : EqDecision resource.
Proof. solve_decision. Defined.

Definition acquires (e : event) : option resource :=
  match e with
  | Did ManagerStart z => if z =? 0 then Some RManager else None
  | Did Acquire z => if z =? 0 then Some RCamera else None
  | Did (CameraStart _) z => if z =? 0 then Some RRunning else None
  | Did Open fd => if 0 <=? fd then Some (RFd fd) else None
  | Did (Mmap _ n _) m => if m =? MAP_FAILED then None else Some (RMap m n)
  | Did (StartThread b) z => if z =? 0 then Some (RThread b) else None
  | _ => None
  end.
Definition releases (e : event) : option resource :=
  match e with
  | Did ManagerStop _ => Some RManager
  | Did Release _ => Some RCamera
  | Did CameraStop _ => Some RRunning
  | Did (Close fd) _ => Some (RFd fd)
  | Did (Munmap m n) _ => Some (RMap m n)
  | Did (Join b) _ => Some (RThread b)
  | _ => None
  end.

Fixpoint holds (r : resource) (t : trace) : bool :=
  match t with
  | [] => false
  | e :: t => if decide (acquires e = Some r) then true else if decide (releases e = Some r) then false else holds r t
  end.

(** The camera that was looked up, whether or not it could be acquired, and the manager
    that was made, whether or not it started. *)
Definition sets_camera (e : event) : option bool :=
  match e with Did (CameraAt _) z => Some (negb (z =? 0)) | Did Release _ => Some false | _ => None end.
Definition sets_manager (e : event) : option bool :=
  match e with Did ManagerStart _ => Some true | Did ManagerStop _ => Some false | _ => None end.
Fixpoint resolved (t : trace) : bool :=
  match t with [] => false | e :: t => match sets_camera e with Some b => b | None => resolved t end end.
Fixpoint managed (t : trace) : bool :=
  match t with [] => false | e :: t => match sets_manager e with Some b => b | None => managed t end end.

(** When a call is in order. *)
Definition no_threads (t : trace) : Prop := ∀ b, holds (RThread b) t = false.
Definition in_order (e : event) (t : trace) : Prop :=
  match e with
  | Did ManagerStart _ => managed t = false
  | Did (CameraAt _) _ => managed t = true ∧ resolved t = false
  | Did Acquire _ => resolved t = true ∧ holds RCamera t = false
  | Did (CameraStart _) _ => holds RCamera t = true
  | Did (QueueRequest _) _ => holds RRunning t = true
  | Did Open _ => ∀ fd, holds (RFd fd) t = false
  | Did (Ioctl fd _) _ => holds (RFd fd) t = true
  | Did (Mmap fd _ _) _ => holds (RFd fd) t = true
  | Did (StartThread b) _ => holds (RThread b) t = false ∧ holds RRunning t = true
  | Did (Join b) _ => holds (RThread b) t = true ∧ holds RRunning t = false
  | Did (Munmap m n) _ => holds (RMap m n) t = true ∧ no_threads t
  | Did (Close fd) _ => holds (RFd fd) t = true ∧ (∀ m n, holds (RMap m n) t = false) ∧ no_threads t
  | Did Disconnect _ | Did CameraStop _ => resolved t = true
  | Did Release _ => resolved t = true ∧ holds RRunning t = false ∧ no_threads t
  | Did ManagerStop _ => managed t = true ∧ resolved t = false ∧ holds RCamera t = false
  | _ => True
  end.

(** The members know what is held. *)
Record res_ok (s : capturer) (t : trace) : Prop := {
  r_managed : camera_manager_ s = managed t;
  r_resolved : camera_ s = resolved t;
  r_manager : holds RManager t = true → camera_manager_ s = true;
  r_camera : holds RCamera t = true → camera_ s = true;
  r_running : holds RRunning t = true → camera_ s = true;
  r_fd : ∀ fd, holds (RFd fd) t = true ↔ fd = encoder_fd_ s ∧ 0 ≤ fd;
  r_maps : ∀ m n, holds (RMap m n) t = true ↔ mk_capture_buffer m n ∈ capture_buffers_ s ∧ m ≠ MAP_FAILED;
  r_apart : ∀ i j b b', capture_buffers_ s !! i = Some b → capture_buffers_ s !! j = Some b' → memory b = memory b' →
    memory b ≠ MAP_FAILED → i = j;
  r_nomaps : encoder_fd_ s < 0 → capture_buffers_ s = [];
  r_outputs : encoder_fd_ s < 0 → sh_available (queues s) = [] ∧ sh_slots (queues s) = [];
  r_input : holds (RThread false) t = encoder_input_thread_ s;
  r_poll : holds (RThread true) t = encoder_poll_thread_ s;
  r_order : guarded in_order t }.

(** Nothing is held, and the members say so. *)
Record idle (s : capturer) (t : trace) : Prop := {
  i_holds : ∀ r, holds r t = false;
  i_order : guarded in_order t;
  i_camera : camera_manager_ s = false ∧ camera_ s = false;
  i_resolved : managed t = false ∧ resolved t = false;
  i_fd : encoder_fd_ s < 0;
  i_buffers : capture_buffers_ s = [];
  i_outputs : sh_available (queues s) = [] ∧ sh_slots (queues s) = [];
  i_threads : encoder_input_thread_ s = false ∧ encoder_poll_thread_ s = false }.

Lemma idle_ok s t : idle s t → res_ok s t.
Proof.
  intros [H1 H2 [H3 H4] [M1 M2] H5 H6 Hout [H7 H8]]. constructor; rewrite ?H1, ?H6, ?M1, ?M2; try done; try (intros; split; rewrite ?H1; intros; [done|lia]).
  - intros. rewrite H1. split; [done|]. by intros [?%elem_of_nil ?].
Qed.

(** A change of other members, and a call that neither takes nor gives back. *)
Definition same_resources (s s' : capturer) : Prop :=
  camera_manager_ s' = camera_manager_ s ∧ camera_ s' = camera_ s ∧ encoder_fd_ s' = encoder_fd_ s ∧
  capture_buffers_ s' = capture_buffers_ s ∧ encoder_input_thread_ s' = encoder_input_thread_ s ∧
  encoder_poll_thread_ s' = encoder_poll_thread_ s ∧
  sh_available (queues s') = sh_available (queues s) ∧ sh_slots (queues s') = sh_slots (queues s).

Lemma res_same s s' t : same_resources s s' → res_ok s t → res_ok s' t.
Proof. intros (E1 & E2 & E3 & E4 & E5 & E6 & E7 & E8) []. constructor; rewrite ?E1, ?E2, ?E3, ?E4, ?E5, ?E6, ?E7, ?E8; auto. Qed.

Definition neutral (e : event) : Prop := acquires e = None ∧ releases e = None ∧ sets_camera e = None ∧ sets_manager e = None.
Lemma holds_neutral e r t : neutral e → holds r (e :: t) = holds r t.
Proof. intros (E1 & E2 & _). cbn. by rewrite E1, E2. Qed.
Lemma res_neutral s e t : neutral e → in_order e t → res_ok s t → res_ok s (e :: t).
Proof.
  intros Hn Ho []. assert (Ec : resolved (e :: t) = resolved t ∧ managed (e :: t) = managed t).
  { destruct Hn as (_ & _ & E3 & E4). cbn. by rewrite E3, E4. }
  destruct Ec as [Ec Em]. constructor; rewrite ?(holds_neutral _ _ _ Hn), ?Ec, ?Em; try done; try (by split);
    intros; rewrite ?(holds_neutral _ _ _ Hn); auto.
Qed.

Lemma holds_acquired e r r' t : acquires e = Some r → holds r' (e :: t) = if decide (r' = r) then true else if decide (releases e = Some r') then false else holds r' t.
Proof. intros E. cbn. rewrite E. repeat case_decide; congruence. Qed.
Lemma holds_released e r r' t : acquires e = None → releases e = Some r → holds r' (e :: t) = if decide (r' = r) then false else holds r' t.
Proof. intros E1 E2. cbn. rewrite E1, E2. repeat case_decide; congruence. Qed.

Section Balance.
Context (answer : call → trace → Z) (interrupted : trace → bool) (ends : bool → trace → bool).
Abbreviation ask := (ask answer).

Lemma xwp_ask c Q R s t : Q (answer c t) s (Did c (answer c t) :: t) → xwp (ask c) Q R s t.
Proof. done. Qed.

Lemma xwp_fail b m Q R s t : (b = true → R m s t) → (b = false → Q tt s t) → xwp (fail_if b m) Q R s t.
Proof. destruct b; intros H1 H2; [by apply xwp_throw, H1|by apply xwp_ret, H2]. Qed.

(** [I] does not mind the calls of [c]. *)
Definition stable (I : capturer → trace → Prop) (c : call) : Prop := ∀ s t z, I s t → I s (Did c z :: t).

Lemma retry_keeps I R attempts fd r : stable I (Ioctl fd r) → xkeeps I R (retry_ioctl answer interrupted attempts fd r).
Proof.
  intros Hs. induction attempts as [|k IH]; intros s t H; cbn; xwp_step; apply xwp_ask; xwp_step;
    (unfold was_interrupted, xwp at 1); xwp_step; try (apply xwp_ret; by apply Hs). apply IH. by apply Hs.
Qed.
Lemma must_ioctl_keeps I R fd r m : stable I (Ioctl fd r) → (∀ s t, I s t → R m s t) →
  xkeeps I R (must_ioctl answer interrupted fd r m).
Proof.
  intros Hs HR s t H. unfold must_ioctl. apply xwp_bind. eapply xwp_mono; [by apply retry_keeps| |done].
  intros z s' t' H'. apply xwp_fail; auto.
Qed.
Lemma ask_keeps I R c : stable I c → xkeeps I R (ask c).
Proof. intros Hs s t H. apply xwp_ask. by apply Hs. Qed.
Lemma fail_keeps I R b m : (∀ s t, I s t → R m s t) → xkeeps I R (fail_if b m).
Proof. intros HR s t H. apply xwp_fail; auto. Qed.

(** At most eleven calls. *)
Lemma retry_bound attempts fd r s t :
  xwp (retry_ioctl answer interrupted attempts fd r)
    (λ z s' t', s' = s ∧ ∃ l, t' = l ++ t ∧ (1 ≤ length l ≤ S attempts)%nat ∧ Forall (λ e, ∃ z, e = Did (Ioctl fd r) z) l) (λ _ _ _, False) s t.
Proof.
  revert t. induction attempts as [|k IH]; intros t; cbn; xwp_step; apply xwp_ask; xwp_step;
    (unfold was_interrupted, xwp at 1); xwp_step;
    try (apply xwp_ret; split; [done|]; eexists [_]; split; [done|]; split; [cbn; lia|]; repeat constructor; eauto).
  eapply xwp_mono; [apply IH| |done]. intros z s' t' (-> & l & -> & Hl & Hf). split; [done|].
  exists (l ++ [Did (Ioctl fd r) (answer (Ioctl fd r) t)]). rewrite <- app_assoc. split; [done|].
  split; [rewrite length_app; cbn; lia|]. apply Forall_app. split; [done|]. repeat constructor; eauto.
Qed.

(** *** The phases of [Start] *)

Definition quiet (q : shared) (s : capturer) : Prop :=
  encoder_fd_ s < 0 ∧ encoder_input_thread_ s = false ∧ encoder_poll_thread_ s = false ∧ queues s = q.
(** The camera is acquired, and runs. *)
Definition with_device (q : shared) (s : capturer) (t : trace) : Prop :=
  res_ok s t ∧ quiet q s ∧ camera_ s = true ∧ holds RCamera t = true.
Definition running (q : shared) (s : capturer) (t : trace) : Prop := with_device q s t ∧ holds RRunning t = true.
(** The encoder is open. *)
Definition encoder_open (fd : Z) (q : shared) (s : capturer) (t : trace) : Prop :=
  res_ok s t ∧ encoder_fd_ s = fd ∧ 0 ≤ fd ∧ encoder_input_thread_ s = false ∧ encoder_poll_thread_ s = false ∧
  queues s = q ∧ holds RRunning t = true.
Definition safe (_ : string) : capturer → trace → Prop := res_ok.

Lemma device_neutral q s e t : neutral e → in_order e t → with_device q s t → with_device q s (e :: t).
Proof. intros Hn Ho (? & ? & ? & ?). split_and!; rewrite ?(holds_neutral _ _ _ Hn); try done. by apply res_neutral. Qed.
Lemma running_neutral q s e t : neutral e → in_order e t → running q s t → running q s (e :: t).
Proof. intros Hn Ho [? ?]. split; [by apply device_neutral|]. by rewrite (holds_neutral _ _ _ Hn). Qed.
Lemma encoder_neutral fd q s e t : neutral e → in_order e t → encoder_open fd q s t → encoder_open fd q s (e :: t).
Proof. intros Hn Ho (? & ? & ? & ? & ? & ? & ?). split_and!; rewrite ?(holds_neutral _ _ _ Hn); try done. by apply res_neutral. Qed.

Lemma encoder_held fd q s t : encoder_open fd q s t → holds (RFd fd) t = true.
Proof. intros (Hr & <- & Hf & _). by apply Hr. Qed.

(** What is taken and given back. *)
Ltac by_resource Hh :=
  constructor; try done; try (by split);
  [..|by intros; rewrite Hh; case_decide; subst|by intros; rewrite Hh; case_decide; subst|by rewrite Hh; case_decide; subst|by rewrite Hh; case_decide; subst];
  rewrite Hh; case_decide; subst; auto; by intros.
Lemma res_acquire s e r t : acquires e = Some r → releases e = None → in_order e t →
  match r with RCamera | RRunning => camera_ s = true | _ => False end → resolved (e :: t) = resolved t → managed (e :: t) = managed t →
  res_ok s t → res_ok s (e :: t).
Proof.
  intros Ea Er Ho Hm Ec Em []. rewrite <- Ec in r_resolved0. rewrite <- Em in r_managed0. assert (Hh : ∀ r', holds r' (e :: t) = if decide (r' = r) then true else holds r' t).
  { intros r'. rewrite (holds_acquired _ _ _ _ Ea), Er. repeat case_decide; congruence. }
  by_resource Hh.
Qed.

Lemma res_release s s' e r t : acquires e = None → releases e = Some r → in_order e t →
  match r with
  | RManager => camera_ s' = camera_ s
  | RCamera => camera_manager_ s' = camera_manager_ s ∧ holds RRunning t = false
  | RRunning => camera_manager_ s' = camera_manager_ s ∧ camera_ s' = camera_ s
  | _ => False
  end → camera_ s' = resolved (e :: t) → camera_manager_ s' = managed (e :: t) →
  encoder_fd_ s' = encoder_fd_ s → capture_buffers_ s' = capture_buffers_ s → encoder_input_thread_ s' = encoder_input_thread_ s →
  encoder_poll_thread_ s' = encoder_poll_thread_ s → queues s' = queues s → res_ok s t → res_ok s' (e :: t).
Proof.
  intros Ea Er Ho Hm Ec Em E1 E2 E3 E4 E5 []. pose proof (λ r', holds_released e r r' t Ea Er) as Hh.
  constructor; rewrite ?E1, ?E2, ?E3, ?E4, ?E5; try done; try (by split).
  1-3: rewrite Hh; case_decide; destruct r; try done; first [destruct Hm as [Hm1 Hm2]; rewrite ?Hm1, ?Hm2|rewrite ?Hm]; (done || auto).
  1-2: intros; rewrite Hh; case_decide; subst; (done || auto).
  1-2: rewrite Hh; case_decide; subst; done.
Qed.

(** Only the manager may be held. *)
Definition manager_only (q : shared) (s : capturer) (t : trace) : Prop :=
  res_ok s t ∧ quiet q s ∧ holds RCamera t = false ∧ holds RRunning t = false.
Lemma manager_neutral q s e t : neutral e → in_order e t → manager_only q s t → manager_only q s (e :: t).
Proof. intros Hn Ho (? & ? & ? & ?). split_and!; rewrite ?(holds_neutral _ _ _ Hn); try done. by apply res_neutral. Qed.

Lemma manager_started q s t z : idle s t → queues s = q →
  manager_only q (with_camera true (camera_ s) (camera_configuration_ s) (allocator_ s) (video_stream_ s) s) (Did ManagerStart z :: t).
Proof.
  intros [H1 H2 [H3 H4] [M1 M2] H5 H6 Hout [H7 H8]] Hq.
  assert (Hh : ∀ r, r ≠ RManager → holds r (Did ManagerStart z :: t) = false).
  { intros r Hr. cbn. destruct (z =? 0); rewrite H1; repeat case_decide; congruence. }
  split_and!; [|done..|by apply Hh|by apply Hh]. constructor; cbn [with_camera camera_manager_ camera_ encoder_fd_ capture_buffers_ encoder_input_thread_ encoder_poll_thread_ queues];
    rewrite ?Hh by done; try done; try (by cbn; rewrite ?M1, ?M2); rewrite ?H6.
  - intros fd. rewrite Hh by done. split; [done|lia].
  - intros m n. rewrite Hh by done. split; [done|]. by intros [?%elem_of_nil _].
  - by intros i j b b'.
Qed.

Lemma manager_resolved q s t i z : manager_only q s t → camera_ s = false → camera_manager_ s = true →
  manager_only q (with_camera (camera_manager_ s) (negb (z =? 0)) (camera_configuration_ s) (allocator_ s) (video_stream_ s) s) (Did (CameraAt i) z :: t).
Proof.
  intros ([] & Hq & Hc & Hr) H1 H2. split_and!; try done. constructor; cbn; try done; rewrite ?Hc, ?Hr; try done.
  split; [|done]. split; congruence.
Qed.

(** [takes I J c]: from [I], a normal end of [c] is in [J], and an exception is safe. *)
Definition takes {A} (I : capturer → trace → Prop) (J : A → capturer → trace → Prop) (c : X event capturer A) : Prop :=
  ∀ s t, I s t → xwp c J safe s t.

Lemma takes_bind {A B} I (J : A → capturer → trace → Prop) (K : B → capturer → trace → Prop) c (f : A → X event capturer B) :
  takes I J c → (∀ a, takes (J a) K (f a)) → takes I K (c ≫= f).
Proof. intros Hc Hf s t H. apply xwp_bind. eapply xwp_mono; [by apply Hc| |done]. intros a s' t' H'. by apply Hf. Qed.
Lemma takes_ask I c : stable I c → takes I (λ _, I) (ask c).
Proof. intros Hs s t H. apply xwp_ask. by apply Hs. Qed.
Lemma takes_fail (I J : capturer → trace → Prop) (b : bool) m : (∀ s t, I s t → res_ok s t) → (∀ s t, b = false → I s t → J s t) →
  takes I (λ _, J) (fail_if b m).
Proof. intros H1 H2 s t H. apply xwp_fail; intros; [by apply H1|auto]. Qed.
Lemma takes_modify (I J : capturer → trace → Prop) f : (∀ s t, I s t → J (f s) t) → takes I (λ _, J) (xmodify f).
Proof. intros H s t HI. apply xwp_modify. auto. Qed.
Lemma takes_get I {B} (K : B → capturer → trace → Prop) f : (∀ a, takes (λ s t, I s t ∧ a = s) K (f a)) → takes I K (xget ≫= f).
Proof. intros H s t HI. apply xwp_bind, xwp_get. by apply H. Qed.
Lemma takes_weaken {A} (I I' : capturer → trace → Prop) (J : A → capturer → trace → Prop) c : takes I' J c → (∀ s t, I s t → I' s t) → takes I J c.
Proof. intros Hc H s t HI. by apply Hc, H. Qed.
Lemma takes_for_each {A} I (body : A → X event capturer unit) l : (∀ a, takes I (λ _, I) (body a)) → takes I (λ _, I) (for_each body l).
Proof. intros Hb s t H. apply xwp_for_each; [done|]. intros a s' t' _. apply Hb. Qed.
Lemma takes_ioctl I fd r m : stable I (Ioctl fd r) → (∀ s t, I s t → res_ok s t) → takes I (λ _, I) (must_ioctl answer interrupted fd r m).
Proof. intros Hs HR s t H. by apply must_ioctl_keeps. Qed.

Lemma open_camera_ok q : takes (λ s t, idle s t ∧ queues s = q) (λ _, with_device q) (open_camera answer).
Proof.
  unfold open_camera. set (I := λ s t, manager_only q s t ∧ camera_ s = false ∧ camera_manager_ s = true).
  assert (Hres : ∀ s t, I s t → res_ok s t) by (intros s t H; apply H).
  assert (Hn : ∀ c, (∀ z, neutral (Did c z)) → (∀ z t, in_order (Did c z) t) → stable I c).
  { intros c H1 H2 s t z [H Hm]. split; [by apply manager_neutral|done]. }
  intros s t [Hi Hq]. xwp_step. xwp_step. xwp_step. apply xwp_ask.
  assert (H : I (with_camera true (camera_ s) (camera_configuration_ s) (allocator_ s) (video_stream_ s) s) (Did ManagerStart (answer ManagerStart t) :: t)).
  { split; [by apply manager_started|]. split; [by destruct Hi as [_ _ [_ ?] _ _ _ _ _]|done]. }
  revert H. generalize (answer ManagerStart t). intros z. generalize (Did ManagerStart z :: t), (with_camera true (camera_ s) (camera_configuration_ s) (allocator_ s) (video_stream_ s) s).
  clear s t Hi Hq. intros t s H. revert s t H.
  assert (Hall : takes I (λ _, with_device q) (_ ← fail_if (negb (z =? 0)) "failed to start libcamera camera manager";
    cameras ← ask CameraCount;
    s ← xget;
    _ ← fail_if (cameras <=? camera_index (config_ s)) "configured camera index is not available";
    camera ← ask (CameraAt (camera_index (config_ s)));
    _ ← xmodify (λ s, with_camera (camera_manager_ s) (negb (camera =? 0)) (camera_configuration_ s) (allocator_ s) (video_stream_ s) s);
    _ ← fail_if (camera =? 0) "failed to resolve libcamera device";
    acquired ← ask Acquire;
    fail_if (negb (acquired =? 0)) "failed to acquire libcamera device")); [|exact Hall].
  eapply takes_bind; [by apply (takes_fail _ I)|intros []].
  eapply takes_bind; [apply takes_ask; by apply Hn|intros n].
  apply takes_get. intros s0. eapply takes_weaken; [|by intros s t [H _]].
  eapply takes_bind; [by apply (takes_fail _ I)|intros []].
  intros s t (H & Hc & Hm). xwp_step. apply xwp_ask. xwp_step. xwp_step. xwp_step.
  pose proof (manager_resolved q s t (camera_index (config_ s0)) (answer (CameraAt (camera_index (config_ s0))) t) H Hc Hm) as Hr.
  set (s1 := with_camera _ _ _ _ _ s) in *. set (c := answer (CameraAt _) t) in *.
  assert (Hcam : camera_ s1 = negb (c =? 0)) by done. clearbody s1 c. destruct Hr as (Hr & Hq & H1 & H2).
  apply xwp_fail; intros Hz; [done|]. rewrite Hz in Hcam. xwp_step. apply xwp_ask.
  assert (Ho : resolved (Did (CameraAt (camera_index (config_ s0))) c :: t) = true) by (rewrite <- (r_resolved _ _ Hr); done).
  set (t1 := Did (CameraAt _) c :: t) in *. clearbody t1. apply xwp_fail; intros Ha; bool_simpl.
  - apply res_neutral; [|done|done]. split_and!; try done. cbn. by destruct (Z.eqb_spec (answer Acquire t1) 0).
  - rewrite Ha. split_and!; try done. by apply (res_acquire _ _ RCamera).
Qed.

Lemma device_ok q s t : with_device q s t → res_ok s t.
Proof. by intros [H _]. Qed.
Lemma device_stable q c : (∀ z, neutral (Did c z)) → (∀ z t, in_order (Did c z) t) → stable (with_device q) c.
Proof. intros H1 H2 s t z H. by apply device_neutral. Qed.
Lemma device_same q s s' t : same_resources s s' → queues s' = queues s → with_device q s t → with_device q s' t.
Proof.
  intros Hs Eq (H & (? & ? & ? & ?) & ? & ?). pose proof (res_same _ _ _ Hs H). destruct Hs as (E1 & E2 & E3 & E4 & E5 & E6 & _).
  unfold with_device, quiet. by rewrite E2, E3, E5, E6, Eq.
Qed.

(** One step that keeps the invariant [I]; [same] shows that an assignment does. *)
Ltac takes_step I same :=
  lazymatch goal with
  | |- takes _ _ (mbind _ xget) => apply takes_get; intros ?; apply (takes_weaken _ I); [|by intros ? ? [? _]]
  | |- takes _ _ (mbind _ _) => apply (takes_bind I (λ _, I)); [|intros ?]
  | |- takes _ _ (ask _) => apply takes_ask
  | |- takes _ _ (fail_if _ _) => apply (takes_fail I I); [|by intros]
  | |- takes _ _ (xmodify _) => apply (takes_modify I I); intros ? ?; by apply same
  | |- takes _ _ (must_ioctl _ _ _ _ _) => apply (takes_ioctl I)
  | |- takes _ _ (for_each _ _) => apply (takes_for_each I); intros ?
  end.
Ltac device_step q := takes_step (with_device q) device_same; try (by apply device_stable); try apply device_ok.

Lemma configure_camera_ok q : takes (with_device q) (λ _, with_device q) (configure_camera answer).
Proof. unfold configure_camera. repeat device_step q. Qed.
Lemma create_requests_ok q : takes (with_device q) (λ _, with_device q) (create_requests answer).
Proof. unfold create_requests, create_request. repeat device_step q. Qed.

Lemma start_camera_ok q : takes (with_device q) (λ _, running q) (start_camera answer).
Proof.
  unfold start_camera. device_step q. device_step q; [device_step q|].
  assert (Hres : ∀ s t, running q s t → res_ok s t) by (intros s t [H _]; by eapply device_ok).
  intros s t H. xwp_step. apply xwp_ask. xwp_step. apply xwp_fail; intros Hz; bool_simpl.
  - apply res_neutral; [|apply H|by eapply device_ok]. split; [|done]. cbn. by destruct (Z.eqb_spec (answer (CameraStart (frame_duration (config_ a))) t) 0).
  - rewrite Hz. revert Hz. intros _. apply (takes_for_each (running q)).
    + intros i. eapply takes_bind; [apply takes_ask|intros z; by apply (takes_fail _ (running q))].
      intros s' t' z H'. apply running_neutral; [done|apply H'|done].
    + destruct H as (H & Hq & Hc & Hh). split; [|done]. split_and!; try done. by apply (res_acquire _ _ RRunning).
Qed.

Lemma initialize_camera_ok q : takes (λ s t, idle s t ∧ queues s = q) (λ _, running q) (InitializeCamera answer).
Proof.
  unfold InitializeCamera. eapply takes_bind; [apply open_camera_ok|intros []]. eapply takes_bind; [apply configure_camera_ok|intros []].
  eapply takes_bind; [apply create_requests_ok|intros []]. apply start_camera_ok.
Qed.

(** *** The encoder *)

(** The kernel does not map where something is mapped already. *)
Hypothesis mmap_fresh : ∀ fd n off t size, answer (Mmap fd n off) t ≠ MAP_FAILED → holds (RMap (answer (Mmap fd n off) t) size) t = false.

Lemma encoder_ok fd q s t : encoder_open fd q s t → res_ok s t.
Proof. by intros [H _]. Qed.
Lemma encoder_same fd q s s' t : same_resources s s' → queues s' = queues s → encoder_open fd q s t → encoder_open fd q s' t.
Proof.
  intros Hs Eq (H & ? & ? & ? & ? & ? & ?). pose proof (res_same _ _ _ Hs H). destruct Hs as (E1 & E2 & E3 & E4 & E5 & E6 & _).
  unfold encoder_open. by rewrite E3, E5, E6, Eq.
Qed.

Lemma open_encoder_ok q s t : running q s t →
  if answer Open t <? 0 then res_ok (with_fd (answer Open t) s) (Did Open (answer Open t) :: t)
  else encoder_open (answer Open t) q (with_fd (answer Open t) s) (Did Open (answer Open t) :: t) ∧ capture_buffers_ s = [].
Proof.
  intros [(H & (Hf & ? & ? & ?) & ? & ?) Hr]. pose proof (r_nomaps _ _ H Hf) as Hb.
  assert (Hno : ∀ fd, holds (RFd fd) t = false) by (intros fd; apply not_true_iff_false; rewrite (r_fd _ _ H); lia).
  destruct (Z.ltb_spec (answer Open t) 0) as [Hz|Hz].
  - assert (Hn : neutral (Did Open (answer Open t))) by (split; [|done]; unfold acquires; by rewrite (proj2 (Z.leb_gt 0 (answer Open t)) Hz)).
    apply res_neutral; [done|done|]. destruct H. constructor; try done; [|auto]. intros fd. rewrite Hno. cbn. split; [done|lia].
  - assert (Ha : acquires (Did Open (answer Open t)) = Some (RFd (answer Open t))) by (unfold acquires; by rewrite (proj2 (Z.leb_le 0 (answer Open t)) Hz)).
    assert (Hh : ∀ r, holds r (Did Open (answer Open t) :: t) = if decide (r = RFd (answer Open t)) then true else holds r t)
      by (intros r; by rewrite (holds_acquired _ _ _ _ Ha)).
    split; [|done]. split_and!; try done; [|by rewrite Hh, decide_False by done]. destruct H.
    constructor; try done; try (by split); rewrite ?Hh, ?decide_False by done; auto.
    + intros fd. rewrite Hh, Hno. cbn. case_decide as E; [by injection E as ->|]. split; [done|]. intros [-> _]. by destruct E.
    + intros m n. by rewrite Hh, decide_False by done.
Qed.

Lemma encoder_ioctl_stable fd q r : stable (encoder_open fd q) (Ioctl fd r).
Proof. intros s t z H. apply encoder_neutral; [done| |done]. by eapply encoder_held. Qed.

Definition blank (fd : Z) (q : shared) (s : capturer) (t : trace) : Prop := encoder_open fd q s t ∧ capture_buffers_ s = [].
Lemma blank_stable fd q c : (∀ z, neutral (Did c z)) → (∀ z s t, encoder_open fd q s t → in_order (Did c z) t) → stable (blank fd q) c.
Proof. intros Hn Ho s t z [H Hb]. split; [|done]. apply encoder_neutral; eauto. Qed.
Lemma blank_ok fd q s t : blank fd q s t → res_ok s t.
Proof. by intros [[H _] _]. Qed.
Lemma blank_ioctl fd q r m : takes (blank fd q) (λ _, blank fd q) (must_ioctl answer interrupted fd r m).
Proof. apply takes_ioctl; [|apply blank_ok]. apply blank_stable; [done|]. intros z s t. apply encoder_held. Qed.

Lemma configure_encoder_ok fd q : takes (blank fd q) (λ _, blank fd q) (configure_encoder answer interrupted fd).
Proof.
  unfold configure_encoder. apply takes_get. intros s. apply (takes_weaken _ (blank fd q)); [|by intros ? ? [? _]]. cbv zeta.
  repeat (apply (takes_bind _ (λ _, blank fd q)); [apply blank_ioctl|intros []]). apply blank_ioctl.
Qed.

(** The capture buffers from [i] on are not mapped yet. *)
Definition mapped_to (i n : nat) (s : capturer) : Prop :=
  length (capture_buffers_ s) = n ∧ ∀ j, (i ≤ j < n)%nat → capture_buffers_ s !! j = Some unmapped.
Definition with_outputs (k : nat) (q : shared) : shared := set_output_buffers (sh_available q ++ seq 0 k) (replicate k None) q.

Lemma request_buffers_ok fd q : takes (blank fd q)
  (λ _ s t, (∃ k, encoder_open fd (with_outputs k q) s t) ∧ mapped_to 0 (length (capture_buffers_ s)) s) (request_buffers answer interrupted fd).
Proof.
  unfold request_buffers. apply takes_get. intros s0. apply (takes_weaken _ (blank fd q)); [|by intros ? ? [? _]].
  apply (takes_bind _ (λ _, blank fd q)); [apply blank_ioctl|intros []].
  apply (takes_bind _ (λ _, blank fd q)); [by apply takes_ask, blank_stable|intros k].
  apply (takes_bind _ (λ _ s t, blank fd (with_outputs (Z.to_nat (u32 k)) q) s t)); [|intros []].
  { apply takes_modify. intros s t [(H & ? & ? & ? & ? & Hq & ?) Hb]. split; [|done]. split_and!; try done; [|cbn; by rewrite Hq].
    destruct H. constructor; try done. cbn. lia. }
  apply (takes_bind _ (λ _, blank fd (with_outputs (Z.to_nat (u32 k)) q))); [apply blank_ioctl|intros []].
  apply (takes_bind _ (λ _, blank fd (with_outputs (Z.to_nat (u32 k)) q))); [by apply takes_ask, blank_stable|intros c].
  apply (takes_modify _ (λ s t, (∃ k, encoder_open fd (with_outputs k q) s t) ∧ mapped_to 0 (length (capture_buffers_ s)) s)).
  intros s t [(H & <- & ? & ? & ? & Hq & ?) Hb]. split.
  - exists (Z.to_nat (u32 k)). split_and!; try done. destruct H. constructor; try done; cbn.
    + intros m n. rewrite r_maps0, Hb. split; [by intros [?%elem_of_nil ?]|]. intros [Hin Hm]. apply elem_of_replicate in Hin as [[= -> _] _]. done.
    + intros i j b b' Hi _ _ Hm. apply lookup_replicate in Hi as [-> _]. done.
    + lia.
  - split; [done|]. intros j Hj. cbn in *. rewrite length_replicate in Hj. by rewrite lookup_replicate_2 by lia.
Qed.

Lemma no_fd_maps s t : res_ok s t → capture_buffers_ s ≠ [] → 0 ≤ encoder_fd_ s.
Proof. intros H Hb. destruct (Z.lt_ge_cases (encoder_fd_ s) 0) as [Hf|]; [|done]. by apply (r_nomaps _ _ H) in Hf. Qed.

Lemma res_map s t fd n off m i : res_ok s t → capture_buffers_ s !! i = Some unmapped → m ≠ MAP_FAILED →
  (∀ k, holds (RMap m k) t = false) → holds (RFd fd) t = true →
  res_ok (with_buffers (<[i := mk_capture_buffer m n]> (capture_buffers_ s)) s) (Did (Mmap fd n off) m :: t).
Proof.
  intros H Hi Hm Hfresh Hfd. assert (Ha : acquires (Did (Mmap fd n off) m) = Some (RMap m n)) by (unfold acquires; by rewrite (proj2 (Z.eqb_neq _ _) Hm)).
  assert (Hh : ∀ r, holds r (Did (Mmap fd n off) m :: t) = if decide (r = RMap m n) then true else holds r t)
    by (intros r; by rewrite (holds_acquired _ _ _ _ Ha)).
  assert (Hl : (i < length (capture_buffers_ s))%nat) by by eapply lookup_lt_Some.
  assert (Hfd' : 0 ≤ encoder_fd_ s) by (apply (no_fd_maps s t H); by intros E; rewrite E in Hi).
  assert (Hold : ∀ j b, capture_buffers_ s !! j = Some b → memory b ≠ m).
  { intros j [m' n'] Hj E. cbn in E. subst m'. specialize (Hfresh n'). apply not_true_iff_false in Hfresh as []. apply (r_maps _ _ H).
    split; [by eapply list_elem_of_lookup_2|done]. }
  destruct H. constructor; cbn [with_buffers camera_manager_ camera_ encoder_fd_ capture_buffers_ encoder_input_thread_ encoder_poll_thread_];
    try done; try (by split); rewrite ?Hh, ?decide_False by done; auto.
  - intros fd'. rewrite Hh, decide_False by done. auto.
  - intros m' n'. rewrite Hh. case_decide as E.
    + injection E as -> ->. split; [|done]. intros _. split; [|done]. apply list_elem_of_lookup_2 with i. by rewrite list_lookup_insert_eq.
    + rewrite r_maps0. split; intros [Hin ?]; (split; [|done]); apply list_elem_of_lookup_1 in Hin as [j Hj]; apply list_elem_of_lookup_2 with j.
      * rewrite list_lookup_insert_ne; [done|]. intros <-. rewrite Hi in Hj. by injection Hj as <- <-.
      * destruct (decide (i = j)) as [<-|]; [|by rewrite list_lookup_insert_ne in Hj]. rewrite list_lookup_insert_eq in Hj by done. congruence.
  - intros j k b b' Hj Hk Hbb Hb'. apply list_lookup_insert_Some in Hj as [(<- & <- & _)|[Nj Hj]], Hk as [(<- & <- & _)|[Nk Hk]]; [done|..|eauto].
    + by destruct (Hold _ _ Hk).
    + by destruct (Hold _ _ Hj).
  - lia.
Qed.

Lemma res_unmap s t i b z : res_ok s t → capture_buffers_ s !! i = Some b → memory b ≠ MAP_FAILED → no_threads t →
  res_ok (with_buffers (<[i := unmapped]> (capture_buffers_ s)) s) (Did (Munmap (memory b) (size b)) z :: t).
Proof.
  intros H Hi Hm Hno. pose proof (λ r, holds_released (Did (Munmap (memory b) (size b)) z) (RMap (memory b) (size b)) r t eq_refl eq_refl) as Hh.
  assert (Hl : (i < length (capture_buffers_ s))%nat) by by eapply lookup_lt_Some.
  assert (Hheld : holds (RMap (memory b) (size b)) t = true).
  { apply (r_maps _ _ H). split; [|done]. apply list_elem_of_lookup_2 with i. by destruct b. }
  assert (Hfd' : 0 ≤ encoder_fd_ s) by (apply (no_fd_maps s t H); by intros E; rewrite E in Hi).
  destruct H. constructor; cbn [with_buffers camera_manager_ camera_ encoder_fd_ capture_buffers_ encoder_input_thread_ encoder_poll_thread_];
    try done; try (by split); rewrite ?Hh, ?decide_False by done; auto.
  - intros m' n'. rewrite Hh. case_decide as E.
    + injection E as -> ->. split; [done|]. intros [Hin _]. apply list_elem_of_lookup_1 in Hin as [j Hj].
      destruct (decide (i = j)) as [<-|Nj]; [rewrite list_lookup_insert_eq in Hj by done; injection Hj as Eb _; by destruct Hm|].
      rewrite list_lookup_insert_ne in Hj by done. destruct Nj. by eapply r_apart0.
    + rewrite r_maps0. split; intros [Hin ?]; (split; [|done]); apply list_elem_of_lookup_1 in Hin as [j Hj]; apply list_elem_of_lookup_2 with j.
      * rewrite list_lookup_insert_ne; [done|]. intros <-. rewrite Hi in Hj. by injection Hj as ->.
      * destruct (decide (i = j)) as [<-|]; [|by rewrite list_lookup_insert_ne in Hj]. rewrite list_lookup_insert_eq in Hj by done. by injection Hj as <- _.
  - intros j k b1 b2 Hj Hk Hbb Hb'. apply list_lookup_insert_Some in Hj as [(<- & <- & _)|[Nj Hj]], Hk as [(<- & <- & _)|[Nk Hk]]; [done|done| |eauto].
    by rewrite Hbb in Hb'.
  - lia.
Qed.

(** The capture buffers are mapped one after the other. *)
Definition mapping (fd : Z) (q : shared) (i n : nat) (s : capturer) (t : trace) : Prop := encoder_open fd q s t ∧ mapped_to i n s.
Lemma mapping_stable fd q i n c : (∀ z, neutral (Did c z)) → (∀ z s t, encoder_open fd q s t → in_order (Did c z) t) → stable (mapping fd q i n) c.
Proof. intros Hn Ho s t z [H Hb]. split; [|done]. apply encoder_neutral; eauto. Qed.
Lemma mapping_ok fd q i n s t : mapping fd q i n s t → res_ok s t.
Proof. by intros [[H _] _]. Qed.
Lemma mapping_ioctl fd q i n r m : takes (mapping fd q i n) (λ _, mapping fd q i n) (must_ioctl answer interrupted fd r m).
Proof. apply takes_ioctl; [|apply mapping_ok]. apply mapping_stable; [done|]. intros z s t. apply encoder_held. Qed.

Lemma map_buffer_ok fd q i n : (i < n)%nat →
  takes (mapping fd q i n) (λ _, mapping fd q (S i) n) (map_buffer answer interrupted fd i).
Proof.
  intros Hi. unfold map_buffer. apply (takes_bind _ (λ _, mapping fd q i n)); [apply mapping_ioctl|intros []].
  apply (takes_bind _ (λ _, mapping fd q i n)); [by apply takes_ask, mapping_stable|intros len].
  apply (takes_bind _ (λ _, mapping fd q i n)); [by apply takes_ask, mapping_stable|intros off].
  intros s t [H Hm]. pose proof (encoder_held _ _ _ _ H) as Hfd. xwp_step. apply xwp_ask. xwp_step. apply xwp_fail; intros Hz.
  - apply res_neutral; [|done|by eapply encoder_ok]. split; [|done]. unfold acquires. by rewrite Hz.
  - xwp_step. xwp_step. apply Z.eqb_neq in Hz. apply mapping_ioctl. split.
    + destruct H as (H & ? & ? & ? & ? & ? & ?). split_and!; try done.
      * apply res_map; auto. by apply Hm.
      * rewrite (holds_acquired _ (RMap (answer (Mmap fd (u32 len) off) t) (u32 len))) by (unfold acquires; by rewrite (proj2 (Z.eqb_neq _ _) Hz)).
        by rewrite !decide_False by done.
    + destruct Hm as [Hl Hm]. split; cbn; [by rewrite length_insert|]. intros j Hj. rewrite list_lookup_insert_ne by lia. apply Hm. lia.
Qed.

Lemma map_buffers_ok fd q n : ∀ k i, (i + k = n)%nat →
  takes (mapping fd q i n) (λ _, mapping fd q n n) (for_each (map_buffer answer interrupted fd) (seq i k)).
Proof.
  induction k as [|k IH]; intros i Hk.
  - replace i with n by lia. intros s t H. by apply xwp_ret.
  - cbn. apply (takes_bind _ (λ _, mapping fd q (S i) n)); [apply map_buffer_ok; lia|]. intros []. apply IH. lia.
Qed.

Lemma initialize_encoder_ok q : takes (running q) (λ (_ : unit) s t, ∃ fd k, encoder_open fd (with_outputs k q) s t) (InitializeEncoder answer interrupted).
Proof.
  intros s t H. unfold InitializeEncoder. xwp_step. apply xwp_ask. xwp_step. xwp_step. xwp_step.
  pose proof (open_encoder_ok q s t H) as Ho. apply xwp_fail; intros Hz; rewrite Hz in Ho; [done|]. clear Hz H.
  revert Ho. generalize (answer Open t), (Did Open (answer Open t) :: t). clear t. intros fd t Ho.
  apply (takes_bind (blank fd q) (λ _, blank fd q)); [apply configure_encoder_ok|intros []|exact Ho].
  eapply takes_bind; [apply request_buffers_ok|intros []]. apply takes_get. intros s1.
  intros s2 t2 [[[k Hk] Hm] ->]. remember (length (capture_buffers_ s2)) as n eqn:En. clear En.
  apply (takes_bind (mapping fd (with_outputs k q) 0 n) (λ _, mapping fd (with_outputs k q) n n)); [by apply map_buffers_ok|intros []|done].
  eapply takes_bind; [apply mapping_ioctl|intros []]. intros s3 t3 H3. eapply xwp_mono; [by eapply mapping_ioctl| |done].
  intros _ s4 t4 [H4 _]. eauto.
Qed.

(** A thread starts. *)
Lemma start_thread_ok (b : bool) fd q s t : res_ok s t → encoder_fd_ s = fd → holds RRunning t = true → (if b then encoder_poll_thread_ s else encoder_input_thread_ s) = false →
  queues s = q → xwp (start_thread answer b) (λ _ s' t', res_ok s' t' ∧ encoder_fd_ s' = fd ∧ holds RRunning t' = true ∧
    encoder_poll_thread_ s' = (encoder_poll_thread_ s || b) ∧ queues s' = q ∧ requests_ s' = requests_ s) safe s t.
Proof.
  intros H Hf Hr Hb Hq. unfold start_thread. xwp_step. apply xwp_ask. xwp_step.
  assert (Ho : holds (RThread b) t = false) by (by destruct b; [rewrite (r_poll _ _ H)|rewrite (r_input _ _ H)]).
  apply xwp_fail; intros Hz; bool_simpl.
  - apply res_neutral; [|done|done]. split; [|done]. unfold acquires. by rewrite (proj2 (Z.eqb_neq _ _) Hz).
  - rewrite Hz. xwp_step. pose proof (λ r, holds_acquired (Did (StartThread b) 0) (RThread b) r t eq_refl) as Hh. split_and!; try done.
    destruct H. constructor; cbn [with_threads camera_manager_ camera_ encoder_fd_ capture_buffers_ encoder_input_thread_ encoder_poll_thread_];
      try done; try (by split); rewrite ?Hh.
    + destruct b; rewrite ?decide_False, ?decide_True by done; cbn; rewrite ?orb_false_r, ?orb_true_r; done.
    + destruct b; rewrite ?decide_False, ?decide_True by done; cbn; rewrite ?orb_false_r, ?orb_true_r; done.
Qed.

(** [Start] from a capturer that holds nothing: the pipeline is in its initial state, or
    what was taken is known to the members. *)
Definition queues_of (p : pipeline) : shared :=
  mk_shared (stop_requested_ p) (fatal_error_ p) (status_ p) (pending_requests_ p) (available_output_buffers_ p)
    (encoded_frames_ p) (output_slots_ p).
(** The queues that [Stop] leaves behind, and those of a new object. *)
Definition empty_queues (q : shared) : Prop :=
  sh_fatal_error q = None ∧ sh_pending q = [] ∧ sh_available q = [] ∧ sh_frames q = [] ∧ sh_slots q = [].

Lemma idle_queues f s t : sh_available (f (queues s)) = sh_available (queues s) → sh_slots (f (queues s)) = sh_slots (queues s) →
  idle s t → idle (with_queues f s) t.
Proof. intros E1 E2 []. constructor; try done. cbn. by rewrite E1, E2. Qed.

Lemma capturer_start_ok s t : idle s t → sh_status (queues s) ≠ cStreaming → empty_queues (queues s) →
  xwp (Start answer interrupted) (λ _ s' t', res_ok s' t' ∧ ∃ k, queues s' = queues_of (started_pipeline (requests_ s') k)) safe s t.
Proof.
  intros Hi Hs (Q1 & Q2 & Q3 & Q4 & Q5). unfold Start. xwp_step. xwp_step. rewrite bool_decide_eq_false_2 by done.
  xwp_step; [xwp_step; by apply idle_ok|]. xwp_step. xwp_step. xwp_step.
  eapply xwp_mono; [apply (initialize_camera_ok (set_stop false (queues s))); split; [by apply idle_queues|done]|cbn beta|done].
  intros [] s1 t1 H1. xwp_step. eapply xwp_mono; [apply (initialize_encoder_ok _ _ _ H1)|cbn beta|done].
  intros [] s2 t2 (fd & k & H2 & Hf & _ & Hi2 & Hp2 & Hq2 & Hr2). xwp_step.
  eapply xwp_mono; [by eapply (start_thread_ok false)|cbn beta|done]. intros [] s3 t3 (H3 & Hf3 & Hr3 & Hp3 & Hq3 & Hn3). xwp_step.
  eapply xwp_mono; [eapply (start_thread_ok true); try done; by rewrite Hp3, Hp2|cbn beta|done]. intros [] s4 t4 (H4 & _ & _ & _ & Hq4 & _).
  xwp_step. split; [by apply (res_same s4)|]. exists k. cbn. rewrite Hq4. unfold set_status, with_outputs, set_output_buffers, queues_of. cbn.
  by rewrite Q1, Q2, Q3, Q4.
Qed.

(** *** [Stop] *)

Definition never (_ : string) (_ : capturer) (_ : trace) : Prop := False.
Definition stopped (s : capturer) (t : trace) : Prop := res_ok s t ∧ holds RRunning t = false.
Definition joined (s : capturer) (t : trace) : Prop := stopped s t ∧ encoder_input_thread_ s = false ∧ encoder_poll_thread_ s = false.

Lemma joined_threads s t : joined s t → no_threads t.
Proof. intros ([H _] & Hi & Hp) []; [by rewrite (r_poll _ _ H)|by rewrite (r_input _ _ H)]. Qed.

Lemma stop_camera_ok s t : res_ok s t →
  xwp (xwhen (camera_ s) (_ ← ask Disconnect; _ ← ask CameraStop; mret tt)) (λ _ s' t', stopped s' t') never s t.
Proof.
  intros H. xwp_step.
  - xwp_step. apply xwp_ask. xwp_step. apply xwp_ask. xwp_step. split; [|done]. pose proof (r_managed _ _ H). pose proof (r_resolved _ _ H).
    apply (res_release s _ _ RRunning); try done; [cbn; congruence|]. apply res_neutral; [done|cbn; congruence|done].
  - split; [done|]. apply not_true_iff_false. intros Hr. apply (r_running _ _ H) in Hr. congruence.
Qed.

(** [Stop] is at the join of a thread that does not end. *)
Definition hung (e : string) (s : capturer) (t : trace) : Prop :=
  e = waits_for_ever ∧ holds RRunning t = false ∧ guarded in_order t ∧ ∃ poll, holds (RThread poll) t = true ∧ ends poll t = false.

Lemma join_ok (b : bool) s t : stopped s t → xwp (JoinThread answer ends b)
  (λ _ s' t', stopped s' t' ∧ (if b then encoder_poll_thread_ s' else encoder_input_thread_ s') = false ∧
     (if b then encoder_input_thread_ s' = encoder_input_thread_ s else True)) hung s t.
Proof.
  intros [H Hr]. unfold JoinThread. xwp_step. xwp_step. xwp_step.
  - xwp_step. unfold join, xwp at 1. destruct (ends b t) eqn:Ee; cbn [throw].
    2: { split_and!; try done; [apply H|]. exists b. split; [|done]. by destruct b; [rewrite (r_poll _ _ H)|rewrite (r_input _ _ H)]. }
    unfold CaptureSetup.ask, xcall. xwp_step. pose proof (λ r, holds_released (Did (Join b) (answer (Join b) t)) (RThread b) r t eq_refl eq_refl) as Hh.
    assert (Ho : holds (RThread b) t = true) by (by destruct b; [rewrite (r_poll _ _ H)|rewrite (r_input _ _ H)]).
    split; [|destruct b; cbn; by rewrite ?andb_false_r, ?andb_true_r]. split; [|done].
    destruct H. constructor; cbn [with_threads camera_manager_ camera_ encoder_fd_ capture_buffers_ encoder_input_thread_ encoder_poll_thread_];
      try done; try (by split); rewrite ?Hh; destruct b; rewrite ?decide_False, ?decide_True by done; cbn; rewrite ?andb_false_r, ?andb_true_r; done.
  - split; [done|]. by destruct b.
Qed.

(** The encoder is shut down: what is left has no thread and is not running. *)
Definition closing (fd : Z) (i n : nat) (s : capturer) (t : trace) : Prop :=
  joined s t ∧ encoder_fd_ s = fd ∧ 0 ≤ fd ∧ length (capture_buffers_ s) = n ∧
  ∀ j b, (j < i)%nat → capture_buffers_ s !! j = Some b → memory b = MAP_FAILED.

Lemma joined_neutral s e t : neutral e → in_order e t → joined s t → joined s (e :: t).
Proof. intros Hn Ho ([H Hr] & ? & ?). split; [|done]. split; [by apply res_neutral|by rewrite holds_neutral]. Qed.
Lemma closing_ioctl fd i n r : xkeeps (closing fd i n) never (RetryIoctl answer interrupted fd r).
Proof.
  apply retry_keeps. intros s t z (H & Hf & Hrest). split; [|done]. apply joined_neutral; [done| |done].
  destruct H as ((H & _) & _), Hrest as [? _]. by apply (r_fd _ _ H).
Qed.

Lemma unmap_ok fd i n s t : closing fd i n s t → xwp (unmap_buffer answer i) (λ _, closing fd (S i) n) never s t.
Proof.
  intros (H & Hf & Hf0 & Hn & Hl). unfold unmap_buffer. xwp_step. xwp_step.
  destruct (capture_buffers_ s !! i) as [b|] eqn:Ei.
  - xwp_step; bool_simpl.
    + xwp_step. apply xwp_ask. xwp_step. pose proof (joined_threads _ _ H) as Hno. destruct H as ([H Hr] & ? & ?).
      split; [split; [split; [by apply res_unmap|done]|done]|]. split_and!; try done; cbn; [by rewrite length_insert|].
      intros j b' Hj Hb'. apply list_lookup_insert_Some in Hb' as [(_ & <- & _)|[? Hb']]; [done|]. eapply Hl; [|done]. lia.
    + split_and!; try done. intros j b' Hj Hb'. destruct (decide (j = i)) as [->|]; [congruence|]. eapply Hl; [|done]. lia.
  - xwp_step. split_and!; try done. intros j b' Hj Hb'. destruct (decide (j = i)) as [->|]; [congruence|]. eapply Hl; [|done]. lia.
Qed.
Lemma unmap_all_ok fd n : ∀ k i s t, closing fd i n s t → xwp (for_each (unmap_buffer answer) (seq i k)) (λ _, closing fd (i + k) n) never s t.
Proof.
  induction k as [|k IH]; intros i s t H; cbn.
  - by rewrite Nat.add_0_r.
  - xwp_step. eapply xwp_mono; [by apply unmap_ok| |done]. intros [] s' t' H'. replace (i + S k)%nat with (S i + k)%nat by lia. by apply IH.
Qed.

Lemma shutdown_encoder_ok s t : joined s t →
  xwp (ShutdownEncoder answer interrupted) (λ _ s' t', joined s' t' ∧ encoder_fd_ s' < 0) never s t.
Proof.
  intros H. unfold ShutdownEncoder. xwp_step. xwp_step. xwp_step; bool_simpl; [|split; [done|lia]].
  set (fd := encoder_fd_ s) in *. set (n := length (capture_buffers_ s)).
  assert (Hc : closing fd 0 n s t) by (split_and!; try done; intros; lia).
  xwp_step. eapply xwp_mono; [by apply closing_ioctl|cbn beta|done]. intros _ s1 t1 H1.
  xwp_step. eapply xwp_mono; [by apply closing_ioctl|cbn beta|done]. intros _ s2 t2 H2.
  xwp_step. eapply xwp_mono; [by apply unmap_all_ok|cbn beta|done]. intros _ s3 t3 (H3 & Hf & Hf0 & Hn & Hl).
  xwp_step. xwp_step. xwp_step. apply xwp_ask. xwp_step. split; [|cbn; lia].
  pose proof (joined_threads _ _ H3) as Hno. destruct H3 as ([H3 Hr] & Hi & Hp).
  assert (Hm : ∀ m k, holds (RMap m k) t3 = false).
  { intros m k. apply not_true_iff_false. rewrite (r_maps _ _ H3). intros [Hin Hm]. apply list_elem_of_lookup_1 in Hin as [j Hj].
    apply Hm. eapply (Hl j (mk_capture_buffer m k)); [|done]. apply lookup_lt_Some in Hj. cbn in *. lia. }
  assert (Hfd : holds (RFd fd) t3 = true) by (by apply (r_fd _ _ H3)).
  pose proof (λ r, holds_released (Did (Close fd) (answer (Close fd) t3)) (RFd fd) r t3 eq_refl eq_refl) as Hh.
  split; [|done]. split; [|by rewrite Hh]. destruct H3. constructor; try done; try (by split); rewrite ?Hh, ?decide_False by done; cbn [with_fd with_buffers with_queues camera_manager_ camera_ encoder_fd_ capture_buffers_]; auto.
  - intros fd'. rewrite Hh. case_decide; [split; [done|lia]|]. rewrite r_fd0, Hf. split; [intros [-> _]; by destruct H0|lia].
  - intros m k. rewrite Hh, decide_False, Hm by done. split; [done|]. by intros [?%elem_of_nil _].
Qed.

(** The camera is let go of. *)
Definition released (s : capturer) (t : trace) : Prop := joined s t ∧ encoder_fd_ s < 0 ∧ camera_ s = false ∧ holds RCamera t = false.

Lemma release_ok s t : joined s t → encoder_fd_ s < 0 →
  xwp (xwhen (camera_ s) (_ ← ask Release; xmodify (λ s, with_camera (camera_manager_ s) false (camera_configuration_ s) (allocator_ s) (video_stream_ s) s)))
    (λ _ s' t', released s' t' ∧ camera_manager_ s' = camera_manager_ s ∧ queues s' = queues s) never s t.
Proof.
  intros H Hf. pose proof (joined_threads _ _ H) as Hno. destruct H as ([H Hr] & Hi & Hp). xwp_step.
  - xwp_step. apply xwp_ask. xwp_step. split; [|done]. split; [|done]. split; [|done]. split; [|done].
    pose proof (r_managed _ _ H). pose proof (r_resolved _ _ H).
    apply (res_release s _ _ RCamera); try done; cbn. split_and!; [congruence|done..].
  - split; [|done]. split; [done|]. split; [done|]. split; [done|]. apply not_true_iff_false. intros Hc.
    apply (r_camera _ _ H) in Hc. congruence.
Qed.

Lemma released_idle s t : released s t → camera_manager_ s = false → idle s t.
Proof.
  intros (Hj & Hf & Hc & Hh) Hm. pose proof (joined_threads _ _ Hj) as Hno. destruct Hj as ([H Hr] & Hi & Hp).
  constructor; try done; [|apply H| |by apply H|by apply H].
  2: { rewrite <- (r_managed _ _ H), <- (r_resolved _ _ H). done. }
  intros [| | |fd|m n|b]; try done; apply not_true_iff_false.
  - intros E. apply (r_manager _ _ H) in E. congruence.
  - rewrite (r_fd _ _ H). lia.
  - rewrite (r_maps _ _ H), (r_nomaps _ _ H Hf). by intros [?%elem_of_nil _].
Qed.

Lemma shutdown_camera_ok s t : joined s t → encoder_fd_ s < 0 → xwp (ShutdownCamera answer) (λ _ s' t', idle s' t' ∧ queues s' = queues s) never s t.
Proof.
  intros Hj Hf. unfold ShutdownCamera. xwp_step. xwp_step. xwp_step. xwp_step. xwp_step.
  set (s1 := with_sizes 0 0 _). assert (Hj1 : joined s1 t) by (destruct Hj as ([H Hr] & ? & ?); split; [split; [by apply (res_same s)|done]|done]).
  eapply xwp_mono; [by apply (release_ok s1)|cbn beta|done]. intros [] s2 t2 (Hrel & Hm & Hq). xwp_step.
  - xwp_step. apply xwp_ask. xwp_step. split; [|done]. apply released_idle; [|done]. destruct Hrel as (([H Hr] & ? & ?) & ? & ? & Hh).
    split; [|done]. split; [|done]. split; [|done].
    pose proof (r_managed _ _ H). pose proof (r_resolved _ _ H).
    apply (res_release s2 _ _ RManager); try done; cbn. split_and!; [congruence|congruence|done].
  - split; [|done]. apply released_idle; [done|]. congruence.
Qed.

Lemma capturer_stop_ok s t : res_ok s t → xwp (Stop answer interrupted ends) (λ _ s' t', idle s' t' ∧ empty_queues (queues s') ∧ sh_status (queues s') = cStopped) hung s t.
Proof.
  intros H. unfold Stop. xwp_step. xwp_step. xwp_step. xwp_step. xwp_step.
  eapply xwp_mono; [apply stop_camera_ok; by apply (res_same s)|cbn beta|done]. intros [] s1 t1 H1. xwp_step.
  eapply xwp_mono; [by apply (join_ok false)|cbn beta|done]. intros [] s2 t2 (H2 & Hi & _). xwp_step.
  eapply xwp_mono; [by apply (join_ok true)|cbn beta|done]. intros [] s3 t3 (H3 & Hp & Hi'). xwp_step.
  eapply xwp_mono; [apply shutdown_encoder_ok; split; [done|by rewrite Hi']|cbn beta|done]. intros [] s4 t4 [H4 Hf]. xwp_step.
  eapply xwp_mono; [by apply shutdown_camera_ok|cbn beta|done]. intros [] s5 t5 [H5 _]. xwp_step.
  split; [by apply idle_queues|]. destruct H5 as [_ _ _ _ _ _ [E1 E2] _]. split; [|done]. by split_and!.
Qed.

End Balance.

(** The outside of the example: everything succeeds but the last thread. *)
Definition top (t : trace) : Z :=
  foldr (λ e acc, match e with Did (Mmap _ _ _) m => Z.max m acc | _ => acc end) 0 t.
Definition demo_answer (c : call) (t : trace) : Z :=
  match c with
  | CameraCount | CameraAt _ | GenerateConfiguration | CreateRequest => 1
  | BufferCount | OutCount => 2
  | Open => 3
  | OutLength => 4096
  | Mmap _ _ _ => top t + 4096
  | StartThread poll => if poll then 11 else 0
  | _ => 0
  end.

Lemma held_below m n t : holds (RMap m n) t = true → m ≤ top t.
Proof.
  induction t as [|[c z] t IH]; [done|]. cbn [holds]. case_decide as Ha.
  - intros _. destruct c; cbn in Ha; try (by destruct (_ =? _)); try (by destruct (0 <=? z)); try done. destruct (z =? MAP_FAILED); [done|]. injection Ha as -> ->.
    change (m ≤ Z.max m (top t)). lia.
  - case_decide; [done|]. intros Hh. specialize (IH Hh). change (m ≤ match c with Mmap _ _ _ => Z.max z (top t) | _ => top t end). destruct c; lia.
Qed.

Lemma capturer_new : idle new_capturer [].
Proof. by constructor. Qed.

Definition demo_capturer : capturer := with_queues (set_status cConfigured) new_capturer.

(** The threads end when they are asked to; the second one never started. *)
Definition demo_ends (poll : bool) (t : trace) : bool := true.
Definition demo_stop := Stop demo_answer (λ _, false) demo_ends (Start demo_answer (λ _, false) demo_capturer []).1.2 (Start demo_answer (λ _, false) demo_capturer []).2.

(** An interrupted call is repeated at most ten times, and changes nothing. *)
Theorem retry_ioctl_bounded answer interrupted fd r s t : ∃ z l,
  RetryIoctl answer interrupted fd r s t = (inr z, s, l ++ t) ∧ (1 ≤ length l ≤ 11)%nat ∧ Forall (λ e, ∃ z, e = Did (Ioctl fd r) z) l.
Proof.
  pose proof (retry_bound answer interrupted 10 fd r s t) as H. unfold xwp in H. unfold RetryIoctl.
  destruct (retry_ioctl answer interrupted 10 fd r s t) as [[[e|z] s'] t']; [done|]. destruct H as (-> & l & -> & Hl & Hf). eauto.
Qed.
