(* ===== verification/AwsJson.v ===== *)
(** * JSON values of the AWS SDK

    The agent reads and writes JSON through [Aws::Utils::Json]. The SDK is not
    part of the repository: the accessors of a view, the parser and the writer
    are the operations of a class, and nothing is assumed about them. [json] is a
    plain tree with the same accessors, for concrete runs. *)
From stdpp Require Import countable.
From S2P Require Import Prelude Cpp.

(** What [With...] calls put into a document. *)
Inductive json_value :=
  | JString (v : string) | JInt64 (v : Z) | JBool (v : bool) | JNull | JObject (fields : list (string * json_value)).

Class AwsJson := {
  JsonView : Type;
  (** [JsonValue(text)]: [None] when [WasParseSuccessful] is false, else its view. *)
  json_parse : string → option JsonView;
  IsObject : JsonView → bool;
  IsString : JsonView → bool;
  IsIntegerType : JsonView → bool;
  IsBool : JsonView → bool;
  ValueExists : JsonView → string → bool;
  GetObject : JsonView → string → JsonView;
  GetString : JsonView → string → string;
  GetInt64 : JsonView → string → Z;
  GetBool : JsonView → string → bool;
  GetAllObjects_size : JsonView → Z;
  WriteCompact : list (string * json_value) → string }.

(** [s.c_str()] where a string is read back from it: the text up to the first
    NUL. *)
Fixpoint c_str (s : string) : string :=
  match s with
  | EmptyString => EmptyString
  | String c s => if Ascii.eqb c "000"%char then EmptyString else String c (c_str s)
  end.

(** ** A concrete instance *)

Fixpoint json_get (fields : list (string * json_value)) (name : string) : json_value :=
  match fields with
  | [] => JNull
  | (k, v) :: fields => if String.eqb k name then v else json_get fields name
  end.

Definition json_member (v : json_value) (name : string) : json_value :=
  match v with JObject fields => json_get fields name | _ => JNull end.

(** The tree accessors, with a table of the texts that parse. *)
Definition table_json (texts : string → option json_value)
    (write : list (string * json_value) → string) : AwsJson := {|
  JsonView := json_value;
  json_parse := texts;
  IsObject v := match v with JObject _ => true | _ => false end;
  IsString v := match v with JString _ => true | _ => false end;
  IsIntegerType v := match v with JInt64 _ => true | _ => false end;
  IsBool v := match v with JBool _ => true | _ => false end;
  ValueExists v name := match json_member v name with JNull => false | _ => true end;
  GetObject v name := json_member v name;
  GetString v name := match json_member v name with JString s => s | _ => EmptyString end;
  GetInt64 v name := match json_member v name with JInt64 n => n | _ => 0 end;
  GetBool v name := match json_member v name with JBool b => b | _ => false end;
  GetAllObjects_size v := match v with JObject fields => Z.of_nat (length fields) | _ => 0 end;
  WriteCompact := write |}.

(** * Documents that are written and read back

    What a reader can rely on when the text it parses was written by the same JSON
    library: [JsonRoundtrip] states it for the strings, numbers and booleans of the
    outermost object, and [plain_json] is a library that has it. *)

#[local] Open Scope Z_scope.

(** The member of a view that was written as [v]. Strings are those of the identity
    alphabet, which no writer escapes. *)
Definition reads `{json : AwsJson} (view : JsonView) (name : string) (v : json_value) : Prop :=
  match v with
  | JString s => only_chars identity_chars s = true →
      ValueExists view name = true ∧ IsString (GetObject view name) = true ∧ GetString view name = s
  | JInt64 n => ValueExists view name = true ∧ IsIntegerType (GetObject view name) = true ∧ GetInt64 view name = n
  | JBool b => ValueExists view name = true ∧ IsBool (GetObject view name) = true ∧ GetBool view name = b
  | JNull => ValueExists view name = false
  | JObject _ => True
  end.

Class JsonRoundtrip (json : AwsJson) := {
  written_text fields : c_str (WriteCompact fields) = WriteCompact fields;
  written_reads fields : NoDup fields.*1 →
    ∃ view, json_parse (WriteCompact fields) = Some view ∧ IsObject view = true ∧
      ∀ name, reads view name (json_get fields name) }.

(** ** A library with the law

    A document is the binary digits of the code of its outermost scalars. *)

Abbreviation scalar := (option (string + (Z + bool) + unit)).

Definition scalar_of (v : json_value) : scalar :=
  match v with
  | JString s => Some (inl (inl s))
  | JInt64 n => Some (inl (inr (inl n)))
  | JBool b => Some (inl (inr (inr b)))
  | JNull => Some (inr tt)
  | JObject _ => None
  end.
Definition of_scalar (v : scalar) : json_value :=
  match v with
  | Some (inl (inl s)) => JString s
  | Some (inl (inr (inl n))) => JInt64 n
  | Some (inl (inr (inr b))) => JBool b
  | Some (inr _) => JNull
  | None => JObject []
  end.

Fixpoint digits_of (p : positive) : string :=
  match p with
  | xH => "1"
  | xO p => String "0"%char (digits_of p)
  | xI p => String "1"%char (digits_of p)
  end.
Fixpoint of_digits (s : string) : option positive :=
  match s with
  | EmptyString => None
  | String c EmptyString => Some 1%positive
  | String c s => p ← of_digits s; Some (if Ascii.eqb c "0"%char then xO p else xI p)
  end.

Definition plain_write (fields : list (string * json_value)) : string :=
  digits_of (encode (prod_map id scalar_of <$> fields)).
Definition plain_parse (text : string) : option json_value :=
  p ← of_digits text;
  fields ← decode (A:=list (string * scalar)) p;
  Some (JObject (prod_map id of_scalar <$> fields)).

Definition plain_json : AwsJson := table_json plain_parse plain_write.

Lemma of_digits_of p : of_digits (digits_of p) = Some p.
Proof.
  induction p as [p IH|p IH|]; [| |done]; cbn; destruct (digits_of p) eqn:E; try (by destruct p); cbn in *; by rewrite IH.
Qed.

Lemma digits_of_text p : c_str (digits_of p) = digits_of p.
Proof. induction p as [p IH|p IH|]; cbn; by rewrite ?IH. Qed.

Lemma json_get_scalars fields name : scalar_of (json_get (prod_map id of_scalar <$> (prod_map id scalar_of <$> fields)) name) =
  scalar_of (json_get fields name).
Proof.
  induction fields as [|[k v] fields IH]; [done|]. cbn in *. destruct (String.eqb k name); [|done].
  by destruct v as [| | | |[]].
Qed.

#[global] Instance plain_roundtrip : JsonRoundtrip plain_json.
Proof.
  constructor; [intros; apply digits_of_text|]. intros fields _. cbn. unfold plain_parse, plain_write. rewrite of_digits_of. cbn.
  rewrite decode_encode. cbn. eexists. split; [done|]. split; [done|]. intros name. pose proof (json_get_scalars fields name) as E.
  unfold reads. cbn. destruct (json_get fields name); cbn in *;
    destruct (json_get _ name) eqn:E2 in E |- *; cbn in E; try done; rewrite ?E2; simplify_eq; done.
Qed.
