(* ===== verification/AgentController.v ===== *)
(** * The activation and run records of the agent controller

    [agent/src/activation.cpp] turns observations of a device's lifecycle shadow
    into activations with a deadline; [agent/src/controller.cpp] keeps at most one
    MicroVM run per device and ties it to an activation. Both are pure record
    updates; the reconciliation in [AgentReconcile] saves them and acts on them. *)
From S2P Require Import Prelude Cpp.

(** ** Activations ([activation.hpp], [activation.cpp]) *)

Record Activation := mk_activation {
  act_id : string; started_at : Z; deadline : Z }.

Record ActivationState := mk_activation_state {
  projection_version : Z;
  source_timestamp_ms : Z;
  inactive_observed_at : Z;
  observed : bool;
  active : bool;
  activation : option Activation }.

Definition initial_activation : ActivationState := mk_activation_state 0 0 0 false false None.

Record ProjectionObservation := mk_projection {
  obs_version : Z; obs_active : option bool; obs_source_timestamp_ms : Z; obs_redcon : Z }.

Inductive ActivationChange := unverified | stale | unchanged | inactive | activated.

#[global] Instance Activation_eq_dec : EqDecision Activation.
Proof. solve_decision. Defined.
#[global] Instance ActivationState_eq_dec : EqDecision ActivationState.
Proof. solve_decision. Defined.
#[global] Instance ProjectionObservation_eq_dec : EqDecision ProjectionObservation.
Proof. solve_decision. Defined.
#[global] Instance ActivationChange_eq_dec : EqDecision ActivationChange.
Proof. solve_decision. Defined.

Definition set_inactive_observed_at (now : Z) (s : ActivationState) : ActivationState :=
  mk_activation_state (projection_version s) (source_timestamp_ms s) now (observed s) (active s) (activation s).

(** The identity checks shared by activations and runs. *)
Definition valid_identity (id : string) : bool :=
  negb (string_empty id) && negb (128 <? string_size id) && only_chars identity_chars id.

(** The allocation of a new activation: the time window, then the identity
    source. [new_id] is a [std::function], possibly empty. *)
Definition allocate_activation {E S} (state : ActivationState) (now budget_seconds : Z)
    (new_id : option (X E S string)) : X E S Activation :=
  let started := inactive_observed_at state in
  match new_id with
  | Some new_id =>
      if (started <=? 0) || (now <? started) || (budget_seconds <=? 0) || (3000 <? budget_seconds)
         || (INT64_MAX - budget_seconds <? started)
      then throw "invalid activation time, budget or identity source"
      else
        id ← new_id;
        if negb (valid_identity id)
           || match activation state with Some a => bool_decide (id = act_id a) | None => false end
        then throw "activation identity must be new and nonempty"
        else mret (mk_activation id started (started + budget_seconds))
  | None => throw "invalid activation time, budget or identity source"
  end.

Definition observe_activation {E S} (state : ActivationState) (observation : ProjectionObservation)
    (now budget_seconds : Z) (new_id : option (X E S string))
    : X E S (ActivationChange * ActivationState) :=
  match obs_active observation with
  | None => mret (unverified, state)
  | Some is_active =>
      if (obs_version observation =? 0) || (obs_source_timestamp_ms observation <=? 0) || (now <? 0)
      then mret (unverified, state) else
      if observed state && (obs_version observation <=? projection_version state) then
        if negb (obs_version observation =? projection_version state)
           || negb (eqb is_active (active state))
           || negb (obs_source_timestamp_ms observation =? source_timestamp_ms state)
        then mret (stale, state) else
        mret (unchanged,
              if negb (active state) && (inactive_observed_at state <? now)
              then set_inactive_observed_at now state else state)
      else if observed state && (obs_source_timestamp_ms observation <=? source_timestamp_ms state)
      then mret (stale, state)
      else
        next ← (if is_active && observed state && negb (active state)
                then a ← allocate_activation state now budget_seconds new_id; mret (Some a)
                else mret None);
        let state' := mk_activation_state (obs_version observation) (obs_source_timestamp_ms observation)
                        (if is_active then inactive_observed_at state else now) true is_active
                        (match next with Some a => Some a | None => activation state end) in
        mret (match next with
              | Some _ => activated
              | None => if is_active then unchanged else inactive
              end, state')
  end.

Definition activation_authorized (state : ActivationState) (now : Z) : bool :=
  observed state && active state &&
  match activation state with
  | Some a => (started_at a <=? now) && (now <? deadline a)
  | None => false
  end.

Definition projection_matches_active (state : ActivationState) (observation : ProjectionObservation) : bool :=
  if negb (observed state) || negb (active state) || bool_decide (activation state = None)
     || negb (default false (obs_active observation))
     || (obs_version observation =? 0) || (obs_source_timestamp_ms observation <=? 0)
  then false
  else if obs_version observation =? projection_version state
  then obs_source_timestamp_ms observation =? source_timestamp_ms state
  else (projection_version state <? obs_version observation)
       && (source_timestamp_ms state <? obs_source_timestamp_ms observation).

(** [ExecutionDeadline]: the wall-clock limit and a limit on the steady clock, in
    nanoseconds. *)
Record ExecutionDeadline := mk_deadline { absolute_ : Z; steady_deadline_ : Z }.

Definition execution_deadline {E S} (absolute now steady_now : Z) : X E S ExecutionDeadline :=
  if (now <? 0) || (absolute <=? now) || (3000 <? absolute - now)
  then throw "activation deadline invalid or expired"
  else mret (mk_deadline absolute (steady_now + seconds (absolute - now))).

Definition expired (d : ExecutionDeadline) (now steady_now : Z) : bool :=
  (absolute_ d <=? now) || (steady_deadline_ d <=? steady_now).

(** ** Runs ([controller.hpp], [controller.cpp]) *)

Inductive RunPhase := reserved | running | stopping.

Record RunReservation := mk_run {
  run_id : string; activation_id : string; release : string; request : string;
  microvm_id : string; phase : RunPhase }.

Record ControllerState := mk_controller {
  ctl_activation : ActivationState; run : option RunReservation }.

Inductive CurrentLifecycle := lifecycle_active | lifecycle_inactive | lifecycle_unavailable.
Inductive LaunchResult := accepted | already_known | pending_verification | stop_unassigned.

#[global] Instance RunPhase_eq_dec : EqDecision RunPhase.
Proof. solve_decision. Defined.
#[global] Instance RunReservation_eq_dec : EqDecision RunReservation.
Proof. solve_decision. Defined.
#[global] Instance ControllerState_eq_dec : EqDecision ControllerState.
Proof. solve_decision. Defined.
#[global] Instance CurrentLifecycle_eq_dec : EqDecision CurrentLifecycle.
Proof. solve_decision. Defined.
#[global] Instance LaunchResult_eq_dec : EqDecision LaunchResult.
Proof. solve_decision. Defined.

Definition set_microvm_id (id : string) (r : RunReservation) : RunReservation :=
  mk_run (run_id r) (activation_id r) (release r) (request r) id (phase r).
Definition set_phase (p : RunPhase) (r : RunReservation) : RunReservation :=
  mk_run (run_id r) (activation_id r) (release r) (request r) (microvm_id r) p.
Definition set_run (r : option RunReservation) (c : ControllerState) : ControllerState :=
  mk_controller (ctl_activation c) r.

(** The text up to the next dot, and what follows the dot if there is one. *)
Fixpoint split_dot (s : string) : string * option string :=
  match s with
  | EmptyString => (EmptyString, None)
  | String c s =>
      if Ascii.eqb c "."%char then (EmptyString, Some s)
      else let '(part, rest) := split_dot s in (String c part, rest)
  end.

Definition digits : string := "0123456789".

Definition bad_release_part (part : string) : bool :=
  string_empty part
  || ((1 <? string_size part) && match part with String c _ => Ascii.eqb c "0"%char | EmptyString => false end)
  || negb (only_chars digits part).

(** The loop of [valid_release]: [rest] is the text from [start] on. Each turn
    drops at least the dot, so the length of the text is fuel enough. *)
Fixpoint valid_release_loop (fuel : nat) (rest : string) (parts : Z) : bool :=
  match fuel with
  | O => false
  | S fuel =>
      if string_empty rest then false else
      let '(part, following) := split_dot rest in
      if bad_release_part part then false else
      let parts := u32 (parts + 1) in
      match following with
      | None => parts =? 3
      | Some rest => valid_release_loop fuel rest parts
      end
  end.
Definition valid_release (value : string) : bool := valid_release_loop (S (String.length value)) value 0.

Definition reserve_run {E S} (state : ControllerState) (current : CurrentLifecycle) (now : Z)
    (run_id release exact_request : string) : X E S (bool * ControllerState) :=
  match run state, activation (ctl_activation state) with
  | None, Some a =>
      if negb (bool_decide (current = lifecycle_active)) || negb (activation_authorized (ctl_activation state) now)
      then mret (false, state)
      else if negb (valid_identity run_id) || negb (valid_release release)
              || string_empty exact_request || (2048 <? string_size exact_request)
      then throw "valid run identity, semver release and bounded launch request are required"
      else mret (true, set_run (Some (mk_run run_id (act_id a) release exact_request EmptyString reserved)) state)
  | _, _ => mret (false, state)
  end.

(** [state.run->activation_id != state.activation.activation->id], evaluated
    where the activation exists. *)
Definition other_activation (state : ControllerState) (r : RunReservation) : bool :=
  match activation (ctl_activation state) with
  | Some a => negb (bool_decide (activation_id r = act_id a))
  | None => false
  end.

Definition accept_launch {E S} (state : ControllerState) (rid vm : string) (host_running : bool)
    (current : CurrentLifecycle) (now : Z) : X E S (LaunchResult * ControllerState) :=
  if string_empty vm then throw "MicroVM identity required" else
  match run state with
  | None => mret (stop_unassigned, state)
  | Some r =>
      if negb (bool_decide (run_id r = rid))
         || (negb (string_empty (microvm_id r)) && negb (bool_decide (microvm_id r = vm)))
      then mret (stop_unassigned, state) else
      let known := bool_decide (microvm_id r = vm) in
      let r := set_microvm_id vm r in
      if bool_decide (current = lifecycle_inactive) || negb (activation_authorized (ctl_activation state) now)
         || other_activation state r || bool_decide (phase r = stopping)
      then mret (stop_unassigned, set_run (Some (set_phase stopping r)) state)
      else if bool_decide (current = lifecycle_unavailable) || negb host_running
      then mret (pending_verification, set_run (Some r) state)
      else if known && bool_decide (phase r = running) then mret (already_known, set_run (Some r) state)
      else mret (accepted, set_run (Some (set_phase running r)) state)
  end.

Definition fence_run (state : ControllerState) (current : CurrentLifecycle) (now : Z) : ControllerState :=
  match run state with
  | Some r =>
      if bool_decide (current = lifecycle_inactive) || negb (activation_authorized (ctl_activation state) now)
         || other_activation state r
      then set_run (Some (set_phase stopping r)) state else state
  | None => state
  end.

Definition confirm_run_stopped (state : ControllerState) (rid vm : string) : bool * ControllerState :=
  match run state with
  | Some r =>
      if negb (bool_decide (run_id r = rid)) || negb (bool_decide (phase r = stopping))
         || string_empty (microvm_id r) || negb (bool_decide (microvm_id r = vm))
      then (false, state) else (true, set_run None state)
  | None => (false, state)
  end.

(** ** Abstract specification of the activation record

    What an observation may do to the record. Only a verified observation that is
    newer in version and in source time changes more than the time of the last
    inactive reading, and only an inactive record becomes activated. *)

Definition fresh_observation (o : ProjectionObservation) (now : Z) : Prop :=
  obs_version o ≠ 0 ∧ 0 < obs_source_timestamp_ms o ∧ 0 ≤ now.

Definition newer_observation (st : ActivationState) (o : ProjectionObservation) : Prop :=
  observed st = true →
  projection_version st < obs_version o ∧ source_timestamp_ms st < obs_source_timestamp_ms o.

Definition same_observation (st : ActivationState) (o : ProjectionObservation) : Prop :=
  observed st = true ∧ obs_version o = projection_version st ∧
  obs_active o = Some (active st) ∧ obs_source_timestamp_ms o = source_timestamp_ms st.

Definition record_observation (st : ActivationState) (o : ProjectionObservation) (is_active : bool)
    (inactive_at : Z) (a : option Activation) : ActivationState :=
  mk_activation_state (obs_version o) (obs_source_timestamp_ms o) inactive_at true is_active a.

Inductive observes (st : ActivationState) (o : ProjectionObservation) (now budget : Z)
    : ActivationChange → ActivationState → Prop :=
  | observes_unverified :
      obs_active o = None ∨ ¬ fresh_observation o now → observes st o now budget unverified st
  | observes_stale :
      observed st = true → ¬ newer_observation st o → ¬ same_observation st o →
      observes st o now budget stale st
  | observes_same :
      fresh_observation o now → same_observation st o →
      observes st o now budget unchanged
        (if active st then st else set_inactive_observed_at (inactive_observed_at st `max` now) st)
  | observes_inactive :
      fresh_observation o now → newer_observation st o → obs_active o = Some false →
      observes st o now budget inactive (record_observation st o false now (activation st))
  | observes_active :
      fresh_observation o now → newer_observation st o → obs_active o = Some true →
      (observed st = true → active st = true) →
      observes st o now budget unchanged
        (record_observation st o true (inactive_observed_at st) (activation st))
  | observes_activated id :
      fresh_observation o now → newer_observation st o → obs_active o = Some true →
      observed st = true → active st = false →
      0 < inactive_observed_at st ≤ now → 1 ≤ budget ≤ 3000 →
      inactive_observed_at st + budget ≤ INT64_MAX →
      valid_identity id = true → (∀ a, activation st = Some a → id ≠ act_id a) →
      observes st o now budget activated
        (record_observation st o true (inactive_observed_at st)
           (Some (mk_activation id (inactive_observed_at st) (inactive_observed_at st + budget)))).

Section ObserveRefines.
Context {E S : Type} (I : S → list E → Prop) (R : string → S → list E → Prop).
Hypothesis I_throw : ∀ m s t, I s t → R m s t.

Lemma allocate_activation_wp st now budget new_id s t :
  I s t → (∀ f, new_id = Some f → ∀ s t, I s t → xwp f (λ _, I) R s t) →
  xwp (allocate_activation st now budget new_id)
    (λ a s t, I s t ∧ 0 < inactive_observed_at st ≤ now ∧ 1 ≤ budget ≤ 3000 ∧
              inactive_observed_at st + budget ≤ INT64_MAX ∧
              valid_identity (act_id a) = true ∧ (∀ a', activation st = Some a' → act_id a ≠ act_id a') ∧
              a = mk_activation (act_id a) (inactive_observed_at st) (inactive_observed_at st + budget)) R s t.
Proof.
  intros HI Hid. unfold allocate_activation. destruct new_id as [f|]; [|by apply xwp_throw, I_throw].
  xwp_step; [by apply xwp_throw, I_throw|]. bool_simpl. xwp_step.
  eapply xwp_mono; [by apply Hid| |done]. intros id s' t' HI'. cbn beta.
  xwp_step; [by apply xwp_throw, I_throw|]. bool_simpl. xwp_step. repeat split; cbn; try done; try lia.
  intros a' Ea ->. rewrite Ea in *. by rewrite bool_decide_eq_true_2 in *.
Qed.

Lemma observe_activation_wp st o now budget new_id s t :
  I s t → (∀ f, new_id = Some f → ∀ s t, I s t → xwp f (λ _, I) R s t) →
  xwp (observe_activation st o now budget new_id)
    (λ r s t, observes st o now budget r.1 r.2 ∧ I s t) R s t.
Proof.
  intros HI Hid. unfold observe_activation. destruct (obs_active o) as [is_active|] eqn:Ea.
  2: { xwp_step. split; [|done]. apply observes_unverified. by left. }
  xwp_step; [xwp_step; split; [|done]; apply observes_unverified; right; unfold fresh_observation|].
  { rewrite !orb_true_iff in Hb. intros (?&?&?). destruct Hb as [[?|?]|?]; bool_simpl; lia. }
  bool_simpl. assert (Hf : fresh_observation o now) by (unfold fresh_observation; lia).
  xwp_step; bool_simpl.
  - xwp_step; xwp_step; (split; [|done]); cbn.
    + apply observes_stale; [done|intros Hn; destruct (Hn ltac:(done)); lia|].
      intros (_&Hv&Hac&Hts). rewrite Ea in Hac. simplify_eq.
      rewrite Hv, Hts, !Z.eqb_refl, Bool.eqb_reflx in Hb. done.
    + bool_simpl. assert (is_active = active st) as -> by (by apply Bool.eqb_prop).
      replace (if negb (active st) && _ then _ else st) with
        (if active st then st else set_inactive_observed_at (inactive_observed_at st `max` now) st).
      * by apply observes_same.
      * destruct (active st); [done|]. cbn. destruct (Z.ltb_spec (inactive_observed_at st) now).
        -- f_equal. lia.
        -- rewrite Z.max_l by lia. by destruct st.
  - xwp_step; bool_simpl; [xwp_step; split; [|done]; apply observes_stale; [done|..]|].
    + intros Hn. destruct (Hn ltac:(done)). cbn in *. lia.
    + intros (_&Hv&_). rewrite H2 in Hb. cbn in *. bool_simpl. lia.
    + assert (Hn : newer_observation st o).
      { intros Ho. rewrite Ho in *. cbn in *. bool_simpl. lia. }
      xwp_step. destruct is_active, (observed st) eqn:Eo, (active st) eqn:Es; cbn [andb negb]; xwp_step;
        try (xwp_step; split; [|done]; first [by apply observes_inactive|by apply observes_active]).
      * eapply xwp_mono; [by apply allocate_activation_wp| |done].
        intros a s' t' (HI'&?&?&?&?&?&->). xwp_step. xwp_step. split; [|done]. by apply observes_activated.
      * xwp_step. split; [|done]. apply observes_active; [done..|]. by rewrite Eo.
Qed.
End ObserveRefines.

Lemma observe_activation_observes {E S} st o now b new_id (s : S) (t : list E) ch st' s' t' :
  observe_activation st o now b new_id s t = (inr (ch, st'), s', t') → observes st o now b ch st'.
Proof.
  intros Hobs. pose proof (observe_activation_wp (λ _ _, True) (λ _ _ _, True) ltac:(done) st o now b new_id s t I) as Hw.
  unfold xwp in Hw. rewrite Hobs in Hw. apply Hw. intros f _ s1 t1 _. by destruct (f s1 t1) as [[[]?]?].
Qed.

(** ** Histories of observations *)

Definition act_label : Type := ProjectionObservation * Z * ActivationChange.

(** The records that calls of [observe_activation] with the budget [b] produce
    from the initial one, with the calls that returned, newest first. A call that
    throws leaves the record as it was. *)
Inductive act_run (b : Z) : list act_label → ActivationState → Prop :=
  | act_run_start : act_run b [] initial_activation
  | act_run_step l st o now id ch st' :
      act_run b l st →
      observe_activation (E:=unit) (S:=unit) st o now b (Some (mret id)) tt [] = (inr (ch, st'), tt, []) →
      act_run b ((o, now, ch) :: l) st'.

Lemma act_run_ind' b (P : list act_label → ActivationState → Prop) :
  P [] initial_activation →
  (∀ l st o now ch st', P l st → observes st o now b ch st' → P ((o, now, ch) :: l) st') →
  ∀ l st, act_run b l st → P l st.
Proof.
  intros H0 Hs l st. induction 1 as [|l st o now id ch st' _ IH Hobs]; [done|].
  eapply Hs; [done|]. by eapply observe_activation_observes.
Qed.

Definition not_activated (l : list act_label) : Prop := Forall (λ x, x.2 ≠ activated) l.

(** [l] shows that [st] is inactive: an accepted inactive observation, with the
    version and source time of [st], read at its [inactive_observed_at], and no
    activation since. *)
Definition shows_inactive (l : list act_label) (st : ActivationState) : Prop :=
  ∃ l2 o c l1, l = l2 ++ (o, inactive_observed_at st, c) :: l1 ∧ not_activated l2 ∧
    c ≠ activated ∧ c ≠ unverified ∧ c ≠ stale ∧
    obs_active o = Some false ∧ obs_version o = projection_version st ∧
    obs_source_timestamp_ms o = source_timestamp_ms st.

(** [l] shows the edge that allocated [a]: an accepted inactive observation at
    [started_at a], then a newer active one that activated, the last to do so. *)
Definition shows_edge (b : Z) (l : list act_label) (a : Activation) : Prop :=
  ∃ l3 o2 now2 l2 o1 c1 l1,
    l = l3 ++ (o2, now2, activated) :: l2 ++ (o1, started_at a, c1) :: l1 ∧
    not_activated l3 ∧ not_activated l2 ∧ c1 ≠ activated ∧ c1 ≠ unverified ∧ c1 ≠ stale ∧
    obs_active o1 = Some false ∧ obs_active o2 = Some true ∧
    obs_version o1 < obs_version o2 ∧ obs_source_timestamp_ms o1 < obs_source_timestamp_ms o2 ∧
    0 < started_at a ≤ now2 ∧ deadline a = started_at a + b ∧ 1 ≤ b ≤ 3000 ∧ deadline a ≤ INT64_MAX.

Definition act_history (b : Z) (l : list act_label) (st : ActivationState) : Prop :=
  (observed st = true → active st = false → shows_inactive l st) ∧
  (∀ a, activation st = Some a → shows_edge b l a) ∧
  (observed st = false → active st = false ∧ activation st = None).

Lemma shows_inactive_cons l st x : x.2 ≠ activated → shows_inactive l st → shows_inactive (x :: l) st.
Proof.
  intros Hx (l2&o&c&l1&->&?&?). exists (x :: l2), o, c, l1. split; [done|]. split; [by constructor|done].
Qed.

Lemma shows_inactive_now l st o c :
  c ≠ activated → c ≠ unverified → c ≠ stale → obs_active o = Some false → obs_version o = projection_version st →
  obs_source_timestamp_ms o = source_timestamp_ms st →
  shows_inactive ((o, inactive_observed_at st, c) :: l) st.
Proof. intros. exists [], o, c, l. repeat split; try done. constructor. Qed.

Lemma shows_edge_cons b l a x : x.2 ≠ activated → shows_edge b l a → shows_edge b (x :: l) a.
Proof.
  intros Hx (l3&o2&now2&l2&o1&c1&l1&->&?&?). exists (x :: l3), o2, now2, l2, o1, c1, l1.
  split; [done|]. split; [by constructor|done].
Qed.

Lemma act_run_history b l st : act_run b l st → act_history b l st.
Proof.
  revert l st. apply act_run_ind'.
  { split; [done|]. by split. }
  intros l st o now ch st' (Hin&Hed&Hun) Hobs. unfold act_history.
  destruct Hobs as [_|Ho _ _|_ (Ho&Hv&Ha&Hts)|_ _ Ha|_ _ Ha Hac|id Hf Hn Ha Ho Hac Hst Hb Hmax Hid Hnew]; cbn.
  - split; [|split; [|done]]; [intros; apply shows_inactive_cons; auto|intros; apply shows_edge_cons; auto].
  - split; [|split; [|done]]; [intros; apply shows_inactive_cons; auto|intros; apply shows_edge_cons; auto].
  - destruct (active st) eqn:Es; cbn.
    { split; [by rewrite Es|]. split; [intros; apply shows_edge_cons; auto|by rewrite Ho]. }
    split; [|split; [intros; apply shows_edge_cons; auto|by rewrite Ho]].
    intros _ _. destruct (Z.max_spec (inactive_observed_at st) now) as [[? ->]|[? ->]].
    + by apply (shows_inactive_now _ (set_inactive_observed_at now st)).
    + replace (set_inactive_observed_at _ st) with st by (by destruct st).
      apply shows_inactive_cons; auto.
  - split; [|split; [intros; apply shows_edge_cons; auto|done]].
    intros _ _. by apply (shows_inactive_now _ (record_observation st o false now (activation st))).
  - split; [done|]. split; [intros; apply shows_edge_cons; auto|done].
  - split; [done|]. split; [|done]. intros a [= <-].
    destruct (Hin Ho Hac) as (l2&o1&c1&l1&->&?&?&?&?&?&Hv1&Ht1). destruct (Hn Ho) as [??].
    exists [], o, now, l2, o1, c1, l1. cbn. repeat split; try done; try lia. constructor.
Qed.

(** C25: Whatever projections were observed, replayed, reordered or unverified ones
    included, an authorised activation rests on an observed edge: an accepted inactive
    observation at its start and a newer active one; it is over at most 3000 seconds
    after that inactive observation. *)
Theorem authorized_activation_has_edge b l st now :
  act_run b l st → activation_authorized st now = true →
  ∃ a, activation st = Some a ∧ shows_edge b l a ∧ started_at a ≤ now < started_at a + 3000.
Proof.
  intros (_&Hed&_)%act_run_history Hau. unfold activation_authorized in Hau.
  destruct (activation st) as [a|] eqn:Ea; bool_simpl; [|done].
  exists a. split; [done|]. pose proof (Hed a eq_refl) as Hs. split; [done|].
  destruct Hs as (?&?&?&?&?&?&?&_&_&_&_&_&_&_&_&_&_&_&?&?&_). lia.
Qed.

Definition obs (version ts : Z) (on : bool) : ProjectionObservation := mk_projection version (Some on) ts 4.

(** An inactive reading, a delayed old one, then the edge. *)
Lemma edge_run : act_run 600
  [(obs 6 70 true, 120, activated); (obs 6 50 true, 110, stale); (obs 5 60 false, 100, inactive)]
  (mk_activation_state 6 70 100 true true (Some (mk_activation "a1" 100 700))).
Proof.
  eapply (act_run_step _ _ _ _ _ "a1"%string);
    [eapply (act_run_step _ _ _ _ _ "a1"%string);
       [eapply (act_run_step _ _ _ _ _ "a1"%string); [apply act_run_start|]|]|]; vm_compute; reflexivity.
Qed.

Lemma authorized_activation_has_edge_witness :
  ∃ l st a, activation st = Some a ∧ shows_edge 600 l a ∧ started_at a ≤ 120 < started_at a + 3000.
Proof.
  destruct (authorized_activation_has_edge 600 _ _ 120 edge_run) as (a&?&?&?); [reflexivity|].
  by eexists _, _, a.
Defined.

(** *** Activations alternate with inactive observations *)

Definition inactive_in (l : list act_label) : Prop := Exists (λ x, x.2 = inactive) l.

Lemma act_run_inactive_since b l st :
  act_run b l st → active st = false → ∀ l2 x l1, l = l2 ++ x :: l1 → x.2 = activated → inactive_in l2.
Proof.
  revert l st. apply (act_run_ind' b (λ l st, active st = false → ∀ l2 x l1, l = l2 ++ x :: l1 → _ → inactive_in l2)).
  { by intros _ [|??] ??. }
  intros l st o now ch st' IH Hobs Hac [|y l2] x l1 Hl Hx; cbn in Hl; simplify_eq/=.
  { by inversion Hobs; subst. }
  destruct Hobs as [| |_ (_&_&Ha&_)| | |]; cbn in *; try discriminate;
    try (by apply Exists_cons_tl; eapply IH); [|by apply Exists_cons_hd].
  destruct (active st) eqn:Es; cbn in Hac; [congruence|]. apply Exists_cons_tl. by eapply IH.
Qed.

(** Between two activations there is an accepted inactive observation: a device
    that stays active never gets a second activation, however often it is
    observed. *)
Theorem activations_alternate b l3 l2 l1 x y st :
  act_run b (l3 ++ x :: l2 ++ y :: l1) st → x.2 = activated → y.2 = activated → inactive_in l2.
Proof.
  remember (l3 ++ x :: l2 ++ y :: l1) as l eqn:El. intros Hr. revert l3 El.
  induction Hr as [|l st o now id ch st' Hr IH Hobs]; intros l3 El Hx Hy; [by destruct l3|].
  destruct l3 as [|z l3]; cbn in El; simplify_eq/=; [|by eapply IH].
  eapply act_run_inactive_since; [exact Hr| |done..].
  apply observe_activation_observes in Hobs. by inversion Hobs.
Qed.

Lemma activations_alternate_witness :
  inactive_in [(obs 7 80 false, 200, inactive)].
Proof.
  eapply (activations_alternate 600 [] [(obs 7 80 false, 200, inactive)] _ (obs 8 90 true, 250, activated)
    (obs 6 70 true, 120, activated)
    (mk_activation_state 8 90 200 true true (Some (mk_activation "a2" 200 800)))); [|reflexivity..].
  eapply (act_run_step _ _ _ _ _ "a2"%string); [eapply (act_run_step _ _ _ _ _ "a2"%string); [exact edge_run|]|];
    vm_compute; reflexivity.
Defined.

(** ** The controller record as a transition system *)

(** What the operations of [controller.cpp] and an observation do to the record;
    a call that throws changes nothing. *)
Inductive ctl_step (st : ControllerState) : ControllerState → Prop :=
  | ctl_observe o now b id ch a :
      observe_activation (E:=unit) (S:=unit) (ctl_activation st) o now b id tt [] = (inr (ch, a), tt, []) →
      ctl_step st (mk_controller a (run st))
  | ctl_reserve current now rid rel req b st' :
      reserve_run (E:=unit) (S:=unit) st current now rid rel req tt [] = (inr (b, st'), tt, []) → ctl_step st st'
  | ctl_accept rid vm host current now res st' :
      accept_launch (E:=unit) (S:=unit) st rid vm host current now tt [] = (inr (res, st'), tt, []) → ctl_step st st'
  | ctl_fence current now : ctl_step st (fence_run st current now)
  | ctl_confirm rid vm : ctl_step st (confirm_run_stopped st rid vm).2.

(** What a step may do to the run: it keeps its identity, gets a MicroVM at most
    once, stays in [stopping], and starts [running] only for the activation
    that is authorised then; it is dropped only when its MicroVM stopped; a new
    one is a reservation for an authorised activation. *)
Definition run_evolves (a : ActivationState) (r r' : option RunReservation) : Prop :=
  match r, r' with
  | Some r, Some r' =>
      (run_id r' = run_id r ∧ activation_id r' = activation_id r ∧ release r' = release r ∧ request r' = request r) ∧
      (microvm_id r' = microvm_id r ∨ microvm_id r = EmptyString ∧ microvm_id r' ≠ EmptyString) ∧
      (phase r = stopping → phase r' = stopping) ∧
      (phase r' = running → phase r = running ∨
         microvm_id r' ≠ EmptyString ∧
         ∃ now act, activation_authorized a now = true ∧ activation a = Some act ∧ act_id act = activation_id r')
  | Some r, None => phase r = stopping ∧ microvm_id r ≠ EmptyString
  | None, Some r' =>
      phase r' = reserved ∧ microvm_id r' = EmptyString ∧ valid_identity (run_id r') = true ∧
      valid_release (release r') = true ∧ request r' ≠ EmptyString ∧ string_size (request r') ≤ 2048 ∧
      ∃ now act, activation_authorized a now = true ∧ activation a = Some act ∧ act_id act = activation_id r'
  | None, None => True
  end.

Lemma run_evolves_refl a r : run_evolves a r r.
Proof. destruct r; cbn; auto. Qed.

Lemma run_evolves_stopping a r : run_evolves a (Some r) (Some (set_phase stopping r)).
Proof. cbn. split; [done|]. split; [by left|]. by split. Qed.

Lemma authorized_same_activation st r now :
  activation_authorized (ctl_activation st) now = true → other_activation st r = false →
  ∃ act, activation (ctl_activation st) = Some act ∧ act_id act = activation_id r.
Proof.
  unfold activation_authorized, other_activation. destruct (activation _) as [act|]; intros; bool_simpl; [|done].
  by exists act.
Qed.

Lemma reserve_run_evolves st current now rid rel req b st' :
  reserve_run (E:=unit) (S:=unit) st current now rid rel req tt [] = (inr (b, st'), tt, []) →
  ctl_activation st' = ctl_activation st ∧ run_evolves (ctl_activation st) (run st) (run st').
Proof.
  unfold reserve_run. intros H. destruct (run st) as [r|] eqn:Er; [|destruct (activation (ctl_activation st)) as [a|] eqn:Ea].
  - injection H as <- <-. rewrite Er. split; [done|apply run_evolves_refl].
  - case_match eqn:E1; [injection H as <- <-; rewrite Er; by split|]. case_match eqn:E2; [done|].
    injection H as <- <-. bool_simpl. split; [done|]. cbn. repeat split; try done; try by apply string_empty_false.
    by exists now, a.
  - injection H as <- <-. rewrite Er. by split.
Qed.

Lemma accept_launch_evolves {E S} st rid vm host current now res st' s (t : list E) (s' : S) t' :
  accept_launch st rid vm host current now s t = (inr (res, st'), s', t') →
  ctl_activation st' = ctl_activation st ∧ run_evolves (ctl_activation st) (run st) (run st').
Proof.
  unfold accept_launch. intros H. destruct (string_empty vm) eqn:Ev; [done|]. apply string_empty_false in Ev.
  destruct (run st) as [r|] eqn:Er; [|injection H as <- <- _ _; rewrite Er; by split].
  case_match eqn:E1; [injection H as <- <- _ _; rewrite Er; split; [done|apply run_evolves_refl]|].
  assert (Hvm : vm = microvm_id r ∨ microvm_id r = EmptyString ∧ vm ≠ EmptyString).
  { bool_simpl. destruct (string_empty (microvm_id r)) eqn:Em; [right; by apply string_empty_spec in Em|].
    cbn in *. bool_simpl. by left. }
  case_match eqn:E2; [injection H as <- <- _ _; cbn; by repeat split|]. bool_simpl. cbn in *.
  case_match eqn:E3; [injection H as <- <- _ _; cbn; repeat split; auto|].
  case_match eqn:E4; injection H as <- <- _ _; cbn; repeat split; auto; intros.
  - congruence.
  - right. split; [done|]. destruct (authorized_same_activation st r now) as (act&?&?); [done..|]. by exists now, act.
Qed.

Lemma ctl_step_evolves st st' : ctl_step st st' →
  (ctl_activation st' = ctl_activation st ∧ run_evolves (ctl_activation st) (run st) (run st')) ∨
  (run st' = run st ∧ ∃ o now b ch, observes (ctl_activation st) o now b ch (ctl_activation st')).
Proof.
  intros [o now b id ch a H|current now rid rel req b st2 H|rid vm host current now res st2 H|current now|rid vm].
  - right. split; [done|]. exists o, now, b, ch. by eapply observe_activation_observes.
  - left. by eapply reserve_run_evolves.
  - left. by eapply accept_launch_evolves.
  - left. unfold fence_run. destruct (run st) as [r|] eqn:Er; [|by rewrite Er].
    case_match; [split; [done|apply run_evolves_stopping]|]. rewrite Er. split; [done|apply run_evolves_refl].
  - left. unfold confirm_run_stopped. destruct (run st) as [r|] eqn:Er; [|by cbn; rewrite Er].
    case_match eqn:Ec; [cbn [snd]; rewrite Er; split; [done|apply run_evolves_refl]|]. cbn. bool_simpl.
    by split_and!; [| |apply string_empty_false].
Qed.

(** Every step of the controller keeps the life cycle of a run: its identity,
    activation, release and request never change, a MicroVM identity is set once, a
    stopping run never resumes, and a run disappears only when it was stopping and its
    MicroVM known. *)
Theorem run_lifecycle st st' :
  ctl_step st st' → run_evolves (ctl_activation st) (run st) (run st').
Proof. intros [[_ ?]|[-> _]]%ctl_step_evolves; [done|apply run_evolves_refl]. Qed.

Definition demo_run (p : RunPhase) : RunReservation := mk_run "r1" "a1" "1.2.3" "{}" "vm" p.

Lemma run_lifecycle_witness :
  run_evolves initial_activation (Some (demo_run stopping)) None.
Proof.
  exact (run_lifecycle (mk_controller initial_activation (Some (demo_run stopping)))
           (mk_controller initial_activation None) (ctl_confirm _ "r1" "vm")).
Defined.

(** ** The well-formedness of the record *)

Definition activation_wf (a : Activation) : Prop :=
  valid_identity (act_id a) = true ∧ 0 < started_at a ∧ started_at a < deadline a ≤ started_at a + 3000 ∧
  deadline a ≤ INT64_MAX.

Definition run_wf (r : RunReservation) : Prop :=
  valid_identity (run_id r) = true ∧ valid_identity (activation_id r) = true ∧
  valid_release (release r) = true ∧ request r ≠ EmptyString ∧ string_size (request r) ≤ 2048 ∧
  (phase r = running → microvm_id r ≠ EmptyString).

Definition controller_wf (st : ControllerState) : Prop :=
  let a := ctl_activation st in
  (observed a = false → active a = false ∧ activation a = None) ∧
  (observed a = true → projection_version a ≠ 0 ∧ 0 < source_timestamp_ms a) ∧
  0 ≤ inactive_observed_at a ∧
  (∀ x, activation a = Some x → activation_wf x) ∧
  (∀ r, run st = Some r → run_wf r).

Inductive ctl_reachable : ControllerState → Prop :=
  | ctl_initial : ctl_reachable (mk_controller initial_activation None)
  | ctl_next st st' : ctl_reachable st → ctl_step st st' → ctl_reachable st'.

Lemma observes_wf st o now b ch a : controller_wf st → observes (ctl_activation st) o now b ch a →
  controller_wf (mk_controller a (run st)).
Proof.
  unfold controller_wf. cbn. intros (H1&H2&H3&H4&H5) Hobs.
  destruct Hobs as [| |[? [? ?]] (?&?&?&?)|[? [? ?]] _|[? [? ?]] _|id [? [? ?]] _ _ Ho Hac Hin Hb Hmax Hid Hnew];
    cbn; try done.
  - destruct (active (ctl_activation st)) eqn:Es; cbn; split_and!; try done; try lia; by intros Ho; rewrite Ho in *.
  - split_and!; try done. intros x [= <-]. unfold activation_wf. cbn. split; [done|]. lia.
Qed.

Lemma run_evolves_wf st st' : ctl_activation st' = ctl_activation st → run_evolves (ctl_activation st) (run st) (run st') →
  controller_wf st → controller_wf st'.
Proof.
  unfold controller_wf. intros -> Hev (H1&H2&H3&H4&H5). repeat (split; [done|]).
  intros r' Er'. rewrite Er' in Hev. unfold run_wf. destruct (run st) as [r|] eqn:Er; cbn in Hev.
  - destruct (H5 r eq_refl) as (?&?&?&?&?&Hr). destruct Hev as ((->&->&->&->)&Hvm&_&Hrun).
    repeat (split; [done|]). intros Hp. destruct (Hrun Hp) as [Hp'|[? _]]; [|done].
    destruct Hvm as [->|[? ?]]; auto.
  - destruct Hev as (Hp&_&?&?&?&?&now&act&_&Ea&<-). repeat (split; [done|]).
    split; [by apply (H4 act Ea)|]. repeat (split; [done|]). by rewrite Hp.
Qed.

(** C36: Every controller record the operations produce from the initial one is well
    formed: bounded identities, an activation of at most 3000 seconds that fits a signed
    64-bit time, a release and a bounded request to replay, and a MicroVM identity for a
    running run. *)
Theorem controller_well_formed st : ctl_reachable st → controller_wf st.
Proof.
  induction 1 as [|st st' _ IH Hs]; [by repeat split|].
  apply ctl_step_evolves in Hs as [[? ?]|(Er&o&now&b&ch&Hobs)]; [by eapply run_evolves_wf|].
  destruct st' as [a r]. cbn in *. subst r. by eapply observes_wf.
Qed.

Lemma controller_well_formed_witness :
  controller_wf (fence_run (mk_controller initial_activation None) lifecycle_inactive 5).
Proof. apply controller_well_formed. eapply ctl_next; [apply ctl_initial|apply ctl_fence]. Defined.

(** ** Release names *)

(** A decimal number without leading zeros. *)
Definition canonical_number (s : string) : Prop :=
  s ≠ EmptyString ∧ only_chars digits s = true ∧ (∀ s', s = String "0" s' → s' = EmptyString).

Lemma bad_release_part_spec s : bad_release_part s = false ↔ canonical_number s.
Proof.
  unfold bad_release_part, canonical_number, string_size. split.
  - intros; bool_simpl. split_and!; [by apply string_empty_false|done|]. intros s' ->. destruct s'; [done|].
    exfalso. cbn in *. apply andb_false_iff in H1 as [?|?]; [|done]. bool_simpl. lia.
  - intros (Hne&Hd&Hz). destruct s as [|c s]; [done|]. rewrite Hd. cbn.
    destruct (Ascii.eqb_spec c "0") as [->|]; [|by rewrite andb_false_r]. by rewrite (Hz s eq_refl).
Qed.

Lemma split_dot_join part rest : only_chars digits part = true →
  split_dot (part +:+ String "." rest) = (part, Some rest) ∧ split_dot part = (part, None).
Proof.
  induction part as [|c part IH]; cbn [only_chars]; [done|]. intros; bool_simpl.
  destruct IH as [IH1 IH2]; [done|]. assert (Ascii.eqb c "." = false) as Hc.
  { destruct (Ascii.eqb_spec c ".") as [->|]; done. }
  change (String c part +:+ String "." rest) with (String c (part +:+ String "." rest)). cbn [split_dot]. by rewrite Hc, IH1, IH2.
Qed.

Lemma split_dot_inv s :
  match split_dot s with
  | (part, Some rest) => s = part +:+ String "." rest
  | (part, None) => s = part
  end.
Proof.
  induction s as [|c s IH]; cbn; [done|]. destruct (Ascii.eqb_spec c ".") as [->|]; [done|].
  destruct (split_dot s) as [part [rest|]]; cbn; by rewrite IH at 1.
Qed.

Lemma concat_dot p q ps : String.concat "." (p :: q :: ps) = p +:+ String "." (String.concat "." (q :: ps)).
Proof. done. Qed.

Lemma valid_release_loop_spec fuel rest parts :
  (String.length rest < fuel)%nat → 0 ≤ parts → parts + string_size rest < 2 ^ 32 - 1 →
  valid_release_loop fuel rest parts = true ↔
  ∃ p ps, rest = String.concat "." (p :: ps) ∧ Forall canonical_number (p :: ps) ∧
          parts + Z.of_nat (length (p :: ps)) = 3.
Proof.
  revert rest parts. induction fuel as [|fuel IH]; intros rest parts Hf Hp Hb; [lia|].
  cbn [valid_release_loop]. unfold string_size in *. split.
  - destruct (string_empty rest) eqn:Ee; [done|]. pose proof (split_dot_inv rest) as Hs.
    destruct (split_dot rest) as [part [following|]]; subst rest; (destruct (bad_release_part part) eqn:Eb; [done|]);
      apply bad_release_part_spec in Eb; rewrite wrapu_id by (unfold in_u; lia).
    + rewrite string_length_append in *. cbn in *. intros Hl. apply IH in Hl as (p&ps&->&?&?); [|lia..].
      exists part, (p :: ps). split; [done|]. split; [by constructor|]. cbn in *. lia.
    + intros. bool_simpl. exists part, []. split; [done|]. split; [by constructor|]. cbn. lia.
  - intros (p&ps&->&Hall&Hlen). inversion Hall as [|? ? Hc Hps]; subst. pose proof Hc as (Hne&Hd&_).
    apply bad_release_part_spec in Hc. destruct ps as [|q ps]; [cbn [String.concat] in *|rewrite concat_dot in *].
    + destruct (split_dot_join p EmptyString Hd) as [_ ->].
      destruct (string_empty p) eqn:Ee; [by apply string_empty_spec in Ee|]. rewrite Hc. cbn in Hlen.
      by replace parts with 2 by lia.
    + destruct (split_dot_join p (String.concat "." (q :: ps)) Hd) as [-> _].
      destruct (string_empty _) eqn:Ee; [by destruct p|]. rewrite Hc. rewrite string_length_append in *. cbn [String.length] in *.
      rewrite wrapu_id by (unfold in_u; lia). apply IH; [lia..|]. exists q, ps. split; [done|]. split; [done|]. cbn in *. lia.
Qed.

(** [valid_release] accepts exactly the names [x.y.z] of canonical decimal
    numbers. *)
Theorem valid_release_spec value : string_size value < 2 ^ 32 - 1 →
  valid_release value = true ↔
  ∃ x y z, value = x +:+ "." +:+ y +:+ "." +:+ z ∧
           canonical_number x ∧ canonical_number y ∧ canonical_number z.
Proof.
  intros Hs. unfold valid_release. rewrite valid_release_loop_spec by lia. split.
  - intros (x&ps&->&Hall&Hlen). cbn in Hlen. destruct ps as [|y [|z [|]]]; cbn in Hlen; try lia.
    inversion Hall as [|? ? ? Hall1]; inversion Hall1 as [|? ? ? Hall2]; inversion Hall2; subst.
    by exists x, y, z.
  - intros (x&y&z&->&?&?&?). exists x, [y; z]. split; [done|]. split; [by rewrite !Forall_cons, Forall_nil|done].
Qed.

Lemma valid_release_spec_witness :
  valid_release "0.10.2" = true ↔
  ∃ x y z, "0.10.2"%string = x +:+ "." +:+ y +:+ "." +:+ z ∧
           canonical_number x ∧ canonical_number y ∧ canonical_number z.
Proof. apply valid_release_spec. reflexivity. Defined.
