(* ===== verification/AgentReconcile.v ===== *)
(** * The reconciliation pass of the agent controller

    [agent/src/reconcile.cpp]: one pass reads the controller record of a device
    from its shadow, verifies the device's lifecycle, saves what it decided by a
    conditional write and only then launches or terminates a MicroVM. The
    adapters behind the pass ([ReconcileBackend]) and the clocks are parameters;
    their answers stand in the trace. Also the repair passes of the same file:
    orphaned MicroVMs and the drain of a disabled controller. *)
From S2P Require Import Prelude Cpp AgentController.

(** ** Data *)

Record ControllerSnapshot := mk_snapshot {
  shadow_version : Z;
  verified_at : Z;
  unverified_since : Z;
  stop_requested_at : Z;
  last_error : string;
  state : ControllerState }.

Record CloudRun := mk_cloud_run { cr_id : string; cr_state : string; endpoint : string }.

#[global] Instance ControllerSnapshot_eq_dec : EqDecision ControllerSnapshot.
Proof. solve_decision. Defined.
#[global] Instance CloudRun_eq_dec : EqDecision CloudRun.
Proof. solve_decision. Defined.

Definition set_verified_at (v : Z) (s : ControllerSnapshot) : ControllerSnapshot :=
  mk_snapshot (shadow_version s) v (unverified_since s) (stop_requested_at s) (last_error s) (state s).
Definition set_unverified_since (v : Z) (s : ControllerSnapshot) : ControllerSnapshot :=
  mk_snapshot (shadow_version s) (verified_at s) v (stop_requested_at s) (last_error s) (state s).
Definition set_stop_requested_at (v : Z) (s : ControllerSnapshot) : ControllerSnapshot :=
  mk_snapshot (shadow_version s) (verified_at s) (unverified_since s) v (last_error s) (state s).
Definition set_last_error (v : string) (s : ControllerSnapshot) : ControllerSnapshot :=
  mk_snapshot (shadow_version s) (verified_at s) (unverified_since s) (stop_requested_at s) v (state s).
Definition set_state (v : ControllerState) (s : ControllerSnapshot) : ControllerSnapshot :=
  mk_snapshot (shadow_version s) (verified_at s) (unverified_since s) (stop_requested_at s) (last_error s) v.

(** [snapshot.state.run], [snapshot.state.activation] and the update
    [snapshot.state.run->phase = stopping]. *)
Definition snap_run (s : ControllerSnapshot) : option RunReservation := run (state s).
Definition snap_activation (s : ControllerSnapshot) : ActivationState := ctl_activation (state s).
Definition stop_run (s : ControllerSnapshot) : ControllerSnapshot :=
  set_state (set_run (set_phase stopping <$> snap_run s) (state s)) s.

Inductive ReconcileResult := settled | again | conflict.

#[global] Instance ReconcileResult_eq_dec : EqDecision ReconcileResult.
Proof. solve_decision. Defined.

(** ** The outside of a pass *)

Inductive io_event :=
  | ERead (r : string + ControllerSnapshot)
  | ESave (s : ControllerSnapshot) (now verified_at : Z) (r : string + bool)
  | ESupported (r : string + option bool)
  | EProjection (r : string + option ProjectionObservation)
  | ERuntimeVerified (s : ControllerSnapshot) (r : string + option bool)
  | EIdentity (r : string + string)
  | ERequest (run_id : string) (a : Activation) (now : Z) (r : string + string)
  | ELaunch (run : RunReservation) (r : string + CloudRun)
  | EGet (id : string) (r : string + CloudRun)
  | ETerminate (id : string) (r : string + unit)
  | EClock (r : string + Z)
  | ESteady (r : string + Z).

Abbreviation io_trace := (list io_event).

(** [class ReconcileBackend], with the answers of its virtual functions. *)
Class ReconcileBackend := {
  io_read : io_trace → string + ControllerSnapshot;
  io_save : ControllerSnapshot → Z → Z → io_trace → string + bool;
  io_supported : io_trace → string + option bool;
  io_projection : io_trace → string + option ProjectionObservation;
  io_runtime_verified : ControllerSnapshot → io_trace → string + option bool;
  io_identity : io_trace → string + string;
  io_request : string → Activation → Z → io_trace → string + string;
  io_launch : RunReservation → io_trace → string + CloudRun;
  io_get : string → io_trace → string + CloudRun;
  io_terminate : string → io_trace → string + unit }.

(** The variables [current_time] captures. *)
Record anchors := mk_anchors { anchor_wall : Z; anchor_steady : Z }.

Section Reconcile.
Context `{io : ReconcileBackend}.
(** The wall clock, if the caller supplies one, and the steady clock in
    nanoseconds. *)
Context (clock : option (io_trace → string + Z)) (steady : io_trace → Z).
Context (now : Z).

Abbreviation P := (X io_event anchors).

Definition read : P ControllerSnapshot := xcall ERead io_read.
Definition save (s : ControllerSnapshot) (at_time verified : Z) : P bool :=
  xcall (ESave s at_time verified) (io_save s at_time verified).
Definition supported : P (option bool) := xcall ESupported io_supported.
Definition projection : P (option ProjectionObservation) := xcall EProjection io_projection.
Definition identity : P string := xcall EIdentity io_identity.
Definition terminate (id : string) : P unit := xcall (ETerminate id) (io_terminate id).
Definition steady_now : P Z := xcall ESteady (λ t, inr (steady t)).

Definition current_time : P Z :=
  sampled ← match clock with Some f => xcall EClock f | None => mret now end;
  if sampled <=? 0 then throw "controller clock unavailable" else
  st ← steady_now;
  a ← xget;
  let elapsed := Z.quot (st - anchor_steady a) NANOSECONDS in
  if (elapsed <? 0) || (INT64_MAX - elapsed <? anchor_wall a) then throw "controller clock overflow" else
  let projected := anchor_wall a + elapsed in
  if projected <? sampled then
    _ ← xmodify (λ _, mk_anchors sampled st);
    mret sampled
  else mret projected.

(** The lifecycle of the device: capability, then projection. *)
Definition reconcile_observe (budget : Z) (snapshot : ControllerSnapshot)
    : P (ControllerSnapshot * CurrentLifecycle) :=
  sup ← supported;
  r ← match sup with
      | None => mret (snapshot, lifecycle_unavailable)
      | Some false => mret (snapshot, lifecycle_inactive)
      | Some true =>
          proj ← projection;
          match proj with
          | Some p =>
              match obs_active p with
              | None => mret (snapshot, lifecycle_unavailable)
              | Some on =>
                  r ← observe_activation (snap_activation snapshot) p now budget (Some identity);
                  let snapshot := set_state (mk_controller r.2 (snap_run snapshot)) snapshot in
                  if bool_decide (r.1 = unverified) || bool_decide (r.1 = stale)
                  then mret (snapshot, lifecycle_unavailable)
                  else mret (set_verified_at now snapshot,
                             if on : bool then lifecycle_active else lifecycle_inactive)
              end
          | None => mret (snapshot, lifecycle_unavailable)
          end
      end;
  let '(snapshot, current) := r in
  mret (set_last_error
          (if bool_decide (current = lifecycle_unavailable)
           then "registry or lifecycle verification unavailable or stale"
           else if bool_decide (sup = Some false) then "agent capability is not declared"
           else EmptyString) snapshot, current).

(** The fifteen-second limit on a run whose lifecycle cannot be verified. *)
Definition reconcile_unverified (snapshot : ControllerSnapshot) (current : CurrentLifecycle)
    : P (ControllerSnapshot * Z) :=
  match current, snap_run snapshot with
  | lifecycle_unavailable, Some r =>
      decision_time ← current_time;
      if unverified_since snapshot =? 0
      then mret (set_unverified_since decision_time snapshot, decision_time)
      else if decision_time <? unverified_since snapshot
      then mret (stop_run snapshot, decision_time)
      else if 15 <=? decision_time - unverified_since snapshot then
        may_defer ←
          (if bool_decide (phase r = running) && activation_authorized (snap_activation snapshot) decision_time
           then v ← xcall (ERuntimeVerified snapshot) (io_runtime_verified snapshot); mret (default false v)
           else mret false);
        decision_time ← current_time;
        mret (if may_defer : bool then snapshot else stop_run snapshot, decision_time)
      else mret (snapshot, decision_time)
  | _, _ => mret (set_unverified_since 0 snapshot, now)
  end.

(** A verification from the future is no verification; then the fence, and the
    reservation that a new activation supersedes. *)
Definition reconcile_fence (snapshot : ControllerSnapshot) (current : CurrentLifecycle) (decision_time : Z)
    : ControllerSnapshot :=
  let snapshot := if decision_time <? verified_at snapshot
                  then set_verified_at 0 (stop_run snapshot) else snapshot in
  let snapshot := set_state (fence_run (state snapshot) current decision_time) snapshot in
  match snap_run snapshot with
  | Some r =>
      if bool_decide (phase r = stopping) && string_empty (microvm_id r)
         && bool_decide (current = lifecycle_active)
         && activation_authorized (snap_activation snapshot) decision_time
         && other_activation (state snapshot) r
      then set_stop_requested_at 0 (set_state (set_run None (state snapshot)) snapshot)
      else snapshot
  | None => snapshot
  end.

Definition reconcile_reserve (release : string) (snapshot : ControllerSnapshot) (current : CurrentLifecycle)
    (decision_time : Z) : P ControllerSnapshot :=
  match snap_run snapshot, activation (snap_activation snapshot) with
  | None, Some a =>
      if bool_decide (current = lifecycle_active) && activation_authorized (snap_activation snapshot) decision_time
      then
        rid ← identity;
        exact ← xcall (ERequest rid a decision_time) (io_request rid a decision_time);
        r ← reserve_run (state snapshot) current decision_time rid release exact;
        mret (set_state r.2 snapshot)
      else mret snapshot
  | _, _ => mret snapshot
  end.

(** The loop that records a launched MicroVM in the current record. *)
Fixpoint record_launch (attempts : nat) (saved_run : RunReservation) (launched : CloudRun) : P ReconcileResult :=
  match attempts with
  | O => mret conflict
  | S attempts =>
      latest ← read;
      after_launch ← current_time;
      r ← accept_launch (state latest) (run_id saved_run) (cr_id launched) false lifecycle_unavailable after_launch;
      let latest := set_state r.2 latest in
      if bool_decide (r.1 = stop_unassigned)
         && match snap_run latest with
            | Some l => negb (bool_decide (run_id l = run_id saved_run)) && bool_decide (microvm_id l = cr_id launched)
            | None => false
            end
      then mret again
      else
        ok ← save latest after_launch (verified_at latest);
        if ok : bool then
          _ ← xwhen (bool_decide (r.1 = stop_unassigned)) (terminate (cr_id launched));
          mret again
        else record_launch attempts saved_run launched
  end.

(** A reservation without a MicroVM. *)
Definition reconcile_launch (snapshot : ControllerSnapshot) (current : CurrentLifecycle)
    (saved_run : RunReservation) : P ReconcileResult :=
  if bool_decide (phase saved_run = stopping) || negb (bool_decide (current = lifecycle_active)) then mret settled else
  before_launch ← current_time;
  if negb (activation_authorized (snap_activation snapshot) before_launch) then
    latest ← read;
    match snap_run latest with
    | Some l =>
        if negb (bool_decide (run_id l = run_id saved_run)) then mret again else
        ok ← save (stop_run latest) before_launch (verified_at latest);
        mret (if ok : bool then again else conflict)
    | None => mret again
    end
  else
    launched ← xcall (ELaunch saved_run) (io_launch saved_run);
    if string_empty (cr_id launched) then throw "RunMicrovm returned no identity" else
    record_launch 3 saved_run launched.

(** [!latest.state.run || run_id differs || microvm_id differs]. *)
Definition replaced (latest : ControllerSnapshot) (saved_run : RunReservation) : bool :=
  match snap_run latest with
  | Some l => negb (bool_decide (run_id l = run_id saved_run)) || negb (bool_decide (microvm_id l = microvm_id saved_run))
  | None => true
  end.

(** A run whose MicroVM is known: what its host says. *)
Definition reconcile_terminated (snapshot : ControllerSnapshot) (saved_run : RunReservation) : P ReconcileResult :=
  if negb (confirm_run_stopped (state (stop_run snapshot)) (run_id saved_run) (microvm_id saved_run)).1
  then throw "could not clear terminal run" else
  latest ← read;
  if replaced latest saved_run then mret again else
  let latest := set_state (confirm_run_stopped (state (stop_run latest)) (run_id saved_run) (microvm_id saved_run)).2
                          (stop_run latest) in
  ok ← save latest now (verified_at latest);
  mret (if ok : bool then again else conflict).

Definition reconcile_suspended (saved_run : RunReservation) (host_state : string) : P ReconcileResult :=
  latest ← read;
  if replaced latest saved_run then mret again else
  let latest := stop_run latest in
  ok ← save latest now (verified_at latest);
  if negb ok then mret conflict else
  _ ← xwhen (negb (bool_decide (host_state = "TERMINATING"))) (terminate (microvm_id saved_run));
  mret again.

(** The assignment of a running host. *)
Definition reconcile_assign (snapshot : ControllerSnapshot) (current : CurrentLifecycle)
    (saved_run : RunReservation) : P ReconcileResult :=
  still_supported ← supported;
  fresh ← projection;
  match still_supported, fresh with
  | Some true, Some p =>
      if negb (default false (obs_active p))
         || negb (obs_version p =? projection_version (snap_activation snapshot))
         || negb (obs_source_timestamp_ms p =? source_timestamp_ms (snap_activation snapshot))
      then mret again else
      verified ← current_time;
      latest ← read;
      match snap_run latest with
      | Some l =>
          if negb (bool_decide (run_id l = run_id saved_run))
             || negb (projection_version (snap_activation latest) =? projection_version (snap_activation snapshot))
          then mret again else
          assigned_at ← current_time;
          if (15 <=? assigned_at - verified) && activation_authorized (snap_activation latest) assigned_at
          then mret again else
          r ← accept_launch (state latest) (run_id saved_run) (microvm_id saved_run) true current assigned_at;
          ok ← save (set_state r.2 latest) assigned_at verified;
          if negb ok then mret conflict else
          _ ← xwhen (bool_decide (r.1 = stop_unassigned)) (terminate (microvm_id saved_run));
          mret again
      | None => mret again
      end
  | _, _ => mret again
  end.

Definition reconcile_host (snapshot : ControllerSnapshot) (current : CurrentLifecycle)
    (saved_run : RunReservation) : P ReconcileResult :=
  host ← xcall (EGet (microvm_id saved_run)) (io_get (microvm_id saved_run));
  if negb (bool_decide (cr_id host = microvm_id saved_run)) then throw "MicroVM lookup returned wrong identity" else
  if bool_decide (cr_state host = "TERMINATED") then reconcile_terminated snapshot saved_run else
  if negb (bool_decide (phase saved_run = stopping))
     && (bool_decide (cr_state host = "SUSPENDED") || bool_decide (cr_state host = "SUSPENDING")
         || bool_decide (cr_state host = "TERMINATING"))
  then reconcile_suspended saved_run (cr_state host) else
  if bool_decide (phase saved_run = stopping) then
    _ ← xwhen (negb (bool_decide (cr_state host = "TERMINATING"))) (terminate (microvm_id saved_run));
    mret again
  else if bool_decide (phase saved_run = reserved) && bool_decide (cr_state host = "RUNNING")
          && bool_decide (current = lifecycle_active)
  then reconcile_assign snapshot current saved_run
  else mret (if bool_decide (phase saved_run = reserved) then again else settled).

Definition reconcile_pass (release : string) (budget : Z) : P ReconcileResult :=
  snapshot ← read;
  r ← reconcile_observe budget snapshot;
  let '(snapshot, current) := r in
  r ← reconcile_unverified snapshot current;
  let '(snapshot, decision_time) := r in
  let snapshot := reconcile_fence snapshot current decision_time in
  snapshot ← reconcile_reserve release snapshot current decision_time;
  ok ← save snapshot decision_time (verified_at snapshot);
  if negb ok then mret conflict else
  match snap_run snapshot with
  | None => mret settled
  | Some saved_run =>
      if string_empty (microvm_id saved_run) then reconcile_launch snapshot current saved_run
      else reconcile_host snapshot current saved_run
  end.

(** The entry: the arguments, then the anchors [current_time] captures. *)
Definition reconcile (release : string) (budget : Z) (t : io_trace) : (string + ReconcileResult) * io_trace :=
  if (now <=? 0) || string_empty release || (budget <? 1) || (3000 <? budget)
  then (inl "reconciliation requires time, release and a 1-3000 second activation budget"%string, t)
  else
    let t' := ESteady (inr (steady t)) :: t in
    let '(r, _, t') := reconcile_pass release budget (mk_anchors now (steady t)) t' in (r, t').
End Reconcile.
