(* ===== verification/AgentReconcileSafety.v ===== *)
(** * What a reconciliation pass may do

    Every write, launch and termination of a pass is allowed by what the pass did
    before: a write is conditional on a fresh read, a launch follows the write of
    its reservation and a verified lifecycle within its deadline, a termination
    follows the write that gives the MicroVM up. *)
From S2P Require Import Prelude Cpp AgentController AgentReconcile.

(** ** The rules *)

Definition is_read (e : io_event) : bool := match e with ERead _ => true | _ => false end.
Definition is_save (e : io_event) : bool := match e with ESave _ _ _ _ => true | _ => false end.
Definition is_launch (e : io_event) : bool := match e with ELaunch _ _ => true | _ => false end.

(** [t] ends, but for events that are not [stop], with [e]. *)
Definition last_event (stop : io_event → bool) (e : io_event) (t : io_trace) : Prop :=
  ∃ t2 t1, t = t2 ++ e :: t1 ∧ Forall (λ x, stop x = false) t2.

(** A write carries the version of the record it was read from, and a record is
    written at most once after it was read. *)
Definition save_allowed (s : ControllerSnapshot) (t : io_trace) : Prop :=
  ∃ s0, last_event (λ e, is_read e || is_save e) (ERead (inr s0)) t ∧ shadow_version s = shadow_version s0.

(** A launch replays a reservation that was just written: not stopping, without a
    MicroVM, made for the activation that the same write holds; the capability
    and an active projection of that version were read in this pass, no reading
    of the clock is at or after the deadline, and nothing was launched before. *)
Definition launch_allowed (r : RunReservation) (t : io_trace) : Prop :=
  ∃ s n v a p,
    last_event (λ e, is_read e || is_save e) (ESave s n v (inr true)) t ∧
    snap_run s = Some r ∧ phase r ≠ stopping ∧ microvm_id r = EmptyString ∧
    activation (snap_activation s) = Some a ∧ act_id a = activation_id r ∧
    ESupported (inr (Some true)) ∈ t ∧
    EProjection (inr (Some p)) ∈ t ∧ obs_active p = Some true ∧
    obs_version p = projection_version (snap_activation s) ∧
    (∀ z, EClock (inr z) ∈ t → z < deadline a) ∧
    Forall (λ e, is_launch e = false) t.

(** A MicroVM is terminated after a write that does not keep it, or keeps it
    only to stop it; it was launched in this pass or the record named it. *)
Definition terminate_allowed (id : string) (t : io_trace) : Prop :=
  ∃ s n v, last_event (λ e, is_save e) (ESave s n v (inr true)) t ∧
    (∀ r, snap_run s = Some r → microvm_id r = id → phase r = stopping) ∧
    ((∃ r c, ELaunch r (inr c) ∈ t ∧ cr_id c = id) ∨
     (∃ s n v r, ESave s n v (inr true) ∈ t ∧ snap_run s = Some r ∧ microvm_id r = id)).

Definition allowed (e : io_event) (t : io_trace) : Prop :=
  match e with
  | ESave s _ _ _ => save_allowed s t
  | ELaunch r _ => launch_allowed r t
  | ETerminate id _ => terminate_allowed id t
  | _ => True
  end.

(** ** Traces *)

(** Events that need no permission. *)
Definition quiet (e : io_event) : bool :=
  match e with
  | ERead _ | ESave _ _ _ _ | ELaunch _ _ | ETerminate _ _ => false
  | _ => true
  end.

Definition quiet_ext (t t' : io_trace) : Prop := ∃ l, t' = l ++ t ∧ Forall (λ e, quiet e = true) l.

#[global] Instance quiet_ext_preorder : PreOrder quiet_ext.
Proof.
  split.
  - intros t. by exists [].
  - intros t1 t2 t3 (l1&->&?) (l2&->&?). exists (l2 ++ l1). rewrite app_assoc. split; [done|]. by apply Forall_app.
Qed.

Lemma quiet_ext_cons t e : quiet e = true → quiet_ext t (e :: t).
Proof. intros. exists [e]. split; [done|]. by constructor. Qed.

Lemma quiet_ext_guarded t t' : quiet_ext t t' → guarded allowed t → guarded allowed t'.
Proof.
  intros (l&->&Hl) Ht. induction Hl as [|e l He _ IH]; [done|]. cbn. split; [by destruct e|done].
Qed.

Lemma quiet_ext_elem t t' e : quiet_ext t t' → e ∈ t → e ∈ t'.
Proof. intros (l&->&_) He. apply elem_of_app. by right. Qed.

Lemma last_event_ext stop e t t' :
  (∀ x, quiet x = true → stop x = false) → quiet_ext t t' → last_event stop e t → last_event stop e t'.
Proof.
  intros Hstop (l&->&Hl) (t2&t1&->&Ht2). exists (l ++ t2), t1. rewrite app_assoc. split; [done|].
  apply Forall_app. split; [|done]. eapply Forall_impl; [exact Hl|]. auto.
Qed.

Lemma last_event_now stop e t : last_event stop e (e :: t).
Proof. by exists [], t. Qed.

Lemma last_event_weaken (stop stop' : io_event → bool) e t :
  (∀ x, stop x = false → stop' x = false) → last_event stop e t → last_event stop' e t.
Proof. intros Hs (t2&t1&->&H). exists t2, t1. split; [done|]. eapply Forall_impl; [exact H|]. auto. Qed.

Lemma last_event_cons (stop : io_event → bool) e x t : stop x = false → last_event stop e t → last_event stop e (x :: t).
Proof. intros Hx (t2&t1&->&H). exists (x :: t2), t1. split; [done|]. by constructor. Qed.

Lemma last_event_elem stop e t : last_event stop e t → e ∈ t.
Proof. intros (t2&t1&->&_). apply elem_of_app. right. by left. Qed.

Lemma quiet_not_launch t t' :
  quiet_ext t t' → Forall (λ e, is_launch e = false) t → Forall (λ e, is_launch e = false) t'.
Proof. intros (l&->&Hl) Ht. apply Forall_app. split; [|done]. eapply Forall_impl; [exact Hl|]. by intros []. Qed.

Lemma quiet_not_rw x : quiet x = true → is_read x || is_save x = false.
Proof. by destruct x. Qed.
Lemma quiet_not_save x : quiet x = true → is_save x = false.
Proof. by destruct x. Qed.

#[export] Hint Resolve quiet_not_rw quiet_not_save last_event_now : cpp.

(** ** One pass *)

Section Pass.
Context `{io : ReconcileBackend}.
Context (clock : option (io_trace → string + Z)) (steady : io_trace → Z) (now : Z).
(** [std::chrono::steady_clock] does not go back. *)
Hypothesis steady_monotone : ∀ t l, steady t ≤ steady (l ++ t).

(** The anchors bound every reading of the clock so far, and will keep doing so. *)
Definition clock_inv (a : anchors) (t : io_trace) : Prop :=
  now ≤ anchor_wall a ∧
  ∃ latest, anchor_steady a ≤ latest ≤ steady t ∧
    ∀ z, EClock (inr z) ∈ t → z ≤ anchor_wall a + Z.quot (latest - anchor_steady a) NANOSECONDS.

Lemma clock_inv_cons a t e :
  (∀ z, e ≠ EClock (inr z)) → clock_inv a t → clock_inv a (e :: t).
Proof.
  intros He (Hn&l&Hl&Hz). split; [done|]. exists l. split.
  - pose proof (steady_monotone t [e]). cbn in *. lia.
  - intros z [Hz'|Hz']%elem_of_cons; [by destruct (He z)|auto].
Qed.

Hint Extern 2 (clock_inv _ (_ :: _)) => apply clock_inv_cons; [by intros|] : cpp.

(** What the quiet parts of a pass keep. *)
Definition goes_on (t0 : io_trace) (a : anchors) (t : io_trace) : Prop := clock_inv a t ∧ quiet_ext t0 t.

Lemma goes_on_cons t0 a t e :
  quiet e = true → (∀ z, e ≠ EClock (inr z)) → goes_on t0 a t → goes_on t0 a (e :: t).
Proof.
  intros Hq He [??]. split; [by apply clock_inv_cons|]. etransitivity; [done|]. by apply quiet_ext_cons.
Qed.

Lemma quot_mono x y : 0 ≤ x ≤ y → Z.quot x NANOSECONDS ≤ Z.quot y NANOSECONDS.
Proof. intros. apply Z.quot_le_mono; unfold NANOSECONDS; lia. Qed.

(** [current_time] returns a time that no reading of the wall clock exceeds. *)
Lemma current_time_wp t0 a t :
  goes_on t0 a t →
  xwp (current_time clock steady now)
    (λ v a' t', goes_on t0 a' t' ∧ quiet_ext t t' ∧ now ≤ v ∧ (∀ z, EClock (inr z) ∈ t' → z ≤ v))
    (λ _ _ t', quiet_ext t0 t') a t.
Proof.
  intros [[Hn (l&Hl&Hz)] Hq]. unfold current_time. xwp_step.
  assert (Hc : xwp (match clock with Some f => xcall EClock f | None => mret now end)
            (λ z a' t', a' = a ∧ quiet_ext t t' ∧ ∀ z', EClock (inr z') ∈ t' → z' = z ∨ EClock (inr z') ∈ t)
            (λ _ _ t', quiet_ext t0 t') a t).
  { destruct clock as [f|].
    - apply xwp_call; intros x Hf.
      + split; [done|]. split; [by apply quiet_ext_cons|]. intros z' [[= ->]|?]%elem_of_cons; auto.
      + etransitivity; [done|]. by apply quiet_ext_cons.
    - apply xwp_ret. split; [done|]. split; [done|]. auto. }
  eapply xwp_mono; [exact Hc| |done]. clear Hc. intros z a' t' (->&Hq'&Hz').
  assert (Hq1 : quiet_ext t (ESteady (inr (steady t')) :: t')) by (etransitivity; [done|by apply quiet_ext_cons]).
  assert (Hq0 : quiet_ext t0 (ESteady (inr (steady t')) :: t')) by by etransitivity.
  xwp_step; [xwp_step; by transitivity t|]. xwp_step. unfold steady_now. apply xwp_call; intros st; [intros [= <-]|done].
  xwp_step. xwp_step. xwp_step; [xwp_step; done|]. bool_simpl.
  pose proof Hq' as (l'&El&_). assert (Hst : steady t ≤ steady t') by (rewrite El; apply steady_monotone).
  pose proof (steady_monotone t' [ESteady (inr (steady t'))]) as Hst'. cbn in Hst'.
  pose proof (quot_mono (l - anchor_steady a) (steady t' - anchor_steady a)) as Hquot.
  assert (Hz2 : ∀ z', EClock (inr z') ∈ ESteady (inr (steady t')) :: t' → z' = z ∨ EClock (inr z') ∈ t).
  { intros z' [?|?]%elem_of_cons; [done|auto]. }
  xwp_step; bool_simpl.
  - xwp_step. xwp_step. xwp_step. unfold goes_on, clock_inv. cbn. split_and!; try done; try lia.
    + exists (steady t'). split; [lia|]. rewrite Z.sub_diag, Z.quot_0_l by done. intros z' [->|Hz0]%Hz2; [lia|].
      apply Hz in Hz0. lia.
    + intros z' [->|Hz0]%Hz2; [lia|]. apply Hz in Hz0. lia.
  - xwp_step. unfold goes_on, clock_inv. cbn. split_and!; try done; try lia.
    + exists (steady t'). split; [lia|]. intros z' [->|Hz0]%Hz2; [lia|]. apply Hz in Hz0. lia.
    + intros z' [->|Hz0]%Hz2; [lia|]. apply Hz in Hz0. lia.
Qed.

(** Shared by the proofs below: a recorded call that needs no permission. *)
Lemma goes_on_call {A} t0 a t (e : string + A → io_event) f (Q : A → anchors → io_trace → Prop) :
  (∀ r, quiet (e r) = true) → (∀ r z, e r ≠ EClock (inr z)) → goes_on t0 a t →
  (∀ x, goes_on t0 a (e (inr x) :: t) → Q x a (e (inr x) :: t)) →
  xwp (xcall e f) Q (λ _ _ t', quiet_ext t0 t') a t.
Proof.
  intros Hq Hc Hg HQ. apply xwp_call; intros x _.
  - apply HQ. by apply goes_on_cons.
  - apply (goes_on_cons t0 a t (e (inl x))); auto.
Qed.

Lemma goes_on_trans t0 t1 a t : quiet_ext t0 t1 → goes_on t1 a t → goes_on t0 a t.
Proof. intros Hq [Hc Hq']. split; [done|]. by transitivity t1. Qed.

Lemma goes_on_start a t : clock_inv a t → goes_on t a t.
Proof. by split. Qed.

(** The capability and an active projection of the version in [s] were read. *)
Definition verified_active (s : ControllerSnapshot) (t : io_trace) : Prop :=
  ESupported (inr (Some true)) ∈ t ∧
  ∃ p, EProjection (inr (Some p)) ∈ t ∧ obs_active p = Some true ∧
       obs_version p = projection_version (snap_activation s).

Lemma verified_active_ext s s' t t' :
  quiet_ext t t' → snap_activation s' = snap_activation s → verified_active s t → verified_active s' t'.
Proof.
  intros Hq Hs (H1&p&H2&H3&H4). split; [by eapply quiet_ext_elem|]. exists p. rewrite Hs.
  split; [by eapply quiet_ext_elem|done].
Qed.

Lemma observes_version st o b ch st' :
  observes st o now b ch st' → ch ≠ unverified → ch ≠ stale → obs_version o = projection_version st'.
Proof. destruct 1 as [| |_ (_&?&_)| | |]; try done. by destruct (active st). Qed.

Lemma reconcile_observe_wp t0 b s a t :
  goes_on t0 a t →
  xwp (reconcile_observe now b s)
    (λ r a' t', goes_on t0 a' t' ∧ shadow_version r.1 = shadow_version s ∧
                (r.2 = lifecycle_active → verified_active r.1 t'))
    (λ _ _ t', quiet_ext t0 t') a t.
Proof.
  intros Hg. unfold reconcile_observe. xwp_step. apply goes_on_call; [done..|]. intros sup Hg1. cbn beta.
  apply xwp_bind. apply (xwp_mono _ (λ r a' t', goes_on t0 a' t' ∧ shadow_version r.1 = shadow_version s ∧
                (r.2 = lifecycle_active → verified_active r.1 t')) _ (λ _ _ t', quiet_ext t0 t')); [|intros [s1 cur] ???; by xwp_step|done].
  destruct sup as [[]|]; [|by xwp_step..]. xwp_step. apply goes_on_call; [done..|].
  intros [p|] Hg2; [|by xwp_step]. destruct (obs_active p) as [on|] eqn:Ep; [|by xwp_step]. xwp_step.
  set (t2 := EProjection _ :: _) in *.
  eapply xwp_mono; [apply (observe_activation_wp (goes_on t2) (λ _ _ t', quiet_ext t0 t'))| |done].
  - intros _ a' t' [_ Hq]. transitivity t2; [apply Hg2|done].
  - apply goes_on_start, Hg2.
  - intros f [= <-] a' t' Hg3. eapply (xwp_mono _ (λ _, goes_on t2) _ (λ _ _ t', quiet_ext t2 t')); [by apply goes_on_call|done|].
    intros _ _ t'' Hq. transitivity t2; [apply Hg2|done].
  - intros [ch act] a' t' [Hobs Hg3]. cbn in Hobs. assert (Hg4 : goes_on t0 a' t').
    { eapply goes_on_trans; [apply Hg2|done]. }
    xwp_step; xwp_step; (split; [done|]); (split; [done|]); [done|]. cbn. destruct on; [|done]. intros _.
    cbn in Hb. bool_simpl. destruct Hg3 as [_ Hq].
    split; [eapply quiet_ext_elem; [exact Hq|]; right; left|].
    exists p. split; [eapply quiet_ext_elem; [exact Hq|]; left|]. split; [done|]. cbn. by eapply observes_version.
Qed.

(** What the middle of a pass leaves alone. *)
Definition same_record (s s' : ControllerSnapshot) : Prop :=
  shadow_version s' = shadow_version s ∧ snap_activation s' = snap_activation s.

Lemma current_time_quiet_wp t0 a t (Q : Z → anchors → io_trace → Prop) :
  goes_on t0 a t → (∀ v a' t', goes_on t0 a' t' → quiet_ext t t' → Q v a' t') →
  xwp (current_time clock steady now) Q (λ _ _ t', quiet_ext t0 t') a t.
Proof. intros Hg HQ. eapply xwp_mono; [by apply current_time_wp| |done]. intros v a' t' (?&?&?&_). auto. Qed.

Lemma reconcile_unverified_wp t0 s current a t :
  goes_on t0 a t →
  xwp (reconcile_unverified clock steady now s current)
    (λ r a' t', goes_on t0 a' t' ∧ quiet_ext t t' ∧ same_record s r.1)
    (λ _ _ t', quiet_ext t0 t') a t.
Proof.
  intros Hg. unfold reconcile_unverified.
  destruct current; [by xwp_step..|]. destruct (snap_run s) as [r|]; [|by xwp_step].
  xwp_step. apply current_time_quiet_wp; [done|]. intros dt a' t' Hg' Hq.
  xwp_step; [by xwp_step|]. xwp_step; [by xwp_step|]. xwp_step; [|by xwp_step]. xwp_step.
  apply (xwp_mono _ (λ _ a' t', goes_on t0 a' t' ∧ quiet_ext t t') _ (λ _ _ t', quiet_ext t0 t')); [| |done].
  - xwp_step; [|by xwp_step]. xwp_step. apply goes_on_call; [done..|]. intros v Hg2. xwp_step. split; [done|].
    transitivity t'; [done|]. by apply quiet_ext_cons.
  - intros may a2 t2 [Hg2 Hq2]. xwp_step. apply current_time_quiet_wp; [done|]. intros dt2 a3 t3 Hg3 Hq3.
    xwp_step. split; [done|]. split; [by transitivity t2|]. by destruct may.
Qed.

Lemma reconcile_fence_record s current dt : same_record s (reconcile_fence s current dt).
Proof.
  unfold reconcile_fence, fence_run, stop_run, same_record, snap_activation, snap_run.
  repeat (case_match; cbn; try done).
Qed.

(** The run that the fence leaves with an active lifecycle belongs to the
    current, authorised activation, unless it is to stop. *)
Definition run_current (s : ControllerSnapshot) : Prop :=
  ∀ r, snap_run s = Some r → phase r ≠ stopping →
  ∃ a, activation (snap_activation s) = Some a ∧ act_id a = activation_id r.

Lemma reconcile_fence_current s dt : run_current (reconcile_fence s lifecycle_active dt).
Proof.
  unfold reconcile_fence. remember (if dt <? verified_at s then set_verified_at 0 (stop_run s) else s) as s1. set (s2 := set_state _ _).
  assert (H2 : run_current s2).
  { intros r Hr Hp. unfold s2, snap_run, fence_run in Hr. cbn in Hr.
    destruct (run (state s1)) as [r1|] eqn:E1; [|by rewrite E1 in Hr].
    case_match eqn:Eb; cbn in Hr; [injection Hr as <-; by destruct Hp|].
    rewrite E1 in Hr. injection Hr as <-. bool_simpl.
    destruct (authorized_same_activation (state s1) r1 dt) as (act&Ha&?); [done..|]. exists act.
    split; [|done]. unfold s2, snap_activation, fence_run. cbn. rewrite E1, H1, H0. done. }
  destruct (snap_run s2) as [r|] eqn:Er; [|done]. clear Heqs1. case_match; [by intros ? [=]|done].
Qed.

Lemma reconcile_reserve_wp release t0 s current dt a t :
  goes_on t0 a t →
  xwp (reconcile_reserve release s current dt)
    (λ s' a' t', goes_on t0 a' t' ∧ quiet_ext t t' ∧ same_record s s' ∧ (run_current s → run_current s'))
    (λ _ _ t', quiet_ext t0 t') a t.
Proof.
  intros Hg. unfold reconcile_reserve.
  destruct (snap_run s) as [r|] eqn:Er; [by xwp_step|].
  destruct (activation (snap_activation s)) as [act|] eqn:Ea; [|by xwp_step].
  xwp_step; [|by xwp_step]. xwp_step. apply goes_on_call; [done..|]. intros rid Hg1. cbn beta.
  xwp_step. apply goes_on_call; [done..|]. intros exact Hg2. cbn beta. xwp_step.
  set (t2 := ERequest _ _ _ _ :: _) in *.
  assert (Hq : quiet_ext t t2) by (do 2 (etransitivity; [|by apply quiet_ext_cons]); done).
  unfold reserve_run, snap_run, snap_activation in *. rewrite Er, Ea.
  xwp_step; [xwp_step; xwp_step; by repeat split; try apply Hg2|]. xwp_step; [xwp_step; by apply Hg2|].
  xwp_step. xwp_step. split; [done|]. split; [done|]. split; [done|]. intros _ r Hr Hp. cbn in *.
  injection Hr as <-. by exists act.
Qed.

(** A launch result that says [stop_unassigned] leaves a record that does not keep
    the MicroVM for this run. *)
Lemma accept_launch_wp st rid vm host current at_time (a : anchors) (t : io_trace) :
  xwp (accept_launch st rid vm host current at_time)
    (λ r a' t', a' = a ∧ t' = t ∧
       (r.1 = stop_unassigned → ∀ x, run r.2 = Some x → microvm_id x = vm →
          phase x = stopping ∨ run st = Some x ∧ run_id x ≠ rid))
    (λ _ _ t', t' = t) a t.
Proof.
  unfold accept_launch. xwp_step; [by xwp_step|]. destruct (run st) as [r|] eqn:Er.
  2: { xwp_step. split_and!; [done..|]. intros _ x. cbn. by rewrite Er. }
  xwp_step.
  - xwp_step. split_and!; [done..|]. intros _ x Hx Hvm. right. cbn in Hx. rewrite Er in Hx.
    injection Hx as <-. split; [done|]. apply orb_true_iff in Hb0 as [?|?]; bool_simpl; [done|]. congruence.
  - xwp_step; [xwp_step; split_and!; [done..|]; intros _ x [= <-] _; by left|].
    xwp_step; [by xwp_step|]. xwp_step; by xwp_step.
Qed.

Abbreviation rw := (λ e, is_read e || is_save e).
Definition all_allowed {A} (_ : A) (_ : anchors) (t : io_trace) : Prop := guarded allowed t.

Lemma quiet_throw t0 t : guarded allowed t0 → quiet_ext t0 t → guarded allowed t.
Proof. intros ? Hq. by apply (quiet_ext_guarded t0). Qed.

(** A read starts a stretch of quiet events. *)
Lemma read_wp (Q : ControllerSnapshot → anchors → io_trace → Prop) a t :
  clock_inv a t → guarded allowed t →
  (∀ s, goes_on (ERead (inr s) :: t) a (ERead (inr s) :: t) → guarded allowed (ERead (inr s) :: t) →
        Q s a (ERead (inr s) :: t)) →
  xwp read Q all_allowed a t.
Proof.
  intros Hc Hg HQ. apply xwp_call; intros x _; [|by split].
  apply HQ; [|by split]. apply goes_on_start. by apply clock_inv_cons.
Qed.

(** A write of what was read last. *)
Lemma save_wp s0 s n v t0 (Q : bool → anchors → io_trace → Prop) a t :
  goes_on (ERead (inr s0) :: t0) a t → guarded allowed (ERead (inr s0) :: t0) → shadow_version s = shadow_version s0 →
  (∀ ok, clock_inv a (ESave s n v (inr ok) :: t) → guarded allowed (ESave s n v (inr ok) :: t) →
         Q ok a (ESave s n v (inr ok) :: t)) →
  xwp (save s n v) Q all_allowed a t.
Proof.
  intros [Hc Hq] Hg Hv HQ. assert (Hs : save_allowed s t).
  { exists s0. split; [|done]. eapply last_event_ext; [by auto with cpp|exact Hq|by auto with cpp]. }
  pose proof (quiet_ext_guarded _ _ Hq Hg) as Hg'.
  apply xwp_call; intros x _; [|by split]. apply HQ; [by apply clock_inv_cons|by split].
Qed.

(** The MicroVM was launched in this pass or the record named it. *)
Definition vm_known (id : string) (t : io_trace) : Prop :=
  (∃ r c, ELaunch r (inr c) ∈ t ∧ cr_id c = id) ∨
  (∃ s n v r, ESave s n v (inr true) ∈ t ∧ snap_run s = Some r ∧ microvm_id r = id).

Lemma vm_known_cons id e t : vm_known id t → vm_known id (e :: t).
Proof.
  intros [(r&c&?&?)|(s&n&v&r&?&?)]; [left; exists r, c|right; exists s, n, v, r]; (split; [by right|done]).
Qed.

Lemma vm_known_ext id t t' : quiet_ext t t' → vm_known id t → vm_known id t'.
Proof. intros (l&->&_) H. induction l as [|e l IH]; [done|]. by apply vm_known_cons. Qed.

(** A termination after a write. *)
Lemma terminate_wp id s n v (b : bool) a t :
  last_event is_save (ESave s n v (inr true)) t →
  (b = true → ∀ r, snap_run s = Some r → microvm_id r = id → phase r = stopping) →
  vm_known id t → guarded allowed t →
  xwp (_ ← xwhen b (terminate id); mret again) all_allowed all_allowed a t.
Proof.
  intros Hl Hs Hid Hg. xwp_step. xwp_step; [|by xwp_step].
  assert (terminate_allowed id t) by (exists s, n, v; auto).
  apply xwp_call; intros x _; [xwp_step|]; by split.
Qed.

Lemma accept_then_stop_wp st rid vm host current at_time (Q : LaunchResult * ControllerState → anchors → io_trace → Prop) a t :
  guarded allowed t →
  (∀ r, (r.1 = stop_unassigned → ∀ x, run r.2 = Some x → microvm_id x = vm →
          phase x = stopping ∨ run st = Some x ∧ run_id x ≠ rid) → Q r a t) →
  xwp (accept_launch st rid vm host current at_time) Q all_allowed a t.
Proof.
  intros Hg HQ. eapply xwp_mono; [apply accept_launch_wp| |].
  - intros r a' t' (->&->&H). by apply HQ.
  - by intros e a' t' ->.
Qed.

Lemma current_time_then_wp t0 a t (Q : Z → anchors → io_trace → Prop) :
  goes_on t0 a t → guarded allowed t0 →
  (∀ v a' t', goes_on t0 a' t' → quiet_ext t t' → guarded allowed t' → (∀ z, EClock (inr z) ∈ t' → z ≤ v) → Q v a' t') →
  xwp (current_time clock steady now) Q all_allowed a t.
Proof.
  intros Hg H0 HQ. eapply xwp_mono; [by apply current_time_wp| |].
  - intros v a' t' (?&?&_&?). apply HQ; try done. apply (quiet_ext_guarded t0); [apply H|done].
  - intros e a' t' Hq. by apply (quiet_ext_guarded t0).
Qed.

Lemma record_launch_wp n saved c a t :
  clock_inv a t → guarded allowed t → vm_known (cr_id c) t →
  xwp (record_launch clock steady now n saved c) all_allowed all_allowed a t.
Proof.
  revert a t. induction n as [|n IH]; intros a t Hc Hg Hvm; [by apply xwp_ret|]. cbn [record_launch].
  xwp_step. apply read_wp; [done..|]. intros latest Hgo Hg1. xwp_step.
  eapply current_time_then_wp; [done..|]. intros at_time a2 t2 Hgo2 Hq2 Hg2 _. xwp_step.
  apply accept_then_stop_wp; [done|]. intros [res st'] Hstop. cbn in Hstop.
  xwp_step; [by xwp_step|]. xwp_step. eapply save_wp; [exact Hgo2|done|done|].
  intros ok Hc3 Hg3. assert (Hvm3 : vm_known (cr_id c) (ESave (set_state st' latest) at_time (verified_at latest) (inr ok) :: t2)).
  { apply vm_known_cons. eapply vm_known_ext; [exact Hq2|]. by apply vm_known_cons. }
  destruct ok; [|by apply IH].
  eapply terminate_wp; [by auto with cpp| |done..]. intros Hres r Hr Hid. bool_simpl. cbn in *.
  destruct (Hstop Hres r Hr Hid) as [?|[? Hne]]; [done|]. exfalso.
  rewrite Hres, Hr in Hb.
  by rewrite (bool_decide_eq_true_2 _ Hid), (bool_decide_eq_false_2 _ Hne), bool_decide_eq_true_2 in Hb.
Qed.

Lemma reconcile_launch_wp s n v current r a t :
  clock_inv a t → guarded allowed t → last_event rw (ESave s n v (inr true)) t →
  snap_run s = Some r → microvm_id r = EmptyString → Forall (λ e, is_launch e = false) t →
  (current = lifecycle_active → verified_active s t ∧ run_current s) →
  xwp (reconcile_launch clock steady now s current r) all_allowed all_allowed a t.
Proof.
  intros Hc Hg Hl Hr Hvm Hno Hact. unfold reconcile_launch. xwp_step; [by xwp_step|]. bool_simpl. subst current.
  destruct Hact as [Hver Hcur]; [done|]. xwp_step.
  eapply current_time_then_wp; [by apply goes_on_start|done|]. intros before a2 t2 Hgo2 Hq2 Hg2 Hz. xwp_step.
  - xwp_step. apply read_wp; [apply Hgo2|done|]. intros latest Hgo3 Hg3.
    destruct (snap_run latest) as [l|] eqn:El; [|by xwp_step]. xwp_step; [by xwp_step|]. xwp_step.
    eapply save_wp; [exact Hgo3|done|done|]. intros ok _ Hg4. by xwp_step.
  - bool_simpl. xwp_step. destruct (Hcur r Hr) as (act&Ha&Hid); [done|].
    assert (Hla : launch_allowed r t2).
    { destruct (verified_active_ext s s t t2 Hq2 eq_refl Hver) as (?&p&?&?&?).
      exists s, n, v, act, p. split_and!; try done.
      - eapply last_event_ext; [by auto with cpp|exact Hq2|done].
      - intros z Hz'%Hz. unfold activation_authorized in Hb. rewrite Ha in Hb. bool_simpl. lia.
      - by eapply quiet_not_launch. }
    apply xwp_call; intros c _; [|by split]. xwp_step; [by xwp_step; split|].
    apply record_launch_wp; [apply clock_inv_cons; [done|apply Hgo2]|by split|]. left. exists r, c. split; [by left|done].
Qed.

Lemma stop_run_stopping s r : snap_run (stop_run s) = Some r → phase r = stopping.
Proof. unfold stop_run, snap_run. cbn. destruct (run (state s)); [|done]. by intros [= <-]. Qed.

Lemma reconcile_terminated_wp s r a t :
  clock_inv a t → guarded allowed t → xwp (reconcile_terminated now s r) all_allowed all_allowed a t.
Proof.
  intros Hc Hg. unfold reconcile_terminated. xwp_step; [by xwp_step|]. xwp_step. apply read_wp; [done..|].
  intros latest Hgo Hg1. xwp_step; [by xwp_step|]. xwp_step.
  eapply save_wp; [exact Hgo|done|done|]. intros ok _ ?. by xwp_step.
Qed.

Lemma reconcile_suspended_wp r host_state a t :
  clock_inv a t → guarded allowed t → vm_known (microvm_id r) t →
  xwp (reconcile_suspended now r host_state) all_allowed all_allowed a t.
Proof.
  intros Hc Hg Hvm. unfold reconcile_suspended. xwp_step. apply read_wp; [done..|].
  intros latest Hgo Hg1. xwp_step; [by xwp_step|]. xwp_step.
  eapply save_wp; [exact Hgo|done|done|]. intros ok _ Hg2. xwp_step; [by xwp_step|]. destruct ok; [|done].
  eapply terminate_wp; [by auto with cpp| |by do 2 apply vm_known_cons|done].
  intros _ x Hx _. by eapply stop_run_stopping.
Qed.

Lemma quiet_call_then_wp {A} a t (e : string + A → io_event) f (Q : A → anchors → io_trace → Prop) :
  (∀ r, quiet (e r) = true) → (∀ r z, e r ≠ EClock (inr z)) → clock_inv a t → guarded allowed t →
  (∀ x, clock_inv a (e (inr x) :: t) → guarded allowed (e (inr x) :: t) → Q x a (e (inr x) :: t)) →
  xwp (xcall e f) Q all_allowed a t.
Proof.
  intros Hq He Hc Hg HQ. assert (Hal : ∀ r, guarded allowed (e r :: t)).
  { intros r. eapply quiet_ext_guarded; [by apply quiet_ext_cons|done]. }
  apply xwp_call; intros x _; [|by apply Hal]. apply HQ; [|by apply Hal]. by apply clock_inv_cons.
Qed.

Lemma reconcile_assign_wp s current r a t :
  clock_inv a t → guarded allowed t → vm_known (microvm_id r) t →
  xwp (reconcile_assign clock steady now s current r) all_allowed all_allowed a t.
Proof.
  intros Hc Hg Hvm. unfold reconcile_assign. xwp_step. apply quiet_call_then_wp; [done..|]. intros sup Hc1 Hg1.
  xwp_step. apply quiet_call_then_wp; [done..|]. intros fresh Hc2 Hg2.
  destruct sup as [[]|]; [|by xwp_step..]. destruct fresh as [p|]; [|by xwp_step]. xwp_step; [by xwp_step|]. xwp_step.
  eapply current_time_then_wp; [by apply goes_on_start|done|]. intros ver a3 t3 Hgo3 Hq3 Hg3 _. xwp_step.
  apply read_wp; [apply Hgo3|done|]. intros latest Hgo4 Hg4. destruct (snap_run latest) as [l|] eqn:El; [|by xwp_step].
  xwp_step; [by xwp_step|]. bool_simpl. xwp_step.
  eapply current_time_then_wp; [done..|]. intros at_time a5 t5 Hgo5 Hq5 Hg5 _. xwp_step; [by xwp_step|]. xwp_step.
  apply accept_then_stop_wp; [done|]. intros [res st'] Hstop. cbn in Hstop. xwp_step.
  eapply save_wp; [exact Hgo5|done|done|]. intros ok _ Hg6. xwp_step; [by xwp_step|]. destruct ok; [|done].
  eapply terminate_wp; [by auto with cpp| | |done].
  - intros Hres x Hx Hid. bool_simpl. destruct (Hstop Hres x Hx Hid) as [?|[Hrun Hne]]; [done|].
    unfold snap_run in El. rewrite El in Hrun. congruence.
  - apply vm_known_cons. eapply vm_known_ext; [exact Hq5|]. apply vm_known_cons.
    eapply vm_known_ext; [exact Hq3|]. by do 2 apply vm_known_cons.
Qed.

Lemma reconcile_host_wp s n v current r a t :
  clock_inv a t → guarded allowed t → last_event is_save (ESave s n v (inr true)) t → snap_run s = Some r →
  xwp (reconcile_host clock steady now s current r) all_allowed all_allowed a t.
Proof.
  intros Hc Hg Hl Hr. assert (Hvm : vm_known (microvm_id r) t).
  { right. exists s, n, v, r. split; [by eapply last_event_elem|done]. }
  unfold reconcile_host. xwp_step. apply quiet_call_then_wp; [done..|]. intros host Hc1 Hg1.
  apply (vm_known_cons _ (EGet (microvm_id r) (inr host))) in Hvm.
  xwp_step; [by xwp_step|]. xwp_step; [by apply reconcile_terminated_wp|].
  xwp_step; [by apply reconcile_suspended_wp|]. xwp_step.
  - eapply terminate_wp; [by apply last_event_cons| |done..]. intros _ x Hx _. bool_simpl. congruence.
  - xwp_step; [by apply reconcile_assign_wp|]. by xwp_step.
Qed.

Lemma reconcile_pass_wp release b a :
  clock_inv a [ESteady (inr (anchor_steady a))] →
  xwp (reconcile_pass clock steady now release b) all_allowed all_allowed a [ESteady (inr (anchor_steady a))].
Proof.
  intros Hc. unfold reconcile_pass. xwp_step. apply read_wp; [done|by split|]. intros s0 Hgo0 Hg0.
  set (t0 := ERead _ :: _) in *. assert (Hthrow : ∀ (e : string) (a' : anchors) t', quiet_ext t0 t' → all_allowed e a' t').
  { intros e a' t' Hq. by apply (quiet_ext_guarded t0). }
  xwp_step. eapply xwp_mono; [by apply (reconcile_observe_wp t0)| |done].
  intros [s1 current] a1 t1 (Hgo1&Hv1&Hact1). cbn in Hv1, Hact1.
  xwp_step. eapply xwp_mono; [by apply (reconcile_unverified_wp t0)| |done].
  intros [s2 dt] a2 t2 (Hgo2&Hq2&Hv2&Ha2). cbn in Hv2, Ha2.
  destruct (reconcile_fence_record s2 current dt) as [Hv3 Ha3]. set (s3 := reconcile_fence s2 current dt) in *.
  xwp_step. eapply xwp_mono; [by apply (reconcile_reserve_wp release t0)| |done].
  intros s4 a4 t4 (Hgo4&Hq4&[Hv4 Ha4]&Hcur4). xwp_step.
  eapply save_wp; [exact Hgo4|done|congruence|]. intros ok Hc5 Hg5. xwp_step; [by xwp_step|]. destruct ok; [|done].
  destruct (snap_run s4) as [r|] eqn:Er; [|by xwp_step]. xwp_step.
  - apply string_empty_spec in Hb0. eapply reconcile_launch_wp; [done|done|by auto with cpp|done..| |].
    + constructor; [done|]. eapply quiet_not_launch; [apply Hgo4|]. by repeat constructor.
    + intros ->. assert (Hq : quiet_ext t1 t4) by by transitivity t2.
      destruct (verified_active_ext s1 s4 t1 t4 Hq ltac:(congruence) (Hact1 eq_refl)) as (?&p&?&?).
      split; [split; [by right|]; exists p; split; [by right|done]|]. apply Hcur4, reconcile_fence_current.
  - eapply reconcile_host_wp; [done|done|by auto with cpp|done].
Qed.
End Pass.

(** ** The theorem *)

Lemma reconcile_guarded `{io : ReconcileBackend} clock steady now release budget :
  (∀ t l, steady t ≤ steady (l ++ t)) → guarded allowed (reconcile clock steady now release budget []).2.
Proof.
  intros Hst. unfold reconcile. destruct (_ || _); [done|].
  assert (Hc : clock_inv steady now (mk_anchors now (steady [])) [ESteady (inr (steady []))]).
  { split; [done|]. exists (steady []). cbn. split; [split; [done|apply (Hst [] [_])]|].
    intros z [?|?]%elem_of_cons; [done|]. by apply not_elem_of_nil in H. }
  pose proof (reconcile_pass_wp clock steady now Hst release budget _ Hc) as Hw. unfold xwp in Hw. cbn [anchor_steady] in Hw.
  destruct (reconcile_pass _ _ _ _ _ _ _) as [[[]?]?]; exact Hw.
Qed.


(** ** Runs that cannot be verified *)

Section Unverified.
Context `{io : ReconcileBackend}.
Context (clock : option (io_trace → string + Z)) (steady : io_trace → Z) (now : Z).

(** A run that the fence does not stop was not stopping, and its activation is
    authorised. *)
Lemma reconcile_fence_kept s current dt r :
  snap_run (reconcile_fence s current dt) = Some r → phase r ≠ stopping →
  activation_authorized (snap_activation s) dt = true ∧ ∃ r0, snap_run s = Some r0 ∧ phase r0 ≠ stopping.
Proof.
  unfold reconcile_fence. set (s1 := if dt <? verified_at s then set_verified_at 0 (stop_run s) else s).
  set (s2 := set_state (fence_run (state s1) current dt) s1). intros Hr Hp.
  assert (H2 : snap_run s2 = Some r).
  { destruct (snap_run s2) as [r2|] eqn:E2; [|congruence]. case_match; cbn in Hr; [done|congruence]. }
  unfold s2, fence_run, snap_run in H2. cbn in H2. destruct (run (state s1)) as [r1|] eqn:E1; [|by rewrite E1 in H2].
  case_match eqn:Eb; cbn in H2; [injection H2 as <-; by destruct Hp|]. rewrite E1 in H2. injection H2 as ->. bool_simpl.
  unfold s1, snap_activation, snap_run in *. destruct (dt <? verified_at s); [|eauto].
  exfalso. apply Hp. by apply (stop_run_stopping s).
Qed.

(** The observation of the lifecycle leaves the run and the anchors alone. *)
Lemma observe_record budget s a t s1 current a1 t1 :
  reconcile_observe now budget s a t = (inr (s1, current), a1, t1) →
  a1 = a ∧ snap_run s1 = snap_run s ∧ (current = lifecycle_active → verified_at s1 = now).
Proof.
  intros Hobs. set (Q := λ (p : ControllerSnapshot * CurrentLifecycle) (a' : anchors) (_ : io_trace),
    a' = a ∧ snap_run p.1 = snap_run s ∧ (p.2 = lifecycle_active → verified_at p.1 = now)).
  assert (H : xwp (reconcile_observe now budget s) Q (λ _ _ _, True) a t).
  { unfold reconcile_observe. xwp_step. apply xwp_call; [|done]. intros sup _. xwp_step.
    apply (xwp_mono _ Q _ (λ _ _ _, True)); [|intros [] ? ? ?; by xwp_step|done].
    destruct sup as [[]|]; [|done..]. xwp_step. apply xwp_call; [|done]. intros [p|] _; [|done]. destruct (obs_active p) as [on|]; [|done].
    xwp_step. apply (xwp_mono _ (λ _ a' _, a' = a) _ (λ _ _ _, True)); [|intros o ? t4 ->; by case_match|done].
    assert (Hk : xkeeps (λ a' (_ : io_trace), a' = a) (λ _ _ _, True) (observe_activation (snap_activation s) p now budget (Some identity)));
      [|by apply Hk].
    unfold observe_activation, allocate_activation, identity.
    repeat (xkeeps_step || (by apply xkeeps_call) || (by intros ? ? ?; apply xwp_throw)). }
  unfold xwp in H. by rewrite Hobs in H.
Qed.

(** What lets a run survive a pass that cannot verify the lifecycle. *)
Definition may_survive (s : ControllerSnapshot) (r : RunReservation) (decision_time : Z) (t : io_trace) : Prop :=
  activation_authorized (snap_activation s) decision_time = true ∧
  (unverified_since s = 0 ∨
   unverified_since s ≤ decision_time < unverified_since s + 15 ∨
   phase r = running ∧ ERuntimeVerified s (inr (Some true)) ∈ t).

Lemma stop_run_fence s current dt r :
  snap_run (reconcile_fence (stop_run s) current dt) = Some r → phase r = stopping.
Proof.
  intros Hr. destruct (decide (phase r = stopping)) as [|Hp]; [done|].
  destruct (reconcile_fence_kept _ _ _ _ Hr Hp) as (_&r0&Hr0&Hp0). by apply stop_run_stopping in Hr0.
Qed.

Lemma unverified_fenced s r a t :
  snap_run s = Some r →
  xwp (reconcile_unverified clock steady now s lifecycle_unavailable)
    (λ p _ t', ∀ r', snap_run (reconcile_fence p.1 lifecycle_unavailable p.2) = Some r' → phase r' ≠ stopping →
       may_survive s r p.2 t') (λ _ _ _, True) a t.
Proof.
  intros Hr. unfold reconcile_unverified, may_survive. rewrite Hr. apply xwp_after. intros dt a1 t1.
  assert (Hstop : ∀ dt r', snap_run (reconcile_fence (stop_run s) lifecycle_unavailable dt) = Some r' → phase r' ≠ stopping → False).
  { intros dt' r' H Hp. by apply stop_run_fence in H. }
  xwp_step; bool_simpl; [xwp_step|xwp_step; bool_simpl; [xwp_step|xwp_step; bool_simpl]].
  - intros r' H Hp. cbn in *. destruct (reconcile_fence_kept _ _ _ _ H Hp) as [? _]. auto.
  - intros r' H Hp. cbn in *. by destruct (Hstop dt r' H Hp).
  - xwp_step. set (Q := λ (b : bool) (_ : anchors) (t : io_trace), b = true → phase r = running ∧ ERuntimeVerified s (inr (Some true)) ∈ t).
    eapply (xwp_mono _ Q _ (λ _ _ _, True)); [| |done].
    + xwp_step; [|by xwp_step]. bool_simpl. xwp_step. apply xwp_call; [|done]. intros [[]|] _; xwp_step; try done.
      intros _. split; [done|]. by left.
    + intros b a2 t2 HQ. xwp_step. apply (xwp_mono _ (λ _ _ (t : io_trace), b = true → phase r = running ∧ ERuntimeVerified s (inr (Some true)) ∈ t) _ (λ _ _ _, True)); [| |done].
      * unfold current_time, steady_now. xwp_step.
        eapply (xwp_mono _ (λ _, Q b) _ (λ _ _ _, True)); [destruct clock; [apply xwp_call; [|done]|by xwp_step]| |done].
        { intros x _ Hb'. destruct (HQ Hb'). split; [done|]. by right. }
        intros z a3 t3 H3. xwp_step; [done|]. xwp_step. apply xwp_call; [|done]. intros st _.
        assert (H4 : b = true → phase r = running ∧ ERuntimeVerified s (inr (Some true)) ∈ ESteady (inr st) :: t3).
        { intros Hb'. destruct (H3 Hb'). split; [done|]. by right. }
        repeat (xwp_step; try done).
      * intros dt2 a3 t3 H3. xwp_step. intros r' H Hp. cbn in *. destruct b; [|by destruct (Hstop dt2 r' H Hp)].
        destruct (reconcile_fence_kept _ _ _ _ H Hp) as [? _]. destruct (H3 eq_refl). auto.
  - xwp_step. intros r' H Hp. cbn in *. destruct (reconcile_fence_kept _ _ _ _ H Hp) as [? _]. split; [done|].
    right. left. lia.
Qed.

Definition unwritten (t : io_trace) : Prop := Forall (λ e, is_save e = false) t.
Lemma unwritten_call {A} (e : string + A → io_event) f :
  (∀ r, is_save (e r) = false) → xkeeps (λ (_ : anchors) t, unwritten t) (λ _ _ t, unwritten t) (xcall e f).
Proof. intros He. apply xkeeps_call; intros; by constructor. Qed.

(** One step through a part that does not write. *)
Ltac unwritten_step :=
  lazymatch goal with
  | |- xkeeps _ _ (xcall _ _) => by apply unwritten_call
  | |- xkeeps _ _ (xmodify _) => apply xkeeps_modify; by intros
  | |- xkeeps _ _ (throw _) => intros ? ? ?; by apply xwp_throw
  | |- _ => xkeeps_step
  end.
Lemma unverified_unwritten s current : xkeeps (λ _ t, unwritten t) (λ _ _ t, unwritten t) (reconcile_unverified clock steady now s current).
Proof. unfold reconcile_unverified, current_time, steady_now. repeat unwritten_step. Qed.
Lemma observe_unwritten budget s : xkeeps (λ _ t, unwritten t) (λ _ _ t, unwritten t) (reconcile_observe now budget s).
Proof. unfold reconcile_observe, supported, projection, observe_activation, allocate_activation, identity. repeat unwritten_step. Qed.

(** The first write of a pass keeps the run only where it [may_survive]. *)
Definition first_write_stops (s : ControllerSnapshot) (r : RunReservation) (t : io_trace) : Prop :=
  ∃ t2 w at_time v ok t1, t = t2 ++ ESave w at_time v ok :: t1 ∧ unwritten t1 ∧
    ∀ r', snap_run w = Some r' → phase r' ≠ stopping → may_survive s r at_time t1.

Lemma first_write_cons s r e t : first_write_stops s r t → first_write_stops s r (e :: t).
Proof. intros (t2&w&n&v&ok&t1&->&H). by exists (e :: t2), w, n, v, ok, t1. Qed.
Lemma first_write_call {A} s r (e : string + A → io_event) f :
  xkeeps (λ (_ : anchors) t, first_write_stops s r t) (λ _ _ t, first_write_stops s r t) (xcall e f).
Proof.
  apply xkeeps_call; intros; by eapply first_write_cons.
Qed.
Lemma host_after_write s r s' current run : xkeeps (λ (_ : anchors) t, first_write_stops s r t) (λ _ _ t, first_write_stops s r t)
  (reconcile_host clock steady now s' current run).
Proof.
  unfold reconcile_host, reconcile_terminated, reconcile_suspended, reconcile_assign, supported, projection, accept_launch, read, save, terminate, current_time, steady_now.
  repeat (apply first_write_call || unwritten_step).
Qed.

(** C39: A reconciliation pass whose record has a run and which cannot verify the
    lifecycle either fails without having written anything, or its first write of the
    record stops the run or drops it; the write keeps the run going only if its
    activation is authorised at the time of the write and the verification has not been
    failing before, or for less than 15 seconds, or the runtime of the running MicroVM
    vouched for the run in this pass. *)
Theorem unverified_run_stops release budget s r s1 a1 t1 :
  let t0 := [ESteady (inr (steady []))] in
  io_read t0 = inr s → snap_run s = Some r →
  reconcile_observe now budget s (mk_anchors now (steady [])) (ERead (inr s) :: t0) = (inr (s1, lifecycle_unavailable), a1, t1) →
  let '(result, t) := reconcile clock steady now release budget [] in
  (∃ e, result = inl e) ∧ unwritten t ∨ first_write_stops s1 r t.
Proof.
  intros t0 Hread Hr Hobs. unfold reconcile. destruct (_ || _); [left; split; [by eexists|by constructor]|].
  assert (H1 : unwritten t1).
  { pose proof (observe_unwritten budget s (mk_anchors now (steady [])) (ERead (inr s) :: t0)) as H. unfold xwp in H. rewrite Hobs in H.
    apply H. by repeat constructor. }
  assert (Hr1 : snap_run s1 = Some r) by (destruct (observe_record _ _ _ _ _ _ _ _ Hobs) as (_ & -> & _); done).
  enough (xwp (reconcile_pass clock steady now release budget) (λ _ _ t, first_write_stops s1 r t) (λ _ _ t, unwritten t ∨ first_write_stops s1 r t)
            (mk_anchors now (steady [])) t0) as H.
  { unfold xwp in H. fold t0. destruct (reconcile_pass _ _ _ _ _ _ _) as [[[]?]?]; [|by right]. destruct H; [left; eauto|by right]. }
  unfold reconcile_pass, read. xwp_step. apply xwp_call; intros x Hx; fold t0 in Hx; rewrite Hread in Hx; simplify_eq. xwp_step.
  unfold xwp at 1. fold t0. rewrite Hobs. xwp_step.
  eapply xwp_mono; [apply xwp_and; [by apply (unverified_fenced s1 r)|by apply unverified_unwritten]|cbn beta|by intros ? ? ? [_ ?]; left].
  intros [s2 dt] a2 t2 [Hf H2]. cbn [fst snd] in Hf. unfold reconcile_reserve. xwp_step.
  apply (xwp_mono _ (λ s a t, s = reconcile_fence s2 lifecycle_unavailable dt ∧ t = t2) _ (λ _ _ _, False)); [by repeat case_match|intros ? a3 ? [-> ->]|done].
  assert (Hw : ∀ ok, first_write_stops s1 r (ESave (reconcile_fence s2 lifecycle_unavailable dt) dt (verified_at (reconcile_fence s2 lifecycle_unavailable dt)) ok :: t2)).
  { intros ok. by eexists [], (reconcile_fence s2 lifecycle_unavailable dt), dt, _, ok, t2. }
  xwp_step. unfold save. apply xwp_call; [intros ok _|intros m _; right; apply Hw]. xwp_step; [apply Hw|].
  destruct (snap_run (reconcile_fence _ _ _)) as [saved|]; [|apply Hw]. xwp_step.
  - unfold reconcile_launch. rewrite orb_true_r. apply Hw.
  - eapply xwp_mono; [by apply (host_after_write s1 r), Hw|done|]. by right.
Qed.
End Unverified.

(** A device with an authorised activation and no run: the pass reserves, writes
    and launches. *)
Definition demo_snapshot : ControllerSnapshot :=
  mk_snapshot 3 90 0 0 EmptyString
    (mk_controller (mk_activation_state 6 70 100 true true (Some (mk_activation "a1" 100 700))) None).

(** The record read is the one written last. *)
Fixpoint last_saved (t : io_trace) : ControllerSnapshot :=
  match t with
  | ESave s _ _ (inr true) :: _ => s
  | _ :: t => last_saved t
  | [] => demo_snapshot
  end.

#[local] Instance demo_backend : ReconcileBackend := {|
  io_read t := inr (last_saved t);
  io_save _ _ _ _ := inr true;
  io_supported _ := inr (Some true);
  io_projection _ := inr (Some (obs 6 70 true));
  io_runtime_verified _ _ := inr None;
  io_identity _ := inr "run-1"%string;
  io_request _ _ _ _ := inr "{}"%string;
  io_launch _ _ := inr (mk_cloud_run "vm-1" "PENDING" EmptyString);
  io_get id _ := inr (mk_cloud_run id "RUNNING" EmptyString);
  io_terminate _ _ := inr tt |}.

Definition demo_pass : (string + ReconcileResult) * io_trace := reconcile None (λ _, 0) 120 "1.2.3" 600 [].


(** The registry does not answer, and the run of the record is 20 seconds unverified. *)
Definition unverified_snapshot : ControllerSnapshot :=
  mk_snapshot 3 90 100 0 EmptyString (mk_controller (snap_activation demo_snapshot) (Some (demo_run running))).
Definition silent_registry : ReconcileBackend := {|
  io_read _ := inr unverified_snapshot;
  io_save _ _ _ _ := inr true;
  io_supported _ := inr None;
  io_projection _ := inr None;
  io_runtime_verified _ _ := inr None;
  io_identity _ := inr "run-1"%string;
  io_request _ _ _ _ := inr "{}"%string;
  io_launch _ _ := inr (mk_cloud_run "vm-1" "PENDING" EmptyString);
  io_get id _ := inr (mk_cloud_run id "RUNNING" EmptyString);
  io_terminate _ _ := inr tt |}.
Lemma unverified_run_stops_witness :
  ∃ t, reconcile (io:=silent_registry) None (λ _, 0) 120 "1.2.3" 600 [] = (inr again, t) ∧
    first_write_stops (set_last_error "registry or lifecycle verification unavailable or stale" unverified_snapshot) (demo_run running) t.
Proof.
  pose proof (unverified_run_stops (io:=silent_registry) None (λ _, 0) 120 "1.2.3" 600 unverified_snapshot (demo_run running) _ _ _ eq_refl eq_refl eq_refl) as H.
  destruct (reconcile (io:=silent_registry) None (λ _, 0) 120 "1.2.3" 600 []) as [res t] eqn:E.
  assert (Er : res = inr again) by (change res with (res, t).1; rewrite <- E; vm_compute; reflexivity). subst res.
  exists t. split; [reflexivity|]. destruct H as [[[e He] _]|H]; [discriminate|exact H].
Defined.

(** * A reconciliation pass launches

    The other half of the rules above: when the services answer, the pass
    does what it is for. *)

(** ** A launch happens *)

Section Launches.
Context `{io : ReconcileBackend}.
Context (clock : option (io_trace → string + Z)) (steady : io_trace → Z) (now : Z) (release : string) (budget : Z).
Context (s s1 : ControllerSnapshot) (a1 : anchors) (t1 : io_trace) (act : Activation) (late : Z).

(** The arguments are valid and the services answer; the lifecycle is verified as
    active, by a projection that is new or was observed before; the record holds no run
    and an activation that is authorised until [late]; no clock passes [late]. *)
Record launch_ready : Prop := mk_launch_ready {
  lr_now : 0 < now;
  lr_release : valid_release release = true;
  lr_budget : 1 ≤ budget ≤ 3000;
  lr_read : io_read [ESteady (inr (steady []))] = inr s;
  lr_observe : reconcile_observe now budget s (mk_anchors now (steady [])) [ERead (inr s); ESteady (inr (steady []))]
               = (inr (s1, lifecycle_active), a1, t1);
  lr_no_run : snap_run s = None;
  lr_activation : activation (snap_activation s1) = Some act;
  lr_authorized : ∀ time, now ≤ time ≤ late → activation_authorized (snap_activation s1) time = true;
  lr_identity : ∀ t, ∃ id, io_identity t = inr id ∧ valid_identity id = true;
  lr_request : ∀ id a n t, ∃ req, io_request id a n t = inr req ∧ req ≠ EmptyString ∧ string_size req ≤ 2048;
  lr_save : ∀ s n v t, io_save s n v t = inr true;
  lr_clock : ∀ f t, clock = Some f → ∃ z, f t = inr z ∧ 0 < z ≤ late;
  lr_steady : ∀ t, steady [] ≤ steady t ∧ now + Z.quot (steady t - steady []) NANOSECONDS ≤ late;
  lr_late : late ≤ INT64_MAX }.
Hypothesis ready : launch_ready.

(** Something was launched, whether or not the pass returned. *)
Definition launched (t : io_trace) : Prop := ∃ r c, ELaunch r c ∈ t ∧ activation_id r = act_id act.
Abbreviation L := (λ _ (_ : anchors) (t : io_trace), launched t).

Lemma ready_call {A B} (e : string + A → io_event) f x (k : A → X io_event anchors B) Q R a t :
  f t = inr x → xwp (k x) Q R a (e (inr x) :: t) → xwp (y ← xcall e f; k y) Q R a t.
Proof. intros Hf HQ. xwp_step. apply xwp_call; intros y Hy; rewrite Hf in Hy; by simplify_eq. Qed.

Lemma ready_time {B} (k : Z → X io_event anchors B) Q R t :
  (∀ v a' t', now ≤ v ≤ late → xwp (k v) Q R a' t') →
  xwp (y ← current_time clock steady now; k y) Q R (mk_anchors now (steady [])) t.
Proof.
  intros HQ. pose proof (lr_now ready). pose proof (lr_late ready). unfold current_time, steady_now. xwp_step. xwp_step.
  apply (xwp_mono _ (λ z a _, a = mk_anchors now (steady []) ∧ 0 < z ∧ (z ≤ late ∨ z = now)) _ (λ _ _ _, False)); [|intros z a t' (-> & Hz & Hz')|done].
  { destruct clock as [f|] eqn:Ec; [|xwp_step; auto]. destruct (lr_clock ready f t Ec) as (z & Hf & Hz).
    apply xwp_call; intros x Hx; rewrite Hf in Hx; simplify_eq. auto with lia. }
  xwp_step; [bool_simpl; lia|]. xwp_step. apply xwp_call; [|done]. intros st [= <-]. xwp_step. xwp_step. cbn [anchor_wall anchor_steady].
  destruct (lr_steady ready t') as [Hs0 Hs1].
  assert (0 ≤ Z.quot (steady t' - steady []) NANOSECONDS) by (apply Z.quot_pos; unfold NANOSECONDS; lia).
  xwp_step; [apply orb_true_iff in Hb0 as [?|?]; bool_simpl; lia|]. xwp_step; bool_simpl; [xwp_step; xwp_step; xwp_step|xwp_step]; apply HQ; lia.
Qed.

Lemma launched_keeps n saved c : xkeeps (λ _ t, launched t) L (record_launch clock steady now n saved c).
Proof.
  assert (Hc : ∀ A (e : string + A → io_event) f, xkeeps (λ _ t, launched t) L (xcall e f)).
  { intros. apply xkeeps_call; [intros ??? (r&c'&?&?)|intros ??? _ (r&c'&?&?)]; exists r, c'; split; try done; by right. }
  induction n as [|n IH]; [apply xkeeps_ret|]. cbn [record_launch].
  unfold read, current_time, steady_now, accept_launch, save, terminate.
  repeat (xkeeps_step || apply Hc || apply IH || (by intros ??) || (apply xkeeps_modify; by intros)).
Qed.
End Launches.

Lemma reconcile_fence_no_run s current dt :
  snap_run s = None → verified_at s ≤ dt →
  snap_run (reconcile_fence s current dt) = None ∧
  snap_activation (reconcile_fence s current dt) = snap_activation s.
Proof.
  unfold reconcile_fence, fence_run, snap_run, snap_activation. intros Hr Hv. rewrite (proj2 (Z.ltb_ge _ _) Hv).
  rewrite Hr. cbn. by rewrite Hr.
Qed.

(** C37: One reconciliation pass over a device that has no run launches a MicroVM for
    the authorised activation of the device. The conditions: the record is read and the
    lifecycle verified as active in this pass, whether the projection is new or was
    observed before; the activation is authorised from the start of the pass until a
    time that neither the wall clock nor the steady clock of the pass exceeds; an
    identity, a request and the writes of the record succeed; the release is valid, the
    budget between 1 and 3000 seconds and the start positive. *)
Theorem reconcile_launches `{io : ReconcileBackend} clock steady now release budget s s1 a1 t1 act late :
  launch_ready clock steady now release budget s s1 a1 t1 act late →
  launched act (reconcile clock steady now release budget []).2.
Proof.
  intros ready. pose proof (lr_now _ _ _ _ _ _ _ _ _ _ _ ready). pose proof (lr_budget _ _ _ _ _ _ _ _ _ _ _ ready) as [??].
  pose proof (lr_release _ _ _ _ _ _ _ _ _ _ _ ready) as Hrel. pose proof (lr_authorized _ _ _ _ _ _ _ _ _ _ _ ready) as Hau.
  destruct (observe_record _ _ _ _ _ _ _ _ _ (lr_observe _ _ _ _ _ _ _ _ _ _ _ ready)) as (Ea & Hrun1 & Hver). specialize (Hver eq_refl).
  assert (Hnl : now ≤ late) by (destruct (lr_steady _ _ _ _ _ _ _ _ _ _ _ ready []) as [_ Hl]; rewrite Z.sub_diag, Z.quot_0_l in Hl by done; lia).
  assert (Hau0 : activation_authorized (snap_activation s1) now = true) by (apply Hau; lia).
  unfold reconcile. rewrite (proj2 (Z.leb_gt _ _)), !(proj2 (Z.ltb_ge _ _)) by lia.
  replace (string_empty release) with false by by destruct release. cbn [orb].
  set (t0 := [ESteady (inr (steady []))]).
  enough (xwp (reconcile_pass clock steady now release budget) (λ _ _ t, launched act t) (λ _ _ t, launched act t) (mk_anchors now (steady [])) t0) as H'.
  { unfold xwp in H'. by destruct (reconcile_pass _ _ _ _ _ _ _) as [[[]?]?]. }
  unfold reconcile_pass, read. eapply ready_call; [apply ready|]. xwp_step. unfold xwp at 1, t0. rewrite (lr_observe _ _ _ _ _ _ _ _ _ _ _ ready), Ea.
  xwp_step. unfold reconcile_unverified. xwp_step.
  xwp_step. match goal with |- xwp (reconcile_reserve _ (reconcile_fence ?s0 _ _) _ _) _ _ _ _ => set (s0' := s0) end.
  destruct (reconcile_fence_no_run s0' lifecycle_active now) as [Hrun Hact2];
    [cbn; unfold snap_run in *; cbn; rewrite Hrun1; apply ready|cbn; lia|].
  set (s2 := reconcile_fence s0' lifecycle_active now) in *. clearbody s2. unfold s0' in Hact2. clear s0'.
  unfold reconcile_reserve. rewrite Hrun, Hact2. change (snap_activation (set_unverified_since 0 s1)) with (snap_activation s1) in *.
  rewrite (lr_activation _ _ _ _ _ _ _ _ _ _ _ ready), Hau0. cbn [andb bool_decide].
  destruct (lr_identity _ _ _ _ _ _ _ _ _ _ _ ready t1) as (rid&Hrid&Hvalid).
  xwp_step; [|done]. unfold identity. eapply ready_call; [exact Hrid|].
  match goal with |- xwp _ _ _ _ ?t => destruct (lr_request _ _ _ _ _ _ _ _ _ _ _ ready rid act now t) as (req&Hreq&Hne&Hsz) end.
  eapply ready_call; [exact Hreq|]. xwp_step. unfold reserve_run.
  pose proof (lr_activation _ _ _ _ _ _ _ _ _ _ _ ready) as Hla. unfold snap_run, snap_activation in *. rewrite Hrun, Hact2, Hla, Hau0, Hvalid, Hrel. cbn [negb orb].
  rewrite (proj2 (string_empty_false req) Hne), (proj2 (Z.ltb_ge _ _) Hsz). cbn [orb].
  xwp_step; [done|]. xwp_step. xwp_step. unfold save. eapply ready_call; [apply ready|]. xwp_step; [done|]. cbn.
  unfold reconcile_launch. xwp_step; [done|]. eapply ready_time; [exact ready|]. intros v a' t' Hv. cbn -[record_launch]. unfold snap_activation. cbn -[record_launch].
  rewrite Hact2, (Hau v Hv). cbn [negb]. xwp_step.
  set (r := mk_run rid (act_id act) release req EmptyString reserved).
  apply xwp_call; intros c _; (assert (Hl : ∀ c, launched act (ELaunch r c :: t')) by (intros c'; exists r, c'; split; [by left|done])); [|apply Hl].
  xwp_step; [apply Hl|]. apply (launched_keeps clock steady now act 3 r c), Hl.
Qed.

(** The clocks advance: a tenth of a second with every event, and the wall clock reads
    two seconds later. *)
Definition demo_steady (t : io_trace) : Z := 100000000 * Z.of_nat (min 9 (length t)).
Definition demo_wall (t : io_trace) : string + Z := inr 122.
Lemma reconcile_launches_witness :
  launched (mk_activation "a1" 100 700) (reconcile (io:=demo_backend) (Some demo_wall) demo_steady 120 "1.2.3" 600 []).2.
Proof.
  eapply (reconcile_launches (io:=demo_backend) (Some demo_wall) demo_steady 120 "1.2.3" 600 demo_snapshot _ _ _ _ 130).
  split; try (intros; vm_compute; first [done|reflexivity|discriminate]).
  - intros time Hl. cbn. apply andb_true_iff. split; [apply Z.leb_le|apply Z.ltb_lt]; lia.
  - intros t. exists "run-1"%string. split; [done|vm_compute; reflexivity].
  - intros id a n t. exists "{}"%string. split; [done|]. split; vm_compute; discriminate.
  - intros f t [= <-]. exists 122. split; [reflexivity|lia].
  - intros t. unfold demo_steady. cbn [length]. split; [lia|]. transitivity (120 + 0); [|lia]. apply Zplus_le_compat_l.
    rewrite Z.quot_small; [lia|]. unfold NANOSECONDS. lia.
Defined.
