(* ===== verification/AgentShadow.v ===== *)
(** * The controller record in the device's shadow

    [agent/src/controller_shadow.cpp]: [parse_controller_shadow] reads a
    controller record from a shadow document and refuses one that is incomplete
    or inconsistent; [controller_shadow_patch] builds the update that saves a
    record. The shadow service merges the update into the document; what is
    used of that is [reflects]. *)
From S2P Require Import Prelude Cpp AwsJson AgentController AgentReconcile.

Section Shadow.
Context `{json : AwsJson} {E S : Type}.
Abbreviation P := (X E S).

Definition str (value : JsonView) (name : string) : P string :=
  if negb (ValueExists value name) || negb (IsString (GetObject value name)) || string_empty (GetString value name)
  then throw ("agent shadow: invalid " +:+ name) else mret (c_str (GetString value name)).

Definition number (value : JsonView) (name : string) : P Z :=
  if negb (ValueExists value name) || negb (IsIntegerType (GetObject value name)) || (GetInt64 value name <? 0)
  then throw ("agent shadow: invalid " +:+ name) else mret (GetInt64 value name).

Definition object (value : JsonView) (name : string) : P JsonView :=
  if negb (ValueExists value name) || negb (IsObject (GetObject value name))
  then throw ("agent shadow: missing " +:+ name) else mret (GetObject value name).

(** A member that may be missing. *)
Definition optional {A} (present : bool) (default_value : A) (read : P A) : P A :=
  if present then read else mret default_value.

Definition parse_phase (value : string) : P RunPhase :=
  if bool_decide (value = "reserved") then mret reserved else
  if bool_decide (value = "running") then mret running else
  if bool_decide (value = "stopping") then mret stopping else
  throw "agent shadow: invalid run phase".

Definition phase_name (p : RunPhase) : string :=
  match p with reserved => "reserved" | running => "running" | stopping => "stopping" end.

(** The observation flags agree with the version, the source time and the time
    of the last inactive reading. *)
Definition inconsistent_observation (version source_timestamp inactive_observed_at : Z) (obs act : bool) : bool :=
  negb (eqb obs (0 <? version)) || negb (eqb obs (0 <? source_timestamp))
  || (negb obs && (act || negb (inactive_observed_at =? 0)))
  || (obs && negb act && (inactive_observed_at =? 0)).

Definition parse_observation (controller : JsonView) : P ActivationState :=
  version ← number controller "projectionVersion";
  source_timestamp ← number controller "sourceTimestampMs";
  inactive_at ← number controller "inactiveObservedAt";
  if negb (ValueExists controller "observed") || negb (IsBool (GetObject controller "observed"))
     || negb (ValueExists controller "active") || negb (IsBool (GetObject controller "active"))
  then throw "agent shadow: invalid observation flags" else
  let obs := GetBool controller "observed" in
  let act := GetBool controller "active" in
  if inconsistent_observation version source_timestamp inactive_at obs act
  then throw "agent shadow: inconsistent observation"
  else mret (mk_activation_state version source_timestamp inactive_at obs act None).

Definition parse_activation (reported : JsonView) (st : ActivationState) : P Activation :=
  value ← object reported "activation";
  id ← str value "id";
  started ← number value "startedAt";
  dl ← number value "deadline";
  if negb (observed st) || (dl <=? started) || (3000 <? dl - started)
  then throw "agent shadow: invalid activation deadline" else mret (mk_activation id started dl).

Definition parse_run (reported controller : JsonView) (a : option Activation) : P RunReservation :=
  match a with
  | None => throw "agent shadow: run without activation"
  | Some _ =>
      value ← object reported "run";
      rid ← str value "id";
      rel ← str value "release";
      act ← str controller "runActivationId";
      req ← str controller "launchRequest";
      ph ← (p ← str controller "runPhase"; parse_phase p);
      if 2048 <? string_size req then throw "agent shadow: launch request too large" else
      vm ← optional (ValueExists value "microvmId") EmptyString (str value "microvmId");
      if bool_decide (ph = running) && string_empty vm
      then throw "agent shadow: running without MicroVM identity"
      else mret (mk_run rid act rel req vm ph)
  end.

Definition parse_controller_shadow (text : string) : P ControllerSnapshot :=
  match json_parse (c_str text) with
  | None => throw "agent shadow: invalid JSON"
  | Some root =>
      if negb (IsObject root) then throw "agent shadow: invalid JSON" else
      version ← number root "version";
      state ← object root "state";
      reported ← object state "reported";
      lifecycle ← object reported "lifecycle";
      verified ← optional (ValueExists lifecycle "verifiedAt") 0 (number lifecycle "verifiedAt");
      err ← optional (ValueExists reported "lastError") EmptyString (str reported "lastError");
      let has_activation := ValueExists reported "activation" && IsObject (GetObject reported "activation") in
      let has_run := ValueExists reported "run" && IsObject (GetObject reported "run") in
      if negb (ValueExists reported "controller") then
        if has_activation || has_run then throw "agent shadow: missing controller state"
        else mret (mk_snapshot version verified 0 0 err (mk_controller initial_activation None))
      else
        controller ← object reported "controller";
        unverified ← optional (ValueExists controller "unverifiedSince") 0 (number controller "unverifiedSince");
        stop_at ← optional (ValueExists controller "stopRequestedAt") 0 (number controller "stopRequestedAt");
        st ← parse_observation controller;
        a ← (if has_activation then a ← parse_activation reported st; mret (Some a) else mret None);
        let st := mk_activation_state (projection_version st) (source_timestamp_ms st) (inactive_observed_at st)
                    (observed st) (active st) a in
        r ← (if has_run then r ← parse_run reported controller a; mret (Some r)
             else if ValueExists controller "runActivationId" || ValueExists controller "runPhase"
                     || ValueExists controller "launchRequest"
             then throw "agent shadow: orphan run metadata" else mret None);
        mret (mk_snapshot version verified unverified stop_at err (mk_controller st r))
  end.

(** ** The update *)

(** The members of [controller] that describe the run. *)
Definition patch_run_controller (snapshot : ControllerSnapshot) (now : Z) : list (string * json_value) :=
  match snap_run snapshot with
  | Some r =>
      [("stopRequestedAt",
        match phase r with
        | stopping => JInt64 (if stop_requested_at snapshot =? 0 then now else stop_requested_at snapshot)
        | _ => JNull
        end);
       ("runActivationId", JString (c_str (activation_id r))); ("runPhase", JString (phase_name (phase r)));
       ("launchRequest", JString (c_str (request r)))]
  | None => [("stopRequestedAt", JNull); ("runActivationId", JNull); ("runPhase", JNull); ("launchRequest", JNull)]
  end.

Definition patch_controller (snapshot : ControllerSnapshot) (now : Z) : list (string * json_value) :=
  let a := snap_activation snapshot in
  ([("projectionVersion", JInt64 (projection_version a)); ("sourceTimestampMs", JInt64 (source_timestamp_ms a));
    ("inactiveObservedAt", JInt64 (inactive_observed_at a)); ("unverifiedSince", JInt64 (unverified_since snapshot));
    ("observed", JBool (observed a)); ("active", JBool (active a))] ++ patch_run_controller snapshot now).

Definition patch_activation (a : ActivationState) : json_value :=
  match activation a with
  | Some x => JObject [("id", JString (c_str (act_id x))); ("startedAt", JInt64 (started_at x)); ("deadline", JInt64 (deadline x))]
  | None => JNull
  end.

Definition patch_run (snapshot : ControllerSnapshot) : list (string * json_value) :=
  match snap_run snapshot with
  | Some r =>
      ("run", JObject [("id", JString (c_str (run_id r))); ("release", JString (c_str (release r)));
                       ("microvmId", if string_empty (microvm_id r) then JNull else JString (c_str (microvm_id r)))])
      :: match phase r with running => [] | _ => [("endpoint", JNull); ("runtime", JNull)] end
  | None => [("run", JNull); ("endpoint", JNull); ("runtime", JNull)]
  end.

Definition patch_lifecycle (snapshot : ControllerSnapshot) (now verified : Z) : list (string * json_value) :=
  match snap_run snapshot with
  | Some r =>
      ("state", JString (match phase r with reserved => "starting" | running => "running" | stopping => "stopping" end))
      :: match phase r with stopping => [] | _ => [("verifiedAt", JInt64 verified)] end
  | None =>
      let expired := match activation (snap_activation snapshot) with
                     | Some a => (deadline a <=? now) && active (snap_activation snapshot)
                     | None => false
                     end in
      [("state", JString (if expired then "expired" else "stopped"))]
  end.

Definition patch_reported (snapshot : ControllerSnapshot) (now verified : Z) : list (string * json_value) :=
  [("lastError", if string_empty (last_error snapshot) then JNull else JString (c_str (last_error snapshot)));
   ("activation", patch_activation (snap_activation snapshot))]
  ++ patch_run snapshot
  ++ [("controller", JObject (patch_controller snapshot now)); ("lifecycle", JObject (patch_lifecycle snapshot now verified))].

Definition controller_shadow_patch (snapshot : ControllerSnapshot) (now verified : Z) : P string :=
  if (shadow_version snapshot <? 0) || (unverified_since snapshot <? 0) || (stop_requested_at snapshot <? 0)
     || (now <? 0) || (verified <? 0) || (now <? verified)
     || (INT64_MAX <? projection_version (snap_activation snapshot))
  then throw "invalid controller shadow times or version"
  else if match snap_run snapshot with
          | Some r => string_empty (request r) || (2048 <? string_size (request r))
          | None => false
          end
  then throw "invalid launch request length"
  else mret (c_str (WriteCompact
         [("version", JInt64 (shadow_version snapshot));
          ("state", JObject [("reported", JObject (patch_reported snapshot now verified))])])).
End Shadow.

(** ** What a parsed record satisfies *)

Definition observation_wf (a : ActivationState) : Prop :=
  0 ≤ projection_version a ∧ 0 ≤ source_timestamp_ms a ∧ 0 ≤ inactive_observed_at a ∧
  (observed a = true ↔ 0 < projection_version a) ∧ (observed a = true ↔ 0 < source_timestamp_ms a) ∧
  (observed a = false → active a = false ∧ inactive_observed_at a = 0) ∧
  (observed a = true → active a = false → 0 < inactive_observed_at a).

Definition snapshot_wf (s : ControllerSnapshot) : Prop :=
  0 ≤ shadow_version s ∧ 0 ≤ verified_at s ∧ 0 ≤ unverified_since s ∧ 0 ≤ stop_requested_at s ∧
  observation_wf (snap_activation s) ∧
  (∀ x, activation (snap_activation s) = Some x →
     observed (snap_activation s) = true ∧ 0 ≤ started_at x ∧ started_at x < deadline x ≤ started_at x + 3000) ∧
  (∀ r, snap_run s = Some r →
     activation (snap_activation s) ≠ None ∧ string_size (request r) ≤ 2048 ∧
     (phase r = running → microvm_id r ≠ EmptyString)).

Lemma consistent_observation v ts ia o a :
  0 ≤ v → 0 ≤ ts → 0 ≤ ia → inconsistent_observation v ts ia o a = false ↔
  observation_wf (mk_activation_state v ts ia o a None).
Proof.
  intros Hv Ht Hi. unfold inconsistent_observation, observation_wf. cbn.
  destruct (Z.ltb_spec 0 v), (Z.ltb_spec 0 ts), (Z.eqb_spec ia 0), o, a; cbn;
    (split; [intros [=]; repeat split; intros; done || lia|intros (_&_&_&[H1 H1']&[H2 H2']&H3&H4); try done; exfalso]);
    first [specialize (H1 eq_refl); lia|specialize (H2 eq_refl); lia|by specialize (H1' ltac:(lia))
          |by specialize (H2' ltac:(lia))|destruct (H3 eq_refl); done || lia|specialize (H4 eq_refl eq_refl); lia].
Qed.

Section Parsed.
Context `{json : AwsJson} {E S : Type}.
Abbreviation T := (λ (_ : string) (_ : S) (_ : list E), True).

Lemma number_wp v name (s : S) (t : list E) : xwp (number v name) (λ n _ _, 0 ≤ n) T s t.
Proof. unfold number. xwp_step; [by xwp_step|]. bool_simpl. by xwp_step. Qed.

Lemma optional_number_wp b v name (s : S) (t : list E) : xwp (optional b 0 (number v name)) (λ n _ _, 0 ≤ n) T s t.
Proof. unfold optional. xwp_step; [apply number_wp|]. by xwp_step. Qed.

Lemma parse_observation_wp c (s : S) (t : list E) :
  xwp (parse_observation c) (λ a _ _, observation_wf a ∧ activation a = None) T s t.
Proof.
  unfold parse_observation. xwp_step. eapply xwp_mono; [apply number_wp| |done]. intros v s1 t1 Hv. xwp_step.
  eapply xwp_mono; [apply number_wp| |done]. intros ts s2 t2 Ht. xwp_step.
  eapply xwp_mono; [apply number_wp| |done]. intros ia s3 t3 Hi. xwp_step; [by xwp_step|]. xwp_step; [by xwp_step|].
  xwp_step. split; [|done]. by apply consistent_observation.
Qed.

Lemma parse_activation_wp v st (s : S) (t : list E) :
  xwp (parse_activation v st)
    (λ x _ _, observed st = true ∧ 0 ≤ started_at x ∧ started_at x < deadline x ≤ started_at x + 3000) T s t.
Proof.
  unfold parse_activation. do 2 (apply xwp_after; intros ???). xwp_step.
  eapply xwp_mono; [apply number_wp| |done]. intros st0 s1 t1 Hs. xwp_step.
  eapply xwp_mono; [apply number_wp| |done]. intros dl s2 t2 Hd. xwp_step; [by xwp_step|]. bool_simpl. xwp_step. cbn.
  cbn in *. split; [done|]. lia.
Qed.

Lemma parse_run_wp v c a (s : S) (t : list E) :
  xwp (parse_run v c a)
    (λ r _ _, a ≠ None ∧ string_size (request r) ≤ 2048 ∧ (phase r = running → microvm_id r ≠ EmptyString)) T s t.
Proof.
  unfold parse_run. destruct a as [a|]; [|by xwp_step]. do 6 (apply xwp_after; intros ???). xwp_step; [by xwp_step|].
  bool_simpl. apply xwp_after; intros vm ??. xwp_step; [by xwp_step|]. xwp_step. split_and!; try done. cbn.
  intros ->. cbn in Hb0. by apply string_empty_false.
Qed.

(** A record that [parse_controller_shadow] accepts is well formed, whatever the
    document: flags that agree with the observed version, a deadline at most 3000
    seconds after the start, no run without an activation, no running run
    without a MicroVM. *)
Theorem parse_controller_shadow_wf text (s : S) (t : list E) :
  xwp (parse_controller_shadow text) (λ snap _ _, snapshot_wf snap) T s t.
Proof.
  unfold parse_controller_shadow. destruct (json_parse (c_str text)) as [root|]; [|by xwp_step].
  xwp_step; [by xwp_step|]. xwp_step. eapply xwp_mono; [apply number_wp| |done]. intros version s1 t1 Hver.
  apply xwp_after; intros state0 ??. apply xwp_after; intros reported ??. apply xwp_after; intros lifecycle ??. xwp_step. eapply xwp_mono; [apply optional_number_wp| |done].
  intros verified s2 t2 Hvf. apply xwp_after; intros err s3 t3. xwp_step.
  { xwp_step; [by xwp_step|]. xwp_step. unfold snapshot_wf, observation_wf. cbn. split_and!; done || lia. }
  apply xwp_after; intros controller ??. xwp_step. eapply xwp_mono; [apply optional_number_wp| |done].
  intros unv s4 t4 Hunv. xwp_step. eapply xwp_mono; [apply optional_number_wp| |done]. intros stop s5 t5 Hstop. xwp_step.
  eapply xwp_mono; [apply parse_observation_wp| |done]. intros st s6 t6 [Hobs _]. xwp_step.
  eapply (xwp_mono _ (λ a _ _, ∀ x, a = Some x → observed st = true ∧ 0 ≤ started_at x ∧
            started_at x < deadline x ≤ started_at x + 3000) _ T); [| |done].
  { xwp_step; [|by xwp_step]. xwp_step. eapply xwp_mono; [apply parse_activation_wp| |done].
    intros x s7 t7 Hx. xwp_step. by intros ? [= <-]. }
  intros a s7 t7 Ha. xwp_step.
  eapply (xwp_mono _ (λ ro _ _, ∀ r, ro = Some r → a ≠ None ∧ string_size (request r) ≤ 2048 ∧
            (phase r = running → microvm_id r ≠ EmptyString)) _ T); [| |done].
  { xwp_step; [|xwp_step; by xwp_step]. xwp_step. eapply xwp_mono; [apply parse_run_wp| |done].
    intros r s8 t8 Hr. xwp_step. by intros ? [= <-]. }
  intros ro s8 t8 Hro. xwp_step. unfold snapshot_wf. cbn. by split_and!.
Qed.
End Parsed.

(** ** The record survives the shadow *)

(** What the shadow service documents about an accepted update [v]: a value the
    update sets reads back from the document [d], a [null] removes the member,
    an object is merged member by member. *)
Fixpoint reflects (v d : json_value) : Prop :=
  match v with
  | JObject fields =>
      (∃ ds, d = JObject ds) ∧
      (fix all (fields : list (string * json_value)) : Prop :=
         match fields with
         | [] => True
         | (k, v) :: fields => reflects v (json_member d k) ∧ all fields
         end) fields
  | _ => d = v
  end.

Lemma reflects_elem fields d k v : reflects (JObject fields) d → (k, v) ∈ fields → reflects v (json_member d k).
Proof.
  intros [_ H] Hin. induction fields as [|[k' v'] fields IH]; [by apply not_elem_of_nil in Hin|].
  destruct H as [Hv H]. apply elem_of_cons in Hin as [[= -> ->]|Hin]; auto.
Qed.

(** The texts are C strings. *)
Definition no_nul (s : string) : Prop := c_str s = s.

Definition storable (s : ControllerSnapshot) : Prop :=
  snapshot_wf s ∧ no_nul (last_error s) ∧
  (∀ x, activation (snap_activation s) = Some x → act_id x ≠ EmptyString ∧ no_nul (act_id x)) ∧
  (∀ r, snap_run s = Some r →
     (run_id r ≠ EmptyString ∧ no_nul (run_id r)) ∧ (activation_id r ≠ EmptyString ∧ no_nul (activation_id r)) ∧
     (release r ≠ EmptyString ∧ no_nul (release r)) ∧ (request r ≠ EmptyString ∧ no_nul (request r)) ∧
     no_nul (microvm_id r)).

(** The record that is read back after [s] was saved at [now]: a run that stops
    has the time of its first stop request, any other record has none; the
    verification time is the saved one while the run is not stopping, and what
    the document had before otherwise. *)
Definition saved_snapshot (s : ControllerSnapshot) (now verified version old : Z) : ControllerSnapshot :=
  let stop_at := match snap_run s with
                 | Some r => match phase r with
                             | stopping => if stop_requested_at s =? 0 then now else stop_requested_at s
                             | _ => 0
                             end
                 | None => 0
                 end in
  let verified := match snap_run s with
                  | Some r => match phase r with stopping => old | _ => verified end
                  | None => old
                  end in
  mk_snapshot version verified (unverified_since s) stop_at (last_error s) (state s).

(** [verifiedAt] of a document, as the parser reads it. *)
Definition document_verified_at (reported : json_value) : Z :=
  match json_member (json_member reported "lifecycle") "verifiedAt" with JInt64 n => n | _ => 0 end.

Section Roundtrip.
Context (texts : string → option json_value) (write : list (string * json_value) → string).
Context {E S : Type}.
#[local] Instance tree : AwsJson := table_json texts write.
Abbreviation P := (X E S).

Context (R : string → S → list E → Prop).

Lemma str_tree d name v (Q : string → S → list E → Prop) s t :
  json_member d name = JString v → v ≠ EmptyString → no_nul v → Q v s t → xwp (str d name) Q R s t.
Proof.
  intros Hm Hv Hn HQ. unfold str. cbn. rewrite Hm. cbn. rewrite (proj2 (string_empty_false v) Hv). by rewrite <- Hn in HQ.
Qed.

Lemma number_tree d name n (Q : Z → S → list E → Prop) s t :
  json_member d name = JInt64 n → 0 ≤ n → Q n s t → xwp (number d name) Q R s t.
Proof. intros Hm Hn HQ. unfold number. cbn. rewrite Hm. cbn. by rewrite (proj2 (Z.ltb_ge _ _) Hn). Qed.

Lemma object_tree d name fields (Q : json_value → S → list E → Prop) s t :
  json_member d name = JObject fields → Q (JObject fields) s t → xwp (object d name) Q R s t.
Proof. intros Hm HQ. unfold object. cbn. by rewrite Hm. Qed.

(** Members that the update removed or set. *)
Lemma optional_str_tree d name v (Q : string → S → list E → Prop) s t :
  json_member d name = (if string_empty v then JNull else JString (c_str v)) → no_nul v → Q v s t →
  xwp (optional (ValueExists d name) EmptyString (str d name)) Q R s t.
Proof.
  intros Hm Hn HQ. unfold optional. cbn. rewrite Hm. destruct (string_empty v) eqn:Ee.
  - apply string_empty_spec in Ee as ->. by xwp_step.
  - rewrite Hn in Hm. apply (str_tree d name v); try done. by apply string_empty_false.
Qed.

Lemma parse_phase_tree p (Q : RunPhase → S → list E → Prop) s t : Q p s t → xwp (parse_phase (phase_name p)) Q R s t.
Proof. by destruct p. Qed.

(** The run of a record and what it says of the run in [controller]. *)
Lemma parse_run_tree reported controller a r fields (Q : RunReservation → S → list E → Prop) s t :
  a ≠ None →
  json_member reported "run" = JObject fields →
  json_member (JObject fields) "id" = JString (c_str (run_id r)) →
  json_member (JObject fields) "release" = JString (c_str (release r)) →
  json_member (JObject fields) "microvmId" = (if string_empty (microvm_id r) then JNull else JString (c_str (microvm_id r))) →
  json_member controller "runActivationId" = JString (c_str (activation_id r)) →
  json_member controller "runPhase" = JString (phase_name (phase r)) →
  json_member controller "launchRequest" = JString (c_str (request r)) →
  (run_id r ≠ EmptyString ∧ no_nul (run_id r)) ∧ (activation_id r ≠ EmptyString ∧ no_nul (activation_id r)) ∧
  (release r ≠ EmptyString ∧ no_nul (release r)) ∧ (request r ≠ EmptyString ∧ no_nul (request r)) ∧ no_nul (microvm_id r) →
  string_size (request r) ≤ 2048 → (phase r = running → microvm_id r ≠ EmptyString) →
  Q r s t → xwp (parse_run reported controller a) Q R s t.
Proof.
  intros Ha Hrun Hid Hrel Hvm Hact Hph Hreq ([? N1]&[? N2]&[? N3]&[? N4]&N5) Hsz Hrunning HQ. rewrite N1 in Hid. rewrite N3 in Hrel.
  rewrite N2 in Hact. rewrite N4 in Hreq. unfold parse_run. destruct a; [|done].
  xwp_step. eapply object_tree; [exact Hrun|]. xwp_step. eapply str_tree; [exact Hid|done..|]. xwp_step.
  eapply str_tree; [exact Hrel|done..|]. xwp_step. eapply str_tree; [exact Hact|done..|]. xwp_step.
  eapply str_tree; [exact Hreq|done..|]. xwp_step. xwp_step.
  eapply str_tree; [exact Hph|by destruct (phase r)|by destruct (phase r)|]. apply parse_phase_tree.
  xwp_step; [bool_simpl; lia|]. xwp_step. eapply optional_str_tree; [exact Hvm|done|]. xwp_step.
  - exfalso. apply andb_true_iff in Hb0 as [Hp Hv]. apply bool_decide_eq_true in Hp. apply string_empty_spec in Hv. by apply Hrunning.
  - xwp_step. by destruct r.
Qed.

(** The document after the service accepted the update of [s]. *)
Record saved_document (s : ControllerSnapshot) (now verified version : Z) (root reported : json_value) : Prop := mk_saved {
  sd_root : ∃ fs, root = JObject fs;
  sd_version : json_member root "version" = JInt64 version;
  sd_state : ∃ st, json_member root "state" = JObject st ∧ json_member (JObject st) "reported" = reported;
  sd_reflects : reflects (JObject (patch_reported s now verified)) reported;
  sd_verified : json_member (json_member reported "lifecycle") "verifiedAt" = JNull ∨
    json_member (json_member reported "lifecycle") "verifiedAt" = JInt64 (document_verified_at reported) ∧
    0 ≤ document_verified_at reported }.

Lemma patched_controller s now verified reported :
  reflects (JObject (patch_reported s now verified)) reported →
  ∃ fs, json_member reported "controller" = JObject fs ∧ reflects (JObject (patch_controller s now)) (JObject fs).
Proof.
  intros H. apply (reflects_elem _ _ "controller" (JObject (patch_controller s now))) in H.
  - destruct H as [[fs Hfs] H]. exists fs. rewrite Hfs in *. split; [done|]. split; [by eexists|done].
  - unfold patch_reported. apply elem_of_app. right. apply elem_of_app. right. left.
Qed.

Lemma patched_lifecycle s now verified reported :
  reflects (JObject (patch_reported s now verified)) reported →
  ∃ fs, json_member reported "lifecycle" = JObject fs ∧ reflects (JObject (patch_lifecycle s now verified)) (JObject fs).
Proof.
  intros H. apply (reflects_elem _ _ "lifecycle" (JObject (patch_lifecycle s now verified))) in H.
  - destruct H as [[fs Hfs] H]. exists fs. rewrite Hfs in *. split; [done|]. split; [by eexists|done].
  - unfold patch_reported. apply elem_of_app. right. apply elem_of_app. right. right. left.
Qed.

Lemma parse_observation_tree s now fs (Q : ActivationState → S → list E → Prop) c t :
  observation_wf (snap_activation s) →
  reflects (JObject (patch_controller s now)) (JObject fs) →
  Q (mk_activation_state (projection_version (snap_activation s)) (source_timestamp_ms (snap_activation s))
       (inactive_observed_at (snap_activation s)) (observed (snap_activation s)) (active (snap_activation s)) None) c t →
  xwp (parse_observation (JObject fs)) Q R c t.
Proof.
  intros Hwf H HQ. unfold patch_controller in H. destruct H as [_ (H1&H2&H3&_&H5&H6&_)]. pose proof Hwf as (?&?&?&_).
  unfold parse_observation. xwp_step. eapply number_tree; [exact H1|done|]. xwp_step. eapply number_tree; [exact H2|done|].
  xwp_step. eapply number_tree; [exact H3|done|]. cbn [ValueExists GetObject IsBool GetBool tree table_json]. rewrite H5, H6. cbn [negb orb].
  pose proof (consistent_observation (projection_version (snap_activation s)) (source_timestamp_ms (snap_activation s))
    (inactive_observed_at (snap_activation s)) (observed (snap_activation s)) (active (snap_activation s))) as Hc.
  rewrite (proj2 (Hc ltac:(done) ltac:(done) ltac:(done))); [by xwp_step|]. by destruct (snap_activation s).
Qed.

(** The activation of the record. *)
Lemma parse_activation_tree s now verified reported (st : ActivationState) (Q : option Activation → S → list E → Prop) c t :
  storable s → observed st = observed (snap_activation s) →
  reflects (JObject (patch_reported s now verified)) reported →
  Q (activation (snap_activation s)) c t →
  xwp (if ValueExists reported "activation" && IsObject (GetObject reported "activation")
       then a ← parse_activation reported st; mret (Some a) else mret None) Q R c t.
Proof.
  intros (Hwf&_&Hact&_) Hst H HQ. destruct Hwf as (_&_&_&_&_&Hwf&_).
  apply (reflects_elem _ _ "activation" (patch_activation (snap_activation s))) in H; [|right; left].
  unfold patch_activation in H. cbn [ValueExists GetObject IsObject tree table_json].
  destruct (activation (snap_activation s)) as [x|] eqn:Ex.
  - destruct H as [[fs Hfs] (H1&H2&H3&_)]. cbn in H1, H2, H3. rewrite Hfs in *. cbn [andb].
    destruct (Hwf x eq_refl) as (?&?&?). destruct (Hact x eq_refl) as [? Hn]. rewrite Hn in H1.
    xwp_step. unfold parse_activation. xwp_step. eapply object_tree; [exact Hfs|]. xwp_step.
    eapply str_tree; [exact H1|done..|]. xwp_step. eapply number_tree; [exact H2|done|]. xwp_step.
    eapply number_tree; [exact H3|lia|]. rewrite Hst. xwp_step.
    + exfalso. rewrite !orb_true_iff in Hb. destruct Hb as [[?|?]|?]; bool_simpl; [congruence|lia..].
    + xwp_step. xwp_step. by destruct x.
  - cbn in H. rewrite H. cbn [andb]. by xwp_step.
Qed.

(** The run of the record. *)
Lemma parse_run_part_tree s now verified reported fs a (Q : option RunReservation → S → list E → Prop) c t :
  storable s → a = activation (snap_activation s) →
  reflects (JObject (patch_reported s now verified)) reported →
  reflects (JObject (patch_controller s now)) (JObject fs) →
  Q (snap_run s) c t →
  xwp (if ValueExists reported "run" && IsObject (GetObject reported "run")
       then r ← parse_run reported (JObject fs) a; mret (Some r)
       else if ValueExists (JObject fs) "runActivationId" || ValueExists (JObject fs) "runPhase"
               || ValueExists (JObject fs) "launchRequest"
       then throw "agent shadow: orphan run metadata" else mret None) Q R c t.
Proof.
  intros (Hwf&_&_&Hs) -> H [_ (_&_&_&_&_&_&Hc)] HQ. destruct Hwf as (_&_&_&_&_&_&Hwf).
  assert (Hr : ∀ k v, (k, v) ∈ patch_run s → reflects v (json_member reported k)).
  { intros k v Hin. apply (reflects_elem _ _ k v H). unfold patch_reported. apply elem_of_app. right. apply elem_of_app. by left. }
  unfold patch_run, patch_run_controller in *. cbn [ValueExists GetObject IsObject tree table_json].
  destruct (snap_run s) as [r|] eqn:Er.
  - specialize (Hr _ _ ltac:(left)). destruct Hr as [[rs Hrs] (R1&R2&R3&_)]. cbn in R1, R2. rewrite Hrs in *. cbn [andb].
    destruct Hc as (_&C2&C3&C4&_). destruct (Hwf r eq_refl) as (?&?&?). xwp_step.
    eapply parse_run_tree; [done|exact Hrs|exact R1|exact R2| |exact C2|exact C3|exact C4|by apply Hs|done..|].
    + by destruct (string_empty (microvm_id r)).
    + by xwp_step.
  - specialize (Hr "run"%string JNull ltac:(left)). cbn in Hr. rewrite Hr. cbn [andb].
    destruct Hc as (_&C2&C3&C4&_). cbn [reflects] in C2, C3, C4. rewrite C2, C3, C4. cbn [orb]. by xwp_step.
Qed.

Lemma optional_number_tree d name n (Q : Z → S → list E → Prop) c t :
  json_member d name = JInt64 n ∨ json_member d name = JNull ∧ n = 0 → 0 ≤ n → Q n c t →
  xwp (optional (ValueExists d name) 0 (number d name)) Q R c t.
Proof.
  intros Hm Hn HQ. unfold optional. cbn [ValueExists tree table_json]. destruct Hm as [Hm|[Hm ->]]; rewrite Hm; [|by xwp_step].
  by eapply number_tree.
Qed.

(** [verifiedAt] and [stopRequestedAt] of the saved record. *)
Lemma verified_tree s now verified reported fs :
  reflects (JObject (patch_reported s now verified)) reported → json_member reported "lifecycle" = JObject fs →
  reflects (JObject (patch_lifecycle s now verified)) (JObject fs) →
  (json_member (JObject fs) "verifiedAt" = JNull ∨
   json_member (JObject fs) "verifiedAt" = JInt64 (document_verified_at reported) ∧ 0 ≤ document_verified_at reported) →
  0 ≤ verified →
  let n := verified_at (saved_snapshot s now verified 0 (document_verified_at reported)) in
  (json_member (JObject fs) "verifiedAt" = JInt64 n ∨ json_member (JObject fs) "verifiedAt" = JNull ∧ n = 0) ∧ 0 ≤ n.
Proof.
  intros _ Hl Hp Hd Hv. assert (Hold : (json_member (JObject fs) "verifiedAt" = JInt64 (document_verified_at reported) ∨
    json_member (JObject fs) "verifiedAt" = JNull ∧ document_verified_at reported = 0) ∧ 0 ≤ document_verified_at reported).
  { destruct Hd as [Hd|[Hd ?]]; [|auto]. assert (document_verified_at reported = 0) as -> by (unfold document_verified_at; by rewrite Hl, Hd). split; [by right|done]. }
  unfold saved_snapshot, patch_lifecycle in *. cbn [verified_at].
  destruct (snap_run s) as [r|]; [|done]. destruct (phase r); try done; destruct Hp as [_ (_&Hv1&_)]; auto.
Qed.

Lemma stop_tree s now verified v o fs :
  0 ≤ now → 0 ≤ stop_requested_at s →
  reflects (JObject (patch_controller s now)) (JObject fs) →
  let n := stop_requested_at (saved_snapshot s now verified v o) in
  (json_member (JObject fs) "stopRequestedAt" = JInt64 n ∨ json_member (JObject fs) "stopRequestedAt" = JNull ∧ n = 0) ∧ 0 ≤ n.
Proof.
  intros Hn Hs [_ (_&_&_&_&_&_&Hc)]. unfold patch_run_controller, saved_snapshot in *. cbn [stop_requested_at].
  destruct (snap_run s) as [r|]; [destruct (phase r)|]; destruct Hc as [H _]; cbn [reflects] in H;
    (split; [first [by left|by right]|]); try done. case_match; lia.
Qed.
End Roundtrip.

(** C33: Saving a controller record and reading it back: when the shadow document
    reflects the update that controller_shadow_patch wrote, parse_controller_shadow
    returns the record that was saved, with the version of the document. *)
Theorem shadow_roundtrip (texts : string → option json_value) write {E S} (c : S) (t : list E)
    s now verified version text root reported :
  storable s → 0 ≤ now → 0 ≤ verified → 0 ≤ version →
  texts (c_str text) = Some root → saved_document s now verified version root reported →
  parse_controller_shadow (json:=table_json texts write) text c t =
    (inr (saved_snapshot s now verified version (document_verified_at reported)), c, t).
Proof.
  intros Hs Hn Hv Hver Htext [[rs Hroot] Hversion [st [Hst Hrep]] Hp Hd]. subst root.
  set (tr := table_json texts write). set (F := λ (_ : string) (_ : S) (_ : list E), False).
  pose proof Hs as ((Hw1&Hw2&Hw3&Hw4&Hobs&_)&Herr&_).
  enough (H : xwp (parse_controller_shadow (json:=tr) text) (λ snap c' t', snap =
            saved_snapshot s now verified version (document_verified_at reported) ∧ c' = c ∧ t' = t) F c t).
  { unfold xwp in H. destruct (parse_controller_shadow text c t) as [[[]?]?]; [done|]. by destruct H as (->&->&->). }
  destruct (patched_lifecycle s now verified reported Hp) as (ls&Hls&Hpl).
  destruct (patched_controller s now verified reported Hp) as (cs&Hcs&Hpc).
  pose proof Hp as [[reps Hreps] _].
  unfold parse_controller_shadow. cbn [json_parse tr table_json]. rewrite Htext. cbn [IsObject tr table_json negb].
  xwp_step. apply (number_tree texts write F _ _ _ _ _ _ Hversion Hver). xwp_step.
  apply (object_tree texts write F _ _ _ _ _ _ Hst). xwp_step.
  rewrite Hreps in Hrep. apply (object_tree texts write F _ _ _ _ _ _ Hrep). rewrite <- Hreps. xwp_step.
  apply (object_tree texts write F _ _ _ _ _ _ Hls). xwp_step.
  rewrite Hls in Hd. destruct (verified_tree s now verified reported ls Hp Hls Hpl Hd Hv) as [Hvt Hvn].
  apply (optional_number_tree texts write F _ _ _ _ _ _ Hvt Hvn). xwp_step.
  apply (optional_str_tree texts write F _ _ (last_error s)); [| done|].
  { apply (reflects_elem _ _ "lastError" (if string_empty (last_error s) then JNull else JString (c_str (last_error s)))) in Hp; [|left].
    by destruct (string_empty (last_error s)). }
  assert (Hce : ValueExists (AwsJson:=tr) reported "controller" = true) by (cbn; by rewrite Hcs). rewrite Hce. cbn [negb].
  xwp_step. apply (object_tree texts write F _ _ _ _ _ _ Hcs). xwp_step.
  pose proof Hpc as [_ (_&_&_&Hun&_)].
  apply (optional_number_tree texts write F _ _ (unverified_since s)); [by left|done|]. xwp_step.
  destruct (stop_tree s now verified version (document_verified_at reported) cs Hn Hw4 Hpc) as [Hstop Hstopn].
  apply (optional_number_tree texts write F _ _ _ _ _ _ Hstop Hstopn). xwp_step.
  eapply (parse_observation_tree texts write F s now cs); [done..|]. xwp_step.
  eapply (parse_activation_tree texts write F s now verified); [done..|]. xwp_step.
  eapply (parse_run_part_tree texts write F s now verified reported cs); [done..|]. xwp_step.
  split; [|done]. unfold saved_snapshot. cbn. f_equal. unfold snap_activation, snap_run. destruct s as [? ? ? ? ? [a ro]]. cbn.
  by destruct a.
Qed.

(** A running run, saved to an empty shadow and read back. *)
Definition stored_snapshot : ControllerSnapshot :=
  mk_snapshot 3 90 0 0 "e"
    (mk_controller (mk_activation_state 6 70 100 true true (Some (mk_activation "a1" 100 700))) (Some (demo_run running))).

Definition stored_root : json_value :=
  JObject [("version", JInt64 4);
           ("state", JObject [("reported", JObject (patch_reported stored_snapshot 120 110))])].

Lemma shadow_roundtrip_witness :
  parse_controller_shadow (json:=table_json (λ _, Some stored_root) (λ _, EmptyString)) "doc" tt ([] : list unit) =
    (inr (saved_snapshot stored_snapshot 120 110 4
            (document_verified_at (JObject (patch_reported stored_snapshot 120 110)))), tt, []).
Proof.
  apply (shadow_roundtrip _ _ tt [] stored_snapshot 120 110 4 "doc" stored_root); try done.
  - split_and!; try (vm_compute; first [reflexivity|discriminate]).
    + unfold snapshot_wf, observation_wf. cbn. split_and!; try done; intros x [= <-]; cbn; split_and!; done.
    + intros x [= <-]. split; vm_compute; [discriminate|reflexivity].
    + intros r [= <-]. split_and!; vm_compute; first [reflexivity|discriminate].
  - split; [by eexists|reflexivity|by eexists| |right; split; [reflexivity|vm_compute; discriminate]].
    repeat (split; [by eexists|] || split || reflexivity).
Defined.
