(* ===== verification/AgentCloud.v ===== *)
(** * Launch requests and the MicroVM inventory

    [agent/src/cloud.cpp]: the launch request a controller stores before it
    launches, the checks on a stored request before it is used again, and the
    paged inventory of MicroVMs. The service client is a parameter. *)
From stdpp Require Import gmap pretty.
From S2P Require Import Prelude Cpp AwsJson AgentController AgentReconcile.

#[local] Open Scope Z_scope.

Record CloudConfig := mk_cloud_config {
  image : string; image_version : string; execution_role : string; log_group : string; cfg_region : string }.

(** The request handed to [RunMicrovm]. *)
Record RunMicrovmRequest := mk_run_request {
  ClientToken : string;
  ImageIdentifier : string;
  ImageVersion : string;
  ExecutionRoleArn : string;
  RunHookPayload : string;
  MaximumDurationInSeconds : Z;
  IngressNetworkConnectors : list string;
  EgressNetworkConnectors : list string;
  LogGroup : string }.

Definition identifier (value : string) : bool :=
  negb (string_empty value) && (string_size value <=? 128) && only_chars identity_chars value.

Section Requests.
Context `{json : AwsJson} {E S : Type}.
Abbreviation P := (X E S).

Definition field (value : JsonView) (name : string) : P string :=
  if negb (ValueExists value name) || negb (IsString (GetObject value name)) || string_empty (GetString value name)
  then throw ("invalid launch request field: " +:+ name) else mret (c_str (GetString value name)).

(** The assignment in the hook payload. *)
Definition check_hook (hook token region : string) : P unit :=
  match json_parse hook with
  | None => throw "invalid run hook assignment"
  | Some v =>
      if negb (IsObject v) || negb (GetAllObjects_size v =? 5) then throw "invalid run hook assignment" else
      run_id ← field v "runId";
      if negb (bool_decide (run_id = token)) then throw "invalid run hook assignment" else
      r ← field v "region";
      if negb (bool_decide (r = region)) then throw "invalid run hook assignment" else
      thing ← field v "thingId";
      if negb (identifier thing) then throw "invalid run hook assignment" else
      activation ← field v "activationId";
      if negb (identifier activation) then throw "invalid run hook assignment" else
      dl ← field v "deadline";
      if negb (only_chars digits dl) || (18 <? string_size dl) then throw "invalid run hook deadline" else mret tt
  end.

Definition parse_request (text expected_run_id : string) : P RunMicrovmRequest :=
  if string_empty text || (2048 <? string_size text) || negb (identifier expected_run_id)
  then throw "invalid stored launch request" else
  match json_parse (c_str text) with
  | None => throw "invalid stored launch request"
  | Some value =>
      if negb (IsObject value) || negb (GetAllObjects_size value =? 9) then throw "invalid stored launch request" else
      token ← field value "clientToken";
      if negb (bool_decide (token = expected_run_id)) then throw "launch token does not match reservation" else
      format ← field value "format";
      if negb (bool_decide (format = "txing.agent.launch.v1")) then throw "unsupported launch request format" else
      region ← field value "region";
      if negb (bool_decide (region = "eu-central-1")) then throw "invalid MicroVM region" else
      if negb (ValueExists value "maximumDurationInSeconds")
         || negb (IsIntegerType (GetObject value "maximumDurationInSeconds"))
      then throw "missing MicroVM duration" else
      let duration := GetInt64 value "maximumDurationInSeconds" in
      if (duration <? 1) || (3000 <? duration) then throw "invalid MicroVM duration" else
      img ← field value "imageIdentifier";
      version ← field value "imageVersion";
      role ← field value "executionRoleArn";
      logs ← field value "logGroup";
      hook ← field value "runHookPayload";
      _ ← check_hook hook token region;
      let prefix := "arn:aws:lambda:" +:+ region +:+ ":aws:network-connector:aws-network-connector:" in
      mret (mk_run_request token img version role hook duration
              [prefix +:+ "ALL_INGRESS"] [prefix +:+ "INTERNET_EGRESS"] logs)
  end.

Definition make_cloud_request (config : CloudConfig) (thing run_id activation_id : string) (dl now : Z) : P string :=
  if negb (bool_decide (cfg_region config = "eu-central-1")) || string_empty (image config)
     || string_empty (image_version config) || string_empty (execution_role config) || string_empty (log_group config)
     || negb (identifier thing) || negb (identifier run_id) || negb (identifier activation_id)
     || (now <? 0) || (dl <=? now)
  then throw "invalid MicroVM launch configuration or expired activation" else
  let hook := [("thingId", JString (c_str thing)); ("region", JString (c_str (cfg_region config)));
               ("runId", JString (c_str run_id)); ("activationId", JString (c_str activation_id));
               ("deadline", JString (pretty dl))] in
  let request := [("clientToken", JString (c_str run_id)); ("region", JString (c_str (cfg_region config)));
                  ("imageIdentifier", JString (c_str (image config))); ("imageVersion", JString (c_str (image_version config)));
                  ("executionRoleArn", JString (c_str (execution_role config))); ("logGroup", JString (c_str (log_group config)));
                  ("runHookPayload", JString (WriteCompact hook));
                  ("maximumDurationInSeconds", JInt64 (Z.min 3000 (dl - now)));
                  ("format", JString "txing.agent.launch.v1")] in
  let result := c_str (WriteCompact request) in
  _ ← parse_request result run_id;
  mret result.

Definition image_prefix : string := "arn:aws:lambda:eu-central-1:".
Definition image_marker : string := ":microvm-image:".
Definition image_name_chars : string := "abcdefghijklmnopqrstuvwxyzABCDEFGHIJKLMNOPQRSTUVWXYZ0123456789_-".

(** The account, the marker and the name of an image ARN. *)
Definition scoped_image (img : string) : bool :=
  let p := String.length image_prefix in
  let m := String.length image_marker in
  let n := String.length img in
  String.prefix image_prefix img && negb (Nat.leb n (p + 12 + m))
  && only_chars digits (String.substring p 12 img)
  && bool_decide (String.substring (p + 12) m img = image_marker)
  && only_chars image_name_chars (String.substring (p + 12 + m) (n - (p + 12 + m)) img).

Definition saved_launch_image (text run_id thing activation_id : string) : P string :=
  if negb (identifier thing) || negb (identifier activation_id) then throw "invalid saved assignment identity" else
  request ← parse_request text run_id;
  match json_parse (RunHookPayload request) with
  | None => throw "saved launch does not match assignment"
  | Some view =>
      t ← field view "thingId";
      if negb (bool_decide (t = thing)) then throw "saved launch does not match assignment" else
      a ← field view "activationId";
      if negb (bool_decide (a = activation_id)) then throw "saved launch does not match assignment" else
      let img := ImageIdentifier request in
      if negb (scoped_image img) then throw "saved launch image is not a scoped Frankfurt image ARN" else mret img
  end.

(** ** The inventory *)

(** [ListMicrovms] with a token: a page and the next token. *)
Context (list_page : string → P (list CloudRun * string)).

(** The loop of [for_each_page]; [pages] is what is left of the 1000. *)
Fixpoint page_loop (pages : nat) (visit : list CloudRun → P unit) (seen : gset string) (token : string) : P unit :=
  match pages with
  | O => throw "lambda-microvms:ListMicrovms pagination limit exceeded"
  | Datatypes.S pages =>
      r ← list_page token;
      let '(page, next) := r in
      _ ← visit page;
      if negb (string_empty next) && bool_decide (next ∈ seen)
      then throw "lambda-microvms:ListMicrovms pagination did not advance"
      else if string_empty next then mret tt
      else page_loop pages visit ({[next]} ∪ seen) next
  end.

Definition for_each_page (img : string) (visit : option (list CloudRun → P unit)) : P unit :=
  if string_empty img then throw "image identity required for MicroVM inventory" else
  match visit with
  | None => throw "inventory page visitor required"
  | Some visit => page_loop 1000 visit ∅ EmptyString
  end.
End Requests.

(** ** Parts of a text *)

Lemma substring_split n a b s :
  String.substring n (a + b) s = String.substring n a s +:+ String.substring (n + a) b s.
Proof.
  revert n a. induction s as [|c s IH]; intros [|n] a.
  - by destruct a, b.
  - by destruct a, b.
  - destruct a as [|a]; [done|]. change (String c (String.substring 0 (a + b) s) =
      String c (String.substring 0 a s +:+ String.substring a b s)). by rewrite (IH 0%nat a).
  - apply (IH n a).
Qed.

Lemma substring_all s : String.substring 0 (String.length s) s = s.
Proof. induction s as [|c s IH]; [done|]. cbn. by rewrite IH. Qed.

Lemma substring_length n m s : (n + m ≤ String.length s)%nat → String.length (String.substring n m s) = m.
Proof.
  revert n m. induction s as [|c s IH]; intros [|n] [|m]; cbn; intros Hl; try done; try lia.
  - f_equal. apply IH. lia.
  - apply (IH n 0%nat). lia.
  - apply IH. lia.
Qed.

(** The image of a scoped ARN. *)
Definition scoped_arn (img : string) : Prop :=
  ∃ account name, img = image_prefix +:+ account +:+ image_marker +:+ name ∧
    String.length account = 12%nat ∧ only_chars digits account = true ∧
    name ≠ EmptyString ∧ only_chars image_name_chars name = true.

Lemma scoped_image_spec img : scoped_image img = true → scoped_arn img.
Proof.
  unfold scoped_image. set (p := String.length image_prefix). set (m := String.length image_marker).
  intros H. bool_simpl. apply Nat.leb_gt in H3. apply String.prefix_correct in H. fold p in H.
  exists (String.substring p 12 img), (String.substring (p + 12 + m) (String.length img - (p + 12 + m)) img).
  split_and!; try done.
  - rewrite <- H at 1. rewrite <- H1. rewrite <- (substring_split (p + 12) m), <- (substring_split p 12), <- (substring_split 0 p).
    rewrite <- (substring_all img) at 1. f_equal. lia.
  - apply substring_length. lia.
  - intros He. apply (f_equal String.length) in He. rewrite substring_length in He by lia. change (String.length EmptyString) with 0%nat in He. lia.
Qed.

Section CloudTheorems.
Context `{json : AwsJson} {E S : Type}.
Implicit Types (s : S) (t : list E).
Abbreviation T := (λ (_ : string) (_ : S) (_ : list E), True).

(** A stored request is used for a shutdown only with an image in the account's
    Frankfurt scope. *)
Theorem saved_launch_image_scoped text rid thing act s t :
  xwp (saved_launch_image text rid thing act) (λ img _ _, scoped_arn img) T s t.
Proof.
  unfold saved_launch_image. xwp_step; [by xwp_step|]. apply xwp_after; intros request ??.
  destruct (json_parse _) as [v|]; [|by xwp_step]. apply xwp_after; intros ???. xwp_step; [by xwp_step|].
  apply xwp_after; intros ???. xwp_step; [by xwp_step|]. xwp_step; [by xwp_step|]. xwp_step. bool_simpl. by apply scoped_image_spec.
Qed.

(** A program that looks only at its arguments. *)
Definition pure_program {A} (c : X E S A) : Prop :=
  ∃ r, ∀ s t, c s t = (r, s, t).

Lemma pure_ret {A} (a : A) : pure_program (mret a).
Proof. by exists (inr a). Qed.
Lemma pure_throw {A} e : pure_program (A:=A) (throw e).
Proof. by exists (inl e). Qed.
Lemma pure_bind {A B} (c : X E S A) (f : A → X E S B) :
  pure_program c → (∀ a, pure_program (f a)) → pure_program (c ≫= f).
Proof.
  intros [[e|a] Hc] Hf.
  - exists (inl e). intros s t. unfold mbind, X_bind. by rewrite Hc.
  - destruct (Hf a) as [r Hr]. exists r. intros s t. unfold mbind, X_bind. by rewrite Hc.
Qed.
Lemma pure_if {A} (b : bool) (c d : X E S A) : pure_program c → pure_program d → pure_program (if b then c else d).
Proof. by destruct b. Qed.

Ltac pure_auto :=
  repeat first [apply pure_ret|apply pure_throw|apply pure_bind; [|intros ?]|apply pure_if|case_match].

Lemma parse_request_pure text rid : pure_program (parse_request text rid).
Proof. unfold parse_request, check_hook, field. pure_auto. Qed.

Lemma saved_launch_image_pure text rid thing act : pure_program (saved_launch_image text rid thing act).
Proof.
  unfold saved_launch_image. apply pure_if; [apply pure_throw|]. apply pure_bind; [apply parse_request_pure|intros r].
  unfold field. pure_auto.
Qed.

Lemma parse_request_wp text rid s t :
  xwp (parse_request text rid)
    (λ r _ _, ClientToken r = rid ∧ 1 ≤ MaximumDurationInSeconds r ≤ 3000 ∧
              text ≠ EmptyString ∧ string_size text ≤ 2048) T s t.
Proof.
  unfold parse_request. xwp_step; [by xwp_step|]. bool_simpl. destruct (json_parse _) as [v|]; [|by xwp_step].
  xwp_step; [by xwp_step|]. apply xwp_after; intros token ??. xwp_step; [by xwp_step|]. bool_simpl.
  do 2 (apply xwp_after; intros ???; xwp_step; [by xwp_step|]). xwp_step; [by xwp_step|]. xwp_step; [by xwp_step|]. bool_simpl.
  do 6 (apply xwp_after; intros ???). xwp_step. split_and!; try done. by apply string_empty_false.
Qed.

(** A request that was made can be replayed: whenever it is parsed again for its
    run it gives the same launch, for that run, of 1 to 3000 seconds. *)
Theorem made_request_replays config thing rid act dl now s t text s' t' :
  make_cloud_request config thing rid act dl now s t = (inr text, s', t') →
  string_size text ≤ 2048 ∧
  ∃ r, ClientToken r = rid ∧ 1 ≤ MaximumDurationInSeconds r ≤ 3000 ∧
       ∀ s2 t2, parse_request text rid s2 t2 = (inr r, s2, t2).
Proof.
  unfold make_cloud_request. intros H. case_match; [done|]. unfold mbind, X_bind in H.
  match type of H with context [parse_request ?x rid] => set (txt := x) in * end.
  destruct (parse_request_pure txt rid) as [res Hres]. pose proof (parse_request_wp txt rid s t) as Hw. unfold xwp in Hw.
  rewrite Hres in H, Hw. destruct res as [e|r]; [done|]. injection H as <- <- <-. destruct Hw as (?&?&?&?).
  split; [done|]. exists r. done.
Qed.
End CloudTheorems.

Definition demo_hook : json_value :=
  JObject [("thingId", JString "thing"); ("region", JString "eu-central-1"); ("runId", JString "run-1");
           ("activationId", JString "a1"); ("deadline", JString "700")].
Definition demo_request : json_value :=
  JObject [("clientToken", JString "run-1"); ("region", JString "eu-central-1"); ("imageIdentifier", JString "img");
           ("imageVersion", JString "1"); ("executionRoleArn", JString "role"); ("logGroup", JString "logs");
           ("runHookPayload", JString "H"); ("maximumDurationInSeconds", JInt64 580); ("format", JString "txing.agent.launch.v1")].

(** A writer and a parser of these two documents. *)
Definition demo_documents : AwsJson :=
  table_json (λ text, if String.eqb text "R" then Some demo_request else if String.eqb text "H" then Some demo_hook else None)
             (λ fields, if Nat.eqb (length fields) 9 then "R" else "H")%string.

Lemma made_request_replays_witness :
  string_size "R" ≤ 2048 ∧
  ∃ r, ClientToken r = "run-1"%string ∧ 1 ≤ MaximumDurationInSeconds r ≤ 3000 ∧
       ∀ (s2 : unit) (t2 : list unit), parse_request (json:=demo_documents) "R" "run-1" s2 t2 = (inr r, s2, t2).
Proof.
  apply (made_request_replays (json:=demo_documents) (mk_cloud_config "img" "1" "role" "logs" "eu-central-1") "thing" "run-1" "a1" 700 120
           tt [] "R" tt []).
  vm_compute. reflexivity.
Defined.
