(* ===== verification/AgentRepair.v ===== *)
(** * Orphaned MicroVMs and the drain of a disabled controller

    The repair passes of [agent/src/reconcile.cpp]. A sweep compares the MicroVM
    inventory with the controller records; a disabled controller terminates every
    MicroVM of its image, and a failure on one of them never keeps it from the
    others. *)
From stdpp Require Import gmap.
From S2P Require Import Prelude Cpp AwsJson AgentController AgentReconcile AgentCloud.

#[local] Open Scope Z_scope.

(** ** Orphans *)

Definition live_state (st : string) : bool :=
  bool_decide (st = "PENDING") || bool_decide (st = "RUNNING")
  || bool_decide (st = "SUSPENDING") || bool_decide (st = "SUSPENDED").

Fixpoint orphan_loop (inventory : list CloudRun) (assigned seen : gset string) : list string :=
  match inventory with
  | [] => []
  | r :: inventory =>
      if string_empty (cr_id r) || bool_decide (cr_id r ∈ assigned) then orphan_loop inventory assigned seen
      else if live_state (cr_state r) && bool_decide (cr_id r ∉ seen)
      then cr_id r :: orphan_loop inventory assigned ({[cr_id r]} ∪ seen)
      else orphan_loop inventory assigned seen
  end.
Definition orphan_candidates (inventory : list CloudRun) (assigned : gset string) : list string :=
  orphan_loop inventory assigned ∅.

Definition observe_orphan_inactive {E S} (snapshot : ControllerSnapshot) (observation : ProjectionObservation)
    (now : Z) : X E S (bool * ControllerSnapshot) :=
  match snap_run snapshot, obs_active observation with
  | Some _, Some false =>
      if now <=? 0 then mret (false, snapshot) else
      r ← observe_activation (snap_activation snapshot) observation now 3000 None;
      let snapshot := set_state (mk_controller r.2 (snap_run snapshot)) snapshot in
      if bool_decide (r.1 = unverified) || bool_decide (r.1 = stale) then mret (false, snapshot)
      else mret (true, set_verified_at now snapshot)
  | _, _ => mret (false, snapshot)
  end.

Inductive OrphanAction := defer | retain | terminate_orphan | fence_then_terminate.

#[global] Instance OrphanAction_eq_dec : EqDecision OrphanAction.
Proof. solve_decision. Defined.

Definition orphan_action (supported : option bool) (shadow : option ControllerSnapshot) (shadow_missing : bool)
    (rid vm : string) (runtime_stopped : bool) (now : Z) : OrphanAction :=
  match supported with
  | None => defer
  | Some supported =>
      if string_empty rid || string_empty vm || (now <=? 0) || (bool_decide (shadow = None) && negb shadow_missing)
      then defer else
      match shadow with
      | Some s =>
          match snap_run s with
          | Some r =>
              if bool_decide (run_id r = rid) && (string_empty (microvm_id r) || bool_decide (microvm_id r = vm)) then
                if negb supported || runtime_stopped || bool_decide (phase r = stopping)
                   || negb (activation_authorized (snap_activation s) now) || other_activation (state s) r
                then fence_then_terminate else retain
              else terminate_orphan
          | None => terminate_orphan
          end
      | None => terminate_orphan
      end
  end.

Definition bind_stopping_orphan (snapshot : ControllerSnapshot) (rid vm : string) : bool * ControllerSnapshot :=
  match snap_run snapshot with
  | Some r =>
      if string_empty rid || string_empty vm || negb (bool_decide (run_id r = rid))
         || (negb (string_empty (microvm_id r)) && negb (bool_decide (microvm_id r = vm)))
      then (false, snapshot)
      else (true, set_state (set_run (Some (set_phase stopping (set_microvm_id vm r))) (state snapshot)) snapshot)
  | None => (false, snapshot)
  end.

(** ** Drains *)

Inductive drain_event :=
  | DPage (r : string + list CloudRun)
  | DThings (r : string + list string)
  | DFence (thing : string) (r : string + bool)
  | DTerminate (id : string) (r : string + unit)
  | DRead (thing : string) (r : string + option ControllerSnapshot)
  | DDescribe (id : string) (r : string + (CloudRun * string))
  | DFenceKnown (thing : string) (snapshot : ControllerSnapshot) (r : string + bool).

Abbreviation drain_trace := (list drain_event).

(** [class DrainBackend]. [inventory] calls its visitor once per page: the pages
    it fetches, each of which may fail. *)
Class DrainBackend := {
  d_pages : list (drain_trace → string + list CloudRun);
  d_things : drain_trace → string + list string;
  d_fence : string → drain_trace → string + bool;
  d_terminate : string → drain_trace → string + unit }.

(** The captured variables: [complete] and [seen]. *)
Record drain := mk_drain { complete : bool; seen : gset string }.

Abbreviation D := (X drain_event drain).

Definition incomplete : D unit := xmodify (λ d, mk_drain false (seen d)).
Definition mark_seen (id : string) : D unit := xmodify (λ d, mk_drain (complete d) ({[id]} ∪ seen d)).

Section Drain.
Context `{io : DrainBackend}.

(** The body of the visitor for one MicroVM. *)
Definition drain_run (r : CloudRun) : D unit :=
  if string_empty (cr_id r) then incomplete else
  if bool_decide (cr_state r = "TERMINATED") then mret tt else
  _ ← incomplete;
  if bool_decide (cr_state r = "TERMINATING") then mret tt else
  if negb (live_state (cr_state r)) then mret tt else
  d ← xget;
  if bool_decide (cr_id r ∈ seen d) then mret tt else
  _ ← mark_seen (cr_id r);
  try_catch (xcall (DTerminate (cr_id r)) (d_terminate (cr_id r))) (λ _, incomplete).

Definition inventory (visit : list CloudRun → D unit) : D unit :=
  for_each (λ fetch, page ← xcall DPage fetch; visit page) d_pages.

Definition drain_inventory : D unit :=
  try_catch (inventory (for_each drain_run)) (λ _, incomplete).

Definition drain_fence (thing : string) : D unit :=
  try_catch (ok ← xcall (DFence thing) (d_fence thing); xwhen (negb ok) incomplete) (λ _, incomplete).

Definition drain_things : D unit :=
  try_catch (things ← xcall DThings d_things; for_each drain_fence things) (λ _, incomplete).

Definition drain_disabled : D bool :=
  _ ← drain_inventory;
  _ ← drain_things;
  d ← xget;
  mret (complete d).
End Drain.

(** [class KnownDrainBackend]. *)
Class KnownDrainBackend := {
  k_things : drain_trace → string + list string;
  k_read : string → drain_trace → string + option ControllerSnapshot;
  k_describe : string → drain_trace → string + (CloudRun * string);
  k_fence : string → ControllerSnapshot → drain_trace → string + bool;
  k_terminate : string → drain_trace → string + unit }.

Section KnownDrain.
Context `{io : KnownDrainBackend} `{json : AwsJson}.

Definition drain_known (thing : string) : D unit :=
  try_catch
    (snapshot ← xcall (DRead thing) (k_read thing);
     match snapshot with
     | None => mret tt
     | Some snapshot =>
         match snap_run snapshot with
         | None => mret tt
         | Some r =>
             if string_empty (microvm_id r) then incomplete else
             expected_image ← saved_launch_image (request r) (run_id r) thing (activation_id r);
             host ← xcall (DDescribe (microvm_id r)) (k_describe (microvm_id r));
             if negb (bool_decide (cr_id host.1 = microvm_id r)) || negb (bool_decide (host.2 = expected_image))
             then incomplete else
             ok ← xcall (DFenceKnown thing snapshot) (k_fence thing snapshot);
             if negb ok then incomplete else
             if bool_decide (cr_state host.1 = "TERMINATED") then mret tt else
             _ ← incomplete;
             xwhen (live_state (cr_state host.1)) (xcall (DTerminate (microvm_id r)) (k_terminate (microvm_id r)))
         end
     end)
    (λ _, incomplete).

Definition drain_known_assignments : D bool :=
  _ ← try_catch (things ← xcall DThings k_things; for_each drain_known things) (λ _, incomplete);
  d ← xget;
  mret (complete d).
End KnownDrain.

(** ** Theorems about orphans *)

(** An inventory line that is live and not empty. *)
Definition lists_live (inventory : list CloudRun) (id : string) : Prop :=
  id ≠ EmptyString ∧ ∃ r, r ∈ inventory ∧ cr_id r = id ∧ live_state (cr_state r) = true.

Lemma lists_live_cons r inventory id :
  lists_live (r :: inventory) id ↔
  (id ≠ EmptyString ∧ cr_id r = id ∧ live_state (cr_state r) = true) ∨ lists_live inventory id.
Proof.
  unfold lists_live. setoid_rewrite elem_of_cons. split.
  - intros [? (r0&[->|?]&?&?)]; [by left|]. right. eauto.
  - intros [(?&?&?)|[? (r0&?&?&?)]]; (split; [done|]); [exists r|exists r0]; auto.
Qed.

Lemma orphan_loop_elem inventory assigned seen id :
  id ∈ orphan_loop inventory assigned seen ↔ id ∉ seen ∧ id ∉ assigned ∧ lists_live inventory id.
Proof.
  revert seen. induction inventory as [|r inventory IH]; intros seen; cbn [orphan_loop].
  { split; [by intros ?%not_elem_of_nil|]. intros (_&_&_&r&Hr&_). by apply not_elem_of_nil in Hr. }
  rewrite lists_live_cons. case_match eqn:E1; [|case_match eqn:E2; bool_simpl].
  - rewrite IH. apply orb_true_iff in E1 as [E1%string_empty_spec|E1%bool_decide_eq_true]; split; intros (?&?&H);
      (split_and!; [done..|]); [by right| |by right|]; destruct H as [(?&?&?)|?]; congruence.
  - apply string_empty_false in H1. rewrite elem_of_cons, IH, not_elem_of_union, not_elem_of_singleton.
    destruct (decide (id = cr_id r)) as [->|Hne]; split.
    + intros _. split_and!; auto.
    + by left.
    + intros [?|((?&?)&?&?)]; [done|]. auto.
    + intros (?&?&[(?&?&?)|?]); [congruence|]. auto.
  - rewrite IH. split; intros (Hs&?&H'); (split_and!; [done..|]); [by right|].
    destruct H' as [(?&<-&Hl)|?]; [|done]. rewrite Hl in E2. cbn in E2. by rewrite bool_decide_eq_true_2 in E2.
Qed.

Lemma orphan_loop_nodup inventory assigned seen : NoDup (orphan_loop inventory assigned seen).
Proof.
  revert seen. induction inventory as [|r inventory IH]; intros seen; cbn [orphan_loop]; [constructor|].
  repeat case_match; auto. constructor; [|auto]. rewrite orphan_loop_elem. intros [Hn _].
  apply not_elem_of_union in Hn as [Hn _]. by apply not_elem_of_singleton in Hn.
Qed.

(** The candidates for termination are, once each, exactly the MicroVMs that the
    inventory lists in a live state and no record assigns. *)
Theorem orphan_candidates_spec inventory assigned id :
  NoDup (orphan_candidates inventory assigned) ∧
  (id ∈ orphan_candidates inventory assigned ↔ id ∉ assigned ∧ lists_live inventory id).
Proof.
  split; [apply orphan_loop_nodup|]. unfold orphan_candidates. rewrite orphan_loop_elem.
  split; [by intros (_&?)|]. intros (?&?). split_and!; try done; try apply not_elem_of_empty.
Qed.

(** The record names this run, with this MicroVM or none yet. *)
Definition record_assigns (shadow : option ControllerSnapshot) (rid vm : string) (s : ControllerSnapshot)
    (r : RunReservation) : Prop :=
  shadow = Some s ∧ snap_run s = Some r ∧ run_id r = rid ∧ (microvm_id r = EmptyString ∨ microvm_id r = vm).

(** A sweep leaves an assigned MicroVM alone exactly while its run may go on, and
    terminates without a fence only one that no record assigns. *)
Theorem orphan_action_spec supported shadow missing rid vm stopped now :
  match orphan_action supported shadow missing rid vm stopped now with
  | defer => supported = None ∨ rid = EmptyString ∨ vm = EmptyString ∨ now ≤ 0 ∨ (shadow = None ∧ missing = false)
  | retain => supported = Some true ∧ stopped = false ∧
      ∃ s r, record_assigns shadow rid vm s r ∧ phase r ≠ stopping ∧
             activation_authorized (snap_activation s) now = true ∧ other_activation (state s) r = false
  | terminate_orphan => (∃ b, supported = Some b) ∧ ∀ s r, ¬ record_assigns shadow rid vm s r
  | fence_then_terminate => ∃ s r b, supported = Some b ∧ record_assigns shadow rid vm s r ∧
      (b = false ∨ stopped = true ∨ phase r = stopping ∨
       activation_authorized (snap_activation s) now = false ∨ other_activation (state s) r = true)
  end.
Proof.
  unfold orphan_action, record_assigns. destruct supported as [b|]; [|by left].
  destruct (string_empty rid || string_empty vm || (now <=? 0) || _) eqn:Ed.
  { right. rewrite !orb_true_iff in Ed. destruct Ed as [[[?%string_empty_spec|?%string_empty_spec]|?]|?]; bool_simpl; auto. }
  destruct shadow as [s|]; [|split; [by exists b|]; by intros ?? (?&_)].
  destruct (snap_run s) as [r|] eqn:Er; [|split; [by exists b|]; intros s' r' (?&?&_); by simplify_eq].
  destruct (bool_decide (run_id r = rid) && _) eqn:Ea.
  - apply andb_true_iff in Ea as [Hr%bool_decide_eq_true Hv].
    assert (Hv' : microvm_id r = EmptyString ∨ microvm_id r = vm).
    { apply orb_true_iff in Hv as [?%string_empty_spec|?%bool_decide_eq_true]; auto. }
    destruct (negb b || stopped || _ || _ || _) eqn:Ef.
    + exists s, r, b. split_and!; try done. rewrite !orb_true_iff in Ef.
      destruct Ef as [[[[?|?]|?]|?]|?]; bool_simpl; auto.
    + bool_simpl. split_and!; [by f_equal|done|]. exists s, r. by split_and!.
  - split; [by exists b|]. intros s' r' ([= <-]&Hr'&Hid&Hvm). rewrite Er in Hr'. injection Hr' as <-.
    rewrite bool_decide_eq_true_2 in Ea by done. cbn in Ea. apply orb_false_iff in Ea as [E1 E2]. bool_simpl.
    apply string_empty_false in E1. by destruct Hvm.
Qed.

(** A sweep that relies on an inactive projection: the observation neither throws
    nor touches the run or the activation, and one it accepts leaves nothing
    authorized. *)
Lemma observe_orphan_inactive_spec {E S} snapshot o now (s : S) (t : list E) :
  ∃ b snapshot', observe_orphan_inactive snapshot o now s t = (inr (b, snapshot'), s, t) ∧
    snap_run snapshot' = snap_run snapshot ∧
    activation (snap_activation snapshot') = activation (snap_activation snapshot) ∧
    (b = true → obs_active o = Some false ∧ verified_at snapshot' = now ∧
                ∀ now', activation_authorized (snap_activation snapshot') now' = false).
Proof.
  unfold observe_orphan_inactive. destruct (snap_run snapshot) as [r|] eqn:Er; [|by exists false, snapshot].
  destruct (obs_active o) as [[]|] eqn:Eo; [by exists false, snapshot| |by exists false, snapshot].
  destruct (now <=? 0); [by exists false, snapshot|].
  assert (Ha : ∀ b, eqb false b = true → b = false) by by intros [].
  unfold observe_activation. rewrite Eo. repeat case_match; bool_simpl.
  all: try (exists false, (set_state (mk_controller (snap_activation snapshot) (Some r)) snapshot); done).
  all: do 2 eexists; split; [reflexivity|]; cbn; split_and!; [by rewrite ?Er|done|].
  all: intros _; split_and!; [done..|]; intros now'; unfold activation_authorized; cbn;
    try (match goal with H : eqb false _ = true |- _ => rewrite (Ha _ H) end); by rewrite ?andb_false_r.
Qed.

(** ** The drain of a disabled controller *)

Definition terminated_ids (t : drain_trace) : list string :=
  omap (λ e, match e with DTerminate id _ => Some id | _ => None end) t.
Definition pages_asked (t : drain_trace) : nat :=
  length (omap (λ e, match e with DPage r => Some r | _ => None end) t).

(** A listed MicroVM is dealt with: a live one was told to stop, and only one that
    has stopped lets the drain be complete. *)
Definition handled (r : CloudRun) (d : drain) (t : drain_trace) : Prop :=
  (cr_id r ≠ EmptyString → live_state (cr_state r) = true → cr_id r ∈ terminated_ids t) ∧
  (complete d = true → cr_id r ≠ EmptyString ∧ cr_state r = "TERMINATED").

(** What each answer obliges the drain to. *)
Definition settled_event (e : drain_event) (d : drain) (t : drain_trace) : Prop :=
  match e with
  | DPage (inr page) => ∀ r, r ∈ page → handled r d t
  | DThings (inr things) => ∀ thing, thing ∈ things → ∃ a, DFence thing a ∈ t
  | DPage (inl _) | DThings (inl _) => complete d = false
  | DFence _ a => complete d = true → a = inr true
  | DTerminate id _ => ∃ page, DPage (inr page) ∈ t ∧ lists_live page id
  | DRead _ _ | DDescribe _ _ | DFenceKnown _ _ _ => False
  end.

(** The events still to be dealt with are among [H]. *)
Definition accounted (H : drain_event → Prop) (d : drain) (t : drain_trace) : Prop :=
  (∀ e, e ∈ t → H e ∨ settled_event e d t) ∧ NoDup (terminated_ids t) ∧
  (∀ id, id ∈ terminated_ids t → id ∈ seen d) ∧ (∀ id, id ∈ seen d → id ∈ terminated_ids t).

(** The drain goes on. *)
Definition extends (d : drain) (t : drain_trace) (d' : drain) (t' : drain_trace) : Prop :=
  (∀ e, e ∈ t → e ∈ t') ∧ (complete d' = true → complete d = true).

Lemma elem_of_terminated id t : id ∈ terminated_ids t ↔ ∃ a, DTerminate id a ∈ t.
Proof.
  unfold terminated_ids. rewrite list_elem_of_omap. split.
  - intros (e & He & Hid). destruct e; simplify_eq. eauto.
  - intros (a & Ha). by exists (DTerminate id a).
Qed.

Lemma extends_refl d t : extends d t d t.
Proof. done. Qed.
Lemma extends_trans d1 t1 d2 t2 d3 t3 : extends d1 t1 d2 t2 → extends d2 t2 d3 t3 → extends d1 t1 d3 t3.
Proof. intros [??] [??]. split; auto. Qed.

Lemma handled_extends r d t d' t' : extends d t d' t' → handled r d t → handled r d' t'.
Proof.
  intros [He Hc] [Hl Hd]. split; [|auto]. rewrite elem_of_terminated in *. intros Hn Hv.
  destruct (Hl Hn Hv) as [a Ha]. eauto.
Qed.

Lemma settled_extends e d t d' t' : extends d t d' t' → settled_event e d t → settled_event e d' t'.
Proof.
  intros Hx. pose proof Hx as [He Hc]. destruct e as [[m|page]|[m|things]|thing a|id a| | |]; cbn; try done.
  - intros H. destruct (complete d') eqn:E; [|done]. by rewrite Hc in H.
  - intros H r Hr. eapply handled_extends; eauto.
  - intros H. destruct (complete d') eqn:E; [|done]. by rewrite Hc in H.
  - intros H thing Ht. destruct (H thing Ht) as [a Ha]. eauto.
  - auto.
  - intros (page & Hp & Hl). eauto.
Qed.

(** An event other than a termination joins the trace. *)
Lemma accounted_cons H e d t :
  (∀ id a, e ≠ DTerminate id a) → (H e ∨ settled_event e d (e :: t)) → accounted H d t → accounted H d (e :: t).
Proof.
  intros Hne He (Ha & Hn & Hs & Hs').
  assert (Ht : terminated_ids (e :: t) = terminated_ids t) by (by destruct e; try destruct (Hne id r)).
  split; [|by rewrite Ht]. intros e' [->|Hin]%elem_of_cons; [done|].
  destruct (Ha e' Hin) as [?|Hd]; [by left|]. right. eapply settled_extends; [|done]. split; [|done]. by right.
Qed.

(** Giving up completeness settles the failures. *)
Lemma accounted_incomplete (H H' : drain_event → Prop) d t :
  (∀ e, H e → e ∈ t → H' e ∨ settled_event e (mk_drain false (seen d)) t) →
  accounted H d t → accounted H' (mk_drain false (seen d)) t.
Proof.
  intros HH (Ha & Hrest). split; [|done]. intros e Hin. destruct (Ha e Hin) as [?|Hd]; [auto|].
  right. eapply settled_extends; [|done]. by split.
Qed.

Section DrainProof.
Context `{io : DrainBackend}.
Implicit Types (H : drain_event → Prop) (d : drain) (t : drain_trace).

(** A termination, whatever it answers, is of a live MicroVM of an answered page. *)
Lemma accounted_terminate H d t id a page :
  DPage (inr page) ∈ t → lists_live page id → id ∉ seen d → accounted H d t →
  accounted H (mk_drain (complete d) ({[id]} ∪ seen d)) (DTerminate id a :: t).
Proof.
  intros Hp Hl Hid (Ha & Hn & Hs & Hs').
  assert (Hx : extends d t (mk_drain (complete d) ({[id]} ∪ seen d)) (DTerminate id a :: t)) by (split; [by right|done]).
  split_and!.
  - intros e [->|Hin]%elem_of_cons.
    + right. exists page. split; [by right|done].
    + destruct (Ha e Hin); [by left|]. right. by eapply settled_extends.
  - change (NoDup (id :: terminated_ids t)). constructor; auto.
  - intros i [->|Hi]%elem_of_cons; cbn; set_solver.
  - intros i [->%elem_of_singleton|Hi]%elem_of_union; [by left|]. right. auto.
Qed.

(** The body of the loop over a page. *)
Lemma drain_run_wp H page r d t :
  DPage (inr page) ∈ t → r ∈ page → accounted H d t →
  xwp (drain_run r) (λ _ d' t', accounted H d' t' ∧ handled r d' t' ∧ extends d t d' t' ∧ pages_asked t' = pages_asked t)
    (λ _ _ _, False) d t.
Proof.
  intros Hp Hr Ha. unfold drain_run, incomplete, mark_seen.
  assert (Hinc : accounted H (mk_drain false (seen d)) t) by (eapply accounted_incomplete; [|done]; auto).
  assert (Hstop : cr_id r = EmptyString ∨ live_state (cr_state r) = false ∨ cr_id r ∈ seen d →
    handled r (mk_drain false (seen d)) t).
  { intros Hc. split; [|done]. intros Hne Hl. destruct Ha as (_&_&_&Hs).
    destruct Hc as [?|[?|?]]; [done|congruence|auto]. }
  repeat (xwp_step; try destruct a); cbn.
  - apply string_empty_spec in Hb. split_and!; try done; auto.
  - bool_simpl. apply string_empty_false in Hb. split_and!; try done. split; [|done].
    intros _. rewrite Hb0. done.
  - bool_simpl. split_and!; try done; auto. apply Hstop. right; left. by rewrite Hb1.
  - bool_simpl. split_and!; try done; auto.
  - bool_simpl. split_and!; try done; auto.
  - bool_simpl. apply string_empty_false in Hb.
    assert (Hl : lists_live page (cr_id r)) by (split; [done|]; by exists r).
    assert (Hnew : ∀ a, accounted H (mk_drain false ({[cr_id r]} ∪ seen d)) (DTerminate (cr_id r) a :: t) ∧
      handled r (mk_drain false ({[cr_id r]} ∪ seen d)) (DTerminate (cr_id r) a :: t) ∧
      extends d t (mk_drain false ({[cr_id r]} ∪ seen d)) (DTerminate (cr_id r) a :: t) ∧
      pages_asked (DTerminate (cr_id r) a :: t) = pages_asked t).
    { intros a. split_and!.
      - by apply (accounted_terminate H (mk_drain false (seen d)) t (cr_id r) a page).
      - split; [|done]. intros _ _. by left.
      - split; [|done]. by right.
      - done. }
    destruct (d_terminate (cr_id r) t) as [m|u]; [apply (Hnew (inl m))|apply (Hnew (inr u))].
Qed.

(** A page, completely. *)
Lemma drain_page_wp H page l d t :
  DPage (inr page) ∈ t → l ⊆ page → accounted H d t →
  xwp (for_each drain_run l) (λ _ d' t', accounted H d' t' ∧ (∀ r, r ∈ l → handled r d' t') ∧ extends d t d' t' ∧
    pages_asked t' = pages_asked t) (λ _ _ _, False) d t.
Proof.
  revert d t. induction l as [|r l IH]; intros d t Hp Hl Ha; cbn.
  { split_and!; try done. by intros r ?%not_elem_of_nil. }
  apply xwp_bind. eapply xwp_mono; [apply (drain_run_wp H page)|..]; [done|apply Hl; left|done| |done].
  intros _ d1 t1 (Ha1 & Hh & Hx & Hc). cbn beta.
  eapply xwp_mono; [apply IH|..]; [by apply Hx|intros ??; apply Hl; by right|done| |done].
  intros _ d2 t2 (Ha2 & Hall & Hx2 & Hc2). split_and!; [done| |by eapply extends_trans|congruence].
  intros r' [->|Hr']%elem_of_cons; [|auto]. by eapply handled_extends.
Qed.
(** The inventory: a failed page ends it, and is the only failure left. *)
Lemma inventory_wp pages d t :
  accounted (λ _, False) d t →
  xwp (for_each (λ fetch, page ← xcall DPage fetch; for_each drain_run page) pages)
    (λ _ d' t', accounted (λ _, False) d' t' ∧ extends d t d' t' ∧ pages_asked t' = (pages_asked t + length pages)%nat)
    (λ _ d' t', accounted (λ e, ∃ m, e = DPage (inl m)) d' t' ∧ extends d t d' t' ∧ ∃ m, DPage (inl m) ∈ t') d t.
Proof.
  revert d t. induction pages as [|fetch pages IH]; intros d t Ha; cbn [for_each].
  { apply xwp_ret. split_and!; [done..|cbn; lia]. }
  repeat apply xwp_bind. apply xwp_call.
  - intros page _.
    assert (Ha' : accounted (λ e, e = DPage (inr page)) d (DPage (inr page) :: t)).
    { apply accounted_cons; [done|by left|]. destruct Ha as [Ha ?]. split; [|done]. intros e He. right.
      by destruct (Ha e He). }
    eapply xwp_mono; [apply (drain_page_wp (λ e, e = DPage (inr page)) page page)|..]; [by left|done|done| |done].
    intros _ d1 t1 (Ha1 & Hh & Hx & Hc). cbn beta.
    assert (Hset : accounted (λ _, False) d1 t1).
    { destruct Ha1 as [Ha1 ?]. split; [|done]. intros e He. right. by destruct (Ha1 e He) as [->|]. }
    assert (Hx1 : extends d t d1 t1).
    { destruct Hx as [He Hcm]. split; [|done]. intros e ?. apply He. by right. }
    change (pages_asked (DPage (inr page) :: t)) with (S (pages_asked t)) in Hc.
    eapply xwp_mono; [by apply IH|..].
    + intros _ d2 t2 (Ha2 & Hx2 & Hc2). split_and!; [done|by eapply extends_trans|]. cbn [length]. lia.
    + intros m d2 t2 (Ha2 & Hx2 & Hm). split_and!; [done|by eapply extends_trans|done].
  - intros m _. split_and!.
    + apply accounted_cons; [done|left; by exists m|]. destruct Ha as [Ha ?]. split; [|done].
      intros e He. right. by destruct (Ha e He).
    + split; [|done]. by right.
    + exists m. by left.
Qed.

Lemma drain_inventory_wp d t :
  accounted (λ _, False) d t →
  xwp drain_inventory (λ _ d' t', accounted (λ _, False) d' t' ∧ extends d t d' t' ∧
    ((pages_asked t' = pages_asked t + length d_pages)%nat ∨ ∃ m, DPage (inl m) ∈ t')) (λ _ _ _, False) d t.
Proof.
  intros Ha. unfold drain_inventory. apply xwp_try. eapply xwp_mono; [by apply inventory_wp|..].
  - intros _ d1 t1 (?&?&?). auto.
  - intros m d1 t1 (Ha1 & Hx & Hm). cbn. split_and!.
    + eapply accounted_incomplete; [|done]. intros e [m' ->] _. by right.
    + destruct Hx as [He _]. by split.
    + by right.
Qed.

(** The fences: each listed thing gets one, whatever the others answer. *)
Lemma drain_fence_wp H thing d t :
  accounted H d t →
  xwp (drain_fence thing) (λ _ d' t', accounted H d' t' ∧ extends d t d' t' ∧
    pages_asked t' = pages_asked t ∧ ∃ a, DFence thing a ∈ t') (λ _ _ _, False) d t.
Proof.
  intros Ha. unfold drain_fence, incomplete.
  assert (Hinc : accounted H (mk_drain false (seen d)) t) by (eapply accounted_incomplete; [|done]; auto).
  assert (Hf : ∀ a, accounted H (mk_drain false (seen d)) (DFence thing a :: t) ∧
    extends d t (mk_drain false (seen d)) (DFence thing a :: t) ∧
    pages_asked (DFence thing a :: t) = pages_asked t ∧ ∃ a', DFence thing a' ∈ DFence thing a :: t).
  { intros a. split_and!; [|split; [by right|done]|done|exists a; by left]. by apply accounted_cons; [done|right|]. }
  apply xwp_try, xwp_bind, xwp_call; [intros [] _|intros m _]; cbn; [|apply (Hf (inr false))|apply (Hf (inl m))].
  split_and!; [|split; [by right|done]|done|exists (inr true); by left]. by apply accounted_cons; [done|right|].
Qed.

Lemma drain_fences_wp H things d t :
  accounted H d t →
  xwp (for_each drain_fence things)
    (λ _ d' t', accounted H d' t' ∧ extends d t d' t' ∧ pages_asked t' = pages_asked t ∧
      ∀ thing, thing ∈ things → ∃ a, DFence thing a ∈ t') (λ _ _ _, False) d t.
Proof.
  revert d t. induction things as [|thing things IH]; intros d t Ha; cbn.
  { split_and!; try done. by intros thing ?%not_elem_of_nil. }
  apply xwp_bind. eapply xwp_mono; [by apply drain_fence_wp| |done].
  intros _ d1 t1 (Ha1 & Hx1 & Hp1 & a & Hf). cbn beta. eapply xwp_mono; [by apply IH| |done].
  intros _ d2 t2 (Ha2 & Hx2 & Hp2 & Hall). split_and!; [done|by eapply extends_trans|congruence|].
  intros thing' [->|?]%elem_of_cons; [|auto]. exists a. by apply Hx2.
Qed.
Lemma drain_things_wp d t :
  accounted (λ _, False) d t →
  xwp drain_things (λ _ d' t', accounted (λ _, False) d' t' ∧ extends d t d' t' ∧
    pages_asked t' = pages_asked t ∧ ∃ a, DThings a ∈ t') (λ _ _ _, False) d t.
Proof.
  intros Ha. unfold drain_things. apply xwp_try, xwp_bind, xwp_call.
  - intros things _.
    assert (Ha' : accounted (λ e, e = DThings (inr things)) d (DThings (inr things) :: t)).
    { apply accounted_cons; [done|by left|]. destruct Ha as [Ha ?]. split; [|done]. intros e He. right.
      by destruct (Ha e He). }
    eapply xwp_mono; [by apply (drain_fences_wp (λ e, e = DThings (inr things)))| |done].
    intros _ d1 t1 (Ha1 & [He Hc] & Hpg & Hall). split_and!.
    + destruct Ha1 as [Ha1 ?]. split; [|done]. intros e Hin. right. by destruct (Ha1 e Hin) as [->|].
    + split; [|done]. intros e ?. apply He. by right.
    + done.
    + exists (inr things). apply He. by left.
  - intros m _. cbn. split_and!.
    + apply (accounted_incomplete (λ e, e = DThings (inl m)) _ d); [intros e -> _; by right|].
      apply accounted_cons; [done|by left|]. destruct Ha as [Ha ?]. split; [|done]. intros e He. right.
      by destruct (Ha e He).
    + split; [by right|done].
    + done.
    + exists (inl m). by left.
Qed.

(** C26: The drain of a disabled controller always returns, whatever fails: every live
    MicroVM of every page it got was told to stop, once, and nothing else was; every
    listed thing was fenced; it reports success only after the whole inventory was seen,
    all of it terminated, and every fence held. *)
Theorem drain_disabled_settles :
  ∃ b d t, drain_disabled (mk_drain true ∅) [] = (inr b, d, t) ∧
    (∀ page id, DPage (inr page) ∈ t → lists_live page id → id ∈ terminated_ids t) ∧
    NoDup (terminated_ids t) ∧
    (∀ id, id ∈ terminated_ids t → ∃ page, DPage (inr page) ∈ t ∧ lists_live page id) ∧
    (∀ things thing, DThings (inr things) ∈ t → thing ∈ things → ∃ a, DFence thing a ∈ t) ∧
    (b = true →
       pages_asked t = length d_pages ∧ (∀ m, DPage (inl m) ∉ t) ∧
       (∀ page r, DPage (inr page) ∈ t → r ∈ page → cr_id r ≠ EmptyString ∧ cr_state r = "TERMINATED") ∧
       (∃ things, DThings (inr things) ∈ t) ∧ (∀ thing a, DFence thing a ∈ t → a = inr true)).
Proof.
  assert (Hw : xwp drain_disabled
    (λ b d t, b = complete d ∧ accounted (λ _, False) d t ∧
      (pages_asked t = length d_pages ∨ ∃ m, DPage (inl m) ∈ t) ∧ ∃ a, DThings a ∈ t) (λ _ _ _, False) (mk_drain true ∅) []).
  { unfold drain_disabled. apply xwp_bind. eapply xwp_mono; [apply drain_inventory_wp| |done].
    { split_and!; [by intros e ?%not_elem_of_nil|constructor|by intros ? ?%not_elem_of_nil|set_solver]. }
    intros _ d1 t1 (Ha1 & Hx1 & Hp). cbn beta. apply xwp_bind.
    eapply xwp_mono; [by apply drain_things_wp| |done]. intros _ d2 t2 (Ha2 & Hx2 & Hpg & Hth). cbn.
    split_and!; [done|done| |done]. destruct Hp as [Hp|[m Hm]]; [left; by rewrite Hpg, Hp|right; exists m; by apply Hx2]. }
  unfold xwp in Hw. destruct (drain_disabled (mk_drain true ∅) []) as [[[m|b] d] t]; [done|].
  destruct Hw as (-> & (Ha & Hn & _) & Hp & Hth). exists (complete d), d, t.
  assert (Hs : ∀ e, e ∈ t → settled_event e d t) by (intros e He; by destruct (Ha e He)).
  split_and!; [done| |done| |intros things thing Ht; by apply (Hs _ Ht)|].
  - intros page id Hpg [Hne (r & Hr & <- & Hl)]. by apply (Hs _ Hpg r Hr).
  - intros id [a Hid]%elem_of_terminated. exact (Hs _ Hid).
  - intros Hc. assert (Hno : ∀ m, DPage (inl m) ∉ t) by (intros m Hm; pose proof (Hs _ Hm) as Hx; cbn in Hx; congruence).
    split_and!.
    + destruct Hp as [?|[m Hm]]; [done|]. by destruct (Hno m).
    + done.
    + intros page r Hpg Hr. by apply (Hs _ Hpg r Hr).
    + destruct Hth as [[m|things] Ht]; [|by exists things]. pose proof (Hs _ Ht) as Hx. cbn in Hx. congruence.
    + intros thing a Hf. by apply (Hs _ Hf).
Qed.
End DrainProof.

(** ** The drain of the known assignments *)

Section KnownDrainProof.
Context `{io : KnownDrainBackend} `{json : AwsJson}.

(** A MicroVM is told to stop only when a record read for the thing assigns it, it
    runs the image that the record's own launch request names, and the record was
    fenced first. *)
Definition known_allowed (e : drain_event) (t : drain_trace) : Prop :=
  match e with
  | DTerminate vm _ =>
      ∃ thing snapshot r host image t',
        t = DFenceKnown thing snapshot (inr true) :: DDescribe vm (inr (host, image)) ::
            DRead thing (inr (Some snapshot)) :: t' ∧
        snap_run snapshot = Some r ∧ microvm_id r = vm ∧ vm ≠ EmptyString ∧ cr_id host = vm ∧
        live_state (cr_state host) = true ∧
        ∀ d0 t0, (saved_launch_image (request r) (run_id r) thing (activation_id r) : D string) d0 t0 = (inr image, d0, t0)
  | _ => True
  end.

(** A complete drain read the record of every thing, and the MicroVM of each record
    that has a run is fenced off and has stopped. *)
Definition known_settled (d : drain) (t : drain_trace) : Prop :=
  complete d = true →
    (∀ vm a, DTerminate vm a ∉ t) ∧ (∀ m, DThings (inl m) ∉ t) ∧ (∀ thing m, DRead thing (inl m) ∉ t) ∧
    (∀ thing s r, DRead thing (inr (Some s)) ∈ t → snap_run s = Some r →
       ∃ host image, DDescribe (microvm_id r) (inr (host, image)) ∈ t ∧ cr_id host = microvm_id r ∧
                     cr_state host = "TERMINATED" ∧ DFenceKnown thing s (inr true) ∈ t).

Definition known_inv (d : drain) (t : drain_trace) : Prop := guarded known_allowed t ∧ known_settled d t.

Lemma known_inv_incomplete seen t : guarded known_allowed t → known_inv (mk_drain false seen) t.
Proof. by split. Qed.

(** None of the new events is one of those the old trace lacks. *)
#[local] Ltac not_new H :=
  let Hin := fresh in
  intros; intros Hin; repeat (apply elem_of_cons in Hin as [Hin|Hin]; [discriminate|]);
  first [by eapply H|by apply not_elem_of_nil in Hin].

(** A read that asks for nothing. *)
Lemma known_inv_read thing s d t :
  (∀ s', s = Some s' → snap_run s' = None) → known_inv d t → known_inv d (DRead thing (inr s) :: t).
Proof.
  intros Hs [Hg Hd]. split; [done|]. intros Hc. destruct (Hd Hc) as (H1 & H2 & H3 & H4).
  split_and!; [not_new H1|not_new H2|not_new H3|].
  intros thing' s' r [He|Hin]%elem_of_cons Hr.
  - injection He as -> <-. by rewrite (Hs s') in Hr.
  - destruct (H4 _ _ _ Hin Hr) as (host & image & ?&?&?&?). exists host, image. split_and!; try done; by right.
Qed.

(** A run whose MicroVM has stopped. *)
Lemma known_inv_stopped thing s r host image d t :
  snap_run s = Some r → cr_id host = microvm_id r → cr_state host = "TERMINATED" → known_inv d t →
  known_inv d (DFenceKnown thing s (inr true) :: DDescribe (microvm_id r) (inr (host, image)) :: DRead thing (inr (Some s)) :: t).
Proof.
  intros Hr Hid Hst [Hg Hd]. split; [done|]. intros Hc. destruct (Hd Hc) as (H1 & H2 & H3 & H4).
  split_and!; [not_new H1|not_new H2|not_new H3|].
  intros thing' s' r' Hin Hr'. apply elem_of_cons in Hin as [?|Hin]; [done|]. apply elem_of_cons in Hin as [?|Hin]; [done|].
  apply elem_of_cons in Hin as [He|Hin].
  - injection He as -> ->. rewrite Hr in Hr'. injection Hr' as <-. exists host, image.
    split_and!; try done; [right; by left|by left].
  - destruct (H4 _ _ _ Hin Hr') as (host' & image' & ?&?&?&?). exists host', image'. split_and!; try done; by do 3 right.
Qed.

Lemma drain_known_keeps thing : xkeeps known_inv (λ _ _ _, False) (drain_known thing).
Proof.
  intros d t Hi. unfold drain_known, incomplete. apply xwp_try. pose proof Hi as [Hg _].
  eapply (xwp_mono _ (λ _, known_inv) _ (λ _ _ t, guarded known_allowed t)).
  2: done.
  2: { intros m d' t' Hg'. by apply known_inv_incomplete. }
  apply xwp_bind, xwp_call; [|by intros]. intros [s|] _; [|by apply known_inv_read].
  destruct (snap_run s) as [r|] eqn:Er; [|apply known_inv_read; [by intros ? [= <-]|done]].
  xwp_step; [by apply xwp_modify, known_inv_incomplete|]. apply string_empty_false in Hb.
  apply xwp_bind. destruct (saved_launch_image_pure (E:=drain_event) (S:=drain) (request r) (run_id r) thing (activation_id r)) as [res Hres].
  unfold xwp at 1. rewrite Hres. destruct res as [m|image]; [done|].
  apply xwp_bind, xwp_call; [|by intros]. intros [host image'] _. cbn [fst snd].
  xwp_step; [by apply xwp_modify, known_inv_incomplete|]. bool_simpl. subst image'.
  apply xwp_bind, xwp_call; [|by intros]. intros ok _.
  xwp_step; [by apply xwp_modify, known_inv_incomplete|]. bool_simpl. subst ok.
  xwp_step; [bool_simpl; apply xwp_ret; by apply known_inv_stopped|].
  apply xwp_bind, xwp_modify. xwp_step; [|by apply known_inv_incomplete].
  assert (Hok : ∀ a, known_allowed (DTerminate (microvm_id r) a)
    (DFenceKnown thing s (inr true) :: DDescribe (microvm_id r) (inr (host, image)) :: DRead thing (inr (Some s)) :: t)).
  { intros a. exists thing, s, r, host, image, t. split_and!; done. }
  apply xwp_call; [intros []|intros m]; intros _; [apply known_inv_incomplete|]; (split; [apply Hok|done]).
Qed.

(** The drain of the known assignments always returns, stops only MicroVMs that
    are fenced off and run the image of their own launch request, and is complete
    only when every assigned MicroVM has stopped. *)
Theorem known_drain_safe :
  ∃ b d t, drain_known_assignments (mk_drain true ∅) [] = (inr b, d, t) ∧
    (∀ t2 vm a t1, t = t2 ++ DTerminate vm a :: t1 → known_allowed (DTerminate vm a) t1) ∧
    (b = true → known_settled (mk_drain true ∅) t).
Proof.
  assert (Hw : xwp drain_known_assignments (λ b d t, b = complete d ∧ known_inv d t) (λ _ _ _, False) (mk_drain true ∅) []).
  { unfold drain_known_assignments, incomplete. apply xwp_bind, xwp_try, xwp_bind, xwp_call.
    - intros things _. eapply xwp_mono; [apply (xkeeps_for_each known_inv (λ _ _ _, False)); [apply drain_known_keeps|]|by split|done].
      split; [done|]. intros _. split_and!; [not_new I..|].
      intros thing s r [?|?%not_elem_of_nil]%elem_of_cons; done.
    - intros m _. by split. }
  unfold xwp in Hw. destruct (drain_known_assignments (mk_drain true ∅) []) as [[[m|b] d] t]; [done|].
  destruct Hw as (-> & Hg & Hs). exists (complete d), d, t. split_and!; [done| |].
  - intros t2 vm a t1 ->. by apply guarded_at in Hg.
  - intros Hc _. by apply Hs.
Qed.
End KnownDrainProof.
