(* ===== verification/AgentSample.v ===== *)
(** * Samples of a running MicroVM

    [agent/src/runtime_sample.cpp]: the controller asks the runtime in a MicroVM
    for its status. A sample can fence its own run ([runtime_stopped_for]), can put
    off the stop of the run it comes from ([runtime_verified_for]), and is published
    in the device's shadow ([runtime_sample_patch]), without any text of a peer
    ([connection_error]). *)
From S2P Require Import Prelude Cpp AwsJson AgentController AgentReconcile AgentCloud.

#[local] Open Scope Z_scope.

(** ** Diagnostics *)

Definition status_marker : string := ": KVS status 0x".
Definition hex_chars : string := "0123456789abcdefABCDEF".

Definition operations : list string :=
  ["dataChannelSend"; "KVS signaling callback"; "refusing signaling channel mutation"; "WebRTC connection lost";
   "signalingClientConnectSync"; "signalingClientFetchSync"; "createSignalingClientSync"; "createPeerConnection";
   "setRemoteDescription"; "createOffer"; "setLocalDescription"; "addIceCandidate"; "createDataChannel"]%string.

Definition known_errors : list string :=
  ["no MAVLink telemetry for 15 seconds"; "transport failed"; "too many pending remote ICE candidates";
   "KVS signaling queue exceeded bounded capacity"]%string.

(** The text from [begin] up to the first character that is not in [chars]. *)
Fixpoint span_chars (chars s : string) : string :=
  match s with
  | EmptyString => EmptyString
  | String c s => if string_mem c chars then String c (span_chars chars s) else EmptyString
  end.

Definition connection_error (error : string) : string :=
  let otherwise := if string_empty error then EmptyString
                   else "connection operation failed; inspect agent logs"%string in
  if bool_decide (error ∈ known_errors) then error else
  if String.prefix "peer negotiation exceeded 20 seconds" error then "peer negotiation exceeded 20 seconds" else
  match String.index 0 status_marker error with
  | Some marker =>
      if bool_decide (String.substring 0 marker error ∈ operations) then
        let begin := (marker + String.length status_marker)%nat in
        let digits := span_chars hex_chars (String.substring begin (String.length error - begin) error) in
        if negb (string_empty digits) && (string_size digits <=? 8)
        then String.substring 0 begin error +:+ digits else otherwise
      else otherwise
  | None => otherwise
  end.

Definition safe_connection_diagnostic (error : string) : string := connection_error error.

Section Sample.
Context `{json : AwsJson} {E S : Type}.
Abbreviation P := (X E S).

Definition sample_field (view : JsonView) (name : string) : P string :=
  if negb (ValueExists view name) || negb (IsString (GetObject view name))
  then throw ("invalid runtime sample: " +:+ name) else mret (c_str (GetString view name)).

Definition sample_number (view : JsonView) (name : string) : P Z :=
  if negb (ValueExists view name) || negb (IsIntegerType (GetObject view name)) || (GetInt64 view name <? 0)
  then throw ("invalid runtime sample: " +:+ name) else mret (GetInt64 view name).

Definition sample_object (view : JsonView) (name : string) : P JsonView :=
  if negb (ValueExists view name) || negb (IsObject (GetObject view name))
  then throw ("invalid runtime sample: " +:+ name) else mret (GetObject view name).

Definition connection_state (state : Z) : P string :=
  if state =? 0 then mret "disconnected"%string else
  if state =? 1 then mret "connecting"%string else
  if state =? 2 then mret "connected"%string else
  if state =? 3 then mret "error"%string else throw "invalid runtime connection state".

(** [equals(key, expected)] of [runtime_stopped_for]. *)
Definition member_is (view : JsonView) (key expected : string) : bool :=
  ValueExists view key && IsString (GetObject view key) && bool_decide (GetString view key = c_str expected).

Definition runtime_stopped_for (snapshot : ControllerSnapshot) (thing sample : string) : bool :=
  match snap_run snapshot with
  | None => false
  | Some r =>
      if string_empty thing || negb (bool_decide (phase r = running)) || string_empty (microvm_id r) then false else
      match json_parse (c_str sample) with
      | None => false
      | Some view =>
          IsObject view && member_is view "phase" "stopped" && member_is view "thingId" thing
          && member_is view "runId" (run_id r) && member_is view "microvmId" (microvm_id r)
          && member_is view "activationId" (activation_id r)
      end
  end.

(** [f(view, name) == expected && rest]. *)
Definition field_is (view : JsonView) (name expected : string) (rest : P bool) : P bool :=
  v ← sample_field view name;
  if bool_decide (v = expected) then rest else mret false.

Definition runtime_verified_for (snapshot : ControllerSnapshot) (thing sample : string) (elapsed_ms : Z) : P bool :=
  match snap_run snapshot, activation (snap_activation snapshot) with
  | Some r, Some a =>
      if string_empty thing || (elapsed_ms <? 0) || (15000 <=? elapsed_ms) || negb (bool_decide (phase r = running))
         || string_empty (microvm_id r) || negb (bool_decide (activation_id r = act_id a))
      then mret false else
      try_catch
        (match json_parse (c_str sample) with
         | None => mret false
         | Some view =>
             if negb (IsObject view) then mret false else
             field_is view "phase" "running"
               (field_is view "thingId" thing
                  (field_is view "runId" (run_id r)
                     (field_is view "microvmId" (microvm_id r)
                        (field_is view "activationId" (activation_id r)
                           (d ← sample_number view "deadline";
                            if negb (d =? deadline a) || negb (ValueExists view "assignmentVerified")
                               || negb (IsBool (GetObject view "assignmentVerified"))
                               || negb (GetBool view "assignmentVerified")
                            then mret false else
                            age ← sample_number view "assignmentAgeMs";
                            mret (age <? 15000 - elapsed_ms))))))
         end)
        (λ _, mret false)
  | _, _ => mret false
  end.

Definition endpoint_suffix : string := ".lambda-microvm.eu-central-1.on.aws".
Definition endpoint_chars : string := "abcdefghijklmnopqrstuvwxyz0123456789.-".

Definition bad_host (host : string) : bool :=
  (string_size host <=? string_size endpoint_suffix) || (253 <? string_size host)
  || negb (bool_decide (String.substring (String.length host - String.length endpoint_suffix)
                          (String.length endpoint_suffix) host = endpoint_suffix))
  || negb (only_chars endpoint_chars host)
  || String.prefix "." host || bool_decide (is_Some (String.index 0 ".." host)).

Definition microvm_https_endpoint (endpoint : string) : P string :=
  let host := if String.prefix "https://" endpoint
              then String.substring 8 (String.length endpoint - 8) endpoint else endpoint in
  if bad_host host then throw "invalid managed MicroVM endpoint" else mret ("https://" +:+ host).

(** ** The patch *)

Definition safe_control_errors : list string :=
  ["control_busy"; "stale_epoch"; "invalid_request"; "control error";
   "control unavailable"; "control request send failed"; "invalid lease state"; "board control ownership changed";
   "unexpected control response"; "telemetry stopped"; "telemetry connection lost";
   "operator exception or control response overload"; "client inactivity or lease expiry";
   "control request timed out"; "operator released"; "MAVLink send failed"]%string.

Definition error_member (e : string) : string * json_value :=
  ("lastError"%string, if string_empty e then JNull else JString (c_str e)).

(** The assignment that a sample is published for. *)
Definition current_assignment (snapshot : ControllerSnapshot) (sampled_at : Z) : option (RunReservation * Activation) :=
  match snap_run snapshot, activation (snap_activation snapshot) with
  | Some r, Some a =>
      if negb (bool_decide (phase r = running)) || string_empty (microvm_id r)
         || negb (activation_authorized (snap_activation snapshot) sampled_at)
         || negb (bool_decide (activation_id r = act_id a))
      then None else Some (r, a)
  | _, _ => None
  end.

(** A field that must have a value. *)
Definition must_be (view : JsonView) (name expected : string) : P unit :=
  v ← sample_field view name;
  if bool_decide (v = expected) then mret tt else throw "runtime sample does not match current assignment".

Definition check_sample (view : JsonView) (r : RunReservation) (a : Activation) : P unit :=
  if negb (IsObject view) then throw "runtime sample does not match current assignment" else
  _ ← must_be view "phase" "running";
  _ ← must_be view "runId" (run_id r);
  _ ← must_be view "microvmId" (microvm_id r);
  _ ← must_be view "activationId" (activation_id r);
  d ← sample_number view "deadline";
  if negb (d =? deadline a) || negb (ValueExists view "assignmentVerified")
     || negb (IsBool (GetObject view "assignmentVerified")) || negb (GetBool view "assignmentVerified")
  then throw "runtime sample does not match current assignment" else mret tt.

Definition control_detail (detail : string) : string :=
  if bool_decide (detail ∈ safe_control_errors ++ ["control operation failed"%string]) then detail
  else "control operation failed".

Definition runtime_sample_patch (snapshot : ControllerSnapshot) (endpoint sample : string) (sampled_at : Z) : P string :=
  match current_assignment snapshot sampled_at with
  | None => throw "sample has no current authorized assignment"
  | Some (r, a) =>
      match json_parse (c_str sample) with
      | None => throw "runtime sample does not match current assignment"
      | Some view =>
          _ ← check_sample view r a;
          telemetry ← sample_object view "telemetry";
          video ← sample_object view "video";
          control ← sample_object view "control";
          telemetry_state ← sample_number telemetry "state";
          video_state ← sample_number video "state";
          control_state ← sample_field control "state";
          if negb (bool_decide (control_state ∈ ["observing"; "acquiring"; "held"; "lost"]%string))
          then throw "invalid runtime control state" else
          mavlink_name ← connection_state telemetry_state;
          telemetry_error ← sample_field telemetry "error";
          video_name ← connection_state video_state;
          frames ← sample_number view "videoFrames";
          video_error ← sample_field video "error";
          frame ← sample_object view "lastVideo";
          receipt ← sample_number frame "receiptUnixMs";
          let last_frame := if receipt =? 0 then JNull else JInt64 (Z.quot receipt 1000) in
          detail ← sample_field control "error";
          host ← microvm_https_endpoint endpoint;
          mret (c_str (WriteCompact
            [("version", JInt64 (shadow_version snapshot));
             ("state", JObject [("reported", JObject
               [("endpoint", JString (c_str host));
                ("runtime", JObject
                  [("runId", JString (c_str (run_id r))); ("sampledAt", JInt64 sampled_at);
                   ("mavlink", JObject [("state", JString mavlink_name); error_member (connection_error telemetry_error)]);
                   ("video", JObject [("state", JString video_name); ("framesReceived", JInt64 frames);
                                      error_member (connection_error video_error);
                                      ("lastFrameAt", last_frame)]);
                   ("control", JObject [("state", JString control_state);
                                        error_member (if string_empty detail then detail else control_detail detail)])])])])])%string)
      end
  end.
End Sample.

(** ** What leaves the MicroVM *)

(** A diagnostic is empty, a fixed text, or a known operation with a status of one
    to eight hexadecimal digits. *)
Definition safe_diagnostic (d : string) : Prop :=
  d = EmptyString ∨ d ∈ known_errors ∨ d = "peer negotiation exceeded 20 seconds" ∨
  d = "connection operation failed; inspect agent logs" ∨
  ∃ op digits, op ∈ operations ∧ digits ≠ EmptyString ∧ string_size digits ≤ 8 ∧ only_chars hex_chars digits = true ∧
    d = op +:+ status_marker +:+ digits.

Lemma span_only chars s : only_chars chars (span_chars chars s) = true.
Proof. induction s as [|c s IH]; [done|]. cbn. destruct (string_mem c chars) eqn:E; [|done]. cbn. by rewrite E. Qed.

(** Whatever a connection reports, the published diagnostic is empty, a fixed text,
    or a known operation with a status of one to eight hexadecimal digits: no text of a
    peer is passed on. *)
Theorem connection_error_safe error : safe_diagnostic (connection_error error).
Proof.
  unfold connection_error. case_bool_decide as Hk; [by right; left|]. destruct (String.prefix _ error); [by do 2 right; left|].
  assert (Ho : safe_diagnostic (if string_empty error then EmptyString else "connection operation failed; inspect agent logs")).
  { destruct (string_empty error); [by left|by do 3 right; left]. }
  destruct (String.index 0 status_marker error) as [marker|] eqn:Em; [|done]. case_bool_decide as Hop; [|done].
  destruct (_ && _) eqn:Ed; [|done]. bool_simpl. do 4 right. eexists _, _. split; [exact Hop|].
  split; [by apply string_empty_false|]. split; [done|]. split; [apply span_only|].
  rewrite (substring_split 0 marker). apply String.index_correct1 in Em. cbn [Nat.add]. rewrite Em.
  by rewrite append_assoc.
Qed.

(** The endpoint that is published is a host of the managed domain. *)
Theorem https_endpoint_scoped {E S} endpoint (s : S) (t : list E) :
  xwp (microvm_https_endpoint endpoint)
    (λ (url : string) _ _, ∃ label : string, url = "https://" +:+ label +:+ endpoint_suffix ∧ label ≠ EmptyString ∧
       string_size (label +:+ endpoint_suffix) ≤ 253 ∧ only_chars endpoint_chars label = true ∧
       String.prefix "." label = false ∧ String.index 0 ".." (label +:+ endpoint_suffix) = None) (λ _ _ _, True) s t.
Proof.
  unfold microvm_https_endpoint. set (host := if String.prefix _ _ then _ else _).
  xwp_step; [by xwp_step|]. xwp_step.
  unfold bad_host in Hb. bool_simpl. unfold string_size in *.
  rename H into Hlo, H3 into Hsuf, H2 into Hch, H1 into Hdot, H0 into Hdd.
  set (n := (String.length host - String.length endpoint_suffix)%nat) in *.
  assert (Hh : host = String.substring 0 n host +:+ endpoint_suffix).
  { rewrite <- Hsuf at 1. rewrite <- (substring_split 0 n). rewrite <- (substring_all host) at 1.
    f_equal. unfold n. lia. }
  assert (Hl : String.length (String.substring 0 n host) = n) by (apply substring_length; unfold n; lia).
  assert (Hn : (0 < n)%nat) by (unfold n; lia).
  clearbody n host. exists (String.substring 0 n host). rewrite <- Hh. split_and!; try done.
  - intros He. rewrite He in Hl. cbn in Hl. lia.
  - rewrite Hh in Hch. revert Hch. clear. generalize (String.substring 0 n host). intros l.
    induction l as [|c l IH]; [done|]. rewrite append_cons. cbn. intros [-> ?]%andb_true_iff. auto.
  - destruct (String.substring 0 n host) as [|c l] eqn:Es; [cbn in Hl; lia|]. rewrite Hh, append_cons in Hdot.
    cbn [String.prefix] in *. destruct (Ascii.ascii_dec "." c); [|done]. by destruct (l +:+ endpoint_suffix).
  - destruct (String.index 0 ".." host); [|done]. exfalso. apply Hdd. by eexists.
Qed.

(** ** When a sample vouches for its run *)

Section Vouch.
Context `{json : AwsJson} {E S : Type}.

Definition text_member (view : JsonView) (name value : string) : Prop :=
  ValueExists view name = true ∧ IsString (GetObject view name) = true ∧ c_str (GetString view name) = value.
Definition int_member (view : JsonView) (name : string) (n : Z) : Prop :=
  ValueExists view name = true ∧ IsIntegerType (GetObject view name) = true ∧ GetInt64 view name = n ∧ 0 ≤ n.

(** The sample was made by the runtime of this very run, for its activation, and
    with the time it took its verification is less than 15 seconds old. *)
Definition vouches (snapshot : ControllerSnapshot) (thing sample : string) (elapsed_ms : Z) : Prop :=
  ∃ r a view age, snap_run snapshot = Some r ∧ activation (snap_activation snapshot) = Some a ∧
    thing ≠ EmptyString ∧ 0 ≤ elapsed_ms ∧ phase r = running ∧ microvm_id r ≠ EmptyString ∧ activation_id r = act_id a ∧
    json_parse (c_str sample) = Some view ∧ IsObject view = true ∧
    text_member view "phase" "running" ∧ text_member view "thingId" thing ∧ text_member view "runId" (run_id r) ∧
    text_member view "microvmId" (microvm_id r) ∧ text_member view "activationId" (activation_id r) ∧
    int_member view "deadline" (deadline a) ∧
    (ValueExists view "assignmentVerified" = true ∧ IsBool (GetObject view "assignmentVerified") = true ∧
     GetBool view "assignmentVerified" = true) ∧
    int_member view "assignmentAgeMs" age ∧ age + elapsed_ms < 15000.

(** A program without effects that answers [true] exactly when [φ] holds. *)
Definition decides (c : X E S bool) (φ : Prop) : Prop :=
  ∀ s t, ∃ r, c s t = (r, s, t) ∧ (r = inr true ↔ φ).

Lemma decides_false (φ : Prop) : ¬ φ → decides (mret false) φ.
Proof. intros Hn s t. by exists (inr false). Qed.

Lemma decides_field view name value rest φ :
  decides rest φ → decides (field_is view name value rest) (text_member view name value ∧ φ).
Proof.
  intros Hr s t. unfold field_is, sample_field, text_member. destruct (_ || _) eqn:Eb.
  - eexists. split; [done|]. split; [done|]. intros [(H1&H2&_) _]. by rewrite H1, H2 in Eb.
  - bool_simpl. unfold mbind, X_bind, mret, X_ret. case_bool_decide as Hv.
    + destruct (Hr s t) as (r&->&Hiff). exists r. split; [done|]. rewrite Hiff. split; [by intros|by intros [_ ?]].
    + exists (inr false). split; [done|]. split; [done|]. by intros [(_&_&?) _].
Qed.

Lemma decides_number view name (k : Z → X E S bool) (φ : Z → Prop) :
  (∀ n, decides (k n) (φ n)) → decides (n ← sample_number view name; k n) (∃ n, int_member view name n ∧ φ n).
Proof.
  intros Hk s t. unfold sample_number, int_member, mbind, X_bind. destruct (_ || _) eqn:Eb.
  - eexists. split; [done|]. split; [done|]. intros (n&(H1&H2&<-&H3)&_). rewrite H1, H2 in Eb. cbn in Eb. bool_simpl. lia.
  - bool_simpl. unfold mret, X_ret. destruct (Hk (GetInt64 view name) s t) as (r&->&Hiff). exists r. split; [done|].
    rewrite Hiff. split; [intros Hp; by exists (GetInt64 view name)|]. by intros (n&(_&_&<-&_)&?).
Qed.

Lemma decides_iff c φ φ' : decides c φ → (φ ↔ φ') → decides c φ'.
Proof. intros Hc Hiff s t. destruct (Hc s t) as (r&?&Hr). exists r. by rewrite Hr. Qed.

(** [runtime_verified_for] never throws and answers [true] exactly then. *)
Theorem runtime_verified_for_spec snapshot thing sample elapsed_ms (s : S) (t : list E) :
  ∃ b, runtime_verified_for snapshot thing sample elapsed_ms s t = (inr b, s, t) ∧
       (b = true ↔ vouches snapshot thing sample elapsed_ms).
Proof.
  unfold runtime_verified_for, vouches. destruct (snap_run snapshot) as [r|]; [|exists false; split; [done|]; split; [done|]; intros (?&?&?&?&?&?&?&?&?&?&?&?&?&?); simplify_eq].
  destruct (activation _) as [a|]; [|exists false; split; [done|]; split; [done|]; intros (?&?&?&?&?&?&?&?&?&?&?&?&?&?); simplify_eq].
  destruct (_ || _) eqn:Eb.
  { exists false. split; [done|]. split; [done|]. intros (r'&a'&view&age&[= <-]&[= <-]&Ht&He&Hp&Hm&Ha&_&_&_&_&_&_&_&_&_&(_&_&_&?)&?).
    exfalso. rewrite !orb_true_iff in Eb. destruct Eb as [[[[[Eb|Eb]|Eb]|Eb]|Eb]|Eb]; bool_simpl; try done; try lia.
    - by apply string_empty_spec in Eb.
    - by apply string_empty_spec in Eb. }
  apply orb_false_iff in Eb as [[[[[Et Ee]%orb_false_iff Ee2]%orb_false_iff Ep]%orb_false_iff Em]%orb_false_iff Ea].
  bool_simpl. apply string_empty_false in Et, Em. unfold try_catch. destruct (json_parse (c_str sample)) as [view|]; [|exists false; split; [done|]; split; [done|]; intros (?&?&?&?&?&?&?&?&?&?&?&?&?&?); simplify_eq].
  destruct (IsObject view) eqn:Eo; [|exists false; split; [done|]; split; [done|]; intros (?&?&?&?&?&?&?&?&?&?&?&?&?&?); simplify_eq; congruence]. cbn [negb].
  match goal with |- context [match ?c s t with _ => _ end] =>
    assert (Hd : decides c (text_member view "phase" "running" ∧ text_member view "thingId" thing ∧
      text_member view "runId" (run_id r) ∧ text_member view "microvmId" (microvm_id r) ∧
      text_member view "activationId" (activation_id r) ∧
      ∃ d, int_member view "deadline" d ∧ (d = deadline a ∧ ValueExists view "assignmentVerified" = true ∧
        IsBool (GetObject view "assignmentVerified") = true ∧ GetBool view "assignmentVerified" = true) ∧
        ∃ age, int_member view "assignmentAgeMs" age ∧ age < 15000 - elapsed_ms)) end.
  { do 5 apply decides_field. apply decides_number. intros d. destruct (_ || _) eqn:Ed.
    - apply decides_false. intros [(->&Hv&Hb&Hg) _]. by rewrite Z.eqb_refl, Hv, Hb, Hg in Ed.
    - bool_simpl. apply (decides_iff _ (∃ age, int_member view "assignmentAgeMs" age ∧ age < 15000 - elapsed_ms)).
      + apply decides_number. intros age s' t'. exists (inr (age <? 15000 - elapsed_ms)). split; [done|].
        rewrite <- Z.ltb_lt. split; [by intros [=]|by intros ->].
      + split; [intros Hage; by split|by intros [_ ?]]. }
  destruct (Hd s t) as (res&->&Hiff). exists (match res with inr b => b | inl _ => false end).
  split; [by destruct res|]. transitivity (res = inr true); [destruct res; split; intros; simplify_eq; done|]. rewrite Hiff.
  split.
  - intros (?&?&?&?&?&d&?&(->&?)&age&?&?). exists r, a, view, age. repeat first [done | lia | split].
  - intros (r'&a'&view'&age&[= <-]&[= <-]&_&_&_&_&_&[= <-]&_&?&?&?&?&?&?&?&?&?). do 5 (split; [done|]).
    exists (deadline a). split; [done|]. split; [by split|]. exists age. split; [done|lia].
Qed.
End Vouch.
