(* ===== verification/AgentQueue.v ===== *)
(** * The bounded queue of the agent

    [Queue] of [agent/include/agent/core.hpp]: a queue bounded by a number of
    items and a number of bytes. A push that does not fit drops the oldest items;
    an item larger than the queue is refused. The operations run under the
    queue's mutex, so each is one step. *)
From S2P Require Import Prelude Cpp.

Record Queue (T : Type) := mk_queue {
  max_count_ : Z;
  max_bytes_ : Z;
  items_ : list (T * Z);
  size_ : Z;
  dropped_ : Z;
  closed_ : bool }.
Arguments mk_queue {T}.
Arguments max_count_ {T}.
Arguments max_bytes_ {T}.
Arguments items_ {T}.
Arguments size_ {T}.
Arguments dropped_ {T}.
Arguments closed_ {T}.

Section Queue.
Context {T : Type}.
Implicit Types q : Queue T.

Definition new_queue (count bytes : Z) : Queue T := mk_queue count bytes [] 0 0 false.

(** The loop of [push] that makes room. *)
Fixpoint make_room (count max_bytes bytes : Z) (items : list (T * Z)) (size dropped : Z)
    : list (T * Z) * Z * Z :=
  match items with
  | [] => ([], size, dropped)
  | (x, n) :: rest =>
      if (count <=? Z.of_nat (length items)) || (max_bytes <? size + bytes)
      then make_room count max_bytes bytes rest (u64 (size - n)) (u64 (dropped + 1))
      else (items, size, dropped)
  end.

Definition push (q : Queue T) (item : T) (bytes : Z) : bool * Queue T :=
  if closed_ q || (max_bytes_ q <? bytes)
  then (false, mk_queue (max_count_ q) (max_bytes_ q) (items_ q) (size_ q) (u64 (dropped_ q + 1)) (closed_ q))
  else
    let '(items, size, dropped) :=
      make_room (max_count_ q) (max_bytes_ q) bytes (items_ q) (size_ q) (dropped_ q) in
    (true, mk_queue (max_count_ q) (max_bytes_ q) (items ++ [(item, bytes)]) (u64 (size + bytes)) dropped (closed_ q)).

(** [pop] of a queue that is not empty or not waited for. *)
Definition pop (q : Queue T) : option T * Queue T :=
  match items_ q with
  | [] => (None, q)
  | (x, n) :: rest =>
      (Some x, mk_queue (max_count_ q) (max_bytes_ q) rest (u64 (size_ q - n)) (dropped_ q) (closed_ q))
  end.

Definition close (q : Queue T) : Queue T :=
  mk_queue (max_count_ q) (max_bytes_ q) (items_ q) (size_ q) (dropped_ q) true.

(** ** Well-formedness *)

Fixpoint bytes_of (items : list (T * Z)) : Z :=
  match items with [] => 0 | x :: items => x.2 + bytes_of items end.

Definition queue_wf (q : Queue T) : Prop :=
  1 ≤ max_count_ q ∧ 0 ≤ max_bytes_ q < 2 ^ 63 ∧ Forall (λ x, 0 ≤ x.2) (items_ q) ∧
  Z.of_nat (length (items_ q)) ≤ max_count_ q ∧ size_ q = bytes_of (items_ q) ∧ size_ q ≤ max_bytes_ q.

Lemma new_queue_wf count bytes : 1 ≤ count → 0 ≤ bytes < 2 ^ 63 → queue_wf (new_queue count bytes).
Proof. intros. unfold queue_wf. cbn. repeat split; try lia. constructor. Qed.

Lemma bytes_of_nonneg items : Forall (λ x, 0 ≤ x.2) items → 0 ≤ bytes_of items.
Proof. induction 1; cbn in *; lia. Qed.

Lemma bytes_of_app l l' : bytes_of (l ++ l') = bytes_of l + bytes_of l'.
Proof. induction l as [|x l IH]; cbn; [done|]. rewrite IH. lia. Qed.

(** The item and the kept ones do not fit. *)
Definition too_full (count max_bytes bytes : Z) (items : list (T * Z)) : Prop :=
  count ≤ Z.of_nat (length items) ∨ max_bytes < bytes_of items + bytes.

(** Room is made by dropping the shortest prefix that is needed. *)
Lemma make_room_spec count max_bytes bytes items dropped :
  0 ≤ max_bytes < 2 ^ 63 → 0 ≤ bytes ≤ max_bytes → Forall (λ x, 0 ≤ x.2) items → bytes_of items ≤ max_bytes →
  ∃ k, let items' := drop k items in
    make_room count max_bytes bytes items (bytes_of items) dropped =
      (items', bytes_of items', if decide (k = 0%nat) then dropped else u64 (dropped + Z.of_nat k)) ∧
    (k ≤ length items)%nat ∧ (items' = [] ∨ ¬ too_full count max_bytes bytes items') ∧
    ∀ j, (j < k)%nat → too_full count max_bytes bytes (drop j items).
Proof.
  intros Hm Hb. revert dropped. induction items as [|[x n] rest IH]; intros dropped Hpos Hle.
  { exists 0%nat. cbn. split_and!; [done|lia|by left|lia]. }
  inversion Hpos as [|? ? Hn Hrest]; subst. cbn in Hn.
  pose proof (bytes_of_nonneg rest Hrest). cbn [make_room]. cbn in Hle.
  destruct ((count <=? _) || _) eqn:Et.
  - rewrite wrapu_id by (unfold in_u; cbn; lia).
    replace (bytes_of ((x, n) :: rest) - n) with (bytes_of rest) by (cbn; lia).
    destruct (IH (u64 (dropped + 1)) Hrest ltac:(lia)) as (k&Hroom&Hk&Hend&Hmin).
    exists (S k). cbn [drop length]. split_and!; [|lia|done|].
    + rewrite Hroom. repeat f_equal. destruct (decide (S k = 0%nat)); [lia|].
      destruct (decide (k = 0%nat)) as [->|]; [f_equal; lia|]. unfold wrapu. rewrite Zplus_mod_idemp_l. f_equal. lia.
    + intros [|j] Hj; [|apply Hmin; lia]. cbn [drop]. apply orb_true_iff in Et as [?|?]; bool_simpl; [by left|by right].
  - exists 0%nat. cbn [drop length]. split_and!; [done|lia| |lia]. right. unfold too_full.
    apply orb_false_iff in Et as [??]. bool_simpl. lia.
Qed.

Lemma push_outcome q item bytes :
  queue_wf q → 0 ≤ bytes →
  let '(ok, q') := push q item bytes in
  queue_wf q' ∧ closed_ q' = closed_ q ∧
  if closed_ q || (max_bytes_ q <? bytes)
  then ok = false ∧ items_ q' = items_ q ∧ dropped_ q' = u64 (dropped_ q + 1)
  else ok = true ∧ ∃ k, (k ≤ length (items_ q))%nat ∧ items_ q' = drop k (items_ q) ++ [(item, bytes)] ∧
         (dropped_ q' = if decide (k = 0%nat) then dropped_ q else u64 (dropped_ q + Z.of_nat k)) ∧
         ∀ j, (j < k)%nat → too_full (max_count_ q) (max_bytes_ q) bytes (drop j (items_ q)).
Proof.
  intros (Hc&Hm&Hpos&Hlen&Hsz&Hle) Hb. unfold push. destruct (closed_ q || (max_bytes_ q <? bytes)) eqn:Er; [done|].
  bool_simpl. rewrite Hsz in *.
  destruct (make_room_spec (max_count_ q) (max_bytes_ q) bytes (items_ q) (dropped_ q)) as (k&->&Hk&Hend&Hmin); [lia|lia|done..|].
  assert (Hpos' : Forall (λ x, 0 ≤ x.2) (drop k (items_ q))) by by apply Forall_drop.
  pose proof (bytes_of_nonneg _ Hpos').
  assert (Hfit : Z.of_nat (length (drop k (items_ q))) < max_count_ q ∧ bytes_of (drop k (items_ q)) + bytes ≤ max_bytes_ q).
  { destruct Hend as [->|Hend]; cbn; [lia|]. unfold too_full in Hend. lia. }
  split_and!; [|done|done|exists k; split_and!; done].
  unfold queue_wf. cbn. rewrite wrapu_id by (unfold in_u; lia). rewrite length_app, bytes_of_app. cbn.
  split_and!; try lia. apply Forall_app. split; [done|]. by constructor.
Qed.

(** A push of an item that fits the queue keeps the newest items: it drops the
    shortest prefix that makes room, appends the item and counts what it dropped.
    Any other push is refused and changes nothing but that count. *)
Theorem push_drops_oldest q item bytes :
  queue_wf q → 0 ≤ bytes →
  let '(ok, q') := push q item bytes in
  queue_wf q' ∧ closed_ q' = closed_ q ∧
  if closed_ q || (max_bytes_ q <? bytes)
  then ok = false ∧ items_ q' = items_ q ∧ dropped_ q' = u64 (dropped_ q + 1)
  else ok = true ∧ ∃ k, (k ≤ length (items_ q))%nat ∧ items_ q' = drop k (items_ q) ++ [(item, bytes)] ∧
         (dropped_ q' = if decide (k = 0%nat) then dropped_ q else u64 (dropped_ q + Z.of_nat k)) ∧
         ∀ j, (j < k)%nat → too_full (max_count_ q) (max_bytes_ q) bytes (drop j (items_ q)).
Proof. intros. by apply push_outcome. Qed.

Lemma push_wf q item bytes : queue_wf q → 0 ≤ bytes → queue_wf (push q item bytes).2.
Proof. intros Hq Hb. pose proof (push_outcome q item bytes Hq Hb) as H. destruct (push q item bytes). apply H. Qed.

Lemma pop_wf q : queue_wf q → queue_wf (pop q).2.
Proof.
  unfold queue_wf, pop. intros (?&?&Hpos&?&Hsz&?). destruct (items_ q) as [|[x n] rest] eqn:Ei; cbn.
  - rewrite Ei. split_and!; try done; lia.
  - inversion Hpos as [|? ? Hn Hrest]; subst. pose proof (bytes_of_nonneg rest Hrest). cbn in *.
    rewrite wrapu_id by (unfold in_u; lia). split_and!; try done; lia.
Qed.

(** A well-formed queue with the bounds it was made with. *)
Definition queue_bounded (count bytes : Z) (q : Queue T) : Prop :=
  queue_wf q ∧ max_count_ q = count ∧ max_bytes_ q = bytes.

Lemma push_bounded c m q item bytes : queue_bounded c m q → 0 ≤ bytes → queue_bounded c m (push q item bytes).2.
Proof.
  intros (Hq&<-&<-) Hb. split; [by apply push_wf|]. unfold push. case_match; [done|].
  by destruct (make_room _ _ _ _ _ _) as [[??]?].
Qed.

Lemma pop_bounded c m q : queue_bounded c m q → queue_bounded c m (pop q).2.
Proof. intros (Hq&<-&<-). split; [by apply pop_wf|]. unfold pop. by destruct (items_ q) as [|[??]?]. Qed.

Lemma close_bounded c m q : queue_bounded c m q → queue_bounded c m (close q).
Proof. done. Qed.
End Queue.

Lemma push_drops_oldest_witness :
  let q := mk_queue 2 100 [("a"%string, 10); ("b"%string, 20)] 30 0 false in
  ∃ k, (k ≤ 2)%nat ∧ items_ (push q "c"%string 30).2 = drop k (items_ q) ++ [("c"%string, 30)].
Proof.
  intros q. pose proof (push_drops_oldest q "c"%string 30) as H.
  destruct (push q "c"%string 30) as [ok q'] eqn:Ep. destruct H as (_&_&_&k&?&?&_).
  - split_and!; try (vm_compute; congruence). repeat constructor; vm_compute; congruence.
  - done.
  - by exists k.
Defined.
