(* ===== verification/AgentSession.v ===== *)
(** * The session of the cloud agent

    [agent/src/core.cpp]: a [Session] keeps a telemetry and a video connection to
    a device, holds the board's control lease for an operator and forwards the
    operator's MAVLink frames while it holds it.

    One hosting thread calls [tick], [verified] and [shutdown]. Operators queue
    commands and transports deliver data from other threads, through queues with
    a mutex each and through atomics. The model keeps both: [Own] are the members
    only the hosting thread touches, [Shared] the others. Before every access of
    the hosting thread to a shared member, the other threads may run
    ([others]); what they do is a parameter, any list of their steps. A sender
    that read the grant, and a callback that passed its [accepting] test, can be
    overtaken by the hosting thread: their second halves are steps of their own,
    kept in [inflight] in between. *)
From stdpp Require Import gmap pretty.
From S2P Require Import Prelude Cpp AwsJson AgentQueue.

#[local] Open Scope Z_scope.

(** ** Data ([core.hpp]) *)

Abbreviation Bytes := (list Z).

Inductive Stream := stream_telemetry | stream_video.
Inductive Media := media_data | media_h264.
Inductive Role := role_viewer | role_master.
Inductive Connection := conn_stopped | conn_connecting | conn_connected | conn_failed.

#[global] Instance Stream_eq_dec : EqDecision Stream.
Proof. solve_decision. Defined.
#[global] Instance Connection_eq_dec : EqDecision Connection.
Proof. solve_decision. Defined.

(** [static_cast<int>(state)]. *)
Definition connection_code (c : Connection) : Z :=
  match c with conn_stopped => 0 | conn_connecting => 1 | conn_connected => 2 | conn_failed => 3 end.

Record TransportConfig := mk_transport_config {
  channel : string; region : string; label : string; ca_path : string; media : Media; role : Role }.
Record Profile := mk_profile { profile_telemetry : TransportConfig; profile_video : TransportConfig }.
Record Lifecycle := mk_lifecycle { born : bool; redcon : Z }.
Record EncodedVideo := mk_video { video_bytes : Bytes; codec : string; presentation_100ns : Z; video_received : Z }.

Inductive Observation :=
  | obs_telemetry (bytes : Bytes)
  | obs_connection (stream : Stream) (state : Connection) (detail : string)
  | obs_control (held : bool) (detail : string).

Inductive Command :=
  | cmd_acquire (actor : string)
  | cmd_send (bytes : Bytes) (authority_generation : Z)
  | cmd_release
  | cmd_activity.

(** Second halves of calls by other threads. *)
Inductive inflight_op :=
  | in_send (bytes : Bytes) (generation : Z)
  | in_data (instance : nat) (bytes : Bytes) (binary : bool)
  | in_video (frame : EncodedVideo).

Definition valid_mavlink2 (b : Bytes) : bool :=
  match b with
  | b0 :: b1 :: b2 :: _ =>
      (12 <=? Z.of_nat (length b)) && (b0 =? 0xfd) && (Z.land b2 (u32 (Z.lnot 1)) =? 0)
      && (Z.of_nat (length b) =? 12 + b1 + (if negb (Z.land b2 1 =? 0) then 13 else 0))
  | _ => false
  end.

Definition profile {E S} (type thing region ca : string) : X E S Profile :=
  if negb (bool_decide (type = "tbot")) then throw ("unsupported registered Thing type: " +:+ type) else
  if string_empty thing || string_empty region || string_empty ca then throw "Thing, region and CA path are required" else
  mret (mk_profile (mk_transport_config (thing +:+ "-mavlink") region "txing.mavlink.v1" ca media_data role_viewer)
                   (mk_transport_config (thing +:+ "-board-video") region EmptyString ca media_h264 role_viewer)).

(** ** State

    [Link]: [transport] and [retiring] hold the number of a transport object,
    which also names its [accepting] and [received] atomics. *)

Record Link := mk_link {
  transport : option nat;
  retiring : option nat;
  received_count : Z;
  previous : Connection;
  attempted : Z;
  retry_at : Z;
  last_received : Z;
  backoff : Z;
  link_error : string }.

Definition set_transport (v : option nat) (s : Link) : Link :=
  mk_link v (retiring s) (received_count s) (previous s) (attempted s) (retry_at s) (last_received s) (backoff s) (link_error s).
Definition set_retiring (v : option nat) (s : Link) : Link :=
  mk_link (transport s) v (received_count s) (previous s) (attempted s) (retry_at s) (last_received s) (backoff s) (link_error s).
Definition set_received_count (v : Z) (s : Link) : Link :=
  mk_link (transport s) (retiring s) v (previous s) (attempted s) (retry_at s) (last_received s) (backoff s) (link_error s).
Definition set_previous (v : Connection) (s : Link) : Link :=
  mk_link (transport s) (retiring s) (received_count s) v (attempted s) (retry_at s) (last_received s) (backoff s) (link_error s).
Definition set_attempted (v : Z) (s : Link) : Link :=
  mk_link (transport s) (retiring s) (received_count s) (previous s) v (retry_at s) (last_received s) (backoff s) (link_error s).
Definition set_retry_at (v : Z) (s : Link) : Link :=
  mk_link (transport s) (retiring s) (received_count s) (previous s) (attempted s) v (last_received s) (backoff s) (link_error s).
Definition set_last_received (v : Z) (s : Link) : Link :=
  mk_link (transport s) (retiring s) (received_count s) (previous s) (attempted s) (retry_at s) v (backoff s) (link_error s).
Definition set_backoff (v : Z) (s : Link) : Link :=
  mk_link (transport s) (retiring s) (received_count s) (previous s) (attempted s) (retry_at s) (last_received s) v (link_error s).
Definition set_link_error (v : string) (s : Link) : Link :=
  mk_link (transport s) (retiring s) (received_count s) (previous s) (attempted s) (retry_at s) (last_received s) (backoff s) v.

Definition new_link : Link := mk_link None None 0 conn_stopped 0 0 0 1 EmptyString.

(** The members of [Session] that only the hosting thread uses; [instances]
    counts the transports made so far. *)

Record Own := mk_own {
  telemetry_ : Link;
  video_ : Link;
  lifecycle_ : Lifecycle;
  last_verified_ : Z;
  last_client_ : Z;
  last_renewed_ : Z;
  next_renew_ : Z;
  request_at_ : Z;
  has_verification_ : bool;
  stopped_ : bool;
  held_ : bool;
  epoch_ : Z;
  sequence_ : Z;
  control_generation_ : Z;
  session_id_ : string;
  pending_id_ : string;
  pending_type_ : string;
  stop_reason_ : string;
  instances : nat }.

Definition set_telemetry_ (v : Link) (s : Own) : Own :=
  mk_own v (video_ s) (lifecycle_ s) (last_verified_ s) (last_client_ s) (last_renewed_ s) (next_renew_ s) (request_at_ s) (has_verification_ s) (stopped_ s) (held_ s) (epoch_ s) (sequence_ s) (control_generation_ s) (session_id_ s) (pending_id_ s) (pending_type_ s) (stop_reason_ s) (instances s).
Definition set_video_ (v : Link) (s : Own) : Own :=
  mk_own (telemetry_ s) v (lifecycle_ s) (last_verified_ s) (last_client_ s) (last_renewed_ s) (next_renew_ s) (request_at_ s) (has_verification_ s) (stopped_ s) (held_ s) (epoch_ s) (sequence_ s) (control_generation_ s) (session_id_ s) (pending_id_ s) (pending_type_ s) (stop_reason_ s) (instances s).
Definition set_lifecycle_ (v : Lifecycle) (s : Own) : Own :=
  mk_own (telemetry_ s) (video_ s) v (last_verified_ s) (last_client_ s) (last_renewed_ s) (next_renew_ s) (request_at_ s) (has_verification_ s) (stopped_ s) (held_ s) (epoch_ s) (sequence_ s) (control_generation_ s) (session_id_ s) (pending_id_ s) (pending_type_ s) (stop_reason_ s) (instances s).
Definition set_last_verified_ (v : Z) (s : Own) : Own :=
  mk_own (telemetry_ s) (video_ s) (lifecycle_ s) v (last_client_ s) (last_renewed_ s) (next_renew_ s) (request_at_ s) (has_verification_ s) (stopped_ s) (held_ s) (epoch_ s) (sequence_ s) (control_generation_ s) (session_id_ s) (pending_id_ s) (pending_type_ s) (stop_reason_ s) (instances s).
Definition set_last_client_ (v : Z) (s : Own) : Own :=
  mk_own (telemetry_ s) (video_ s) (lifecycle_ s) (last_verified_ s) v (last_renewed_ s) (next_renew_ s) (request_at_ s) (has_verification_ s) (stopped_ s) (held_ s) (epoch_ s) (sequence_ s) (control_generation_ s) (session_id_ s) (pending_id_ s) (pending_type_ s) (stop_reason_ s) (instances s).
Definition set_last_renewed_ (v : Z) (s : Own) : Own :=
  mk_own (telemetry_ s) (video_ s) (lifecycle_ s) (last_verified_ s) (last_client_ s) v (next_renew_ s) (request_at_ s) (has_verification_ s) (stopped_ s) (held_ s) (epoch_ s) (sequence_ s) (control_generation_ s) (session_id_ s) (pending_id_ s) (pending_type_ s) (stop_reason_ s) (instances s).
Definition set_next_renew_ (v : Z) (s : Own) : Own :=
  mk_own (telemetry_ s) (video_ s) (lifecycle_ s) (last_verified_ s) (last_client_ s) (last_renewed_ s) v (request_at_ s) (has_verification_ s) (stopped_ s) (held_ s) (epoch_ s) (sequence_ s) (control_generation_ s) (session_id_ s) (pending_id_ s) (pending_type_ s) (stop_reason_ s) (instances s).
Definition set_request_at_ (v : Z) (s : Own) : Own :=
  mk_own (telemetry_ s) (video_ s) (lifecycle_ s) (last_verified_ s) (last_client_ s) (last_renewed_ s) (next_renew_ s) v (has_verification_ s) (stopped_ s) (held_ s) (epoch_ s) (sequence_ s) (control_generation_ s) (session_id_ s) (pending_id_ s) (pending_type_ s) (stop_reason_ s) (instances s).
Definition set_has_verification_ (v : bool) (s : Own) : Own :=
  mk_own (telemetry_ s) (video_ s) (lifecycle_ s) (last_verified_ s) (last_client_ s) (last_renewed_ s) (next_renew_ s) (request_at_ s) v (stopped_ s) (held_ s) (epoch_ s) (sequence_ s) (control_generation_ s) (session_id_ s) (pending_id_ s) (pending_type_ s) (stop_reason_ s) (instances s).
Definition set_stopped_ (v : bool) (s : Own) : Own :=
  mk_own (telemetry_ s) (video_ s) (lifecycle_ s) (last_verified_ s) (last_client_ s) (last_renewed_ s) (next_renew_ s) (request_at_ s) (has_verification_ s) v (held_ s) (epoch_ s) (sequence_ s) (control_generation_ s) (session_id_ s) (pending_id_ s) (pending_type_ s) (stop_reason_ s) (instances s).
Definition set_held_ (v : bool) (s : Own) : Own :=
  mk_own (telemetry_ s) (video_ s) (lifecycle_ s) (last_verified_ s) (last_client_ s) (last_renewed_ s) (next_renew_ s) (request_at_ s) (has_verification_ s) (stopped_ s) v (epoch_ s) (sequence_ s) (control_generation_ s) (session_id_ s) (pending_id_ s) (pending_type_ s) (stop_reason_ s) (instances s).
Definition set_epoch_ (v : Z) (s : Own) : Own :=
  mk_own (telemetry_ s) (video_ s) (lifecycle_ s) (last_verified_ s) (last_client_ s) (last_renewed_ s) (next_renew_ s) (request_at_ s) (has_verification_ s) (stopped_ s) (held_ s) v (sequence_ s) (control_generation_ s) (session_id_ s) (pending_id_ s) (pending_type_ s) (stop_reason_ s) (instances s).
Definition set_sequence_ (v : Z) (s : Own) : Own :=
  mk_own (telemetry_ s) (video_ s) (lifecycle_ s) (last_verified_ s) (last_client_ s) (last_renewed_ s) (next_renew_ s) (request_at_ s) (has_verification_ s) (stopped_ s) (held_ s) (epoch_ s) v (control_generation_ s) (session_id_ s) (pending_id_ s) (pending_type_ s) (stop_reason_ s) (instances s).
Definition set_control_generation_ (v : Z) (s : Own) : Own :=
  mk_own (telemetry_ s) (video_ s) (lifecycle_ s) (last_verified_ s) (last_client_ s) (last_renewed_ s) (next_renew_ s) (request_at_ s) (has_verification_ s) (stopped_ s) (held_ s) (epoch_ s) (sequence_ s) v (session_id_ s) (pending_id_ s) (pending_type_ s) (stop_reason_ s) (instances s).
Definition set_session_id_ (v : string) (s : Own) : Own :=
  mk_own (telemetry_ s) (video_ s) (lifecycle_ s) (last_verified_ s) (last_client_ s) (last_renewed_ s) (next_renew_ s) (request_at_ s) (has_verification_ s) (stopped_ s) (held_ s) (epoch_ s) (sequence_ s) (control_generation_ s) v (pending_id_ s) (pending_type_ s) (stop_reason_ s) (instances s).
Definition set_pending_id_ (v : string) (s : Own) : Own :=
  mk_own (telemetry_ s) (video_ s) (lifecycle_ s) (last_verified_ s) (last_client_ s) (last_renewed_ s) (next_renew_ s) (request_at_ s) (has_verification_ s) (stopped_ s) (held_ s) (epoch_ s) (sequence_ s) (control_generation_ s) (session_id_ s) v (pending_type_ s) (stop_reason_ s) (instances s).
Definition set_pending_type_ (v : string) (s : Own) : Own :=
  mk_own (telemetry_ s) (video_ s) (lifecycle_ s) (last_verified_ s) (last_client_ s) (last_renewed_ s) (next_renew_ s) (request_at_ s) (has_verification_ s) (stopped_ s) (held_ s) (epoch_ s) (sequence_ s) (control_generation_ s) (session_id_ s) (pending_id_ s) v (stop_reason_ s) (instances s).
Definition set_stop_reason_ (v : string) (s : Own) : Own :=
  mk_own (telemetry_ s) (video_ s) (lifecycle_ s) (last_verified_ s) (last_client_ s) (last_renewed_ s) (next_renew_ s) (request_at_ s) (has_verification_ s) (stopped_ s) (held_ s) (epoch_ s) (sequence_ s) (control_generation_ s) (session_id_ s) (pending_id_ s) (pending_type_ s) v (instances s).
Definition set_instances (v : nat) (s : Own) : Own :=
  mk_own (telemetry_ s) (video_ s) (lifecycle_ s) (last_verified_ s) (last_client_ s) (last_renewed_ s) (next_renew_ s) (request_at_ s) (has_verification_ s) (stopped_ s) (held_ s) (epoch_ s) (sequence_ s) (control_generation_ s) (session_id_ s) (pending_id_ s) (pending_type_ s) (stop_reason_ s) v.

(** The members other threads use. *)

Record Shared := mk_shared {
  authorized_generation_ : Z;
  observations_ : Queue Observation;
  events_ : Queue Observation;
  videos_ : Queue EncodedVideo;
  responses_ : Queue string;
  response_overflow_ : bool;
  commands_ : list Command;
  accepting : gmap nat bool;
  received : gmap nat Z;
  inflight : list inflight_op }.

Definition set_authorized_generation_ (v : Z) (s : Shared) : Shared :=
  mk_shared v (observations_ s) (events_ s) (videos_ s) (responses_ s) (response_overflow_ s) (commands_ s) (accepting s) (received s) (inflight s).
Definition set_observations_ (v : Queue Observation) (s : Shared) : Shared :=
  mk_shared (authorized_generation_ s) v (events_ s) (videos_ s) (responses_ s) (response_overflow_ s) (commands_ s) (accepting s) (received s) (inflight s).
Definition set_events_ (v : Queue Observation) (s : Shared) : Shared :=
  mk_shared (authorized_generation_ s) (observations_ s) v (videos_ s) (responses_ s) (response_overflow_ s) (commands_ s) (accepting s) (received s) (inflight s).
Definition set_videos_ (v : Queue EncodedVideo) (s : Shared) : Shared :=
  mk_shared (authorized_generation_ s) (observations_ s) (events_ s) v (responses_ s) (response_overflow_ s) (commands_ s) (accepting s) (received s) (inflight s).
Definition set_responses_ (v : Queue string) (s : Shared) : Shared :=
  mk_shared (authorized_generation_ s) (observations_ s) (events_ s) (videos_ s) v (response_overflow_ s) (commands_ s) (accepting s) (received s) (inflight s).
Definition set_response_overflow_ (v : bool) (s : Shared) : Shared :=
  mk_shared (authorized_generation_ s) (observations_ s) (events_ s) (videos_ s) (responses_ s) v (commands_ s) (accepting s) (received s) (inflight s).
Definition set_commands_ (v : list Command) (s : Shared) : Shared :=
  mk_shared (authorized_generation_ s) (observations_ s) (events_ s) (videos_ s) (responses_ s) (response_overflow_ s) v (accepting s) (received s) (inflight s).
Definition set_accepting (v : gmap nat bool) (s : Shared) : Shared :=
  mk_shared (authorized_generation_ s) (observations_ s) (events_ s) (videos_ s) (responses_ s) (response_overflow_ s) (commands_ s) v (received s) (inflight s).
Definition set_received (v : gmap nat Z) (s : Shared) : Shared :=
  mk_shared (authorized_generation_ s) (observations_ s) (events_ s) (videos_ s) (responses_ s) (response_overflow_ s) (commands_ s) (accepting s) v (inflight s).
Definition set_inflight (v : list inflight_op) (s : Shared) : Shared :=
  mk_shared (authorized_generation_ s) (observations_ s) (events_ s) (videos_ s) (responses_ s) (response_overflow_ s) (commands_ s) (accepting s) (received s) v.

Record Session := mk_session { own : Own; shared : Shared }.
Definition set_own (o : Own) (s : Session) : Session := mk_session o (shared s).
Definition set_shared (h : Shared) (s : Session) : Session := mk_session (own s) h.

(** The constructor. *)
Definition new_session (now : Z) : Session :=
  mk_session
    (mk_own new_link new_link (mk_lifecycle false 4) now 0 0 0 0 false false false 0 0 0
            EmptyString EmptyString EmptyString EmptyString 0)
    (mk_shared 0 (new_queue 256 (256 * 1024)) (new_queue 64 (64 * 4096)) (new_queue 4 (8 * 1024 * 1024))
               (new_queue 64 (64 * 4096)) false [] ∅ ∅ []).

(** ** The outside *)

(** Steps of other threads: the operator's calls, the callbacks of transport
    [instance], the second half of the [i]-th call in flight, and the two
    threads that deliver to the operator, which may throw. *)
Inductive other :=
  | other_acquire (actor : string)
  | other_send (bytes : Bytes)
  | other_release
  | other_activity
  | other_data (instance : nat) (bytes : Bytes) (binary : bool)
  | other_video (instance : nat) (frame : EncodedVideo)
  | other_commit (i : nat)
  | other_deliver (threw : bool)
  | other_deliver_video (threw : bool).

Inductive sess_event :=
  | EOthers (steps : list other)
  | EAuthorized (generation : Z)
  | EFrameLoaded (bytes : Bytes) (generation : Z)
  | EDelivered (o : Observation)
  | EVideoDelivered (frame : EncodedVideo)
  | EFinished (instance : nat) (r : string + bool)
  | EState (instance : nat) (r : string + Connection)
  | EErrorText (instance : nat) (r : string + string)
  | ETransmit (instance : nat) (bytes : Bytes) (binary : bool) (r : string + bool)
  | EFactory (instance : nat) (r : string + unit)
  | EStart (instance : nat) (config : TransportConfig) (r : string + unit)
  | EStop (instance : nat).

Abbreviation sess_trace := (list sess_event).

(** The other threads and the transports ([class Transport]). Only the factory
    and [start] throw. *)
Class SessionEnv := {
  env_others : sess_trace → list other;
  t_finished : nat → sess_trace → bool;
  t_state : nat → sess_trace → Connection;
  t_error : nat → sess_trace → string;
  t_send : nat → Bytes → bool → sess_trace → bool;
  t_factory : sess_trace → string + unit;
  t_start : nat → TransportConfig → sess_trace → string + unit }.

Abbreviation P := (X sess_event Session).

Definition get_own : P Own := s ← xget; mret (own s).
Definition get_shared : P Shared := s ← xget; mret (shared s).
Definition mod_own (f : Own → Own) : P unit := xmodify (λ s, set_own (f (own s)) s).
Definition mod_shared (f : Shared → Shared) : P unit := xmodify (λ s, set_shared (f (shared s)) s).

(** ** Calls from other threads *)

Definition enqueue (c : Command) : P bool :=
  h ← get_shared;
  if Nat.eqb (length (commands_ h)) 64 then mret false else
  _ ← mod_shared (set_commands_ (commands_ h ++ [c]));
  mret true.

Definition acquire (actor : string) : P bool :=
  if string_empty actor || (256 <? string_size actor) then mret false else enqueue (cmd_acquire actor).

(** [send] up to the load of the grant; the frame is in flight then. *)
Definition send_load (bytes : Bytes) : P unit :=
  if negb (valid_mavlink2 bytes) then mret tt else
  h ← get_shared;
  let generation := authorized_generation_ h in
  if generation =? 0 then mret tt else
  _ ← xemit (EFrameLoaded bytes generation);
  mod_shared (set_inflight (inflight h ++ [in_send bytes generation])).

Definition release : P unit :=
  ok ← enqueue cmd_release;
  xwhen (negb ok) (mod_shared (set_response_overflow_ true)).

Definition client_activity : P unit :=
  ok ← enqueue cmd_activity;
  xwhen (negb ok) (mod_shared (set_response_overflow_ true)).

(** The data callback of a transport: the [accepting] test. *)
Definition data_check (instance : nat) (bytes : Bytes) (binary : bool) : P unit :=
  h ← get_shared;
  if default false (accepting h !! instance)
  then mod_shared (set_inflight (inflight h ++ [in_data instance bytes binary])) else mret tt.

Definition video_check (instance : nat) (frame : EncodedVideo) : P unit :=
  h ← get_shared;
  if default false (accepting h !! instance)
  then mod_shared (set_inflight (inflight h ++ [in_video frame])) else mret tt.

(** A received text. *)
Definition ascii_text (bytes : Bytes) : string :=
  foldr (λ b s, String (Ascii.ascii_of_N (Z.to_N b)) s) EmptyString bytes.

(** The rest of the data callback. *)
Definition data_commit (instance : nat) (bytes : Bytes) (binary : bool) (h : Shared) : Shared :=
  if binary then
    if negb (valid_mavlink2 bytes) then h else
    let h := set_received (<[instance := u64 (default 0 (received h !! instance) + 1)]> (received h)) h in
    set_observations_ (push (observations_ h) (obs_telemetry bytes) (Z.of_nat (length bytes) + 64)).2 h
  else if Z.of_nat (length bytes) <=? 4096 then
    let q := (push (responses_ h) (ascii_text bytes) (Z.of_nat (length bytes))).2 in
    let overflow := negb (dropped_ (responses_ h) =? dropped_ q) in
    set_response_overflow_ (overflow || response_overflow_ h) (set_responses_ q h)
  else set_response_overflow_ true h.

(** The second half of the [i]-th call in flight. *)
Definition commit (i : nat) : P unit :=
  h ← get_shared;
  match inflight h !! i with
  | None => mret tt
  | Some op =>
      _ ← mod_shared (set_inflight (delete i (inflight h)));
      match op with
      | in_send bytes generation => _ ← enqueue (cmd_send bytes generation); mret tt
      | in_data instance bytes binary => mod_shared (data_commit instance bytes binary)
      | in_video frame =>
          mod_shared (λ h, set_videos_ (push (videos_ h) frame (Z.of_nat (length (video_bytes frame)))).2 h)
      end
  end.

(** The observation thread: events first, then telemetry. *)
Definition deliver (threw : bool) : P unit :=
  h ← get_shared;
  match pop (events_ h) with
  | (Some o, q) =>
      _ ← mod_shared (set_events_ q);
      _ ← xemit (EDelivered o);
      xwhen threw (mod_shared (set_response_overflow_ true))
  | (None, _) =>
      match pop (observations_ h) with
      | (Some o, q) =>
          _ ← mod_shared (set_observations_ q);
          _ ← xemit (EDelivered o);
          xwhen threw (mod_shared (set_response_overflow_ true))
      | (None, _) => mret tt
      end
  end.

Definition deliver_video (threw : bool) : P unit :=
  h ← get_shared;
  match pop (videos_ h) with
  | (Some f, q) =>
      _ ← mod_shared (set_videos_ q);
      _ ← xemit (EVideoDelivered f);
      xwhen threw (mod_shared (set_response_overflow_ true))
  | (None, _) => mret tt
  end.

Definition other_step (o : other) : P unit :=
  match o with
  | other_acquire actor => _ ← acquire actor; mret tt
  | other_send bytes => send_load bytes
  | other_release => release
  | other_activity => client_activity
  | other_data i bytes binary => data_check i bytes binary
  | other_video i frame => video_check i frame
  | other_commit i => commit i
  | other_deliver threw => deliver threw
  | other_deliver_video threw => deliver_video threw
  end.

Section Session.
Context `{env : SessionEnv} `{json : AwsJson} (profile_ : Profile).

Definition others : P unit :=
  λ s t, for_each other_step (env_others t) s (EOthers (env_others t) :: t).

(** An access of the hosting thread to a shared member. *)
Definition load {A} (f : Shared → A) : P A := _ ← others; h ← get_shared; mret (f h).
Definition store (f : Shared → Shared) : P unit := _ ← others; mod_shared f.

Definition finished (i : nat) : P bool := xcall (EFinished i) (λ t, inr (t_finished i t)).
Definition state (i : nat) : P Connection := xcall (EState i) (λ t, inr (t_state i t)).
Definition error (i : nat) : P string := xcall (EErrorText i) (λ t, inr (t_error i t)).
Definition transmit (i : nat) (bytes : Bytes) (binary : bool) : P bool :=
  xcall (ETransmit i bytes binary) (λ t, inr (t_send i bytes binary t)).

(** ** The control lease *)

Definition verified (l : Lifecycle) (now : Z) : P unit :=
  o ← get_own;
  if stopped_ o then mret tt else
  mod_own (λ o, set_last_verified_ now (set_has_verification_ true (set_lifecycle_ l o))).

(** A push to [events_] by the hosting thread. *)
Definition push_event (e : Observation) (bytes : Z) (h : Shared) : Shared :=
  let q := (push (events_ h) e bytes).2 in
  let overflow := negb (dropped_ q =? dropped_ (events_ h)) in
  set_response_overflow_ (overflow || response_overflow_ h) (set_events_ q h).

Definition emit_control (held : bool) (reason : string) : P unit :=
  store (push_event (obs_control held reason) (string_size reason + 64)).

Definition string_bytes (s : string) : Bytes := Z.of_N ∘ Ascii.N_of_ascii <$> String.list_ascii_of_string s.

Definition text (s : string) : P bool :=
  o ← get_own;
  match transport (telemetry_ o) with
  | None => mret false
  | Some i =>
      st ← state i;
      if bool_decide (st = conn_connected) then transmit i (string_bytes s) false else mret false
  end.

(** A store to [authorized_generation_]. *)
Definition set_authorized (g : Z) : P unit :=
  _ ← store (set_authorized_generation_ g);
  xemit (EAuthorized g).

Definition lose (reason : string) (release_lease : bool) : P unit :=
  _ ← set_authorized 0;
  o ← get_own;
  let was_authorized := held_ o || negb (string_empty (pending_id_ o)) in
  _ ← xwhen (held_ o && release_lease)
        (let n := u64 (sequence_ o + 1) in
         _ ← mod_own (set_sequence_ n);
         _ ← text (c_str (WriteCompact [("type", JString "control.release_active");
                                        ("requestId", JString ("release-" +:+ pretty n));
                                        ("epoch", JInt64 (s64 (epoch_ o)))]));
         mret tt);
  _ ← mod_own (λ o, set_session_id_ EmptyString (set_pending_type_ EmptyString
                      (set_pending_id_ EmptyString (set_held_ false o))));
  xwhen was_authorized (emit_control false reason).

Definition request (type actor : string) (now : Z) : P unit :=
  _ ← mod_own (λ o, let n := u64 (sequence_ o + 1) in
                set_request_at_ now (set_pending_id_ ("agent-" +:+ pretty n)
                  (set_sequence_ n (set_pending_type_ type o))));
  o ← get_own;
  ok ← text (c_str (WriteCompact
         ([("type", JString type); ("requestId", JString (pending_id_ o))] ++
          if bool_decide (type = "control.activate")
          then [("actor", JString (c_str actor)); ("takeover", JBool false)]
          else [("epoch", JInt64 (s64 (epoch_ o)))])));
  xwhen (negb ok) (lose "control request send failed" true).

(** The report of a payload that does not parse. *)
Definition whitespace : string := String "032" (String "009" (String "013" (String "010" EmptyString))).

Fixpoint first_not_of (chars s : string) : option Ascii.ascii :=
  match s with
  | EmptyString => None
  | String c s => if string_mem c chars then first_not_of chars s else Some c
  end.
Fixpoint last_not_of (chars s : string) : option Ascii.ascii :=
  match s with
  | EmptyString => None
  | String c s =>
      match last_not_of chars s with
      | Some d => Some d
      | None => if string_mem c chars then None else Some c
      end
  end.

Definition object_framed (payload : string) : bool :=
  match first_not_of whitespace payload, last_not_of whitespace payload with
  | Some a, Some b => Ascii.eqb a "{" && Ascii.eqb b "}"
  | _, _ => false
  end.

Definition flag_text (b : bool) : string := if b then "1" else "0".

Definition invalid_json_reason (payload pending : string) : string :=
  "invalid control JSON (bytes=" +:+ pretty (string_size payload) +:+
  ", nul=" +:+ flag_text (string_mem "000" payload) +:+
  ", objectFramed=" +:+ flag_text (object_framed payload) +:+
  ", pending=" +:+ (if string_empty pending then "none" else pending) +:+ ")".

(** A string member of a view. *)
Definition has_string (v : JsonView) (name : string) : bool := ValueExists v name && IsString (GetObject v name).
Definition has_integer (v : JsonView) (name : string) : bool := ValueExists v name && IsIntegerType (GetObject v name).

(** The lease state of a response is complete and well typed. *)
Definition lease_state_ok (st : JsonView) : bool :=
  has_integer st "leaseTtlMs" && (GetInt64 st "leaseTtlMs" =? 5000)
  && has_integer st "epoch" && negb (GetInt64 st "epoch" <? 0) && ValueExists st "activeControl".

Definition active_valid (st active : JsonView) : bool :=
  IsObject active && has_string active "sessionId" && negb (string_empty (GetString active "sessionId"))
  && has_integer active "epoch" && (0 <=? GetInt64 active "epoch")
  && (GetInt64 active "epoch" =? GetInt64 st "epoch").

(** A response that matches the pending request. *)
Definition matching_response (type : string) (active : JsonView) (valid : bool) (now : Z) : P unit :=
  o ← get_own;
  if bool_decide (pending_type_ o = "control.activate") && bool_decide (type = "control.activated") && valid then
    let g := u64 (control_generation_ o + 1) in
    _ ← mod_own (λ o, set_control_generation_ g (set_next_renew_ (now + seconds 1) (set_last_renewed_ now
                        (set_held_ true (set_epoch_ (u64 (GetInt64 active "epoch"))
                          (set_session_id_ (c_str (GetString active "sessionId")) o))))));
    _ ← set_authorized g;
    _ ← mod_own (λ o, set_pending_type_ EmptyString (set_pending_id_ EmptyString o));
    emit_control true "acquired"
  else if bool_decide (pending_type_ o = "control.renew_active") && bool_decide (type = "control.renewed") && held_ o then
    mod_own (λ o, set_pending_type_ EmptyString (set_pending_id_ EmptyString
                    (set_next_renew_ (now + seconds 1) (set_last_renewed_ now o))))
  else lose "unexpected control response" true.

Definition response (payload : string) (now : Z) : P unit :=
  o ← get_own;
  match json_parse (c_str payload) with
  | None => lose (invalid_json_reason payload (pending_type_ o)) true
  | Some view =>
      if negb (IsObject view) || negb (has_string view "type") then mret tt else
      let type := GetString view "type" in
      let matching := has_string view "requestId"
                      && bool_decide (GetString view "requestId" = c_str (pending_id_ o)) in
      if bool_decide (type = "control.error") then
        xwhen matching (lose (if has_string view "code" then c_str (GetString view "code") else "control error") true)
      else if negb (ValueExists view "state") || negb (IsObject (GetObject view "state")) then mret tt else
      let st := GetObject view "state" in
      if negb (lease_state_ok st) then lose "invalid lease state" true else
      let active := GetObject st "activeControl" in
      let valid := active_valid st active in
      if held_ o && (negb valid || negb (bool_decide (GetString active "sessionId" = c_str (session_id_ o)))
                     || negb (u64 (GetInt64 active "epoch") =? epoch_ o))
      then lose "board control ownership changed" false
      else if negb matching then mret tt
      else matching_response type active valid now
  end.

(** ** Connections *)

Definition link_of (stream : Stream) (o : Own) : Link :=
  match stream with stream_telemetry => telemetry_ o | stream_video => video_ o end.
Definition mod_link (stream : Stream) (f : Link → Link) : P unit :=
  mod_own (λ o, match stream with
                | stream_telemetry => set_telemetry_ (f (telemetry_ o)) o
                | stream_video => set_video_ (f (video_ o)) o
                end).
Definition get_link (stream : Stream) : P Link := o ← get_own; mret (link_of stream o).
Definition config_of (stream : Stream) : TransportConfig :=
  match stream with stream_telemetry => profile_telemetry profile_ | stream_video => profile_video profile_ end.

(** Clears [link.accepting]; [link.transport->stop(); link.retiring = move(link.transport)]. *)
Definition retire (stream : Stream) (i : nat) : P unit :=
  _ ← store (λ h, set_accepting (<[i := false]> (accepting h)) h);
  _ ← xemit (EStop i);
  mod_link stream (λ l, set_retiring (Some i) (set_transport None l)).

(** The retry after a failure. *)
Definition back_off (stream : Stream) (now : Z) : P unit :=
  mod_link stream (λ l, set_backoff (Z.min 10 (backoff l * 2)) (set_retry_at (now + seconds (backoff l)) l)).

Definition reap_retired (stream : Stream) : P unit :=
  l ← get_link stream;
  match retiring l with
  | Some i => f ← finished i; xwhen f (mod_link stream (set_retiring None))
  | None => mret tt
  end.

Definition stop_unwanted (stream : Stream) (wanted : bool) : P unit :=
  l ← get_link stream;
  match transport l with
  | Some i =>
      if wanted then mret tt else
      _ ← xwhen (bool_decide (stream = stream_telemetry)) (lose "telemetry stopped" true);
      _ ← retire stream i;
      mod_link stream (set_backoff 1)
  | None => mret tt
  end.

(** Whether telemetry has been silent for 15 seconds. *)
Definition check_silence (stream : Stream) (st : Connection) (now : Z) : P bool :=
  if bool_decide (stream = stream_telemetry) && bool_decide (st = conn_connected) then
    l ← get_link stream;
    n ← load (λ h, match transport l with Some i => default 0 (received h !! i) | None => 0 end);
    _ ← xwhen (negb (bool_decide (previous l = conn_connected)) || negb (n =? received_count l))
          (mod_link stream (λ l, set_received_count n (set_last_received now l)));
    l ← get_link stream;
    mret (seconds 15 <=? now - last_received l)
  else mret false.

(** A connection that failed, went silent or did not come up in time. *)
Definition fail_connection (stream : Stream) (st : Connection) (silent : bool) (now : Z) : P Connection :=
  l ← get_link stream;
  match transport l with
  | Some i =>
      if bool_decide (st = conn_failed) || silent
         || (bool_decide (st = conn_connecting) && (seconds 20 <=? now - attempted l))
      then
        e ← (if silent : bool then mret "no MAVLink telemetry for 15 seconds"%string else error i);
        _ ← mod_link stream (set_link_error
              (if bool_decide (st = conn_connecting)
               then "peer negotiation exceeded 20 seconds" +:+ (if string_empty e then EmptyString else ": " +:+ e)
               else if string_empty e then "transport failed" else e));
        _ ← xwhen (bool_decide (stream = stream_telemetry)) (lose "telemetry connection lost" true);
        _ ← retire stream i;
        _ ← back_off stream now;
        mret conn_failed
      else mret st
  | None => mret st
  end.

Definition start_transport (stream : Stream) (i : nat) (now : Z) : P Connection :=
  try_catch (_ ← xcall (EStart i (config_of stream)) (t_start i (config_of stream)); state i)
    (λ e, _ ← mod_link stream (set_link_error e);
          _ ← retire stream i;
          _ ← back_off stream now;
          mret conn_failed).

Definition connect (stream : Stream) (st : Connection) (wanted : bool) (now : Z) : P Connection :=
  o ← get_own;
  let l := link_of stream o in
  if wanted && bool_decide (transport l = None) && bool_decide (retiring l = None) && (retry_at l <=? now) then
    let i := instances o in
    _ ← xcall (EFactory i) t_factory;
    _ ← mod_own (set_instances (S i));
    _ ← mod_link stream (λ l, set_last_received now (set_received_count 0 (set_attempted now (set_transport (Some i) l))));
    _ ← store (λ h, set_received (<[i := 0]> (received h)) (set_accepting (<[i := true]> (accepting h)) h));
    start_transport stream i now
  else mret st.

Definition update (stream : Stream) (wanted : bool) (now : Z) : P unit :=
  _ ← reap_retired stream;
  _ ← stop_unwanted stream wanted;
  l ← get_link stream;
  st ← match transport l with Some i => state i | None => mret conn_stopped end;
  silent ← check_silence stream st now;
  st ← fail_connection stream st silent now;
  st ← connect stream st wanted now;
  _ ← xwhen (bool_decide (st = conn_connected)) (mod_link stream (λ l, set_link_error EmptyString (set_backoff 1 l)));
  l ← get_link stream;
  xwhen (negb (bool_decide (st = previous l)))
    (_ ← store (push_event (obs_connection stream st (link_error l)) (string_size (link_error l) + 64));
     mod_link stream (set_previous st)).

(** ** The hosting thread *)

Definition stop_link (stream : Stream) : P unit :=
  l ← get_link stream;
  match transport l with Some i => retire stream i | None => mret tt end.

Definition shutdown (reason : string) : P unit :=
  o ← get_own;
  if stopped_ o then mret tt else
  _ ← mod_own (λ o, set_stop_reason_ reason (set_stopped_ true o));
  _ ← lose reason true;
  _ ← stop_link stream_telemetry;
  stop_link stream_video.

(** The destructor: [shutdown], then the retired transports, whose destructors
    join their callbacks, then the queues are closed. *)
Definition destroy_session : P unit :=
  _ ← shutdown "process shutdown";
  _ ← mod_link stream_telemetry (set_retiring None);
  _ ← mod_link stream_video (set_retiring None);
  _ ← store (λ h, set_observations_ (close (observations_ h)) h);
  _ ← store (λ h, set_events_ (close (events_ h)) h);
  store (λ h, set_videos_ (close (videos_ h)) h).

(** The loop that pops every response and handles it. The other
    threads may add responses all the time; [fuel] bounds the turns, and running
    out of it is the exception [no_fuel], so that what holds of every outcome
    holds of every prefix of the loop. *)
Definition no_fuel : string := "out of fuel".

Fixpoint process_responses (fuel : nat) (now : Z) : P unit :=
  match fuel with
  | O => throw no_fuel
  | S fuel =>
      q ← load responses_;
      match pop q with
      | (None, _) => mret tt
      | (Some reply, q) =>
          _ ← mod_shared (set_responses_ q);
          _ ← response reply now;
          process_responses fuel now
      end
  end.

Definition run_command (now : Z) (c : Command) : P unit :=
  o ← get_own;
  match c with
  | cmd_activity => mod_own (set_last_client_ now)
  | cmd_release => lose "operator released" true
  | cmd_acquire actor =>
      if held_ o then mret tt else
      ok ← match transport (telemetry_ o) with
           | Some i => if string_empty (pending_id_ o)
                       then st ← state i; mret (bool_decide (st = conn_connected)) else mret false
           | None => mret false
           end;
      if ok : bool then
        _ ← mod_own (set_last_client_ now);
        request "control.activate" actor now
      else emit_control false "control unavailable"
  | cmd_send bytes generation =>
      g ← load authorized_generation_;
      if negb (held_ o) || negb (generation =? g) then mret tt else
      ok ← match transport (telemetry_ o) with Some i => transmit i bytes true | None => mret false end;
      if ok : bool then mod_own (set_last_client_ now) else lose "MAVLink send failed" true
  end.

(** The part of [tick] after the connections: responses, expiry, commands,
    renewal. *)
Definition tick_control (fuel : nat) (now : Z) : P unit :=
  overflow ← load response_overflow_;
  _ ← mod_shared (set_response_overflow_ false);
  _ ← xwhen overflow (lose "operator exception or control response overload" true);
  _ ← process_responses fuel now;
  o ← get_own;
  _ ← xwhen (held_ o && ((seconds 5 <=? now - last_client_ o) || (seconds 5 <=? now - last_renewed_ o)))
        (lose "client inactivity or lease expiry" true);
  o ← get_own;
  _ ← xwhen (negb (string_empty (pending_id_ o)) && (seconds 3 <=? now - request_at_ o))
        (lose "control request timed out" true);
  commands ← load commands_;
  _ ← mod_shared (set_commands_ []);
  _ ← for_each (run_command now) commands;
  o ← get_own;
  xwhen (held_ o && string_empty (pending_id_ o) && (next_renew_ o <=? now))
    (request "control.renew_active" EmptyString now).

Definition tick (fuel : nat) (now : Z) : P bool :=
  o ← get_own;
  if stopped_ o then mret false else
  if seconds 15 <=? now - last_verified_ o then
    _ ← shutdown "lifecycle unverified for 15 seconds"; mret false
  else if has_verification_ o && (negb (born (lifecycle_ o)) || (redcon (lifecycle_ o) <? 1) || (2 <? redcon (lifecycle_ o))) then
    _ ← shutdown "device inactive or dead"; mret false
  else
    _ ← update stream_telemetry (has_verification_ o) now;
    _ ← update stream_video (has_verification_ o && (redcon (lifecycle_ o) =? 1)) now;
    _ ← tick_control fuel now;
    mret true.
End Session.
