(* ===== verification/AgentSessionSafety.v ===== *)
(** * Safety of the agent session

    Whatever the other threads, the transports and the board do, a MAVLink frame
    goes out only under the grant it was accepted under; the queues stay within
    their bounds; the lease is given up in time; a device that is not verified
    or not active stops the session. *)
From stdpp Require Import gmap pretty.
From S2P Require Import Prelude Cpp AwsJson AgentQueue AgentSession.

#[local] Open Scope Z_scope.

Create HintDb sess.

Ltac sess_auto := repeat (xkeeps_step || solve [auto with sess]).

(** From the invariant, what is left of the program keeps it. *)
Ltac sess_keeps :=
  match goal with |- xwp ?c (λ _, ?I) ?R _ _ =>
    let H := fresh in assert (H : xkeeps I R c) by sess_auto; by apply H end.

(** ** Grants in the trace *)

(** The value of [authorized_generation_]: its last store. *)
Fixpoint authority (t : sess_trace) : Z :=
  match t with
  | [] => 0
  | EAuthorized g :: _ => g
  | _ :: t => authority t
  end.

Definition is_grant_change (e : sess_event) : bool := match e with EAuthorized _ => true | _ => false end.
Definition no_grant_change (t : sess_trace) : Prop := Forall (λ e, is_grant_change e = false) t.

(** [t] holds the moment at which [bytes] were accepted under grant [g], and that
    grant was not stored again since. *)
Definition accepted_under (bytes : Bytes) (g : Z) (t : sess_trace) : Prop :=
  ∃ t2 t1, t = t2 ++ EFrameLoaded bytes g :: t1 ∧ g ≠ 0 ∧ valid_mavlink2 bytes = true ∧
           authority t1 = g ∧ no_grant_change t2.

(** A binary transmission carries a frame accepted under the grant that is still
    in force. *)
Definition transmit_allowed (e : sess_event) (t : sess_trace) : Prop :=
  match e with
  | ETransmit _ bytes true _ => ∃ g, accepted_under bytes g t ∧ authority t = g
  | _ => True
  end.

(** A frame on its way: if its grant is the current one, nothing happened to the
    grant since the frame was accepted. *)
Definition frame_ok (bytes : Bytes) (g cg : Z) (t : sess_trace) : Prop :=
  g ≠ 0 ∧ g ≤ cg ∧ (authority t = g → accepted_under bytes g t).

(** Events that leave grants and frames alone. *)
Definition plain (e : sess_event) : bool :=
  match e with
  | EAuthorized _ | EFrameLoaded _ _ | ETransmit _ _ true _ => false
  | _ => true
  end.

Lemma plain_authority e t : plain e = true → authority (e :: t) = authority t.
Proof. by destruct e. Qed.

Lemma authority_elem t : EAuthorized (authority t) ∈ t ∨ authority t = 0.
Proof.
  induction t as [|e t IH]; [by right|]. destruct e; cbn; try (destruct IH; [left; by right|by right]). left. by left.
Qed.

Lemma accepted_under_cons bytes g e t :
  is_grant_change e = false → accepted_under bytes g t → accepted_under bytes g (e :: t).
Proof. intros He (t2&t1&->&?&?&?&?). exists (e :: t2), t1. split_and!; try done. by constructor. Qed.

Lemma frame_ok_cons bytes g cg e t :
  is_grant_change e = false → frame_ok bytes g cg t → frame_ok bytes g cg (e :: t).
Proof.
  intros He (?&?&H). split_and!; [done..|]. intros Ha. apply accepted_under_cons; [done|]. apply H. by destruct e.
Qed.

(** A new grant is larger than every grant so far; the end of one is 0. *)
Lemma frame_ok_change bytes g cg cg' g' t :
  g' = 0 ∨ cg < g' → cg ≤ cg' → frame_ok bytes g cg t → frame_ok bytes g cg' (EAuthorized g' :: t).
Proof. intros Hg Hcg (?&?&_). split_and!; [done|lia|]. cbn. lia. Qed.

(** ** The invariant of the shared members *)

Section Invariant.
(** The commands the hosting thread has taken out and not run yet. *)
Context (taken : list Command).

Definition on_its_way (h : Shared) (bytes : Bytes) (g : Z) : Prop :=
  cmd_send bytes g ∈ commands_ h ∨ in_send bytes g ∈ inflight h ∨ cmd_send bytes g ∈ taken.

Definition queues_ok (h : Shared) : Prop :=
  queue_bounded 256 (256 * 1024) (observations_ h) ∧ queue_bounded 64 (64 * 4096) (events_ h) ∧
  queue_bounded 4 (8 * 1024 * 1024) (videos_ h) ∧ queue_bounded 64 (64 * 4096) (responses_ h).

Record core (cg : Z) (h : Shared) (t : sess_trace) : Prop := mk_core {
  core_authority : authorized_generation_ h = authority t;
  core_bound : ∀ g, EAuthorized g ∈ t → 0 ≤ g ≤ cg;
  core_frames : ∀ bytes g, on_its_way h bytes g → frame_ok bytes g cg t;
  core_commands : (length (commands_ h) ≤ 64)%nat;
  core_queues : queues_ok h;
  core_guarded : guarded transmit_allowed t }.

Lemma core_plain cg h t e : plain e = true → core cg h t → core cg h (e :: t).
Proof.
  intros He [H1 H2 H3 H4 H5 H6]. split; try done.
  - by rewrite plain_authority.
  - intros g [<-|?]%elem_of_cons; [done|auto].
  - intros bytes g Hw. apply frame_ok_cons; [by destruct e|auto].
  - split; [|done]. by destruct e as [| | | | | | | |i b []| | |].
Qed.

(** The shared members may change in everything but the grant and the frames on
    their way. *)
Lemma core_update cg h h' t :
  authorized_generation_ h' = authorized_generation_ h →
  (∀ bytes g, on_its_way h' bytes g → on_its_way h bytes g) → (length (commands_ h') ≤ 64)%nat →
  queues_ok h' →
  core cg h t → core cg h' t.
Proof. intros Ha Hw Hl Hq [H1 H2 H3 H4 H5 H6]. split; try done; [by rewrite Ha|auto]. Qed.

Lemma core_grow cg cg' h t : cg ≤ cg' → core cg h t → core cg' h t.
Proof.
  intros Hle [H1 H2 H3 H4 H5 H6]. split; try done.
  - intros g Hg. specialize (H2 g Hg). lia.
  - intros bytes g Hw. destruct (H3 bytes g Hw) as (?&?&?). split_and!; [done|lia|done].
Qed.

(** A store to the grant. *)
Lemma core_grant cg cg' g h t :
  g = 0 ∨ cg < g → 0 ≤ g ≤ cg' → cg ≤ cg' → core cg h t →
  core cg' (set_authorized_generation_ g h) (EAuthorized g :: t).
Proof.
  intros Hg Hr Hle [H1 H2 H3 H4 H5 H6]. split; try done.
  - intros g' [[= <-]|Hg']%elem_of_cons; [done|]. specialize (H2 g' Hg'). lia.
  - intros bytes g' Hw. eapply frame_ok_change; [done..|]. by apply H3.
Qed.

(** ** Other threads *)

(** Generations are 64-bit counters and every grant is an event: the invariant is
    claimed for traces shorter than [2^64]. *)
Definition capped (n : Z) (I : Prop) (t : sess_trace) : Prop := Z.of_nat (length t) + n < 2 ^ 64 → I.

Lemma capped_cons n (I I' : Prop) e t : 0 ≤ n → (I → I') → capped n I t → capped n I' (e :: t).
Proof. intros Hn Hi H Hl. apply Hi, H. cbn [length] in Hl. lia. Qed.

(** What the other threads leave alone: the hosting thread's members and the
    grant. *)
Definition env_inv (n : Z) (o : Own) (a cg : Z) (s : Session) (t : sess_trace) : Prop :=
  own s = o ∧ authorized_generation_ (shared s) = a ∧ capped n (core cg (shared s) t) t.

Section Others.
Context (n : Z) (o : Own) (a cg : Z) (R : string → Session → sess_trace → Prop).
Hypothesis Hn : 0 ≤ n.
Abbreviation K := (env_inv n o a cg).

Lemma env_emit e : plain e = true → xkeeps K R (xemit e).
Proof.
  intros He. apply xkeeps_emit. intros s t (?&?&H). split_and!; [done..|].
  eapply capped_cons; [done| |done]. by apply core_plain.
Qed.

Lemma core_enqueue h t c :
  length (commands_ h) ≠ 64%nat → (∀ bytes g, c = cmd_send bytes g → frame_ok bytes g cg t) →
  core cg h t → core cg (set_commands_ (commands_ h ++ [c]) h) t.
Proof.
  intros Hl Hc [H1 H2 H3 H4 H5 H6]. split; try done.
  - intros bytes g [Hw|Hw]; cbn in Hw; [|by apply H3; right].
    apply elem_of_app in Hw as [?|Hw]; [by apply H3; left|]. apply list_elem_of_singleton in Hw. by apply Hc.
  - cbn. rewrite length_app. cbn. lia.
Qed.

Lemma enqueue_keeps c s t :
  (∀ bytes g, c = cmd_send bytes g → capped n (frame_ok bytes g cg t) t) →
  K s t → xwp (enqueue c) (λ _, K) R s t.
Proof.
  intros Hc HK. unfold enqueue, get_shared. xwp_step. xwp_step. xwp_step. xwp_step.
  xwp_step; [by xwp_step|]. xwp_step. unfold mod_shared. xwp_step. xwp_step.
  destruct HK as (?&?&H). split_and!; [done..|]. intros Hl. apply Nat.eqb_neq in Hb.
  apply core_enqueue; [done| |by apply H]. intros bytes g E. by apply (Hc bytes g E).
Qed.

Lemma mod_shared_keeps f : (∀ h t, core cg h t → core cg (f h) t) →
  (∀ h, authorized_generation_ (f h) = authorized_generation_ h) → xkeeps K R (mod_shared f).
Proof.
  intros Hf Ha. apply xkeeps_modify. intros s t (?&?&H). split_and!; [done|cbn; by rewrite Ha|].
  intros Hl. by apply Hf, H.
Qed.

Lemma core_overflow b h t : core cg h t → core cg (set_response_overflow_ b h) t.
Proof. intros H. apply (core_update cg h); try done; apply H. Qed.

Lemma overflow_keeps : xkeeps K R (mod_shared (set_response_overflow_ true)).
Proof. apply mod_shared_keeps; [|done]. intros. by apply core_overflow. Qed.

Lemma release_like_keeps c : c = cmd_release ∨ c = cmd_activity →
  xkeeps K R (ok ← enqueue c; xwhen (negb ok) (mod_shared (set_response_overflow_ true))).
Proof.
  intros Hc s t HK. apply xwp_bind. eapply xwp_mono; [apply enqueue_keeps; [|done]| |done].
  - intros bytes g ->. by destruct Hc.
  - intros ok s' t' HK'. xwp_step; [|done]. by apply overflow_keeps.
Qed.

Lemma send_load_keeps bytes : xkeeps K R (send_load bytes).
Proof.
  intros s t HK. unfold send_load, get_shared. xwp_step; [by xwp_step|]. xwp_step. xwp_step. xwp_step. xwp_step.
  xwp_step; [by xwp_step|]. bool_simpl. xwp_step. xwp_step. unfold mod_shared. xwp_step.
  destruct HK as (?&Ha&H). split_and!; [done..|]. intros Hl. specialize (H ltac:(cbn in Hl; lia)) as [H1 H2 H3 H4 H5 H6].
  split; try done; cbn.
  - intros g [?|?]%elem_of_cons; [done|auto].
  - intros b g [Hw|[Hw|Hw]]; cbn in Hw; [apply frame_ok_cons; [done|]; apply H3; by left| |
      apply frame_ok_cons; [done|]; apply H3; by right; right].
    apply elem_of_app in Hw as [Hw|Hw]; [apply frame_ok_cons; [done|]; apply H3; by right; left|].
    apply list_elem_of_singleton in Hw as [= -> ->]. split_and!; [done| |].
    + apply H2. destruct (authority_elem t) as [?|E]; [by rewrite H1|by rewrite H1, E in *].
    + intros _. exists [], t. split_and!; try done. constructor.
Qed.

Lemma acquire_keeps actor : xkeeps K R (_ ← acquire actor; mret tt).
Proof.
  intros s t HK. xwp_step. unfold acquire. xwp_step; [by xwp_step; xwp_step|].
  eapply xwp_mono; [by apply enqueue_keeps|done|done].
Qed.

(** A call that is not a send joins the ones in flight. *)
Lemma core_inflight h t op : (∀ bytes g, op ≠ in_send bytes g) →
  core cg h t → core cg (set_inflight (inflight h ++ [op]) h) t.
Proof.
  intros Hop H. apply (core_update cg h); try done; try apply H. intros bytes g [?|[Hw|?]]; [by left| |by right; right].
  cbn in Hw. apply elem_of_app in Hw as [?|Hw]; [by right; left|]. apply list_elem_of_singleton in Hw. by destruct (Hop bytes g).
Qed.

Lemma check_keeps i op : (∀ bytes g, op ≠ in_send bytes g) →
  xkeeps K R (h ← get_shared; if default false (accepting h !! i)
              then mod_shared (set_inflight (inflight h ++ [op])) else mret tt).
Proof.
  intros Hop s t HK. unfold get_shared. xwp_step. xwp_step. xwp_step. xwp_step. xwp_step; [|by xwp_step].
  unfold mod_shared. xwp_step. destruct HK as (?&?&H). split_and!; [done..|]. intros Hl. by apply core_inflight, H.
Qed.

Lemma core_data i bytes binary h t : core cg h t → core cg (data_commit i bytes binary h) t.
Proof.
  intros H. pose proof (core_queues _ _ _ H) as (?&?&?&?). unfold data_commit. destruct binary; [case_match; [done|]|case_match].
  - apply (core_update cg h); try done; [apply H|]. split_and!; try done; cbn. apply push_bounded; [done|lia].
  - apply core_overflow. apply (core_update cg h); try done; [apply H|]. split_and!; try done; cbn. apply push_bounded; [done|lia].
  - by apply core_overflow.
Qed.

Lemma commit_keeps i : xkeeps K R (commit i).
Proof.
  intros s t HK. unfold commit, get_shared. xwp_step. xwp_step. xwp_step. xwp_step.
  destruct (inflight (shared s) !! i) as [op|] eqn:Ei; [|by xwp_step].
  set (s1 := set_shared (set_inflight (delete i (inflight (shared s))) (shared s)) s).
  assert (HK1 : K s1 t ∧ ∀ bytes g, op = in_send bytes g → capped n (frame_ok bytes g cg t) t).
  { destruct HK as (?&?&H). split; [split_and!; [done..|]|].
    - intros Hl. specialize (H Hl). apply (core_update _ (shared s)); try done; try apply H.
      intros bytes g [?|[Hw|?]]; [by left| |by right; right]. right. left. cbn in Hw. by eapply (list_subseteq_delete i).
    - intros bytes g -> Hl. apply (core_frames _ _ _ (H Hl)). right. left. by eapply list_elem_of_lookup_2. }
  destruct HK1 as [HK1 Hf]. xwp_step. unfold mod_shared. xwp_step. fold s1.
  destruct op as [bytes g|j bytes binary|frame].
  - xwp_step. eapply xwp_mono; [apply enqueue_keeps; [|done]|intros ? s2 t2 ?; by xwp_step|done].
    intros ? ? [= <- <-]. by apply Hf.
  - apply (mod_shared_keeps (data_commit j bytes binary)); [|by intros h; unfold data_commit; repeat case_match|done].
    intros h t'. apply core_data.
  - apply (mod_shared_keeps (λ h, set_videos_ (push (videos_ h) frame (Z.of_nat (length (video_bytes frame)))).2 h)); [|done|done]. intros h t' H.
    pose proof (core_queues _ _ _ H) as (?&?&?&?). apply (core_update _ h); try done; [apply H|]. split_and!; try done; cbn. apply push_bounded; [done|lia].
Qed.

(** The delivery threads. *)
Lemma delivered_keeps e threw : plain e = true →
  xkeeps K R (_ ← xemit e; xwhen threw (mod_shared (set_response_overflow_ true))).
Proof. intros He. xkeeps_step; [by apply env_emit|]. xkeeps_step. apply overflow_keeps. Qed.

Lemma pop_keeps {T} (get_q : Shared → Queue T) (set_q : Queue T → Shared → Shared) s t x q e threw :
  (∀ h, core cg h t → core cg (set_q (pop (get_q h)).2 h) t) →
  (∀ h q, authorized_generation_ (set_q q h) = authorized_generation_ h) →
  plain e = true → pop (get_q (shared s)) = (Some x, q) → K s t →
  xwp (_ ← mod_shared (set_q q); _ ← xemit e; xwhen threw (mod_shared (set_response_overflow_ true))) (λ _, K) R s t.
Proof.
  intros Hq Ha He Hp (?&?&H). xwp_step. unfold mod_shared at 1. xwp_step. apply (delivered_keeps e threw He).
  split_and!; [done|cbn; by rewrite Ha|]. intros Hl. cbn. specialize (Hq (shared s) (H Hl)).
  by rewrite Hp in Hq.
Qed.

Lemma deliver_keeps threw : xkeeps K R (deliver threw).
Proof.
  intros s t HK. unfold deliver, get_shared. xwp_step. xwp_step. xwp_step. xwp_step.
  destruct (pop (events_ (shared s))) as [[ob|] q] eqn:E1; [|destruct (pop (observations_ (shared s))) as [[ob|] q'] eqn:E2; [|by xwp_step]].
  - eapply (pop_keeps events_ set_events_); [|done..]. intros h H. pose proof (core_queues _ _ _ H) as (?&?&?&?).
    apply (core_update cg h); try done; [apply H|]. split_and!; try done; cbn. by apply pop_bounded.
  - eapply (pop_keeps observations_ set_observations_); [|done..]. intros h H. pose proof (core_queues _ _ _ H) as (?&?&?&?).
    apply (core_update cg h); try done; [apply H|]. split_and!; try done; cbn. by apply pop_bounded.
Qed.

Lemma deliver_video_keeps threw : xkeeps K R (deliver_video threw).
Proof.
  intros s t HK. unfold deliver_video, get_shared. xwp_step. xwp_step. xwp_step. xwp_step.
  destruct (pop (videos_ (shared s))) as [[f|] q] eqn:E1; [|by xwp_step].
  eapply (pop_keeps videos_ set_videos_); [|done..]. intros h H. pose proof (core_queues _ _ _ H) as (?&?&?&?).
  apply (core_update cg h); try done; [apply H|]. split_and!; try done; cbn. by apply pop_bounded.
Qed.

Lemma other_step_keeps x : xkeeps K R (other_step x).
Proof.
  destruct x; cbn [other_step].
  - apply acquire_keeps.
  - apply send_load_keeps.
  - apply release_like_keeps. by left.
  - apply release_like_keeps. by right.
  - by apply check_keeps.
  - by apply check_keeps.
  - apply commit_keeps.
  - apply deliver_keeps.
  - apply deliver_video_keeps.
Qed.

Lemma others_keeps `{env : SessionEnv} : xkeeps K R others.
Proof.
  intros s t (?&?&H). unfold others, xwp.
  apply (xkeeps_for_each K R other_step (env_others t) other_step_keeps).
  split_and!; [done..|]. eapply capped_cons; [done| |done]. by apply core_plain.
Qed.
End Others.

(** ** The hosting thread *)

(** The lease is held exactly while a grant is in force, and the grant is the
    latest one. *)
Definition own_ok (o : Own) (a : Z) : Prop :=
  (held_ o = true → a = control_generation_ o ∧ control_generation_ o ≠ 0) ∧ (held_ o = false → a = 0).

Definition counted (s : Session) (t : sess_trace) : Prop :=
  0 ≤ control_generation_ (own s) ≤ Z.of_nat (length t).

(** The invariant of the shared members together with a condition [φ] on the
    hosting thread's members and the grant. *)
Definition host_inv (φ : Own → Z → Prop) (s : Session) (t : sess_trace) : Prop :=
  counted s t ∧
  capped 0 (core (control_generation_ (own s)) (shared s) t ∧ φ (own s) (authorized_generation_ (shared s))) t.

Abbreviation lease_inv := (host_inv own_ok).

Lemma host_inv_weaken (φ φ' : Own → Z → Prop) s t :
  (∀ o a, φ o a → φ' o a) → host_inv φ s t → host_inv φ' s t.
Proof. intros Hφ [? H]. split; [done|]. intros Hl. destruct (H Hl). auto. Qed.

Section Host.
Context `{env : SessionEnv} `{json : AwsJson} (profile_ : Profile).
Context (R : string → Session → sess_trace → Prop).

Lemma counted_cons s t e : counted s t → counted s (e :: t).
Proof. unfold counted. cbn [length]. lia. Qed.

(** The other threads do not touch the members of the hosting thread. *)
Definition grows (o : Own) (t : sess_trace) (s' : Session) (t' : sess_trace) : Prop :=
  own s' = o ∧ (length t ≤ length t')%nat.

Lemma other_step_grows o t x : xkeeps (grows o t) (λ _ _ _, False) (other_step x).
Proof.
  assert (Hm : ∀ f, xkeeps (grows o t) (λ _ _ _, False) (mod_shared f)).
  { intros f. apply xkeeps_modify. by intros s' t' [??]. }
  assert (He : ∀ e, xkeeps (grows o t) (λ _ _ _, False) (xemit e)).
  { intros e. apply xkeeps_emit. intros s' t' [??]. split; [done|]. cbn. lia. }
  destruct x; cbn [other_step];
    unfold acquire, send_load, release, client_activity, data_check, video_check, commit, deliver, deliver_video, enqueue, get_shared;
    repeat (xkeeps_step || apply Hm || apply He).
Qed.

Lemma others_length s t : xwp others (λ _, grows (own s) t) (λ _ _ _, False) s t.
Proof.
  unfold others, xwp. apply (xkeeps_for_each (grows (own s) t) (λ _ _ _, False) other_step (env_others t)).
  - apply other_step_grows.
  - split; [done|]. cbn. lia.
Qed.

Lemma others_inv n cg s t :
  0 ≤ n → capped n (core cg (shared s) t) t →
  xwp others (λ _ s' t', own s' = own s ∧ authorized_generation_ (shared s') = authorized_generation_ (shared s) ∧
                (length t ≤ length t')%nat ∧ capped n (core cg (shared s') t') t') (λ _ _ _, False) s t.
Proof.
  intros Hn H. pose proof (others_length s t) as Hl.
  pose proof (others_keeps n (own s) (authorized_generation_ (shared s)) cg (λ _ _ _, False) Hn s t) as Hk.
  unfold xwp in *. destruct (others s t) as [[[|]?]?]; [done|]. destruct Hl as [Ho Hl].
  by destruct Hk as (?&?&?).
Qed.

Lemma counted_grows s t s' t' : own s' = own s → (length t ≤ length t')%nat → counted s t → counted s' t'.
Proof. unfold counted. intros -> ??. lia. Qed.

(** *** Steps that keep every condition on the lease *)

Section Lease.
Context (φ : Own → Z → Prop).
Abbreviation I := (host_inv φ).

Lemma others_host : xkeeps I R others.
Proof.
  intros s t [Hc H]. eapply xwp_mono; [apply (others_inv 0 (control_generation_ (own s))); [done|]| |done].
  - intros Hl. by apply H.
  - intros _ s' t' (Ho&Ha&Hlen&Hk). split; [by eapply counted_grows|]. intros Hl. rewrite Ho, Ha. split; [by apply Hk|].
    apply H. lia.
Qed.

(** An update of the shared members that keeps the grant and the frames. *)
Definition harmless (f : Shared → Shared) : Prop :=
  (∀ cg h t, core cg h t → core cg (f h) t) ∧ ∀ h, authorized_generation_ (f h) = authorized_generation_ h.

Lemma mod_shared_host f : harmless f → xkeeps I R (mod_shared f).
Proof.
  intros [Hf Ha]. apply xkeeps_modify. intros s t [Hc H]. split; [done|]. intros Hl. cbn. rewrite Ha.
  destruct (H Hl). split; [by apply Hf|done].
Qed.

Lemma store_host f : harmless f → xkeeps I R (store f).
Proof. intros Hf. unfold store. xkeeps_step; [apply others_host|]. by apply mod_shared_host. Qed.

Lemma load_host {A} (f : Shared → A) : xkeeps I R (load f).
Proof. unfold load, get_shared. xkeeps_step; [apply others_host|]. repeat xkeeps_step. Qed.

Lemma emit_host e : plain e = true → xkeeps I R (xemit e).
Proof.
  intros He. apply xkeeps_emit. intros s t [Hc H]. split; [by apply counted_cons|]. intros Hl.
  destruct H as [Hk ?]; [cbn in Hl; lia|]. split; [by apply core_plain|done].
Qed.

Lemma answer_host {A} (e : string + A → sess_event) f :
  (∀ r, plain (e r) = true) → xkeeps I R (xcall e (λ t, inr (f t))).
Proof. intros He. apply xkeeps_answer. intros a s t. by apply (emit_host (e (inr a)) (He _)). Qed.

Lemma mod_own_host f :
  (∀ o, control_generation_ (f o) = control_generation_ o) → (∀ o a, φ o a → φ (f o) a) → xkeeps I R (mod_own f).
Proof.
  intros Hg Hf. apply xkeeps_modify. intros s t [Hc H]. split; [unfold counted; cbn; by rewrite Hg|].
  intros Hl. cbn. rewrite Hg. destruct (H Hl). auto.
Qed.

Lemma get_own_host : xkeeps I R get_own.
Proof. unfold get_own. repeat xkeeps_step. Qed.

Lemma harmless_event e n : 0 ≤ n → harmless (push_event e n).
Proof.
  intros Hn. split; [|done]. intros cg h t H. unfold push_event. apply core_overflow.
  pose proof (core_queues _ _ _ H) as (?&?&?&?). apply (core_update cg h); try done; [apply H|]. split_and!; try done; cbn. by apply push_bounded.
Qed.

Lemma emit_control_host held reason : xkeeps I R (emit_control held reason).
Proof. apply store_host, harmless_event. unfold string_size. lia. Qed.

Lemma text_host s : xkeeps I R (text s).
Proof.
  unfold text. xkeeps_step; [apply get_own_host|]. xkeeps_step; [|xkeeps_step].
  xkeeps_step; [by apply answer_host|]. xkeeps_step; [by apply answer_host|xkeeps_step].
Qed.
End Lease.

(** *** The end of a lease *)

Lemma set_authorized_zero_wp s t :
  host_inv (λ _ _, True) s t → xwp (set_authorized 0) (λ _ s' t', host_inv (λ _ a, a = 0) s' t' ∧ own s' = own s) R s t.
Proof.
  intros [Hc H]. unfold set_authorized, store. xwp_step. xwp_step.
  eapply xwp_mono; [apply (others_inv 0 (control_generation_ (own s))); [done|]| |done].
  { intros Hl. by apply H. }
  intros _ s' t' (Ho&Ha&Hlen&Hk). assert (Hc' : counted s' t') by by eapply counted_grows. unfold mod_shared. xwp_step. xwp_step. split; [|done].
  split; [by apply counted_cons|]. intros Hl. cbn. split; [|done].
  destruct Hc'. rewrite Ho in *. apply (core_grant (control_generation_ (own s))); [by left|lia..|]. apply Hk. cbn in Hl. lia.
Qed.

(** Whatever is left of the invariant, [lose] restores it and leaves no lease. *)
Lemma lose_wp reason rel s t :
  host_inv (λ _ _, True) s t →
  xwp (lose reason rel) (λ _, host_inv (λ o a, a = 0 ∧ held_ o = false)) R s t.
Proof.
  intros H. unfold lose. xwp_step. eapply xwp_mono; [by apply set_authorized_zero_wp| |done].
  intros _ s1 t1 [H1 _]. xwp_step. eapply xwp_mono; [by apply get_own_host| |done]. intros o s2 t2 H2. xwp_step.
  eapply (xwp_mono _ (λ _, host_inv (λ _ a, a = 0)) _ R); [| |done].
  - revert s2 t2 H2. apply (xkeeps_when _ _ _ _). xkeeps_step; [by apply mod_own_host|].
    xkeeps_step; [apply text_host|]. xkeeps_step.
  - intros _ s3 t3 [Hc3 H3]. xwp_step. unfold mod_own. xwp_step.
    apply (xkeeps_when _ _ _ _); [apply emit_control_host|]. split; [done|]. intros Hl. cbn. destruct (H3 Hl). done.
Qed.

Lemma no_lease_inv s t : host_inv (λ o a, a = 0 ∧ held_ o = false) s t → lease_inv s t.
Proof. apply host_inv_weaken. intros o a [-> Hh]. split; [by rewrite Hh|done]. Qed.

Lemma lose_host reason rel : xkeeps lease_inv R (lose reason rel).
Proof.
  intros s t H. eapply xwp_mono; [apply lose_wp|intros [] s' t' H'; by apply no_lease_inv|done].
  eapply host_inv_weaken; [|exact H]. done.
Qed.

(** *** A new lease *)

(** The stores of an activation: the members first, then the grant. *)
Lemma grant_wp f s t :
  let g := u64 (control_generation_ (own s) + 1) in
  (∀ o, control_generation_ (f o) = g) → (∀ o, held_ (f o) = true) → lease_inv s t →
  xwp (_ ← mod_own f; set_authorized g) (λ _, lease_inv) R s t.
Proof.
  intros g Hg Hh [Hc H]. xwp_step. unfold mod_own. xwp_step. unfold set_authorized, store. xwp_step. xwp_step.
  unfold counted in Hc.
  assert (Hgr : Z.of_nat (length t) + 1 < 2 ^ 64 → g = control_generation_ (own s) + 1).
  { intros Hl. unfold g. apply wrapu_id. unfold in_u. lia. }
  assert (Hgb : 0 ≤ g ≤ control_generation_ (own s) + 1).
  { unfold g, wrapu. split; [apply Z.mod_pos_bound; lia|apply Z.mod_le; lia]. }
  eapply xwp_mono; [apply (others_inv 1 (control_generation_ (own s))); [done|]| |done].
  { intros Hl. apply H. lia. }
  intros _ s' t' (Ho&Ha&Hlen&Hk). unfold mod_shared. xwp_step. xwp_step. cbn in Ho.
  assert (Hcg : control_generation_ (own s') = g) by (rewrite Ho; apply Hg).
  split; [unfold counted; cbn [own set_shared]; rewrite Hcg; cbn [length]; lia|]. intros Hl. cbn [length] in Hl.
  specialize (Hgr ltac:(lia)). cbn [own shared set_shared]. rewrite Hcg. split.
  - apply (core_grant (control_generation_ (own s))); [by right; lia|lia..|]. apply Hk. lia.
  - rewrite Ho. unfold own_ok. rewrite Hg, Hh. split; [|done]. intros _. split; [done|]. lia.
Qed.

Lemma xwp_mbind_assoc {A B C} (c : P A) (f : A → P B) (k : B → P C) Q s t :
  xwp ((c ≫= f) ≫= k) Q R s t → xwp (c ≫= λ a, f a ≫= k) Q R s t.
Proof. unfold xwp, mbind, X_bind. by destruct (c s t) as [[[]?]?]. Qed.

(** *** The operations *)

Lemma mod_own_sess f :
  (∀ o, control_generation_ (f o) = control_generation_ o) → (∀ o, held_ (f o) = held_ o) → xkeeps lease_inv R (mod_own f).
Proof. intros Hg Hh. apply mod_own_host; [done|]. unfold own_ok. intros o a. by rewrite Hg, Hh. Qed.

Lemma mod_link_sess stream f : xkeeps lease_inv R (mod_link stream f).
Proof. apply mod_own_sess; by destruct stream. Qed.

Lemma harmless_accepting f : harmless (λ h, set_accepting (f h) h).
Proof. split; [|done]. intros cg h t H. apply (core_update cg h); try done; apply H. Qed.

Lemma harmless_received f g : harmless (λ h, set_received (f h) (set_accepting (g h) h)).
Proof. split; [|done]. intros cg h t H. apply (core_update cg h); try done; apply H. Qed.

Hint Resolve others_host store_host load_host emit_host answer_host get_own_host emit_control_host text_host
  lose_host mod_own_sess mod_link_sess harmless_accepting harmless_received harmless_event : sess.
Hint Extern 2 (0 ≤ string_size _ + 64) => unfold string_size; lia : sess.

Lemma request_host type actor now : xkeeps lease_inv R (request type actor now).
Proof. unfold request. sess_auto. Qed.

Lemma matching_response_host type active valid now : xkeeps lease_inv R (matching_response type active valid now).
Proof.
  intros s t H. unfold matching_response, get_own. xwp_step. xwp_step. xwp_step. xwp_step. xwp_step.
  - apply xwp_mbind_assoc, xwp_bind. eapply xwp_mono; [by apply grant_wp| |done]. intros [] s' t' H'.
    cbn beta. sess_keeps.
  - sess_keeps.
Qed.

Lemma response_host payload now : xkeeps lease_inv R (response payload now).
Proof.
  unfold response. xkeeps_step; [auto with sess|]. sess_auto. apply matching_response_host.
Qed.

Lemma retire_host stream i : xkeeps lease_inv R (retire stream i).
Proof. unfold retire. sess_auto. Qed.

Hint Resolve request_host response_host retire_host : sess.

Lemma get_link_host stream : xkeeps lease_inv R (get_link stream).
Proof. unfold get_link. sess_auto. Qed.
Hint Resolve get_link_host : sess.

Lemma stop_link_host stream : xkeeps lease_inv R (stop_link stream).
Proof. unfold stop_link. sess_auto. Qed.
Hint Resolve stop_link_host : sess.

Lemma shutdown_host reason : xkeeps lease_inv R (shutdown reason).
Proof. unfold shutdown. sess_auto. Qed.
Hint Resolve shutdown_host : sess.

Lemma harmless_closed f :
  (∀ h, authorized_generation_ (f h) = authorized_generation_ h ∧ commands_ (f h) = commands_ h ∧ inflight (f h) = inflight h) →
  (∀ h, queues_ok h → queues_ok (f h)) → harmless f.
Proof.
  intros Hf Hq. split; [|intros h; apply Hf]. intros cg h t H. destruct (Hf h) as (Ha&Hc&Hi).
  apply (core_update cg h); [done| | |by apply Hq, H|done].
  - intros bytes g. unfold on_its_way. by rewrite Hc, Hi.
  - rewrite Hc. apply H.
Qed.

Lemma destroy_session_host : xkeeps lease_inv R destroy_session.
Proof.
  unfold destroy_session.
  repeat (xkeeps_step || solve [auto with sess] || (apply store_host, harmless_closed; [done|intros h (?&?&?&?); by split_and!])).
Qed.
End Host.

End Invariant.

(** The invariant between the calls of the hosting thread. *)
Abbreviation sess_inv := (host_inv [] own_ok).

#[export] Hint Resolve others_host store_host load_host emit_host answer_host get_own_host emit_control_host text_host
  lose_host mod_own_sess mod_link_sess harmless_accepting harmless_received harmless_event
  request_host response_host retire_host get_link_host stop_link_host shutdown_host
  destroy_session_host : sess.
#[export] Hint Extern 2 (0 ≤ string_size _ + 64) => unfold string_size; lia : sess.

Section Tick.
Context `{env : SessionEnv} `{json : AwsJson} (profile_ : Profile).
(** An exception leaves the invariant too. *)
Context (taken : list Command).
Abbreviation I := (host_inv taken own_ok).
Abbreviation R := (λ _ : string, I).

Lemma call_host {A} (e : string + A → sess_event) f : (∀ r, plain (e r) = true) → xkeeps I R (xcall e f).
Proof.
  intros He. apply xkeeps_call.
  - intros a s t. by apply (emit_host taken R own_ok (e (inr a)) (He _)).
  - intros m s t _. by apply (emit_host taken R own_ok (e (inl m)) (He _)).
Qed.

Lemma finished_host i : xkeeps I R (finished i).
Proof. by apply answer_host. Qed.
Lemma state_host i : xkeeps I R (state i).
Proof. by apply answer_host. Qed.
Lemma error_host i : xkeeps I R (error i).
Proof. by apply answer_host. Qed.
Hint Resolve finished_host state_host error_host : sess.

Lemma back_off_host stream now : xkeeps I R (back_off stream now).
Proof. unfold back_off. sess_auto. Qed.
Hint Resolve call_host back_off_host : sess.

Lemma start_transport_host stream i now : xkeeps I R (start_transport profile_ stream i now).
Proof. apply xkeeps_try; [|intros e]; sess_auto. Qed.
Hint Resolve start_transport_host : sess.

Lemma update_host stream wanted now : xkeeps I R (update profile_ stream wanted now).
Proof.
  unfold update, reap_retired, stop_unwanted, check_silence, fail_connection, connect. sess_auto.
Qed.
Hint Resolve update_host : sess.

Lemma harmless_overflow b : harmless taken (set_response_overflow_ b).
Proof. split; [|done]. intros. by apply core_overflow. Qed.
Hint Resolve harmless_overflow mod_shared_host : sess.

Lemma load_wp {A} (f : Shared → A) s t : I s t → xwp (load f) (λ x s' t', x = f (shared s') ∧ I s' t') R s t.
Proof.
  intros H. unfold load, get_shared. xwp_step. eapply xwp_mono; [by apply (others_host taken R own_ok)| |done].
  intros [] s' t' H'. repeat xwp_step. by split.
Qed.

Lemma process_responses_host fuel now : xkeeps I R (process_responses fuel now).
Proof.
  induction fuel as [|fuel IH]; intros s t H; [done|]. cbn [process_responses]. xwp_step.
  eapply xwp_mono; [by apply load_wp| |done]. intros q s1 t1 [-> [Hc1 H1]].
  destruct (pop (responses_ (shared s1))) as [[reply|] q'] eqn:Ep; [|by xwp_step]. xwp_step. unfold mod_shared. xwp_step.
  assert (H2 : I (set_shared (set_responses_ q' (shared s1)) s1) t1).
  { split; [done|]. intros Hl. destruct (H1 Hl) as [Hk Ho]. split; [|done].
    pose proof (core_queues _ _ _ _ Hk) as (?&?&?&?). apply (core_update taken _ (shared s1)); try done; [apply Hk|].
    split_and!; try done. cbn. replace q' with (pop (responses_ (shared s1))).2 by by rewrite Ep. by apply pop_bounded. }
  sess_keeps.
Qed.

(** A frame that is run: the grant in force is the one it was accepted under. *)
Lemma transmit_host i bytes g s t :
  I s t → cmd_send bytes g ∈ taken → authorized_generation_ (shared s) = g →
  xwp (transmit i bytes true) (λ _, I) R s t.
Proof.
  intros [Hc H] Hin Ha. apply xwp_call; intros x; [intros _|done].
  split; [by apply counted_cons|]. intros Hl. destruct H as [[H1 H2 H3 H4 H5 H6] Ho]; [cbn in Hl; lia|]. split; [|done].
  assert (Hf : frame_ok bytes g (control_generation_ (own s)) t) by (apply H3; by right; right).
  split; try done.
  - intros g' [?|?]%elem_of_cons; [done|auto].
  - intros b g' Hw. apply frame_ok_cons; [done|]. by apply H3.
  - split; [|done]. exists g. rewrite <- H1, Ha. split; [|done]. apply Hf. by rewrite <- H1.
Qed.

Lemma run_command_host now c : c ∈ taken → xkeeps I R (run_command now c).
Proof.
  intros Hin s t H. unfold run_command, get_own. xwp_step. xwp_step. xwp_step. xwp_step.
  destruct c as [actor|bytes g| |]; [sess_keeps| |sess_keeps..].
  xwp_step. eapply xwp_mono; [by apply load_wp| |done]. intros g' s1 t1 [-> H1]. xwp_step; [by xwp_step|]. bool_simpl.
  xwp_step. eapply (xwp_mono _ (λ _, I) _ R); [| |done].
  - destruct (transport _) as [i|]; [by eapply transmit_host|by xwp_step].
  - intros ok s2 t2 Hk2. sess_keeps.
Qed.
End Tick.

Section Ticks.
Context `{env : SessionEnv} `{json : AwsJson} (profile_ : Profile).
Abbreviation R := (λ _ : string, sess_inv).

(** The commands taken out are the ones that were queued; after the loop there
    are none. *)
Lemma take_commands_inv s t :
  sess_inv s t → host_inv (commands_ (shared s)) own_ok (set_shared (set_commands_ [] (shared s)) s) t.
Proof.
  intros [Hc H]. split; [done|]. intros Hl. destruct (H Hl) as [[H1 H2 H3 H4 H5 H6] Ho]. split; [|done].
  split; try done; [|cbn; lia]. intros bytes g [Hw|[Hw|Hw]]; [by apply not_elem_of_nil in Hw|apply H3; by right; left|apply H3; by left].
Qed.

Lemma drop_taken_inv l s t : host_inv l own_ok s t → sess_inv s t.
Proof.
  intros [Hc H]. split; [done|]. intros Hl. destruct (H Hl) as [[H1 H2 H3 H4 H5 H6] Ho]. split; [|done].
  split; try done. intros bytes g [Hw|[Hw|Hw]]; [apply H3; by left|apply H3; by right; left|by apply not_elem_of_nil in Hw].
Qed.

Lemma run_commands_host {A} now (k : P A) :
  xkeeps sess_inv R k →
  xkeeps sess_inv R (commands ← load commands_; _ ← mod_shared (set_commands_ []);
                     _ ← for_each (run_command now) commands; k).
Proof.
  intros Hk s t H. xwp_step. eapply xwp_mono; [by apply load_wp| |done]. intros l s1 t1 [-> H1]. xwp_step. unfold mod_shared.
  xwp_step. xwp_step.
  eapply (xwp_mono _ (λ _, host_inv (commands_ (shared s1)) own_ok) _ (λ _, host_inv (commands_ (shared s1)) own_ok)).
  - apply xwp_for_each; [by apply take_commands_inv|]. intros c s2 t2 Hin H2. by apply run_command_host.
  - intros [] s2 t2 H2. by apply Hk, (drop_taken_inv _ _ _ H2).
  - intros e s2 t2. apply drop_taken_inv.
Qed.

Hint Resolve harmless_overflow mod_shared_host process_responses_host update_host : sess.

Lemma tick_control_host fuel now : xkeeps sess_inv R (tick_control fuel now).
Proof.
  unfold tick_control. do 8 (xkeeps_step; [sess_auto|]). apply run_commands_host. sess_auto.
Qed.

Lemma tick_host fuel now : xkeeps sess_inv R (tick profile_ fuel now).
Proof.
  unfold tick. xkeeps_step; [sess_auto|]. xkeeps_step; [sess_auto|]. xkeeps_step; [sess_auto|]. xkeeps_step; [sess_auto|].
  xkeeps_step; [sess_auto|]. xkeeps_step; [sess_auto|]. xkeeps_step; [apply tick_control_host|]. sess_auto.
Qed.
End Ticks.
