(* ===== verification/AgentSessionTheorems.v ===== *)
(** * Theorems about the agent session

    Reachable sessions: any order of [verified], [tick], [shutdown] and the
    destructor on the hosting thread, any steps of the other threads before, after and inside
    them. *)
From stdpp Require Import gmap pretty.
From S2P Require Import Prelude Cpp AwsJson AgentQueue AgentSession AgentSessionSafety.

#[local] Open Scope Z_scope.

Inductive sess_op :=
  | op_verified (l : Lifecycle) (now : Z)
  | op_tick (fuel : nat) (now : Z)
  | op_shutdown (reason : string)
  | op_destroy
  | op_other (o : other).

Section Reachable.
Context `{env : SessionEnv} `{json : AwsJson} (profile_ : Profile).

Definition run_op (op : sess_op) : P unit :=
  match op with
  | op_verified l now => verified l now
  | op_tick fuel now => _ ← tick profile_ fuel now; mret tt
  | op_shutdown reason => shutdown reason
  | op_destroy => destroy_session
  | op_other o => other_step o
  end.

(** The sessions that calls produce, the ones that threw included. *)
Inductive sess_reachable (now : Z) : Session → sess_trace → Prop :=
  | sess_start : sess_reachable now (new_session now) []
  | sess_step op s t : sess_reachable now s t →
      sess_reachable now (run_op op s t).1.2 (run_op op s t).2.

Lemma xkeeps_final {A} (I : Session → sess_trace → Prop) (c : P A) s t :
  xkeeps I (λ _, I) c → I s t → I (c s t).1.2 (c s t).2.
Proof. intros Hk HI. specialize (Hk s t HI). unfold xwp in Hk. by destruct (c s t) as [[[]?]?]. Qed.

Lemma new_session_inv now : sess_inv (new_session now) [].
Proof.
  split; [done|]. intros _. split; [|done]. split; cbn; try done.
  - intros g Hg. by apply not_elem_of_nil in Hg.
  - intros bytes g [Hw|[Hw|Hw]]; by apply not_elem_of_nil in Hw.
  - lia.
Qed.

Lemma other_step_sess o : xkeeps sess_inv (λ _, sess_inv) (other_step o).
Proof.
  intros s t [Hc H].
  pose proof (other_step_keeps [] 0 (own s) (authorized_generation_ (shared s)) (control_generation_ (own s))
                (λ _ _ _, False) ltac:(done) o s t) as Hk.
  pose proof (other_step_grows (own s) t o s t ltac:(by split)) as Hg.
  unfold xwp in *. destruct (other_step o s t) as [[[|]s']t']; [done|]. destruct Hg as [Ho Hlen].
  destruct Hk as (_&Ha&Hk); [split_and!; try done; intros Hl; by apply H|].
  split; [by eapply counted_grows|]. intros Hl. rewrite Ho, Ha. split; [by apply Hk|]. apply H. lia.
Qed.

Lemma sess_reachable_inv now s t : sess_reachable now s t → sess_inv s t.
Proof.
  induction 1 as [|op s t _ IH]; [apply new_session_inv|]. apply (xkeeps_final sess_inv); [|done].
  destruct op; cbn [run_op].
  - unfold verified. sess_auto.
  - xkeeps_step; [apply tick_host|xkeeps_step].
  - sess_auto.
  - auto with sess.
  - apply other_step_sess.
Qed.

(** C2: Whatever the other threads do between any two accesses of the hosting thread, a
    MAVLink frame of an operator reaches a transport only under the grant in force when
    it was accepted: since then nothing was stored to the grant, so that losing the
    lease, or getting it again, never lets an old frame out (sessions of fewer than 2^64
    events). *)
Theorem frame_sent_under_its_grant now s t t2 i bytes r t1 :
  sess_reachable now s t → Z.of_nat (length t) < 2 ^ 64 →
  t = t2 ++ ETransmit i bytes true r :: t1 →
  ∃ g, accepted_under bytes g t1 ∧ authority t1 = g.
Proof.
  intros [_ H]%sess_reachable_inv Hl ->. destruct H as [Hk _]; [lia|].
  exact (guarded_at transmit_allowed t2 _ t1 (core_guarded _ _ _ _ Hk)).
Qed.

(** In every reachable session, with any interleaving of the other threads, the
    lease is held exactly while a grant is in force, the grant is the last one stored,
    at most 64 commands wait and the four queues keep their bounds of items and bytes. *)
Theorem session_invariant now s t :
  sess_reachable now s t → Z.of_nat (length t) < 2 ^ 64 →
  (held_ (own s) = true ↔ authorized_generation_ (shared s) ≠ 0) ∧
  authorized_generation_ (shared s) = authority t ∧
  (length (commands_ (shared s)) ≤ 64)%nat ∧ queues_ok (shared s).
Proof.
  intros [_ H]%sess_reachable_inv Hl. destruct H as [Hk [H1 H2]]; [lia|].
  split; [|split; [apply Hk|split; apply Hk]].
  destruct (held_ (own s)); split; try done; intros; [by destruct (H1 eq_refl) as [-> ?]|by destruct (H2 eq_refl)].
Qed.
End Reachable.

(** ** The lease in time *)

(** The lease was renewed and the operator was heard within 5 seconds; a request
    is not older than 3. *)
Definition lease_fresh (now : Z) (o : Own) : Prop :=
  (held_ o = true → now - last_renewed_ o < seconds 5 ∧ now - last_client_ o < seconds 5) ∧
  (pending_id_ o ≠ EmptyString → now - request_at_ o < seconds 3).

(** The members after the lease was given up. *)
Definition clear_lease (o : Own) : Own :=
  set_session_id_ EmptyString (set_pending_type_ EmptyString (set_pending_id_ EmptyString (set_held_ false o))).

Lemma clear_lease_fresh now o : lease_fresh now (clear_lease o).
Proof. by split. Qed.

Section Own.
Context `{env : SessionEnv} `{json : AwsJson} (profile_ : Profile).
Context (Φ : Own → Prop) (R : string → Session → sess_trace → Prop).
Abbreviation I := (λ (s : Session) (_ : sess_trace), Φ (own s)).

(** Everything but an assignment to the hosting thread's members keeps a
    condition on them. *)
Lemma others_own : xkeeps I R others.
Proof.
  intros s t H. eapply xwp_mono; [apply others_length|intros [] s' t' [Ho _]; by rewrite Ho|done].
Qed.
Lemma mod_shared_own f : xkeeps I R (mod_shared f).
Proof. by apply xkeeps_modify. Qed.
Lemma store_own f : xkeeps I R (store f).
Proof. unfold store. xkeeps_step; [apply others_own|apply mod_shared_own]. Qed.
Lemma load_own {A} (f : Shared → A) : xkeeps I R (load f).
Proof. unfold load, get_shared. xkeeps_step; [apply others_own|]. repeat xkeeps_step. Qed.
Lemma emit_own e : xkeeps I R (xemit e).
Proof. by apply xkeeps_emit. Qed.
Lemma answer_own {A} (e : string + A → sess_event) f : xkeeps I R (xcall e (λ t, inr (f t))).
Proof. by apply xkeeps_answer. Qed.
Lemma mod_own_own f : (∀ o, Φ o → Φ (f o)) → xkeeps I R (mod_own f).
Proof. intros Hf. apply xkeeps_modify. intros s t. apply Hf. Qed.
Lemma get_own_own : xkeeps I R get_own.
Proof. unfold get_own. repeat xkeeps_step. Qed.
Lemma emit_control_own held reason : xkeeps I R (emit_control held reason).
Proof. apply store_own. Qed.
Lemma set_authorized_own g : xkeeps I R (set_authorized g).
Proof. unfold set_authorized. xkeeps_step; [apply store_own|apply emit_own]. Qed.
Lemma text_own s : xkeeps I R (text s).
Proof.
  unfold text. xkeeps_step; [apply get_own_own|]. xkeeps_step; [|xkeeps_step].
  xkeeps_step; [apply answer_own|]. xkeeps_step; [apply answer_own|xkeeps_step].
Qed.
Lemma lose_own reason rel : (∀ o n, Φ o → Φ (set_sequence_ n o)) → (∀ o, Φ o → Φ (clear_lease o)) →
  xkeeps I R (lose reason rel).
Proof.
  intros Hs Hc. unfold lose. xkeeps_step; [apply set_authorized_own|]. xkeeps_step; [apply get_own_own|].
  xkeeps_step.
  - xkeeps_step. xkeeps_step; [apply mod_own_own; auto|]. xkeeps_step; [apply text_own|xkeeps_step].
  - xkeeps_step; [by apply mod_own_own|]. xkeeps_step. apply emit_control_own.
Qed.
Lemma request_own type actor now :
  (∀ o n id, Φ o → Φ (set_request_at_ now (set_pending_id_ id (set_sequence_ n (set_pending_type_ type o))))) →
  (∀ o n, Φ o → Φ (set_sequence_ n o)) → (∀ o, Φ o → Φ (clear_lease o)) → xkeeps I R (request type actor now).
Proof.
  intros Hr Hs Hc. unfold request. xkeeps_step; [by apply mod_own_own; auto|]. xkeeps_step; [apply get_own_own|].
  xkeeps_step; [apply text_own|]. xkeeps_step. by apply lose_own.
Qed.
End Own.

#[export] Hint Resolve others_own mod_shared_own store_own load_own emit_own answer_own get_own_own emit_control_own text_own : sess.

Section Lease.
Context `{env : SessionEnv} `{json : AwsJson} (profile_ : Profile).
Abbreviation F := (λ now (s : Session) (_ : sess_trace), lease_fresh now (own s)).
Abbreviation R := (λ (_ : string) (_ : Session) (_ : sess_trace), True).

Lemma lose_fresh now reason rel : xkeeps (F now) R (lose reason rel).
Proof. apply (lose_own (lease_fresh now)); [done|]. intros. apply clear_lease_fresh. Qed.

(** From any state, [lose] leaves no lease and no request. *)
Lemma lose_clears now reason rel s t : xwp (lose reason rel) (λ _, F now) R s t.
Proof.
  unfold lose. apply xwp_after. intros _ s1 t1. apply xwp_after. intros o s2 t2. apply xwp_after. intros _ s3 t3.
  xwp_step. unfold mod_own. xwp_step.
  assert (Hk : xkeeps (F now) R (xwhen (held_ o || negb (string_empty (pending_id_ o))) (emit_control false reason))).
  { xkeeps_step. apply (emit_control_own (lease_fresh now)). }
  apply Hk, clear_lease_fresh.
Qed.

Lemma run_command_fresh now c : xkeeps (F now) R (run_command now c).
Proof.
  assert (Hc : xkeeps (F now) R (mod_own (set_last_client_ now))).
  { apply (mod_own_own (lease_fresh now)). intros o [H1 H2]. split; [|done]. cbn. intros Hh. destruct (H1 Hh).
    rewrite Z.sub_diag. by split. }
  unfold run_command. xkeeps_step; [apply (get_own_own (lease_fresh now))|]. destruct c.
  - xkeeps_step; [xkeeps_step|]. xkeeps_step.
    + repeat (xkeeps_step || apply (answer_own (lease_fresh now))).
    + xkeeps_step; [|apply (emit_control_own (lease_fresh now))]. xkeeps_step; [done|].
      apply (request_own (lease_fresh now)); [|done|intros; apply clear_lease_fresh].
      intros o n id [H1 H2]. split; [done|]. cbn. by rewrite Z.sub_diag.
  - xkeeps_step; [apply (load_own (lease_fresh now))|]. xkeeps_step; [xkeeps_step|]. xkeeps_step.
    + repeat (xkeeps_step || apply (answer_own (lease_fresh now))).
    + xkeeps_step; [done|apply lose_fresh].
  - apply lose_fresh.
  - done.
Qed.

Lemma tick_control_fresh fuel now s t : xwp (tick_control fuel now) (λ _, F now) R s t.
Proof.
  unfold tick_control. do 4 (apply xwp_after; intros ???). xwp_step. unfold get_own at 1. xwp_step. xwp_step. xwp_step.
  match goal with |- xwp _ _ _ ?s0 _ => set (s1 := s0) end. xwp_step.
  eapply (xwp_mono _ (λ _ s _, held_ (own s) = true → now - last_renewed_ (own s) < seconds 5 ∧
                                now - last_client_ (own s) < seconds 5) _ R); [| |done].
  { xwp_step; [eapply xwp_mono; [apply lose_clears|by intros [] ??[]|done]|]. intros Hh. rewrite Hh in Hb. cbn in Hb.
    apply orb_false_iff in Hb as [??]. bool_simpl. lia. }
  intros [] s2 t2 H2. xwp_step. unfold get_own at 1. xwp_step. xwp_step. xwp_step. xwp_step.
  eapply (xwp_mono _ (λ _, F now) _ R); [| |done].
  { xwp_step; [apply lose_clears|]. split; [done|]. intros Hp. apply andb_false_iff in Hb as [Hb|Hb]; bool_simpl; [|lia].
    by apply string_empty_spec in Hb. }
  intros [] s3 t3 H3. revert s3 t3 H3. match goal with |- ∀ s t, _ → xwp ?c _ _ s t => change (xkeeps (F now) R c) end.
  xkeeps_step; [apply (load_own (lease_fresh now))|]. xkeeps_step; [apply (mod_shared_own (lease_fresh now))|].
  xkeeps_step; [apply xkeeps_for_each, run_command_fresh|]. xkeeps_step; [apply (get_own_own (lease_fresh now))|]. xkeeps_step.
  apply (request_own (lease_fresh now)); [|done|intros; apply clear_lease_fresh].
  intros o n id [H1 H2']. split; [done|]. cbn. by rewrite Z.sub_diag.
Qed.

(** A tick that returns leaves a fresh lease: a lease that was not renewed, or
    whose operator was not heard, for 5 seconds is gone, and so is a request without an
    answer after 3 seconds. *)
Theorem tick_keeps_lease_fresh fuel now s t s' t' :
  tick profile_ fuel now s t = (inr true, s', t') → lease_fresh now (own s').
Proof.
  intros Ht. enough (xwp (tick profile_ fuel now) (λ b s _, b = true → lease_fresh now (own s)) R s t) as H.
  { unfold xwp in H. rewrite Ht in H. by apply H. }
  clear Ht s' t'. unfold tick. apply xwp_after. intros o s1 t1.
  xwp_step; [by xwp_step|]. xwp_step; [apply xwp_after; intros; by xwp_step|].
  xwp_step; [apply xwp_after; intros; by xwp_step|]. do 2 (apply xwp_after; intros ???). xwp_step.
  eapply (xwp_mono _ (λ _, F now) _ R); [apply tick_control_fresh|intros [] s4 t4 H4; by xwp_step|done].
Qed.
End Lease.

(** ** The end of a session *)

Section Stop.
Context `{env : SessionEnv} `{json : AwsJson} (profile_ : Profile).
Abbreviation N := (λ (_ : string) (_ : Session) (_ : sess_trace), False).

(** Both transports [a] and [b] as they were, in a session that is stopped. *)
Definition stopped_with (a b : option nat) (o : Own) : Prop :=
  stopped_ o = true ∧ transport (telemetry_ o) = a ∧ transport (video_ o) = b.

(** Their transports are retired. *)
Definition link_down (l : Link) (before : option nat) : Prop :=
  transport l = None ∧ ∀ i, before = Some i → retiring l = Some i.

Lemma lose_stopped a b reason rel : xkeeps (λ s _, stopped_with a b (own s)) N (lose reason rel).
Proof. by apply lose_own. Qed.

Lemma lose_no_lease reason rel s t : xwp (lose reason rel) (λ _ s' _, held_ (own s') = false) N s t.
Proof.
  assert (Hn : ∀ Φ : Own → Prop, xkeeps (λ s _, Φ (own s)) N (set_authorized 0)) by (intros; apply set_authorized_own).
  unfold lose. xwp_step. eapply xwp_mono; [by apply (Hn (λ _, True))| |done]. intros [] s1 t1 _. xwp_step. unfold get_own.
  xwp_step. xwp_step. xwp_step. xwp_step. eapply (xwp_mono _ (λ _ _ _, True) _ N); [| |done].
  - xwp_step; [|done]. xwp_step. unfold mod_own. xwp_step. xwp_step.
    eapply xwp_mono; [by apply (text_own (λ _, True) N)|intros; by xwp_step|done].
  - intros [] s2 t2 _. xwp_step. unfold mod_own. xwp_step.
    assert (Hk : ∀ b, xkeeps (λ s _, held_ (own s) = false) N (xwhen b (emit_control false reason))).
    { intros b. xkeeps_step. apply (emit_control_own (λ o, held_ o = false)). }
    by apply Hk.
Qed.

(** Stopping one connection leaves the rest of a condition alone. *)
Lemma stop_link_wp stream (Φ Ψ : Own → Prop) s t :
  Φ (own s) →
  (∀ o, Φ o → transport (link_of stream o) = None → Ψ o) →
  (∀ o i, Φ o → transport (link_of stream o) = Some i →
     Ψ (match stream with
        | stream_telemetry => set_telemetry_ (set_retiring (Some i) (set_transport None (telemetry_ o))) o
        | stream_video => set_video_ (set_retiring (Some i) (set_transport None (video_ o))) o
        end)) →
  xwp (stop_link stream) (λ _ s' _, Ψ (own s')) N s t.
Proof.
  intros H HN HS. unfold stop_link, get_link, get_own. xwp_step. xwp_step. xwp_step. xwp_step. xwp_step. xwp_step.
  destruct (transport (link_of stream (own s))) as [i|] eqn:Ei; [|xwp_step; by apply HN].
  unfold retire. xwp_step.
  eapply xwp_mono; [apply (store_own (λ o, Φ o ∧ transport (link_of stream o) = Some i) N); by split| |done].
  intros [] s1 t1 [H1 Ei1]. xwp_step. xwp_step. unfold mod_link, mod_own. xwp_step. by apply HS.
Qed.

Lemma shutdown_wp reason s t :
  stopped_ (own s) = false →
  xwp (shutdown reason)
    (λ _ s' _, stopped_ (own s') = true ∧ held_ (own s') = false ∧
               link_down (telemetry_ (own s')) (transport (telemetry_ (own s))) ∧
               link_down (video_ (own s')) (transport (video_ (own s)))) N s t.
Proof.
  intros Hs. unfold shutdown, get_own. xwp_step. xwp_step. xwp_step. xwp_step. rewrite Hs. xwp_step. unfold mod_own at 1. xwp_step.
  remember (transport (telemetry_ (own s))) as a eqn:Ea. remember (transport (video_ (own s))) as b eqn:Eb. xwp_step.
  eapply xwp_mono; [apply xwp_and; [by apply (lose_stopped a b)|apply lose_no_lease]| |by intros ??? [[] _]].
  intros [] s1 t1 [(H1&Ha&Hb) Hh]. xwp_step.
  eapply xwp_mono; [apply (stop_link_wp stream_telemetry
      (λ o, stopped_ o = true ∧ held_ o = false ∧ transport (telemetry_ o) = a ∧ transport (video_ o) = b)
      (λ o, stopped_ o = true ∧ held_ o = false ∧ link_down (telemetry_ o) a ∧ transport (video_ o) = b))| |done].
  - done.
  - intros o (?&?&E&?) E'. cbn in E'. unfold link_down. by rewrite <- E, E'.
  - intros o i (?&?&E&?) E'. cbn in *. unfold link_down. cbn. rewrite E' in E. subst. split_and!; try done. by intros ? <-.
  - intros [] s2 t2 (?&?&?&E2).
    apply (stop_link_wp stream_video
      (λ o, stopped_ o = true ∧ held_ o = false ∧ link_down (telemetry_ o) a ∧ transport (video_ o) = b)
      (λ o, stopped_ o = true ∧ held_ o = false ∧ link_down (telemetry_ o) a ∧ link_down (video_ o) b)).
    + done.
    + intros o (?&?&?&E) E'. cbn in E'. unfold link_down in *. by rewrite <- E, E'.
    + intros o i (?&?&[? ?]&E) E'. cbn in E, E'. rewrite E' in E. subst b. repeat split; try done. by intros ? [= <-].
Qed.

(** The device was not verified for 15 seconds, or is known to be dead or out of
    REDCON 1 and 2. *)
Definition must_stop (o : Own) (now : Z) : Prop :=
  seconds 15 ≤ now - last_verified_ o ∨
  has_verification_ o = true ∧ (born (lifecycle_ o) = false ∨ redcon (lifecycle_ o) < 1 ∨ 2 < redcon (lifecycle_ o)).

(** A tick of a session that was not verified for 15 seconds, or whose device is
    known to be dead or out of REDCON 1 and 2, fails closed: the session is stopped
    without lease and grant, both transports are told to stop, and no later tick does
    anything. *)
Theorem unverified_session_stops now0 fuel now s t :
  sess_reachable profile_ now0 s t → stopped_ (own s) = false → must_stop (own s) now →
  ∃ s' t', tick profile_ fuel now s t = (inr false, s', t') ∧
    stopped_ (own s') = true ∧ held_ (own s') = false ∧
    (Z.of_nat (length t') < 2 ^ 64 → authorized_generation_ (shared s') = 0) ∧
    link_down (telemetry_ (own s')) (transport (telemetry_ (own s))) ∧
    link_down (video_ (own s')) (transport (video_ (own s))) ∧
    ∀ fuel' now', tick profile_ fuel' now' s' t' = (inr false, s', t').
Proof.
  intros Hr Hs Hm.
  assert (Ht : xwp (tick profile_ fuel now) (λ b s' _, b = false ∧ stopped_ (own s') = true ∧ held_ (own s') = false ∧
               link_down (telemetry_ (own s')) (transport (telemetry_ (own s))) ∧
               link_down (video_ (own s')) (transport (video_ (own s)))) N s t).
  { unfold tick, get_own. xwp_step. xwp_step. xwp_step. xwp_step. rewrite Hs.
    assert (Hsh : ∀ reason, xwp (_ ← shutdown reason; mret false) (λ b s' _, b = false ∧ stopped_ (own s') = true ∧ held_ (own s') = false ∧
               link_down (telemetry_ (own s')) (transport (telemetry_ (own s))) ∧
               link_down (video_ (own s')) (transport (video_ (own s)))) N s t).
    { intros reason. xwp_step. eapply xwp_mono; [by apply shutdown_wp|intros; by xwp_step|done]. }
    xwp_step; [done|]. xwp_step; [done|]. exfalso. bool_simpl. destruct Hm as [?|[Hv Hm]]; [lia|].
    rewrite Hv in Hb0. cbn in Hb0. apply orb_false_iff in Hb0 as [[??]%orb_false_iff ?]. bool_simpl.
    destruct Hm as [Hm|Hm]; [congruence|lia]. }
  pose proof (sess_reachable_inv profile_ now0 _ _ (sess_step profile_ now0 (op_tick fuel now) s t Hr)) as Hi.
  unfold xwp in Ht. cbn [run_op] in Hi. unfold mbind, X_bind in Hi.
  destruct (tick profile_ fuel now s t) as [[[|b] s'] t'] eqn:Et; [done|]. destruct Ht as (->&H1&H2&H3&H4).
  exists s', t'. split_and!; try done.
  - intros Hl. cbn in Hi. destruct Hi as [_ Hi]. destruct Hi as [_ [_ Ho]]; [lia|]. by apply Ho.
  - intros fuel' now'. unfold tick, get_own, mbind, X_bind, xget, mret, X_ret. by rewrite H1.
Qed.
End Stop.

(** ** Termination of a tick *)

Section Idle.
Context `{env : SessionEnv} `{json : AwsJson} (profile_ : Profile).
Hypothesis idle : ∀ t, env_others t = [].
Hypothesis factory_works : ∀ t m, t_factory t ≠ inl m.
Context (q : Queue string).
Abbreviation I := (λ (s : Session) (_ : sess_trace), responses_ (shared s) = q).
Abbreviation N := (λ (_ : string) (_ : Session) (_ : sess_trace), False).

Lemma others_idle : xkeeps I N others.
Proof. intros s t H. unfold others, xwp. by rewrite idle. Qed.
Lemma mod_own_idle f : xkeeps I N (mod_own f).
Proof. by apply xkeeps_modify. Qed.
Lemma mod_shared_idle f : (∀ h, responses_ (f h) = responses_ h) → xkeeps I N (mod_shared f).
Proof. intros Hf. apply xkeeps_modify. intros s t <-. apply Hf. Qed.
Lemma store_idle f : (∀ h, responses_ (f h) = responses_ h) → xkeeps I N (store f).
Proof. intros Hf. unfold store. xkeeps_step; [apply others_idle|by apply mod_shared_idle]. Qed.
Lemma load_idle {A} (f : Shared → A) : xkeeps I N (load f).
Proof. unfold load, get_shared. xkeeps_step; [apply others_idle|]. repeat xkeeps_step. Qed.
Lemma emit_idle e : xkeeps I N (xemit e).
Proof. by apply xkeeps_emit. Qed.
Lemma answer_idle {A} (e : string + A → sess_event) f : xkeeps I N (xcall e (λ t, inr (f t))).
Proof. by apply xkeeps_answer. Qed.
Lemma get_own_idle : xkeeps I N get_own.
Proof. unfold get_own. repeat xkeeps_step. Qed.

Ltac idle_auto :=
  repeat (xkeeps_step || apply get_own_idle || apply mod_own_idle || (apply store_idle; done) || apply load_idle
          || apply emit_idle || apply answer_idle || (apply mod_shared_idle; done)).

Lemma text_idle s : xkeeps I N (text s).
Proof. unfold text, state, transmit. idle_auto. Qed.
Lemma lose_idle reason rel : xkeeps I N (lose reason rel).
Proof. unfold lose, set_authorized, emit_control. idle_auto; apply text_idle. Qed.
Lemma request_idle type actor now : xkeeps I N (request type actor now).
Proof. unfold request. idle_auto; first [apply text_idle|apply lose_idle]. Qed.
Lemma response_idle payload now : xkeeps I N (response payload now).
Proof. unfold response, matching_response, set_authorized, emit_control. idle_auto; apply lose_idle. Qed.
Lemma mod_link_idle stream f : xkeeps I N (mod_link stream f).
Proof. apply mod_own_idle. Qed.
Lemma retire_idle stream i : xkeeps I N (retire stream i).
Proof. unfold retire. idle_auto; apply mod_link_idle. Qed.
Lemma shutdown_idle reason : xkeeps I N (shutdown reason).
Proof. unfold shutdown, stop_link, get_link. idle_auto; (apply lose_idle || apply retire_idle). Qed.

Lemma start_transport_idle stream i now : xkeeps I N (start_transport profile_ stream i now).
Proof.
  apply xkeeps_try.
  - xkeeps_step; [by apply xkeeps_call|]. apply xkeeps_answer. done.
  - intros e. unfold back_off. idle_auto; (apply mod_link_idle || apply retire_idle).
Qed.

Lemma factory_idle i : xkeeps I N (xcall (EFactory i) t_factory).
Proof. apply xkeeps_call; [done|]. intros m s t Hm. by destruct (factory_works t m). Qed.

Lemma update_idle stream wanted now : xkeeps I N (update profile_ stream wanted now).
Proof.
  unfold update, reap_retired, stop_unwanted, check_silence, fail_connection, connect, back_off, finished, state, error, get_link.
  idle_auto; first [apply lose_idle|apply retire_idle|apply mod_link_idle|apply start_transport_idle|apply factory_idle].
Qed.

Lemma run_command_idle now c : xkeeps I N (run_command now c).
Proof.
  unfold run_command, state, transmit, emit_control. destruct c; idle_auto; first [apply lose_idle|apply request_idle].
Qed.
End Idle.

Section Returns.
Context `{env : SessionEnv} `{json : AwsJson} (profile_ : Profile).
Abbreviation N := (λ (_ : string) (_ : Session) (_ : sess_trace), False).

(** The responses in the queue are handled one after another. *)
Lemma process_responses_returns fuel now s t :
  (∀ t, env_others t = []) → (length (items_ (responses_ (shared s))) < fuel)%nat →
  xwp (process_responses fuel now) (λ _ _ _, True) N s t.
Proof.
  intros idle. revert s t. induction fuel as [|fuel IH]; intros s t Hl; [lia|]. cbn [process_responses].
  unfold load, get_shared. xwp_step. xwp_step. eapply xwp_mono; [by apply (others_idle idle (responses_ (shared s)))| |done].
  intros [] s1 t1 H1. do 5 xwp_step. rewrite H1. unfold pop.
  destruct (items_ (responses_ (shared s))) as [|[reply n] rest] eqn:Ei; [by xwp_step|]. cbn in Hl.
  xwp_step. unfold mod_shared. xwp_step. xwp_step.
  eapply xwp_mono; [by apply (response_idle idle)| |done]. intros [] s2 t2 H2. apply IH. rewrite H2. cbn. lia.
Qed.

(** When the other threads are idle and transports can be made, a tick returns:
    a fuel above the number of queued responses is enough, and 65 always is. *)
Theorem tick_returns fuel now s t :
  (∀ t, env_others t = []) → (∀ t m, t_factory t ≠ inl m) → (length (items_ (responses_ (shared s))) < fuel)%nat →
  ∃ b s' t', tick profile_ fuel now s t = (inr b, s', t').
Proof.
  intros idle fac Hl. enough (xwp (tick profile_ fuel now) (λ _ _ _, True) N s t) as H.
  { unfold xwp in H. destruct (tick profile_ fuel now s t) as [[[|b]s']t']; [done|]. by exists b, s', t'. }
  set (q := responses_ (shared s)) in *. unfold tick, get_own. repeat xwp_step; [done| | |].
  - eapply xwp_mono; [by apply (shutdown_idle idle q)|intros; by xwp_step|done].
  - eapply xwp_mono; [by apply (shutdown_idle idle q)|intros; by xwp_step|done].
  - eapply xwp_mono; [by apply (update_idle profile_ idle fac q)| |done]. intros [] s1 t1 H1.
    xwp_step. eapply xwp_mono; [by apply (update_idle profile_ idle fac q)| |done]. intros [] s2 t2 H2. xwp_step.
    unfold tick_control. xwp_step. eapply xwp_mono; [by apply (load_idle idle q)| |done]. intros ov s3 t3 H3.
    xwp_step. unfold mod_shared at 1. xwp_step. xwp_step.
    eapply (xwp_mono _ (λ _ s _, responses_ (shared s) = q) _ N); [xwp_step; [by apply lose_idle|done]| |done].
    intros [] s4 t4 H4. xwp_step. eapply xwp_mono; [by apply process_responses_returns; [|rewrite H4]| |done].
    intros [] s5 t5 _. remember (responses_ (shared s5)) as q5 eqn:H5. symmetry in H5. revert s5 t5 H5.
    match goal with |- ∀ s t, _ → xwp ?c ?Q _ s t => enough (Hk : xkeeps (λ s _, responses_ (shared s) = q5) N c) end.
    { intros s5 t5 H5. eapply xwp_mono; [by apply Hk|intros; by xwp_step|done]. }
    unfold get_own.
    repeat (xkeeps_step || apply (lose_idle idle) || apply (load_idle idle) || (by apply mod_shared_idle)
            || apply (run_command_idle idle) || apply (request_idle idle)).
Qed.
End Returns.

(** ** A concrete session *)

Definition demo_json : AwsJson :=
  table_json
    (λ text, if bool_decide (text = "grant"%string) then
       Some (JObject [("type", JString "control.activated"); ("requestId", JString "agent-1");
                      ("state", JObject [("leaseTtlMs", JInt64 5000); ("epoch", JInt64 7);
                         ("activeControl", JObject [("sessionId", JString "s1"); ("epoch", JInt64 7)])])])
     else None)%string
    (λ _, "{}"%string).

(** Quiet other threads between the calls; transports that connect and send. *)
Definition demo_env : SessionEnv := {|
  env_others _ := [];
  t_finished _ _ := true;
  t_state _ _ := conn_connected;
  t_error _ _ := EmptyString;
  t_send _ _ _ _ := true;
  t_factory _ := inr tt;
  t_start _ _ _ := inr tt |}.

Definition demo_profile : Profile :=
  let c := mk_transport_config "c" "eu" "l" "ca" media_data role_viewer in mk_profile c c.

(** A heartbeat. *)
Definition demo_frame : Bytes := [0xfd; 0; 0; 0; 0; 1; 1; 0; 0; 0; 7; 7].

(** Connect, acquire, be granted, send a frame. *)
Definition demo_ops : list sess_op :=
  [ op_verified (mk_lifecycle true 2) 0; op_tick 65 0; op_other (other_acquire "op"); op_tick 65 (seconds 1);
    op_other (other_data 0 (string_bytes "grant") false); op_other (other_commit 0); op_tick 65 (seconds 2);
    op_other (other_send demo_frame); op_other (other_commit 0); op_tick 65 (seconds 3) ].

Definition run_ops `{env : SessionEnv} `{json : AwsJson} (profile_ : Profile) (ops : list sess_op) (now : Z) : Session * sess_trace :=
  foldl (λ st op, ((run_op profile_ op st.1 st.2).1.2, (run_op profile_ op st.1 st.2).2)) (new_session now, []) ops.

Lemma run_ops_reachable `{env : SessionEnv} `{json : AwsJson} profile_ ops now :
  sess_reachable profile_ now (run_ops profile_ ops now).1 (run_ops profile_ ops now).2.
Proof.
  unfold run_ops. assert (H : ∀ st : Session * sess_trace, sess_reachable profile_ now st.1 st.2 →
    let st' := foldl (λ st op, ((run_op profile_ op st.1 st.2).1.2, (run_op profile_ op st.1 st.2).2)) st ops in
    sess_reachable profile_ now st'.1 st'.2).
  { induction ops as [|op ops IH]; intros st Hst; [done|]. cbn. apply IH. by constructor. }
  apply (H (_, _)). constructor.
Qed.

Definition demo (n : nat) : Session * sess_trace := run_ops (env:=demo_env) (json:=demo_json) demo_profile (take n demo_ops) 0.

Lemma frame_sent_under_its_grant_witness :
  ∃ t2 r t1, (demo 10).2 = t2 ++ ETransmit 0 demo_frame true r :: t1 ∧
             ∃ g, accepted_under demo_frame g t1 ∧ authority t1 = g.
Proof.
  exists (take 2 (demo 10).2), (inr true), (drop 3 (demo 10).2). split; [vm_compute; reflexivity|].
  eapply (frame_sent_under_its_grant (env:=demo_env) (json:=demo_json) demo_profile 0 (demo 10).1 (demo 10).2
            (take 2 (demo 10).2) 0 demo_frame (inr true)).
  - apply (run_ops_reachable (env:=demo_env) (json:=demo_json) demo_profile (take 10 demo_ops) 0).
  - vm_compute. reflexivity.
  - vm_compute. reflexivity.
Defined.

Lemma session_invariant_witness :
  held_ (own (demo 10).1) = true ∧ authorized_generation_ (shared (demo 10).1) ≠ 0.
Proof.
  assert (Hh : held_ (own (demo 10).1) = true) by (vm_compute; reflexivity). split; [exact Hh|].
  apply (proj1 (session_invariant (env:=demo_env) (json:=demo_json) demo_profile 0 (demo 10).1 (demo 10).2
           (run_ops_reachable (env:=demo_env) (json:=demo_json) demo_profile (take 10 demo_ops) 0) ltac:(vm_compute; reflexivity))).
  exact Hh.
Defined.

Lemma tick_keeps_lease_fresh_witness : lease_fresh (seconds 3) (own (demo 10).1).
Proof.
  apply (tick_keeps_lease_fresh (env:=demo_env) (json:=demo_json) demo_profile 65 (seconds 3)
           (demo 9).1 (demo 9).2 (demo 10).1 (demo 10).2). vm_compute. reflexivity.
Defined.

Lemma unverified_session_stops_witness :
  ∃ s' t', tick (env:=demo_env) (json:=demo_json) demo_profile 65 (seconds 20) (demo 10).1 (demo 10).2 = (inr false, s', t') ∧
           stopped_ (own s') = true.
Proof.
  destruct (unverified_session_stops (env:=demo_env) (json:=demo_json) demo_profile 0 65 (seconds 20) (demo 10).1 (demo 10).2)
    as (s'&t'&Ht&Hs&_).
  - apply (run_ops_reachable (env:=demo_env) (json:=demo_json) demo_profile (take 10 demo_ops) 0).
  - vm_compute. reflexivity.
  - left. vm_compute. discriminate.
  - exists s', t'. exact (conj Ht Hs).
Defined.

Lemma tick_returns_witness :
  ∃ b s' t', tick (env:=demo_env) (json:=demo_json) demo_profile 65 (seconds 4) (demo 10).1 (demo 10).2 = (inr b, s', t').
Proof.
  apply (tick_returns (env:=demo_env) (json:=demo_json) demo_profile).
  - intros t. reflexivity.
  - intros t m. discriminate.
  - vm_compute. lia.
Defined.
