(* ===== verification/AgentManual.v ===== *)
(** * The local operator

    [agent/src/manual.cpp]: a QGroundControl on the loopback interface is an
    operator of a session. [frames] splits a datagram, [udp_port] reads a port,
    and [ManualOperator] polls its socket, keeps the client's presence, asks for
    the lease once and forwards frames while it is held. The callbacks of the
    session's other threads run between the steps of [poll]: before each of its critical
    sections and before each of its calls the environment runs any list of them, each as
    a whole, so that what a section found may have changed when the call that follows it
    is made. *)
From stdpp Require Import gmap pretty.
From S2P Require Import Prelude Cpp MavChecksum AgentSession.

#[local] Open Scope Z_scope.

(** ** Datagrams *)

Definition MAVLINK_MSG_ID_HEARTBEAT : Z := 0.
Definition MAVLINK_MSG_ID_HEARTBEAT_LEN : Z := 9.
Definition MAVLINK_MSG_ID_HEARTBEAT_CRC : Z := 50.

(** A byte of the datagram; [frames] reads only below its size. *)
Definition byte_at (data : list Z) (i : nat) : Z := default 0 (data !! i).

(** The length of the frame at the head of the datagram. *)
Definition frame_length (p : list Z) : option Z :=
  let size := Z.of_nat (length p) in
  if size <? 2 then None else
  if byte_at p 0 =? 0xfd then
    if (size <? 12) || negb (Z.land (byte_at p 2) (u32 (Z.lnot 1)) =? 0) then None
    else Some (12 + byte_at p 1 + (if negb (Z.land (byte_at p 2) 1 =? 0) then 13 else 0))
  else if byte_at p 0 =? 0xfe then
    if (size <? 17) || negb (byte_at p 1 =? MAVLINK_MSG_ID_HEARTBEAT_LEN) || negb (byte_at p 5 =? MAVLINK_MSG_ID_HEARTBEAT)
    then None else
    let crc := crc_accumulate MAVLINK_MSG_ID_HEARTBEAT_CRC (crc_calculate (take 14 (drop 1 p))) in
    if negb (byte_at p 15 =? Z.land crc 0xff) || negb (byte_at p 16 =? Z.shiftr crc 8) then None else Some 17
  else None.

(** The loop; each round takes at least twelve bytes, so the size bounds it. *)
Fixpoint frames_loop (fuel : nat) (data : list Z) (count : Z) (output : list Bytes) : bool * list Bytes :=
  match data, fuel with
  | [], _ => (true, output)
  | _, O => (false, output)
  | _, S fuel =>
      if 32 <? count + 1 then (false, output) else
      match frame_length data with
      | None => (false, output)
      | Some len =>
          if Z.of_nat (length data) <? len then (false, output) else
          let n := Z.to_nat len in
          frames_loop fuel (drop n data) (count + 1)
            (if byte_at data 0 =? 0xfd then output ++ [take n data] else output)
      end
  end.

Definition frames (data : list Z) : bool * list Bytes :=
  match data with
  | [] => (false, [])
  | _ => frames_loop (length data) data 0 []
  end.

(** ** Ports *)

Definition is_digit (c : Ascii.ascii) : bool := (48 <=? Z.of_nat (Ascii.nat_of_ascii c)) && (Z.of_nat (Ascii.nat_of_ascii c) <=? 57).

Fixpoint udp_port_loop (value : string) (port : Z) : option Z :=
  match value with
  | EmptyString => Some port
  | String ch rest =>
      if negb (is_digit ch) then None else
      let port := u32 (port * 10 + (Z.of_nat (Ascii.nat_of_ascii ch) - 48)) in
      if 65535 <? port then None else udp_port_loop rest port
  end.
Definition udp_port {E S} (value : string) : X E S Z :=
  let invalid := throw "UDP port must be an integer from 1 to 65535" in
  if string_empty value then invalid else
  match udp_port_loop value 0 with
  | Some port => if port =? 0 then invalid else mret (u16 port)
  | None => invalid
  end.

(** ** The operator *)

Record ManualOptions := mk_manual_options { listener : Z; qgc : Z; control : bool }.
Record ManualStatus := mk_manual_status {
  telemetry : Z; video : Z; datagrams : Z; rejected : Z; dropped : Z;
  client : bool; attempted : bool; held : bool;
  error : string; telemetry_error : string; video_error : string }.
Record Manual := mk_manual {
  options_ : ManualOptions; status_ : ManualStatus; telemetry_connected_ : bool; disabled_ : bool;
  socket_failed_ : bool; last_client_ : Z }.

Definition set_status (f : ManualStatus → ManualStatus) (m : Manual) : Manual :=
  mk_manual (options_ m) (f (status_ m)) (telemetry_connected_ m) (disabled_ m) (socket_failed_ m) (last_client_ m).
Definition set_telemetry_connected (b : bool) (m : Manual) : Manual :=
  mk_manual (options_ m) (status_ m) b (disabled_ m) (socket_failed_ m) (last_client_ m).
Definition set_disabled (m : Manual) : Manual :=
  mk_manual (options_ m) (status_ m) (telemetry_connected_ m) true (socket_failed_ m) (last_client_ m).
Definition set_socket_failed (m : Manual) : Manual :=
  mk_manual (options_ m) (status_ m) (telemetry_connected_ m) (disabled_ m) true (last_client_ m).
Definition set_last_client (t : Z) (m : Manual) : Manual :=
  mk_manual (options_ m) (status_ m) (telemetry_connected_ m) (disabled_ m) (socket_failed_ m) t.

Definition count_telemetry (s : ManualStatus) : ManualStatus :=
  mk_manual_status (u64 (telemetry s + 1)) (video s) (datagrams s) (rejected s) (dropped s) (client s) (attempted s) (held s) (error s) (telemetry_error s) (video_error s).
Definition count_video (s : ManualStatus) : ManualStatus :=
  mk_manual_status (telemetry s) (u64 (video s + 1)) (datagrams s) (rejected s) (dropped s) (client s) (attempted s) (held s) (error s) (telemetry_error s) (video_error s).
Definition count_datagram (s : ManualStatus) : ManualStatus :=
  mk_manual_status (telemetry s) (video s) (u64 (datagrams s + 1)) (rejected s) (dropped s) (client s) (attempted s) (held s) (error s) (telemetry_error s) (video_error s).
Definition count_rejected (s : ManualStatus) : ManualStatus :=
  mk_manual_status (telemetry s) (video s) (datagrams s) (u64 (rejected s + 1)) (dropped s) (client s) (attempted s) (held s) (error s) (telemetry_error s) (video_error s).
Definition count_dropped (s : ManualStatus) : ManualStatus :=
  mk_manual_status (telemetry s) (video s) (datagrams s) (rejected s) (u64 (dropped s + 1)) (client s) (attempted s) (held s) (error s) (telemetry_error s) (video_error s).
Definition set_client (b : bool) (s : ManualStatus) : ManualStatus :=
  mk_manual_status (telemetry s) (video s) (datagrams s) (rejected s) (dropped s) b (attempted s) (held s) (error s) (telemetry_error s) (video_error s).
Definition set_attempted (s : ManualStatus) : ManualStatus :=
  mk_manual_status (telemetry s) (video s) (datagrams s) (rejected s) (dropped s) (client s) true (held s) (error s) (telemetry_error s) (video_error s).
Definition set_held (b : bool) (s : ManualStatus) : ManualStatus :=
  mk_manual_status (telemetry s) (video s) (datagrams s) (rejected s) (dropped s) (client s) (attempted s) b (error s) (telemetry_error s) (video_error s).
Definition set_error (e : string) (s : ManualStatus) : ManualStatus :=
  mk_manual_status (telemetry s) (video s) (datagrams s) (rejected s) (dropped s) (client s) (attempted s) (held s) e (telemetry_error s) (video_error s).
Definition set_stream_error (st : Stream) (e : string) (s : ManualStatus) : ManualStatus :=
  match st with
  | stream_telemetry => mk_manual_status (telemetry s) (video s) (datagrams s) (rejected s) (dropped s) (client s) (attempted s) (held s) (error s) e (video_error s)
  | stream_video => mk_manual_status (telemetry s) (video s) (datagrams s) (rejected s) (dropped s) (client s) (attempted s) (held s) (error s) (telemetry_error s) e
  end.

(** [errno] as far as the code tells its values apart. *)
Inductive errno := EAGAIN | EINTR | EOTHER (message : string).

Inductive received :=
  | recv_failed (e : errno)
  | recv_datagram (loopback_source : bool) (source_port : Z) (truncated : bool) (data : list Z).

Inductive callback :=
  | cb_telemetry (frame : Bytes)
  | cb_video (frame : EncodedVideo)
  | cb_connection (stream : Stream) (state : Connection) (detail : string)
  | cb_control (is_held : bool) (reason : string).

Inductive manual_event :=
  | MRelease
  | MActivity
  | MAcquire (actor : string) (ok : bool)
  | MSend (frame : Bytes) (ok : bool)
  | MRecv (r : received)
  | MSendTo (port : Z) (frame : Bytes) (failed : option errno)
  | MDiagnostic (text : string)
  | MCallback (c : callback).

Class ManualEnv := {
  m_acquire : list manual_event → bool;
  m_send : Bytes → list manual_event → bool;
  m_recv : list manual_event → received;
  m_sendto : Bytes → list manual_event → option errno;
  m_callbacks : list manual_event → list callback }.

Section Operator.
Context `{env : ManualEnv}.

Abbreviation M := (X manual_event Manual).

Definition mcall {A} (e : A → manual_event) (f : list manual_event → A) : M A :=
  λ s t, (inr (f t), s, e (f t) :: t).

Definition diagnostic (text : string) : M unit := xemit (MDiagnostic text).

Definition report_error (detail : string) : M unit :=
  m ← xget;
  _ ← xmodify (set_status (set_error detail));
  xwhen (negb (bool_decide (error (status_ m) = detail))) (diagnostic ("QGroundControl: " +:+ detail)).

Definition errno_text (e : errno) : string :=
  match e with EAGAIN => "Resource temporarily unavailable" | EINTR => "Interrupted system call" | EOTHER message => message end.
Definition socket_error (operation : string) (e : errno) : string := operation +:+ ": " +:+ errno_text e.

Definition on_telemetry (frame : Bytes) : M unit :=
  if negb (valid_mavlink2 frame) then mret tt else
  _ ← xmodify (set_status count_telemetry);
  m ← xget;
  r ← mcall (MSendTo (qgc (options_ m)) frame) (m_sendto frame);
  match r with
  | None => mret tt
  | Some e =>
      _ ← xmodify (set_status count_dropped);
      match e with
      | EAGAIN | EINTR => mret tt
      | EOTHER _ =>
          _ ← report_error (socket_error "send UDP to QGroundControl" e);
          xmodify set_socket_failed
      end
  end.

Definition on_video (frame : EncodedVideo) : M unit :=
  _ ← xmodify (set_status count_video);
  m ← xget;
  if negb (video (status_ m) =? 1) then mret tt else
  diagnostic ("video observation codec=" +:+ codec frame +:+ " bytes=" +:+ pretty (Z.of_nat (length (video_bytes frame)))
    +:+ " presentation100ns=" +:+ pretty (presentation_100ns frame)
    +:+ " receiptUnixMs=" +:+ pretty (Z.quot (video_received frame) (10 ^ 6))).

Definition on_connection (stream : Stream) (state : Connection) (detail : string) : M unit :=
  _ ← xmodify (λ m,
        let m := set_status (set_stream_error stream detail) m in
        match stream with
        | stream_telemetry => set_telemetry_connected (bool_decide (state = conn_connected)) m
        | stream_video => m
        end);
  diagnostic ((match stream with stream_telemetry => "telemetry" | stream_video => "video" end)
    +:+ " connection=" +:+ pretty (connection_code state) +:+ " " +:+ detail).

Definition on_control (is_held : bool) (reason : string) : M unit :=
  _ ← xmodify (set_status (set_held is_held));
  diagnostic ("control=" +:+ (if is_held then "1" else "0") +:+ " " +:+ reason).

Definition run_callback (c : callback) : M unit :=
  _ ← xemit (MCallback c);
  match c with
  | cb_telemetry frame => on_telemetry frame
  | cb_video frame => on_video frame
  | cb_connection stream state detail => on_connection stream state detail
  | cb_control h reason => on_control h reason
  end.

(** The other threads run before a critical section, and before a call of [actions] or
    of the socket. *)
Definition callbacks : M unit := λ s t, for_each run_callback (m_callbacks t) s t.
Definition lock {A} (c : M A) : M A := _ ← callbacks; c.
Definition unlocked {A} (c : M A) : M A := _ ← callbacks; c.

Definition disconnect (reason : string) : M unit :=
  _ ← unlocked (xemit MRelease);
  _ ← lock (_ ← xmodify set_disabled; xmodify (set_status (set_client false)));
  diagnostic ("QGroundControl: " +:+ reason +:+ "; control requires a new --control run").

Definition try_acquire (acquire : bool) : M unit :=
  xwhen acquire
    (ok ← unlocked (mcall (MAcquire "QGroundControl") m_acquire);
     xwhen ok (lock (xmodify (set_status set_attempted)))).

Definition forward_frame (frame : Bytes) : M unit :=
  m ← lock xget;
  xwhen (control (options_ m) && negb (disabled_ m) && held (status_ m))
    (ok ← unlocked (mcall (MSend frame) (m_send frame));
     xwhen (negb ok) (lock (xmodify (set_status count_dropped)))).

(** One datagram. *)
Definition poll_datagram (now : Z) (loopback_source : bool) (source_port : Z) (truncated : bool) (data : list Z) : M unit :=
  m ← xget;
  if negb loopback_source || negb (source_port =? qgc (options_ m)) then mret tt else
  _ ← lock (xmodify (set_status count_datagram));
  if truncated || negb (frames data).1 then lock (xmodify (set_status count_rejected)) else
  m ← lock (_ ← xmodify (set_status (set_client true)); _ ← xmodify (set_last_client now); xget);
  _ ← unlocked (xemit MActivity);
  _ ← try_acquire (control (options_ m) && negb (disabled_ m) && negb (attempted (status_ m)) && telemetry_connected_ m);
  for_each forward_frame (frames data).2.

(** The loop over the packets; [true] when the poll is over. *)
Fixpoint poll_loop (packets : nat) (now : Z) : M bool :=
  match packets with
  | O => mret false
  | S packets =>
      r ← unlocked (mcall MRecv m_recv);
      match r with
      | recv_failed EAGAIN => mret false
      | recv_failed EINTR => poll_loop packets now
      | recv_failed (EOTHER message) =>
          _ ← lock (report_error (socket_error "receive UDP" (EOTHER message)));
          _ ← unlocked (xmodify set_socket_failed);
          _ ← disconnect "UDP receive failed";
          mret true
      | recv_datagram loopback_source source_port truncated data =>
          _ ← poll_datagram now loopback_source source_port truncated data;
          poll_loop packets now
      end
  end.

Definition poll (now : Z) : M unit :=
  m ← lock xget;
  _ ← xwhen (client (status_ m) && (seconds 5 <=? now - last_client_ m)) (disconnect "client inactive for 5 seconds");
  m ← lock xget;
  if socket_failed_ m then xwhen (negb (disabled_ m)) (disconnect "UDP socket failed") else
  over ← poll_loop 32 now;
  if over : bool then mret tt else
  m ← lock xget;
  try_acquire (control (options_ m) && negb (disabled_ m) && negb (attempted (status_ m)) && client (status_ m) && telemetry_connected_ m).
End Operator.

(** [ManualOperator(options, diagnostics)], once its socket is bound. *)
Definition new_manual (options : ManualOptions) : Manual :=
  mk_manual options
    (mk_manual_status 0 0 0 0 0 false false false EmptyString EmptyString EmptyString) false false false 0.

(** ** What a datagram may be *)

(** A MAVLink 1 heartbeat with its checksum. *)
Definition heartbeat1 (u : list Z) : Prop :=
  length u = 17%nat ∧ byte_at u 0 = 0xfe ∧ byte_at u 1 = 9 ∧ byte_at u 5 = 0 ∧
  let crc := crc_accumulate 50 (crc_calculate (take 14 (drop 1 u))) in
  byte_at u 15 = Z.land crc 0xff ∧ byte_at u 16 = Z.shiftr crc 8.

Definition datagram_unit (u : list Z) : Prop := valid_mavlink2 u = true ∨ heartbeat1 u.

Lemma byte_at_take u n i : (i < n)%nat → byte_at (take n u) i = byte_at u i.
Proof. intros. unfold byte_at. by rewrite lookup_take_lt. Qed.

Lemma byte_at_app u v i : (i < length u)%nat → byte_at (u ++ v) i = byte_at u i.
Proof. intros. unfold byte_at. by rewrite lookup_app_l. Qed.

Lemma byte_at_range u i : bytes_ok u → 0 ≤ byte_at u i < 256.
Proof.
  intros Hb. unfold byte_at. destruct (u !! i) as [b|] eqn:E; cbn; [|lia]. exact (Forall_lookup_1 _ _ _ _ Hb E).
Qed.

Lemma valid_mavlink2_spec u : valid_mavlink2 u = true ↔
  (12 ≤ length u)%nat ∧ byte_at u 0 = 0xfd ∧ Z.land (byte_at u 2) (u32 (Z.lnot 1)) = 0 ∧
  Z.of_nat (length u) = 12 + byte_at u 1 + (if negb (Z.land (byte_at u 2) 1 =? 0) then 13 else 0).
Proof.
  destruct u as [|b0 [|b1 [|b2 u]]]; cbn [valid_mavlink2]; try (split; [done|]; cbn; lia).
  rewrite !andb_true_iff, !Z.leb_le, !Z.eqb_eq. change (byte_at (b0 :: b1 :: b2 :: u) 0) with b0.
  change (byte_at (b0 :: b1 :: b2 :: u) 1) with b1. change (byte_at (b0 :: b1 :: b2 :: u) 2) with b2. lia.
Qed.

(** The head of a datagram has a frame's length exactly when a unit starts there. *)
Lemma frame_length_unit p len : bytes_ok p → frame_length p = Some len → len ≤ Z.of_nat (length p) →
  (12 ≤ Z.to_nat len ≤ length p)%nat ∧ datagram_unit (take (Z.to_nat len) p) ∧
  (byte_at p 0 =? 0xfd) = valid_mavlink2 (take (Z.to_nat len) p).
Proof.
  intros Hb Hl Hle. unfold frame_length in Hl.
  destruct (_ <? 2) eqn:E0; [done|]. destruct (byte_at p 0 =? 0xfd) eqn:E1.
  - destruct (_ || _) eqn:E2; [done|]. injection Hl as Hl. bool_simpl.
    pose proof (byte_at_range p 1 Hb). assert (Hn : (12 ≤ Z.to_nat len ≤ length p)%nat) by (destruct (negb _); lia).
    assert (Hv : valid_mavlink2 (take (Z.to_nat len) p) = true).
    { apply valid_mavlink2_spec. rewrite length_take, !byte_at_take by lia. split_and!; [lia|done|done|lia]. }
    rewrite Hv. split_and!; [lia|lia|by left|done].
  - destruct (byte_at p 0 =? 0xfe) eqn:E2; [|done]. destruct (_ || _ || _) eqn:E3; [done|].
    destruct (negb _ || negb _) eqn:E4; [done|]. injection Hl as <-. bool_simpl.
    assert (Hn : (17 ≤ length p)%nat) by lia. change (Z.to_nat 17) with 17%nat. split_and!; [lia|lia| |].
    + right. unfold heartbeat1. rewrite length_take, !byte_at_take by lia. split_and!; [lia|done|done|done|..].
      all: replace (take 14 (drop 1 (take 17 p))) with (take 14 (drop 1 p)); [done|].
      all: by rewrite !take_drop_commute, take_take.
    + symmetry. apply not_true_iff_false. rewrite valid_mavlink2_spec, byte_at_take by lia. intros (_&Hx&_). lia.
Qed.

Lemma unit_frame_length u rest : datagram_unit u →
  frame_length (u ++ rest) = Some (Z.of_nat (length u)) ∧ (12 ≤ length u)%nat ∧ (byte_at (u ++ rest) 0 =? 0xfd) = valid_mavlink2 u.
Proof.
  intros [Hv|(Hlen & H0 & H1 & H5 & Hc1 & Hc2)].
  - rewrite Hv. apply valid_mavlink2_spec in Hv as (Hn & H0 & Hf & Hl). unfold frame_length.
    rewrite !byte_at_app, length_app by lia. rewrite H0, Hf, Hl. cbn [Z.eqb negb Pos.eqb].
    rewrite !(proj2 (Z.ltb_ge _ _)) by lia. cbn [orb]. split_and!; [done|lia|done].
  - unfold frame_length. rewrite !byte_at_app, length_app by lia. rewrite H0, H1, H5.
    replace (take 14 (drop 1 (u ++ rest))) with (take 14 (drop 1 u)).
    2: { rewrite drop_app_le by lia. by rewrite take_app_le by (rewrite length_drop; lia). }
    rewrite Hc1, Hc2. unfold MAVLINK_MSG_ID_HEARTBEAT_CRC, MAVLINK_MSG_ID_HEARTBEAT_LEN, MAVLINK_MSG_ID_HEARTBEAT.
    rewrite !Z.eqb_refl. rewrite !(proj2 (Z.ltb_ge _ _)) by lia. cbn. rewrite Hlen. split_and!; [done|lia|].
    symmetry. apply not_true_iff_false. rewrite valid_mavlink2_spec, H0. lia.
Qed.

Definition mavlink2_units (units : list Bytes) : list Bytes := filter (λ u, valid_mavlink2 u = true) units.

Lemma mavlink2_units_cons u units output :
  output ++ mavlink2_units (u :: units) = (if valid_mavlink2 u then output ++ [u] else output) ++ mavlink2_units units.
Proof.
  unfold mavlink2_units. rewrite filter_cons. destruct (valid_mavlink2 u); [rewrite decide_True by done|by rewrite decide_False by done].
  by rewrite <- (assoc_L (++)).
Qed.

Lemma frames_loop_sound fuel data count output out : bytes_ok data → 0 ≤ count ≤ 32 →
  frames_loop fuel data count output = (true, out) →
  ∃ units, data = concat units ∧ count + Z.of_nat (length units) ≤ 32 ∧ Forall datagram_unit units ∧
           out = output ++ mavlink2_units units.
Proof.
  revert data count output. induction fuel as [|fuel IH]; intros data count output Hb Hc Hf.
  { destruct data; [|done]. injection Hf as <-. exists []. split_and!; [done|cbn; lia|done|by rewrite app_nil_r]. }
  destruct data as [|x data]; [injection Hf as <-; exists []; split_and!; [done|cbn; lia|done|by rewrite app_nil_r]|].
  cbn [frames_loop] in Hf. set (p := x :: data) in *. destruct (32 <? count + 1) eqn:E; [done|].
  destruct (frame_length p) as [len|] eqn:El; [|done]. destruct (_ <? len) eqn:E2; [done|]. bool_simpl.
  destruct (frame_length_unit p len Hb El E2) as (Hn & Hu & Hv). rewrite Hv in Hf.
  apply IH in Hf as (units & Hd & Hl & Hall & ->); [|by apply Forall_drop|lia].
  exists (take (Z.to_nat len) p :: units). split_and!.
  - cbn. rewrite <- Hd. by rewrite take_drop.
  - cbn. lia.
  - by constructor.
  - by rewrite mavlink2_units_cons.
Qed.

Lemma frames_loop_complete fuel units count output : Forall datagram_unit units →
  count + Z.of_nat (length units) ≤ 32 → (length (concat units) ≤ fuel)%nat →
  frames_loop fuel (concat units) count output = (true, output ++ mavlink2_units units).
Proof.
  revert fuel count output. induction units as [|u units IH]; intros fuel count output Hu Hc Hf.
  { rewrite app_nil_r. by destruct fuel. }
  apply Forall_cons in Hu as [Hu Hall]. cbn [concat] in *. destruct (unit_frame_length u (concat units) Hu) as (Hl & Hlen & Hv).
  rewrite length_app in Hf. destruct fuel as [|fuel]; [lia|]. cbn [length] in Hc.
  destruct (u ++ concat units) as [|x p] eqn:Ep; [destruct u; [cbn in Hlen; lia|done]|]. cbn [frames_loop]. rewrite <- Ep in *.
  rewrite (proj2 (Z.ltb_ge _ _)) by lia. rewrite Hl, length_app. rewrite (proj2 (Z.ltb_ge _ _)) by lia.
  rewrite Nat2Z.id, drop_app_length, take_app_length, Hv, IH by (done || lia). by rewrite mavlink2_units_cons.
Qed.

(** C38: A datagram of the local operator is accepted exactly when it is a sequence of
    one to 32 MAVLink 2 frames and MAVLink 1 heartbeats with a correct checksum, and the
    MAVLink 2 frames, byte for byte and in order, are what it gives. *)
Theorem frames_spec data out : bytes_ok data →
  frames data = (true, out) ↔
  ∃ units, data = concat units ∧ (1 ≤ length units ≤ 32)%nat ∧ Forall datagram_unit units ∧ out = mavlink2_units units.
Proof.
  intros Hb. destruct data as [|x data].
  - split; [done|]. intros ([|u units] & Hd & Hl & Hu & _); [cbn in Hl; lia|].
    apply Forall_cons in Hu as [Hu _]. destruct (unit_frame_length u [] Hu) as (_ & Hlen & _).
    apply (f_equal length) in Hd. cbn in Hd. rewrite length_app in Hd. lia.
  - unfold frames. split.
    + intros Hf. apply frames_loop_sound in Hf as (units & Hd & Hl & Hu & ->); [|done|lia]. exists units. split_and!; try done; [|lia].
      destruct units; [done|cbn; lia].
    + intros (units & Hd & Hl & Hu & ->). rewrite Hd. by rewrite frames_loop_complete by (done || lia).
Qed.

Definition demo_frame : list Z := [0xfd; 1; 0; 0; 1; 1; 1; 0; 0; 0; 7; 7; 7].
Definition demo_heartbeat : list Z := [0xfe; 9; 0; 255; 190; 0; 0; 0; 0; 0; 6; 8; 192; 4; 3; 144; 26].
Lemma frames_spec_witness :
  frames (demo_frame ++ demo_heartbeat ++ demo_frame) = (true, [demo_frame; demo_frame]) ↔
  ∃ units, demo_frame ++ demo_heartbeat ++ demo_frame = concat units ∧ (1 ≤ length units ≤ 32)%nat ∧
           Forall datagram_unit units ∧ [demo_frame; demo_frame] = mavlink2_units units.
Proof. apply (frames_spec (demo_frame ++ demo_heartbeat ++ demo_frame)). refine (bool_decide_unpack _ _). vm_compute. exact I. Defined.

(** Every frame a datagram gives is a whole MAVLink 2 frame. *)
Lemma frames_valid data f : f ∈ (frames data).2 → (frames data).1 = true → bytes_ok data → valid_mavlink2 f = true.
Proof.
  intros Hin Ht Hb. destruct (frames data) as [b out] eqn:E. cbn in Ht, Hin. subst b.
  destruct data as [|x data]; [done|]. unfold frames in E. apply frames_loop_sound in E as (units & _ & _ & _ & ->); [|done|lia].
  by apply list_elem_of_filter in Hin as [? _].
Qed.

(** ** Ports *)

Fixpoint port_value (s : string) (acc : Z) : Z :=
  match s with
  | EmptyString => acc
  | String c rest => port_value rest (acc * 10 + (Z.of_nat (Ascii.nat_of_ascii c) - 48))
  end.
Fixpoint all_digits (s : string) : bool :=
  match s with EmptyString => true | String c rest => is_digit c && all_digits rest end.

Lemma port_value_mono s acc : all_digits s = true → 0 ≤ acc → acc ≤ port_value s acc.
Proof.
  revert acc. induction s as [|c s IH]; intros acc Hd Ha; [done|]. cbn in *. apply andb_true_iff in Hd as [Hc Hd].
  unfold is_digit in Hc. bool_simpl. etrans; [|apply IH; [done|lia]]. lia.
Qed.

Lemma udp_port_loop_spec s acc p : 0 ≤ acc ≤ 65535 →
  udp_port_loop s acc = Some p ↔ all_digits s = true ∧ p = port_value s acc ∧ p ≤ 65535.
Proof.
  revert acc. induction s as [|c s IH]; intros acc Ha; cbn.
  { split; [intros [= <-]; split_and!; try done; lia|]. by intros (_ & -> & _). }
  destruct (is_digit c) eqn:Ec; cbn [negb andb]; [|split; [done|by intros []]].
  pose proof Ec as Hc. unfold is_digit in Hc. bool_simpl.
  rewrite wrapu_id by (unfold in_u; lia). set (v := acc * 10 + _) in *.
  destruct (65535 <? v) eqn:Ev; bool_simpl.
  - split; [done|]. intros (Hd & -> & Hp). pose proof (port_value_mono s v Hd ltac:(lia)). lia.
  - apply IH. lia.
Qed.

(** A port is accepted exactly when it is written in decimal digits and lies
    between 1 and 65535. *)
Theorem udp_port_spec {E S} value p (s : S) (t : list E) :
  udp_port value s t = (inr p, s, t) ↔
  value ≠ EmptyString ∧ all_digits value = true ∧ p = port_value value 0 ∧ 1 ≤ p ≤ 65535.
Proof.
  unfold udp_port. destruct (string_empty value) eqn:Ee.
  { apply string_empty_spec in Ee as ->. split; [done|]. by intros []. }
  apply string_empty_false in Ee. pose proof (udp_port_loop_spec value 0) as Hl.
  destruct (udp_port_loop value 0) as [q|].
  - destruct (Hl q ltac:(lia)) as [Hq _]. destruct (Hq eq_refl) as (Hd & -> & Hle). pose proof (port_value_mono value 0 Hd ltac:(lia)).
    destruct (_ =? 0) eqn:E0; bool_simpl.
    + split; [done|]. intros (_&_&->&?). lia.
    + rewrite wrapu_id by (unfold in_u; lia). split; [intros [= <-]; split_and!; try done; lia|]. by intros (_&_&->&_).
  - split; [done|]. intros (_ & Hd & -> & ?). destruct (Hl (port_value value 0) ltac:(lia)) as [_ Hr].
    assert (Hx : None = Some (port_value value 0)) by (apply Hr; split_and!; [done|done|lia]). done.
Qed.

Example demo_datagram : frames (demo_frame ++ demo_heartbeat ++ demo_frame) = (true, [demo_frame; demo_frame]).
Proof. vm_compute. reflexivity. Qed.

(** ** Authority of the operator *)

(** What the session last told the operator, and the last packet. *)
Fixpoint last_held (t : list manual_event) : bool :=
  match t with
  | [] => false
  | MCallback (cb_control h _) :: _ => h
  | _ :: t => last_held t
  end.
Fixpoint last_connected (t : list manual_event) : bool :=
  match t with
  | [] => false
  | MCallback (cb_connection stream_telemetry state _) :: _ => bool_decide (state = conn_connected)
  | _ :: t => last_connected t
  end.
Fixpoint last_packet (t : list manual_event) : option received :=
  match t with
  | [] => None
  | MRecv r :: _ => Some r
  | _ :: t => last_packet t
  end.

(** The last packet came from the configured client and was accepted. *)
Definition client_packet (o : ManualOptions) (t : list manual_event) (data : list Z) : Prop :=
  last_packet t = Some (recv_datagram true (qgc o) false data) ∧ (frames data).1 = true.

(** What the members say at this moment. *)
Definition manual_allowed (o : ManualOptions) (e : manual_event) (t : list manual_event) : Prop :=
  match e with
  | MSend frame _ =>
      control o = true ∧ MRelease ∉ t ∧ last_held t = true ∧ ∃ data, client_packet o t data ∧ frame ∈ (frames data).2
  | MAcquire _ _ => control o = true ∧ MRelease ∉ t ∧ (∀ actor, MAcquire actor true ∉ t) ∧ last_connected t = true
  | MActivity => ∃ data, client_packet o t data
  | MSendTo port frame _ => port = qgc o ∧ valid_mavlink2 frame = true
  | _ => True
  end.

(** What they said when the operator last looked: since then nothing but callbacks, and
    in the case of an attempt the report of the client's activity. *)
Definition of_callback (e : manual_event) : bool :=
  match e with MCallback _ | MSendTo _ _ _ | MDiagnostic _ => true | _ => false end.
Definition looked (gap : manual_event → bool) (said : list manual_event → bool) (t : list manual_event) : Prop :=
  ∃ l t0, t = l ++ t0 ∧ Forall (λ e, gap e = true) l ∧ said t0 = true.
Definition before_attempt (e : manual_event) : bool := of_callback e || match e with MActivity => true | _ => false end.

Definition manual_authorised (o : ManualOptions) (e : manual_event) (t : list manual_event) : Prop :=
  match e with
  | MSend frame _ =>
      control o = true ∧ MRelease ∉ t ∧ looked of_callback last_held t ∧ ∃ data, client_packet o t data ∧ frame ∈ (frames data).2
  | MAcquire _ _ =>
      control o = true ∧ MRelease ∉ t ∧ (∀ actor, MAcquire actor true ∉ t) ∧ looked before_attempt last_connected t
  | _ => manual_allowed o e t
  end.
(** Without other threads nothing changes in between. *)
Definition manual_rule (alone : bool) : ManualOptions → manual_event → list manual_event → Prop :=
  if alone then manual_allowed else manual_authorised.

Section Authority.
Context `{env : ManualEnv} (alone : bool) (o : ManualOptions).
Hypothesis no_callbacks : alone = true → ∀ t, m_callbacks t = [].
Abbreviation rule := (manual_rule alone o).

(** [fresh] says whether the members record every release, and every successful
    attempt: they do outside [disconnect] and [try_acquire]. *)
Definition manual_inv (fresh : bool * bool) (pkt : option received) (m : Manual) (t : list manual_event) : Prop :=
  guarded rule t ∧ options_ m = o ∧ held (status_ m) = last_held t ∧ telemetry_connected_ m = last_connected t ∧
  last_packet t = pkt ∧
  (fresh.1 = true → MRelease ∈ t → disabled_ m = true) ∧
  (fresh.2 = true → ∀ actor, MAcquire actor true ∈ t → attempted (status_ m) = true).

Abbreviation keeps fresh pkt c := (xkeeps (manual_inv fresh pkt) (λ _ _ _, False) c).

(** An event that says nothing about authority. *)
Lemma manual_inv_event fresh pkt e m t :
  rule e t → (∀ c, e ≠ MCallback c) → (∀ r, e ≠ MRecv r) → e ≠ MRelease → (∀ actor, e ≠ MAcquire actor true) →
  manual_inv fresh pkt m t → manual_inv fresh pkt m (e :: t).
Proof.
  intros Hal Hc Hr He Ha (Hg & Ho & Hh & Ht & Hp & Hf1 & Hf2).
  assert (H1 : last_held (e :: t) = last_held t) by (destruct e; try done; by destruct (Hc c)).
  assert (H2 : last_connected (e :: t) = last_connected t) by (destruct e; try done; by destruct (Hc c)).
  assert (H3 : last_packet (e :: t) = last_packet t) by (destruct e; try done; by destruct (Hr r)).
  unfold manual_inv. rewrite H1, H2, H3. split_and!; try done.
  - intros Hx [?|?]%elem_of_cons; [by subst|auto].
  - intros Hx actor [?|?]%elem_of_cons; [by destruct (Ha actor)|eauto].
Qed.

(** An event that every rule treats alike. *)
Lemma rule_plain e t : match e with MSend _ _ | MAcquire _ _ => False | _ => manual_allowed o e t end → rule e t.
Proof. unfold manual_rule. destruct alone, e; done. Qed.

Lemma diagnostic_keeps fresh pkt text : keeps fresh pkt (diagnostic text).
Proof. apply xkeeps_emit. intros m t. apply manual_inv_event; try done. by apply rule_plain. Qed.

Lemma status_keeps fresh pkt f :
  (∀ s, held (f s) = held s ∧ (attempted s = true → attempted (f s) = true)) → keeps fresh pkt (xmodify (set_status f)).
Proof.
  intros Hf. apply xkeeps_modify. intros m t (Hg & Ho & Hh & Ht & Hp & Hf1 & Hf2). destruct (Hf (status_ m)) as [H1 H2].
  split_and!; try done; cbn; [by rewrite H1|]. eauto.
Qed.

Lemma report_error_keeps fresh pkt detail : keeps fresh pkt (report_error detail).
Proof.
  unfold report_error. xkeeps_step; [xkeeps_step|]. xkeeps_step; [by apply status_keeps|]. xkeeps_step. apply diagnostic_keeps.
Qed.

Lemma socket_failed_keeps fresh pkt : keeps fresh pkt (xmodify set_socket_failed).
Proof. by apply xkeeps_modify. Qed.

(** A step that reads the state. *)
Lemma xkeeps_read {A} fresh pkt (f : Manual → X manual_event Manual A) :
  (∀ m t, manual_inv fresh pkt m t → xwp (f m) (λ _, manual_inv fresh pkt) (λ _ _ _, False) m t) → keeps fresh pkt (xget ≫= f).
Proof. intros Hf m t Hi. by apply xwp_bind, xwp_get, Hf. Qed.

(** A call of the outside, allowed where it is made. *)
Lemma mcall_wp {A B} fresh pkt (e : A → manual_event) g (f : A → X manual_event Manual B) m t :
  manual_inv fresh pkt m t → rule (e (g t)) t →
  (∀ c, e (g t) ≠ MCallback c) → (∀ r, e (g t) ≠ MRecv r) → e (g t) ≠ MRelease → (∀ actor, e (g t) ≠ MAcquire actor true) →
  (∀ a, keeps fresh pkt (f a)) → xwp (mcall e g ≫= f) (λ _, manual_inv fresh pkt) (λ _ _ _, False) m t.
Proof. intros Hi Ha H1 H2 H3 H4 Hf. apply xwp_bind. unfold mcall, xwp at 1. apply Hf. by apply manual_inv_event. Qed.

Lemma on_telemetry_keeps fresh pkt frame : keeps fresh pkt (on_telemetry frame).
Proof.
  unfold on_telemetry. destruct (valid_mavlink2 frame) eqn:Hv; cbn [negb]; [|xkeeps_step].
  xkeeps_step; [by apply status_keeps|]. apply xkeeps_read. intros m t Hi.
  apply mcall_wp; try done.
  - apply rule_plain. split; [|done]. by destruct Hi as (_&->&_).
  - intros [e|]; [|xkeeps_step]. xkeeps_step; [by apply status_keeps|]. destruct e; try xkeeps_step.
    + apply report_error_keeps.
    + apply socket_failed_keeps.
Qed.

Lemma on_video_keeps fresh pkt frame : keeps fresh pkt (on_video frame).
Proof.
  unfold on_video. xkeeps_step; [by apply status_keeps|]. xkeeps_step; [xkeeps_step|]. xkeeps_step; [xkeeps_step|apply diagnostic_keeps].
Qed.

(** The callbacks of the other threads. *)
Lemma run_callback_keeps fresh pkt c : keeps fresh pkt (run_callback c).
Proof.
  intros m t (Hg & Ho & Hh & Ht & Hp & Hf1 & Hf2). unfold run_callback. apply xwp_bind, xwp_emit.
  assert (Hf1' : fresh.1 = true → MRelease ∈ MCallback c :: t → disabled_ m = true) by (intros Hx [?|?]%elem_of_cons; [done|auto]).
  assert (Hf2' : fresh.2 = true → ∀ actor, MAcquire actor true ∈ MCallback c :: t → attempted (status_ m) = true)
    by (intros Hx actor [?|?]%elem_of_cons; [done|eauto]).
  assert (Hg' : guarded rule (MCallback c :: t)) by (split; [by apply rule_plain|done]).
  destruct c as [frame|frame|[] st detail|h reason].
  - apply on_telemetry_keeps. by split_and!.
  - apply on_video_keeps. by split_and!.
  - unfold on_connection. apply xwp_bind, xwp_modify. apply diagnostic_keeps. by split_and!.
  - unfold on_connection. apply xwp_bind, xwp_modify. apply diagnostic_keeps. by split_and!.
  - unfold on_control. apply xwp_bind, xwp_modify. apply diagnostic_keeps. by split_and!.
Qed.

(** The events of a callback are its own. *)
Definition window (t0 t : list manual_event) : Prop := ∃ l, t = l ++ t0 ∧ Forall (λ e, of_callback e = true) l.
Lemma window_cons t0 e t : of_callback e = true → window t0 t → window t0 (e :: t).
Proof. intros He (l & -> & Hl). exists (e :: l). split; [done|]. by constructor. Qed.
Lemma run_callback_window t0 c : xkeeps (λ _ t, window t0 t) (λ _ _ _, False) (run_callback c).
Proof.
  assert (Hm : ∀ A (e : A → manual_event) f, (∀ a, of_callback (e a) = true) → xkeeps (λ (_ : Manual) t, window t0 t) (λ _ _ _, False) (mcall e f)).
  { intros A e f He m t Hw. by apply window_cons. }
  unfold run_callback, on_telemetry, on_video, on_connection, on_control, report_error, diagnostic.
  repeat first [xkeeps_step|apply xkeeps_modify; by intros|apply xkeeps_emit; intros; by apply window_cons|by apply Hm].
Qed.

(** Before a critical section or a call: the other threads keep the invariant, and add
    nothing but their own events. *)
Lemma callbacks_wp {A} fresh pkt (c : X manual_event Manual A) Q m t : manual_inv fresh pkt m t →
  (∀ m' t', manual_inv fresh pkt m' t' → window t t' → (alone = true → t' = t) → xwp c Q (λ _ _ _, False) m' t') →
  xwp (_ ← callbacks; c) Q (λ _ _ _, False) m t.
Proof.
  intros Hi Hc. apply xwp_bind.
  apply (xwp_mono _ (λ _ m' t', (manual_inv fresh pkt m' t' ∧ window t t') ∧ (alone = true → t' = t)) _ (λ _ _ _, False)); [|intros [] m' t' [[? ?] ?]; by apply Hc|done].
  assert (Hcase : alone = true ∨ alone = false) by (clear; destruct alone; auto).
  unfold callbacks, xwp. destruct Hcase as [Hal|Hal].
  - rewrite no_callbacks by done. cbn. split; [split; [done|by exists []]|done].
  - assert (Hw : xwp (for_each run_callback (m_callbacks t)) (λ _ m' t', manual_inv fresh pkt m' t' ∧ window t t') (λ _ _ _, False) m t).
    { apply (xwp_for_each _ (λ m' t', manual_inv fresh pkt m' t' ∧ window t t')); [split; [done|by exists []]|].
      intros c' m' t' _ [H1 H2]. eapply xwp_mono; [apply xwp_and; [by apply run_callback_keeps|by apply run_callback_window]|done|by intros ? ? ? [[]]]. }
    unfold xwp in Hw. destruct (for_each _ _ m t) as [[[?|[]] m'] t']; [done|]. split; [done|]. by rewrite Hal.
Qed.

Lemma lock_wp {A} fresh pkt (c : X manual_event Manual A) Q m t :
  manual_inv fresh pkt m t → (∀ m t, manual_inv fresh pkt m t → xwp c Q (λ _ _ _, False) m t) → xwp (lock c) Q (λ _ _ _, False) m t.
Proof. intros Hi Hc. unfold lock. eapply callbacks_wp; [exact Hi|]. auto. Qed.
Lemma unlocked_wp {A} fresh pkt (c : X manual_event Manual A) Q m t :
  manual_inv fresh pkt m t → (∀ m t, manual_inv fresh pkt m t → xwp c Q (λ _ _ _, False) m t) → xwp (unlocked c) Q (λ _ _ _, False) m t.
Proof. apply lock_wp. Qed.
Lemma lock_keeps {A} fresh pkt (c : X manual_event Manual A) : keeps fresh pkt c → keeps fresh pkt (lock c).
Proof. intros Hc m t Hi. by eapply lock_wp. Qed.

Lemma disconnect_keeps fresh pkt reason : fresh.1 = true → keeps fresh pkt (disconnect reason).
Proof.
  intros Hfr m0 t0 Hi. unfold disconnect. apply xwp_bind. eapply unlocked_wp; [exact Hi|]. clear Hi. intros m t (Hg & Ho & Hh & Ht & Hp & Hf1 & Hf2).
  apply xwp_emit, xwp_bind. apply (lock_wp (false, fresh.2) pkt).
  { split_and!; try done; [split; [by apply rule_plain|done]|]. intros Hx actor [?|?]%elem_of_cons; [done|eauto]. }
  intros m1 t1 (Hg1 & Ho1 & Hh1 & Ht1 & Hp1 & _ & Hf3). apply xwp_bind, xwp_modify, xwp_modify.
  apply diagnostic_keeps. by split_and!.
Qed.

(** Events that were not there before the callbacks are theirs. *)
Lemma window_absent e t t' : window t t' → of_callback e = false → e ∉ t → e ∉ t'.
Proof.
  intros (l & -> & Hl) He Hn [Hin|Hin]%elem_of_app; [|done]. rewrite Forall_forall in Hl. apply Hl in Hin. congruence.
Qed.
Lemma window_looked gap said t t' : (∀ e, of_callback e = true → gap e = true) → window t t' → looked gap said t → looked gap said t'.
Proof.
  intros Hg (l & -> & Hl) (l0 & t0 & -> & Hl0 & Hs). exists (l ++ l0), t0. rewrite <- app_assoc. split; [done|]. split; [|done].
  apply Forall_app. split; [|done]. eapply Forall_impl; [exact Hl|]. intros e. apply Hg.
Qed.
Lemma looked_now gap said t : said t = true → looked gap said t.
Proof. intros H. by exists [], t. Qed.

(** An attempt is made where it is allowed, and recorded. *)
Definition may_try (t : list manual_event) : Prop :=
  control o = true ∧ MRelease ∉ t ∧ (∀ actor, MAcquire actor true ∉ t) ∧
  if alone then last_connected t = true else looked before_attempt last_connected t.
Lemma try_rule t ok : may_try t → rule (MAcquire "QGroundControl" ok) t.
Proof. unfold may_try, manual_rule. by destruct alone. Qed.
Lemma try_window t t' : window t t' → (alone = true → t' = t) → may_try t → may_try t'.
Proof.
  intros Hw Ha (H1 & H2 & H3 & H4). unfold may_try. split_and!; [done|by eapply window_absent|intros a; by eapply window_absent|].
  destruct alone; [by rewrite Ha|]. eapply window_looked; [|exact Hw|done]. unfold before_attempt. by intros e ->.
Qed.

Lemma try_acquire_wp pkt b m t : manual_inv (true, true) pkt m t → (b = true → may_try t) →
  xwp (try_acquire b) (λ _, manual_inv (true, true) pkt) (λ _ _ _, False) m t.
Proof.
  intros Hi Hb. unfold try_acquire. apply xwp_when; [|done]. intros Hx. specialize (Hb Hx). apply xwp_bind.
  unfold unlocked. eapply callbacks_wp; [exact Hi|]. clear Hi. intros m' t' Hi Hw Ha. apply (try_window _ _ Hw Ha) in Hb. clear Hw Ha.
  unfold mcall, xwp at 1. destruct (m_acquire t'); cbn [xwhen].
  - destruct Hi as (Hg & Ho & Hh & Ht & Hp & Hf1 & Hf2). apply (lock_wp (true, false) pkt).
    { split_and!; try done; [split; [by apply try_rule|done]|]. intros _ [?|?]%elem_of_cons; [done|auto]. }
    intros m1 t1 (Hg1 & Ho1 & Hh1 & Ht1 & Hp1 & Hf3 & _). apply xwp_modify. by split_and!.
  - apply xwp_ret. apply manual_inv_event; try done. by apply try_rule.
Qed.

Lemma try_activity t : may_try t → may_try (MActivity :: t).
Proof.
  intros (H1 & H2 & H3 & H4). unfold may_try. split_and!; [done|set_solver|set_solver|]. destruct alone; [done|].
  destruct H4 as (l & t0 & -> & Hl & Hs). exists (MActivity :: l), t0. split; [done|]. split; [by constructor|done].
Qed.

(** Where the members allow an attempt, so does the trace. *)
Lemma may_acquire pkt m t : manual_inv (true, true) pkt m t →
  control (options_ m) = true → disabled_ m = false → attempted (status_ m) = false → telemetry_connected_ m = true → may_try t.
Proof.
  intros (_ & Ho & _ & Ht & _ & Hf1 & Hf2) H1 H2 H3 H4. rewrite Ho in H1. rewrite Ht in H4. unfold may_try. split_and!; [done|..].
  - intros Hin. specialize (Hf1 eq_refl Hin). congruence.
  - intros actor Hin. specialize (Hf2 eq_refl actor Hin). congruence.
  - destruct alone; [done|by apply looked_now].
Qed.

Lemma forward_frame_keeps data frame : frame ∈ (frames data).2 → (frames data).1 = true →
  keeps (true, true) (Some (recv_datagram true (qgc o) false data)) (forward_frame frame).
Proof.
  intros Hin Hv m t Hi. unfold forward_frame. apply xwp_bind.
  eapply (lock_wp (true, true)); [exact Hi|]. intros m1 t1 Hi1. apply xwp_get. apply xwp_when; [|done]. intros Hb. bool_simpl.
  pose proof Hi1 as (_ & Ho & Hh & _ & _ & Hf1 & _). rewrite Ho in *.
  assert (Hr : MRelease ∉ t1) by (intros Hr; specialize (Hf1 eq_refl Hr); congruence).
  apply xwp_bind. unfold unlocked. eapply callbacks_wp; [exact Hi1|]. intros m2 t2 Hi2 Hw Ha.
  pose proof Hi2 as (_ & _ & _ & _ & Hp & _).
  assert (Hrule : rule (MSend frame (m_send frame t2)) t2).
  { assert (Hr2 : MRelease ∉ t2) by by eapply window_absent. unfold manual_rule. destruct alone; (split_and!; [done|done| |by exists data]).
    - rewrite Ha by done. congruence.
    - eapply window_looked; [|exact Hw|apply looked_now; congruence]. done. }
  unfold mcall, xwp at 1. assert (Hk : keeps (true, true) (Some (recv_datagram true (qgc o) false data)) (xwhen (negb (m_send frame t2)) (lock (xmodify (set_status count_dropped))))).
  { xkeeps_step. apply lock_keeps. by apply status_keeps. }
  apply Hk. by apply manual_inv_event.
Qed.

Lemma poll_datagram_keeps now lb port trunc data m t :
  manual_inv (true, true) (Some (recv_datagram lb port trunc data)) m t →
  xwp (poll_datagram now lb port trunc data) (λ _, manual_inv (true, true) (Some (recv_datagram lb port trunc data))) (λ _ _ _, False) m t.
Proof.
  intros Hi. unfold poll_datagram. apply xwp_bind, xwp_get. xwp_step; [done|]. pose proof Hi as (_ & Ho & _). bool_simpl. rewrite Ho in *. subst lb port.
  apply xwp_bind. eapply xwp_mono; [by apply lock_keeps; [by apply status_keeps|]| |done]. intros [] m1 t1 Hi1.
  xwp_step; [by apply lock_keeps; [by apply status_keeps|]|]. bool_simpl. subst trunc.
  apply xwp_bind. eapply (lock_wp (true, true)); [exact Hi1|]. intros m2 t2 Hi2.
  apply xwp_bind. eapply xwp_mono; [by apply status_keeps| |done]. intros [] m3 t3 Hi3. apply xwp_bind, xwp_modify, xwp_get.
  set (m4 := set_last_client now m3). assert (Hi4 : manual_inv (true, true) (Some (recv_datagram true (qgc o) false data)) m4 t3) by done.
  clearbody m4. apply xwp_bind. unfold unlocked. eapply callbacks_wp; [exact Hi4|]. intros m4' t4 Hi4' Hw Ha. apply xwp_emit.
  assert (Hi5 : manual_inv (true, true) (Some (recv_datagram true (qgc o) false data)) m4' (MActivity :: t4)).
  { apply manual_inv_event; try done. apply rule_plain. exists data. split; [|done]. by destruct Hi4' as (_&_&_&_&?&_). }
  apply xwp_bind. eapply xwp_mono; [apply try_acquire_wp; [exact Hi5|]| |done].
  { intros Hb. bool_simpl. apply try_activity, (try_window t3 t4); [done|done|]. by eapply may_acquire. }
  intros [] m5 t5 Hi6. apply xwp_for_each; [done|]. intros f m6 t6 Hin Hi7. by apply forward_frame_keeps.
Qed.

Lemma poll_loop_keeps packets now pkt m t : manual_inv (true, true) pkt m t →
  xwp (poll_loop packets now) (λ _ m t, ∃ pkt, manual_inv (true, true) pkt m t) (λ _ _ _, False) m t.
Proof.
  revert pkt m t. induction packets as [|packets IH]; intros pkt m t Hi; cbn [poll_loop]; [by exists pkt|].
  apply xwp_bind. eapply unlocked_wp; [exact Hi|]. clear Hi m t. intros m t Hi. unfold mcall, xwp at 1. set (r := m_recv t).
  assert (Hr : manual_inv (true, true) (Some r) m (MRecv r :: t)).
  { destruct Hi as (Hg & Ho & Hh & Ht & Hp & Hf1 & Hf2). split_and!; try done; [split; [by apply rule_plain|done]|..].
    - intros Hx [?|?]%elem_of_cons; [done|auto].
    - intros Hx actor [?|?]%elem_of_cons; [done|eauto]. }
  clearbody r. destruct r as [[| |message]|lb port trunc data].
  - by exists (Some (recv_failed EAGAIN)).
  - by eapply IH.
  - apply xwp_bind. eapply xwp_mono; [by apply lock_keeps; [by apply report_error_keeps|]| |done]. intros [] m1 t1 Hi1.
    apply xwp_bind. eapply unlocked_wp; [exact Hi1|]. intros m1' t1' Hi1'. apply xwp_modify, xwp_bind.
    eapply xwp_mono; [by apply (disconnect_keeps (true, true))| |done]. intros [] m2 t2 Hi2. apply xwp_ret. eauto.
  - apply xwp_bind. eapply xwp_mono; [by apply poll_datagram_keeps| |done]. intros [] m1 t1 Hi1. by eapply IH.
Qed.

Lemma poll_keeps now pkt m t : manual_inv (true, true) pkt m t →
  xwp (poll now) (λ _ m t, ∃ pkt, manual_inv (true, true) pkt m t) (λ _ _ _, False) m t.
Proof.
  intros Hi. unfold poll. apply xwp_bind. apply (lock_wp (true, true) pkt); [done|]. intros m1 t1 Hi1. apply xwp_get.
  apply xwp_bind. eapply (xwp_mono _ (λ _, manual_inv (true, true) pkt) _ (λ _ _ _, False)); [|intros [] m2 t2 Hi2|done].
  { apply xwp_when; [|done]. intros _. by apply disconnect_keeps. }
  apply xwp_bind. apply (lock_wp (true, true) pkt); [done|]. intros m3 t3 Hi3. apply xwp_get. xwp_step.
  { apply xwp_when; intros _; [|by exists pkt]. eapply xwp_mono; [by apply (disconnect_keeps (true, true))| |done].
    intros [] m4 t4 Hi4. by exists pkt. }
  apply xwp_bind. eapply xwp_mono; [by eapply poll_loop_keeps| |done]. intros over m4 t4 [pkt4 Hi4]. xwp_step; [by exists pkt4|].
  apply xwp_bind. apply (lock_wp (true, true) pkt4); [done|]. intros m5 t5 Hi5. apply xwp_get.
  eapply xwp_mono; [apply try_acquire_wp; [exact Hi5|]| |done].
  - intros Hb'. bool_simpl. by eapply may_acquire.
  - intros [] m6 t6 Hi6. by exists pkt4.
Qed.
End Authority.

(** ** Runs of an operator *)

Section Runs.
Context `{env : ManualEnv} (o : ManualOptions).

(** What the hosting thread and the other threads do. *)
Inductive manual_run : Manual → list manual_event → Prop :=
  | manual_start : manual_run (new_manual o) []
  | manual_poll m t now m' t' : manual_run m t → poll now m t = (inr tt, m', t') → manual_run m' t'
  | manual_disconnect m t reason m' t' : manual_run m t → disconnect reason m t = (inr tt, m', t') → manual_run m' t'
  | manual_callback m t c m' t' : manual_run m t → run_callback c m t = (inr tt, m', t') → manual_run m' t'.

Lemma manual_run_inv alone m t : (alone = true → ∀ t, m_callbacks t = []) → manual_run m t →
  ∃ pkt, manual_inv alone o (true, true) pkt m t.
Proof.
  intros Hal. induction 1 as [|m t now m' t' _ [pkt Hi] Hs|m t reason m' t' _ [pkt Hi] Hs|m t c m' t' _ [pkt Hi] Hs].
  - exists None. split_and!; try done; [by intros _ ?%not_elem_of_nil|by intros _ ? ?%not_elem_of_nil].
  - pose proof (poll_keeps alone o Hal now pkt m t Hi) as Hw. unfold xwp in Hw. by rewrite Hs in Hw.
  - pose proof (disconnect_keeps alone o Hal (true, true) pkt reason eq_refl m t Hi) as Hw. unfold xwp in Hw. rewrite Hs in Hw. eauto.
  - pose proof (run_callback_keeps alone o Hal (true, true) pkt c m t Hi) as Hw. unfold xwp in Hw. rewrite Hs in Hw. eauto.
Qed.

(** C28: Callbacks of the session run, as wholes, before every critical section and
    before every call of the local operator, also between its check and the call. It
    forwards a frame only when control was asked for, from an accepted datagram of the
    configured client, when it last looked the lease was held and since then only
    callbacks ran, and never after a release; it asks for the lease only when telemetry
    was connected when it last looked, with only callbacks and its note of activity
    since then, never after a release, and not again once an attempt was taken. *)
Theorem operator_within_authority m t t2 e t1 : manual_run m t → t = t2 ++ e :: t1 → manual_authorised o e t1.
Proof. intros Hr ->. destruct (manual_run_inv false m (t2 ++ e :: t1) ltac:(done) Hr) as [pkt (Hg & _)]. by eapply (guarded_at (manual_authorised o)). Qed.

(** Events stay in the trace. *)
Definition grows {A} (c : X manual_event Manual A) : Prop :=
  ∀ e, xkeeps (λ _ t, e ∈ t) (λ _ _ t, e ∈ t) c.

Lemma grows_mcall {A} (e : A → manual_event) f : grows (mcall e f).
Proof. intros e0 m t Hin. by right. Qed.

Ltac grows_step :=
  first [xkeeps_step|apply xkeeps_modify; by intros|apply xkeeps_emit; by right|apply grows_mcall].

Lemma report_error_grows detail : grows (report_error detail).
Proof. intros e. unfold report_error, diagnostic. repeat grows_step. Qed.

Lemma run_callback_grows c : grows (run_callback c).
Proof.
  intros e. unfold run_callback, on_telemetry, on_video, on_connection, on_control, diagnostic.
  repeat first [grows_step|apply report_error_grows].
Qed.

Lemma lock_grows {A} (c : X manual_event Manual A) : grows c → grows (lock c).
Proof.
  intros Hc e. unfold lock. xkeeps_step; [|apply Hc]. intros m t Hi. unfold callbacks, xwp.
  apply (xkeeps_for_each (λ _ t, e ∈ t) (λ _ _ t, e ∈ t) _ (m_callbacks t)); [intros c'; apply run_callback_grows|done].
Qed.

Lemma unlocked_grows {A} (c : X manual_event Manual A) : grows c → grows (unlocked c).
Proof. apply lock_grows. Qed.

Lemma disconnect_grows reason : grows (disconnect reason).
Proof.
  intros e. unfold disconnect, diagnostic. repeat first [grows_step|apply lock_grows; intros ?|apply unlocked_grows; intros ?].
Qed.

Lemma try_acquire_grows b : grows (try_acquire b).
Proof. intros e. unfold try_acquire. repeat first [grows_step|apply lock_grows; intros ?|apply unlocked_grows; intros ?]. Qed.

Lemma poll_loop_grows packets now : grows (poll_loop packets now).
Proof.
  intros e. induction packets as [|packets IH]; cbn [poll_loop]; [grows_step|]. unfold poll_datagram, forward_frame.
  repeat first [exact IH|apply disconnect_grows|apply try_acquire_grows|apply report_error_grows|grows_step|apply lock_grows; intros ?|apply unlocked_grows; intros ?].
Qed.

(** The callbacks do not touch the client's presence. *)
Lemma run_callback_presence c b l : xkeeps (λ m _, client (status_ m) = b ∧ last_client_ m = l) (λ _ _ _, False) (run_callback c).
Proof.
  unfold run_callback, on_telemetry, on_video, on_connection, on_control, report_error, diagnostic.
  repeat first [xkeeps_step|apply xkeeps_modify; intros; by case_match|apply xkeeps_modify; by intros|apply xkeeps_emit; by intros|by intros ?].
Qed.

(** A client that has been silent for five seconds loses its authority in the next
    poll, for the rest of the run. *)
Theorem silent_client_releases m t now : manual_run m t →
  client (status_ m) = true → seconds 5 ≤ now - last_client_ m →
  ∃ m' t', poll now m t = (inr tt, m', t') ∧ MRelease ∈ t' ∧ disabled_ m' = true.
Proof.
  intros Hr Hc Hs. destruct (manual_run_inv false m t ltac:(done) Hr) as [pkt Hi].
  pose proof (poll_keeps false o ltac:(done) now pkt m t Hi) as Hw.
  assert (Hrel : xwp (poll now) (λ _ _ t, MRelease ∈ t) (λ _ _ t, True) m t).
  { unfold poll. apply xwp_bind. unfold lock at 1. apply xwp_bind.
    eapply (xwp_mono _ (λ _ m' _, client (status_ m') = true ∧ last_client_ m' = last_client_ m) _ (λ _ _ _, False)); [| |done].
    { unfold callbacks, xwp. apply (xkeeps_for_each (λ m' _, client (status_ m') = true ∧ last_client_ m' = last_client_ m));
        [intros c'; apply run_callback_presence|done]. }
    intros [] m1 t1 [Hc1 Hl1]. apply xwp_get. rewrite Hc1, Hl1, (proj2 (Z.leb_le _ _) Hs). cbn [andb xwhen]. apply xwp_bind.
    eapply (xwp_mono _ (λ _ _ t, MRelease ∈ t) _ (λ _ _ _, True)); [| |done].
    { unfold disconnect. apply xwp_bind. unfold unlocked. apply xwp_bind.
      apply (xwp_mono _ (λ _ _ _, True) _ (λ _ _ _, True)); [unfold xwp; by destruct (callbacks m1 t1) as [[[]]]|intros [] m1' t1' _|done]. apply xwp_emit.
      match goal with |- xwp ?c _ _ _ _ => assert (Hg : grows c) end.
      { intros e. unfold diagnostic. repeat first [grows_step|apply lock_grows; intros ?|apply unlocked_grows; intros ?]. }
      eapply xwp_mono; [apply (Hg MRelease); by left|done|done]. }
    intros [] m2 t2 Hin.
    match goal with |- xwp ?c _ _ _ _ => assert (Hg : grows c) end.
    { intros e. repeat first [apply disconnect_grows|apply try_acquire_grows|apply poll_loop_grows|grows_step|apply lock_grows; intros ?|apply unlocked_grows; intros ?]. }
    eapply xwp_mono; [apply (Hg MRelease); done|done|done]. }
  unfold xwp in Hw, Hrel. destruct (poll now m t) as [[[?|[]] m'] t']; [done|]. destruct Hw as [pkt' (_&_&_&_&_&Hf&_)].
  exists m', t'. split_and!; [done|done|by apply Hf].
Qed.
End Runs.

(** ** A client that connects

    The lease is revoked between the check and the frame that passed it. *)

Definition demo_options : ManualOptions := mk_manual_options 14551 14550 true.
Definition demo_operator : ManualEnv := {|
  m_acquire _ := true; m_send _ _ := true; m_sendto _ _ := None;
  m_recv t := match last_packet t with None => recv_datagram true 14550 false demo_frame | Some _ => recv_failed EAGAIN end;
  m_callbacks t :=
    match t with
    | [] => [cb_connection stream_telemetry conn_connected "up"]
    | MAcquire _ true :: _ => [cb_control true "granted"]
    | MDiagnostic "control=1 granted" :: _ => [cb_telemetry []]
    | MCallback (cb_telemetry []) :: _ => [cb_control false "revoked"]
    | _ => []
    end |}.

Definition demo_poll := poll (env:=demo_operator) (seconds 10) (new_manual demo_options) [].

Lemma demo_poll_run : manual_run (env:=demo_operator) demo_options demo_poll.1.2 demo_poll.2.
Proof. eapply manual_poll; [apply manual_start|]. vm_compute. reflexivity. Qed.

Lemma operator_within_authority_witness :
  last_held (drop 2 demo_poll.2) = false ∧ manual_authorised demo_options (MSend demo_frame true) (drop 2 demo_poll.2).
Proof.
  split; [vm_compute; reflexivity|].
  apply (operator_within_authority (env:=demo_operator) demo_options demo_poll.1.2 demo_poll.2 (take 1 demo_poll.2));
    [exact demo_poll_run|vm_compute; reflexivity].
Defined.

Lemma silent_client_releases_witness :
  ∃ m' t', poll (env:=demo_operator) (seconds 15) demo_poll.1.2 demo_poll.2 = (inr tt, m', t') ∧ MRelease ∈ t' ∧ disabled_ m' = true.
Proof.
  apply (silent_client_releases (env:=demo_operator) demo_options demo_poll.1.2 demo_poll.2);
    [exact demo_poll_run|reflexivity|vm_compute; discriminate].
Defined.
