(* ===== verification/AgentAws.v ===== *)
(** * The AWS clients of the agent

    [agent/src/aws.cpp]: the registry and the shadows of a device ([AwsDevice]) and
    the reading of its lifecycle; the calls of [agent/src/cloud.cpp] to the MicroVM
    service ([CloudMicrovms]); and the authenticated status request of
    [agent/src/controller_handler.cpp]. The services, the clocks and the identity
    source answer as they like, each answer a function of the history.

    The type of an exception matters in two places: a missing shadow and a missing
    Thing are told from other failures. Only [shadow] and [describe_thing] throw
    them, with messages that no other exception has; [shadow_not_found] and
    [thing_not_found] read the type off the message. *)
From stdpp Require Import gmap pretty.
From S2P Require Import Prelude Cpp AwsJson AgentController AgentReconcile AgentShadow AgentCloud AgentSample AgentSession.

#[local] Open Scope Z_scope.

(** ** Outcomes and events *)

(** The outcome of a service call: the result, or the error's name and code. *)
Inductive outcome (A : Type) := success (a : A) | failure (name : string) (code : Z).
Arguments success {A}.
Arguments failure {A}.

Record HostDetails := mk_host { host_run : CloudRun; host_image : string }.

Inductive aws_event :=
  | ADescribeThing (thing : string) (r : outcome (string * option string))
  | AListThings (token : string) (r : outcome (list string * string))
  | ADescribeEndpoint (r : outcome string)
  | AGetShadow (thing name : string) (r : outcome string)
  | AUpdateShadow (thing patch : string) (r : outcome unit)
  | ARunMicrovm (request : RunMicrovmRequest) (r : outcome CloudRun)
  | AGetMicrovm (id : string) (r : outcome HostDetails)
  | ATerminateMicrovm (id : string) (r : outcome unit)
  | AListMicrovms (image token : string) (r : outcome (list CloudRun * string))
  | AToken (id : string) (port minutes : Z) (r : outcome (option string))
  | AStatus (url token : string) (r : option (Z * list string))
  | AWall (now : Z)
  | ASteady (now : Z)
  | AIdentity (id : string)
  | ASleep
  | ALog (text : string).

Abbreviation aws_trace := (list aws_event).

Class AwsEnv := {
  a_describe_thing : string → aws_trace → outcome (string * option string);
  a_list_things : string → aws_trace → outcome (list string * string);
  a_describe_endpoint : aws_trace → outcome string;
  a_get_shadow : string → string → aws_trace → outcome string;
  a_update_shadow : string → string → aws_trace → outcome unit;
  a_run_microvm : RunMicrovmRequest → aws_trace → outcome CloudRun;
  a_get_microvm : string → aws_trace → outcome HostDetails;
  a_terminate_microvm : string → aws_trace → outcome unit;
  a_list_microvms : string → string → aws_trace → outcome (list CloudRun * string);
  a_token : string → Z → Z → aws_trace → outcome (option string);
  (** The status request: a transport failure, or the code and the pieces of the
      body as they come in. *)
  a_status : string → string → aws_trace → option (Z * list string);
  a_wall : aws_trace → Z;
  a_steady : aws_trace → Z;
  a_identity : aws_trace → string }.

(** The message of a failed call. *)
Definition error_text (operation name : string) (code : Z) : string :=
  operation +:+ ": " +:+ c_str name +:+ " HTTP " +:+ pretty code.

(** [s] ends with [suffix]. *)
Definition ends_with (suffix s : string) : bool :=
  (string_size suffix <=? string_size s)
  && bool_decide (String.substring (String.length s - String.length suffix) (String.length suffix) s = suffix).

Definition shadow_not_found (e : string) : bool := String.prefix "iot:GetThingShadow(" e && ends_with " HTTP 404" e.
Definition thing_not_found (e : string) : bool := String.prefix "iot:DescribeThing: " e && ends_with " HTTP 404" e.

(** ** The lifecycle of a device *)

Section Lifecycle.
Context `{json : AwsJson} {E S : Type}.
Abbreviation P := (X E S).

(** The loop over nested objects. *)
Fixpoint descend (view : JsonView) (path : list string) (message : string) : P JsonView :=
  match path with
  | [] => mret view
  | name :: path =>
      if negb (ValueExists view name) || negb (IsObject (GetObject view name)) then throw message
      else descend (GetObject view name) path message
  end.

Definition string_member (view : JsonView) (name : string) : bool := ValueExists view name && IsString (GetObject view name).

Definition parse_lifecycle (text thing : string) : P Lifecycle :=
  match json_parse (c_str text) with
  | None => throw "sparkplug shadow: invalid JSON"
  | Some document =>
      view ← descend document ["state"; "reported"]%string "sparkplug shadow: missing reported state";
      topic ← descend view ["topic"]%string "sparkplug shadow: missing topic";
      if negb (string_member topic "deviceId") || negb (bool_decide (GetString topic "deviceId" = c_str thing))
         || negb (string_member topic "namespace") || negb (bool_decide (GetString topic "namespace" = "spBv1.0"%string))
         || negb (string_member topic "messageType")
      then throw "sparkplug shadow: invalid device topic" else
      let type := GetString topic "messageType" in
      if bool_decide (type = "DDEATH"%string) then mret (mk_lifecycle false 4) else
      if negb (bool_decide (type = "DBIRTH"%string)) && negb (bool_decide (type = "DDATA"%string))
      then throw "sparkplug shadow: unexpected message type" else
      view ← descend view ["payload"; "metrics"]%string "sparkplug shadow: missing metrics";
      if negb (ValueExists view "redcon") || negb (IsIntegerType (GetObject view "redcon"))
      then throw "sparkplug shadow: invalid redcon" else
      let redcon := GetInt64 view "redcon" in
      if (redcon <? 1) || (4 <? redcon) then throw "sparkplug shadow: redcon outside 1..4" else
      if redcon <=? 2 then
        if negb (ValueExists view "capability") || negb (IsObject (GetObject view "capability"))
           || negb (ValueExists (GetObject view "capability") "agent")
           || negb (IsBool (GetObject (GetObject view "capability") "agent"))
        then throw "sparkplug shadow: missing agent capability availability" else
        if negb (GetBool (GetObject view "capability") "agent") then mret (mk_lifecycle false 4)
        else mret (mk_lifecycle true redcon)
      else mret (mk_lifecycle true redcon)
  end.

Definition parse_projection_observation (text thing : string) : P ProjectionObservation :=
  match json_parse (c_str text) with
  | None => throw "sparkplug shadow: invalid JSON"
  | Some root =>
      if negb (ValueExists root "version") || negb (IsIntegerType (GetObject root "version")) || (GetInt64 root "version" <=? 0)
      then throw "sparkplug shadow: missing version" else
      view ← descend root ["state"; "reported"; "payload"]%string "sparkplug shadow: incomplete projection";
      if negb (ValueExists view "metrics") || negb (IsObject (GetObject view "metrics"))
         || negb (ValueExists view "timestamp") || negb (IsIntegerType (GetObject view "timestamp"))
         || (GetInt64 view "timestamp" <=? 0)
      then throw "sparkplug shadow: incomplete projection or missing source timestamp" else
      lifecycle ← parse_lifecycle text thing;
      mret (mk_projection (GetInt64 root "version") (Some (born lifecycle && (redcon lifecycle <=? 2)))
              (GetInt64 view "timestamp") (redcon lifecycle))
  end.
End Lifecycle.

(** ** The device *)

(** [std::getline(values, value, ',')] until it fails. *)
Fixpoint getlines (value s : string) : list string :=
  match s with
  | EmptyString => if string_empty value then [] else [value]
  | String c s =>
      if Ascii.eqb c ","%char then value :: getlines EmptyString s
      else getlines (value +:+ String c EmptyString) s
  end.

Definition white : string := String " " (String "009" (String "013" (String "010" EmptyString))).
Fixpoint has_any (chars s : string) : bool :=
  match s with
  | EmptyString => false
  | String c s => string_mem c chars || has_any chars s
  end.

(** The loop over the declared capabilities; [None] for a malformed list. *)
Fixpoint declared_loop (values : list string) (declared : gset string) : option (gset string) :=
  match values with
  | [] => Some declared
  | v :: values =>
      if string_empty v || has_any white v || bool_decide (v ∈ declared) then None
      else declared_loop values ({[v]} ∪ declared)
  end.

(** What the handler keeps: [shadow_endpoint_resolved_] of the device, then the
    variables its closures capture. *)
Record Handler := mk_handler {
  shadow_endpoint_resolved_ : bool;
  skip : bool; pending : bool; complete : bool; assigned : gset string;
  mismatched_image_ : bool; inventory_failed_ : bool; runs : list CloudRun }.

Definition set_resolved (h : Handler) : Handler :=
  mk_handler true (skip h) (pending h) (complete h) (assigned h) (mismatched_image_ h) (inventory_failed_ h) (runs h).
Definition set_skip (h : Handler) : Handler :=
  mk_handler (shadow_endpoint_resolved_ h) true (pending h) (complete h) (assigned h) (mismatched_image_ h) (inventory_failed_ h) (runs h).
Definition set_pending (b : bool) (h : Handler) : Handler :=
  mk_handler (shadow_endpoint_resolved_ h) (skip h) b (complete h) (assigned h) (mismatched_image_ h) (inventory_failed_ h) (runs h).
Definition set_complete (b : bool) (h : Handler) : Handler :=
  mk_handler (shadow_endpoint_resolved_ h) (skip h) (pending h) b (assigned h) (mismatched_image_ h) (inventory_failed_ h) (runs h).
Definition add_assigned (id : string) (h : Handler) : Handler :=
  mk_handler (shadow_endpoint_resolved_ h) (skip h) (pending h) (complete h) ({[id]} ∪ assigned h) (mismatched_image_ h) (inventory_failed_ h) (runs h).
Definition set_mismatched (h : Handler) : Handler :=
  mk_handler (shadow_endpoint_resolved_ h) (skip h) (pending h) (complete h) (assigned h) true (inventory_failed_ h) (runs h).
Definition set_inventory_failed (h : Handler) : Handler :=
  mk_handler (shadow_endpoint_resolved_ h) (skip h) (pending h) (complete h) (assigned h) (mismatched_image_ h) true (runs h).

Definition set_runs (l : list CloudRun) (h : Handler) : Handler :=
  mk_handler (shadow_endpoint_resolved_ h) (skip h) (pending h) (complete h) (assigned h) (mismatched_image_ h) (inventory_failed_ h) l.

Definition new_handler : Handler := mk_handler false false false true ∅ false false [].

Section Device.
Context `{json : AwsJson, env : AwsEnv}.
Abbreviation P := (X aws_event Handler).

Definition acall {A} (e : A → aws_event) (f : aws_trace → A) : P A := λ s t, (inr (f t), s, e (f t) :: t).

(** A call whose failure is thrown. *)
Definition checked {A} (operation : string) (r : outcome A) : P A :=
  match r with
  | success a => mret a
  | failure name code => throw (error_text operation name code)
  end.

Definition describe_thing (thing : string) : P (string * option string) :=
  r ← acall (ADescribeThing (c_str thing)) (a_describe_thing (c_str thing));
  checked "iot:DescribeThing" r.

Definition registered_type (thing : string) : P string := r ← describe_thing thing; mret (c_str r.1).

Definition has_capability (thing capability : string) : P bool :=
  r ← describe_thing thing;
  match r.2 with
  | None => mret false
  | Some entry =>
      match declared_loop (getlines EmptyString (c_str entry)) ∅ with
      | None => throw "iot:DescribeThing: malformed capabilities"
      | Some declared =>
          if bool_decide (declared = ∅) || ends_with "," entry || negb (bool_decide ("sparkplug"%string ∈ declared))
          then throw "iot:DescribeThing: malformed capabilities"
          else mret (bool_decide (capability ∈ declared))
      end
  end.

(** The pages of the registry; [pages] is what is left of the 1000. *)
Fixpoint things_loop (pages : nat) (token : string) (seen : gset string) (things : list string) : P (list string) :=
  match pages with
  | O => throw "iot:ListThings: pagination limit exceeded"
  | S pages =>
      r ← acall (AListThings token) (a_list_things token);
      page ← checked "iot:ListThings" r;
      let things := things ++ map c_str page.1 in
      let next := page.2 in
      if negb (string_empty next) && bool_decide (next ∈ seen) then throw "iot:ListThings: pagination did not advance" else
      if string_empty next then mret things else things_loop pages next ({[next]} ∪ seen) things
  end.
Definition registered_things : P (list string) := things_loop 1000 EmptyString ∅ [].

Definition resolve_shadow_endpoint : P unit :=
  h ← xget;
  if shadow_endpoint_resolved_ h then mret tt else
  r ← acall ADescribeEndpoint a_describe_endpoint;
  address ← checked "iot:DescribeEndpoint(Data-ATS)" r;
  if string_empty address || negb (only_chars endpoint_chars address)
  then throw "iot:DescribeEndpoint returned an invalid hostname" else xmodify set_resolved.

Definition shadow (thing name : string) : P string :=
  _ ← resolve_shadow_endpoint;
  r ← acall (AGetShadow (c_str thing) name) (a_get_shadow (c_str thing) name);
  checked ("iot:GetThingShadow(" +:+ name +:+ ")") r.

Definition lifecycle (thing : string) : P Lifecycle := text ← shadow thing "sparkplug"; parse_lifecycle text thing.
Definition projection (thing : string) : P ProjectionObservation :=
  text ← shadow thing "sparkplug"; parse_projection_observation text thing.
Definition agent_shadow (thing : string) : P string := shadow thing "agent".

Definition update_agent_shadow (thing patch : string) : P bool :=
  match json_parse (c_str patch) with
  | None => throw "agent shadow update requires an expected version"
  | Some root =>
      if negb (IsObject root) || negb (ValueExists root "version") || negb (IsIntegerType (GetObject root "version"))
         || (GetInt64 root "version" <? 0)
      then throw "agent shadow update requires an expected version" else
      _ ← resolve_shadow_endpoint;
      r ← acall (AUpdateShadow (c_str thing) patch) (a_update_shadow (c_str thing) patch);
      match r with
      | success _ => mret true
      | failure name code =>
          if code =? 409 then mret false else throw (error_text "iot:UpdateThingShadow(agent)" name code)
      end
  end.

(** ** The MicroVM service *)

Definition launch (exact_request expected_run_id : string) : P CloudRun :=
  request ← parse_request exact_request expected_run_id;
  r ← acall (ARunMicrovm request) (a_run_microvm request);
  checked "lambda-microvms:RunMicrovm" r.

Definition describe (id : string) : P HostDetails :=
  r ← acall (AGetMicrovm (c_str id)) (a_get_microvm (c_str id));
  checked "lambda-microvms:GetMicrovm" r.
Definition get (id : string) : P CloudRun := h ← describe id; mret (host_run h).

Definition terminate (id : string) : P unit :=
  r ← acall (ATerminateMicrovm (c_str id)) (a_terminate_microvm (c_str id));
  checked "lambda-microvms:TerminateMicrovm" r.

Definition list_page (image token : string) : P (list CloudRun * string) :=
  r ← acall (AListMicrovms (c_str image) token) (a_list_microvms (c_str image) token);
  checked "lambda-microvms:ListMicrovms" r.
Definition for_each_page (image : string) (visit : list CloudRun → P unit) : P unit :=
  AgentCloud.for_each_page (list_page image) image (Some visit).

Definition list_runs (image : string) : P (list CloudRun) :=
  _ ← xmodify (set_runs []);
  _ ← for_each_page image (λ page, xmodify (λ h, set_runs (runs h ++ page) h));
  h ← xget;
  mret (runs h).

Definition token_chars : string := "abcdefghijklmnopqrstuvwxyzABCDEFGHIJKLMNOPQRSTUVWXYZ0123456789._-".

Definition token (id : string) (port minutes : Z) : P string :=
  if string_empty id || (port =? 0) || (65535 <? port) || (minutes =? 0) || (60 <? minutes)
  then throw "invalid MicroVM token scope or duration" else
  r ← acall (AToken (c_str id) port minutes) (a_token (c_str id) port minutes);
  found ← checked "lambda-microvms:CreateMicrovmAuthToken" r;
  match found with
  | None => throw "MicroVM token response missing authentication header"
  | Some value =>
      if string_empty value then throw "MicroVM token response missing authentication header" else
      if (8000 <? string_size value) || negb (only_chars token_chars value)
      then throw "MicroVM token response has invalid framing" else mret (c_str value)
  end.

(** A piece of the body; [None] makes the transfer fail. *)
Definition status_body (body data : string) : option string :=
  if (16384 <? string_size data) || (16384 - string_size data <? string_size body) then None else Some (body +:+ data).
Fixpoint receive_body (body : string) (pieces : list string) : option string :=
  match pieces with
  | [] => Some body
  | data :: pieces => body ← status_body body data; receive_body body pieces
  end.

(** The authenticated request for the status of a MicroVM. *)
Definition read_status (host : CloudRun) : P string :=
  url ← microvm_https_endpoint (endpoint host);
  auth ← token (cr_id host) 8081 1;
  r ← acall (AStatus (url +:+ "/status") auth) (a_status (url +:+ "/status") auth);
  match r with
  | Some (code, pieces) =>
      match receive_body EmptyString pieces with
      | Some body => if code =? 200 then mret body else throw "authenticated runtime status request failed"
      | None => throw "authenticated runtime status request failed"
      end
  | None => throw "authenticated runtime status request failed"
  end.

Definition now_seconds : P Z := acall AWall a_wall.
Definition steady_clock : P Z := acall ASteady a_steady.
Definition log (text : string) : P unit := xemit (ALog text).
End Device.

(** * The exceptions of the AWS clients

    The callers of the clients tell a missing shadow and a missing Thing from other
    failures by the type of the exception, which is read off the message. It is read
    right: among all the messages that a client can
    throw, exactly those of the service's answer 404 to the call in question are
    taken for a missing shadow or a missing Thing. *)

(** ** The code at the end of a message *)

Definition no_space (s : string) : bool := negb (string_mem " " s).

Lemma string_mem_space a p : string_mem " " (a +:+ " " +:+ p) = true.
Proof. induction a as [|c a IH]; [done|]. rewrite append_cons. cbn. by rewrite IH, orb_true_r. Qed.

Lemma after_last_space a b p q :
  no_space p = true → no_space q = true → a +:+ " " +:+ p = b +:+ " " +:+ q → p = q.
Proof.
  unfold no_space. intros Hp Hq. revert b. induction a as [|c a IH]; intros [|d b]; rewrite ?append_cons; intros Heq.
  - by injection Heq.
  - injection Heq as _ Heq. change (p = b +:+ (" " +:+ q)) in Heq. by rewrite Heq, string_mem_space in Hp.
  - injection Heq as _ Heq. change (a +:+ (" " +:+ p) = q) in Heq. by rewrite <- Heq, string_mem_space in Hq.
  - injection Heq as _ Heq. eauto.
Qed.

Lemma pretty_N_no_space x : no_space (pretty (x : N)) = true.
Proof.
  unfold pretty, pretty_N. case_decide; [done|].
  assert (Hs : ∀ s, no_space s = true → no_space (pretty_N_go x s) = true); [|by apply Hs].
  induction (N.lt_wf_0 x) as [x _ IH]; intros s Hs.
  assert (x = 0 ∨ 0 < x)%N as [->|?] by lia; [by rewrite pretty_N_go_0|].
  rewrite pretty_N_go_step by done. destruct (decide (x `div` 10 = 0)%N) as [->|].
  - rewrite pretty_N_go_0. unfold no_space, pretty_N_char in *. by repeat case_match.
  - apply IH; [by apply N.div_lt|done|]. unfold no_space, pretty_N_char in *. by repeat case_match.
Qed.
Lemma pretty_Z_no_space (x : Z) : no_space (pretty x) = true.
Proof. destruct x as [|x|x]; [done|apply pretty_N_no_space|]. exact (pretty_N_no_space (Npos x)). Qed.

Lemma ends_with_split suffix s : ends_with suffix s = true → ∃ pre, s = pre +:+ suffix.
Proof.
  unfold ends_with, string_size. intros H. bool_simpl.
  exists (String.substring 0 (String.length s - String.length suffix) s).
  rewrite <- H0 at 2. rewrite <- (substring_all s) at 1.
  replace (String.length s) with ((String.length s - String.length suffix) + String.length suffix)%nat at 1 by lia.
  by rewrite substring_split.
Qed.
Lemma ends_with_app suffix pre : ends_with suffix (pre +:+ suffix) = true.
Proof.
  unfold ends_with, string_size. rewrite string_length_append, bool_decide_eq_true_2; [|].
  - rewrite andb_true_r. apply Z.leb_le. lia.
  - replace (String.length pre + String.length suffix - String.length suffix)%nat with (String.length pre) by lia.
    induction pre as [|c pre IH]; [apply substring_all|]. by rewrite append_cons.
Qed.

Lemma prefix_append a b : String.prefix a (a +:+ b) = true.
Proof. induction a as [|c a IH]; [by destruct b|]. rewrite append_cons. cbn. by destruct (ascii_dec c c). Qed.

(** The status that a message ends with is the code of the failure. *)
Lemma error_text_404 operation name code : ends_with " HTTP 404" (error_text operation name code) = true ↔ code = 404.
Proof.
  unfold error_text. split.
  - intros [pre H]%ends_with_split. apply (inj pretty).
    apply (after_last_space (operation +:+ ": " +:+ c_str name +:+ " HTTP") (pre +:+ " HTTP")); [apply pretty_Z_no_space|done|].
    change (pretty 404) with "404". rewrite <- !append_assoc. exact H.
  - intros ->. change (" HTTP " +:+ pretty 404) with " HTTP 404". rewrite !append_assoc. apply ends_with_app.
Qed.

(** ** What a client may throw *)

(** Neither of the two. *)
Definition other_error (m : string) : bool := negb (shadow_not_found m) && negb (thing_not_found m).

Section Throws.
Context `{json : AwsJson, env : AwsEnv}.
Abbreviation P := (X aws_event Handler).

Definition throws_other {A} (c : P A) : Prop := ∀ s t m s' t', c s t = (inl m, s', t') → other_error m = true.

Lemma throws_ret {A} (a : A) : throws_other (mret a).
Proof. by intros s t m s' t'. Qed.
Lemma throws_throw {A} m : other_error m = true → throws_other (throw (A:=A) m).
Proof. intros Hm s t m' s' t' [= <- _ _]. done. Qed.
Lemma throws_get : throws_other xget.
Proof. by intros s t m s' t'. Qed.
Lemma throws_modify f : throws_other (xmodify f).
Proof. by intros s t m s' t'. Qed.
Lemma throws_acall {A} (e : A → aws_event) f : throws_other (acall e f).
Proof. by intros s t m s' t'. Qed.
Lemma throws_bind {A B} (c : P A) (f : A → P B) : throws_other c → (∀ a, throws_other (f a)) → throws_other (c ≫= f).
Proof.
  intros Hc Hf s t m s' t'. unfold mbind, X_bind. destruct (c s t) as [[[e|a] s1] t1] eqn:E.
  - intros [= <- <- <-]. by eapply Hc.
  - apply Hf.
Qed.
Lemma throws_checked {A} op (r : outcome A) : (∀ name code, other_error (error_text op name code) = true) → throws_other (checked op r).
Proof. intros H. destruct r; cbn; [apply throws_ret|by apply throws_throw]. Qed.
End Throws.

Ltac throws_step :=
  lazymatch goal with
  | |- throws_other (mret _) => apply throws_ret
  | |- throws_other (throw _) => apply throws_throw; reflexivity
  | |- throws_other xget => apply throws_get
  | |- throws_other (xmodify _) => apply throws_modify
  | |- throws_other (acall _ _) => apply throws_acall
  | |- throws_other (checked _ _) => apply throws_checked; intros; reflexivity
  | |- throws_other (mbind _ _) => apply throws_bind; [|intros ?]
  | |- throws_other (match ?x with _ => _ end) => destruct x
  end.

Section Clients.
Context `{json : AwsJson, env : AwsEnv}.

Lemma resolve_throws : throws_other resolve_shadow_endpoint.
Proof. unfold resolve_shadow_endpoint. repeat throws_step. Qed.

Lemma parse_controller_shadow_throws text : throws_other (parse_controller_shadow text).
Proof.
  unfold parse_controller_shadow, AgentShadow.parse_run, parse_activation, parse_observation, optional, parse_phase,
    AgentShadow.object, AgentShadow.number, AgentShadow.str. repeat throws_step.
Qed.

(** A message taken for a missing Thing is [describe_thing]'s answer 404. *)
Lemma describe_thing_throws thing s t m s' t' :
  describe_thing thing s t = (inl m, s', t') →
  shadow_not_found m = false ∧ (thing_not_found m = true → ∃ name, ADescribeThing (c_str thing) (failure name 404) ∈ t').
Proof.
  unfold describe_thing, mbind, X_bind, acall. destruct (a_describe_thing _ t) as [a|name code]; cbn; [done|].
  intros [= <- <- <-]. split; [done|]. unfold thing_not_found. intros [_ ->%error_text_404]%andb_true_iff. exists name. by left.
Qed.

Lemma has_capability_throws thing c s t m s' t' :
  has_capability thing c s t = (inl m, s', t') →
  shadow_not_found m = false ∧ (thing_not_found m = true → ∃ name, ADescribeThing (c_str thing) (failure name 404) ∈ t').
Proof.
  unfold has_capability, mbind, X_bind. destruct (describe_thing thing s t) as [[[e|a] s1] t1] eqn:E.
  - intros [= <- <- <-]. by eapply describe_thing_throws.
  - clear E. intros H. assert (Ho : other_error m = true).
    { revert H. match goal with |- ?c s1 t1 = _ → _ => assert (throws_other c) as Hc; [repeat throws_step|apply Hc] end. }
    unfold other_error in Ho. bool_simpl. split; [done|]. congruence.
Qed.

Lemma shadow_missing_wp thing name s t :
  xwp (shadow thing name) (λ text _ t', AGetShadow (c_str thing) name (success text) ∈ t')
    (λ m _ t', thing_not_found m = false ∧
       (shadow_not_found m = true ↔ ∃ n rest, t' = AGetShadow (c_str thing) name (failure n 404) :: rest)) s t.
Proof.
  unfold shadow. apply xwp_bind. pose proof (resolve_throws s t) as Hr. unfold xwp at 1.
  destruct (resolve_shadow_endpoint s t) as [[[m|[]] s1] t1] eqn:E.
  - specialize (Hr _ _ _ eq_refl). unfold other_error in Hr. bool_simpl. split; [done|]. split; [congruence|].
    intros (n&rest&->). exfalso. revert E. unfold resolve_shadow_endpoint, mbind, X_bind, xget, acall, checked.
    destruct (shadow_endpoint_resolved_ s); [done|]. destruct (a_describe_endpoint t); [|by intros [=]].
    cbn. case_match; by intros [=].
  - clear Hr E. unfold xwp, mbind, X_bind, acall. destruct (a_get_shadow _ _ t1) as [text|n code]; cbn; [by left|].
    split; [done|]. unfold shadow_not_found. rewrite andb_true_iff, error_text_404. split.
    + intros [_ ->]. by exists n, t1.
    + intros (n'&rest&[= _ ->]). split; [|done]. unfold error_text. rewrite <- !append_assoc. apply prefix_append.
Qed.
(** A message taken for a missing shadow is [GetThingShadow]'s answer 404, and a
    missing shadow is not taken for anything else. *)
Theorem shadow_missing_exact thing name s t :
  xwp (shadow thing name) (λ text _ t', AGetShadow (c_str thing) name (success text) ∈ t')
    (λ m _ t', thing_not_found m = false ∧
       (shadow_not_found m = true ↔ ∃ n rest, t' = AGetShadow (c_str thing) name (failure n 404) :: rest)) s t.
Proof. apply shadow_missing_wp. Qed.
End Clients.
