(* ===== verification/AgentMicrovm.v ===== *)
(** * The application in the MicroVM

    [agent/src/microvm.cpp]: [MicrovmApplication] answers the lifecycle hooks of the
    MicroVM service, runs the device session on a thread of its own after [/run],
    and serves one attached client. The server's thread, the runner's thread and the
    threads of the transports call it; every member function is one or more critical
    sections of one mutex. Before each of them the environment runs any list of
    critical sections of the other threads ([others]).

    The AWS JSON library and the tokenizer jsmn are parameters, as are the clocks,
    the session behind [Actions] and the runner. *)
From stdpp Require Import gmap.
From S2P Require Import Prelude Cpp AwsJson AgentController AgentReconcile AgentCloud AgentSample AgentQueue AgentSession.

#[local] Open Scope Z_scope.

(** ** Data ([microvm.hpp]) *)

Record MicrovmRun := mk_microvm_run {
  mv_id : string; mv_thing : string; mv_region : string;
  mv_run_id : string; mv_activation_id : string; mv_deadline : Z }.

Definition no_run : MicrovmRun := mk_microvm_run EmptyString EmptyString EmptyString EmptyString EmptyString 0.

#[global] Instance MicrovmRun_eq_dec : EqDecision MicrovmRun.
Proof. solve_decision. Defined.

Record HookReply := mk_reply { status_code : Z; reply_body : string }.
Record WireMessage := mk_wire { wire_bytes : Bytes; wire_binary : bool }.

Definition identifier (value : string) (limit : Z) : bool :=
  negb (string_empty value) && (string_size value <=? limit) && only_chars identity_chars value.

(** A quotation mark. *)
Definition dq : string := String "034"%char EmptyString.

Definition reply (code : Z) (value : string) : HookReply :=
  mk_reply code ("{" +:+ dq +:+ "result" +:+ dq +:+ ":" +:+ dq +:+ value +:+ dq +:+ "}").

Definition text_of_bytes (b : Bytes) : string := String.string_of_list_ascii (map (λ z, Ascii.ascii_of_nat (Z.to_nat z)) b).
Definition bytes_of_text (s : string) : Bytes := map (λ c, Z.of_nat (Ascii.nat_of_ascii c)) (String.list_ascii_of_string s).

(** ** Errors of the runner *)

(** [s.rfind(pat)]: the last occurrence. *)
Fixpoint rfind (pat s : string) : option nat :=
  match s with
  | EmptyString => if String.prefix pat s then Some 0%nat else None
  | String _ rest =>
      match rfind pat rest with
      | Some n => Some (S n)
      | None => if String.prefix pat s then Some 0%nat else None
      end
  end.

(** [s.substr(n)] for [n] within the text. *)
Definition substr_from (n : nat) (s : string) : string := String.substring n (String.length s - n) s.

Definition http_operations : list string :=
  ["iot:DescribeThing"; "iot:DescribeEndpoint(Data-ATS)"; "iot:GetThingShadow(sparkplug)"]%string.

(** The loop over the operations. *)
Fixpoint http_error (ops : list string) (detail : string) : option string :=
  match ops with
  | [] => None
  | operation :: ops =>
      if negb (String.prefix (operation +:+ ": ") detail) then http_error ops detail else
      match rfind " HTTP " detail with
      | None => None
      | Some at_ =>
          let status := substr_from (at_ + 6) detail in
          if negb (string_empty status) && (string_size status <=? 3) && only_chars digits status
          then Some (operation +:+ " HTTP " +:+ status) else http_error ops detail
      end
  end.

Definition kvs_prefix : string := "initKvsWebRtc: KVS status 0x".

Definition safe_error (detail : string) : string :=
  match http_error http_operations detail with
  | Some e => e
  | None =>
      let status := substr_from (String.length kvs_prefix) detail in
      if String.prefix kvs_prefix detail
         && (negb (string_empty status) && (string_size status <=? 8) && only_chars hex_chars status)
      then kvs_prefix +:+ status else
      if String.prefix "unsupported registered Thing type" detail then "unsupported registered Thing type" else
      "runtime initialization or execution failed; inspect connection operation/status diagnostics"
  end.

(** ** The run envelope

    jsmn splits the text into at most sixteen tokens; [jsmn_parse] gives the count,
    negative for a failure, and the tokens. *)

Inductive jsmntype := JSMN_UNDEFINED | JSMN_OBJECT | JSMN_ARRAY | JSMN_STRING | JSMN_PRIMITIVE.
Record jsmntok := mk_tok { tok_type : jsmntype; tok_start : Z; tok_end : Z }.

#[global] Instance jsmntype_eq_dec : EqDecision jsmntype.
Proof. solve_decision. Defined.

Class Jsmn := jsmn_parse : string → Z * list jsmntok.

Definition spaces : string := String " " (String "009" (String "013" (String "010" EmptyString))).

Fixpoint remove_spaces (s : string) : string :=
  match s with
  | EmptyString => EmptyString
  | String c s => if string_mem c spaces then remove_spaces s else String c (remove_spaces s)
  end.

Section Envelope.
Context `{jsmn : Jsmn} {E St : Type}.
Abbreviation P := (X E St).

(** [text.substr(begin, count)]; a negative number is a huge [size_t]. *)
Definition substr (text : string) (begin count : Z) : P string :=
  if (begin <? 0) || (string_size text <? begin) then throw "basic_string::substr" else
  mret (String.substring (Z.to_nat begin) (if count <? 0 then String.length text else Z.to_nat count) text).

Definition delimiter (text : string) (begin end_ : Z) (expected : string) : P unit :=
  if end_ <? begin then throw "invalid object" else
  value ← substr text begin (end_ - begin);
  if bool_decide (remove_spaces value = expected) then mret tt else throw "invalid object separator".

(** The characters of a string token: [left] of them from [index] on. The text
    ends with a NUL. *)
Definition char_at (text : string) (index : Z) : Ascii.ascii :=
  default "000"%char (String.get (Z.to_nat index) text).

Fixpoint decode_loop (fuel : nat) (text : string) (index end_ : Z) (value : string) : P string :=
  match fuel with
  | O => mret value
  | S fuel =>
      if end_ <=? index then mret value else
      let c := char_at text index in
      if Ascii.eqb c "\"%char then
        if end_ <=? index + 1 then throw "invalid escape" else
        let c := char_at text (index + 1) in
        if negb (Ascii.eqb c "034"%char) && negb (Ascii.eqb c "\"%char) && negb (Ascii.eqb c "/"%char)
        then throw "unsupported escape"
        else decode_loop fuel text (index + 2) end_ (value +:+ String c EmptyString)
      else decode_loop fuel text (index + 1) end_ (value +:+ String c EmptyString)
  end.

Definition decode (text : string) (token : jsmntok) : P string :=
  if negb (bool_decide (tok_type token = JSMN_STRING)) then throw "expected string" else
  decode_loop (Z.to_nat (tok_end token - tok_start token)) text (tok_start token) (tok_end token) EmptyString.

Definition no_token : jsmntok := mk_tok JSMN_UNDEFINED (-1) (-1).

(** The loop over the pairs, from token [index] on. *)
Fixpoint fields_loop (pairs : nat) (text : string) (tokens : list jsmntok) (count : Z) (index : nat)
    (fields : gmap string string) : P (gmap string string) :=
  match pairs with
  | O => mret fields
  | S pairs =>
      let tok i := default no_token (tokens !! i) in
      let more := Z.of_nat index + 2 <? count in
      _ ← delimiter text (tok_end (tok index) + 1) (tok_start (tok (index + 1)%nat) - 1) ":";
      _ ← delimiter text (tok_end (tok (index + 1)%nat) + 1)
            (if more then tok_start (tok (index + 2)%nat) - 1 else tok_end (tok 0%nat) - 1)
            (if more then "," else EmptyString);
      name ← decode text (tok index);
      value ← decode text (tok (index + 1)%nat);
      match fields !! name with
      | Some _ => throw "duplicate field"
      | None => fields_loop pairs text tokens count (index + 2)%nat (<[name := value]> fields)
      end
  end.

Definition string_fields (text : string) : P (gmap string string) :=
  let '(count, tokens) := jsmn_parse text in
  let tok i := default no_token (tokens !! i) in
  if (count <? 3) || negb (Z.rem count 2 =? 1) || negb (bool_decide (tok_type (tok 0%nat) = JSMN_OBJECT))
  then throw "expected string object" else
  before ← substr text 0 (tok_start (tok 0%nat));
  after ← (if only_chars spaces before
           then substr text (tok_end (tok 0%nat)) (string_size text - tok_end (tok 0%nat))
           else throw "trailing JSON");
  if negb (only_chars spaces after) then throw "trailing JSON" else
  _ ← delimiter text (tok_start (tok 0%nat) + 1) (tok_start (tok 1%nat) - 1) EmptyString;
  fields_loop (Z.to_nat (Z.quot count 2)) text tokens count 1 ∅.

(** [map.at(name)]. *)
Definition at_key (fields : gmap string string) (name : string) : P string :=
  match fields !! name with
  | Some v => mret v
  | None => throw "map::at"
  end.

(** [std::stoll] of a text of digits. *)
Fixpoint digits_value (value : string) (acc : Z) : Z :=
  match value with
  | EmptyString => acc
  | String c rest => digits_value rest (acc * 10 + (Z.of_nat (Ascii.nat_of_ascii c) - 48))
  end.
Definition stoll (value : string) : P Z :=
  if INT64_MAX <? digits_value value 0 then throw "stoll" else mret (digits_value value 0).

(** The run that the body of [/run] names. *)
Definition parse_run (require_assignment : bool) (body : string) : P MicrovmRun :=
  envelope ← string_fields body;
  if negb (Z.of_nat (size envelope) =? 2) then throw "unexpected envelope fields" else
  id ← at_key envelope "microvmId";
  hook_payload ← at_key envelope "runHookPayload";
  payload ← string_fields hook_payload;
  if negb (Z.of_nat (size payload) =? (if require_assignment then 5 else 2)) then throw "unexpected run fields" else
  thing ← at_key payload "thingId";
  region ← at_key payload "region";
  next ← (if require_assignment then
            run_id ← at_key payload "runId";
            activation_id ← at_key payload "activationId";
            deadline ← at_key payload "deadline";
            if string_empty deadline || negb (only_chars digits deadline) then throw "invalid deadline" else
            d ← stoll deadline;
            if (d <=? 0) || negb (identifier run_id 128) || negb (identifier activation_id 128)
            then throw "invalid cloud assignment" else
            mret (mk_microvm_run id thing region run_id activation_id d)
          else mret (mk_microvm_run id thing region EmptyString EmptyString 0));
  if negb (identifier (mv_id next) 256) || negb (identifier (mv_thing next) 128)
     || negb (bool_decide (mv_region next = "eu-central-1"))
  then throw "invalid probe identity or region" else mret next.
End Envelope.

(** ** The assignment of a run *)

(** [assigned_run_lifecycle]: what the run's own records say about it. *)
Definition assigned_run_lifecycle {E S} (r : MicrovmRun) (projection : ProjectionObservation)
    (assignment : ControllerState) : X E S Lifecycle :=
  let dead := mret (mk_lifecycle false 4) in
  match run assignment, activation (ctl_activation assignment) with
  | Some cr, Some a =>
      if negb (bool_decide (run_id cr = mv_run_id r)) || negb (bool_decide (act_id a = mv_activation_id r))
         || negb (deadline a =? mv_deadline r) || negb (bool_decide (activation_id cr = mv_activation_id r))
         || bool_decide (phase cr = stopping)
      then dead else
      if bool_decide (phase cr = reserved) && (string_empty (microvm_id cr) || bool_decide (microvm_id cr = mv_id r))
      then throw "agent assignment pending" else
      if negb (bool_decide (phase cr = running)) || negb (bool_decide (microvm_id cr = mv_id r)) then dead else
      if negb (default false (obs_active projection)) || (obs_redcon projection <? 1) || (2 <? obs_redcon projection)
      then dead else
      if negb (projection_matches_active (ctl_activation assignment) projection)
      then throw "stale or inconsistent lifecycle projection" else
      mret (mk_lifecycle true (obs_redcon projection))
  | _, _ => dead
  end.

(** ** The state *)

Record MicrovmApplication := mk_app {
  require_assignment_ : bool; has_prepare_ : bool; stopping_ : bool; worker_ : bool; run_ : MicrovmRun;
  started_ : Z; phase_ : string; reason_ : string; credentials_ : string; codec_ : string; control_state_ :
  string; control_error_ : string; telemetry_ : Z; video_ : Z; presentation_ : Z; receipt_ : Z; frame_bytes_ :
  Z; connections_ : Connection * Connection; errors_ : string * string; actions_ : bool; attached_ : bool;
  held_ : bool; prepared_ : bool; control_attempted_ : bool; authorized_ : bool; assignment_verified_at_ : Z;
  wake_ : bool; outgoing_ : Queue WireMessage }.

Definition set_stopping_ (v : bool) (s : MicrovmApplication) : MicrovmApplication :=
  mk_app (require_assignment_ s) (has_prepare_ s) v (worker_ s) (run_ s) (started_ s) (phase_ s) (reason_ s) (credentials_ s) (codec_ s) (control_state_ s) (control_error_ s) (telemetry_ s) (video_ s) (presentation_ s) (receipt_ s) (frame_bytes_ s) (connections_ s) (errors_ s) (actions_ s) (attached_ s) (held_ s) (prepared_ s) (control_attempted_ s) (authorized_ s) (assignment_verified_at_ s) (wake_ s) (outgoing_ s).
Definition set_worker_ (v : bool) (s : MicrovmApplication) : MicrovmApplication :=
  mk_app (require_assignment_ s) (has_prepare_ s) (stopping_ s) v (run_ s) (started_ s) (phase_ s) (reason_ s) (credentials_ s) (codec_ s) (control_state_ s) (control_error_ s) (telemetry_ s) (video_ s) (presentation_ s) (receipt_ s) (frame_bytes_ s) (connections_ s) (errors_ s) (actions_ s) (attached_ s) (held_ s) (prepared_ s) (control_attempted_ s) (authorized_ s) (assignment_verified_at_ s) (wake_ s) (outgoing_ s).
Definition set_run_ (v : MicrovmRun) (s : MicrovmApplication) : MicrovmApplication :=
  mk_app (require_assignment_ s) (has_prepare_ s) (stopping_ s) (worker_ s) v (started_ s) (phase_ s) (reason_ s) (credentials_ s) (codec_ s) (control_state_ s) (control_error_ s) (telemetry_ s) (video_ s) (presentation_ s) (receipt_ s) (frame_bytes_ s) (connections_ s) (errors_ s) (actions_ s) (attached_ s) (held_ s) (prepared_ s) (control_attempted_ s) (authorized_ s) (assignment_verified_at_ s) (wake_ s) (outgoing_ s).
Definition set_started_ (v : Z) (s : MicrovmApplication) : MicrovmApplication :=
  mk_app (require_assignment_ s) (has_prepare_ s) (stopping_ s) (worker_ s) (run_ s) v (phase_ s) (reason_ s) (credentials_ s) (codec_ s) (control_state_ s) (control_error_ s) (telemetry_ s) (video_ s) (presentation_ s) (receipt_ s) (frame_bytes_ s) (connections_ s) (errors_ s) (actions_ s) (attached_ s) (held_ s) (prepared_ s) (control_attempted_ s) (authorized_ s) (assignment_verified_at_ s) (wake_ s) (outgoing_ s).
Definition set_phase_ (v : string) (s : MicrovmApplication) : MicrovmApplication :=
  mk_app (require_assignment_ s) (has_prepare_ s) (stopping_ s) (worker_ s) (run_ s) (started_ s) v (reason_ s) (credentials_ s) (codec_ s) (control_state_ s) (control_error_ s) (telemetry_ s) (video_ s) (presentation_ s) (receipt_ s) (frame_bytes_ s) (connections_ s) (errors_ s) (actions_ s) (attached_ s) (held_ s) (prepared_ s) (control_attempted_ s) (authorized_ s) (assignment_verified_at_ s) (wake_ s) (outgoing_ s).
Definition set_reason_ (v : string) (s : MicrovmApplication) : MicrovmApplication :=
  mk_app (require_assignment_ s) (has_prepare_ s) (stopping_ s) (worker_ s) (run_ s) (started_ s) (phase_ s) v (credentials_ s) (codec_ s) (control_state_ s) (control_error_ s) (telemetry_ s) (video_ s) (presentation_ s) (receipt_ s) (frame_bytes_ s) (connections_ s) (errors_ s) (actions_ s) (attached_ s) (held_ s) (prepared_ s) (control_attempted_ s) (authorized_ s) (assignment_verified_at_ s) (wake_ s) (outgoing_ s).
Definition set_credentials_ (v : string) (s : MicrovmApplication) : MicrovmApplication :=
  mk_app (require_assignment_ s) (has_prepare_ s) (stopping_ s) (worker_ s) (run_ s) (started_ s) (phase_ s) (reason_ s) v (codec_ s) (control_state_ s) (control_error_ s) (telemetry_ s) (video_ s) (presentation_ s) (receipt_ s) (frame_bytes_ s) (connections_ s) (errors_ s) (actions_ s) (attached_ s) (held_ s) (prepared_ s) (control_attempted_ s) (authorized_ s) (assignment_verified_at_ s) (wake_ s) (outgoing_ s).
Definition set_codec_ (v : string) (s : MicrovmApplication) : MicrovmApplication :=
  mk_app (require_assignment_ s) (has_prepare_ s) (stopping_ s) (worker_ s) (run_ s) (started_ s) (phase_ s) (reason_ s) (credentials_ s) v (control_state_ s) (control_error_ s) (telemetry_ s) (video_ s) (presentation_ s) (receipt_ s) (frame_bytes_ s) (connections_ s) (errors_ s) (actions_ s) (attached_ s) (held_ s) (prepared_ s) (control_attempted_ s) (authorized_ s) (assignment_verified_at_ s) (wake_ s) (outgoing_ s).
Definition set_control_state_ (v : string) (s : MicrovmApplication) : MicrovmApplication :=
  mk_app (require_assignment_ s) (has_prepare_ s) (stopping_ s) (worker_ s) (run_ s) (started_ s) (phase_ s) (reason_ s) (credentials_ s) (codec_ s) v (control_error_ s) (telemetry_ s) (video_ s) (presentation_ s) (receipt_ s) (frame_bytes_ s) (connections_ s) (errors_ s) (actions_ s) (attached_ s) (held_ s) (prepared_ s) (control_attempted_ s) (authorized_ s) (assignment_verified_at_ s) (wake_ s) (outgoing_ s).
Definition set_control_error_ (v : string) (s : MicrovmApplication) : MicrovmApplication :=
  mk_app (require_assignment_ s) (has_prepare_ s) (stopping_ s) (worker_ s) (run_ s) (started_ s) (phase_ s) (reason_ s) (credentials_ s) (codec_ s) (control_state_ s) v (telemetry_ s) (video_ s) (presentation_ s) (receipt_ s) (frame_bytes_ s) (connections_ s) (errors_ s) (actions_ s) (attached_ s) (held_ s) (prepared_ s) (control_attempted_ s) (authorized_ s) (assignment_verified_at_ s) (wake_ s) (outgoing_ s).
Definition set_telemetry_ (v : Z) (s : MicrovmApplication) : MicrovmApplication :=
  mk_app (require_assignment_ s) (has_prepare_ s) (stopping_ s) (worker_ s) (run_ s) (started_ s) (phase_ s) (reason_ s) (credentials_ s) (codec_ s) (control_state_ s) (control_error_ s) v (video_ s) (presentation_ s) (receipt_ s) (frame_bytes_ s) (connections_ s) (errors_ s) (actions_ s) (attached_ s) (held_ s) (prepared_ s) (control_attempted_ s) (authorized_ s) (assignment_verified_at_ s) (wake_ s) (outgoing_ s).
Definition set_video_ (v : Z) (s : MicrovmApplication) : MicrovmApplication :=
  mk_app (require_assignment_ s) (has_prepare_ s) (stopping_ s) (worker_ s) (run_ s) (started_ s) (phase_ s) (reason_ s) (credentials_ s) (codec_ s) (control_state_ s) (control_error_ s) (telemetry_ s) v (presentation_ s) (receipt_ s) (frame_bytes_ s) (connections_ s) (errors_ s) (actions_ s) (attached_ s) (held_ s) (prepared_ s) (control_attempted_ s) (authorized_ s) (assignment_verified_at_ s) (wake_ s) (outgoing_ s).
Definition set_presentation_ (v : Z) (s : MicrovmApplication) : MicrovmApplication :=
  mk_app (require_assignment_ s) (has_prepare_ s) (stopping_ s) (worker_ s) (run_ s) (started_ s) (phase_ s) (reason_ s) (credentials_ s) (codec_ s) (control_state_ s) (control_error_ s) (telemetry_ s) (video_ s) v (receipt_ s) (frame_bytes_ s) (connections_ s) (errors_ s) (actions_ s) (attached_ s) (held_ s) (prepared_ s) (control_attempted_ s) (authorized_ s) (assignment_verified_at_ s) (wake_ s) (outgoing_ s).
Definition set_receipt_ (v : Z) (s : MicrovmApplication) : MicrovmApplication :=
  mk_app (require_assignment_ s) (has_prepare_ s) (stopping_ s) (worker_ s) (run_ s) (started_ s) (phase_ s) (reason_ s) (credentials_ s) (codec_ s) (control_state_ s) (control_error_ s) (telemetry_ s) (video_ s) (presentation_ s) v (frame_bytes_ s) (connections_ s) (errors_ s) (actions_ s) (attached_ s) (held_ s) (prepared_ s) (control_attempted_ s) (authorized_ s) (assignment_verified_at_ s) (wake_ s) (outgoing_ s).
Definition set_frame_bytes_ (v : Z) (s : MicrovmApplication) : MicrovmApplication :=
  mk_app (require_assignment_ s) (has_prepare_ s) (stopping_ s) (worker_ s) (run_ s) (started_ s) (phase_ s) (reason_ s) (credentials_ s) (codec_ s) (control_state_ s) (control_error_ s) (telemetry_ s) (video_ s) (presentation_ s) (receipt_ s) v (connections_ s) (errors_ s) (actions_ s) (attached_ s) (held_ s) (prepared_ s) (control_attempted_ s) (authorized_ s) (assignment_verified_at_ s) (wake_ s) (outgoing_ s).
Definition set_connections_ (v : Connection * Connection) (s : MicrovmApplication) : MicrovmApplication :=
  mk_app (require_assignment_ s) (has_prepare_ s) (stopping_ s) (worker_ s) (run_ s) (started_ s) (phase_ s) (reason_ s) (credentials_ s) (codec_ s) (control_state_ s) (control_error_ s) (telemetry_ s) (video_ s) (presentation_ s) (receipt_ s) (frame_bytes_ s) v (errors_ s) (actions_ s) (attached_ s) (held_ s) (prepared_ s) (control_attempted_ s) (authorized_ s) (assignment_verified_at_ s) (wake_ s) (outgoing_ s).
Definition set_errors_ (v : string * string) (s : MicrovmApplication) : MicrovmApplication :=
  mk_app (require_assignment_ s) (has_prepare_ s) (stopping_ s) (worker_ s) (run_ s) (started_ s) (phase_ s) (reason_ s) (credentials_ s) (codec_ s) (control_state_ s) (control_error_ s) (telemetry_ s) (video_ s) (presentation_ s) (receipt_ s) (frame_bytes_ s) (connections_ s) v (actions_ s) (attached_ s) (held_ s) (prepared_ s) (control_attempted_ s) (authorized_ s) (assignment_verified_at_ s) (wake_ s) (outgoing_ s).
Definition set_actions_ (v : bool) (s : MicrovmApplication) : MicrovmApplication :=
  mk_app (require_assignment_ s) (has_prepare_ s) (stopping_ s) (worker_ s) (run_ s) (started_ s) (phase_ s) (reason_ s) (credentials_ s) (codec_ s) (control_state_ s) (control_error_ s) (telemetry_ s) (video_ s) (presentation_ s) (receipt_ s) (frame_bytes_ s) (connections_ s) (errors_ s) v (attached_ s) (held_ s) (prepared_ s) (control_attempted_ s) (authorized_ s) (assignment_verified_at_ s) (wake_ s) (outgoing_ s).
Definition set_attached_ (v : bool) (s : MicrovmApplication) : MicrovmApplication :=
  mk_app (require_assignment_ s) (has_prepare_ s) (stopping_ s) (worker_ s) (run_ s) (started_ s) (phase_ s) (reason_ s) (credentials_ s) (codec_ s) (control_state_ s) (control_error_ s) (telemetry_ s) (video_ s) (presentation_ s) (receipt_ s) (frame_bytes_ s) (connections_ s) (errors_ s) (actions_ s) v (held_ s) (prepared_ s) (control_attempted_ s) (authorized_ s) (assignment_verified_at_ s) (wake_ s) (outgoing_ s).
Definition set_held_ (v : bool) (s : MicrovmApplication) : MicrovmApplication :=
  mk_app (require_assignment_ s) (has_prepare_ s) (stopping_ s) (worker_ s) (run_ s) (started_ s) (phase_ s) (reason_ s) (credentials_ s) (codec_ s) (control_state_ s) (control_error_ s) (telemetry_ s) (video_ s) (presentation_ s) (receipt_ s) (frame_bytes_ s) (connections_ s) (errors_ s) (actions_ s) (attached_ s) v (prepared_ s) (control_attempted_ s) (authorized_ s) (assignment_verified_at_ s) (wake_ s) (outgoing_ s).
Definition set_prepared_ (v : bool) (s : MicrovmApplication) : MicrovmApplication :=
  mk_app (require_assignment_ s) (has_prepare_ s) (stopping_ s) (worker_ s) (run_ s) (started_ s) (phase_ s) (reason_ s) (credentials_ s) (codec_ s) (control_state_ s) (control_error_ s) (telemetry_ s) (video_ s) (presentation_ s) (receipt_ s) (frame_bytes_ s) (connections_ s) (errors_ s) (actions_ s) (attached_ s) (held_ s) v (control_attempted_ s) (authorized_ s) (assignment_verified_at_ s) (wake_ s) (outgoing_ s).
Definition set_control_attempted_ (v : bool) (s : MicrovmApplication) : MicrovmApplication :=
  mk_app (require_assignment_ s) (has_prepare_ s) (stopping_ s) (worker_ s) (run_ s) (started_ s) (phase_ s) (reason_ s) (credentials_ s) (codec_ s) (control_state_ s) (control_error_ s) (telemetry_ s) (video_ s) (presentation_ s) (receipt_ s) (frame_bytes_ s) (connections_ s) (errors_ s) (actions_ s) (attached_ s) (held_ s) (prepared_ s) v (authorized_ s) (assignment_verified_at_ s) (wake_ s) (outgoing_ s).
Definition set_authorized_ (v : bool) (s : MicrovmApplication) : MicrovmApplication :=
  mk_app (require_assignment_ s) (has_prepare_ s) (stopping_ s) (worker_ s) (run_ s) (started_ s) (phase_ s) (reason_ s) (credentials_ s) (codec_ s) (control_state_ s) (control_error_ s) (telemetry_ s) (video_ s) (presentation_ s) (receipt_ s) (frame_bytes_ s) (connections_ s) (errors_ s) (actions_ s) (attached_ s) (held_ s) (prepared_ s) (control_attempted_ s) v (assignment_verified_at_ s) (wake_ s) (outgoing_ s).
Definition set_assignment_verified_at_ (v : Z) (s : MicrovmApplication) : MicrovmApplication :=
  mk_app (require_assignment_ s) (has_prepare_ s) (stopping_ s) (worker_ s) (run_ s) (started_ s) (phase_ s) (reason_ s) (credentials_ s) (codec_ s) (control_state_ s) (control_error_ s) (telemetry_ s) (video_ s) (presentation_ s) (receipt_ s) (frame_bytes_ s) (connections_ s) (errors_ s) (actions_ s) (attached_ s) (held_ s) (prepared_ s) (control_attempted_ s) (authorized_ s) v (wake_ s) (outgoing_ s).
Definition set_wake_ (v : bool) (s : MicrovmApplication) : MicrovmApplication :=
  mk_app (require_assignment_ s) (has_prepare_ s) (stopping_ s) (worker_ s) (run_ s) (started_ s) (phase_ s) (reason_ s) (credentials_ s) (codec_ s) (control_state_ s) (control_error_ s) (telemetry_ s) (video_ s) (presentation_ s) (receipt_ s) (frame_bytes_ s) (connections_ s) (errors_ s) (actions_ s) (attached_ s) (held_ s) (prepared_ s) (control_attempted_ s) (authorized_ s) (assignment_verified_at_ s) v (outgoing_ s).
Definition set_outgoing_ (v : Queue WireMessage) (s : MicrovmApplication) : MicrovmApplication :=
  mk_app (require_assignment_ s) (has_prepare_ s) (stopping_ s) (worker_ s) (run_ s) (started_ s) (phase_ s) (reason_ s) (credentials_ s) (codec_ s) (control_state_ s) (control_error_ s) (telemetry_ s) (video_ s) (presentation_ s) (receipt_ s) (frame_bytes_ s) (connections_ s) (errors_ s) (actions_ s) (attached_ s) (held_ s) (prepared_ s) (control_attempted_ s) (authorized_ s) (assignment_verified_at_ s) (wake_ s) v.

(** [MicrovmApplication(runner, prepare, require_assignment)]. *)
Definition new_application (has_prepare require_assignment : bool) : MicrovmApplication :=
  mk_app require_assignment has_prepare false false no_run 0 "waiting-for-run" EmptyString "{}" EmptyString "observing" EmptyString
    0 0 0 0 0 (conn_stopped, conn_stopped) (EmptyString, EmptyString) false false false false false (negb require_assignment) 0
    false (new_queue 128 (512 * 1024)).

(** ** What the application does to the outside

    A call of a member function that the outside makes and that decides what comes
    later is an event of its own; a reading of the steady clock names the function
    that reads it. *)

Inductive clock_site := at_attach | at_attached | at_message | at_publish | at_status | at_start.

Inductive mv_event :=
  | VDetach
  | VActions (given : bool)
  | VAuthorized (value : bool) (verified_at : Z)
  | VStopped (reason : string)
  | VStopping
  | VStop
  | VSteady (site : clock_site) (now : Z)
  | VWall (now : Z)
  | VPrepare (r : string + unit)
  | VThread (r : MicrovmRun) (started : string + unit)
  | VRelease
  | VActivity
  | VAcquire (actor : string) (queued : bool)
  | VSend (frame : Bytes) (accepted : bool)
  | VOutgoing (message : option WireMessage)
  | VWake.

(** The critical sections that may come between two of one member function. The
    hooks and [stop] belong to the serving thread alone. *)
Inductive section :=
  | sec_attach
  | sec_attached
  | sec_detach
  | sec_message (bytes : Bytes) (binary : bool)
  | sec_publish (message : WireMessage)
  | sec_outgoing
  | sec_wake_with (given : bool)
  | sec_actions (given : bool)
  | sec_authorized (value : bool) (verified_at : Z)
  | sec_credential_status (status : string)
  | sec_stopped (reason : string)
  | sec_status
  | sec_telemetry
  | sec_video (frame : EncodedVideo)
  | sec_connection (stream : Stream) (state : Connection) (error : string)
  | sec_control (held : bool) (reason : string).

Class MicrovmEnv `{json : AwsJson} := {
  v_steady : list mv_event → Z;
  v_wall : list mv_event → Z;
  v_prepare : list mv_event → string + unit;
  v_thread : list mv_event → string + unit;
  v_acquire : string → list mv_event → bool;
  v_send : Bytes → list mv_event → bool;
  v_others : list mv_event → list section;
  (** The value of a parsed document, put into another one. *)
  view_value : JsonView → json_value;
  build_id : string }.

Section Application.
Context `{json : AwsJson, jsmn : Jsmn, env : !MicrovmEnv}.
Abbreviation P := (X mv_event MicrovmApplication).

Definition vcall {A} (e : A → mv_event) (f : list mv_event → A) : P A :=
  λ s t, (inr (f t), s, e (f t) :: t).

Definition steady (site : clock_site) : P Z := vcall (VSteady site) v_steady.

(** [if (actions_) actions_->release()] and the like. *)
Definition release_actions : P unit := s ← xget; xwhen (actions_ s) (xemit VRelease).
Definition activity_actions : P unit := s ← xget; xwhen (actions_ s) (xemit VActivity).

(** [while (outgoing_.pop()) {}]. *)
Fixpoint pop_all (n : nat) (q : Queue WireMessage) : Queue WireMessage :=
  match n with
  | O => q
  | S n => match pop q with
           | (None, q) => q
           | (Some _, q) => pop_all n q
           end
  end.
Definition drain : P unit :=
  xmodify (λ s, set_outgoing_ (pop_all (length (items_ (outgoing_ s))) (outgoing_ s)) s).

Definition assignment_fresh (s : MicrovmApplication) (now : Z) : bool :=
  authorized_ s && (negb (require_assignment_ s)
    || (negb (assignment_verified_at_ s =? 0) && (assignment_verified_at_ s <=? now)
        && (now - assignment_verified_at_ s <? seconds 15))).

(** ** The critical sections *)

Definition attach_section : P bool :=
  s ← xget;
  if attached_ s || negb (bool_decide (phase_ s = "running"%string)) then mret false else
  now ← steady at_attach;
  if negb (assignment_fresh s now) then mret false else
  _ ← drain;
  _ ← xmodify (set_attached_ true);
  _ ← xmodify (set_control_attempted_ false);
  mret true.

Definition attached_section : P bool :=
  s ← xget;
  if negb (attached_ s) then mret false else
  now ← steady at_attached;
  mret (assignment_fresh s now).

Definition detach_section : P unit :=
  _ ← xemit VDetach;
  _ ← xmodify (set_attached_ false);
  _ ← release_actions;
  drain.

Definition parse (value : string) : P JsonView :=
  match json_parse (c_str value) with
  | Some view => if IsObject view then mret view else throw "invalid JSON object"
  | None => throw "invalid JSON object"
  end.

Definition field (view : JsonView) (name : string) : P string :=
  if negb (ValueExists view name) || negb (IsString (GetObject view name)) then throw "missing string field"
  else mret (c_str (GetString view name)).

(** A text command; [None] is a request for the status. *)
Definition command (bytes : Bytes) : P (option (list (string * json_value))) :=
  view ← parse (text_of_bytes bytes);
  type ← field view "type";
  if bool_decide (type = "ping"%string) then mret (Some [("type"%string, JString "pong")]) else
  if bool_decide (type = "status"%string) then mret None else
  if bool_decide (type = "activity"%string) then
    _ ← activity_actions;
    mret (Some [("type"%string, JString "activity.queued")])
  else if bool_decide (type = "acquire"%string) then
    actor ← field view "actor";
    s ← xget;
    queued ← (if actions_ s && negb (control_attempted_ s) && (string_size actor <=? 128)
              then vcall (VAcquire actor) (v_acquire actor) else mret false);
    _ ← xwhen queued
          (_ ← xmodify (set_control_attempted_ true);
           _ ← xmodify (set_control_state_ "acquiring");
           xmodify (set_control_error_ EmptyString));
    mret (Some [("type"%string, JString "acquire.queued"); ("queued"%string, JBool queued)])
  else if bool_decide (type = "release"%string) then
    _ ← release_actions;
    mret (Some [("type"%string, JString "release.queued")])
  else throw "unknown attachment command".

Inductive response := no_response | status_requested | document (fields : list (string * json_value)).

Definition message_section (bytes : Bytes) (binary : bool) : P response :=
  s ← xget;
  if negb (attached_ s) then mret no_response else
  now ← steady at_message;
  if negb (assignment_fresh s now) then
    _ ← release_actions;
    _ ← xmodify (set_attached_ false);
    _ ← drain;
    mret no_response
  else if binary then
    let valid := valid_mavlink2 bytes in
    _ ← xwhen valid activity_actions;
    accepted ← (if actions_ s && valid then vcall (VSend bytes) (v_send bytes) else mret false);
    mret (document [("type"%string, JString "send.result"); ("accepted"%string, JBool accepted)])
  else
    try_catch
      (r ← command bytes;
       mret (match r with None => status_requested | Some fields => document fields end))
      (λ _, mret (document [("type"%string, JString "error"); ("message"%string, JString "invalid attachment command")])).

Definition publish_section (message : WireMessage) : P unit :=
  s ← xget;
  if negb (attached_ s) then mret tt else
  now ← steady at_publish;
  if negb (assignment_fresh s now) then mret tt else
  _ ← xmodify (λ s, set_outgoing_ (push (outgoing_ s) message (Z.of_nat (length (wire_bytes message)))).2 s);
  xwhen (wake_ s) (xemit VWake).

(** [outgoing_] has its own mutex. *)
Definition outgoing_section : P (option WireMessage) :=
  s ← xget;
  let '(m, q) := pop (outgoing_ s) in
  _ ← xmodify (set_outgoing_ q);
  _ ← xemit (VOutgoing m);
  mret m.

Definition wake_with_section (given : bool) : P unit := xmodify (set_wake_ given).

(** [stopping_ = true] is atomic; the second half of [stop] runs when the worker
    has ended. *)
Definition stopping_section : P unit := _ ← xemit VStopping; xmodify (set_stopping_ true).
Definition stop_section : P unit :=
  _ ← xemit VStop;
  _ ← xmodify (set_phase_ "stopped");
  xmodify (set_attached_ false).

Definition actions_section (given : bool) : P unit := _ ← xemit (VActions given); xmodify (set_actions_ given).

Definition authorized_section (value : bool) (verified_at : Z) : P unit :=
  _ ← xemit (VAuthorized value verified_at);
  s ← xget;
  _ ← xwhen (authorized_ s && negb value)
        (_ ← release_actions; _ ← xmodify (set_attached_ false); drain);
  _ ← xmodify (set_authorized_ value);
  xmodify (set_assignment_verified_at_ (if value then verified_at else 0)).

Definition credential_status_section (status : string) : P unit := xmodify (set_credentials_ status).

Definition stopped_section (reason : string) : P unit :=
  _ ← xemit (VStopped reason);
  _ ← xmodify (set_reason_ reason);
  _ ← xmodify (set_phase_ "stopped");
  _ ← xmodify (set_authorized_ false);
  _ ← xmodify (set_attached_ false);
  _ ← xmodify (set_actions_ false);
  drain.

Definition telemetry_section : P unit := xmodify (λ s, set_telemetry_ (u64 (telemetry_ s + 1)) s).

Definition video_section (frame : EncodedVideo) : P unit :=
  _ ← xmodify (λ s, set_video_ (u64 (video_ s + 1)) s);
  _ ← xmodify (set_codec_ (codec frame));
  _ ← xmodify (set_frame_bytes_ (Z.of_nat (length (video_bytes frame))));
  _ ← xmodify (set_presentation_ (presentation_100ns frame));
  xmodify (set_receipt_ (u64 (Z.quot (video_received frame) (10 ^ 6)))).

Definition connection_section (stream : Stream) (state : Connection) (error : string) : P unit :=
  xmodify (λ s,
    match stream with
    | stream_video => set_errors_ ((errors_ s).1, error) (set_connections_ ((connections_ s).1, state) s)
    | stream_telemetry => set_errors_ (error, (errors_ s).2) (set_connections_ (state, (connections_ s).2) s)
    end).

Definition safe_reasons : list string :=
  ["control_busy"; "stale_epoch"; "invalid_request";
   "control error"; "control unavailable"; "control request send failed"; "invalid lease state";
   "board control ownership changed"; "unexpected control response"; "telemetry stopped";
   "telemetry connection lost"; "operator exception or control response overload";
   "client inactivity or lease expiry"; "control request timed out"; "operator released"; "MAVLink send failed"]%string.

Definition control_section (held : bool) (reason : string) : P unit :=
  _ ← xmodify (set_held_ held);
  _ ← xmodify (set_control_state_ (if held then "held" else "lost"));
  _ ← xmodify (set_control_error_ EmptyString);
  xwhen (negb held)
    (xmodify (set_control_error_ (if bool_decide (reason ∈ safe_reasons) then reason else "control operation failed"))).

(** The document of [status]. *)
Definition status_fields (s : MicrovmApplication) (now uptime_now : Z) (credentials : JsonView) : list (string * json_value) :=
  [("buildId", JString build_id); ("phase", JString (c_str (phase_ s))); ("microvmId", JString (c_str (mv_id (run_ s))));
   ("thingId", JString (c_str (mv_thing (run_ s)))); ("region", JString (c_str (mv_region (run_ s))));
   ("attached", JBool (attached_ s)); ("controlHeld", JBool (held_ s)); ("stopReason", JString (c_str (reason_ s)));
   ("telemetryMessages", JInt64 (s64 (telemetry_ s))); ("videoFrames", JInt64 (s64 (video_ s)));
   ("attachmentDrops", JInt64 (s64 (dropped_ (outgoing_ s))))]%string
  ++ (if string_empty (mv_run_id (run_ s)) then [] else
      [("runId", JString (c_str (mv_run_id (run_ s)))); ("activationId", JString (c_str (mv_activation_id (run_ s))));
       ("deadline", JInt64 (mv_deadline (run_ s))); ("assignmentVerified", JBool (assignment_fresh s now))]%string)
  ++ (if string_empty (mv_run_id (run_ s)) || (assignment_verified_at_ s =? 0) || (now <? assignment_verified_at_ s) then [] else
      [("assignmentAgeMs"%string, JInt64 (Z.quot (now - assignment_verified_at_ s) (10 ^ 6)))])
  ++ (if started_ s =? 0 then [] else [("uptimeMs"%string, JInt64 (Z.quot (uptime_now - started_ s) (10 ^ 6)))])
  ++ [("lastVideo", JObject [("codec", JString (c_str (codec_ s))); ("bytes", JInt64 (s64 (frame_bytes_ s)));
                             ("presentation100ns", JInt64 (s64 (presentation_ s))); ("receiptUnixMs", JInt64 (s64 (receipt_ s)))]);
      ("credentials", view_value credentials);
      ("control", JObject [("state", JString (c_str (control_state_ s))); ("error", JString (c_str (control_error_ s)))]);
      ("telemetry", JObject [("state", JInt64 (connection_code (connections_ s).1));
                             ("error", JString (c_str (safe_connection_diagnostic (errors_ s).1)))]);
      ("video", JObject [("state", JInt64 (connection_code (connections_ s).2));
                         ("error", JString (c_str (safe_connection_diagnostic (errors_ s).2)))])]%string.

Definition status_section : P string :=
  s ← xget;
  if negb (prepared_ s) then
    mret ("{" +:+ dq +:+ "phase" +:+ dq +:+ ":" +:+ dq +:+ phase_ s +:+ dq +:+ "," +:+ dq +:+ "credentials" +:+ dq +:+ ":{},"
      +:+ dq +:+ "telemetryMessages" +:+ dq +:+ ":0," +:+ dq +:+ "videoFrames" +:+ dq +:+ ":0,"
      +:+ dq +:+ "microvmId" +:+ dq +:+ ":" +:+ dq +:+ dq +:+ "}")
  else
  now ← steady at_status;
  uptime_now ← (if started_ s =? 0 then mret 0 else steady at_status);
  credentials ← parse (credentials_ s);
  mret (c_str (WriteCompact (status_fields s now uptime_now credentials))).

(** ** The member functions *)

Definition run_section (c : section) : P unit :=
  match c with
  | sec_attach => _ ← attach_section; mret tt
  | sec_attached => _ ← attached_section; mret tt
  | sec_detach => detach_section
  | sec_message bytes binary => _ ← message_section bytes binary; mret tt
  | sec_publish m => publish_section m
  | sec_outgoing => _ ← outgoing_section; mret tt
  | sec_wake_with given => wake_with_section given
  | sec_actions given => actions_section given
  | sec_authorized value verified_at => authorized_section value verified_at
  | sec_credential_status status => credential_status_section status
  | sec_stopped reason => stopped_section reason
  | sec_status => try_catch (_ ← status_section; mret tt) (λ _, mret tt)
  | sec_telemetry => telemetry_section
  | sec_video frame => video_section frame
  | sec_connection stream state error => connection_section stream state error
  | sec_control held reason => control_section held reason
  end.

(** The other threads, then a critical section. *)
Definition others : P unit := λ s t, for_each run_section (v_others t) s t.
Definition lock {A} (c : P A) : P A := _ ← others; c.

Definition attach : P bool := lock attach_section.
Definition attached : P bool := lock attached_section.
Definition detach : P unit := lock detach_section.
Definition status : P string := lock status_section.
Definition publish (message : WireMessage) : P unit := lock (publish_section message).
Definition publish_text (text : string) : P unit := publish (mk_wire (bytes_of_text text) false).
Definition outgoing : P (option WireMessage) := lock outgoing_section.
Definition wake_with (given : bool) : P unit := lock (wake_with_section given).
Definition actions (given : bool) : P unit := lock (actions_section given).
Definition authorized (value : bool) (verified_at : Z) : P unit := lock (authorized_section value verified_at).
Definition credential_status (status : string) : P unit := lock (credential_status_section status).
Definition stopped (reason : string) : P unit := lock (stopped_section reason).

Definition message (bytes : Bytes) (binary : bool) : P unit :=
  if 4096 <? Z.of_nat (length bytes) then throw "attachment message exceeds 4096 bytes" else
  r ← lock (message_section bytes binary);
  match r with
  | no_response => mret tt
  | status_requested => text ← status; publish_text text
  | document fields => publish_text (c_str (WriteCompact fields))
  end.

(** [worker_.join()] waits while the other threads run. *)
Definition stop : P unit :=
  _ ← lock stopping_section;
  s ← xget;
  _ ← xwhen (worker_ s) (lock (xmodify (set_worker_ false)));
  lock stop_section.

Definition telemetry (bytes : Bytes) : P unit :=
  _ ← lock telemetry_section;
  publish (mk_wire bytes true).
Definition video (frame : EncodedVideo) : P unit := lock (video_section frame).
Definition connection (stream : Stream) (state : Connection) (error : string) : P unit :=
  lock (connection_section stream state error).
Definition control (held : bool) (reason : string) : P unit :=
  _ ← lock (control_section held reason);
  publish_text (c_str (WriteCompact [("type"%string, JString "control"); ("held"%string, JBool held)])).

(** ** The hooks *)

Definition deadline_error (next : MicrovmRun) : P Z :=
  s ← xget;
  if negb (require_assignment_ s) then mret 0 else
  now ← vcall VWall v_wall;
  if now <? 0 then mret 400 else
  if mv_deadline next <=? now then mret 409 else
  mret (if 3000 <? mv_deadline next - now then 400 else 0).

Definition deadline_reply (error : Z) : HookReply :=
  reply error (if error =? 409 then "activation deadline expired" else "activation deadline invalid").

(** The start of the runner, under the mutex. *)
Definition start_run (next : MicrovmRun) : P HookReply :=
  try_catch
    (s ← xget;
     _ ← xwhen (has_prepare_ s) (xcall VPrepare v_prepare);
     _ ← xmodify (set_prepared_ true);
     error ← deadline_error next;
     if negb (error =? 0) then _ ← xmodify (set_phase_ "failed"); mret (deadline_reply error) else
     _ ← xmodify (set_run_ next);
     now ← steady at_start;
     _ ← xmodify (set_started_ now);
     _ ← xmodify (set_phase_ "running");
     _ ← xcall (VThread next) v_thread;
     _ ← xmodify (set_worker_ true);
     mret (reply 200 "runtime initialized after restoration"))
    (λ _, _ ← xmodify (set_phase_ "failed"); mret (reply 503 "could not start runtime")).

Definition run_hook_section (next : MicrovmRun) : P HookReply :=
  s ← xget;
  if negb (bool_decide (phase_ s = "waiting-for-run"%string)) then
    mret (reply (if bool_decide (run_ s = next) && bool_decide (phase_ s = "running"%string) then 200 else 409) "run already initialized")
  else start_run next.

Definition run_hook (body : string) : P HookReply :=
  if 16384 <? string_size body then mret (reply 413 "hook body too large") else
  s ← xget;
  next ← try_catch (r ← parse_run (require_assignment_ s) body; mret (Some r)) (λ _, mret None);
  match next with
  | None => mret (reply 400 "invalid MicroVM identity or run payload")
  | Some next =>
      error ← deadline_error next;
      if negb (error =? 0) then mret (deadline_reply error) else
      lock (run_hook_section next)
  end.

Definition ready_section : P HookReply :=
  s ← xget;
  mret (if bool_decide (phase_ s = "waiting-for-run"%string)
        then reply 200 "no runtime identity, credentials or device sessions initialized"
        else reply 409 "runtime already initialized").

Definition hook (path body : string) : P HookReply :=
  if bool_decide (path = "/ready"%string) || bool_decide (path = "/validate"%string) then lock ready_section else
  if bool_decide (path = "/terminate"%string) || bool_decide (path = "/suspend"%string)
  then _ ← stop; mret (reply 200 "stopped") else
  if bool_decide (path = "/resume"%string)
  then mret (reply 409 "this probe requires suspension and automatic resumption to be disabled") else
  if negb (bool_decide (path = "/run"%string)) then mret (reply 404 "unknown hook") else run_hook body.

(** The thread of the runner. *)
Definition worker_body (runner : MicrovmRun → P unit) : P unit :=
  s ← xget;
  try_catch (runner (run_ s)) (λ e, stopped (safe_error e)).
End Application.
