(* ===== verification/AgentMicrovmSafety.v ===== *)
(** * What the application in the MicroVM lets through

    The history of calls and clock readings determines who is attached and whether
    the assignment is fresh: [gate] computes it without the application's state. The
    application refines it, and what reaches the session and the network is what the
    gate allows. *)
From stdpp Require Import gmap.
From S2P Require Import Prelude Cpp AwsJson AgentController AgentQueue AgentSession AgentMicrovm.

#[local] Open Scope Z_scope.

(** ** The specification *)

Record Gate := mk_gate {
  g_started : option MicrovmRun; g_running : bool; g_attached : bool; g_authorized : bool; g_verified_at : Z;
  g_acquired : bool; g_actions : bool; g_stopping : bool }.

Definition gate_start (require : bool) : Gate := mk_gate None false false (negb require) 0 false false false.

(** The assignment was verified, less than fifteen seconds ago. *)
Definition gate_fresh (require : bool) (g : Gate) (now : Z) : bool :=
  g_authorized g && (negb require
    || (negb (g_verified_at g =? 0) && (g_verified_at g <=? now) && (now - g_verified_at g <? seconds 15))).

Definition gate_step (require : bool) (e : mv_event) (g : Gate) : Gate :=
  let 'mk_gate st ru at_ au ve ac an sp := g in
  match e with
  | VDetach => mk_gate st ru false au ve ac an sp
  | VActions given => mk_gate st ru at_ au ve ac given sp
  | VAuthorized value v => mk_gate st ru (at_ && value) value (if value then v else 0) ac an sp
  | VStopped _ => mk_gate st false false false ve ac false sp
  | VStopping => mk_gate st ru at_ au ve ac an true
  | VStop => mk_gate st false false au ve ac an sp
  | VSteady at_attach now => if gate_fresh require g now then mk_gate st ru true au ve false an sp else g
  | VSteady at_message now => if gate_fresh require g now then g else mk_gate st ru false au ve ac an sp
  | VThread r (inr _) => mk_gate (Some r) true at_ au ve ac an sp
  | VAcquire _ true => mk_gate st ru at_ au ve true an sp
  | _ => g
  end.

Fixpoint gate (require : bool) (t : list mv_event) : Gate :=
  match t with
  | [] => gate_start require
  | e :: t => gate_step require e (gate require t)
  end.

Fixpoint last_steady (t : list mv_event) : option Z :=
  match t with [] => None | VSteady _ now :: _ => Some now | _ :: t => last_steady t end.
Fixpoint last_wall (t : list mv_event) : option Z :=
  match t with [] => None | VWall now :: _ => Some now | _ :: t => last_wall t end.

(** The identities of a run. *)
Definition valid_run (require : bool) (r : MicrovmRun) : Prop :=
  identifier (mv_id r) 256 = true ∧ identifier (mv_thing r) 128 = true ∧ mv_region r = "eu-central-1"%string ∧
  if require then identifier (mv_run_id r) 128 = true ∧ identifier (mv_activation_id r) 128 = true
  else mv_run_id r = EmptyString ∧ mv_activation_id r = EmptyString.

(** An attached client, an assignment that was fresh when the clock was last read,
    and a session to act on. *)
Definition admitted (require : bool) (t : list mv_event) : Prop :=
  let g := gate require t in
  g_actions g = true ∧ g_running g = true ∧ g_attached g = true ∧
  ∃ now, last_steady t = Some now ∧ gate_fresh require g now = true.

Definition mv_allowed (require : bool) (e : mv_event) (t : list mv_event) : Prop :=
  let g := gate require t in
  match e with
  | VSend frame _ => admitted require t ∧ valid_mavlink2 frame = true
  | VAcquire actor _ => admitted require t ∧ g_acquired g = false ∧ string_size actor ≤ 128
  | VActivity => admitted require t
  | VRelease => g_actions g = true
  | VThread r _ =>
      g_started g = None ∧ valid_run require r ∧
      (require = true → ∃ now, last_wall t = Some now ∧ 0 ≤ now < mv_deadline r ∧ mv_deadline r - now ≤ 3000)
  | VSteady at_attach _ => g_running g = true ∧ g_attached g = false
  | VOutgoing (Some _) => g_attached g = true ∨ g_stopping g = true
  | VWake => g_attached g = true
  | _ => True
  end.

(** ** The refinement *)

Definition abs (st : option MicrovmRun) (s : MicrovmApplication) : Gate :=
  mk_gate st (bool_decide (phase_ s = "running"%string)) (attached_ s) (authorized_ s) (assignment_verified_at_ s)
    (control_attempted_ s) (actions_ s) (stopping_ s).

Definition phases : list string := ["waiting-for-run"; "running"; "failed"; "stopped"]%string.

Lemma phases_spec p : bool_decide (p ∈ phases) = true → p ∈ phases.
Proof. apply bool_decide_eq_true_1. Qed.

Record mv_state (require : bool) (st : option MicrovmRun) (s : MicrovmApplication) : Prop := {
  st_require : require_assignment_ s = require;
  st_queue : queue_bounded 128 (512 * 1024) (outgoing_ s);
  st_attached : attached_ s = true → phase_ s = "running"%string ∧ authorized_ s = true;
  st_empty : attached_ s = false → stopping_ s = false → items_ (outgoing_ s) = [];
  st_waiting : phase_ s = "waiting-for-run"%string → st = None;
  st_running : phase_ s = "running"%string → st = Some (run_ s);
  st_run : ∀ r, st = Some r → run_ s = r;
  st_phase : phase_ s ∈ phases }.

(** A history that keeps to the rules and leads to a gate. *)
Definition leads (require : bool) (t : list mv_event) (g : Gate) : Prop :=
  guarded (mv_allowed require) t ∧ gate require t = g.

Definition mv_inv (require : bool) (s : MicrovmApplication) (t : list mv_event) : Prop :=
  ∃ st, leads require t (abs st s) ∧ mv_state require st s.

Lemma leads_event require t g e :
  leads require t g → mv_allowed require e t → leads require (e :: t) (gate_step require e g).
Proof. intros [Hg <-] Ha. by split. Qed.

Lemma abs_fresh require st s now : mv_state require st s → gate_fresh require (abs st s) now = assignment_fresh s now.
Proof. by intros [<- ?]. Qed.

Lemma fresh_authorized s now : assignment_fresh s now = true → authorized_ s = true.
Proof. unfold assignment_fresh. by intros [??]%andb_true_iff. Qed.

Lemma pop_all_spec q : queue_bounded 128 (512 * 1024) q →
  let q' := pop_all (length (items_ q)) q in queue_bounded 128 (512 * 1024) q' ∧ items_ q' = [].
Proof.
  intros Hq. cbn zeta. remember (items_ q) as l eqn:El. revert q Hq El.
  induction l as [|[x n] l IH]; intros q Hq El; cbn [length pop_all]; [done|].
  pose proof (pop_bounded _ _ _ Hq) as Hp. revert Hp. unfold pop. rewrite <- El. cbn. intros Hp. by apply IH.
Qed.

Lemma gate_step_wall require now g : gate_step require (VWall now) g = g.
Proof. by destruct g. Qed.

Section Safety.
Context `{json : AwsJson, jsmn : Jsmn, env : !MicrovmEnv} (require : bool).
Abbreviation P := (X mv_event MicrovmApplication).
Abbreviation inv := (mv_inv require).

Definition keeps {A} (c : P A) : Prop := xkeeps inv (λ _, inv) c.

Lemma xwp_drain Q R s t :
  (∀ q, queue_bounded 128 (512 * 1024) q → items_ q = [] → Q tt (set_outgoing_ q s) t) →
  queue_bounded 128 (512 * 1024) (outgoing_ s) → xwp drain Q R s t.
Proof. intros HQ Hq. unfold drain. apply xwp_modify. apply pop_all_spec in Hq as [??]. by apply HQ. Qed.

Lemma xwp_vcall {A} (e : A → mv_event) f Q (R : string → MicrovmApplication → list mv_event → Prop) s t :
  (∀ a, f t = a → Q a s (e a :: t)) → xwp (vcall e f) Q R s t.
Proof. intros HQ. by apply HQ. Qed.

(** Assignments that neither the gate nor the queue sees. *)
Lemma inv_modify (f : MicrovmApplication → MicrovmApplication) :
  (∀ st s, abs st (f s) = abs st s) →
  (∀ s, phase_ (f s) = phase_ s) → (∀ s, run_ (f s) = run_ s) →
  (∀ s, outgoing_ (f s) = outgoing_ s) → (∀ s, require_assignment_ (f s) = require_assignment_ s) →
  keeps (xmodify f).
Proof.
  intros Ha Hp Hr Ho Hq s t (st & Hl & [??????? ?]). apply xwp_modify. exists st.
  rewrite Ha. split; [done|]. pose proof (Ha st s) as E. unfold abs in E. injection E as _ E1 E2 _ _ _ E4.
  constructor; rewrite ?Hp, ?Hr, ?Ho, ?Hq, ?E1, ?E2, ?E4; done.
Qed.

(** Events that change nothing and are always allowed. *)
Lemma inv_silent e s t : (∀ g, gate_step require e g = g) → (∀ t, mv_allowed require e t) → inv s t → inv s (e :: t).
Proof. intros Hs Ha (st & Hl & Hst). exists st. split; [|done]. rewrite <- (Hs (abs st s)). by apply leads_event. Qed.

Lemma inv_attach : keeps attach_section.
Proof.
  intros s t (st & Hl & Hst). unfold attach_section, steady. repeat xwp_step; [by exists st|].
  bool_simpl. apply xwp_vcall. intros now _.
  assert (Hl' : leads require (VSteady at_attach now :: t) (gate_step require (VSteady at_attach now) (abs st s))).
  { apply leads_event; [done|]. destruct Hl as [_ Hg]. cbn. rewrite Hg. split; [by apply bool_decide_eq_true|done]. }
  cbn [gate_step abs] in Hl'. rewrite (abs_fresh _ _ _ _ Hst) in Hl'.
  repeat xwp_step; bool_simpl; [by rewrite Hb in Hl'; exists st|].
  apply xwp_drain; [|by destruct Hst]. intros q Hq He. repeat xwp_step. exists st. rewrite Hb in Hl'. split; [done|].
  destruct Hst. constructor; cbn; try done. intros _. split; [done|]. by eapply fresh_authorized.
Qed.

(** Within [message], while the client is admitted. *)
Definition in_message (now : Z) (s : MicrovmApplication) (t : list mv_event) : Prop :=
  inv s t ∧ attached_ s = true ∧ last_steady t = Some now ∧ assignment_fresh s now = true.
Definition in_keeps (now : Z) {A} (c : P A) : Prop := xkeeps (in_message now) (λ _, in_message now) c.

Lemma in_message_admitted now s t : in_message now s t → actions_ s = true → admitted require t.
Proof.
  intros ((st & [_ Hg] & Hst) & Ha & Hn & Hf) Hac. unfold admitted. rewrite Hg. cbn. split; [done|].
  destruct (st_attached _ _ _ Hst Ha) as [Hp _]. split; [by apply bool_decide_eq_true|]. split; [done|].
  exists now. split; [done|]. by rewrite (abs_fresh _ _ _ _ Hst).
Qed.

Lemma in_message_event now e s t :
  (∀ g, gate_step require e g = g) → last_steady (e :: t) = last_steady t →
  in_message now s t → mv_allowed require e t → in_message now s (e :: t).
Proof.
  intros Hs Hn ((st & Hl & Hst) & ? & ? & ?) Ha. split; [|by rewrite Hn]. exists st. split; [|done].
  rewrite <- (Hs (abs st s)). by apply leads_event.
Qed.

Lemma in_actions now s t : in_message now s t → g_actions (gate require t) = actions_ s.
Proof. intros ((st & [_ Hg] & _) & _). by rewrite Hg. Qed.

Lemma in_release now : in_keeps now release_actions.
Proof.
  intros s t Hi. unfold release_actions. repeat xwp_step; [|done].
  apply in_message_event; [by intros []|done|done|]. cbn. by rewrite (in_actions _ _ _ Hi).
Qed.

Lemma in_activity now : in_keeps now activity_actions.
Proof.
  intros s t Hi. unfold activity_actions. repeat xwp_step; [|done].
  apply in_message_event; [by intros []|done|done|]. by eapply in_message_admitted.
Qed.

Lemma in_parse now value : in_keeps now (parse value).
Proof. intros s t Hi. unfold parse. by repeat xwp_step. Qed.
Lemma in_field now view name : in_keeps now (field view name).
Proof. intros s t Hi. unfold field. by repeat xwp_step. Qed.

Lemma in_acquire now actor : in_keeps now
  (s ← xget;
   queued ← (if actions_ s && negb (control_attempted_ s) && (string_size actor <=? 128)
             then vcall (VAcquire actor) (v_acquire actor) else mret false);
   _ ← xwhen queued
         (_ ← xmodify (set_control_attempted_ true);
          _ ← xmodify (set_control_state_ "acquiring");
          xmodify (set_control_error_ EmptyString));
   mret (Some [("type"%string, JString "acquire.queued"); ("queued"%string, JBool queued)])).
Proof.
  intros s t Hi. pose proof Hi as ((st & Hl & Hst) & Ha & Hn & Hf). do 2 xwp_step. apply xwp_bind, xwp_if; intros Hb; [|by repeat xwp_step].
  bool_simpl. apply xwp_vcall. intros queued _.
  assert (Hal : mv_allowed require (VAcquire actor queued) t).
  { split; [by eapply in_message_admitted|]. destruct Hl as [_ ->]. done. }
  pose proof (leads_event _ _ _ _ Hl Hal) as Hl'. destruct queued; repeat xwp_step; try done.
  - repeat split; try done. exists st. split; [done|]. destruct Hst. by constructor.
  - repeat split; try done. exists st. by split.
Qed.

Lemma in_command now bytes : in_keeps now (command bytes).
Proof.
  unfold command. apply xkeeps_bind; [apply in_parse|]. intros view. apply xkeeps_bind; [apply in_field|]. intros type.
  repeat match goal with
  | |- xkeeps _ _ (if _ then _ else _) => apply xkeeps_if
  | |- xkeeps _ _ (mret _) => apply xkeeps_ret
  | |- xkeeps _ _ (throw _) => by intros ???
  | |- xkeeps _ _ (mbind _ activity_actions) => apply xkeeps_bind; [apply in_activity|intros _]
  | |- xkeeps _ _ (mbind _ release_actions) => apply xkeeps_bind; [apply in_release|intros _]
  | |- xkeeps _ _ (mbind _ (field _ _)) => apply xkeeps_bind; [apply in_field|intros actor; apply in_acquire]
  end.
Qed.

(** An assignment that ran out ends the attachment. *)
Lemma inv_lapse s t now : inv s t → attached_ s = true → assignment_fresh s now = false →
  xwp (_ ← release_actions; _ ← xmodify (set_attached_ false); _ ← drain; mret no_response)
    (λ _, inv) (λ _, inv) s (VSteady at_message now :: t).
Proof.
  intros (st & Hl & Hst) Ha Hf. pose proof (leads_event _ _ _ (VSteady at_message now) Hl I) as Hl'.
  cbn [gate_step abs] in Hl'. rewrite (abs_fresh _ _ _ _ Hst), Hf in Hl'.
  assert (Hl2 : xwp release_actions (λ _ s' t', s' = s ∧ leads require t' (mk_gate st (bool_decide (phase_ s = "running"%string)) false (authorized_ s)
            (assignment_verified_at_ s) (control_attempted_ s) (actions_ s) (stopping_ s))) (λ _ _ _, False) s (VSteady at_message now :: t)).
  { unfold release_actions. repeat xwp_step; [|done]. split; [done|]. apply (leads_event _ _ _ VRelease Hl'). cbn.
    destruct Hl' as [_ Hg]. cbn in Hg. by rewrite Hg. }
  apply xwp_bind. eapply xwp_mono; [exact Hl2| |done]. intros [] s' t' [-> Hl3]. repeat xwp_step.
  apply xwp_drain; [|by destruct Hst]. intros q Hq He. xwp_step. exists st. split; [done|]. destruct Hst. by constructor.
Qed.

Lemma inv_message bytes binary : keeps (message_section bytes binary).
Proof.
  intros s t Hi. unfold message_section, steady. do 2 xwp_step. xwp_step; [by xwp_step|]. bool_simpl. xwp_step.
  apply xwp_vcall. intros now _. xwp_step; bool_simpl; [by apply inv_lapse|].
  assert (Hin : in_message now s (VSteady at_message now :: t)).
  { destruct Hi as (st & Hl & Hst). repeat split; try done. exists st. split; [|done].
    pose proof (leads_event _ _ _ (VSteady at_message now) Hl I) as Hl'. cbn [gate_step abs] in Hl'.
    by rewrite (abs_fresh _ _ _ _ Hst), Hb0 in Hl'. }
  apply (xwp_mono _ (λ _, in_message now) _ (λ _, in_message now)); [|by intros ??? [? _]..]. xwp_step.
  - apply xwp_bind. eapply (xwp_mono _ (λ _ s' t', in_message now s' t' ∧ actions_ s' = actions_ s) _ (λ _ _ _, False)); [| |done].
    { xwp_step; [|done]. unfold activity_actions. repeat xwp_step; [|done]. split; [|done].
      apply in_message_event; [by intros []|done|done|]. by eapply in_message_admitted. }
    intros [] s' t' [Hi' Ha']. apply xwp_bind, xwp_if; intros Hv; bool_simpl; [|by repeat xwp_step]. apply xwp_vcall. intros ok _. xwp_step.
    apply in_message_event; [by intros []|done|done|]. split; [|done]. eapply in_message_admitted; [done|congruence].
  - xwp_step. xwp_step. eapply xwp_mono; [by apply (in_command now)| |]; intros; by repeat xwp_step.
Qed.

Lemma inv_attached : keeps attached_section.
Proof.
  intros s t Hi. unfold attached_section, steady. do 2 xwp_step. xwp_step; [by xwp_step|]. xwp_step. apply xwp_vcall. intros now _.
  xwp_step. apply inv_silent; [by intros []|done|done].
Qed.

Lemma inv_detach : keeps detach_section.
Proof.
  intros s t (st & Hl & Hst). unfold detach_section, release_actions. do 5 xwp_step.
  pose proof (leads_event _ _ _ VDetach Hl I) as Hl'. cbn [gate_step abs] in Hl'.
  repeat xwp_step; (apply xwp_drain; [|by destruct Hst]); intros q Hq He; exists st; (split; [|destruct Hst; by constructor]).
  - refine (leads_event _ _ _ VRelease Hl' _). cbn. destruct Hl' as [_ Hg]. cbn in Hg. by rewrite Hg.
  - done.
Qed.

Lemma inv_publish m : keeps (publish_section m).
Proof.
  intros s t Hi. unfold publish_section, steady. do 2 xwp_step. xwp_step; [by xwp_step|]. bool_simpl. xwp_step. apply xwp_vcall. intros now _.
  assert (Hi' : inv s (VSteady at_publish now :: t)) by (apply inv_silent; [by intros []|done|done]).
  xwp_step; [by xwp_step|]. destruct Hi' as (st & Hl & Hst).
  assert (Hst' : mv_state require st (set_outgoing_ (push (outgoing_ s) m (Z.of_nat (length (wire_bytes m)))).2 s)).
  { destruct Hst. constructor; cbn; try done; [|by rewrite Hb]. apply push_bounded; [done|lia]. }
  repeat xwp_step; exists st; (split; [|done]); [|done].
  refine (leads_event _ _ _ VWake Hl _). cbn in Hl |- *. destruct Hl as [_ Hg]. cbn in Hg. by rewrite Hg.
Qed.

Lemma inv_outgoing : keeps outgoing_section.
Proof.
  intros s t (st & Hl & Hst). unfold outgoing_section. do 2 xwp_step. destruct (pop (outgoing_ s)) as [m q] eqn:Ep. repeat xwp_step.
  exists st. split.
  - refine (leads_event _ _ _ (VOutgoing m) Hl _). cbn. destruct m as [m|]; [|done]. destruct Hl as [_ Hg]. rewrite Hg. cbn.
    destruct (attached_ s) eqn:Ea; [by left|right]. destruct (stopping_ s) eqn:Es; [done|].
    unfold pop in Ep. by rewrite (st_empty _ _ _ Hst Ea Es) in Ep.
  - pose proof (pop_bounded _ _ _ (st_queue _ _ _ Hst)) as Hq. rewrite Ep in Hq. destruct Hst. constructor; cbn; try done.
    intros Ha Hs. unfold pop in Ep. rewrite st_empty0 in Ep by done. injection Ep as <- <-. by apply st_empty0.
Qed.

Lemma inv_stopping : keeps stopping_section.
Proof.
  intros s t (st & Hl & Hst). unfold stopping_section. repeat xwp_step. exists st.
  split; [exact (leads_event _ _ _ VStopping Hl I)|]. destruct Hst. by constructor.
Qed.

(** The state after the end of the attachment. *)
Lemma mv_state_ended st s s' :
  mv_state require st s → phase_ s' ≠ "waiting-for-run"%string → phase_ s' ∈ phases → (phase_ s' = "running"%string → phase_ s = "running"%string) →
  require_assignment_ s' = require_assignment_ s → run_ s' = run_ s → attached_ s' = false →
  queue_bounded 128 (512 * 1024) (outgoing_ s') → (stopping_ s' = false → items_ (outgoing_ s') = []) →
  mv_state require st s'.
Proof.
  intros [??????? ?] ? ? Hp Hr Hrun Ha Hq He. constructor; rewrite ?Hr, ?Hrun, ?Ha; try done. intros ?. auto.
Qed.

Lemma inv_actions given : keeps (actions_section given).
Proof.
  intros s t (st & Hl & Hst). unfold actions_section. repeat xwp_step. exists st.
  split; [exact (leads_event _ _ _ (VActions given) Hl I)|]. destruct Hst. by constructor.
Qed.

Lemma inv_authorized value verified_at : keeps (authorized_section value verified_at).
Proof.
  intros s t (st & Hl & Hst). unfold authorized_section, release_actions. do 4 xwp_step.
  pose proof (leads_event _ _ _ (VAuthorized value verified_at) Hl I) as Hl'. cbn [gate_step abs] in Hl'.
  xwp_step. xwp_step; bool_simpl.
  - subst value. rewrite andb_false_r in Hl'. do 2 xwp_step. repeat xwp_step; (apply xwp_drain; [|by destruct Hst]);
      intros q Hq He; repeat xwp_step; exists st; (split; [|destruct Hst; by constructor]).
    + refine (leads_event _ _ _ VRelease Hl' _). cbn. destruct Hl' as [_ Hg]. cbn in Hg. by rewrite Hg.
    + done.
  - repeat xwp_step. exists st. destruct value.
    + rewrite andb_true_r in Hl'. split; [done|]. destruct Hst. constructor; cbn; try done. intros Ha. split; [|done]. by apply st_attached0.
    + assert (attached_ s = false) as Ea.
      { apply not_true_iff_false. intros Ha. destruct (st_attached _ _ _ Hst Ha) as [_ Hau]. by rewrite Hau in Hb. }
      rewrite Ea in Hl'. unfold abs. cbn. rewrite Ea. split; [done|]. destruct Hst. constructor; cbn; try done. by rewrite Ea.
Qed.

Lemma inv_stop s t : inv s t → stopping_ s = true → xwp stop_section (λ _, inv) (λ _, inv) s t.
Proof.
  intros (st & Hl & Hst) Hs. unfold stop_section. repeat xwp_step. exists st.
  pose proof (leads_event _ _ _ VStop Hl I) as Hl'. split; [exact Hl'|].
  apply (mv_state_ended st s); try done; [by apply phases_spec|by destruct Hst|]. cbn. by rewrite Hs.
Qed.

Lemma inv_stopped reason : keeps (stopped_section reason).
Proof.
  intros s t (st & Hl & Hst). unfold stopped_section. repeat xwp_step. apply xwp_drain; [|by destruct Hst].
  intros q Hq He. exists st. split; [exact (leads_event _ _ _ (VStopped reason) Hl I)|]. by apply (mv_state_ended st s); try done; apply phases_spec.
Qed.

Lemma inv_status : keeps status_section.
Proof.
  intros s t Hi. unfold status_section, steady, parse. do 2 xwp_step. xwp_step; [by xwp_step|]. xwp_step. apply xwp_vcall. intros now _.
  assert (Hi' : inv s (VSteady at_status now :: t)) by (apply inv_silent; [by intros []|done|done]). xwp_step.
  apply (xwp_mono _ (λ _, inv) _ (λ _, inv)); [| |done].
  { xwp_step; [by xwp_step|]. apply xwp_vcall. intros now' _. apply inv_silent; [by intros []|done|done]. }
  intros. by repeat xwp_step.
Qed.

Lemma inv_ignore {A} (c : P A) : keeps c → keeps (_ ← c; mret tt).
Proof. intros Hc. apply xkeeps_bind; [done|]. intros _. apply xkeeps_ret. Qed.

Lemma inv_video frame : keeps (video_section frame).
Proof. unfold video_section. repeat (apply xkeeps_bind; [|intros _]); by apply inv_modify. Qed.

Lemma inv_connection stream state error : keeps (connection_section stream state error).
Proof. unfold connection_section. destruct stream; by apply inv_modify. Qed.

Lemma inv_control held reason : keeps (control_section held reason).
Proof.
  unfold control_section. repeat (apply xkeeps_bind; [|intros _]); [by apply inv_modify..|]. apply xkeeps_when. by apply inv_modify.
Qed.

Lemma inv_section c : keeps (run_section c).
Proof.
  destruct c; cbn [run_section].
  - apply inv_ignore, inv_attach.
  - apply inv_ignore, inv_attached.
  - apply inv_detach.
  - apply inv_ignore, inv_message.
  - apply inv_publish.
  - apply inv_ignore, inv_outgoing.
  - by apply inv_modify.
  - apply inv_actions.
  - apply inv_authorized.
  - by apply inv_modify.
  - apply inv_stopped.
  - apply xkeeps_try; [apply inv_ignore, inv_status|]. intros e. apply xkeeps_ret.
  - by apply inv_modify.
  - apply inv_video.
  - apply inv_connection.
  - apply inv_control.
Qed.

(** Sections do not touch [stopping_]. *)
Lemma section_stopping b c : xkeeps (λ s _, stopping_ s = b) (λ _ s _, stopping_ s = b) (run_section c).
Proof.
  destruct c; cbn [run_section];
    unfold attach_section, attached_section, detach_section, message_section, command, publish_section, outgoing_section, wake_with_section,
      actions_section, authorized_section, credential_status_section, stopped_section, status_section, telemetry_section, video_section,
      connection_section, control_section, release_actions, activity_actions, drain, parse, field, steady;
    repeat first [xkeeps_step | apply xkeeps_try; [|intros ?] | apply xkeeps_modify; intros; by repeat case_match
                 | apply xkeeps_emit; by intros | by intros ???].
Qed.

Lemma inv_others : keeps others.
Proof. intros s t Hi. unfold others, xwp. exact (xkeeps_for_each _ _ _ (v_others t) (λ c, inv_section c) s t Hi). Qed.

Lemma others_stopping b : xkeeps (λ s _, stopping_ s = b) (λ _ s _, stopping_ s = b) others.
Proof. intros s t Hi. unfold others, xwp. exact (xkeeps_for_each _ _ _ (v_others t) (λ c, section_stopping b c) s t Hi). Qed.

Lemma inv_lock {A} (c : P A) : keeps c → keeps (lock c).
Proof. intros Hc. apply xkeeps_bind; [apply inv_others|done]. Qed.

Lemma inv_stop_all : keeps stop.
Proof.
  intros s t Hi. unfold stop. apply xwp_bind.
  apply (xwp_mono _ (λ _ s t, inv s t ∧ stopping_ s = true) _ (λ _, inv)); [| |done].
  { unfold lock. apply xwp_bind. eapply xwp_mono; [by apply inv_others| |done]. intros [] s1 t1 Hi1.
    pose proof (inv_stopping s1 t1 Hi1) as H. unfold stopping_section in *. by repeat xwp_step. }
  intros [] s1 t1 Hi1. do 2 xwp_step. apply xwp_bind.
  apply (xwp_mono _ (λ _ s t, inv s t ∧ stopping_ s = true) _ (λ _, inv)); [| |done].
  { xwp_step; [|done]. unfold lock. apply xwp_bind. destruct Hi1 as [Hi1 Hs1].
    eapply xwp_mono; [apply (xwp_and _ _ _ _ _ _ _ (inv_others _ _ Hi1) (others_stopping _ _ _ Hs1))| |by intros ??? [? _]].
    intros [] s2 t2 [Hi2 Hs2]. apply xwp_modify. split; [|done]. by apply (inv_modify (set_worker_ false)). }
  intros [] s2 t2 [Hi2 Hs2]. unfold lock. apply xwp_bind.
  eapply xwp_mono; [apply (xwp_and _ _ _ _ _ _ _ (inv_others _ _ Hi2) (others_stopping _ _ _ Hs2))| |by intros ??? [? _]].
  intros [] s3 t3 [Hi3 Hs3]. by apply inv_stop.
Qed.

(** ** The run hook *)

Lemma substr_pure {E S} text a b : pure_prog (E:=E) (S:=S) (substr text a b) (λ _, True).
Proof. unfold substr. by repeat pure_step. Qed.
Lemma delimiter_pure {E S} text a b e : pure_prog (E:=E) (S:=S) (delimiter text a b e) (λ _, True).
Proof. unfold delimiter. repeat first [pure_step|apply substr_pure]; done. Qed.
Lemma decode_loop_pure {E S} fuel text a b v : pure_prog (E:=E) (S:=S) (decode_loop fuel text a b v) (λ _, True).
Proof. revert a v. induction fuel as [|fuel IH]; intros a v; cbn [decode_loop]; repeat first [pure_step|apply IH]; done. Qed.
Lemma decode_pure {E S} text tok : pure_prog (E:=E) (S:=S) (decode text tok) (λ _, True).
Proof. unfold decode. pure_step; [pure_step|apply decode_loop_pure]. Qed.
Lemma fields_loop_pure {E S} pairs text tokens count index fields :
  pure_prog (E:=E) (S:=S) (fields_loop pairs text tokens count index fields) (λ _, True).
Proof.
  revert index fields. induction pairs as [|pairs IH]; intros index fields; cbn [fields_loop]; cbv zeta; [by pure_step|].
  repeat first [apply IH|apply delimiter_pure|apply decode_pure|pure_step]; done.
Qed.
Lemma string_fields_pure {E S} text : pure_prog (E:=E) (S:=S) (string_fields text) (λ _, True).
Proof.
  unfold string_fields. destruct (jsmn_parse text) as [count tokens]. cbv zeta.
  repeat first [apply substr_pure|apply delimiter_pure|apply fields_loop_pure|pure_step]; done.
Qed.
Lemma at_key_pure {E S} fields name : pure_prog (E:=E) (S:=S) (at_key fields name) (λ _, True).
Proof. unfold at_key. by pure_step; pure_step. Qed.
Lemma stoll_pure {E S} v : pure_prog (E:=E) (S:=S) (stoll v) (λ _, True).
Proof. unfold stoll. by repeat pure_step. Qed.

(** What [parse_run] accepts. *)
Lemma parse_run_valid {E S} req body : pure_prog (E:=E) (S:=S) (parse_run req body) (valid_run req).
Proof.
  unfold parse_run. do 2 first [apply (pure_prog_bind _ _ (λ _, True)); [apply string_fields_pure|intros envelope _]|pure_step]; [pure_step|].
  do 2 (apply (pure_prog_bind _ _ (λ _, True)); [apply at_key_pure|intros ? _]).
  apply (pure_prog_bind _ _ (λ _, True)); [apply string_fields_pure|intros payload _]. pure_step; [pure_step|].
  do 2 (apply (pure_prog_bind _ _ (λ _, True)); [apply at_key_pure|intros ? _]).
  apply (pure_prog_bind _ _ (λ r, if req then identifier (mv_run_id r) 128 = true ∧ identifier (mv_activation_id r) 128 = true
                           else mv_run_id r = EmptyString ∧ mv_activation_id r = EmptyString)).
  - destruct req; [|by pure_step]. cbv zeta. do 3 (apply (pure_prog_bind _ _ (λ _, True)); [apply at_key_pure|intros ? _]).
    pure_step; [pure_step|]. apply (pure_prog_bind _ _ (λ _, True)); [apply stoll_pure|intros d _]. pure_step; [pure_step|]. bool_simpl. by pure_step.
  - intros r Hr. pure_step; [pure_step|]. bool_simpl. pure_step. unfold valid_run. by split_and!.
Qed.

(** The deadline is in the next fifty minutes. *)
Definition in_window (next : MicrovmRun) (t : list mv_event) : Prop :=
  require = true → ∃ now, last_wall t = Some now ∧ 0 ≤ now < mv_deadline next ∧ mv_deadline next - now ≤ 3000.

Lemma deadline_error_spec next s t g : leads require t g → require_assignment_ s = require →
  xwp (deadline_error next) (λ e s' t', s' = s ∧ leads require t' g ∧ (e = 0 → in_window next t')) (λ _ _ _, False) s t.
Proof.
  intros Hl Hr. unfold deadline_error. do 2 xwp_step. rewrite Hr. xwp_step.
  { xwp_step. bool_simpl. split_and!; try done. unfold in_window. by rewrite Hb. }
  xwp_step. apply xwp_vcall. intros now _. assert (Hl' : leads require (VWall now :: t) g).
  { rewrite <- (gate_step_wall require now g). by apply leads_event. }
  repeat xwp_step; bool_simpl; split_and!; try done. intros Hz _. exists now. split; [done|].
  destruct (3000 <? _) eqn:E; bool_simpl; [done|]. lia.
Qed.

(** The members that a start does not touch. *)
Definition same_gate (s s' : MicrovmApplication) : Prop :=
  require_assignment_ s' = require_assignment_ s ∧ outgoing_ s' = outgoing_ s ∧ attached_ s' = attached_ s ∧
  authorized_ s' = authorized_ s ∧ assignment_verified_at_ s' = assignment_verified_at_ s ∧
  control_attempted_ s' = control_attempted_ s ∧ actions_ s' = actions_ s ∧ stopping_ s' = stopping_ s.

Lemma inv_enter s s' st p t : mv_state require None s → attached_ s = false → same_gate s s' →
  leads require t (mk_gate st (bool_decide (p = "running"%string)) (attached_ s) (authorized_ s) (assignment_verified_at_ s)
    (control_attempted_ s) (actions_ s) (stopping_ s)) →
  p ≠ "waiting-for-run"%string → p ∈ phases → (p = "running"%string → st = Some (run_ s')) → (∀ r, st = Some r → run_ s' = r) →
  inv (set_phase_ p s') t.
Proof.
  intros Hst Ha (E1&E2&E3&E4&E5&E6&E7&E8) Hl Hw Hph Hr Hrun. exists st. unfold abs. cbn. rewrite E3, E4, E5, E6, E7, E8. split; [done|].
  destruct Hst. constructor; cbn; rewrite ?E1, ?E2, ?E3, ?E8; try done. by rewrite Ha.
Qed.

(** A run hook in the waiting phase: every end leaves the application running the
    run, or failed. *)
Lemma inv_start next s t : inv s t → phase_ s = "waiting-for-run"%string → valid_run require next →
  xwp (start_run next) (λ _, inv) (λ _, inv) s t.
Proof.
  intros (st & Hl & Hst) Hp Hv. assert (st = None) as -> by by apply (st_waiting _ _ _ Hst).
  assert (Ha : attached_ s = false).
  { apply not_true_iff_false. intros Ha. apply (st_attached _ _ _ Hst) in Ha as [Hr _]. by rewrite Hr in Hp. }
  unfold abs in Hl. rewrite Hp in Hl.
  assert (Hfail : ∀ s' t', same_gate s s' → leads require t' (abs None s) → inv (set_phase_ "failed" s') t').
  { intros s' t' Hs' Hl'. unfold abs in Hl'. rewrite Hp in Hl'. by eapply (inv_enter s s' None "failed"); [done..|apply phases_spec|done|done]. }
  assert (Hl0 : leads require t (abs None s)) by (unfold abs; by rewrite Hp).
  unfold start_run, steady. do 4 xwp_step.
  apply (xwp_mono _ (λ _ s' t', s' = s ∧ leads require t' (abs None s)) _ (λ _ s' t', s' = s ∧ leads require t' (abs None s))).
  { xwp_step; [|done]. apply xwp_call; intros r _; (split; [done|]);
      exact (leads_event _ _ _ (VPrepare _) Hl0 I). }
  2: { intros e s' t' [-> Hl']. repeat xwp_step. by apply Hfail. }
  intros [] s' t' [-> Hl']. do 3 xwp_step.
  eapply xwp_mono; [eapply deadline_error_spec; [exact Hl'|by destruct Hst]| |done].
  cbn beta. intros e s2 t2 (-> & Hl2 & Hw). xwp_step; bool_simpl; [repeat xwp_step; by apply Hfail|].
  do 3 xwp_step. apply xwp_vcall. intros now _. do 5 xwp_step.
  pose proof (leads_event _ _ _ (VSteady at_start now) Hl2 I) as Hl3. cbn [gate_step abs] in Hl3.
  assert (Hal : ∀ r, mv_allowed require (VThread next r) (VSteady at_start now :: t2)).
  { intros r. cbn. destruct Hl3 as [_ Hg]. cbn in Hg. rewrite Hg. split_and!; [done|done|]. by apply Hw. }
  apply xwp_call; intros r _.
  - pose proof (leads_event _ _ _ _ Hl3 (Hal (inr r))) as Hl4. cbn [gate_step] in Hl4. repeat xwp_step.
    by eapply (inv_enter s (set_worker_ true (set_started_ now (set_run_ next (set_prepared_ true s)))) (Some next) "running");
      [done|done| |exact Hl4|done|apply phases_spec|done|intros ? [= <-]].
  - repeat xwp_step. by apply Hfail; [|exact (leads_event _ _ _ _ Hl3 (Hal (inl r)))].
Qed.

Lemma inv_run_hook body : keeps (run_hook body).
Proof.
  intros s t Hi. unfold run_hook. xwp_step; [by xwp_step|]. do 2 xwp_step.
  assert (require_assignment_ s = require) as Hr by by destruct Hi as (st & _ & []). rewrite Hr. apply xwp_bind, xwp_try, xwp_bind.
  eapply xwp_mono; [apply parse_run_valid| |intros e s' t' [-> ->]; by repeat xwp_step].
  intros next s' t' (-> & -> & Hv). do 2 xwp_step. destruct Hi as (st & Hl & Hst).
  eapply xwp_mono; [by eapply deadline_error_spec| |done]. intros e s' t' (-> & Hl' & _).
  assert (Hi' : inv s t') by by exists st. xwp_step; [by xwp_step|]. unfold lock. apply xwp_bind.
  eapply xwp_mono; [by apply inv_others| |done]. intros [] s1 t1 Hi1. unfold run_hook_section. do 2 xwp_step. xwp_step; [by xwp_step|].
  bool_simpl. by apply inv_start.
Qed.

Lemma inv_hook path body : keeps (hook path body).
Proof.
  unfold keeps, hook. repeat lazymatch goal with |- xkeeps _ _ (if _ then _ else _) => apply xkeeps_if end; try apply xkeeps_ret; [|apply xkeeps_bind; [apply inv_stop_all|intros _; apply xkeeps_ret]|apply inv_run_hook].
  apply inv_lock. unfold ready_section. apply xkeeps_bind; [apply xkeeps_get|]. intros s. apply xkeeps_ret.
Qed.

Lemma inv_message_all bytes binary : keeps (message bytes binary).
Proof.
  unfold message. apply xkeeps_if; [by intros ???|]. apply xkeeps_bind; [apply inv_lock, inv_message|]. intros []; [apply xkeeps_ret| |].
  - apply xkeeps_bind; [apply inv_lock, inv_status|]. intros text. apply inv_lock, inv_publish.
  - apply inv_lock, inv_publish.
Qed.

Lemma inv_telemetry bytes : keeps (telemetry bytes).
Proof. apply xkeeps_bind; [apply inv_lock; by apply inv_modify|]. intros _. apply inv_lock, inv_publish. Qed.

Lemma inv_control_all held reason : keeps (control held reason).
Proof. apply xkeeps_bind; [apply inv_lock, inv_control|]. intros _. apply inv_lock, inv_publish. Qed.

(** ** Runs *)

(** A call of a member function, with any arguments. *)
Inductive member :=
  | m_hook (path body : string)
  | m_message (bytes : Bytes) (binary : bool)
  | m_stop
  | m_telemetry (bytes : Bytes)
  | m_control (held : bool) (reason : string)
  | m_section (c : section).

Definition call_member (m : member) : P unit :=
  match m with
  | m_hook path body => _ ← hook path body; mret tt
  | m_message bytes binary => message bytes binary
  | m_stop => stop
  | m_telemetry bytes => telemetry bytes
  | m_control held reason => control held reason
  | m_section c => lock (run_section c)
  end.

Inductive mv_run : MicrovmApplication → list mv_event → Prop :=
  | mv_start has_prepare : mv_run (new_application has_prepare require) []
  | mv_call s t m r s' t' : mv_run s t → call_member m s t = (r, s', t') → mv_run s' t'.

Lemma new_application_inv has_prepare : inv (new_application has_prepare require) [].
Proof. exists None. split; [done|]. constructor; try done. by apply phases_spec. Qed.

Lemma call_member_keeps m : keeps (call_member m).
Proof.
  destruct m; cbn [call_member];
    [apply inv_ignore, inv_hook|apply inv_message_all|apply inv_stop_all|apply inv_telemetry|apply inv_control_all|apply inv_lock, inv_section].
Qed.

Lemma mv_run_inv s t : mv_run s t → inv s t.
Proof.
  induction 1 as [hp|s t m r s' t' _ IH Hc]; [apply new_application_inv|].
  pose proof (call_member_keeps m s t IH) as Hw. unfold xwp in Hw. rewrite Hc in Hw. by destruct r.
Qed.

(** C5: Whatever the threads of the MicroVM process do, a frame reaches the session only
    from an attached client, as a MAVLink 2 packet, while the one run goes on and the
    session is authorised, in an application that requires the assignment to be verified
    also less than 15 seconds after the last verification; after an attempt to acquire
    control was queued no other is made for the same attachment (one that was not queued
    may be repeated); the runner is started at most once, for valid identities and,
    where verification is required, a deadline within 50 minutes; and nothing leaves for
    the network when nobody is attached, until the process stops. *)
Theorem microvm_effects_allowed s t t2 e t1 : mv_run s t → t = t2 ++ e :: t1 → mv_allowed require e t1.
Proof. intros Hr ->. apply mv_run_inv in Hr as (st & [Hg _] & _). by eapply guarded_at. Qed.

End Safety.
