(* ===== verification/AgentMicrovmStatus.v ===== *)
(** * What a status of the application in the MicroVM tells

    The controller trusts a status document ([runtime_verified_for] of
    [AgentSample]); here it is composed with the application that writes it. The
    texts of the runner and of the session that a status shows are fixed ones. *)
From stdpp Require Import gmap.
From S2P Require Import Prelude Cpp AwsJson AgentController AgentReconcile AgentCloud AgentSample AgentQueue AgentSession AgentMicrovm AgentMicrovmSafety.

#[local] Open Scope Z_scope.

Lemma c_str_plain v : only_chars identity_chars v = true → c_str v = v.
Proof.
  induction v as [|c v IH]; [done|]. cbn [only_chars c_str]. intros [Hc Hv]%andb_true_iff.
  destruct (Ascii.eqb c "000"%char) eqn:E; [|by rewrite IH]. apply Ascii.eqb_eq in E as ->. by vm_compute in Hc.
Qed.

Lemma identifier_plain v n : AgentMicrovm.identifier v n = true → only_chars identity_chars v = true.
Proof. unfold AgentMicrovm.identifier. intros H. by bool_simpl. Qed.

Lemma phases_plain p : p ∈ phases → only_chars identity_chars p = true.
Proof. unfold phases. rewrite !elem_of_cons. intros [->|[->|[->|[->|[]%not_elem_of_nil]]]]; vm_compute; reflexivity. Qed.

(** The runner was started for a valid run. *)
Lemma guarded_started require t r :
  guarded (mv_allowed require) t → g_started (gate require t) = Some r → valid_run require r.
Proof.
  induction t as [|e t IH]; [done|]. cbn [guarded gate]. intros [Ha Hg].
  destruct (gate require t) as [st ru at_ au ve ac an sp] eqn:Eg. cbn in IH.
  destruct e as [| | | | | |[]| | |r' [?|?]| | |? []| | |]; cbn [gate_step g_started]; try (destruct (gate_fresh _ _ _)); auto.
  intros [= <-]. by destruct Ha as (_ & ? & _).
Qed.

Section Status.
Context `{json : AwsJson, roundtrip : !JsonRoundtrip json, jsmn : Jsmn, env : !MicrovmEnv} (require : bool).

Lemma status_fields_nodup s now up cred : NoDup (status_fields s now up cred).*1.
Proof.
  unfold status_fields.
  destruct (string_empty (mv_run_id (run_ s))), (assignment_verified_at_ s =? 0), (now <? assignment_verified_at_ s), (started_ s =? 0);
    apply (bool_decide_unpack _); vm_compute; exact I.
Qed.

Lemma text_reads view name v v' : reads view name (JString (c_str v)) → only_chars identity_chars v = true →
  text_member view name v' → v = v'.
Proof.
  unfold reads, text_member. intros Hr Hp (_ & _ & <-). rewrite (c_str_plain _ Hp) in Hr.
  destruct (Hr Hp) as (_ & _ & ->). symmetry. by apply c_str_plain.
Qed.

(** The text of a status, as a document. *)
Lemma status_text s t text s' t' : prepared_ s = true → status_section s t = (inr text, s', t') →
  ∃ up cred, text = c_str (WriteCompact (status_fields s (v_steady t) up cred)).
Proof.
  intros Hp. unfold status_section, mbind, X_bind, xget, steady, vcall, mret, X_ret, throw. rewrite Hp. cbn [negb].
  destruct (started_ s =? 0); unfold parse, throw, mret, X_ret; (destruct (json_parse (c_str (credentials_ s))) as [cred|]; [|done]);
    destruct (IsObject cred); intros H; simplify_eq; eauto.
Qed.

Lemma status_member s now up cred :
  let get := json_get (status_fields s now up cred) in
  get "phase"%string = JString (c_str (phase_ s)) ∧ get "thingId"%string = JString (c_str (mv_thing (run_ s))) ∧
  get "microvmId"%string = JString (c_str (mv_id (run_ s))) ∧
  (if string_empty (mv_run_id (run_ s)) then get "runId"%string = JNull else
   get "runId"%string = JString (c_str (mv_run_id (run_ s))) ∧
   get "activationId"%string = JString (c_str (mv_activation_id (run_ s))) ∧
   get "deadline"%string = JInt64 (mv_deadline (run_ s)) ∧
   get "assignmentVerified"%string = JBool (assignment_fresh s now) ∧
   get "assignmentAgeMs"%string = if (assignment_verified_at_ s =? 0) || (now <? assignment_verified_at_ s) then JNull
     else JInt64 (Z.quot (now - assignment_verified_at_ s) (10 ^ 6))).
Proof.
  cbv zeta. unfold status_fields.
  destruct (string_empty (mv_run_id (run_ s))), (assignment_verified_at_ s =? 0), (now <? assignment_verified_at_ s), (started_ s =? 0);
    repeat split; reflexivity.
Qed.

(** C31: A status that the controller accepts as a verification was written by an
    application that runs the very run and activation the controller asks about, with
    the same deadline, that holds a verified assignment, and whose verification stays
    younger than 15 seconds even with the time the sample took. *)
Theorem status_vouches {E St} s t text s' t' snapshot thing elapsed_ms (s0 : St) (t0 : list E) :
  mv_run require s t → prepared_ s = true → status_section s t = (inr text, s', t') →
  runtime_verified_for snapshot thing text elapsed_ms s0 t0 = (inr true, s0, t0) →
  ∃ r a, snap_run snapshot = Some r ∧ activation (snap_activation snapshot) = Some a ∧ phase r = running ∧
    phase_ s = "running"%string ∧ authorized_ s = true ∧
    run_ s = mk_microvm_run (microvm_id r) thing "eu-central-1" (run_id r) (act_id a) (deadline a) ∧
    0 ≤ v_steady t - assignment_verified_at_ s < (15000 - elapsed_ms) * 10 ^ 6.
Proof.
  intros Hrun Hprep Hs Hv. destruct (status_text _ _ _ _ _ Hprep Hs) as (up & cred & ->).
  destruct (runtime_verified_for_spec snapshot thing (c_str (WriteCompact (status_fields s (v_steady t) up cred))) elapsed_ms s0 t0) as (b & Hb & Hiff).
  rewrite Hb in Hv. injection Hv as ->. destruct (proj1 Hiff eq_refl) as (r&a&view&age&Er&Ea&_&He&Hph&_&Eact&Hparse&_&Mp&Mt&Mr&Mm&Ma&Md&Mv&Mg&Hage).
  rewrite !written_text in Hparse. destruct (written_reads _ (status_fields_nodup s (v_steady t) up cred)) as (view'&Hparse'&_&Hreads).
  rewrite Hparse in Hparse'. injection Hparse' as <-.
  destruct (status_member s (v_steady t) up cred) as (Gp&Gt&Gm&Gr).
  pose proof (mv_run_inv require s t Hrun) as (st & [Hg Hgate] & Hst).
  assert (Hp : phase_ s = "running"%string).
  { pose proof (Hreads "phase"%string) as H. rewrite Gp in H. eapply text_reads; [exact H| |done]. apply phases_plain. by destruct Hst. }
  assert (Hvr : valid_run require (run_ s)).
  { eapply guarded_started; [done|]. rewrite Hgate. by apply (st_running _ _ _ Hst). }
  destruct Hvr as (Hid&Hth&Hreg&Hreq). exists r, a.
  pose proof (Hreads "runId"%string) as Rr. destruct (string_empty (mv_run_id (run_ s))) eqn:Ern.
  { rewrite Gr in Rr. cbn in Rr. destruct Mr as (Mr&_). by rewrite Rr in Mr. }
  destruct Gr as (Gr&Gact&Gd&Gv&Gage). apply string_empty_false in Ern.
  destruct require; [|by destruct Hreq].
  destruct Hreq as [Hrid Haid]. rewrite Gr in Rr.
  pose proof (Hreads "thingId"%string) as Rt. rewrite Gt in Rt.
  pose proof (Hreads "microvmId"%string) as Rm. rewrite Gm in Rm.
  pose proof (Hreads "activationId"%string) as Ra. rewrite Gact in Ra.
  pose proof (Hreads "deadline"%string) as Rd. rewrite Gd in Rd.
  pose proof (Hreads "assignmentVerified"%string) as Rv. rewrite Gv in Rv.
  pose proof (Hreads "assignmentAgeMs"%string) as Rg. rewrite Gage in Rg.
  destruct Md as (_&_&Md&_), Mv as (_&_&Mv), Mg as (Mg0&_&Mg&Hpos), Rv as (_&_&Rv), Rd as (_&_&Rd).
  destruct ((assignment_verified_at_ s =? 0) || _) eqn:Eage; [cbn in Rg; congruence|]. destruct Rg as (_&_&Rg). bool_simpl.
  split_and!; try done; [| |lia|].
  - eapply fresh_authorized. by rewrite <- Rv.
  - destruct (run_ s) as [i th rg ri ai dl] eqn:Erun. cbn in *. f_equal.
    + by eapply text_reads; [exact Rm|eapply identifier_plain|].
    + by eapply text_reads; [exact Rt|eapply identifier_plain|].
    + done.
    + by eapply text_reads; [exact Rr|eapply identifier_plain|].
    + rewrite <- Eact. by eapply text_reads; [exact Ra|eapply identifier_plain|].
    + congruence.
  - rewrite <- Mg, Rg in Hage. set (x := v_steady t - assignment_verified_at_ s) in *.
    pose proof (Z.quot_rem' x (10 ^ 6)). pose proof (Z.rem_bound_pos x (10 ^ 6)). lia.
Qed.
End Status.

(** ** Texts of the runner *)

(** A fixed text, or one of a few operations with a short status number. *)
Definition safe_reason (d : string) : Prop :=
  (∃ op st, op ∈ http_operations ∧ st ≠ EmptyString ∧ string_size st ≤ 3 ∧ only_chars digits st = true ∧ d = op +:+ " HTTP " +:+ st) ∨
  (∃ st, st ≠ EmptyString ∧ string_size st ≤ 8 ∧ only_chars hex_chars st = true ∧ d = kvs_prefix +:+ st) ∨
  d = "unsupported registered Thing type" ∨
  d = "runtime initialization or execution failed; inspect connection operation/status diagnostics".

Lemma http_error_safe ops detail e : http_error ops detail = Some e →
  ∃ op st, op ∈ ops ∧ st ≠ EmptyString ∧ string_size st ≤ 3 ∧ only_chars digits st = true ∧ e = op +:+ " HTTP " +:+ st.
Proof.
  induction ops as [|op ops IH]; [done|]. cbn [http_error].
  assert (Hnext : http_error ops detail = Some e →
    ∃ op' st, op' ∈ op :: ops ∧ st ≠ EmptyString ∧ string_size st ≤ 3 ∧ only_chars digits st = true ∧ e = op' +:+ " HTTP " +:+ st).
  { intros H. destruct (IH H) as (op'&st&?&Hrest). exists op', st. split; [by right|done]. }
  destruct (negb _); [done|]. destruct (rfind " HTTP " detail) as [n|]; [|done]. destruct (_ && _) eqn:E; [|done].
  intros [= <-]. bool_simpl. eexists _, _. split; [left|]. split; [by apply string_empty_false|]. split; [done|]. by split.
Qed.

(** Whatever the runner throws, the reason that a status shows is a fixed text or a
    known operation with a status of a few digits. *)
Theorem safe_error_fixed detail : safe_reason (safe_error detail).
Proof.
  unfold safe_error. destruct (http_error http_operations detail) as [e|] eqn:E; [left; by eapply http_error_safe|].
  destruct (_ && _) eqn:Ek; [right; left|right; right; clear Ek; destruct (String.prefix _ detail); [by left|by right]].
  bool_simpl. exists (substr_from (String.length kvs_prefix) detail). split; [by apply string_empty_false|]. by split_and!.
Qed.

(** The controller publishes the control errors of a status as they are. *)
Theorem control_errors_agree reason : reason ∈ safe_reasons →
  control_detail reason = reason.
Proof. intros H. unfold control_detail. rewrite bool_decide_true; [done|]. apply elem_of_app. by left. Qed.

(** ** A run of the application *)

(** A tokenizer for one object of strings: the object, then what is between two
    quotation marks. *)
Fixpoint demo_tokens (text : string) (i : Z) (open : option Z) (escaped : bool) : list jsmntok :=
  match text with
  | EmptyString => []
  | String c rest =>
      match open with
      | None => demo_tokens rest (i + 1) (if Ascii.eqb c "034"%char then Some (i + 1) else None) false
      | Some start =>
          if escaped then demo_tokens rest (i + 1) open false else
          if Ascii.eqb c "\"%char then demo_tokens rest (i + 1) open true else
          if Ascii.eqb c "034"%char then mk_tok JSMN_STRING start i :: demo_tokens rest (i + 1) None false
          else demo_tokens rest (i + 1) open false
      end
  end.
Definition demo_jsmn : Jsmn := λ text,
  let tokens := mk_tok JSMN_OBJECT 0 (string_size text) :: demo_tokens text 0 None false in
  (Z.of_nat (length tokens), tokens).

Definition quoted (quote s : string) : string := quote +:+ s +:+ quote.
Fixpoint object_text (quote : string) (fields : list (string * string)) : string :=
  match fields with
  | [] => "}"
  | (k, v) :: fields => quoted quote k +:+ ":" +:+ quoted quote v +:+ (if fields then EmptyString else ",") +:+ object_text quote fields
  end.

Definition demo_body : string :=
  "{" +:+ object_text dq [("microvmId", "vm-1");
    ("runHookPayload", "{" +:+ object_text ("\" +:+ dq) [("thingId", "tbot-1"); ("region", "eu-central-1"); ("runId", "run-1");
                                                        ("activationId", "act-1"); ("deadline", "2000")])]%string.

(** A clock of one second per event; the credentials parse. *)
Definition demo_env : MicrovmEnv (json:=plain_json) := {|
  v_steady t := seconds (Z.of_nat (length t)); v_wall _ := 1000; v_prepare _ := inr tt; v_thread _ := inr tt;
  v_acquire _ _ := true; v_send _ _ := true; v_others _ := []; view_value _ := JNull; build_id := "demo" |}.

Definition demo_call (m : member) (st : MicrovmApplication * list mv_event) : MicrovmApplication * list mv_event :=
  let '(_, s, t) := call_member (json:=plain_json) (jsmn:=demo_jsmn) (env:=demo_env) m st.1 st.2 in (s, t).

Definition demo_wire : Bytes := [0xfd; 1; 0; 0; 1; 1; 1; 0; 0; 0; 7; 7; 7].

Definition demo_members : list member :=
  [m_hook "/run" demo_body; m_section (sec_actions true); m_section (sec_authorized true (seconds 3));
   m_section (sec_credential_status (plain_write [])); m_section sec_attach; m_message demo_wire true]%string.
Definition demo_app : MicrovmApplication * list mv_event :=
  foldl (λ st m, demo_call m st) (new_application true true, []) demo_members.

Lemma demo_app_run : mv_run (json:=plain_json) (jsmn:=demo_jsmn) (env:=demo_env) true demo_app.1 demo_app.2.
Proof.
  unfold demo_app. assert (H : ∀ ms st, mv_run (json:=plain_json) (jsmn:=demo_jsmn) (env:=demo_env) true st.1 st.2 →
    let st' := foldl (λ st m, demo_call m st) st ms in
    mv_run (json:=plain_json) (jsmn:=demo_jsmn) (env:=demo_env) true st'.1 st'.2).
  { induction ms as [|m ms IH]; intros [s t] H; [done|]. cbn [foldl]. apply IH. unfold demo_call. cbn in *.
    destruct (call_member m s t) as [[r s'] t'] eqn:E. by eapply mv_call. }
  apply H. apply mv_start.
Qed.

Lemma microvm_effects_allowed_witness :
  mv_allowed true (VSend demo_wire true) (drop 2 demo_app.2).
Proof.
  apply (microvm_effects_allowed (json:=plain_json) (jsmn:=demo_jsmn) (env:=demo_env) true demo_app.1 demo_app.2 (take 1 demo_app.2));
    [exact demo_app_run|vm_compute; reflexivity].
Defined.


Definition demo_snapshot : ControllerSnapshot :=
  mk_snapshot 1 0 0 0 EmptyString
    (mk_controller (mk_activation_state 1 1 0 true true (Some (mk_activation "act-1" 500 2000)))
       (Some (mk_run "run-1" "act-1" "1.0.0" "request" "vm-1" running))).
Definition demo_status := status_section (json:=plain_json) (env:=demo_env) demo_app.1 demo_app.2.
Definition demo_text : string := match demo_status.1.1 with inr text => text | inl _ => EmptyString end.

Lemma status_vouches_witness :
  0 ≤ v_steady (MicrovmEnv:=demo_env) demo_app.2 - assignment_verified_at_ demo_app.1 < (15000 - 2000) * 10 ^ 6.
Proof.
  destruct (status_vouches (json:=plain_json) (jsmn:=demo_jsmn) (env:=demo_env) true demo_app.1 demo_app.2 demo_text
    demo_status.1.2 demo_status.2 demo_snapshot "tbot-1" 2000 () ([] : list unit)) as (r&a&_&_&_&_&_&_&H).
  - exact demo_app_run.
  - vm_compute. reflexivity.
  - vm_compute. reflexivity.
  - vm_compute. reflexivity.
  - exact H.
Defined.
