(* ===== verification/AgentServer.v ===== *)
(** * The server in the MicroVM

    [agent/src/microvm_server.cpp]: one thread serves the lifecycle hooks on one
    port and a status page and one attached client on another, with libwebsockets.
    The library calls [Server::callback] with a reason, a socket and the memory it
    keeps for the socket, a [Request]; the server copies what arrives into the
    buffers of the request and calls the application ([AgentMicrovm]).

    The library is a parameter: what its calls return is in the environment, and
    the order of its callbacks is the relation [srv_run] of [AgentServerSafety].
    Every [memcpy] is checked against the size of its buffer; a copy that leaves
    it, a text without an end and a request that the library did not give are the
    event [SFault]. *)
From stdpp Require Import gmap.
From S2P Require Import Prelude Cpp AwsJson AgentSession AgentMicrovm.

#[local] Open Scope Z_scope.

(** ** Data *)

Definition hook_prefix : string := "/aws/lambda-microvms/runtime/v1".

(** A socket. *)
Definition wsi := nat.

Record Request := mk_request {
  req_path : list Z; req_body : list Z; req_size : Z; req_response : list Z; req_response_size : Z;
  req_binary : bool; req_post : bool; req_rejected : bool }.

Record Server := mk_server {
  app : MicrovmApplication; app_trace : list mv_event; attachment : option wsi; requests : gmap wsi Request }.

Definition set_app (a : MicrovmApplication) (t : list mv_event) (s : Server) : Server :=
  mk_server a t (attachment s) (requests s).
Definition set_attachment (w : option wsi) (s : Server) : Server :=
  mk_server (app s) (app_trace s) w (requests s).
Definition set_requests (m : gmap wsi Request) (s : Server) : Server :=
  mk_server (app s) (app_trace s) (attachment s) m.

Definition set_path (p : list Z) (r : Request) : Request :=
  mk_request p (req_body r) (req_size r) (req_response r) (req_response_size r) (req_binary r) (req_post r) (req_rejected r).
Definition set_body (b : list Z) (size : Z) (r : Request) : Request :=
  mk_request (req_path r) b size (req_response r) (req_response_size r) (req_binary r) (req_post r) (req_rejected r).
Definition set_size (size : Z) (r : Request) : Request := set_body (req_body r) size r.
Definition set_response (b : list Z) (size : Z) (r : Request) : Request :=
  mk_request (req_path r) (req_body r) (req_size r) b size (req_binary r) (req_post r) (req_rejected r).
Definition set_response_size (size : Z) (r : Request) : Request := set_response (req_response r) size r.
Definition set_binary (b : bool) (r : Request) : Request :=
  mk_request (req_path r) (req_body r) (req_size r) (req_response r) (req_response_size r) b (req_post r) (req_rejected r).
Definition set_post (b : bool) (r : Request) : Request :=
  mk_request (req_path r) (req_body r) (req_size r) (req_response r) (req_response_size r) (req_binary r) b (req_rejected r).
Definition set_rejected (b : bool) (r : Request) : Request :=
  mk_request (req_path r) (req_body r) (req_size r) (req_response r) (req_response_size r) (req_binary r) (req_post r) b.

Inductive write_protocol := LWS_WRITE_TEXT | LWS_WRITE_BINARY | LWS_WRITE_HTTP_FINAL.

Inductive srv_event :=
  | SFault
  | SWritable (w : wsi)
  | SSchedule (us : Z)
  | SAttach (w : wsi) (ok : bool)
  | SDetach (w : wsi)
  | SMessage (w : wsi) (bytes : Bytes) (binary : bool)
  | SOutgoing (w : wsi) (message : option WireMessage)
  | SHook (w : wsi) (path body : string)
  | SStatus (w : wsi)
  | SHeaders (w : wsi) (status length : Z) (failed : bool)
  | SWrite (w : wsi) (bytes : list Z) (protocol : write_protocol) (written : Z)
  | SCompleted (w : wsi) (over : bool)
  | SCreateContext (ok : bool)
  | SCreateVhost (port : Z) (ok : bool)
  | SStop | SCancelTimer | SDestroyContext.

(** What libwebsockets answers. [LWS_PRE] is the room it wants before what it
    writes; [listen_port] the port of the listener that accepted a socket. *)
Class Lws := {
  LWS_PRE : nat;
  listen_port : wsi → Z;
  lws_context_created : list srv_event → bool;
  lws_vhost_created : Z → list srv_event → bool;
  lws_headers_fail : wsi → list srv_event → bool;
  lws_write_result : wsi → list srv_event → Z;
  lws_transaction_over : wsi → list srv_event → bool }.

(** The reasons of a callback, with the data and what the library tells about the
    socket there. The address of an upgrade is [None] where [lws_hdr_copy] fails
    into the 128 bytes of [path]. *)
Inductive reason :=
  | PROTOCOL_INIT | PROTOCOL_DESTROY | WSI_CREATE | WSI_DESTROY
  | EVENT_WAIT_CANCELLED
  | FILTER_PROTOCOL_CONNECTION (uri : option string)
  | ESTABLISHED
  | CLOSED
  | RECEIVE (data : list Z) (first_fragment frame_is_binary final_fragment : bool) (remaining : Z)
  | SERVER_WRITEABLE
  | HTTP (uri : option (list Z)) (post_uri content_length : bool)
  | HTTP_BODY (data : list Z)
  | HTTP_BODY_COMPLETION
  | HTTP_WRITEABLE
  | other_reason.

Section Callbacks.
Context `{json : AwsJson, jsmn : Jsmn, env : !MicrovmEnv, lws : Lws} (hook_port attachment_port : Z).
Abbreviation P := (X srv_event Server).

(** A call of the application. *)
Definition app_call {A} (c : X mv_event MicrovmApplication A) : P A :=
  λ s t, match c (app s) (app_trace s) with (r, a, ta) => (r, set_app a ta s, t) end.

Definition fault : P unit := xemit SFault.

(** An answer of the library, recorded with the call. *)
Definition lcall {A} (e : A → srv_event) (f : list srv_event → A) : P A :=
  λ s t, (inr (f t), s, e (f t) :: t).

(** [static_cast<Request* >(user)]. *)
Definition no_request : Request := mk_request [] [] 0 [] 0 false false false.
Definition request (w : wsi) : P Request :=
  s ← xget;
  match requests s !! w with
  | Some r => mret r
  | None => _ ← fault; mret no_request
  end.
Definition update (w : wsi) (f : Request → Request) : P unit :=
  xmodify (λ s, set_requests (alter f w (requests s)) s).

(** [std::memcpy(buffer + offset, data, size)]. *)
Definition memcpy (buffer : list Z) (offset : Z) (data : list Z) : P (list Z) :=
  match Prelude.store buffer (Z.to_nat offset) data with
  | Some b => mret b
  | None => _ ← fault; mret buffer
  end.

(** The text of a buffer up to its NUL. *)
Fixpoint c_text (buffer : list Z) : option (list Z) :=
  match buffer with
  | [] => None
  | b :: rest => if b =? 0 then Some [] else (b ::.) <$> c_text rest
  end.
Definition path_text (r : Request) : P string :=
  match c_text (req_path r) with
  | Some p => mret (text_of_bytes p)
  | None => _ ← fault; mret EmptyString
  end.

Definition timer_callback : P unit :=
  s ← xget;
  _ ← match attachment s with Some w => xemit (SWritable w) | None => mret tt end;
  xemit (SSchedule 100000).

Definition respond (w : wsi) (reply : HookReply) : P Z :=
  if 8192 <? string_size (reply_body reply) then mret (-1) else
  failed ← lcall (SHeaders w (status_code reply) (string_size (reply_body reply))) (lws_headers_fail w);
  if failed : bool then mret (-1) else
  r ← request w;
  b ← memcpy (req_response r) (Z.of_nat LWS_PRE) (bytes_of_text (reply_body reply));
  _ ← update w (set_response b (string_size (reply_body reply)));
  _ ← xemit (SWritable w);
  mret 0.

Definition error_reply (code : Z) (value : string) : HookReply :=
  mk_reply code ("{" +:+ dq +:+ "error" +:+ dq +:+ ":" +:+ dq +:+ value +:+ dq +:+ "}").

Definition complete (w : wsi) : P Z :=
  r ← request w;
  if u32 (listen_port w) =? hook_port then
    path ← path_text r;
    if negb (req_post r) || negb (String.prefix hook_prefix path) then respond w (error_reply 404 "unknown hook") else
    let body := text_of_bytes (take (Z.to_nat (req_size r)) (req_body r)) in
    _ ← xemit (SHook w (substr_from (String.length hook_prefix) path) body);
    answer ← app_call (hook (substr_from (String.length hook_prefix) path) body);
    respond w answer
  else
  path ← path_text r;
  if req_post r || negb (bool_decide (path = "/status"%string))
  then respond w (error_reply 404 "unknown attachment endpoint") else
  _ ← xemit (SStatus w);
  text ← app_call status;
  respond w (mk_reply 200 text).

(** Appends to the body of the request. *)
Definition append_body (w : wsi) (r : Request) (data : list Z) : P unit :=
  b ← memcpy (req_body r) (req_size r) data;
  update w (set_body b (u64 (req_size r + Z.of_nat (length data)))).

Definition receive (w : wsi) (data : list Z) (first_fragment frame_is_binary final_fragment : bool) (remaining : Z) : P Z :=
  r ← request w;
  _ ← xwhen (first_fragment && (req_size r =? 0)) (update w (set_binary frame_is_binary));
  r ← request w;
  if 4096 <? u64 (req_size r + Z.of_nat (length data)) then mret (-1) else
  _ ← append_body w r data;
  _ ← xwhen (final_fragment && (remaining =? 0))
        (r ← request w;
         let bytes := take (Z.to_nat (req_size r)) (req_body r) in
         _ ← xemit (SMessage w bytes (req_binary r));
         _ ← app_call (message bytes (req_binary r));
         update w (set_size 0));
  mret 0.

Definition server_writeable (w : wsi) : P Z :=
  is_attached ← app_call attached;
  if negb is_attached then mret (-1) else
  m ← app_call outgoing;
  _ ← xemit (SOutgoing w m);
  match m with
  | None => mret 0
  | Some m =>
      written ← lcall (SWrite w (wire_bytes m) (if wire_binary m then LWS_WRITE_BINARY else LWS_WRITE_TEXT)) (lws_write_result w);
      if (written <? 0) || negb (written =? Z.of_nat (length (wire_bytes m))) then mret (-1) else
      _ ← xemit (SWritable w);
      mret 0
  end.

Definition http (w : wsi) (uri : option (list Z)) (post_uri content_length : bool) : P Z :=
  match uri with
  | None => mret (-1)
  | Some data =>
      if 128 <=? Z.of_nat (length data) then mret (-1) else
      r ← request w;
      p ← memcpy (req_path r) 0 data;
      p ← memcpy p (Z.of_nat (length data)) [0];
      _ ← update w (set_path p);
      _ ← update w (set_size 0);
      _ ← update w (set_response_size 0);
      _ ← update w (set_rejected false);
      _ ← update w (set_post post_uri);
      if negb post_uri || negb content_length then complete w else mret 0
  end.

Definition http_body (w : wsi) (data : list Z) : P Z :=
  r ← request w;
  if req_rejected r then mret 0 else
  if 16384 <? u64 (req_size r + Z.of_nat (length data)) then
    _ ← update w (set_rejected true);
    respond w (error_reply 413 "body too large")
  else
  _ ← append_body w r data;
  mret 0.

Definition http_writeable (w : wsi) : P Z :=
  r ← request w;
  let bytes := take (Z.to_nat (req_response_size r)) (drop LWS_PRE (req_response r)) in
  _ ← xwhen (negb (Z.of_nat (length bytes) =? req_response_size r)) fault;
  written ← lcall (SWrite w bytes LWS_WRITE_HTTP_FINAL) (lws_write_result w);
  if (written <? 0) || negb (written =? req_response_size r) then mret (-1) else
  if req_rejected r then mret (-1) else
  over ← lcall (SCompleted w) (lws_transaction_over w);
  mret (if over : bool then -1 else 0).

Definition established (w : wsi) : P Z :=
  ok ← app_call attach;
  _ ← xemit (SAttach w ok);
  if negb ok then mret (-1) else
  _ ← xmodify (set_attachment (Some w));
  r ← request w;
  _ ← update w (set_size 0);
  _ ← xemit (SWritable w);
  mret 0.

Definition closed (w : wsi) : P Z :=
  s ← xget;
  _ ← xwhen (bool_decide (attachment s = Some w))
        (_ ← xmodify (set_attachment None);
         _ ← xemit (SDetach w);
         app_call detach);
  mret 0.

Definition b2i (b : bool) : Z := if b then 1 else 0.

Definition filter_protocol_connection (w : wsi) (uri : option string) : P Z :=
  match uri with
  | None => mret 1
  | Some path =>
      s ← xget;
      mret (b2i (negb (u32 (listen_port w) =? attachment_port) || bool_decide (attachment s ≠ None)
                 || negb (bool_decide (path = "/stream"%string))))
  end.

Definition callback (w : wsi) (why : reason) : P Z :=
  try_catch
    (match why with
     | PROTOCOL_INIT | PROTOCOL_DESTROY | WSI_CREATE | WSI_DESTROY => mret 0
     | EVENT_WAIT_CANCELLED =>
         s ← xget;
         _ ← match attachment s with Some w => xemit (SWritable w) | None => mret tt end;
         mret 0
     | FILTER_PROTOCOL_CONNECTION uri => filter_protocol_connection w uri
     | ESTABLISHED => established w
     | CLOSED => closed w
     | RECEIVE data first_fragment frame_is_binary final_fragment remaining =>
         receive w data first_fragment frame_is_binary final_fragment remaining
     | SERVER_WRITEABLE => server_writeable w
     | HTTP uri post_uri content_length => http w uri post_uri content_length
     | HTTP_BODY data => http_body w data
     | HTTP_BODY_COMPLETION =>
         r ← request w;
         if req_rejected r then mret 0 else complete w
     | HTTP_WRITEABLE => http_writeable w
     | other_reason => mret 0
     end)
    (λ _, mret (-1)).

(** [serve_microvm] up to its loop. *)
Definition start_server : P unit :=
  if hook_port =? attachment_port then throw "hook and attachment ports must differ" else
  context ← lcall SCreateContext lws_context_created;
  if negb context then throw "could not create MicroVM HTTP context" else
  hooks ← lcall (SCreateVhost hook_port) (lws_vhost_created hook_port);
  ingress ← lcall (SCreateVhost attachment_port) (lws_vhost_created attachment_port);
  if negb hooks || negb ingress
  then _ ← xemit SDestroyContext; throw "could not bind MicroVM hook/attachment listeners" else
  _ ← app_call (wake_with true);
  xemit (SSchedule 100000).

(** The end of [serve_microvm]. [lws_context_destroy] closes what is open: the
    library calls back for the upgraded sockets. *)
Definition shutdown (open : list wsi) : P unit :=
  _ ← xemit SStop;
  _ ← app_call stop;
  _ ← app_call (wake_with false);
  _ ← xemit SCancelTimer;
  _ ← for_each (λ w, _ ← callback w CLOSED; mret tt) open;
  xemit SDestroyContext.
End Callbacks.
