(* ===== verification/AgentServerSafety.v ===== *)
(** * What the server in the MicroVM lets through

    [srv_run] is any run of [AgentServer]: the library calls back in the order it
    documents for a socket, other threads of the process use the application in
    between, and sockets come and go. *)
From stdpp Require Import gmap.
From S2P Require Import Prelude Cpp AwsJson AgentSession AgentMicrovm AgentMicrovmSafety AgentServer.

#[local] Open Scope Z_scope.

Lemma length_bytes_of_text s : Z.of_nat (length (bytes_of_text s)) = string_size s.
Proof. unfold bytes_of_text, string_size. rewrite length_map. induction s as [|c s IH]; [done|]. cbn. lia. Qed.

Lemma size_text_of_bytes b : string_size (text_of_bytes b) = Z.of_nat (length b).
Proof. unfold text_of_bytes, string_size. induction b as [|c b IH]; [done|]. cbn in *. lia. Qed.

(** A text that was copied and ended is read back. *)
Lemma c_text_memcpy buffer data : (length data < length buffer)%nat →
  is_Some (c_text (memcpy_at (memcpy_at buffer 0 data) (length data) [0])).
Proof.
  intros Hl. rewrite (memcpy_at_app' buffer 0 (length data) data [0]) by (cbn; lia). unfold memcpy_at. rewrite take_0. cbn [app].
  generalize (drop (0 + length (data ++ [0])) buffer). intros rest. clear Hl.
  induction data as [|b data IH]; [by eexists|]. cbn in *. destruct (b =? 0); [by eexists|].
  destruct IH as [x ->]. by eexists.
Qed.

(** ** The library's side *)

(** A socket that was accepted, has a request, was let through to an upgrade, is
    upgraded, or is being closed. *)
Inductive wstate := W_accepted | W_request | W_filtered | W_stream | W_closing (stream : bool).

#[global] Instance reason_eq_dec : EqDecision reason.
Proof. solve_decision. Defined.
#[global] Instance wstate_eq_dec : EqDecision wstate.
Proof. solve_decision. Defined.

Definition is_stream (k : wstate) : bool :=
  match k with W_stream | W_closing true => true | _ => false end.

(** The state after a callback that returned 0, where its reason is possible. *)
Definition after (k : wstate) (why : reason) : option wstate :=
  match k, why with
  | (W_accepted | W_request), HTTP _ _ _ => Some W_request
  | W_request, (HTTP_BODY _ | HTTP_BODY_COMPLETION | HTTP_WRITEABLE) => Some W_request
  | (W_accepted | W_request), FILTER_PROTOCOL_CONNECTION _ => Some W_filtered
  | W_filtered, ESTABLISHED => Some W_stream
  | W_stream, (RECEIVE _ _ _ _ _ | SERVER_WRITEABLE) => Some W_stream
  | _, (WSI_CREATE | WSI_DESTROY | other_reason) => Some k
  | _, _ => None
  end.
(** The reasons that are not about the data of a socket. *)
Definition idle_reason (why : reason) : bool :=
  match why with PROTOCOL_INIT | PROTOCOL_DESTROY | EVENT_WAIT_CANCELLED => true | _ => false end.

(** The socket that a callback lets through to an upgrade. *)
Definition let_through (w : wsi) (why : reason) (code : Z) : option wsi :=
  match why with
  | FILTER_PROTOCOL_CONNECTION _ => if code =? 0 then Some w else None
  | _ => None
  end.

(** No object is larger than half the address space. *)
Definition data_ok (why : reason) : Prop :=
  match why with
  | RECEIVE data _ _ _ _ | HTTP_BODY data => Z.of_nat (length data) < 2 ^ 63
  | _ => True
  end.

(** Who holds the attachment, by the history. *)
Fixpoint holder (t : list srv_event) : option wsi :=
  match t with
  | [] => None
  | SAttach w true :: _ => Some w
  | SDetach _ :: _ => None
  | _ :: t => holder t
  end.

Section Safety.
Context `{json : AwsJson, jsmn : Jsmn, env : !MicrovmEnv, lws : Lws} (hook_port attachment_port : Z) (require has_prepare atomic : bool).
Abbreviation P := (X srv_event Server).
Abbreviation callback := (callback hook_port attachment_port).
Abbreviation complete := (complete hook_port).

(** The memory that the library gives a socket has the size of a [Request] and any
    contents. *)
Definition sized (r : Request) : Prop :=
  Z.of_nat (length (req_path r)) = 128 ∧ Z.of_nat (length (req_body r)) = 16385 ∧
  Z.of_nat (length (req_response r)) = Z.of_nat LWS_PRE + 8192.

Definition new_server : Server := mk_server (new_application has_prepare require) [] None ∅.

(** Runs. [pending] is the socket whose upgrade was let through by the callback
    before; with [atomic] the library goes on with it at once. *)
Inductive srv_run : option wsi → Server → gmap wsi wstate → list srv_event → Prop :=
  | srv_start s t : start_server hook_port attachment_port new_server [] = (inr tt, s, t) → srv_run None s ∅ t
  | srv_open pending s st t w r : srv_run pending s st t → st !! w = None → sized r →
      srv_run None (set_requests (<[w := r]> (requests s)) s) (<[w := W_accepted]> st) t
  | srv_memory pending s st t w r : srv_run pending s st t → st !! w = Some W_filtered → sized r →
      srv_run pending (set_requests (<[w := r]> (requests s)) s) st t
  | srv_call pending s st t w k k' why code s' t' :
      srv_run pending s st t → st !! w = Some k → after k why = Some k' → data_ok why →
      (why = ESTABLISHED → atomic = true → pending = Some w) →
      callback w why s t = (inr code, s', t') →
      srv_run (let_through w why code) s'
        (<[w := if code =? 0 then k' else W_closing (is_stream k')]> st) t'
  | srv_idle pending s st t w why code s' t' : srv_run pending s st t → idle_reason why = true →
      callback w why s t = (inr code, s', t') → srv_run None s' st t'
  | srv_timer pending s st t s' t' : srv_run pending s st t → timer_callback s t = (inr tt, s', t') → srv_run None s' st t'
  | srv_close pending s st t w k : srv_run pending s st t → st !! w = Some k → is_stream k = false →
      srv_run None (set_requests (delete w (requests s)) s) (delete w st) t
  | srv_closed pending s st t w k code s' t' : srv_run pending s st t → st !! w = Some k → is_stream k = true →
      callback w CLOSED s t = (inr code, s', t') →
      srv_run None (set_requests (delete w (requests s')) s') (delete w st) t'
  | srv_other pending s st t c r s' t' : srv_run pending s st t → c ≠ sec_attach →
      app_call (lock (run_section c)) s t = (r, s', t') → srv_run pending s' st t'.

(** ** The calls of the application *)

(** A program that leaves the application as a call of a member does. *)
Definition is_member {A} (c : X mv_event MicrovmApplication A) : Prop :=
  ∃ m, ∀ s t, (c s t).1.2 = (call_member m s t).1.2 ∧ (c s t).2 = (call_member m s t).2.

Lemma is_member_section {A} (c : X mv_event MicrovmApplication A) sec :
  (∀ s t, (c s t).1.2 = (run_section sec s t).1.2 ∧ (c s t).2 = (run_section sec s t).2) → is_member (lock c).
Proof.
  intros H. exists (m_section sec). intros s t. cbn [call_member]. unfold lock, mbind, X_bind.
  destruct (others s t) as [[[e|[]] s1] t1]; [done|]. apply H.
Qed.

Ltac member_section sec := apply (is_member_section _ sec); intros s t; cbn [run_section]; unfold mbind, X_bind, try_catch, mret, X_ret.
Lemma member_attach : is_member attach.
Proof. member_section sec_attach. by destruct (attach_section s t) as [[[]?]?]. Qed.
Lemma member_attached : is_member attached.
Proof. member_section sec_attached. by destruct (attached_section s t) as [[[]?]?]. Qed.
Lemma member_detach : is_member detach.
Proof. by member_section sec_detach. Qed.
Lemma member_outgoing : is_member outgoing.
Proof. member_section sec_outgoing. by destruct (outgoing_section s t) as [[[]?]?]. Qed.
Lemma member_status : is_member AgentMicrovm.status.
Proof. member_section sec_status. by destruct (status_section s t) as [[[]?]?]. Qed.
Lemma member_wake given : is_member (wake_with given).
Proof. by member_section (sec_wake_with given). Qed.
Lemma member_message bytes binary : is_member (message bytes binary).
Proof. by exists (m_message bytes binary). Qed.
Lemma member_stop : is_member stop.
Proof. by exists m_stop. Qed.
Lemma member_hook path body : is_member (hook path body).
Proof.
  exists (m_hook path body). intros s t. cbn [call_member]. unfold mbind, X_bind, mret, X_ret.
  by destruct (hook path body s t) as [[[]?]?].
Qed.

(** *** The application runs as it does without the server *)

Definition app_runs (s : Server) (_ : list srv_event) : Prop := mv_run require (app s) (app_trace s).

Lemma app_call_runs {A} (c : X mv_event MicrovmApplication A) : is_member c → xkeeps app_runs (λ _, app_runs) (app_call c).
Proof.
  intros [m Hm] s t Hr. unfold app_call, xwp. specialize (Hm (app s) (app_trace s)) as [H1 H2].
  destruct (c (app s) (app_trace s)) as [[r a] ta]. destruct (call_member m (app s) (app_trace s)) as [[r' a'] ta'] eqn:E.
  cbn in H1, H2. subst. destruct r; by eapply mv_call.
Qed.

Ltac server_step :=
  first [xkeeps_step|apply xkeeps_try; [|intros ?]|apply xkeeps_modify; intros; done|apply xkeeps_emit; intros; done|by intros ???].

Ltac open_server :=
  unfold AgentServer.callback, established, closed, filter_protocol_connection, receive, server_writeable, http, http_body, http_writeable,
    AgentServer.complete, respond, append_body, memcpy, path_text, request, update, timer_callback, fault.

Lemma callback_runs w why : xkeeps app_runs (λ _, app_runs) (callback w why).
Proof.
  open_server.
  repeat first [server_step|apply app_call_runs; first [apply member_attach|apply member_attached|apply member_detach|apply member_outgoing
    |apply member_status|apply member_message|apply member_hook]].
Qed.

(** *** Only an established socket attaches *)

Definition down (s : MicrovmApplication) (_ : list mv_event) : Prop := attached_ s = false.

Lemma section_down c : c ≠ sec_attach → xkeeps down (λ _ _ _, False) (run_section c).
Proof.
  intros Hc. destruct c; [done|..]; cbn [run_section];
    unfold attached_section, detach_section, message_section, command, publish_section, outgoing_section, wake_with_section,
      actions_section, authorized_section, credential_status_section, stopped_section, status_section, telemetry_section, video_section,
      connection_section, control_section, release_actions, activity_actions, drain, parse, field, steady;
    repeat first [xkeeps_step | apply xkeeps_try; [|intros ?] | apply xkeeps_modify; intros; by repeat case_match
                 | apply xkeeps_emit; by intros | by intros ???].
Qed.
(** The other threads of the process do not attach: only the server does. *)
Hypothesis others_do_not_attach : ∀ t, sec_attach ∉ v_others t.

Lemma others_down : xkeeps down (λ _ _ _, False) others.
Proof.
  intros s t Hd. unfold others, xwp. apply xwp_for_each; [done|]. intros c s' t' Hc. apply section_down. intros ->.
  by apply (others_do_not_attach t).
Qed.

(** They do not throw either. *)
Lemma section_returns c : xkeeps (λ _ _, True) (λ _ _ _, False) (run_section c).
Proof.
  destruct c; cbn [run_section];
    unfold attach_section, attached_section, detach_section, message_section, command, publish_section, outgoing_section, wake_with_section,
      actions_section, authorized_section, credential_status_section, stopped_section, status_section, telemetry_section, video_section,
      connection_section, control_section, release_actions, activity_actions, drain, parse, field, steady;
    repeat first [xkeeps_step | apply xkeeps_try; [|intros ?] | by intros ???].
Qed.

Lemma others_return s t : xwp others (λ _ _ _, True) (λ _ _ _, False) s t.
Proof. unfold others, xwp. by apply (xkeeps_for_each (λ _ _, True)); [intros c; apply section_returns|]. Qed.

Abbreviation keeps_down := (xkeeps down (λ _, down)).

Lemma lock_down {A} (c : X mv_event MicrovmApplication A) : keeps_down c → keeps_down (lock c).
Proof. intros Hc s t Hd. unfold lock. apply xwp_bind. eapply xwp_mono; [by apply others_down| |done]. intros [] s' t' Hd'. by apply Hc. Qed.

Lemma down_section c : c ≠ sec_attach → keeps_down (run_section c).
Proof. intros Hc s t Hd. eapply xwp_mono; [by apply section_down|done|done]. Qed.

Ltac down_step :=
  first [xkeeps_step|apply xkeeps_try; [|intros ?]|apply lock_down|apply xkeeps_modify; intros; by repeat case_match|apply xkeeps_emit; by intros|by intros ???].

Lemma down_attached : keeps_down attached.
Proof. unfold attached, attached_section, steady. repeat down_step. Qed.
Lemma down_outgoing : keeps_down outgoing.
Proof. unfold outgoing, outgoing_section. repeat down_step. Qed.
Lemma down_status : keeps_down AgentMicrovm.status.
Proof. unfold AgentMicrovm.status, status_section, parse, steady. repeat down_step. Qed.
Lemma down_wake given : keeps_down (wake_with given).
Proof. unfold wake_with, wake_with_section. repeat down_step. Qed.
Lemma down_stop : keeps_down stop.
Proof. unfold stop, stopping_section, stop_section. repeat down_step. Qed.

Lemma down_message bytes binary : keeps_down (message bytes binary).
Proof.
  unfold message, publish_text, publish. repeat first [apply down_status|down_step].
  - intros s t Hd. pose proof (down_section (sec_message bytes binary) ltac:(done) s t Hd) as H. cbn [run_section] in H.
    unfold xwp, mbind, X_bind in *. by destruct (message_section bytes binary s t) as [[[]?]?].
  - apply (down_section (sec_publish _)). done.
  - apply (down_section (sec_publish _)). done.
Qed.

Lemma down_pure {A} (c : X mv_event MicrovmApplication A) φ : pure_prog c φ → keeps_down c.
Proof. intros Hp s t Hd. eapply xwp_mono; [apply Hp|by intros ??? (->&->&_)|by intros ??? (->&->)]. Qed.

Lemma down_hook path body : keeps_down (hook path body).
Proof.
  unfold hook, ready_section, run_hook, run_hook_section, start_run, deadline_error.
  repeat first [apply down_stop|eapply down_pure, parse_run_valid|apply xkeeps_call; by intros|down_step].
Qed.
(** An attached application has a socket. *)
Definition has_socket (s : Server) (_ : list srv_event) : Prop := attached_ (app s) = true → attachment s ≠ None.

Lemma app_call_socket {A} (c : X mv_event MicrovmApplication A) : keeps_down c → xkeeps has_socket (λ _, has_socket) (app_call c).
Proof.
  intros Hc s t Hs. unfold app_call, xwp. destruct (attached_ (app s)) eqn:Ea.
  - destruct (c (app s) (app_trace s)) as [[[] a] ta]; intros _; by apply Hs.
  - specialize (Hc (app s) (app_trace s) Ea). unfold xwp, down in Hc.
    destruct (c (app s) (app_trace s)) as [[[] a] ta]; unfold has_socket; cbn; by rewrite Hc.
Qed.

(** [attach] says whether it attached. *)
Lemma attach_tells s t : xwp attach (λ ok s' _, ok = false → attached_ s = false → attached_ s' = false) (λ _ _ _, False) s t.
Proof.
  unfold attach, lock. apply xwp_bind.
  eapply (xwp_mono _ (λ _ s' _, attached_ s = false → attached_ s' = false) _ (λ _ _ _, False)); [| |done].
  { destruct (attached_ s) eqn:E.
    - eapply xwp_mono; [apply others_return|done|done].
    - eapply xwp_mono; [by apply others_down|done|done]. }
  intros [] s1 t1 H1. unfold attach_section, steady. repeat first [xwp_step|apply xwp_vcall; intros ? _|unfold drain]; try done; by intros.
Qed.

Lemma established_socket w : xkeeps has_socket (λ _, has_socket) (established w).
Proof.
  intros s t Hs. unfold established. apply xwp_bind. unfold app_call, xwp at 1.
  pose proof (attach_tells (app s) (app_trace s)) as Ha. unfold xwp in Ha.
  destruct (attach (app s) (app_trace s)) as [[[e|ok] a] ta]; [done|]. xwp_step. xwp_step. destruct ok; cbn [negb].
  - xwp_step. xwp_step. unfold request, update. repeat first [xwp_step|apply xwp_bind]; done.
  - apply xwp_ret. intros Ha'. cbn in *. apply Hs. destruct (attached_ (app s)) eqn:E; [done|]. by rewrite Ha in Ha'.
Qed.

Lemma detach_detaches s t : xwp detach (λ _ s' _, attached_ s' = false) (λ _ _ _, False) s t.
Proof.
  unfold detach, lock. apply xwp_bind. eapply xwp_mono; [apply others_return| |done]. intros [] s1 t1 _.
  unfold detach_section, release_actions, drain. repeat xwp_step; done.
Qed.

Lemma closed_socket w : xkeeps has_socket (λ _, has_socket) (closed w).
Proof.
  intros s t Hs. unfold closed. do 2 xwp_step. apply xwp_bind.
  eapply (xwp_mono _ (λ _, has_socket) _ (λ _, has_socket)); [|done|done]. xwp_step; [|done].
  do 4 xwp_step. unfold app_call, xwp. pose proof (detach_detaches (app s) (app_trace s)) as Hd. unfold xwp in Hd. cbn.
  destruct (detach (app s) (app_trace s)) as [[[e|[]] a] ta]; [done|]. unfold has_socket. cbn. by rewrite Hd.
Qed.

Lemma callback_socket w why : xkeeps has_socket (λ _, has_socket) (callback w why).
Proof.
  unfold AgentServer.callback. apply xkeeps_try; [|intros; apply xkeeps_ret].
  destruct why; try (open_server; repeat first [server_step|apply app_call_socket;
    first [apply down_attached|apply down_outgoing|apply down_status|apply down_message|apply down_hook]]; fail);
    [apply established_socket|apply closed_socket].
Qed.
(** ** What the history allows *)

Definition srv_allowed (e : srv_event) (t : list srv_event) : Prop :=
  match e with
  | SFault => False
  | SHook w _ body => u32 (listen_port w) = hook_port ∧ string_size body ≤ 16384
  | SStatus w => u32 (listen_port w) ≠ hook_port
  | SAttach w true => u32 (listen_port w) = attachment_port ∧ (atomic = true → holder t = None)
  | SDetach w => holder t = Some w
  | SMessage w bytes _ =>
      u32 (listen_port w) = attachment_port ∧ Z.of_nat (length bytes) ≤ 4096 ∧ (atomic = true → holder t = Some w)
  | SOutgoing w _ => u32 (listen_port w) = attachment_port ∧ (atomic = true → holder t = Some w)
  | SWrite w bytes LWS_WRITE_HTTP_FINAL _ => Z.of_nat (length bytes) ≤ 8192
  | _ => True
  end.

(** The request of a socket, by the state of the socket. *)
Definition req_ok (k : wstate) (w : wsi) (r : Request) : Prop :=
  sized r ∧
  match k with
  | W_accepted | W_closing _ => True
  | W_request => is_Some (c_text (req_path r)) ∧ 0 ≤ req_size r ≤ 16384 ∧ 0 ≤ req_response_size r ≤ 8192
  | W_filtered => u32 (listen_port w) = attachment_port
  | W_stream => u32 (listen_port w) = attachment_port ∧ 0 ≤ req_size r ≤ 4096
  end.

(** A socket's request satisfies [φ], all others are as their states say, and [h]
    holds the attachment. *)
Definition requests_ok (st : gmap wsi wstate) (s : Server) : Prop :=
  ∀ w k, st !! w = Some k → ∃ r, requests s !! w = Some r ∧ req_ok k w r.
Record at_socket (st : gmap wsi wstate) (w : wsi) (φ : Request → Prop) (h : option wsi) (s : Server) (t : list srv_event) : Prop := {
  as_request : ∃ r, requests s !! w = Some r ∧ φ r;
  as_others : requests_ok (delete w st) s;
  as_guarded : guarded srv_allowed t;
  as_holder : holder t = h;
  as_attachment : attachment s = h }.

Section Socket.
Context (st : gmap wsi wstate) (w : wsi) (h : option wsi).
Abbreviation at_ := (at_socket st w).

Lemma at_mono (φ ψ : Request → Prop) s t : (∀ r, φ r → ψ r) → at_ φ h s t → at_ ψ h s t.
Proof. intros Hi [(r & Hr & Hφ) Ho Hg Hh Ha]. split; eauto. Qed.

Lemma xwp_request φ Q R s t : at_ φ h s t → (∀ r, φ r → at_ (eq r) h s t → Q r s t) → xwp (request w) Q R s t.
Proof.
  intros [(r & Hr & Hφ) Ho Hg Hh Ha] HQ. unfold request. do 2 xwp_step. rewrite Hr. apply xwp_ret. apply HQ; [done|]. split; eauto.
Qed.

Lemma xwp_update φ f ψ Q R s t : at_ φ h s t → (∀ r, φ r → ψ (f r)) → (∀ s', at_ ψ h s' t → Q tt s' t) → xwp (update w f) Q R s t.
Proof.
  intros [(r & Hr & Hφ) Ho Hg Hh Ha] Hf HQ. unfold update. apply xwp_modify, HQ. split; cbn; [|..|done|done]; [| |done].
  - exists (f r). rewrite lookup_alter, decide_True by done. rewrite Hr. eauto.
  - intros w' k Hk. destruct (decide (w = w')) as [->|Hne]; [by rewrite lookup_delete_eq in Hk|].
    cbn. rewrite lookup_alter_ne by done. by apply Ho.
Qed.

Lemma xwp_memcpy buffer offset data Q R s t : 0 ≤ offset → offset + Z.of_nat (length data) ≤ Z.of_nat (length buffer) →
  Q (memcpy_at buffer (Z.to_nat offset) data) s t → xwp (memcpy buffer offset data) Q R s t.
Proof. intros H0 Hb HQ. unfold memcpy. rewrite store_in_bounds by lia. done. Qed.

Lemma xwp_allowed φ e Q R s t : at_ φ h s t → srv_allowed e t → holder (e :: t) = holder t →
  (at_ φ h s (e :: t) → Q tt s (e :: t)) → xwp (xemit e) Q R s t.
Proof.
  intros [Hr Ho Hg Hh Ha] He Hh' HQ. apply xwp_emit, HQ. split; [done|done|done|by rewrite Hh'|done].
Qed.

Lemma xwp_lcall {A} φ (e : A → srv_event) f Q R s t : at_ φ h s t → (∀ a, srv_allowed (e a) t) → (∀ a, holder (e a :: t) = holder t) →
  (∀ a, at_ φ h s (e a :: t) → Q a s (e a :: t)) → xwp (lcall e f) Q R s t.
Proof.
  intros [Hr Ho Hg Hh Ha] He Hh' HQ. unfold lcall, xwp. apply HQ. split; [done|done|by split|by rewrite Hh'|done].
Qed.

Lemma xwp_app {A} φ (c : X mv_event MicrovmApplication A) Q (R : string → Server → list srv_event → Prop) s t : at_ φ h s t →
  (∀ a s', at_ φ h s' t → Q a s' t) → (∀ e s', at_ φ h s' t → R e s' t) → xwp (app_call c) Q R s t.
Proof.
  intros [Hr Ho Hg Hh Ha] HQ HR. unfold app_call, xwp. destruct (c (app s) (app_trace s)) as [[[] a] ta]; [apply HR|apply HQ]; by split.
Qed.
Abbreviation in_request := (at_ (req_ok W_request w) h).

Lemma respond_ok reply : xkeeps in_request (λ _, in_request) (respond w reply).
Proof.
  intros s t Ha. unfold respond. xwp_step; [done|]. apply Z.ltb_ge in Hb. apply xwp_bind.
  eapply xwp_lcall; [done..|]. intros failed Ha1. cbv beta. xwp_step; [done|]. apply xwp_bind.
  eapply xwp_request; [done|]. intros r (Hs & Hp & Hz & Hr) Ha2. pose proof Hs as (Hl1 & Hl2 & Hl3). apply xwp_bind.
  pose proof (length_bytes_of_text (reply_body reply)) as Hlen.
  apply xwp_memcpy; [lia|lia|]. apply xwp_bind.
  eapply (xwp_update (eq r) _ (req_ok W_request w)); [done| |].
  { intros ? <-. split; split_and!; cbn; try done; try lia. rewrite length_memcpy_at by lia. done. }
  intros s' Ha3. apply xwp_bind. eapply xwp_allowed; [done..|]. intros Ha4. by apply xwp_ret.
Qed.

Lemma xwp_path r Q R s t : is_Some (c_text (req_path r)) → (∀ p, Q p s t) → xwp (path_text r) Q R s t.
Proof. intros [p Hp] HQ. unfold path_text. rewrite Hp. apply HQ. Qed.

Lemma complete_ok : xkeeps in_request (λ _, in_request) (complete w).
Proof.
  intros s t Ha. unfold AgentServer.complete. apply xwp_bind.
  eapply xwp_request; [done|]. intros r (Hs & Hp & Hz & Hr) _. cbv beta. xwp_step.
  - apply Z.eqb_eq in Hb. apply xwp_bind, xwp_path; [done|]. intros path. xwp_step; [by apply respond_ok|].
    apply xwp_bind. eapply xwp_allowed; [done|split; [done|]|done|].
    { rewrite size_text_of_bytes, length_take. lia. }
    intros Ha3. apply xwp_bind. eapply xwp_app; [done| |done]. intros answer s' Ha4. by apply respond_ok.
  - apply Z.eqb_neq in Hb. apply xwp_bind, xwp_path; [done|]. intros path. xwp_step; [by apply respond_ok|].
    apply xwp_bind. eapply xwp_allowed; [done|done|done|]. intros Ha3. apply xwp_bind. eapply xwp_app; [done| |done].
    intros answer s' Ha4. by apply respond_ok.
Qed.

(** Appending within a limit. *)
Lemma append_ok r data limit Q R s t : at_ (eq r) h s t → sized r → 0 ≤ req_size r ≤ limit → limit ≤ 16384 → Z.of_nat (length data) < 2 ^ 63 →
  u64 (req_size r + Z.of_nat (length data)) ≤ limit →
  (∀ s' r', at_ (eq r') h s' t → sized r' → req_size r' = req_size r + Z.of_nat (length data) → req_size r' ≤ limit →
    req_path r' = req_path r → req_response_size r' = req_response_size r → Q tt s' t) →
  xwp (append_body w r data) Q R s t.
Proof.
  intros Ha (Hl1 & Hl2 & Hl3) Hz Hm Hd Hu HQ. rewrite wrapu_id in Hu by (unfold in_u; lia). unfold append_body. apply xwp_bind.
  apply xwp_memcpy; [lia|lia|].
  set (b := memcpy_at _ _ _). eapply (xwp_update (eq r) _ (eq (set_body b (u64 (req_size r + Z.of_nat (length data))) r))); [done|by intros ? <-|].
  intros s' Ha'. eapply HQ; [done|..]; cbn; try done; rewrite ?wrapu_id by (unfold in_u; lia); try done.
  split_and!; cbn; [done| |done]. subst b. rewrite length_memcpy_at; [done|lia].
Qed.
Lemma http_ok uri post_uri content_length s t : at_ sized h s t →
  xwp (http hook_port w uri post_uri content_length) (λ code, at_ (λ r, sized r ∧ (code = 0 → req_ok W_request w r)) h) (λ _, at_ sized h) s t.
Proof.
  intros Ha. unfold http. destruct uri as [data|]; [|by apply xwp_ret; eapply at_mono; [|exact Ha]].
  xwp_step; [by apply xwp_ret; eapply at_mono; [|exact Ha]|]. apply Z.leb_gt in Hb. apply xwp_bind.
  eapply xwp_request; [exact Ha|]. intros r (Hl1 & Hl2 & Hl3) Ha1. clear Ha.
  apply xwp_bind, xwp_memcpy; [lia|lia|]. apply xwp_bind, xwp_memcpy; [lia|rewrite length_memcpy_at; cbn; lia|]. rewrite Nat2Z.id.
  change (Z.to_nat 0) with 0%nat.
  set (p := memcpy_at (memcpy_at _ _ _) _ _). assert (Hp : is_Some (c_text p)) by (apply c_text_memcpy; lia).
  assert (Hlp : Z.of_nat (length p) = 128).
  { subst p. rewrite !length_memcpy_at; rewrite ?length_memcpy_at; cbn; lia. }
  clearbody p. apply xwp_bind. eapply (xwp_update (eq r) _ (λ r, sized r ∧ is_Some (c_text (req_path r)))); [done| |].
  { by intros ? <-. }
  intros s1 H1. apply xwp_bind. eapply (xwp_update _ _ (λ r, sized r ∧ is_Some (c_text (req_path r)) ∧ req_size r = 0)); [done| |].
  { by intros r' [??]. }
  intros s2 H2. apply xwp_bind. eapply (xwp_update _ _ (req_ok W_request w)); [done| |].
  { intros r' (? & ? & Hz). split_and!; cbn; [done|done|..]; lia. }
  intros s3 H3. apply xwp_bind. eapply (xwp_update _ _ (req_ok W_request w)); [done|intros ? H; exact H|].
  intros s4 H4. apply xwp_bind. eapply (xwp_update _ _ (req_ok W_request w)); [done|intros ? H; exact H|].
  intros s5 H5. xwp_step.
  - eapply xwp_mono; [by apply complete_ok|..]; intros ???; apply at_mono; intros ? Hr; [|apply Hr]. by split; [apply Hr|].
  - apply xwp_ret. eapply at_mono; [|exact H5]. intros ? Hr. by split; [apply Hr|].
Qed.

Lemma http_body_ok data : Z.of_nat (length data) < 2 ^ 63 → xkeeps in_request (λ _, in_request) (http_body w data).
Proof.
  intros Hd s t Ha. unfold http_body. apply xwp_bind.
  eapply xwp_request; [done|]. intros r (Hs & Hp & Hz & Hr) Ha2. cbv beta. xwp_step; [done|]. xwp_step.
  - apply xwp_bind. eapply (xwp_update (req_ok W_request w) _ (req_ok W_request w)); [done|intros ? H; exact H|]. intros s' Ha3. by apply respond_ok.
  - apply Z.ltb_ge in Hb0. apply xwp_bind. eapply append_ok; [done..|lia|done|done|].
    intros s' r' Ha3 Hs' Hz' Hl' Hp' Hr'. apply xwp_ret. eapply at_mono; [|done]. intros ? <-.
    split; [done|]. rewrite Hp', Hr'. split_and!; [done|lia..].
Qed.

Lemma http_writeable_ok : xkeeps in_request (λ _, in_request) (http_writeable w).
Proof.
  intros s t Ha. unfold http_writeable. apply xwp_bind.
  eapply xwp_request; [done|]. intros r ((Hl1 & Hl2 & Hl3) & Hp & Hz & Hr) _. cbv beta.
  set (bytes := take _ _). assert (Hb : Z.of_nat (length bytes) = req_response_size r).
  { subst bytes. rewrite length_take, length_drop. lia. }
  clearbody bytes. rewrite Hb, Z.eqb_refl. apply xwp_bind, xwp_ret, xwp_bind.
  eapply xwp_lcall; [done|intros a; cbn; lia|done|]. intros written Ha1. cbv beta. xwp_step; [done|]. xwp_step; [done|].
  apply xwp_bind. eapply xwp_lcall; [done..|]. intros over Ha2. by apply xwp_ret.
Qed.

Abbreviation in_stream := (at_ (req_ok W_stream w) h).

Lemma server_writeable_ok : (atomic = true → h = Some w) → xkeeps in_stream (λ _, in_stream) (server_writeable w).
Proof.
  intros Hh s t Ha. assert (Hport : u32 (listen_port w) = attachment_port) by (by destruct Ha as [(r & _ & _ & ? & _)]).
  unfold server_writeable. apply xwp_bind. eapply xwp_app; [done| |done]. intros ok s1 Ha1. cbv beta. xwp_step; [done|].
  apply xwp_bind. eapply xwp_app; [done| |done]. intros m s2 Ha2. apply xwp_bind.
  eapply xwp_allowed; [done|split; [done|by rewrite (as_holder _ _ _ _ _ _ Ha2)]|done|]. intros Ha3. cbv beta.
  destruct m as [m|]; [|by apply xwp_ret]. apply xwp_bind. eapply xwp_lcall; [done|by destruct (wire_binary m)|done|].
  intros written Ha4. cbv beta. xwp_step; [done|]. apply xwp_bind. eapply xwp_allowed; [done..|]. intros Ha5. by apply xwp_ret.
Qed.

Lemma receive_ok data first_fragment frame_is_binary final_fragment remaining :
  (atomic = true → h = Some w) → Z.of_nat (length data) < 2 ^ 63 →
  xkeeps in_stream (λ _, in_stream) (receive w data first_fragment frame_is_binary final_fragment remaining).
Proof.
  intros Hh Hd s t Ha. unfold receive. apply xwp_bind. eapply xwp_request; [done|]. intros r Hr Ha1. pose proof Hr as (Hs & Hport & Hz).
  apply xwp_bind. eapply (xwp_mono _ (λ _, in_stream) _ (λ _, in_stream)); [| |done].
  { xwp_step; [|done]. eapply (xwp_update (req_ok W_stream w) _ (req_ok W_stream w)); [exact Ha|intros ? H; exact H|by intros]. }
  clear r Hr Ha Ha1 Hs Hport Hz. intros [] s1 t1 Ha. apply xwp_bind. eapply xwp_request; [done|]. intros r (Hs & Hport & Hz) Ha1. xwp_step; [done|].
  apply Z.ltb_ge in Hb. apply xwp_bind. eapply append_ok; [done..|lia|done|done|]. intros s2 r2 Ha2 Hs2 Hz2 Hl2 _ _.
  assert (Hin : in_stream s2 t1) by (eapply at_mono; [|exact Ha2]; intros ? <-; split_and!; [done..|lia|lia]).
  apply xwp_bind. eapply (xwp_mono _ (λ _, in_stream) _ (λ _, in_stream)); [|by intros; apply xwp_ret|done].
  xwp_step; [|done]. apply xwp_bind. eapply xwp_request; [exact Hin|]. intros r3 (Hs3 & _ & Hz3) Ha3. cbv zeta. apply xwp_bind.
  eapply xwp_allowed; [exact Hin| |done|].
  { split_and!; [done| |by rewrite (as_holder _ _ _ _ _ _ Hin)]. rewrite length_take. lia. }
  intros Ha4. apply xwp_bind. eapply xwp_app; [done| |done]. intros [] s3 Ha5.
  eapply (xwp_update (req_ok W_stream w) _ (req_ok W_stream w)); [exact Ha5| |done]. intros r' (Hs' & _ & _). split; [done|]. split; [done|]. cbn. lia.
Qed.
Lemma at_sized k s t : at_ (req_ok k w) h s t → at_ sized h s t.
Proof. apply at_mono. by intros r [Hs _]. Qed.

Lemma filter_ok uri φ s t : at_ φ h s t →
  xwp (filter_protocol_connection attachment_port w uri)
    (λ code s' t', at_ φ h s' t' ∧ (code = 0 → u32 (listen_port w) = attachment_port ∧ h = None)) (λ _ _ _, False) s t.
Proof.
  intros Ha. unfold filter_protocol_connection. destruct uri as [path|]; [|by apply xwp_ret]. do 2 xwp_step. apply xwp_ret. split; [done|].
  intros Hc. rewrite <- (as_attachment _ _ _ _ _ _ Ha).
  destruct (negb (u32 (listen_port w) =? attachment_port) || bool_decide (attachment s ≠ None) || negb (bool_decide (path = "/stream"%string))) eqn:E;
    [done|]. bool_simpl. split; [done|]. by destruct (attachment s); [exfalso; auto|].
Qed.
End Socket.

Lemma established_ok st w h s t : at_socket st w (req_ok W_filtered w) h s t → (atomic = true → h = None) →
  xwp (established w)
    (λ code, at_socket st w (λ r, sized r ∧ (code = 0 → req_ok W_stream w r)) (if code =? 0 then Some w else h))
    (λ _, at_socket st w sized h) s t.
Proof.
  intros Ha Hh. unfold established. apply xwp_bind. eapply xwp_app; [exact Ha| |by intros e s'; apply at_sized].
  clear s Ha. intros ok s Ha. pose proof Ha as [(r & Hr & Hok & Hport) Ho Hg Hho Hat]. apply xwp_bind, xwp_emit. destruct ok; cbn [negb].
  - apply xwp_bind, xwp_modify.
    assert (Ha2 : at_socket st w sized (Some w) (set_attachment (Some w) s) (SAttach w true :: t)).
    { split; cbn; [by exists r|done| |done|done]. split; [|done]. split; [done|]. rewrite Hho. done. }
    apply xwp_bind. eapply xwp_request; [exact Ha2|]. intros r' Hs _. apply xwp_bind.
    eapply (xwp_update _ _ _ sized _ (λ r, sized r ∧ req_ok W_stream w r)); [exact Ha2| |].
    { intros r1 Hs1. split; [done|]. split; [done|]. split; [done|]. cbn. lia. }
    intros s' Ha3. apply xwp_bind. eapply xwp_allowed; [exact Ha3|done|done|]. intros Ha4. apply xwp_ret.
    eapply at_mono; [|exact Ha4]. by intros ? [? ?].
  - apply xwp_ret. cbn. split; cbn; [by exists r|done|done|done|done].
Qed.

Lemma closed_ok st w h s t φ : at_socket st w φ h s t →
  xwp (closed w) (λ _, at_socket st w φ (if bool_decide (h = Some w) then None else h)) (λ _, at_socket st w φ (if bool_decide (h = Some w) then None else h)) s t.
Proof.
  intros Ha. unfold closed. do 2 xwp_step. apply xwp_bind. rewrite (as_attachment _ _ _ _ _ _ Ha). case_bool_decide as Eh; cbn [xwhen]; [|done].
  apply xwp_bind, xwp_modify, xwp_bind, xwp_emit. destruct Ha as [Hr Ho Hg Hho Hat]. subst h.
  eapply xwp_app; [|intros [] s' Hs'; apply xwp_ret; exact Hs'|intros e s' Hs'; exact Hs'].
  split; cbn; [done|done|done|done|done].
Qed.

(** What a callback leaves, by its return value. *)
Definition next_holder (h : option wsi) (w : wsi) (why : reason) (code : Z) : option wsi :=
  match why with
  | ESTABLISHED => if code =? 0 then Some w else h
  | CLOSED => if bool_decide (h = Some w) then None else h
  | _ => h
  end.

Record called (st : gmap wsi wstate) (w : wsi) (k' : wstate) (h : option wsi) (why : reason) (code : Z) (s : Server) (t : list srv_event) : Prop := {
  called_at : at_socket st w (λ r, sized r ∧ (code = 0 → req_ok k' w r)) (next_holder h w why code) s t;
  called_free : is_Some (let_through w why code) → h = None }.

Section Callback.
Context (st : gmap wsi wstate) (w : wsi) (h : option wsi).

Lemma called_keep k h' why code s t : next_holder h w why code = h' → let_through w why code = None →
  at_socket st w (req_ok k w) h' s t → called st w k h why code s t.
Proof.
  intros <- Hl Ha. split; [|by intros [? ?]; congruence]. eapply at_mono; [|exact Ha]. intros r Hr. by split; [apply Hr|].
Qed.

Lemma called_throw k why s t : next_holder h w why (-1) = h → at_socket st w sized h s t → called st w k h why (-1) s t.
Proof.
  intros Hn Ha. split; [rewrite Hn; by eapply at_mono; [|exact Ha]|]. intros [? Hl]. by destruct why.
Qed.

Lemma called_still k why c s t : xkeeps (at_socket st w (req_ok k w) h) (λ _, at_socket st w (req_ok k w) h) c →
  (∀ code, next_holder h w why code = h ∧ let_through w why code = None) → at_socket st w (req_ok k w) h s t →
  xwp c (called st w k h why) (λ _, called st w k h why (-1)) s t.
Proof.
  intros Hc Hn Ha. eapply xwp_mono; [by apply Hc|..].
  - intros code s1 t1 H1. by eapply called_keep; [apply Hn|apply Hn|].
  - intros e s1 t1 H1. apply called_throw; [apply Hn|]. by apply (at_sized _ _ _ k).
Qed.

Lemma callback_rules k k' why s t : at_socket st w (req_ok k w) h s t → after k why = Some k' → data_ok why →
  (k = W_stream → atomic = true → h = Some w) → (why = ESTABLISHED → atomic = true → h = None) →
  xwp (callback w why) (called st w k' h why) (λ _ _ _, False) s t.
Proof.
  intros Ha Hk Hd Hs He. unfold AgentServer.callback. apply xwp_try.
  apply (xwp_mono _ (called st w k' h why) _ (λ _, called st w k' h why (-1))); [|done|by intros; apply xwp_ret].
  destruct why; try (by destruct k as [| | | |[]]); try (assert (k' = k) as -> by (destruct k; by simplify_eq/=); apply (called_still k); [|done|done]; try by intros ???).
  - assert (k' = W_filtered) as -> by (destruct k; by simplify_eq/=).
    eapply xwp_mono; [apply filter_ok; exact Ha|..]; [|done]. intros code s1 t1 [H1 Hc]. split.
    + cbn. eapply at_mono; [|exact H1]. intros r [Hsz _]. split; [done|]. intros H0. split; [done|]. by apply Hc.
    + cbn. intros [x Hx]. apply Hc. destruct (code =? 0) eqn:E; [by apply Z.eqb_eq in E|done].
  - assert (k' = W_stream ∧ k = W_filtered) as [-> ->] by (destruct k; by simplify_eq/=).
    eapply xwp_mono; [apply established_ok; [exact Ha|by apply He]|..].
    + intros code s1 t1 H1. split; [done|]. by intros [? ?].
    + intros e s1 t1 H1. by apply called_throw.
  - assert (k = W_stream) as -> by (by destruct k as [| | | |[]]). apply receive_ok; [by apply Hs|done].
  - assert (k = W_stream) as -> by (by destruct k as [| | | |[]]). apply server_writeable_ok. by apply Hs.
  - assert (k' = W_request) as -> by (destruct k; by simplify_eq/=). clear Hs He.
    eapply xwp_mono; [apply http_ok, (at_sized _ _ _ k), Ha|..].
    + intros code s1 t1 H1. split; [done|]. by intros [? ?].
    + intros e s1 t1 H1. by apply called_throw.
  - assert (k = W_request) as -> by (by destruct k as [| | | |[]]). by apply http_body_ok.
  - assert (k = W_request) as -> by (by destruct k as [| | | |[]]). intros s1 t1 Ha1. apply xwp_bind.
    eapply xwp_request; [exact Ha1|]. intros r _ _. cbv beta. xwp_step; [done|]. by apply complete_ok.
  - assert (k = W_request) as -> by (by destruct k as [| | | |[]]). apply http_writeable_ok.
Qed.
End Callback.

(** ** Runs *)

Record srv_inv (pending : option wsi) (s : Server) (st : gmap wsi wstate) (t : list srv_event) : Prop := {
  i_app : app_runs s t;
  i_socket : has_socket s t;
  i_requests : requests_ok st s;
  i_guarded : guarded srv_allowed t;
  i_holder : holder t = attachment s;
  i_live : ∀ w, attachment s = Some w → ∃ k, st !! w = Some k ∧ is_stream k = true;
  i_only : atomic = true → ∀ w, st !! w = Some W_stream → attachment s = Some w;
  i_pending : atomic = true → is_Some pending → attachment s = None }.

Lemma inv_at pending s st t w k : srv_inv pending s st t → st !! w = Some k → at_socket st w (req_ok k w) (attachment s) s t.
Proof.
  intros Hi Hk. split; [by eapply i_requests| |by eapply i_guarded|by eapply i_holder|done].
  intros w' k' Hw'. apply lookup_delete_Some in Hw' as [_ Hw']. by eapply i_requests.
Qed.

Lemma requests_insert st s w k r : requests_ok (delete w st) s → req_ok k w r →
  requests_ok (<[w := k]> st) (set_requests (<[w := r]> (requests s)) s).
Proof.
  intros Hr Hok w' k'. destruct (decide (w = w')) as [->|Hne]; cbn.
  - rewrite !lookup_insert_eq. intros [= <-]. by exists r.
  - rewrite !lookup_insert_ne by done. intros Hk. apply Hr. by rewrite lookup_delete_ne.
Qed.

Lemma requests_sub st s w : requests_ok st s → requests_ok (delete w st) s.
Proof. intros Hr w' k' Hw'. apply lookup_delete_Some in Hw' as [_ Hw']. by apply Hr. Qed.

Lemma requests_delete st s w : requests_ok (delete w st) s → requests_ok (delete w st) (set_requests (delete w (requests s)) s).
Proof.
  intros Hr w' k' Hw'. pose proof Hw' as [Hne _]%lookup_delete_Some. cbn. rewrite lookup_delete_ne by done. by apply Hr.
Qed.

Lemma at_requests st w k h s t : at_socket st w (req_ok k w) h s t → requests_ok (<[w := k]> st) s.
Proof.
  intros [(r & Hr & Hok) Ho _ _ _]. pose proof (requests_insert st s w k r Ho Hok) as H.
  rewrite (insert_id (requests s) w r) in H by done. by destruct s.
Qed.

Lemma after_stream k why k' : after k why = Some k' → is_stream k = true → is_stream k' = true ∧ why ≠ ESTABLISHED.
Proof. destruct k as [| | | |[]], why; cbn; intros; by simplify_eq/=. Qed.

Lemma after_only k why : after k why = Some W_stream → k = W_stream ∨ why = ESTABLISHED ∧ k = W_filtered.
Proof. destruct k as [| | | |[]], why; cbn; intros; simplify_eq/=; auto. Qed.

Lemma next_same k why k' h w code : after k why = Some k' → why ≠ ESTABLISHED → next_holder h w why code = h.
Proof. by destruct k as [| | | |[]], why. Qed.

Lemma inv_call pending s st t w k k' why code s' t' : srv_inv pending s st t → st !! w = Some k → after k why = Some k' →
  (why = ESTABLISHED → atomic = true → pending = Some w) →
  app_runs s' t' → has_socket s' t' → called st w k' (attachment s) why code s' t' →
  srv_inv (let_through w why code) s' (<[w := if code =? 0 then k' else W_closing (is_stream k')]> st) t'.
Proof.
  intros Hi Hk Hk' Hp Hr Hs [Ha Hf]. pose proof (as_attachment _ _ _ _ _ _ Ha) as Hat. split.
  - done.
  - done.
  - eapply (at_requests _ _ _ _ _ t'), at_mono; [|exact Ha]. intros r [Hsz Hc]. destruct (code =? 0) eqn:E; [|by split].
    apply Z.eqb_eq in E. by apply Hc.
  - by apply (as_guarded _ _ _ _ _ _ Ha).
  - rewrite Hat. by apply (as_holder _ _ _ _ _ _ Ha).
  - intros w'. rewrite Hat. destruct (decide (why = ESTABLISHED ∧ code = 0)) as [[-> ->]|Hn].
    + cbn. intros [= <-]. rewrite lookup_insert_eq. exists k'. split; [done|]. by destruct k as [| | | |[]]; simplify_eq/=.
    + assert (Hh : next_holder (attachment s) w why code = attachment s).
      { destruct why; cbn in *; try done; [|by destruct k as [| | | |[]]]. destruct (code =? 0) eqn:E; [|done]. apply Z.eqb_eq in E. naive_solver. }
      rewrite Hh. intros (k0 & Hk0 & Hs0)%(i_live _ _ _ _ Hi). destruct (decide (w = w')) as [<-|Hne].
      * rewrite lookup_insert_eq. simplify_eq. apply (after_stream _ _ _ Hk') in Hs0 as [Hs0 _].
        eexists. split; [done|]. destruct (code =? 0); cbn; by rewrite ?Hs0.
      * rewrite lookup_insert_ne by done. by exists k0.
  - intros Hat' w' Hw'. rewrite Hat. destruct (decide (w = w')) as [<-|Hne].
    + rewrite lookup_insert_eq in Hw'. destruct (code =? 0) eqn:E; [|done]. simplify_eq.
      destruct (after_only _ _ Hk') as [->|[-> ->]]; [|by cbn; rewrite E].
      rewrite (next_same _ _ _ _ _ _ Hk'); [by apply (i_only _ _ _ _ Hi)|]. by intros ->.
    + rewrite lookup_insert_ne in Hw' by done. pose proof (i_only _ _ _ _ Hi Hat' _ Hw') as Ho.
      destruct (decide (why = ESTABLISHED)) as [->|Hn]; [|by rewrite (next_same _ _ _ _ _ _ Hk')].
      rewrite (i_pending _ _ _ _ Hi Hat') in Ho; [done|]. rewrite Hp by done. by eexists.
  - intros _ Hl. rewrite Hat. pose proof (Hf Hl) as Hn. by destruct why; try by destruct Hl.
Qed.

(** Callbacks of the process that no socket's memory is involved in. *)
Lemma inv_silent_event pending s st t e : srv_inv pending s st t → srv_allowed e t → holder (e :: t) = holder t → srv_inv None s st (e :: t).
Proof. intros [Ha Hs Hr Hg Hh Hl Ho Hp] He Hh'. split; try done. by rewrite Hh'. Qed.

Lemma inv_forget pending s st t : srv_inv pending s st t → srv_inv None s st t.
Proof. intros [Ha Hs Hr Hg Hh Hl Ho Hp]. by split. Qed.

Lemma idle_rules pending s st t w why : srv_inv pending s st t → idle_reason why = true →
  xwp (callback w why) (λ _ s t, srv_inv None s st t) (λ _ _ _, False) s t.
Proof.
  intros Hi Hw. apply inv_forget in Hi. unfold AgentServer.callback. destruct why; try done; apply xwp_try; repeat xwp_step; try done.
  by eapply inv_silent_event.
Qed.

Lemma timer_ok pending s st t : srv_inv pending s st t → xwp timer_callback (λ _ s t, srv_inv None s st t) (λ _ _ _, False) s t.
Proof.
  intros Hi. apply inv_forget in Hi. unfold timer_callback. do 2 xwp_step. apply xwp_bind.
  destruct (attachment s); repeat xwp_step; repeat (eapply inv_silent_event; [|done|done]); done.
Qed.

Lemma app_inv {A} (c : X mv_event MicrovmApplication A) pending st : is_member c → keeps_down c →
  xkeeps (λ s t, srv_inv pending s st t) (λ _ s t, srv_inv pending s st t) (app_call c).
Proof.
  intros Hm Hd s t [Ha Hs Hr Hg Hh Hl Ho Hp].
  pose proof (app_call_runs c Hm s t Ha) as H1. pose proof (app_call_socket c Hd s t Hs) as H2.
  unfold xwp, app_call in *. destruct (c (app s) (app_trace s)) as [[[] a] ta]; by split.
Qed.

Lemma other_ok pending s st t c r s' t' : srv_inv pending s st t → c ≠ sec_attach →
  app_call (lock (run_section c)) s t = (r, s', t') → srv_inv pending s' st t'.
Proof.
  intros Hi Hc E. pose proof (app_inv (lock (run_section c)) pending st (ltac:(by exists (m_section c))) (lock_down _ (down_section c Hc)) s t Hi) as H.
  unfold xwp in H. rewrite E in H. by destruct r.
Qed.

Lemma closed_inv pending s st t w k : srv_inv pending s st t → st !! w = Some k →
  xwp (callback w CLOSED) (λ _ s' t', srv_inv None (set_requests (delete w (requests s')) s') (delete w st) t') (λ _ _ _, False) s t.
Proof.
  intros Hi Hk. pose proof (inv_at _ _ _ _ _ _ Hi Hk) as Ha.
  assert (Hw : xwp (callback w CLOSED) (λ _, at_socket st w (req_ok k w) (if bool_decide (attachment s = Some w) then None else attachment s))
    (λ _ _ _, False) s t).
  { unfold AgentServer.callback. apply xwp_try. eapply xwp_mono; [by apply closed_ok|done|]. intros e s1 t1 H1. by apply xwp_ret. }
  pose proof (callback_runs w CLOSED s t (i_app _ _ _ _ Hi)) as Hr. pose proof (callback_socket w CLOSED s t (i_socket _ _ _ _ Hi)) as Hs.
  unfold xwp in *. destruct (callback w CLOSED s t) as [[[e|code] s'] t']; [done|]. pose proof (as_attachment _ _ _ _ _ _ Hw) as Hat. split.
  - done.
  - done.
  - apply requests_delete. by apply (as_others _ _ _ _ _ _ Hw).
  - by apply (as_guarded _ _ _ _ _ _ Hw).
  - cbn. rewrite Hat. by apply (as_holder _ _ _ _ _ _ Hw).
  - cbn. rewrite Hat. intros w'. case_bool_decide as E; [done|]. intros Hw'. destruct (i_live _ _ _ _ Hi _ Hw') as (k0 & Hk0 & ?). exists k0.
    rewrite lookup_delete_ne by congruence. done.
  - cbn. rewrite Hat. intros Hat' w' Hw'. apply lookup_delete_Some in Hw' as [Hne Hw']. pose proof (i_only _ _ _ _ Hi Hat' _ Hw') as Ho.
    rewrite bool_decide_false by congruence. done.
  - by intros _ [? ?].
Qed.

Lemma inv_lcall {A} (e : A → srv_event) f st Q (R : string → Server → list srv_event → Prop) s t : srv_inv None s st t →
  (∀ a, srv_allowed (e a) t) → (∀ a, holder (e a :: t) = holder t) →
  (∀ a, srv_inv None s st (e a :: t) → Q a s (e a :: t)) → xwp (lcall e f) Q R s t.
Proof. intros Hi Ha Hh HQ. unfold lcall, xwp. apply HQ. by eapply inv_silent_event. Qed.

Lemma start_rules s t : start_server hook_port attachment_port new_server [] = (inr tt, s, t) → srv_inv None s ∅ t.
Proof.
  intros E. assert (H0 : srv_inv None new_server ∅ []).
  { split; try done; apply mv_start. }
  assert (Hw : xwp (start_server hook_port attachment_port) (λ _ s t, srv_inv None s ∅ t) (λ _ _ _, True) new_server []);
    [|unfold xwp in Hw; by rewrite E in Hw].
  unfold start_server. xwp_step; [done|]. apply xwp_bind. eapply inv_lcall; [done..|]. intros ctx H1. cbv beta. xwp_step; [done|].
  apply xwp_bind. eapply inv_lcall; [done..|]. intros hooks H2. apply xwp_bind. eapply inv_lcall; [done..|]. intros ingress H3. cbv beta.
  xwp_step; [by repeat xwp_step|]. apply xwp_bind.
  eapply xwp_mono; [apply app_inv; [apply member_wake|apply down_wake|exact H3]| |done]. intros [] s1 t1 H4. apply xwp_emit.
  by eapply inv_silent_event.
Qed.

Lemma srv_run_inv pending s st t : srv_run pending s st t → srv_inv pending s st t.
Proof.
  induction 1 as [s t E|pending s st t w r _ Hi Hw Hs|pending s st t w r _ Hi Hw Hs|pending s st t w k k' why code s' t' _ Hi Hk Ha Hd He E
    |pending s st t w why code s' t' _ Hi Hw E|pending s st t s' t' _ Hi E|pending s st t w k _ Hi Hk Hs|pending s st t w k code s' t' _ Hi Hk Hs E
    |pending s st t c r s' t' _ Hi Hc E].
  - by apply start_rules.
  - destruct Hi as [Ha Hso Hr Hg Hh Hl Ho Hp]. split; try done.
    + by apply requests_insert; [apply requests_sub|].
    + intros w' Hw'. destruct (Hl w' Hw') as (k & Hk & ?). exists k. cbn in Hw'. rewrite lookup_insert_ne by congruence. done.
    + intros Hat w'. destruct (decide (w = w')) as [->|?]; [by rewrite lookup_insert_eq|]. rewrite lookup_insert_ne by done. by apply Ho.
  - destruct Hi as [Ha Hso Hr Hg Hh Hl Ho Hp]. split; try done.
    rewrite <- (insert_id st w W_filtered) by done. apply requests_insert; [by apply requests_sub|].
    destruct (Hr w _ Hw) as (r0 & _ & _ & Hport). by split.
  - pose proof (callback_runs w why s t (i_app _ _ _ _ Hi)) as Hr. pose proof (callback_socket w why s t (i_socket _ _ _ _ Hi)) as Hs.
    assert (Hc : xwp (callback w why) (called st w k' (attachment s) why) (λ _ _ _, False) s t).
    { eapply callback_rules; [by eapply inv_at|done|done| |].
      - intros -> Hat. by eapply i_only.
      - intros -> Hat. eapply (i_pending _ _ _ _ Hi); [done|]. rewrite He by done. by eexists. }
    unfold xwp in *. rewrite E in Hr, Hs, Hc. by eapply inv_call.
  - pose proof (idle_rules _ _ _ _ w why Hi Hw) as H. unfold xwp in H. by rewrite E in H.
  - pose proof (timer_ok _ _ _ _ Hi) as H. unfold xwp in H. by rewrite E in H.
  - destruct Hi as [Ha Hso Hr Hg Hh Hl Ho Hp]. split; try done.
    + by apply requests_delete, requests_sub.
    + intros w' Hw'. destruct (Hl w' Hw') as (k' & Hk' & ?). exists k'. rewrite lookup_delete_ne; [done|]. intros ->. congruence.
    + intros Hat w' Hw'. apply lookup_delete_Some in Hw' as [_ Hw']. by apply Ho.
  - pose proof (closed_inv _ _ _ _ w k Hi Hk) as H. unfold xwp in H. by rewrite E in H.
  - by eapply other_ok.
Qed.

(** C21: Whatever the sockets of the MicroVM server carry, in whatever order
    libwebsockets calls back within what it documents for one socket, and with the other
    threads of the process in between: no copy leaves a buffer of a request and no text
    is read past its end; hooks are called only from the hook port, with at most 16384
    bytes, and the status page never there; only a socket of the attachment port is
    attached, hands messages to the application, of at most 4096 bytes, and takes its
    outgoing ones, and only the holder of the attachment detaches. If the library goes
    on at once with an upgrade that was let through, there is one holder at a time, and
    messages pass only for it. *)
Theorem server_keeps_rules pending s st t t2 e t1 : srv_run pending s st t → t = t2 ++ e :: t1 → srv_allowed e t1.
Proof. intros Hr ->. apply srv_run_inv in Hr. apply i_guarded in Hr. by eapply guarded_at. Qed.

(** Behind the server the application keeps its own rules, and a client counts as attached
    only while its upgraded socket is there. *)
Theorem served_application_safe pending s st t : srv_run pending s st t →
  guarded (mv_allowed require) (app_trace s) ∧
  (attached_ (app s) = true → ∃ w k, attachment s = Some w ∧ st !! w = Some k ∧ is_stream k = true).
Proof.
  intros Hr. apply srv_run_inv in Hr. split.
  - pose proof (i_app _ _ _ _ Hr) as (x & [Hg _] & _)%mv_run_inv. done.
  - intros Ha. apply (i_socket _ _ _ _ Hr) in Ha. destruct (attachment s) as [w|] eqn:E; [|done].
    destruct (i_live _ _ _ _ Hr _ E) as (k & ? & ?). eauto.
Qed.

(** ** The end of the process *)

Lemma closed_effect w s t : has_socket s t →
  xwp (callback w CLOSED) (λ _ s' t', has_socket s' t' ∧ attachment s' = if bool_decide (attachment s = Some w) then None else attachment s)
    (λ _ _ _, False) s t.
Proof.
  intros Hs. pose proof (callback_socket w CLOSED s t Hs) as H1.
  assert (H2 : xwp (callback w CLOSED) (λ _ s' t', attachment s' = if bool_decide (attachment s = Some w) then None else attachment s)
    (λ _ _ _, False) s t).
  { unfold AgentServer.callback, closed. apply xwp_try. do 2 xwp_step. apply xwp_bind. case_bool_decide; cbn [xwhen]; [|done].
    do 4 xwp_step. unfold app_call, xwp. cbn. by destruct (detach (app s) (app_trace s)) as [[[]?]?]. }
  unfold xwp in *. destruct (callback w CLOSED s t) as [[[] ?] ?]; [done|]. by split.
Qed.

Lemma close_all open s t : has_socket s t → (∀ w, attachment s = Some w → w ∈ open) →
  xwp (for_each (λ w, _ ← callback w CLOSED; mret tt) open) (λ _ s' _, attachment s' = None ∧ attached_ (app s') = false) (λ _ _ _, False) s t.
Proof.
  revert s t. induction open as [|w open IH]; intros s t Hs Ho; cbn [for_each].
  - apply xwp_ret. destruct (attachment s) as [w|] eqn:E; [destruct (not_elem_of_nil w); by apply Ho|]. split; [done|].
    destruct (attached_ (app s)) eqn:Ea; [|done]. by apply Hs in Ea.
  - apply xwp_bind, xwp_bind. eapply xwp_mono; [by apply closed_effect| |done]. intros code s1 t1 [Hs1 Ha1]. apply xwp_ret. apply IH; [done|].
    intros w'. rewrite Ha1. case_bool_decide as E; [done|]. intros Hw'. apply Ho in Hw' as Hin. by apply elem_of_cons in Hin as [->|?].
Qed.

Lemma lock_returns {A} (c : X mv_event MicrovmApplication A) : xkeeps (λ _ _, True) (λ _ _ _, False) c →
  xkeeps (λ _ _, True) (λ _ _ _, False) (lock c).
Proof. intros Hc. unfold lock. apply xkeeps_bind; [intros s t _; apply others_return|done]. Qed.

Lemma wake_returns given : xkeeps (λ _ _, True) (λ _ _ _, False) (wake_with given).
Proof. apply lock_returns. by apply xkeeps_modify. Qed.

Lemma stop_returns : xkeeps (λ _ _, True) (λ _ _ _, False) stop.
Proof.
  unfold stop, stopping_section, stop_section.
  repeat first [xkeeps_step|apply lock_returns|by apply xkeeps_modify|by apply xkeeps_emit].
Qed.

Lemma app_total {A} (c : X mv_event MicrovmApplication A) pending st : is_member c → keeps_down c →
  xkeeps (λ _ _, True) (λ _ _ _, False) c → xkeeps (λ s t, srv_inv pending s st t) (λ _ _ _, False) (app_call c).
Proof.
  intros Hm Hd Hc s t Hi. pose proof (app_inv c pending st Hm Hd s t Hi) as H. specialize (Hc (app s) (app_trace s) I).
  unfold xwp, app_call in *. by destruct (c (app s) (app_trace s)) as [[[] a] ta].
Qed.

(** When [serve_microvm] ends nobody is attached: the context's end closes the sockets that
    are open, and the holder is one of them. *)
Theorem server_end_detaches pending s st t open : srv_run pending s st t →
  (∀ w k, st !! w = Some k → is_stream k = true → w ∈ open) →
  xwp (shutdown hook_port attachment_port open) (λ _ s' _, attachment s' = None ∧ attached_ (app s') = false) (λ _ _ _, False) s t.
Proof.
  intros Hr Ho. apply srv_run_inv, inv_forget in Hr. unfold shutdown. apply xwp_bind, xwp_emit.
  apply (inv_silent_event _ _ _ _ SStop) in Hr; [|done|done]. apply xwp_bind.
  eapply xwp_mono; [apply app_total; [apply member_stop|apply down_stop|apply stop_returns|exact Hr]| |done]. intros [] s1 t1 H1. apply xwp_bind.
  eapply xwp_mono; [apply app_total; [apply (member_wake false)|apply down_wake|apply wake_returns|exact H1]| |done]. intros [] s2 t2 H2. apply xwp_bind, xwp_emit.
  apply xwp_bind. eapply xwp_mono; [apply close_all|intros [] s3 t3 H3; by apply xwp_emit|done]; [by apply (i_socket _ _ _ _ H2)|].
  intros w Hw. destruct (i_live _ _ _ _ H2 _ Hw) as (k & Hk & Hsk). by eapply Ho.
Qed.
End Safety.
