(* ===== verification/AgentServerTheorems.v ===== *)
(** * Requests and messages arrive whole

    The library hands the body of a request and the frames of a message over in
    pieces. However they are cut, the application of [AgentServer] is called once,
    with the whole, and its answer is what the server writes. *)
From stdpp Require Import gmap.
From S2P Require Import Prelude Cpp AwsJson AgentCloud AgentAws AgentSession AgentMicrovm AgentMicrovmSafety AgentMicrovmStatus AgentServer AgentServerSafety.

#[local] Open Scope Z_scope.

(** ** Texts *)

Lemma text_of_bytes_of_text s : text_of_bytes (bytes_of_text s) = s.
Proof.
  unfold text_of_bytes, bytes_of_text. induction s as [|c s IH]; [done|]. cbn in *.
  by rewrite Nat2Z.id, Ascii.ascii_nat_embedding, IH.
Qed.

Lemma substr_from_append a b : substr_from (String.length a) (a +:+ b) = b.
Proof.
  unfold substr_from. rewrite string_length_append, Nat.add_sub_swap, Nat.sub_diag by lia. cbn [Nat.add].
  induction a as [|c a IH]; [apply substring_all|]. exact IH.
Qed.

(** A copied address without a NUL is read back. *)
Lemma c_text_copied buffer data : (length data < length buffer)%nat → 0 ∉ data →
  c_text (memcpy_at (memcpy_at buffer 0 data) (length data) [0]) = Some data.
Proof.
  intros Hl. rewrite (memcpy_at_app' buffer 0 (length data) data [0]) by (cbn; lia). unfold memcpy_at. rewrite take_0. cbn [Datatypes.app].
  generalize (drop (0 + length (data ++ [0])) buffer). intros rest. clear Hl.
  induction data as [|b data IH]; [done|]. intros Hn. apply not_elem_of_cons in Hn as [Hb Hn]. cbn in *.
  rewrite (proj2 (Z.eqb_neq b 0)) by done. by rewrite IH.
Qed.

Section Whole.
Context `{json : AwsJson, jsmn : Jsmn, env : !MicrovmEnv, lws : Lws} (hook_port attachment_port : Z).
Abbreviation P := (X srv_event Server).
Abbreviation callback := (callback hook_port attachment_port).

(** Callbacks on a socket, until one closes it. *)
Fixpoint callbacks (w : wsi) (l : list reason) : P Z :=
  match l with
  | [] => mret 0
  | why :: l => code ← callback w why; if code =? 0 then callbacks w l else mret code
  end.

(** The request of a socket and the application. *)
Definition here (w : wsi) (r : Request) (a : MicrovmApplication) (ta : list mv_event) (s : Server) : Prop :=
  requests s !! w = Some r ∧ app s = a ∧ app_trace s = ta.

Section Here.
Context (w : wsi).

Lemma here_request r a ta Q R s t : here w r a ta s → Q r s t → xwp (request w) Q R s t.
Proof. intros [Hr _] HQ. unfold request. do 2 xwp_step. rewrite Hr. by apply xwp_ret. Qed.

Lemma here_update r a ta f Q R s t : here w r a ta s → (∀ s', here w (f r) a ta s' → Q tt s' t) → xwp (update w f) Q R s t.
Proof.
  intros (Hr & Ha & Ht) HQ. unfold update. apply xwp_modify, HQ. split_and!; [|done|done]. cbn. by rewrite lookup_alter, decide_True, Hr.
Qed.

Lemma here_app {A} (c : X mv_event MicrovmApplication A) r a ta Q (R : string → Server → list srv_event → Prop) s t :
  here w r a ta s →
  match c a ta with
  | (inr x, a', ta') => ∀ s', here w r a' ta' s' → Q x s' t
  | (inl e, a', ta') => ∀ s', here w r a' ta' s' → R e s' t
  end → xwp (app_call c) Q R s t.
Proof.
  intros (Hr & <- & <-) HQ. unfold app_call, xwp. destruct (c (app s) (app_trace s)) as [[[] a'] ta']; by apply HQ.
Qed.

(** *** The answer *)

Definition response_of (r : Request) : list Z := take (Z.to_nat (req_response_size r)) (drop LWS_PRE (req_response r)).

(** Answered, or not answerable. *)
Definition answers (reply : HookReply) (r : Request) (a : MicrovmApplication) (ta : list mv_event) (code : Z) (s : Server) (t : list srv_event) : Prop :=
  (code = 0 ∧ (∃ r', here w r' a ta s ∧ response_of r' = bytes_of_text (reply_body reply) ∧ req_rejected r' = req_rejected r)
     ∧ SHeaders w (status_code reply) (string_size (reply_body reply)) false ∈ t) ∨
  (code = -1 ∧ here w r a ta s ∧
     (8192 < string_size (reply_body reply) ∨ SHeaders w (status_code reply) (string_size (reply_body reply)) true ∈ t)).

Lemma respond_answers reply r a ta s t : here w r a ta s → sized r → xwp (respond w reply) (answers reply r a ta) (λ _ _ _, False) s t.
Proof.
  intros Hh (_ & _ & Hl). unfold respond. xwp_step; [right; split_and!; [done|done|left; by apply Z.ltb_lt]|]. apply Z.ltb_ge in Hb.
  apply xwp_bind. unfold lcall, xwp at 1. xwp_step; [right; split_and!; [done..|]; right; rewrite Hb0; by left|]. apply xwp_bind.
  eapply here_request; [done|]. apply xwp_bind. pose proof (length_bytes_of_text (reply_body reply)) as Hlen.
  apply xwp_memcpy; [lia|lia|]. apply xwp_bind. eapply here_update; [done|]. intros s' Hs'. apply xwp_bind, xwp_emit, xwp_ret.
  left. split_and!; [done| |rewrite Hb0; right; by left]. eexists. split_and!; [exact Hs'| |done]. unfold response_of. cbn.
  rewrite Nat2Z.id, <- Hlen, Nat2Z.id. unfold memcpy_at. rewrite drop_app_length' by (rewrite length_take; lia). by rewrite take_app_length.
Qed.

(** *** The address and the body *)

(** What a request has collected. *)
Record collected (uri body : list Z) (r : Request) : Prop := {
  c_sized : sized r;
  c_path : c_text (req_path r) = Some uri;
  c_size : req_size r = Z.of_nat (length body);
  c_body : take (length body) (req_body r) = body;
  c_post : req_post r = true;
  c_rejected : req_rejected r = false }.

Lemma http_collects uri r a ta s t : here w r a ta s → sized r → Z.of_nat (length uri) < 128 → 0 ∉ uri →
  xwp (callback w (HTTP (Some uri) true true)) (λ code s' t', code = 0 ∧ ∃ r', here w r' a ta s' ∧ collected uri [] r') (λ _ _ _, False) s t.
Proof.
  intros Hh Hs Hl Hn. pose proof Hs as (Hl1 & Hl2 & Hl3). unfold AgentServer.callback, http. apply xwp_try. rewrite (proj2 (Z.leb_gt _ _)) by lia.
  apply xwp_bind. eapply here_request; [done|]. apply xwp_bind, xwp_memcpy; [lia|lia|]. apply xwp_bind, xwp_memcpy; [lia|rewrite length_memcpy_at; cbn; lia|].
  rewrite Nat2Z.id. change (Z.to_nat 0) with 0%nat. repeat (apply xwp_bind; eapply here_update; [done|]; clear s Hh; intros s Hh).
  cbn [negb orb]. apply xwp_ret. split; [done|]. eexists. split; [exact Hh|]. split; try done; cbn.
  - split_and!; cbn; [|done..]. rewrite !length_memcpy_at; rewrite ?length_memcpy_at; cbn; lia.
  - apply c_text_copied; [lia|done].
Qed.

Lemma append_collects uri body data r a ta Q R s t : here w r a ta s → collected uri body r →
  Z.of_nat (length body) + Z.of_nat (length data) ≤ 16384 →
  (∀ s' r', here w r' a ta s' → collected uri (body ++ data) r' → req_binary r' = req_binary r → Q tt s' t) → xwp (append_body w r data) Q R s t.
Proof.
  intros Hh [Hs Hp Hz Hb Hpo Hr] Hl HQ. pose proof Hs as (Hl1 & Hl2 & Hl3). unfold append_body. apply xwp_bind. rewrite Hz. apply xwp_memcpy; [lia|lia|].
  eapply here_update; [done|]. intros s' Hs'. eapply HQ; [exact Hs'| |done]. rewrite Nat2Z.id. split; cbn; try done.
  - split_and!; cbn; [done| |done]. rewrite length_memcpy_at by lia. done.
  - rewrite wrapu_id by (unfold in_u; lia). rewrite length_app. lia.
  - rewrite length_app, take_memcpy_at_end by lia. by rewrite Hb.
Qed.

Lemma bodies_collect uri chunks l Q body r a ta s t : here w r a ta s → collected uri body r →
  Z.of_nat (length body) + Z.of_nat (length (concat chunks)) ≤ 16384 →
  (∀ s' r', here w r' a ta s' → collected uri (body ++ concat chunks) r' → xwp (callbacks w l) Q (λ _ _ _, False) s' t) →
  xwp (callbacks w (map HTTP_BODY chunks ++ l)) Q (λ _ _ _, False) s t.
Proof.
  revert body r s. induction chunks as [|data chunks IH]; intros body r s Hh Hc Hl HQ; cbn [map Datatypes.app callbacks concat] in *.
  { eapply HQ; [done|]. by rewrite app_nil_r. }
  rewrite length_app in Hl. apply xwp_bind. unfold AgentServer.callback, http_body. apply xwp_try, xwp_bind.
  eapply here_request; [done|]. rewrite (c_rejected _ _ _ Hc), (c_size _ _ _ Hc), wrapu_id by (unfold in_u; lia).
  rewrite (proj2 (Z.ltb_ge _ _)) by lia. apply xwp_bind. eapply append_collects; [done..|lia|].
  intros s' r' Hh' Hc' _. apply xwp_ret. cbn [Z.eqb]. eapply IH; [done|done|rewrite length_app; lia|].
  intros s2 r2. rewrite <- app_assoc. apply HQ.
Qed.

(** C29: A hook request for a URI of fewer than 128 bytes without NUL, whose body
    arrives in any number of pieces, up to 16384 bytes in all, calls the application
    once, with the path behind the prefix and the concatenation of the pieces; its
    answer is in the response buffer with its status announced, or the connection is
    closed because the answer is too long, the headers failed or the hook threw. *)
Theorem hook_request_whole path chunks r s t :
  let uri := bytes_of_text (hook_prefix +:+ path) in
  let body := text_of_bytes (concat chunks) in
  requests s !! w = Some r → sized r → u32 (listen_port w) = hook_port →
  Z.of_nat (length uri) < 128 → 0 ∉ uri → Z.of_nat (length (concat chunks)) ≤ 16384 →
  xwp (callbacks w (HTTP (Some uri) true true :: map HTTP_BODY chunks ++ [HTTP_BODY_COMPLETION]))
    (λ code s' t',
      match hook path body (app s) (app_trace s) with
      | (inr reply, a, ta) => ∃ r', sized r' ∧ answers reply r' a ta code s' t'
      | (inl _, a, ta) => code = -1 ∧ app s' = a ∧ app_trace s' = ta
      end) (λ _ _ _, False) s t.
Proof.
  intros uri body Hr Hs Hp Hl Hn Hb. assert (Hh : here w r (app s) (app_trace s) s) by done. revert Hh. clear Hr.
  generalize (app s) (app_trace s). intros a ta Hh. cbn [callbacks Datatypes.app]. apply xwp_bind.
  eapply xwp_mono; [by eapply http_collects| |done]. clear s r Hs Hh. intros code s t1 (-> & r & Hh & Hc). cbn [Z.eqb].
  eapply bodies_collect; [done|done|cbn; lia|]. clear s r Hh Hc. cbn [Datatypes.app]. intros s r Hh [Hs Hpa Hz Hbo Hpo Hre]. cbn [callbacks].
  apply xwp_bind. unfold AgentServer.callback. apply xwp_try, xwp_bind. eapply here_request; [done|]. rewrite Hre.
  unfold complete. apply xwp_bind. eapply here_request; [done|]. rewrite Hp, Z.eqb_refl. apply xwp_bind. unfold path_text. rewrite Hpa. apply xwp_ret.
  rewrite Hpo. unfold uri. rewrite text_of_bytes_of_text, prefix_append, substr_from_append. cbn [negb orb]. apply xwp_bind, xwp_emit, xwp_bind.
  rewrite Hz, Nat2Z.id, Hbo. cbn [Datatypes.app]. fold body. eapply here_app; [exact Hh|].
  destruct (hook path body a ta) as [[[e|reply] a'] ta']; intros s' Hh'.
  - apply xwp_ret. cbn. by destruct Hh' as (_ & -> & ->).
  - eapply xwp_mono; [by apply respond_answers| |done]. intros code s2 t2 Ha. destruct (code =? 0) eqn:E; [apply Z.eqb_eq in E as ->|]; by exists r.
Qed.

(** *** A body that is too large *)

Lemma rejected_stays chunks r a ta s t : here w r a ta s → req_rejected r = true →
  xwp (callbacks w (map HTTP_BODY chunks ++ [HTTP_BODY_COMPLETION])) (λ code s' t', code = 0 ∧ here w r a ta s' ∧ t' = t) (λ _ _ _, False) s t.
Proof.
  intros Hh Hr. induction chunks as [|data chunks IH]; cbn [map Datatypes.app callbacks]; apply xwp_bind; unfold AgentServer.callback, http_body;
    apply xwp_try, xwp_bind; (eapply here_request; [done|]); rewrite Hr; apply xwp_ret; [done|exact IH].
Qed.

Lemma bodies_reject uri chunks body r a ta s t : here w r a ta s → collected uri body r → Forall (λ d, Z.of_nat (length d) < 2 ^ 63) chunks →
  16384 < Z.of_nat (length body) + Z.of_nat (length (concat chunks)) → Z.of_nat (length body) ≤ 16384 →
  xwp (callbacks w (map HTTP_BODY chunks ++ [HTTP_BODY_COMPLETION]))
    (λ code s' t', ∃ r', req_rejected r' = true ∧ answers (error_reply 413 "body too large") r' a ta code s' t') (λ _ _ _, False) s t.
Proof.
  revert body r s. induction chunks as [|data chunks IH]; intros body r s Hh Hc Hd Hl Hb; cbn [map Datatypes.app callbacks concat] in *; [cbn in Hl; lia|].
  apply Forall_cons in Hd as [Hd1 Hd]. rewrite length_app in Hl. apply xwp_bind. unfold AgentServer.callback, http_body. apply xwp_try, xwp_bind.
  eapply here_request; [done|]. rewrite (c_rejected _ _ _ Hc), (c_size _ _ _ Hc), wrapu_id by (unfold in_u; lia). xwp_step.
  - apply xwp_bind. eapply here_update; [done|]. clear s Hh. intros s Hh.
    eapply xwp_mono; [apply respond_answers; [done|exact (c_sized _ _ _ Hc)]| |done].
    intros code s1 t1 Ha. destruct Ha as [(-> & (r' & Hh' & Hre & Hj) & Hi)|(-> & Hh' & Hw)].
    + cbn [Z.eqb]. eapply xwp_mono; [by apply rejected_stays| |done]. intros code s2 t2 (-> & Hh2 & ->). eexists. split; [|left; eauto 10]. done.
    + apply xwp_ret. eexists. split; [|right; eauto]. done.
  - apply Z.ltb_ge in Hb0. apply xwp_bind. eapply append_collects; [done..|lia|].
    intros s' r' Hh' Hc' _. apply xwp_ret. cbn [Z.eqb]. eapply IH; [done|done|done|rewrite length_app; lia|rewrite length_app; lia].
Qed.

(** A hook whose body is over 16384 bytes is refused, however it is cut, and does not
    reach the application. *)
Theorem large_request_refused path chunks r s t :
  let uri := bytes_of_text (hook_prefix +:+ path) in
  requests s !! w = Some r → sized r → Z.of_nat (length uri) < 128 → 0 ∉ uri →
  Forall (λ d, Z.of_nat (length d) < 2 ^ 63) chunks → 16384 < Z.of_nat (length (concat chunks)) →
  xwp (callbacks w (HTTP (Some uri) true true :: map HTTP_BODY chunks ++ [HTTP_BODY_COMPLETION]))
    (λ code s' t', ∃ r', req_rejected r' = true ∧ answers (error_reply 413 "body too large") r' (app s) (app_trace s) code s' t')
    (λ _ _ _, False) s t.
Proof.
  intros uri Hr Hs Hl Hn Hd Hb. assert (Hh : here w r (app s) (app_trace s) s) by done. revert Hh. clear Hr.
  generalize (app s) (app_trace s). intros a ta Hh. cbn [callbacks Datatypes.app]. apply xwp_bind.
  eapply xwp_mono; [by eapply http_collects| |done]. clear s r Hs Hh. intros code s t1 (-> & r & Hh & Hc). cbn [Z.eqb].
  eapply bodies_reject; [done|done|done|cbn; lia|cbn; lia].
Qed.

(** *** Messages of the attached client *)

(** A piece of a message: its bytes, whether the frame is the first and the last of
    the message, and how much of the frame is still to come. *)
Record piece := mk_piece { p_data : list Z; p_first : bool; p_final : bool; p_remaining : Z }.
Definition receives (binary : bool) (p : piece) : reason := RECEIVE (p_data p) (p_first p) binary (p_final p) (p_remaining p).
Definition ends (p : piece) : bool := p_final p && (p_remaining p =? 0).

(** What a stream has collected of a message that has [started]. *)
Record stream_has (binary started : bool) (body : list Z) (r : Request) : Prop := {
  h_sized : sized r;
  h_size : req_size r = Z.of_nat (length body);
  h_body : take (length body) (req_body r) = body;
  h_binary : started = true → req_binary r = binary }.

Lemma stream_append binary body data r a ta Q R s t : here w r a ta s → stream_has binary true body r →
  Z.of_nat (length body) + Z.of_nat (length data) ≤ 4096 →
  (∀ s' r', here w r' a ta s' → stream_has binary true (body ++ data) r' → Q tt s' t) → xwp (append_body w r data) Q R s t.
Proof.
  intros Hh [Hs Hz Hb Hbi] Hl HQ. pose proof Hs as (Hl1 & Hl2 & Hl3). unfold append_body. apply xwp_bind. rewrite Hz. apply xwp_memcpy; [lia|lia|].
  eapply here_update; [done|]. intros s' Hs'. eapply HQ; [exact Hs'|]. rewrite Nat2Z.id. split; cbn; try done.
  - split_and!; cbn; [done| |done]. rewrite length_memcpy_at by lia. done.
  - rewrite wrapu_id by (unfold in_u; lia). rewrite length_app. lia.
  - rewrite length_app, take_memcpy_at_end by lia. by rewrite Hb.
Qed.

(** One piece, up to the test for the end of the message. *)
Lemma receive_collects binary started p body r a ta Q s t : here w r a ta s → stream_has binary started body r →
  (started = false → p_first p = true ∧ body = []) → Z.of_nat (length body) + Z.of_nat (length (p_data p)) ≤ 4096 →
  (∀ s' r', here w r' a ta s' → stream_has binary true (body ++ p_data p) r' →
    xwp (_ ← xwhen (ends p)
        (r ← request w;
         let bytes := take (Z.to_nat (req_size r)) (req_body r) in
         _ ← xemit (SMessage w bytes (req_binary r));
         _ ← app_call (message bytes (req_binary r));
         update w (set_size 0)); mret 0) Q (λ _, Q (-1)) s' t) →
  xwp (callback w (receives binary p)) Q (λ _ _ _, False) s t.
Proof.
  intros Hh Hst Hf Hl HQ. unfold AgentServer.callback, receives, receive. apply xwp_try.
  apply (xwp_mono _ Q _ (λ _, Q (-1))); [|done|by intros; apply xwp_ret]. apply xwp_bind. eapply here_request; [done|].
  apply xwp_bind. apply (xwp_mono _ (λ _ s' t', t' = t ∧ ∃ r', here w r' a ta s' ∧ stream_has binary true body r') _ (λ _, Q (-1))); [| |done].
  { destruct Hst as [Hs Hz Hb Hbi]. xwp_step.
    - eapply here_update; [done|]. intros s' Hs'. split; [done|]. eexists. split_and!; [exact Hs'|by split].
    - split; [done|]. exists r. split_and!; [done|]. split; try done. intros _. destruct started; [by apply Hbi|].
      destruct (Hf eq_refl) as [Hf1 ->]. by rewrite Hf1, Hz in Hb0. }
  clear s r Hh Hst. intros [] s t' (-> & r & Hh & Hst). apply xwp_bind. eapply here_request; [done|].
  rewrite (h_size _ _ _ _ Hst), wrapu_id by (unfold in_u; lia). rewrite (proj2 (Z.ltb_ge _ _)) by lia. apply xwp_bind.
  eapply stream_append; [done..|lia|]. exact HQ.
Qed.

Definition starts (started : bool) (pieces : list piece) : Prop :=
  started = true ∨ ∃ p rest, pieces = p :: rest ∧ p_first p = true.

Lemma pieces_collect binary started pieces l Q body r a ta s t : here w r a ta s → stream_has binary started body r →
  Forall (λ p, ends p = false) pieces → pieces ≠ [] → starts started pieces → (started = false → body = []) →
  Z.of_nat (length body) + Z.of_nat (length (concat (map p_data pieces))) ≤ 4096 →
  (∀ s' r', here w r' a ta s' → stream_has binary true (body ++ concat (map p_data pieces)) r' → xwp (callbacks w l) Q (λ _ _ _, False) s' t) →
  xwp (callbacks w (map (receives binary) pieces ++ l)) Q (λ _ _ _, False) s t.
Proof.
  revert started body r s. induction pieces as [|p pieces IH]; intros started body r s Hh Hst He Hne Hs0 Hb Hl HQ; [done|].
  apply Forall_cons in He as [He1 He]. cbn [map Datatypes.app callbacks concat] in *. rewrite length_app in Hl. apply xwp_bind.
  eapply receive_collects; [done|done| |lia|].
  { intros ->. split; [|by apply Hb]. destruct Hs0 as [?|(? & ? & [= <- <-] & ?)]; done. }
  intros s' r' Hh' Hst'. rewrite He1. apply xwp_bind, xwp_ret, xwp_ret. cbn [Z.eqb]. destruct (decide (pieces = [])) as [->|Hn].
  - cbn [map Datatypes.app]. eapply HQ; [done|]. cbn [map concat]. by rewrite app_nil_r.
  - eapply IH; [done|done|done|done|by left|done|rewrite length_app; lia|]. intros s2 r2. rewrite <- app_assoc. apply HQ.
Qed.

(** A message of the stream, in any number of fragments and pieces, of at most 4096 bytes in
    all, reaches the application once and whole, and the next one starts afresh. *)
Theorem stream_message_whole binary pieces last r s t :
  let bytes := concat (map p_data pieces) ++ p_data last in
  requests s !! w = Some r → sized r → req_size r = 0 →
  Forall (λ p, ends p = false) pieces → ends last = true → starts false (pieces ++ [last]) → Z.of_nat (length bytes) ≤ 4096 →
  xwp (callbacks w (map (receives binary) (pieces ++ [last])))
    (λ code s' t',
      match message bytes binary (app s) (app_trace s) with
      | (inr _, a, ta) => code = 0 ∧ ∃ r', here w r' a ta s' ∧ sized r' ∧ req_size r' = 0
      | (inl _, a, ta) => code = -1 ∧ app s' = a ∧ app_trace s' = ta
      end) (λ _ _ _, False) s t.
Proof.
  intros bytes Hr Hs Hz He Hl Hst Hb. assert (Hh : here w r (app s) (app_trace s) s) by done. revert Hh. clear Hr.
  generalize (app s) (app_trace s). intros a ta Hh. set (Q := λ (code : Z) (s' : Server) (t' : list srv_event), _).
  assert (Hend : ∀ started body r s, here w r a ta s → stream_has binary started body r → (started = false → p_first last = true ∧ body = []) →
    body ++ p_data last = bytes → xwp (callbacks w (map (receives binary) [last])) Q (λ _ _ _, False) s t).
  { clear r s Hs Hz Hh Hst. intros started body r s Hh Hst Hf Hbody. cbn [map callbacks]. apply xwp_bind.
    eapply receive_collects; [done|done|done|rewrite <- Nat2Z.inj_add, <- length_app, Hbody; done|].
    rewrite Hbody. clear s r Hh Hst. intros s r Hh [Hs Hz Hbo Hbi]. rewrite Hl. apply xwp_bind, xwp_bind. eapply here_request; [done|].
    rewrite Hz, Nat2Z.id, Hbo, Hbi by done. apply xwp_bind, xwp_emit, xwp_bind. eapply here_app; [exact Hh|]. unfold Q.
    destruct (message bytes binary a ta) as [[[e|[]] a'] ta']; intros s' Hh'.
    - apply xwp_ret. cbn. by destruct Hh' as (_ & -> & ->).
    - eapply here_update; [done|]. intros s2 Hh2. apply xwp_ret, xwp_ret. split; [done|]. eexists. split_and!; [exact Hh2| |]; done. }
  assert (H0 : stream_has binary false [] r) by (by split).
  rewrite map_app. destruct (decide (pieces = [])) as [->|Hn].
  - cbn [map Datatypes.app]. eapply (Hend false []); [done|done| |done]. intros _. split; [|done].
    destruct Hst as [?|(? & ? & [= <- <-] & ?)]; done.
  - eapply (pieces_collect binary false); [done|done|done|done| |done| |].
    + right. destruct Hst as [?|(p & rest & Hp & Hf)]; [done|]. destruct pieces as [|p' pieces]; [done|]. simplify_eq/=. eauto.
    + subst bytes. rewrite length_app in Hb. cbn. lia.
    + intros s' r' Hh' Hst'. by eapply (Hend true).
Qed.
End Here.
End Whole.

(** ** A client that attaches *)

Definition demo_lws : Lws := {|
  LWS_PRE := 16; listen_port w := if bool_decide (w = 1%nat) then 8080 else 8081;
  lws_context_created _ := true; lws_vhost_created _ _ := true; lws_headers_fail _ _ := false;
  lws_write_result _ _ := 0; lws_transaction_over _ _ := false |}.

Definition demo_memory : Request :=
  mk_request (replicate (Z.to_nat 128) 0) (replicate (Z.to_nat 16385) 7) 99 (replicate (Z.to_nat (16 + 8192)) 0) 99 false false true.

Lemma demo_memory_sized : sized (lws:=demo_lws) demo_memory.
Proof. unfold sized, demo_memory. cbn [req_path req_body req_response]. rewrite !length_replicate. done. Qed.

Inductive demo_step := d_open (w : wsi) | d_call (w : wsi) (why : reason) | d_other (c : section).
Abbreviation demo_world := (option wsi * Server * gmap wsi wstate * list srv_event)%type.
Abbreviation demo_callback := (callback (json:=plain_json) (jsmn:=demo_jsmn) (env:=demo_env) (lws:=demo_lws) 8080 8081).

Definition demo_data_ok (why : reason) : bool :=
  match why with RECEIVE data _ _ _ _ | HTTP_BODY data => Z.of_nat (length data) <? 2 ^ 63 | _ => true end.
Definition demo_ready (pending : option wsi) (w : wsi) (why : reason) : bool :=
  match why with ESTABLISHED => bool_decide (pending = Some w) | _ => true end.

Definition demo_next (x : demo_world) (d : demo_step) : demo_world :=
  let '(pending, s, st, t) := x in
  match d with
  | d_open w =>
      if bool_decide (st !! w = None) then (None, set_requests (<[w := demo_memory]> (requests s)) s, <[w := W_accepted]> st, t) else x
  | d_call w why =>
      match st !! w with
      | Some k =>
          match after k why with
          | Some k' =>
              if demo_data_ok why && demo_ready pending w why then
                match demo_callback w why s t with
                | (inr code, s', t') => (let_through w why code, s', <[w := if code =? 0 then k' else W_closing (is_stream k')]> st, t')
                | _ => x
                end
              else x
          | None => x
          end
      | None => x
      end
  | d_other c =>
      if (match c with sec_attach => true | _ => false end) then x else
      match app_call (lock (json:=plain_json) (env:=demo_env) (run_section (json:=plain_json) (env:=demo_env) c)) s t with
      | (_, s', t') => (pending, s', st, t')
      end
  end.

Abbreviation demo_run := (srv_run (json:=plain_json) (jsmn:=demo_jsmn) (env:=demo_env) (lws:=demo_lws) 8080 8081 true true true).

Lemma demo_next_run x d : demo_run x.1.1.1 x.1.1.2 x.1.2 x.2 →
  demo_run (demo_next x d).1.1.1 (demo_next x d).1.1.2 (demo_next x d).1.2 (demo_next x d).2.
Proof.
  destruct x as [[[pending s] st] t]. cbn [fst snd]. intros Hr. destruct d as [w|w why|c]; cbn [demo_next].
  - case_bool_decide; [|done]. eapply srv_open; [done|done|apply demo_memory_sized].
  - destruct (st !! w) as [k|] eqn:Hk; [|done]. destruct (after k why) as [k'|] eqn:Ha; [|done].
    destruct (demo_data_ok why && demo_ready pending w why) eqn:E; [|done]. apply andb_true_iff in E as [E1 E2].
    destruct (demo_callback w why s t) as [[[e|code] s'] t'] eqn:Ec; [done|]. eapply srv_call; [done|done|done| | |exact Ec].
    + destruct why; try done; by apply Z.ltb_lt in E1.
    + intros -> _. by apply bool_decide_eq_true in E2.
  - destruct c; try done; (destruct (app_call _ s t) as [[r s'] t'] eqn:Ec; eapply srv_other; [done| |exact Ec]; done).
Qed.

Definition demo_started :=
  start_server (json:=plain_json) (env:=demo_env) (lws:=demo_lws) 8080 8081 (new_server true true) [].

Definition demo_bytes : list Z := bytes_of_text demo_body.

(** The run hook in two pieces, the verdict of the device session, a client that is
    upgraded and sends a packet. *)
Definition demo_steps : list demo_step :=
  [d_open 1; d_call 1 (HTTP (Some (bytes_of_text (hook_prefix +:+ "/run"))) true true);
   d_call 1 (HTTP_BODY (take 50 demo_bytes)); d_call 1 (HTTP_BODY (drop 50 demo_bytes)); d_call 1 HTTP_BODY_COMPLETION;
   d_other (sec_actions true); d_other (sec_authorized true (seconds 3));
   d_open 2; d_call 2 (FILTER_PROTOCOL_CONNECTION (Some "/stream"%string)); d_call 2 ESTABLISHED;
   d_call 2 (RECEIVE demo_wire true true true 0)]%nat.

Definition demo_served : demo_world := foldl demo_next (None, demo_started.1.2, ∅, demo_started.2) demo_steps.

Lemma demo_served_run : demo_run demo_served.1.1.1 demo_served.1.1.2 demo_served.1.2 demo_served.2.
Proof.
  unfold demo_served. generalize demo_steps. intros l.
  assert (H0 : demo_run None demo_started.1.2 ∅ demo_started.2) by (apply srv_start; vm_compute; reflexivity).
  assert (H : ∀ x, demo_run x.1.1.1 x.1.1.2 x.1.2 x.2 →
    demo_run (foldl demo_next x l).1.1.1 (foldl demo_next x l).1.1.2 (foldl demo_next x l).1.2 (foldl demo_next x l).2).
  { induction l as [|d l IH]; intros x Hx; [done|]. cbn [foldl]. apply IH. by apply demo_next_run. }
  by apply (H (None, demo_started.1.2, ∅, demo_started.2)).
Qed.

Lemma demo_others t : sec_attach ∉ v_others (MicrovmEnv:=demo_env) t.
Proof. apply not_elem_of_nil. Qed.

Lemma server_keeps_rules_witness :
  srv_allowed (lws:=demo_lws) 8080 8081 true (SMessage 2%nat demo_wire true) (drop 1 demo_served.2) ∧ holder (drop 1 demo_served.2) = Some 2%nat.
Proof.
  split; [|vm_compute; reflexivity].
  apply (server_keeps_rules (json:=plain_json) (jsmn:=demo_jsmn) (env:=demo_env) (lws:=demo_lws) 8080 8081 true true true demo_others
    demo_served.1.1.1 demo_served.1.1.2 demo_served.1.2 demo_served.2 []); [exact demo_served_run|vm_compute; reflexivity].
Defined.

Lemma served_application_safe_witness :
  attached_ (app demo_served.1.1.2) = true ∧
  ∃ w k, attachment demo_served.1.1.2 = Some w ∧ demo_served.1.2 !! w = Some k ∧ is_stream k = true.
Proof.
  assert (Ha : attached_ (app demo_served.1.1.2) = true) by (vm_compute; reflexivity). split; [exact Ha|].
  destruct (served_application_safe (json:=plain_json) (jsmn:=demo_jsmn) (env:=demo_env) (lws:=demo_lws) 8080 8081 true true true demo_others
    demo_served.1.1.1 demo_served.1.1.2 demo_served.1.2 demo_served.2) as [_ H]; [exact demo_served_run|]. exact (H Ha).
Defined.

(** The request of the run hook, on a new socket. *)
Definition demo_opened : Server := (demo_next (None, demo_started.1.2, ∅, demo_started.2) (d_open 1%nat)).1.1.2.
Definition demo_chunks : list (list Z) := [take 50 demo_bytes; []; drop 50 demo_bytes].

Lemma hook_request_whole_witness :
  xwp (callbacks (json:=plain_json) (jsmn:=demo_jsmn) (env:=demo_env) (lws:=demo_lws) 8080 8081 1%nat
        (HTTP (Some (bytes_of_text (hook_prefix +:+ "/run"))) true true :: map HTTP_BODY demo_chunks ++ [HTTP_BODY_COMPLETION]))
    (λ _ s' _, phase_ (app s') = "running"%string ∧ mv_run_id (run_ (app s')) = "run-1"%string) (λ _ _ _, False) demo_opened [].
Proof.
  eapply xwp_mono; [apply (hook_request_whole (json:=plain_json) (jsmn:=demo_jsmn) (env:=demo_env) (lws:=demo_lws) 8080 8081 1%nat "/run" demo_chunks demo_memory)| |done].
  - vm_compute. reflexivity.
  - exact demo_memory_sized.
  - vm_compute. reflexivity.
  - vm_compute. reflexivity.
  - vm_compute. intros H. repeat (apply elem_of_cons in H as [H|H]; [discriminate H|]). by apply not_elem_of_nil in H.
  - vm_compute. discriminate.
  - intros code s' t'. set (x := hook _ _ _ _).
    assert (Hx : phase_ x.1.2 = "running"%string ∧ mv_run_id (run_ x.1.2) = "run-1"%string) by (vm_compute; split; reflexivity).
    destruct x as [[[e|reply] a] ta]; cbn in Hx; [by intros (_ & -> & _)|].
    intros (r' & _ & [(_ & (r2 & (_ & -> & _) & _) & _)|(_ & (_ & -> & _) & _)]); exact Hx.
Defined.

(** A packet in two frames, the second one cut, from the client that has attached. *)
Definition demo_pieces : list piece :=
  [mk_piece (take 4 demo_wire) true false 0; mk_piece (take 3 (drop 4 demo_wire)) false true 6].
Definition demo_last : piece := mk_piece (drop 7 demo_wire) false true 0.

Lemma stream_message_whole_witness :
  xwp (callbacks (json:=plain_json) (jsmn:=demo_jsmn) (env:=demo_env) (lws:=demo_lws) 8080 8081 2%nat
        (map (receives true) (demo_pieces ++ [demo_last])))
    (λ _ s' _, VSend demo_wire true ∈ app_trace s') (λ _ _ _, False) demo_served.1.1.2 [].
Proof.
  destruct (requests demo_served.1.1.2 !! 2%nat) as [r|] eqn:Er; [|vm_compute in Er; discriminate Er].
  eapply xwp_mono; [apply (stream_message_whole (json:=plain_json) (jsmn:=demo_jsmn) (env:=demo_env) (lws:=demo_lws) 8080 8081 2%nat true demo_pieces demo_last r)| |done].
  - exact Er.
  - assert (H : (λ r, (Z.of_nat (length (req_path r)), Z.of_nat (length (req_body r)), Z.of_nat (length (req_response r))))
        <$> requests demo_served.1.1.2 !! 2%nat = Some (128, 16385, 8208)) by (vm_compute; reflexivity).
    rewrite Er in H. cbn [fmap option_fmap option_map] in H. apply (inj Some) in H. apply pair_equal_spec in H as [[H1 H2]%pair_equal_spec H3].
    split; [exact H1|]. split; [exact H2|]. rewrite H3. reflexivity.
  - assert (H : req_size <$> requests demo_served.1.1.2 !! 2%nat = Some 0) by (vm_compute; reflexivity). rewrite Er in H. by apply (inj Some) in H.
  - repeat constructor.
  - reflexivity.
  - right. by repeat eexists.
  - vm_compute. discriminate.
  - intros code s' t'. set (x := message _ _ _ _).
    assert (Hx : x.2 !! 2%nat = Some (VSend demo_wire true)) by (vm_compute; reflexivity). apply list_elem_of_lookup_2 in Hx.
    destruct x as [[[e|[]] a] ta]; cbn in Hx; [by intros (_ & _ & ->)|]. by intros (_ & r' & (_ & _ & ->) & _).
Defined.
