(* ===== verification/AgentAttach.v ===== *)
(** * The attached client

    [agent/src/attach.cpp]: a local operator ([AgentManual]) controls a device over
    the server in the MicroVM. [attach_target] finds the MicroVM of the current
    assignment and takes a token for it; [Attachment] is the client's end of the
    stream. It is what the operator calls as its [Actions]: [poll] runs on the
    thread of the library, and its calls queue messages that are written when the
    socket is writable.

    The library, the clocks, the signal, the validator's verdict and the local
    socket are in the environment. *)
From stdpp Require Import gmap.
From S2P Require Import Prelude Cpp AwsJson AgentController AgentReconcile AgentCloud AgentSample AgentShadow AgentAws AgentSession AgentManual AgentMicrovm.

#[local] Open Scope Z_scope.

(** ** The attachment *)

Record Message := mk_message { msg_data : Bytes; msg_binary : bool }.

Record Attachment := mk_attachment {
  connected : bool; wants_write : bool; incoming : list Z; pending : list Message;
  deadline : Z; next_status : Z; last_activity : Z;
  incoming_binary : bool; established : bool; done : bool; failed : bool; released : bool; telemetry_state : Z;
  operator : Manual; operator_trace : list manual_event }.

Definition set_connected (b : bool) (c : Attachment) : Attachment :=
  mk_attachment b (wants_write c) (incoming c) (pending c) (deadline c) (next_status c) (last_activity c) (incoming_binary c) (established c) (done c) (failed c) (released c) (telemetry_state c) (operator c) (operator_trace c).
Definition set_wants_write (b : bool) (c : Attachment) : Attachment :=
  mk_attachment (connected c) b (incoming c) (pending c) (deadline c) (next_status c) (last_activity c) (incoming_binary c) (established c) (done c) (failed c) (released c) (telemetry_state c) (operator c) (operator_trace c).
Definition set_incoming (l : list Z) (c : Attachment) : Attachment :=
  mk_attachment (connected c) (wants_write c) l (pending c) (deadline c) (next_status c) (last_activity c) (incoming_binary c) (established c) (done c) (failed c) (released c) (telemetry_state c) (operator c) (operator_trace c).
Definition set_pending (l : list Message) (c : Attachment) : Attachment :=
  mk_attachment (connected c) (wants_write c) (incoming c) l (deadline c) (next_status c) (last_activity c) (incoming_binary c) (established c) (done c) (failed c) (released c) (telemetry_state c) (operator c) (operator_trace c).
Definition set_next_status (n : Z) (c : Attachment) : Attachment :=
  mk_attachment (connected c) (wants_write c) (incoming c) (pending c) (deadline c) n (last_activity c) (incoming_binary c) (established c) (done c) (failed c) (released c) (telemetry_state c) (operator c) (operator_trace c).
Definition set_last_activity (n : Z) (c : Attachment) : Attachment :=
  mk_attachment (connected c) (wants_write c) (incoming c) (pending c) (deadline c) (next_status c) n (incoming_binary c) (established c) (done c) (failed c) (released c) (telemetry_state c) (operator c) (operator_trace c).
Definition set_incoming_binary (b : bool) (c : Attachment) : Attachment :=
  mk_attachment (connected c) (wants_write c) (incoming c) (pending c) (deadline c) (next_status c) (last_activity c) b (established c) (done c) (failed c) (released c) (telemetry_state c) (operator c) (operator_trace c).
Definition set_established (b : bool) (c : Attachment) : Attachment :=
  mk_attachment (connected c) (wants_write c) (incoming c) (pending c) (deadline c) (next_status c) (last_activity c) (incoming_binary c) b (done c) (failed c) (released c) (telemetry_state c) (operator c) (operator_trace c).
Definition set_done (b : bool) (c : Attachment) : Attachment :=
  mk_attachment (connected c) (wants_write c) (incoming c) (pending c) (deadline c) (next_status c) (last_activity c) (incoming_binary c) (established c) b (failed c) (released c) (telemetry_state c) (operator c) (operator_trace c).
Definition set_failed (b : bool) (c : Attachment) : Attachment :=
  mk_attachment (connected c) (wants_write c) (incoming c) (pending c) (deadline c) (next_status c) (last_activity c) (incoming_binary c) (established c) (done c) b (released c) (telemetry_state c) (operator c) (operator_trace c).
Definition set_released (b : bool) (c : Attachment) : Attachment :=
  mk_attachment (connected c) (wants_write c) (incoming c) (pending c) (deadline c) (next_status c) (last_activity c) (incoming_binary c) (established c) (done c) (failed c) b (telemetry_state c) (operator c) (operator_trace c).
Definition set_telemetry_state (n : Z) (c : Attachment) : Attachment :=
  mk_attachment (connected c) (wants_write c) (incoming c) (pending c) (deadline c) (next_status c) (last_activity c) (incoming_binary c) (established c) (done c) (failed c) (released c) n (operator c) (operator_trace c).
Definition set_operator (m : Manual) (t : list manual_event) (c : Attachment) : Attachment :=
  mk_attachment (connected c) (wants_write c) (incoming c) (pending c) (deadline c) (next_status c) (last_activity c) (incoming_binary c) (established c) (done c) (failed c) (released c) (telemetry_state c) m t.

Definition new_attachment (m : Manual) (t : list manual_event) (until : Z) : Attachment :=
  mk_attachment false false [] [] until 0 0 false false false false false (-1) m t.

Inductive att_event :=
  | TWrite (message : Message) (sent : Z)
  | TTick (now : Z)
  | THeader (failed : bool).

(** The reasons of a callback and what the library tells there. *)
Inductive client_reason :=
  | CLIENT_APPEND_HANDSHAKE_HEADER
  | CLIENT_ESTABLISHED
  | CLIENT_WRITEABLE
  | CLIENT_RECEIVE (data : list Z) (first_fragment frame_is_binary final_fragment : bool) (remaining : Z)
  | CLIENT_CONNECTION_ERROR
  | CLIENT_CLOSED
  | client_other.

Class AttachEnv := {
  t_clock : list att_event → Z;
  t_interrupted : list att_event → bool;
  t_token_failed : list att_event → bool;
  t_header_fails : list att_event → bool;
  t_write : list att_event → Z;
  (** The clock and the socket of the operator. *)
  t_activity_clock : list manual_event → Z;
  t_recv : list manual_event → received;
  t_sendto : Bytes → list manual_event → option errno }.

Section Client.
Context `{json : AwsJson, env : AttachEnv}.
Abbreviation P := (X att_event Attachment).

(** *** The actions *)

Definition enqueue (bytes : Bytes) (binary : bool) (c : Attachment) : bool * Attachment :=
  if done c || (128 <=? Z.of_nat (length (pending c))) || (4096 <? Z.of_nat (length bytes)) then (false, c) else
  let c := set_pending (pending c ++ [mk_message bytes binary]) c in
  (true, if connected c then set_wants_write true c else c).
Definition text (value : string) (c : Attachment) : bool * Attachment := enqueue (bytes_of_text value) false c.

Definition type_text (type : string) : string := "{" +:+ dq +:+ "type" +:+ dq +:+ ":" +:+ dq +:+ type +:+ dq +:+ "}".

Definition acquire (actor : string) (c : Attachment) : bool * Attachment :=
  if released c then (false, c) else
  text (c_str (WriteCompact [("type"%string, JString "acquire"); ("actor"%string, JString (c_str actor))])) c.
Definition send (frame : Bytes) (c : Attachment) : bool * Attachment :=
  if released c then (false, c) else enqueue frame true c.
Definition release (c : Attachment) : Attachment :=
  (text (type_text "release") (set_pending [] (set_released true c))).2.
Definition client_activity (now : Z) (c : Attachment) : Attachment :=
  if (last_activity c =? 0) || (seconds 1 <=? now - last_activity c) then
    let '(queued, c) := text (type_text "activity") c in
    if queued then set_last_activity now c else c
  else c.

(** *** The operator's poll

    The operator's calls of its actions since the poll began, applied in order:
    [replay] gives the attachment at a point of the operator's history. *)

Definition act (e : manual_event) (now : Z) (c : Attachment) : Attachment :=
  match e with
  | MRelease => release c
  | MActivity => client_activity now c
  | MAcquire actor _ => (acquire actor c).2
  | MSend frame _ => (send frame c).2
  | _ => c
  end.

Fixpoint replay (c : Attachment) (base : nat) (t : list manual_event) : Attachment :=
  match t with
  | [] => c
  | e :: rest => if (length t <=? base)%nat then c else act e (t_activity_clock rest) (replay c base rest)
  end.

(** The attachment as the [Actions] of the operator. *)
Definition operator_env (c : Attachment) : ManualEnv := {|
  m_acquire t := (acquire "QGroundControl" (replay c (length (operator_trace c)) t)).1;
  m_send frame t := (send frame (replay c (length (operator_trace c)) t)).1;
  m_recv := t_recv; m_sendto := t_sendto; m_callbacks _ := [] |}.

Definition run_operator {A} (program : ManualEnv → X manual_event Manual A) (c : Attachment) : Attachment :=
  match program (operator_env c) (operator c) (operator_trace c) with
  | (_, m, t) => set_operator m t (replay c (length (operator_trace c)) t)
  end.

Definition tcall {A} (e : A → att_event) (f : list att_event → A) : P A := λ s t, (inr (f t), s, e (f t) :: t).

Definition tick_at (now : Z) : P unit :=
  λ c t,
    if t_interrupted t || (deadline c <=? now) || t_token_failed t then
      (inr tt, set_done true (release (if t_token_failed t then set_failed true c else c)), t)
    else if negb (established c) then (inr tt, c, t) else
    let c := run_operator (λ env, poll (env:=env) now) c in
    (inr tt, if next_status c <=? now then set_next_status (now + seconds 2) (text (type_text "status") c).2 else c, t).
Definition tick : P unit := now ← tcall TTick t_clock; tick_at now.

(** *** The callbacks *)

Definition operator_callback (cb : AgentManual.callback) : P unit := xmodify (run_operator (λ env, run_callback (env:=env) cb)).

Definition connection_of (state : Z) : Connection :=
  if state =? 0 then conn_stopped else if state =? 1 then conn_connecting else if state =? 2 then conn_connected else conn_failed.

Definition receive_document (view : JsonView) : P Z :=
  _ ← xwhen (ValueExists view "type" && IsString (GetObject view "type") && bool_decide (GetString view "type" = "control"%string)
             && ValueExists view "held" && IsBool (GetObject view "held"))
        (operator_callback (cb_control (GetBool view "held") "cloud agent control state"));
  if negb (ValueExists view "telemetry" && IsObject (GetObject view "telemetry")) then mret 0 else
  let telemetry := GetObject view "telemetry" in
  if negb (ValueExists telemetry "state") || negb (IsIntegerType (GetObject telemetry "state")) then mret (-1) else
  let state := GetInt64 telemetry "state" in
  if (state <? 0) || (3 <? state) then mret (-1) else
  c ← xget;
  _ ← xwhen (negb (telemetry_state c =? state))
        (_ ← xmodify (set_telemetry_state state);
         operator_callback (cb_connection stream_telemetry (connection_of state) "cloud agent telemetry"));
  mret 0.

Definition client_receive (data : list Z) (first_fragment frame_is_binary final_fragment : bool) (remaining : Z) : P Z :=
  c ← xget;
  _ ← xwhen (first_fragment && bool_decide (incoming c = [])) (xmodify (set_incoming_binary frame_is_binary));
  if 16384 <? Z.of_nat (length (incoming c)) + Z.of_nat (length data) then mret (-1) else
  _ ← xmodify (set_incoming (incoming c ++ data));
  if negb final_fragment || negb (remaining =? 0) then mret 0 else
  c ← xget;
  code ← (if incoming_binary c then
            if negb (valid_mavlink2 (incoming c)) then mret (-1) else
            _ ← operator_callback (cb_telemetry (incoming c)); mret 0
          else
            match json_parse (c_str (text_of_bytes (incoming c))) with
            | None => mret (-1)
            | Some view => if negb (IsObject view) then mret (-1) else receive_document view
            end);
  if negb (code =? 0) then mret code else
  _ ← xmodify (set_incoming []);
  mret 0.

Definition client_writeable : P Z :=
  _ ← xmodify (set_wants_write false);
  c ← xget;
  match pending c with
  | [] => mret 0
  | message :: rest =>
      _ ← xmodify (set_pending rest);
      sent ← tcall (TWrite message) t_write;
      if (sent <? 0) || negb (sent =? Z.of_nat (length (msg_data message))) then mret (-1) else
      _ ← xwhen (negb (bool_decide (rest = []))) (xmodify (set_wants_write true));
      mret 0
  end.

Definition client_callback (why : client_reason) : P Z :=
  try_catch
    (match why with
     | CLIENT_APPEND_HANDSHAKE_HEADER =>
         fails ← tcall THeader t_header_fails;
         mret (if fails : bool then -1 else 0)
     | CLIENT_ESTABLISHED =>
         _ ← xmodify (set_connected true); _ ← xmodify (set_established true); _ ← xmodify (set_next_status 0); mret 0
     | CLIENT_WRITEABLE => client_writeable
     | CLIENT_RECEIVE data first_fragment frame_is_binary final_fragment remaining =>
         client_receive data first_fragment frame_is_binary final_fragment remaining
     | CLIENT_CONNECTION_ERROR => _ ← xmodify (set_done true); _ ← xmodify (set_failed true); mret 0
     | CLIENT_CLOSED =>
         _ ← xmodify (set_connected false);
         _ ← operator_callback (cb_control false "attachment closed");
         c ← xget;
         _ ← xwhen (negb (done c)) (_ ← xmodify (set_done true); xmodify (set_failed true));
         mret 0
     | client_other => mret 0
     end)
    (λ _, mret (-1)).
End Client.

(** ** The assignment that is attached to *)

Section Target.
Context `{json : AwsJson, env : AwsEnv}.
Abbreviation P := (X aws_event Handler).

(** The endpoint, the token and the end of the attachment. *)
Definition current_assignment (snapshot : ControllerSnapshot) (now : Z) (p : ProjectionObservation) : option RunReservation :=
  match AgentController.run (AgentReconcile.state snapshot) with
  | Some r =>
      if negb (bool_decide (phase r = running)) || negb (activation_authorized (ctl_activation (AgentReconcile.state snapshot)) now)
         || negb (default false (obs_active p)) || negb (obs_version p =? projection_version (ctl_activation (AgentReconcile.state snapshot)))
         || negb (obs_source_timestamp_ms p =? source_timestamp_ms (ctl_activation (AgentReconcile.state snapshot)))
      then None else Some r
  | None => None
  end.

Definition reported_endpoint (payload : string) : P string :=
  match json_parse (c_str payload) with
  | None => throw "current cloud endpoint is unavailable"
  | Some root =>
      let reported := GetObject (GetObject root "state") "reported" in
      if negb (ValueExists reported "endpoint") || negb (IsString (GetObject reported "endpoint"))
      then throw "current cloud endpoint is unavailable" else mret (c_str (GetString reported "endpoint"))
  end.

Definition attach_target (thing : string) : P (string * string * Z) :=
  capable ← has_capability thing "agent";
  if negb capable then throw "Thing does not declare the agent capability" else
  payload ← agent_shadow thing;
  snapshot ← parse_controller_shadow payload;
  now ← now_seconds;
  p ← projection thing;
  match current_assignment snapshot now p with
  | None => throw "no verified current cloud assignment"
  | Some r =>
      value ← reported_endpoint payload;
      url ← microvm_https_endpoint value;
      host ← AgentAws.get (microvm_id r);
      same ← (if negb (bool_decide (cr_id host = microvm_id r)) || negb (bool_decide (cr_state host = "RUNNING"%string)) then mret false else
              host_url ← microvm_https_endpoint (endpoint host);
              mret (bool_decide (host_url = url)));
      if negb same then throw "cloud endpoint no longer matches assignment" else
      started ← steady_clock;
      auth ← token (cr_id host) 8081 5;
      mret (url, auth, started + seconds 240)
  end.

(** [connect_attachment] up to the client: the host of the connection. *)
Definition attach_host (url auth : string) : P string :=
  if string_empty auth || (8000 <? string_size auth) || negb (only_chars token_chars auth)
  then throw "invalid MicroVM authentication response" else
  url ← microvm_https_endpoint url;
  mret (substr_from 8 url).
End Target.
