(* ===== verification/AgentArguments.v ===== *)
(** * The command lines of the agent

    The arguments of the local agent ([main] of [agent/src/main.cpp]) and of the
    attached client ([attach_main] of [agent/src/attach.cpp]): two loops over the
    same options. Whether the CA file can be read is a parameter. *)
From stdpp Require Import gmap.
From S2P Require Import Prelude Cpp AgentManual.

#[local] Open Scope Z_scope.

Record Arguments := mk_arguments { arg_thing : string; arg_region : string; arg_ca : string; arg_manual : ManualOptions; has_port : bool }.
Definition set_thing (v : string) (a : Arguments) : Arguments := mk_arguments v (arg_region a) (arg_ca a) (arg_manual a) (has_port a).
Definition set_region (v : string) (a : Arguments) : Arguments := mk_arguments (arg_thing a) v (arg_ca a) (arg_manual a) (has_port a).
Definition set_ca (v : string) (a : Arguments) : Arguments := mk_arguments (arg_thing a) (arg_region a) v (arg_manual a) (has_port a).
Definition set_control (a : Arguments) : Arguments :=
  mk_arguments (arg_thing a) (arg_region a) (arg_ca a) (mk_manual_options (listener (arg_manual a)) (qgc (arg_manual a)) true) (has_port a).
Definition set_qgc (p : Z) (a : Arguments) : Arguments :=
  mk_arguments (arg_thing a) (arg_region a) (arg_ca a) (mk_manual_options (listener (arg_manual a)) p (control (arg_manual a))) (has_port a).
Definition set_listener (p : Z) (a : Arguments) : Arguments :=
  mk_arguments (arg_thing a) (arg_region a) (arg_ca a) (mk_manual_options p (qgc (arg_manual a)) (control (arg_manual a))) true.

Definition default_options : ManualOptions := mk_manual_options 14551 14550 false.

(** [--help], an error, or the options. *)
Inductive parsed := p_help | p_invalid | p_options (a : Arguments).

(** [udp_port], whose exception ends the program. *)
Definition port_of (value : string) : option Z :=
  match udp_port (E:=unit) (S:=unit) value tt [] with (inr p, _, _) => Some p | _ => None end.
Definition with_port (value : string) (k : Z → parsed) : parsed :=
  match port_of value with Some p => k p | None => p_invalid end.

(** [argument[0] != '-'] of an argument that is not empty. *)
Definition positional (argument : string) : bool :=
  match argument with
  | EmptyString => false
  | String c _ => negb (bool_decide (c = "-"%char))
  end.
(** An argument such as [-5]. *)
Definition negative_number (argument : string) : bool :=
  match argument with
  | String "-" (String c _) => is_digit c
  | _ => false
  end.

Fixpoint main_arguments (args : list string) (a : Arguments) {struct args} : parsed :=
  match args with
  | [] => p_options a
  | argument :: rest =>
      if bool_decide (argument = "--help"%string) then p_help else
      if bool_decide (argument = "--control"%string) then main_arguments rest (set_control a) else
      let others :=
        if string_empty (arg_thing a) && positional argument then main_arguments rest (set_thing argument a) else
        if negb (string_empty (arg_thing a)) && negb (has_port a) && (positional argument || negative_number argument)
        then with_port argument (λ p, main_arguments rest (set_listener p a))
        else p_invalid in
      match rest with
      | value :: rest' =>
          if bool_decide (argument = "--qgc-port"%string) then with_port value (λ p, main_arguments rest' (set_qgc p a)) else
          if bool_decide (argument = "--region"%string) then main_arguments rest' (set_region value a) else
          if bool_decide (argument = "--ca"%string) then main_arguments rest' (set_ca value a) else others
      | [] => others
      end
  end.

Fixpoint attach_arguments (args : list string) (a : Arguments) {struct args} : parsed :=
  match args with
  | [] => p_options a
  | argument :: rest =>
      if bool_decide (argument = "--control"%string) then attach_arguments rest (set_control a) else
      let others :=
        if string_empty (arg_thing a) && positional argument then attach_arguments rest (set_thing argument a) else
        if negb (string_empty (arg_thing a)) && negb (has_port a) && positional argument
        then with_port argument (λ p, attach_arguments rest (set_listener p a))
        else p_invalid in
      match rest with
      | value :: rest' =>
          if bool_decide (argument = "--ca"%string) then attach_arguments rest' (set_ca value a) else
          if bool_decide (argument = "--region"%string) then attach_arguments rest' (set_region value a) else
          if bool_decide (argument = "--qgc-port"%string) then with_port value (λ p, attach_arguments rest' (set_qgc p a)) else others
      | [] => others
      end
  end.

(** Which program runs, and with which options; [ca] is the value of
    [TXING_AGENT_CA_PATH], empty when it is not set. *)
Inductive program := run_microvm (args : list string) | run_attach (args : list string) | run_local (args : list string).
Definition main_dispatch (args : list string) : program :=
  match args with
  | first :: rest =>
      if bool_decide (first = "--microvm"%string) then run_microvm rest else
      if bool_decide (first = "--attach"%string) then run_attach rest else run_local args
  | [] => run_local args
  end.

Definition main_options (readable : string → bool) (ca : string) (args : list string) : parsed :=
  match main_arguments args (mk_arguments EmptyString EmptyString ca default_options false) with
  | p_options a => if string_empty (arg_thing a) || string_empty (arg_ca a) || negb (readable (arg_ca a)) then p_invalid else p_options a
  | other => other
  end.
Definition attach_options (readable : string → bool) (ca : string) (args : list string) : parsed :=
  match attach_arguments args (mk_arguments EmptyString "eu-central-1" ca default_options false) with
  | p_options a =>
      if string_empty (arg_thing a) || negb (bool_decide (arg_region a = "eu-central-1"%string)) || string_empty (arg_ca a)
         || negb (readable (arg_ca a)) then p_invalid else p_options a
  | other => other
  end.

(** ** Both loops *)

Lemma negative_not_positional s : negative_number s = true → positional s = false.
Proof. destruct s as [|c s]; [done|]. unfold negative_number, positional. destruct (decide (c = "-"%char)) as [->|]; [done|]. repeat case_match; try done; congruence. Qed.

(** A number with a sign is not a port. *)
Lemma negative_not_port s : negative_number s = true → port_of s = None.
Proof.
  destruct s as [|c s]; [done|]. intros H%negative_not_positional. unfold positional in H. case_bool_decide; [|done]. subst. done.
Qed.

(** Induction by one or two arguments. *)
Lemma arguments_ind (P : list string → Prop) : P [] → (∀ x l, P l → (∀ y l', l = y :: l' → P l') → P (x :: l)) → ∀ l, P l.
Proof.
  intros H0 H1 l. assert (P l ∧ ∀ y l', l = y :: l' → P l') as [? _]; [|done]. induction l as [|x l [IH1 IH2]]; [done|].
  split; [by apply H1|]. by intros ? ? [= <- <-].
Qed.

(** The two programs take the same command lines with the same options. *)
Theorem same_command_lines args a b : main_arguments args a = p_options b ↔ attach_arguments args a = p_options b.
Proof.
  revert a. induction args as [|x l IH1 IH2] using arguments_ind; intros a; [done|].
  assert (Hport : ∀ v l' f, (∀ a, main_arguments l' a = p_options b ↔ attach_arguments l' a = p_options b) →
    with_port v (λ p, main_arguments l' (f p)) = p_options b ↔ with_port v (λ p, attach_arguments l' (f p)) = p_options b).
  { intros v l' f H. unfold with_port. destruct (port_of v); [apply H|done]. }
  cbn [main_arguments attach_arguments]. case_bool_decide as E.
  { subst x. cbn. rewrite bool_decide_false by done. rewrite !andb_false_r. destruct l; done. }
  case_bool_decide; [apply IH1|].
  set (om := if _ && positional x then _ else _). set (oa := if _ && positional x then _ else _).
  assert (Ho : om = p_options b ↔ oa = p_options b).
  { subst om oa. destruct (_ && positional x); [apply IH1|]. destruct (negb _ && negb _); cbn [andb]; [|done].
    destruct (positional x); cbn [orb]; [by apply Hport|]. destruct (negative_number x) eqn:Hn; [|done].
    unfold with_port. by rewrite negative_not_port. }
  destruct l as [|v l']; [exact Ho|]. clearbody om oa. specialize (IH2 _ _ eq_refl).
  destruct (decide (x = "--qgc-port"%string)) as [->|]; [by apply Hport|]. rewrite !(bool_decide_false (x = "--qgc-port"%string)) by done.
  destruct (decide (x = "--region"%string)) as [->|]; [apply IH2|]. rewrite !(bool_decide_false (x = "--region"%string)) by done.
  case_bool_decide; [apply IH2|exact Ho].
Qed.

Definition port_ok (p : Z) : Prop := 1 ≤ p ≤ 65535.

Lemma port_of_ok v p : port_of v = Some p → port_ok p.
Proof.
  unfold port_of. destruct (udp_port v tt []) as [[[e|q] []] t] eqn:E; [done|]. intros [= ->].
  assert (Ht : t = []) by (revert E; unfold udp_port; repeat case_match; by intros [=]). subst t. apply udp_port_spec in E. unfold port_ok. lia.
Qed.

(** The options that both loops give: a name that is no option, and usable ports. *)
Definition arguments_ok (a : Arguments) : Prop :=
  (arg_thing a = EmptyString ∨ positional (arg_thing a) = true) ∧ (has_port a = true → arg_thing a ≠ EmptyString) ∧
  port_ok (listener (arg_manual a)) ∧ port_ok (qgc (arg_manual a)).

Theorem arguments_accepted args a b : arguments_ok a → main_arguments args a = p_options b → arguments_ok b.
Proof.
  revert a. induction args as [|x l IH1 IH2] using arguments_ind; intros a Ha; [by intros [= <-]|]. pose proof Ha as (H1 & H2 & H3 & H4).
  cbn [main_arguments]. case_bool_decide; [done|]. case_bool_decide; [by apply IH1|]. set (om := if _ && positional x then _ else _).
  assert (Ho : om = p_options b → arguments_ok b).
  { subst om. destruct (_ && positional x) eqn:E; [bool_simpl; apply IH1; split_and!; cbn; [by right|..|done|done]; by destruct x|].
    destruct (negb _ && negb _ && _) eqn:E2; [|done]. bool_simpl. unfold with_port. destruct (port_of x) as [p|] eqn:Ep; [|done].
    apply IH1. split_and!; cbn; [done|intros _; by apply string_empty_false|by eapply port_of_ok|done]. }
  destruct l as [|v l']; [exact Ho|]. clearbody om. specialize (IH2 _ _ eq_refl). repeat case_bool_decide; [|by apply IH2|by apply IH2|exact Ho].
  unfold with_port. destruct (port_of v) as [p|] eqn:Ep; [|done]. apply IH2. split_and!; cbn; [done|done|done|by eapply port_of_ok].
Qed.
