(* ===== verification/AgentCredentials.v ===== *)
(** * The credentials of a transport

    [agent/src/credentials.cpp]: the SDK asks for credentials before it signs;
    [get] takes them from the AWS provider, hands the SDK an object made of them and
    frees the one before. The result is borrowed: it lives until the next refresh or
    the end of the adapter. The AWS provider, the clock and the allocation are in the
    environment; each call holds the mutex. *)
From stdpp Require Import gmap.
From S2P Require Import Prelude Cpp AwsJson.

#[local] Open Scope Z_scope.

Record AwsCredentials := mk_credentials { access_key : string; secret_key : string; session_token : string; expiration_ms : Z }.

(** An object of the SDK. *)
Definition handle := nat.

Inductive cred_event :=
  | CNow (ms : Z)
  | CCreate (h : handle) (key secret : string) (token : option string) (expiration : Z) (status : Z)
  | CFree (h : handle).

Record Credentials := mk_adapter { current_ : option handle; cred_error : string }.
Definition set_current (h : option handle) (s : Credentials) : Credentials := mk_adapter h (cred_error s).
Definition set_cred_error (e : string) (s : Credentials) : Credentials := mk_adapter (current_ s) e.

Class CredentialEnv := {
  (** [GetAWSCredentials], or its exception. *)
  c_source : list cred_event → string + AwsCredentials;
  c_is_empty : AwsCredentials → bool;
  c_now : list cred_event → Z;
  c_create : list cred_event → Z;
  STATUS_NULL_ARG : Z;
  STATUS_INVALID_OPERATION : Z }.

Section Adapter.
Context `{env : CredentialEnv}.
Abbreviation P := (X cred_event Credentials).

(** The constructor. *)
Definition new_credentials (has_source : bool) : string + Credentials :=
  if negb has_source then inl "AWS credential provider required"%string else inr (mk_adapter None EmptyString).

Definition source : P AwsCredentials := λ s t, match c_source t with inl e => (inl e, s, t) | inr c => (inr c, s, t) end.
Definition now : P Z := λ s t, (inr (c_now t), s, CNow (c_now t) :: t).
(** [createAwsCredentials]; an object when it succeeds. *)
Definition create (key secret : string) (token : option string) (expiration : Z) : P (Z * handle) :=
  λ s t, (inr (c_create t, length t), s, CCreate (length t) key secret token expiration (c_create t) :: t).

Definition free_current : P unit :=
  s ← xget;
  match current_ s with Some h => xemit (CFree h) | None => mret tt end.

(** [Credentials::get]: the status and what it stores through [output]. *)
Definition get (has_base has_output : bool) : P (Z * option handle) :=
  if negb has_base || negb has_output then mret (STATUS_NULL_ARG, None) else
  try_catch
    (credentials ← source;
     current_time ← now;
     if c_is_empty credentials || (expiration_ms credentials <=? current_time) then
       _ ← xmodify (set_cred_error "AWS credentials missing or expired; check the selected SDK profile/provider");
       mret (STATUS_INVALID_OPERATION, None)
     else
     '(status, next) ← create (c_str (access_key credentials)) (c_str (secret_key credentials))
        (if string_empty (session_token credentials) then None else Some (c_str (session_token credentials)))
        (u64 (u64 (expiration_ms credentials) * 10000));
     if negb (status =? 0) then
       _ ← xmodify (set_cred_error "KVS credential allocation failed");
       mret (status, None)
     else
     _ ← free_current;
     _ ← xmodify (set_current (Some next));
     _ ← xmodify (set_cred_error EmptyString);
     mret (0, Some next))
    (λ _,
     _ ← xmodify (set_cred_error "AWS credential provider failed; refresh or reauthenticate the selected provider");
     mret (STATUS_INVALID_OPERATION, None)).

(** [~Credentials]. *)
Definition destroy : P unit :=
  _ ← free_current;
  xmodify (set_current None).
End Adapter.

(** ** Ownership *)

(** The object was created and not freed since. *)
Fixpoint alive (h : handle) (t : list cred_event) : bool :=
  match t with
  | [] => false
  | CCreate h' _ _ _ _ status :: t => if bool_decide (h = h') then status =? 0 else alive h t
  | CFree h' :: t => if bool_decide (h = h') then false else alive h t
  | _ :: t => alive h t
  end.

Lemma alive_old h t : alive h t = true → ∃ key secret token expiration status, CCreate h key secret token expiration status ∈ t.
Proof.
  induction t as [|e t IH]; [done|]. assert (H : alive h t = true → ∃ key secret token expiration status,
    CCreate h key secret token expiration status ∈ e :: t) by (intros (? & ? & ? & ? & ? & ?)%IH; do 5 eexists; by right).
  destruct e as [|h' ?????|h']; cbn [alive]; try done.
  - case_bool_decide as E; [|done]. subst. intros _. do 5 eexists. by left.
  - by case_bool_decide.
Qed.

Section Ownership.
Context `{env : CredentialEnv}.
Abbreviation P := (X cred_event Credentials).

(** An object is freed while it exists, and made from credentials that were valid at
    the time read just before. *)
Definition cred_allowed (e : cred_event) (t : list cred_event) : Prop :=
  match e with
  | CFree h => alive h t = true
  | CCreate h _ _ _ expiration _ => ∃ ms now rest, t = CNow now :: rest ∧ now < ms ∧ expiration = u64 (u64 ms * 10000)
  | CNow _ => True
  end.

(** What exists is what the adapter holds. *)
Record cred_inv (s : Credentials) (t : list cred_event) : Prop := {
  cv_guarded : guarded cred_allowed t;
  cv_alive : ∀ h, alive h t = true ↔ current_ s = Some h;
  cv_old : ∀ h key secret token expiration status, CCreate h key secret token expiration status ∈ t → (h < length t)%nat }.

Lemma cred_inv_now ms s t : cred_inv s t → cred_inv s (CNow ms :: t).
Proof.
  intros [Hg Ha Ho]. split; [done|done|]. intros h ????? [?|Hin]%elem_of_cons; [done|]. apply Ho in Hin. cbn. lia.
Qed.

Lemma cred_inv_error e s t : cred_inv s t → cred_inv (set_cred_error e s) t.
Proof. by intros [Hg Ha Ho]. Qed.

(** The object before is freed, then nothing is held. *)
Lemma free_current_wp Q R s t : cred_inv s t →
  (∀ t', cred_inv (set_current None s) t' → (t' = t ∨ ∃ h, t' = CFree h :: t) → Q tt s t') → xwp free_current Q R s t.
Proof.
  intros [Hg Ha Ho] HQ. unfold free_current. do 2 xwp_step. destruct (current_ s) as [h|] eqn:E; [apply xwp_emit|apply xwp_ret]; apply HQ; [|by eauto| |by left].
  - split; [split; [by apply Ha|done]| |].
    + intros h'. cbn. case_bool_decide; [by subst|]. rewrite Ha. split; [|done]. congruence.
    + intros h' ????? [?|Hin]%elem_of_cons; [done|]. apply Ho in Hin. cbn. lia.
  - split; [done| |done]. intros h. rewrite Ha. done.
Qed.

(** An object that was just created, next to the one that is held. *)
Lemma created_free h key secret token expiration s t : cred_inv s t → h = length t →
  cred_allowed (CCreate h key secret token expiration 0) t →
  xwp free_current (λ _ s' t', s' = s ∧ cred_inv (set_current (Some h) s) t') (λ _ _ _, False) s (CCreate h key secret token expiration 0 :: t).
Proof.
  intros [Hg Ha Ho] -> Hal. unfold free_current. do 2 xwp_step.
  assert (Hnew : alive (length t) t = false).
  { destruct (alive _ t) eqn:E; [|done]. apply alive_old in E as (? & ? & ? & ? & ? & Hin). apply Ho in Hin. lia. }
  destruct (current_ s) as [h|] eqn:E; [apply xwp_emit|apply xwp_ret]; (split; [done|]).
  - assert (Hh : h ≠ length t) by (intros ->; rewrite (proj2 (Ha _)) in Hnew; done). split.
    + split; [|done]. cbn. rewrite bool_decide_false by done. by apply Ha.
    + intros h'. cbn. case_bool_decide; [subst; split; [done|intros [=]; done]|]. case_bool_decide; [by subst|]. rewrite Ha. split; congruence.
    + intros h' ????? Hin. cbn. apply elem_of_cons in Hin as [?|[[= ->]|Hin]%elem_of_cons]; [done|lia|]. apply Ho in Hin. lia.
  - split; [done| |].
    + intros h'. cbn. case_bool_decide; [by subst|]. rewrite Ha. split; congruence.
    + intros h' ????? [[= ->]|Hin]%elem_of_cons; cbn; [lia|]. apply Ho in Hin. lia.
Qed.

(** A failed allocation makes nothing. *)
Lemma failed_create h key secret token expiration status s t : cred_inv s t → h = length t → status ≠ 0 →
  cred_allowed (CCreate h key secret token expiration status) t → cred_inv s (CCreate h key secret token expiration status :: t).
Proof.
  intros [Hg Ha Ho] -> Hs Hal. split; [done| |].
  - intros h'. cbn. case_bool_decide as E; [|apply Ha]. subst. rewrite (proj2 (Z.eqb_neq _ _)) by done. split; [done|].
    intros Hc. apply Ha in Hc as (? & ? & ? & ? & ? & Hin)%alive_old. apply Ho in Hin. lia.
  - intros h' ????? [[= ->]|Hin]%elem_of_cons; cbn; [lia|]. apply Ho in Hin. lia.
Qed.

(** The rules hold throughout; a call that succeeds hands out the one object that exists,
    and one that fails leaves the object that was handed out before. *)
Lemma get_borrows has_base has_output s t : cred_inv s t →
  xwp (get has_base has_output)
    (λ '(status, output) s' t', cred_inv s' t' ∧
      match output with
      | Some h => status = 0 ∧ current_ s' = Some h ∧ cred_error s' = EmptyString
      | None => current_ s' = current_ s
      end) (λ _ _ _, False) s t.
Proof.
  intros Hi. unfold get. xwp_step; [done|]. apply xwp_try, xwp_bind. unfold source, xwp at 1. destruct (c_source t) as [e|credentials].
  { apply xwp_bind, xwp_modify, xwp_ret. split; [by apply cred_inv_error|done]. }
  apply xwp_bind. unfold now, xwp at 1. set (ms := c_now t). clearbody ms. apply (cred_inv_now ms) in Hi. xwp_step.
  { apply xwp_bind, xwp_modify, xwp_ret. split; [by apply cred_inv_error|done]. }
  bool_simpl. apply xwp_bind. unfold create, xwp at 1. set (t1 := CNow ms :: t) in *. set (status := c_create t1). clearbody status.
  assert (Hal : ∀ h key secret token, cred_allowed (CCreate h key secret token (u64 (u64 (expiration_ms credentials) * 10000)) status) t1).
  { intros h key secret token. exists (expiration_ms credentials), ms, t. split_and!; [done|lia|done]. }
  destruct (status =? 0) eqn:E; cbn [negb].
  - apply Z.eqb_eq in E as ->. apply xwp_bind. eapply xwp_mono; [by apply created_free| |done]. intros [] s' t' [-> Hc].
    apply xwp_bind, xwp_modify, xwp_bind, xwp_modify, xwp_ret. split; [by apply cred_inv_error|done].
  - apply Z.eqb_neq in E. apply xwp_bind, xwp_modify, xwp_ret. split; [by apply cred_inv_error, failed_create|done].
Qed.

(** Any number of requests. *)
Inductive cred_run : Credentials → list cred_event → Prop :=
  | cred_start s : new_credentials true = inr s → cred_run s []
  | cred_get s t has_base has_output r s' t' : cred_run s t → get has_base has_output s t = (r, s', t') → cred_run s' t'.

Lemma cred_run_inv s t : cred_run s t → cred_inv s t.
Proof.
  induction 1 as [s [= <-]|s t b o r s' t' _ Hi E]; [split; [done|done|by intros ??????[]%not_elem_of_nil]|]. pose proof (get_borrows b o s t Hi) as H. unfold xwp in H. rewrite E in H.
  destruct r as [|[]]; [done|]. by destruct H.
Qed.

(** The contract of the adapter: after any requests, whatever the provider answers and
    throws, the objects were freed at most once and only while they existed, exactly the
    one that was handed out last exists, made from credentials that had not expired, and
    the end of the adapter leaves none. *)
Theorem credentials_borrowed s t : cred_run s t →
  guarded cred_allowed t ∧ (∀ h, alive h t = true ↔ current_ s = Some h) ∧
  xwp destroy (λ _ _ t', guarded cred_allowed t' ∧ ∀ h, alive h t' = false) (λ _ _ _, False) s t.
Proof.
  intros Hr. apply cred_run_inv in Hr as Hi. split_and!; [by apply Hi..|]. unfold destroy. apply xwp_bind.
  eapply free_current_wp; [done|]. intros t' Hi' _. apply xwp_modify. split; [by apply Hi'|]. intros h.
  destruct (alive h t') eqn:E; [|done]. by apply (cv_alive _ _ Hi') in E.
Qed.
End Ownership.
