(* ===== verification/AgentTransport.v ===== *)
(** * The transport of a session

    [agent/src/kvs.cpp] and [agent/src/peer.cpp]: [KvsTransport] connects a viewer to
    the master of a signalling channel. A worker thread creates the signalling
    client and the peer connection, sends the offer, and takes signalling messages
    off a bounded queue; threads of the SDK fill the queue and report the state, and
    the owner starts, stops and sends. Between any two accesses of the worker the
    environment runs any list of actions of the other threads ([k_others]).

    The KVS SDK is a parameter: what its calls return and the limits of its arrays
    are in the environment. *)
From stdpp Require Import gmap pretty.
From S2P Require Import Prelude Cpp AgentSession.

#[local] Open Scope Z_scope.

Inductive signaling_type := SIGNALING_OFFER | SIGNALING_ANSWER | SIGNALING_ICE_CANDIDATE | SIGNALING_OTHER.
Record SignalMessage := mk_signal { sig_type : signaling_type; sig_payload : string; sig_incoming : bool }.

Record Transport := mk_transport {
  tr_config : TransportConfig; tr_state : Connection; tr_stopping : bool; tr_finished : bool; tr_worker : bool;
  tr_error : string; tr_progress : string; tr_messages : list SignalMessage; tr_candidates : list string; tr_answered : bool;
  tr_signaling : bool; tr_peer : bool; tr_sdk_peer : bool; tr_channel : bool;
  (** State callbacks that have looked at [state_] and not yet stored. *)
  tr_storing : list Connection }.

Definition set_state (v : Connection) (s : Transport) : Transport :=
  mk_transport (tr_config s) v (tr_stopping s) (tr_finished s) (tr_worker s) (tr_error s) (tr_progress s) (tr_messages s) (tr_candidates s) (tr_answered s) (tr_signaling s) (tr_peer s) (tr_sdk_peer s) (tr_channel s) (tr_storing s).
Definition set_stopping (v : bool) (s : Transport) : Transport :=
  mk_transport (tr_config s) (tr_state s) v (tr_finished s) (tr_worker s) (tr_error s) (tr_progress s) (tr_messages s) (tr_candidates s) (tr_answered s) (tr_signaling s) (tr_peer s) (tr_sdk_peer s) (tr_channel s) (tr_storing s).
Definition set_finished (v : bool) (s : Transport) : Transport :=
  mk_transport (tr_config s) (tr_state s) (tr_stopping s) v (tr_worker s) (tr_error s) (tr_progress s) (tr_messages s) (tr_candidates s) (tr_answered s) (tr_signaling s) (tr_peer s) (tr_sdk_peer s) (tr_channel s) (tr_storing s).
Definition set_worker (v : bool) (s : Transport) : Transport :=
  mk_transport (tr_config s) (tr_state s) (tr_stopping s) (tr_finished s) v (tr_error s) (tr_progress s) (tr_messages s) (tr_candidates s) (tr_answered s) (tr_signaling s) (tr_peer s) (tr_sdk_peer s) (tr_channel s) (tr_storing s).
Definition set_error (v : string) (s : Transport) : Transport :=
  mk_transport (tr_config s) (tr_state s) (tr_stopping s) (tr_finished s) (tr_worker s) v (tr_progress s) (tr_messages s) (tr_candidates s) (tr_answered s) (tr_signaling s) (tr_peer s) (tr_sdk_peer s) (tr_channel s) (tr_storing s).
Definition set_progress (v : string) (s : Transport) : Transport :=
  mk_transport (tr_config s) (tr_state s) (tr_stopping s) (tr_finished s) (tr_worker s) (tr_error s) v (tr_messages s) (tr_candidates s) (tr_answered s) (tr_signaling s) (tr_peer s) (tr_sdk_peer s) (tr_channel s) (tr_storing s).
Definition set_messages (v : list SignalMessage) (s : Transport) : Transport :=
  mk_transport (tr_config s) (tr_state s) (tr_stopping s) (tr_finished s) (tr_worker s) (tr_error s) (tr_progress s) v (tr_candidates s) (tr_answered s) (tr_signaling s) (tr_peer s) (tr_sdk_peer s) (tr_channel s) (tr_storing s).
Definition set_candidates (v : list string) (s : Transport) : Transport :=
  mk_transport (tr_config s) (tr_state s) (tr_stopping s) (tr_finished s) (tr_worker s) (tr_error s) (tr_progress s) (tr_messages s) v (tr_answered s) (tr_signaling s) (tr_peer s) (tr_sdk_peer s) (tr_channel s) (tr_storing s).
Definition set_answered (v : bool) (s : Transport) : Transport :=
  mk_transport (tr_config s) (tr_state s) (tr_stopping s) (tr_finished s) (tr_worker s) (tr_error s) (tr_progress s) (tr_messages s) (tr_candidates s) v (tr_signaling s) (tr_peer s) (tr_sdk_peer s) (tr_channel s) (tr_storing s).
Definition set_signaling (v : bool) (s : Transport) : Transport :=
  mk_transport (tr_config s) (tr_state s) (tr_stopping s) (tr_finished s) (tr_worker s) (tr_error s) (tr_progress s) (tr_messages s) (tr_candidates s) (tr_answered s) v (tr_peer s) (tr_sdk_peer s) (tr_channel s) (tr_storing s).
Definition set_peer (v : bool) (s : Transport) : Transport :=
  mk_transport (tr_config s) (tr_state s) (tr_stopping s) (tr_finished s) (tr_worker s) (tr_error s) (tr_progress s) (tr_messages s) (tr_candidates s) (tr_answered s) (tr_signaling s) v (tr_sdk_peer s) (tr_channel s) (tr_storing s).
Definition set_sdk_peer (v : bool) (s : Transport) : Transport :=
  mk_transport (tr_config s) (tr_state s) (tr_stopping s) (tr_finished s) (tr_worker s) (tr_error s) (tr_progress s) (tr_messages s) (tr_candidates s) (tr_answered s) (tr_signaling s) (tr_peer s) v (tr_channel s) (tr_storing s).
Definition set_channel (v : bool) (s : Transport) : Transport :=
  mk_transport (tr_config s) (tr_state s) (tr_stopping s) (tr_finished s) (tr_worker s) (tr_error s) (tr_progress s) (tr_messages s) (tr_candidates s) (tr_answered s) (tr_signaling s) (tr_peer s) (tr_sdk_peer s) v (tr_storing s).
Definition set_storing (v : list Connection) (s : Transport) : Transport :=
  mk_transport (tr_config s) (tr_state s) (tr_stopping s) (tr_finished s) (tr_worker s) (tr_error s) (tr_progress s) (tr_messages s) (tr_candidates s) (tr_answered s) (tr_signaling s) (tr_peer s) (tr_sdk_peer s) (tr_channel s) v.

#[global] Instance Media_eq_dec : EqDecision Media.
Proof. solve_decision. Defined.
#[global] Instance Role_eq_dec : EqDecision Role.
Proof. solve_decision. Defined.

(** The calls of the SDK. *)
Inductive sdk_op :=
  | op_credentials
  | op_create_client | op_fetch | op_ice_count | op_ice_info (i : nat) | op_connect
  | op_send (type : signaling_type) (payload : string)
  | op_disconnect | op_free_client
  | op_create_peer
  | op_setup (what : string)
  | op_local (what : string)
  | op_parse_remote (json : string) | op_remote (json : string)
  | op_parse_candidate (json : string) | op_candidate (json : string)
  | op_channel_send (bytes : Bytes) (binary : bool)
  | op_close_peer | op_free_peer.

(** What the other threads do: the callbacks of the signalling client and of the peer
    connection, and the owner. A state callback looks at [state_] and stores it in a
    second access. *)
Inductive foreign :=
  | f_signaling (message : option (signaling_type * string))
  | f_signaling_error (status : Z)
  | f_channel_mutation
  | f_local_candidate (payload : option string)
  | f_peer_failed
  | f_peer_look (state : Connection)
  | f_peer_store (state : Connection)
  | f_stop_flag
  | f_stop_state
  | f_send (bytes : Bytes) (binary : bool).

Inductive tr_event :=
  | KOp (op : sdk_op) (status : Z)
  | KForeign (a : foreign)
  | KQueued (m : SignalMessage)
  | KData (accepted : bool)
  | KStats (phase : string).

(** A list of servers of the SDK: addresses, user name and password. *)
Record IceInfo := mk_ice { ice_uris : list string; ice_user : string; ice_password : string }.

Class KvsSdk := {
  k_status : sdk_op → list tr_event → Z;
  k_others : list tr_event → list foreign;
  k_clock : list tr_event → Z;
  k_gettime : list tr_event → N;
  k_ice_infos : list tr_event → list (option IceInfo);
  k_description : list tr_event → string;
  k_credential_error : list tr_event → string;
  (** The status that the code itself reports, and the limits of the SDK's arrays. *)
  STATUS_INVALID_OPERATION : Z;
  MAX_SIGNALING_MESSAGE_LEN : Z;
  MAX_ICE_SERVERS_COUNT : nat;
  MAX_ICE_CONFIG_URI_LEN : Z;
  MAX_ICE_CONFIG_USER_NAME_LEN : Z;
  MAX_ICE_CONFIG_CREDENTIAL_LEN : Z;
  MAX_SIGNALING_CLIENT_ID_LEN : Z }.

Section Program.
Context `{sdk : KvsSdk}.
Abbreviation P := (X tr_event Transport).

Definition STATUS_FAILED (status : Z) : bool := negb (status =? 0).

(** [std::hex << status]. *)
Definition hex_digit (n : Z) : string := String (default "0"%char (String.get (Z.to_nat n) "0123456789abcdef")) EmptyString.
Fixpoint hex_loop (fuel : nat) (n : Z) (acc : string) : string :=
  match fuel with
  | O => acc
  | S fuel => let acc := hex_digit (n mod 16) +:+ acc in if n / 16 =? 0 then acc else hex_loop fuel (n / 16) acc
  end.
Definition hex (n : Z) : string := hex_loop 8 n EmptyString.
Definition status_text (operation : string) (status : Z) : string := operation +:+ ": KVS status 0x" +:+ hex status.

(** What the outside answers, and a call of the SDK with its status. *)
Definition ask {A} (f : list tr_event → A) : P A := λ s t, (inr (f t), s, t).
Definition sdk_call (op : sdk_op) : P Z := λ s t, (inr (k_status op t), s, KOp op (k_status op t) :: t).

(** *** The other threads *)

(** The error text, with what the credential provider reports. *)
Definition record_failure (detail : string) : P unit :=
  credential_error ← ask k_credential_error;
  _ ← xmodify (set_error (if string_empty credential_error then detail else detail +:+ "; " +:+ credential_error));
  xmodify (set_state conn_failed).
Definition fail (status : Z) (operation : string) : P unit := record_failure (status_text operation status).

Definition queue (m : SignalMessage) : P unit :=
  s ← xget;
  if (256 <=? Z.of_nat (length (tr_messages s))) || (MAX_SIGNALING_MESSAGE_LEN <? string_size (sig_payload m))
  then _ ← xmodify (set_error "KVS signaling queue exceeded bounded capacity"); xmodify (set_state conn_failed)
  else _ ← xmodify (set_messages (tr_messages s ++ [m])); xemit (KQueued m).

(** The lambda that the peer connection calls, for a state other than [failed]. *)
Definition on_state_look (state : Connection) (s : Transport) : Transport :=
  if bool_decide (tr_state s = conn_failed) then s else set_storing (state :: tr_storing s) s.
Fixpoint remove_first (c : Connection) (l : list Connection) : list Connection :=
  match l with
  | [] => []
  | x :: l => if bool_decide (x = c) then l else x :: remove_first c l
  end.
Definition on_state_store (state : Connection) (s : Transport) : Transport :=
  if bool_decide (state ∈ tr_storing s) then set_state state (set_storing (remove_first state (tr_storing s)) s) else s.

(** [Peer::send]; the statistics are left out. *)
Definition peer_send (bytes : Bytes) (binary : bool) : P bool :=
  s ← xget;
  if negb (tr_channel s) || (4096 <? Z.of_nat (length bytes)) then mret false else
  status ← sdk_call (op_channel_send bytes binary);
  mret (negb (STATUS_FAILED status)).

Definition send (bytes : Bytes) (binary : bool) : P bool :=
  s ← xget;
  if negb (bool_decide (tr_state s = conn_connected)) || negb (tr_peer s) || (4096 <? Z.of_nat (length bytes)) then mret false else
  sent ← peer_send bytes binary;
  _ ← xwhen (negb sent) (fail STATUS_INVALID_OPERATION "dataChannelSend");
  mret sent.

Definition run_foreign (a : foreign) : P unit :=
  _ ← xemit (KForeign a);
  match a with
  | f_signaling None => mret tt
  | f_signaling (Some (type, payload)) => queue (mk_signal type payload true)
  | f_signaling_error status => fail status "KVS signaling callback"
  | f_channel_mutation => fail STATUS_INVALID_OPERATION "refusing signaling channel mutation"
  | f_local_candidate None => mret tt
  | f_local_candidate (Some payload) => queue (mk_signal SIGNALING_ICE_CANDIDATE payload false)
  | f_peer_failed => fail STATUS_INVALID_OPERATION "WebRTC connection lost"
  | f_peer_look state => xmodify (on_state_look state)
  | f_peer_store state => xmodify (on_state_store state)
  | f_stop_flag => xmodify (set_stopping true)
  | f_stop_state => xmodify (set_state conn_stopped)
  | f_send bytes binary => sent ← send bytes binary; xemit (KData sent)
  end.

Definition others : P unit := λ s t, for_each run_foreign (k_others t) s t.

(** *** The callbacks of the peer connection ([Peer::Impl]) *)

Inductive peer_state := PEER_CONNECTED | PEER_FAILED | PEER_DISCONNECTED | PEER_CLOSED | PEER_OTHER.

(** The state callback, what it hands to [on_state]. *)
Definition peer_state_change (m : Media) (value : peer_state) : option Connection :=
  if bool_decide (m = media_h264) && match value with PEER_CONNECTED => true | _ => false end then Some conn_connected else
  match value with
  | PEER_FAILED | PEER_DISCONNECTED | PEER_CLOSED => Some conn_failed
  | _ => None
  end.
(** A message of the data channel: handed on, or a failure. *)
Definition peer_message (size : Z) : option Connection := if 4096 <? size then Some conn_failed else None.
(** A frame that is handed on. *)
Definition peer_frame_taken (size : Z) : bool := negb (2 * 1024 * 1024 <? size).

(** *** The worker *)

(** A call of the SDK, after the other threads. *)
Definition call (op : sdk_op) : P Z := _ ← others; sdk_call op.

Definition check_kvs (op : sdk_op) (operation : string) : P unit :=
  status ← call op;
  if STATUS_FAILED status then throw (status_text operation status) else mret tt.

Definition copy (limit : Z) (value : string) : P unit :=
  if limit <=? string_size value then throw "KVS configuration value exceeds SDK limit" else mret tt.

Definition progress (operation : string) : P unit := xmodify (set_progress operation).

Definition send_signaling (type : signaling_type) (payload : string) : P unit :=
  _ ← copy (MAX_SIGNALING_CLIENT_ID_LEN + 1) "ProducerMaster";
  _ ← copy (MAX_SIGNALING_MESSAGE_LEN + 1) payload;
  check_kvs (op_send type payload) "signalingClientSendMessageSync".

(** The servers of one list, from place [next] on. *)
Fixpoint ice_uri_loop (info : IceInfo) (uris : list string) (next : nat) : P nat :=
  match uris with
  | [] => mret next
  | uri :: uris =>
      if bool_decide (next < MAX_ICE_SERVERS_COUNT)%nat then
        _ ← copy (MAX_ICE_CONFIG_URI_LEN + 1) uri;
        _ ← copy (MAX_ICE_CONFIG_USER_NAME_LEN + 1) (ice_user info);
        _ ← copy (MAX_ICE_CONFIG_CREDENTIAL_LEN + 1) (ice_password info);
        ice_uri_loop info uris (S next)
      else mret next
  end.
Fixpoint ice_info_loop (infos : list (option IceInfo)) (i next : nat) : P nat :=
  match infos with
  | [] => mret next
  | info :: infos =>
      if bool_decide (next < MAX_ICE_SERVERS_COUNT)%nat then
        _ ← check_kvs (op_ice_info i) "signalingClientGetIceConfigInfo";
        next ← match info with None => mret next | Some info => ice_uri_loop info (ice_uris info) next end;
        ice_info_loop infos (S i) next
      else mret next
  end.

(** [~Impl]: under the mutex of the senders, or before there are any. *)
Definition destroy_impl : P unit :=
  s ← xget;
  xwhen (tr_sdk_peer s)
    (_ ← sdk_call op_close_peer; _ ← sdk_call op_free_peer; _ ← xmodify (set_sdk_peer false); xmodify (set_channel false)).

Definition setup_data (c : TransportConfig) : P unit :=
  match role c with
  | role_viewer =>
      _ ← check_kvs (op_setup "createDataChannel") "createDataChannel";
      _ ← xmodify (set_channel true);
      _ ← check_kvs (op_setup "dataChannelOnOpen") "dataChannelOnOpen";
      check_kvs (op_setup "dataChannelOnMessage") "dataChannelOnMessage"
  | role_master => check_kvs (op_setup "peerConnectionOnDataChannel") "peerConnectionOnDataChannel"
  end.
Definition setup_video (c : TransportConfig) : P unit :=
  _ ← check_kvs (op_setup "addSupportedCodec") "addSupportedCodec";
  _ ← check_kvs (op_setup "addTransceiver") "addTransceiver";
  xwhen (bool_decide (role c = role_viewer)) (check_kvs (op_setup "transceiverOnFrame") "transceiverOnFrame").

(** [Peer::Peer]; an exception destroys what was built. *)
Definition new_peer : P unit :=
  s ← xget;
  try_catch
    (status ← call op_create_peer;
     _ ← (if STATUS_FAILED status then throw (status_text "createPeerConnection" status) else xmodify (set_sdk_peer true));
     _ ← check_kvs (op_setup "peerConnectionOnIceCandidate") "peerConnectionOnIceCandidate";
     _ ← check_kvs (op_setup "peerConnectionOnConnectionStateChange") "peerConnectionOnConnectionStateChange";
     if bool_decide (media (tr_config s) = media_data) then setup_data (tr_config s) else setup_video (tr_config s))
    (λ e, _ ← destroy_impl; throw e).

Definition description (offer : bool) : P string :=
  _ ← xwhen (negb offer) (check_kvs (op_local "createAnswer") "createAnswer");
  _ ← check_kvs (op_local "setLocalDescription") "setLocalDescription";
  _ ← xwhen offer (check_kvs (op_local "createOffer") "createOffer");
  _ ← check_kvs (op_local "serialize(size)") "serializeSessionDescriptionInit(size)";
  _ ← check_kvs (op_local "serialize") "serializeSessionDescriptionInit";
  ask k_description.

Definition remote_description (json : string) : P unit :=
  _ ← check_kvs (op_parse_remote json) "deserializeSessionDescriptionInit";
  check_kvs (op_remote json) "setRemoteDescription".

Definition candidate (json : string) : P unit :=
  _ ← check_kvs (op_parse_candidate json) "deserializeRtcIceCandidateInit";
  check_kvs (op_candidate json) "addIceCandidate".

Definition stopping : P bool := _ ← others; s ← xget; mret (tr_stopping s).

(** From the servers to the offer. *)
Definition connect_peer : P unit :=
  s ← xget;
  _ ← copy (MAX_ICE_CONFIG_URI_LEN + 1) ("stun:stun.kinesisvideo." +:+ region (tr_config s) +:+ ".amazonaws.com:443");
  _ ← check_kvs op_ice_count "signalingClientGetIceConfigInfoCount";
  infos ← ask k_ice_infos;
  _ ← ice_info_loop infos 0 1;
  _ ← new_peer;
  _ ← xmodify (set_peer true);
  _ ← check_kvs op_connect "signalingClientConnectSync";
  offer ← description true;
  _ ← send_signaling SIGNALING_OFFER offer;
  progress "SDP offer sent; awaiting SDP answer".

Definition initialize : P unit :=
  _ ← check_kvs op_credentials "AWS credential provider";
  peer_id ← ask k_gettime;
  _ ← copy (MAX_SIGNALING_CLIENT_ID_LEN + 1) ("agent-" +:+ pretty peer_id);
  status ← call op_create_client;
  _ ← (if STATUS_FAILED status then throw (status_text "createSignalingClientSync" status) else xmodify (set_signaling true));
  stop ← stopping;
  if stop : bool then mret tt else
  _ ← check_kvs op_fetch "signalingClientFetchSync";
  stop ← stopping;
  if stop : bool then mret tt else connect_peer.

Definition process (m : SignalMessage) : P unit :=
  if negb (sig_incoming m) then send_signaling (sig_type m) (sig_payload m) else
  match sig_type m with
  | SIGNALING_ANSWER =>
      _ ← remote_description (sig_payload m);
      _ ← xmodify (set_answered true);
      _ ← progress "SDP answer applied; awaiting ICE/DTLS and media/data readiness";
      s ← xget;
      _ ← for_each candidate (tr_candidates s);
      xmodify (set_candidates [])
  | SIGNALING_ICE_CANDIDATE =>
      s ← xget;
      if tr_answered s then candidate (sig_payload m) else
      if Z.of_nat (length (tr_candidates s)) <? 128 then xmodify (set_candidates (tr_candidates s ++ [sig_payload m])) else
      throw "too many pending remote ICE candidates"
  | _ => mret tt
  end.

(** The messages of a round, until a stop or a failure. *)
Fixpoint process_loop (l : list SignalMessage) : P unit :=
  match l with
  | [] => mret tt
  | m :: l =>
      _ ← others;
      s ← xget;
      if tr_stopping s || bool_decide (tr_state s = conn_failed) then mret tt else
      _ ← process m; process_loop l
  end.

Definition report_stats (phase : string) : P unit := s ← xget; xwhen (tr_peer s) (xemit (KStats phase)).

(** A round of the loop: the wait, under the mutex the swap of the queue, the
    messages, the report. The next time of a report is returned. *)
Definition run_round (report_at : Z) : P Z :=
  _ ← others;
  s ← xget;
  _ ← xmodify (set_messages []);
  _ ← process_loop (tr_messages s);
  _ ← others;
  s ← xget;
  now ← ask k_clock;
  if bool_decide (tr_state s = conn_connected) && (report_at <=? now)
  then _ ← report_stats "periodic"; mret (now + seconds 5) else mret report_at.

(** [fuel] rounds; [false] when the loop goes on. *)
Fixpoint run_loop (fuel : nat) (report_at : Z) : P bool :=
  _ ← others;
  s ← xget;
  if tr_stopping s || bool_decide (tr_state s = conn_failed) then mret true else
  match fuel with
  | O => mret false
  | S fuel => report_at ← run_round report_at; run_loop fuel report_at
  end.

Definition caught (what : string) : P bool :=
  _ ← others;
  _ ← record_failure what;
  mret true.

Definition teardown : P unit :=
  _ ← report_stats "stop";
  s ← xget;
  _ ← xwhen (tr_signaling s) (_ ← call op_disconnect; _ ← call op_free_client; xmodify (set_signaling false));
  _ ← others;
  s ← xget;
  _ ← xwhen (tr_peer s) (_ ← destroy_impl; xmodify (set_peer false));
  xmodify (set_finished true).

(** The worker; [false] for a run that is still in its loop. *)
Definition run (fuel : nat) : P bool :=
  over ← try_catch (_ ← initialize; now ← ask k_clock; run_loop fuel now) caught;
  if over : bool then _ ← teardown; mret true else mret false.

(** *** The owner *)

Definition start (c : TransportConfig) (thread_starts : bool) : P unit :=
  s ← xget;
  if tr_worker s then throw "KVS transport already started" else
  if string_empty (channel c) || string_empty (region c) || string_empty (ca_path c)
     || (bool_decide (media c = media_data) && string_empty (label c))
  then throw "incomplete KVS configuration" else
  if negb (bool_decide (role c = role_viewer)) then throw "agent transport requires explicit viewer role" else
  _ ← xmodify (λ s, mk_transport c conn_connecting false false (tr_worker s) (tr_error s) (tr_progress s) (tr_messages s) (tr_candidates s)
                      (tr_answered s) (tr_signaling s) (tr_peer s) (tr_sdk_peer s) (tr_channel s) (tr_storing s));
  if thread_starts then xmodify (set_worker true)
  else _ ← xmodify (set_finished true); _ ← xmodify (set_state conn_failed); throw "thread".

Definition new_transport (c : TransportConfig) : Transport :=
  mk_transport c conn_stopped false true false EmptyString EmptyString [] [] false false false false false [].

(** [error()]. *)
Definition error_text_of (s : Transport) : string := if string_empty (tr_error s) then tr_progress s else tr_error s.
End Program.
