(* ===== verification/AgentTransportSafety.v ===== *)
(** * What the transport does with the SDK

    Whatever the SDK returns and whatever the other threads do between the accesses
    of the worker of [AgentTransport]: objects of the SDK are used while they exist
    and given back, the buffers keep their limits, and remote candidates are applied
    in the order in which they came. *)
From stdpp Require Import gmap.
From S2P Require Import Prelude Cpp AgentSession AgentTransport.

#[local] Open Scope Z_scope.

(** ** The history *)

Fixpoint client_alive (t : list tr_event) : bool :=
  match t with
  | [] => false
  | KOp op_create_client status :: _ => negb (STATUS_FAILED status)
  | KOp op_free_client _ :: _ => false
  | _ :: t => client_alive t
  end.
Fixpoint peer_alive (t : list tr_event) : bool :=
  match t with
  | [] => false
  | KOp op_create_peer status :: _ => negb (STATUS_FAILED status)
  | KOp op_free_peer _ :: _ => false
  | _ :: t => peer_alive t
  end.
Fixpoint remote_set (t : list tr_event) : bool :=
  match t with
  | [] => false
  | KOp (op_remote _) status :: t => negb (STATUS_FAILED status) || remote_set t
  | _ :: t => remote_set t
  end.

Section Safety.
Context `{sdk : KvsSdk}.
Abbreviation P := (X tr_event Transport).

Definition op_allowed (op : sdk_op) (t : list tr_event) : Prop :=
  match op with
  | op_credentials => True
  | op_create_client => client_alive t = false
  | op_fetch | op_ice_count | op_ice_info _ | op_connect | op_disconnect | op_free_client => client_alive t = true
  | op_send _ payload => client_alive t = true ∧ string_size payload ≤ MAX_SIGNALING_MESSAGE_LEN
  | op_create_peer => peer_alive t = false
  | op_setup _ | op_local _ | op_parse_remote _ | op_remote _ | op_parse_candidate _ | op_close_peer | op_free_peer => peer_alive t = true
  | op_candidate _ => peer_alive t = true ∧ remote_set t = true
  | op_channel_send bytes _ => peer_alive t = true ∧ Z.of_nat (length bytes) ≤ 4096
  end.
Definition tr_allowed (e : tr_event) (t : list tr_event) : Prop :=
  match e with
  | KOp op _ => op_allowed op t
  | KStats _ => peer_alive t = true
  | _ => True
  end.

Record tr_inv (s : Transport) (t : list tr_event) : Prop := {
  v_guarded : guarded tr_allowed t;
  v_client : tr_signaling s = client_alive t;
  v_sdk_peer : tr_sdk_peer s = peer_alive t;
  v_peer : tr_peer s = true → tr_sdk_peer s = true;
  v_channel : tr_channel s = true → tr_sdk_peer s = true;
  v_answered : tr_answered s = true → remote_set t = true;
  v_messages : Z.of_nat (length (tr_messages s)) ≤ 256;
  v_payloads : Forall (λ m, string_size (sig_payload m) ≤ MAX_SIGNALING_MESSAGE_LEN) (tr_messages s);
  v_candidates : Z.of_nat (length (tr_candidates s)) ≤ 128 }.

Abbreviation keeps := (xkeeps tr_inv (λ _, tr_inv)).

(** Assignments and events that nothing above depends on. *)
Lemma tr_inv_modify f : (∀ s, tr_signaling (f s) = tr_signaling s ∧ tr_sdk_peer (f s) = tr_sdk_peer s ∧ tr_peer (f s) = tr_peer s ∧
  tr_channel (f s) = tr_channel s ∧ tr_answered (f s) = tr_answered s ∧ tr_messages (f s) = tr_messages s ∧ tr_candidates (f s) = tr_candidates s) →
  keeps (xmodify f).
Proof.
  intros Hf. apply xkeeps_modify. intros s t [H1 H2 H3 H4 H5 H6 H7 H8 H9]. destruct (Hf s) as (E1 & E2 & E3 & E4 & E5 & E6 & E7).
  split; rewrite ?E1, ?E2, ?E3, ?E4, ?E5, ?E6, ?E7; done.
Qed.

(** An event that creates and frees nothing. *)
Definition plain_event (e : tr_event) : bool :=
  match e with KOp (op_create_client | op_free_client | op_create_peer | op_free_peer) _ => false | _ => true end.

Lemma plain_alive e t : plain_event e = true → client_alive (e :: t) = client_alive t ∧ peer_alive (e :: t) = peer_alive t ∧
  (remote_set t = true → remote_set (e :: t) = true).
Proof. destruct e as [op status| | | |]; [|done..]. destruct op; cbn; try done. intros _. split_and!; try done. intros ->. by rewrite orb_true_r. Qed.

Lemma tr_inv_event e s t : plain_event e = true → tr_allowed e t → tr_inv s t → tr_inv s (e :: t).
Proof.
  intros Hp Ha [H1 H2 H3 H4 H5 H6 H7 H8 H9]. destruct (plain_alive e t Hp) as (E1 & E2 & E3).
  split; try done; [by rewrite E1|by rewrite E2|auto].
Qed.

Lemma tr_inv_emit e : plain_event e = true → (∀ t, tr_allowed e t) → keeps (xemit e).
Proof. intros Hp Ha. apply xkeeps_emit. intros s t. by apply tr_inv_event. Qed.

Lemma tr_inv_ask {A} (f : list tr_event → A) : keeps (ask f).
Proof. by intros s t H. Qed.

(** A call that is allowed in a state that has what it needs. *)
Lemma sdk_call_wp op Q R s t : plain_event (KOp op 0) = true → op_allowed op t → tr_inv s t →
  (∀ status, tr_inv s (KOp op status :: t) → Q status s (KOp op status :: t)) → xwp (sdk_call op) Q R s t.
Proof. intros Hp Ha Hi HQ. unfold sdk_call, xwp. apply HQ. apply tr_inv_event; [by destruct op|done|done]. Qed.

(** ** The other threads *)

Ltac inv_step :=
  first [xkeeps_step|by apply tr_inv_modify|by apply tr_inv_emit|apply tr_inv_ask].

Lemma record_failure_keeps detail : keeps (record_failure detail).
Proof. unfold record_failure. repeat inv_step. Qed.

Lemma queue_keeps m : keeps (queue m).
Proof.
  intros s t Hi. unfold queue. do 2 xwp_step. xwp_step.
  - pose proof (tr_inv_modify (set_error "KVS signaling queue exceeded bounded capacity") ltac:(done) s t Hi) as H.
    apply xwp_bind, xwp_modify. by apply (tr_inv_modify (set_state conn_failed)).
  - bool_simpl. do 3 xwp_step. apply tr_inv_event; [done|done|]. destruct Hi as [H1 H2 H3 H4 H5 H6 H7 H8 H9]. split; try done; cbn.
    + rewrite length_app. cbn. lia.
    + apply Forall_app. split; [done|]. by apply Forall_singleton.
Qed.

Lemma send_keeps bytes binary : keeps (send bytes binary).
Proof.
  intros s t Hi. unfold send. do 2 xwp_step. xwp_step; [done|]. bool_simpl. apply xwp_bind. unfold peer_send. do 2 xwp_step.
  xwp_step; [|].
  - apply xwp_ret. apply xwp_bind. eapply xwp_mono; [by apply record_failure_keeps| |done]. intros [] s' t' Hi'. by apply xwp_ret.
  - bool_simpl. apply xwp_bind. eapply sdk_call_wp; [done| |done|].
    { split; [|done]. rewrite <- (v_sdk_peer _ _ Hi). by apply (v_peer _ _ Hi). }
    intros status Hi'. apply xwp_ret. apply xwp_bind.
    eapply (xwp_mono _ (λ _, tr_inv) _ (λ _, tr_inv)); [|intros [] s2 t2 Hs2; by apply xwp_ret|done].
    xwp_step; [by apply record_failure_keeps|done].
Qed.

Lemma on_state_keeps state : keeps (xmodify (on_state_look state)) ∧ keeps (xmodify (on_state_store state)).
Proof. split; apply tr_inv_modify; intros s; unfold on_state_look, on_state_store; case_bool_decide; done. Qed.

Lemma run_foreign_keeps a : keeps (run_foreign a).
Proof.
  unfold run_foreign, fail. xkeeps_step; [by apply tr_inv_emit|].
  destruct a as [[[]|]| | |[]| | | | | |]; repeat first [apply record_failure_keeps|apply queue_keeps|apply send_keeps|apply on_state_keeps|inv_step].
Qed.

Lemma others_keep : keeps others.
Proof. intros s t Hi. unfold others, xwp. apply (xkeeps_for_each tr_inv (λ _, tr_inv)); [intros a; apply run_foreign_keeps|done]. Qed.

(** ** The worker *)

(** What only the worker changes. *)
Definition own (s : Transport) : bool * bool * bool * bool * list string :=
  (tr_signaling s, tr_sdk_peer s, tr_peer s, tr_answered s, tr_candidates s).

Lemma foreign_own x a : xkeeps (λ s _, own s = x) (λ _ _ _, False) (run_foreign a).
Proof.
  unfold run_foreign, fail, record_failure, queue, send, peer_send, fail, record_failure, ask, sdk_call.
  repeat first [xkeeps_step|apply xkeeps_modify; intros ??; unfold own, on_state_look, on_state_store; by repeat case_bool_decide
               |apply xkeeps_emit; by intros|by intros ???].
Qed.

Definition stage (x : bool * bool * bool * bool * list string) (s : Transport) (t : list tr_event) : Prop := tr_inv s t ∧ own s = x.

Lemma others_stage x Q R s t : stage x s t → (∀ s' t', stage x s' t' → Q tt s' t') → xwp others Q R s t.
Proof.
  intros [Hi Ho] HQ. pose proof (others_keep s t Hi) as H1.
  assert (H2 : xwp others (λ _ s' _, own s' = x) (λ _ _ _, False) s t).
  { unfold others, xwp. apply (xkeeps_for_each (λ s _, own s = x) (λ _ _ _, False)); [intros a; apply foreign_own|done]. }
  unfold xwp in *. destruct (others s t) as [[[]?]?]; [done|]. destruct u. by apply HQ.
Qed.

Lemma stage_client c p q a l s t : stage (c, p, q, a, l) s t → client_alive t = c.
Proof. intros [Hi [= <- _ _ _ _]]. symmetry. by apply v_client. Qed.
Lemma stage_peer c p q a l s t : stage (c, p, q, a, l) s t → peer_alive t = p.
Proof. intros [Hi [= _ <- _ _ _]]. symmetry. by apply v_sdk_peer. Qed.

(** A checked call. *)
Lemma check_stage x op name Q (R : string → Transport → list tr_event → Prop) s t : stage x s t → plain_event (KOp op 0) = true →
  (∀ s t, stage x s t → op_allowed op t) →
  (∀ s' t', stage x s' (KOp op 0 :: t') → Q tt s' (KOp op 0 :: t')) → (∀ e s' t', stage x s' t' → R e s' t') → xwp (check_kvs op name) Q R s t.
Proof.
  intros Hs Hp Ha HQ HR. unfold check_kvs, call. do 2 apply xwp_bind. eapply others_stage; [done|]. intros s1 t1 Hs1.
  destruct Hs1 as [Hi Ho]. eapply sdk_call_wp; [done|by eapply Ha|done|]. intros status Hi'.
  unfold STATUS_FAILED. destruct (status =? 0) eqn:E; cbn [negb].
  - apply Z.eqb_eq in E as ->. apply xwp_ret. by apply HQ.
  - apply xwp_throw. by apply HR.
Qed.

Lemma copy_stage x limit value Q (R : string → Transport → list tr_event → Prop) s t : stage x s t →
  (string_size value < limit → Q tt s t) → (∀ e, R e s t) → xwp (copy limit value) Q R s t.
Proof. intros Hs HQ HR. unfold copy. xwp_step; [by apply xwp_throw|]. bool_simpl. apply xwp_ret. by apply HQ. Qed.

Abbreviation stays x := (xkeeps (stage x) (λ _, stage x)).

Lemma check_stays x op name : plain_event (KOp op 0) = true → (∀ s t, stage x s t → op_allowed op t) → stays x (check_kvs op name).
Proof. intros Hp Ha s t Hs. by eapply check_stage. Qed.

Lemma copy_stays x limit value : stays x (copy limit value).
Proof. intros s t Hs. by eapply copy_stage. Qed.

Lemma stage_modify x f : (∀ s, tr_signaling (f s) = tr_signaling s ∧ tr_sdk_peer (f s) = tr_sdk_peer s ∧ tr_peer (f s) = tr_peer s ∧
  tr_channel (f s) = tr_channel s ∧ tr_answered (f s) = tr_answered s ∧ tr_messages (f s) = tr_messages s ∧ tr_candidates (f s) = tr_candidates s) →
  stays x (xmodify f).
Proof.
  intros Hf s t [Hi Ho]. apply xwp_modify. split; [by apply (tr_inv_modify f Hf s t)|]. destruct (Hf s) as (E1 & E2 & E3 & _ & E5 & _ & E7).
  unfold own in *. by rewrite E1, E2, E3, E5, E7.
Qed.

Lemma send_signaling_stays p q a l type payload : stays (true, p, q, a, l) (send_signaling type payload).
Proof.
  intros s t Hs. unfold send_signaling. apply xwp_bind. eapply copy_stage; [done| |done]. intros _. apply xwp_bind.
  eapply copy_stage; [done| |done]. intros Hl. eapply check_stage; [done|done| |done|done]. intros s1 t1 Hs1.
  split; [by eapply stage_client|lia].
Qed.

Lemma ice_uri_stays x info uris next : stays x (ice_uri_loop info uris next).
Proof. revert next. induction uris as [|uri uris IH]; intros next; cbn [ice_uri_loop]; repeat first [apply IH|xkeeps_step|apply copy_stays]. Qed.

Lemma ice_info_stays p q a l infos i next : stays (true, p, q, a, l) (ice_info_loop infos i next).
Proof.
  revert i next. induction infos as [|info infos IH]; intros i next; cbn [ice_info_loop]; repeat first [apply IH|xkeeps_step|apply ice_uri_stays].
  apply check_stays; [done|]. intros s t Hs. by eapply stage_client.
Qed.

Ltac peer_call := apply check_stays; [done|]; intros ?s ?t ?Hs; by eapply stage_peer.

Lemma channel_stays c q a l : stays (c, true, q, a, l) (xmodify (set_channel true)).
Proof. intros s t [[H1 H2 H3 H4 H5 H6 H7 H8 H9] Ho]. apply xwp_modify. split; [|done]. split; try done. by injection Ho. Qed.

Lemma setup_stays c q a l cfg : stays (c, true, q, a, l) (setup_data cfg) ∧ stays (c, true, q, a, l) (setup_video cfg).
Proof. unfold setup_data, setup_video. destruct (role cfg); split; repeat first [apply channel_stays|xkeeps_step|peer_call]. Qed.

Lemma description_stays c q a l offer : stays (c, true, q, a, l) (description offer).
Proof. unfold description. repeat first [xkeeps_step|peer_call|by intros ???]. Qed.

Lemma candidate_stays c q l json : stays (c, true, q, true, l) (candidate json).
Proof.
  unfold candidate. xkeeps_step; [peer_call|]. apply check_stays; [done|]. intros s t Hs. split; [by eapply stage_peer|].
  destruct Hs as [Hi Ho]. apply (v_answered _ _ Hi). by injection Ho.
Qed.

(** [~Impl]. *)
Lemma destroy_wp c p q a l Q R s t : stage (c, p, q, a, l) s t →
  (∀ s' t', tr_inv (set_peer false s') t' → own s' = (c, false, q, a, l) → Q tt s' t') → xwp destroy_impl Q R s t.
Proof.
  intros [Hi Ho] HQ. unfold destroy_impl. do 2 xwp_step. destruct p.
  - assert (Hp : tr_sdk_peer s = true) by (by injection Ho). rewrite Hp. cbn [xwhen]. apply xwp_bind.
    assert (Ha : peer_alive t = true) by (by rewrite <- (v_sdk_peer _ _ Hi)).
    eapply sdk_call_wp; [done|exact Ha|done|]. intros st1 Hi1. apply xwp_bind. unfold sdk_call, xwp at 1. do 3 xwp_step.
    apply HQ; [|injection Ho as E1 E2 E3 E4 E5; unfold own; cbn; congruence].
    destruct Hi1 as [H1 H2 H3 H4 H5 H6 H7 H8 H9]. by split; cbn.
  - assert (Hp : tr_sdk_peer s = false) by (by injection Ho). rewrite Hp. cbn [xwhen]. apply HQ; [|done].
    destruct Hi as [H1 H2 H3 H4 H5 H6 H7 H8 H9]. by split.
Qed.

(** The constructor: a peer connection, or none. *)
Lemma new_peer_wp c a l s t : stage (c, false, false, a, l) s t →
  xwp new_peer (λ _, stage (c, true, false, a, l)) (λ _, stage (c, false, false, a, l)) s t.
Proof.
  intros Hs. unfold new_peer. do 2 xwp_step. generalize (tr_config s). intros cfg. apply xwp_try.
  apply (xwp_mono _ (λ _, stage (c, true, false, a, l)) _ (λ _ s' t', ∃ p, stage (c, p, false, a, l) s' t')); [|done|].
  - apply xwp_bind. unfold call. apply xwp_bind. eapply others_stage; [done|]. clear s t Hs. intros s t Hs. unfold sdk_call, xwp at 1.
    set (status := k_status op_create_peer t). apply xwp_bind. unfold STATUS_FAILED.
    assert (Hi : tr_inv (if status =? 0 then set_sdk_peer true s else s) (KOp op_create_peer status :: t)).
    { destruct Hs as [[H1 H2 H3 H4 H5 H6 H7 H8 H9] Ho]. injection Ho as E1 E2 E3 E4 E5. destruct (status =? 0) eqn:E;
        (split; try done; cbn; [split; [by rewrite <- H3|done]|..]; unfold STATUS_FAILED; rewrite ?E; try done); congruence. }
    destruct Hs as [_ Ho]. destruct (status =? 0) eqn:E; cbn [negb]; [|apply xwp_throw; exists false; by split].
    apply xwp_modify. assert (Hs : stage (c, true, false, a, l) (set_sdk_peer true s) (KOp op_create_peer status :: t)).
    { split; [done|]. injection Ho as E1 E2 E3 E4 E5. unfold own. cbn. congruence. }
    clear Hi Ho E. clearbody status. revert Hs. generalize (set_sdk_peer true s) (KOp op_create_peer status :: t). clear s t status. intros s t Hs.
    match goal with |- xwp ?p _ _ _ _ => assert (Hk : stays (c, true, false, a, l) p) end.
    { repeat first [apply setup_stays|xkeeps_step|peer_call]. }
    eapply xwp_mono; [by apply Hk|done|]. intros e s' t' Hs'. by exists true.
  - intros e s' t' [p Hs']. apply xwp_bind. eapply destroy_wp; [done|]. intros s2 t2 Hi2 Ho2. apply xwp_throw. split; [|done].
    assert (Hp : tr_peer s2 = false) by (by injection Ho2). destruct Hi2 as [H1 H2 H3 H4 H5 H6 H7 H8 H9]. split; try done. by rewrite Hp.
Qed.

(** What the worker may hold when it ends its work: a client or none, a peer connection
    or none. *)
Definition holding (s : Transport) (t : list tr_event) : Prop := ∃ c p a l, stage (c, p, p, a, l) s t.

Lemma stage_set_peer c a l s t : stage (c, true, false, a, l) s t → stage (c, true, true, a, l) (set_peer true s) t.
Proof.
  intros [[H1 H2 H3 H4 H5 H6 H7 H8 H9] Ho]. injection Ho as E1 E2 E3 E4 E5. split; [by split|]. unfold own. cbn. congruence.
Qed.

Ltac held Hh := intros; match goal with H : _ |- _ => exact (Hh _ _ _ _ H) end.

Lemma connect_peer_wp a l s t : stage (true, false, false, a, l) s t →
  xwp connect_peer (λ _, stage (true, true, true, a, l)) (λ _, holding) s t.
Proof.
  intros Hs. assert (Hh : ∀ c p s t, stage (c, p, p, a, l) s t → holding s t) by (intros c p s1 t1 H; by exists c, p, a, l).
  unfold connect_peer. do 2 xwp_step. apply xwp_bind. eapply copy_stage; [done| |held Hh]. intros _. apply xwp_bind.
  eapply check_stage; [done|done|by intros; eapply stage_client| |held Hh]. clear s t Hs. intros s t Hs.
  apply xwp_bind. unfold ask, xwp at 1. apply xwp_bind. eapply xwp_mono; [by apply ice_info_stays| |held Hh]. clear s t Hs. intros next s t Hs. cbv beta in Hs.
  apply xwp_bind. eapply xwp_mono; [by apply new_peer_wp| |held Hh]. clear s t Hs. intros [] s t Hs. cbv beta in Hs. apply xwp_bind, xwp_modify.
  apply stage_set_peer in Hs. revert Hs. generalize (set_peer true s). clear s. intros s Hs.
  match goal with |- xwp ?p _ _ _ _ => assert (Hk : stays (true, true, true, a, l) p) end.
  { repeat first [apply description_stays|apply send_signaling_stays|by apply stage_modify|xkeeps_step].
    apply check_stays; [done|]. by intros; eapply stage_client. }
  eapply xwp_mono; [by apply Hk|done|held Hh].
Qed.

Lemma foreign_stopping a : xkeeps (λ s _, tr_stopping s = true) (λ _ _ _, False) (run_foreign a).
Proof.
  unfold run_foreign, fail, record_failure, queue, send, peer_send, fail, record_failure, ask, sdk_call.
  repeat first [xkeeps_step|apply xkeeps_modify; intros ??; unfold on_state_look, on_state_store; by repeat case_bool_decide
               |apply xkeeps_emit; by intros|by intros ???].
Qed.

Lemma others_stay_stopping x s t : stage x s t → tr_stopping s = true →
  xwp others (λ _ s' t', stage x s' t' ∧ tr_stopping s' = true) (λ _ _ _, False) s t.
Proof.
  intros Hs Hst. pose proof (others_stage x (λ _, stage x) (λ _ _ _, False) s t Hs ltac:(done)) as H1.
  assert (H2 : xwp others (λ _ s' _, tr_stopping s' = true) (λ _ _ _, False) s t).
  { unfold others, xwp. apply (xkeeps_for_each (λ s _, tr_stopping s = true) (λ _ _ _, False)); [intros a; apply foreign_stopping|done]. }
  unfold xwp in *. by destruct (others s t) as [[[]?]?].
Qed.

(** The peer connection is there, or the worker was told to stop. *)
Definition ready (a : bool) (l : list string) (s : Transport) (t : list tr_event) : Prop :=
  stage (true, true, true, a, l) s t ∨ (stage (true, false, false, a, l) s t ∧ tr_stopping s = true).

Lemma stopping_wp x Q R s t : stage x s t → (∀ b s' t', stage x s' t' → (b = true → tr_stopping s' = true) → Q b s' t') → xwp stopping Q R s t.
Proof.
  intros Hs HQ. unfold stopping. apply xwp_bind. eapply others_stage; [done|]. intros s' t' Hs'. do 2 xwp_step. apply xwp_ret. by apply HQ.
Qed.

Lemma initialize_wp s t : stage (false, false, false, false, []) s t →
  xwp initialize (λ _, ready false []) (λ _, holding) s t.
Proof.
  intros Hs. assert (Hh : ∀ c p s t, stage (c, p, p, false, []) s t → holding s t) by (intros c p s1 t1 H; by exists c, p, false, []).
  unfold initialize. apply xwp_bind. eapply check_stage; [done|done|done| |held Hh]. clear s t Hs. intros s t Hs.
  apply xwp_bind. unfold ask, xwp at 1. apply xwp_bind. eapply copy_stage; [done| |held Hh]. intros _.
  apply xwp_bind. unfold call. apply xwp_bind. eapply others_stage; [done|]. clear s t Hs. intros s t Hs. unfold sdk_call, xwp at 1.
  set (status := k_status op_create_client t). apply xwp_bind. unfold STATUS_FAILED.
  assert (Hi : tr_inv (if status =? 0 then set_signaling true s else s) (KOp op_create_client status :: t)).
  { destruct Hs as [[H1 H2 H3 H4 H5 H6 H7 H8 H9] Ho]. injection Ho as E1 E2 E3 E4 E5. destruct (status =? 0) eqn:E;
      (split; try done; cbn; [split; [by rewrite <- H2|done]|..]; unfold STATUS_FAILED; rewrite ?E; try done); congruence. }
  destruct Hs as [_ Ho]. destruct (status =? 0) eqn:E; cbn [negb]; [|apply xwp_throw; by eapply Hh].
  apply xwp_modify. assert (Hs : stage (true, false, false, false, []) (set_signaling true s) (KOp op_create_client status :: t)).
  { split; [done|]. injection Ho as E1 E2 E3 E4 E5. unfold own. cbn. congruence. }
  clear Hi Ho E. clearbody status. revert Hs. generalize (set_signaling true s) (KOp op_create_client status :: t). clear s t status. intros s t Hs.
  apply xwp_bind. eapply stopping_wp; [done|]. clear s t Hs. intros b s t Hs Hb. xwp_step; [right; by auto|].
  apply xwp_bind. eapply check_stage; [done|done|by intros; eapply stage_client| |held Hh]. clear s t Hs Hb Hb0. intros s t Hs.
  apply xwp_bind. eapply stopping_wp; [done|]. clear s Hs. intros b' s t' Hs Hb. xwp_step; [right; by auto|].
  eapply xwp_mono; [by apply connect_peer_wp| |done]. intros [] s' t2 Hs'. by left.
Qed.

(** A message of the queue. *)
Lemma process_wp a l m s t : stage (true, true, true, a, l) s t →
  xwp (process m) (λ _ s' t', ∃ a l, stage (true, true, true, a, l) s' t') (λ _, holding) s t.
Proof.
  intros Hs. assert (Hh : ∀ a l s t, stage (true, true, true, a, l) s t → holding s t) by (intros a1 l1 s1 t1 H; by exists true, true, a1, l1).
  unfold process. xwp_step.
  { eapply xwp_mono; [by apply send_signaling_stays|intros ??? H; do 2 eexists; exact H|held Hh]. }
  destruct (sig_type m); [by exists a, l| | |by exists a, l].
  - apply xwp_bind. unfold remote_description. apply xwp_bind. eapply check_stage; [done|done|by intros; eapply stage_peer| |held Hh].
    clear s t Hs. intros s t Hs. eapply check_stage; [done|done|by intros; eapply stage_peer| |held Hh]. clear s t Hs. intros s t [Hi Ho].
    apply xwp_bind, xwp_modify.
    assert (Hs : stage (true, true, true, true, l) (set_answered true s) (KOp (op_remote (sig_payload m)) 0 :: t)).
    { destruct Hi as [H1 H2 H3 H4 H5 H6 H7 H8 H9]. injection Ho as E1 E2 E3 E4 E5. split; [by split|]. unfold own. cbn. congruence. }
    clear Hi Ho. revert Hs. generalize (set_answered true s) (KOp (op_remote (sig_payload m)) 0 :: t). clear s t. intros s t Hs.
    unfold progress. apply xwp_bind, xwp_modify. apply (stage_modify _ (set_progress "SDP answer applied; awaiting ICE/DTLS and media/data readiness")) in Hs; [|done].
    apply xwp_bind, xwp_get. apply xwp_bind.
    eapply xwp_mono; [apply (xkeeps_for_each (stage (true, true, true, true, l)) (λ _, stage (true, true, true, true, l))); [intros; apply candidate_stays|exact Hs]| |held Hh].
    intros [] s' t' [[H1 H2 H3 H4 H5 H6 H7 H8 H9] Ho']. apply xwp_modify. exists true, []. split; [by split|].
    injection Ho' as E1 E2 E3 E4 E5. unfold own. cbn. congruence.
  - do 2 xwp_step. assert (Ea : tr_answered s = a) by (destruct Hs as [_ Ho]; by injection Ho). rewrite Ea. destruct a.
    + eapply xwp_mono; [by apply candidate_stays|intros ??? H; do 2 eexists; exact H|held Hh].
    + xwp_step; [|apply xwp_throw; by eapply Hh]. bool_simpl. apply xwp_modify. destruct Hs as [[H1 H2 H3 H4 H5 H6 H7 H8 H9] Ho].
      exists false, (tr_candidates s ++ [sig_payload m]). split; [split; try done; cbn; rewrite length_app; cbn; lia|]. injection Ho as E1 E2 E3 E4 E5. unfold own. cbn. congruence.
Qed.

(** The loop works on a peer connection. *)
Definition working (s : Transport) (t : list tr_event) : Prop := ∃ a l, stage (true, true, true, a, l) s t.

Lemma working_holds s t : working s t → holding s t.
Proof. intros (a & l & H). by exists true, true, a, l. Qed.

Lemma others_working Q R s t : working s t → (∀ s' t', working s' t' → Q tt s' t') → xwp others Q R s t.
Proof. intros (a & l & H) HQ. eapply others_stage; [done|]. intros s' t' H'. apply HQ. by exists a, l. Qed.

Lemma process_loop_wp l s t : working s t → xwp (process_loop l) (λ _, working) (λ _, holding) s t.
Proof.
  revert s t. induction l as [|m l IH]; intros s t Hw; cbn [process_loop]; [by apply xwp_ret|]. apply xwp_bind.
  eapply others_working; [done|]. clear s t Hw. intros s t Hw. do 2 xwp_step. xwp_step; [by apply xwp_ret|]. apply xwp_bind.
  destruct Hw as (a & ls & Hs). eapply xwp_mono; [by eapply process_wp| |done]. intros [] s' t' Hw'. by apply IH.
Qed.

Lemma report_stats_working phase : xkeeps working (λ _, working) (report_stats phase).
Proof.
  intros s t (a & l & Hi & Ho). unfold report_stats. do 2 xwp_step. xwp_step; [|by exists a, l]. apply xwp_emit. exists a, l. split; [|done].
  apply tr_inv_event; [done| |done]. cbn. rewrite <- (v_sdk_peer _ _ Hi). by apply (v_peer _ _ Hi).
Qed.

Lemma run_round_wp report_at s t : working s t → xwp (run_round report_at) (λ _, working) (λ _, holding) s t.
Proof.
  intros Hw. unfold run_round. apply xwp_bind. eapply others_working; [done|]. clear s t Hw. intros s t Hw. do 2 xwp_step.
  apply xwp_bind, xwp_modify. apply xwp_bind. eapply xwp_mono; [apply process_loop_wp| |done].
  { destruct Hw as (a & l & [H1 H2 H3 H4 H5 H6 H7 H8 H9] & Ho). exists a, l. split; [|done]. by split. }
  intros [] s1 t1 Hw1. apply xwp_bind. eapply others_working; [done|]. intros s2 t2 Hw2. do 2 xwp_step. apply xwp_bind. unfold ask, xwp at 1.
  xwp_step; [|done]. apply xwp_bind. eapply xwp_mono; [by apply report_stats_working| |].
  - intros [] s3 t3 Hw3. by apply xwp_ret.
  - intros e s3 t3 Hw3. by apply working_holds.
Qed.

Lemma run_loop_wp fuel report_at s t : working s t → xwp (run_loop fuel report_at) (λ _, holding) (λ _, holding) s t.
Proof.
  revert report_at s t. induction fuel as [|fuel IH]; intros report_at s t Hw; cbn [run_loop]; apply xwp_bind;
    (eapply others_working; [done|]); clear s t Hw; intros s t Hw; do 2 xwp_step; (xwp_step; [by apply working_holds|]).
  - by apply working_holds.
  - apply xwp_bind. eapply xwp_mono; [by apply run_round_wp| |done]. intros next s' t' Hw'. by apply IH.
Qed.

(** A worker that was told to stop before there was a peer connection ends its loop. *)
Lemma run_loop_ready fuel report_at s t : ready false [] s t → xwp (run_loop fuel report_at) (λ _, holding) (λ _, holding) s t.
Proof.
  intros [Hs|[Hs Hst]]; [apply run_loop_wp; by exists false, []|].
  destruct fuel as [|fuel]; cbn [run_loop]; apply xwp_bind; (eapply xwp_mono; [by apply others_stay_stopping| |done]); intros [] s' t' [Hs' Hst'];
    do 2 xwp_step; rewrite Hst'; apply xwp_ret; by exists true, false, false, [].
Qed.

Lemma caught_wp what s t : holding s t → xwp (caught what) (λ _, holding) (λ _ _ _, False) s t.
Proof.
  intros (c & p & a & l & Hs). unfold caught. apply xwp_bind. eapply others_stage; [done|]. clear s t Hs. intros s t Hs. apply xwp_bind.
  unfold record_failure. apply xwp_bind. unfold ask, xwp at 1. apply xwp_bind, xwp_modify, xwp_modify, xwp_ret.
  exists c, p, a, l. destruct Hs as [[H1 H2 H3 H4 H5 H6 H7 H8 H9] Ho]. split; [|done]. by split.
Qed.

Lemma teardown_wp s t : holding s t →
  xwp teardown (λ _ s' t', tr_inv s' t' ∧ client_alive t' = false ∧ peer_alive t' = false ∧ tr_finished s' = true) (λ _ _ _, False) s t.
Proof.
  intros (c & p & a & l & Hs). unfold teardown. apply xwp_bind.
  apply (xwp_mono _ (λ _, stage (c, p, p, a, l)) _ (λ _ _ _, False)); [| |done].
  { destruct Hs as [Hi Ho]. unfold report_stats. do 2 xwp_step. xwp_step; [|by split]. apply xwp_emit. split; [|done].
    apply tr_inv_event; [done| |done]. cbn. rewrite <- (v_sdk_peer _ _ Hi). by apply (v_peer _ _ Hi). }
  clear s t Hs. intros [] s t Hs. cbv beta in Hs. do 2 xwp_step. apply xwp_bind.
  apply (xwp_mono _ (λ _, stage (false, p, p, a, l)) _ (λ _ _ _, False)); [| |done].
  { assert (Hc : tr_signaling s = c) by (destruct Hs as [_ Ho]; by injection Ho). rewrite Hc. destruct c; cbn [xwhen]; [|done].
    unfold call. do 2 apply xwp_bind. eapply others_stage; [done|]. clear s t Hs Hc. intros s t Hs. pose proof (stage_client _ _ _ _ _ _ _ Hs) as Hcl.
    destruct Hs as [Hi Ho]. eapply sdk_call_wp; [done|done|done|]. intros st1 Hi1. do 2 apply xwp_bind.
    eapply others_stage; [by split|]. clear s t Hi Ho Hcl Hi1. intros s t Hs. pose proof (stage_client _ _ _ _ _ _ _ Hs) as Hcl.
    unfold sdk_call, xwp at 1. apply xwp_modify. destruct Hs as [[H1 H2 H3 H4 H5 H6 H7 H8 H9] Ho]. split; [by split|].
    injection Ho as E1 E2 E3 E4 E5. unfold own. cbn. congruence. }
  clear s t Hs. intros [] s t Hs. cbv beta in Hs. apply xwp_bind. eapply others_stage; [done|]. clear s t Hs. intros s t Hs. do 2 xwp_step. apply xwp_bind.
  apply (xwp_mono _ (λ _, stage (false, false, false, a, l)) _ (λ _ _ _, False)); [| |done].
  { assert (Hp : tr_peer s = p) by (destruct Hs as [_ Ho]; by injection Ho). rewrite Hp. destruct p; cbn [xwhen]; [|done]. apply xwp_bind.
    eapply destroy_wp; [done|]. intros s' t' Hi' Ho'. apply xwp_modify. split; [done|]. injection Ho' as E1 E2 E3 E4 E5. unfold own. cbn. congruence. }
  clear s t Hs. intros [] s t Hs. cbv beta in Hs. pose proof (stage_client _ _ _ _ _ _ _ Hs) as Hc. pose proof (stage_peer _ _ _ _ _ _ _ Hs) as Hp.
  apply xwp_modify. split_and!; [|done|done|done]. destruct Hs as [[H1 H2 H3 H4 H5 H6 H7 H8 H9] Ho]. by split.
Qed.

(** A transport that has been started. *)
Definition started (s : Transport) : Prop :=
  own s = (false, false, false, false, []) ∧ tr_channel s = false ∧ tr_messages s = [].

(** The worker alone: its calls, its buffers and what it gives back. *)
Lemma worker_calls_allowed fuel s : started s →
  xwp (run fuel)
    (λ over s' t', guarded tr_allowed t' ∧ Z.of_nat (length (tr_messages s')) ≤ 256 ∧ Z.of_nat (length (tr_candidates s')) ≤ 128 ∧
      (over = true → client_alive t' = false ∧ peer_alive t' = false ∧ tr_finished s' = true)) (λ _ _ _, False) s [].
Proof.
  intros (Ho & Hc & Hm). injection Ho as E1 E2 E3 E4 E5. assert (Hs : stage (false, false, false, false, []) s []).
  { split; [|unfold own; congruence]. split; rewrite ?E1, ?E2, ?E3, ?E4, ?E5, ?Hc, ?Hm; done. }
  unfold run. apply xwp_bind, xwp_try.
  apply (xwp_mono _ (λ _, holding) _ (λ _, holding)).
  - apply xwp_bind. eapply xwp_mono; [by apply initialize_wp| |done]. intros [] s1 t1 Hr. apply xwp_bind. unfold ask, xwp at 1. by apply run_loop_ready.
  - intros over s1 t1 Hh. destruct over.
    + apply xwp_bind. eapply xwp_mono; [by apply teardown_wp| |done]. intros [] s2 t2 (Hi & ? & ? & ?). apply xwp_ret. by destruct Hi.
    + apply xwp_ret. destruct Hh as (c & p & a & l & [Hi _]). by destruct Hi.
  - intros e s1 t1 Hh. eapply xwp_mono; [by apply caught_wp| |done]. intros over s2 t2 Hh2. destruct over.
    + apply xwp_bind. eapply xwp_mono; [by apply teardown_wp| |done]. intros [] s3 t3 (Hi & ? & ? & ?). apply xwp_ret. by destruct Hi.
    + apply xwp_ret. destruct Hh2 as (c & p & a & l & [Hi _]). by destruct Hi.
Qed.

(** ** Remote candidates

    Oldest first: those that were applied, and those that were taken into the queue. *)

Definition remote_candidate (m : SignalMessage) : bool :=
  sig_incoming m && match sig_type m with SIGNALING_ICE_CANDIDATE => true | _ => false end.
Definition ice (l : list SignalMessage) : list string := map sig_payload (filter (λ m, remote_candidate m = true) l).

Fixpoint applied (t : list tr_event) : list string :=
  match t with
  | [] => []
  | KOp (op_candidate json) _ :: t => applied t ++ [json]
  | _ :: t => applied t
  end.
Fixpoint queued (t : list tr_event) : list string :=
  match t with
  | [] => []
  | KQueued m :: t => queued t ++ ice [m]
  | _ :: t => queued t
  end.

(** The applied ones, those that the worker has in hand and those in the queue are, in
    this order, among the ones that were taken. *)
Definition line (an : bool) (cands mid : list string) (s : Transport) (t : list tr_event) : Prop :=
  tr_answered s = an ∧ tr_candidates s = cands ∧ applied t ++ mid ++ ice (tr_messages s) `sublist_of` queued t.
Definition in_turn (_ : Transport) (t : list tr_event) : Prop := applied t `sublist_of` queued t.

Lemma line_in_turn an cands mid s t : line an cands mid s t → in_turn s t.
Proof. intros (_ & _ & H). unfold in_turn. etrans; [|exact H]. by apply sublist_inserts_r. Qed.

Lemma ice_app l l' : ice (l ++ l') = ice l ++ ice l'.
Proof. unfold ice. by rewrite filter_app, map_app. Qed.

Lemma queue_line an cands mid m : xkeeps (line an cands mid) (λ _ _ _, False) (queue m).
Proof.
  intros s t (H1 & H2 & H3). unfold queue. do 2 xwp_step. xwp_step; [by do 3 xwp_step|]. do 3 xwp_step. split_and!; [done|done|].
  cbn [applied queued tr_messages set_messages]. rewrite ice_app, !app_assoc. apply sublist_app; [|done]. by rewrite <- !app_assoc.
Qed.

(** Events of no candidate. *)
Definition no_candidate (e : tr_event) : bool := match e with KOp (op_candidate _) _ | KQueued _ => false | _ => true end.

Lemma line_event an cands mid e s t : no_candidate e = true → line an cands mid s t → line an cands mid s (e :: t).
Proof. intros He (H1 & H2 & H3). split_and!; [done|done|]. destruct e as [op status| | | |]; try done. by destruct op. Qed.

Ltac line_step :=
  first [xkeeps_step|apply queue_line|apply xkeeps_modify; intros ??; unfold line, on_state_look, on_state_store; by repeat case_bool_decide
        |apply xkeeps_emit; intros ??; by apply line_event|intros ???; unfold ask, sdk_call, xwp; by try apply line_event].

Lemma foreign_line an cands mid a : xkeeps (line an cands mid) (λ _ _ _, False) (run_foreign a).
Proof. unfold run_foreign, fail, record_failure, send, peer_send, fail, record_failure. repeat line_step. Qed.

Lemma others_line an cands mid : xkeeps (line an cands mid) (λ _ _ _, False) others.
Proof. intros s t Hl. unfold others, xwp. apply (xkeeps_for_each (line an cands mid) (λ _ _ _, False)); [intros a; apply foreign_line|done]. Qed.

Lemma others_line' {an cands mid} : xkeeps (line an cands mid) (λ _, line an cands mid) others.
Proof. intros s t Hl. eapply xwp_mono; [by apply others_line|done|done]. Qed.

Abbreviation lines an cands mid := (xkeeps (line an cands mid) (λ _, line an cands mid)).

Lemma check_line an cands mid op name : no_candidate (KOp op 0) = true → lines an cands mid (check_kvs op name).
Proof.
  intros Hn. unfold check_kvs, call. repeat first [apply others_line'|xkeeps_step|by intros ???].
  intros s t Hl. unfold sdk_call, xwp. apply line_event; [by destruct op|done].
Qed.

Ltac neutral :=
  first [apply others_line'|by apply check_line|line_step|apply xkeeps_try; [|intros ?]|by intros ???].

Lemma send_signaling_line an cands mid type payload : lines an cands mid (send_signaling type payload).
Proof. unfold send_signaling, copy. repeat neutral. Qed.

Lemma ice_loops_line an cands mid : (∀ info uris next, lines an cands mid (ice_uri_loop info uris next)) ∧
  (∀ infos i next, lines an cands mid (ice_info_loop infos i next)).
Proof.
  assert (H : ∀ info uris next, lines an cands mid (ice_uri_loop info uris next)).
  { intros info uris. induction uris as [|uri uris IH]; intros next; cbn [ice_uri_loop]; unfold copy; repeat first [apply IH|neutral]. }
  split; [done|]. intros infos. induction infos as [|info infos IH]; intros i next; cbn [ice_info_loop]; repeat first [apply IH|apply H|neutral].
Qed.

Lemma new_peer_line an cands mid : lines an cands mid new_peer.
Proof.
  unfold new_peer, setup_data, setup_video, destroy_impl, call. apply xkeeps_bind; [by intros ???|]. intros s0. destruct (role (tr_config s0)); repeat neutral.
Qed.

Lemma initialize_line an cands mid : lines an cands mid initialize.
Proof.
  unfold initialize, connect_peer, stopping, call, description, progress, copy.
  repeat first [apply new_peer_line|apply ice_loops_line|apply send_signaling_line|neutral].
Qed.

Lemma line_weak {A} (c : P A) an cands mid s t : lines an cands mid c → line an cands mid s t →
  xwp c (λ _, line an cands mid) (λ _, in_turn) s t.
Proof. intros Hc Hl. eapply xwp_mono; [by apply Hc|done|]. intros e s' t' H. exact (line_in_turn _ _ _ _ _ H). Qed.

Lemma candidate_line an cands mid json s t : line an cands (json :: mid) s t →
  xwp (candidate json) (λ _, line an cands mid) (λ _, in_turn) s t.
Proof.
  intros Hl. unfold candidate. apply xwp_bind. eapply xwp_mono; [apply (line_weak _ an cands (json :: mid)); [by apply check_line|exact Hl]| |done]. clear s t Hl. intros [] s t Hl.
  unfold check_kvs, call. do 2 apply xwp_bind. eapply xwp_mono; [by apply others_line| |done]. clear s t Hl. intros [] s t Hl.
  unfold sdk_call, xwp at 1. set (status := k_status _ t). assert (Hl' : line an cands mid s (KOp (op_candidate json) status :: t)).
  { destruct Hl as (H1 & H2 & H3). split_and!; [done|done|]. cbn [applied queued]. by rewrite <- app_assoc. }
  destruct (STATUS_FAILED status); [|done]. apply xwp_throw. by eapply line_in_turn.
Qed.

Lemma candidates_line an cands mid l s t : line an cands (l ++ mid) s t →
  xwp (for_each candidate l) (λ _, line an cands mid) (λ _, in_turn) s t.
Proof.
  revert s t. induction l as [|json l IH]; intros s t Hl; cbn [for_each]; [done|]. apply xwp_bind.
  eapply xwp_mono; [by apply candidate_line| |done]. intros [] s' t' Hl'. by apply IH.
Qed.

(** Between two messages of a round with [rest] to come: after the answer nothing is kept back. *)
Definition at_message (rest : list SignalMessage) (s : Transport) (t : list tr_event) : Prop :=
  ∃ an cands, line an cands (cands ++ ice rest) s t ∧ (an = true → cands = []).

Lemma ice_cons m l : ice (m :: l) = ice [m] ++ ice l.
Proof. apply (ice_app [m]). Qed.

Lemma process_line m rest s t : at_message (m :: rest) s t → xwp (process m) (λ _, at_message rest) (λ _, in_turn) s t.
Proof.
  intros (an & cands & Hl & Han). rewrite ice_cons in Hl. unfold process. destruct (sig_incoming m) eqn:Ein; cbn [negb].
  2:{ assert (Em : ice [m] = []) by (unfold ice; rewrite filter_cons_False; [done|]; unfold remote_candidate; by rewrite Ein). rewrite Em in Hl.
    eapply xwp_mono; [apply (line_weak _ an cands (cands ++ ice rest)); [apply send_signaling_line|exact Hl]| |done]. intros [] s' t' Hl'. by exists an, cands. }
  assert (Em : ice [m] = match sig_type m with SIGNALING_ICE_CANDIDATE => [sig_payload m] | _ => [] end).
  { unfold ice. destruct (sig_type m) eqn:Et;
      [rewrite filter_cons_False|rewrite filter_cons_False|rewrite filter_cons_True|rewrite filter_cons_False];
      try (unfold remote_candidate; by rewrite Ein, Et); done. }
  rewrite Em in Hl. destruct (sig_type m); cbn [Datatypes.app] in Hl; [by apply xwp_ret; exists an, cands| | |by apply xwp_ret; exists an, cands].
  - unfold remote_description. apply xwp_bind, xwp_bind.
    eapply xwp_mono; [apply (line_weak _ an cands (cands ++ ice rest)); [by apply check_line|exact Hl]| |done]. clear s t Hl. intros [] s t Hl.
    eapply xwp_mono; [apply (line_weak _ an cands (cands ++ ice rest)); [by apply check_line|exact Hl]| |done]. clear s t Hl. intros [] s t Hl.
    apply xwp_bind, xwp_modify. unfold progress. apply xwp_bind, xwp_modify. apply xwp_bind, xwp_get. apply xwp_bind.
    destruct Hl as (H1 & H2 & H3). cbn [tr_candidates set_progress set_answered]. rewrite H2.
    eapply xwp_mono; [apply (candidates_line true cands (ice rest)); by split_and!| |done].
    intros [] s' t' (H1' & H2' & H3'). apply xwp_modify. exists true, []. by split_and!.
  - do 2 xwp_step. destruct Hl as (H1 & H2 & H3). rewrite H1. destruct an.
    + rewrite Han in H2, H3 by done. eapply xwp_mono; [apply (candidate_line true [] (ice rest)); by split_and!| |done].
      intros [] s' t' Hl'. exists true, []. by split.
    + xwp_step; [|apply xwp_throw; unfold in_turn; etrans; [|exact H3]; by apply sublist_inserts_r].
      apply xwp_modify. exists false, (tr_candidates s ++ [sig_payload m]). rewrite H2. split; [|done]. split_and!; [done|done|]. cbn [tr_messages set_candidates].
      by rewrite <- (app_assoc cands).
Qed.

Lemma message_in_turn rest s t : at_message rest s t → in_turn s t.
Proof. intros (an & cands & Hl & _). by eapply line_in_turn. Qed.

Lemma others_message rest Q R s t : at_message rest s t → (∀ s' t', at_message rest s' t' → Q tt s' t') → xwp others Q R s t.
Proof.
  intros (an & cands & Hl & Han) HQ. eapply xwp_mono; [by apply others_line| |done]. intros [] s' t' Hl'. apply HQ. by exists an, cands.
Qed.

(** Of a round that is broken off the rest is dropped. *)
Lemma message_drop rest s t : at_message rest s t → at_message [] s t.
Proof.
  intros (an & cands & (H1 & H2 & H3) & Han). exists an, cands. split; [|done]. split_and!; [done|done|].
  etrans; [|exact H3]. apply sublist_app; [done|]. rewrite <- !app_assoc. apply sublist_app; [done|]. cbn. by apply sublist_inserts_l.
Qed.

Lemma process_loop_line l s t : at_message l s t → xwp (process_loop l) (λ _, at_message []) (λ _, in_turn) s t.
Proof.
  revert s t. induction l as [|m l IH]; intros s t Hl; cbn [process_loop]; [done|]. apply xwp_bind.
  eapply others_message; [done|]. clear s t Hl. intros s t Hl. do 2 xwp_step. xwp_step; [apply xwp_ret; by eapply message_drop|]. apply xwp_bind.
  eapply xwp_mono; [by apply process_line| |done]. intros [] s' t' Hl'. by apply IH.
Qed.

Lemma report_stats_message phase : xkeeps (at_message []) (λ _, at_message []) (report_stats phase).
Proof.
  intros s t (an & cands & Hl & Han). unfold report_stats. do 2 xwp_step. xwp_step; [|by exists an, cands]. apply xwp_emit. exists an, cands.
  split; [by apply line_event|done].
Qed.

Lemma run_loop_line fuel report_at s t : at_message [] s t → xwp (run_loop fuel report_at) (λ _, in_turn) (λ _, in_turn) s t.
Proof.
  revert report_at s t. induction fuel as [|fuel IH]; intros report_at s t Hl; cbn [run_loop]; apply xwp_bind;
    (eapply others_message; [done|]); clear s t Hl; intros s t Hl; do 2 xwp_step; (xwp_step; [by eapply message_in_turn|]).
  - by eapply message_in_turn.
  - apply xwp_bind. unfold run_round. apply xwp_bind. eapply others_message; [done|]. clear s t Hl Hb. intros s t Hl. do 2 xwp_step.
    apply xwp_bind, xwp_modify, xwp_bind. eapply xwp_mono; [apply process_loop_line| |done].
    { destruct Hl as (an & cands & (H1 & H2 & H3) & Han). exists an, cands. split; [|done]. split_and!; [done|done|].
      cbn [tr_messages set_messages]. cbn [ice Datatypes.app] in H3. rewrite app_nil_r in H3. by rewrite app_nil_r. }
    clear s t Hl. intros [] s t Hl. apply xwp_bind. eapply others_message; [exact Hl|]. clear s t Hl. intros s t Hl. do 2 xwp_step.
    apply xwp_bind. unfold ask, xwp at 1. xwp_step; [|by apply xwp_ret, IH]. apply xwp_bind.
    eapply xwp_mono; [by apply report_stats_message| |].
    + intros [] s' t' Hl'. apply xwp_ret. by apply IH.
    + intros e s' t' Hl'. exact (message_in_turn _ _ _ Hl').
Qed.

(** What is in turn stays so. *)
Ltac turn_step :=
  first [xkeeps_step|apply xkeeps_modify; intros ??; unfold in_turn; by repeat case_bool_decide
        |apply xkeeps_emit; intros ??; unfold in_turn; cbn [applied queued]; try done; intros ?; by apply sublist_inserts_r
        |intros ???; unfold ask, sdk_call, xwp; done].

Lemma foreign_turn a : xkeeps in_turn (λ _ _ _, False) (run_foreign a).
Proof. unfold run_foreign, fail, record_failure, queue, send, peer_send, fail, record_failure. repeat turn_step. Qed.

Lemma others_turn : xkeeps in_turn (λ _ _ _, False) others.
Proof. intros s t Hl. unfold others, xwp. apply (xkeeps_for_each in_turn (λ _ _ _, False)); [intros a; apply foreign_turn|done]. Qed.

Lemma caught_turn what : xkeeps in_turn (λ _ _ _, False) (caught what).
Proof. unfold caught, record_failure. repeat first [apply others_turn|turn_step]. Qed.

Lemma teardown_turn : xkeeps in_turn (λ _ _ _, False) teardown.
Proof. unfold teardown, report_stats, destroy_impl, call. repeat first [apply others_turn|turn_step]. Qed.

(** The remote candidates are applied in the order in which they came, each at most once,
    whatever the other threads and the SDK do. *)
Lemma candidates_in_turn fuel s : started s →
  xwp (run fuel) (λ _ _ t', applied t' `sublist_of` queued t') (λ _ _ _, False) s [].
Proof.
  intros (Ho & Hc & Hm). injection Ho as E1 E2 E3 E4 E5. assert (Hl : line false [] [] s []) by (unfold line; by rewrite E4, E5, Hm).
  unfold run. apply xwp_bind, xwp_try.
  assert (Hend : ∀ (over : bool) s t, in_turn s t →
    xwp (if over then _ ← teardown; mret true else mret false) (λ _ _ t', applied t' `sublist_of` queued t') (λ _ _ _, False) s t).
  { intros over s1 t1 H1. xwp_step; [|by apply xwp_ret]. apply xwp_bind. eapply xwp_mono; [by apply teardown_turn| |done]. intros [] s2 t2 H2. by apply xwp_ret. }
  apply (xwp_mono _ (λ _, in_turn) _ (λ _, in_turn)); [|done|].
  - apply xwp_bind. eapply xwp_mono; [by apply (line_weak _ false [] []); [apply initialize_line|]| |done]. intros [] s1 t1 Hl1.
    apply xwp_bind. unfold ask, xwp at 1. apply run_loop_line. by exists false, [].
  - intros e s1 t1 H1. eapply xwp_mono; [by apply caught_turn| |done]. intros over s2 t2 H2. by apply Hend.
Qed.

(** C22: Whatever the KVS SDK returns and whatever its threads and the owner do between
    the accesses of the worker: a call uses the signalling client and the peer
    connection only while they exist, a remote candidate is applied only after the
    answer, candidates are applied in the order in which they came and none twice, no
    payload or packet exceeds its limit, the queues stay within 256 and 128, and a
    worker that ends has freed both objects. No exception leaves it. *)
Theorem transport_worker_safe fuel s : started s →
  xwp (run fuel)
    (λ over s' t', guarded tr_allowed t' ∧ applied t' `sublist_of` queued t' ∧
      Z.of_nat (length (tr_messages s')) ≤ 256 ∧ Z.of_nat (length (tr_candidates s')) ≤ 128 ∧
      (over = true → client_alive t' = false ∧ peer_alive t' = false ∧ tr_finished s' = true)) (λ _ _ _, False) s [].
Proof.
  intros Hs. pose proof (worker_calls_allowed fuel s Hs) as H1. pose proof (candidates_in_turn fuel s Hs) as H2. revert H1 H2. unfold xwp.
  destruct (run fuel s []) as [[[]] ?]; [done|]. intros (?&?&?&?) ?. auto.
Qed.
End Safety.

(** ** A failure that is overwritten *)

(** The answer has been applied and the SDK reports that the connection is up; while that
    callback is between its look at the state and its store, the signalling client reports
    an error. *)
Definition demo_cfg : TransportConfig := mk_transport_config "channel" "eu-central-1" "mavlink" "ca" media_data role_viewer.
Definition demo_sdk (ending : list foreign) : KvsSdk := {|
  k_status _ _ := 0;
  k_others t :=
    match t with
    | KOp (op_local "serialize(size)") _ :: _ => [f_signaling (Some (SIGNALING_ANSWER, "answer"))]
    | KOp (op_remote _) _ :: _ => [f_peer_look conn_connected; f_signaling_error 1; f_peer_store conn_connected]
    | KStats _ :: _ => ending
    | _ => []
    end%string;
  k_clock _ := 0; k_gettime _ := 7%N; k_ice_infos _ := []; k_description _ := "offer"; k_credential_error _ := EmptyString;
  STATUS_INVALID_OPERATION := 15; MAX_SIGNALING_MESSAGE_LEN := 10000; MAX_ICE_SERVERS_COUNT := 21; MAX_ICE_CONFIG_URI_LEN := 256;
  MAX_ICE_CONFIG_USER_NAME_LEN := 256; MAX_ICE_CONFIG_CREDENTIAL_LEN := 256; MAX_SIGNALING_CLIENT_ID_LEN := 256 |}.

Definition demo_transport : Transport := (start demo_cfg true (new_transport demo_cfg) ([] : list tr_event)).1.2.
Definition demo_worker (ending : list foreign) := run (sdk:=demo_sdk ending) 3 demo_transport [].

(** The worker never sees the failure: it goes on as connected, with the error text set, and
    reports its counters as those of a connected stream. *)
Theorem failure_overwritten : ∃ s t, demo_worker [] = (inr false, s, t) ∧ KForeign (f_signaling_error 1) ∈ t ∧
  tr_error s = "KVS signaling callback: KVS status 0x1"%string ∧ tr_state s = conn_connected.
Proof. eexists _, _. split; [vm_compute; reflexivity|]. split_and!; [do 2 apply list_elem_of_further; apply list_elem_of_here|done|done]. Qed.

(** Without the stop of its owner the demonstration goes on; with it the worker gives
    everything back. *)
Lemma transport_worker_safe_witness :
  ∃ s t, demo_worker [f_stop_flag; f_stop_state] = (inr true, s, t) ∧ guarded (tr_allowed (sdk:=demo_sdk [f_stop_flag; f_stop_state])) t ∧ client_alive t = false ∧ peer_alive t = false ∧
    tr_finished s = true ∧ remote_set t = true.
Proof.
  pose proof (transport_worker_safe (sdk:=demo_sdk [f_stop_flag; f_stop_state]) 3 demo_transport ltac:(done)) as H. revert H.
  unfold demo_worker, xwp. assert (E : (run (sdk:=demo_sdk [f_stop_flag; f_stop_state]) 3 demo_transport []).1.1 = inr true) by (vm_compute; reflexivity).
  assert (E2 : remote_set (run (sdk:=demo_sdk [f_stop_flag; f_stop_state]) 3 demo_transport []).2 = true) by (vm_compute; reflexivity).
  destruct (run _ _ _) as [[r s] t]. cbn in E, E2. subst r. intros (H1 & _ & _ & _ & H2). exists s, t. destruct (H2 eq_refl) as (H3 & H4 & H5). auto 7.
Defined.
