(* ===== verification/AgentHandler.v ===== *)
(** * The controller's event handler

    [agent/src/controller_handler.cpp]: what a Lambda invocation does. An event that
    names a Thing reconciles it and samples its runtime; a schedule sweeps the
    registry, waits for pending starts, samples, takes the inventory and terminates
    confirmed orphans; a disabled controller drains. The handler runs the passes of
    [AgentReconcile] and [AgentRepair] against the AWS clients of [AgentAws].

    Those passes see their backend through answers that depend on their own history.
    [AwsBackend] and the drains answer by replaying that history on the clients:
    [replay] runs the client calls that the events stand for, from the state in which
    the pass was called. *)
From stdpp Require Import gmap pretty.
From S2P Require Import Prelude Cpp AwsJson AgentSession AgentMicrovm AgentController AgentReconcile AgentShadow AgentCloud AgentRepair AgentSample AgentAws.

#[local] Open Scope Z_scope.

Record ControllerConfig := mk_config { cloud : CloudConfig; cfg_release : string; activation_budget_seconds : Z }.

(** ** Settings *)

Definition controller_activation_budget (value : string) : Z :=
  if string_empty value then 3000 else
  if (4 <? string_size value) || String.prefix "0" value || negb (only_chars digits value) then 0 else
  let seconds := digits_value value 0 in
  if (1 <=? seconds) && (seconds <=? 3000) then seconds else 0.

Definition placeholder (img : string) : bool := ends_with ":disabled" img.

Definition controller_configured (config : ControllerConfig) : bool :=
  let c := cloud config in
  bool_decide (cfg_region c = "eu-central-1"%string) && negb (string_empty (image c)) && negb (placeholder (image c))
  && negb (string_empty (image_version c)) && negb (has_any white (image_version c))
  && negb (string_empty (execution_role c)) && negb (string_empty (log_group c)) && valid_release (cfg_release config)
  && (1 <=? activation_budget_seconds config) && (activation_budget_seconds config <=? 3000).

Definition thing_chars : string := "abcdefghijklmnopqrstuvwxyzABCDEFGHIJKLMNOPQRSTUVWXYZ0123456789_-:".
Definition bad_thing (thing : string) : bool :=
  string_empty thing || (128 <? string_size thing) || negb (only_chars thing_chars thing).

Section Control.
Context {E S : Type}.
Abbreviation P := (X E S).

Definition controller_dispatch_automation (setting : string) (configured : bool) (reconcile drain : P unit) : P unit :=
  if bool_decide (setting = "enabled"%string) && configured then reconcile else
  _ ← drain;
  if bool_decide (setting = "disabled"%string) then mret tt else
  throw (if bool_decide (setting = "enabled"%string) then "controller configuration is incomplete" else "invalid automation setting").

(** [controller_event_repair]; the exception of [reconcile] is kept and thrown again. *)
Definition controller_event_repair (reconcile : P unit) (sample : bool → P unit) : P unit :=
  failure ← try_catch (_ ← reconcile; mret None) (λ e, mret (Some e));
  _ ← match failure with
      | Some _ => try_catch (sample true) (λ _, mret tt)
      | None => sample false
      end;
  match failure with
  | Some e => throw e
  | None => mret tt
  end.
End Control.

Section Handler.
Context `{json : AwsJson, env : AwsEnv}.
Abbreviation P := (X aws_event Handler).

(** [controller_sweep_each]: [false] when a Thing failed for another reason than a
    missing shadow. *)
Fixpoint controller_sweep_each (things : list string) (stage : string) (visit : string → P unit) : P bool :=
  match things with
  | [] => mret true
  | thing :: things =>
      ok ← try_catch (_ ← visit thing; mret true)
             (λ e, if shadow_not_found e
                   then _ ← log ("controller " +:+ stage +:+ ": agent shadow missing"); mret true
                   else _ ← log ("controller " +:+ stage +:+ ": " +:+ e); mret false);
      rest ← controller_sweep_each things stage visit;
      mret (ok && rest)
  end.

(** ** Reconciliation of a Thing *)

Definition read_record (thing : string) : P ControllerSnapshot := text ← agent_shadow thing; parse_controller_shadow text.
Definition save_record (thing : string) (snapshot : ControllerSnapshot) (now verified : Z) : P bool :=
  patch ← controller_shadow_patch snapshot now verified;
  update_agent_shadow thing patch.
Definition quietly {A} (c : P A) : P (option A) := try_catch (a ← c; mret (Some a)) (λ _, mret None).

(** [AwsBackend::runtime_verified]. *)
Definition runtime_verified (thing : string) (snapshot : ControllerSnapshot) : P (option bool) :=
  match snap_run snapshot with
  | Some r =>
      if string_empty (microvm_id r) then mret (Some false) else
      quietly
        (started ← steady_clock;
         host ← get (microvm_id r);
         if negb (bool_decide (cr_id host = microvm_id r)) || negb (bool_decide (cr_state host = "RUNNING"%string)) then mret false else
         status ← read_status host;
         ended ← steady_clock;
         runtime_verified_for snapshot thing status (Z.quot (ended - started) (10 ^ 6) + 2))
  | None => mret (Some false)
  end.

Section Backend.
Context (config : ControllerConfig) (thing : string).

Definition backend_request (rid : string) (a : Activation) (now : Z) : P string :=
  make_cloud_request (cloud config) thing rid (act_id a) (deadline a) now.

(** The client calls behind an event of a pass. *)
Definition backend_op (e : io_event) : P unit :=
  match e with
  | ERead _ => _ ← read_record thing; mret tt
  | ESave s now verified _ => _ ← save_record thing s now verified; mret tt
  | ESupported _ => _ ← quietly (has_capability thing "agent"); mret tt
  | EProjection _ => _ ← quietly (projection thing); mret tt
  | ERuntimeVerified s _ => _ ← runtime_verified thing s; mret tt
  | EIdentity _ => _ ← acall AIdentity a_identity; mret tt
  | ERequest rid a now _ => _ ← backend_request rid a now; mret tt
  | ELaunch r _ => _ ← launch (AgentController.request r) (run_id r); mret tt
  | EGet id _ => _ ← get id; mret tt
  | ETerminate id _ => terminate id
  | EClock _ => _ ← now_seconds; mret tt
  | AgentReconcile.ESteady _ => _ ← steady_clock; mret tt
  end.

Definition step {A} (c : P A) (st : Handler * aws_trace) : Handler * aws_trace := let '(_, s, t) := c st.1 st.2 in (s, t).
Definition answer {A} (c : P A) (st : Handler * aws_trace) : string + A := (c st.1 st.2).1.1.

Fixpoint replay (start : Handler * aws_trace) (h : io_trace) : Handler * aws_trace :=
  match h with
  | [] => start
  | e :: h => step (backend_op e) (replay start h)
  end.

Definition AwsBackend (start : Handler * aws_trace) : ReconcileBackend := {|
  io_read h := answer (read_record thing) (replay start h);
  io_save s now verified h := answer (save_record thing s now verified) (replay start h);
  io_supported h := answer (quietly (has_capability thing "agent")) (replay start h);
  io_projection h := answer (quietly (projection thing)) (replay start h);
  io_runtime_verified s h := answer (runtime_verified thing s) (replay start h);
  io_identity h := answer (id ← acall AIdentity a_identity; mret (c_str id)) (replay start h);
  io_request rid a now h := answer (backend_request rid a now) (replay start h);
  io_launch r h := answer (launch (AgentController.request r) (run_id r)) (replay start h);
  io_get id h := answer (get id) (replay start h);
  io_terminate id h := answer (terminate id) (replay start h) |}.

Definition backend_clock (start : Handler * aws_trace) (h : io_trace) : string + Z := answer now_seconds (replay start h).
Definition backend_steady (start : Handler * aws_trace) (h : io_trace) : Z := a_steady (replay start h).2.

(** The history of one pass. *)
Definition pass (start : Handler * aws_trace) (now : Z) : (string + ReconcileResult) * io_trace :=
  reconcile (io:=AwsBackend start) (Some (backend_clock start)) (backend_steady start) now
    (cfg_release config) (activation_budget_seconds config) [].

(** The pass, on the clients. *)
Definition run_pass (now : Z) : P ReconcileResult := λ s t,
  let '(r, h) := pass (s, t) now in
  let '(s', t') := replay (s, t) h in (r, s', t').

(** [reconcile(backend, now_seconds(), release, now_seconds, budget)]. *)
Definition reconcile_once : P ReconcileResult := now ← now_seconds; run_pass now.

Definition reconcile_operations : list string :=
  ["lambda-microvms:RunMicrovm"; "lambda-microvms:GetMicrovm"; "lambda-microvms:TerminateMicrovm";
   "iot:GetThingShadow(agent)"; "iot:UpdateThingShadow(agent)"]%string.

(** The error that is recorded: the loop stops at the first operation that matches. *)
Fixpoint recorded_error (ops : list string) (detail : string) : string :=
  match ops with
  | [] => "controller reconciliation failed; inspect logs"
  | operation :: ops =>
      if negb (String.prefix (operation +:+ ": ") detail) then recorded_error ops detail else
      match rfind " HTTP " detail with
      | None => "controller reconciliation failed; inspect logs"
      | Some at_ =>
          let status := substr_from (at_ + 6) detail in
          if negb (string_empty status) && (string_size status <=? 3) && only_chars digits status
          then operation +:+ " HTTP " +:+ status else "controller reconciliation failed; inspect logs"
      end
  end.

Fixpoint attempts_loop (attempts : nat) : P unit :=
  match attempts with
  | O => mret tt
  | S attempts =>
      r ← reconcile_once;
      if bool_decide (r = settled) then mret tt else
      _ ← xwhen (bool_decide (attempts ≠ 0%nat)) (xemit ASleep);
      attempts_loop attempts
  end.

Definition reconcile_thing (attempts : nat) : P unit :=
  try_catch (attempts_loop attempts)
    (λ e,
       _ ← try_catch
             (snapshot ← read_record thing;
              now ← now_seconds;
              _ ← save_record thing (set_last_error (recorded_error reconcile_operations e) snapshot) now (verified_at snapshot);
              mret tt)
             (λ _, mret tt);
       throw e).
End Backend.

(** ** Samples *)

Definition same_assignment (r : RunReservation) (latest : ControllerSnapshot) : bool :=
  match snap_run latest with
  | Some l => bool_decide (run_id l = run_id r) && bool_decide (microvm_id l = microvm_id r) && bool_decide (phase l = running)
  | None => false
  end.

Definition sample_thing (thing : string) (stop_only : bool) : P unit :=
  snapshot ← read_record thing;
  match snap_run snapshot with
  | None => mret tt
  | Some r =>
      if negb (bool_decide (phase r = running)) then mret tt else
      host ← get (microvm_id r);
      if negb (bool_decide (cr_id host = microvm_id r)) || negb (bool_decide (cr_state host = "RUNNING"%string)) then mret tt else
      status ← read_status host;
      latest ← read_record thing;
      if negb (same_assignment r latest) then mret tt else
      if runtime_stopped_for latest thing status then
        now ← now_seconds;
        ok ← save_record thing (stop_run latest) now (verified_at latest);
        xwhen ok (terminate (microvm_id r))
      else if stop_only then mret tt else
      now ← now_seconds;
      if negb (activation_authorized (snap_activation latest) now) then mret tt else
      capable ← has_capability thing "agent";
      if negb capable then mret tt else
      fresh ← projection thing;
      if negb (default false (obs_active fresh)) || negb (obs_version fresh =? projection_version (snap_activation latest))
         || negb (obs_source_timestamp_ms fresh =? source_timestamp_ms (snap_activation latest)) then mret tt else
      now ← now_seconds;
      patch ← runtime_sample_patch latest (endpoint host) status now;
      _ ← update_agent_shadow thing patch;
      mret tt
  end.

Definition note_sample_error (thing : string) : P unit :=
  try_catch
    (snapshot ← read_record thing;
     match snap_run snapshot with
     | None => mret tt
     | Some r =>
         if negb (bool_decide (phase r = running)) then mret tt else
         now ← now_seconds;
         _ ← save_record thing (set_last_error "runtime status sampling failed; inspect controller logs" snapshot) now (verified_at snapshot);
         mret tt
     end)
    (λ _, mret tt).

(** ** Orphans *)

(** The identities in an authenticated status. *)
Definition status_identity (id body : string) : option (string * string * bool) :=
  match json_parse (c_str body) with
  | None => None
  | Some status =>
      if negb (IsObject status) || negb (string_member status "thingId") || negb (string_member status "runId")
         || negb (string_member status "microvmId") || negb (bool_decide (GetString status "microvmId" = c_str id)) then None else
      let thing := c_str (GetString status "thingId") in
      let rid := c_str (GetString status "runId") in
      if bad_thing thing || string_empty rid || (128 <? string_size rid) then None
      else Some (thing, rid, string_member status "phase" && bool_decide (GetString status "phase" = "stopped"%string))
  end.

(** The current record of the Thing: [supported], the snapshot, and whether the
    record is known to be missing. *)
Definition orphan_record (thing : string) : P (option bool * option ControllerSnapshot * bool) :=
  try_catch
    (capable ← has_capability thing "agent";
     r ← try_catch (s ← read_record thing; mret (Some s, false))
           (λ e, if shadow_not_found e then mret (None, true) else throw e);
     mret (Some capable, r.1, r.2))
    (λ e, if thing_not_found e then mret (Some false, None, true) else throw e).

Definition refresh_orphan (thing rid id : string) (supported : option bool) (snapshot : option ControllerSnapshot) (now : Z)
    : P (option ControllerSnapshot) :=
  match supported, snapshot with
  | Some true, Some s =>
      match snap_run s with
      | Some r =>
          if bool_decide (run_id r = rid) && (string_empty (microvm_id r) || bool_decide (microvm_id r = id)) then
            try_catch (p ← projection thing; o ← observe_orphan_inactive s p now; mret (Some o.2)) (λ _, mret (Some s))
          else mret (Some s)
      | None => mret (Some s)
      end
  | _, _ => mret snapshot
  end.

Definition terminate_confirmed_orphan (id : string) : P unit :=
  host ← get id;
  if negb (bool_decide (cr_id host = id)) || negb (bool_decide (cr_state host = "RUNNING"%string)) then mret tt else
  body ← read_status host;
  match status_identity id body with
  | None => mret tt
  | Some (thing, rid, stopped) =>
      r ← orphan_record thing;
      let '(supported, snapshot, missing) := r in
      now ← now_seconds;
      snapshot ← refresh_orphan thing rid id supported snapshot now;
      match orphan_action supported snapshot missing rid id stopped now, snapshot with
      | fence_then_terminate, Some s =>
          let '(bound, s) := bind_stopping_orphan s rid id in
          if negb bound then mret tt else
          now ← now_seconds;
          ok ← save_record thing s now (verified_at s);
          xwhen ok (terminate id)
      | terminate_orphan, _ => terminate id
      | _, _ => mret tt
      end
  end.

(** ** The drains *)

(** [AwsDrain::fence]. *)
Definition drain_fence_thing (img thing : string) : P bool :=
  try_catch
    (snapshot ← read_record thing;
     match snap_run snapshot with
     | None => mret true
     | Some r =>
         launched ← saved_launch_image (AgentController.request r) (run_id r) thing (activation_id r);
         if negb (bool_decide (launched = img)) then _ ← xmodify set_mismatched; mret false else
         if bool_decide (phase r = stopping) then mret true else
         now ← now_seconds;
         save_record thing (set_last_error "automation disabled" (stop_run snapshot)) now (verified_at snapshot)
     end)
    (λ e, if shadow_not_found e then mret true else throw e).

(** [AwsKnownDrain]. *)
Definition known_read (thing : string) : P (option ControllerSnapshot) :=
  try_catch (s ← read_record thing; mret (Some s)) (λ e, if shadow_not_found e then mret None else throw e).
Definition known_fence (thing : string) (snapshot : ControllerSnapshot) : P bool :=
  now ← now_seconds;
  save_record thing (set_last_error "automation disabled; image inventory unavailable or mismatched" (stop_run snapshot)) now
    (verified_at snapshot).

(** [AwsDrain::inventory] visits the pages of [for_each_page] as it fetches them.
    [Paging]: the pages fetched, the token and the tokens seen, and whether the last
    page asks to stop or to fail. *)
Record Paging := mk_paging { p_pages : nat; p_token : string; p_seen : gset string; p_done : bool; p_cyclic : bool }.
Definition first_page : Paging := mk_paging 0 EmptyString ∅ false false.

(** The next page; there are none after the last. *)
Definition next_page (img : string) (p : Paging) : P (list CloudRun * Paging) :=
  if p_cyclic p then throw "lambda-microvms:ListMicrovms pagination did not advance" else
  if (1000 <=? p_pages p)%nat then throw "lambda-microvms:ListMicrovms pagination limit exceeded" else
  r ← list_page img (p_token p);
  mret (r.1, mk_paging (S (p_pages p)) r.2 ({[r.2]} ∪ p_seen p) (string_empty r.2)
               (negb (string_empty r.2) && bool_decide (r.2 ∈ p_seen p))).
Definition fetch_page (img : string) (p : Paging) : P (list CloudRun * Paging) :=
  if p_done p then mret ([], p) else
  try_catch (if string_empty img then throw "image identity required for MicroVM inventory" else next_page img p)
    (λ e, _ ← xmodify set_inventory_failed; throw e).

Section Drains.
Context (img : string).

(** [AwsDrain], by the calls behind the events of a drain. *)
Definition drain_state : Type := (Handler * aws_trace) * Paging.

Definition drain_step (e : drain_event) (st : drain_state) : drain_state :=
  match e with
  | DPage _ =>
      let '(r, s, t) := fetch_page img st.2 st.1.1 st.1.2 in
      ((s, t), match r with inr r => r.2 | inl _ => st.2 end)
  | DThings _ => (step registered_things st.1, st.2)
  | DFence thing _ => (step (drain_fence_thing img thing) st.1, st.2)
  | DTerminate id _ => (step (terminate id) st.1, st.2)
  | DRead _ _ | DDescribe _ _ | DFenceKnown _ _ _ => st
  end.
Fixpoint replay_drain (start : drain_state) (h : drain_trace) : drain_state :=
  match h with
  | [] => start
  | e :: h => drain_step e (replay_drain start h)
  end.

Definition AwsDrain (start : Handler * aws_trace) : DrainBackend := {|
  d_pages := replicate 1001 (λ h, let st := replay_drain (start, first_page) h in
                                  answer (r ← fetch_page img st.2; mret r.1) st.1);
  d_things h := answer registered_things (replay_drain (start, first_page) h).1;
  d_fence thing h := answer (drain_fence_thing img thing) (replay_drain (start, first_page) h).1;
  d_terminate id h := answer (terminate id) (replay_drain (start, first_page) h).1 |}.

Definition run_drain : P bool := λ s t,
  let '(r, _, h) := drain_disabled (io:=AwsDrain (s, t)) (mk_drain true ∅) [] in
  let st := replay_drain ((s, t), first_page) h in (r, st.1.1, st.1.2).
End Drains.

(** [AwsKnownDrain], in the same way. *)
Definition known_step (e : drain_event) (st : Handler * aws_trace) : Handler * aws_trace :=
  match e with
  | DThings _ => step registered_things st
  | DRead thing _ => step (known_read thing) st
  | DDescribe id _ => step (describe id) st
  | DFenceKnown thing snapshot _ => step (known_fence thing snapshot) st
  | DTerminate id _ => step (terminate id) st
  | DPage _ | DFence _ _ => st
  end.
Fixpoint replay_known (start : Handler * aws_trace) (h : drain_trace) : Handler * aws_trace :=
  match h with
  | [] => start
  | e :: h => known_step e (replay_known start h)
  end.

Definition AwsKnownDrain (start : Handler * aws_trace) : KnownDrainBackend := {|
  k_things h := answer registered_things (replay_known start h);
  k_read thing h := answer (known_read thing) (replay_known start h);
  k_describe id h := answer (d ← describe id; mret (host_run d, host_image d)) (replay_known start h);
  k_fence thing snapshot h := answer (known_fence thing snapshot) (replay_known start h);
  k_terminate id h := answer (terminate id) (replay_known start h) |}.

Definition run_known_drain : P bool := λ s t,
  let '(r, _, h) := drain_known_assignments (io:=AwsKnownDrain (s, t)) (mk_drain true ∅) [] in
  let st := replay_known (s, t) h in (r, st.1, st.2).

(** ** The events *)

Definition event_view (event : string) : P JsonView :=
  match json_parse (c_str event) with
  | Some view => if IsObject view then mret view else throw "invalid controller event"
  | None => throw "invalid controller event"
  end.
Definition scheduled (view : JsonView) : bool :=
  string_member view "source" && bool_decide (GetString view "source" = "aws.events"%string).

Definition handle_disabled_event (event : string) (config : ControllerConfig) : P unit :=
  view ← event_view event;
  if negb (scheduled view) then mret tt else
  let img := image (cloud config) in
  if placeholder img then mret tt else
  if negb (bool_decide (cfg_region (cloud config) = "eu-central-1"%string)) then throw "invalid drain region" else
  _ ← xmodify (λ _, new_handler);
  if string_empty img then
    _ ← run_known_drain;
    throw "image configuration missing; inspect and drain unidentified VMs manually"
  else
    done ← run_drain img;
    if done : bool then mret tt else
    h ← xget;
    _ ← xwhen (mismatched_image_ h || inventory_failed_ h) (_ ← run_known_drain; mret tt);
    throw "disabled agent drain incomplete; retry on next schedule".

(** The two closures of an event that names a Thing. *)
Definition event_reconcile (config : ControllerConfig) (thing : string) : P unit :=
  capable ← has_capability thing "agent";
  go ← (if capable : bool then mret true else
        try_catch (_ ← agent_shadow thing; mret true)
          (λ e, if shadow_not_found e then _ ← xmodify set_skip; mret false else throw e));
  xwhen go (reconcile_thing config thing 12).
Definition event_sample (thing : string) (stop_only : bool) : P unit :=
  h ← xget;
  if skip h then mret tt else
  try_catch (sample_thing thing stop_only)
    (λ e, _ ← log ("controller status: " +:+ e); xwhen (negb stop_only) (note_sample_error thing)).

(** The rounds that wait for pending starts. *)
Definition startup_visit (config : ControllerConfig) (thing : string) : P unit :=
  snapshot ← read_record thing;
  match snap_run snapshot with
  | Some r => xwhen (bool_decide (phase r = reserved)) (_ ← xmodify (set_pending true); reconcile_thing config thing 1)
  | None => mret tt
  end.
Fixpoint startup_rounds (config : ControllerConfig) (things : list string) (rounds : nat) : P unit :=
  match rounds with
  | O => mret tt
  | S rounds =>
      _ ← xmodify (set_pending false);
      ok ← controller_sweep_each things "startup" (startup_visit config);
      _ ← xmodify (λ h, set_complete (ok && AgentAws.complete h) h);
      h ← xget;
      if negb (pending h) then mret tt else
      _ ← xwhen (bool_decide (rounds ≠ 0%nat)) (xemit ASleep);
      startup_rounds config things rounds
  end.

Definition sweep_sample (thing : string) : P unit :=
  try_catch (sample_thing thing false)
    (λ e, if shadow_not_found e then mret tt else _ ← log ("controller status: " +:+ e); note_sample_error thing).

Definition inventory_visit (thing : string) : P unit :=
  snapshot ← read_record thing;
  match snap_run snapshot with
  | Some r =>
      if string_empty (microvm_id r)
      then xwhen (negb (bool_decide (phase r = stopping))) (xmodify (set_complete false))
      else xmodify (add_assigned (microvm_id r))
  | None => mret tt
  end.

Definition orphan_visit (id : string) : P unit :=
  try_catch (terminate_confirmed_orphan id) (λ e, log ("controller orphan verification: " +:+ e)).

(** A schedule. *)
Definition sweep (config : ControllerConfig) : P unit :=
  things ← registered_things;
  ok ← controller_sweep_each things "repair" (λ thing, reconcile_thing config thing 1);
  _ ← xmodify (set_complete ok);
  _ ← startup_rounds config things 12;
  _ ← for_each sweep_sample things;
  ok ← controller_sweep_each things "inventory" inventory_visit;
  _ ← xmodify (λ h, set_complete (ok && AgentAws.complete h) h);
  h ← xget;
  _ ← xwhen (negb (AgentAws.complete h)) (log "controller inventory incomplete; verifying orphan candidates independently");
  inventory ← list_runs (image (cloud config));
  for_each orphan_visit (orphan_candidates inventory (if AgentAws.complete h then assigned h else ∅)).

Definition handle_controller_event (event : string) (config : ControllerConfig) : P unit :=
  if negb (controller_configured config) then throw "controller release and hosting configuration is incomplete" else
  view ← event_view event;
  _ ← xmodify (λ _, new_handler);
  if string_member view "thingName" then
    let thing := c_str (GetString view "thingName") in
    if bad_thing thing then throw "invalid Thing identity in controller event" else
    controller_event_repair (event_reconcile config thing) (event_sample thing)
  else if negb (scheduled view) then throw "unknown controller event source" else sweep config.

(** What [main] runs for an invocation; [setting] is [TXING_AGENT_AUTOMATION]. *)
Definition invocation (setting event : string) (config : ControllerConfig) : P unit :=
  controller_dispatch_automation setting (controller_configured config)
    (handle_controller_event event config) (handle_disabled_event event config).

End Handler.
