(* ===== verification/AgentHandlerSafety.v ===== *)
(** * What an invocation of the controller may do

    The passes of [AgentReconcile] are proved for any backend; here they run on the
    AWS clients. The history of a pass and what the clients did are related event by
    event, which carries the rules of a pass over to the calls: in
    [handle_controller_event] a MicroVM is launched only from a reservation whose
    record was written to the shadow, and terminated only after a write that gives it
    up or after its own authenticated status and the record of the Thing it names show
    that no record assigns it. A controller that is not enabled launches nothing. *)
From stdpp Require Import gmap pretty.
From S2P Require Import Prelude Cpp AwsJson AgentSession AgentMicrovm AgentController AgentReconcile AgentReconcileSafety AgentShadow AgentCloud AgentRepair AgentSample AgentAws AgentHandler.

#[local] Open Scope Z_scope.

(** ** Every answer in the history of a pass is the backend's *)

Section Answered.
Context `{io : ReconcileBackend}.
Context (clock : option (io_trace → string + Z)) (steady : io_trace → Z) (now : Z).

Definition answered (e : io_event) (h : io_trace) : Prop :=
  match e with
  | ERead r => r = io_read h
  | ESave s n v r => r = io_save s n v h
  | ESupported r => r = io_supported h
  | EProjection r => r = io_projection h
  | ERuntimeVerified s r => r = io_runtime_verified s h
  | EIdentity r => r = io_identity h
  | ERequest rid a n r => r = io_request rid a n h
  | ELaunch run r => r = io_launch run h
  | EGet id r => r = io_get id h
  | ETerminate id r => r = io_terminate id h
  | EClock r => ∃ f, clock = Some f ∧ r = f h
  | AgentReconcile.ESteady r => r = inr (steady h)
  end.

Abbreviation I := (λ (_ : anchors) (h : io_trace), guarded answered h).
Abbreviation keeps c := (xkeeps I (λ _, I) c).

Lemma answered_call {A} (e : string + A → io_event) f : (∀ h, answered (e (f h)) h) → keeps (xcall e f).
Proof. intros He a h Hh. unfold xwp, xcall. destruct (f h) eqn:E; cbn; (split; [rewrite <- E; apply He|done]). Qed.
Lemma keeps_throw {A} m : keeps (throw (A:=A) m).
Proof. by intros a h Hh. Qed.

Ltac keeps_go :=
  repeat first
    [ xkeeps_step
    | apply keeps_throw
    | match goal with |- xkeeps _ _ (match ?x with _ => _ end) => destruct x end
    | apply answered_call; intros ?; cbn; solve [done|eauto]
    | apply xkeeps_modify; done
    | progress cbn beta iota ].

Lemma current_time_keeps : keeps (current_time clock steady now).
Proof. unfold current_time, steady_now. destruct clock eqn:E; keeps_go. Qed.

Lemma observe_activation_keeps st o budget : keeps (observe_activation st o now budget (Some identity)).
Proof. unfold observe_activation, allocate_activation, identity. keeps_go. Qed.

Lemma accept_launch_keeps st rid vm host current n : keeps (accept_launch st rid vm host current n).
Proof. unfold accept_launch. keeps_go. Qed.
Lemma reserve_run_keeps st current n rid release exact : keeps (reserve_run st current n rid release exact).
Proof. unfold reserve_run. keeps_go. Qed.

Lemma reconcile_observe_keeps budget s : keeps (reconcile_observe now budget s).
Proof. unfold reconcile_observe, supported, AgentReconcile.projection. keeps_go. apply observe_activation_keeps. Qed.
Lemma reconcile_unverified_keeps s current : keeps (reconcile_unverified clock steady now s current).
Proof. unfold reconcile_unverified. keeps_go; apply current_time_keeps. Qed.
Lemma reconcile_reserve_keeps release s current n : keeps (reconcile_reserve release s current n).
Proof. unfold reconcile_reserve, identity. keeps_go. apply reserve_run_keeps. Qed.

Lemma record_launch_keeps n saved c : keeps (record_launch clock steady now n saved c).
Proof.
  induction n as [|n IH]; cbn [record_launch]; unfold read, save, AgentReconcile.terminate; keeps_go;
    [apply current_time_keeps|apply accept_launch_keeps|done].
Qed.
Lemma reconcile_launch_keeps s current saved : keeps (reconcile_launch clock steady now s current saved).
Proof.
  unfold reconcile_launch, read, save. keeps_go; [apply current_time_keeps|apply record_launch_keeps].
Qed.
Lemma reconcile_assign_keeps s current saved : keeps (reconcile_assign clock steady now s current saved).
Proof.
  unfold reconcile_assign, supported, AgentReconcile.projection, read, save, AgentReconcile.terminate.
  keeps_go; first [apply current_time_keeps|apply accept_launch_keeps].
Qed.
Lemma reconcile_host_keeps s current saved : keeps (reconcile_host clock steady now s current saved).
Proof.
  unfold reconcile_host, reconcile_terminated, reconcile_suspended, read, save, AgentReconcile.terminate.
  keeps_go. apply reconcile_assign_keeps.
Qed.
Lemma reconcile_pass_keeps release budget : keeps (reconcile_pass clock steady now release budget).
Proof.
  unfold reconcile_pass, read, save. keeps_go;
    first [apply reconcile_observe_keeps|apply reconcile_unverified_keeps|apply reconcile_reserve_keeps
          |apply reconcile_launch_keeps|apply reconcile_host_keeps].
Qed.

Lemma reconcile_answered release budget : guarded answered (reconcile clock steady now release budget []).2.
Proof.
  unfold reconcile. destruct (_ || _); [done|].
  pose proof (reconcile_pass_keeps release budget (mk_anchors now (steady [])) [AgentReconcile.ESteady (inr (steady []))]) as Hw.
  unfold xwp in Hw. destruct (reconcile_pass _ _ _ _ _ _ _) as [[[]?]?]; apply Hw; done.
Qed.
End Answered.

(** ** What the client calls emit *)

Section Emits.
Context `{json : AwsJson, env : AwsEnv}.
Abbreviation P := (X aws_event Handler).

Definition emits (Q : aws_event → bool) {A} (c : P A) : Prop :=
  ∀ s t, ∃ l, (c s t).2 = l ++ t ∧ Forall (λ e, Q e = true) l.

Lemma emits_mono (Q Q' : aws_event → bool) {A} (c : P A) : (∀ e, Q e = true → Q' e = true) → emits Q c → emits Q' c.
Proof. intros HQ Hc s t. destruct (Hc s t) as (l&?&?). exists l. split; [done|]. eapply Forall_impl; eauto. Qed.

Section Rules.
Context (Q : aws_event → bool).

Lemma emits_ret {A} (a : A) : emits Q (mret a).
Proof. intros s t. by exists []. Qed.
Lemma emits_throw {A} m : emits Q (throw (A:=A) m).
Proof. intros s t. by exists []. Qed.
Lemma emits_get : emits Q xget.
Proof. intros s t. by exists []. Qed.
Lemma emits_modify f : emits Q (xmodify f).
Proof. intros s t. by exists []. Qed.
Lemma emits_emit e : Q e = true → emits Q (xemit e).
Proof. intros He s t. exists [e]. split; [done|]. by constructor. Qed.
Lemma emits_acall {A} (e : A → aws_event) f : (∀ a, Q (e a) = true) → emits Q (acall e f).
Proof. intros He s t. exists [e (f t)]. split; [done|]. by constructor. Qed.
Lemma emits_bind {A B} (c : P A) (f : A → P B) : emits Q c → (∀ a, emits Q (f a)) → emits Q (c ≫= f).
Proof.
  intros Hc Hf s t. unfold mbind, X_bind. destruct (Hc s t) as (l&El&Hl).
  destruct (c s t) as [[[m|a] s'] t']; cbn in El; subst t'; [by exists l|].
  destruct (Hf a s' (l ++ t)) as (l'&El'&Hl'). exists (l' ++ l). rewrite El', app_assoc. split; [done|]. by apply Forall_app.
Qed.
Lemma emits_try {A} (c : P A) h : emits Q c → (∀ e, emits Q (h e)) → emits Q (try_catch c h).
Proof.
  intros Hc Hh s t. unfold try_catch. destruct (Hc s t) as (l&El&Hl).
  destruct (c s t) as [[[m|a] s'] t']; cbn in El; subst t'; [|by exists l].
  destruct (Hh m s' (l ++ t)) as (l'&El'&Hl'). exists (l' ++ l). rewrite El', app_assoc. split; [done|]. by apply Forall_app.
Qed.
Lemma emits_when b (c : P unit) : emits Q c → emits Q (xwhen b c).
Proof. destruct b; [done|]. intros _. apply emits_ret. Qed.
Lemma emits_for_each {A} (body : A → P unit) l : (∀ a, emits Q (body a)) → emits Q (for_each body l).
Proof. intros Hb. induction l as [|a l IH]; cbn; [apply emits_ret|]. by apply emits_bind. Qed.
End Rules.
End Emits.

Ltac emits_step :=
  lazymatch goal with
  | |- emits _ (mret _) => apply emits_ret
  | |- emits _ (throw _) => apply emits_throw
  | |- emits _ xget => apply emits_get
  | |- emits _ (xmodify _) => apply emits_modify
  | |- emits _ (xemit _) => apply emits_emit; reflexivity
  | |- emits _ (acall _ _) => apply emits_acall; reflexivity
  | |- emits _ (mbind _ _) => apply emits_bind; [|intros ?]
  | |- emits _ (try_catch _ _) => apply emits_try; [|intros ?]
  | |- emits _ (xwhen _ _) => apply emits_when
  | |- emits _ (for_each _ _) => apply emits_for_each; intros ?
  | |- emits _ (match ?x with _ => _ end) => destruct x
  end.

(** Neither a launch nor a termination. *)
Definition aws_quiet (e : aws_event) : bool :=
  match e with
  | ARunMicrovm _ _ | ATerminateMicrovm _ _ => false
  | _ => true
  end.
Definition no_launch (e : aws_event) : bool := match e with ARunMicrovm _ _ => false | _ => true end.

Create HintDb emits.
Ltac emits_go := repeat (emits_step || solve [eauto with emits]).

Section Calls.
Context `{json : AwsJson, env : AwsEnv}.
Abbreviation P := (X aws_event Handler).
Abbreviation quiet c := (emits aws_quiet c).

Lemma checked_quiet {A} op (r : outcome A) : quiet (checked op r).
Proof. unfold checked. emits_go. Qed.
Hint Resolve checked_quiet : emits.

(** Parsers and printers. *)
Lemma descend_quiet view path m : quiet (descend view path m).
Proof. revert view. induction path; intros; cbn [descend]; emits_go. Qed.
Hint Resolve descend_quiet : emits.
Lemma parse_lifecycle_quiet text thing : quiet (parse_lifecycle text thing).
Proof. unfold parse_lifecycle. emits_go. Qed.
Hint Resolve parse_lifecycle_quiet : emits.
Lemma parse_projection_quiet text thing : quiet (parse_projection_observation text thing).
Proof. unfold parse_projection_observation. emits_go. Qed.
Hint Resolve parse_projection_quiet : emits.
Lemma parse_controller_shadow_quiet text : quiet (parse_controller_shadow text).
Proof.
  unfold parse_controller_shadow, AgentShadow.parse_run, parse_activation, parse_observation, optional, parse_phase,
    AgentShadow.object, AgentShadow.number, AgentShadow.str. emits_go.
Qed.
Lemma controller_shadow_patch_quiet s n v : quiet (controller_shadow_patch s n v).
Proof. unfold controller_shadow_patch. emits_go. Qed.
Lemma parse_request_quiet text rid : quiet (parse_request text rid).
Proof. unfold parse_request, check_hook, AgentCloud.field. emits_go. Qed.
Hint Resolve parse_controller_shadow_quiet controller_shadow_patch_quiet parse_request_quiet : emits.
Lemma make_cloud_request_quiet c thing rid aid dl n : quiet (make_cloud_request c thing rid aid dl n).
Proof. unfold make_cloud_request. emits_go. Qed.
Lemma saved_launch_image_quiet text rid thing aid : quiet (saved_launch_image text rid thing aid).
Proof. unfold saved_launch_image, AgentCloud.field. emits_go. Qed.
Lemma runtime_verified_for_quiet s thing sample n : quiet (runtime_verified_for s thing sample n).
Proof. unfold runtime_verified_for, field_is, sample_number, sample_field. emits_go. Qed.
Lemma microvm_https_endpoint_quiet value : quiet (microvm_https_endpoint value).
Proof. unfold microvm_https_endpoint. emits_go. Qed.
Lemma runtime_sample_patch_quiet s ep sample n : quiet (runtime_sample_patch s ep sample n).
Proof.
  unfold runtime_sample_patch, check_sample, must_be, sample_object, sample_number, sample_field, connection_state,
    microvm_https_endpoint. emits_go.
Qed.
Hint Resolve make_cloud_request_quiet saved_launch_image_quiet runtime_verified_for_quiet microvm_https_endpoint_quiet
  runtime_sample_patch_quiet : emits.

(** The device. *)
Lemma describe_thing_quiet thing : quiet (describe_thing thing).
Proof. unfold describe_thing. emits_go. Qed.
Hint Resolve describe_thing_quiet : emits.
Lemma has_capability_quiet thing c : quiet (has_capability thing c).
Proof. unfold has_capability. emits_go. Qed.
Lemma things_loop_quiet n token seen things : quiet (things_loop n token seen things).
Proof. revert token seen things. induction n; intros; cbn [things_loop]; emits_go. Qed.
Lemma resolve_quiet : quiet resolve_shadow_endpoint.
Proof. unfold resolve_shadow_endpoint. emits_go. Qed.
Hint Resolve has_capability_quiet things_loop_quiet resolve_quiet : emits.
Lemma shadow_quiet thing name : quiet (shadow thing name).
Proof. unfold shadow. emits_go. Qed.
Hint Resolve shadow_quiet : emits.
Lemma projection_quiet thing : quiet (projection thing).
Proof. unfold projection. emits_go. Qed.
Lemma update_quiet thing patch : quiet (update_agent_shadow thing patch).
Proof. unfold update_agent_shadow. emits_go. Qed.
Lemma describe_quiet id : quiet (describe id).
Proof. unfold describe. emits_go. Qed.
Hint Resolve projection_quiet update_quiet describe_quiet : emits.
Lemma read_record_quiet thing : quiet (read_record thing).
Proof. unfold read_record, agent_shadow. emits_go. Qed.
Lemma save_record_quiet thing s n v : quiet (save_record thing s n v).
Proof. unfold save_record. emits_go. Qed.
Lemma get_quiet id : quiet (get id).
Proof. unfold get. emits_go. Qed.
Lemma read_status_quiet host : quiet (read_status host).
Proof. unfold read_status, token. emits_go. Qed.
Lemma list_page_quiet img tok : quiet (list_page img tok).
Proof. unfold list_page. emits_go. Qed.
Hint Resolve read_record_quiet save_record_quiet get_quiet read_status_quiet list_page_quiet : emits.

Lemma now_seconds_quiet : quiet now_seconds.
Proof. unfold now_seconds. emits_go. Qed.
Lemma steady_clock_quiet : quiet steady_clock.
Proof. unfold steady_clock. emits_go. Qed.
Lemma log_quiet m : quiet (log m).
Proof. unfold log. emits_go. Qed.
Hint Resolve now_seconds_quiet steady_clock_quiet log_quiet : emits.

Lemma quietly_quiet {A} (c : P A) : quiet c → quiet (quietly c).
Proof. intros. unfold quietly. emits_go. Qed.
Lemma runtime_verified_quiet thing s : quiet (runtime_verified thing s).
Proof. unfold runtime_verified. repeat first [emits_step|apply quietly_quiet|solve [eauto with emits]]. Qed.
Hint Resolve quietly_quiet runtime_verified_quiet : emits.

Lemma page_loop_emits Q img n visit seen tok :
  (∀ e, aws_quiet e = true → Q e = true) → (∀ page, emits Q (visit page)) →
  emits Q (page_loop (list_page img) n visit seen tok).
Proof.
  intros HQ Hv. revert seen tok. induction n as [|n IH]; intros seen tok; cbn [page_loop]; [apply emits_throw|].
  apply emits_bind; [eapply emits_mono; [exact HQ|apply list_page_quiet]|]. intros [page next].
  emits_go.
Qed.
Lemma list_runs_quiet img : quiet (list_runs img).
Proof.
  unfold list_runs, for_each_page, AgentCloud.for_each_page. emits_go. apply page_loop_emits; [done|]. intros. emits_go.
Qed.
Hint Resolve list_runs_quiet : emits.

(** The parts of the handler that only read and write records. *)
Lemma note_sample_error_quiet thing : quiet (note_sample_error thing).
Proof. unfold note_sample_error. emits_go. Qed.
Lemma inventory_visit_quiet thing : quiet (inventory_visit thing).
Proof. unfold inventory_visit. emits_go. Qed.
Lemma drain_fence_quiet img thing : quiet (drain_fence_thing img thing).
Proof. unfold drain_fence_thing. emits_go. Qed.
Lemma known_read_quiet thing : quiet (known_read thing).
Proof. unfold known_read. emits_go. Qed.
Lemma known_fence_quiet thing s : quiet (known_fence thing s).
Proof. unfold known_fence. emits_go. Qed.
Lemma fetch_page_quiet img p : quiet (fetch_page img p).
Proof. unfold fetch_page, next_page. emits_go. Qed.
End Calls.

#[export] Hint Resolve read_record_quiet save_record_quiet get_quiet read_status_quiet has_capability_quiet projection_quiet
  now_seconds_quiet steady_clock_quiet log_quiet quietly_quiet runtime_verified_quiet make_cloud_request_quiet
  runtime_sample_patch_quiet update_quiet parse_request_quiet checked_quiet list_runs_quiet note_sample_error_quiet
  inventory_visit_quiet things_loop_quiet shadow_quiet describe_quiet drain_fence_quiet known_read_quiet known_fence_quiet
  fetch_page_quiet : emits.

(** ** The rules *)

Section Rules.
Context `{json : AwsJson, env : AwsEnv}.
Abbreviation P := (X aws_event Handler).

(** [c] can return [a]. *)
Definition returns {A} (c : P A) (a : A) : Prop := ∃ s t, (c s t).1.1 = inr a.

(** The shadow of the Thing accepted a write of this record. *)
Definition written (thing : string) (s : ControllerSnapshot) (t : aws_trace) : Prop :=
  ∃ n v patch, returns (controller_shadow_patch s n v) patch ∧ AUpdateShadow (c_str thing) patch (success tt) ∈ t.

(** The registry declared the capability. *)
Definition declares (entry capability : string) : Prop :=
  ∃ declared, declared_loop (getlines EmptyString (c_str entry)) ∅ = Some declared ∧ capability ∈ declared.
Definition declared_capable (thing : string) (t : aws_trace) : Prop :=
  ∃ type entry, ADescribeThing (c_str thing) (success (type, Some entry)) ∈ t ∧ declares entry "agent".

(** The lifecycle shadow showed this projection. *)
Definition projected (thing : string) (p : ProjectionObservation) (t : aws_trace) : Prop :=
  ∃ text, AGetShadow (c_str thing) "sparkplug" (success text) ∈ t ∧ returns (parse_projection_observation text thing) p.

(** A launch: the request is the one of a reservation that was written, for an
    activation that the same record holds; the capability and an active projection of
    the record's version were read. *)
Definition launch_justified (req : RunMicrovmRequest) (t : aws_trace) : Prop :=
  ∃ thing s r a p,
    written thing s t ∧ snap_run s = Some r ∧ returns (parse_request (AgentController.request r) (run_id r)) req ∧
    phase r ≠ stopping ∧ microvm_id r = EmptyString ∧
    activation (snap_activation s) = Some a ∧ act_id a = activation_id r ∧
    declared_capable thing t ∧ projected thing p t ∧ obs_active p = Some true ∧
    obs_version p = projection_version (snap_activation s).

(** The record of a Thing gives the MicroVM up: it was written so, and the MicroVM was
    launched before or a written record named it. *)
Definition gives_up (id : string) (t : aws_trace) : Prop :=
  ∃ thing s, written thing s t ∧ (∀ r, snap_run s = Some r → microvm_id r = id → phase r = stopping) ∧
    ((∃ req c, ARunMicrovm req (success c) ∈ t ∧ cr_id c = id) ∨
     (∃ s' r, written thing s' t ∧ snap_run s' = Some r ∧ microvm_id r = id)).

(** The MicroVM said, authenticated, whose it is, and no record of that Thing has it. *)
Definition record_lacks (thing rid id : string) (t : aws_trace) : Prop :=
  (∃ name, ADescribeThing (c_str thing) (failure name 404) ∈ t) ∨
  (∃ name, AGetShadow (c_str thing) "agent" (failure name 404) ∈ t) ∨
  (∃ text s, AGetShadow (c_str thing) "agent" (success text) ∈ t ∧ returns (parse_controller_shadow text) s ∧
     ∀ r, ¬ record_assigns (Some s) rid id s r).
Definition unassigned (id : string) (t : aws_trace) : Prop :=
  ∃ url auth pieces body thing rid stopped,
    AStatus url auth (Some (200, pieces)) ∈ t ∧ receive_body EmptyString pieces = Some body ∧
    status_identity id body = Some (thing, rid, stopped) ∧ record_lacks thing rid id t.

Definition aws_allowed (e : aws_event) (t : aws_trace) : Prop :=
  match e with
  | ARunMicrovm req _ => launch_justified req t
  | ATerminateMicrovm id _ => ∃ vm, id = c_str vm ∧ (gives_up vm t ∨ unassigned vm t)
  | _ => True
  end.

(** ** What an answer of a client shows *)

Lemma emits_extends Q {A} (c : P A) s t e : emits Q c → e ∈ t → e ∈ (c s t).2.
Proof. intros Hc He. destruct (Hc s t) as (l&->&_). apply elem_of_app. by right. Qed.

Lemma returns_intro {A} (c : P A) s t a s' t' : c s t = (inr a, s', t') → returns c a.
Proof. intros H. exists s, t. by rewrite H. Qed.

Lemma bind_inr {A B} (c : P A) (f : A → P B) s t b s' t' :
  (c ≫= f) s t = (inr b, s', t') → ∃ a s1 t1, c s t = (inr a, s1, t1) ∧ f a s1 t1 = (inr b, s', t').
Proof. unfold mbind, X_bind. destruct (c s t) as [[[m|a] s1] t1]; [done|]. eauto. Qed.

Lemma shadow_inr thing name s t text s' t' :
  shadow thing name s t = (inr text, s', t') → AGetShadow (c_str thing) name (success text) ∈ t'.
Proof.
  unfold shadow. intros (_&s1&t1&_&H)%bind_inr. apply bind_inr in H as (r&s2&t2&[= <- <- <-]&H).
  unfold checked in H. destruct (a_get_shadow _ _ _) as [x|]; [|done]. injection H as <- <- <-. by left.
Qed.

Lemma quiet_tail {A} (c : P A) s t r s' t' e : emits aws_quiet c → c s t = (r, s', t') → e ∈ t → e ∈ t'.
Proof. intros Hc H He. pose proof (emits_extends _ c s t e Hc He) as H'. by rewrite H in H'. Qed.

Lemma read_record_inr thing s t snap s' t' :
  read_record thing s t = (inr snap, s', t') →
  ∃ text, AGetShadow (c_str thing) "agent" (success text) ∈ t' ∧ returns (parse_controller_shadow text) snap.
Proof.
  unfold read_record, agent_shadow. intros (text&s1&t1&H1&H2)%bind_inr. exists text. split; [|by eapply returns_intro].
  apply shadow_inr in H1. eapply quiet_tail; [|exact H2|done]. apply parse_controller_shadow_quiet.
Qed.

Lemma projection_inr thing s t p s' t' : projection thing s t = (inr p, s', t') → projected thing p t'.
Proof.
  unfold projection. intros (text&s1&t1&H1&H2)%bind_inr. exists text. split; [|by eapply returns_intro].
  apply shadow_inr in H1. eapply quiet_tail; [|exact H2|done]. apply parse_projection_quiet.
Qed.

Lemma save_record_true thing snap n v s t s' t' :
  save_record thing snap n v s t = (inr true, s', t') → written thing snap t'.
Proof.
  unfold save_record. intros (patch&s1&t1&H1&H2)%bind_inr. exists n, v, patch. split; [by eapply returns_intro|].
  unfold update_agent_shadow in H2. destruct (json_parse _) as [root|]; [|done]. destruct (_ || _ || _ || _); [done|].
  apply bind_inr in H2 as (_&s2&t2&_&H2). apply bind_inr in H2 as (r&s3&t3&[= <- <- <-]&H).
  destruct (a_update_shadow _ _ _) as [[]|name code]; [|by destruct (code =? 409)]. injection H as <- <-. by left.
Qed.

Lemma has_capability_true thing s t s' t' :
  has_capability thing "agent" s t = (inr true, s', t') → declared_capable thing t'.
Proof.
  unfold has_capability, describe_thing. intros ([type entry]&s1&t1&H1&H2)%bind_inr.
  apply bind_inr in H1 as (r&s2&t2&[= <- <- <-]&H). unfold checked in H.
  destruct (a_describe_thing _ _) as [x|]; [|done]. injection H as -> <- <-. cbn [snd] in H2.
  destruct entry as [entry|]; [|done]. destruct (declared_loop _ _) as [declared|] eqn:Ed; [|done].
  destruct (_ || _ || _); [done|]. injection H2 as Hin <- <-. bool_simpl. exists type, entry. split; [by left|]. by exists declared.
Qed.

Lemma quietly_some {A} (c : P A) s t a s' t' : quietly c s t = (inr (Some a), s', t') → c s t = (inr a, s', t').
Proof.
  unfold quietly, try_catch, mbind, X_bind. destruct (c s t) as [[[m|x] s1] t1]; cbn; intros [=]; by simplify_eq.
Qed.
End Rules.

(** ** From the history of a pass to the calls *)

Section Lift.
Context `{json : AwsJson, env : AwsEnv}.
Abbreviation P := (X aws_event Handler).

Lemma written_mono thing s t t' : (∀ e, e ∈ t → e ∈ t') → written thing s t → written thing s t'.
Proof. intros He (n&v&patch&?&?). exists n, v, patch. auto. Qed.

Lemma launch_justified_mono req t t' : (∀ e, e ∈ t → e ∈ t') → launch_justified req t → launch_justified req t'.
Proof.
  intros He (thing&s&r&a&p&Hw&?&?&?&?&?&?&(type&entry&?&?)&(text&?&?)&?&?). exists thing, s, r, a, p.
  split_and!; try done; try by eapply written_mono.
  - exists type, entry. auto.
  - exists text. auto.
Qed.

Lemma record_lacks_mono thing rid id t t' : (∀ e, e ∈ t → e ∈ t') → record_lacks thing rid id t → record_lacks thing rid id t'.
Proof.
  intros He [[n ?]|[[n ?]|(text&s&?&?)]]; [left; exists n; auto|right; left; exists n; auto|].
  right; right. exists text, s. auto.
Qed.

Lemma emits_guarded {A} (c : P A) s t : emits aws_quiet c → guarded aws_allowed t → guarded aws_allowed (c s t).2.
Proof.
  intros Hc Ht. destruct (Hc s t) as (l&->&Hl). induction Hl as [|e l He _ IH]; [done|]. cbn. split; [by destruct e|done].
Qed.

Lemma launch_guarded exact rid s t :
  (∀ req, returns (parse_request exact rid) req → launch_justified req t) →
  guarded aws_allowed t → guarded aws_allowed (launch exact rid s t).2.
Proof.
  intros Hj Ht. unfold launch, mbind, X_bind at 1.
  pose proof (emits_guarded (parse_request exact rid) s t (parse_request_quiet _ _) Ht) as Ht1.
  pose proof (emits_extends aws_quiet (parse_request exact rid) s t) as Hx.
  destruct (parse_request exact rid s t) as [[[m|req] s1] t1] eqn:E; [done|]. cbn in Ht1, Hx.
  assert (Hl : launch_justified req t1).
  { eapply launch_justified_mono; [|eapply Hj, returns_intro, E]. intros e. apply Hx. apply parse_request_quiet. }
  unfold acall, X_bind. apply (emits_guarded (checked _ _)); [apply checked_quiet|]. by split.
Qed.

Lemma launch_success exact rid s t c s' t' :
  launch exact rid s t = (inr c, s', t') → ∃ req, ARunMicrovm req (success c) ∈ t'.
Proof.
  unfold launch. intros (req&s1&t1&_&H)%bind_inr. apply bind_inr in H as (r&s2&t2&[= <- <- <-]&H). exists req.
  unfold checked in H. destruct (a_run_microvm _ _) as [x|]; [|done]. injection H as -> <- <-. by left.
Qed.

Lemma terminate_guarded id s t :
  gives_up id t ∨ unassigned id t → guarded aws_allowed t → guarded aws_allowed (terminate id s t).2.
Proof.
  intros Hj Ht. unfold terminate, mbind, acall, X_bind. apply (emits_guarded (checked _ _)); [apply checked_quiet|].
  split; [|done]. by exists id.
Qed.

Section Pass.
Context (config : ControllerConfig) (thing : string) (start : Handler * aws_trace).
#[local] Existing Instance AwsBackend.
Abbreviation at_ h := (replay config thing start h).
Abbreviation answers := (guarded (answered (io:=AwsBackend config thing start) (Some (backend_clock config thing start))
                                    (backend_steady config thing start))).

Lemma op_emits e : emits (λ _, true) (backend_op config thing e).
Proof.
  destruct e; cbn [backend_op]; unfold backend_request, launch, terminate;
    repeat (emits_step || (eapply emits_mono; [|solve [eauto with emits]]; done)).
Qed.
Lemma op_quiet e : is_launch e = false → (∀ id r, e ≠ ETerminate id r) → emits aws_quiet (backend_op config thing e).
Proof. intros Hl Ht. destruct e; cbn [backend_op]; unfold backend_request; try done; emits_go. by destruct (Ht id r). Qed.

Lemma step_snd {A} (c : P A) st : (step c st).2 = (c st.1 st.2).2.
Proof. unfold step. by destruct (c _ _) as [[??]?]. Qed.
Lemma step_drop {A} (c : P A) st : step (_ ← c; mret tt) st = step c st.
Proof. unfold step, mbind, X_bind. by destruct (c _ _) as [[[]?]?]. Qed.
Lemma answer_inr {A} (c : P A) st a : inr a = answer c st → c st.1 st.2 = (inr a, (step c st).1, (step c st).2).
Proof. unfold answer, step. destruct (c _ _) as [[??]?]. cbn. by intros <-. Qed.

Lemma replay_extends h e : e ∈ (at_ h).2 → ∀ h2, e ∈ (at_ (h2 ++ h)).2.
Proof.
  intros He h2. induction h2 as [|x h2 IH]; [done|]. cbn [app replay]. rewrite step_snd.
  eapply emits_extends; [apply op_emits|done].
Qed.

(** What an event of the history says about the calls. *)
Definition reflected (e : io_event) (t : aws_trace) : Prop :=
  match e with
  | ESave s _ _ (inr true) => written thing s t
  | ESupported (inr (Some true)) => declared_capable thing t
  | EProjection (inr (Some p)) => projected thing p t
  | ELaunch _ (inr c) => ∃ req, ARunMicrovm req (success c) ∈ t
  | _ => True
  end.

Lemma reflected_mono e t t' : (∀ x, x ∈ t → x ∈ t') → reflected e t → reflected e t'.
Proof.
  intros Hx. unfold reflected. destruct e as [| s n v [m|[]]|[m|[[]|]]|[m|[p|]]| | | |r [m|c]| | | |]; try done.
  - by apply written_mono.
  - intros (type&entry&?&?). exists type, entry. auto.
  - intros (text&?&?). exists text. auto.
  - intros (req&?). exists req. auto.
Qed.

Lemma answered_reflected e h : answers (e :: h) → reflected e (at_ (e :: h)).2.
Proof.
  intros [He _]. unfold reflected. cbn [replay].
  destruct e as [| s n v [m|[]]|[m|[[]|]]|[m|[p|]]| | | |r [m|c]| | | |]; try done;
    cbn [answered io_save io_supported io_projection io_launch AwsBackend] in He; apply answer_inr in He;
    cbn [backend_op]; rewrite step_drop.
  - by eapply save_record_true.
  - apply quietly_some in He. by eapply has_capability_true.
  - apply quietly_some in He. by eapply projection_inr.
  - by eapply launch_success.
Qed.

Lemma history_reflected h e : answers h → e ∈ h → reflected e (at_ h).2.
Proof.
  induction h as [|x h IH]; intros Hh; [by intros ?%not_elem_of_nil|]. intros [->|He]%elem_of_cons; [by apply answered_reflected|].
  eapply reflected_mono; [|apply IH; [apply Hh|done]]. intros y Hy. by apply (replay_extends h y Hy [x]).
Qed.

Lemma launch_allowed_lifts r h req :
  answers h → launch_allowed r h → returns (parse_request (AgentController.request r) (run_id r)) req →
  launch_justified req (at_ h).2.
Proof.
  intros Hh (s&n&v&a&p&Hl%last_event_elem&?&?&?&?&?&Hs&Hp&?&?&_) Hr. exists thing, s, r, a, p.
  apply (history_reflected h _ Hh) in Hl, Hs, Hp. by split_and!.
Qed.

Lemma terminate_allowed_lifts id h : answers h → terminate_allowed id h → gives_up id (at_ h).2.
Proof.
  intros Hh (s&n&v&Hl%last_event_elem&Hst&Hk). exists thing, s. split; [by apply (history_reflected h _ Hh) in Hl|].
  split; [done|]. destruct Hk as [(r&c&Hc&Hid)|(s'&n'&v'&r&Hw&Hr&Hid)].
  - left. apply (history_reflected h _ Hh) in Hc as [req ?]. by exists req, c.
  - right. exists s', r. by apply (history_reflected h _ Hh) in Hw.
Qed.

Lemma replay_guarded h : guarded aws_allowed start.2 → answers h → guarded allowed h → guarded aws_allowed (at_ h).2.
Proof.
  intros Hs. induction h as [|e h IH]; intros Ha Hg; [done|]. cbn [replay]. rewrite step_snd.
  specialize (IH (proj2 Ha) (proj2 Hg)).
  assert (Hq : is_launch e = false → (∀ id r, e ≠ ETerminate id r) →
    guarded aws_allowed (backend_op config thing e (at_ h).1 (at_ h).2).2)
    by (intros; by apply emits_guarded; [apply op_quiet|]).
  destruct e as [| | | | | | |r c| |id c| |]; try (by apply Hq); cbn [backend_op].
  - rewrite <- step_snd, step_drop, step_snd. apply launch_guarded; [|done]. intros req Hr.
    eapply launch_allowed_lifts; [apply Ha|apply Hg|done].
  - apply terminate_guarded; [|done]. left. apply terminate_allowed_lifts; [apply Ha|apply Hg].
Qed.
End Pass.
End Lift.

(** ** The handler *)

Section Handler.
Context `{json : AwsJson, env : AwsEnv}.
Abbreviation P := (X aws_event Handler).
(** [std::chrono::steady_clock] does not go back. *)
Hypothesis steady_monotone : ∀ t l, a_steady t ≤ a_steady (l ++ t).

Abbreviation G := (λ (_ : Handler) (t : aws_trace), guarded aws_allowed t).
Abbreviation keeps c := (xkeeps G (λ _, G) c).

Lemma keeps_quiet {A} (c : P A) : emits aws_quiet c → keeps c.
Proof.
  intros Hc s t Ht. pose proof (emits_guarded c s t Hc Ht) as H. unfold xwp. by destruct (c s t) as [[[]?]?].
Qed.
Lemma keeps_try {A} (c : P A) h : keeps c → (∀ e, keeps (h e)) → keeps (try_catch c h).
Proof. apply xkeeps_try. Qed.

(** A program whose result is used. *)
Lemma keeps_then {A B} (c : P A) (f : A → P B) :
  keeps c →
  (∀ s t a s' t', c s t = (inr a, s', t') → guarded aws_allowed t' → xwp (f a) (λ _, G) (λ _, G) s' t') → keeps (c ≫= f).
Proof.
  intros Hc Hf s t Ht. apply xwp_bind. specialize (Hc s t Ht). unfold xwp in *.
  destruct (c s t) as [[[m|a] s'] t'] eqn:E; [done|]. by eapply Hf.
Qed.

Lemma run_pass_keeps config thing now : keeps (run_pass config thing now).
Proof.
  intros s t Ht. unfold xwp, run_pass, pass.
  pose proof (reconcile_answered (io:=AwsBackend config thing (s, t)) (Some (backend_clock config thing (s, t)))
    (backend_steady config thing (s, t)) now (cfg_release config) (activation_budget_seconds config)) as Ha.
  assert (Hg : guarded allowed (reconcile (io:=AwsBackend config thing (s, t)) (Some (backend_clock config thing (s, t)))
    (backend_steady config thing (s, t)) now (cfg_release config) (activation_budget_seconds config) []).2).
  { apply reconcile_guarded. intros h l. unfold backend_steady. induction l as [|e l IH]; [done|].
    cbn [app replay]. rewrite step_snd. destruct (op_emits config thing e (replay config thing (s, t) (l ++ h)).1
      (replay config thing (s, t) (l ++ h)).2) as (l'&->&_). etransitivity; [exact IH|apply steady_monotone]. }
  destruct (reconcile _ _ _ _ _ _) as [r h]. cbn in Ha, Hg.
  pose proof (replay_guarded config thing (s, t) h Ht Ha Hg) as Hr.
  destruct (replay config thing (s, t) h) as [s' t']. by destruct r.
Qed.

Ltac keeps_go :=
  repeat first
    [ solve [apply keeps_quiet; eauto with emits]
    | lazymatch goal with
      | |- xkeeps _ _ (try_catch _ _) => apply keeps_try; [|intros ?]
      | |- xkeeps _ _ (throw _) => apply keeps_quiet, emits_throw
      | |- xkeeps _ _ (xmodify _) => apply keeps_quiet, emits_modify
      | |- xkeeps _ _ (xemit _) => apply keeps_quiet, emits_emit; reflexivity
      | |- xkeeps _ _ (match ?x with _ => _ end) => destruct x
      end
    | xkeeps_step ].

Lemma attempts_keeps config thing n : keeps (attempts_loop config thing n).
Proof. induction n as [|n IH]; cbn [attempts_loop]; unfold reconcile_once; keeps_go; [apply run_pass_keeps|done]. Qed.
Lemma reconcile_thing_keeps config thing n : keeps (reconcile_thing config thing n).
Proof. unfold reconcile_thing. keeps_go. apply attempts_keeps. Qed.

(** A record that keeps a MicroVM only to stop it is written, then the MicroVM is
    terminated. *)
Lemma stop_then_terminate_keeps thing s id n v r :
  snap_run s = Some r → microvm_id r = id → phase r = stopping →
  keeps (ok ← save_record thing s n v; xwhen ok (terminate id)).
Proof.
  intros Hr Hid Hp. apply keeps_then; [apply keeps_quiet; eauto with emits|]. intros s0 t0 [] s' t' H Ht; [|done].
  apply save_record_true in H. pose proof (terminate_guarded id s' t') as Hg. unfold xwp, xwhen.
  assert (Hj : gives_up id t').
  { exists thing, s. split; [done|]. split; [intros r' Hr' _; congruence|]. right. by exists s, r. }
  specialize (Hg (or_introl Hj) Ht). by destruct (terminate id s' t') as [[[]?]?].
Qed.

Lemma sample_thing_keeps thing stop_only : keeps (sample_thing thing stop_only).
Proof.
  unfold sample_thing. apply xkeeps_bind; [keeps_go|]. intros snapshot. destruct (snap_run snapshot) as [r|]; [|keeps_go].
  apply xkeeps_if; [keeps_go|]. apply xkeeps_bind; [keeps_go|]. intros host. apply xkeeps_if; [keeps_go|].
  apply xkeeps_bind; [keeps_go|]. intros status. apply xkeeps_bind; [keeps_go|]. intros latest.
  destruct (same_assignment r latest) eqn:Es; cbn [negb]; [|keeps_go].
  destruct (runtime_stopped_for latest thing status); [|keeps_go].
  apply xkeeps_bind; [keeps_go|]. intros now. unfold same_assignment in Es.
  destruct (snap_run latest) as [l|] eqn:El; [|done]. bool_simpl.
  eapply (stop_then_terminate_keeps thing (stop_run latest) _ _ _ (set_phase stopping l)); [|done..].
  unfold stop_run, snap_run. cbn. unfold snap_run in El. by rewrite El.
Qed.

(** *** Orphans *)

Lemma read_status_inr host s t body s' t' :
  read_status host s t = (inr body, s', t') →
  ∃ url auth pieces, AStatus url auth (Some (200, pieces)) ∈ t' ∧ receive_body EmptyString pieces = Some body.
Proof.
  unfold read_status. intros (url&s1&t1&_&H)%bind_inr. apply bind_inr in H as (auth&s2&t2&_&H).
  apply bind_inr in H as (r&s3&t3&[= <- <- <-]&H). destruct (a_status _ _ _) as [[code pieces]|]; [|done].
  destruct (receive_body _ _) as [b|] eqn:Eb; [|done]. destruct (Z.eqb_spec code 200) as [->|]; [|done].
  injection H as <- <- <-. exists (url +:+ "/status"), auth, pieces. split; [by left|done].
Qed.

Lemma read_record_inl thing s t m s' t' :
  read_record thing s t = (inl m, s', t') →
  thing_not_found m = false ∧ (shadow_not_found m = true → ∃ n, AGetShadow (c_str thing) "agent" (failure n 404) ∈ t').
Proof.
  unfold read_record, agent_shadow, mbind, X_bind. pose proof (shadow_missing_wp thing "agent" s t) as Hs. unfold xwp in Hs.
  destruct (shadow thing "agent" s t) as [[[e|text] s1] t1].
  - intros [= <- <- <-]. destruct Hs as [? Hs]. split; [done|]. intros (n&rest&->)%Hs. exists n. by left.
  - intros H%parse_controller_shadow_throws. unfold other_error in H. bool_simpl. split; [done|congruence].
Qed.

Lemma orphan_record_inr thing rid id s t supported snapshot missing s' t' :
  orphan_record thing s t = (inr (supported, snapshot, missing), s', t') →
  (∀ sn r, snapshot = Some sn → ¬ record_assigns snapshot rid id sn r) → record_lacks thing rid id t'.
Proof.
  unfold orphan_record, try_catch at 1. intros H Hn. unfold record_lacks.
  destruct (has_capability thing "agent" s t) as [[[m|cap] s1] t1] eqn:Ec.
  - unfold mbind, X_bind in H. rewrite Ec in H. destruct (has_capability_throws _ _ _ _ _ _ _ Ec) as [_ Hm].
    destruct (thing_not_found m); [|done]. injection H as <- <- <- <- <-. left. auto.
  - unfold mbind, X_bind, try_catch at 1 in H. rewrite Ec in H.
    destruct (read_record thing s1 t1) as [[[m|sn] s2] t2] eqn:Er.
    + destruct (read_record_inl _ _ _ _ _ _ Er) as [Ht Hm]. destruct (shadow_not_found m) eqn:Em; cbn in H.
      * injection H as <- <- <- <- <-. right; left. auto.
      * by rewrite Ht in H.
    + cbn in H. injection H as <- <- <- <- <-. right; right. destruct (read_record_inr _ _ _ _ _ _ Er) as (text&?&?).
      exists text, sn. split_and!; try done. intros r. by apply Hn.
Qed.

Lemma quiet_then {A B} (c : P A) (f : A → P B) s t :
  emits aws_quiet c → guarded aws_allowed t →
  (∀ a s' t', c s t = (inr a, s', t') → guarded aws_allowed t' → (∀ e, e ∈ t → e ∈ t') → xwp (f a) (λ _, G) (λ _, G) s' t') →
  xwp (c ≫= f) (λ _, G) (λ _, G) s t.
Proof.
  intros Hc Ht Hf. apply xwp_bind. pose proof (emits_guarded c s t Hc Ht) as Hg. unfold xwp in *.
  destruct (c s t) as [[[m|a] s'] t'] eqn:E; [done|]. apply Hf; [done..|]. intros e. by eapply quiet_tail.
Qed.

Lemma observe_orphan_quiet sn p n : emits aws_quiet (observe_orphan_inactive sn p n).
Proof. intros s t. destruct (observe_orphan_inactive_spec sn p n s t) as (b&sn'&->&_). by exists []. Qed.
Lemma orphan_record_quiet thing : emits aws_quiet (orphan_record thing).
Proof. unfold orphan_record. emits_go. Qed.
Hint Resolve observe_orphan_quiet orphan_record_quiet : emits.
Lemma refresh_orphan_quiet thing rid id supported snapshot n : emits aws_quiet (refresh_orphan thing rid id supported snapshot n).
Proof. unfold refresh_orphan. emits_go. Qed.
Hint Resolve refresh_orphan_quiet : emits.

(** The observation of an orphan's projection leaves its run alone. *)
Lemma refresh_orphan_run thing rid id supported snapshot n s t snapshot' s' t' :
  refresh_orphan thing rid id supported snapshot n s t = (inr snapshot', s', t') →
  (snap_run <$> snapshot') = (snap_run <$> snapshot).
Proof.
  unfold refresh_orphan. intros H. destruct supported as [[]|]; [|by injection H as <- _ _..].
  destruct snapshot as [sn|]; [|by injection H as <- _ _]. destruct (snap_run sn) as [r|] eqn:Er; [|by injection H as <- _ _].
  destruct (_ && _); [|by injection H as <- _ _]. unfold try_catch, mbind, X_bind in H.
  destruct (projection thing s t) as [[[m|p] s1] t1]; [by injection H as <- _ _|].
  destruct (observe_orphan_inactive_spec sn p n s1 t1) as (b&sn'&E&Hrun&_). rewrite E in H. cbn in H.
  injection H as <- _ _. cbn. congruence.
Qed.

Lemma orphan_keeps id : keeps (terminate_confirmed_orphan id).
Proof.
  unfold terminate_confirmed_orphan. apply xkeeps_bind; [keeps_go|]. intros host. apply xkeeps_if; [keeps_go|].
  apply keeps_then; [keeps_go|]. intros s0 t0 body s1 t1 (url&auth&pieces&Hs&Hb)%read_status_inr Ht1.
  destruct (status_identity id body) as [[[thing rid] stopped]|] eqn:Ei; [|done].
  apply quiet_then; [eauto with emits|done|]. intros [[supported snapshot] missing] s2 t2 Hrec Ht2 H12.
  apply quiet_then; [eauto with emits|done|]. intros now s3 t3 _ Ht3 H23.
  apply quiet_then; [eauto with emits|done|]. intros snapshot' s4 t4 Hrun%refresh_orphan_run Ht4 H34.
  pose proof (orphan_action_spec supported snapshot' missing rid id stopped now) as Hact.
  destruct (orphan_action _ _ _ _ _ _ _); [done..| |].
  - destruct Hact as [_ Hno]. assert (Hu : unassigned id t4).
    { exists url, auth, pieces, body, thing, rid, stopped. split_and!; [auto|done|done|].
      eapply record_lacks_mono; [intros e He; apply H34, H23, He|]. eapply orphan_record_inr; [exact Hrec|].
      intros sn r -> (_&Hr&Hid). destruct snapshot' as [sn'|]; [|done]. cbn in Hrun. injection Hrun as Hrun.
      apply (Hno sn' r). split; [done|]. by rewrite Hrun. }
    pose proof (terminate_guarded id s4 t4 (or_intror Hu) Ht4) as Hg. unfold xwp.
    by destruct snapshot', (terminate id s4 t4) as [[[]?]?].
  - destruct snapshot' as [sn|]; [|done]. unfold bind_stopping_orphan. destruct (snap_run sn) as [r|]; [|done].
    destruct (_ || _); [done|]. cbn [negb]. apply quiet_then; [eauto with emits|done|]. intros n s5 t5 _ Ht5 _.
    by eapply stop_then_terminate_keeps.
Qed.

(** *** Events *)

Lemma sweep_each_keeps things stage visit : (∀ thing, keeps (visit thing)) → keeps (controller_sweep_each things stage visit).
Proof. intros Hv. induction things as [|thing things IH]; cbn [controller_sweep_each]; keeps_go; auto. Qed.
Lemma startup_rounds_keeps config things n : keeps (startup_rounds config things n).
Proof.
  induction n as [|n IH]; cbn [startup_rounds]; keeps_go; [|done]. apply sweep_each_keeps. intros thing.
  unfold startup_visit. keeps_go. apply reconcile_thing_keeps.
Qed.
Lemma sweep_keeps config : keeps (sweep config).
Proof.
  unfold sweep, registered_things. keeps_go.
  - apply sweep_each_keeps. intros. apply reconcile_thing_keeps.
  - apply startup_rounds_keeps.
  - unfold sweep_sample. keeps_go. apply sample_thing_keeps.
  - apply sweep_each_keeps. intros. keeps_go.
  - unfold orphan_visit. keeps_go. apply orphan_keeps.
Qed.

Lemma event_repair_keeps (reconcile : P unit) sample :
  keeps reconcile → (∀ b, keeps (sample b)) → keeps (controller_event_repair reconcile sample).
Proof. intros Hr Hs. unfold controller_event_repair. keeps_go; auto. Qed.

Lemma controller_event_keeps event config : keeps (handle_controller_event event config).
Proof.
  unfold handle_controller_event, event_view. keeps_go; [|apply sweep_keeps]. apply event_repair_keeps.
  - unfold event_reconcile, agent_shadow. keeps_go. apply reconcile_thing_keeps.
  - intros b. unfold event_sample. keeps_go. apply sample_thing_keeps.
Qed.
End Handler.

(** *** A controller that is not enabled *)

Section Disabled.
Context `{json : AwsJson, env : AwsEnv}.
Abbreviation P := (X aws_event Handler).

Lemma quiet_no_launch {A} (c : P A) : emits aws_quiet c → emits no_launch c.
Proof. apply emits_mono. by intros []. Qed.
Lemma terminate_no_launch id : emits no_launch (terminate id).
Proof. unfold terminate. emits_go. apply quiet_no_launch, checked_quiet. Qed.

(** Nothing was launched since [t0]. *)
Definition launched_nothing (t0 t : aws_trace) : Prop := ∃ l, t = l ++ t0 ∧ Forall (λ e, no_launch e = true) l.

Lemma step_no_launch {A} (c : P A) t0 st : emits no_launch c → launched_nothing t0 st.2 → launched_nothing t0 (step c st).2.
Proof.
  intros Hc (l&E&Hl). rewrite step_snd. destruct (Hc st.1 st.2) as (l'&->&Hl'). exists (l' ++ l). rewrite E, app_assoc.
  split; [done|]. by apply Forall_app.
Qed.

Lemma replay_known_no_launch start h : launched_nothing start.2 (replay_known start h).2.
Proof.
  induction h as [|e h IH]; cbn [replay_known]; [by exists []|]. unfold known_step, registered_things.
  destruct e; try done; apply step_no_launch; try done; first [apply terminate_no_launch|apply quiet_no_launch; eauto with emits].
Qed.
Lemma replay_drain_no_launch img start h : launched_nothing start.1.2 (replay_drain img start h).1.2.
Proof.
  induction h as [|e h IH]; cbn [replay_drain]; [by exists []|]. unfold drain_step, registered_things.
  destruct e; try done; try (apply step_no_launch; try done; first [apply terminate_no_launch|apply quiet_no_launch; eauto with emits]).
  pose proof (step_no_launch (fetch_page img (replay_drain img start h).2) start.1.2 (replay_drain img start h).1
    ltac:(apply quiet_no_launch; eauto with emits) IH) as H. rewrite step_snd in H.
  by destruct (fetch_page _ _ _ _) as [[??]?].
Qed.

Lemma known_drain_no_launch : emits no_launch run_known_drain.
Proof. intros s t. unfold run_known_drain. destruct (drain_known_assignments _ _) as [[r d] h]. apply (replay_known_no_launch (s, t) h). Qed.
Lemma drain_no_launch img : emits no_launch (run_drain img).
Proof.
  intros s t. unfold run_drain. destruct (drain_disabled _ _) as [[r d] h]. apply (replay_drain_no_launch img ((s, t), first_page) h).
Qed.
Lemma disabled_event_no_launch event config : emits no_launch (handle_disabled_event event config).
Proof.
  unfold handle_disabled_event, event_view. repeat emits_step; first [apply known_drain_no_launch|apply drain_no_launch].
Qed.
End Disabled.

(** *** The pages of a drain *)

Section Pages.
Context `{json : AwsJson, env : AwsEnv}.
Abbreviation P := (X aws_event Handler).
Context (img : string) (visit : list CloudRun → P unit).
Hypothesis visit_nothing : ∀ s t, visit [] s t = (inr tt, s, t).
Hypothesis visit_returns : ∀ page s t, ∃ s' t', visit page s t = (inr tt, s', t').

(** The pages that the backend of a drain fetches, each visited before the next. *)
Fixpoint fetch_pages (n : nat) (p : Paging) : P unit :=
  match n with
  | O => mret tt
  | S n => r ← fetch_page img p; _ ← visit r.1; fetch_pages n r.2
  end.

Lemma fetch_pages_done n p s t : p_done p = true → fetch_pages n p s t = (inr tt, s, t).
Proof.
  intros Hp. induction n as [|n IH]; [done|]. cbn [fetch_pages]. unfold mbind, X_bind, fetch_page. rewrite Hp. cbn.
  by rewrite visit_nothing, IH.
Qed.

Definition failing (c : P unit) : P unit := try_catch c (λ e, _ ← xmodify set_inventory_failed; throw e).

Lemma fetch_pages_loop n seen tok s t :
  (n ≤ 1000)%nat → string_empty img = false →
  fetch_pages (S n) (mk_paging (1000 - n) tok seen false false) s t = failing (page_loop (list_page img) n visit seen tok) s t.
Proof.
  intros Hn Hi. revert seen tok s t. induction n as [|n IH]; intros seen tok s t;
    change (fetch_pages (S ?k) ?p) with (r ← fetch_page img p; _ ← visit r.1; fetch_pages k r.2);
    unfold fetch_page, failing, next_page, try_catch; rewrite Hi; cbn [p_done p_cyclic p_pages p_token p_seen page_loop].
  - rewrite (proj2 (Nat.leb_le _ _)) by lia. done.
  - rewrite (proj2 (Nat.leb_gt _ _)) by lia. unfold mbind, X_bind.
    destruct (list_page img tok s t) as [[[m|[page next]] s1] t1]; [done|]. cbn [fst snd mret X_ret].
    destruct (visit_returns page s1 t1) as (s2&t2&E). rewrite E. cbn.
    destruct (string_empty next) eqn:Ee; cbn [negb andb].
    + by apply (fetch_pages_done (S n)).
    + case_bool_decide.
      * unfold fetch_page, next_page, mbind, X_bind, try_catch. cbn [p_done p_cyclic]. by rewrite Hi.
      * replace (S (999 - n)) with (1000 - n)%nat by lia. apply (IH ltac:(lia)).
Qed.

(** The drain reads the inventory of the client page by page, as [for_each_page] does:
    same calls, same visits, same failures. *)
Lemma drain_inventory_pages s t :
  string_empty img = false → fetch_pages 1001 first_page s t = failing (for_each_page img visit) s t.
Proof.
  intros Hi. unfold for_each_page, AgentCloud.for_each_page. rewrite Hi.
  apply (fetch_pages_loop 1000 ∅ EmptyString s t); [lia|done].
Qed.
End Pages.

(** ** Theorems *)

(** C3: In an invocation of the controller, exceptions included and whatever the
    services and the wall clock answer, every launch carries the request of a
    reservation that the shadow of its Thing accepted, for a declared capability and an
    active projection read from the services; every termination follows an accepted
    record that gives the MicroVM up, or an authenticated status and the record of the
    Thing it names, which does not assign it. *)
Theorem controller_event_effects `{json : AwsJson, env : AwsEnv} event config s t2 e t1 :
  (∀ t l, a_steady t ≤ a_steady (l ++ t)) →
  (handle_controller_event event config s []).2 = t2 ++ e :: t1 → aws_allowed e t1.
Proof.
  intros Hst Ht. apply (guarded_at aws_allowed t2). rewrite <- Ht.
  pose proof (controller_event_keeps Hst event config s [] I) as H. unfold xwp in H.
  by destruct (handle_controller_event _ _ _ _) as [[[]?]?].
Qed.

(** Without the setting enabled or with an incomplete configuration an invocation
    launches nothing, whatever happens, and it reports success only when the controller
    is disabled. *)
Theorem disabled_launches_nothing `{json : AwsJson, env : AwsEnv} setting event config s :
  setting ≠ "enabled"%string ∨ controller_configured config = false →
  xwp (invocation setting event config) (λ _ _ t, setting = "disabled"%string ∧ Forall (λ e, no_launch e = true) t)
    (λ _ _ t, Forall (λ e, no_launch e = true) t) s [].
Proof.
  intros Hd. unfold invocation, controller_dispatch_automation.
  assert (bool_decide (setting = "enabled"%string) && controller_configured config = false) as ->.
  { destruct Hd as [?| ->]; [by rewrite bool_decide_eq_false_2|by rewrite andb_false_r]. }
  apply xwp_bind. destruct (disabled_event_no_launch event config s []) as (l&E&Hl). rewrite app_nil_r in E.
  unfold xwp at 1. destruct (handle_disabled_event event config s []) as [[[m|[]] s'] t']; cbn in E; subst t'; [done|].
  case_bool_decide; [by apply xwp_ret|]. by apply xwp_throw.
Qed.

(** * An invocation on concrete services

    A Thing whose record holds a reservation that was never launched: the event
    reconciles it and launches. The service rejects the launch, so the invocation
    records the error, looks for a stopped runtime and fails. *)

Definition demo_record : ControllerSnapshot :=
  mk_snapshot 3 90 0 0 EmptyString
    (mk_controller (mk_activation_state 6 70 100 true true (Some (mk_activation "a1" 100 700)))
       (Some (mk_run "run-1" "a1" "1.2.3" "R" EmptyString reserved))).

Definition demo_table (text : string) : option json_value :=
  if String.eqb text "E" then Some (JObject [("thingName", JString "thing")]) else
  if String.eqb text "C" then Some (JObject [("source", JString "aws.events")]) else
  if String.eqb text "S" then
    Some (JObject [("version", JInt64 3); ("state", JObject [("reported", JObject (patch_reported demo_record 120 110))])]) else
  if String.eqb text "P" then
    Some (JObject [("version", JInt64 6); ("state", JObject [("reported", JObject
      [("topic", JObject [("deviceId", JString "thing"); ("namespace", JString "spBv1.0"); ("messageType", JString "DDATA")]);
       ("payload", JObject [("timestamp", JInt64 70);
          ("metrics", JObject [("redcon", JInt64 1); ("capability", JObject [("agent", JBool true)])])])])])]) else
  if String.eqb text "W" then Some (JObject [("version", JInt64 3)]) else
  if String.eqb text "R" then Some demo_request else if String.eqb text "H" then Some demo_hook else None.

#[local] Instance handler_documents : AwsJson := table_json demo_table (λ _, "W"%string).

#[local] Instance handler_services : AwsEnv := {|
  a_describe_thing _ _ := success ("unit"%string, Some "sparkplug,agent"%string);
  a_list_things _ _ := success (["thing"%string], EmptyString);
  a_describe_endpoint _ := success "data.example"%string;
  a_get_shadow _ name _ := success (if String.eqb name "agent" then "S" else "P")%string;
  a_update_shadow _ _ _ := success tt;
  a_run_microvm _ _ := failure "ThrottlingException" 429;
  a_get_microvm id _ := failure "ResourceNotFoundException" 404;
  a_terminate_microvm _ _ := success tt;
  a_list_microvms _ _ _ := success ([mk_cloud_run "vm-9" "RUNNING" EmptyString], EmptyString);
  a_token _ _ _ _ := success (Some "token"%string);
  a_status _ _ _ := None;
  a_wall _ := 120;
  a_steady _ := 0;
  a_identity _ := "run-2"%string |}.

Definition demo_config : ControllerConfig :=
  mk_config (mk_cloud_config "img" "1" "role" "logs" "eu-central-1") "1.2.3" 600.

Definition demo_invocation : aws_trace := (handle_controller_event "E" demo_config new_handler []).2.

Definition demo_launch : aws_event :=
  ARunMicrovm (mk_run_request "run-1" "img" "1" "role" "H" 580
                 ["arn:aws:lambda:eu-central-1:aws:network-connector:aws-network-connector:ALL_INGRESS"]
                 ["arn:aws:lambda:eu-central-1:aws:network-connector:aws-network-connector:INTERNET_EGRESS"] "logs")
    (failure "ThrottlingException" 429).

Lemma controller_event_effects_witness :
  demo_invocation = take 4 demo_invocation ++ demo_launch :: drop 5 demo_invocation ∧
  aws_allowed demo_launch (drop 5 demo_invocation).
Proof.
  assert (Ht : demo_invocation = take 4 demo_invocation ++ demo_launch :: drop 5 demo_invocation) by (vm_compute; reflexivity).
  split; [exact Ht|].
  exact (controller_event_effects "E" demo_config new_handler (take 4 demo_invocation) demo_launch (drop 5 demo_invocation)
           (λ _ _, Z.le_refl 0) Ht).
Defined.

Lemma disabled_launches_nothing_witness :
  xwp (invocation "disabled" "C" demo_config)
    (λ _ _ t, "disabled"%string = "disabled"%string ∧ Forall (λ e, no_launch e = true) t)
    (λ _ _ t, Forall (λ e, no_launch e = true) t) new_handler [].
Proof. apply disabled_launches_nothing. left. discriminate. Defined.
