(* ===== verification/AgentAttachSafety.v ===== *)
(** * What an attached client sends

    Runs of [Attachment] of [AgentAttach]: ticks and callbacks in any order. What is
    written to the MicroVM is bounded, comes from the operator within its authority
    ([AgentManual]) and in its order, and after a release asks for nothing. *)
From stdpp Require Import gmap.
From S2P Require Import Prelude Cpp AwsJson AgentController AgentReconcile AgentSample AgentShadow AgentAws AgentHandlerSafety AgentSession AgentManual AgentMicrovm AgentAttach.

#[local] Open Scope Z_scope.

(** ** What a history says *)

(** The frames that were written, and those that the operator forwarded and that were
    taken, the newest first. *)
Fixpoint frames_written (t : list att_event) : list Bytes :=
  match t with
  | [] => []
  | TWrite m _ :: t => if msg_binary m then msg_data m :: frames_written t else frames_written t
  | _ :: t => frames_written t
  end.
Fixpoint forwarded (t : list manual_event) : list Bytes :=
  match t with
  | [] => []
  | MSend frame true :: t => frame :: forwarded t
  | _ :: t => forwarded t
  end.
Definition frames_of (l : list Message) : list Bytes := map msg_data (filter (λ m, msg_binary m = true) l).

Lemma frames_of_cons m l : frames_of (m :: l) = if msg_binary m then msg_data m :: frames_of l else frames_of l.
Proof. unfold frames_of. rewrite filter_cons. by destruct (msg_binary m). Qed.

Definition type_message (type : string) : Message := mk_message (bytes_of_text (type_text type)) false.
(** What may still be sent after a release. *)
Definition farewell : list Message := [type_message "release"; type_message "status"; type_message "activity"].

Section Safety.
Context `{json : AwsJson, env : AttachEnv} (o : ManualOptions).

(** A tick or a callback; [att_run] is what the program reaches from its start. *)
Inductive att_step : Attachment * list att_event → Attachment * list att_event → Prop :=
  | att_tick c t c' t' : tick c t = (inr tt, c', t') → att_step (c, t) (c', t')
  | att_call c t why code c' t' : client_callback why c t = (inr code, c', t') → att_step (c, t) (c', t').

Definition att_run (until : Z) (c : Attachment) (t : list att_event) : Prop :=
  rtc att_step (new_attachment (new_manual o) [] until, []) (c, t).

(** ** The queue *)

Record queue_ok (c : Attachment) : Prop := {
  q_length : Z.of_nat (length (pending c)) ≤ 128;
  q_sizes : Forall (λ m, Z.of_nat (length (msg_data m)) ≤ 4096) (pending c);
  q_released : released c = true → Forall (.∈ farewell) (pending c) }.

Lemma enqueue_ok bytes binary c : queue_ok c → (released c = true → mk_message bytes binary ∈ farewell) → queue_ok (enqueue bytes binary c).2.
Proof.
  intros [Hl Hs Hr] Hm. unfold enqueue. destruct (done c || _ || _) eqn:E; [done|]. bool_simpl.
  assert (Hq : queue_ok (set_pending (pending c ++ [mk_message bytes binary]) c)).
  { split; cbn; [rewrite length_app; cbn; lia|apply Forall_app; split; [done|]; by apply Forall_singleton|].
    intros Hrel. apply Forall_app. split; [by apply Hr|]. apply Forall_singleton. by apply Hm. }
  cbn [snd]. cbn [connected]. destruct (AgentAttach.connected _); [by destruct Hq; split|done].
Qed.

Lemma enqueue_same bytes binary c : let c' := (enqueue bytes binary c).2 in
  released c' = released c ∧ incoming c' = incoming c ∧ operator c' = operator c ∧ operator_trace c' = operator_trace c ∧
  frames_of (pending c') = frames_of (pending c) ++ (if (enqueue bytes binary c).1 && binary then [bytes] else []).
Proof.
  unfold enqueue. destruct (done c || _ || _); cbn [fst snd andb]; [by rewrite app_nil_r|]. cbn [AgentAttach.connected].
  assert (H : frames_of (pending c ++ [mk_message bytes binary]) = frames_of (pending c) ++ (if binary then [bytes] else [])).
  { unfold frames_of. rewrite filter_app, map_app. f_equal. by destruct binary. }
  cbv zeta. destruct (AgentAttach.connected _); cbn; rewrite ?H; done.
Qed.

Lemma text_ok type c : queue_ok c → type_message type ∈ farewell → queue_ok (text (type_text type) c).2.
Proof. intros Hq Hm. unfold text. by apply enqueue_ok. Qed.

(** *** The actions *)

Lemma release_queue_ok c : queue_ok (release c).
Proof. unfold release. apply text_ok; [by split|]. by left. Qed.

Lemma act_ok e now c : queue_ok c → queue_ok (act e now c).
Proof.
  intros Hq. destruct e; cbn [act]; try done.
  - apply release_queue_ok.
  - unfold client_activity. destruct (_ || _); [|done].
    pose proof (text_ok "activity" c Hq ltac:(right; right; by left)) as Ht. unfold text in *.
    destruct (enqueue _ _ c) as [queued c1]. cbn in Ht. destruct queued; [by destruct Ht; split|done].
  - unfold acquire, text. destruct (released c) eqn:E; [done|]. apply enqueue_ok; [done|]. by rewrite E.
  - unfold send. destruct (released c) eqn:E; [done|]. apply enqueue_ok; [done|]. by rewrite E.
Qed.

Lemma release_same c : released (release c) = true ∧ incoming (release c) = incoming c ∧ operator (release c) = operator c ∧
  operator_trace (release c) = operator_trace c ∧ frames_of (pending (release c)) = [].
Proof.
  unfold release, text. destruct (enqueue_same (bytes_of_text (type_text "release")) false (set_pending [] (set_released true c))) as (Hr & Hi & Ho & Ht & Hf).
  by rewrite Hr, Hi, Ho, Ht, Hf, andb_false_r.
Qed.

Lemma text_same value c : let c' := (text value c).2 in
  released c' = released c ∧ incoming c' = incoming c ∧ operator c' = operator c ∧ operator_trace c' = operator_trace c ∧
  frames_of (pending c') = frames_of (pending c).
Proof.
  unfold text. destruct (enqueue_same (bytes_of_text value) false c) as (Hr & Hi & Ho & Ht & Hf). cbv zeta.
  by rewrite Hr, Hi, Ho, Ht, Hf, andb_false_r, app_nil_r.
Qed.

(** What an action does to the frames that wait. *)
Lemma act_frames e now c : let c' := act e now c in
  incoming c' = incoming c ∧ (released c = true → released c' = true) ∧
  frames_of (pending c') =
    match e with
    | MRelease => []
    | MSend frame _ => frames_of (pending c) ++ (if (send frame c).1 then [frame] else [])
    | _ => frames_of (pending c)
    end.
Proof.
  destruct e; cbn [act]; try done.
  - destruct (release_same c) as (Hr & Hi & _ & _ & Hf). cbv zeta. by rewrite Hr, Hi, Hf.
  - unfold client_activity. destruct (_ || _); [|done]. destruct (text_same (type_text "activity") c) as (Hr & Hi & _ & _ & Hf).
    destruct (text _ c) as [queued c1]. cbn [fst snd] in *.
    destruct queued; cbv zeta; cbn [pending released incoming set_last_activity]; rewrite Hr, Hi, Hf; done.
  - unfold acquire. destruct (released c) eqn:E; [done|]. set (value := c_str _).
    destruct (text_same value c) as (Hr & Hi & _ & _ & Hf). cbv zeta. by rewrite Hr, Hi, Hf.
  - unfold send. destruct (released c) eqn:E; [by rewrite app_nil_r|].
    destruct (enqueue_same frame true c) as (Hr & Hi & _ & _ & Hf). rewrite andb_true_r in Hf. cbv zeta. by rewrite Hr, Hi, Hf.
Qed.

(** *** A poll *)

Fixpoint answered (c : Attachment) (l t : list manual_event) : Prop :=
  match l with
  | [] => True
  | e :: l =>
      match e with MSend frame ok => ok = m_send (ManualEnv:=operator_env c) frame (l ++ t) | _ => True end ∧ answered c l t
  end.

Lemma replay_cons c e l t : replay c (length t) (e :: l ++ t) = act e (t_activity_clock (l ++ t)) (replay c (length t) (l ++ t)).
Proof.
  cbn [replay]. destruct (length (e :: l ++ t) <=? length t)%nat eqn:E; [|done]. apply Nat.leb_le in E. cbn in E. rewrite length_app in E. lia.
Qed.

Lemma replay_base c t : replay c (length t) t = c.
Proof. destruct t as [|e t]; [done|]. cbn [replay]. by rewrite Nat.leb_refl. Qed.

(** The frames in line and those written are, in this order, among those forwarded. *)
Definition in_order (c : Attachment) (written : list Bytes) (t : list manual_event) : Prop :=
  reverse (frames_of (pending c)) ++ written `sublist_of` forwarded t.

Lemma replay_ok c written l : queue_ok c → in_order c written (operator_trace c) → answered c l (operator_trace c) →
  let c' := replay c (length (operator_trace c)) (l ++ operator_trace c) in
  queue_ok c' ∧ incoming c' = incoming c ∧ (released c = true → released c' = true) ∧ in_order c' written (l ++ operator_trace c).
Proof.
  intros Hq Ho. induction l as [|e l IH]; intros Ha; [cbn [Datatypes.app]; rewrite replay_base; done|].
  cbn [answered] in Ha. destruct Ha as [He Ha]. destruct (IH Ha) as (Hq1 & Hi1 & Hr1 & Ho1). cbv zeta. cbn [Datatypes.app]. rewrite replay_cons.
  set (c1 := replay c _ (l ++ _)) in *. destruct (act_frames e (t_activity_clock (l ++ operator_trace c)) c1) as (Hi2 & Hr2 & Hf2).
  split_and!; [by apply act_ok|congruence|auto|]. unfold in_order in *. rewrite Hf2. cbn [forwarded].
  destruct e; try done.
  - cbn. etrans; [|exact Ho1]. by apply sublist_inserts_l.
  - cbn [m_send operator_env] in He. fold c1 in He. rewrite <- He. destruct ok; [|by rewrite app_nil_r].
    rewrite reverse_app. cbn. by apply sublist_skip.
Qed.

(** The operator's history in a poll holds the attachment's answers. *)
Section Answers.
Context (c : Attachment).
#[local] Instance c_env : ManualEnv := operator_env c.

Definition answers_since (_ : Manual) (t : list manual_event) : Prop :=
  ∃ l, t = l ++ operator_trace c ∧ answered c l (operator_trace c).

Abbreviation keeps_answers := (xkeeps answers_since (λ _, answers_since)).

Lemma answers_event e m t :
  match e with MSend frame ok => ok = m_send frame t | _ => True end → answers_since m t → answers_since m (e :: t).
Proof. intros He (l & -> & Hl). exists (e :: l). by split. Qed.

Lemma answers_mcall {A} (e : A → manual_event) f :
  (∀ t, match e (f t) with MSend frame ok => ok = m_send frame t | _ => True end) → keeps_answers (mcall e f).
Proof. intros He m t Hi. unfold mcall, xwp. apply answers_event; [apply He|done]. Qed.

Ltac answers_step :=
  first [xkeeps_step|apply xkeeps_modify; by intros|apply xkeeps_emit; intros; by apply answers_event|by apply answers_mcall].

Lemma report_error_answers detail : keeps_answers (report_error detail).
Proof. unfold report_error, diagnostic. repeat answers_step. Qed.

Lemma run_callback_answers cb : keeps_answers (run_callback cb).
Proof.
  unfold run_callback, on_telemetry, on_video, on_connection, on_control, diagnostic.
  repeat first [answers_step|apply report_error_answers].
Qed.

Lemma lock_answers {A} (p : X manual_event Manual A) : keeps_answers p → keeps_answers (AgentManual.lock p).
Proof. intros Hp. unfold AgentManual.lock. xkeeps_step; [|done]. by intros m t Hi. Qed.

Lemma disconnect_answers reason : keeps_answers (disconnect reason).
Proof. unfold disconnect, diagnostic. repeat first [answers_step|apply lock_answers]. Qed.

Lemma try_acquire_answers b : keeps_answers (try_acquire b).
Proof. unfold try_acquire. repeat first [answers_step|apply lock_answers]. Qed.

Lemma poll_loop_answers packets now : keeps_answers (poll_loop packets now).
Proof.
  induction packets as [|packets IH]; cbn [poll_loop]; [answers_step|]. unfold poll_datagram, forward_frame.
  repeat first [exact IH|apply disconnect_answers|apply try_acquire_answers|apply report_error_answers|answers_step|apply lock_answers].
Qed.

Lemma poll_answers now : keeps_answers (poll now).
Proof.
  unfold poll. repeat first [apply disconnect_answers|apply poll_loop_answers|apply try_acquire_answers|answers_step|apply lock_answers].
Qed.
End Answers.

(** ** Runs *)

Record att_inv (c : Attachment) (t : list att_event) : Prop := {
  n_queue : queue_ok c;
  n_incoming : Z.of_nat (length (incoming c)) ≤ 16384;
  n_order : in_order c (frames_written t) (operator_trace c);
  n_operator : ∃ pkt, manual_inv true o (true, true) pkt (operator c) (operator_trace c) }.

(** Assignments that do not touch the queue and the operator. *)
Lemma inv_same c c' t : att_inv c t → pending c' = pending c → Z.of_nat (length (incoming c')) ≤ 16384 → released c' = released c →
  operator c' = operator c → operator_trace c' = operator_trace c → att_inv c' t.
Proof.
  intros [[Hl Hs Hr] Hi Ho Hm] Ep Ei Er Eo Et. unfold in_order in Ho. split.
  - split; by rewrite ?Ep, ?Er.
  - done.
  - unfold in_order. by rewrite Ep, Et.
  - by rewrite Eo, Et.
Qed.

Lemma inv_poll c t now : att_inv c t → let c' := run_operator (λ env, poll (env:=env) now) c in
  att_inv c' t ∧ (released c = true → released c' = true).
Proof.
  intros [Hq Hi Ho [pkt Hm]]. unfold run_operator.
  pose proof (poll_keeps (env:=operator_env c) true o (λ _ _, eq_refl) now pkt _ _ Hm) as Hk.
  pose proof (poll_answers c now (operator c) (operator_trace c) (ex_intro _ [] (conj eq_refl I))) as Ha.
  unfold xwp in Hk, Ha. destruct (poll (env:=operator_env c) now (operator c) (operator_trace c)) as [[[e|[]] m'] t'] eqn:E; [done|].
  change (c_env c) with (operator_env c) in Ha. rewrite E in Ha. destruct Hk as [pkt' Hk]. destruct Ha as (l & -> & Hl).
  destruct (replay_ok c (frames_written t) l Hq Ho Hl) as (Hq' & Hi' & Hr' & Ho').
  cbv zeta. split; [|done]. split; [by destruct Hq'; split|by cbn; rewrite Hi'|done|by exists pkt'].
Qed.

Lemma inv_callback c t cb : att_inv c t → let c' := run_operator (λ env, run_callback (env:=env) cb) c in
  att_inv c' t ∧ (released c = true → released c' = true).
Proof.
  intros [Hq Hi Ho [pkt Hm]]. unfold run_operator.
  pose proof (run_callback_keeps (env:=operator_env c) true o (λ _ _, eq_refl) (true, true) pkt cb _ _ Hm) as Hk.
  pose proof (run_callback_answers c cb (operator c) (operator_trace c) (ex_intro _ [] (conj eq_refl I))) as Ha.
  unfold xwp in Hk, Ha. destruct (run_callback (env:=operator_env c) cb (operator c) (operator_trace c)) as [[[e|[]] m'] t'] eqn:E; [done|].
  change (c_env c) with (operator_env c) in Ha. rewrite E in Ha. destruct Ha as (l & -> & Hl).
  destruct (replay_ok c (frames_written t) l Hq Ho Hl) as (Hq' & Hi' & Hr' & Ho').
  cbv zeta. split; [|done]. split; [by destruct Hq'; split|by cbn; rewrite Hi'|done|by exists pkt].
Qed.

(** What is written since a point of the history; [rel] says that the attachment was
    released there. *)
Section Since.
Context (rel : bool) (t0 : list att_event).

Definition harmless (new : list att_event) : Prop := ∀ m sent, TWrite m sent ∈ new → m ∈ farewell.
Definition since (c : Attachment) (t : list att_event) : Prop :=
  att_inv c t ∧ (rel = true → released c = true ∧ ∃ new, t = new ++ t0 ∧ harmless new).
Abbreviation keeps := (xkeeps since (λ _, since)).

Lemma since_assign c c' t : since c t → att_inv c' t → (released c = true → released c' = true) → since c' t.
Proof. intros [_ Hr] Hi Hrel. split; [done|]. intros H. destruct (Hr H) as [H1 H2]. auto. Qed.

Lemma since_modify f : (∀ c, pending (f c) = pending c ∧ incoming (f c) = incoming c ∧ released (f c) = released c ∧
  operator (f c) = operator c ∧ operator_trace (f c) = operator_trace c) → keeps (xmodify f).
Proof.
  intros Hf. apply xkeeps_modify. intros c t Hs. destruct (Hf c) as (Hp & Hi & Hr & Ho & Ht). apply (since_assign c); [done| |by rewrite Hr].
  destruct Hs as [Hs _]. apply (inv_same c); [done|done| |done|done|done]. rewrite Hi. by apply n_incoming in Hs.
Qed.

Lemma since_event e c t : (∀ m sent, e ≠ TWrite m sent) → since c t → since c (e :: t).
Proof.
  intros He [[Hq Hi Ho Hm] Hr]. split.
  - split; try done. destruct e; try done. by destruct (He message sent).
  - intros H. destruct (Hr H) as (H1 & new & -> & Hn). split; [done|]. exists (e :: new). split; [done|].
    intros m sent [<-|?]%elem_of_cons; [by destruct (He m sent)|eauto].
Qed.

Lemma since_tcall {A} (e : A → att_event) f : (∀ a m sent, e a ≠ TWrite m sent) → keeps (tcall e f).
Proof. intros He c t Hs. unfold tcall, xwp. by apply since_event. Qed.

Lemma since_operator cb : keeps (operator_callback cb).
Proof.
  apply xkeeps_modify. intros c t Hs. destruct (inv_callback c t cb) as [H1 H2]; [by destruct Hs|]. by eapply since_assign.
Qed.

Lemma writeable_since : keeps client_writeable.
Proof.
  unfold client_writeable. xkeeps_step; [by apply since_modify|]. intros c t Hs. do 2 xwp_step. destruct (pending c) as [|m rest] eqn:Ep; [done|].
  apply xwp_bind, xwp_modify, xwp_bind. unfold tcall, xwp at 1. set (sent := t_write t).
  assert (Hs' : since (set_pending rest c) (TWrite m sent :: t)).
  { destruct Hs as [[[Hl Hsz Hq] Hi Ho Hm] Hr]. rewrite Ep in *. split.
    - split; [split|done| |done]; cbn; [cbn in Hl; lia|by inversion Hsz| |].
      + intros H. apply Hq in H. by inversion H.
      + unfold in_order in *. rewrite Ep, frames_of_cons in Ho. cbn [pending set_pending frames_written operator_trace].
        destruct (msg_binary m); [|done]. by rewrite reverse_cons, <- app_assoc in Ho.
    - intros H. destruct (Hr H) as (H1 & new & -> & Hn). split; [done|]. exists (TWrite m sent :: new). split; [done|].
      intros m' sent' [[= -> ->]|?]%elem_of_cons; [|eauto]. apply Hq in H1. by inversion H1. }
  clearbody sent. revert Hs'. generalize (set_pending rest c) (TWrite m sent :: t). clear.
  intros c t Hs. xwp_step; [done|]. apply xwp_bind. xwp_step; [|by apply xwp_ret].
  eapply xwp_mono; [by apply (since_modify (set_wants_write true))|..]; [|done]. intros [] c' t' Hs'. by apply xwp_ret.
Qed.

Lemma document_since view : keeps (receive_document view).
Proof.
  unfold receive_document. repeat first [xkeeps_step|apply since_operator|by apply since_modify].
Qed.

Lemma receive_since data first_fragment frame_is_binary final_fragment remaining :
  keeps (client_receive data first_fragment frame_is_binary final_fragment remaining).
Proof.
  unfold client_receive. intros c t Hs. do 2 xwp_step. apply xwp_bind.
  eapply (xwp_mono _ (λ _ c' t', since c' t') _ (λ _, since)); [|intros [] c1 t1 Hs1|done].
  { xwp_step; [|done]. by apply (since_modify (set_incoming_binary frame_is_binary)). }
  xwp_step; [done|]. apply Z.ltb_ge in Hb. apply xwp_bind, xwp_modify.
  assert (Hs2 : since (set_incoming (incoming c ++ data) c1) t1).
  { apply (since_assign c1); [done| |done]. destruct Hs1 as [Hs1 _]. apply (inv_same c1); try done. cbn. rewrite length_app. lia. }
  revert Hs2. generalize (set_incoming (incoming c ++ data) c1). clear -json. intros c Hs. revert c t1 Hs.
  match goal with |- ∀ c t, since c t → xwp ?p _ _ _ _ => change (keeps p) end.
  assert (Hclear : keeps (xmodify (set_incoming []))).
  { apply xkeeps_modify. intros c t Hs. apply (since_assign c); [done| |done]. destruct Hs as [Hs _]. by apply (inv_same c). }
  repeat first [exact Hclear|xkeeps_step|apply since_operator|apply document_since].
Qed.

Lemma client_callback_since why : keeps (client_callback why).
Proof.
  unfold client_callback. apply xkeeps_try; [|intros e; apply xkeeps_ret]. destruct why; try apply xkeeps_ret.
  - repeat first [xkeeps_step|by apply since_tcall].
  - repeat first [xkeeps_step|by apply since_modify].
  - apply writeable_since.
  - apply receive_since.
  - repeat first [xkeeps_step|by apply since_modify].
  - repeat first [xkeeps_step|by apply since_modify|apply since_operator].
Qed.

Lemma tick_since : keeps tick.
Proof.
  unfold tick. xkeeps_step; [by apply since_tcall|]. intros c t Hs. unfold tick_at, xwp. destruct (_ || _ || _).
  - set (c1 := if t_token_failed t then set_failed true c else c).
    assert (H1 : since c1 t) by (subst c1; destruct (t_token_failed t); [by apply (since_modify (set_failed true)) in Hs|done]).
    clearbody c1. apply (since_assign c1); [done| |].
    + destruct H1 as [[Hq Hi Ho Hm] _]. pose proof (release_same c1) as (Hr' & Hi' & Hop & Hot & Hf). pose proof (release_queue_ok c1) as [? ? ?].
      unfold in_order in Ho. split; [by split| | |].
      * cbn [incoming set_done]. by rewrite Hi'.
      * unfold in_order. cbn [pending operator_trace set_done]. rewrite Hf, Hot. etrans; [|exact Ho]. by apply sublist_inserts_l.
      * cbn [operator operator_trace set_done]. by rewrite Hop, Hot.
    + intros _. cbn [released set_done]. by apply release_same.
  - destruct (negb (established c)); [done|]. destruct (inv_poll c t a) as [H1 H2]; [by destruct Hs|].
    assert (Hs1 : since (run_operator (λ env, poll (env:=env) a) c) t) by (by eapply since_assign).
    revert Hs1. generalize (run_operator (λ env, poll (env:=env) a) c). clear -json. intros c Hs. destruct (_ <=? a); [|done].
    apply (since_assign c); [done| |].
    + destruct Hs as [[Hq Hi Ho Hm] _]. destruct (text_same (type_text "status") c) as (Hr & Hin & Hop & Hot & Hf).
      pose proof (text_ok "status" c Hq ltac:(right; by left)) as [? ? ?]. unfold in_order in Ho. split; [by split| | |].
      * cbn [incoming set_next_status]. by rewrite Hin.
      * unfold in_order. cbn [pending operator_trace set_next_status]. by rewrite Hf, Hot.
      * cbn [operator operator_trace set_next_status]. by rewrite Hop, Hot.
    + intros Hrel. cbn [released set_next_status]. by destruct (text_same (type_text "status") c) as (-> & _).
Qed.
End Since.

Lemma step_since rel t0 x y : att_step x y → since rel t0 x.1 x.2 → since rel t0 y.1 y.2.
Proof.
  intros [c t c' t' E|c t why code c' t' E] Hs; cbn [fst snd] in *.
  - pose proof (tick_since rel t0 c t Hs) as H. unfold xwp in H. by rewrite E in H.
  - pose proof (client_callback_since rel t0 why c t Hs) as H. unfold xwp in H. by rewrite E in H.
Qed.

Lemma steps_since rel t0 x y : rtc att_step x y → since rel t0 x.1 x.2 → since rel t0 y.1 y.2.
Proof. induction 1 as [|x y z Hxy _ IH]; [done|]. intros Hs. apply IH. by eapply step_since. Qed.

Lemma att_run_inv until c t : att_run until c t → att_inv c t.
Proof.
  intros Hr. apply (steps_since false []) in Hr; [by destruct Hr|]. split; [|done]. split; [by split| |by apply sublist_nil_l|].
  - done.
  - apply (manual_run_inv (env:=operator_env (new_attachment (new_manual o) [] until))); [done|]. apply manual_start.
Qed.

(** C23: Whatever the network, the clock and the local socket do, the frames that an
    attached client writes to the stream are, in order, frames that its operator
    forwarded, which it does only for packets of its ground station while it holds
    control; at most 128 messages wait, none longer than 4096 bytes, and at most 16384
    bytes are collected. *)
Theorem attachment_within_authority until c t : att_run until c t →
  frames_written t `sublist_of` forwarded (operator_trace c) ∧ guarded (manual_allowed o) (operator_trace c) ∧
  Z.of_nat (length (pending c)) ≤ 128 ∧ Forall (λ m, Z.of_nat (length (msg_data m)) ≤ 4096) (pending c) ∧
  Z.of_nat (length (incoming c)) ≤ 16384.
Proof.
  intros Hr. apply att_run_inv in Hr as [[Hl Hs _] Hi Ho [pkt (Hg & _)]]. split_and!; try done.
  etrans; [|exact Ho]. by apply sublist_inserts_l.
Qed.

(** After a release nothing is written but the release itself and the documents that carry
    no command. *)
Theorem released_attachment_harmless until c t c' t' : att_run until c t → released c = true → rtc att_step (c, t) (c', t') →
  ∃ new, t' = new ++ t ∧ ∀ m sent, TWrite m sent ∈ new → m ∈ farewell.
Proof.
  intros Hr Hrel Hs. apply att_run_inv in Hr. apply (steps_since true t) in Hs as [_ Hs].
  - destruct (Hs eq_refl) as (_ & new & ? & ?). by exists new.
  - split; [done|]. intros _. split; [done|]. exists []. split; [done|]. by intros m sent ?%not_elem_of_nil.
Qed.
End Safety.

(** ** The target *)

Section Target.
Context `{json : AwsJson, env : AwsEnv}.

(** A quiet call lengthens the history. *)
Lemma xwp_longer {A} (c : X aws_event Handler A) (Q : A → Handler → aws_trace → Prop) s t : emits aws_quiet c →
  (∀ a s' l, (c s t).1.1 = inr a → Q a s' (l ++ t)) → xwp c Q (λ _ _ _, True) s t.
Proof.
  intros Hc HQ. unfold xwp. destruct (Hc s t) as (l & El & _). destruct (c s t) as [[[e|a] s'] t']; [done|]. cbn in *. subst. by apply HQ.
Qed.

Lemma shadow_wp thing name (Q : string → Handler → aws_trace → Prop) s t :
  (∀ payload s' l, Q payload s' (AGetShadow (c_str thing) name (success payload) :: l ++ t)) →
  xwp (shadow thing name) Q (λ _ _ _, True) s t.
Proof.
  intros HQ. unfold shadow. apply xwp_bind, xwp_longer; [unfold resolve_shadow_endpoint; emits_go|]. intros [] s1 l _.
  apply xwp_bind. unfold acall, xwp at 1, checked. destruct (a_get_shadow _ _ _); [apply xwp_ret, HQ|by apply xwp_throw].
Qed.

(** The run that the shadow shows, read from its document, with the activation that
    authorizes it and the projection it belongs to. *)
Definition assigned (thing : string) (r : RunReservation) (t : aws_trace) : Prop :=
  ∃ payload snapshot now p s1 t1,
    AGetShadow (c_str thing) "agent" (success payload) ∈ t ∧ AWall now ∈ t ∧
    (parse_controller_shadow payload s1 t1 : (string + ControllerSnapshot) * Handler * aws_trace).1.1 = inr snapshot ∧
    AgentController.run (AgentReconcile.state snapshot) = Some r ∧ phase r = running ∧
    activation_authorized (ctl_activation (AgentReconcile.state snapshot)) now = true ∧ obs_active p = Some true ∧
    obs_version p = projection_version (ctl_activation (AgentReconcile.state snapshot)) ∧
    obs_source_timestamp_ms p = source_timestamp_ms (ctl_activation (AgentReconcile.state snapshot)).

Lemma current_assignment_spec snapshot now p r : current_assignment snapshot now p = Some r →
  AgentController.run (AgentReconcile.state snapshot) = Some r ∧ phase r = running ∧
  activation_authorized (ctl_activation (AgentReconcile.state snapshot)) now = true ∧ obs_active p = Some true ∧
  obs_version p = projection_version (ctl_activation (AgentReconcile.state snapshot)) ∧
  obs_source_timestamp_ms p = source_timestamp_ms (ctl_activation (AgentReconcile.state snapshot)).
Proof.
  unfold current_assignment. destruct (AgentController.run _) as [r'|]; [|done]. destruct (_ || _) eqn:E; [done|]. intros [= ->]. bool_simpl.
  split_and!; try done. by destruct (obs_active p) as [[]|].
Qed.

(** A token is asked for only for the MicroVM of the run that the shadow shows as running,
    whose activation is authorized now and belongs to the active projection, and which the
    service reports as running; the attachment ends four minutes after the token was asked for. *)
Theorem attach_target_current thing s t :
  xwp (attach_target thing)
    (λ x _ t', ∃ r host value started tail,
      t' = AToken (c_str (microvm_id r)) 8081 5 (success (Some value)) :: ASteady started ::
           AGetMicrovm (c_str (microvm_id r)) (success host) :: tail ∧
      assigned thing r tail ∧ cr_id (host_run host) = microvm_id r ∧ cr_state (host_run host) = "RUNNING"%string ∧
      x.1.2 = c_str value ∧ x.2 = started + seconds 240) (λ _ _ _, True) s t.
Proof.
  unfold attach_target. apply xwp_after. intros capable s1 t1. xwp_step; [by xwp_step|]. apply xwp_bind. unfold agent_shadow. apply shadow_wp.
  intros payload s2 l2. apply xwp_bind, xwp_longer; [apply parse_controller_shadow_quiet|]. intros snapshot s3 l3 Hsnap. apply xwp_bind.
  unfold now_seconds, acall, xwp at 1. set (now := a_wall _). apply xwp_bind. unfold projection. apply xwp_bind, shadow_wp. intros text s4 l4.
  apply xwp_longer; [apply parse_projection_quiet|]. intros p s5 l5 _. set (tail := l5 ++ _).
  destruct (current_assignment snapshot now p) as [r|] eqn:Er; [|by apply xwp_throw].
  assert (Ha : assigned thing r tail).
  { apply current_assignment_spec in Er. exists payload, snapshot, now, p. do 2 eexists. split_and!; [| |exact Hsnap|apply Er..]; subst tail; set_solver. }
  clearbody tail. clear Hsnap Er.
  apply xwp_bind. apply xwp_longer; [unfold reported_endpoint; emits_go|]. intros value s6 l6 _. apply xwp_bind, xwp_longer; [apply microvm_https_endpoint_quiet|].
  intros url s7 l7 _. assert (Ha' : assigned thing r (l7 ++ l6 ++ tail)).
  { destruct Ha as (pl & sn & nw & pr & sa & ta & H1 & H2 & Hrest). exists pl, sn, nw, pr, sa, ta. split_and!; [set_solver|set_solver|apply Hrest..]. }
  revert Ha'. generalize (l7 ++ l6 ++ tail). clear. intros tail Ha.
  apply xwp_bind. unfold AgentAws.get, describe. do 2 apply xwp_bind. unfold acall, xwp at 1, checked. destruct (a_get_microvm _ _) as [host|]; [|by apply xwp_throw].
  do 2 apply xwp_ret. apply xwp_bind. xwp_step; [by repeat xwp_step|]. bool_simpl. unfold microvm_https_endpoint.
  apply xwp_bind. xwp_step; [by xwp_step|]. do 2 apply xwp_ret. xwp_step; [by xwp_step|]. apply xwp_bind. unfold steady_clock, acall, xwp at 1.
  apply xwp_bind. unfold token. xwp_step; [by xwp_step|]. rewrite H. apply xwp_bind. unfold acall, xwp at 1. apply xwp_bind. unfold checked.
  destruct (a_token _ _ _ _) as [[value|]|]; [|by repeat xwp_step|by apply xwp_throw]. apply xwp_ret.
  xwp_step; [by xwp_step|]. xwp_step; [by xwp_step|]. do 2 apply xwp_ret. exists r, host, value. do 2 eexists. split_and!; done.
Qed.
End Target.

(** ** A client that flies *)

Definition demo_attach : AttachEnv := {|
  t_clock t := seconds (10 + Z.of_nat (length t)); t_interrupted _ := false; t_token_failed _ := false; t_header_fails _ := false;
  t_write t := 0;
  t_activity_clock t := seconds (Z.of_nat (length t));
  t_recv t := if bool_decide (last_packet t = None) || last_held t
              then match t with MRecv (recv_datagram _ _ _ _) :: _ | MSend _ _ :: _ => recv_failed EAGAIN | _ => recv_datagram true 14550 false demo_frame end
              else recv_failed EAGAIN;
  t_sendto _ _ := None |}.

(** The two documents that the server sends, under short names. *)
Definition demo_texts : AwsJson := table_json
  (λ text, if bool_decide (text = "connected"%string) then Some (JObject [("telemetry"%string, JObject [("state"%string, JInt64 2)])]) else
           if bool_decide (text = "held"%string) then Some (JObject [("type"%string, JString "control"); ("held"%string, JBool true)]) else None)
  (λ _, "acquire"%string).
Definition document (name : string) : client_reason := CLIENT_RECEIVE (bytes_of_text name) true false true 0.

(** Each step, or the state it starts in. *)
Inductive demo_move := go_tick | go (why : client_reason).
Definition demo_go (x : Attachment * list att_event) (d : demo_move) : Attachment * list att_event :=
  match d with
  | go_tick => match tick (json:=demo_texts) (env:=demo_attach) x.1 x.2 with (inr _, c, t) => (c, t) | _ => x end
  | go why => match client_callback (json:=demo_texts) (env:=demo_attach) why x.1 x.2 with (inr _, c, t) => (c, t) | _ => x end
  end.
Definition demo_moves : list demo_move :=
  [go CLIENT_ESTABLISHED; go (document "connected"); go_tick; go (document "held"); go_tick;
   go CLIENT_WRITEABLE; go CLIENT_WRITEABLE; go CLIENT_WRITEABLE; go CLIENT_WRITEABLE; go CLIENT_WRITEABLE].
Definition demo_flight := foldl demo_go (new_attachment (new_manual demo_options) [] (seconds 250), []) demo_moves.

Lemma demo_go_steps x moves : rtc (att_step (json:=demo_texts) (env:=demo_attach)) x (foldl demo_go x moves).
Proof.
  revert x. induction moves as [|d moves IH]; intros [c t]; [done|]. cbn [foldl]. etrans; [|apply IH]. destruct d as [|why]; cbn [demo_go fst snd].
  - destruct (tick c t) as [[[e|[]] c'] t'] eqn:E; [done|]. apply rtc_once. by apply att_tick.
  - destruct (client_callback why c t) as [[[e|code] c'] t'] eqn:E; [done|]. apply rtc_once. by eapply att_call.
Qed.

Lemma attachment_within_authority_witness :
  frames_written demo_flight.2 = [demo_frame] ∧ frames_written demo_flight.2 `sublist_of` forwarded (operator_trace demo_flight.1).
Proof.
  split; [vm_compute; reflexivity|].
  assert (Hr : att_run (json:=demo_texts) (env:=demo_attach) demo_options (seconds 250) demo_flight.1 demo_flight.2)
    by (unfold att_run; rewrite <- surjective_pairing; apply demo_go_steps).
  exact (proj1 (attachment_within_authority (json:=demo_texts) (env:=demo_attach) demo_options (seconds 250) demo_flight.1 demo_flight.2 Hr)).
Defined.

(** The time of the token ends with a frame in line; it is dropped for the release. *)
Definition demo_expired := foldl demo_go (new_attachment (new_manual demo_options) [] (seconds 12), []) (take 5 demo_moves ++ [go_tick]).
Definition demo_end := foldl demo_go demo_expired [go CLIENT_WRITEABLE; go CLIENT_WRITEABLE].

Lemma released_attachment_harmless_witness :
  released demo_expired.1 = true ∧ pending demo_expired.1 = [type_message "release"] ∧ ∃ new, demo_end.2 = new ++ demo_expired.2 ∧ ∀ m sent, TWrite m sent ∈ new → m ∈ farewell.
Proof.
  assert (Hrel : released demo_expired.1 = true) by (vm_compute; reflexivity). split; [exact Hrel|].
  split; [vm_compute; reflexivity|].
  apply (released_attachment_harmless (json:=demo_texts) (env:=demo_attach) demo_options (seconds 12) demo_expired.1 demo_expired.2 demo_end.1 demo_end.2).
  - unfold att_run. rewrite <- surjective_pairing. apply demo_go_steps.
  - exact Hrel.
  - rewrite <- !surjective_pairing. apply demo_go_steps.
Defined.
