(* ===== verification/RedconBle.v ===== *)
(** * The REDCON BLE device

    Model of [xiao_nrf54l15/src/redcon.c] and [include/txing_redcon.h], the
    firmware shared by the unit, power and weather devices: the device name from
    the factory record, the battery sample, the payloads of the GATT
    characteristics, the command characteristic and the work items behind it, the
    connection callbacks and the start sequence.

    The static variables are the record [redcon_state]; the Kconfig and
    devicetree values are [redcon_config]; the application's hooks are
    [txing_redcon_ops]. A callback or work handler runs to completion before the
    next one starts; the mutexes around single reads and writes have no other
    effect in that setting. *)
From S2P Require Import Prelude Zephyr.

(** ** Constants *)

Definition TXING_REDCON_PROTOCOL_VERSION : Z := 2.
Definition TXING_REDCON_LEVEL_1 : Z := 1.
Definition TXING_REDCON_ACTIVE : Z := 3.
Definition TXING_REDCON_IDLE : Z := 4.
Definition TXING_REDCON_COMMAND_PAYLOAD_SIZE : Z := 2.
Definition TXING_REDCON_WEATHER_MEASUREMENT_PAYLOAD_SIZE : Z := 11.
Definition TXING_REDCON_BLE_ADV_MAX_NAME_LEN : Z := 26.

Definition REDCON_CONN_INTERVAL_MIN_UNITS : Z := 6.
Definition REDCON_CONN_INTERVAL_MAX_UNITS : Z := 3200.
Definition REDCON_CONN_LATENCY_MAX : Z := 499.
Definition REDCON_CONN_SUPERVISION_MIN_UNITS : Z := 10.
Definition REDCON_CONN_SUPERVISION_MAX_UNITS : Z := 3200.
Definition REDCON_FACTORY_DATA_MAGIC : list Z := [84; 88; 82; 49].  (* "TXR1" *)
Definition REDCON_FACTORY_DATA_VERSION : Z := 1.
Definition REDCON_FACTORY_DEVICE_NAME_SIZE : Z := 26.

(** The ATT errors the service answers with. *)
Definition BT_ATT_ERR_INVALID_OFFSET : Z := 7.
Definition BT_ATT_ERR_UNLIKELY : Z := 14.
Definition BT_ATT_ERR_VALUE_NOT_ALLOWED : Z := 19.
Definition BT_GATT_ERR (e : Z) : Z := - e.

(** ** Configuration, hooks, platform, state *)

(** Kconfig values; [cf_*_reg] is the regulator of a devicetree node, if present. *)
Record redcon_config := mk_config {
  cf_command_levels_mask : Z;
  cf_preserve_level_on_disconnect : bool;
  cf_weather_measurement : bool;
  cf_bt_device_name_max : Z;
  cf_conn_interval_ms : Z;
  cf_conn_latency : Z;
  cf_conn_supervision_ms : Z;
  cf_notify_interval_s : Z;
  cf_idle_notify_interval_s : Z;
  cf_adc_settle_ms : Z;
  cf_adv_tx_power_dbm : Z;
  cf_pdm_imu_pwr_reg : option Z;
  cf_vbat_pwr_reg : option Z
}.

(** [struct txing_redcon_ops]; the hooks work on the hardware only. The weather
    hook takes the payload buffer and returns its result and the new content. *)
Record txing_redcon_ops := mk_ops {
  ops_led : option gpio_dt_spec;
  ops_power : option gpio_dt_spec;
  ops_sample_weather_measurement : option (list Z → M unit (Z * list Z));
  ops_before_idle_measurement : option (M unit unit);
  ops_after_idle_measurement : option (M unit unit);
  ops_app_init : option (M unit unit)
}.

(** What the Zephyr and nrfx code answers. *)
Record ble_platform := mk_ble_platform {
  device_is_ready : Z → bool;
  gpio_pin_configure_dt : trace → gpio_dt_spec → Z;
  gpio_pin_set_dt : trace → gpio_dt_spec → bool → Z;
  nrfx_saadc_init_check : trace → bool;
  adc_is_ready : trace → bool;
  adc_channel_setup : trace → Z;
  adc_read : trace → Z * Z;
  adc_differential : bool;
  adc_raw_to_millivolts : trace → Z → Z * Z;
  factory_flash : list Z;
  crc32_ieee : list Z → Z;
  bt_gatt_attr_read : Z → Z → list Z → Z;
  bt_hci_cmd_alloc : trace → bool;
  bt_hci_cmd_send_sync : trace → Z;
  bt_hci_response : trace → Z * Z;
  bt_enable : trace → Z;
  bt_set_name : trace → Z;
  bt_le_adv_start : trace → Z
}.

Record redcon_state := mk_redcon {
  device_name : list Z;
  ad_name_len : Z;
  current_redcon : Z;
  redcon_state_payload : list Z;
  power_measurement_payload : list Z;
  weather_measurement_payload : list Z;
  connected_conn : option Z
}.

Definition set_device_name (n : list Z) (len : Z) (s : redcon_state) : redcon_state :=
  mk_redcon n len (current_redcon s) (redcon_state_payload s) (power_measurement_payload s)
    (weather_measurement_payload s) (connected_conn s).
Definition set_redcon (r : Z) (payload : list Z) (s : redcon_state) : redcon_state :=
  mk_redcon (device_name s) (ad_name_len s) r payload (power_measurement_payload s)
    (weather_measurement_payload s) (connected_conn s).
Definition set_power_payload (p : list Z) (s : redcon_state) : redcon_state :=
  mk_redcon (device_name s) (ad_name_len s) (current_redcon s) (redcon_state_payload s) p
    (weather_measurement_payload s) (connected_conn s).
Definition set_weather_payload (p : list Z) (s : redcon_state) : redcon_state :=
  mk_redcon (device_name s) (ad_name_len s) (current_redcon s) (redcon_state_payload s)
    (power_measurement_payload s) p (connected_conn s).
Definition set_conn (c : option Z) (s : redcon_state) : redcon_state :=
  mk_redcon (device_name s) (ad_name_len s) (current_redcon s) (redcon_state_payload s)
    (power_measurement_payload s) (weather_measurement_payload s) c.

(** "txing-unconfigured" *)
Definition REDCON_DEFAULT_DEVICE_NAME : list Z :=
  [116; 120; 105; 110; 103; 45; 117; 110; 99; 111; 110; 102; 105; 103; 117; 114; 101; 100].

(** The static initialisers. *)
Definition initial_state (cfg : redcon_config) : redcon_state :=
  mk_redcon
    (REDCON_DEFAULT_DEVICE_NAME ++
       replicate (Z.to_nat (cf_bt_device_name_max cfg) + 1 - length REDCON_DEFAULT_DEVICE_NAME) 0)
    (Z.of_nat (length REDCON_DEFAULT_DEVICE_NAME))
    TXING_REDCON_IDLE
    [TXING_REDCON_PROTOCOL_VERSION; TXING_REDCON_IDLE]
    [TXING_REDCON_PROTOCOL_VERSION; 0; 0]
    (TXING_REDCON_PROTOCOL_VERSION :: replicate 10 0)
    None.

Definition lift {S A} (c : M unit A) : M S A :=
  λ s t, let '(a, _, t) := c tt t in (a, s, t).

(** ** Pure parts *)

Definition redcon_is_wakeup (redcon : Z) : bool :=
  (TXING_REDCON_LEVEL_1 <=? redcon) && (redcon <? TXING_REDCON_IDLE).

Definition redcon_command_level_is_supported (mask redcon : Z) : bool :=
  if (redcon <? TXING_REDCON_LEVEL_1) || (TXING_REDCON_IDLE <? redcon) then false
  else negb (Z.land mask (Z.shiftl 1 redcon) =? 0).

Definition is_valid_device_name_byte (value : Z) : bool :=
  (0x21 <=? value) && (value <=? 0x7e).

Definition conn_interval_units_from_ms (interval_ms : Z) : Z :=
  u16 (u32 (u32 (interval_ms * 4) + 2) / 5).

Definition conn_supervision_units_from_ms (supervision_ms : Z) : Z := u16 (supervision_ms / 10).

Definition validate_connection_params (interval_ms latency supervision_ms : Z) : bool :=
  let interval_units := conn_interval_units_from_ms interval_ms in
  let supervision_units := conn_supervision_units_from_ms supervision_ms in
  let minimum_supervision_ms := u32 (u32 (interval_ms * u32 (latency + 1)) * 2) in
  if (interval_units <? REDCON_CONN_INTERVAL_MIN_UNITS)
     || (REDCON_CONN_INTERVAL_MAX_UNITS <? interval_units) then false
  else if REDCON_CONN_LATENCY_MAX <? latency then false
  else if (supervision_units <? REDCON_CONN_SUPERVISION_MIN_UNITS)
          || (REDCON_CONN_SUPERVISION_MAX_UNITS <? supervision_units) then false
  else if supervision_ms <=? minimum_supervision_ms then false
  else true.

(** [data] is [None] for a null pointer; the result is the decoded level. *)
Definition decode_redcon_command (mask : Z) (data : option (list Z)) (len : Z) : option Z :=
  match data with
  | None => None
  | Some data =>
      if negb (len =? TXING_REDCON_COMMAND_PAYLOAD_SIZE) then None
      else if negb (data !!! 0%nat =? TXING_REDCON_PROTOCOL_VERSION) then None
      else
        let redcon := data !!! 1%nat in
        if negb (redcon_command_level_is_supported mask redcon) then None else Some redcon
  end.

(** [memcpy(&factory, stored, sizeof(factory))], the fields by their offsets, and
    the checks in the order of the source: the name bytes on success. *)
Definition factory_name (crc32 : list Z → Z) (flash : list Z) : option (list Z * Z) :=
  let version := flash !!! 4%nat in
  let device_name_len := flash !!! 5%nat in
  if negb (bool_decide (take 4 flash = REDCON_FACTORY_DATA_MAGIC))
     || negb (version =? REDCON_FACTORY_DATA_VERSION) then None
  else if (device_name_len =? 0) || (REDCON_FACTORY_DEVICE_NAME_SIZE <? device_name_len) then None
  else if negb (crc32 (take 32 flash) =? le_val (take 4 (drop 32 flash))) then None
  else Some (take 26 (drop 6 flash), device_name_len).

Section Redcon.

Context (cfg : redcon_config) (ops : txing_redcon_ops) (pf : ble_platform).

(** ** Hardware *)

(** The results of the two GPIO calls are ignored; one that fails changes nothing. *)
Definition txing_redcon_configure_output_inactive {S} (pin : option gpio_dt_spec) : M S unit :=
  match pin with
  | Some p =>
      when (device_is_ready pf (gpio_port p))
        (rc ← ask (λ t, gpio_pin_configure_dt pf t p);
         emit (if rc =? 0 then EGpioConfigureInactive p else EGpioFailed p))
  | None => mret tt
  end.

Definition txing_redcon_set_output_active {S} (pin : option gpio_dt_spec) (active : bool) : M S unit :=
  match pin with
  | Some p =>
      when (device_is_ready pf (gpio_port p))
        (rc ← ask (λ t, gpio_pin_set_dt pf t p active);
         emit (if rc =? 0 then EGpioSet p active else EGpioFailed p))
  | None => mret tt
  end.

Definition set_wakeup_hardware_state {S} (active : bool) : M S unit :=
  _ ← txing_redcon_set_output_active (ops_led ops) active;
  txing_redcon_set_output_active (ops_power ops) active.

Definition disable_regulator {S} (reg : Z) : M S unit :=
  when (device_is_ready pf reg) (emit (ERegulator reg false)).

Definition disable_xiao_load_regulators {S} : M S unit :=
  _ ← (match cf_pdm_imu_pwr_reg cfg with Some r => disable_regulator r | None => mret tt end);
  match cf_vbat_pwr_reg cfg with Some r => disable_regulator r | None => mret tt end.

Definition resume_battery_adc {S} : M S unit :=
  check ← ask (nrfx_saadc_init_check pf);
  when (negb check) (emit (ESaadc true)).

Definition suspend_battery_adc {S} : M S unit :=
  check ← ask (nrfx_saadc_init_check pf);
  when check (emit (ESaadc false)).

Definition enter_sleep_hardware_state {S} : M S unit :=
  _ ← set_wakeup_hardware_state false;
  _ ← suspend_battery_adc;
  disable_xiao_load_regulators.

(** The divider's regulator, when the node exists and is ready. *)
Definition vbat_regulator (on : bool) {S} : M S unit :=
  match cf_vbat_pwr_reg cfg with
  | Some r => when (device_is_ready pf r) (emit (ERegulator r on))
  | None => mret tt
  end.

Definition vbat_settle {S} : M S unit :=
  match cf_vbat_pwr_reg cfg with
  | Some r => when (device_is_ready pf r) (emit (ESleep (cf_adc_settle_ms cfg)))
  | None => mret tt
  end.

(** From [adc_channel_setup_dt] to the [out] label; 0 on every error. *)
Definition battery_reading {S} : M S Z :=
  err ← call EAdcSetup (adc_channel_setup pf);
  if err <? 0 then mret 0 else
  r ← call EAdcRead (adc_read pf);
  let '(err, buf) := r in
  if err <? 0 then mret 0 else
  let val_mv := if adc_differential pf then s16 buf else buf in
  r ← ask (λ t, adc_raw_to_millivolts pf t val_mv);
  let '(err, val_mv) := r in
  if (err <? 0) || (val_mv <? 0) then mret 0 else
  let val_mv := s32 (val_mv * 2) in
  let val_mv := if UINT16_MAX <? val_mv then UINT16_MAX else val_mv in
  mret (u16 val_mv).

Definition sample_battery_mv {S} : M S Z :=
  ready ← ask (adc_is_ready pf);
  if negb ready then _ ← suspend_battery_adc; mret 0 else
  _ ← resume_battery_adc;
  _ ← vbat_regulator true;
  _ ← vbat_settle;
  result ← battery_reading;
  _ ← vbat_regulator false;
  _ ← suspend_battery_adc;
  mret result.

(** ** Payloads *)

Definition encode_redcon_state (redcon : Z) : list Z := [TXING_REDCON_PROTOCOL_VERSION; redcon].

Definition get_current_redcon : M redcon_state Z := s ← get; mret (current_redcon s).

Definition set_current_redcon (redcon : Z) : M redcon_state unit :=
  modify (set_redcon redcon (encode_redcon_state redcon)).

Definition encode_power_measurement (battery_mv : Z) : list Z :=
  TXING_REDCON_PROTOCOL_VERSION :: le_bytes 2 battery_mv.

Definition refresh_power_measurement_payload : M redcon_state unit :=
  battery_mv ← sample_battery_mv;
  modify (set_power_payload (encode_power_measurement battery_mv)).

Definition refresh_weather_measurement_payload : M redcon_state Z :=
  match ops_sample_weather_measurement ops with
  | None => mret (- ENOTSUP)
  | Some sample =>
      s ← get;
      r ← lift (sample (weather_measurement_payload s));
      let '(err, payload) := r in
      _ ← modify (set_weather_payload payload);
      mret err
  end.

(** ** Device name *)

Definition set_device_name_from_bytes (name : list Z) (len : Z) : M redcon_state bool :=
  if (len =? 0) || (cf_bt_device_name_max cfg <? len) || (TXING_REDCON_BLE_ADV_MAX_NAME_LEN <? len)
  then mret false
  else if negb (forallb is_valid_device_name_byte (take (Z.to_nat len) name)) then mret false
  else
    _ ← modify (λ s, set_device_name
          (memcpy_at (device_name s) 0 (take (Z.to_nat len) name ++ [0])) len s);
    mret true.

Definition load_device_name_from_nve : M redcon_state bool :=
  match factory_name (crc32_ieee pf) (factory_flash pf) with
  | None => mret false
  | Some (name, len) => set_device_name_from_bytes name len
  end.

(** ** Connections *)

Definition request_connection_params (conn : option Z) : M redcon_state unit :=
  match conn with
  | None => mret tt
  | Some conn =>
      if negb (validate_connection_params (cf_conn_interval_ms cfg) (cf_conn_latency cfg)
                 (cf_conn_supervision_ms cfg)) then mret tt
      else
        let interval := conn_interval_units_from_ms (cf_conn_interval_ms cfg) in
        emit (EConnParamUpdate conn interval interval (cf_conn_latency cfg)
                (conn_supervision_units_from_ms (cf_conn_supervision_ms cfg)))
  end.

Definition ref_connected_conn : M redcon_state (option Z) :=
  s ← get;
  match connected_conn s with
  | None => mret None
  | Some c => _ ← emit (EConnRef c); mret (Some c)
  end.

Definition set_connected_conn (conn : option Z) : M redcon_state unit :=
  _ ← (match conn with None => mret tt | Some c => emit (EConnRef c) end);
  s ← get;
  let previous := connected_conn s in
  _ ← modify (set_conn conn);
  match previous with None => mret tt | Some c => emit (EConnUnref c) end.

Definition unref_conn (conn : option Z) : M redcon_state unit :=
  match conn with None => mret tt | Some c => emit (EConnUnref c) end.

(** ** GATT reads and notifications *)

Definition read_state (len offset : Z) : M redcon_state Z :=
  s ← get; mret (bt_gatt_attr_read pf len offset (redcon_state_payload s)).

Definition read_power_measurement (len offset : Z) : M redcon_state Z :=
  _ ← refresh_power_measurement_payload;
  s ← get; mret (bt_gatt_attr_read pf len offset (power_measurement_payload s)).

Definition read_weather_measurement (len offset : Z) : M redcon_state Z :=
  err ← refresh_weather_measurement_payload;
  if err <? 0 then mret (BT_GATT_ERR BT_ATT_ERR_UNLIKELY) else
  s ← get; mret (bt_gatt_attr_read pf len offset (weather_measurement_payload s)).

Definition notify_redcon_state : M redcon_state unit :=
  s ← get; emit (ENotify 4 (redcon_state_payload s)).

Definition notify_power_measurement : M redcon_state unit :=
  s ← get; emit (ENotify 7 (power_measurement_payload s)).

Definition notify_weather_measurement : M redcon_state unit :=
  s ← get; emit (ENotify 10 (weather_measurement_payload s)).

Definition run_hook (enabled : bool) (hook : option (M unit unit)) : M redcon_state unit :=
  match hook with
  | Some h => when enabled (lift h)
  | None => mret tt
  end.

Definition sample_and_notify_measurements (use_idle_hooks : bool) : M redcon_state unit :=
  _ ← run_hook use_idle_hooks (ops_before_idle_measurement ops);
  _ ← refresh_power_measurement_payload;
  weather_err ← (if cf_weather_measurement cfg then refresh_weather_measurement_payload
                 else mret (- ENOTSUP));
  _ ← run_hook use_idle_hooks (ops_after_idle_measurement ops);
  _ ← notify_power_measurement;
  when (cf_weather_measurement cfg && (weather_err =? 0)) notify_weather_measurement.

(** ** Work items *)

Definition notify_interval : Z := cf_notify_interval_s cfg * 1000.
Definition idle_notify_interval : Z := cf_idle_notify_interval_s cfg * 1000.

Definition measurement_notify_work_handler : M redcon_state unit :=
  redcon ← get_current_redcon;
  if negb (redcon_is_wakeup redcon) then mret tt else
  _ ← sample_and_notify_measurements false;
  emit (EWorkSchedule measurement_notify_work notify_interval).

Definition cancel_idle_measurement_notifications : M redcon_state unit :=
  emit (EWorkCancel idle_measurement_notify_work).

Definition schedule_idle_measurement_notification : M redcon_state unit :=
  redcon ← get_current_redcon;
  if negb (redcon =? TXING_REDCON_IDLE) then mret tt else
  conn ← ref_connected_conn;
  match conn with
  | None => mret tt
  | Some c =>
      _ ← emit (EConnUnref c);
      emit (EWorkSchedule idle_measurement_notify_work idle_notify_interval)
  end.

Definition idle_measurement_notify_work_handler : M redcon_state unit :=
  redcon ← get_current_redcon;
  if negb (redcon =? TXING_REDCON_IDLE) then mret tt else
  conn ← ref_connected_conn;
  match conn with
  | None => mret tt
  | Some c =>
      _ ← emit (EConnUnref c);
      _ ← sample_and_notify_measurements true;
      _ ← enter_sleep_hardware_state;
      schedule_idle_measurement_notification
  end.

Definition enter_redcon_wakeup (conn : option Z) : M redcon_state unit :=
  _ ← cancel_idle_measurement_notifications;
  _ ← set_wakeup_hardware_state true;
  _ ← request_connection_params conn;
  _ ← notify_redcon_state;
  _ ← sample_and_notify_measurements false;
  emit (EWorkReschedule measurement_notify_work notify_interval).

Definition enter_redcon_idle : M redcon_state unit :=
  _ ← emit (EWorkCancel measurement_notify_work);
  _ ← enter_sleep_hardware_state;
  _ ← notify_redcon_state;
  _ ← sample_and_notify_measurements false;
  _ ← enter_sleep_hardware_state;
  schedule_idle_measurement_notification.

Definition redcon_command_work_handler : M redcon_state unit :=
  redcon ← get_current_redcon;
  conn ← ref_connected_conn;
  _ ← (if redcon_is_wakeup redcon then enter_redcon_wakeup conn else enter_redcon_idle);
  unref_conn conn.

Definition write_command (buf : option (list Z)) (len offset : Z) : M redcon_state Z :=
  if negb (offset =? 0) then mret (BT_GATT_ERR BT_ATT_ERR_INVALID_OFFSET) else
  match decode_redcon_command (cf_command_levels_mask cfg) buf len with
  | None => mret (BT_GATT_ERR BT_ATT_ERR_VALUE_NOT_ALLOWED)
  | Some redcon =>
      _ ← set_current_redcon redcon;
      _ ← emit (EWorkSubmit redcon_command_work);
      mret len
  end.

(** ** Advertising and connection callbacks *)

Definition set_adv_tx_power (dbm : Z) : M redcon_state Z :=
  allocated ← call EHciAlloc (bt_hci_cmd_alloc pf);
  if negb allocated then mret (- ENOMEM) else
  err ← call (EHciTxPower dbm) (bt_hci_cmd_send_sync pf);
  if err <? 0 then mret err else
  r ← ask (bt_hci_response pf);
  let '(status, selected) := r in
  let err := if negb (status =? 0) || negb (selected =? dbm) then - EIO else err in
  _ ← emit EHciRelease;
  mret err.

Definition start_advertising : M redcon_state Z :=
  s ← get;
  call (EAdvStart (take (Z.to_nat (ad_name_len s)) (device_name s))) (bt_le_adv_start pf).

Definition advertise_work_handler : M redcon_state unit :=
  _ ← start_advertising; mret tt.

Definition connected (conn err : Z) : M redcon_state unit :=
  if negb (err =? 0) then emit (EWorkSubmit advertise_work) else
  _ ← set_connected_conn (Some conn);
  redcon ← get_current_redcon;
  when (redcon =? TXING_REDCON_IDLE) schedule_idle_measurement_notification.

Definition disconnected : M redcon_state unit :=
  _ ← cancel_idle_measurement_notifications;
  _ ← set_connected_conn None;
  redcon ← get_current_redcon;
  _ ← (if redcon_is_wakeup redcon && cf_preserve_level_on_disconnect cfg then
         _ ← set_wakeup_hardware_state true;
         emit (EWorkReschedule measurement_notify_work notify_interval)
       else
         _ ← set_current_redcon TXING_REDCON_IDLE;
         _ ← emit (EWorkCancel measurement_notify_work);
         enter_sleep_hardware_state);
  emit (EWorkSubmit advertise_work).

(** The body of [txing_redcon_run] once [redcon_ops] is set: the device name and
    the outputs first, then the radio. *)
Definition redcon_init_hardware : M redcon_state unit :=
  _ ← load_device_name_from_nve;
  _ ← run_hook true (ops_app_init ops);
  _ ← txing_redcon_configure_output_inactive (ops_led ops);
  _ ← txing_redcon_configure_output_inactive (ops_power ops);
  _ ← enter_sleep_hardware_state;
  set_current_redcon TXING_REDCON_IDLE.

(** The result is [None] when the function stays in its final loop. *)
Definition redcon_start_radio : M redcon_state (option Z) :=
  err ← call EBtEnable (bt_enable pf);
  if err <? 0 then mret (Some err) else
  s ← get;
  err ← call (EBtSetName (c_string (device_name s))) (bt_set_name pf);
  if err <? 0 then mret (Some err) else
  err ← set_adv_tx_power (cf_adv_tx_power_dbm cfg);
  if err <? 0 then mret (Some err) else
  err ← start_advertising;
  if err <? 0 then mret (Some err) else mret None.

Definition redcon_start : M redcon_state (option Z) :=
  _ ← redcon_init_hardware; redcon_start_radio.

Definition work_handler (w : work_item) : M redcon_state unit :=
  match w with
  | redcon_command_work => redcon_command_work_handler
  | measurement_notify_work => measurement_notify_work_handler
  | idle_measurement_notify_work => idle_measurement_notify_work_handler
  | advertise_work => advertise_work_handler
  | _ => mret tt
  end.
End Redcon.

Definition txing_redcon_run (cfg : redcon_config) (ops : option txing_redcon_ops) (pf : ble_platform)
    : M redcon_state (option Z) :=
  match ops with
  | None => mret (Some (- EINVAL))
  | Some ops => redcon_start cfg ops pf
  end.
