(* ===== verification/RedconSafety.v ===== *)
(** * Safety of the REDCON BLE device

    The device of [RedconBle] as a transition system: GATT accesses, connection
    callbacks and pending work items in any order, with any answers of the
    platform. Shown: the level is always a supported one and the state
    characteristic reports it; an accepted command is recorded before its work
    runs; whenever no command is waiting, the outputs are those of the level;
    references on connections are balanced.

    What the application's hooks may do is the class [RedconApp]; the theorems
    are about every application that has it. *)
From S2P Require Import Prelude Zephyr RedconBle.

(** ** The contract of the hooks *)

(** Calls that leave the work queue and the connections alone, and the pins
    selected by [P] as they are. *)
Definition quiet {S} (P : gpio_dt_spec → Prop) (x y : S * trace) : Prop :=
  (∀ w, pending w y.2 = pending w x.2) ∧ (∀ c, conn_refs c y.2 = conn_refs c x.2) ∧
  (∀ p, P p → pin_level p y.2 = pin_level p x.2).

#[global] Instance quiet_preorder {S} P : PreOrder (@quiet S P).
Proof.
  split; [by intros x|]. intros x y z (A1 & A2 & A3) (B1 & B2 & B3). split_and!; intros.
  - by rewrite B1, A1.
  - by rewrite B2, A2.
  - by rewrite B3, A3.
Qed.

(** A pin whose port is ready and whose driver does not fail. *)
Definition usable (pf : ble_platform) (p : gpio_dt_spec) : Prop :=
  device_is_ready pf (gpio_port p) = true ∧ ∀ t v, gpio_pin_set_dt pf t p v = 0.

(** Sampling does not disturb the LED and does not leave a usable supply on; the other
    hooks only drive pins. *)
Class RedconApp (pf : ble_platform) (ops : txing_redcon_ops) : Prop := {
  app_sample : ∀ sample payload, ops_sample_weather_measurement ops = Some sample →
    keeps (quiet (λ p, ops_led ops = Some p)) (sample payload);
  app_sample_power : ∀ sample payload p, ops_sample_weather_measurement ops = Some sample →
    ops_power ops = Some p → usable pf p →
    keeps (λ x y, pin_level p y.2 = pin_level p x.2 ∨ pin_level p y.2 = Some false) (sample payload);
  app_before_idle : ∀ h, ops_before_idle_measurement ops = Some h → keeps (quiet (λ _, False)) h;
  app_after_idle : ∀ h, ops_after_idle_measurement ops = Some h → keeps (quiet (λ _, False)) h;
  app_init_quiet : ∀ h, ops_app_init ops = Some h → keeps (quiet (λ _, False)) h
}.

(** The unit and power devices: two pins, no hooks. *)
Definition gpio_ops (led power : gpio_dt_spec) : txing_redcon_ops :=
  mk_ops (Some led) (Some power) None None None None.

#[global] Instance gpio_ops_app pf led power : RedconApp pf (gpio_ops led power).
Proof. by split. Qed.

Section Safety.

Context (cfg : redcon_config) (ops : txing_redcon_ops) (pf : ble_platform).
Context {app : RedconApp pf ops}.

(** ** The transition system *)

Inductive redcon_step : redcon_state * trace → redcon_state * trace → Prop :=
  | step_write_command buf len offset s t :
      redcon_step (s, t) (final (write_command cfg buf len offset s t))
  | step_read_state len offset s t :
      redcon_step (s, t) (final (read_state pf len offset s t))
  | step_read_power len offset s t :
      redcon_step (s, t) (final (read_power_measurement cfg pf len offset s t))
  | step_read_weather len offset s t :
      cf_weather_measurement cfg = true →
      redcon_step (s, t) (final (read_weather_measurement ops pf len offset s t))
  | step_connected conn err s t :
      redcon_step (s, t) (final (connected cfg conn err s t))
  | step_disconnected s t :
      redcon_step (s, t) (final (disconnected cfg ops pf s t))
  | step_work w s t :
      pending w t = true →
      redcon_step (s, t) (final (work_handler cfg ops pf w s (EWorkRun w :: t))).

(** A device whose start sequence reached the final loop, and what follows. *)
Definition started (x : redcon_state * trace) : Prop :=
  ∃ s t, redcon_start cfg ops pf (initial_state cfg) [] = (None, s, t) ∧ x = (s, t).

Inductive reachable : redcon_state * trace → Prop :=
  | reach_start x : started x → reachable x
  | reach_step x y : reachable x → redcon_step x y → reachable y.

(** ** Calls that leave the level and the pins alone *)

(** The level, its report, the waiting command and the pins of [P] are kept. *)
Definition stable (P : gpio_dt_spec → Prop) (x y : redcon_state * trace) : Prop :=
  current_redcon y.1 = current_redcon x.1 ∧
  redcon_state_payload y.1 = redcon_state_payload x.1 ∧
  pending redcon_command_work y.2 = pending redcon_command_work x.2 ∧
  (∀ p, P p → pin_level p y.2 = pin_level p x.2).

#[local] Instance stable_preorder P : PreOrder (stable P).
Proof.
  split; [by intros x|]. intros x y z (A1 & A2 & A3 & A4) (B1 & B2 & B3 & B4).
  unfold stable. split_and!; try congruence. intros p Hp. by rewrite B4, A4.
Qed.

Lemma stable_emit P e :
  (∀ t, pending redcon_command_work (e :: t) = pending redcon_command_work t) →
  (∀ p t, P p → pin_level p (e :: t) = pin_level p t) →
  ∀ s t, stable P (s, t) (s, e :: t).
Proof. intros H1 H2 s t. unfold stable; cbn [fst snd]. split_and!; auto. Qed.

Lemma stable_weaken (P Q : gpio_dt_spec → Prop) x y : (∀ p, Q p → P p) → stable P x y → stable Q x y.
Proof. intros H (A1 & A2 & A3 & A4). unfold stable. split_and!; auto. Qed.

Lemma keeps_stable_lift {A} P (c : M unit A) : keeps (quiet P) c → keeps (stable P) (lift c).
Proof.
  intros H s t. specialize (H tt t). unfold lift, final in *. destruct (c tt t) as [[a u] t'].
  destruct H as (B1 & B2 & B3). unfold stable. cbn in *. split_and!; auto.
Qed.

(** An event that concerns neither a pin nor the command work. *)
Ltac neutral := first [apply keeps_emit | apply keeps_call]; apply stable_emit; done.

Lemma stable_modify P f :
  (∀ s, current_redcon (f s) = current_redcon s) →
  (∀ s, redcon_state_payload (f s) = redcon_state_payload s) → keeps (stable P) (modify f).
Proof. intros H1 H2. apply keeps_modify. intros s t. unfold stable. split_and!; cbn; auto. Qed.

Lemma stable_suspend P : keeps (stable P) (@suspend_battery_adc pf redcon_state).
Proof. unfold suspend_battery_adc. keeps_auto; neutral. Qed.

Lemma stable_regulators P : keeps (stable P) (@disable_xiao_load_regulators cfg pf redcon_state).
Proof. unfold disable_xiao_load_regulators, disable_regulator. keeps_auto; neutral. Qed.

Lemma stable_sample_battery P : keeps (stable P) (@sample_battery_mv cfg pf redcon_state).
Proof.
  unfold sample_battery_mv, resume_battery_adc, suspend_battery_adc, vbat_regulator, vbat_settle, battery_reading.
  keeps_auto; neutral.
Qed.

Lemma stable_refresh_power P : keeps (stable P) (refresh_power_measurement_payload cfg pf).
Proof.
  unfold refresh_power_measurement_payload. apply keeps_bind; [apply _|apply stable_sample_battery|].
  intros mv. by apply stable_modify.
Qed.

Lemma stable_ref_conn P : keeps (stable P) ref_connected_conn.
Proof. unfold ref_connected_conn. keeps_auto; neutral. Qed.

Lemma stable_unref_conn P c : keeps (stable P) (unref_conn c).
Proof. unfold unref_conn. keeps_auto; neutral. Qed.

Lemma stable_set_conn P c : keeps (stable P) (set_connected_conn c).
Proof. unfold set_connected_conn. keeps_auto; try neutral. by apply stable_modify. Qed.

Lemma stable_schedule_idle P : keeps (stable P) (schedule_idle_measurement_notification cfg).
Proof.
  unfold schedule_idle_measurement_notification, get_current_redcon.
  repeat first [apply stable_ref_conn | keeps_step]; neutral.
Qed.

Lemma stable_request_params P c : keeps (stable P) (request_connection_params cfg c).
Proof. unfold request_connection_params. keeps_auto; neutral. Qed.

Lemma stable_notify P :
  keeps (stable P) notify_redcon_state ∧ keeps (stable P) notify_power_measurement ∧
  keeps (stable P) notify_weather_measurement.
Proof.
  unfold notify_redcon_state, notify_power_measurement, notify_weather_measurement.
  split_and!; keeps_auto; neutral.
Qed.

(** ** Sampling *)

(** What a measurement may change: the supply pin of the sensor, and that only to
    inactive. *)
Definition sampling (x y : redcon_state * trace) : Prop :=
  stable (λ p, ops_led ops = Some p ∨ cf_weather_measurement cfg = false) x y ∧
  ∀ p, ops_power ops = Some p → usable pf p → pin_level p y.2 = pin_level p x.2 ∨ pin_level p y.2 = Some false.

#[local] Instance sampling_preorder : PreOrder sampling.
Proof.
  split; [intros x; split; [reflexivity|auto]|]. intros x y z [A1 A2] [B1 B2].
  split; [etransitivity; eassumption|]. intros p Hp Hu.
  destruct (B2 p Hp Hu) as [->|]; [by apply A2|by right].
Qed.

Lemma sampling_stable x y : stable (λ _, True) x y → sampling x y.
Proof.
  intros H. split; [eapply stable_weaken, H; done|]. intros p _ _. left. by apply H.
Qed.

Lemma keeps_sampling {A} (c : M redcon_state A) : keeps (stable (λ _, True)) c → keeps sampling c.
Proof. apply keeps_weaken, sampling_stable. Qed.

Lemma sampling_refresh_weather :
  cf_weather_measurement cfg = true → keeps sampling (refresh_weather_measurement_payload ops).
Proof.
  intros Hw. unfold refresh_weather_measurement_payload.
  destruct (ops_sample_weather_measurement ops) as [sample|] eqn:E; [|apply keeps_ret, _].
  apply keeps_bind; [apply _|apply keeps_get, _|]. intros s0.
  apply keeps_bind; [apply _| |].
  - intros s t. split.
    + eapply stable_weaken; [|apply keeps_stable_lift, (app_sample sample); done].
      cbn. intros p [Hp|Hp]; [done|congruence].
    + intros p Hp Hu. pose proof (app_sample_power sample (weather_measurement_payload s0) p E Hp Hu tt t) as H.
      unfold lift, final in *. destruct (sample _ tt t) as [[a u] t']. exact H.
  - intros [err payload]. apply keeps_bind; [apply _| |intros _; apply keeps_ret, _].
    apply keeps_sampling. by apply stable_modify.
Qed.

Lemma sampling_measure : keeps sampling (sample_and_notify_measurements cfg ops pf false).
Proof.
  assert (Hw : keeps sampling (if cf_weather_measurement cfg
    then refresh_weather_measurement_payload ops else mret (- ENOTSUP))).
  { destruct (cf_weather_measurement cfg) eqn:E; [by apply sampling_refresh_weather|apply keeps_ret, _]. }
  unfold sample_and_notify_measurements, run_hook. destruct (stable_notify (λ _, True)) as (_ & H2 & H3).
  repeat first
    [ exact Hw | apply keeps_sampling, stable_refresh_power
    | apply keeps_sampling, H2 | apply keeps_sampling, H3 | keeps_step ].
Qed.

(** A measurement with the idle hooks: the level and the waiting command stay. *)
Lemma stable_measure_idle b :
  keeps (stable (λ _, False)) (sample_and_notify_measurements cfg ops pf b).
Proof.
  assert (Hw : keeps (stable (λ _, False)) (if cf_weather_measurement cfg
    then refresh_weather_measurement_payload ops else mret (- ENOTSUP))).
  { destruct (cf_weather_measurement cfg) eqn:E; [|apply keeps_ret, _].
    eapply keeps_weaken; [|by apply sampling_refresh_weather]. intros x y [H _]. by eapply stable_weaken, H. }
  assert (Hh : ∀ h, ops_before_idle_measurement ops = Some h ∨ ops_after_idle_measurement ops = Some h →
    keeps (stable (λ _, False)) (lift h)).
  { intros h [Hh|Hh]; apply keeps_stable_lift; [by apply app_before_idle|by apply app_after_idle]. }
  unfold sample_and_notify_measurements, run_hook. destruct (stable_notify (λ _, False)) as (_ & H2 & H3).
  destruct (ops_before_idle_measurement ops) as [hb|], (ops_after_idle_measurement ops) as [ha|];
    repeat first [ exact Hw | apply stable_refresh_power | exact H2 | exact H3 | apply Hh; by auto | keeps_step ].
Qed.

(** ** Outputs *)

Definition level_is (pin : option gpio_dt_spec) (v : bool) (t : trace) : Prop :=
  ∀ p, pin = Some p → usable pf p → pin_level p t = Some v.

Definition outputs (v : bool) (t : trace) : Prop :=
  level_is (ops_led ops) v t ∧ level_is (ops_power ops) v t.

(** The outputs the level asks for; an application that samples the weather
    switches the supply itself. *)
Definition outputs_match (s : redcon_state) (t : trace) : Prop :=
  if redcon_is_wakeup (current_redcon s)
  then level_is (ops_led ops) true t ∧ (cf_weather_measurement cfg = false → level_is (ops_power ops) true t)
  else outputs false t.

Lemma set_output_level pin v (s : redcon_state) t :
  let t' := (txing_redcon_set_output_active pf pin v s t).2 in
  level_is pin v t' ∧ (∀ q, level_is q v t → level_is q v t').
Proof.
  unfold txing_redcon_set_output_active, when. destruct pin as [p|]; [|by split].
  destruct (device_is_ready pf (gpio_port p)) eqn:Er; cbn.
  - unfold mbind, M_bind, ask, emit. cbn. split.
    + intros r [= ->] [_ Hu]. rewrite Hu. cbn. by rewrite bool_decide_true.
    + intros q Hq r Hr Hu. destruct (gpio_pin_set_dt pf t p v =? 0); cbn; [case_bool_decide; [done|]|]; by apply Hq.
  - split; [|done]. intros r [= <-] [Hready _]. congruence.
Qed.

Lemma set_hardware_outputs v (s : redcon_state) t :
  let '(_, s', t') := set_wakeup_hardware_state ops pf v s t in
  outputs v t' ∧ s' = s ∧ pending redcon_command_work t' = pending redcon_command_work t ∧
  (∀ c, conn_refs c t' = conn_refs c t).
Proof.
  pose proof (set_output_level (ops_led ops) v s t) as H1. cbv zeta in H1.
  unfold set_wakeup_hardware_state, mbind, M_bind.
  assert (Hq : ∀ pin t, let r := txing_redcon_set_output_active pf pin v s t in
    r.1.2 = s ∧ pending redcon_command_work r.2 = pending redcon_command_work t ∧
    ∀ c, conn_refs c r.2 = conn_refs c t).
  { intros pin t0. unfold txing_redcon_set_output_active, when. destruct pin as [p|]; [destruct (device_is_ready _ _)|]; try done.
    unfold mbind, M_bind, ask, emit. cbn. by destruct (gpio_pin_set_dt pf t0 p v =? 0). }
  pose proof (Hq (ops_led ops) t) as Q1. cbv zeta in Q1.
  destruct (txing_redcon_set_output_active pf (ops_led ops) v s t) as [[u s1] t1]. cbn [fst snd] in *.
  destruct Q1 as (-> & Q1 & R1).
  pose proof (set_output_level (ops_power ops) v s t1) as H2. pose proof (Hq (ops_power ops) t1) as Q2. cbv zeta in H2, Q2.
  destruct (txing_redcon_set_output_active pf (ops_power ops) v s t1) as [[u2 s2] t2]. cbn [fst snd] in *.
  destruct Q2 as (-> & Q2 & R2). destruct H1, H2. unfold outputs. split_and!; auto; [congruence|].
  intros c. by rewrite R2, R1.
Qed.

Lemma outputs_stable P v x y :
  stable P x y → (∀ p, P p) → outputs v x.2 → outputs v y.2.
Proof.
  intros (_ & _ & _ & H) HP [H1 H2]. split; intros p Hp Hr; rewrite H by done; [by apply H1|by apply H2].
Qed.

(** After [enter_sleep_hardware_state] both outputs are inactive. *)
Lemma enter_sleep_outputs (s : redcon_state) t :
  let r := enter_sleep_hardware_state cfg ops pf s t in
  outputs false r.2 ∧ stable (λ _, False) (s, t) (final r).
Proof.
  unfold enter_sleep_hardware_state, mbind, M_bind.
  pose proof (set_hardware_outputs false s t) as H.
  destruct (set_wakeup_hardware_state ops pf false s t) as [[u s1] t1].
  destruct H as (Ho & -> & Hp & _).
  assert (Hk : keeps (stable (λ _, True)) (_ ← suspend_battery_adc pf; @disable_xiao_load_regulators cfg pf redcon_state)).
  { apply keeps_bind; [apply _|apply stable_suspend|intros; apply stable_regulators]. }
  specialize (Hk s t1). unfold mbind, M_bind in Hk.
  match goal with |- context [final ?r] => set (r' := r) in * end.
  split.
  - by eapply (outputs_stable _ false (s, t1) (final r')).
  - etransitivity; [|eapply stable_weaken, Hk; done]. unfold stable; cbn. by split_and!.
Qed.

(** Sampling keeps matching outputs matching. *)
Lemma sampling_match x y : sampling x y → outputs_match x.1 x.2 → outputs_match y.1 y.2.
Proof.
  intros [(Ec & _ & _ & Hl) Hp]. unfold outputs_match, outputs. rewrite Ec.
  destruct (redcon_is_wakeup _).
  - intros [H1 H2]. split.
    + intros p E Hr. rewrite Hl by auto. by apply H1.
    + intros Hw p E Hr. rewrite Hl by auto. by apply H2.
  - intros [H1 H2]. split.
    + intros p E Hr. rewrite Hl by auto. by apply H1.
    + intros p E Hr. destruct (Hp p E Hr) as [->|]; [by apply H2|done].
Qed.

(** Steps that at most sample. *)
Lemma sampling_advertise : keeps sampling (advertise_work_handler pf).
Proof. unfold advertise_work_handler, start_advertising. keeps_auto. apply keeps_sampling. neutral. Qed.

Lemma sampling_measurement_work : keeps sampling (measurement_notify_work_handler cfg ops pf).
Proof.
  unfold measurement_notify_work_handler, get_current_redcon.
  repeat first [apply sampling_measure | keeps_step]. apply keeps_sampling. neutral.
Qed.

Lemma sampling_connected conn err : keeps sampling (connected cfg conn err).
Proof.
  unfold connected, get_current_redcon.
  repeat first [apply keeps_sampling, stable_set_conn | apply keeps_sampling, stable_schedule_idle | keeps_step].
  apply keeps_sampling. neutral.
Qed.

(** ** The level *)

Definition level_ok (s : redcon_state) : Prop :=
  (current_redcon s = TXING_REDCON_IDLE ∨
   redcon_command_level_is_supported (cf_command_levels_mask cfg) (current_redcon s) = true) ∧
  redcon_state_payload s = encode_redcon_state (current_redcon s).

Definition keeps_level (x y : redcon_state * trace) : Prop := level_ok x.1 → level_ok y.1.

#[local] Instance keeps_level_preorder : PreOrder keeps_level.
Proof. split; [by intros x H|]. intros x y z H1 H2 H. by apply H2, H1. Qed.

Lemma stable_level P x y : stable P x y → keeps_level x y.
Proof. intros (E1 & E2 & _). unfold keeps_level, level_ok. by rewrite E1, E2. Qed.

Lemma level_of_stable {A} P (c : M redcon_state A) : keeps (stable P) c → keeps keeps_level c.
Proof. apply keeps_weaken, stable_level. Qed.

Lemma level_of_sampling {A} (c : M redcon_state A) : keeps sampling c → keeps keeps_level c.
Proof. apply keeps_weaken. intros x y [H _]. by eapply stable_level. Qed.

Lemma level_set_current r :
  r = TXING_REDCON_IDLE ∨ redcon_command_level_is_supported (cf_command_levels_mask cfg) r = true →
  keeps keeps_level (set_current_redcon r).
Proof. intros Hr. apply keeps_modify. intros s t _. by split. Qed.

Lemma decode_supported mask data len r :
  decode_redcon_command mask data len = Some r → redcon_command_level_is_supported mask r = true.
Proof.
  unfold decode_redcon_command. destruct data as [d|]; [|done].
  destruct (negb (len =? _)); [done|]. destruct (negb (_ =? TXING_REDCON_PROTOCOL_VERSION)); [done|].
  destruct (redcon_command_level_is_supported mask (d !!! 1%nat)) eqn:E; [|done]. by intros [= <-].
Qed.

Lemma level_write buf len offset : keeps keeps_level (write_command cfg buf len offset).
Proof.
  unfold write_command. destruct (negb _); [apply keeps_ret, _|].
  destruct (decode_redcon_command _ _ _) as [r|] eqn:E; [|apply keeps_ret, _].
  repeat keeps_step; [apply level_set_current; right; by eapply decode_supported|].
  apply keeps_emit. by intros s t H.
Qed.

Lemma stable_enter_sleep :
  keeps (stable (λ _, False)) (@enter_sleep_hardware_state cfg ops pf redcon_state).
Proof. intros s t. apply enter_sleep_outputs. Qed.

Lemma stable_set_hardware v :
  keeps (stable (λ _, False)) (@set_wakeup_hardware_state ops pf redcon_state v).
Proof.
  intros s t. pose proof (set_hardware_outputs v s t) as H. unfold final.
  destruct (set_wakeup_hardware_state ops pf v s t) as [[u s'] t']. destruct H as (_ & -> & H & _).
  by split_and!.
Qed.

(** The commands' work changes neither the level nor its report. *)
Lemma stable_command_work : keeps (stable (λ _, False)) (redcon_command_work_handler cfg ops pf).
Proof.
  unfold redcon_command_work_handler, enter_redcon_wakeup, enter_redcon_idle, get_current_redcon,
    cancel_idle_measurement_notifications. destruct (stable_notify (λ _, False)) as (H1 & _ & _).
  repeat first
    [ apply stable_ref_conn | apply stable_unref_conn | apply stable_set_hardware
    | apply stable_enter_sleep | apply stable_request_params | exact H1
    | apply stable_measure_idle | apply stable_schedule_idle | keeps_step ]; neutral.
Qed.

Lemma stable_idle_work : keeps (stable (λ _, False)) (idle_measurement_notify_work_handler cfg ops pf).
Proof.
  unfold idle_measurement_notify_work_handler, get_current_redcon.
  repeat first
    [ apply stable_ref_conn | apply stable_enter_sleep | apply stable_measure_idle
    | apply stable_schedule_idle | keeps_step ]; neutral.
Qed.

Lemma level_disconnected : keeps keeps_level (disconnected cfg ops pf).
Proof.
  unfold disconnected, get_current_redcon, cancel_idle_measurement_notifications.
  repeat first
    [ apply (level_of_stable (λ _, False)), stable_set_conn
    | apply (level_of_stable (λ _, False)), stable_set_hardware
    | apply (level_of_stable (λ _, False)), stable_enter_sleep
    | apply level_set_current; by left | keeps_step ].
  all: apply (level_of_stable (λ _, False)); neutral.
Qed.

Lemma stable_read_power P len offset : keeps (stable P) (read_power_measurement cfg pf len offset).
Proof.
  unfold read_power_measurement. repeat first [apply stable_refresh_power | keeps_step].
Qed.

Lemma sampling_read_weather len offset :
  cf_weather_measurement cfg = true → keeps sampling (read_weather_measurement ops pf len offset).
Proof.
  intros Hw. unfold read_weather_measurement.
  repeat first [by apply sampling_refresh_weather | keeps_step].
Qed.

Lemma level_work w : keeps keeps_level (work_handler cfg ops pf w).
Proof.
  destruct w; cbn; try (apply keeps_ret, _).
  - eapply level_of_stable, stable_command_work.
  - apply level_of_sampling, sampling_measurement_work.
  - eapply level_of_stable, stable_idle_work.
  - apply level_of_sampling, sampling_advertise.
Qed.

Lemma level_step x y : redcon_step x y → level_ok x.1 → level_ok y.1.
Proof.
  intros H. destruct H.
  - apply (level_write buf len offset).
  - done.
  - apply (level_of_stable (λ _, False) _ (stable_read_power _ len offset)).
  - apply (level_of_sampling _ (sampling_read_weather len offset H)).
  - apply (level_of_sampling _ (sampling_connected conn err)).
  - apply level_disconnected.
  - apply (level_work w s (EWorkRun w :: t)).
Qed.

(** ** References *)

Definition held (s : redcon_state) (c : Z) : Z :=
  match connected_conn s with Some d => if c =? d then 1 else 0 | None => 0 end.

Definition balanced (x y : redcon_state * trace) : Prop :=
  ∀ c, conn_refs c y.2 - held y.1 c = conn_refs c x.2 - held x.1 c.

#[local] Instance balanced_preorder : PreOrder balanced.
Proof. split; [by intros x c|]. intros x y z H1 H2 c. by rewrite H2, H1. Qed.

Lemma balanced_emit e : (∀ c t, conn_refs c (e :: t) = conn_refs c t) → ∀ s t, balanced (s, t) (s, e :: t).
Proof. intros H s t c. cbn [fst snd]. by rewrite H. Qed.

Ltac refs_neutral := first [apply keeps_emit | apply keeps_call]; apply balanced_emit; done.

Lemma balanced_modify f : (∀ s, connected_conn (f s) = connected_conn s) → keeps balanced (modify f).
Proof. intros H. apply keeps_modify. intros s t c. unfold held. cbn. by rewrite H. Qed.

Lemma balanced_lift {A} P (c : M unit A) : keeps (quiet P) c → keeps balanced (lift c).
Proof.
  intros H s t. specialize (H tt t). unfold lift, final in *. destruct (c tt t) as [[a u] t'].
  destruct H as (_ & H & _). intros k. cbn in *. by rewrite H.
Qed.

Lemma balanced_set_conn c : keeps balanced (set_connected_conn c).
Proof.
  intros s t k. unfold set_connected_conn, held, final, mbind, M_bind, mret, M_ret, emit, get, modify. cbn.
  destruct c as [c|], (connected_conn s) as [d|] eqn:E; cbn; rewrite ?E; cbn; repeat case_match; lia.
Qed.

(** A reference that is taken and dropped. *)
Lemma balanced_ref {A} (d : M redcon_state A) (k : Z → M redcon_state A) :
  keeps balanced d → (∀ c, keeps balanced (k c)) →
  keeps balanced (conn ← ref_connected_conn;
                  match conn with None => d | Some c => _ ← emit (EConnUnref c); k c end).
Proof.
  intros Hd Hk s t. unfold ref_connected_conn, mbind, M_bind, get, emit, mret, M_ret. cbn.
  destruct (connected_conn s) as [c|] eqn:E; cbn; [|apply Hd].
  etransitivity; [|apply Hk]. intros x. cbn. lia.
Qed.

Lemma balanced_ref_unref (k : option Z → M redcon_state unit) :
  (∀ c, keeps balanced (k c)) →
  keeps balanced (conn ← ref_connected_conn; _ ← k conn; unref_conn conn).
Proof.
  intros Hk s t c. unfold ref_connected_conn, unref_conn, mbind, M_bind, get, emit, mret, M_ret, final. cbn.
  destruct (connected_conn s) as [d|] eqn:E; cbn.
  - specialize (Hk (Some d) s (EConnRef d :: t) c). unfold final in Hk.
    destruct (k (Some d) s (EConnRef d :: t)) as [[u s'] t']. cbn in *. lia.
  - specialize (Hk None s t c). unfold final in Hk.
    destruct (k None s t) as [[u s'] t']. cbn in *. lia.
Qed.

Lemma balanced_hardware v : keeps balanced (@set_wakeup_hardware_state ops pf redcon_state v).
Proof.
  intros s t c. pose proof (set_hardware_outputs v s t) as H. unfold final.
  destruct (set_wakeup_hardware_state ops pf v s t) as [[u s'] t']. destruct H as (_ & -> & _ & H).
  cbn. by rewrite H.
Qed.

Lemma balanced_sleep : keeps balanced (@enter_sleep_hardware_state cfg ops pf redcon_state).
Proof.
  unfold enter_sleep_hardware_state, suspend_battery_adc, disable_xiao_load_regulators, disable_regulator.
  repeat first [apply balanced_hardware | keeps_step]; refs_neutral.
Qed.

Lemma balanced_refresh_power : keeps balanced (refresh_power_measurement_payload cfg pf).
Proof.
  unfold refresh_power_measurement_payload, sample_battery_mv, resume_battery_adc, suspend_battery_adc,
    vbat_regulator, vbat_settle, battery_reading.
  repeat first [by apply balanced_modify | keeps_step]; refs_neutral.
Qed.

Lemma balanced_refresh_weather : keeps balanced (refresh_weather_measurement_payload ops).
Proof.
  unfold refresh_weather_measurement_payload.
  destruct (ops_sample_weather_measurement ops) as [sample|] eqn:E;
    repeat first [by apply balanced_modify | by eapply balanced_lift, app_sample | keeps_step].
Qed.

Lemma balanced_measure b : keeps balanced (sample_and_notify_measurements cfg ops pf b).
Proof.
  unfold sample_and_notify_measurements, run_hook, notify_power_measurement, notify_weather_measurement.
  destruct (ops_before_idle_measurement ops) as [hb|] eqn:Eb, (ops_after_idle_measurement ops) as [ha|] eqn:Ea.
  all: repeat first [ apply balanced_refresh_power | apply balanced_refresh_weather
    | by eapply balanced_lift, app_before_idle | by eapply balanced_lift, app_after_idle | keeps_step ]; refs_neutral.
Qed.

Lemma balanced_schedule_idle : keeps balanced (schedule_idle_measurement_notification cfg).
Proof.
  unfold schedule_idle_measurement_notification, get_current_redcon.
  repeat first [apply balanced_ref; [|intros c] | keeps_step]; refs_neutral.
Qed.

Lemma balanced_command_work : keeps balanced (redcon_command_work_handler cfg ops pf).
Proof.
  unfold redcon_command_work_handler, enter_redcon_wakeup, enter_redcon_idle, get_current_redcon,
    cancel_idle_measurement_notifications, request_connection_params, notify_redcon_state.
  apply keeps_bind; [apply _| |intros r]; [repeat keeps_step|]. apply balanced_ref_unref. intros conn.
  repeat first [ apply balanced_hardware | apply balanced_sleep | apply balanced_measure
    | apply balanced_schedule_idle | keeps_step ]; refs_neutral.
Qed.

Lemma balanced_work w : keeps balanced (work_handler cfg ops pf w).
Proof.
  destruct w; cbn; try (apply keeps_ret, _); [apply balanced_command_work|..].
  all: unfold measurement_notify_work_handler, idle_measurement_notify_work_handler, advertise_work_handler,
    start_advertising, get_current_redcon;
    repeat first [ apply balanced_ref; [|intros c] | apply balanced_measure | apply balanced_sleep
      | apply balanced_schedule_idle | keeps_step ]; refs_neutral.
Qed.

Lemma balanced_step x y : redcon_step x y → balanced x y.
Proof.
  intros H. destruct H as [buf len offset s t|len offset s t|len offset s t|len offset s t Hw|conn err s t|s t|w s t Hw].
  - assert (H : keeps balanced (write_command cfg buf len offset)); [|apply H].
    unfold write_command, set_current_redcon.
    repeat first [by apply balanced_modify | keeps_step]; refs_neutral.
  - done.
  - assert (H : keeps balanced (read_power_measurement cfg pf len offset)); [|apply H].
    unfold read_power_measurement. repeat first [apply balanced_refresh_power | keeps_step].
  - assert (H : keeps balanced (read_weather_measurement ops pf len offset)); [|apply H].
    unfold read_weather_measurement. repeat first [apply balanced_refresh_weather | keeps_step].
  - assert (H : keeps balanced (connected cfg conn err)); [|apply H].
    unfold connected, get_current_redcon.
    repeat first [apply balanced_set_conn | apply balanced_schedule_idle | keeps_step]; refs_neutral.
  - assert (H : keeps balanced (disconnected cfg ops pf)); [|apply H].
    unfold disconnected, get_current_redcon, cancel_idle_measurement_notifications, set_current_redcon.
    repeat first [ apply balanced_set_conn | apply balanced_hardware | apply balanced_sleep
      | by apply balanced_modify | keeps_step ]; refs_neutral.
  - transitivity (s, EWorkRun w :: t); [by apply balanced_emit|]. apply balanced_work.
Qed.

(** ** The start sequence *)

(** What the start sequence does before the outputs are switched off. *)
Definition untouched (x y : redcon_state * trace) : Prop :=
  connected_conn y.1 = connected_conn x.1 ∧
  pending redcon_command_work y.2 = pending redcon_command_work x.2 ∧
  ∀ c, conn_refs c y.2 = conn_refs c x.2.

#[local] Instance untouched_preorder : PreOrder untouched.
Proof.
  split; [by intros x|]. intros x y z (A1 & A2 & A3) (B1 & B2 & B3).
  unfold untouched. split_and!; [congruence|congruence|]. intros c. by rewrite B3, A3.
Qed.

Lemma untouched_sleep : keeps untouched (@enter_sleep_hardware_state cfg ops pf redcon_state).
Proof.
  unfold enter_sleep_hardware_state, set_wakeup_hardware_state, txing_redcon_set_output_active,
    suspend_battery_adc, disable_xiao_load_regulators, disable_regulator.
  keeps_auto; apply keeps_emit; intros; by try case_match.
Qed.

Lemma untouched_name : keeps untouched (load_device_name_from_nve cfg pf).
Proof.
  unfold load_device_name_from_nve, set_device_name_from_bytes. keeps_auto; by apply keeps_modify.
Qed.

Lemma untouched_init_hook : keeps untouched (run_hook true (ops_app_init ops)).
Proof.
  unfold run_hook. destruct (ops_app_init ops) as [h|] eqn:E; [|apply keeps_ret, _]. cbn.
  intros s t. pose proof (app_init_quiet h E tt t) as H. unfold lift, final in *.
  destruct (h tt t) as [[a u] t']. destruct H as (H1 & H2 & _). unfold untouched; cbn in *. split_and!; auto.
Qed.

Lemma init_hardware_post s t :
  let '(_, s', t') := redcon_init_hardware cfg ops pf s t in
  outputs false t' ∧ level_ok s' ∧ current_redcon s' = TXING_REDCON_IDLE ∧ untouched (s, t) (s', t').
Proof.
  unfold redcon_init_hardware.
  assert (Hpre : keeps untouched (_ ← load_device_name_from_nve cfg pf; _ ← run_hook true (ops_app_init ops);
    _ ← txing_redcon_configure_output_inactive pf (ops_led ops);
    txing_redcon_configure_output_inactive pf (ops_power ops))).
  { unfold txing_redcon_configure_output_inactive.
    repeat first [apply untouched_name | apply untouched_init_hook | keeps_step]; apply keeps_emit; intros; by case_match. }
  specialize (Hpre s t). unfold mbind, M_bind, final in *.
  destruct (load_device_name_from_nve cfg pf s t) as [[? s1] t1].
  destruct (run_hook true (ops_app_init ops) s1 t1) as [[? s2] t2].
  destruct (txing_redcon_configure_output_inactive pf (ops_led ops) s2 t2) as [[? s3] t3].
  destruct (txing_redcon_configure_output_inactive pf (ops_power ops) s3 t3) as [[? s4] t4].
  cbn [fst snd] in Hpre. destruct (enter_sleep_outputs s4 t4) as [Ho _].
  pose proof (untouched_sleep s4 t4) as Hs. unfold final in Hs.
  destruct (enter_sleep_hardware_state cfg ops pf s4 t4) as [[? s5] t5]. cbn in Ho, Hs |- *.
  split_and!; [done|by split; [left|]|done|]. etransitivity; [exact Hpre|]. exact Hs.
Qed.

Lemma stable_start_radio P : keeps (stable P) (redcon_start_radio cfg pf).
Proof.
  unfold redcon_start_radio, set_adv_tx_power, start_advertising. keeps_auto; neutral.
Qed.

Lemma untouched_start_radio : keeps untouched (redcon_start_radio cfg pf).
Proof.
  unfold redcon_start_radio, set_adv_tx_power, start_advertising.
  keeps_auto; first [by apply keeps_emit | by apply keeps_call].
Qed.

Lemma started_post x :
  started x → level_ok x.1 ∧ outputs_match x.1 x.2 ∧ ∀ c, conn_refs c x.2 = held x.1 c.
Proof.
  intros (s & t & E & ->). unfold redcon_start, mbind, M_bind in E.
  pose proof (init_hardware_post (initial_state cfg) []) as H.
  destruct (redcon_init_hardware cfg ops pf (initial_state cfg) []) as [[u s1] t1].
  destruct H as (Ho & Hl & Ec & Hu).
  pose proof (stable_start_radio (λ _, True) s1 t1) as Hr. pose proof (untouched_start_radio s1 t1) as Hr2.
  rewrite E in Hr, Hr2. unfold final in *. cbn in *. split_and!.
  - by apply (stable_level _ _ _ Hr).
  - destruct Hr as (Er & _ & _ & Hpins). cbn in Er, Hpins. unfold outputs_match, outputs. rewrite Er, Ec. cbn.
    destruct Ho as [H1 H2]. split; intros p Hp Hready; rewrite Hpins by done; auto.
  - intros c. destruct Hu as (A1 & _ & A3), Hr2 as (B1 & _ & B3). cbn in *.
    rewrite B3, A3. unfold held. by rewrite B1, A1.
Qed.

(** ** Outputs follow the level *)

Definition waiting (t : trace) : bool := pending redcon_command_work t.

Definition at_level (r : Z) (s : redcon_state) (t : trace) : Prop := current_redcon s = r.

Lemma triple_level {A} P r (c : M redcon_state A) :
  keeps (stable P) c → triple (at_level r) c (λ _, at_level r).
Proof. intros Hk. eapply triple_keeps; [exact Hk|]. intros s t s' t' (E & _). by unfold at_level; cbn in E; rewrite E. Qed.

Lemma triple_match {A} (c : M redcon_state A) :
  keeps sampling c → triple outputs_match c (λ _, outputs_match).
Proof. intros Hk. eapply triple_keeps; [exact Hk|]. intros s t s' t' H. by apply (sampling_match (s, t) (s', t')). Qed.

Lemma triple_get r : triple (at_level r) get_current_redcon (λ a s t, a = r ∧ at_level r s t).
Proof. by intros s t. Qed.

Lemma triple_hardware r :
  redcon_is_wakeup r = true → triple (at_level r) (set_wakeup_hardware_state ops pf true) (λ _, outputs_match).
Proof.
  intros Hw s t Hl. pose proof (set_hardware_outputs true s t) as H.
  destruct (set_wakeup_hardware_state ops pf true s t) as [[u s'] t']. destruct H as ([H1 H2] & -> & _).
  unfold outputs_match. unfold at_level in Hl. by rewrite Hl, Hw.
Qed.

Lemma triple_sleep r :
  redcon_is_wakeup r = false → triple (at_level r) (enter_sleep_hardware_state cfg ops pf) (λ _, outputs_match).
Proof.
  intros Hw s t Hl. destruct (enter_sleep_outputs s t) as [Ho (E & _)]. unfold final in *.
  destruct (enter_sleep_hardware_state cfg ops pf s t) as [[u s'] t']. cbn in *.
  unfold outputs_match. unfold at_level in Hl. by rewrite E, Hl, Hw.
Qed.

Lemma triple_wakeup r conn :
  redcon_is_wakeup r = true → triple (at_level r) (enter_redcon_wakeup cfg ops pf conn) (λ _, outputs_match).
Proof.
  intros Hw. unfold enter_redcon_wakeup, cancel_idle_measurement_notifications.
  eapply triple_bind; [eapply (triple_level (λ _, True)); neutral|intros ?].
  eapply triple_bind; [by apply triple_hardware|intros ?].
  eapply triple_bind; [apply triple_match, keeps_sampling, stable_request_params|intros ?].
  eapply triple_bind; [apply triple_match, keeps_sampling, stable_notify|intros ?].
  eapply triple_bind; [apply triple_match, sampling_measure|intros ?].
  apply triple_match, keeps_sampling. neutral.
Qed.

Lemma triple_idle r :
  redcon_is_wakeup r = false → triple (at_level r) (enter_redcon_idle cfg ops pf) (λ _, outputs_match).
Proof.
  intros Hw. unfold enter_redcon_idle.
  eapply triple_bind; [eapply (triple_level (λ _, True)); neutral|intros ?].
  eapply triple_bind; [eapply triple_level, stable_enter_sleep|intros ?].
  eapply triple_bind; [eapply triple_level, (stable_notify (λ _, True))|intros ?].
  eapply triple_bind; [eapply triple_level, stable_measure_idle|intros ?].
  eapply triple_bind; [by apply triple_sleep|intros ?].
  apply triple_match, keeps_sampling, stable_schedule_idle.
Qed.

Lemma triple_command_work r :
  triple (at_level r) (redcon_command_work_handler cfg ops pf) (λ _, outputs_match).
Proof.
  unfold redcon_command_work_handler. eapply triple_bind; [apply triple_get|intros lvl].
  apply triple_pure. intros ->.
  eapply triple_bind; [eapply triple_level, (stable_ref_conn (λ _, True))|intros conn].
  eapply triple_bind; [|intros ?; apply triple_match, keeps_sampling, stable_unref_conn].
  destruct (redcon_is_wakeup r) eqn:E; [by apply triple_wakeup|by apply triple_idle].
Qed.

Lemma triple_set_idle r :
  triple (at_level r) (set_current_redcon TXING_REDCON_IDLE) (λ _, at_level TXING_REDCON_IDLE).
Proof. by intros s t. Qed.

Lemma triple_disconnected r : triple (at_level r) (disconnected cfg ops pf) (λ _, outputs_match).
Proof.
  unfold disconnected, cancel_idle_measurement_notifications.
  eapply triple_bind; [eapply (triple_level (λ _, True)); neutral|intros ?].
  eapply triple_bind; [eapply triple_level, (stable_set_conn (λ _, True))|intros ?].
  eapply triple_bind; [apply triple_get|intros lvl].
  apply triple_pure. intros ->.
  eapply triple_bind; [|intros ?; apply triple_match, keeps_sampling; neutral].
  destruct (redcon_is_wakeup r) eqn:Ew, (cf_preserve_level_on_disconnect cfg); cbn [andb].
  1: eapply triple_bind; [by apply triple_hardware|intros ?; apply triple_match, keeps_sampling; neutral].
  all: eapply triple_bind; [apply triple_set_idle|intros ?];
    (eapply triple_bind; [eapply (triple_level (λ _, True)); neutral|intros ?]); by apply triple_sleep.
Qed.

Lemma triple_idle_work r :
  triple (λ s t, at_level r s t ∧ outputs_match s t)
    (idle_measurement_notify_work_handler cfg ops pf) (λ _, outputs_match).
Proof.
  unfold idle_measurement_notify_work_handler.
  eapply triple_bind; [apply triple_and; [apply triple_get|apply triple_match, keeps_sampling]|intros lvl].
  { unfold get_current_redcon. keeps_auto. }
  eapply triple_conseq; [|intros s t [[E Hl] Hm]; exact (conj E (conj Hl Hm))|intros ? s t Hq; exact Hq].
  apply triple_pure. intros ->. destruct (Z.eqb_spec r TXING_REDCON_IDLE) as [->|]; cbn [negb].
  2: by intros s t [_ Hm].
  eapply triple_bind; [apply triple_and; [eapply triple_level, (stable_ref_conn (λ _, True))
    |apply triple_match, keeps_sampling, stable_ref_conn]|intros [c|]]; [|by intros s t [_ Hm]].
  eapply triple_conseq; [|intros s t [Hl _]; exact Hl|intros ? s t Hq; exact Hq].
  eapply triple_bind; [eapply (triple_level (λ _, True)); neutral|intros ?].
  eapply triple_bind; [eapply triple_level, stable_measure_idle|intros ?].
  eapply triple_bind; [by apply triple_sleep|intros ?].
  apply triple_match, keeps_sampling, stable_schedule_idle.
Qed.

Lemma triple_final {A} P (c : M redcon_state A) Q s t :
  triple P c (λ _, Q) → P s t → Q (final (c s t)).1 (final (c s t)).2.
Proof. intros H Hp. specialize (H s t Hp). unfold final. by destruct (c s t) as [[a s'] t']. Qed.

(** The waiting command stays waiting under every call but its own work. *)
Lemma waiting_stable {A} P (c : M redcon_state A) s t :
  keeps (stable P) c → pending redcon_command_work (final (c s t)).2 = pending redcon_command_work t.
Proof. intros H. by destruct (H s t) as (_ & _ & E & _). Qed.

Definition settled (x : redcon_state * trace) : Prop :=
  pending redcon_command_work x.2 = false → outputs_match x.1 x.2.

Lemma settled_sampling x y : sampling x y → settled x → settled y.
Proof.
  intros H Hs Hp. eapply sampling_match; [exact H|]. apply Hs. by destruct H as [(_ & _ & <- & _) _].
Qed.

Lemma settled_step x y : redcon_step x y → settled x → settled y.
Proof.
  intros H. destruct H as [buf len offset s t|len offset s t|len offset s t|len offset s t Hw|conn err s t|s t|w s t Hw].
  - unfold write_command. destruct (negb _); [done|]. by destruct (decode_redcon_command _ _ _).
  - done.
  - apply settled_sampling, sampling_stable. apply (stable_read_power (λ _, True) len offset s t).
  - apply settled_sampling. by apply sampling_read_weather.
  - apply settled_sampling. apply (sampling_connected conn err s t).
  - intros _ _. by apply (triple_final (at_level (current_redcon s))); [apply triple_disconnected|].
  - intros Hs. destruct w; cbn [work_handler]; try (by intros Hp; apply Hs).
    + intros _. by apply (triple_final (at_level (current_redcon s))); [apply triple_command_work|].
    + eapply settled_sampling; [apply sampling_measurement_work|]. exact Hs.
    + intros Hp. eapply (triple_final _ _ outputs_match); [apply (triple_idle_work (current_redcon s))|].
      split; [done|]. apply Hs. rewrite (waiting_stable (λ _, False)) in Hp by apply stable_idle_work. exact Hp.
Qed.

(** The REDCON level of a BLE device always is the idle level or a level its command
    mask enables, and the state characteristic always holds the protocol version and that
    level. *)
Theorem redcon_level_supported x :
  reachable x →
  (current_redcon x.1 = TXING_REDCON_IDLE ∨
   redcon_command_level_is_supported (cf_command_levels_mask cfg) (current_redcon x.1) = true) ∧
  redcon_state_payload x.1 = [TXING_REDCON_PROTOCOL_VERSION; current_redcon x.1].
Proof.
  induction 1 as [x Hx|x y _ IH Hs]; [by apply started_post|]. by eapply level_step.
Qed.

(** C27: On a BLE device whose application keeps the contract of its hooks, as those of
    unit, power and weather do, in every reachable state with no command pending, the
    LED and the power output are on when the REDCON level is a wake-up level and off
    when it is idle (an application that samples the weather switches its supply
    itself). This holds of each pin whose port is ready and whose gpio_pin_set_dt does
    not fail; the code ignores what it returns. *)
Theorem redcon_outputs_follow_level x :
  reachable x → pending redcon_command_work x.2 = false → outputs_match x.1 x.2.
Proof.
  intros Hx. induction Hx as [x Hx|x y _ IH Hs]; [intros _; by apply started_post|].
  by eapply settled_step.
Qed.

(** The BLE device holds exactly one reference on the connection it stores and none
    on any other, in every reachable state: references taken for a work item or a
    callback are dropped on every path. *)
Theorem redcon_conn_refs_balanced x c :
  reachable x → conn_refs c x.2 = match connected_conn x.1 with
                                  | Some d => if c =? d then 1 else 0
                                  | None => 0
                                  end.
Proof.
  intros Hx. change (conn_refs c x.2 = held x.1 c).
  induction Hx as [x Hx|x y _ IH Hs]; [by apply started_post|].
  pose proof (balanced_step x y Hs c). lia.
Qed.
End Safety.

(** ** Instance: the unit device, awake

    The values of [unit/mcu/zephyr/prj.conf]; a platform on which every call
    succeeds, with no factory record. *)
Definition unit_config : redcon_config := mk_config 0x1e true false 26 100 0 20000 10 60 100 4 None (Some 7).
Definition unit_led : gpio_dt_spec := mk_gpio 2 0.
Definition unit_power : gpio_dt_spec := mk_gpio 1 4.
Definition unit_ops : txing_redcon_ops := gpio_ops unit_led unit_power.
Definition ready_platform : ble_platform :=
  mk_ble_platform (λ _, true) (λ _ _, 0) (λ _ _ _, 0) saadc_level (λ _, true) (λ _, 0) (λ _, (0, 1000)) false
    (λ _ raw, (0, raw)) (replicate 36 255) crc32_reference (λ len _ _, len) (λ _, true) (λ _, 0) (λ _, (0, 4))
    (λ _, 0) (λ _, 0) (λ _, 0).

Definition unit_started : redcon_state * trace :=
  final (redcon_start unit_config unit_ops ready_platform (initial_state unit_config) []).
Definition unit_connected : redcon_state * trace :=
  final (connected unit_config 1 0 unit_started.1 unit_started.2).
Definition unit_commanded : redcon_state * trace :=
  final (write_command unit_config (Some [2; 3]) 2 0 unit_connected.1 unit_connected.2).
Definition unit_awake : redcon_state * trace :=
  final (work_handler unit_config unit_ops ready_platform redcon_command_work unit_commanded.1
    (EWorkRun redcon_command_work :: unit_commanded.2)).

Lemma unit_awake_reachable : reachable unit_config unit_ops ready_platform unit_awake.
Proof.
  eapply reach_step; [eapply reach_step; [eapply reach_step; [apply reach_start|]|]|].
  - exists unit_started.1, unit_started.2. split; reflexivity.
  - apply (step_connected _ _ _ 1 0).
  - apply (step_write_command _ _ _ (Some [2; 3]) 2 0).
  - apply (step_work _ _ _ redcon_command_work). reflexivity.
Qed.

Lemma redcon_level_supported_witness :
  (current_redcon unit_awake.1 = TXING_REDCON_IDLE ∨
   redcon_command_level_is_supported 0x1e (current_redcon unit_awake.1) = true) ∧
  redcon_state_payload unit_awake.1 = [TXING_REDCON_PROTOCOL_VERSION; current_redcon unit_awake.1].
Proof. apply (redcon_level_supported unit_config unit_ops ready_platform), unit_awake_reachable. Defined.

Lemma redcon_outputs_follow_level_witness :
  pin_level unit_led unit_awake.2 = Some true ∧ pin_level unit_power unit_awake.2 = Some true.
Proof.
  assert (H : outputs_match unit_config unit_ops ready_platform unit_awake.1 unit_awake.2).
  { apply (redcon_outputs_follow_level unit_config unit_ops ready_platform); [apply unit_awake_reachable|reflexivity]. }
  assert (Hu : ∀ p, usable ready_platform p) by (intros p; split; [reflexivity|intros; reflexivity]).
  unfold outputs_match in H. assert (Hw : redcon_is_wakeup (current_redcon unit_awake.1) = true) by reflexivity. rewrite Hw in H.
  destruct H as [H1 H2]. split; [apply H1|apply H2]; first [reflexivity|apply Hu].
Defined.

Lemma redcon_conn_refs_balanced_witness : conn_refs 1 unit_awake.2 = 1.
Proof.
  rewrite (redcon_conn_refs_balanced unit_config unit_ops ready_platform unit_awake 1 unit_awake_reachable).
  reflexivity.
Defined.

(** The state the invariants speak of. *)
Example unit_awake_level : current_redcon unit_awake.1 = 3 ∧ connected_conn unit_awake.1 = Some 1.
Proof. split; reflexivity. Qed.
