(* ===== verification/RedconFunctions.v ===== *)
(** * Functional behaviour of the REDCON BLE operations

    The command characteristic on every branch, the factory record written by
    [scripts/redcon_nve.py] and read by the firmware, the connection parameters
    against the ranges of the Bluetooth specification, and the battery sample
    with its power sequencing; all operations of [RedconBle]. *)
From S2P Require Import Prelude Zephyr RedconBle.

(** ** The command characteristic *)

(** The commands a device with level mask [mask] takes. *)
Definition valid_command (mask : Z) (buf : option (list Z)) (len : Z) (r : Z) : Prop :=
  ∃ data, buf = Some data ∧ len = 2 ∧ data !!! 0%nat = 2 ∧ data !!! 1%nat = r ∧
    1 ≤ r ≤ 4 ∧ Z.testbit mask r = true.

Lemma land_bit mask r : 0 ≤ r → negb (Z.land mask (Z.shiftl 1 r) =? 0) = Z.testbit mask r.
Proof.
  intros Hr. destruct (Z.testbit mask r) eqn:E.
  - apply negb_true_iff, Z.eqb_neq. intros H0.
    assert (H : Z.testbit (Z.land mask (Z.shiftl 1 r)) r = true).
    { rewrite Z.land_spec, E, Z.shiftl_spec, Z.sub_diag by done. done. }
    by rewrite H0, Z.bits_0 in H.
  - apply negb_false_iff, Z.eqb_eq. apply Z.bits_inj'. intros i Hi.
    rewrite Z.land_spec, Z.bits_0, Z.shiftl_spec by done.
    destruct (decide (i = r)) as [->|Hne]; [by rewrite E|].
    destruct (decide (i < r)); [by rewrite (Z.testbit_neg_r 1), andb_false_r by lia|].
    change 1 with (2 ^ 0). rewrite Z.pow2_bits_false by lia. apply andb_false_r.
Qed.

Lemma decode_redcon_command_spec mask buf len r :
  decode_redcon_command mask buf len = Some r ↔ valid_command mask buf len r.
Proof.
  unfold decode_redcon_command, valid_command, TXING_REDCON_COMMAND_PAYLOAD_SIZE,
    TXING_REDCON_PROTOCOL_VERSION, redcon_command_level_is_supported, TXING_REDCON_LEVEL_1, TXING_REDCON_IDLE.
  split.
  - destruct buf as [data|]; [|done].
    destruct (Z.eqb_spec len 2); [|done]. destruct (Z.eqb_spec (data !!! 0%nat) 2); [|done]. cbn [negb].
    destruct (Z.ltb_spec (data !!! 1%nat) 1); [done|]. destruct (Z.ltb_spec 4 (data !!! 1%nat)); [done|].
    cbn [orb]. rewrite land_bit by lia. destruct (Z.testbit mask (data !!! 1%nat)) eqn:E; [|done]. cbn.
    intros [= <-]. exists data. split_and!; try done; lia.
  - intros (data & -> & -> & E0 & E1 & Hr & Hb). rewrite E0, E1. cbn [negb Z.eqb].
    rewrite (proj2 (Z.ltb_ge _ _)), (proj2 (Z.ltb_ge _ _)) by lia. cbn [orb].
    rewrite land_bit by lia. by rewrite Hb.
Qed.

(** A write to the command characteristic on every branch: Invalid Offset at a non-zero
    offset, Value Not Allowed for anything but a version-2 command with an enabled level,
    both without effect; otherwise the level and the state payload change and the command
    work is submitted. *)
Theorem write_command_spec cfg buf len offset s t :
  let mask := cf_command_levels_mask cfg in
  (offset ≠ 0 → write_command cfg buf len offset s t = (- 7, s, t)) ∧
  (offset = 0 → (∀ r, ¬ valid_command mask buf len r) →
     write_command cfg buf len offset s t = (- 19, s, t)) ∧
  (∀ r, offset = 0 → valid_command mask buf len r →
     write_command cfg buf len offset s t =
       (len, set_redcon r [2; r] s, EWorkSubmit redcon_command_work :: t)).
Proof.
  cbv zeta. unfold write_command. split_and!.
  - intros Ho. apply Z.eqb_neq in Ho. by rewrite Ho.
  - intros -> Hn. cbn [Z.eqb negb]. destruct (decode_redcon_command _ _ _) as [r|] eqn:E; [|done].
    apply decode_redcon_command_spec in E. by destruct (Hn r).
  - intros r -> Hv. cbn [Z.eqb negb]. apply decode_redcon_command_spec in Hv. by rewrite Hv.
Qed.

(** ** The factory record *)

(** [build_factory_data] of the NVE writer, for a validated name. *)
Definition build_factory_data (crc32 : list Z → Z) (name : list Z) : list Z :=
  let without_crc := REDCON_FACTORY_DATA_MAGIC ++ [REDCON_FACTORY_DATA_VERSION; Z.of_nat (length name)] ++
                     name ++ replicate (26 - length name) 0 in
  without_crc ++ le_bytes 4 (crc32 without_crc).

(** [validate_device_name]. *)
Definition name_ok (name : list Z) : Prop :=
  (1 ≤ length name ≤ 26)%nat ∧ Forall (λ b, 0x21 ≤ b ≤ 0x7e) name.

Lemma name_bytes_valid name :
  Forall (λ b, 0x21 ≤ b ≤ 0x7e) name → forallb is_valid_device_name_byte name = true.
Proof.
  intros H. apply forallb_forall. intros b Hb. rewrite Forall_forall in H.
  specialize (H b Hb). cbn in H. unfold is_valid_device_name_byte. apply andb_true_iff. split; apply Z.leb_le; lia.
Qed.

Lemma factory_name_built crc32 name :
  name_ok name → (∀ l, in_u 32 (crc32 l)) →
  factory_name crc32 (build_factory_data crc32 name) =
    Some (name ++ replicate (26 - length name) 0, Z.of_nat (length name)).
Proof.
  intros [Hl Hb] Hcrc. unfold factory_name, build_factory_data.
  set (body := REDCON_FACTORY_DATA_MAGIC ++ _ ++ name ++ _).
  assert (Hbody : length body = 32%nat).
  { unfold body. rewrite !length_app, length_replicate. cbn. lia. }
  rewrite take_app_le by lia. rewrite (take_app_length' body) by done.
  rewrite (drop_app_length' body) by done.
  rewrite (firstn_all2 (le_bytes 4 _)) by (rewrite length_le_bytes; lia).
  rewrite le_val_bytes_small by apply Hcrc.
  assert (E4 : (body ++ le_bytes 4 (crc32 body)) !!! 4%nat = 1) by done.
  assert (E5 : (body ++ le_bytes 4 (crc32 body)) !!! 5%nat = Z.of_nat (length name)) by done.
  rewrite E4, E5, !Z.eqb_refl. change (take 4 body) with REDCON_FACTORY_DATA_MAGIC. rewrite bool_decide_true by done.
  unfold REDCON_FACTORY_DEVICE_NAME_SIZE. cbn [negb orb]. rewrite (proj2 (Z.eqb_neq _ _)), (proj2 (Z.ltb_ge _ _)) by lia. cbn [orb].
  f_equal. f_equal. change (drop 6 (body ++ le_bytes 4 (crc32 body)))
    with ((name ++ replicate (26 - length name) 0) ++ le_bytes 4 (crc32 body)).
  apply take_app_length'. rewrite length_app, length_replicate. lia.
Qed.

(** What the loader leaves: the name as a C string and its advertised length. *)
Definition named (name : list Z) (s : redcon_state) : Prop :=
  c_string (device_name s) = name ∧ ad_name_len s = Z.of_nat (length name) ∧
  take (Z.to_nat (ad_name_len s)) (device_name s) = name.

(** The device name in a factory record built by the NVE writer is what
    load_device_name_from_nve installs, as a C string and with its advertised length. *)
Theorem factory_record_roundtrip cfg pf name s t :
  name_ok name → (∀ l, in_u 32 (crc32_ieee pf l)) →
  factory_flash pf = build_factory_data (crc32_ieee pf) name →
  cf_bt_device_name_max cfg = 26 → length (device_name s) = 27%nat →
  let '(ok, s', t') := load_device_name_from_nve cfg pf s t in
  ok = true ∧ named name s' ∧ current_redcon s' = current_redcon s ∧ t' = t.
Proof.
  intros Hn Hcrc Hflash Hmax Hlen. pose proof Hn as [Hl Hb].
  unfold load_device_name_from_nve. rewrite Hflash, factory_name_built by done.
  unfold set_device_name_from_bytes, TXING_REDCON_BLE_ADV_MAX_NAME_LEN. rewrite Hmax, Nat2Z.id.
  rewrite (proj2 (Z.eqb_neq _ _)), (proj2 (Z.ltb_ge _ _)) by lia. cbn [orb].
  rewrite (take_app_length' name) by done. rewrite name_bytes_valid by done. cbn.
  assert (Em : memcpy_at (device_name s) 0 (name ++ [0]) = name ++ 0 :: drop (S (length name)) (device_name s)).
  { unfold memcpy_at. rewrite take_0, length_app. cbn. rewrite <- app_assoc. cbn. do 3 f_equal. lia. }
  split_and!; try done. unfold named; cbn. rewrite Em, Nat2Z.id. split_and!; [by apply c_string_app|done|].
  by apply take_app_length'.
Qed.

(** A record that fails a check leaves the default name. *)
Lemma load_rejected cfg pf s t s' t' :
  load_device_name_from_nve cfg pf s t = (false, s', t') → s' = s ∧ t' = t.
Proof.
  unfold load_device_name_from_nve, set_device_name_from_bytes.
  destruct (factory_name _ _) as [[name len]|]; [|by intros [= <- <-]].
  destruct (_ || _ || _); [by intros [= <- <-]|]. destruct (negb _); [by intros [= <- <-]|done].
Qed.

(** ** Connection parameters *)

(** Bluetooth: 7.5 ms to 4 s in units of 1.25 ms, latency up to 499, supervision
    timeout 100 ms to 32 s and larger than twice the effective interval. *)
Definition ble_params_ok (interval_ms latency supervision_ms : Z) : Prop :=
  6 ≤ (4 * interval_ms + 2) / 5 ≤ 3200 ∧ latency ≤ 499 ∧
  10 ≤ supervision_ms / 10 ≤ 3200 ∧ 2 * interval_ms * (latency + 1) < supervision_ms.

Lemma interval_units_exact i : in_u 16 i → conn_interval_units_from_ms i = (4 * i + 2) / 5.
Proof.
  intros [H1 H2]. unfold conn_interval_units_from_ms. change (2 ^ 16) with 65536 in *.
  rewrite !(wrapu_id 32) by (unfold in_u; change (2 ^ 32) with 4294967296; lia || (rewrite !wrapu_id; unfold in_u; lia)).
  rewrite (Z.mul_comm i). apply wrapu_id. unfold in_u. change (2 ^ 16) with 65536.
  Z.to_euclidean_division_equations; lia.
Qed.

Lemma supervision_units_exact s : in_u 16 s → conn_supervision_units_from_ms s = s / 10.
Proof.
  intros [H1 H2]. unfold conn_supervision_units_from_ms. apply wrapu_id. unfold in_u.
  change (2 ^ 16) with 65536 in *. Z.to_euclidean_division_equations; lia.
Qed.

(** For 16-bit parameters validate_connection_params accepts exactly what the Bluetooth
    specification allows; the 32-bit products do not wrap. *)
Theorem validate_connection_params_spec i l s :
  in_u 16 i → in_u 16 l → in_u 16 s →
  validate_connection_params i l s = true ↔ ble_params_ok i l s.
Proof.
  intros Hi Hl Hs. unfold validate_connection_params.
  rewrite interval_units_exact, supervision_units_exact by done.
  unfold ble_params_ok, REDCON_CONN_INTERVAL_MIN_UNITS, REDCON_CONN_INTERVAL_MAX_UNITS, REDCON_CONN_LATENCY_MAX,
    REDCON_CONN_SUPERVISION_MIN_UNITS, REDCON_CONN_SUPERVISION_MAX_UNITS, in_u in *.
  change (2 ^ 16) with 65536 in *.
  destruct (Z.ltb_spec ((4 * i + 2) / 5) 6); [split; [done|lia]|].
  destruct (Z.ltb_spec 3200 ((4 * i + 2) / 5)); [split; [done|lia]|]. cbn [orb].
  destruct (Z.ltb_spec 499 l); [split; [done|lia]|].
  destruct (Z.ltb_spec (s / 10) 10); [split; [done|lia]|].
  destruct (Z.ltb_spec 3200 (s / 10)); [split; [done|lia]|]. cbn [orb].
  assert (i ≤ 4000) by (Z.to_euclidean_division_equations; lia).
  rewrite (wrapu_id 32 (l + 1)), (wrapu_id 32 (i * (l + 1))), wrapu_id
    by (unfold in_u; change (2 ^ 32) with 4294967296; nia).
  destruct (Z.leb_spec s (i * (l + 1) * 2)); split; try done; try nia.
Qed.

(** The Kconfig ranges and the build assertion of [redcon.c]. *)
Definition config_in_range (cfg : redcon_config) : Prop :=
  8 ≤ cf_conn_interval_ms cfg ≤ 4000 ∧ 0 ≤ cf_conn_latency cfg ≤ 499 ∧
  100 ≤ cf_conn_supervision_ms cfg ≤ 32000 ∧
  cf_conn_interval_ms cfg * (cf_conn_latency cfg + 1) * 2 < cf_conn_supervision_ms cfg.

Lemma params_ok_in_range cfg :
  config_in_range cfg →
  ble_params_ok (cf_conn_interval_ms cfg) (cf_conn_latency cfg) (cf_conn_supervision_ms cfg).
Proof.
  intros (Hi & Hl & Hs & Hb). unfold ble_params_ok. split_and!; try lia.
  all: Z.to_euclidean_division_equations; lia.
Qed.

(** ** The battery sample *)

Section Battery.
Context (cfg : redcon_config) (pf : ble_platform).

(** [nrfx_saadc_init_check] tells whether the driver is initialised. *)
Hypothesis saadc_check : ∀ t, nrfx_saadc_init_check pf t = saadc_level t.

Definition measuring_off (t : trace) : Prop :=
  saadc_level t = false ∧
  ∀ r, cf_vbat_pwr_reg cfg = Some r → device_is_ready pf r = true → regulator_level r t = Some false.

Lemma reading_bounds {S} (s : S) t : in_u 16 (battery_reading pf s t).1.1.
Proof.
  assert (H0 : in_u 16 0) by (unfold in_u; lia).
  unfold battery_reading, mbind, M_bind, call, ask, mret, M_ret. cbv beta iota.
  destruct (adc_channel_setup pf t <? 0); [done|]. destruct (adc_read pf _) as [err buf].
  destruct (err <? 0); [done|]. destruct (adc_raw_to_millivolts pf _ _) as [err' mv].
  destruct (_ || _); [done|]. cbn [fst]. apply wrapu_in_u. lia.
Qed.

(** The sample touches no variable of the program. *)
Definition same_vars {S} (x y : S * trace) : Prop := y.1 = x.1.

#[local] Instance same_vars_preorder {S} : PreOrder (@same_vars S).
Proof. split; [by intros x|]. intros x y z H1 H2. unfold same_vars in *. congruence. Qed.

Lemma sample_same_vars {S} : keeps (@same_vars S) (sample_battery_mv cfg pf).
Proof.
  unfold sample_battery_mv, resume_battery_adc, suspend_battery_adc, vbat_regulator, vbat_settle, battery_reading.
  keeps_auto; first [by apply keeps_emit | by apply keeps_call].
Qed.

Lemma suspend_off {S} (s : S) t : saadc_level (suspend_battery_adc pf s t).2 = false.
Proof.
  unfold suspend_battery_adc, mbind, M_bind, ask, when, emit, mret, M_ret. rewrite saadc_check.
  by destruct (saadc_level t) eqn:E.
Qed.

Lemma suspend_regulators {S} (s : S) t r :
  regulator_level r (suspend_battery_adc pf s t).2 = regulator_level r t.
Proof.
  unfold suspend_battery_adc, mbind, M_bind, ask, when, emit, mret, M_ret.
  by destruct (nrfx_saadc_init_check pf t).
Qed.

Lemma vbat_off {S} (s : S) t :
  let r := vbat_regulator cfg pf false s t in
  ∀ q, cf_vbat_pwr_reg cfg = Some q → device_is_ready pf q = true → regulator_level q r.2 = Some false.
Proof.
  intros r q E Hr. unfold r, vbat_regulator. rewrite E. unfold when. rewrite Hr. cbn. by rewrite Z.eqb_refl.
Qed.

(** A battery sample of a BLE device leaves its variables alone, returns a 16-bit value
    and leaves the converter and the divider's regulator off, on every error path. *)
Theorem battery_sample_switches_off {S} (s : S) t :
  let '(mv, s', t') := sample_battery_mv cfg pf s t in
  in_u 16 mv ∧ s' = s ∧ saadc_level t' = false ∧
  (adc_is_ready pf t = true →
   ∀ r, cf_vbat_pwr_reg cfg = Some r → device_is_ready pf r = true → regulator_level r t' = Some false).
Proof.
  pose proof (sample_same_vars s t) as Hs. unfold same_vars, final in Hs.
  unfold sample_battery_mv in *. unfold mbind, M_bind, ask, mret, M_ret in *. cbv beta iota in *.
  destruct (adc_is_ready pf t); cbn [negb] in *.
  - destruct (resume_battery_adc pf s t) as [[? s1] t1].
    destruct (vbat_regulator cfg pf true s1 t1) as [[? s2] t2].
    destruct (vbat_settle cfg pf s2 t2) as [[? s3] t3].
    pose proof (reading_bounds s3 t3) as Hb. destruct (battery_reading pf s3 t3) as [[mv s4] t4].
    pose proof (vbat_off s4 t4) as Hv. destruct (vbat_regulator cfg pf false s4 t4) as [[? s5] t5].
    pose proof (suspend_off s5 t5) as Ho. pose proof (suspend_regulators s5 t5) as Hr.
    destruct (suspend_battery_adc pf s5 t5) as [[? s6] t6]. cbn in *.
    split_and!; [done|done|done|]. intros _ r E Hready. rewrite Hr. by apply Hv.
  - pose proof (suspend_off s t) as Ho. destruct (suspend_battery_adc pf s t) as [[? s1] t1]. cbn in *.
    split_and!; [unfold in_u; lia|done|done|done].
Qed.
End Battery.

(** When the converter works the battery reading is twice the divider voltage, limited
    to 65535. *)
Theorem battery_reading_spec pf {S} (s : S) t raw mv e1 e2 e3 :
  let t1 := EAdcSetup :: t in
  let t2 := EAdcRead :: t1 in
  adc_channel_setup pf t = e1 → 0 ≤ e1 → adc_read pf t1 = (e2, raw) → 0 ≤ e2 →
  adc_raw_to_millivolts pf t2 (if adc_differential pf then s16 raw else raw) = (e3, mv) → 0 ≤ e3 →
  0 ≤ mv < 2 ^ 30 →
  battery_reading pf s t = (Z.min (2 * mv) 65535, s, t2).
Proof.
  intros t1 t2 E1 H1 E2 H2 E3 H3 Hmv. unfold battery_reading, mbind, M_bind, call, ask, mret, M_ret.
  cbv beta iota. rewrite E1, (proj2 (Z.ltb_ge _ _)) by done. fold t1. rewrite E2, (proj2 (Z.ltb_ge e2 0)) by done.
  fold t2. rewrite E3, (proj2 (Z.ltb_ge e3 0)), (proj2 (Z.ltb_ge mv 0)) by lia. cbn [orb].
  rewrite (wraps_id 32) by (unfold in_s; lia). unfold UINT16_MAX. f_equal. f_equal.
  destruct (Z.ltb_spec 65535 (mv * 2)); rewrite wrapu_id by (unfold in_u; lia); lia.
Qed.

(** ** Instances *)

(** "unit-1", provisioned. *)
Definition sample_name : list Z := [117; 110; 105; 116; 45; 49].
Definition sample_config : redcon_config := mk_config 0x1e true false 26 100 0 20000 10 60 100 4 None (Some 7).
Definition sample_platform : ble_platform :=
  mk_ble_platform (λ _, true) (λ _ _, 0) (λ _ _ _, 0) saadc_level (λ _, true) (λ _, 0) (λ _, (0, 1900)) false
    (λ _ raw, (0, raw)) (build_factory_data crc32_reference sample_name) crc32_reference
    (λ len _ _, len) (λ _, true) (λ _, 0) (λ _, (0, 4)) (λ _, 0) (λ _, 0) (λ _, 0).

Lemma factory_record_roundtrip_witness :
  let '(ok, s', t') := load_device_name_from_nve sample_config sample_platform (initial_state sample_config) [] in
  ok = true ∧ named sample_name s' ∧ current_redcon s' = 4 ∧ t' = [].
Proof.
  apply (factory_record_roundtrip sample_config sample_platform sample_name (initial_state sample_config) []).
  - split; [vm_compute; lia|decide_now].
  - apply crc32_reference_u32.
  - reflexivity.
  - reflexivity.
  - reflexivity.
Defined.

Lemma validate_connection_params_spec_witness :
  validate_connection_params 100 0 20000 = true ↔ ble_params_ok 100 0 20000.
Proof. apply (validate_connection_params_spec 100 0 20000); decide_now. Defined.

Lemma battery_sample_switches_off_witness :
  let '(mv, s', t') := sample_battery_mv sample_config sample_platform tt [] in
  in_u 16 mv ∧ s' = tt ∧ saadc_level t' = false ∧
  (true = true → ∀ r, Some 7 = Some r → true = true → regulator_level r t' = Some false).
Proof. apply (battery_sample_switches_off sample_config sample_platform). reflexivity. Defined.

Lemma battery_reading_spec_witness :
  battery_reading sample_platform tt [] = (3800, tt, [EAdcRead; EAdcSetup]).
Proof. apply (battery_reading_spec sample_platform tt [] 1900 1900 0 0 0); (reflexivity || lia). Defined.
