(* ===== verification/WeatherBme280.v ===== *)
(** * The weather device

    Model of [weather/mcu/src/main.c]: the BME280 driver over I2C, the
    compensation formulas in their C integer types, and the hooks the device gives
    to the REDCON firmware ([unit] and [power] have no hooks, their [main.c] is
    [gpio_ops]). Signed arithmetic is reduced to its width after every operation
    (the firmware is compiled with wrapping overflow).

    Shown: the sensor's supply is switched off on every path of a measurement,
    error paths included; the wait for the sensor ends; the payload has its
    format and the humidity its range; the hooks meet the contract of
    [RedconSafety]. *)
From S2P Require Import Prelude Zephyr RedconBle RedconSafety.

(** ** Constants *)

Definition BME280_REG_PRESS_MSB : Z := 0xf7.
Definition BME280_REG_COMP_START : Z := 0x88.
Definition BME280_REG_HUM_COMP_PART1 : Z := 0xa1.
Definition BME280_REG_HUM_COMP_PART2 : Z := 0xe1.
Definition BME280_REG_ID : Z := 0xd0.
Definition BME280_REG_CONFIG : Z := 0xf5.
Definition BME280_REG_CTRL_MEAS : Z := 0xf4.
Definition BME280_REG_CTRL_HUM : Z := 0xf2.
Definition BME280_REG_STATUS : Z := 0xf3.
Definition BME280_REG_RESET : Z := 0xe0.
Definition BME280_CHIP_ID : Z := 0x60.
Definition BME280_CMD_SOFT_RESET : Z := 0xb6.
Definition BME280_STATUS_MEASURING : Z := 0x08.
Definition BME280_STATUS_IM_UPDATE : Z := 0x01.
Definition BME280_CTRL_HUM_VAL : Z := 1.
Definition BME280_CTRL_MEAS_FORCED : Z := Z.lor (Z.lor (Z.shiftl 1 5) (Z.shiftl 1 2)) 1.
Definition BME280_CONFIG_VAL : Z := 0.
Definition BME280_EXPECTED_SAMPLE_TIME_MS : Z := 8.
Definition BME280_MEASUREMENT_TIMEOUT_MS : Z := 150.
Definition ETIMEDOUT : Z := 116.

(** ** Data *)

Record bme280_calibration := mk_cal {
  dig_t1 : Z; dig_t2 : Z; dig_t3 : Z;
  dig_p1 : Z; dig_p2 : Z; dig_p3 : Z; dig_p4 : Z; dig_p5 : Z;
  dig_p6 : Z; dig_p7 : Z; dig_p8 : Z; dig_p9 : Z;
  dig_h1 : Z; dig_h2 : Z; dig_h3 : Z; dig_h4 : Z; dig_h5 : Z; dig_h6 : Z;
  t_fine : Z
}.

Definition set_t_fine (v : Z) (c : bme280_calibration) : bme280_calibration :=
  mk_cal (dig_t1 c) (dig_t2 c) (dig_t3 c) (dig_p1 c) (dig_p2 c) (dig_p3 c) (dig_p4 c) (dig_p5 c)
    (dig_p6 c) (dig_p7 c) (dig_p8 c) (dig_p9 c) (dig_h1 c) (dig_h2 c) (dig_h3 c) (dig_h4 c)
    (dig_h5 c) (dig_h6 c) v.

(** What the I2C driver and the kernel clock answer. A read delivers its error
    code and the bytes of the buffer. *)
Record i2c_platform := mk_i2c {
  i2c_is_ready : trace → bool;
  i2c_burst_read : trace → Z → Z → Z * list Z;
  i2c_reg_write_byte : trace → Z → Z → Z;
  k_uptime_get : trace → Z
}.

(** [sys_get_le16(&buf[i])]. *)
Definition get_le16 (buf : list Z) (i : nat) : Z := buf !!! i + 256 * buf !!! S i.

(** ** Compensation *)

Definition bme280_s12_to_i16 (value : Z) : Z :=
  let value := Z.land value 0x0fff in
  let value := if negb (Z.land value 0x0800 =? 0) then Z.lor value 0xf000 else value in
  s16 value.

(** [int32_t] operations. *)
Definition add32 (a b : Z) : Z := s32 (a + b).
Definition sub32 (a b : Z) : Z := s32 (a - b).
Definition mul32 (a b : Z) : Z := s32 (a * b).
Definition shl32 (a n : Z) : Z := s32 (Z.shiftl a n).
(** [int64_t] operations. *)
Definition add64 (a b : Z) : Z := s64 (a + b).
Definition sub64 (a b : Z) : Z := s64 (a - b).
Definition mul64 (a b : Z) : Z := s64 (a * b).
Definition shl64 (a n : Z) : Z := s64 (Z.shiftl a n).

(** Returns the temperature and the calibration with [t_fine] set. *)
Definition bme280_compensate_temp (cal : bme280_calibration) (adc_temp : Z) : Z * bme280_calibration :=
  let var1 := Z.shiftr (mul32 (sub32 (Z.shiftr adc_temp 3) (shl32 (dig_t1 cal) 1)) (dig_t2 cal)) 11 in
  let d := sub32 (Z.shiftr adc_temp 4) (dig_t1 cal) in
  let var2 := Z.shiftr (mul32 (Z.shiftr (mul32 d d) 12) (dig_t3 cal)) 14 in
  let fine := add32 var1 var2 in
  (Z.shiftr (add32 (mul32 fine 5) 128) 8, set_t_fine fine cal).

Definition bme280_compensate_press (cal : bme280_calibration) (adc_press : Z) : Z :=
  let var1 := sub64 (t_fine cal) 128000 in
  let var2 := mul64 (mul64 var1 var1) (dig_p6 cal) in
  let var2 := add64 var2 (shl64 (mul64 var1 (dig_p5 cal)) 17) in
  let var2 := add64 var2 (shl64 (dig_p4 cal) 35) in
  let var1 := add64 (Z.shiftr (mul64 (mul64 var1 var1) (dig_p3 cal)) 8)
                    (shl64 (mul64 var1 (dig_p2 cal)) 12) in
  let var1 := Z.shiftr (mul64 (add64 (shl64 1 47) var1) (dig_p1 cal)) 33 in
  if var1 =? 0 then 0 else
  let p := sub32 1048576 adc_press in
  let p := Z.quot (mul64 (sub64 (shl64 p 31) var2) 3125) var1 in
  let var1 := Z.shiftr (mul64 (mul64 (dig_p9 cal) (Z.shiftr p 13)) (Z.shiftr p 13)) 25 in
  let var2 := Z.shiftr (mul64 (dig_p8 cal) p) 19 in
  let p := add64 (Z.shiftr (add64 (add64 p var1) var2) 8) (shl64 (dig_p7 cal) 4) in
  if p <? 0 then 0 else if 2 ^ 32 - 1 <? p then 2 ^ 32 - 1 else u32 p.

Definition bme280_compensate_humidity (cal : bme280_calibration) (adc_humidity : Z) : Z :=
  let h := sub32 (t_fine cal) 76800 in
  let a := Z.shiftr (add32 (sub32 (sub32 (shl32 adc_humidity 14) (shl32 (dig_h4 cal) 20))
                                  (mul32 (dig_h5 cal) h)) 16384) 15 in
  let b := Z.shiftr (mul32 (Z.shiftr (mul32 h (dig_h6 cal)) 10)
                           (add32 (Z.shiftr (mul32 h (dig_h3 cal)) 11) 32768)) 10 in
  let c := Z.shiftr (add32 (mul32 (add32 b 2097152) (dig_h2 cal)) 8192) 14 in
  let h := mul32 a c in
  let d := Z.shiftr h 15 in
  let h := sub32 h (Z.shiftr (mul32 (Z.shiftr (mul32 d d) 7) (dig_h1 cal)) 4) in
  let h := if 419430400 <? h then 419430400 else h in
  let h := if h <? 0 then 0 else h in
  u32 (Z.shiftr h 12).

(** ** The driver *)

Section Weather.

Context (pf : ble_platform) (bus : i2c_platform).
(** The devicetree's pins and the Kconfig settle time. *)
Context (led bme280_power : gpio_dt_spec) (power_settle_ms : Z).

Definition bme280_read (reg len : Z) : M unit (Z * list Z) :=
  call (EI2cRead reg len) (λ t, i2c_burst_read bus t reg len).

Definition bme280_write (reg value : Z) : M unit Z :=
  call (EI2cWrite reg value) (λ t, i2c_reg_write_byte bus t reg value).

(** The [while (true)] loop; [None] when the fuel is used up. *)
Fixpoint bme280_wait_loop (fuel : nat) (deadline : Z) : M unit (option Z) :=
  match fuel with
  | O => mret None
  | S fuel =>
      r ← bme280_read BME280_REG_STATUS 1;
      let '(err, buf) := r in
      if err <? 0 then mret (Some err) else
      let status := buf !!! 0%nat in
      if Z.land status (Z.lor BME280_STATUS_MEASURING BME280_STATUS_IM_UPDATE) =? 0
      then mret (Some 0) else
      now ← ask (k_uptime_get bus);
      if deadline <=? now then mret (Some (- ETIMEDOUT)) else
      _ ← emit (ESleep 3);
      bme280_wait_loop fuel deadline
  end.

(** Each round but the last sleeps 3 ms, so that the timeout bounds the rounds. *)
Definition wait_fuel (timeout_ms : Z) : nat := Z.to_nat (timeout_ms / 3) + 2.

Definition bme280_wait_until_ready (timeout_ms : Z) : M unit Z :=
  now ← ask (k_uptime_get bus);
  let deadline := now + timeout_ms in
  r ← bme280_wait_loop (wait_fuel timeout_ms) deadline;
  mret (default (- ETIMEDOUT) r).

Definition calibration_of (buf h1 hbuf : list Z) : bme280_calibration :=
  mk_cal (get_le16 buf 0) (s16 (get_le16 buf 2)) (s16 (get_le16 buf 4))
    (get_le16 buf 6) (s16 (get_le16 buf 8)) (s16 (get_le16 buf 10)) (s16 (get_le16 buf 12))
    (s16 (get_le16 buf 14)) (s16 (get_le16 buf 16)) (s16 (get_le16 buf 18)) (s16 (get_le16 buf 20))
    (s16 (get_le16 buf 22))
    (h1 !!! 0%nat) (s16 (get_le16 hbuf 0)) (hbuf !!! 2%nat)
    (bme280_s12_to_i16 (u16 (Z.lor (Z.shiftl (hbuf !!! 3%nat) 4) (Z.land (hbuf !!! 4%nat) 0x0f))))
    (bme280_s12_to_i16 (u16 (Z.lor (Z.shiftl (hbuf !!! 5%nat) 4) (Z.shiftr (hbuf !!! 4%nat) 4))))
    (s8 (hbuf !!! 6%nat)) 0.

(** The error code and, when it is not negative, the calibration. *)
Definition bme280_read_calibration : M unit (Z * option bme280_calibration) :=
  r ← bme280_read BME280_REG_COMP_START 24;
  let '(err, buf) := r in
  if err <? 0 then mret (err, None) else
  r ← bme280_read BME280_REG_HUM_COMP_PART1 1;
  let '(err, h1) := r in
  if err <? 0 then mret (err, None) else
  r ← bme280_read BME280_REG_HUM_COMP_PART2 7;
  let '(err, hbuf) := r in
  if err <? 0 then mret (err, None) else
  mret (0, Some (calibration_of buf h1 hbuf)).

(** From the raw registers to the payload. *)
Definition encode_weather (cal : bme280_calibration) (raw : list Z) : list Z :=
  let adc_press := Z.lor (Z.lor (Z.shiftl (raw !!! 0%nat) 12) (Z.shiftl (raw !!! 1%nat) 4))
                         (Z.shiftr (raw !!! 2%nat) 4) in
  let adc_temp := Z.lor (Z.lor (Z.shiftl (raw !!! 3%nat) 12) (Z.shiftl (raw !!! 4%nat) 4))
                        (Z.shiftr (raw !!! 5%nat) 4) in
  let adc_humidity := Z.lor (Z.shiftl (raw !!! 6%nat) 8) (raw !!! 7%nat) in
  let '(temperature_centi_c, cal) := bme280_compensate_temp cal adc_temp in
  let pressure_q24_8 := bme280_compensate_press cal adc_press in
  let pressure_pa := Z.shiftr pressure_q24_8 8 in
  let humidity_q22_10 := bme280_compensate_humidity cal adc_humidity in
  let humidity_centi_percent := u32 (humidity_q22_10 * 100) / 1024 in
  let humidity_centi_percent := if 10000 <? humidity_centi_percent then 10000
                                else humidity_centi_percent in
  TXING_REDCON_PROTOCOL_VERSION :: le_bytes 4 (u32 temperature_centi_c) ++
  le_bytes 4 pressure_pa ++ le_bytes 2 humidity_centi_percent.

(** Set-up and reset: from the chip id to the calibration. *)
Definition bme280_prepare : M unit (Z * option bme280_calibration) :=
  r ← bme280_read BME280_REG_ID 1;
  let '(err, id) := r in
  if err <? 0 then mret (err, None) else
  if negb (id !!! 0%nat =? BME280_CHIP_ID) then mret (- ENOTSUP, None) else
  err ← bme280_write BME280_REG_RESET BME280_CMD_SOFT_RESET;
  if err <? 0 then mret (err, None) else
  _ ← emit (ESleep 2);
  err ← bme280_wait_until_ready 100;
  if err <? 0 then mret (err, None) else
  bme280_read_calibration.

(** The forced measurement: from the control registers to the raw data. *)
Definition bme280_measure : M unit (Z * list Z) :=
  err ← bme280_write BME280_REG_CTRL_HUM BME280_CTRL_HUM_VAL;
  if err <? 0 then mret (err, []) else
  err ← bme280_write BME280_REG_CONFIG BME280_CONFIG_VAL;
  if err <? 0 then mret (err, []) else
  err ← bme280_write BME280_REG_CTRL_MEAS BME280_CTRL_MEAS_FORCED;
  if err <? 0 then mret (err, []) else
  _ ← emit (ESleep BME280_EXPECTED_SAMPLE_TIME_MS);
  err ← bme280_wait_until_ready BME280_MEASUREMENT_TIMEOUT_MS;
  if err <? 0 then mret (err, []) else
  bme280_read BME280_REG_PRESS_MSB 8.

(** The part between the supply's switching on and the [out] label: the result and
    the payload. *)
Definition bme280_powered (payload : list Z) : M unit (Z * list Z) :=
  r ← bme280_prepare;
  let '(err, cal) := r in
  match cal with
  | None => mret (err, payload)
  | Some cal =>
      r ← bme280_measure;
      let '(err, raw) := r in
      if err <? 0 then mret (err, payload) else mret (err, encode_weather cal raw)
  end.

Definition sample_bme280_payload (payload : list Z) : M unit (Z * list Z) :=
  if negb (Z.of_nat (length payload) =? TXING_REDCON_WEATHER_MEASUREMENT_PAYLOAD_SIZE)
  then mret (- EINVAL, payload) else
  ready ← ask (i2c_is_ready bus);
  if negb ready then mret (- ENODEV, payload) else
  _ ← txing_redcon_set_output_active pf (Some bme280_power) true;
  _ ← emit (ESleep power_settle_ms);
  r ← bme280_powered payload;
  _ ← txing_redcon_set_output_active pf (Some bme280_power) false;
  mret r.

Definition before_idle_measurement : M unit unit :=
  txing_redcon_set_output_active pf (Some led) true.

Definition after_idle_measurement : M unit unit :=
  txing_redcon_set_output_active pf (Some led) false.

Definition weather_ops : txing_redcon_ops :=
  mk_ops (Some led) (Some bme280_power) (Some sample_bme280_payload)
    (Some before_idle_measurement) (Some after_idle_measurement) None.

(** ** The hooks meet the contract *)

(** Only the supply pin is driven by a measurement. *)
Lemma quiet_emit {S} (P : gpio_dt_spec → Prop) e :
  (∀ w t, pending w (e :: t) = pending w t) → (∀ c t, conn_refs c (e :: t) = conn_refs c t) →
  (∀ p t, P p → pin_level p (e :: t) = pin_level p t) →
  ∀ (s : S) t, quiet P (s, t) (s, e :: t).
Proof. intros H1 H2 H3 s t. unfold quiet; cbn [snd]. split_and!; auto. Qed.

Ltac bus_call := first [apply keeps_emit | apply keeps_call]; by apply quiet_emit.

Lemma quiet_wait_loop P fuel deadline : keeps (quiet P) (bme280_wait_loop fuel deadline).
Proof.
  induction fuel as [|fuel IH]; cbn [bme280_wait_loop]; [apply keeps_ret, _|].
  unfold bme280_read. repeat first [exact IH | keeps_step]; bus_call.
Qed.

Lemma quiet_wait P ms : keeps (quiet P) (bme280_wait_until_ready ms).
Proof. unfold bme280_wait_until_ready. repeat first [apply quiet_wait_loop | keeps_step]. Qed.

Lemma quiet_powered P payload : keeps (quiet P) (bme280_powered payload).
Proof.
  unfold bme280_powered, bme280_prepare, bme280_measure, bme280_read_calibration, bme280_read, bme280_write.
  repeat first [apply quiet_wait | keeps_step]; bus_call.
Qed.

Lemma quiet_power P v :
  ¬ P bme280_power →
  keeps (quiet P) (@txing_redcon_set_output_active pf unit (Some bme280_power) v).
Proof.
  intros HP. unfold txing_redcon_set_output_active. keeps_auto. apply keeps_emit, quiet_emit; intros; case_match; cbn; try done.
  by rewrite bool_decide_false by (intros ->; done).
Qed.

Lemma quiet_sample P payload : ¬ P bme280_power → keeps (quiet P) (sample_bme280_payload payload).
Proof.
  intros HP. unfold sample_bme280_payload.
  repeat first [by apply quiet_power | apply quiet_powered | keeps_step]; bus_call.
Qed.

Lemma quiet_led v : keeps (quiet (λ _, False)) (@txing_redcon_set_output_active pf unit (Some led) v).
Proof.
  unfold txing_redcon_set_output_active. keeps_auto. apply keeps_emit, quiet_emit; intros; by case_match.
Qed.

(** The last thing a measurement does is to switch the supply off. *)
Lemma sample_power_level payload t :
  let t' := (sample_bme280_payload payload tt t).2 in
  t' = t ∨ (usable pf bme280_power → pin_level bme280_power t' = Some false).
Proof.
  cbv zeta. unfold sample_bme280_payload. destruct (negb _); [by left|].
  unfold mbind, M_bind, ask. destruct (i2c_is_ready bus t); cbn [negb]; [right; intros [Hr Hu]|by left].
  destruct (txing_redcon_set_output_active pf (Some bme280_power) true tt t) as [[? s1] t1]. cbn [emit].
  destruct (bme280_powered payload s1 _) as [[r s2] t2].
  unfold txing_redcon_set_output_active, when. rewrite Hr. cbn. unfold mbind, M_bind, ask, emit. rewrite Hu. cbn. by rewrite bool_decide_true.
Qed.

Lemma weather_ops_app : led ≠ bme280_power → RedconApp pf weather_ops.
Proof.
  intros Hne. split; cbn.
  - intros sample payload [= <-]. apply quiet_sample. congruence.
  - intros sample payload p [= <-] [= <-] Hu [] t. unfold final. cbn [fst snd].
    destruct (sample_power_level payload t) as [->|H]; [by left|right; by apply H].
  - intros h [= <-]. apply quiet_led.
  - intros h [= <-]. apply quiet_led.
  - done.
Qed.

(** A weather sample switches a usable sensor supply off again on every path, the bus errors
    and timeouts included, unless it was refused before the supply was switched on. *)
Theorem weather_sample_powers_down payload t :
  usable pf bme280_power →
  let '(err, payload', _, t') := sample_bme280_payload payload tt t in
  (t' = t ∧ payload' = payload ∧ (err = - EINVAL ∨ err = - ENODEV)) ∨ pin_level bme280_power t' = Some false.
Proof.
  intros [Hr Hu]. unfold sample_bme280_payload. destruct (negb _); [left; by auto|].
  unfold mbind, M_bind, ask. destruct (i2c_is_ready bus t); cbn [negb]; [|left; by auto].
  destruct (txing_redcon_set_output_active pf (Some bme280_power) true tt t) as [[? s1] t1]. cbn [emit].
  destruct (bme280_powered payload s1 _) as [[[err p'] s2] t2].
  unfold txing_redcon_set_output_active, when. rewrite Hr. cbn. unfold mbind, M_bind, ask, emit. rewrite Hu. cbn. right. by rewrite bool_decide_true.
Qed.

(** ** The wait ends *)

Section Clock.

(** The clock never goes back, and [k_sleep] sleeps at least as long as asked. *)
Hypothesis clock_monotone : ∀ e t, k_uptime_get bus t ≤ k_uptime_get bus (e :: t).
Hypothesis clock_sleep : ∀ ms t, k_uptime_get bus t + ms ≤ k_uptime_get bus (ESleep ms :: t).

Lemma wait_loop_ends fuel deadline t :
  deadline < k_uptime_get bus t + 3 * Z.of_nat fuel →
  ∃ r, (bme280_wait_loop (S fuel) deadline tt t).1.1 = Some r.
Proof.
  revert t. induction fuel as [|fuel IH]; intros t Hd; cbn [bme280_wait_loop];
    unfold bme280_read, mbind, M_bind, call, ask, mret, M_ret, emit; cbv beta iota;
    destruct (i2c_burst_read bus t BME280_REG_STATUS 1) as [err buf];
    (destruct (err <? 0); [by eexists|]); (destruct (_ =? 0); [by eexists|]);
    pose proof (clock_monotone (EI2cRead BME280_REG_STATUS 1) t) as Hm.
  - rewrite (proj2 (Z.leb_le _ _)) by lia. by eexists.
  - destruct (Z.leb_spec deadline (k_uptime_get bus (EI2cRead BME280_REG_STATUS 1 :: t))); [by eexists|].
    apply (IH (ESleep 3 :: EI2cRead BME280_REG_STATUS 1 :: t)).
    pose proof (clock_sleep 3 (EI2cRead BME280_REG_STATUS 1 :: t)). lia.
Qed.

(** The loop that waits for the sensor ends: with a clock that does not go back, the
    fuel timeout/3 + 2 is enough for every behaviour of the bus. *)
Theorem bme280_wait_terminates timeout_ms t :
  0 ≤ timeout_ms →
  ∃ r, (bme280_wait_loop (wait_fuel timeout_ms) (k_uptime_get bus t + timeout_ms) tt t).1.1 = Some r.
Proof.
  intros Hms. unfold wait_fuel. rewrite Nat.add_comm. cbn [Nat.add].
  apply wait_loop_ends. Z.to_euclidean_division_equations; lia.
Qed.
End Clock.
End Weather.

(** ** Formats and ranges *)

(** The sign extension of a 12-bit calibration value. *)
Theorem bme280_s12_to_i16_spec value : in_u 16 value → bme280_s12_to_i16 value = wraps 12 value.
Proof.
  intros H. unfold bme280_s12_to_i16.
  assert (Hall : forallb (λ v, let v := Z.of_nat v in
    (s16 (if negb (Z.land v 0x0800 =? 0) then Z.lor v 0xf000 else v) =? wraps 12 v))
    (seq 0 4096) = true) by (vm_compute; reflexivity).
  assert (Em : Z.land value 0x0fff = value mod 4096) by (apply (Z.land_ones value 12); lia).
  rewrite Em. set (v := value mod 4096).
  assert (Hv : 0 ≤ v < 4096) by (apply Z.mod_pos_bound; lia).
  rewrite forallb_forall in Hall. specialize (Hall (Z.to_nat v)).
  rewrite Z2Nat.id in Hall by lia. cbv zeta in Hall. apply Z.eqb_eq in Hall; [|apply in_seq; lia].
  rewrite Hall. unfold v. apply (wraps_wrapu 12). lia.
Qed.

Lemma humidity_range cal adc : 0 ≤ bme280_compensate_humidity cal adc ≤ 102400.
Proof.
  unfold bme280_compensate_humidity. cbv zeta. set (h := sub32 (mul32 _ _) _). clearbody h.
  set (h1 := if 419430400 <? h then 419430400 else h).
  assert (h1 ≤ 419430400) by (unfold h1; destruct (Z.ltb_spec 419430400 h); lia).
  set (h2 := if h1 <? 0 then 0 else h1).
  assert (0 ≤ h2 ≤ 419430400) by (unfold h2; destruct (Z.ltb_spec h1 0); lia).
  rewrite Z.shiftr_div_pow2 by lia. change (2 ^ 12) with 4096.
  assert (0 ≤ h2 / 4096 ≤ 102400) by (Z.to_euclidean_division_equations; lia).
  rewrite wrapu_id by (unfold in_u; lia). lia.
Qed.

Lemma pressure_range cal adc : in_u 32 (bme280_compensate_press cal adc).
Proof.
  unfold bme280_compensate_press. cbv zeta. set (var1 := Z.shiftr (mul64 (add64 (shl64 1 47) _) _) 33).
  destruct (var1 =? 0); [unfold in_u; lia|]. set (p := add64 (Z.shiftr _ 8) _). clearbody p.
  destruct (p <? 0); [unfold in_u; lia|]. destruct (_ <? p); [unfold in_u; lia|]. apply wrapu_in_u. lia.
Qed.

(** The fields of the weather payload. *)
Definition weather_version (payload : list Z) : Z := payload !!! 0%nat.
Definition weather_pressure (payload : list Z) : Z := le_val (take 4 (drop 5 payload)).
Definition weather_humidity (payload : list Z) : Z := le_val (take 2 (drop 9 payload)).

(** The weather payload always has 11 bytes, starts with the protocol version, holds a
    24-bit pressure and a humidity of at most 100.00 percent. *)
Theorem encode_weather_format cal raw :
  let payload := encode_weather cal raw in
  length payload = 11%nat ∧ bytes_ok payload ∧ weather_version payload = 2 ∧
  0 ≤ weather_pressure payload < 2 ^ 24 ∧ 0 ≤ weather_humidity payload ≤ 10000.
Proof.
  cbv zeta. unfold encode_weather.
  match goal with |- context [bme280_compensate_temp cal ?a] =>
    destruct (bme280_compensate_temp cal a) as [temp cal'] end.
  match goal with |- context [bme280_compensate_press cal' ?a] =>
    pose proof (pressure_range cal' a) as Hp; set (press := bme280_compensate_press cal' a) in * end.
  match goal with |- context [bme280_compensate_humidity cal' ?a] =>
    pose proof (humidity_range cal' a) as Hh; set (hum := bme280_compensate_humidity cal' a) in * end.
  clearbody press hum. rewrite (wrapu_id 32 (hum * 100)) by (unfold in_u; lia).
  set (h := if 10000 <? hum * 100 / 1024 then 10000 else hum * 100 / 1024).
  assert (Hh' : 0 ≤ h ≤ 10000).
  { unfold h. destruct (Z.ltb_spec 10000 (hum * 100 / 1024)); [lia|]. Z.to_euclidean_division_equations; lia. }
  assert (Hp' : 0 ≤ Z.shiftr press 8 < 2 ^ 24).
  { rewrite shiftr_8. unfold in_u in Hp. Z.to_euclidean_division_equations; lia. }
  clearbody h. generalize dependent (Z.shiftr press 8). intros pa Hpa.
  split_and!; [done| | done | | | |].
  - constructor; [unfold in_u, TXING_REDCON_PROTOCOL_VERSION; lia|].
    rewrite !Forall_app. auto using le_bytes_ok.
  - unfold weather_pressure. change (0 ≤ le_val (le_bytes 4 pa)). rewrite le_val_bytes_small; [lia|unfold in_u; lia].
  - unfold weather_pressure. change (le_val (le_bytes 4 pa) < 2 ^ 24). rewrite le_val_bytes_small; [lia|unfold in_u; lia].
  - unfold weather_humidity. change (0 ≤ le_val (le_bytes 2 h)). rewrite le_val_bytes_small; [lia|unfold in_u; lia].
  - unfold weather_humidity. change (le_val (le_bytes 2 h) ≤ 10000). rewrite le_val_bytes_small; [lia|unfold in_u; lia].
Qed.

(** The temperature formula of the data sheet over the integers. *)
Definition exact_temp (cal : bme280_calibration) (adc_temp : Z) : Z :=
  let var1 := Z.shiftr ((Z.shiftr adc_temp 3 - 2 * dig_t1 cal) * dig_t2 cal) 11 in
  let d := Z.shiftr adc_temp 4 - dig_t1 cal in
  let var2 := Z.shiftr (Z.shiftr (d * d) 12 * dig_t3 cal) 14 in
  Z.shiftr ((var1 + var2) * 5 + 128) 8.

(** On every 20-bit reading within 16384 of the calibration point the 32-bit
    temperature compensation never overflows: it equals the data sheet formula over the
    integers. *)
Theorem compensate_temp_exact cal adc_temp :
  0 ≤ adc_temp < 2 ^ 20 → in_u 16 (dig_t1 cal) → in_s 16 (dig_t2 cal) → in_s 16 (dig_t3 cal) →
  Z.abs (Z.shiftr adc_temp 4 - dig_t1 cal) ≤ 16384 →
  (bme280_compensate_temp cal adc_temp).1 = exact_temp cal adc_temp.
Proof.
  intros Ha H1 H2 H3 Hd. unfold bme280_compensate_temp, exact_temp. cbv zeta. cbn [fst].
  unfold in_u, in_s in *. change (2 ^ (16 - 1)) with 32768 in *. change (2 ^ 16) with 65536 in *.
  unfold shl32, sub32. rewrite Z.shiftl_mul_pow2 by lia. change (2 ^ 1) with 2.
  rewrite !Z.shiftr_div_pow2 in * by lia. change (2 ^ 3) with 8 in *. change (2 ^ 4) with 16 in *.
  change (2 ^ 20) with 1048576 in *. change (2 ^ 11) with 2048. change (2 ^ 12) with 4096. change (2 ^ 14) with 16384.
  assert (Hin : ∀ x, -2147483648 ≤ x < 2147483648 → s32 x = x) by (intros; apply wraps_id; unfold in_s; lia).
  assert (H8 : 2 * (adc_temp / 16) ≤ adc_temp / 8 ≤ 2 * (adc_temp / 16) + 1) by (Z.to_euclidean_division_equations; lia).
  assert (H16 : 0 ≤ adc_temp / 16 < 65536) by (Z.to_euclidean_division_equations; lia).
  rewrite (Hin (dig_t1 cal * 2)) by lia. rewrite (Z.mul_comm (dig_t1 cal) 2).
  rewrite (Hin (adc_temp / 8 - 2 * dig_t1 cal)) by lia. rewrite (Hin (adc_temp / 16 - dig_t1 cal)) by lia.
  set (a := adc_temp / 8 - 2 * dig_t1 cal). set (d := adc_temp / 16 - dig_t1 cal) in *.
  assert (Ha' : -32769 ≤ a ≤ 32769) by lia. clearbody a d.
  assert (Hd' : 0 ≤ d * d ≤ 268435456) by nia.
  unfold mul32. rewrite (Hin (a * _)) by nia. rewrite (Hin (d * d)) by lia.
  set (q := d * d / 4096). assert (Hq : 0 ≤ q ≤ 65536) by (unfold q; Z.to_euclidean_division_equations; lia).
  rewrite (Hin (q * _)) by nia.
  set (v1 := a * dig_t2 cal / 2048). set (v2 := q * dig_t3 cal / 16384).
  assert (Hv1 : -1048576 ≤ v1 ≤ 1048576).
  { unfold v1. assert (-1073774592 ≤ a * dig_t2 cal ≤ 1073774592) by nia. Z.to_euclidean_division_equations; lia. }
  assert (Hv2 : -131072 ≤ v2 ≤ 131072).
  { unfold v2. assert (-2147483648 ≤ q * dig_t3 cal ≤ 2147483648) by nia. Z.to_euclidean_division_equations; lia. }
  clearbody v1 v2. unfold add32. rewrite (Hin (v1 + v2)) by lia. rewrite (Hin ((v1 + v2) * 5)) by lia.
  rewrite (Hin ((v1 + v2) * 5 + 128)) by lia. done.
Qed.

(** The calibration and the raw values of the data sheet example: 25.08 degrees,
    100653 Pa (in units of 1/256 Pa). *)
Definition datasheet_cal : bme280_calibration :=
  mk_cal 27504 26435 (-1000) 36477 (-10685) 3024 2855 140 (-7) 15500 (-14600) 6000 0 0 0 0 0 0 0.

Example datasheet_example :
  let '(temp, cal) := bme280_compensate_temp datasheet_cal 519888 in
  temp = 2508 ∧ t_fine cal = 128422 ∧ bme280_compensate_press cal 415148 = 25767233.
Proof. vm_compute. done. Qed.

(** ** Instances *)

(** A platform on which every call succeeds; the clock advances by the sleeps. *)
Fixpoint slept (t : trace) : Z :=
  match t with
  | [] => 0
  | ESleep ms :: t => Z.max 0 ms + slept t
  | _ :: t => slept t
  end.
Definition sample_bus : i2c_platform :=
  mk_i2c (λ _, true) (λ _ _ len, (0, replicate (Z.to_nat len) 0x60)) (λ _ _ _, 0) slept.
Definition sample_ble : ble_platform :=
  mk_ble_platform (λ _, true) (λ _ _, 0) (λ _ _ _, 0) saadc_level (λ _, true) (λ _, 0) (λ _, (0, 1000)) false
    (λ _ raw, (0, raw)) (replicate 36 255) crc32_reference (λ len _ _, len) (λ _, true) (λ _, 0) (λ _, (0, 4))
    (λ _, 0) (λ _, 0) (λ _, 0).

Lemma weather_sample_powers_down_witness :
  let '(err, payload', _, t') := sample_bme280_payload sample_ble sample_bus (mk_gpio 1 5) 10 (replicate 11 0) tt [] in
  (t' = [] ∧ payload' = replicate 11 0 ∧ (err = - EINVAL ∨ err = - ENODEV)) ∨ pin_level (mk_gpio 1 5) t' = Some false.
Proof. apply (weather_sample_powers_down sample_ble sample_bus (mk_gpio 1 5) 10 (replicate 11 0) []). split; [reflexivity|]. intros. reflexivity. Defined.

Lemma bme280_wait_terminates_witness :
  ∃ r, (bme280_wait_loop sample_bus (wait_fuel 150) (k_uptime_get sample_bus [] + 150) tt []).1.1 = Some r.
Proof.
  apply (bme280_wait_terminates sample_bus).
  - intros e t. destruct e; simpl; lia.
  - intros ms t. simpl. lia.
  - lia.
Defined.

Lemma bme280_s12_to_i16_spec_witness : bme280_s12_to_i16 0xfff = wraps 12 0xfff.
Proof. apply (bme280_s12_to_i16_spec 0xfff). decide_now. Defined.

Lemma compensate_temp_exact_witness :
  (bme280_compensate_temp datasheet_cal 519888).1 = exact_temp datasheet_cal 519888.
Proof. apply (compensate_temp_exact datasheet_cal 519888); vm_compute; (split; [discriminate|reflexivity]) || discriminate. Defined.
