(* ===== verification/OpenThread.v ===== *)
(** * OpenThread and the shared parts of the Thread devices

    What the two Thread firmwares, [xiao_nrf54lm20a/src/thread_device.c] and
    [power-si/mcu/src/main.c], have in common: the codes and structures of the
    OpenThread API they use, what the platform answers ([ot_platform]), the
    factory data and request structures, the little-endian readers, the text of
    the state document and the calls both make in the same way. *)
From Stdlib Require Import Ascii String.
From S2P Require Import Prelude Zephyr.
#[local] Open Scope Z_scope.

(** ** Constants both programs define *)

Definition TXING_PROTOCOL_VERSION : Z := 1.
Definition TXING_COAP_DEFAULT_PORT : Z := 5683.
Definition TXING_REDCON_ON : Z := 3.
Definition TXING_REDCON_OFF : Z := 4.
Definition STATE_JSON_SIZE : Z := 160.
Definition REQUEST_JSON_SIZE : Z := 96.
Definition SED_REDCON_RESPONSE_GRACE_MS : Z := 100.
Definition SED_FALLBACK_GRACE_SECONDS : Z := 20.
Definition CONFIG_OPENTHREAD_POLL_PERIOD : Z := 5000.

(** OpenThread's codes. *)
Definition OT_ERROR_NONE : Z := 0.
Definition OT_ERROR_FAILED : Z := 1.
Definition OT_ERROR_INVALID_STATE : Z := 13.
Definition OT_ERROR_ALREADY : Z := 24.
Definition OT_DEVICE_ROLE_CHILD : Z := 2.
Definition OT_COAP_TYPE_CONFIRMABLE : Z := 0.
Definition OT_COAP_TYPE_NON_CONFIRMABLE : Z := 1.
Definition OT_COAP_TYPE_ACKNOWLEDGMENT : Z := 2.
Definition OT_COAP_CODE_GET : Z := 1.
Definition OT_COAP_CODE_PUT : Z := 3.
Definition OT_COAP_CODE_CHANGED : Z := 68.
Definition OT_COAP_CODE_CONTENT : Z := 69.
Definition OT_COAP_CODE_BAD_REQUEST : Z := 128.
Definition OT_COAP_CODE_METHOD_NOT_ALLOWED : Z := 133.
Definition OT_COAP_CODE_INTERNAL_ERROR : Z := 160.

(** ** Text *)

Definition text (s : string) : list Z :=
  List.map (λ c, Z.of_nat (nat_of_ascii c)) (list_ascii_of_string s).

Definition quoted (bs : list Z) : list Z := 34 :: bs ++ [34].

(** The digits [%u] prints, [fuel] of them at most. *)
Fixpoint decimal_digits (fuel : nat) (n : Z) : list Z :=
  match fuel with
  | O => []
  | S fuel => if n <? 10 then [48 + n] else decimal_digits fuel (n / 10) ++ [48 + n mod 10]
  end.

(** [%d] and [%u] of a 32-bit value: at most ten digits. *)
Definition decimal (n : Z) : list Z :=
  if n <? 0 then 45 :: decimal_digits 10 (- n) else decimal_digits 10 n.

(** ** Structures and platform *)

(** [otLinkModeConfig]. *)
Record otLinkModeConfig := mk_link_mode {
  mRxOnWhenIdle : bool;
  mDeviceType : bool;
  mNetworkData : bool
}.

(** A received CoAP message, as OpenThread's accessors show it. *)
Record otMessage := mk_message {
  otCoapMessageGetType : Z;
  otCoapMessageGetCode : Z;
  otMessageGetOffset : Z;
  otMessageGetLength : Z;
  otMessageRead : Z → Z → Z * list Z
}.

(** [otSrpClientSetHostName] and the other setters answer an [otError]. *)
Record ot_platform := mk_ot_platform {
  gpio_is_ready_dt : gpio_dt_spec → bool;
  gpio_pin_configure_dt : trace → gpio_dt_spec → Z;
  gpio_pin_set_dt : trace → gpio_dt_spec → bool → Z;
  flash_area_open : trace → Z;
  flash_area_read : trace → Z;
  flash_content : list Z;
  crc32_ieee : list Z → Z;
  battery_device_is_ready : bool;
  sensor_sample_fetch_chan : trace → Z;
  sensor_channel_get : trace → Z;
  sensor_value_to_milli : trace → Z;
  json_obj_parse : list Z → Z * Z * Z;
  openthread_get_default_instance : trace → bool;
  otCoapNewMessage : trace → bool;
  otCoapMessageInitResponse : trace → Z;
  otCoapMessageAppendContentFormatOption : trace → Z;
  otCoapMessageSetPayloadMarker : trace → Z;
  otMessageAppend : trace → Z;
  otCoapSendResponse : trace → Z;
  otThreadGetLinkMode : trace → otLinkModeConfig;
  otThreadSetLinkMode : trace → Z;
  otLinkSetPollPeriod : trace → Z;
  otThreadSetEnabled : trace → Z;
  otThreadGetDeviceRole : trace → Z;
  otThreadGetMeshLocalEid : trace → option (list Z);
  otDatasetSetActiveTlvs : trace → Z;
  otIp6SetEnabled : trace → Z;
  otCoapStart : trace → Z;
  otSrpClientSetHostName : trace → Z;
  otSrpClientSetHostAddresses : trace → Z;
  otSrpClientAddService : trace → Z;
  openthread_state_changed_callback_register : trace → Z
}.

Record factory_data := mk_factory {
  thing_name : list Z;
  dataset_tlvs : list Z;
  dataset_tlvs_len : Z;
  coap_port : Z;
  valid : bool
}.

Record redcon_request := mk_request { rq_version : Z; rq_redcon : Z }.

Definition u16_le (value : list Z) : Z :=
  Z.lor (value !!! 0%nat) (Z.shiftl (value !!! 1%nat) 8).

Definition u32_le (value : list Z) : Z :=
  Z.lor (Z.lor (Z.lor (value !!! 0%nat) (Z.shiftl (value !!! 1%nat) 8)) (Z.shiftl (value !!! 2%nat) 16))
    (Z.shiftl (value !!! 3%nat) 24).

(** The text the format strings of [format_state] produce. *)
Definition state_json (name : list Z) (redcon : Z) (battery : option Z) : list Z :=
  text "{" ++ quoted (text "version") ++ text ":" ++ decimal TXING_PROTOCOL_VERSION ++
  text "," ++ quoted (text "thingName") ++ text ":" ++ quoted name ++
  text "," ++ quoted (text "redcon") ++ text ":" ++ decimal redcon ++
  text "," ++ quoted (text "batteryMv") ++ text ":" ++
  (match battery with Some mv => decimal mv | None => text "null" end) ++ text "}".

(** [snprintk]: the length of the whole text, and the C string left in a buffer
    of [size] bytes. *)
Definition snprintk (size : Z) (txt : list Z) : Z * list Z :=
  (Z.of_nat (length txt), take (Z.to_nat (size - 1)) txt).

(** ** Calls *)

Definition response_type (request : otMessage) : Z :=
  if otCoapMessageGetType request =? OT_COAP_TYPE_CONFIRMABLE then OT_COAP_TYPE_ACKNOWLEDGMENT
  else OT_COAP_TYPE_NON_CONFIRMABLE.

Section Calls.

Context (pf : ot_platform).

Definition flash_read {S} (offset len : Z) : M S (Z * list Z) :=
  rc ← call (EFlashRead offset len) (flash_area_read pf);
  mret (rc, take (Z.to_nat len) (drop (Z.to_nat offset) (flash_content pf))).

(** A failed call leaves the pin as it is. *)
Definition gpio_set {S} (pin : gpio_dt_spec) (active : bool) : M S Z :=
  rc ← ask (λ t, gpio_pin_set_dt pf t pin active);
  _ ← emit (if rc =? 0 then EGpioSet pin active else EGpioFailed pin);
  mret rc.

Definition gpio_configure {S} (pin : gpio_dt_spec) : M S Z :=
  rc ← ask (λ t, gpio_pin_configure_dt pf t pin);
  _ ← emit (if rc =? 0 then EGpioConfigureInactive pin else EGpioFailed pin);
  mret rc.

(** The content format option, the payload marker and the payload. *)
Definition append_payload {S} (payload : option (list Z)) : M S Z :=
  match payload with
  | None => mret OT_ERROR_NONE
  | Some _ =>
      error ← ask (otCoapMessageAppendContentFormatOption pf);
      if negb (error =? OT_ERROR_NONE) then mret error else
      error ← ask (otCoapMessageSetPayloadMarker pf);
      if negb (error =? OT_ERROR_NONE) then mret error else
      ask (otMessageAppend pf)
  end.
End Calls.

(** ** A platform for the instances *)

(** The JSON parser on the two requests of this file. *)
Definition request_on : list Z :=
  text "{" ++ quoted (text "version") ++ text ":1," ++ quoted (text "redcon") ++ text ":3}".
Definition request_off : list Z :=
  text "{" ++ quoted (text "version") ++ text ":1," ++ quoted (text "redcon") ++ text ":4}".
Definition sample_json_parse (json : list Z) : Z * Z * Z :=
  if bool_decide (json = request_on) then (3, 1, 3)
  else if bool_decide (json = request_off) then (3, 1, 4) else (-22, 0, 0).

(** Every call succeeds; the device is in [role]. *)
Definition working_platform (flash : list Z) (role : Z) : ot_platform :=
  mk_ot_platform (λ _, true) (λ _ _, 0) (λ _ _ _, 0) (λ _, 0) (λ _, 0) flash crc32_reference
    true (λ _, 0) (λ _, 0) (λ _, 3912) sample_json_parse (λ _, true) (λ _, true) (λ _, 0) (λ _, 0) (λ _, 0) (λ _, 0)
    (λ _, 0) (λ _, mk_link_mode false false true) (λ _, 0) (λ _, 0) (λ _, 0) (λ _, role)
    (λ _, Some (replicate 16 0xfd)) (λ _, 0) (λ _, 0) (λ _, 0) (λ _, 0) (λ _, 0) (λ _, 0) (λ _, 0).

Definition put (json : list Z) : otMessage :=
  mk_message OT_COAP_TYPE_CONFIRMABLE OT_COAP_CODE_PUT 8 (8 + Z.of_nat (List.length json))
    (λ _ len, (len, take (Z.to_nat len) json)).
