(* ===== verification/ThreadDevice.v ===== *)
(** * The Thread device

    Model of [xiao_nrf54lm20a/src/thread_device.c], the firmware shared by the
    power-nrf and tbot devices: the TXN1 factory record, the two outputs, the
    battery sample, the CoAP resources [txing/v1/state] and [txing/v1/redcon],
    the SRP registration and the work items that move the Thread stack between
    receiver-on and sleepy operation and recover a lost attachment.

    The static variables are the record [thread_state]; the Kconfig and
    devicetree values are [thread_config]; what OpenThread, the drivers and the
    JSON parser answer is [ot_platform]. Callbacks and work handlers run to
    completion one after the other. *)
From Stdlib Require Import Ascii String.
From S2P Require Import Prelude Zephyr OpenThread.
#[local] Open Scope Z_scope.

(** ** Constants *)

Definition TXN1_MAGIC : list Z := [84; 88; 78; 49].  (* "TXN1" *)
Definition TXN1_VERSION : Z := 1.
Definition TXN1_HEADER_SIZE : Z := 10.
Definition TXN1_THING_NAME_SIZE : Z := 64.
Definition TXN1_DATASET_TLVS_SIZE : Z := 254.
Definition SED_TRANSITION_DELAY_MS : Z := 500.

Definition sed_recovery_delays_seconds : list Z := [20; 40; 80; 160; 320; 600].

(** ** Configuration, platform, state *)

Record thread_config := mk_thread_config {
  cf_default_thing_name : list Z;
  cf_sed_recovery : bool;
  cf_receiver_on_diagnostics : bool;
  cf_factory_partition : bool;
  cf_pmic_charger : bool;
  power_gpio : gpio_dt_spec;
  led_gpio : gpio_dt_spec
}.

Record thread_state := mk_thread {
  factory : factory_data;
  redcon_level : Z;
  srp_registration_accepted : Z;
  sed_mode_active : Z;
  receiver_on_when_idle : Z;
  recovery_pending : Z;
  recovery_attempts : Z;
  redcon_sleep_pending : Z;
  battery_available : bool;
  srp_host_address : list Z
}.

Definition set_factory (f : factory_data) (s : thread_state) : thread_state :=
  mk_thread f (redcon_level s) (srp_registration_accepted s) (sed_mode_active s) (receiver_on_when_idle s)
    (recovery_pending s) (recovery_attempts s) (redcon_sleep_pending s) (battery_available s) (srp_host_address s).
Definition set_level (v : Z) (s : thread_state) : thread_state :=
  mk_thread (factory s) v (srp_registration_accepted s) (sed_mode_active s) (receiver_on_when_idle s)
    (recovery_pending s) (recovery_attempts s) (redcon_sleep_pending s) (battery_available s) (srp_host_address s).
Definition set_srp_accepted (v : Z) (s : thread_state) : thread_state :=
  mk_thread (factory s) (redcon_level s) v (sed_mode_active s) (receiver_on_when_idle s)
    (recovery_pending s) (recovery_attempts s) (redcon_sleep_pending s) (battery_available s) (srp_host_address s).
Definition set_sed_active (v : Z) (s : thread_state) : thread_state :=
  mk_thread (factory s) (redcon_level s) (srp_registration_accepted s) v (receiver_on_when_idle s)
    (recovery_pending s) (recovery_attempts s) (redcon_sleep_pending s) (battery_available s) (srp_host_address s).
Definition set_receiver_on (v : Z) (s : thread_state) : thread_state :=
  mk_thread (factory s) (redcon_level s) (srp_registration_accepted s) (sed_mode_active s) v
    (recovery_pending s) (recovery_attempts s) (redcon_sleep_pending s) (battery_available s) (srp_host_address s).
Definition set_recovery_pending (v : Z) (s : thread_state) : thread_state :=
  mk_thread (factory s) (redcon_level s) (srp_registration_accepted s) (sed_mode_active s)
    (receiver_on_when_idle s) v (recovery_attempts s) (redcon_sleep_pending s) (battery_available s)
    (srp_host_address s).
Definition set_recovery_attempts (v : Z) (s : thread_state) : thread_state :=
  mk_thread (factory s) (redcon_level s) (srp_registration_accepted s) (sed_mode_active s)
    (receiver_on_when_idle s) (recovery_pending s) v (redcon_sleep_pending s) (battery_available s)
    (srp_host_address s).
Definition set_sleep_pending (v : Z) (s : thread_state) : thread_state :=
  mk_thread (factory s) (redcon_level s) (srp_registration_accepted s) (sed_mode_active s)
    (receiver_on_when_idle s) (recovery_pending s) (recovery_attempts s) v (battery_available s)
    (srp_host_address s).
Definition set_battery_available (v : bool) (s : thread_state) : thread_state :=
  mk_thread (factory s) (redcon_level s) (srp_registration_accepted s) (sed_mode_active s)
    (receiver_on_when_idle s) (recovery_pending s) (recovery_attempts s) (redcon_sleep_pending s) v
    (srp_host_address s).
Definition set_host_address (v : list Z) (s : thread_state) : thread_state :=
  mk_thread (factory s) (redcon_level s) (srp_registration_accepted s) (sed_mode_active s)
    (receiver_on_when_idle s) (recovery_pending s) (recovery_attempts s) (redcon_sleep_pending s)
    (battery_available s) v.

(** The static initialisers. *)
Definition initial_thread_state (cfg : thread_config) : thread_state :=
  let name := cf_default_thing_name cfg in
  mk_thread
    (mk_factory (name ++ replicate (65 - length name) 0) (replicate 254 0) 0 TXING_COAP_DEFAULT_PORT false)
    TXING_REDCON_OFF 0 0 0 0 0 0 false (replicate 16 0).

(** ** The factory record *)

Definition thing_name_is_valid (name : list Z) (length : Z) : bool :=
  if (length =? 0) || (TXN1_THING_NAME_SIZE <? length) then false
  else forallb (λ b, (33 <=? b) && (b <=? 126)) (take (Z.to_nat length) name).

(** The tests on the ten header bytes: name length, data set length and port. *)
Definition txn1_header (header : list Z) : option (Z * Z * Z) :=
  if negb (bool_decide (take 4 header = TXN1_MAGIC)) || negb (header !!! 4%nat =? TXN1_VERSION) then None
  else
    let name_len := header !!! 5%nat in
    let dataset_len := u16_le (drop 6 header) in
    let port := u16_le (drop 8 header) in
    if (name_len =? 0) || (TXN1_THING_NAME_SIZE <? name_len) || (dataset_len =? 0)
       || (TXN1_DATASET_TLVS_SIZE <? dataset_len) || (port =? 0) then None
    else Some (name_len, dataset_len, port).

(** The copies into [factory]. *)
Definition accept_factory (payload : list Z) (name_len dataset_len port : Z) (f : factory_data) : factory_data :=
  mk_factory
    (memcpy_at (thing_name f) 0 (take (Z.to_nat name_len) (drop (Z.to_nat TXN1_HEADER_SIZE) payload) ++ [0]))
    (memcpy_at (dataset_tlvs f) 0
       (take (Z.to_nat dataset_len) (drop (Z.to_nat (TXN1_HEADER_SIZE + name_len)) payload)))
    (u8 dataset_len) port true.

Section Thread.

Context (cfg : thread_config) (pf : ot_platform).

Abbreviation P := (M thread_state).

(** Between [flash_area_open] and the [out] label. *)
Definition load_factory_record : P Z :=
  r ← flash_read pf 0 TXN1_HEADER_SIZE;
  let '(rc, header) := r in
  if negb (rc =? 0) then mret rc else
  match txn1_header header with
  | None => mret (- EINVAL)
  | Some (name_len, dataset_len, port) =>
      let payload_len := TXN1_HEADER_SIZE + name_len + dataset_len in
      r ← flash_read pf TXN1_HEADER_SIZE (name_len + dataset_len);
      let '(rc, body) := r in
      let payload := header ++ body in
      if negb (rc =? 0) then mret rc else
      if negb (thing_name_is_valid (drop (Z.to_nat TXN1_HEADER_SIZE) payload) name_len)
      then mret (- EINVAL) else
      r ← flash_read pf payload_len 4;
      let '(rc, crc_bytes) := r in
      if negb (rc =? 0) then mret rc else
      let expected_crc := u32_le crc_bytes in
      let actual_crc := crc32_ieee pf payload in
      if negb (actual_crc =? expected_crc) then mret (- EINVAL) else
      _ ← modify (λ s, set_factory (accept_factory payload name_len dataset_len port (factory s)) s);
      mret 0
  end.

Definition load_factory_data : P Z :=
  if negb (cf_factory_partition cfg) then mret (- ENOENT) else
  rc ← call EFlashOpen (flash_area_open pf);
  if negb (rc =? 0) then mret rc else
  rc ← load_factory_record;
  _ ← emit EFlashClose;
  mret rc.

(** ** Outputs and battery *)

Definition set_outputs_for_redcon (level : Z) : P Z :=
  let enabled := level =? TXING_REDCON_ON in
  rc ← gpio_set pf (power_gpio cfg) enabled;
  if negb (rc =? 0) then mret rc else
  rc ← gpio_set pf (led_gpio cfg) enabled;
  if negb (rc =? 0) then
    s ← get;
    _ ← gpio_set pf (power_gpio cfg) (redcon_level s =? TXING_REDCON_ON);
    mret rc
  else
    _ ← modify (set_level level);
    mret 0.

Definition init_outputs : P Z :=
  if negb (gpio_is_ready_dt pf (power_gpio cfg)) || negb (gpio_is_ready_dt pf (led_gpio cfg))
  then mret (- ENODEV) else
  rc ← gpio_configure pf (power_gpio cfg);
  if negb (rc =? 0) then mret rc else
  rc ← gpio_configure pf (led_gpio cfg);
  if negb (rc =? 0) then mret rc else
  set_outputs_for_redcon TXING_REDCON_OFF.

Definition init_battery : P Z :=
  if cf_pmic_charger cfg then
    if negb (battery_device_is_ready pf) then mret (- ENODEV) else
    _ ← modify (set_battery_available true);
    mret 0
  else mret (- ENODEV).

(** [None] for [false]; the millivolts otherwise. *)
Definition sample_battery_mv : P (option Z) :=
  if negb (cf_pmic_charger cfg) then mret None else
  s ← get;
  if negb (battery_available s) then mret None else
  rc ← call ESensorFetch (sensor_sample_fetch_chan pf);
  if negb (rc =? 0) then mret None else
  rc ← ask (sensor_channel_get pf);
  if negb (rc =? 0) then mret None else
  millivolts ← ask (sensor_value_to_milli pf);
  if (millivolts <? 0) || (UINT16_MAX <? millivolts) then mret None else
  mret (Some (u16 millivolts)).

(** ** The state document *)

Definition format_state (size : Z) : P (Z * list Z) :=
  battery ← sample_battery_mv;
  s ← get;
  mret (snprintk size (state_json (c_string (thing_name (factory s))) (redcon_level s) battery)).

(** ** CoAP *)

(** A response that was sent belongs to the stack. *)
Definition send_response (request : otMessage) (code : Z) (payload : option (list Z)) : P unit :=
  ot ← ask (openthread_get_default_instance pf);
  if negb ot then mret tt else
  response ← ask (otCoapNewMessage pf);
  if negb response then mret tt else
  _ ← emit EOtMessageNew;
  error ← ask (otCoapMessageInitResponse pf);
  error ← (if negb (error =? OT_ERROR_NONE) then mret error else
           error ← append_payload pf payload;
           if negb (error =? OT_ERROR_NONE) then mret error else ask (otCoapSendResponse pf));
  emit (if error =? OT_ERROR_NONE then EOtCoapSend (response_type request) code payload else EOtMessageFree).

Definition send_state_response (request : otMessage) (code : Z) : P unit :=
  r ← format_state STATE_JSON_SIZE;
  let '(length, json) := r in
  if (length <? 0) || (STATE_JSON_SIZE <=? length)
  then send_response request OT_COAP_CODE_INTERNAL_ERROR None
  else send_response request code (Some json).

(** [None] for [false]. The structure starts zeroed. *)
Definition parse_redcon_request (message : otMessage) : option redcon_request :=
  let offset := otMessageGetOffset message in
  let length := u16 (otMessageGetLength message - offset) in
  if (length =? 0) || (REQUEST_JSON_SIZE <=? length) then None else
  let '(n, json) := otMessageRead message offset length in
  if negb (n =? length) then None else
  let '(result, version, redcon) := json_obj_parse pf json in
  if result =? Z.lor 1 2 then Some (mk_request version redcon) else None.

(** ** Thread mode *)

Definition configure_thread_mode_locked (receiver_on : bool) : P Z :=
  link_mode ← ask (otThreadGetLinkMode pf);
  error ← call (EOtSetLinkMode receiver_on false true) (otThreadSetLinkMode pf);
  if negb (error =? OT_ERROR_NONE) then mret (- EIO) else
  error ← call (EOtSetPollPeriod CONFIG_OPENTHREAD_POLL_PERIOD) (otLinkSetPollPeriod pf);
  if negb (error =? OT_ERROR_NONE) then mret (- EIO) else
  _ ← modify (set_receiver_on (if receiver_on then 1 else 0));
  mret 0.

Definition restart_thread_mode_locked (receiver_on : bool) : P Z :=
  error ← call (EOtSetEnabled false) (otThreadSetEnabled pf);
  if negb (error =? OT_ERROR_NONE) && negb (error =? OT_ERROR_INVALID_STATE) then mret (- EIO) else
  rc ← configure_thread_mode_locked receiver_on;
  if negb (rc =? 0) then mret rc else
  error ← call (EOtSetEnabled true) (otThreadSetEnabled pf);
  mret (if error =? OT_ERROR_NONE then 0 else - EIO).

(** ** Recovery *)

Definition recovery_delay_seconds (attempts : Z) : Z :=
  if cf_sed_recovery cfg then
    let index := if 0 <? attempts then attempts else 0 in
    let size := Z.of_nat (length sed_recovery_delays_seconds) in
    let index := if size <=? index then size - 1 else index in
    sed_recovery_delays_seconds !!! Z.to_nat index
  else SED_FALLBACK_GRACE_SECONDS.

Definition record_recovery_attempt : P unit :=
  s ← get;
  when (recovery_attempts s <? Z.of_nat (length sed_recovery_delays_seconds) - 1)
    (modify (set_recovery_attempts (recovery_attempts s + 1))).

Definition schedule_recovery : P unit :=
  s ← get;
  if (sed_mode_active s =? 0) || negb (redcon_level s =? TXING_REDCON_OFF) || negb (recovery_pending s =? 0)
  then mret tt else
  _ ← modify (set_recovery_pending 1);
  emit (EWorkSchedule recovery_work (recovery_delay_seconds (recovery_attempts s) * 1000)).

(** The policy of the build: sleepy recovery, receiver-on diagnostics or none. *)
Definition run_recovery : P Z :=
  if cf_sed_recovery cfg then
    _ ← record_recovery_attempt;
    restart_thread_mode_locked false
  else if cf_receiver_on_diagnostics cfg then restart_thread_mode_locked true
  else mret (- EOPNOTSUPP).

Definition recovery_work_handler : P unit :=
  _ ← modify (set_recovery_pending 0);
  s ← get;
  if sed_mode_active s =? 0 then mret tt else
  ot ← ask (openthread_get_default_instance pf);
  if negb ot then schedule_recovery else
  _ ← emit (EOtLock true);
  role ← ask (otThreadGetDeviceRole pf);
  link_mode ← ask (otThreadGetLinkMode pf);
  s ← get;
  let expected_receiver_on := negb (receiver_on_when_idle s =? 0) in
  if negb (redcon_level s =? TXING_REDCON_OFF) || expected_receiver_on then emit (EOtLock false) else
  if (role =? OT_DEVICE_ROLE_CHILD) && Bool.eqb (mRxOnWhenIdle link_mode) expected_receiver_on
     && negb (srp_registration_accepted s =? 0) then emit (EOtLock false) else
  _ ← modify (set_srp_accepted 0);
  rc ← run_recovery;
  _ ← emit (EOtLock false);
  when (negb (rc =? 0) || cf_sed_recovery cfg) schedule_recovery.

(** ** The redcon and state resources *)

(** REDCON 3, once the outputs are on. *)
Definition enter_redcon_on (message : otMessage) (previous_redcon : Z) : P unit :=
  _ ← emit (EWorkCancel sed_transition_work);
  _ ← modify (set_sleep_pending 0);
  _ ← emit (EWorkCancel redcon_sleep_work);
  _ ← modify (set_recovery_pending 0);
  _ ← emit (EWorkCancel recovery_work);
  ot ← ask (openthread_get_default_instance pf);
  rc ← (if negb ot then mret (- EIO) else configure_thread_mode_locked true);
  if negb ot || negb (rc =? 0) then
    _ ← set_outputs_for_redcon previous_redcon;
    send_response message OT_COAP_CODE_INTERNAL_ERROR None
  else send_state_response message OT_COAP_CODE_CHANGED.

(** The level a well-formed request asks for. *)
Definition requested_redcon (message : otMessage) : option Z :=
  match parse_redcon_request message with
  | None => None
  | Some request =>
      if negb (rq_version request =? TXING_PROTOCOL_VERSION)
         || (negb (rq_redcon request =? TXING_REDCON_ON) && negb (rq_redcon request =? TXING_REDCON_OFF))
      then None else Some (rq_redcon request)
  end.

Definition redcon_handler (message : otMessage) : P unit :=
  if negb (otCoapMessageGetCode message =? OT_COAP_CODE_PUT)
  then send_response message OT_COAP_CODE_METHOD_NOT_ALLOWED None else
  match requested_redcon message with
  | None => send_response message OT_COAP_CODE_BAD_REQUEST None
  | Some redcon =>
      s ← get;
      let previous_redcon := redcon_level s in
      rc ← set_outputs_for_redcon redcon;
      if negb (rc =? 0) then send_response message OT_COAP_CODE_INTERNAL_ERROR None else
      if redcon =? TXING_REDCON_ON then enter_redcon_on message previous_redcon else
      _ ← modify (set_sleep_pending 1);
      _ ← send_state_response message OT_COAP_CODE_CHANGED;
      emit (EWorkSchedule redcon_sleep_work SED_REDCON_RESPONSE_GRACE_MS)
  end.

Definition state_handler (message : otMessage) : P unit :=
  if negb (otCoapMessageGetCode message =? OT_COAP_CODE_GET)
  then send_response message OT_COAP_CODE_METHOD_NOT_ALLOWED None
  else send_state_response message OT_COAP_CODE_CONTENT.

Definition start_coap : P Z :=
  _ ← emit (EOtLock true);
  s ← get;
  error ← call (EOtCoapStart (coap_port (factory s))) (otCoapStart pf);
  _ ← when (error =? OT_ERROR_NONE)
        (_ ← emit (EOtCoapAddResource (text "txing/v1/state"));
         emit (EOtCoapAddResource (text "txing/v1/redcon")));
  _ ← emit (EOtLock false);
  mret (if negb (error =? OT_ERROR_NONE) then - EIO else 0).

(** ** SRP *)

Definition set_srp_host_address : P Z :=
  eid ← ask (otThreadGetMeshLocalEid pf);
  match eid with
  | None => mret OT_ERROR_INVALID_STATE
  | Some address =>
      _ ← modify (set_host_address address);
      call (EOtSrpSetHostAddress address) (otSrpClientSetHostAddresses pf)
  end.

Definition start_srp : P Z :=
  s ← get;
  let name := c_string (thing_name (factory s)) in
  let port := coap_port (factory s) in
  _ ← emit (EOtLock true);
  _ ← emit EOtSrpSetCallback;
  error ← call (EOtSrpSetHostName name) (otSrpClientSetHostName pf);
  error ← (if error =? OT_ERROR_NONE then set_srp_host_address else mret error);
  error ← (if error =? OT_ERROR_NONE then call (EOtSrpAddService name port) (otSrpClientAddService pf)
           else mret error);
  _ ← when ((error =? OT_ERROR_NONE) || (error =? OT_ERROR_ALREADY)) (emit EOtSrpAutoStart);
  _ ← emit (EOtLock false);
  mret (if negb (error =? OT_ERROR_NONE) && negb (error =? OT_ERROR_ALREADY) then - EIO else 0).

Definition srp_client_callback (error : Z) : P unit :=
  if negb (error =? OT_ERROR_NONE) then
    _ ← modify (set_srp_accepted 0);
    schedule_recovery
  else
    _ ← modify (set_srp_accepted 1);
    _ ← modify (set_recovery_attempts 0);
    _ ← modify (set_recovery_pending 0);
    _ ← emit (EWorkCancel recovery_work);
    s ← get;
    when ((redcon_level s =? TXING_REDCON_OFF) && (sed_mode_active s =? 0))
      (emit (EWorkSchedule sed_transition_work SED_TRANSITION_DELAY_MS)).

(** ** Sleepy operation *)

Definition sed_transition_work_handler : P unit :=
  s ← get;
  if (srp_registration_accepted s =? 0) || negb (redcon_level s =? TXING_REDCON_OFF)
     || negb (sed_mode_active s =? 0) then mret tt else
  ot ← ask (openthread_get_default_instance pf);
  if negb ot then emit (EWorkSchedule sed_transition_work 1000) else
  _ ← emit (EOtLock true);
  role ← ask (otThreadGetDeviceRole pf);
  rc ← (if role =? OT_DEVICE_ROLE_CHILD then configure_thread_mode_locked false else mret (- EAGAIN));
  _ ← emit (EOtLock false);
  if negb (rc =? 0) then emit (EWorkSchedule sed_transition_work 1000) else
  _ ← modify (set_sed_active 1);
  schedule_recovery.

Definition redcon_sleep_work_handler : P unit :=
  s ← get;
  if negb (redcon_sleep_pending s =? 1) then mret tt else
  _ ← modify (set_sleep_pending 0);
  ot ← ask (openthread_get_default_instance pf);
  if negb ot then mret tt else
  _ ← emit (EOtLock true);
  rc ← configure_thread_mode_locked false;
  _ ← emit (EOtLock false);
  when (rc =? 0) (_ ← modify (set_sed_active 1); schedule_recovery).

Definition thread_state_changed : P unit :=
  s ← get;
  when (negb (sed_mode_active s =? 0)) schedule_recovery.

(** ** Start *)

Definition start_thread : P Z :=
  s ← get;
  if negb (valid (factory s)) then mret (- EINVAL) else
  _ ← emit (EOtLock true);
  error ← call (EOtDatasetSet (take (Z.to_nat (dataset_tlvs_len (factory s))) (dataset_tlvs (factory s))))
            (otDatasetSetActiveTlvs pf);
  error ← (if error =? OT_ERROR_NONE then
             rc ← configure_thread_mode_locked true;
             mret (if rc =? 0 then OT_ERROR_NONE else OT_ERROR_FAILED)
           else mret error);
  error ← (if error =? OT_ERROR_NONE then call EOtIp6SetEnabled (otIp6SetEnabled pf) else mret error);
  error ← (if error =? OT_ERROR_NONE then call (EOtSetEnabled true) (otThreadSetEnabled pf) else mret error);
  _ ← emit (EOtLock false);
  if negb (error =? OT_ERROR_NONE) then mret (- EIO) else
  _ ← modify (set_srp_accepted 0);
  _ ← modify (set_sed_active 0);
  mret 0.

Definition register_thread_state_callback : P unit :=
  _ ← call EOtStateCallback (openthread_state_changed_callback_register pf);
  mret tt.

(** [start_thread(ot) != 0 || start_coap(ot) != 0 || start_srp(ot) != 0] *)
Definition start_services : P bool :=
  rc ← start_thread;
  if negb (rc =? 0) then mret true else
  rc ← start_coap;
  if negb (rc =? 0) then mret true else
  rc ← start_srp;
  mret (negb (rc =? 0)).

(** The result is [None] when the function stays in its final loop. *)
Definition main : P (option Z) :=
  rc ← init_outputs;
  if negb (rc =? 0) then mret (Some rc) else
  rc ← load_factory_data;
  if negb (rc =? 0) then mret (Some rc) else
  _ ← init_battery;
  ot ← ask (openthread_get_default_instance pf);
  if negb ot then mret (Some (- ENODEV)) else
  _ ← register_thread_state_callback;
  failed ← start_services;
  mret (if (failed : bool) then Some (- EIO) else None).

Definition work_handler (w : work_item) : P unit :=
  match w with
  | sed_transition_work => sed_transition_work_handler
  | redcon_sleep_work => redcon_sleep_work_handler
  | recovery_work => recovery_work_handler
  | _ => mret tt
  end.
End Thread.
