(* ===== verification/ThreadSafety.v ===== *)
(** * Invariants of the Thread device

    The events the device reacts to are the rules of [thread_step]; every state
    reached from the end of [main] satisfies [inv]: the flags of the program
    agree with the work queue, nothing that puts the radio to sleep is scheduled
    at REDCON 3, the retry counter stays in its table, locks and messages are
    balanced and, as long as the GPIO driver does not fail, the outputs follow
    the level and the receiver stays on at REDCON 3. *)
From S2P Require Import Prelude Zephyr OpenThread ThreadDevice.

Section Safety.

Context (cfg : thread_config) (pf : ot_platform).

(** ** Steps *)

Inductive thread_step : thread_state * trace → thread_state * trace → Prop :=
  | step_redcon m s t : thread_step (s, t) (final (redcon_handler cfg pf m s (EOtCallback :: t)))
  | step_state m s t : thread_step (s, t) (final (state_handler cfg pf m s (EOtCallback :: t)))
  | step_srp error s t : thread_step (s, t) (final (srp_client_callback cfg error s (EOtCallback :: t)))
  | step_changed s t : thread_step (s, t) (final (thread_state_changed cfg s (EOtCallback :: t)))
  | step_work w s t : pending w t = true →
      thread_step (s, t) (final (work_handler cfg pf w s (EWorkRun w :: t))).

(** The end of [main]: it stays in its loop. *)
Definition started (x : thread_state * trace) : Prop :=
  main cfg pf (initial_thread_state cfg) [] = (None, x.1, x.2).

Inductive reachable : thread_state * trace → Prop :=
  | reach_start x : started x → reachable x
  | reach_step x y : reachable x → thread_step x y → reachable y.

(** ** What is observed *)

Record observation := Obs {
  ob_sed : bool; ob_sleep : bool; ob_recovery : bool;
  ob_power : option bool; ob_led : option bool; ob_rx : option bool;
  ob_locks : Z; ob_msgs : Z; ob_delays : list Z
}.

Definition obs (t : trace) : observation :=
  Obs (pending sed_transition_work t) (pending redcon_sleep_work t) (pending recovery_work t)
    (pin_level (power_gpio cfg) t) (pin_level (led_gpio cfg) t) (link_rx_on t)
    (locks_held t) (messages_held t) (delays recovery_work t).

Definition with_pins (p l : option bool) (o : observation) : observation :=
  Obs (ob_sed o) (ob_sleep o) (ob_recovery o) p l (ob_rx o) (ob_locks o) (ob_msgs o) (ob_delays o).
Definition with_rx (r : option bool) (o : observation) : observation :=
  Obs (ob_sed o) (ob_sleep o) (ob_recovery o) (ob_power o) (ob_led o) r (ob_locks o) (ob_msgs o) (ob_delays o).

(** The driver of the two outputs never reports an error. *)
Definition gpio_works : Prop := ∀ t p v, gpio_pin_set_dt pf t p v = 0.

Record device_inv (s : thread_state) (o : observation) : Prop := {
  inv_level : redcon_level s = TXING_REDCON_ON ∨ redcon_level s = TXING_REDCON_OFF;
  inv_recovery : recovery_pending s = if ob_recovery o then 1 else 0;
  inv_sleep : redcon_sleep_pending s = if ob_sleep o then 1 else 0;
  inv_on : redcon_level s = TXING_REDCON_ON →
    ob_sed o = false ∧ ob_sleep o = false ∧ ob_recovery o = false;
  inv_sed : ob_recovery o = true → sed_mode_active s ≠ 0;
  inv_attempts : 0 ≤ recovery_attempts s ≤ 5;
  inv_delays : Forall (λ ms, 20000 ≤ ms ≤ 600000) (ob_delays o);
  inv_locks : ob_locks o = 0;
  inv_msgs : ob_msgs o = 0;
  inv_outputs : gpio_works →
    let on := redcon_level s =? TXING_REDCON_ON in
    ob_power o = Some on ∧ ob_led o = Some on ∧
    (redcon_level s = TXING_REDCON_ON → receiver_on_when_idle s = 1 ∧ ob_rx o = Some true)
}.

(** ** Subprograms *)

(** Normalises the observation of a trace whose first events are known. *)
Ltac obs_simpl :=
  unfold obs, with_pins, with_rx in *;
  cbn [pending pin_level link_rx_on locks_held messages_held delays
       ob_sed ob_sleep ob_recovery ob_power ob_led ob_rx ob_locks ob_msgs ob_delays] in *;
  repeat match goal with
  | |- context [bool_decide (?a = ?b)] =>
      first [rewrite (bool_decide_eq_true_2 (a = b)) by done | rewrite (bool_decide_eq_false_2 (a = b)) by done]
  end.

Lemma send_response_spec m code payload Q s t :
  (∀ t', obs t' = obs t → Q tt s t') → wp (send_response pf m code payload) Q s t.
Proof.
  intros H. unfold send_response, append_payload. repeat wp_step.
  all: try (apply H; done).
  all: case_match; apply H; obs_simpl; f_equal; lia.
Qed.

Lemma sample_battery_spec Q s t :
  (∀ r t', obs t' = obs t → Q r s t') → wp (sample_battery_mv cfg pf) Q s t.
Proof. intros H. unfold sample_battery_mv. repeat wp_step; by apply H. Qed.

Lemma send_state_response_spec m code Q s t :
  (∀ t', obs t' = obs t → Q tt s t') → wp (send_state_response cfg pf m code) Q s t.
Proof.
  intros H. unfold send_state_response, format_state. do 2 wp_step.
  apply sample_battery_spec. intros r t1 E1. repeat wp_step.
  all: apply send_response_spec; intros t2 E2; apply H; congruence.
Qed.

Lemma configure_spec b Q s t :
  (∀ rc t', rc ≠ 0 → obs t' = with_rx (Some b) (obs t) → Q rc s t') →
  (∀ t', obs t' = with_rx (Some b) (obs t) → Q 0 (set_receiver_on (if b then 1 else 0) s) t') →
  wp (configure_thread_mode_locked pf b) Q s t.
Proof. intros H1 H2. unfold configure_thread_mode_locked. repeat wp_step; [by apply H1|by apply H1|by apply H2]. Qed.

Lemma set_outputs_spec level Q s t :
  let on := Some (level =? TXING_REDCON_ON) in
  (∀ rc t' p l, rc ≠ 0 → ¬ gpio_works → obs t' = with_pins p l (obs t) → Q rc s t') →
  (∀ t', obs t' = with_pins on on (obs t) → Q 0 (set_level level s) t') →
  wp (set_outputs_for_redcon cfg pf level) Q s t.
Proof.
  intros on Hfail Hok.
  assert (Hset : ∀ t p v rc, gpio_pin_set_dt pf t p v = rc → rc ≠ 0 → ¬ gpio_works)
    by (intros ? p v rc <- Hne Hw; by apply Hne).
  unfold set_outputs_for_redcon, gpio_set. repeat wp_step.
  all: repeat match goal with
  | H : negb (?x =? 0) = true |- _ => apply negb_true_iff in H
  | H : negb (?x =? 0) = false |- _ => apply negb_false_iff in H
  end.
  - rewrite E. apply Z.eqb_neq in E.
    apply (Hfail _ _ (pin_level (power_gpio cfg) t) (pin_level (led_gpio cfg) t)); [done|by eapply Hset|done].
  - rewrite E in E0 |- *. rewrite E0. apply Z.eqb_neq in E0.
    lazymatch goal with |- Q _ _ ?t' =>
      apply (Hfail _ _ (pin_level (power_gpio cfg) t') (pin_level (led_gpio cfg) t')) end;
      [done|by eapply Hset|]. case_match; by obs_simpl.
  - rewrite E in E0 |- *. rewrite E0. apply Hok. obs_simpl. unfold on. f_equal. by case_bool_decide.
Qed.

(** ** Handlers keep the invariant *)

(** Replaces the observations of the later traces by those of the first one. *)
Ltac obs_eqs :=
  repeat match goal with
  | E : obs _ = _ |- _ =>
      unfold obs, with_pins, with_rx in E;
      cbn [pending pin_level link_rx_on locks_held messages_held delays
           ob_sed ob_sleep ob_recovery ob_power ob_led ob_rx ob_locks ob_msgs ob_delays] in E;
      injection E; clear E; intros
  end; obs_simpl;
  repeat match goal with
  | H : pending _ ?t = _ |- _ => progress rewrite H in *; clear H
  | H : pin_level _ ?t = _ |- _ => progress rewrite H in *; clear H
  | H : link_rx_on ?t = _ |- _ => progress rewrite H in *; clear H
  | H : locks_held ?t = _ |- _ => progress rewrite H in *; clear H
  | H : messages_held ?t = _ |- _ => progress rewrite H in *; clear H
  | H : delays _ ?t = _ |- _ => progress rewrite H in *; clear H
  end.

(** Boolean tests of the program as propositions. *)
Ltac tests :=
  repeat match goal with
  | H : _ || _ = true |- _ => apply orb_true_iff in H
  | H : _ || _ = false |- _ => apply orb_false_iff in H as [? ?]
  | H : _ && _ = true |- _ => apply andb_true_iff in H as [? ?]
  | H : negb _ = true |- _ => apply negb_true_iff in H
  | H : negb _ = false |- _ => apply negb_false_iff in H
  | H : (_ =? _) = true |- _ => apply Z.eqb_eq in H
  | H : (_ =? _) = false |- _ => apply Z.eqb_neq in H
  | H : (_ <? _) = true |- _ => apply Z.ltb_lt in H
  end.

Lemma delay_bounds a : 0 ≤ a ≤ 5 → 20 ≤ recovery_delay_seconds cfg a ≤ 600.
Proof.
  intros Ha. unfold recovery_delay_seconds. destruct (cf_sed_recovery cfg); [|vm_compute; by split].
  assert (a = 0 ∨ a = 1 ∨ a = 2 ∨ a = 3 ∨ a = 4 ∨ a = 5) as H by lia.
  destruct_or! H; subst; by vm_compute.
Qed.

Lemma schedule_recovery_spec Q s t :
  device_inv s (obs t) → (∀ s' t', device_inv s' (obs t') → Q tt s' t') → wp (schedule_recovery cfg) Q s t.
Proof.
  intros H HQ. unfold schedule_recovery. repeat wp_step; [by apply HQ|]. apply HQ. tests.
  pose proof (delay_bounds _ (inv_attempts _ _ H)). destruct H. obs_simpl. constructor; cbn; try done.
  - unfold TXING_REDCON_ON, TXING_REDCON_OFF in *. lia.
  - constructor; [lia|done].
Qed.

(** Closes a goal of the invariant after a symbolic execution. *)
Ltac close_inv :=
  obs_eqs; obs_simpl; constructor; cbn in *; unfold TXING_REDCON_ON, TXING_REDCON_OFF in *;
  repeat match goal with
  | H : pending _ ?t = _ |- context [pending _ ?t] => rewrite H
  | H : pin_level _ ?t = _ |- context [pin_level _ ?t] => rewrite H
  | H : link_rx_on ?t = _ |- context [link_rx_on ?t] => rewrite H
  | H : delays _ ?t = _ |- context [delays _ ?t] => rewrite H
  end;
  try (done || lia || (intros; split_and?; (done || congruence || lia)) || tauto || (intuition congruence)).

Lemma inv_event e s t : obs (e :: t) = obs t → device_inv s (obs t) → device_inv s (obs (e :: t)).
Proof. by intros ->. Qed.

Lemma requested_levels m r :
  requested_redcon pf m = Some r → r = TXING_REDCON_ON ∨ r = TXING_REDCON_OFF.
Proof.
  unfold requested_redcon. destruct (parse_redcon_request pf m) as [q|]; [|done].
  destruct (_ || _) eqn:E; [done|]. intros [= <-]. tests.
  match goal with H : _ && _ = false |- _ => apply andb_false_iff in H as [H|H] end; tests; auto.
Qed.

(** What REDCON 3 has cancelled before it configures the radio. *)
Definition cancelled (s : thread_state) : thread_state :=
  set_recovery_pending 0 (set_sleep_pending 0 (set_level TXING_REDCON_ON s)).
Definition quiet_obs (rx : option bool) (o : observation) : observation :=
  Obs false false false (Some true) (Some true) rx (ob_locks o) (ob_msgs o) (ob_delays o).

(** The outputs go back to the previous level. *)
Lemma rollback_inv m s t t1 rx :
  device_inv s (obs t) → obs t1 = quiet_obs rx (obs t) →
  (gpio_works → redcon_level s = TXING_REDCON_ON → rx = Some true) →
  wp (_ ← set_outputs_for_redcon cfg pf (redcon_level s); send_response pf m OT_COAP_CODE_INTERNAL_ERROR None)
    (λ _ s t, device_inv s (obs t)) (cancelled s) t1.
Proof.
  intros H Et1 Hrx. wp_step. apply set_outputs_spec.
  - intros rc t2 p l Hrc Hw Et2. apply send_response_spec. intros t3 ->. rewrite Et2, Et1.
    destruct H. constructor; cbn; auto; try done.
  - intros t2 Et2. apply send_response_spec. intros t3 ->. rewrite Et2, Et1.
    destruct H. constructor; cbn; auto; try done.
    intros Hw. split_and!; [done|done|]. intros Hon. destruct (inv_outputs0 Hw) as (_ & _ & Hr).
    split; [by apply Hr|by apply Hrx].
Qed.

Lemma redcon_on_inv m s t t1 :
  device_inv s (obs t) → obs t1 = with_pins (Some true) (Some true) (obs t) →
  wp (enter_redcon_on cfg pf m (redcon_level s)) (λ _ s t, device_inv s (obs t)) (set_level TXING_REDCON_ON s) t1.
Proof.
  intros H Et1. unfold enter_redcon_on. do 11 wp_step.
  assert (Eq : ∀ t', obs t' = with_pins (Some true) (Some true) (obs t) → obs (EWorkCancel recovery_work :: EWorkCancel redcon_sleep_work
            :: EWorkCancel sed_transition_work :: t') = quiet_obs (ob_rx (obs t)) (obs t)).
  { intros t' E. obs_eqs. obs_simpl. unfold quiet_obs. cbn. congruence. }
  specialize (Eq t1 Et1). fold (cancelled s).
  match goal with |- wp _ _ _ ?t' => generalize dependent t' end. intros t2 Et2. do 2 wp_step.
  wp_step.
  - wp_step. cbn [negb orb]. eapply rollback_inv; [done|done|]. intros Hw Hon. by apply (inv_outputs _ _ H Hw).
  - apply configure_spec.
    + intros rc t3 Hrc Et3. rewrite (proj2 (Z.eqb_neq _ _)) by done. cbn [negb orb].
      eapply (rollback_inv _ s t t3 (Some true)); [done|by rewrite Et3, Et2|done].
    + intros t3 Et3. cbn [Z.eqb negb orb]. apply send_state_response_spec. intros t4 ->. rewrite Et3, Et2.
      destruct H. constructor; cbn; auto; try done.
Qed.

Lemma redcon_handler_inv m s t :
  device_inv s (obs t) → wp (redcon_handler cfg pf m) (λ _ s t, device_inv s (obs t)) s t.
Proof.
  intros H. unfold redcon_handler. wp_step; [by apply send_response_spec; intros ? ->|].
  wp_step; [|by apply send_response_spec; intros ? ->]. apply requested_levels in E0. do 3 wp_step.
  apply set_outputs_spec.
  - intros rc t1 p l Hrc Hw Et1. rewrite (proj2 (Z.eqb_neq _ _)) by done. cbn [negb].
    apply send_response_spec. intros t2 ->. rewrite Et1. destruct H. constructor; cbn; try done.
  - intros t1 Et1. cbn [Z.eqb negb]. destruct E0 as [-> | ->]; cbn [Z.eqb TXING_REDCON_ON TXING_REDCON_OFF].
    + by apply redcon_on_inv with (t := t).
    + repeat wp_step; [done|]. apply send_state_response_spec. intros t2 Et2. wp_step. destruct H. close_inv.
Qed.

Lemma state_handler_inv m s t :
  device_inv s (obs t) → wp (state_handler cfg pf m) (λ _ s t, device_inv s (obs t)) s t.
Proof.
  intros H. unfold state_handler. wp_step; [apply send_response_spec|apply send_state_response_spec]; by intros ? ->.
Qed.

Lemma srp_callback_inv error s t :
  device_inv s (obs t) → wp (srp_client_callback cfg error) (λ _ s t, device_inv s (obs t)) s t.
Proof.
  intros H. unfold srp_client_callback. repeat wp_step.
  - apply schedule_recovery_spec; [|done]. by destruct H.
  - tests. destruct H. close_inv.
  - destruct H. close_inv.
Qed.

Lemma state_changed_inv s t :
  device_inv s (obs t) → wp (thread_state_changed cfg) (λ _ s t, device_inv s (obs t)) s t.
Proof. intros H. unfold thread_state_changed. repeat wp_step; [|done]. by apply schedule_recovery_spec. Qed.

Lemma sed_transition_inv s t :
  device_inv s (obs t) →
  wp (sed_transition_work_handler cfg pf) (λ _ s t, device_inv s (obs t)) s (EWorkRun sed_transition_work :: t).
Proof.
  intros H. unfold sed_transition_work_handler. repeat wp_step; tests.
  all: try (destruct H; close_inv; fail).
  2: unfold EAGAIN in *; lia.
  apply configure_spec.
  - intros rc t1 Hrc Et1. repeat wp_step; tests; [|done]. destruct H. close_inv.
  - intros t1 Et1. repeat wp_step; [done|]. apply schedule_recovery_spec; [|done]. destruct H. close_inv.
Qed.

Lemma redcon_sleep_inv s t :
  device_inv s (obs t) → ob_sleep (obs t) = true →
  wp (redcon_sleep_work_handler cfg pf) (λ _ s t, device_inv s (obs t)) s (EWorkRun redcon_sleep_work :: t).
Proof.
  intros H Hs. unfold redcon_sleep_work_handler. repeat wp_step; tests.
  - destruct H. rewrite Hs in inv_sleep0. congruence.
  - destruct H. close_inv.
  - assert (Hoff : redcon_level s = TXING_REDCON_OFF).
    { destruct (inv_level _ _ H) as [Hon|]; [|done]. by rewrite (proj1 (proj2 (inv_on _ _ H Hon))) in Hs. }
    apply configure_spec.
    + intros rc t1 Hrc Et1. repeat wp_step; tests; [done|]. destruct H. close_inv.
    + intros t1 Et1. repeat wp_step; [|done]. apply schedule_recovery_spec; [|done]. destruct H. close_inv.
Qed.

Lemma restart_spec (b : bool) Q s t :
  (∀ rc s' t', s' = s ∨ s' = set_receiver_on (if b then 1 else 0) s →
     obs t' = obs t ∨ obs t' = with_rx (Some b) (obs t) → Q rc s' t') →
  wp (restart_thread_mode_locked pf b) Q s t.
Proof.
  intros H. unfold restart_thread_mode_locked. repeat wp_step; [apply H; auto|].
  apply configure_spec.
  - intros rc t1 Hrc Et1. repeat wp_step; apply H; auto.
  - intros t1 Et1. repeat wp_step; apply H; auto.
Qed.

(** A recovery changes the retry counter and the receiver only. *)
Lemma run_recovery_spec Q s t :
  0 ≤ recovery_attempts s ≤ 5 →
  (∀ rc a v r t', 0 ≤ a ≤ 5 → obs t' = with_rx r (obs t) →
     Q rc (set_receiver_on v (set_recovery_attempts a s)) t') →
  wp (run_recovery cfg pf) Q s t.
Proof.
  intros Ha H.
  assert (Hsame : ∀ s' b, s' = s ∨ s' = set_receiver_on b s →
    ∃ v, s' = set_receiver_on v (set_recovery_attempts (recovery_attempts s) s)).
  { intros s' b [-> | ->]; [exists (receiver_on_when_idle s)|exists b]; by destruct s. }
  assert (Hobs : ∀ t1 t2 b, obs t2 = obs t1 ∨ obs t2 = with_rx (Some b) (obs t1) →
    ∃ r, obs t2 = with_rx r (obs t1)).
  { intros t1 t2 b [-> | ->]; [by exists (ob_rx (obs t1))|by eexists]. }
  unfold run_recovery, record_recovery_attempt. repeat wp_step; tests.
  - apply restart_spec. intros rc s' t' Hs [r Ho]%Hobs.
    destruct Hs as [-> | ->]; [|by apply H with (r := r); [cbn in *; lia|]].
    replace (set_recovery_attempts _ s)
      with (set_receiver_on (receiver_on_when_idle s) (set_recovery_attempts (recovery_attempts s + 1) s))
      by (by destruct s).
    by apply H with (r := r); [cbn in *; lia|].
  - apply restart_spec. intros rc s' t' [v ->]%Hsame [r Ho]%Hobs. by apply H with (r := r).
  - apply restart_spec. intros rc s' t' [v ->]%Hsame [r Ho]%Hobs. by apply H with (r := r).
  - destruct (Hsame s 0 (or_introl eq_refl)) as [v Ev]. rewrite Ev at 1. by apply H with (r := ob_rx (obs t)).
Qed.

Lemma recovery_work_inv s t :
  device_inv s (obs t) →
  wp (recovery_work_handler cfg pf) (λ _ s t, device_inv s (obs t)) s (EWorkRun recovery_work :: t).
Proof.
  intros H. unfold recovery_work_handler. repeat wp_step.
  1, 3, 4: destruct H; close_inv.
  - apply schedule_recovery_spec; [|done]. destruct H; close_inv.
  - apply orb_false_iff in E1 as [E1 _]. tests. apply run_recovery_spec; [by destruct H|].
    intros rc a v r t' Ha Et'. repeat wp_step; [apply schedule_recovery_spec; [|done]|]; destruct H; close_inv.
Qed.

Lemma step_inv x y : thread_step x y → device_inv x.1 (obs x.2) → device_inv y.1 (obs y.2).
Proof.
  intros Hs H. destruct Hs as [m s t|m s t|e s t|s t|w s t Hp]; apply wp_elim.
  - by apply redcon_handler_inv.
  - by apply state_handler_inv.
  - by apply srp_callback_inv.
  - by apply state_changed_inv.
  - destruct w; cbn [work_handler].
    5: by apply sed_transition_inv. 5: by apply redcon_sleep_inv. 5: by apply recovery_work_inv.
    all: wp_step; by apply inv_event; [obs_simpl|].
Qed.

(** ** The start establishes it *)

(** The invariant before the first request: the outputs are off, no recovery. *)
Definition starting (s : thread_state) (o : observation) : Prop :=
  redcon_level s = TXING_REDCON_OFF ∧ recovery_pending s = 0 ∧ device_inv s o.

Lemma init_outputs_inv :
  wp (init_outputs cfg pf) (λ rc s t, rc = 0 → starting s (obs t)) (initial_thread_state cfg) [].
Proof.
  unfold init_outputs, gpio_configure. repeat wp_step; tests.
  1-3: intros; unfold ENODEV in *; lia.
  apply set_outputs_spec; [done|]. intros t1 Et1 _. unfold starting. split_and!; [done|done|].
  rewrite Et1. repeat case_match; constructor; cbn; by auto.
Qed.

Lemma load_factory_spec Q s t :
  (∀ rc t' f, obs t' = obs t → Q rc (set_factory f s) t') → wp (load_factory_data cfg pf) Q s t.
Proof.
  intros H. assert (Hs : ∀ rc t', obs t' = obs t → Q rc s t').
  { intros rc t' E. pose proof (H rc t' (factory s) E) as Hq. by destruct s. }
  unfold load_factory_data, load_factory_record, flash_read. repeat wp_step; try (by apply Hs).
  by apply H.
Qed.

Lemma starting_same s s' o r :
  redcon_level s' = redcon_level s → recovery_pending s' = recovery_pending s →
  redcon_sleep_pending s' = redcon_sleep_pending s → recovery_attempts s' = recovery_attempts s →
  starting s o → starting s' (with_rx r o).
Proof.
  intros E1 E2 E3 E4 (Hl & Hp & H). unfold starting. split_and!; [congruence..|]. destruct H.
  constructor; cbn; rewrite ?E1, ?E2, ?E3, ?E4, ?Hl; try done.
  - by right.
  - rewrite Hp in inv_recovery0. by destruct (ob_recovery o).
  - intros Hw. destruct (inv_outputs0 Hw) as (Ho & Hd & _). by rewrite Hl in Ho, Hd.
Qed.

Lemma start_thread_spec Q s t :
  (∀ rc s' t' r, redcon_level s' = redcon_level s → recovery_pending s' = recovery_pending s →
     redcon_sleep_pending s' = redcon_sleep_pending s → recovery_attempts s' = recovery_attempts s →
     obs t' = with_rx r (obs t) → Q rc s' t') →
  wp (start_thread pf) Q s t.
Proof.
  intros H. assert (Hs : ∀ rc t', obs t' = obs t → Q rc s t') by (intros; by eapply H with (r := ob_rx (obs t))).
  unfold start_thread. repeat wp_step; try (apply Hs; obs_simpl; f_equal; lia).
  2-5: apply H with (r := link_rx_on t); try done; obs_simpl; f_equal; lia.
  assert (Hf : ∀ rc s' e t1, obs t1 = with_rx (Some true) (obs (EOtLock true :: t)) → e = [] ∨ e = [EOtIp6SetEnabled] ∨
    e = [EOtSetEnabled true; EOtIp6SetEnabled] ∨ e = [EOtSetEnabled true] → redcon_level s' = redcon_level s →
    recovery_pending s' = recovery_pending s → redcon_sleep_pending s' = redcon_sleep_pending s →
    recovery_attempts s' = recovery_attempts s → Q rc s' (EOtLock false :: e ++ t1)).
  { intros rc s' e t1 Et1 He ????. apply H with (r := Some true); try done.
    destruct_or! He; subst; cbn [app]; obs_eqs; f_equal; (congruence || lia). }
  apply configure_spec; intros; repeat wp_step; tests; try done.
  all: first [ by apply (Hf _ _ []); auto | by apply (Hf _ _ [_]); auto | by apply (Hf _ _ [_; _]); auto 6 ].
Qed.

Lemma starting_vars s s' o :
  redcon_level s' = redcon_level s → recovery_pending s' = recovery_pending s →
  redcon_sleep_pending s' = redcon_sleep_pending s → recovery_attempts s' = recovery_attempts s →
  starting s o → starting s' o.
Proof. intros. pose proof (starting_same s s' o (ob_rx o)) as H'. destruct o. by apply H'. Qed.

Lemma start_coap_spec Q s t : (∀ rc t', obs t' = obs t → Q rc s t') → wp (start_coap pf) Q s t.
Proof. intros H. unfold start_coap. repeat wp_step; apply H; obs_simpl; f_equal; lia. Qed.

Lemma start_srp_spec Q s t :
  (∀ rc t' a, obs t' = obs t → Q rc (set_host_address a s) t') → wp (start_srp pf) Q s t.
Proof.
  intros H. assert (Hs : ∀ rc t', obs t' = obs t → Q rc s t').
  { intros rc t' E. pose proof (H rc t' (srp_host_address s) E) as Hq. by destruct s. }
  unfold start_srp, set_srp_host_address. repeat wp_step.
  all: first [apply Hs | apply H]; obs_simpl; f_equal; lia.
Qed.

Lemma main_inv :
  wp (main cfg pf) (λ r s t, r = None → starting s (obs t)) (initial_thread_state cfg) [].
Proof.
  unfold main, start_services, register_thread_state_callback, init_battery. wp_step.
  eapply wp_mono; [apply init_outputs_inv|]. intros rc s t Hi. cbv beta. wp_step; tests; [by wp_step|].
  specialize (Hi E). wp_step. apply load_factory_spec. intros rc' t1 f Et1. repeat wp_step; try done.
  all: apply start_thread_spec; intros rc'' s2 t2 r V1 V2 V3 V4 Et2.
  all: assert (Hi2 : starting s2 (obs t2)) by (rewrite Et2; apply (starting_same s); [done..|]; by rewrite <- Et1 in Hi).
  all: repeat wp_step; try done; apply start_coap_spec; intros rc3 t3 Et3; rewrite <- Et3 in Hi2.
  all: repeat wp_step; try done; apply start_srp_spec; intros rc4 t4 a Et4; rewrite <- Et4 in Hi2.
  all: repeat wp_step; intros _; by apply (starting_vars s2).
Qed.

Lemma reachable_inv x : reachable x → device_inv x.1 (obs x.2).
Proof.
  induction 1 as [x Hs|x y _ IH Hs]; [|by apply (step_inv x)].
  pose proof main_inv as Hm. unfold wp in Hm. unfold started in Hs. rewrite Hs in Hm. by apply Hm.
Qed.

(** In every reachable state of a Thread device the level is REDCON 3 or 4, the
    flags recovery_pending and redcon_sleep_pending say exactly whether their work item
    is pending, and at REDCON 3 no work item that could put the radio to sleep is
    pending. *)
Theorem thread_flags_match_work_queue x :
  reachable x →
  let '(s, t) := x in
  (redcon_level s = 3 ∨ redcon_level s = 4) ∧
  recovery_pending s = (if pending recovery_work t then 1 else 0) ∧
  redcon_sleep_pending s = (if pending redcon_sleep_work t then 1 else 0) ∧
  (redcon_level s = 3 → pending sed_transition_work t = false ∧
     pending redcon_sleep_work t = false ∧ pending recovery_work t = false).
Proof.
  intros Hr. pose proof (reachable_inv x Hr) as H. destruct x as [s t]. destruct H; cbn in *. done.
Qed.

(** C11: On a Thread device whose GPIO driver does not fail, after every sequence of
    CoAP requests, SRP callbacks, state changes and work items the power output and the
    LED are on exactly at REDCON 3, and at REDCON 3 the receiver is on: the flag is set
    and the last link mode asked of the stack is receiver-on. *)
Theorem thread_outputs_and_receiver_follow_redcon x :
  gpio_works → reachable x →
  let '(s, t) := x in
  let on := redcon_level s =? 3 in
  pin_level (power_gpio cfg) t = Some on ∧ pin_level (led_gpio cfg) t = Some on ∧
  (on = true → receiver_on_when_idle s = 1 ∧ link_rx_on t = Some true).
Proof.
  intros Hw Hr. pose proof (reachable_inv x Hr) as H. destruct x as [s t].
  destruct (inv_outputs _ _ H Hw) as (Hp & Hl & Hrx). cbn in *. split_and!; [done|done|].
  intros Hon. apply Hrx, Z.eqb_eq, Hon.
Qed.

(** In every reachable state of a Thread device no OpenThread lock is held and every
    response message was sent or freed, on the error paths too. *)
Theorem thread_locks_and_messages_balanced x :
  reachable x → locks_held x.2 = 0 ∧ messages_held x.2 = 0.
Proof. intros Hr. by destruct (reachable_inv x Hr). Qed.

(** ** Backoff *)

(** The retry counter does not go down. *)
Definition retries_kept (x y : thread_state * trace) : Prop := recovery_attempts x.1 ≤ recovery_attempts y.1.

#[local] Instance retries_kept_preorder : PreOrder retries_kept.
Proof. split; unfold retries_kept; [by intros ?|intros ???; lia]. Qed.

Lemma retries_emit e : keeps retries_kept (emit e).
Proof. apply keeps_emit. intros. unfold retries_kept. cbn. lia. Qed.
Lemma retries_call {A} e (f : trace → A) : keeps retries_kept (call e f).
Proof. apply keeps_call. intros. unfold retries_kept. cbn. lia. Qed.
Lemma retries_modify f :
  (∀ s, recovery_attempts s ≤ recovery_attempts (f s)) → keeps retries_kept (modify f).
Proof. intros H. apply keeps_modify. intros. apply H. Qed.
#[local] Hint Resolve retries_emit retries_call : zephyr.

Ltac retries :=
  keeps_auto; try (apply retries_modify; intros; cbn; lia).

Lemma retries_schedule : keeps retries_kept (schedule_recovery cfg).
Proof. unfold schedule_recovery. retries. Qed.
#[local] Hint Resolve retries_schedule : zephyr.

Lemma retries_configure b : keeps retries_kept (configure_thread_mode_locked pf b).
Proof. unfold configure_thread_mode_locked. retries. Qed.
#[local] Hint Resolve retries_configure : zephyr.

Lemma retries_response m code p : keeps retries_kept (send_response pf m code p).
Proof. unfold send_response, append_payload. destruct p; retries. Qed.
#[local] Hint Resolve retries_response : zephyr.

Lemma retries_state_response m code : keeps retries_kept (send_state_response cfg pf m code).
Proof. unfold send_state_response, format_state, sample_battery_mv. retries. Qed.
#[local] Hint Resolve retries_state_response : zephyr.

Lemma retries_outputs level : keeps retries_kept (set_outputs_for_redcon cfg pf level).
Proof. unfold set_outputs_for_redcon, gpio_set. retries. Qed.
#[local] Hint Resolve retries_outputs : zephyr.

Lemma retries_record : keeps retries_kept record_recovery_attempt.
Proof. intros s t. unfold record_recovery_attempt, mbind, M_bind, get, when. case_match; cbn; unfold retries_kept; cbn; lia. Qed.
#[local] Hint Resolve retries_record : zephyr.

Lemma retries_work w : keeps retries_kept (work_handler cfg pf w).
Proof.
  destruct w; cbn [work_handler];
    unfold sed_transition_work_handler, redcon_sleep_work_handler, recovery_work_handler, run_recovery,
      restart_thread_mode_locked; retries.
Qed.

Lemma retries_redcon m : keeps retries_kept (redcon_handler cfg pf m).
Proof. unfold redcon_handler, enter_redcon_on. retries. Qed.

(** The retry counter of a Thread device goes down in no step but a successful SRP
    registration, which sets it to zero. *)
Theorem backoff_resets_only_after_registration x y :
  thread_step x y → recovery_attempts y.1 < recovery_attempts x.1 →
  y = final (srp_client_callback cfg OT_ERROR_NONE x.1 (EOtCallback :: x.2)) ∧
  recovery_attempts y.1 = 0 ∧ srp_registration_accepted y.1 = 1.
Proof.
  intros Hs Hlt.
  assert (Hno : ∀ c s t e, keeps (A:=unit) retries_kept c → x = (s, t) → y = final (c s (e :: t)) → False).
  { intros c s t e Hc -> ->. specialize (Hc s (e :: t)). unfold retries_kept in Hc. cbn in *. lia. }
  destruct Hs as [m s t|m s t|error s t|s t|w s t Hp].
  1, 2, 4, 5: exfalso; eapply Hno; [|done|done].
  - apply retries_redcon.
  - unfold state_handler. retries.
  - unfold thread_state_changed. retries.
  - apply retries_work.
  - destruct (decide (error = OT_ERROR_NONE)) as [->|Hne].
    + split; [done|]. unfold srp_client_callback, final, mbind, M_bind, modify, emit, get, when, mret, M_ret. cbn.
      destruct (_ && _); cbn; done.
    + exfalso. eapply (Hno (srp_client_callback cfg error)); [|done|done].
      unfold srp_client_callback. rewrite (proj2 (Z.eqb_neq _ _)) by done. cbn [negb]. retries.
Qed.

(** The retry counter stays in the table, and every recovery was scheduled 20 to 600 seconds
    ahead. *)
Theorem recovery_delays_bounded x :
  reachable x →
  0 ≤ recovery_attempts x.1 ≤ 5 ∧ Forall (λ ms, 20000 ≤ ms ≤ 600000) (delays recovery_work x.2).
Proof. intros Hr. by destruct (reachable_inv x Hr). Qed.

(** [n] recoveries in a row, with no registration in between. *)
Definition recoveries (n : nat) (x : thread_state * trace) : thread_state * trace :=
  Nat.iter n (λ x, final (run_recovery cfg pf x.1 x.2)) x.

Lemma run_recovery_attempts s t :
  cf_sed_recovery cfg = true → recovery_attempts s ≤ 5 →
  recovery_attempts (final (run_recovery cfg pf s t)).1 = Z.min 5 (recovery_attempts s + 1).
Proof.
  intros Hc Ha. apply (wp_elim _ (λ s' _, recovery_attempts s' = Z.min 5 (recovery_attempts s + 1))).
  unfold run_recovery, record_recovery_attempt. rewrite Hc. repeat wp_step.
  all: apply restart_spec; intros rc s' t' [-> | ->] _; cbn in *.
  1, 2: apply Z.ltb_lt in E; lia.
  all: apply Z.ltb_ge in E; lia.
Qed.

(** With sleepy recovery, after n recoveries in a row the next retry waits 20, 40, 80,
    160, 320 and then 600 seconds. *)
Theorem recovery_backoff_sequence n s t :
  cf_sed_recovery cfg = true → recovery_attempts s = 0 →
  recovery_delay_seconds cfg (recovery_attempts (recoveries n (s, t)).1) =
    [20; 40; 80; 160; 320; 600] !!! (Nat.min n 5).
Proof.
  intros Hc Ha.
  assert (Hn : recovery_attempts (recoveries n (s, t)).1 = Z.min 5 (Z.of_nat n)).
  { induction n as [|n IH]; [exact Ha|]. 
    change (recoveries (S n) (s, t))
      with (final (run_recovery cfg pf (recoveries n (s, t)).1 (recoveries n (s, t)).2)).
    rewrite run_recovery_attempts; [rewrite IH; lia|done|]. rewrite IH. lia. }
  rewrite Hn. unfold recovery_delay_seconds. rewrite Hc.
  destruct (decide (n < 6)%nat) as [Hs|Hs].
  - do 6 (destruct n as [|n]; [done|]). lia.
  - by rewrite Z.min_l, Nat.min_r by lia.
Qed.

End Safety.
