(* ===== verification/ThreadFunctions.v ===== *)
(** * Functional behaviour of the Thread device operations

    The outputs with their rollback, the state document and its size, the answers
    of the redcon resource on every branch, the transition to sleep behind an
    accepted REDCON 4 and the TXN1 factory record written by
    [scripts/thread_factory.py]; all operations of [ThreadDevice]. *)
From Stdlib Require Import String.
From S2P Require Import Prelude Zephyr OpenThread ThreadDevice.
#[local] Open Scope Z_scope.

(** ** Outputs *)

(** set_outputs_for_redcon of the Thread device is all or nothing: on success both
    outputs and the level are the new ones; on an error the level and the LED are the
    old ones and the power output is put back. *)
Theorem set_outputs_for_redcon_atomic cfg pf level s t :
  power_gpio cfg ≠ led_gpio cfg →
  let previous := redcon_level s =? 3 in
  pin_level (power_gpio cfg) t = Some previous → pin_level (led_gpio cfg) t = Some previous →
  let '(rc, s', t') := set_outputs_for_redcon cfg pf level s t in
  (rc = 0 → s' = set_level level s ∧ pin_level (power_gpio cfg) t' = Some (level =? 3) ∧
     pin_level (led_gpio cfg) t' = Some (level =? 3)) ∧
  (rc ≠ 0 → s' = s ∧ pin_level (led_gpio cfg) t' = Some previous ∧
     ((∀ t, gpio_pin_set_dt pf t (power_gpio cfg) previous = 0) →
        pin_level (power_gpio cfg) t' = Some previous)).
Proof.
  intros Hne previous Hp Hl.
  enough (Hw : wp (set_outputs_for_redcon cfg pf level) (λ rc s' t',
     (rc = 0 → s' = set_level level s ∧ pin_level (power_gpio cfg) t' = Some (level =? 3) ∧
        pin_level (led_gpio cfg) t' = Some (level =? 3)) ∧
     (rc ≠ 0 → s' = s ∧ pin_level (led_gpio cfg) t' = Some previous ∧
        ((∀ t, gpio_pin_set_dt pf t (power_gpio cfg) previous = 0) →
           pin_level (power_gpio cfg) t' = Some previous))) s t) by exact Hw.
  assert (Hd : bool_decide (led_gpio cfg = power_gpio cfg) = false) by (apply bool_decide_eq_false_2; congruence).
  assert (Hd' : bool_decide (power_gpio cfg = led_gpio cfg) = false) by (apply bool_decide_eq_false_2; congruence).
  unfold set_outputs_for_redcon, gpio_set. repeat wp_step.
  all: repeat match goal with
  | H : negb (_ =? 0) = true |- _ => apply negb_true_iff in H
  | H : negb (_ =? 0) = false |- _ => apply negb_false_iff in H
  end.
  - rewrite E. apply Z.eqb_neq in E. split; [done|]. intros _. cbn. done.
  - rewrite E in E0 |- *. rewrite E0. apply Z.eqb_neq in E0. split; [done|]. intros _.
    change (redcon_level s =? TXING_REDCON_ON) with previous. split; [done|].
    case_match; cbn; rewrite ?Hd; split; try done; intros Hback.
    + by rewrite bool_decide_eq_true_2.
    + by rewrite Hback in H.
  - rewrite E in E0 |- *. rewrite E0. split; [|done]. intros _. cbn. rewrite Hd'.
    by rewrite !bool_decide_eq_true_2.
Qed.

(** ** The state document *)

Lemma decimal_digits_length fuel n k :
  0 ≤ n < 10 ^ Z.of_nat k → (1 ≤ k)%nat → (length (decimal_digits fuel n) ≤ k)%nat.
Proof.
  revert n k. induction fuel as [|fuel IH]; intros n k Hn Hk; cbn [decimal_digits]; [cbn; lia|].
  destruct (Z.ltb_spec n 10); [cbn; lia|]. rewrite length_app. cbn [length].
  destruct k as [|[|k]]; [lia|cbn in Hn; lia|].
  specialize (IH (n / 10) (S k)). enough (length (decimal_digits fuel (n / 10)) ≤ S k)%nat by lia.
  apply IH; [|lia]. rewrite Nat2Z.inj_succ, Z.pow_succ_r in Hn by lia.
  split; [apply Z.div_pos; lia|]. apply Z.div_lt_upper_bound; lia.
Qed.

Lemma decimal_length_u16 n : in_u 16 n → (length (decimal n) ≤ 5)%nat.
Proof.
  intros [H1 H2]. change (2 ^ 16) with 65536 in H2. unfold decimal. rewrite (proj2 (Z.ltb_ge _ _)) by lia.
  apply decimal_digits_length; [|lia]. change (10 ^ Z.of_nat 5) with 100000. lia.
Qed.

(** The printed digits denote the number. *)
Lemma decimal_value n :
  0 ≤ n < 10 ^ 10 → foldl (λ acc d, 10 * acc + (d - 48)) 0 (decimal n) = n.
Proof.
  intros Hn. unfold decimal. rewrite (proj2 (Z.ltb_ge _ _)) by lia.
  change 10%nat with (Z.to_nat 10) at 1.
  assert (H : ∀ fuel n, 0 ≤ n < 10 ^ Z.of_nat fuel →
    foldl (λ acc d, 10 * acc + (d - 48)) 0 (decimal_digits fuel n) = n).
  { clear. induction fuel as [|fuel IH]; intros n Hn; [cbn in *; lia|]. cbn [decimal_digits].
    destruct (Z.ltb_spec n 10); [cbn; lia|]. rewrite foldl_app, IH; [cbn; Z.to_euclidean_division_equations; lia|].
    rewrite Nat2Z.inj_succ, Z.pow_succ_r in Hn by lia.
    split; [apply Z.div_pos; lia|]. apply Z.div_lt_upper_bound; lia. }
  apply H. done.
Qed.

Definition battery_ok (battery : option Z) : Prop :=
  match battery with Some mv => in_u 16 mv | None => True end.

(** A name of at most 64 bytes leaves room in the buffer. *)
Lemma state_json_fits name redcon battery :
  (length name ≤ 64)%nat → redcon = 3 ∨ redcon = 4 → battery_ok battery →
  (length (state_json name redcon battery) < 159)%nat.
Proof.
  intros Hn Hr Hb. unfold state_json, quoted. rewrite !length_app.
  set (b := match battery with Some mv => decimal mv | None => text "null" end).
  assert (Hlen : (length b ≤ 5)%nat).
  { destruct battery as [mv|]; [by apply decimal_length_u16|cbn; lia]. }
  clearbody b. cbn [length]. rewrite !length_app. destruct Hr as [-> | ->]; cbn; lia.
Qed.

(** A name that holds a quotation mark passes the check of the factory record and
    is printed as it is. *)
Example quote_in_thing_name :
  thing_name_is_valid [97; 34; 98] 3 = true ∧
  ∃ rest, state_json [97; 34; 98] 4 None = 
    text "{" ++ quoted (text "version") ++ text ":1," ++ quoted (text "thingName") ++ text ":" ++
    quoted (text "a") ++ text "b" ++ [34] ++ rest.
Proof. split; [done|]. by eexists. Qed.

(** ** The redcon resource *)

(** The responses handed to the stack, latest first. *)
Fixpoint responses (t : trace) : list (Z * Z * option (list Z)) :=
  match t with
  | [] => []
  | EOtCoapSend type code payload :: t => (type, code, payload) :: responses t
  | _ :: t => responses t
  end.

Section Redcon.

Context (cfg : thread_config) (pf : ot_platform).

(** No call to OpenThread fails. *)
Record stack_works : Prop := {
  sw_instance t : openthread_get_default_instance pf t = true;
  sw_new t : otCoapNewMessage pf t = true;
  sw_init t : otCoapMessageInitResponse pf t = OT_ERROR_NONE;
  sw_format t : otCoapMessageAppendContentFormatOption pf t = OT_ERROR_NONE;
  sw_marker t : otCoapMessageSetPayloadMarker pf t = OT_ERROR_NONE;
  sw_append t : otMessageAppend pf t = OT_ERROR_NONE;
  sw_send t : otCoapSendResponse pf t = OT_ERROR_NONE;
  sw_mode t : otThreadSetLinkMode pf t = OT_ERROR_NONE;
  sw_poll t : otLinkSetPollPeriod pf t = OT_ERROR_NONE
}.

Definition outputs_work : Prop := ∀ t p v, gpio_pin_set_dt pf t p v = 0.

Lemma battery_sample_spec Q s t :
  (∀ r e, battery_ok r → e = [] ∨ e = [ESensorFetch] → Q r s (e ++ t)) → wp (sample_battery_mv cfg pf) Q s t.
Proof.
  intros H. unfold sample_battery_mv. repeat wp_step.
  all: try (by apply (H _ []); auto). all: try (by apply (H _ [ESensorFetch]); auto).
  apply (H _ [ESensorFetch]); [|auto]. cbn. apply wrapu_in_u. lia.
Qed.

(** A step that answers: the variables stay, [r] is the response. *)
Definition answered (r : Z * Z * option (list Z)) (t t' : trace) : Prop :=
  responses t' = r :: responses t ∧ (∀ p, pin_level p t' = pin_level p t) ∧
  (∀ w, pending w t' = pending w t) ∧ link_rx_on t' = link_rx_on t.

Lemma send_response_works m code payload Q s t :
  stack_works → (∀ t', answered (response_type m, code, payload) t t' → Q tt s t') →
  wp (send_response pf m code payload) Q s t.
Proof.
  intros [] H. unfold send_response, append_payload. repeat wp_step.
  all: repeat match goal with
  | E : _ = _ |- _ => rewrite ?sw_instance0, ?sw_new0, ?sw_init0, ?sw_format0, ?sw_marker0, ?sw_append0, ?sw_send0 in E; (discriminate E || clear E)
  end.
  all: rewrite ?sw_init0, ?sw_format0, ?sw_marker0, ?sw_append0, ?sw_send0; by apply H.
Qed.

(** The device's identity fits its record. *)
Definition named (s : thread_state) : Prop := (length (c_string (thing_name (factory s))) ≤ 64)%nat.

Definition document (s : thread_state) (battery : option Z) : list Z :=
  state_json (c_string (thing_name (factory s))) (redcon_level s) battery.

Lemma send_state_response_works m code Q s t :
  stack_works → named s → redcon_level s = 3 ∨ redcon_level s = 4 →
  (∀ b t', battery_ok b → answered (response_type m, code, Some (document s b)) t t' → Q tt s t') →
  wp (send_state_response cfg pf m code) Q s t.
Proof.
  intros Hw Hn Hl H. unfold send_state_response, format_state. do 2 wp_step.
  apply battery_sample_spec. intros b e Hb He. do 3 wp_step. unfold snprintk.
  pose proof (state_json_fits _ _ b Hn Hl Hb) as Hfit.
  rewrite (proj2 (Z.ltb_ge _ _)) by lia. unfold STATE_JSON_SIZE. rewrite (proj2 (Z.leb_gt _ _)) by lia. cbn [orb].
  rewrite firstn_all2 by lia. apply send_response_works; [done|]. intros t' (Hr & Hp & Hq & Hx).
  apply (H b); [done|]. unfold answered. destruct He as [-> | ->]; done.
Qed.

Lemma set_outputs_works level Q s t :
  outputs_work →
  (∀ t', responses t' = responses t → (∀ w, pending w t' = pending w t) → link_rx_on t' = link_rx_on t →
     pin_level (power_gpio cfg) t' = Some (level =? 3) → pin_level (led_gpio cfg) t' = Some (level =? 3) →
     Q 0 (set_level level s) t') →
  wp (set_outputs_for_redcon cfg pf level) Q s t.
Proof.
  intros Hw H. unfold set_outputs_for_redcon, gpio_set. repeat wp_step; rewrite ?Hw in *; try done.
  cbn [Z.eqb]. apply H; try done; cbn; by repeat case_bool_decide.
Qed.

Lemma configure_works b Q s t :
  stack_works →
  (∀ t', responses t' = responses t → (∀ w, pending w t' = pending w t) → (∀ p, pin_level p t' = pin_level p t) →
     link_rx_on t' = Some b → Q 0 (set_receiver_on (if b then 1 else 0) s) t') →
  wp (configure_thread_mode_locked pf b) Q s t.
Proof.
  intros Hw H. unfold configure_thread_mode_locked. repeat wp_step.
  all: rewrite ?(sw_mode Hw), ?(sw_poll Hw) in *; try done. by apply H.
Qed.

(** What a PUT with a well-formed request achieves. *)
Definition redcon_done (r : Z) (m : otMessage) (s s' : thread_state) (t t' : trace) : Prop :=
  redcon_level s' = r ∧ factory s' = factory s ∧
  (∃ b, battery_ok b ∧
     responses t' = (response_type m, 68, Some (state_json (c_string (thing_name (factory s))) r b)) :: responses t) ∧
  pin_level (power_gpio cfg) t' = Some (r =? 3) ∧ pin_level (led_gpio cfg) t' = Some (r =? 3) ∧
  (r = 3 → receiver_on_when_idle s' = 1 ∧ link_rx_on t' = Some true) ∧
  (r = 4 → redcon_sleep_pending s' = 1 ∧ pending redcon_sleep_work t' = true).

Lemma redcon_on_done m p s t t1 :
  stack_works → named s → responses t1 = responses t →
  pin_level (power_gpio cfg) t1 = Some true → pin_level (led_gpio cfg) t1 = Some true →
  wp (enter_redcon_on cfg pf m p) (λ _ s' t', redcon_done 3 m s s' t t') (set_level 3 s) t1.
Proof.
  intros Hw Hn Er Hp Hl. unfold enter_redcon_on. repeat wp_step; rewrite ?(sw_instance Hw) in *; try done.
  apply configure_works; [done|]. intros t2 R2 W2 P2 X2. cbn [negb orb Z.eqb].
  apply send_state_response_works; [done|done|by left|]. intros b t3 Hb (R3 & P3 & W3 & X3).
  unfold redcon_done. rewrite !P3, !P2, X3, X2. cbn. split_and!; try done.
  exists b. split; [done|]. rewrite R3, R2. cbn. by rewrite Er.
Qed.

Lemma requested_range m r : requested_redcon pf m = Some r → r = 3 ∨ r = 4.
Proof.
  unfold requested_redcon, TXING_REDCON_ON, TXING_REDCON_OFF. destruct (parse_redcon_request pf m) as [q|]; [|done].
  destruct (negb (rq_version q =? _)); [done|]. cbn [orb].
  destruct (Z.eqb_spec (rq_redcon q) 3); [intros [= <-]; by left|].
  destruct (Z.eqb_spec (rq_redcon q) 4); [intros [= <-]; by right|]. done.
Qed.

(** When the stack and the outputs work, the redcon resource answers every request
    once: Method Not Allowed for another method, Bad Request for a malformed document,
    both without effect; Changed with the new state document for a level, which is then
    in force with its outputs, REDCON 3 with the receiver on, REDCON 4 with the sleep
    work scheduled. *)
Theorem redcon_request_answered m s t :
  stack_works → outputs_work → named s →
  let '(_, s', t') := redcon_handler cfg pf m s t in
  if otCoapMessageGetCode m =? OT_COAP_CODE_PUT then
    match requested_redcon pf m with
    | Some r => redcon_done r m s s' t t'
    | None => s' = s ∧ responses t' = (response_type m, 128, None) :: responses t
    end
  else s' = s ∧ responses t' = (response_type m, 133, None) :: responses t.
Proof.
  intros Hw Ho Hn.
  enough (H : wp (redcon_handler cfg pf m) (λ _ s' t',
    if otCoapMessageGetCode m =? OT_COAP_CODE_PUT then
      match requested_redcon pf m with
      | Some r => redcon_done r m s s' t t'
      | None => s' = s ∧ responses t' = (response_type m, 128, None) :: responses t
      end
    else s' = s ∧ responses t' = (response_type m, 133, None) :: responses t) s t) by exact H.
  unfold redcon_handler. destruct (otCoapMessageGetCode m =? OT_COAP_CODE_PUT); cbn [negb].
  2: { apply send_response_works; [done|]. by intros t' [? _]. }
  destruct (requested_redcon pf m) as [r|] eqn:Er.
  2: { apply send_response_works; [done|]. by intros t' [? _]. }
  apply requested_range in Er. do 3 wp_step. apply set_outputs_works; [done|].
  intros t1 R1 W1 X1 P1 L1. cbn [Z.eqb negb]. destruct Er as [-> | ->]; cbn in P1, L1.
  - by apply redcon_on_done.
  - cbn [Z.eqb TXING_REDCON_ON Pos.eqb]. do 3 wp_step.
    apply send_state_response_works; [done|done|by right|]. intros b t2 Hb (R2 & P2 & W2 & X2). wp_step.
    unfold redcon_done. cbn. rewrite !P2, R2. split_and!; try done.
    exists b. split; [done|]. rewrite R1. done.
Qed.

(** When the stack works, the work item behind an accepted REDCON 4 puts the radio
    to sleep: receiver off, sleepy mode active, recovery scheduled, lock released. *)
Theorem redcon_sleep_work_sleeps s t :
  stack_works → redcon_sleep_pending s = 1 → redcon_level s = 4 → recovery_pending s = 0 →
  let '(_, s', t') := redcon_sleep_work_handler cfg pf s t in
  receiver_on_when_idle s' = 0 ∧ link_rx_on t' = Some false ∧ sed_mode_active s' = 1 ∧
  redcon_sleep_pending s' = 0 ∧ redcon_level s' = 4 ∧
  recovery_pending s' = 1 ∧ pending recovery_work t' = true ∧ locks_held t' = locks_held t.
Proof.
  intros Hw Hp Hl Hr.
  unfold redcon_sleep_work_handler, configure_thread_mode_locked, schedule_recovery, mbind, M_bind, get, modify, emit,
    ask, call, when, mret, M_ret.
  rewrite Hp. cbn [Z.eqb negb Pos.eqb]. rewrite !(sw_instance Hw). cbn [negb].
  rewrite (sw_mode Hw). cbn [OT_ERROR_NONE Z.eqb negb]. rewrite (sw_poll Hw). cbn. rewrite Hl, Hr. cbn.
  split_and!; try done. lia.
Qed.
End Redcon.

(** ** The factory record *)

(** [build_factory_data] of the TXN1 writer, for validated arguments. *)
Definition txn1_body (name dataset : list Z) (port : Z) : list Z :=
  TXN1_MAGIC ++ [TXN1_VERSION; Z.of_nat (length name)] ++ le_bytes 2 (Z.of_nat (length dataset)) ++
  le_bytes 2 port ++ name ++ dataset.

Definition txn1_record (crc32 : list Z → Z) (name dataset : list Z) (port : Z) : list Z :=
  txn1_body name dataset port ++ le_bytes 4 (crc32 (txn1_body name dataset port)).

(** What the writer validates. *)
Definition identity_ok (name dataset : list Z) (port : Z) : Prop :=
  (1 ≤ length name ≤ 64)%nat ∧ Forall (λ b, 0x21 ≤ b ≤ 0x7e) name ∧
  (1 ≤ length dataset ≤ 254)%nat ∧ bytes_ok dataset ∧ 1 ≤ port < 2 ^ 16.

(** What the loader leaves in [factory]. *)
Definition factory_is (name dataset : list Z) (port : Z) (f : factory_data) : Prop :=
  c_string (thing_name f) = name ∧ take (Z.to_nat (dataset_tlvs_len f)) (dataset_tlvs f) = dataset ∧
  coap_port f = port ∧ valid f = true.

Lemma u16_le_val a b rest : byte_ok a → u16_le (a :: b :: rest) = le_val [a; b].
Proof.
  intros Ha. unfold u16_le. cbn [lookup_total list_lookup_total le_val]. rewrite lor_shiftl_add by done.
  change (2 ^ 8) with 256. lia.
Qed.

Lemma u16_le_bytes x rest : in_u 16 x → u16_le (le_bytes 2 x ++ rest) = x.
Proof.
  intros Hx. cbn [le_bytes app]. rewrite u16_le_val by (apply Z.mod_pos_bound; lia).
  by apply (le_val_bytes_small 2).
Qed.

Lemma u32_le_val a b c d : bytes_ok [a; b; c; d] → u32_le [a; b; c; d] = le_val [a; b; c; d].
Proof.
  intros (Ha & Hb & Hc & _)%(λ H, conj (Forall_inv H) (conj (Forall_inv (Forall_inv_tail H))
    (conj (Forall_inv (Forall_inv_tail (Forall_inv_tail H))) I))).
  unfold u32_le. cbn [lookup_total list_lookup_total].
  unfold in_u in *. change (2 ^ 8) with 256 in *.
  rewrite (lor_shiftl_add a b 8) by (unfold in_u; lia). rewrite (lor_shiftl_add _ c 16) by (unfold in_u; lia).
  rewrite (lor_shiftl_add _ d 24) by (unfold in_u; lia). cbn [le_val]. lia.
Qed.

Lemma u32_le_bytes x : in_u 32 x → u32_le (le_bytes 4 x) = x.
Proof.
  intros Hx. pose proof (le_bytes_ok 4 x) as Hok. cbn [le_bytes] in *. rewrite u32_le_val by done.
  by apply (le_val_bytes_small 4).
Qed.

(** The header the checks accept is the one the writer packs. *)
Lemma txn1_header_built name_len dataset_len port :
  1 ≤ name_len ≤ 64 → 1 ≤ dataset_len ≤ 254 → 1 ≤ port < 2 ^ 16 →
  txn1_header (TXN1_MAGIC ++ [TXN1_VERSION; name_len] ++ le_bytes 2 dataset_len ++ le_bytes 2 port) =
    Some (name_len, dataset_len, port).
Proof.
  intros Hn Hd Hp. change (2 ^ 16) with 65536 in Hp. unfold txn1_header.
  set (h := TXN1_MAGIC ++ _ ++ _ ++ _).
  change (take 4 h) with TXN1_MAGIC. change (h !!! 4%nat) with 1. change (h !!! 5%nat) with name_len.
  change (drop 6 h) with (le_bytes 2 dataset_len ++ le_bytes 2 port).
  change (drop 8 h) with (le_bytes 2 port ++ []).
  rewrite !u16_le_bytes by (unfold in_u; lia). rewrite bool_decide_true by done. cbn [negb orb Z.eqb].
  unfold TXN1_VERSION, TXN1_THING_NAME_SIZE, TXN1_DATASET_TLVS_SIZE. cbn [Z.eqb Pos.eqb negb].
  repeat (rewrite (proj2 (Z.eqb_neq _ _)) by lia). by repeat (rewrite (proj2 (Z.ltb_ge _ _)) by lia).
Qed.

Lemma txn1_header_sound h name_len dataset_len port :
  bytes_ok h → length h = 10%nat → txn1_header h = Some (name_len, dataset_len, port) →
  h = TXN1_MAGIC ++ [TXN1_VERSION; name_len] ++ le_bytes 2 dataset_len ++ le_bytes 2 port ∧
  1 ≤ name_len ≤ 64 ∧ 1 ≤ dataset_len ≤ 254 ∧ 1 ≤ port < 2 ^ 16.
Proof.
  intros Hb Hl. do 10 (destruct h as [|? h]; [discriminate Hl|]). destruct h; [|discriminate Hl]. clear Hl.
  unfold txn1_header. cbn [drop take lookup_total list_lookup_total].
  repeat (apply Forall_cons_1 in Hb as [? Hb]). rewrite !u16_le_val by done.
  case_bool_decide as Hm; [|done]. cbn [negb orb]. destruct (Z.eqb_spec z3 TXN1_VERSION) as [->|]; [|done]. cbn [negb].
  destruct (_ || _) eqn:E; [done|]. repeat (apply orb_false_iff in E as [E ?]).
  intros [= <- <- <-]. unfold TXN1_THING_NAME_SIZE, TXN1_DATASET_TLVS_SIZE in *.
  repeat match goal with
  | H : (_ =? _) = false |- _ => apply Z.eqb_neq in H
  | H : (_ <? _) = false |- _ => apply Z.ltb_ge in H
  end.
  pose proof (le_bytes_val [z5; z6]) as E1. pose proof (le_bytes_val [z7; z8]) as E2.
  pose proof (le_val_in_u [z7; z8]) as B2. pose proof (le_val_in_u [z5; z6]) as B1. cbn [length le_val] in *.
  assert (H56 : bytes_ok [z5; z6]) by auto. assert (H78 : bytes_ok [z7; z8]) by auto.
  rewrite (E1 H56), (E2 H78), <- Hm. split; [done|]. specialize (B1 H56). specialize (B2 H78).
  unfold in_u in *. change (8 * Z.of_nat 2) with 16 in *. lia.
Qed.

Section Factory.

Context (cfg : thread_config) (pf : ot_platform).

(** The partition is there, is readable and has 8 KiB; the checksum has 32 bits. *)
Record flash_works : Prop := {
  fw_partition : cf_factory_partition cfg = true;
  fw_open t : flash_area_open pf t = 0;
  fw_read t : flash_area_read pf t = 0;
  fw_size : Z.of_nat (length (flash_content pf)) = 8192;
  fw_bytes : bytes_ok (flash_content pf);
  fw_crc l : in_u 32 (crc32_ieee pf l)
}.

Definition provisioned (name dataset : list Z) (port : Z) : Prop :=
  identity_ok name dataset port ∧
  ∃ rest, flash_content pf = txn1_record (crc32_ieee pf) name dataset port ++ rest.

(** A read of a partition that works. *)
Lemma flash_read_works {S} offset len (Q : Z * list Z → S → trace → Prop) s t :
  flash_works → Q (0, take (Z.to_nat len) (drop (Z.to_nat offset) (flash_content pf))) s (EFlashRead offset len :: t) →
  wp (flash_read pf offset len) Q s t.
Proof. intros Hw H. unfold flash_read. repeat wp_step. by rewrite (fw_read Hw). Qed.

Lemma length_txn1_body name dataset port :
  length (txn1_body name dataset port) = (10 + length name + length dataset)%nat.
Proof. unfold txn1_body. rewrite !length_app, !length_le_bytes. cbn. lia. Qed.

Lemma name_is_valid name rest :
  (1 ≤ length name ≤ 64)%nat → Forall (λ b, 0x21 ≤ b ≤ 0x7e) name →
  thing_name_is_valid (name ++ rest) (Z.of_nat (length name)) = true.
Proof.
  intros Hl Hb. unfold thing_name_is_valid, TXN1_THING_NAME_SIZE.
  rewrite (proj2 (Z.eqb_neq _ _)), (proj2 (Z.ltb_ge _ _)) by lia. cbn [orb].
  rewrite Nat2Z.id, (take_app_length' name) by done. apply forallb_forall. intros b Hin.
  rewrite Forall_forall in Hb. specialize (Hb b Hin). cbn in Hb. apply andb_true_iff. split; apply Z.leb_le; lia.
Qed.

Lemma name_valid_sound bytes len :
  thing_name_is_valid bytes len = true → Forall (λ b, 0x21 ≤ b ≤ 0x7e) (take (Z.to_nat len) bytes).
Proof.
  unfold thing_name_is_valid. destruct (_ || _); [done|]. intros H. rewrite forallb_forall in H.
  rewrite Forall_forall. intros b Hin. specialize (H b Hin). apply andb_true_iff in H as [??].
  split; by apply Z.leb_le.
Qed.

Definition txn1_head (name dataset : list Z) (port : Z) : list Z :=
  TXN1_MAGIC ++ [TXN1_VERSION; Z.of_nat (length name)] ++ le_bytes 2 (Z.of_nat (length dataset)) ++ le_bytes 2 port.

Lemma txn1_body_head name dataset port :
  txn1_body name dataset port = txn1_head name dataset port ++ name ++ dataset.
Proof. unfold txn1_body, txn1_head. by rewrite <- !app_assoc. Qed.

Lemma txn1_head_accepted name dataset port :
  identity_ok name dataset port →
  txn1_header (txn1_head name dataset port) = Some (Z.of_nat (length name), Z.of_nat (length dataset), port).
Proof. intros (Hn & _ & Hd & _ & Hp). apply txn1_header_built; lia. Qed.

Lemma memcpy_prefix buf bs : (length bs ≤ length buf)%nat → ∃ rest, memcpy_at buf 0 bs = bs ++ rest.
Proof. intros. unfold memcpy_at. rewrite take_0. by eexists. Qed.

(** The copies leave the identity that was read. *)
Lemma accept_factory_is name dataset port f :
  identity_ok name dataset port → length (thing_name f) = 65%nat → length (dataset_tlvs f) = 254%nat →
  factory_is name dataset port
    (accept_factory (txn1_body name dataset port) (Z.of_nat (length name)) (Z.of_nat (length dataset)) port f).
Proof.
  intros (Hn & Hb & Hd & _ & _) Lt Ld. rewrite txn1_body_head. unfold accept_factory, factory_is.
  cbn [thing_name dataset_tlvs dataset_tlvs_len coap_port valid].
  replace (Z.to_nat (TXN1_HEADER_SIZE + Z.of_nat (length name))) with (10 + length name)%nat
    by (unfold TXN1_HEADER_SIZE; lia).
  rewrite <- drop_drop. change (Z.to_nat TXN1_HEADER_SIZE) with 10%nat.
  rewrite (drop_app_length' (txn1_head name dataset port)) by done. rewrite !Nat2Z.id.
  rewrite (take_app_length' name), (drop_app_length' name) by done. rewrite firstn_all.
  rewrite (wrapu_id 8) by (unfold in_u; lia). rewrite Nat2Z.id.
  destruct (memcpy_prefix (thing_name f) (name ++ [0])) as [r1 ->]; [rewrite length_app; cbn; lia|].
  destruct (memcpy_prefix (dataset_tlvs f) dataset) as [r2 ->]; [lia|].
  rewrite <- app_assoc. cbn [app]. rewrite c_string_app, (take_app_length' dataset) by done. done.
Qed.

Lemma load_accepts name dataset port s t :
  flash_works → provisioned name dataset port →
  length (thing_name (factory s)) = 65%nat → length (dataset_tlvs (factory s)) = 254%nat →
  wp (load_factory_data cfg pf) (λ rc s' _,
    rc = 0 ∧ factory_is name dataset port (factory s') ∧ s' = set_factory (factory s') s) s t.
Proof.
  intros Hw [Hid [rest Hf]] Lt Ld. unfold load_factory_data. rewrite (fw_partition Hw). cbn [negb].
  do 2 wp_step. rewrite (fw_open Hw). cbn [Z.eqb negb]. wp_step. unfold load_factory_record. wp_step.
  apply flash_read_works; [done|]. cbv beta iota. cbn [Z.eqb negb]. rewrite Hf. unfold txn1_record.
  set (body := txn1_body name dataset port). set (crc := le_bytes 4 (crc32_ieee pf body)).
  pose proof (length_txn1_body name dataset port) as Lb. fold body in Lb.
  pose proof Hid as (Hn & Hb & Hd & Hdb & Hp).
  assert (Eh : take (Z.to_nat TXN1_HEADER_SIZE) (drop (Z.to_nat 0) ((body ++ crc) ++ rest)) = txn1_head name dataset port).
  { unfold body. rewrite drop_0, txn1_body_head, <- !app_assoc. apply take_app_length'. done. }
  rewrite Eh, txn1_head_accepted by done. wp_step. apply flash_read_works; [done|]. cbv beta iota. cbn [Z.eqb negb].
  assert (Eb : txn1_head name dataset port ++ take (Z.to_nat (Z.of_nat (length name) + Z.of_nat (length dataset)))
      (drop (Z.to_nat TXN1_HEADER_SIZE) (flash_content pf)) = body).
  { rewrite Hf. unfold txn1_record. fold body crc. unfold body at 1. rewrite txn1_body_head, <- !app_assoc.
    rewrite (drop_app_length' (txn1_head name dataset port)) by done. f_equal.
    rewrite (app_assoc name). rewrite take_app_length'; [done|]. rewrite length_app. lia. }
  rewrite Eb. unfold body at 1. rewrite txn1_body_head, (drop_app_length' (txn1_head name dataset port)) by done.
  rewrite name_is_valid by done. cbn [negb]. wp_step. apply flash_read_works; [done|]. cbv beta iota. cbn [Z.eqb negb].
  replace (Z.to_nat (TXN1_HEADER_SIZE + Z.of_nat (length name) + Z.of_nat (length dataset))) with (length body)
    by (rewrite Lb; unfold TXN1_HEADER_SIZE; lia).
  rewrite Hf. unfold txn1_record. fold body crc. rewrite <- app_assoc, (drop_app_length' body) by done.
  change (Z.to_nat 4) with 4%nat. rewrite (take_app_length' crc) by done. unfold crc.
  rewrite u32_le_bytes by apply (fw_crc Hw). rewrite Z.eqb_refl. cbn [negb]. repeat wp_step.
  split_and!; [done| |done]. by apply accept_factory_is.
Qed.

(** The checks pass only on a record the writer builds. *)
Lemma checks_sound name_len dataset_len port :
  flash_works →
  let flash := flash_content pf in
  let header := take 10 flash in
  let body := take (Z.to_nat (name_len + dataset_len)) (drop 10 flash) in
  txn1_header header = Some (name_len, dataset_len, port) →
  thing_name_is_valid (drop 10 (header ++ body)) name_len = true →
  crc32_ieee pf (header ++ body) = u32_le (take 4 (drop (Z.to_nat (10 + name_len + dataset_len)) flash)) →
  provisioned (take (Z.to_nat name_len) body) (drop (Z.to_nat name_len) body) port.
Proof.
  intros Hw flash header body Hh Hv Hc. pose proof (fw_size Hw) as Hs. pose proof (fw_bytes Hw) as Hb. fold flash in Hs, Hb.
  assert (Lh : length header = 10%nat) by (unfold header; rewrite length_take; lia).
  apply txn1_header_sound in Hh as (Eh & Hn & Hd & Hp); [|by apply Forall_take|done].
  assert (Lb : length body = Z.to_nat (name_len + dataset_len)) by (unfold body; rewrite length_take, length_drop; lia).
  assert (Ln : length (take (Z.to_nat name_len) body) = Z.to_nat name_len) by (rewrite length_take; lia).
  assert (Ld : length (drop (Z.to_nat name_len) body) = Z.to_nat dataset_len) by (rewrite length_drop; lia).
  rewrite (drop_app_length' header) in Hv by done. apply name_valid_sound in Hv.
  assert (Hbody : bytes_ok body) by by apply Forall_take, Forall_drop.
  split.
  - unfold identity_ok. rewrite Ln, Ld. split_and!; try lia; [done|by apply Forall_drop].
  - assert (Er : txn1_body (take (Z.to_nat name_len) body) (drop (Z.to_nat name_len) body) port = header ++ body).
    { rewrite txn1_body_head. unfold txn1_head. rewrite Ln, Ld, !Z2Nat.id by lia. rewrite <- Eh. f_equal. apply take_drop. }
    unfold txn1_record. rewrite Er, Hc.
    set (k := Z.to_nat (10 + name_len + dataset_len)) in *.
    assert (Lc : length (take 4 (drop k flash)) = 4%nat) by (rewrite length_take, length_drop; lia).
    assert (Hcrc : bytes_ok (take 4 (drop k flash))) by by apply Forall_take, Forall_drop.
    assert (Eu : le_bytes 4 (u32_le (take 4 (drop k flash))) = take 4 (drop k flash)).
    { destruct (take 4 (drop k flash)) as [|a [|b [|c [|d [|]]]]]; try discriminate Lc.
      rewrite u32_le_val by done. by apply (le_bytes_val [a; b; c; d]). }
    rewrite Eu. exists (drop 4 (drop k flash)).
    assert (Ehb : header ++ body = take k flash).
    { unfold header, body. rewrite <- (take_drop 10 flash) at 3. rewrite firstn_app, take_take, length_take.
      f_equal; f_equal; lia. }
    rewrite Ehb, <- app_assoc, take_drop, take_drop. done.
Qed.

Lemma load_sound s t :
  flash_works →
  wp (load_factory_data cfg pf) (λ rc s' _,
    (rc = - EINVAL ∧ s' = s) ∨ ∃ name dataset port, provisioned name dataset port) s t.
Proof.
  intros Hw. unfold load_factory_data. rewrite (fw_partition Hw). cbn [negb].
  do 2 wp_step. rewrite (fw_open Hw). cbn [Z.eqb negb]. wp_step. unfold load_factory_record. wp_step.
  apply flash_read_works; [done|]. cbv beta iota. cbn [Z.eqb negb].
  destruct (txn1_header _) as [[[name_len dataset_len] port]|] eqn:Eh; [|repeat wp_step; by left].
  wp_step. apply flash_read_works; [done|]. cbv beta iota. cbn [Z.eqb negb].
  destruct (thing_name_is_valid _ _) eqn:Ev; cbn [negb]; [|repeat wp_step; by left].
  wp_step. apply flash_read_works; [done|]. cbv beta iota. cbn [Z.eqb negb].
  destruct (crc32_ieee pf _ =? _) eqn:Ec; cbn [negb]; repeat wp_step; [right|by left]. apply Z.eqb_eq in Ec.
  eexists _, _, port. by apply (checks_sound name_len dataset_len).
Qed.

(** load_factory_data accepts a factory partition exactly when it starts with a
    record the TXN1 writer builds from a valid name, data set and port; it then holds
    that identity, and otherwise it answers -EINVAL and changes nothing. *)
Theorem load_factory_data_accepts_exactly s t :
  flash_works → length (thing_name (factory s)) = 65%nat → length (dataset_tlvs (factory s)) = 254%nat →
  let '(rc, s', _) := load_factory_data cfg pf s t in
  (∀ name dataset port, provisioned name dataset port →
     rc = 0 ∧ factory_is name dataset port (factory s') ∧ s' = set_factory (factory s') s) ∧
  ((∀ name dataset port, ¬ provisioned name dataset port) → rc = - EINVAL ∧ s' = s).
Proof.
  intros Hw Lt Ld. pose proof (load_sound s t Hw) as Hs.
  pose proof (λ name dataset port Hp, load_accepts name dataset port s t Hw Hp Lt Ld) as Ha.
  unfold wp in *. destruct (load_factory_data cfg pf s t) as [[rc s'] t']. split; [done|].
  intros Hno. destruct Hs as [|(name & dataset & port & Hp)]; [done|]. by destruct (Hno name dataset port).
Qed.
End Factory.
