(* ===== verification/ThreadInstances.v ===== *)
(** * Instances of the Thread device theorems

    A provisioned tbot on a platform where every call succeeds, from its start to
    REDCON 3, to REDCON 4 and asleep; the theorems of [ThreadSafety] and
    [ThreadFunctions] applied to it. *)
From Stdlib Require Import String.
From S2P Require Import Prelude Zephyr OpenThread ThreadDevice ThreadSafety ThreadFunctions.
#[local] Open Scope Z_scope.

(** ** The device *)

Definition tbot_config : thread_config :=
  mk_thread_config (text "tbot-unconfigured") true false true true (mk_gpio 1 31) (mk_gpio 2 0).

Definition tbot_name : list Z := text "tbot-1".
Definition tbot_dataset : list Z := [14; 8; 0; 0; 0; 0; 0; 1; 0; 0].
Definition tbot_flash : list Z :=
  txn1_record crc32_reference tbot_name tbot_dataset 5683 ++ replicate (Z.to_nat (8192 - 30)) 255.

Definition tbot_platform : ot_platform := working_platform tbot_flash OT_DEVICE_ROLE_CHILD.

(** ** A run *)

Definition tbot_started : thread_state * trace :=
  final (main tbot_config tbot_platform (initial_thread_state tbot_config) []).
Definition tbot_on : thread_state * trace :=
  final (redcon_handler tbot_config tbot_platform (put request_on) tbot_started.1 (EOtCallback :: tbot_started.2)).
Definition tbot_off : thread_state * trace :=
  final (redcon_handler tbot_config tbot_platform (put request_off) tbot_on.1 (EOtCallback :: tbot_on.2)).
Definition tbot_asleep : thread_state * trace :=
  final (work_handler tbot_config tbot_platform redcon_sleep_work tbot_off.1 (EWorkRun redcon_sleep_work :: tbot_off.2)).

Abbreviation tbot_reachable := (reachable tbot_config tbot_platform).

Lemma reach_redcon m x :
  tbot_reachable x → tbot_reachable (final (redcon_handler tbot_config tbot_platform m x.1 (EOtCallback :: x.2))).
Proof. destruct x as [s t]. intros H. eapply reach_step; [exact H|apply step_redcon]. Qed.

Lemma reach_work w x :
  pending w x.2 = true → tbot_reachable x →
  tbot_reachable (final (work_handler tbot_config tbot_platform w x.1 (EWorkRun w :: x.2))).
Proof. destruct x as [s t]. intros Hp H. eapply reach_step; [exact H|by apply step_work]. Qed.

Lemma tbot_on_reachable : tbot_reachable tbot_on.
Proof. apply reach_redcon, reach_start. unfold started. vm_compute. reflexivity. Qed.

Lemma tbot_off_reachable : tbot_reachable tbot_off.
Proof. apply reach_redcon, tbot_on_reachable. Qed.

Lemma tbot_asleep_reachable : tbot_reachable tbot_asleep.
Proof. apply reach_work; [vm_compute; reflexivity|apply tbot_off_reachable]. Qed.

(** What the run shows: on and receiving, then off, then asleep with a recovery
    scheduled. *)
Example tbot_run :
  redcon_level tbot_on.1 = 3 ∧ receiver_on_when_idle tbot_on.1 = 1 ∧
  redcon_level tbot_off.1 = 4 ∧ redcon_sleep_pending tbot_off.1 = 1 ∧
  receiver_on_when_idle tbot_asleep.1 = 0 ∧ delays recovery_work tbot_asleep.2 = [20000].
Proof. vm_compute. split_and!; reflexivity. Qed.

Lemma tbot_gpio_works : gpio_works tbot_platform.
Proof. done. Qed.

Lemma tbot_stack_works : stack_works tbot_platform.
Proof. by split. Qed.

(** ** Invariants *)

Lemma thread_flags_match_work_queue_witness :
  let '(s, t) := tbot_off in
  (redcon_level s = 3 ∨ redcon_level s = 4) ∧
  recovery_pending s = (if pending recovery_work t then 1 else 0) ∧
  redcon_sleep_pending s = (if pending redcon_sleep_work t then 1 else 0) ∧
  (redcon_level s = 3 → pending sed_transition_work t = false ∧
     pending redcon_sleep_work t = false ∧ pending recovery_work t = false).
Proof. apply (thread_flags_match_work_queue tbot_config tbot_platform tbot_off), tbot_off_reachable. Defined.

Lemma thread_outputs_and_receiver_follow_redcon_witness :
  let '(s, t) := tbot_on in
  let on := redcon_level s =? 3 in
  pin_level (mk_gpio 1 31) t = Some on ∧ pin_level (mk_gpio 2 0) t = Some on ∧
  (on = true → receiver_on_when_idle s = 1 ∧ link_rx_on t = Some true).
Proof.
  apply (thread_outputs_and_receiver_follow_redcon tbot_config tbot_platform tbot_on);
    [apply tbot_gpio_works|apply tbot_on_reachable].
Defined.

Lemma thread_locks_and_messages_balanced_witness : locks_held tbot_asleep.2 = 0 ∧ messages_held tbot_asleep.2 = 0.
Proof. apply (thread_locks_and_messages_balanced tbot_config tbot_platform tbot_asleep), tbot_asleep_reachable. Defined.

Lemma recovery_delays_bounded_witness :
  0 ≤ recovery_attempts tbot_asleep.1 ≤ 5 ∧
  Forall (λ ms, 20000 ≤ ms ≤ 600000) (delays recovery_work tbot_asleep.2).
Proof. apply (recovery_delays_bounded tbot_config tbot_platform tbot_asleep), tbot_asleep_reachable. Defined.

Lemma recovery_backoff_sequence_witness :
  recovery_delay_seconds tbot_config
    (recovery_attempts (recoveries tbot_config tbot_platform 3 (initial_thread_state tbot_config, [])).1) = 160.
Proof.
  exact (recovery_backoff_sequence tbot_config tbot_platform 3 (initial_thread_state tbot_config) [] eq_refl eq_refl).
Defined.

(** A registration after three retries. *)
Definition retried : thread_state := set_recovery_attempts 3 tbot_asleep.1.
Definition registered : thread_state * trace :=
  final (srp_client_callback tbot_config OT_ERROR_NONE retried (EOtCallback :: tbot_asleep.2)).

Lemma backoff_resets_only_after_registration_witness :
  recovery_attempts registered.1 = 0 ∧ srp_registration_accepted registered.1 = 1.
Proof.
  apply (backoff_resets_only_after_registration tbot_config tbot_platform (retried, tbot_asleep.2) registered).
  - apply (step_srp tbot_config tbot_platform OT_ERROR_NONE retried tbot_asleep.2).
  - vm_compute. reflexivity.
Defined.

(** ** Operations *)

Lemma set_outputs_for_redcon_atomic_witness :
  let '(rc, s', t') := set_outputs_for_redcon tbot_config tbot_platform 4 tbot_on.1 tbot_on.2 in
  rc = 0 → s' = set_level 4 tbot_on.1 ∧ pin_level (mk_gpio 1 31) t' = Some false ∧
    pin_level (mk_gpio 2 0) t' = Some false.
Proof.
  pose proof (set_outputs_for_redcon_atomic tbot_config tbot_platform 4 tbot_on.1 tbot_on.2) as H.
  destruct (set_outputs_for_redcon _ _ _ _ _) as [[rc s'] t'].
  apply H; [discriminate|vm_compute; reflexivity|vm_compute; reflexivity].
Defined.

Lemma redcon_request_answered_witness :
  let '(_, s', t') := redcon_handler tbot_config tbot_platform (put request_on) tbot_started.1 tbot_started.2 in
  redcon_done tbot_config 3 (put request_on) tbot_started.1 s' tbot_started.2 t'.
Proof.
  apply (redcon_request_answered tbot_config tbot_platform (put request_on) tbot_started.1 tbot_started.2).
  - apply tbot_stack_works.
  - done.
  - vm_compute. lia.
Defined.

Lemma redcon_sleep_work_sleeps_witness :
  let '(_, s', t') := redcon_sleep_work_handler tbot_config tbot_platform tbot_off.1 tbot_off.2 in
  receiver_on_when_idle s' = 0 ∧ link_rx_on t' = Some false ∧ sed_mode_active s' = 1 ∧
  redcon_sleep_pending s' = 0 ∧ redcon_level s' = 4 ∧
  recovery_pending s' = 1 ∧ pending recovery_work t' = true ∧ locks_held t' = locks_held tbot_off.2.
Proof.
  apply (redcon_sleep_work_sleeps tbot_config tbot_platform tbot_off.1 tbot_off.2); [apply tbot_stack_works|..];
    vm_compute; reflexivity.
Defined.

Lemma tbot_flash_works : flash_works tbot_config tbot_platform.
Proof.
  split; [done|done|done|vm_compute; reflexivity|decide_now|apply crc32_reference_u32].
Qed.

Lemma load_factory_data_accepts_exactly_witness :
  let '(rc, s', _) := load_factory_data tbot_config tbot_platform (initial_thread_state tbot_config) [] in
  rc = 0 ∧ factory_is tbot_name tbot_dataset 5683 (factory s') ∧
  s' = set_factory (factory s') (initial_thread_state tbot_config).
Proof.
  pose proof (load_factory_data_accepts_exactly tbot_config tbot_platform (initial_thread_state tbot_config) []
    tbot_flash_works) as H.
  destruct (load_factory_data _ _ _ _) as [[rc s'] t']. apply H; [reflexivity|reflexivity|].
  split; [|exists (replicate (Z.to_nat (8192 - 30)) 255); reflexivity].
  unfold identity_ok. split_and!; decide_now.
Defined.
