(* ===== verification/PowerSi.v ===== *)
(** * The power-si device

    Model of [power-si/mcu/src/main.c]: the Thread firmware of the Silicon Labs
    board. It shares the protocol of [ThreadDevice] and differs in the factory
    record (TXT1), in the battery divider, and in the way it falls back: a
    transition to sleepy operation that does not last is retried a bounded number
    of times in the requested link mode, or undone by going back to the bootstrap
    mode, depending on the build.

    The static variables are the record [si_state], the Kconfig and devicetree
    values [si_config], what the platform answers [si_platform]. Log messages and
    the PSA key diagnostics are left out. *)
From Stdlib Require Import Ascii String.
From S2P Require Import Prelude Zephyr OpenThread.
#[local] Open Scope Z_scope.

(** ** Constants *)

Definition TXT1_MAGIC : list Z := [84; 88; 84; 49].  (* "TXT1" *)
Definition TXT1_VERSION : Z := 1.
Definition TXT1_HEADER_SIZE : Z := 10.
Definition TXT1_THING_NAME_SIZE : Z := 64.
Definition TXT1_DATASET_TLVS_SIZE : Z := 254.
Definition BATTERY_DIVIDER_SETTLE_MS : Z := 30.
Definition BATTERY_DIVIDER_RATIO : Z := 2.
Definition SED_RECOVERY_MAX_ATTEMPTS : Z := 3.
Definition SED_RECOVERY_INITIAL_DELAY_SECONDS : Z := 5.
Definition SED_RECOVERY_SECOND_DELAY_SECONDS : Z := 10.
Definition SED_RECOVERY_MAX_DELAY_SECONDS : Z := 20.
Definition PM_SLEEP_MODE_UNKNOWN : Z := -1.
Definition PM_SLEEP_MODE_CHANGE_QUEUE_DEPTH : nat := 8.
Definition SL_POWER_MANAGER_EM1 : Z := 1.
Definition SL_POWER_MANAGER_EM2 : Z := 2.

(** ** Configuration, platform, state *)

Record si_config := mk_si_config {
  cf_sed_recovery_test : bool;
  cf_link_mode_test : bool;
  cf_battery_reporting : bool;
  cf_pm_transition_diagnostics : bool;
  cf_factory_partition : bool;
  power_gpio : gpio_dt_spec;
  led_gpio : gpio_dt_spec;
  battery_enable : gpio_dt_spec
}.

Record si_platform := mk_si_platform {
  ot : ot_platform;
  adc_is_ready_dt : bool;
  adc_channel_setup_dt : trace → Z;
  pm_device_action_run : trace → bool → Z;
  adc_read_dt : trace → Z * Z;
  adc_differential : bool;
  adc_raw_to_millivolts_dt : trace → Z → Z * Z
}.

Record si_state := mk_si {
  factory : factory_data;
  redcon_level : Z;
  srp_registration_accepted : Z;
  sed_mode_active : Z;
  sed_transition_failed : Z;
  sed_debug_receiver_on_requested : Z;
  sed_debug_sleep_transition_requested : Z;
  sed_recovery_pending : Z;
  sed_recovery_attempts : Z;
  battery_available : bool;
  srp_host_address : list Z;
  pm_last_sleep_mode : Z;
  pm_sleep_mode_changes : list (Z * Z)
}.

Definition set_factory (v : factory_data) (s : si_state) : si_state :=
  mk_si v (redcon_level s) (srp_registration_accepted s) (sed_mode_active s) (sed_transition_failed s)
    (sed_debug_receiver_on_requested s) (sed_debug_sleep_transition_requested s) (sed_recovery_pending s)
    (sed_recovery_attempts s) (battery_available s) (srp_host_address s) (pm_last_sleep_mode s)
    (pm_sleep_mode_changes s).
Definition set_level (v : Z) (s : si_state) : si_state :=
  mk_si (factory s) v (srp_registration_accepted s) (sed_mode_active s) (sed_transition_failed s)
    (sed_debug_receiver_on_requested s) (sed_debug_sleep_transition_requested s) (sed_recovery_pending s)
    (sed_recovery_attempts s) (battery_available s) (srp_host_address s) (pm_last_sleep_mode s)
    (pm_sleep_mode_changes s).
Definition set_srp_accepted (v : Z) (s : si_state) : si_state :=
  mk_si (factory s) (redcon_level s) v (sed_mode_active s) (sed_transition_failed s)
    (sed_debug_receiver_on_requested s) (sed_debug_sleep_transition_requested s) (sed_recovery_pending s)
    (sed_recovery_attempts s) (battery_available s) (srp_host_address s) (pm_last_sleep_mode s)
    (pm_sleep_mode_changes s).
Definition set_sed_active (v : Z) (s : si_state) : si_state :=
  mk_si (factory s) (redcon_level s) (srp_registration_accepted s) v (sed_transition_failed s)
    (sed_debug_receiver_on_requested s) (sed_debug_sleep_transition_requested s) (sed_recovery_pending s)
    (sed_recovery_attempts s) (battery_available s) (srp_host_address s) (pm_last_sleep_mode s)
    (pm_sleep_mode_changes s).
Definition set_transition_failed (v : Z) (s : si_state) : si_state :=
  mk_si (factory s) (redcon_level s) (srp_registration_accepted s) (sed_mode_active s) v
    (sed_debug_receiver_on_requested s) (sed_debug_sleep_transition_requested s) (sed_recovery_pending s)
    (sed_recovery_attempts s) (battery_available s) (srp_host_address s) (pm_last_sleep_mode s)
    (pm_sleep_mode_changes s).
Definition set_receiver_requested (v : Z) (s : si_state) : si_state :=
  mk_si (factory s) (redcon_level s) (srp_registration_accepted s) (sed_mode_active s)
    (sed_transition_failed s) v (sed_debug_sleep_transition_requested s) (sed_recovery_pending s)
    (sed_recovery_attempts s) (battery_available s) (srp_host_address s) (pm_last_sleep_mode s)
    (pm_sleep_mode_changes s).
Definition set_sleep_requested (v : Z) (s : si_state) : si_state :=
  mk_si (factory s) (redcon_level s) (srp_registration_accepted s) (sed_mode_active s) (sed_transition_failed s)
    (sed_debug_receiver_on_requested s) v (sed_recovery_pending s) (sed_recovery_attempts s)
    (battery_available s) (srp_host_address s) (pm_last_sleep_mode s) (pm_sleep_mode_changes s).
Definition set_recovery_pending (v : Z) (s : si_state) : si_state :=
  mk_si (factory s) (redcon_level s) (srp_registration_accepted s) (sed_mode_active s) (sed_transition_failed s)
    (sed_debug_receiver_on_requested s) (sed_debug_sleep_transition_requested s) v (sed_recovery_attempts s)
    (battery_available s) (srp_host_address s) (pm_last_sleep_mode s) (pm_sleep_mode_changes s).
Definition set_recovery_attempts (v : Z) (s : si_state) : si_state :=
  mk_si (factory s) (redcon_level s) (srp_registration_accepted s) (sed_mode_active s) (sed_transition_failed s)
    (sed_debug_receiver_on_requested s) (sed_debug_sleep_transition_requested s) (sed_recovery_pending s) v
    (battery_available s) (srp_host_address s) (pm_last_sleep_mode s) (pm_sleep_mode_changes s).
Definition set_battery_available (v : bool) (s : si_state) : si_state :=
  mk_si (factory s) (redcon_level s) (srp_registration_accepted s) (sed_mode_active s) (sed_transition_failed s)
    (sed_debug_receiver_on_requested s) (sed_debug_sleep_transition_requested s) (sed_recovery_pending s)
    (sed_recovery_attempts s) v (srp_host_address s) (pm_last_sleep_mode s) (pm_sleep_mode_changes s).
Definition set_host_address (v : list Z) (s : si_state) : si_state :=
  mk_si (factory s) (redcon_level s) (srp_registration_accepted s) (sed_mode_active s) (sed_transition_failed s)
    (sed_debug_receiver_on_requested s) (sed_debug_sleep_transition_requested s) (sed_recovery_pending s)
    (sed_recovery_attempts s) (battery_available s) v (pm_last_sleep_mode s) (pm_sleep_mode_changes s).
Definition set_pm_last (v : Z) (s : si_state) : si_state :=
  mk_si (factory s) (redcon_level s) (srp_registration_accepted s) (sed_mode_active s) (sed_transition_failed s)
    (sed_debug_receiver_on_requested s) (sed_debug_sleep_transition_requested s) (sed_recovery_pending s)
    (sed_recovery_attempts s) (battery_available s) (srp_host_address s) v (pm_sleep_mode_changes s).
Definition set_pm_queue (v : list (Z * Z)) (s : si_state) : si_state :=
  mk_si (factory s) (redcon_level s) (srp_registration_accepted s) (sed_mode_active s) (sed_transition_failed s)
    (sed_debug_receiver_on_requested s) (sed_debug_sleep_transition_requested s) (sed_recovery_pending s)
    (sed_recovery_attempts s) (battery_available s) (srp_host_address s) (pm_last_sleep_mode s) v.

(** The static initialisers. *)
Definition initial_si_state : si_state :=
  let name := text "power-si-unconfigured" in
  mk_si (mk_factory (name ++ replicate (65 - List.length name) 0) (replicate 254 0) 0 TXING_COAP_DEFAULT_PORT false)
    TXING_REDCON_OFF 0 0 0 0 0 0 0 false (replicate 16 0) PM_SLEEP_MODE_UNKNOWN [].

(** ** Power-manager diagnostics *)

(** The queue takes an entry while it has room; the log work is submitted then. *)
Definition pm_transition_event (to : Z) : M si_state unit :=
  if negb (to =? SL_POWER_MANAGER_EM1) && negb (to =? SL_POWER_MANAGER_EM2) then mret tt else
  s ← get;
  if pm_last_sleep_mode s =? s8 to then mret tt else
  let change := (pm_last_sleep_mode s, s8 to) in
  _ ← modify (set_pm_last (s8 to));
  if bool_decide (List.length (pm_sleep_mode_changes s) < PM_SLEEP_MODE_CHANGE_QUEUE_DEPTH)%nat then
    _ ← modify (set_pm_queue (pm_sleep_mode_changes s ++ [change]));
    emit (EWorkSubmit pm_transition_log_work)
  else mret tt.

(** The [while] loop takes every entry. *)
Definition pm_transition_log_work_handler : M si_state unit := modify (set_pm_queue []).

Definition register_pm_transition_diagnostics (enabled : bool) : M si_state unit :=
  when enabled (modify (set_pm_last PM_SLEEP_MODE_UNKNOWN)).

(** ** The factory record *)

(** The tests on the ten header bytes: name length, data set length and port. *)
Definition txt1_header (header : list Z) : option (Z * Z * Z) :=
  if negb (bool_decide (take 4 header = TXT1_MAGIC)) || negb (header !!! 4%nat =? TXT1_VERSION) then None
  else
    let name_len := header !!! 5%nat in
    let dataset_len := u16_le (drop 6 header) in
    let port := u16_le (drop 8 header) in
    if (name_len =? 0) || (TXT1_THING_NAME_SIZE <? name_len) || (dataset_len =? 0)
       || (TXT1_DATASET_TLVS_SIZE <? dataset_len) || (port =? 0) then None
    else Some (name_len, dataset_len, port).

(** The copies into [factory]. *)
Definition accept_factory (payload : list Z) (name_len dataset_len port : Z) (f : factory_data) : factory_data :=
  mk_factory
    (memcpy_at (thing_name f) 0 (take (Z.to_nat name_len) (drop (Z.to_nat TXT1_HEADER_SIZE) payload) ++ [0]))
    (memcpy_at (dataset_tlvs f) 0
       (take (Z.to_nat dataset_len) (drop (Z.to_nat (TXT1_HEADER_SIZE + name_len)) payload)))
    (u8 dataset_len) port true.

Section PowerSi.

Context (cfg : si_config) (sp : si_platform).

Abbreviation P := (M si_state).
Abbreviation pf := (ot sp).

(** Between [flash_area_open] and the [out] label; the stored checksum is read
    into a [uint32_t], low byte first. *)
Definition load_factory_record : P Z :=
  r ← flash_read pf 0 TXT1_HEADER_SIZE;
  let '(rc, header) := r in
  if negb (rc =? 0) then mret rc else
  match txt1_header header with
  | None => mret (- EINVAL)
  | Some (name_len, dataset_len, port) =>
      let payload_len := TXT1_HEADER_SIZE + name_len + dataset_len in
      r ← flash_read pf TXT1_HEADER_SIZE (name_len + dataset_len);
      let '(rc, body) := r in
      let payload := header ++ body in
      if negb (rc =? 0) then mret rc else
      r ← flash_read pf payload_len 4;
      let '(rc, crc_bytes) := r in
      if negb (rc =? 0) then mret rc else
      let expected_crc := le_val crc_bytes in
      let actual_crc := crc32_ieee pf payload in
      if negb (actual_crc =? expected_crc) then mret (- EINVAL) else
      _ ← modify (λ s, set_factory (accept_factory payload name_len dataset_len port (factory s)) s);
      mret 0
  end.

Definition load_factory_data : P Z :=
  if negb (cf_factory_partition cfg) then mret (- ENOENT) else
  rc ← call EFlashOpen (flash_area_open pf);
  if negb (rc =? 0) then mret rc else
  rc ← load_factory_record;
  _ ← emit EFlashClose;
  mret rc.

(** ** Outputs and battery *)

Definition set_outputs_for_redcon (level : Z) : P Z :=
  let enabled := level =? TXING_REDCON_ON in
  rc ← gpio_set pf (power_gpio cfg) enabled;
  if negb (rc =? 0) then mret rc else
  rc ← gpio_set pf (led_gpio cfg) enabled;
  if negb (rc =? 0) then mret rc else
  _ ← modify (set_level level);
  mret 0.

Definition init_outputs : P Z :=
  if negb (gpio_is_ready_dt pf (power_gpio cfg)) || negb (gpio_is_ready_dt pf (led_gpio cfg))
  then mret (- ENODEV) else
  rc ← gpio_configure pf (power_gpio cfg);
  if negb (rc =? 0) then mret rc else
  rc ← gpio_configure pf (led_gpio cfg);
  if negb (rc =? 0) then mret rc else
  set_outputs_for_redcon TXING_REDCON_OFF.

Definition adc_power (on : bool) : P Z :=
  rc ← ask (λ t, pm_device_action_run sp t on);
  _ ← when (rc =? 0) (emit (EAdcPower on));
  mret rc.

Definition init_battery : P Z :=
  if negb (cf_battery_reporting cfg) then mret 0 else
  if negb (adc_is_ready_dt sp) || negb (gpio_is_ready_dt pf (battery_enable cfg)) then mret (- ENODEV) else
  rc ← gpio_configure pf (battery_enable cfg);
  if negb (rc =? 0) then mret rc else
  rc ← call EAdcSetup (adc_channel_setup_dt sp);
  if negb (rc =? 0) then mret rc else
  rc ← adc_power false;
  if negb (rc =? 0) && negb (rc =? - EALREADY) then mret rc else
  _ ← modify (set_battery_available true);
  mret 0.

(** Between the resume and the [out] label. *)
Definition divider_reading : P (option Z) :=
  rc ← gpio_set pf (battery_enable cfg) true;
  if negb (rc =? 0) then mret None else
  _ ← emit (ESleep BATTERY_DIVIDER_SETTLE_MS);
  r ← call EAdcRead (adc_read_dt sp);
  let '(rc, raw) := r in
  if negb (rc =? 0) then mret None else
  let millivolts := if adc_differential sp then s16 raw else raw in
  r ← ask (λ t, adc_raw_to_millivolts_dt sp t millivolts);
  let '(rc, millivolts) := r in
  if negb (rc =? 0) || (millivolts <? 0) then mret None else
  let millivolts := s32 (millivolts * BATTERY_DIVIDER_RATIO) in
  mret (Some (u16 (if millivolts <? UINT16_MAX then millivolts else UINT16_MAX))).

(** [None] for [false]; the millivolts otherwise. *)
Definition sample_battery_mv : P (option Z) :=
  s ← get;
  if negb (battery_available s) then mret None else
  rc ← adc_power true;
  if negb (rc =? 0) && negb (rc =? - EALREADY) then mret None else
  sampled ← divider_reading;
  _ ← gpio_set pf (battery_enable cfg) false;
  _ ← adc_power false;
  mret sampled.

(** ** CoAP *)

Definition format_state (size : Z) : P (Z * list Z) :=
  battery ← (if cf_battery_reporting cfg then sample_battery_mv else mret None);
  s ← get;
  mret (snprintk size (state_json (c_string (thing_name (factory s))) (redcon_level s) battery)).

(** The instance is used without a test. *)
Definition send_response (request : otMessage) (code : Z) (payload : option (list Z)) : P unit :=
  response ← ask (otCoapNewMessage pf);
  if negb response then mret tt else
  _ ← emit EOtMessageNew;
  error ← ask (otCoapMessageInitResponse pf);
  error ← (if negb (error =? OT_ERROR_NONE) then mret error else
           error ← append_payload pf payload;
           if negb (error =? OT_ERROR_NONE) then mret error else ask (otCoapSendResponse pf));
  emit (if error =? OT_ERROR_NONE then EOtCoapSend (response_type request) code payload else EOtMessageFree).

Definition send_state_response (request : otMessage) (code : Z) : P unit :=
  r ← format_state STATE_JSON_SIZE;
  let '(len, json) := r in
  if (len <? 0) || (STATE_JSON_SIZE <=? len)
  then send_response request OT_COAP_CODE_INTERNAL_ERROR None
  else send_response request code (Some json).

Definition state_handler (message : otMessage) : P unit :=
  if negb (otCoapMessageGetCode message =? OT_COAP_CODE_GET)
  then send_response message OT_COAP_CODE_METHOD_NOT_ALLOWED None
  else send_state_response message OT_COAP_CODE_CONTENT.

(** [None] for [false]. The structure starts zeroed. *)
Definition parse_redcon_request (message : otMessage) : option redcon_request :=
  let offset := otMessageGetOffset message in
  let len := u16 (otMessageGetLength message - offset) in
  if (len =? 0) || (REQUEST_JSON_SIZE <=? len) then None else
  let '(n, json) := otMessageRead message offset len in
  if negb (n =? len) then None else
  let '(ret, version, redcon) := json_obj_parse pf json in
  if ret =? Z.lor 1 2 then Some (mk_request version redcon) else None.

(** ** Link mode *)

Definition thread_receiver_on_requested (s : si_state) : bool :=
  if cf_link_mode_test cfg then negb (sed_debug_receiver_on_requested s =? 0) else false.

Definition thread_sed_mode_requested (s : si_state) : bool := negb (thread_receiver_on_requested s).

Definition configure_thread_mtd_mode_locked (receiver_on_when_idle : bool) : P Z :=
  link_mode ← ask (otThreadGetLinkMode pf);
  error ← call (EOtSetLinkMode receiver_on_when_idle false true) (otThreadSetLinkMode pf);
  if negb (error =? OT_ERROR_NONE) then mret (- EIO) else
  error ← call (EOtSetPollPeriod CONFIG_OPENTHREAD_POLL_PERIOD) (otLinkSetPollPeriod pf);
  if negb (error =? OT_ERROR_NONE) then mret (- EIO) else mret 0.

Definition configure_thread_bootstrap_mode_locked : P Z := configure_thread_mtd_mode_locked true.
Definition configure_thread_sed_mode_locked : P Z := configure_thread_mtd_mode_locked false.
Definition configure_thread_receiver_on_mode_locked : P Z := configure_thread_mtd_mode_locked true.

Definition restart_thread_with_config_locked (configure : P Z) : P Z :=
  error ← call (EOtSetEnabled false) (otThreadSetEnabled pf);
  if negb (error =? OT_ERROR_NONE) && negb (error =? OT_ERROR_INVALID_STATE) then mret (- EIO) else
  rc ← configure;
  if negb (rc =? 0) then mret rc else
  error ← call (EOtSetEnabled true) (otThreadSetEnabled pf);
  if negb (error =? OT_ERROR_NONE) then mret (- EIO) else mret 0.

Definition switch_thread_to_sed_mode_locked : P Z := configure_thread_sed_mode_locked.

Definition restart_thread_in_bootstrap_mode_locked : P Z :=
  restart_thread_with_config_locked configure_thread_bootstrap_mode_locked.

Definition restart_thread_in_requested_mode_locked : P Z :=
  s ← get;
  if cf_link_mode_test cfg && thread_receiver_on_requested s
  then restart_thread_with_config_locked configure_thread_receiver_on_mode_locked
  else restart_thread_with_config_locked configure_thread_sed_mode_locked.

(** REDCON 3 cancels what could move the radio; REDCON 4 watches the link. *)
Definition apply_sed_debug_redcon_thread_mode (redcon : Z) : P Z :=
  instance ← ask (openthread_get_default_instance pf);
  let receiver_on_when_idle := redcon =? TXING_REDCON_ON in
  s ← get;
  let previous_receiver_on := sed_debug_receiver_on_requested s in
  if negb instance then mret (- ENODEV) else
  _ ← modify (set_receiver_requested (if receiver_on_when_idle then 1 else 0));
  rc ← (if receiver_on_when_idle then configure_thread_receiver_on_mode_locked
        else configure_thread_mtd_mode_locked false);
  if negb (rc =? 0) then
    _ ← modify (set_receiver_requested previous_receiver_on);
    mret rc
  else
  _ ← modify (set_sed_active 1);
  _ ← modify (set_transition_failed 0);
  _ ← (if receiver_on_when_idle then
         _ ← emit (EWorkCancel sed_transition_work);
         _ ← emit (EWorkCancel sed_fallback_work);
         when (cf_sed_recovery_test cfg)
           (_ ← emit (EWorkCancel sed_recovery_work);
            _ ← modify (set_recovery_pending 0);
            modify (set_recovery_attempts 0))
       else emit (EWorkSchedule sed_fallback_work (SED_FALLBACK_GRACE_SECONDS * 1000)));
  mret 0.

Definition sed_debug_redcon_sleep_work_handler : P unit :=
  s ← get;
  if negb (sed_debug_sleep_transition_requested s =? 1) then mret tt else
  _ ← modify (set_sleep_requested 0);
  instance ← ask (openthread_get_default_instance pf);
  if negb instance then mret tt else
  _ ← emit (EOtLock true);
  _ ← apply_sed_debug_redcon_thread_mode TXING_REDCON_OFF;
  emit (EOtLock false).

(** ** The redcon resource *)

(** The level a well-formed request asks for. *)
Definition requested_redcon (message : otMessage) : option Z :=
  match parse_redcon_request message with
  | None => None
  | Some request =>
      if negb (rq_version request =? TXING_PROTOCOL_VERSION)
         || (negb (rq_redcon request =? TXING_REDCON_ON) && negb (rq_redcon request =? TXING_REDCON_OFF))
      then None else Some (rq_redcon request)
  end.

(** What follows the outputs when the level switches the link mode. *)
Definition redcon_link_mode (message : otMessage) (redcon previous_redcon : Z) : P unit :=
  if redcon =? TXING_REDCON_ON then
    _ ← modify (set_sleep_requested 0);
    _ ← emit (EWorkCancel sed_debug_redcon_sleep_work);
    rc ← apply_sed_debug_redcon_thread_mode redcon;
    if negb (rc =? 0) then
      _ ← set_outputs_for_redcon previous_redcon;
      send_response message OT_COAP_CODE_INTERNAL_ERROR None
    else send_state_response message OT_COAP_CODE_CHANGED
  else
    _ ← modify (set_sleep_requested 1);
    _ ← send_state_response message OT_COAP_CODE_CHANGED;
    emit (EWorkSchedule sed_debug_redcon_sleep_work SED_REDCON_RESPONSE_GRACE_MS).

Definition redcon_handler (message : otMessage) : P unit :=
  if negb (otCoapMessageGetCode message =? OT_COAP_CODE_PUT)
  then send_response message OT_COAP_CODE_METHOD_NOT_ALLOWED None else
  match requested_redcon message with
  | None => send_response message OT_COAP_CODE_BAD_REQUEST None
  | Some redcon =>
      s ← get;
      let previous_redcon := redcon_level s in
      rc ← set_outputs_for_redcon redcon;
      if negb (rc =? 0) then send_response message OT_COAP_CODE_INTERNAL_ERROR None else
      if cf_link_mode_test cfg then redcon_link_mode message redcon previous_redcon
      else send_state_response message OT_COAP_CODE_CHANGED
  end.

(** ** Recovery *)

Definition sed_recovery_delay_seconds (completed_attempts : Z) : Z :=
  if completed_attempts <=? 0 then SED_RECOVERY_INITIAL_DELAY_SECONDS
  else if completed_attempts =? 1 then SED_RECOVERY_SECOND_DELAY_SECONDS
  else SED_RECOVERY_MAX_DELAY_SECONDS.

Definition abandon_sed_recovery : P unit :=
  _ ← modify (set_transition_failed 1);
  modify (set_recovery_pending 0).

(** The role and the link mode are logged only. *)
Definition schedule_sed_recovery : P unit :=
  s ← get;
  let completed_attempts := sed_recovery_attempts s in
  if SED_RECOVERY_MAX_ATTEMPTS <=? completed_attempts then abandon_sed_recovery else
  if negb (sed_recovery_pending s =? 0) then mret tt else
  _ ← modify (set_recovery_pending 1);
  emit (EWorkSchedule sed_recovery_work (sed_recovery_delay_seconds completed_attempts * 1000)).

Definition sed_recovery_work_handler : P unit :=
  _ ← modify (set_recovery_pending 0);
  s ← get;
  if (sed_mode_active s =? 0) || negb (sed_transition_failed s =? 0) then mret tt else
  instance ← ask (openthread_get_default_instance pf);
  if negb instance then schedule_sed_recovery else
  _ ← emit (EOtLock true);
  role ← ask (otThreadGetDeviceRole pf);
  link_mode ← ask (otThreadGetLinkMode pf);
  s ← get;
  let receiver_on_expected := thread_receiver_on_requested s in
  if (role =? OT_DEVICE_ROLE_CHILD) && Bool.eqb (mRxOnWhenIdle link_mode) receiver_on_expected then
    _ ← emit (EOtLock false);
    modify (set_recovery_attempts 0)
  else
  _ ← modify (set_recovery_attempts (sed_recovery_attempts s + 1));
  rc ← restart_thread_in_requested_mode_locked;
  _ ← emit (EOtLock false);
  if rc =? 0 then emit (EWorkSchedule sed_fallback_work (SED_FALLBACK_GRACE_SECONDS * 1000))
  else schedule_sed_recovery.

(** ** Sleepy operation *)

Definition schedule_sed_transition_if_ready (role : Z) : P unit :=
  s ← get;
  when (thread_sed_mode_requested s && (role =? OT_DEVICE_ROLE_CHILD)
        && negb (srp_registration_accepted s =? 0) && (sed_mode_active s =? 0)
        && (sed_transition_failed s =? 0))
    (emit (EWorkSchedule sed_transition_work 0)).

(** The reset of the retry state, in the builds that have it. *)
Definition reset_recovery : P unit :=
  when (cf_sed_recovery_test cfg)
    (_ ← modify (set_recovery_pending 0);
     modify (set_recovery_attempts 0)).

Definition sed_transition_work_handler : P unit :=
  s ← get;
  if negb (thread_sed_mode_requested s) || (srp_registration_accepted s =? 0) || negb (sed_mode_active s =? 0)
  then mret tt else
  instance ← ask (openthread_get_default_instance pf);
  if negb instance then emit (EWorkSchedule sed_transition_work 1000) else
  _ ← emit (EOtLock true);
  role ← ask (otThreadGetDeviceRole pf);
  if negb (role =? OT_DEVICE_ROLE_CHILD) then
    _ ← emit (EOtLock false);
    emit (EWorkSchedule sed_transition_work 1000)
  else
  rc ← switch_thread_to_sed_mode_locked;
  _ ← emit (EOtLock false);
  if rc =? 0 then
    _ ← modify (set_sed_active 1);
    _ ← reset_recovery;
    emit (EWorkSchedule sed_fallback_work (SED_FALLBACK_GRACE_SECONDS * 1000))
  else emit (EWorkSchedule sed_transition_work 5000).

(** The builds without retries go back to the bootstrap mode. *)
Definition fall_back_to_bootstrap : P unit :=
  _ ← modify (set_sed_active 0);
  _ ← modify (set_transition_failed 1);
  rc ← restart_thread_in_bootstrap_mode_locked;
  _ ← emit (EOtLock false);
  if rc =? 0 then mret tt else
  _ ← modify (set_sed_active 1);
  _ ← modify (set_transition_failed 0);
  emit (EWorkSchedule sed_fallback_work 5000).

Definition sed_fallback_work_handler : P unit :=
  s ← get;
  if (sed_mode_active s =? 0) || negb (sed_transition_failed s =? 0) then mret tt else
  instance ← ask (openthread_get_default_instance pf);
  if negb instance then emit (EWorkSchedule sed_fallback_work 5000) else
  _ ← emit (EOtLock true);
  role ← ask (otThreadGetDeviceRole pf);
  link_mode ← ask (otThreadGetLinkMode pf);
  s ← get;
  let receiver_on_expected := thread_receiver_on_requested s in
  if (role =? OT_DEVICE_ROLE_CHILD) && Bool.eqb (mRxOnWhenIdle link_mode) receiver_on_expected then
    _ ← emit (EOtLock false);
    reset_recovery
  else if cf_sed_recovery_test cfg then
    _ ← emit (EOtLock false);
    schedule_sed_recovery
  else fall_back_to_bootstrap.

(** ** SRP *)

Definition set_srp_host_address : P Z :=
  eid ← ask (otThreadGetMeshLocalEid pf);
  match eid with
  | None => mret OT_ERROR_INVALID_STATE
  | Some address =>
      _ ← modify (set_host_address address);
      call (EOtSrpSetHostAddress address) (otSrpClientSetHostAddresses pf)
  end.

Definition start_srp : P Z :=
  s ← get;
  let name := c_string (thing_name (factory s)) in
  let port := coap_port (factory s) in
  _ ← emit (EOtLock true);
  _ ← emit EOtSrpSetCallback;
  error ← call (EOtSrpSetHostName name) (otSrpClientSetHostName pf);
  if negb (error =? OT_ERROR_NONE) then _ ← emit (EOtLock false); mret (- EIO) else
  error ← set_srp_host_address;
  if negb (error =? OT_ERROR_NONE) then _ ← emit (EOtLock false); mret (- EIO) else
  error ← call (EOtSrpAddService name port) (otSrpClientAddService pf);
  if negb (error =? OT_ERROR_NONE) && negb (error =? OT_ERROR_ALREADY)
  then _ ← emit (EOtLock false); mret (- EIO) else
  _ ← emit EOtSrpAutoStart;
  _ ← emit (EOtLock false);
  mret 0.

Definition srp_client_callback (error : Z) : P unit :=
  when (error =? OT_ERROR_NONE)
    (_ ← modify (set_srp_accepted 1);
     s ← get;
     when (thread_sed_mode_requested s && (sed_mode_active s =? 0) && (sed_transition_failed s =? 0))
       (emit (EWorkSchedule sed_transition_work 500))).

(** ** Start *)

Definition start_coap : P Z :=
  _ ← emit (EOtLock true);
  s ← get;
  error ← call (EOtCoapStart (coap_port (factory s))) (otCoapStart pf);
  if negb (error =? OT_ERROR_NONE) then _ ← emit (EOtLock false); mret (- EIO) else
  _ ← emit (EOtCoapAddResource (text "txing/v1/state"));
  _ ← emit (EOtCoapAddResource (text "txing/v1/redcon"));
  _ ← emit (EOtLock false);
  mret 0.

(** The flags of the link-mode and recovery builds. *)
Definition reset_thread_flags : P unit :=
  _ ← modify (set_srp_accepted 0);
  _ ← modify (set_sed_active 0);
  _ ← modify (set_transition_failed 0);
  _ ← when (cf_link_mode_test cfg)
        (_ ← modify (set_receiver_requested 0);
         modify (set_sleep_requested 0));
  reset_recovery.

Definition start_thread : P Z :=
  s ← get;
  if negb (valid (factory s)) then mret (- EINVAL) else
  _ ← emit (EOtLock true);
  error ← call (EOtDatasetSet (take (Z.to_nat (dataset_tlvs_len (factory s))) (dataset_tlvs (factory s))))
            (otDatasetSetActiveTlvs pf);
  if negb (error =? OT_ERROR_NONE) then _ ← emit (EOtLock false); mret (- EIO) else
  _ ← reset_thread_flags;
  rc ← configure_thread_bootstrap_mode_locked;
  if negb (rc =? 0) then _ ← emit (EOtLock false); mret (- EIO) else
  error ← call EOtIp6SetEnabled (otIp6SetEnabled pf);
  if negb (error =? OT_ERROR_NONE) then _ ← emit (EOtLock false); mret (- EIO) else
  error ← call (EOtSetEnabled true) (otThreadSetEnabled pf);
  if negb (error =? OT_ERROR_NONE) then _ ← emit (EOtLock false); mret (- EIO) else
  _ ← emit (EOtLock false);
  mret 0.

Definition thread_state_changed : P unit :=
  role ← ask (otThreadGetDeviceRole pf);
  s ← get;
  _ ← when (negb (sed_mode_active s =? 0) && (sed_transition_failed s =? 0) && negb (role =? OT_DEVICE_ROLE_CHILD))
        (emit (EWorkSchedule sed_fallback_work (SED_FALLBACK_GRACE_SECONDS * 1000)));
  schedule_sed_transition_if_ready role.

Definition register_thread_state_logger : P unit :=
  _ ← call EOtStateCallback (openthread_state_changed_callback_register pf);
  mret tt.

(** [start_thread(ot) != 0 || start_coap(ot) != 0 || start_srp(ot) != 0] *)
Definition start_services : P bool :=
  rc ← start_thread;
  if negb (rc =? 0) then mret true else
  rc ← start_coap;
  if negb (rc =? 0) then mret true else
  rc ← start_srp;
  mret (negb (rc =? 0)).

(** The result is [None] when the function stays in its final loop. *)
Definition main : P (option Z) :=
  _ ← load_factory_data;
  rc ← init_outputs;
  if negb (rc =? 0) then mret (Some rc) else
  _ ← init_battery;
  instance ← ask (openthread_get_default_instance pf);
  if negb instance then mret (Some (- ENODEV)) else
  _ ← register_thread_state_logger;
  _ ← start_services;
  _ ← register_pm_transition_diagnostics (cf_pm_transition_diagnostics cfg);
  mret None.

Definition work_handler (w : work_item) : P unit :=
  match w with
  | sed_transition_work => sed_transition_work_handler
  | sed_fallback_work => sed_fallback_work_handler
  | sed_debug_redcon_sleep_work => sed_debug_redcon_sleep_work_handler
  | sed_recovery_work => sed_recovery_work_handler
  | pm_transition_log_work => pm_transition_log_work_handler
  | _ => mret tt
  end.
End PowerSi.
