(* ===== verification/PowerSiSafety.v ===== *)
(** * Invariants of the power-si device

    The events the device reacts to are the rules of [si_step]; every state
    reached from the end of [main] satisfies [si_inv]: the sleep flag agrees with
    the work queue, the retries of a lost attachment are bounded, locks and
    messages are balanced, the diagnostics queue stays in its depth and, on a
    board whose GPIO driver does not fail, the outputs follow the level and the
    receiver stays on at REDCON 3. *)
From S2P Require Import Prelude Zephyr OpenThread PowerSi.
#[local] Open Scope Z_scope.

Section Safety.

Context (cfg : si_config) (sp : si_platform).
Abbreviation pf := (ot sp).

(** ** Steps *)

Inductive si_step : si_state * trace → si_state * trace → Prop :=
  | si_redcon m s t : si_step (s, t) (final (redcon_handler cfg sp m s (EOtCallback :: t)))
  | si_state_get m s t : si_step (s, t) (final (state_handler cfg sp m s (EOtCallback :: t)))
  | si_srp error s t : si_step (s, t) (final (srp_client_callback cfg error s (EOtCallback :: t)))
  | si_changed s t : si_step (s, t) (final (thread_state_changed cfg sp s (EOtCallback :: t)))
  | si_pm to s t : cf_pm_transition_diagnostics cfg = true → si_step (s, t) (final (pm_transition_event to s t))
  | si_work w s t : pending w t = true →
      si_step (s, t) (final (work_handler cfg sp w s (EWorkRun w :: t))).

(** The end of [main]: it stays in its loop, whether or not the services started. *)
Definition si_started (x : si_state * trace) : Prop :=
  main cfg sp initial_si_state [] = (None, x.1, x.2).

Inductive si_reachable : si_state * trace → Prop :=
  | si_reach_start x : si_started x → si_reachable x
  | si_reach_step x y : si_reachable x → si_step x y → si_reachable y.

(** ** What is observed *)

Record observation := Obs {
  ob_sleep : bool; ob_recovery : bool;
  ob_power : option bool; ob_led : option bool; ob_rx : option bool;
  ob_locks : Z; ob_msgs : Z; ob_delays : list Z
}.

Definition obs (t : trace) : observation :=
  Obs (pending sed_debug_redcon_sleep_work t) (pending sed_recovery_work t)
    (pin_level (power_gpio cfg) t) (pin_level (led_gpio cfg) t) (link_rx_on t)
    (locks_held t) (messages_held t) (delays sed_recovery_work t).

Definition with_pins (p l : option bool) (o : observation) : observation :=
  Obs (ob_sleep o) (ob_recovery o) p l (ob_rx o) (ob_locks o) (ob_msgs o) (ob_delays o).
Definition with_rx (r : option bool) (o : observation) : observation :=
  Obs (ob_sleep o) (ob_recovery o) (ob_power o) (ob_led o) r (ob_locks o) (ob_msgs o) (ob_delays o).

(** The GPIO driver never fails, and the divider's enable is a pin of its own. *)
Definition board_works : Prop :=
  (∀ t p v, gpio_pin_set_dt pf t p v = 0) ∧
  power_gpio cfg ≠ battery_enable cfg ∧ led_gpio cfg ≠ battery_enable cfg.

(** Two observations that differ in the pins only, and not on a board that works. *)
Definition same_outputs (o o' : observation) : Prop :=
  ∃ p l, o' = with_pins p l o ∧ (board_works → o' = o).

Record si_inv (s : si_state) (o : observation) : Prop := {
  inv_level : redcon_level s = TXING_REDCON_ON ∨ redcon_level s = TXING_REDCON_OFF;
  inv_sleep : sed_debug_sleep_transition_requested s = if ob_sleep o then 1 else 0;
  inv_sleep_build : ob_sleep o = true → cf_link_mode_test cfg = true;
  inv_on : redcon_level s = TXING_REDCON_ON → ob_sleep o = false;
  inv_attempts : 0 ≤ sed_recovery_attempts s ≤ SED_RECOVERY_MAX_ATTEMPTS;
  inv_retry : ob_recovery o = true → sed_recovery_attempts s < SED_RECOVERY_MAX_ATTEMPTS;
  inv_delays : Forall (λ ms, 5000 ≤ ms ≤ 20000) (ob_delays o);
  inv_locks : ob_locks o = 0;
  inv_msgs : ob_msgs o = 0;
  inv_queue : (length (pm_sleep_mode_changes s) ≤ PM_SLEEP_MODE_CHANGE_QUEUE_DEPTH)%nat;
  inv_outputs : board_works →
    let on := redcon_level s =? TXING_REDCON_ON in
    ob_power o = Some on ∧ ob_led o = Some on ∧
    (cf_link_mode_test cfg = true → redcon_level s = TXING_REDCON_ON →
       sed_debug_receiver_on_requested s = 1 ∧ ob_rx o = Some true)
}.

(** ** Subprograms *)

Ltac obs_simpl :=
  unfold obs, with_pins, with_rx in *;
  cbn [pending pin_level link_rx_on locks_held messages_held delays
       ob_sleep ob_recovery ob_power ob_led ob_rx ob_locks ob_msgs ob_delays] in *;
  repeat match goal with
  | |- context [bool_decide (?a = ?b)] =>
      first [rewrite (bool_decide_eq_true_2 (a = b)) by done | rewrite (bool_decide_eq_false_2 (a = b)) by done]
  end.

Lemma same_outputs_refl o : same_outputs o o.
Proof. exists (ob_power o), (ob_led o). split; [by destruct o|done]. Qed.

Lemma same_outputs_eq t t' : obs t' = obs t → same_outputs (obs t) (obs t').
Proof. intros ->. apply same_outputs_refl. Qed.

Lemma same_outputs_trans o1 o2 o3 : same_outputs o1 o2 → same_outputs o2 o3 → same_outputs o1 o3.
Proof.
  intros (p & l & -> & H1) (p' & l' & -> & H2). exists p', l'. split; [done|]. intros Hw.
  rewrite (H2 Hw). by apply H1.
Qed.

Lemma inv_same_outputs s o o' : same_outputs o o' → si_inv s o → si_inv s o'.
Proof.
  intros (p & l & -> & Hw) [].
  constructor; cbn; try done. intros H. specialize (Hw H). destruct o. cbn in *. injection Hw as -> ->. auto.
Qed.

Lemma si_send_response_spec m code payload Q s t :
  (∀ t', obs t' = obs t → Q tt s t') → wp (send_response sp m code payload) Q s t.
Proof.
  intros H. unfold send_response, append_payload. repeat wp_step.
  all: try (apply H; done).
  all: case_match; apply H; obs_simpl; f_equal; lia.
Qed.

(** Driving the divider leaves the other pins alone. *)
Lemma divider_obs e t :
  e = EGpioSet (battery_enable cfg) true ∨ e = EGpioSet (battery_enable cfg) false ∨ e = EGpioFailed (battery_enable cfg) →
  same_outputs (obs t) (obs (e :: t)).
Proof.
  intros He. exists (pin_level (power_gpio cfg) (e :: t)), (pin_level (led_gpio cfg) (e :: t)).
  destruct_or! He; subst; (split; [by obs_simpl|]); intros (_ & H1 & H2); by obs_simpl.
Qed.

Lemma gpio_divider v (Q : Z → si_state → trace → Prop) s t :
  (∀ rc t', same_outputs (obs t) (obs t') → Q rc s t') → wp (gpio_set pf (battery_enable cfg) v) Q s t.
Proof.
  intros H. unfold gpio_set. repeat wp_step. apply H, divider_obs. case_match; [|auto]. destruct v; auto.
Qed.

Lemma si_sample_battery_spec Q s t :
  (∀ r t', same_outputs (obs t) (obs t') → Q r s t') → wp (sample_battery_mv cfg sp) Q s t.
Proof.
  intros H. unfold sample_battery_mv, adc_power, divider_reading.
  assert (Hout : ∀ r t1 t2, same_outputs (obs t) (obs t1) → obs t2 = obs t1 →
    wp (_ ← gpio_set pf (battery_enable cfg) false; _ ← adc_power sp false; mret r) Q s t2).
  { intros r t1 t2 H1 H2. wp_step. apply gpio_divider. intros rc t3 H3. unfold adc_power. rewrite H2 in H3.
    repeat wp_step; apply H; eapply same_outputs_trans; (done || (apply same_outputs_eq; done) || idtac).
    all: eapply same_outputs_trans; [exact H1|]; exact H3. }
  repeat wp_step; try (apply H, same_outputs_eq; done).
  all: apply gpio_divider; intros rc t1 H1; repeat wp_step; try (eapply Hout; [|done]; exact H1).
Qed.

Lemma si_send_state_response_spec m code Q s t :
  (∀ t', same_outputs (obs t) (obs t') → Q tt s t') → wp (send_state_response cfg sp m code) Q s t.
Proof.
  intros H. unfold send_state_response, format_state. do 2 wp_step.
  assert (Hs : ∀ c p t1, same_outputs (obs t) (obs t1) → wp (send_response sp m c p) Q s t1).
  { intros c p t1 H1. apply si_send_response_spec. intros t2 E. apply H. by rewrite E. }
  wp_step; [apply si_sample_battery_spec; intros r t1 H1|wp_step]; repeat wp_step; apply Hs; auto using same_outputs_refl.
Qed.

Lemma si_configure_spec b Q s t :
  (∀ rc t', obs t' = with_rx (Some b) (obs t) → Q rc s t') → wp (configure_thread_mtd_mode_locked sp b) Q s t.
Proof. intros H. unfold configure_thread_mtd_mode_locked. repeat wp_step; by apply H. Qed.

Lemma si_set_outputs_spec level Q s t :
  let on := Some (level =? TXING_REDCON_ON) in
  (∀ rc t' p l, rc ≠ 0 → ¬ board_works → obs t' = with_pins p l (obs t) → Q rc s t') →
  (∀ t', obs t' = with_pins on on (obs t) → Q 0 (set_level level s) t') →
  wp (set_outputs_for_redcon cfg sp level) Q s t.
Proof.
  intros on Hfail Hok.
  assert (Hset : ∀ t p v rc, gpio_pin_set_dt pf t p v = rc → rc ≠ 0 → ¬ board_works)
    by (intros ? p v rc <- Hne [Hw _]; by apply Hne).
  unfold set_outputs_for_redcon, gpio_set. repeat wp_step.
  all: repeat match goal with
  | H : negb (?x =? 0) = true |- _ => apply negb_true_iff in H
  | H : negb (?x =? 0) = false |- _ => apply negb_false_iff in H
  end.
  - rewrite E. apply Z.eqb_neq in E.
    apply (Hfail _ _ (pin_level (power_gpio cfg) t) (pin_level (led_gpio cfg) t)); [done|by eapply Hset|done].
  - rewrite E in E0 |- *. rewrite E0. apply Z.eqb_neq in E0.
    lazymatch goal with |- Q _ _ ?t' =>
      apply (Hfail _ _ (pin_level (power_gpio cfg) t') (pin_level (led_gpio cfg) t')) end;
      [done|by eapply Hset|]. by obs_simpl.
  - rewrite E in E0 |- *. rewrite E0. apply Hok. obs_simpl. unfold on. f_equal. by case_bool_decide.
Qed.

Lemma si_restart_spec (b : bool) c Q s t :
  (∀ Q' s t, (∀ rc t', obs t' = with_rx (Some b) (obs t) → Q' rc s t') → wp c Q' s t) →
  (∀ rc t', obs t' = obs t ∨ obs t' = with_rx (Some b) (obs t) → Q rc s t') →
  wp (restart_thread_with_config_locked sp c) Q s t.
Proof.
  intros Hc H. unfold restart_thread_with_config_locked. repeat wp_step; [apply H; by left|].
  apply Hc. intros rc t1 E1. repeat wp_step; apply H; by right.
Qed.

(** ** Handlers keep the invariant *)

Ltac obs_eqs :=
  repeat match goal with
  | E : obs _ = _ |- _ =>
      unfold obs, with_pins, with_rx in E;
      cbn [pending pin_level link_rx_on locks_held messages_held delays
           ob_sleep ob_recovery ob_power ob_led ob_rx ob_locks ob_msgs ob_delays] in E;
      injection E; clear E; intros
  end; obs_simpl;
  repeat match goal with
  | H : pending _ ?t = _ |- _ => progress rewrite H in *; clear H
  | H : pin_level _ ?t = _ |- _ => progress rewrite H in *; clear H
  | H : link_rx_on ?t = _ |- _ => progress rewrite H in *; clear H
  | H : locks_held ?t = _ |- _ => progress rewrite H in *; clear H
  | H : messages_held ?t = _ |- _ => progress rewrite H in *; clear H
  | H : delays _ ?t = _ |- _ => progress rewrite H in *; clear H
  end.

Ltac tests :=
  repeat match goal with
  | H : _ || _ = true |- _ => apply orb_true_iff in H
  | H : _ || _ = false |- _ => apply orb_false_iff in H as [? ?]
  | H : _ && _ = true |- _ => apply andb_true_iff in H as [? ?]
  | H : negb _ = true |- _ => apply negb_true_iff in H
  | H : negb _ = false |- _ => apply negb_false_iff in H
  | H : (_ =? _) = true |- _ => apply Z.eqb_eq in H
  | H : (_ =? _) = false |- _ => apply Z.eqb_neq in H
  | H : (_ <=? _) = true |- _ => apply Z.leb_le in H
  | H : (_ <=? _) = false |- _ => apply Z.leb_gt in H
  end.

Ltac close_inv :=
  obs_eqs; obs_simpl; constructor; cbn in *;
  unfold TXING_REDCON_ON, TXING_REDCON_OFF, SED_RECOVERY_MAX_ATTEMPTS in *;
  repeat match goal with
  | H : pending _ ?t = _ |- context [pending _ ?t] => rewrite H
  | H : pin_level _ ?t = _ |- context [pin_level _ ?t] => rewrite H
  | H : link_rx_on ?t = _ |- context [link_rx_on ?t] => rewrite H
  | H : delays _ ?t = _ |- context [delays _ ?t] => rewrite H
  end;
  try (done || lia || (intros; split_and?; (done || congruence || lia)) || tauto || (intuition (congruence || lia))).

Lemma schedule_sed_recovery_spec Q s t :
  si_inv s (obs t) → (∀ s' t', si_inv s' (obs t') → Q tt s' t') → wp schedule_sed_recovery Q s t.
Proof.
  intros H HQ. unfold schedule_sed_recovery, abandon_sed_recovery. repeat wp_step; apply HQ; tests.
  - destruct H. close_inv.
  - done.
  - assert (Hd : 5 ≤ sed_recovery_delay_seconds (sed_recovery_attempts s) ≤ 20).
    { unfold sed_recovery_delay_seconds. repeat case_match; vm_compute; by split. }
    destruct H. obs_simpl. constructor; cbn; try done. constructor; [lia|done].
Qed.

Lemma si_state_handler_inv m s t :
  si_inv s (obs t) → wp (state_handler cfg sp m) (λ _ s t, si_inv s (obs t)) s t.
Proof.
  intros H. unfold state_handler. wp_step; [apply si_send_response_spec; by intros ? ->|].
  apply si_send_state_response_spec. intros t' Hs. by eapply inv_same_outputs.
Qed.

Lemma si_srp_callback_inv error s t :
  si_inv s (obs t) → wp (srp_client_callback cfg error) (λ _ s t, si_inv s (obs t)) s t.
Proof. intros H. unfold srp_client_callback. repeat wp_step; [| |done]; destruct H; close_inv. Qed.

Lemma si_state_changed_inv s t :
  si_inv s (obs t) → wp (thread_state_changed cfg sp) (λ _ s t, si_inv s (obs t)) s t.
Proof.
  intros H. unfold thread_state_changed, schedule_sed_transition_if_ready. repeat wp_step; destruct H; close_inv.
Qed.

Lemma pm_event_inv to s t :
  si_inv s (obs t) → wp (pm_transition_event to) (λ _ s t, si_inv s (obs t)) s t.
Proof.
  intros H. unfold pm_transition_event. repeat wp_step; try done.
  - apply bool_decide_eq_true in E1. destruct H. constructor; cbn; try done. rewrite length_app. cbn. lia.
  - by destruct H.
Qed.

Lemma si_requested_levels m r :
  requested_redcon sp m = Some r → r = TXING_REDCON_ON ∨ r = TXING_REDCON_OFF.
Proof.
  unfold requested_redcon. destruct (parse_redcon_request sp m) as [q|]; [|done].
  destruct (_ || _) eqn:E; [done|]. intros [= <-]. tests.
  match goal with H : _ && _ = false |- _ => apply andb_false_iff in H as [H|H] end; tests; auto.
Qed.

(** The state REDCON 3 configures the radio in, and its observation. *)
Definition awake (s : si_state) : si_state := set_sleep_requested 0 (set_level TXING_REDCON_ON s).
Definition awake_obs (rx : option bool) (o : observation) : observation :=
  Obs false (ob_recovery o) (Some true) (Some true) rx (ob_locks o) (ob_msgs o) (ob_delays o).

(** The outputs go back to the previous level. *)
Lemma si_rollback_inv m s t t1 rx :
  si_inv s (obs t) → obs t1 = awake_obs rx (obs t) →
  (board_works → cf_link_mode_test cfg = true → redcon_level s = TXING_REDCON_ON → rx = Some true) →
  wp (_ ← set_outputs_for_redcon cfg sp (redcon_level s); send_response sp m OT_COAP_CODE_INTERNAL_ERROR None)
    (λ _ s t, si_inv s (obs t)) (awake s) t1.
Proof.
  intros H Et1 Hrx. wp_step. apply si_set_outputs_spec.
  - intros rc t2 p l Hrc Hw Et2. apply si_send_response_spec. intros t3 ->. rewrite Et2, Et1.
    destruct H. constructor; cbn; auto; try done.
  - intros t2 Et2. apply si_send_response_spec. intros t3 ->. rewrite Et2, Et1.
    destruct H. constructor; cbn; auto; try done.
    intros Hw. split_and!; [done|done|]. intros Hc Hon. destruct (inv_outputs0 Hw) as (_ & _ & Hr).
    split; [by apply Hr|by apply Hrx].
Qed.

Lemma apply_on_spec Q s t :
  (∀ rc t', rc ≠ 0 → obs t' = obs t ∨ obs t' = with_rx (Some true) (obs t) → Q rc s t') →
  (∀ s' t' b, redcon_level s' = redcon_level s → pm_sleep_mode_changes s' = pm_sleep_mode_changes s →
     sed_debug_sleep_transition_requested s' = sed_debug_sleep_transition_requested s →
     sed_debug_receiver_on_requested s' = 1 →
     sed_recovery_attempts s' = 0 ∨ (sed_recovery_attempts s' = sed_recovery_attempts s ∧ b = ob_recovery (obs t)) →
     obs t' = Obs (ob_sleep (obs t)) b (ob_power (obs t)) (ob_led (obs t)) (Some true)
                (ob_locks (obs t)) (ob_msgs (obs t)) (ob_delays (obs t)) → Q 0 s' t') →
  wp (apply_sed_debug_redcon_thread_mode cfg sp TXING_REDCON_ON) Q s t.
Proof.
  intros Hfail Hok. unfold apply_sed_debug_redcon_thread_mode. cbn [Z.eqb TXING_REDCON_ON Pos.eqb].
  do 4 wp_step. wp_step; [wp_step; apply Hfail; [done|by left]|]. do 3 wp_step. apply si_configure_spec.
  intros rc t1 E1. wp_step.
  - tests. do 3 wp_step. replace (set_receiver_requested _ _) with s by (by destruct s). apply Hfail; [done|by right].
  - repeat wp_step; tests.
    + apply (Hok _ _ false); try done; [by left|]. clear Hok Hfail. obs_eqs. congruence.
    + apply (Hok _ _ (ob_recovery (obs t))); try done; auto.
Qed.

Lemma si_redcon_on_inv m s t t1 :
  cf_link_mode_test cfg = true → si_inv s (obs t) → obs t1 = with_pins (Some true) (Some true) (obs t) →
  wp (redcon_link_mode cfg sp m TXING_REDCON_ON (redcon_level s)) (λ _ s t, si_inv s (obs t))
    (set_level TXING_REDCON_ON s) t1.
Proof.
  intros Hc H Et1. unfold redcon_link_mode. cbn [Z.eqb TXING_REDCON_ON Pos.eqb]. do 5 wp_step.
  fold (awake s). assert (Et2 : obs (EWorkCancel sed_debug_redcon_sleep_work :: t1) = awake_obs (ob_rx (obs t)) (obs t)).
  { obs_eqs. unfold awake_obs. cbn. congruence. }
  revert Et2. generalize (EWorkCancel sed_debug_redcon_sleep_work :: t1). intros t2 Et2.
  apply apply_on_spec.
  - intros rc t3 Hrc Et3. rewrite (proj2 (Z.eqb_neq _ _)) by done. cbn [negb].
    destruct Et3 as [Et3|Et3]; rewrite Et2 in Et3; (eapply si_rollback_inv; [done|exact Et3|]); [|done].
    intros Hw _ Hon. by apply (inv_outputs _ _ H Hw).
  - intros s' t3 b E1 E2 E3 E4 E5 Et3. cbn [Z.eqb negb]. apply si_send_state_response_spec. intros t4 Hs.
    pose proof (f_equal ob_recovery Et2) as Er. cbn in Er.
    eapply inv_same_outputs; [exact Hs|]. rewrite Et3, Et2. destruct H. cbn in *.
    constructor; cbn; rewrite ?E1, ?E2, ?E3; try done; unfold SED_RECOVERY_MAX_ATTEMPTS in *; try (destruct E5; lia).
    + intros Hb. destruct E5 as [E5|[E5 ->]]; [lia|]. rewrite E5. rewrite Er in Hb. auto.
Qed.

Lemma same_outputs_schedule ms t1 t2 :
  let e := EWorkSchedule sed_debug_redcon_sleep_work ms in
  same_outputs (obs t1) (obs t2) → same_outputs (obs (e :: t1)) (obs (e :: t2)).
Proof.
  intros e (p & l & E & Hw). subst e. exists p, l. split.
  - clear Hw. obs_eqs. congruence.
  - intros H. specialize (Hw H). clear E. obs_eqs. congruence.
Qed.

Lemma si_redcon_handler_inv m s t :
  si_inv s (obs t) → wp (redcon_handler cfg sp m) (λ _ s t, si_inv s (obs t)) s t.
Proof.
  intros H. unfold redcon_handler. wp_step; [by apply si_send_response_spec; intros ? ->|].
  wp_step; [|by apply si_send_response_spec; intros ? ->]. apply si_requested_levels in E0. do 3 wp_step.
  apply si_set_outputs_spec.
  - intros rc t1 p l Hrc Hw Et1. rewrite (proj2 (Z.eqb_neq _ _)) by done. cbn [negb].
    apply si_send_response_spec. intros t2 ->. rewrite Et1. destruct H. constructor; cbn; try done.
  - intros t1 Et1. cbn [Z.eqb negb]. wp_step.
    + destruct E0 as [-> | ->]; [by apply si_redcon_on_inv with (t := t)|].
      unfold redcon_link_mode. cbn [Z.eqb TXING_REDCON_ON TXING_REDCON_OFF Pos.eqb]. repeat wp_step.
      apply si_send_state_response_spec. intros t2 Hs. wp_step.
      eapply inv_same_outputs; [by apply same_outputs_schedule|]. clear Hs. destruct H. close_inv.
    + apply si_send_state_response_spec. intros t2 Hs. eapply inv_same_outputs; [exact Hs|]. rewrite Et1.
      destruct H. destruct E0 as [-> | ->]; constructor; cbn in *; auto; try done; try congruence.
      * intros _. destruct (pending sed_debug_redcon_sleep_work t); [|done]. by rewrite inv_sleep_build0 in E1.
      * intros _. split_and!; [done|done|congruence].
Qed.

Lemma sleep_work_inv s t :
  si_inv s (obs t) → ob_sleep (obs t) = true →
  wp (sed_debug_redcon_sleep_work_handler cfg sp) (λ _ s t, si_inv s (obs t)) s
    (EWorkRun sed_debug_redcon_sleep_work :: t).
Proof.
  intros H Hs. assert (Hoff : redcon_level s = TXING_REDCON_OFF).
  { destruct (inv_level _ _ H) as [Hon|]; [|done]. by rewrite (inv_on _ _ H Hon) in Hs. }
  unfold sed_debug_redcon_sleep_work_handler, apply_sed_debug_redcon_thread_mode.
  cbn [Z.eqb TXING_REDCON_ON TXING_REDCON_OFF Pos.eqb]. repeat wp_step; tests.
  - destruct H. rewrite Hs in inv_sleep0. congruence.
  - destruct H. close_inv.
  - destruct H. close_inv.
  - apply si_configure_spec. intros rc t1 Et1. repeat wp_step; destruct H; close_inv.
Qed.

Lemma si_sed_transition_inv s t :
  si_inv s (obs t) →
  wp (sed_transition_work_handler cfg sp) (λ _ s t, si_inv s (obs t)) s (EWorkRun sed_transition_work :: t).
Proof.
  intros H. unfold sed_transition_work_handler, reset_recovery. repeat wp_step.
  1-3: destruct H; close_inv.
  assert (Hr : cf_link_mode_test cfg = true → sed_debug_receiver_on_requested s = 0).
  { intros Hc. unfold thread_sed_mode_requested, thread_receiver_on_requested in E. rewrite Hc in E. by tests. }
  clear E. apply si_configure_spec. intros rc t1 Et1. repeat wp_step; destruct H; close_inv.
Qed.

(** A restart in the requested mode keeps the receiver on at REDCON 3. *)
Lemma restart_requested_spec Q s t :
  (∀ rc t' r, obs t' = with_rx r (obs t) →
     (cf_link_mode_test cfg = true → sed_debug_receiver_on_requested s = 1 → ob_rx (obs t) = Some true →
      r = Some true) → Q rc s t') →
  wp (restart_thread_in_requested_mode_locked cfg sp) Q s t.
Proof.
  intros H. unfold restart_thread_in_requested_mode_locked. do 2 wp_step.
  assert (Hsame : ∀ rc t', obs t' = obs t → Q rc s t').
  { intros rc t' E. apply (H rc t' (ob_rx (obs t))); [rewrite E; by destruct (obs t)|done]. }
  wp_step.
  - apply (si_restart_spec true); [intros; by apply si_configure_spec|].
    intros rc t' [E'|E']; [by apply Hsame|by eapply H].
  - apply (si_restart_spec false); [intros; by apply si_configure_spec|].
    intros rc t' [E'|E']; [by apply Hsame|]. eapply H; [exact E'|]. intros Hc Hr. exfalso.
    unfold thread_receiver_on_requested in E. rewrite Hc, Hr in E. done.
Qed.

Lemma si_recovery_work_inv s t :
  si_inv s (obs t) → ob_recovery (obs t) = true →
  wp (sed_recovery_work_handler cfg sp) (λ _ s t, si_inv s (obs t)) s (EWorkRun sed_recovery_work :: t).
Proof.
  intros H Hp. pose proof (inv_retry _ _ H Hp) as Ha.
  unfold sed_recovery_work_handler. repeat wp_step.
  1, 3: destruct H; close_inv.
  - apply schedule_sed_recovery_spec; [|done]. destruct H; close_inv.
  - apply restart_requested_spec. intros rc t1 r Et1 Hr. cbn in Hr. unfold SED_RECOVERY_MAX_ATTEMPTS in Ha.
    repeat wp_step; [|apply schedule_sed_recovery_spec; [|done]]; destruct H; close_inv.
Qed.

Lemma fallback_work_inv s t :
  si_inv s (obs t) →
  wp (sed_fallback_work_handler cfg sp) (λ _ s t, si_inv s (obs t)) s (EWorkRun sed_fallback_work :: t).
Proof.
  intros H. unfold sed_fallback_work_handler, reset_recovery, fall_back_to_bootstrap,
    restart_thread_in_bootstrap_mode_locked. repeat wp_step.
  1, 2, 3, 4: destruct H; close_inv.
  - apply schedule_sed_recovery_spec; [|done]. destruct H; close_inv.
  - apply (si_restart_spec true); [intros; by apply si_configure_spec|].
    intros rc t1 [Et1|Et1]; repeat wp_step; destruct H; close_inv.
Qed.

Lemma si_step_inv x y : si_step x y → si_inv x.1 (obs x.2) → si_inv y.1 (obs y.2).
Proof.
  intros Hs H. destruct Hs as [m s t|m s t|e s t|s t|to s t _|w s t Hp]; apply wp_elim.
  - by apply si_redcon_handler_inv.
  - by apply si_state_handler_inv.
  - by apply si_srp_callback_inv.
  - by apply si_state_changed_inv.
  - by apply pm_event_inv.
  - destruct w; cbn [work_handler].
    5: by apply si_sed_transition_inv. 7: by apply fallback_work_inv. 7: by apply sleep_work_inv.
    7: by apply si_recovery_work_inv.
    7: { unfold pm_transition_log_work_handler. wp_step. destruct H. constructor; cbn in *; try done; lia. }
    all: wp_step; by destruct H.
Qed.

(** ** The start establishes it *)

Lemma si_load_factory_spec Q s t :
  (∀ rc t' f, obs t' = obs t → Q rc (set_factory f s) t') → wp (load_factory_data cfg sp) Q s t.
Proof.
  intros H. assert (Hs : ∀ rc t', obs t' = obs t → Q rc s t').
  { intros rc t' E. pose proof (H rc t' (factory s) E) as Hq. by destruct s. }
  unfold load_factory_data, load_factory_record, flash_read. repeat wp_step; try (by apply Hs).
  by apply H.
Qed.

(** Before the first request: the outputs are off. *)
Definition si_starting (s : si_state) (o : observation) : Prop :=
  redcon_level s = TXING_REDCON_OFF ∧ ob_sleep o = false ∧ ob_recovery o = false ∧ si_inv s o.

Lemma si_init_outputs_inv s t :
  obs t = obs [] → (∃ f, s = set_factory f initial_si_state) →
  wp (init_outputs cfg sp) (λ rc s t, rc = 0 → si_starting s (obs t)) s t.
Proof.
  intros Et [f ->]. unfold init_outputs, gpio_configure. repeat wp_step; tests.
  1-3: intros; unfold ENODEV in *; lia.
  apply si_set_outputs_spec; [done|]. intros t1 Et1 _. unfold si_starting. rewrite Et1.
  assert (Eo : ∀ e1 e2, with_pins (Some false) (Some false)
      (obs ((if Z.eqb (gpio_pin_configure_dt pf e1 (led_gpio cfg)) 0 then EGpioConfigureInactive (led_gpio cfg) else EGpioFailed (led_gpio cfg))
        :: (if Z.eqb (gpio_pin_configure_dt pf e2 (power_gpio cfg)) 0 then EGpioConfigureInactive (power_gpio cfg) else EGpioFailed (power_gpio cfg)) :: t)) =
      with_pins (Some false) (Some false) (obs t)).
  { intros e1 e2. by repeat case_match. }
  change (TXING_REDCON_OFF =? TXING_REDCON_ON) with false. rewrite Eo, Et.
  split_and!; [done|done|done|]. constructor; cbn; auto; try done. unfold PM_SLEEP_MODE_CHANGE_QUEUE_DEPTH. lia.
Qed.

(** What the start sequence may change. *)
Definition start_changes (s s' : si_state) : Prop :=
  redcon_level s' = redcon_level s ∧ pm_sleep_mode_changes s' = pm_sleep_mode_changes s ∧
  (sed_debug_sleep_transition_requested s' = 0 ∨
   sed_debug_sleep_transition_requested s' = sed_debug_sleep_transition_requested s) ∧
  (sed_recovery_attempts s' = 0 ∨ sed_recovery_attempts s' = sed_recovery_attempts s).

Lemma si_starting_same s s' o r : start_changes s s' → si_starting s o → si_starting s' (with_rx r o).
Proof.
  intros (E1 & E2 & E3 & E4) (Hl & Hs & Hr & H). unfold si_starting. cbn. split_and!; [congruence|done|done|].
  destruct H. rewrite Hs in inv_sleep0. unfold SED_RECOVERY_MAX_ATTEMPTS in *.
  constructor; cbn; rewrite ?E1, ?E2, ?Hl, ?Hs, ?Hr; try done.
  - by right.
  - destruct E3; congruence.
  - unfold SED_RECOVERY_MAX_ATTEMPTS. destruct E4; lia.
  - intros Hw. destruct (inv_outputs0 Hw) as (Ho & Hd & _). by rewrite Hl in Ho, Hd.
Qed.

Lemma si_starting_vars s s' o : start_changes s s' → si_starting s o → si_starting s' o.
Proof. intros Hc H. pose proof (si_starting_same s s' o (ob_rx o) Hc H) as H'. by destruct o. Qed.

Lemma si_start_thread_spec Q s t :
  (∀ rc s' t' r, start_changes s s' → obs t' = with_rx r (obs t) → Q rc s' t') →
  wp (start_thread cfg sp) Q s t.
Proof.
  intros H.
  assert (Hc : ∀ s', start_changes s s' → ∀ rc t', obs t' = obs t → Q rc s' t').
  { intros s' Hs rc t' E. apply (H rc s' t' (ob_rx (obs t))); [done|]. rewrite E. by destruct (obs t). }
  unfold start_thread, reset_thread_flags, reset_recovery, configure_thread_bootstrap_mode_locked. repeat wp_step.
  1, 2: apply Hc; [by split_and!; auto|]; obs_simpl; f_equal; lia.
  all: apply si_configure_spec; intros rc t1 Et1; repeat wp_step.
  all: apply H with (r := Some true); [unfold start_changes; cbn; by auto 7|].
  all: clear H Hc; obs_eqs; f_equal; (congruence || lia).
Qed.

Lemma si_start_coap_spec Q s t : (∀ rc t', obs t' = obs t → Q rc s t') → wp (start_coap sp) Q s t.
Proof. intros H. unfold start_coap. repeat wp_step; apply H; obs_simpl; f_equal; lia. Qed.

Lemma si_start_srp_spec Q s t :
  (∀ rc t' a, obs t' = obs t → Q rc (set_host_address a s) t') → wp (start_srp sp) Q s t.
Proof.
  intros H. assert (Hs : ∀ rc t', obs t' = obs t → Q rc s t').
  { intros rc t' E. pose proof (H rc t' (srp_host_address s) E) as Hq. by destruct s. }
  unfold start_srp, set_srp_host_address. repeat wp_step.
  all: first [apply Hs | apply H]; obs_simpl; f_equal; lia.
Qed.

Lemma init_battery_spec Q s t :
  (∀ rc t' v, same_outputs (obs t) (obs t') → Q rc (set_battery_available v s) t') → wp (init_battery cfg sp) Q s t.
Proof.
  intros H. assert (Hs : ∀ rc t', same_outputs (obs t) (obs t') → Q rc s t').
  { intros rc t' E. pose proof (H rc t' (battery_available s) E) as Hq. by destruct s. }
  assert (Hd : ∀ e t', e = EGpioConfigureInactive (battery_enable cfg) ∨ e = EGpioFailed (battery_enable cfg) →
    same_outputs (obs t') (obs (e :: t'))).
  { intros e t' He. exists (pin_level (power_gpio cfg) (e :: t')), (pin_level (led_gpio cfg) (e :: t')).
    destruct_or! He; subst; (split; [by obs_simpl|]); intros (_ & H1 & H2); by obs_simpl. }
  unfold init_battery, adc_power, gpio_configure. repeat wp_step.
  all: first [apply Hs | apply H].
  all: try (apply same_outputs_eq; done).
  all: match goal with |- context [if ?b then EGpioConfigureInactive _ else _] =>
         eapply same_outputs_trans; [apply (Hd (if b then EGpioConfigureInactive (battery_enable cfg)
           else EGpioFailed (battery_enable cfg)) t); destruct b; auto|apply same_outputs_eq; done] end.
Qed.

Lemma si_main_inv :
  wp (main cfg sp) (λ r s t, r = None → si_starting s (obs t)) initial_si_state [].
Proof.
  unfold main, start_services, register_thread_state_logger, register_pm_transition_diagnostics. wp_step.
  apply si_load_factory_spec. intros rc0 t0 f Et0. wp_step.
  eapply wp_mono; [apply si_init_outputs_inv; [done|by eexists]|]. intros rc s t Hi. cbv beta. wp_step; tests; [by wp_step|].
  specialize (Hi E). wp_step. apply init_battery_spec. intros rc1 t1 v Ho. do 2 wp_step. wp_step; [by wp_step|].
  do 4 wp_step. do 2 wp_step.
  assert (Hi1 : si_starting (set_battery_available v s) (obs t1)).
  { destruct Hi as (A & B & C & D). pose proof (inv_same_outputs _ _ _ Ho D) as D'.
    destruct Ho as (p & l & Eo & _). rewrite Eo in *. split_and!; try done. by destruct D'. }
  apply si_start_thread_spec. intros rc2 s2 t2 r Hc Et2.
  assert (Hi2 : si_starting s2 (obs t2)) by (rewrite Et2; by apply (si_starting_same (set_battery_available v s))).
  assert (Hlast : ∀ s' t', start_changes s2 s' → obs t' = obs t2 → si_starting s' (obs t')).
  { intros s' t' Hs' ->. by apply (si_starting_vars s2). }
  assert (Hrefl : start_changes s2 s2) by (split_and!; auto).
  repeat wp_step; try (intros _; apply Hlast; done).
  all: apply si_start_coap_spec; intros rc3 t3 Et3; repeat wp_step; try (intros _; apply Hlast; done).
  all: apply si_start_srp_spec; intros rc4 t4 a Et4; repeat wp_step; intros _; apply Hlast; congruence || done.
Qed.

Lemma si_reachable_inv x : si_reachable x → si_inv x.1 (obs x.2).
Proof.
  induction 1 as [x Hs|x y _ IH Hs]; [|by apply (si_step_inv x)].
  pose proof si_main_inv as Hm. unfold wp in Hm. unfold si_started in Hs. rewrite Hs in Hm. by apply Hm.
Qed.

(** C40: On a power-si board whose GPIO driver does not fail, in every reachable state
    the outputs are on exactly at REDCON 3 and, in the builds where REDCON switches the
    link mode, REDCON 3 has the receiver requested on and last configured on. *)
Theorem si_outputs_and_receiver_follow_redcon x :
  board_works → si_reachable x →
  let '(s, t) := x in
  let on := redcon_level s =? 3 in
  pin_level (power_gpio cfg) t = Some on ∧ pin_level (led_gpio cfg) t = Some on ∧
  (cf_link_mode_test cfg = true → on = true →
     sed_debug_receiver_on_requested s = 1 ∧ link_rx_on t = Some true).
Proof.
  intros Hw Hr. pose proof (si_reachable_inv x Hr) as H. destruct x as [s t].
  destruct (inv_outputs _ _ H Hw) as (Hp & Hl & Hrx). cbn in *. split_and!; [done|done|].
  intros Hc Hon. apply Hrx; [done|]. by apply Z.eqb_eq.
Qed.

(** In every reachable state of the power-si device the retry counter is at most 3, at
    most 2 while a retry is scheduled, and every retry was scheduled 5 to 20 seconds ahead. *)
Theorem si_retries_bounded x :
  si_reachable x →
  let '(s, t) := x in
  0 ≤ sed_recovery_attempts s ≤ 3 ∧
  (pending sed_recovery_work t = true → sed_recovery_attempts s ≤ 2) ∧
  Forall (λ ms, 5000 ≤ ms ≤ 20000) (delays sed_recovery_work t).
Proof.
  intros Hr. pose proof (si_reachable_inv x Hr) as H. destruct x as [s t]. destruct H; cbn in *.
  unfold SED_RECOVERY_MAX_ATTEMPTS in *. split_and!; try done; try lia. intros Hp. specialize (inv_retry0 Hp). lia.
Qed.

(** In every reachable state of the power-si device no lock and no message is held, the
    diagnostics queue has at most 8 entries, the sleep flag says exactly whether the sleep
    work is pending, and no sleep work is pending at REDCON 3. *)
Theorem si_resources_balanced x :
  si_reachable x →
  let '(s, t) := x in
  locks_held t = 0 ∧ messages_held t = 0 ∧ (length (pm_sleep_mode_changes s) ≤ 8)%nat ∧
  sed_debug_sleep_transition_requested s = (if pending sed_debug_redcon_sleep_work t then 1 else 0) ∧
  (redcon_level s = 3 → pending sed_debug_redcon_sleep_work t = false).
Proof. intros Hr. pose proof (si_reachable_inv x Hr) as H. destruct x as [s t]. by destruct H. Qed.
End Safety.
