(* ===== verification/PowerSiFunctions.v ===== *)
(** * Functional behaviour of the power-si operations

    The bounded retries of a lost attachment, the battery divider and its power
    sequence, what a failing LED leaves behind; and the instances of the theorems
    of [PowerSiSafety]. *)
From Stdlib Require Import String.
From S2P Require Import Prelude Zephyr OpenThread PowerSi PowerSiSafety.
#[local] Open Scope Z_scope.

(** ** Retries *)

Section Retries.

Context (cfg : si_config) (sp : si_platform).

(** The stack answers, restarts work, and the device never is a child again. *)
Record link_lost : Prop := {
  ll_build : cf_sed_recovery_test cfg = true;
  ll_instance t : openthread_get_default_instance (ot sp) t = true;
  ll_role t : otThreadGetDeviceRole (ot sp) t ≠ OT_DEVICE_ROLE_CHILD;
  ll_enable t : otThreadSetEnabled (ot sp) t = OT_ERROR_NONE;
  ll_mode t : otThreadSetLinkMode (ot sp) t = OT_ERROR_NONE;
  ll_poll t : otLinkSetPollPeriod (ot sp) t = OT_ERROR_NONE
}.

(** A state in which the device believes it sleeps. *)
Definition sleeping (a : Z) (s : si_state) : Prop :=
  sed_mode_active s ≠ 0 ∧ sed_transition_failed s = 0 ∧ sed_recovery_attempts s = a ∧ sed_recovery_pending s = 0.

(** The fallback check that notices the loss, and the recovery it schedules. *)
Definition noticed (x : si_state * trace) : si_state * trace := final (sed_fallback_work_handler cfg sp x.1 x.2).
Definition retry (x : si_state * trace) : si_state * trace :=
  final (sed_recovery_work_handler cfg sp (noticed x).1 (noticed x).2).

Lemma not_child t b : link_lost → (otThreadGetDeviceRole (ot sp) t =? OT_DEVICE_ROLE_CHILD) && b = false.
Proof. intros H. by rewrite (proj2 (Z.eqb_neq _ _) (ll_role H t)). Qed.

Lemma noticed_schedules a s t :
  link_lost → sleeping a s → a < 3 →
  noticed (s, t) =
    (set_recovery_pending 1 s,
     EWorkSchedule sed_recovery_work (sed_recovery_delay_seconds a * 1000) :: EOtLock false :: EOtLock true :: t).
Proof.
  intros Hl (Ha & Hf & Hn & Hp) Hlt. unfold noticed, final, sed_fallback_work_handler, schedule_sed_recovery.
  unfold mbind, M_bind, get, ask, emit, modify, mret, M_ret. cbn [fst snd].
  rewrite (proj2 (Z.eqb_neq _ _) Ha), Hf. cbn [orb Z.eqb negb]. rewrite (ll_instance Hl). cbn [negb].
  rewrite not_child by done. rewrite (ll_build Hl), Hn. unfold SED_RECOVERY_MAX_ATTEMPTS.
  rewrite (proj2 (Z.leb_gt _ _)) by lia. rewrite Hp. done.
Qed.

Lemma noticed_gives_up s t :
  link_lost → sleeping 3 s →
  noticed (s, t) = (set_recovery_pending 0 (set_transition_failed 1 s), EOtLock false :: EOtLock true :: t).
Proof.
  intros Hl (Ha & Hf & Hn & Hp). unfold noticed, final, sed_fallback_work_handler, schedule_sed_recovery, abandon_sed_recovery.
  unfold mbind, M_bind, get, ask, emit, modify, mret, M_ret. cbn [fst snd].
  rewrite (proj2 (Z.eqb_neq _ _) Ha), Hf. cbn [orb Z.eqb negb]. rewrite (ll_instance Hl). cbn [negb].
  rewrite not_child by done. rewrite (ll_build Hl), Hn. done.
Qed.

Lemma retry_counts a s t :
  link_lost → sleeping a s → a < 3 →
  sleeping (a + 1) (retry (s, t)).1 ∧
  delays sed_recovery_work (retry (s, t)).2 = sed_recovery_delay_seconds a * 1000 :: delays sed_recovery_work t.
Proof.
  intros Hl Hs Hlt. unfold retry. rewrite (noticed_schedules a s t) by done.
  destruct Hs as (Ha & Hf & Hn & Hp). cbn [fst snd].
  unfold sed_recovery_work_handler, restart_thread_in_requested_mode_locked, restart_thread_with_config_locked,
    configure_thread_receiver_on_mode_locked, configure_thread_sed_mode_locked, configure_thread_mtd_mode_locked.
  unfold final, mbind, M_bind, get, ask, emit, modify, call, mret, M_ret.
  cbn [sed_mode_active sed_transition_failed set_recovery_pending].
  rewrite (proj2 (Z.eqb_neq _ _) Ha), Hf. cbn [orb Z.eqb negb]. rewrite (ll_instance Hl). cbn [negb].
  rewrite not_child by done. cbn [negb fst snd].
  destruct (_ && thread_receiver_on_requested _ _);
    repeat (rewrite ?(ll_enable Hl), ?(ll_mode Hl), ?(ll_poll Hl);
            cbn [OT_ERROR_NONE Z.eqb negb andb orb fst snd]).
  all: split; [|done]; unfold sleeping; cbn; by rewrite Hn.
Qed.

(** When the attachment of a sleeping power-si device does not come back, the
    fallback and recovery work items restart Thread three times, after 5, 10 and 20
    seconds, and the next check gives up: the transition is marked failed and nothing is
    scheduled any more. *)
Theorem si_recovery_gives_up_after_three s t :
  link_lost → sleeping 0 s →
  let x := noticed (retry (retry (retry (s, t)))) in
  sed_transition_failed x.1 = 1 ∧ sed_recovery_attempts x.1 = 3 ∧ sed_recovery_pending x.1 = 0 ∧
  delays sed_recovery_work x.2 = [20000; 10000; 5000] ++ delays sed_recovery_work t.
Proof.
  intros Hl Hs x. subst x.
  destruct (retry_counts 0 s t Hl Hs) as [H1 D1]; [lia|]. destruct (retry (s, t)) as [s1 t1]. cbn [fst snd] in *.
  destruct (retry_counts 1 s1 t1 Hl H1) as [H2 D2]; [lia|]. destruct (retry (s1, t1)) as [s2 t2]. cbn [fst snd] in *.
  destruct (retry_counts 2 s2 t2 Hl H2) as [H3 D3]; [lia|]. destruct (retry (s2, t2)) as [s3 t3]. cbn [fst snd] in *.
  rewrite (noticed_gives_up s3 t3) by done. cbn. destruct H3 as (_ & _ & Hn & _). split_and!; try done.
  rewrite D3, D2, D1. done.
Qed.
End Retries.

(** ** Battery divider *)

(** The power state of the converter. *)
Fixpoint adc_powered (t : trace) : option bool :=
  match t with
  | [] => None
  | EAdcPower v :: _ => Some v
  | _ :: t => adc_powered t
  end.

(** A battery sample of the power-si device leaves its variables alone and leaves the
    divider and the converter off whatever the converter answered; without battery support
    it does nothing. *)
Theorem si_battery_sample_powers_down cfg sp s t :
  (∀ t p v, gpio_pin_set_dt (ot sp) t p v = 0) → (∀ t v, pm_device_action_run sp t v = 0) →
  let '(r, s', t') := sample_battery_mv cfg sp s t in
  s' = s ∧ (battery_available s = false → r = None ∧ t' = t) ∧
  (battery_available s = true → pin_level (battery_enable cfg) t' = Some false ∧ adc_powered t' = Some false ∧
     (∀ mv, r = Some mv → in_u 16 mv)).
Proof.
  intros Hg Hp.
  enough (H : wp (sample_battery_mv cfg sp) (λ r s' t',
     s' = s ∧ (battery_available s = false → r = None ∧ t' = t) ∧
     (battery_available s = true → pin_level (battery_enable cfg) t' = Some false ∧ adc_powered t' = Some false ∧
        (∀ mv, r = Some mv → in_u 16 mv))) s t) by exact H.
  unfold sample_battery_mv, divider_reading, adc_power, gpio_set. repeat wp_step; rewrite ?Hp, ?Hg in *; try done.
  1: apply negb_true_iff in E; by rewrite E.
  all: apply negb_false_iff in E; rewrite E; split_and!; try done; intros _; cbn; rewrite bool_decide_eq_true_2 by done.
  all: split_and!; try done. intros mv [= <-]. apply wrapu_in_u. lia.
Qed.

(** ** Outputs *)

(** When the LED cannot be set the power output has changed already, and keeps
    its new level although the call fails and the level stays. *)
Lemma si_led_failure_keeps_power cfg sp level s t :
  power_gpio cfg ≠ led_gpio cfg →
  (∀ t v, gpio_pin_set_dt (ot sp) t (power_gpio cfg) v = 0) →
  (∀ t v, gpio_pin_set_dt (ot sp) t (led_gpio cfg) v ≠ 0) →
  let '(rc, s', t') := set_outputs_for_redcon cfg sp level s t in
  rc ≠ 0 ∧ s' = s ∧ pin_level (power_gpio cfg) t' = Some (level =? 3).
Proof.
  intros Hne Hp Hl.
  enough (H : wp (set_outputs_for_redcon cfg sp level) (λ rc s' t',
    rc ≠ 0 ∧ s' = s ∧ pin_level (power_gpio cfg) t' = Some (level =? 3)) s t) by exact H.
  unfold set_outputs_for_redcon, gpio_set. repeat wp_step; rewrite ?Hp in *; try done.
  - split_and!; [done|done|]. rewrite (proj2 (Z.eqb_neq _ _)) by done. cbn. by rewrite bool_decide_eq_true_2.
  - apply negb_false_iff, Z.eqb_eq in E0. by apply Hl in E0.
Qed.

(** ** Instances: the release build, on and off again *)

Definition release_config : si_config :=
  mk_si_config true true true false true (mk_gpio 1 2) (mk_gpio 0 7) (mk_gpio 3 3).

(** "power-1": header, name, data set and checksum. *)
Definition si_record : list Z :=
  TXT1_MAGIC ++ [1; 7] ++ le_bytes 2 3 ++ le_bytes 2 5683 ++ text "power-1" ++ [0; 3; 15].
Definition si_flash : list Z := si_record ++ le_bytes 4 (crc32_reference si_record).
Definition release_platform (role : Z) : si_platform :=
  mk_si_platform (working_platform si_flash role) true (λ _, 0) (λ _ _, 0) (λ _, (0, 1024)) false (λ _ raw, (0, raw)).
Abbreviation child := (release_platform OT_DEVICE_ROLE_CHILD).

Definition si_started_state : si_state * trace := final (main release_config child initial_si_state []).
Definition si_on : si_state * trace :=
  final (redcon_handler release_config child (put request_on) si_started_state.1 (EOtCallback :: si_started_state.2)).
Definition si_off : si_state * trace :=
  final (redcon_handler release_config child (put request_off) si_on.1 (EOtCallback :: si_on.2)).
Definition si_asleep : si_state * trace :=
  final (work_handler release_config child sed_debug_redcon_sleep_work si_off.1
    (EWorkRun sed_debug_redcon_sleep_work :: si_off.2)).

Lemma reach_si_redcon m x :
  si_reachable release_config child x →
  si_reachable release_config child (final (redcon_handler release_config child m x.1 (EOtCallback :: x.2))).
Proof. destruct x as [s t]. intros H. eapply si_reach_step; [exact H|apply si_redcon]. Qed.

Lemma reach_si_work w x :
  pending w x.2 = true → si_reachable release_config child x →
  si_reachable release_config child (final (work_handler release_config child w x.1 (EWorkRun w :: x.2))).
Proof. destruct x as [s t]. intros Hp H. eapply si_reach_step; [exact H|by apply si_work]. Qed.

Lemma si_on_reachable : si_reachable release_config child si_on.
Proof. apply reach_si_redcon, si_reach_start. unfold si_started. vm_compute. reflexivity. Qed.

Lemma si_asleep_reachable : si_reachable release_config child si_asleep.
Proof. apply reach_si_work; [vm_compute; reflexivity|]. apply reach_si_redcon, si_on_reachable. Qed.

Example si_run :
  redcon_level si_on.1 = 3 ∧ sed_debug_receiver_on_requested si_on.1 = 1 ∧
  redcon_level si_asleep.1 = 4 ∧ sed_debug_receiver_on_requested si_asleep.1 = 0 ∧
  link_rx_on si_asleep.2 = Some false.
Proof. vm_compute. split_and!; reflexivity. Qed.

Lemma si_outputs_and_receiver_follow_redcon_witness :
  let '(s, t) := si_on in
  let on := redcon_level s =? 3 in
  pin_level (mk_gpio 1 2) t = Some on ∧ pin_level (mk_gpio 0 7) t = Some on ∧
  (true = true → on = true → sed_debug_receiver_on_requested s = 1 ∧ link_rx_on t = Some true).
Proof.
  apply (si_outputs_and_receiver_follow_redcon release_config child si_on); [|apply si_on_reachable].
  split; [reflexivity|split; discriminate].
Defined.

Lemma si_retries_bounded_witness :
  let '(s, t) := si_asleep in
  0 ≤ sed_recovery_attempts s ≤ 3 ∧
  (pending sed_recovery_work t = true → sed_recovery_attempts s ≤ 2) ∧
  Forall (λ ms, 5000 ≤ ms ≤ 20000) (delays sed_recovery_work t).
Proof. apply (si_retries_bounded release_config child si_asleep), si_asleep_reachable. Defined.

Lemma si_resources_balanced_witness :
  let '(s, t) := si_asleep in
  locks_held t = 0 ∧ messages_held t = 0 ∧ (length (pm_sleep_mode_changes s) ≤ 8)%nat ∧
  sed_debug_sleep_transition_requested s = (if pending sed_debug_redcon_sleep_work t then 1 else 0) ∧
  (redcon_level s = 3 → pending sed_debug_redcon_sleep_work t = false).
Proof. apply (si_resources_balanced release_config child si_asleep), si_asleep_reachable. Defined.

(** Asleep, and detached from here on. *)
Lemma si_recovery_gives_up_after_three_witness :
  let sp := release_platform 1 in
  let x := noticed release_config sp (retry release_config sp (retry release_config sp
             (retry release_config sp (si_asleep.1, [])))) in
  sed_transition_failed x.1 = 1 ∧ sed_recovery_attempts x.1 = 3 ∧ sed_recovery_pending x.1 = 0 ∧
  delays sed_recovery_work x.2 = [20000; 10000; 5000].
Proof.
  apply (si_recovery_gives_up_after_three release_config (release_platform 1) si_asleep.1 []).
  - split; (reflexivity || discriminate).
  - vm_compute. split_and!; (reflexivity || discriminate).
Defined.

Lemma si_battery_sample_powers_down_witness :
  let '(r, s', t') := sample_battery_mv release_config child si_on.1 si_on.2 in
  s' = si_on.1 ∧ (battery_available si_on.1 = false → r = None ∧ t' = si_on.2) ∧
  (battery_available si_on.1 = true → pin_level (mk_gpio 3 3) t' = Some false ∧ adc_powered t' = Some false ∧
     (∀ mv, r = Some mv → in_u 16 mv)).
Proof. apply (si_battery_sample_powers_down release_config child si_on.1 si_on.2); reflexivity. Defined.
